(* ===== verification/_CoqProject ===== *)
-Q . S2P
Prelude.v
Uapi.v
Kernel.v
Port.v
Hub.v
Object.v
Device.v
Transfer.v
Backend.v
BackendInv.v
BackendOps.v
Hcd.v
HcdSpec.v
UrbSpec.v
FetchSpec.v
Control.v
Frame.v
ControlSpec.v
ModuleSpec.v
Service.v
ServiceSpec.v
CallSpec.v
Config.v
BlockSpec.v
Linux.v
Platform.v
LifeSpec.v
PlatformSpec.v
InitSpec.v
LoadSpec.v
Scenario.v
BackendProps.v
ModuleProps.v
ServiceProps.v
TransferProps.v
ObjectProps.v
TopologyProps.v
HcdProps.v
ControlProps.v
LinuxModel.v
PlatformProps.v
Text.v
Lib.v
LibSpec.v
LibProps.v
Program.v
ProgramSpec.v
Ctl.v
CtlSpec.v
CtlProps.v
TestDevice.v
TestUnregister.v
TestRollback.v
TestSpec.v
AnswerSpec.v
UnregisterSpec.v
RollbackSpec.v
TestProps.v
