(* ===== verification/Prelude.v ===== *)
(** * VirtUSB: a verification of the virtual USB host controller

    VirtUSB is a Linux kernel module that emulates USB host controllers.  A
    program opens /dev/virtusbN, creates virtual devices, attaches them to the
    ports of the root hub, registers itself as the backend of a device and then
    fetches and completes the transfers that the USB core enqueues for it.
    libvirtusb wraps the ioctls; virtusbctl is the command-line tool and three
    test programs are the virtual devices on top.  This library models all of
    these programs, function by function and under the names of the C code, and
    proves them correct.  This file is the root: it holds the documentation and
    the vocabulary that all files share.

    ** How the code is modelled

    - State.  [Kernel.kernel] is the memory of the loaded module: one finite map
      per struct type (ports, hubs, objects, transfers, HCDs, URBs, files), the
      static variables (the object registry with its next ID, the next transfer
      ID) and the trace of the calls into Linux.  A pointer is a key of its map;
      structures embedded in each other share their address, as in C.
      [Linux.system] adds what only load and unload use: the static variables
      of virtusb_module.c and virtusb_control.c and what Linux holds for the
      module.  [Lib.process] puts a user program above the kernel: descriptors,
      handles, errno and what it printed.
    - Programs.  A program that makes several calls is not alone: a
      [Program.site] says what the other users of the module did since the last
      call and what memory the kernel finds in this one.  The loops of the test
      programs wait for the host, so they take the turns ([Program.round]) that
      the host lets them do; [None] as the exit code means that the program is
      still waiting after them.  The test device runs until a signal, which
      comes in a turn or after the last one.
    - Effects.  Every C function is a function in the partial state monad [M] of
      this file.  [None] stands for undefined behaviour: a NULL or freed pointer,
      an index out of range, memory that is allocated twice, a loop that outlives
      its fuel.  Every theorem that says that a call returns is therefore also a
      memory-safety and termination statement; nothing is proved only under the
      assumption that a call returns.
    - Integers are of type Z, with the wrap-around of their C type written out
      ([wrap]); flags and packed words use the bit operations of Z.
    - Linux.  The results of Linux functions (memory, error codes, signals during
      a sleep, contents of user memory) are arguments; a theorem holds for all of
      them, under well-formedness conditions such as [ControlSpec.ioctl_env_wf]:
      new memory is not in use, buffers have the size that Linux documents.  The
      encoding of ioctl numbers and of device numbers ([Uapi.ioctl_encoding],
      [Linux.devt_macros]) are parameters.  The functions that load and unload
      call (USB core, driver core, character devices) are the operations of the
      class [Linux.LinuxCore]; the theorems hold for every instance that obeys the
      documented behaviour [Linux.LinuxLaws].  The laws do not fix which root-hub
      requests the USB core makes while it adds or removes an HCD, nor in which
      order: it keeps what the callbacks of the driver keep.  [LinuxModel] is an
      instance, for the witnesses.  What Linux and the C library document for
      krefs, xarrays, wait queues, file descriptors and the ioctl entry is a
      small definition next to its user.
    - Concurrency.  While a fetch sleeps, other threads run any steps
      ([Backend.sleep]); it looks at the queues again only when they have emitted a
      wake-up of its wait queue, or at a signal ([Backend.wait_event]), and between
      this look and the next critical section nobody else runs.  [BlockSpec] shows
      that the fetch then is a run of the module with the others.  Every other
      call runs to its end as one step, also where the C code enters and leaves
      backend.lock or the lock of the object manager several times; what this
      leaves out is listed below.
    - Fuel.  Loops over lists recurse on them, the loops of the test programs on
      their turns.  The drain loops have one more than the length of both queues
      as fuel, the shutdown of all devices one more than the registered objects,
      the unload loop one more than the created instances, the loops of
      virtusbctl the length of their text or a constant; theorems show that each
      is enough.

    ** The files

    Definitions (one file per component) and what they model under src/:
    - [Uapi]: uapi/include/virtusb_uapi.h, with the C layout of the structures;
    - [Kernel]: the structures of kernel/include/;
    - [Port], [Hub], [Object], [Device], [Transfer], [Backend]: the file
      kernel/src/virtusb_<name>.c (Hub also virtusb_root_hub.c, Object also
      virtusb_object_manager.c), each with its lemmas.  The hub code calls the
      status callback of its owner through a class, whose instance is in [Hcd];
    - [Hcd]: the root-hub requests and URB entry points of virtusb_hcd.c;
    - [Control]: the ioctl handlers and file operations of virtusb_control.c;
    - [Linux], [Platform]: the interface to Linux; the platform driver of
      virtusb_hcd.c, the registration of the control plane and virtusb_module.c,
      with one definition per goto label;
    - [Text], [Lib], [Ctl]: the C library functions that the programs use,
      libvirtusb/src/virtusb.c with virtusb.h, and tools/virtusbctl/main.c;
    - [Program]: what the programs share (printing, arguments, USB constants,
      sites and rounds);
    - [TestDevice], [TestUnregister], [TestRollback]: main.c of
      tools/virtusb-test-device, tools/virtusb-test-backend-unregister and
      tools/virtusb-test-fetch-rollback.  The parts of each main have names: the
      session (from the creation of the device to the label out), run_device,
      the loop, cleanup (the label out).

    Invariants and specifications:
    - [Hub.bus_ok]: the port graph is reciprocal, hub words are in range, a port
      is enabled only with power, a device and its fastest common speed;
      [Object.objects_ok]: registry and reference counts; [BackendInv.backend_inv]:
      queues, bindings, transfers and URBs agree, and every reference is accounted
      for; [ControlSpec.module_ok]: all of it with the HCD records and the files.
    - [BackendOps], [HcdSpec], [UrbSpec], [FetchSpec], [ControlSpec]: what each
      operation does and that it preserves the invariant.
    - [ModuleSpec]: the loaded module as a transition system: [run_call] is a
      call of user space or the USB core, [module_reach] any sequence of them.
    - [Frame]: the class [Framed] of properties that survive the storage of ports,
      hubs and objects, and that therefore all code on them keeps; its lemmas are
      the [frame] hints, which prove an invariant along the structure of a
      function.
    - [Config]: what no call changes (also what an open file refers to), the
      type of registered objects and the use of object IDs; an instance of
      [Framed], proved for every other function.
    - [Service]: the abstract specification of the module: per host controller a
      list of backends, the requests that wait and the requests that a backend has
      taken; eight actions; and what follows for every run of them.
      [ServiceSpec] reads this service off the state ([services_of], a fold of the
      queues with the transfers they point to; the USB core's view is
      [urb_trace]) and shows that each queue operation is an action; [CallSpec]
      that each call is one, made by the caller it belongs to ([authored]), and
      that IDs are unique.
    - [BlockSpec]: a fetch that sleeps while others run.
    - [LifeSpec], [PlatformSpec], [InitSpec], [LoadSpec]: probe, remove, creation
      and destruction of an instance, the loops over the instances, init and exit.
    - [LibSpec], [CtlSpec]: each library function and each command is simulated by
      steps of the module and keeps the tables of the process consistent.
    - [ProgramSpec]: a program logic for programs that others interrupt;
      [TestSpec]: the three test programs in it, up to their mains.
    - [AnswerSpec], [UnregisterSpec], [RollbackSpec]: the exact effect of fetch
      and completion, of unregistering and registering, and of a fetch that
      faults, when nobody interferes within the call, and what the test programs
      make of it.
    - [Scenario], [LinuxModel]: concrete states, reached by evaluation, and a
      concrete Linux, for the witnesses.

    ** What the theorems show

    - [ModuleProps]: every call after every run returns; URBs are conserved;
      reference counts are exact; ports stay consistent; the registry is typed;
      object IDs are never reused.
    - [ServiceProps]: the module refines the abstract service, call by call and
      run by run; every request is submitted, delivered and ended at most once
      and in this order, by those entitled to it; requests of a device reach its
      backend in the order of submission.
    - [BackendProps], [TransferProps]: submission, fetch, rollback, completion,
      cancellation, release and stop, with every result code; no wake-up of a
      sleeping fetch is lost, and the loss of its backend does not end its sleep.
    - [ObjectProps], [TopologyProps]: object IDs, devices, attachment, reset,
      power, speeds.
    - [HcdProps], [ControlProps]: descriptors and status words, agreement of the
      USB view and the ioctl view, dispatch of commands, poll.
    - [PlatformProps]: load and unload leave nothing behind on any path; probe
      and remove; what remove does to files that are still open.
    - [LibProps]: a program on the library refines the module; opening after a
      load; port status end to end; bounds of paths and of transfer data.
    - [CtlProps]: every run of virtusbctl ends, closes what it opened and exits
      with the right status; each command line runs the command it names; numbers
      and speed lists are read back.
    - [TestProps]: the test programs return on every path with the right exit
      status and leave no device and no handle behind; a control URB comes back
      with the answer of the test device; the check of unregistration passes and
      the check of the rollback recovers its transfer.

    ** What is not modelled

    - Messages to the kernel log, module metadata and the tables of function
      pointers.
    - Physical memory: objects of different struct types never overlap;
      alignment and padding matter only for the sizes in [Uapi].
    - Preemption inside a call.  The theorems are about calls that do not overlap,
      apart from sleeping fetches.  In the C code others may run where a call has
      no lock: virtusb_control_transfer_fetch copies to user space between the
      critical sections of the fetch and of the rollback, so that another thread
      on the same file could take a later request before an earlier one is rolled
      back; virtusb_backend_release_owner and virtusb_backend_stop leave
      backend.lock around each giveback, and completion and cancellation give the
      URB back after it; submission wakes the sleepers after it.  The control
      handlers take no lock for the topology, so two of them that change it at the
      same time are outside the model, as they are outside the contract of
      virtusb_device.h.
    - Completion handlers.  usb_hcd_giveback_urb is an event of the trace.  The
      handler of the URB, which may call the driver again, is not run inside the
      call; what it does is a later call.  A URB that was given back keeps its
      record: URBs are not freed.
    - The storage of requests, bindings and file contexts.  They are values in the
      queues, in the list of bindings and in the open file; kmalloc may fail, kfree
      is the removal of the value.  So a use after free of one of them cannot be
      expressed, in contrast to ports, hubs, devices, transfers and host
      controllers, where an access to a freed pointer gets stuck. *)

From stdpp Require Export base tactics numbers list gmap.
From Stdlib Require Export ZArith Lia.

Global Open Scope Z_scope.

#[global] Arguments Z.opp : simpl never.
#[global] Arguments Z.land : simpl never.
#[global] Arguments Z.lor : simpl never.
#[global] Arguments Z.shiftl : simpl never.
#[global] Arguments Z.shiftr : simpl never.
#[global] Arguments Z.modulo : simpl never.
#[global] Arguments Z.div : simpl never.
#[global] Arguments Z.add : simpl never.
#[global] Arguments Z.sub : simpl never.
#[global] Arguments Z.mul : simpl never.
#[global] Arguments Z.testbit : simpl never.

(** ** Linux error numbers (include/uapi/asm-generic/errno*.h) *)

Definition EINTR := 4.
Definition EIO := 5.
Definition EBADF := 9.
Definition EAGAIN := 11.
Definition ENOMEM := 12.
Definition EFAULT := 14.
Definition EBUSY := 16.
Definition ENODEV := 19.
Definition EINVAL := 22.
Definition ENOTTY := 25.
Definition ENOSPC := 28.
Definition EPIPE := 32.
Definition ERANGE := 34.
Definition ENOENT := 2.
Definition ENAMETOOLONG := 36.
Definition EIDRM := 43.
Definition EMSGSIZE := 90.
Definition EOPNOTSUPP := 95.
Definition ESHUTDOWN := 108.
Definition EALREADY := 114.
Definition EINPROGRESS := 115.

(** ** Machine integers *)

(** Conversion to an unsigned integer of [w] bits. *)
Definition wrap (w x : Z) : Z := x mod 2 ^ w.
Abbreviation u8 := (wrap 8).
Abbreviation u16 := (wrap 16).
Abbreviation u32 := (wrap 32).
Abbreviation u64 := (wrap 64).

Definition U32_MAX : Z := 2 ^ 32 - 1.

(** [x] is a value of the unsigned type of [w] bits. *)
Definition in_width (w x : Z) : Prop := 0 <= x < 2 ^ w.

(** [BIT(n)] is an [unsigned long] with bit [n] set. *)
Definition BIT (n : Z) : Z := Z.shiftl 1 n.

(** C [~] at width [w]. *)
Definition c_not (w x : Z) : Z := wrap w (Z.lnot x).

(** [(state & BIT(n)) != 0] *)
Definition bit_test (state n : Z) : bool := negb (Z.land state (BIT n) =? 0).
(** [state | BIT(n)] stored back into a [u32]. *)
Definition bit_set (state n : Z) : Z := u32 (Z.lor state (BIT n)).
(** [state & ~BIT(n)] stored back into a [u32]. *)
Definition bit_clear (state n : Z) : Z := u32 (Z.land state (c_not 64 (BIT n))).

(** ** Results of functions that return a pointer or an error code

    [Ok p] is a valid pointer (or a set output parameter); [Err e] is
    [ERR_PTR(e)] (or the negative return value). *)
Inductive result (A : Type) : Type :=
  | Ok (a : A)
  | Err (e : Z).
Arguments Ok {A} a.
Arguments Err {A} e.

(** ** Partial state monad

    [None] is undefined behaviour: the C program dereferences a pointer that
    designates no live object, indexes outside an array, or a loop outlives its
    fuel.  A triple proved with [wp] therefore also shows that none of this
    happens. *)
Definition M (S A : Type) : Type := S -> option (A * S).

Definition ret {S A} (a : A) : M S A := fun s => Some (a, s).
Definition bind {S A B} (m : M S A) (k : A -> M S B) : M S B :=
  fun s => match m s with
           | Some (a, s') => k a s'
           | None => None
           end.
Lemma bind_eq {S A B} (m : M S A) (k : A -> M S B) s a s' : m s = Some (a, s') -> bind m k s = k a s'.
Proof. intros E. unfold bind. by rewrite E. Qed.
Definition stuck {S A} : M S A := fun _ => None.
Definition gets {S A} (f : S -> A) : M S A := fun s => Some (f s, s).
Definition modify {S} (f : S -> S) : M S unit := fun s => Some (tt, f s).

(** Typed heap access: [get] and [set] select the part of the state that holds
    the objects of one struct type. *)
Definition load {S P V} `{Countable P} (get : S -> gmap P V) (p : P) : M S V :=
  fun s => match get s !! p with
           | Some v => Some (v, s)
           | None => None
           end.
Definition store {S P V} `{Countable P} (get : S -> gmap P V)
    (set : gmap P V -> S -> S) (p : P) (v : V) : M S unit :=
  fun s => match get s !! p with
           | Some _ => Some (tt, set (<[p := v]> (get s)) s)
           | None => None
           end.
(** Memory handed out by the allocator is not in use. *)
Definition alloc {S P V} `{Countable P} (get : S -> gmap P V)
    (set : gmap P V -> S -> S) (p : P) (v : V) : M S unit :=
  fun s => match get s !! p with
           | Some _ => None
           | None => Some (tt, set (<[p := v]> (get s)) s)
           end.
Definition free {S P V} `{Countable P} (get : S -> gmap P V)
    (set : gmap P V -> S -> S) (p : P) : M S unit :=
  fun s => match get s !! p with
           | Some _ => Some (tt, set (delete p (get s)) s)
           | None => None
           end.

(** ** Loops

    [for (i = lo; i < hi; ++i) body]; a body that yields [Some r] returns [r]
    from the enclosing function. *)
Fixpoint for_from {S R} (n : nat) (i : Z) (body : Z -> M S (option R)) : M S (option R) :=
  match n with
  | O => ret None
  | Datatypes.S n =>
      bind (body i) (fun r => match r with
                              | Some v => ret (Some v)
                              | None => for_from n (i + 1) body
                              end)
  end.
Definition for_range {S R} (lo hi : Z) (body : Z -> M S (option R)) : M S (option R) :=
  for_from (Z.to_nat (hi - lo)) lo body.

Declare Scope virtusb_scope.
Delimit Scope virtusb_scope with V.
Notation "x <- m ;; k" := (bind m (fun x => k))
  (at level 100, m at next level, right associativity) : virtusb_scope.
Notation "'both' a , b <- m ;; k" := (bind m (fun p => let (a, b) := p in k))
  (at level 100, a name, b name, m at next level, right associativity) : virtusb_scope.
Notation "m ;; k" := (bind m (fun _ => k))
  (at level 100, right associativity) : virtusb_scope.
Global Open Scope virtusb_scope.

(** ** Total-correctness triples *)

Definition wp {S A} (m : M S A) (Q : A -> S -> Prop) (s : S) : Prop :=
  match m s with
  | Some (a, s') => Q a s'
  | None => False
  end.

Section wp.
Context {S : Type}.
Implicit Types s : S.

Lemma wp_ret {A} (a : A) (Q : A -> S -> Prop) s : Q a s -> wp (ret a) Q s.
Proof. done. Qed.

Lemma wp_bind {A B} (m : M S A) (k : A -> M S B) Q s :
  wp m (fun a s' => wp (k a) Q s') s -> wp (bind m k) Q s.
Proof. unfold wp, bind. by destruct (m s) as [[a s']|]. Qed.

Lemma wp_mono {A} (m : M S A) (Q Q' : A -> S -> Prop) s :
  wp m Q s -> (forall a s', Q a s' -> Q' a s') -> wp m Q' s.
Proof. unfold wp. destruct (m s) as [[a s']|]; auto. Qed.

(** A call whose result is already known. *)
Lemma wp_eq {A} (m : M S A) a s' (Q : A -> S -> Prop) s :
  m s = Some (a, s') -> Q a s' -> wp m Q s.
Proof. unfold wp. by intros ->. Qed.

Lemma wp_inv {A} (m : M S A) (Q : A -> S -> Prop) s :
  wp m Q s -> exists a s', m s = Some (a, s') /\ Q a s'.
Proof. unfold wp. destruct (m s) as [[a s']|]; [eauto | done]. Qed.

Lemma wp_gets {A} (f : S -> A) (Q : A -> S -> Prop) s : Q (f s) s -> wp (gets f) Q s.
Proof. done. Qed.

Lemma wp_modify (f : S -> S) (Q : unit -> S -> Prop) s : Q tt (f s) -> wp (modify f) Q s.
Proof. done. Qed.

Context {P V : Type} `{Countable P}.
Variables (get : S -> gmap P V) (set : gmap P V -> S -> S).

Lemma wp_load p v (Q : V -> S -> Prop) s :
  get s !! p = Some v -> Q v s -> wp (load get p) Q s.
Proof. unfold wp, load. by intros ->. Qed.

Lemma wp_store p v w (Q : unit -> S -> Prop) s :
  get s !! p = Some w -> Q tt (set (<[p := v]> (get s)) s) ->
  wp (store get set p v) Q s.
Proof. unfold wp, store. by intros ->. Qed.

Lemma wp_alloc p v (Q : unit -> S -> Prop) s :
  get s !! p = None -> Q tt (set (<[p := v]> (get s)) s) ->
  wp (alloc get set p v) Q s.
Proof. unfold wp, alloc. by intros ->. Qed.

Lemma wp_free p w (Q : unit -> S -> Prop) s :
  get s !! p = Some w -> Q tt (set (delete p (get s)) s) ->
  wp (free get set p) Q s.
Proof. unfold wp, free. by intros ->. Qed.
End wp.

(** One symbolic step of a monadic program.  Facts about the heap are found in
    the context or in the [heap] hint database. *)
Create HintDb heap.
Ltac wp_step :=
  lazymatch goal with
  | |- wp (bind _ _) _ _ => apply wp_bind
  | |- wp (ret _) _ _ => apply wp_ret
  | |- wp (gets _) _ _ => apply wp_gets
  | |- wp (modify _) _ _ => apply wp_modify
  | |- wp (load _ _) _ _ => eapply wp_load; [solve [eauto with heap] | ]
  | |- wp (store _ _ _ _) _ _ => eapply wp_store; [solve [eauto with heap] | ]
  | |- wp (alloc _ _ _ _) _ _ => eapply wp_alloc; [solve [eauto with heap] | ]
  | |- wp (free _ _ _) _ _ => eapply wp_free; [solve [eauto with heap] | ]
  end.
Ltac wp_steps := repeat (wp_step; cbn beta).

(** Symbolic execution of a function whose heap accesses are known: unfolds the
    monad and rewrites with the lookups and conditions of the context. *)
Ltac run_step :=
  match goal with
  | H : ?m !! ?p = _ |- context [?m !! ?p] => rewrite H
  | |- context [<[?p := _]> _ !! ?p] => rewrite lookup_insert_eq
  | H : ?p <> ?q |- context [<[?p := _]> _ !! ?q] => rewrite (lookup_insert_ne _ p q) by exact H
  | H : ?q <> ?p |- context [<[?p := _]> _ !! ?q] =>
      rewrite (lookup_insert_ne _ p q) by (exact (not_eq_sym H))
  | |- context [- ?e <? 0] => change (- e <? 0) with true
  | |- context [bool_decide ?P] =>
      first [ rewrite (bool_decide_eq_true_2 P) by (congruence || done)
            | rewrite (bool_decide_eq_false_2 P) by (congruence || done || (intros ?; congruence)) ]
  end.
Ltac run :=
  unfold bind, ret, load, store, alloc, free, gets, modify, stuck; cbn;
  repeat (run_step; cbn).

(** ** State invariants of a computation
    Partial correctness: whenever [m] returns, [I] still holds.  Unlike a triple
    this composes without knowledge of the heap. *)
Definition maintains {S A} (I : S -> Prop) (m : M S A) : Prop :=
  forall s a s', I s -> m s = Some (a, s') -> I s'.

Section maintains.
Context {S : Type} (I : S -> Prop).

Lemma maintains_ret {A} (a : A) : maintains I (ret a).
Proof. by intros s ? s' ? [= _ <-]. Qed.

Lemma maintains_stuck {A} : maintains I (@stuck S A).
Proof. by intros s ? s' ?. Qed.

Lemma maintains_bind {A B} (m : M S A) (k : A -> M S B) :
  maintains I m -> (forall a, maintains I (k a)) -> maintains I (bind m k).
Proof.
  intros Hm Hk s b s' Hs. unfold bind. destruct (m s) as [[a s1]|] eqn:E; [ | done].
  intros E'. by apply (Hk a s1 b s'); [apply (Hm s a s1) | ].
Qed.

(** The continuation may use what some state with the invariant holds. *)
Lemma maintains_bind_load {P V B} `{Countable P} (get : S -> gmap P V) (p : P) (k : V -> M S B) :
  (forall v, (exists s, I s /\ get s !! p = Some v) -> maintains I (k v)) ->
  maintains I (bind (load get p) k).
Proof.
  intros Hk s b s' Hs. unfold bind, load. destruct (get s !! p) as [v|] eqn:E; [ | done].
  apply Hk; [by exists s | done].
Qed.

Lemma maintains_gets {A} (f : S -> A) : maintains I (gets f).
Proof. by intros s ? s' ? [= _ <-]. Qed.

Lemma maintains_load {P V} `{Countable P} (get : S -> gmap P V) p : maintains I (load get p).
Proof. intros s a s' Hs. unfold load. by destruct (get s !! p); intros [= _ <-]. Qed.

Lemma maintains_modify f : (forall s, I s -> I (f s)) -> maintains I (modify f).
Proof. intros Hf s a s' Hs [= _ <-]. auto. Qed.

(** [store], [alloc] and [free] change one map. *)
Lemma maintains_store {P V} `{Countable P} (get : S -> gmap P V) set p v :
  (forall s w, I s -> get s !! p = Some w -> I (set (<[p := v]> (get s)) s)) ->
  maintains I (store get set p v).
Proof. intros Hf s a s' Hs. unfold store. destruct (get s !! p) eqn:E; [ | done]. intros [= _ <-]. eauto. Qed.

Lemma maintains_alloc {P V} `{Countable P} (get : S -> gmap P V) set p v :
  (forall s, I s -> get s !! p = None -> I (set (<[p := v]> (get s)) s)) ->
  maintains I (alloc get set p v).
Proof. intros Hf s a s' Hs. unfold alloc. destruct (get s !! p) eqn:E; [done | ]. intros [= _ <-]. eauto. Qed.

Lemma maintains_free {P V} `{Countable P} (get : S -> gmap P V) set p :
  (forall s w, I s -> get s !! p = Some w -> I (set (delete p (get s)) s)) ->
  maintains I (free get set p).
Proof. intros Hf s a s' Hs. unfold free. destruct (get s !! p) eqn:E; [ | done]. intros [= _ <-]. eauto. Qed.

Lemma maintains_for_range {R} lo hi (body : Z -> M S (option R)) :
  (forall i, maintains I (body i)) -> maintains I (for_range lo hi body).
Proof.
  intros Hb. unfold for_range. generalize (Z.to_nat (hi - lo)). intros n. revert lo.
  induction n as [|n IH]; intros lo; cbn; [apply maintains_ret | ].
  apply maintains_bind; [done | ]. intros [r|]; [apply maintains_ret | done].
Qed.
End maintains.

Create HintDb frame.
#[export] Hint Resolve maintains_ret maintains_stuck maintains_gets maintains_load : frame.

(** Proves [maintains I m] along the structure of [m] with the lemmas of the
    [frame] database. *)
Ltac maintain_step :=
  lazymatch goal with
  | |- maintains _ (bind _ _) => apply maintains_bind; [ | intros ?]
  | |- maintains _ (for_range _ _ _) => apply maintains_for_range; intros ?
  | |- maintains _ (match ?x with _ => _ end) => destruct x
  | |- maintains _ (let _ := _ in _) => cbv zeta
  | |- maintains _ _ => solve [auto with frame nocore]
  end.
Ltac maintain := repeat (cbn beta; maintain_step).

(** ** Machine-integer and bit lemmas *)

Lemma wrap_width w x : 0 <= w -> in_width w (wrap w x).
Proof. intros. apply Z.mod_pos_bound. by apply Z.pow_pos_nonneg. Qed.

Lemma wrap_small w x : in_width w x -> wrap w x = x.
Proof. apply Z.mod_small. Qed.

Lemma wrap_testbit w x n : 0 <= w -> 0 <= n -> Z.testbit (wrap w x) n = (n <? w) && Z.testbit x n.
Proof.
  intros Hw Hn. unfold wrap. destruct (Z.ltb_spec n w); cbn.
  - by rewrite Z.mod_pow2_bits_low.
  - by rewrite Z.mod_pow2_bits_high by lia.
Qed.

Lemma BIT_testbit n m : 0 <= n -> Z.testbit (BIT n) m = (n =? m).
Proof.
  intros Hn. unfold BIT. rewrite Z.shiftl_1_l. apply Z.pow2_bits_eqb. lia.
Qed.

Lemma land_BIT state n : 0 <= n ->
  Z.land state (BIT n) = if Z.testbit state n then 2 ^ n else 0.
Proof.
  intros Hn. apply Z.bits_inj'. intros m Hm.
  rewrite Z.land_spec, BIT_testbit by done.
  destruct (Z.eqb_spec n m) as [->|].
  - destruct (Z.testbit state m).
    + by rewrite Z.pow2_bits_true.
    + by rewrite Z.bits_0.
  - rewrite andb_false_r. destruct (Z.testbit state n).
    + by rewrite Z.pow2_bits_false.
    + by rewrite Z.bits_0.
Qed.

(** [(state & BIT(n)) != 0] reads bit [n]. *)
Lemma bit_test_spec state n : 0 <= n -> bit_test state n = Z.testbit state n.
Proof.
  intros Hn. unfold bit_test. rewrite land_BIT by done.
  destruct (Z.testbit state n); [ | done].
  destruct (Z.eqb_spec (2 ^ n) 0) as [E|]; [ | done].
  assert (0 < 2 ^ n) by (by apply Z.pow_pos_nonneg). lia.
Qed.

Lemma bit_set_testbit state n m :
  in_width 32 state -> 0 <= n < 32 -> 0 <= m ->
  Z.testbit (bit_set state n) m = (n =? m) || Z.testbit state m.
Proof.
  intros Hs Hn Hm. unfold bit_set.
  rewrite wrap_testbit, Z.lor_spec, BIT_testbit by lia.
  destruct (Z.ltb_spec m 32); cbn; [by rewrite orb_comm | ].
  destruct (Z.eqb_spec n m); [lia | cbn].
  rewrite <- (wrap_small 32 state Hs), wrap_testbit by lia.
  by destruct (Z.ltb_spec m 32); [lia | ].
Qed.

Lemma bit_clear_testbit state n m :
  in_width 32 state -> 0 <= n < 32 -> 0 <= m ->
  Z.testbit (bit_clear state n) m = negb (n =? m) && Z.testbit state m.
Proof.
  intros Hs Hn Hm. unfold bit_clear, c_not.
  rewrite wrap_testbit, Z.land_spec, wrap_testbit, Z.lnot_spec, BIT_testbit by lia.
  destruct (Z.ltb_spec m 32); cbn.
  - destruct (Z.ltb_spec m 64); [cbn; by rewrite andb_comm | lia].
  - rewrite <- (wrap_small 32 state Hs), wrap_testbit by lia.
    destruct (Z.ltb_spec m 32); [lia | cbn]. by rewrite andb_false_r.
Qed.

Lemma bit_set_width state n : in_width 32 (bit_set state n).
Proof. by apply wrap_width. Qed.
Lemma bit_clear_width state n : in_width 32 (bit_clear state n).
Proof. by apply wrap_width. Qed.

Create HintDb width.
#[export] Hint Resolve wrap_width bit_set_width bit_clear_width : width.

Lemma in_width_testbit_high w x n : 0 <= w <= n -> in_width w x -> Z.testbit x n = false.
Proof.
  intros Hn Hx. rewrite <- (wrap_small w x Hx), wrap_testbit by lia.
  by destruct (Z.ltb_spec n w); [lia | ].
Qed.

(** A finite range is decided by evaluation. *)
Lemma forall_range (P : Z -> bool) (n : Z) :
  forallb P (seqZ 0 n) = true -> forall x, 0 <= x < n -> P x = true.
Proof.
  intros H x Hx. rewrite forallb_forall in H. apply H.
  apply list_elem_of_In, elem_of_seqZ. lia.
Qed.

(** ** Finite maps *)

Lemma alter_insert_lookup {P V} `{Countable P} (m : gmap P V) (p : P) (v : V) (f : V -> V) :
  m !! p = Some v -> alter f p m = <[p := f v]> m.
Proof.
  intros Hp. apply map_eq. intros q. rewrite lookup_alter, lookup_insert.
  case_decide; [subst; by rewrite Hp | done].
Qed.

(** The sum of a weight over the entries of a map. *)
Definition map_sum {P V} `{Countable P} (f : P -> V -> Z) (m : gmap P V) : Z :=
  map_fold (fun p v acc => f p v + acc) 0 m.

Section map_sum.
Context {P V : Type} `{Countable P}.
Implicit Types (f : P -> V -> Z) (m : gmap P V).

Lemma map_sum_empty f : map_sum f ∅ = 0.
Proof. apply map_fold_empty. Qed.

Lemma map_sum_insert f m p v : m !! p = None -> map_sum f (<[p := v]> m) = f p v + map_sum f m.
Proof.
  intros Hp. unfold map_sum.
  apply (map_fold_insert_L (fun p v acc => f p v + acc) 0 p v m); [ | done].
  intros j1 j2 z1 z2 y _ _ _. lia.
Qed.

Lemma map_sum_delete f m p v : m !! p = Some v -> map_sum f (delete p m) = map_sum f m - f p v.
Proof.
  intros Hp. pose proof (map_sum_insert f (delete p m) p v (lookup_delete_eq _ _)) as E.
  rewrite insert_delete_id in E by done. lia.
Qed.

Lemma map_sum_update f m p v w : m !! p = Some v ->
  map_sum f (<[p := w]> m) = map_sum f m - f p v + f p w.
Proof.
  intros Hp. rewrite <- insert_delete_eq, map_sum_insert by apply lookup_delete_eq.
  rewrite (map_sum_delete f m p v) by done. lia.
Qed.

Lemma map_sum_ext f g m : (forall p v, m !! p = Some v -> f p v = g p v) ->
  map_sum f m = map_sum g m.
Proof.
  induction m as [|p v m Hp IH] using map_ind; intros E; [by rewrite !map_sum_empty | ].
  rewrite !map_sum_insert by done. rewrite IH, (E p v); [done | by rewrite lookup_insert_eq | ].
  intros q w Hq. apply E. rewrite lookup_insert_ne; [done | congruence].
Qed.

Lemma map_sum_nonneg f m : (forall p v, m !! p = Some v -> 0 <= f p v) -> 0 <= map_sum f m.
Proof.
  induction m as [|p v m Hp IH] using map_ind; intros E; [by rewrite map_sum_empty | ].
  rewrite map_sum_insert by done.
  assert (0 <= f p v) by (apply E; by rewrite lookup_insert_eq).
  assert (0 <= map_sum f m); [ | lia]. apply IH. intros q w Hq. apply E.
  rewrite lookup_insert_ne; [done | congruence].
Qed.

Lemma map_sum_zero f m : (forall p v, m !! p = Some v -> f p v = 0) -> map_sum f m = 0.
Proof.
  induction m as [|p v m Hp IH] using map_ind; intros E; [apply map_sum_empty | ].
  rewrite map_sum_insert, (E p v) by (done || apply lookup_insert_eq). rewrite IH; [done | ].
  intros q w Hq. apply (E q w). rewrite lookup_insert_ne; [done | congruence].
Qed.

(** One entry is bounded by the sum. *)
Lemma map_sum_le f m p v : (forall q w, m !! q = Some w -> 0 <= f q w) -> m !! p = Some v ->
  f p v <= map_sum f m.
Proof.
  intros E Hp. assert (0 <= map_sum f (delete p m)) as Hn.
  { apply map_sum_nonneg. intros q w. rewrite lookup_delete. case_decide; [done | apply E]. }
  rewrite (map_sum_delete f m p v Hp) in Hn. lia.
Qed.
End map_sum.

(** The number of list elements that satisfy a predicate. *)
Definition count {A} (P : A -> Prop) `{!forall x, Decision (P x)} (l : list A) : Z :=
  Z.of_nat (length (filter P l)).

Section count.
Context {A : Type} (P : A -> Prop) `{!forall x, Decision (P x)}.
Implicit Types l : list A.

Lemma count_nonneg l : 0 <= count P l.
Proof. unfold count. lia. Qed.
Lemma count_nil : count P [] = 0.
Proof. done. Qed.
Lemma count_cons x l : count P (x :: l) = (if decide (P x) then 1 else 0) + count P l.
Proof.
  unfold count. destruct (decide (P x)).
  - rewrite filter_cons_True by done. cbn [length]. lia.
  - by rewrite filter_cons_False.
Qed.
Lemma count_app l1 l2 : count P (l1 ++ l2) = count P l1 + count P l2.
Proof. unfold count. rewrite filter_app, length_app. lia. Qed.
Lemma count_delete l i x : l !! i = Some x ->
  count P (delete i l) = count P l - (if decide (P x) then 1 else 0).
Proof.
  intros Hi. rewrite delete_take_drop. rewrite <- (take_drop_middle l i x Hi) at 3.
  rewrite !count_app, count_cons. lia.
Qed.
Lemma count_pos l x : x ∈ l -> P x -> 1 <= count P l.
Proof.
  intros Hx HP. unfold count.
  assert (x ∈ filter P l) as Hf by (by apply list_elem_of_filter).
  destruct (filter P l); [by apply not_elem_of_nil in Hf | cbn [length]; lia].
Qed.
Lemma count_zero l : (forall x, x ∈ l -> ~ P x) -> count P l = 0.
Proof.
  induction l as [|x l IH]; intros Hl; [done | ]. rewrite count_cons, decide_False.
  - apply IH. intros y Hy. apply Hl. by right.
  - apply Hl. by left.
Qed.
End count.

(** The number of list elements that pass a test. *)
Fixpoint countb {A} (f : A -> bool) (l : list A) : Z :=
  match l with
  | [] => 0
  | x :: l => (if f x then 1 else 0) + countb f l
  end.

Lemma countb_app {A} (f : A -> bool) l1 l2 : countb f (l1 ++ l2) = countb f l1 + countb f l2.
Proof. induction l1 as [|x l1 IH]; cbn; [lia | ]. rewrite IH. lia. Qed.
Lemma countb_zero {A} (f : A -> bool) l : (forall x, x ∈ l -> f x = false) -> countb f l = 0.
Proof.
  induction l as [|x l IH]; intros Hl; [done | ]. cbn. rewrite Hl by by left.
  rewrite IH; [done | ]. intros y Hy. apply Hl. by right.
Qed.

(** ** Lists selected by a test, and deletion *)

Lemma filter_delete {A} (P : A -> Prop) `{!forall x, Decision (P x)} (l : list A) i x :
  l !! i = Some x -> ~ P x -> filter P (delete i l) = filter P l.
Proof.
  intros Hi HP. rewrite delete_take_drop. rewrite <- (take_drop_middle l i x Hi) at 3.
  by rewrite !filter_app, filter_cons_False.
Qed.

Lemma filter_ext_in {A} (f g : A -> bool) (l : list A) : (forall x, x ∈ l -> f x = g x) ->
  filter (fun x => f x = false) l = filter (fun x => g x = false) l.
Proof.
  induction l as [|x l IH]; intros H; [done | ]. rewrite !filter_cons, (H x) by by left.
  rewrite IH by (intros; apply H; by right). done.
Qed.

Lemma list_find_none {A} (f : A -> bool) l : list_find (fun x => f x = true) l = None ->
  filter (fun x => f x = false) l = l.
Proof.
  intros Hn. apply list_find_None in Hn.
  induction Hn as [|x l Hx Hl IH]; [done | ]. apply not_true_is_false in Hx.
  by rewrite filter_cons_True, IH.
Qed.

Lemma filter_true_ext {A} (f g : A -> bool) (l : list A) : (forall x, x ∈ l -> f x = g x) ->
  filter (fun x => f x = true) l = filter (fun x => g x = true) l.
Proof.
  induction l as [|x l IH]; intros H; [done | ]. rewrite !filter_cons, (H x) by by left.
  rewrite IH by (intros; apply H; by right). done.
Qed.

Lemma filter_true_nil {A} (f : A -> bool) l : list_find (fun x => f x = true) l = None ->
  filter (fun x => f x = true) l = [].
Proof.
  intros Hn%list_find_None. induction Hn as [|x l Hx Hl IH]; [done | ].
  by rewrite filter_cons_False.
Qed.

Lemma filter_find {A} (f : A -> bool) (l : list A) i x : list_find (fun x => f x = true) l = Some (i, x) ->
  filter (fun x => f x = true) l = x :: filter (fun x => f x = true) (delete i l).
Proof.
  intros (Hi & Hx & Hfirst)%list_find_Some. rewrite delete_take_drop.
  rewrite <- (take_drop_middle l i x Hi) at 1. rewrite !filter_app, filter_cons_True by done.
  assert (filter (fun x => f x = true) (take i l) = []) as ->; [ | done].
  destruct (filter _ (take i l)) as [|y l'] eqn:E; [done | ].
  assert (y ∈ filter (fun x => f x = true) (take i l)) as [Hy Hin]%list_elem_of_filter by (rewrite E; by left).
  apply list_elem_of_lookup in Hin as [j Hj]. apply lookup_take_Some in Hj as [Hj Hlt].
  by destruct (Hfirst j y Hj Hlt).
Qed.

Lemma map_delete {A C} (f : A -> C) i l : map f (delete i l) = delete i (map f l).
Proof.
  rewrite !delete_take_drop, map_app. by rewrite firstn_map, skipn_map.
Qed.

Lemma elem_of_delete_ne {A} (l : list A) i x y : l !! i = Some y -> x ∈ l -> x <> y ->
  x ∈ delete i l.
Proof.
  intros Hi Hx Hne. rewrite <- (take_drop_middle l i y Hi) in Hx.
  rewrite delete_take_drop. rewrite elem_of_app, elem_of_cons in Hx. rewrite elem_of_app.
  destruct Hx as [?|[?|?]]; [by left | done | by right].
Qed.

Lemma delete_snoc {A} (l : list A) x : delete (length l) (l ++ [x]) = l.
Proof.
  rewrite delete_take_drop, take_app_length, drop_ge; [apply app_nil_r | ].
  rewrite length_app. cbn. lia.
Qed.

Lemma filter_none {A} (P : A -> Prop) `{!forall x, Decision (P x)} (l : list A) :
  (forall x, x ∈ l -> ~ P x) -> filter P l = [].
Proof.
  intros Hl. destruct (filter P l) as [|x l'] eqn:E; [done | ].
  assert (x ∈ filter P l) as [HP Hx]%list_elem_of_filter by (rewrite E; by left).
  by destruct (Hl x Hx).
Qed.

(** Moving the first element that passes a test to the front keeps the order of
    every class that the test respects. *)
Lemma filter_move {A} (P : A -> bool) (l : list A) i x : l !! i = Some x ->
  (P x = true -> forall j y, l !! j = Some y -> (j < i)%nat -> P y = false) ->
  filter (fun y => P y = true) (x :: delete i l) = filter (fun y => P y = true) l.
Proof.
  intros Hi Hf. rewrite <- (take_drop_middle l i x Hi) at 2. rewrite delete_take_drop.
  destruct (P x) eqn:E.
  - rewrite filter_cons_True by done. rewrite !filter_app, filter_cons_True by done.
    rewrite (filter_none _ (take i l)); [done | ]. intros y Hy.
    apply list_elem_of_lookup in Hy as [j Hj]. apply lookup_take_Some in Hj as [Hj Hlt].
    by rewrite (Hf eq_refl j y Hj Hlt).
  - rewrite filter_cons_False by (by rewrite E). rewrite !filter_app, filter_cons_False by (by rewrite E).
    done.
Qed.

(** ** Reference bookkeeping: a function that counts references, changed at one
    pointer. *)

Definition add_ref {P} `{EqDecision P} (p : P) (n : Z) (refs : P -> Z) : P -> Z :=
  fun x => if decide (x = p) then refs x + n else refs x.

Section add_ref.
Context {P : Type} `{EqDecision P}.
Implicit Types (p x : P) (refs : P -> Z).

Lemma add_ref_eq p n refs : add_ref p n refs p = refs p + n.
Proof. unfold add_ref. by rewrite decide_True. Qed.
Lemma add_ref_ne p n refs x : x <> p -> add_ref p n refs x = refs x.
Proof. intros. unfold add_ref. by rewrite decide_False. Qed.
Lemma add_ref_cancel p n refs x : add_ref p (- n) (add_ref p n refs) x = refs x.
Proof. unfold add_ref. destruct (decide _); lia. Qed.
End add_ref.
