(* ===== verification/Uapi.v ===== *)
(** * The user-space API (uapi/include/virtusb_uapi.h)

    Constants, packed-property macros, enumerations, ioctl argument structures
    and ioctl command numbers shared by the kernel module and user space.  The
    encoding macros [_IO], [_IOR], [_IOW] and [_IOWR] belong to Linux and are
    parameters. *)

From S2P Require Import Prelude.

Definition VIRTUSB_OBJECT_ID_INVALID : Z := 0.

(** enum virtusb_object_type *)
Inductive virtusb_object_type :=
  | VIRTUSB_OBJECT_TYPE_INVALID
  | VIRTUSB_OBJECT_TYPE_HCD
  | VIRTUSB_OBJECT_TYPE_ROOT_HUB
  | VIRTUSB_OBJECT_TYPE_HUB
  | VIRTUSB_OBJECT_TYPE_DEVICE.
#[export] Instance virtusb_object_type_eq_dec : EqDecision virtusb_object_type.
Proof. solve_decision. Defined.

Definition object_type_to_Z (t : virtusb_object_type) : Z :=
  match t with
  | VIRTUSB_OBJECT_TYPE_INVALID => 0
  | VIRTUSB_OBJECT_TYPE_HCD => 1
  | VIRTUSB_OBJECT_TYPE_ROOT_HUB => 2
  | VIRTUSB_OBJECT_TYPE_HUB => 3
  | VIRTUSB_OBJECT_TYPE_DEVICE => 4
  end.

Definition VIRTUSB_SPEED_CAP_LOW : Z := Z.shiftl 1 0.
Definition VIRTUSB_SPEED_CAP_FULL : Z := Z.shiftl 1 1.
Definition VIRTUSB_SPEED_CAP_HIGH : Z := Z.shiftl 1 2.
Definition VIRTUSB_SPEED_CAP_ALL : Z :=
  Z.lor (Z.lor VIRTUSB_SPEED_CAP_LOW VIRTUSB_SPEED_CAP_FULL) VIRTUSB_SPEED_CAP_HIGH.

Definition VIRTUSB_ROOT_HUB_ID : Z := 0.
Definition VIRTUSB_MAX_HUB_PORTS : Z := 31.
Definition VIRTUSB_HUB_POSITION_COUNT : Z := VIRTUSB_MAX_HUB_PORTS + 1.

(** ** Packed multi-bit properties *)

Definition VIRTUSB_PACKED_WORD_BITS : Z := 32.
Definition VIRTUSB_PACKED_BITS_VALID (bits : Z) : bool :=
  negb (bits =? 0) && (Z.land bits (bits - 1) =? 0) &&
  (VIRTUSB_PACKED_WORD_BITS mod bits =? 0).
Definition VIRTUSB_PACKED_VALUES_PER_WORD (bits : Z) : Z :=
  VIRTUSB_PACKED_WORD_BITS / bits.
Definition VIRTUSB_PACKED_WORD_COUNT (bits : Z) : Z :=
  (VIRTUSB_HUB_POSITION_COUNT + VIRTUSB_PACKED_VALUES_PER_WORD bits - 1) /
  VIRTUSB_PACKED_VALUES_PER_WORD bits.
Definition VIRTUSB_PACKED_VALUE_MASK (bits : Z) : Z := u32 (Z.shiftl 1 bits - 1).
Definition VIRTUSB_PORT_SPEED_BITS : Z := 2.

(** enum virtusb_port_speed *)
Inductive virtusb_port_speed :=
  | VIRTUSB_PORT_SPEED_NONE
  | VIRTUSB_PORT_SPEED_LOW
  | VIRTUSB_PORT_SPEED_FULL
  | VIRTUSB_PORT_SPEED_HIGH.
#[export] Instance virtusb_port_speed_eq_dec : EqDecision virtusb_port_speed.
Proof. solve_decision. Defined.

(** The cast [(u32)speed]. *)
Definition port_speed_to_Z (s : virtusb_port_speed) : Z :=
  match s with
  | VIRTUSB_PORT_SPEED_NONE => 0
  | VIRTUSB_PORT_SPEED_LOW => 1
  | VIRTUSB_PORT_SPEED_FULL => 2
  | VIRTUSB_PORT_SPEED_HIGH => 3
  end.
(** The cast [(enum virtusb_port_speed)value] of a two-bit value. *)
Definition port_speed_of_Z (v : Z) : virtusb_port_speed :=
  if v =? 1 then VIRTUSB_PORT_SPEED_LOW
  else if v =? 2 then VIRTUSB_PORT_SPEED_FULL
  else if v =? 3 then VIRTUSB_PORT_SPEED_HIGH
  else VIRTUSB_PORT_SPEED_NONE.

(** ** Port status and change flags *)

Definition VIRTUSB_PORT_STATUS_CONNECTED : Z := Z.shiftl 1 0.
Definition VIRTUSB_PORT_STATUS_ENABLED : Z := Z.shiftl 1 1.
Definition VIRTUSB_PORT_STATUS_SUSPENDED : Z := Z.shiftl 1 2.
Definition VIRTUSB_PORT_STATUS_OVER_CURRENT : Z := Z.shiftl 1 3.
Definition VIRTUSB_PORT_STATUS_RESET : Z := Z.shiftl 1 4.
Definition VIRTUSB_PORT_STATUS_POWER : Z := Z.shiftl 1 8.

Definition VIRTUSB_PORT_CHANGE_CONNECTED : Z := Z.shiftl 1 0.
Definition VIRTUSB_PORT_CHANGE_ENABLED : Z := Z.shiftl 1 1.
Definition VIRTUSB_PORT_CHANGE_SUSPENDED : Z := Z.shiftl 1 2.
Definition VIRTUSB_PORT_CHANGE_OVER_CURRENT : Z := Z.shiftl 1 3.
Definition VIRTUSB_PORT_CHANGE_RESET : Z := Z.shiftl 1 4.

(** ** ioctl argument structures *)

Record virtusb_port_state := mk_port_state {
  st_status : Z;
  st_change : Z;
  st_speed : Z;
}.

Record virtusb_port_status := mk_port_status {
  ps_hub_id : Z;
  ps_port : Z;
  ps_port_count : Z;
  ps_state : virtusb_port_state;
  ps_ports : list virtusb_port_state;   (* VIRTUSB_MAX_HUB_PORTS entries *)
}.

Record virtusb_device_create_req := mk_device_create_req {
  dc_speed_caps : Z;
  dc_object_id : Z;
}.

Record virtusb_device_attach_req := mk_device_attach_req {
  da_object_id : Z;
  da_hub_id : Z;
  da_port : Z;
}.

Record virtusb_device_object_req := mk_device_object_req {
  do_object_id : Z;
}.

Record virtusb_backend_register_req := mk_backend_register_req {
  br_object_id : Z;
}.

Record virtusb_device_connection_req := mk_device_connection_req {
  dn_object_id : Z;
  dn_enabled : Z;
}.

Record virtusb_port_power_req := mk_port_power_req {
  pp_hub_id : Z;
  pp_port : Z;
  pp_powered : Z;
}.

Record virtusb_device_destroy_req := mk_device_destroy_req {
  dd_object_id : Z;
  dd_flags : Z;
}.

Definition VIRTUSB_DEVICE_DESTROY_FORCE : Z := Z.shiftl 1 0.
Definition VIRTUSB_DEVICE_DESTROY_FLAGS : Z := VIRTUSB_DEVICE_DESTROY_FORCE.

Definition VIRTUSB_TRANSFER_DATA_MAX : Z := 4096.
Definition VIRTUSB_TRANSFER_SETUP_SIZE : Z := 8.

Definition VIRTUSB_UAPI_TRANSFER_TYPE_CONTROL : Z := 0.
Definition VIRTUSB_UAPI_TRANSFER_TYPE_ISOCHRONOUS : Z := 1.
Definition VIRTUSB_UAPI_TRANSFER_TYPE_BULK : Z := 2.
Definition VIRTUSB_UAPI_TRANSFER_TYPE_INTERRUPT : Z := 3.

Definition VIRTUSB_UAPI_TRANSFER_DIRECTION_OUT : Z := 0.
Definition VIRTUSB_UAPI_TRANSFER_DIRECTION_IN : Z := 1.

Record virtusb_transfer_fetch := mk_transfer_fetch {
  tf_transfer_id : Z;
  tf_object_id : Z;
  tf_type : Z;
  tf_direction : Z;
  tf_endpoint : Z;
  tf_has_setup : Z;
  tf_requested_length : Z;
  tf_data_length : Z;
  tf_setup : list Z;                    (* 8 bytes *)
  tf_data : list Z;                     (* 4096 bytes *)
}.

Record virtusb_transfer_complete_request := mk_transfer_complete_request {
  tc_transfer_id : Z;
  tc_status : Z;
  tc_actual_length : Z;
  tc_data : list Z;                     (* 4096 bytes *)
}.

(** ** Structure sizes

    The natural-alignment layout of C: each field starts at the next multiple of
    its alignment, the size is rounded up to the largest alignment. *)

Definition align_up (off al : Z) : Z := ((off + al - 1) / al) * al.
Fixpoint layout_end (off : Z) (fields : list (Z * Z)) : Z :=
  match fields with
  | [] => off
  | (size, al) :: rest => layout_end (align_up off al + size) rest
  end.
Definition max_align (fields : list (Z * Z)) : Z :=
  fold_right (fun f m => Z.max f.2 m) 1 fields.
Definition struct_size (fields : list (Z * Z)) : Z :=
  align_up (layout_end 0 fields) (max_align fields).

Definition f_u8 : Z * Z := (1, 1).
Definition f_u32 : Z * Z := (4, 4).
Definition f_u64 : Z * Z := (8, 8).
Definition f_array (n : Z) (f : Z * Z) : Z * Z := (n * f.1, f.2).

Definition sizeof_port_state : Z := struct_size [f_u32; f_u32; f_u32].
Definition sizeof_port_status : Z :=
  struct_size [f_u32; f_u32; f_u32; (sizeof_port_state, 4);
               f_array VIRTUSB_MAX_HUB_PORTS (sizeof_port_state, 4)].
Definition sizeof_status_bitmap : Z := struct_size [f_u32; f_u32].
Definition sizeof_speed_map : Z :=
  struct_size [f_u32; f_array (VIRTUSB_PACKED_WORD_COUNT VIRTUSB_PORT_SPEED_BITS) f_u32].
Definition sizeof_device_create : Z := struct_size [f_u32; f_u32].
Definition sizeof_device_attach : Z := struct_size [f_u32; f_u32; f_u32].
Definition sizeof_device_object : Z := struct_size [f_u32].
Definition sizeof_backend_register : Z := struct_size [f_u32].
Definition sizeof_device_connection : Z := struct_size [f_u32; f_u32].
Definition sizeof_port_power : Z := struct_size [f_u32; f_u32; f_u32].
Definition sizeof_device_destroy : Z := struct_size [f_u32; f_u32].
Definition sizeof_transfer_fetch : Z :=
  struct_size [f_u64; f_u32; f_u32; f_u32; f_u32; f_u32; f_u32; f_u32;
               f_array VIRTUSB_TRANSFER_SETUP_SIZE f_u8;
               f_array VIRTUSB_TRANSFER_DATA_MAX f_u8].
Definition sizeof_transfer_complete_request : Z :=
  struct_size [f_u64; f_u32; f_u32; f_array VIRTUSB_TRANSFER_DATA_MAX f_u8].

(** ** ioctl command numbers *)

(** The Linux macros that encode a command number. *)
Record ioctl_encoding := {
  _IO : Z -> Z -> Z;                    (* type nr *)
  _IOR : Z -> Z -> Z -> Z;              (* type nr size *)
  _IOW : Z -> Z -> Z -> Z;
  _IOWR : Z -> Z -> Z -> Z;
}.

Section Ioctl.
Variable enc : ioctl_encoding.

Definition VIRTUSB_IOCTL_MAGIC : Z := 0xB9.

Definition VIRTUSB_IOCTL_GET_PORT_STATUS : Z :=
  _IOWR enc VIRTUSB_IOCTL_MAGIC 0x00 sizeof_port_status.
Definition VIRTUSB_IOCTL_DEVICE_CREATE : Z :=
  _IOWR enc VIRTUSB_IOCTL_MAGIC 0x02 sizeof_device_create.
Definition VIRTUSB_IOCTL_DEVICE_DESTROY : Z :=
  _IOW enc VIRTUSB_IOCTL_MAGIC 0x03 sizeof_device_destroy.
Definition VIRTUSB_IOCTL_DEVICE_ATTACH : Z :=
  _IOW enc VIRTUSB_IOCTL_MAGIC 0x20 sizeof_device_attach.
Definition VIRTUSB_IOCTL_DEVICE_DETACH : Z :=
  _IOW enc VIRTUSB_IOCTL_MAGIC 0x21 sizeof_device_object.
Definition VIRTUSB_IOCTL_DEVICE_CONNECTION : Z :=
  _IOW enc VIRTUSB_IOCTL_MAGIC 0x22 sizeof_device_connection.
Definition VIRTUSB_IOCTL_SET_PORT_POWER : Z :=
  _IOW enc VIRTUSB_IOCTL_MAGIC 0x23 sizeof_port_power.
Definition VIRTUSB_IOCTL_BACKEND_REGISTER : Z :=
  _IOW enc VIRTUSB_IOCTL_MAGIC 0x30 sizeof_backend_register.
Definition VIRTUSB_IOCTL_BACKEND_UNREGISTER : Z :=
  _IO enc VIRTUSB_IOCTL_MAGIC 0x31.
Definition VIRTUSB_IOCTL_TRANSFER_FETCH : Z :=
  _IOR enc VIRTUSB_IOCTL_MAGIC 0x40 sizeof_transfer_fetch.
Definition VIRTUSB_IOCTL_TRANSFER_COMPLETE : Z :=
  _IOW enc VIRTUSB_IOCTL_MAGIC 0x41 sizeof_transfer_complete_request.

Definition VIRTUSB_IOCTL_GET_POWER : Z :=
  _IOWR enc VIRTUSB_IOCTL_MAGIC 0x01 sizeof_status_bitmap.
Definition VIRTUSB_IOCTL_GET_CONNECTED : Z :=
  _IOWR enc VIRTUSB_IOCTL_MAGIC 0x02 sizeof_status_bitmap.
Definition VIRTUSB_IOCTL_GET_ENABLED : Z :=
  _IOWR enc VIRTUSB_IOCTL_MAGIC 0x03 sizeof_status_bitmap.
Definition VIRTUSB_IOCTL_GET_SUSPENDED : Z :=
  _IOWR enc VIRTUSB_IOCTL_MAGIC 0x04 sizeof_status_bitmap.
Definition VIRTUSB_IOCTL_GET_RESET : Z :=
  _IOWR enc VIRTUSB_IOCTL_MAGIC 0x05 sizeof_status_bitmap.
Definition VIRTUSB_IOCTL_GET_OVER_CURRENT : Z :=
  _IOWR enc VIRTUSB_IOCTL_MAGIC 0x06 sizeof_status_bitmap.
Definition VIRTUSB_IOCTL_GET_SPEED : Z :=
  _IOWR enc VIRTUSB_IOCTL_MAGIC 0x07 sizeof_speed_map.
Definition VIRTUSB_IOCTL_SET_OVER_CURRENT : Z :=
  _IOW enc VIRTUSB_IOCTL_MAGIC 0x12 sizeof_status_bitmap.
Definition VIRTUSB_IOCTL_SET_SPEED : Z :=
  _IOW enc VIRTUSB_IOCTL_MAGIC 0x13 sizeof_speed_map.
End Ioctl.
