(* ===== verification/Kernel.v ===== *)
(** * Data model of the kernel module (kernel/include/*.h)

    The structures of the headers as records, typed pointers, and the state of
    the loaded module: one heap per struct type, the static variables of the
    translation units, and the trace of the calls into Linux.

    A structure embedded in another one has the address of its container: a
    [virtusb_device] is its [virtusb_object] (first member) at [d] and its
    upstream port at [DevPort d]; the root hub of the HCD at [h] is the hub at
    [h], with its downstream ports at [HubPort h i]. *)

From S2P Require Import Prelude Uapi.

(** ** Typed addresses *)

Inductive ptr_kind := KObject | KTransfer | KFile | KUrb | KHcd | KUsbDev | KPlatformDev.

Record ptr (k : ptr_kind) := Ptr { addr : positive }.
Arguments Ptr {k} addr.
Arguments addr {k} p.

#[export] Instance ptr_eq_dec k : EqDecision (ptr k).
Proof. solve_decision. Defined.
#[export] Instance ptr_countable k : Countable (ptr k).
Proof. by apply (inj_countable' addr Ptr); intros []. Defined.

Abbreviation obj_ptr := (ptr KObject).        (* struct virtusb_object / virtusb_device *)
Abbreviation transfer_ptr := (ptr KTransfer). (* struct virtusb_transfer *)
Abbreviation file_ptr := (ptr KFile).         (* struct file *)
Abbreviation urb_ptr := (ptr KUrb).           (* struct urb *)
Abbreviation hcd_ptr := (ptr KHcd).           (* struct usb_hcd with its virtusb_hcd *)
Abbreviation hub_ptr := (ptr KHcd).           (* struct virtusb_hub of a root hub *)
Abbreviation usbdev_ptr := (ptr KUsbDev).     (* struct usb_device *)
Abbreviation pdev_ptr := (ptr KPlatformDev).  (* struct platform_device *)

(** struct virtusb_port pointers: an upstream port inside a device or entry
    [index] of the array [ports] of a hub. *)
Inductive port_ptr :=
  | DevPort (d : obj_ptr)
  | HubPort (h : hub_ptr) (index : Z).

#[export] Instance port_ptr_eq_dec : EqDecision port_ptr.
Proof. solve_decision. Defined.
#[export] Instance port_ptr_countable : Countable port_ptr.
Proof.
  apply (inj_countable'
    (fun p => match p with DevPort d => inl d | HubPort h i => inr (h, i) end)
    (fun x => match x with inl d => DevPort d | inr (h, i) => HubPort h i end)).
  by intros [].
Defined.

(** ** virtusb_port.h *)

Definition VIRTUSB_PORT_SPEED_CAP_LOW : Z := Z.shiftl 1 0.
Definition VIRTUSB_PORT_SPEED_CAP_FULL : Z := Z.shiftl 1 1.
Definition VIRTUSB_PORT_SPEED_CAP_HIGH : Z := Z.shiftl 1 2.
Definition VIRTUSB_PORT_SPEED_CAP_ALL : Z :=
  Z.lor (Z.lor VIRTUSB_PORT_SPEED_CAP_LOW VIRTUSB_PORT_SPEED_CAP_FULL)
    VIRTUSB_PORT_SPEED_CAP_HIGH.

Inductive virtusb_port_role :=
  | VIRTUSB_PORT_ROLE_INVALID
  | VIRTUSB_PORT_ROLE_UPSTREAM
  | VIRTUSB_PORT_ROLE_DOWNSTREAM.
#[export] Instance virtusb_port_role_eq_dec : EqDecision virtusb_port_role.
Proof. solve_decision. Defined.

(** The [void *owner] of a port. *)
Inductive owner_ptr :=
  | OwnerDevice (d : obj_ptr)
  | OwnerHub (h : hub_ptr).
#[export] Instance owner_ptr_eq_dec : EqDecision owner_ptr.
Proof. solve_decision. Defined.

(** The union of the role-specific states: [connection_signaling] and [powered]
    are the same byte, [over_current] is the next one. *)
Record virtusb_port_union := mk_port_union {
  pu_byte0 : bool;
  pu_byte1 : bool;
}.
Definition upstream_connection_signaling (u : virtusb_port_union) : bool := pu_byte0 u.
Definition downstream_powered (u : virtusb_port_union) : bool := pu_byte0 u.
Definition downstream_over_current (u : virtusb_port_union) : bool := pu_byte1 u.
Definition set_byte0 (b : bool) (u : virtusb_port_union) : virtusb_port_union :=
  mk_port_union b (pu_byte1 u).
Definition set_byte1 (b : bool) (u : virtusb_port_union) : virtusb_port_union :=
  mk_port_union (pu_byte0 u) b.

Record virtusb_port := mk_port {
  port_role : virtusb_port_role;
  port_owner : option owner_ptr;
  port_speed : Z;
  port_peer : option port_ptr;
  port_state : virtusb_port_union;
}.

Definition zero_port : virtusb_port :=
  mk_port VIRTUSB_PORT_ROLE_INVALID None 0 None (mk_port_union false false).
Definition set_peer (q : option port_ptr) (p : virtusb_port) : virtusb_port :=
  mk_port (port_role p) (port_owner p) (port_speed p) q (port_state p).
Definition set_port_state (u : virtusb_port_union) (p : virtusb_port) : virtusb_port :=
  mk_port (port_role p) (port_owner p) (port_speed p) (port_peer p) u.

(** ** virtusb_hub.h *)

Inductive virtusb_hub_power_switching_mode :=
  | VIRTUSB_HUB_POWER_SWITCHING_GANGED
  | VIRTUSB_HUB_POWER_SWITCHING_INDIVIDUAL.
#[export] Instance power_switching_mode_eq_dec : EqDecision virtusb_hub_power_switching_mode.
Proof. solve_decision. Defined.

Inductive virtusb_hub_over_current_mode :=
  | VIRTUSB_HUB_OVER_CURRENT_GLOBAL
  | VIRTUSB_HUB_OVER_CURRENT_PER_PORT
  | VIRTUSB_HUB_OVER_CURRENT_NONE.
#[export] Instance over_current_mode_eq_dec : EqDecision virtusb_hub_over_current_mode.
Proof. solve_decision. Defined.

(** struct virtusb_hub_port_usb_state *)
Record usb_state := mk_usb_state {
  usb_enabled : Z;
  usb_suspended : Z;
  usb_reset : Z;
  usb_speed : list Z;     (* VIRTUSB_PACKED_WORD_COUNT(VIRTUSB_PORT_SPEED_BITS) words *)
}.
(** struct virtusb_hub_port_usb_change *)
Record usb_change := mk_usb_change {
  ch_connected : Z;
  ch_enabled : Z;
  ch_suspended : Z;
  ch_reset : Z;
  ch_over_current : Z;
}.

(** The functions that are installed as [status_changed] callback. *)
Inductive status_changed_fn := VIRTUSB_HCD_ROOT_HUB_STATUS_CHANGED.
#[export] Instance status_changed_fn_eq_dec : EqDecision status_changed_fn.
Proof. solve_decision. Defined.

Record virtusb_hub := mk_hub {
  hub_port_count : Z;
  hub_power_switching_mode : virtusb_hub_power_switching_mode;
  hub_over_current_mode : virtusb_hub_over_current_mode;
  hub_over_current : bool;
  hub_usb : usb_state;
  hub_change : usb_change;
  hub_status_changed : option status_changed_fn;
  hub_status_changed_context : option hcd_ptr;
}.

Definition zero_usb : usb_state :=
  mk_usb_state 0 0 0
    (replicate (Z.to_nat (VIRTUSB_PACKED_WORD_COUNT VIRTUSB_PORT_SPEED_BITS)) 0).
Definition zero_change : usb_change := mk_usb_change 0 0 0 0 0.
Definition zero_hub : virtusb_hub :=
  mk_hub 0 VIRTUSB_HUB_POWER_SWITCHING_GANGED VIRTUSB_HUB_OVER_CURRENT_GLOBAL false
    zero_usb zero_change None None.

Definition set_hub_usb (u : usb_state) (h : virtusb_hub) : virtusb_hub :=
  mk_hub (hub_port_count h) (hub_power_switching_mode h) (hub_over_current_mode h)
    (hub_over_current h) u (hub_change h) (hub_status_changed h)
    (hub_status_changed_context h).
Definition set_hub_change (c : usb_change) (h : virtusb_hub) : virtusb_hub :=
  mk_hub (hub_port_count h) (hub_power_switching_mode h) (hub_over_current_mode h)
    (hub_over_current h) (hub_usb h) c (hub_status_changed h)
    (hub_status_changed_context h).
Definition set_hub_callback (f : option status_changed_fn) (c : option hcd_ptr)
    (h : virtusb_hub) : virtusb_hub :=
  mk_hub (hub_port_count h) (hub_power_switching_mode h) (hub_over_current_mode h)
    (hub_over_current h) (hub_usb h) (hub_change h) f c.
Definition set_hub_modes (p : virtusb_hub_power_switching_mode)
    (o : virtusb_hub_over_current_mode) (g : bool) (h : virtusb_hub) : virtusb_hub :=
  mk_hub (hub_port_count h) p o g (hub_usb h) (hub_change h) (hub_status_changed h)
    (hub_status_changed_context h).

Definition set_usb_enabled (v : Z) (u : usb_state) : usb_state :=
  mk_usb_state v (usb_suspended u) (usb_reset u) (usb_speed u).
Definition set_usb_suspended (v : Z) (u : usb_state) : usb_state :=
  mk_usb_state (usb_enabled u) v (usb_reset u) (usb_speed u).
Definition set_usb_reset (v : Z) (u : usb_state) : usb_state :=
  mk_usb_state (usb_enabled u) (usb_suspended u) v (usb_speed u).
Definition set_usb_speed (v : list Z) (u : usb_state) : usb_state :=
  mk_usb_state (usb_enabled u) (usb_suspended u) (usb_reset u) v.

Definition set_ch_connected (v : Z) (c : usb_change) : usb_change :=
  mk_usb_change v (ch_enabled c) (ch_suspended c) (ch_reset c) (ch_over_current c).
Definition set_ch_enabled (v : Z) (c : usb_change) : usb_change :=
  mk_usb_change (ch_connected c) v (ch_suspended c) (ch_reset c) (ch_over_current c).
Definition set_ch_suspended (v : Z) (c : usb_change) : usb_change :=
  mk_usb_change (ch_connected c) (ch_enabled c) v (ch_reset c) (ch_over_current c).
Definition set_ch_reset (v : Z) (c : usb_change) : usb_change :=
  mk_usb_change (ch_connected c) (ch_enabled c) (ch_suspended c) v (ch_over_current c).
Definition set_ch_over_current (v : Z) (c : usb_change) : usb_change :=
  mk_usb_change (ch_connected c) (ch_enabled c) (ch_suspended c) (ch_reset c) v.

(** ** virtusb_object.h *)

(** The final-release callbacks of the Core Components. *)
Inductive release_fn := VIRTUSB_DEVICE_RELEASE.
#[export] Instance release_fn_eq_dec : EqDecision release_fn.
Proof. solve_decision. Defined.

Record virtusb_object := mk_object {
  ob_id : Z;
  ob_type : virtusb_object_type;
  ob_refcount : Z;
  ob_release : release_fn;
  ob_registered : bool;
}.
Definition set_ob_refcount (n : Z) (o : virtusb_object) : virtusb_object :=
  mk_object (ob_id o) (ob_type o) n (ob_release o) (ob_registered o).
Definition set_ob_registered (b : bool) (o : virtusb_object) : virtusb_object :=
  mk_object (ob_id o) (ob_type o) (ob_refcount o) (ob_release o) b.
Definition set_ob_identity (id : Z) (t : virtusb_object_type) (b : bool)
    (o : virtusb_object) : virtusb_object :=
  mk_object id t (ob_refcount o) (ob_release o) b.

(** Sizes on a 64-bit target. *)
Definition sizeof_virtusb_object : Z :=
  struct_size [f_u32; (4, 4); (4, 4); (8, 8); (1, 1)].
Definition sizeof_virtusb_port : Z :=
  struct_size [(4, 4); (8, 8); (1, 1); (8, 8); (2, 1)].
Definition sizeof_virtusb_device : Z :=
  struct_size [(sizeof_virtusb_object, 8); (sizeof_virtusb_port, 8)].

(** ** virtusb_transfer.h *)

Inductive virtusb_transfer_type :=
  | VIRTUSB_TRANSFER_TYPE_CONTROL
  | VIRTUSB_TRANSFER_TYPE_ISOCHRONOUS
  | VIRTUSB_TRANSFER_TYPE_BULK
  | VIRTUSB_TRANSFER_TYPE_INTERRUPT.
#[export] Instance virtusb_transfer_type_eq_dec : EqDecision virtusb_transfer_type.
Proof. solve_decision. Defined.
Definition transfer_type_to_Z (t : virtusb_transfer_type) : Z :=
  match t with
  | VIRTUSB_TRANSFER_TYPE_CONTROL => 0
  | VIRTUSB_TRANSFER_TYPE_ISOCHRONOUS => 1
  | VIRTUSB_TRANSFER_TYPE_BULK => 2
  | VIRTUSB_TRANSFER_TYPE_INTERRUPT => 3
  end.

Inductive virtusb_transfer_direction :=
  | VIRTUSB_TRANSFER_DIRECTION_OUT
  | VIRTUSB_TRANSFER_DIRECTION_IN.
#[export] Instance virtusb_transfer_direction_eq_dec : EqDecision virtusb_transfer_direction.
Proof. solve_decision. Defined.
Definition transfer_direction_to_Z (d : virtusb_transfer_direction) : Z :=
  match d with
  | VIRTUSB_TRANSFER_DIRECTION_OUT => 0
  | VIRTUSB_TRANSFER_DIRECTION_IN => 1
  end.

Inductive virtusb_transfer_state :=
  | VIRTUSB_TRANSFER_STATE_NEW
  | VIRTUSB_TRANSFER_STATE_QUEUED
  | VIRTUSB_TRANSFER_STATE_COMPLETED
  | VIRTUSB_TRANSFER_STATE_CANCELLED.
#[export] Instance virtusb_transfer_state_eq_dec : EqDecision virtusb_transfer_state.
Proof. solve_decision. Defined.

(** [buffer] is the kmalloc'ed block ([None] for NULL); its contents are bytes. *)
Record virtusb_transfer := mk_transfer {
  tr_refcount : Z;
  tr_id : Z;
  tr_device : obj_ptr;
  tr_type : virtusb_transfer_type;
  tr_direction : virtusb_transfer_direction;
  tr_state : virtusb_transfer_state;
  tr_endpoint : Z;
  tr_has_setup : bool;
  tr_setup : list Z;
  tr_buffer : option (list Z);
  tr_requested_length : Z;
  tr_actual_length : Z;
  tr_status : Z;
}.
Definition set_tr_refcount (n : Z) (t : virtusb_transfer) : virtusb_transfer :=
  mk_transfer n (tr_id t) (tr_device t) (tr_type t) (tr_direction t) (tr_state t)
    (tr_endpoint t) (tr_has_setup t) (tr_setup t) (tr_buffer t) (tr_requested_length t)
    (tr_actual_length t) (tr_status t).
Definition set_tr_state (x : virtusb_transfer_state) (t : virtusb_transfer) : virtusb_transfer :=
  mk_transfer (tr_refcount t) (tr_id t) (tr_device t) (tr_type t) (tr_direction t) x
    (tr_endpoint t) (tr_has_setup t) (tr_setup t) (tr_buffer t) (tr_requested_length t)
    (tr_actual_length t) (tr_status t).
Definition set_tr_buffer (b : option (list Z)) (t : virtusb_transfer) : virtusb_transfer :=
  mk_transfer (tr_refcount t) (tr_id t) (tr_device t) (tr_type t) (tr_direction t) (tr_state t)
    (tr_endpoint t) (tr_has_setup t) (tr_setup t) b (tr_requested_length t)
    (tr_actual_length t) (tr_status t).
Definition set_tr_result (actual status : Z) (x : virtusb_transfer_state)
    (t : virtusb_transfer) : virtusb_transfer :=
  mk_transfer (tr_refcount t) (tr_id t) (tr_device t) (tr_type t) (tr_direction t) x
    (tr_endpoint t) (tr_has_setup t) (tr_setup t) (tr_buffer t) (tr_requested_length t)
    actual status.

(** ** virtusb_backend.h *)

(** struct virtusb_hcd_request.  The list node is the position of the request
    in the list that holds it. *)
Record virtusb_hcd_request := mk_request {
  rq_urb : urb_ptr;
  rq_transfer : transfer_ptr;
  rq_owner : option file_ptr;
}.

Record virtusb_backend_binding := mk_binding {
  bd_device : obj_ptr;
  bd_owner : file_ptr;
}.

Record virtusb_backend := mk_backend {
  be_bindings : list virtusb_backend_binding;
  be_pending : list virtusb_hcd_request;
  be_active : list virtusb_hcd_request;
  be_stopping : bool;
}.
Definition set_bindings (l : list virtusb_backend_binding) (b : virtusb_backend) : virtusb_backend :=
  mk_backend l (be_pending b) (be_active b) (be_stopping b).
Definition set_queues (p a : list virtusb_hcd_request) (b : virtusb_backend) : virtusb_backend :=
  mk_backend (be_bindings b) p a (be_stopping b).
Definition set_stopping (x : bool) (b : virtusb_backend) : virtusb_backend :=
  mk_backend (be_bindings b) (be_pending b) (be_active b) x.

(** ** virtusb_control.h *)

Record virtusb_control := mk_control {
  ct_hcd : option hcd_ptr;
  ct_devt : Z;
  ct_device : bool;       (* non-NULL [struct device] *)
  ct_active : bool;
}.

(** ** virtusb_hcd.h; the root hub is the hub at the same address *)

Record virtusb_hcd := mk_hcd {
  vh_instance : Z;
  vh_linux_hcd : option hcd_ptr;
  vh_backend : virtusb_backend;
  vh_control : virtusb_control;
}.
Definition set_backend (b : virtusb_backend) (v : virtusb_hcd) : virtusb_hcd :=
  mk_hcd (vh_instance v) (vh_linux_hcd v) b (vh_control v).
Definition set_control (c : virtusb_control) (v : virtusb_hcd) : virtusb_hcd :=
  mk_hcd (vh_instance v) (vh_linux_hcd v) (vh_backend v) c.

(** ** Linux structures, as far as the module reads or writes them *)

(** struct usb_device *)
Record usb_device := mk_usb_device {
  ud_parent : option usbdev_ptr;
  ud_portnum : Z;
}.
(** struct urb; the pipe is given by what [usb_pipetype], [usb_pipein] and
    [usb_pipeendpoint] return for it. *)
Record urb := mk_urb {
  ur_dev : option usb_device;
  ur_pipetype : Z;
  ur_pipein : bool;
  ur_pipeendpoint : Z;
  ur_num_sgs : Z;
  ur_number_of_packets : Z;
  ur_setup_packet : option (list Z);
  ur_transfer_buffer : option (list Z);
  ur_transfer_buffer_length : Z;
  ur_actual_length : Z;
}.
Definition set_ur_buffer (b : option (list Z)) (u : urb) : urb :=
  mk_urb (ur_dev u) (ur_pipetype u) (ur_pipein u) (ur_pipeendpoint u) (ur_num_sgs u)
    (ur_number_of_packets u) (ur_setup_packet u) b (ur_transfer_buffer_length u)
    (ur_actual_length u).
Definition set_ur_actual_length (n : Z) (u : urb) : urb :=
  mk_urb (ur_dev u) (ur_pipetype u) (ur_pipein u) (ur_pipeendpoint u) (ur_num_sgs u)
    (ur_number_of_packets u) (ur_setup_packet u) (ur_transfer_buffer u)
    (ur_transfer_buffer_length u) n.

(** struct usb_hcd: the root hub's usb_device and the transaction-translator flag. *)
Record usb_hcd := mk_usb_hcd {
  uh_root_hub : option usbdev_ptr;
  uh_has_tt : bool;
}.

(** struct file with its virtusb_control_file context; the control plane is
    addressed by its HCD. *)
Record virtusb_control_file := mk_control_file {
  cf_control : option hcd_ptr;
}.
Record file := mk_file {
  fl_private_data : option virtusb_control_file;
  fl_nonblock : bool;
}.

(** ** Calls into Linux, in program order *)

Inductive event :=
  | EvPollRhStatus (hcd : hcd_ptr)                    (* usb_hcd_poll_rh_status *)
  | EvLinkUrb (hcd : hcd_ptr) (u : urb_ptr)           (* usb_hcd_link_urb_to_ep = 0 *)
  | EvUnlinkUrb (hcd : hcd_ptr) (u : urb_ptr)         (* usb_hcd_unlink_urb_from_ep *)
  | EvGiveback (hcd : hcd_ptr) (u : urb_ptr) (status : Z) (* usb_hcd_giveback_urb *)
  | EvWakeUp (hcd : hcd_ptr)                          (* wake_up_interruptible_all *)
  | EvWarn.                                           (* a WARN_ON that fired *)
#[export] Instance event_eq_dec : EqDecision event.
Proof. solve_decision. Defined.

(** ** The state of the loaded module *)

Record kernel := mk_kernel {
  k_ports : gmap port_ptr virtusb_port;
  k_hubs : gmap hub_ptr virtusb_hub;
  k_objects : gmap obj_ptr virtusb_object;
  k_registry : gmap Z obj_ptr;            (* virtusb_objects *)
  k_next_object_id : Z;                   (* virtusb_next_object_id, u64 *)
  k_transfers : gmap transfer_ptr virtusb_transfer;
  k_next_transfer_id : Z;                 (* virtusb_transfer_next_id, s64 *)
  k_hcds : gmap hcd_ptr virtusb_hcd;
  k_usb_hcds : gmap hcd_ptr usb_hcd;
  k_urbs : gmap urb_ptr urb;
  k_files : gmap file_ptr file;
  k_trace : list event;
}.

Definition K (A : Type) : Type := M kernel A.

Definition set_ports x (s : kernel) : kernel :=
  mk_kernel x (k_hubs s) (k_objects s) (k_registry s) (k_next_object_id s) (k_transfers s)
    (k_next_transfer_id s) (k_hcds s) (k_usb_hcds s) (k_urbs s) (k_files s) (k_trace s).
Definition set_hubs x (s : kernel) : kernel :=
  mk_kernel (k_ports s) x (k_objects s) (k_registry s) (k_next_object_id s) (k_transfers s)
    (k_next_transfer_id s) (k_hcds s) (k_usb_hcds s) (k_urbs s) (k_files s) (k_trace s).
Definition set_objects x (s : kernel) : kernel :=
  mk_kernel (k_ports s) (k_hubs s) x (k_registry s) (k_next_object_id s) (k_transfers s)
    (k_next_transfer_id s) (k_hcds s) (k_usb_hcds s) (k_urbs s) (k_files s) (k_trace s).
Definition set_registry x (s : kernel) : kernel :=
  mk_kernel (k_ports s) (k_hubs s) (k_objects s) x (k_next_object_id s) (k_transfers s)
    (k_next_transfer_id s) (k_hcds s) (k_usb_hcds s) (k_urbs s) (k_files s) (k_trace s).
Definition set_next_object_id x (s : kernel) : kernel :=
  mk_kernel (k_ports s) (k_hubs s) (k_objects s) (k_registry s) x (k_transfers s)
    (k_next_transfer_id s) (k_hcds s) (k_usb_hcds s) (k_urbs s) (k_files s) (k_trace s).
Definition set_transfers x (s : kernel) : kernel :=
  mk_kernel (k_ports s) (k_hubs s) (k_objects s) (k_registry s) (k_next_object_id s) x
    (k_next_transfer_id s) (k_hcds s) (k_usb_hcds s) (k_urbs s) (k_files s) (k_trace s).
Definition set_next_transfer_id x (s : kernel) : kernel :=
  mk_kernel (k_ports s) (k_hubs s) (k_objects s) (k_registry s) (k_next_object_id s)
    (k_transfers s) x (k_hcds s) (k_usb_hcds s) (k_urbs s) (k_files s) (k_trace s).
Definition set_hcds x (s : kernel) : kernel :=
  mk_kernel (k_ports s) (k_hubs s) (k_objects s) (k_registry s) (k_next_object_id s)
    (k_transfers s) (k_next_transfer_id s) x (k_usb_hcds s) (k_urbs s) (k_files s) (k_trace s).
Definition set_usb_hcds x (s : kernel) : kernel :=
  mk_kernel (k_ports s) (k_hubs s) (k_objects s) (k_registry s) (k_next_object_id s) (k_transfers s)
    (k_next_transfer_id s) (k_hcds s) x (k_urbs s) (k_files s) (k_trace s).
Definition set_urbs x (s : kernel) : kernel :=
  mk_kernel (k_ports s) (k_hubs s) (k_objects s) (k_registry s) (k_next_object_id s)
    (k_transfers s) (k_next_transfer_id s) (k_hcds s) (k_usb_hcds s) x (k_files s) (k_trace s).
Definition set_files x (s : kernel) : kernel :=
  mk_kernel (k_ports s) (k_hubs s) (k_objects s) (k_registry s) (k_next_object_id s)
    (k_transfers s) (k_next_transfer_id s) (k_hcds s) (k_usb_hcds s) (k_urbs s) x (k_trace s).
Definition set_trace x (s : kernel) : kernel :=
  mk_kernel (k_ports s) (k_hubs s) (k_objects s) (k_registry s) (k_next_object_id s)
    (k_transfers s) (k_next_transfer_id s) (k_hcds s) (k_usb_hcds s) (k_urbs s) (k_files s) x.

Abbreviation load_port := (load k_ports).
Abbreviation store_port := (store k_ports set_ports).
Abbreviation load_hub := (load k_hubs).
Abbreviation store_hub := (store k_hubs set_hubs).
Abbreviation load_object := (load k_objects).
Abbreviation store_object := (store k_objects set_objects).
Abbreviation load_transfer := (load k_transfers).
Abbreviation store_transfer := (store k_transfers set_transfers).
Abbreviation load_hcd := (load k_hcds).
Abbreviation store_hcd := (store k_hcds set_hcds).
Abbreviation load_usb_hcd := (load k_usb_hcds).
Abbreviation store_usb_hcd := (store k_usb_hcds set_usb_hcds).
Abbreviation load_urb := (load k_urbs).
Abbreviation store_urb := (store k_urbs set_urbs).
Abbreviation load_file := (load k_files).
Abbreviation store_file := (store k_files set_files).

Definition emit (e : event) : K unit :=
  modify (fun s => set_trace (k_trace s ++ [e]) s).

(** ** Record equations *)

Lemma set_ports_id (s : kernel) : set_ports (k_ports s) s = s.
Proof. by destruct s. Qed.
Lemma set_ports_twice x y (s : kernel) : set_ports x (set_ports y s) = set_ports x s.
Proof. done. Qed.
Lemma set_hubs_id (s : kernel) : set_hubs (k_hubs s) s = s.
Proof. by destruct s. Qed.
Lemma set_objects_id (s : kernel) : set_objects (k_objects s) s = s.
Proof. by destruct s. Qed.
Lemma set_registry_id (s : kernel) : set_registry (k_registry s) s = s.
Proof. by destruct s. Qed.
Lemma set_transfers_id (s : kernel) : set_transfers (k_transfers s) s = s.
Proof. by destruct s. Qed.
Lemma set_hcds_id (s : kernel) : set_hcds (k_hcds s) s = s.
Proof. by destruct s. Qed.
Lemma set_urbs_id (s : kernel) : set_urbs (k_urbs s) s = s.
Proof. by destruct s. Qed.
Lemma set_peer_id p : set_peer (port_peer p) p = p.
Proof. by destruct p. Qed.
Lemma set_hub_usb_twice u u' h : set_hub_usb u (set_hub_usb u' h) = set_hub_usb u h.
Proof. done. Qed.
Lemma set_trace_id (s : kernel) : set_trace (k_trace s) s = s.
Proof. by destruct s. Qed.
