(* ===== verification/Port.v ===== *)
(** * Ports (kernel/src/virtusb_port.c)

    The operations on one [virtusb_port] and its peer, and the invariant of the
    port graph: attachment is represented by reciprocal peer pointers between a
    downstream and an upstream port. *)

From S2P Require Import Prelude Uapi Kernel.

(** ** Operations *)

Definition virtusb_port_speed_is_valid (speed : Z) : bool :=
  if speed =? 0 then false
  else Z.land speed (u8 (c_not 32 VIRTUSB_PORT_SPEED_CAP_ALL)) =? 0.

Definition virtusb_port_init (port : option port_ptr) (role : virtusb_port_role)
    (speed : Z) (owner : option owner_ptr) : K Z :=
  match port, owner with
  | Some port, Some owner =>
      if bool_decide (role <> VIRTUSB_PORT_ROLE_UPSTREAM) &&
         bool_decide (role <> VIRTUSB_PORT_ROLE_DOWNSTREAM) then ret (- EINVAL)
      else if negb (virtusb_port_speed_is_valid speed) then ret (- EINVAL)
      else
        store_port port
          (mk_port role (Some owner) speed (port_peer zero_port) (port_state zero_port)) ;;
        ret 0
  | _, _ => ret (- EINVAL)
  end.

Definition virtusb_port_attach (downstream upstream : option port_ptr) : K Z :=
  match downstream, upstream with
  | Some downstream, Some upstream =>
      dv <- load_port downstream ;;
      uv <- load_port upstream ;;
      if bool_decide (port_role dv <> VIRTUSB_PORT_ROLE_DOWNSTREAM) ||
         bool_decide (port_role uv <> VIRTUSB_PORT_ROLE_UPSTREAM) then ret (- EINVAL)
      else if bool_decide (port_peer dv <> None) || bool_decide (port_peer uv <> None)
      then ret (- EBUSY)
      else
        store_port downstream (set_peer (Some upstream) dv) ;;
        uv <- load_port upstream ;;
        store_port upstream (set_peer (Some downstream) uv) ;;
        ret 0
  | _, _ => ret (- EINVAL)
  end.

Definition virtusb_port_detach (port : option port_ptr) : K unit :=
  match port with
  | None => ret tt
  | Some port =>
      pv <- load_port port ;;
      match port_peer pv with
      | None => ret tt
      | Some peer =>
          store_port port (set_peer None pv) ;;
          qv <- load_port peer ;;
          if bool_decide (port_peer qv = Some port)
          then store_port peer (set_peer None qv)
          else ret tt
      end
  end.

Definition virtusb_port_is_attached (port : option port_ptr) : K bool :=
  match port with
  | None => ret false
  | Some port => pv <- load_port port ;; ret (bool_decide (port_peer pv <> None))
  end.

Definition virtusb_port_has_vbus (port : option port_ptr) : K bool :=
  match port with
  | None => ret false
  | Some port =>
      pv <- load_port port ;;
      if bool_decide (port_role pv <> VIRTUSB_PORT_ROLE_UPSTREAM) then ret false
      else match port_peer pv with
           | None => ret false
           | Some peer =>
               qv <- load_port peer ;;
               if bool_decide (port_role qv <> VIRTUSB_PORT_ROLE_DOWNSTREAM) then ret false
               else ret (downstream_powered (port_state qv))
           end
  end.

Definition virtusb_port_set_connection_signaling (port : option port_ptr)
    (enabled : bool) : K Z :=
  match port with
  | None => ret (- EINVAL)
  | Some port =>
      pv <- load_port port ;;
      if bool_decide (port_role pv <> VIRTUSB_PORT_ROLE_UPSTREAM) then ret (- EINVAL)
      else store_port port (set_port_state (set_byte0 enabled (port_state pv)) pv) ;;
           ret 0
  end.

Definition virtusb_port_set_powered (port : option port_ptr) (powered : bool) : K Z :=
  match port with
  | None => ret (- EINVAL)
  | Some port =>
      pv <- load_port port ;;
      if bool_decide (port_role pv <> VIRTUSB_PORT_ROLE_DOWNSTREAM) then ret (- EINVAL)
      else store_port port (set_port_state (set_byte0 powered (port_state pv)) pv) ;;
           ret 0
  end.

Definition virtusb_port_set_over_current (port : option port_ptr)
    (over_current : bool) : K Z :=
  match port with
  | None => ret (- EINVAL)
  | Some port =>
      pv <- load_port port ;;
      if bool_decide (port_role pv <> VIRTUSB_PORT_ROLE_DOWNSTREAM) then ret (- EINVAL)
      else store_port port (set_port_state (set_byte1 over_current (port_state pv)) pv) ;;
           ret 0
  end.

#[global] Arguments virtusb_port_speed_is_valid : simpl never.
#[global] Arguments virtusb_port_init : simpl never.
#[global] Arguments virtusb_port_attach : simpl never.
#[global] Arguments virtusb_port_detach : simpl never.
#[global] Arguments virtusb_port_is_attached : simpl never.
#[global] Arguments virtusb_port_has_vbus : simpl never.
#[global] Arguments virtusb_port_set_connection_signaling : simpl never.
#[global] Arguments virtusb_port_set_powered : simpl never.
#[global] Arguments virtusb_port_set_over_current : simpl never.

(** ** The port graph *)

Definition opposite_roles (r r' : virtusb_port_role) : Prop :=
  (r = VIRTUSB_PORT_ROLE_DOWNSTREAM /\ r' = VIRTUSB_PORT_ROLE_UPSTREAM) \/
  (r = VIRTUSB_PORT_ROLE_UPSTREAM /\ r' = VIRTUSB_PORT_ROLE_DOWNSTREAM).

(** Every peer pointer designates a live port of the opposite role that points
    back. *)
Definition ports_reciprocal (m : gmap port_ptr virtusb_port) : Prop :=
  forall p v q, m !! p = Some v -> port_peer v = Some q ->
    exists w, m !! q = Some w /\ port_peer w = Some p /\
      opposite_roles (port_role v) (port_role w).

(** The heap after [virtusb_port_attach] and [virtusb_port_detach]. *)
Definition link_ports (dp up : port_ptr) (dv uv : virtusb_port)
    (m : gmap port_ptr virtusb_port) : gmap port_ptr virtusb_port :=
  <[up := set_peer (Some dp) uv]> (<[dp := set_peer (Some up) dv]> m).
Definition unlink_ports (p q : port_ptr) (pv qv : virtusb_port)
    (m : gmap port_ptr virtusb_port) : gmap port_ptr virtusb_port :=
  <[q := set_peer None qv]> (<[p := set_peer None pv]> m).
Definition update_port (p : port_ptr) (f : virtusb_port -> virtusb_port)
    (m : gmap port_ptr virtusb_port) : gmap port_ptr virtusb_port := alter f p m.

(** ** Functional behaviour *)

(** A speed mask is accepted exactly when it is a non-empty subset of
    low, full and high speed. *)
Lemma speed_is_valid_iff speed : in_width 8 speed ->
  virtusb_port_speed_is_valid speed = true <-> 1 <= speed <= 7.
Proof.
  intros Hs.
  assert (H : eqb (virtusb_port_speed_is_valid speed)
                  ((1 <=? speed) && (speed <=? 7)) = true).
  { revert speed Hs. apply forall_range. by vm_compute. }
  apply eqb_prop in H. rewrite H, andb_true_iff. lia.
Qed.

Section spec.
Context (s : kernel).
Implicit Types dp up p q : port_ptr.

Lemma port_attach_ok dp up dv uv :
  k_ports s !! dp = Some dv -> k_ports s !! up = Some uv ->
  port_role dv = VIRTUSB_PORT_ROLE_DOWNSTREAM -> port_role uv = VIRTUSB_PORT_ROLE_UPSTREAM ->
  port_peer dv = None -> port_peer uv = None ->
  virtusb_port_attach (Some dp) (Some up) s =
    Some (0, set_ports (link_ports dp up dv uv (k_ports s)) s).
Proof.
  intros Hd Hu Rd Ru Pd Pu. assert (dp <> up) by congruence.
  unfold virtusb_port_attach, link_ports. by run.
Qed.

Lemma port_attach_bad_role dp up dv uv :
  k_ports s !! dp = Some dv -> k_ports s !! up = Some uv ->
  ~ (port_role dv = VIRTUSB_PORT_ROLE_DOWNSTREAM /\ port_role uv = VIRTUSB_PORT_ROLE_UPSTREAM) ->
  virtusb_port_attach (Some dp) (Some up) s = Some (- EINVAL, s).
Proof.
  intros Hd Hu Hr. unfold virtusb_port_attach. run.
  repeat case_bool_decide; cbn; try done.
  all: exfalso; tauto.
Qed.

Lemma port_attach_busy dp up dv uv :
  k_ports s !! dp = Some dv -> k_ports s !! up = Some uv ->
  port_role dv = VIRTUSB_PORT_ROLE_DOWNSTREAM -> port_role uv = VIRTUSB_PORT_ROLE_UPSTREAM ->
  port_peer dv <> None \/ port_peer uv <> None ->
  virtusb_port_attach (Some dp) (Some up) s = Some (- EBUSY, s).
Proof.
  intros Hd Hu Rd Ru Hp. unfold virtusb_port_attach. run.
  repeat case_bool_decide; cbn; try done. all: exfalso; tauto.
Qed.

Lemma port_detach_none p pv :
  k_ports s !! p = Some pv -> port_peer pv = None ->
  virtusb_port_detach (Some p) s = Some (tt, s).
Proof. intros Hp Hn. unfold virtusb_port_detach. run. by rewrite Hn. Qed.

Lemma port_detach_ok p q pv qv :
  ports_reciprocal (k_ports s) ->
  k_ports s !! p = Some pv -> port_peer pv = Some q -> k_ports s !! q = Some qv ->
  virtusb_port_detach (Some p) s =
    Some (tt, set_ports (unlink_ports p q pv qv (k_ports s)) s).
Proof.
  intros Hr Hp Hq Hqv. destruct (Hr _ _ _ Hp Hq) as (w & Hw & Hb & Ho).
  simplify_eq. assert (p <> q).
  { intros ->. simplify_eq. destruct Ho as [[-> ?]|[-> ?]]; done. }
  unfold virtusb_port_detach, unlink_ports. run. rewrite Hq. by run.
Qed.

Lemma port_set_connection_signaling_ok p pv b :
  k_ports s !! p = Some pv -> port_role pv = VIRTUSB_PORT_ROLE_UPSTREAM ->
  virtusb_port_set_connection_signaling (Some p) b s =
    Some (0, set_ports (<[p := set_port_state (set_byte0 b (port_state pv)) pv]> (k_ports s)) s).
Proof. intros Hp Hr. unfold virtusb_port_set_connection_signaling. by run. Qed.

Lemma port_set_powered_ok p pv b :
  k_ports s !! p = Some pv -> port_role pv = VIRTUSB_PORT_ROLE_DOWNSTREAM ->
  virtusb_port_set_powered (Some p) b s =
    Some (0, set_ports (<[p := set_port_state (set_byte0 b (port_state pv)) pv]> (k_ports s)) s).
Proof. intros Hp Hr. unfold virtusb_port_set_powered. by run. Qed.

Lemma port_set_over_current_ok p pv b :
  k_ports s !! p = Some pv -> port_role pv = VIRTUSB_PORT_ROLE_DOWNSTREAM ->
  virtusb_port_set_over_current (Some p) b s =
    Some (0, set_ports (<[p := set_port_state (set_byte1 b (port_state pv)) pv]> (k_ports s)) s).
Proof. intros Hp Hr. unfold virtusb_port_set_over_current. by run. Qed.
End spec.

(** ** Preservation of the port graph *)

(** Changes that touch neither roles nor peers keep the graph reciprocal. *)
Lemma reciprocal_update m p pv pv' :
  ports_reciprocal m -> m !! p = Some pv ->
  port_role pv' = port_role pv -> port_peer pv' = port_peer pv ->
  ports_reciprocal (<[p := pv']> m).
Proof.
  intros Hm Hp Hr Hq a v b Ha Hb.
  assert (exists v0, m !! a = Some v0 /\ port_peer v0 = Some b /\ port_role v0 = port_role v)
    as (v0 & Ha0 & Hb0 & Hr0).
  { destruct (decide (p = a)) as [->|]; simplify_map_eq; [ | by eauto].
    exists pv. by rewrite <- Hq, <- Hr. }
  destruct (Hm _ _ _ Ha0 Hb0) as (w & Hw & Hwb & Ho). rewrite Hr0 in Ho.
  destruct (decide (p = b)) as [->|]; simplify_map_eq; [ | by eauto].
  exists pv'. by rewrite Hr, Hq.
Qed.

Lemma reciprocal_link m dp up dv uv :
  ports_reciprocal m -> m !! dp = Some dv -> m !! up = Some uv ->
  port_role dv = VIRTUSB_PORT_ROLE_DOWNSTREAM -> port_role uv = VIRTUSB_PORT_ROLE_UPSTREAM ->
  port_peer dv = None -> port_peer uv = None ->
  ports_reciprocal (link_ports dp up dv uv m).
Proof.
  intros Hm Hd Hu Rd Ru Pd Pu a v b Ha Hb. unfold link_ports in *.
  assert (dp <> up) by congruence.
  destruct (decide (a = up)) as [->|]; simplify_map_eq.
  { eexists. split; [done | ]. split; [done | right]. by split. }
  destruct (decide (a = dp)) as [->|]; simplify_map_eq.
  { eexists. split; [done | ]. split; [done | left]. by split. }
  destruct (Hm _ _ _ Ha Hb) as (w & Hw & Hwb & Ho).
  assert (b <> up) by congruence. assert (b <> dp) by congruence.
  simplify_map_eq. eauto.
Qed.

Lemma reciprocal_unlink m p q pv qv :
  ports_reciprocal m -> m !! p = Some pv -> port_peer pv = Some q -> m !! q = Some qv ->
  ports_reciprocal (unlink_ports p q pv qv m).
Proof.
  intros Hm Hp Hpq Hq a v b Ha Hb. unfold unlink_ports in *.
  destruct (Hm _ _ _ Hp Hpq) as (w & Hw & Hwb & Ho). simplify_eq.
  destruct (decide (a = q)) as [->|]; simplify_map_eq.
  destruct (decide (a = p)) as [->|]; simplify_map_eq.
  destruct (Hm _ _ _ Ha Hb) as (w' & Hw' & Hwb' & Ho').
  assert (b <> q) by congruence.
  assert (b <> p) by congruence.
  simplify_map_eq. eauto.
Qed.

#[export] Hint Resolve reciprocal_update reciprocal_link reciprocal_unlink : heap.

(** Attaching and then detaching either end restores the heap. *)
Lemma unlink_link m dp up dv uv :
  m !! dp = Some dv -> m !! up = Some uv -> dp <> up ->
  port_peer dv = None -> port_peer uv = None ->
  unlink_ports dp up (set_peer (Some up) dv) (set_peer (Some dp) uv) (link_ports dp up dv uv m) = m
  /\ unlink_ports up dp (set_peer (Some dp) uv) (set_peer (Some up) dv) (link_ports dp up dv uv m) = m.
Proof.
  intros Hd Hu Hne Pd Pu. unfold unlink_ports, link_ports.
  destruct dv as [? ? ? ? ?], uv as [? ? ? ? ?]. unfold set_peer in *. cbn in *. subst.
  split; apply map_eq; intros i;
    destruct (decide (i = dp)); destruct (decide (i = up)); simplify_map_eq; done.
Qed.
