(* ===== verification/Hub.v ===== *)
(** * The common hub model (kernel/src/virtusb_hub.c, virtusb_root_hub.c)

    Hardware state lives in the downstream ports, USB protocol state and pending
    changes in the hub.  The status-change callback is a function of another
    component: it enters through the interface [StatusChangedTable], whose law
    says that a notification only adds calls into Linux to the trace. *)

From S2P Require Import Prelude Uapi Kernel Port.

(** ** The notification interface *)

Definition is_notification (e : event) : Prop :=
  match e with EvPollRhStatus _ => True | _ => False end.

Class StatusChangedTable := {
  call_status_changed : status_changed_fn -> hub_ptr -> option hcd_ptr -> K unit;
  status_changed_events : status_changed_fn -> hub_ptr -> option hcd_ptr -> list event;
  call_status_changed_spec : forall f h c s,
    call_status_changed f h c s =
      Some (tt, set_trace (k_trace s ++ status_changed_events f h c) s);
  status_changed_quiet : forall f h c, Forall is_notification (status_changed_events f h c);
}.

Definition update_hub (h : hub_ptr) (f : virtusb_hub -> virtusb_hub) : K unit :=
  hv <- load_hub h ;; store_hub h (f hv).
Definition update_usb (h : hub_ptr) (f : usb_state -> usb_state) : K unit :=
  update_hub h (fun hv => set_hub_usb (f (hub_usb hv)) hv).
Definition update_change (h : hub_ptr) (f : usb_change -> usb_change) : K unit :=
  update_hub h (fun hv => set_hub_change (f (hub_change hv)) hv).

(** ** Operations *)

Section Operations.
Context `{StatusChangedTable}.

Definition virtusb_hub_notify_status_changed (hub : option hub_ptr) : K unit :=
  match hub with
  | None => ret tt
  | Some h =>
      hv <- load_hub h ;;
      match hub_status_changed hv with
      | None => ret tt
      | Some f => call_status_changed f h (hub_status_changed_context hv)
      end
  end.

Definition virtusb_hub_packed_word_index (position bits_per_value : Z) : Z :=
  position / VIRTUSB_PACKED_VALUES_PER_WORD bits_per_value.

Definition virtusb_hub_packed_shift (position bits_per_value : Z) : Z :=
  (position mod VIRTUSB_PACKED_VALUES_PER_WORD bits_per_value) * bits_per_value.

(** One word of the speed map after the two assignments. *)
Definition packed_word_update (word : Z) (shift value : Z) : Z :=
  let mask := u32 (Z.shiftl (VIRTUSB_PACKED_VALUE_MASK VIRTUSB_PORT_SPEED_BITS) shift) in
  Z.lor (Z.land word (c_not 32 mask)) (Z.land (u32 (Z.shiftl value shift)) mask).

Definition virtusb_hub_set_port_speed (hub : hub_ptr) (port_number : Z)
    (speed : virtusb_port_speed) : K unit :=
  let word_index := virtusb_hub_packed_word_index port_number VIRTUSB_PORT_SPEED_BITS in
  let shift := virtusb_hub_packed_shift port_number VIRTUSB_PORT_SPEED_BITS in
  hv <- load_hub hub ;;
  match usb_speed (hub_usb hv) !! Z.to_nat word_index with
  | None => stuck
  | Some word =>
      store_hub hub (set_hub_usb (set_usb_speed
        (<[Z.to_nat word_index := packed_word_update word shift (port_speed_to_Z speed)]>
           (usb_speed (hub_usb hv))) (hub_usb hv)) hv)
  end.

Definition virtusb_hub_port_is_valid (hub : option hub_ptr) (port_number : Z) : K bool :=
  match hub with
  | None => ret false
  | Some h =>
      hv <- load_hub h ;;
      ret ((0 <? port_number) && (port_number <=? hub_port_count hv))
  end.

Definition virtusb_hub_get_port (hub : option hub_ptr) (port_number : Z) : K (option port_ptr) :=
  valid <- virtusb_hub_port_is_valid hub port_number ;;
  if negb valid then ret None
  else match hub with
       | None => stuck
       | Some h => ret (Some (HubPort h (port_number - 1)))
       end.

Definition virtusb_hub_get_port_const (hub : option hub_ptr) (port_number : Z)
    : K (option port_ptr) :=
  valid <- virtusb_hub_port_is_valid hub port_number ;;
  if negb valid then ret None
  else match hub with
       | None => stuck
       | Some h => ret (Some (HubPort h (port_number - 1)))
       end.

Definition virtusb_hub_determine_port_speed (hub : option hub_ptr) (port_number : Z)
    : K virtusb_port_speed :=
  downstream <- virtusb_hub_get_port_const hub port_number ;;
  match downstream with
  | None => ret VIRTUSB_PORT_SPEED_NONE
  | Some downstream =>
      dv <- load_port downstream ;;
      match port_peer dv with
      | None => ret VIRTUSB_PORT_SPEED_NONE
      | Some upstream =>
          uv <- load_port upstream ;;
          if bool_decide (port_role uv <> VIRTUSB_PORT_ROLE_UPSTREAM)
          then ret VIRTUSB_PORT_SPEED_NONE
          else
            let capabilities := u8 (Z.land (port_speed dv) (port_speed uv)) in
            if negb (Z.land capabilities VIRTUSB_PORT_SPEED_CAP_HIGH =? 0)
            then ret VIRTUSB_PORT_SPEED_HIGH
            else if negb (Z.land capabilities VIRTUSB_PORT_SPEED_CAP_FULL =? 0)
            then ret VIRTUSB_PORT_SPEED_FULL
            else if negb (Z.land capabilities VIRTUSB_PORT_SPEED_CAP_LOW =? 0)
            then ret VIRTUSB_PORT_SPEED_LOW
            else ret VIRTUSB_PORT_SPEED_NONE
      end
  end.

(** [memset(hub, 0, sizeof( *hub))], the port array included. *)
Definition memset_hub (h : hub_ptr) : K unit :=
  store_hub h zero_hub ;;
  _ <- for_range 0 VIRTUSB_MAX_HUB_PORTS (fun i =>
    store_port (HubPort h i) zero_port ;; ret (@None unit)) ;;
  ret tt.

Definition virtusb_hub_init (hub : option hub_ptr) (port_count : Z) : K Z :=
  match hub with
  | None => ret (- EINVAL)
  | Some h =>
      if (port_count =? 0) || (VIRTUSB_MAX_HUB_PORTS <? port_count) then ret (- EINVAL)
      else
        memset_hub h ;;
        hv <- load_hub h ;;
        store_hub h (mk_hub (u8 port_count) VIRTUSB_HUB_POWER_SWITCHING_INDIVIDUAL
          VIRTUSB_HUB_OVER_CURRENT_PER_PORT (hub_over_current hv) (hub_usb hv)
          (hub_change hv) (hub_status_changed hv) (hub_status_changed_context hv)) ;;
        r <- for_range 0 port_count (fun port =>
          r <- virtusb_port_init (Some (HubPort h port)) VIRTUSB_PORT_ROLE_DOWNSTREAM
                 (u8 VIRTUSB_PORT_SPEED_CAP_ALL) (Some (OwnerHub h)) ;;
          if r <? 0 then memset_hub h ;; ret (Some r) else ret None) ;;
        match r with
        | Some r => ret r
        | None => ret 0
        end
  end.

Definition virtusb_hub_reset (hub : option hub_ptr) : K unit :=
  match hub with
  | None => ret tt
  | Some h =>
      update_hub h (set_hub_usb zero_usb) ;;
      update_hub h (set_hub_change zero_change)
  end.

Definition virtusb_hub_set_status_changed_callback (hub : option hub_ptr)
    (callback : option status_changed_fn) (context : option hcd_ptr) : K unit :=
  match hub with
  | None => ret tt
  | Some h => update_hub h (set_hub_callback callback context)
  end.

(** The address of the port is compared with the address of each array entry;
    [port_number] is the output parameter, [None] when NULL. *)
Definition virtusb_hub_find_port_number (hub : option hub_ptr) (port : option port_ptr)
    (port_number : option Z) : K (Z * option Z) :=
  match hub, port, port_number with
  | Some h, Some port, Some _ =>
      hv <- load_hub h ;;
      r <- for_range 0 (hub_port_count hv) (fun index =>
        if bool_decide (HubPort h index = port) then ret (Some (index + 1)) else ret None) ;;
      match r with
      | Some n => ret (0, Some n)
      | None => ret (- ENOENT, port_number)
      end
  | _, _, _ => ret (- EINVAL, port_number)
  end.

Definition virtusb_hub_port_is_connected (hub : option hub_ptr) (port_number : Z) : K bool :=
  downstream <- virtusb_hub_get_port_const hub port_number ;;
  match downstream with
  | None => ret false
  | Some downstream =>
      dv <- load_port downstream ;;
      match port_peer dv with
      | None => ret false
      | Some upstream =>
          uv <- load_port upstream ;;
          if bool_decide (port_role uv <> VIRTUSB_PORT_ROLE_UPSTREAM) then ret false
          else if negb (downstream_powered (port_state dv)) then ret false
          else ret (upstream_connection_signaling (port_state uv))
      end
  end.

Definition virtusb_hub_mark_port_connection_change (hub : option hub_ptr)
    (port_number : Z) : K unit :=
  valid <- virtusb_hub_port_is_valid hub port_number ;;
  if negb valid then ret tt
  else match hub with
  | None => stuck
  | Some h =>
      connected <- virtusb_hub_port_is_connected hub port_number ;;
      (if negb connected then
         update_usb h (fun u => set_usb_enabled (bit_clear (usb_enabled u) port_number) u) ;;
         update_usb h (fun u => set_usb_suspended (bit_clear (usb_suspended u) port_number) u) ;;
         update_usb h (fun u => set_usb_reset (bit_clear (usb_reset u) port_number) u) ;;
         virtusb_hub_set_port_speed h port_number VIRTUSB_PORT_SPEED_NONE
       else ret tt) ;;
      hv <- load_hub h ;;
      if bit_test (ch_connected (hub_change hv)) port_number then ret tt
      else
        update_change h (fun c => set_ch_connected (bit_set (ch_connected c) port_number) c) ;;
        virtusb_hub_notify_status_changed hub
  end.

Definition virtusb_hub_reset_port (hub : option hub_ptr) (port_number : Z) : K Z :=
  valid <- virtusb_hub_port_is_valid hub port_number ;;
  if negb valid then ret (- EINVAL)
  else match hub with
  | None => stuck
  | Some h =>
      connected <- virtusb_hub_port_is_connected hub port_number ;;
      if negb connected then ret (- ENODEV)
      else
        speed <- virtusb_hub_determine_port_speed hub port_number ;;
        if bool_decide (speed = VIRTUSB_PORT_SPEED_NONE) then ret (- EOPNOTSUPP)
        else
          update_usb h (fun u => set_usb_enabled (bit_clear (usb_enabled u) port_number) u) ;;
          update_usb h (fun u => set_usb_suspended (bit_clear (usb_suspended u) port_number) u) ;;
          update_usb h (fun u => set_usb_reset (bit_set (usb_reset u) port_number) u) ;;
          virtusb_hub_set_port_speed h port_number speed ;;
          update_usb h (fun u => set_usb_reset (bit_clear (usb_reset u) port_number) u) ;;
          update_usb h (fun u => set_usb_enabled (bit_set (usb_enabled u) port_number) u) ;;
          hv <- load_hub h ;;
          (if negb (bit_test (ch_reset (hub_change hv)) port_number) then
             update_change h (fun c => set_ch_reset (bit_set (ch_reset c) port_number) c) ;;
             virtusb_hub_notify_status_changed hub
           else ret tt) ;;
          ret 0
  end.

(** A mode argument is an integer that may name no enumerator. *)
Definition power_switching_mode_of_Z (mode : Z) : option virtusb_hub_power_switching_mode :=
  if mode =? 0 then Some VIRTUSB_HUB_POWER_SWITCHING_GANGED
  else if mode =? 1 then Some VIRTUSB_HUB_POWER_SWITCHING_INDIVIDUAL
  else None.
Definition over_current_mode_of_Z (mode : Z) : option virtusb_hub_over_current_mode :=
  if mode =? 0 then Some VIRTUSB_HUB_OVER_CURRENT_GLOBAL
  else if mode =? 1 then Some VIRTUSB_HUB_OVER_CURRENT_PER_PORT
  else if mode =? 2 then Some VIRTUSB_HUB_OVER_CURRENT_NONE
  else None.

Definition virtusb_hub_set_power_switching_mode (hub : option hub_ptr) (mode : Z) : K Z :=
  match hub with
  | None => ret (- EINVAL)
  | Some h =>
      match power_switching_mode_of_Z mode with
      | None => ret (- EINVAL)
      | Some m =>
          update_hub h (fun hv =>
            set_hub_modes m (hub_over_current_mode hv) (hub_over_current hv) hv) ;;
          ret 0
      end
  end.

Definition virtusb_hub_set_over_current_mode (hub : option hub_ptr) (mode : Z) : K Z :=
  match hub with
  | None => ret (- EINVAL)
  | Some h =>
      match over_current_mode_of_Z mode with
      | None => ret (- EINVAL)
      | Some m =>
          update_hub h (fun hv =>
            set_hub_modes (hub_power_switching_mode hv) m (hub_over_current hv) hv) ;;
          ret 0
      end
  end.

(** The loop bound [hub->port_count] is not written by the loop body. *)
Definition virtusb_hub_set_all_ports_power (hub : option hub_ptr) (powered : bool) : K Z :=
  match hub with
  | None => ret (- EINVAL)
  | Some h =>
      hv <- load_hub h ;;
      r <- for_range 1 (hub_port_count hv + 1) (fun port_number =>
        was_connected <- virtusb_hub_port_is_connected hub port_number ;;
        r <- virtusb_port_set_powered (Some (HubPort h (port_number - 1))) powered ;;
        if r <? 0 then ret (Some r)
        else
          is_connected <- virtusb_hub_port_is_connected hub port_number ;;
          (if negb (eqb was_connected is_connected)
           then virtusb_hub_mark_port_connection_change hub port_number
           else ret tt) ;;
          ret None) ;;
      match r with
      | Some r => ret r
      | None => ret 0
      end
  end.

Definition virtusb_hub_set_port_power (hub : option hub_ptr) (port_number : Z)
    (powered : bool) : K Z :=
  port <- virtusb_hub_get_port hub port_number ;;
  match port, hub with
  | None, _ => ret (- EINVAL)
  | Some _, None => stuck
  | Some port, Some h =>
      hv <- load_hub h ;;
      if bool_decide (hub_power_switching_mode hv = VIRTUSB_HUB_POWER_SWITCHING_GANGED)
      then virtusb_hub_set_all_ports_power hub powered
      else
        was_connected <- virtusb_hub_port_is_connected hub port_number ;;
        r <- virtusb_port_set_powered (Some port) powered ;;
        if r <? 0 then ret r
        else
          is_connected <- virtusb_hub_port_is_connected hub port_number ;;
          (if negb (eqb was_connected is_connected)
           then virtusb_hub_mark_port_connection_change hub port_number
           else ret tt) ;;
          ret 0
  end.

Definition virtusb_hub_port_is_powered (hub : option hub_ptr) (port_number : Z) : K bool :=
  port <- virtusb_hub_get_port_const hub port_number ;;
  match port with
  | None => ret false
  | Some port => pv <- load_port port ;; ret (downstream_powered (port_state pv))
  end.

Definition virtusb_hub_set_port_over_current (hub : option hub_ptr) (port_number : Z)
    (over_current : bool) : K Z :=
  match hub with
  | None => ret (- EINVAL)
  | Some h =>
      hv <- load_hub h ;;
      if bool_decide (hub_over_current_mode hv <> VIRTUSB_HUB_OVER_CURRENT_PER_PORT)
      then ret (- EINVAL)
      else
        port <- virtusb_hub_get_port hub port_number ;;
        match port with
        | None => ret (- EINVAL)
        | Some port => virtusb_port_set_over_current (Some port) over_current
        end
  end.

Definition virtusb_hub_port_is_over_current (hub : option hub_ptr) (port_number : Z) : K bool :=
  match hub with
  | None => ret false
  | Some h =>
      hv <- load_hub h ;;
      if bool_decide (hub_over_current_mode hv <> VIRTUSB_HUB_OVER_CURRENT_PER_PORT)
      then ret false
      else
        port <- virtusb_hub_get_port_const hub port_number ;;
        match port with
        | None => ret false
        | Some port => pv <- load_port port ;; ret (downstream_over_current (port_state pv))
        end
  end.

Definition virtusb_hub_set_over_current (hub : option hub_ptr) (over_current : bool) : K unit :=
  match hub with
  | None => ret tt
  | Some h =>
      hv <- load_hub h ;;
      if bool_decide (hub_over_current_mode hv <> VIRTUSB_HUB_OVER_CURRENT_GLOBAL)
      then ret tt
      else store_hub h (set_hub_modes (hub_power_switching_mode hv)
                          (hub_over_current_mode hv) over_current hv)
  end.

Definition virtusb_hub_is_over_current (hub : option hub_ptr) : K bool :=
  match hub with
  | None => ret false
  | Some h =>
      hv <- load_hub h ;;
      if bool_decide (hub_over_current_mode hv <> VIRTUSB_HUB_OVER_CURRENT_GLOBAL)
      then ret false
      else ret (hub_over_current hv)
  end.

Definition virtusb_hub_get_port_speed (hub : option hub_ptr) (port_number : Z)
    : K virtusb_port_speed :=
  valid <- virtusb_hub_port_is_valid hub port_number ;;
  if negb valid then ret VIRTUSB_PORT_SPEED_NONE
  else match hub with
  | None => stuck
  | Some h =>
      let word_index := virtusb_hub_packed_word_index port_number VIRTUSB_PORT_SPEED_BITS in
      let shift := virtusb_hub_packed_shift port_number VIRTUSB_PORT_SPEED_BITS in
      hv <- load_hub h ;;
      match usb_speed (hub_usb hv) !! Z.to_nat word_index with
      | None => stuck
      | Some word =>
          ret (port_speed_of_Z
            (Z.land (Z.shiftr word shift) (VIRTUSB_PACKED_VALUE_MASK VIRTUSB_PORT_SPEED_BITS)))
      end
  end.

(** ** The root hub *)

Definition virtusb_root_hub_init (root_hub : option hub_ptr) (port_count : Z) : K Z :=
  match root_hub with
  | None => ret (- EINVAL)
  | Some h => virtusb_hub_init (Some h) port_count
  end.

Definition virtusb_root_hub_reset (root_hub : option hub_ptr) : K unit :=
  match root_hub with
  | None => ret tt
  | Some h => virtusb_hub_reset (Some h)
  end.
End Operations.

#[global] Arguments update_hub : simpl never.
#[global] Arguments update_usb : simpl never.
#[global] Arguments update_change : simpl never.
#[global] Arguments virtusb_hub_notify_status_changed : simpl never.
#[global] Arguments virtusb_hub_packed_word_index : simpl never.
#[global] Arguments virtusb_hub_packed_shift : simpl never.
#[global] Arguments virtusb_hub_set_port_speed : simpl never.
#[global] Arguments virtusb_hub_port_is_valid : simpl never.
#[global] Arguments virtusb_hub_get_port : simpl never.
#[global] Arguments virtusb_hub_get_port_const : simpl never.
#[global] Arguments virtusb_hub_determine_port_speed : simpl never.
#[global] Arguments memset_hub : simpl never.
#[global] Arguments virtusb_hub_init : simpl never.
#[global] Arguments virtusb_hub_reset : simpl never.
#[global] Arguments virtusb_hub_set_status_changed_callback : simpl never.
#[global] Arguments virtusb_hub_find_port_number : simpl never.
#[global] Arguments virtusb_hub_port_is_connected : simpl never.
#[global] Arguments virtusb_hub_mark_port_connection_change : simpl never.
#[global] Arguments virtusb_hub_reset_port : simpl never.
#[global] Arguments virtusb_hub_set_power_switching_mode : simpl never.
#[global] Arguments virtusb_hub_set_over_current_mode : simpl never.
#[global] Arguments virtusb_hub_set_all_ports_power : simpl never.
#[global] Arguments virtusb_hub_set_port_power : simpl never.
#[global] Arguments virtusb_hub_port_is_powered : simpl never.
#[global] Arguments virtusb_hub_set_port_over_current : simpl never.
#[global] Arguments virtusb_hub_port_is_over_current : simpl never.
#[global] Arguments virtusb_hub_set_over_current : simpl never.
#[global] Arguments virtusb_hub_is_over_current : simpl never.
#[global] Arguments virtusb_hub_get_port_speed : simpl never.
#[global] Arguments virtusb_root_hub_init : simpl never.
#[global] Arguments virtusb_root_hub_reset : simpl never.

(** ** The packed speed map *)

(** The value stored at a position. *)
Definition packed_value (word shift : Z) : Z :=
  Z.land (Z.shiftr word shift) (VIRTUSB_PACKED_VALUE_MASK VIRTUSB_PORT_SPEED_BITS).
Definition speed_word (n : Z) : nat :=
  Z.to_nat (virtusb_hub_packed_word_index n VIRTUSB_PORT_SPEED_BITS).
Definition speed_shift (n : Z) : Z := virtusb_hub_packed_shift n VIRTUSB_PORT_SPEED_BITS.

Definition speed_list_set (n : Z) (sp : virtusb_port_speed) (l : list Z) : list Z :=
  <[speed_word n := packed_word_update (default 0 (l !! speed_word n)) (speed_shift n)
                      (port_speed_to_Z sp)]> l.
Definition speed_at (l : list Z) (n : Z) : virtusb_port_speed :=
  port_speed_of_Z (packed_value (default 0 (l !! speed_word n)) (speed_shift n)).

Lemma mask_testbit i : 0 <= i ->
  Z.testbit (VIRTUSB_PACKED_VALUE_MASK VIRTUSB_PORT_SPEED_BITS) i = (i <? 2).
Proof.
  intros Hi. change (VIRTUSB_PACKED_VALUE_MASK VIRTUSB_PORT_SPEED_BITS) with (Z.ones 2).
  apply Z.testbit_ones_nonneg; lia.
Qed.

Lemma packed_update_testbit word shift v i :
  in_width 32 word -> 0 <= v < 4 -> 0 <= shift -> shift + 2 <= 32 -> 0 <= i ->
  Z.testbit (packed_word_update word shift v) i =
    if (shift <=? i) && (i <? shift + 2) then Z.testbit v (i - shift) else Z.testbit word i.
Proof.
  intros Hw Hv Hs1 Hs2 Hi. unfold packed_word_update, c_not.
  rewrite Z.lor_spec, !Z.land_spec, !wrap_testbit, Z.lnot_spec, !wrap_testbit by lia.
  rewrite !Z.shiftl_spec by lia.
  destruct (Z.leb_spec shift i) as [Hle|Hlt]; cbn.
  - rewrite mask_testbit by lia.
    destruct (Z.ltb_spec i (shift + 2)); cbn.
    + destruct (Z.ltb_spec i 32); [cbn | lia].
      destruct (Z.ltb_spec (i - shift) 2); [cbn | lia].
      by rewrite andb_false_r, andb_true_r.
    + destruct (Z.ltb_spec (i - shift) 2); [lia | cbn].
      rewrite !andb_false_r, orb_false_r. cbn.
      destruct (Z.ltb_spec i 32); cbn; [by rewrite andb_true_r | ].
      by rewrite andb_false_r, (in_width_testbit_high 32) by (done || lia).
  - rewrite !(Z.testbit_neg_r _ (i - shift)) by lia. cbn.
    rewrite !andb_false_r, orb_false_r. cbn.
    destruct (Z.ltb_spec i 32); cbn; [by rewrite andb_true_r | lia].
Qed.

Lemma packed_update_width word shift v : in_width 32 word -> 0 <= shift -> shift + 2 <= 32 ->
  0 <= v < 4 -> in_width 32 (packed_word_update word shift v).
Proof.
  intros Hw Hs1 Hs2 Hv.
  assert (E : wrap 32 (packed_word_update word shift v) = packed_word_update word shift v).
  { apply Z.bits_inj'. intros i Hi. rewrite wrap_testbit by lia.
    destruct (Z.ltb_spec i 32); [done | cbn].
    rewrite packed_update_testbit by done.
    destruct (Z.leb_spec shift i); cbn; [ | lia].
    destruct (Z.ltb_spec i (shift + 2)); cbn; [lia | ].
    by rewrite (in_width_testbit_high 32) by (done || lia). }
  rewrite <- E. by apply wrap_width.
Qed.

Lemma packed_value_testbit word shift i : 0 <= shift -> 0 <= i ->
  Z.testbit (packed_value word shift) i = Z.testbit word (i + shift) && (i <? 2).
Proof.
  intros. unfold packed_value.
  by rewrite Z.land_spec, Z.shiftr_spec, mask_testbit by lia.
Qed.

Lemma packed_value_same word shift v :
  in_width 32 word -> 0 <= shift -> shift + 2 <= 32 -> 0 <= v < 4 ->
  packed_value (packed_word_update word shift v) shift = v.
Proof.
  intros. apply Z.bits_inj'. intros i Hi.
  rewrite packed_value_testbit, packed_update_testbit by (done || lia).
  destruct (Z.leb_spec shift (i + shift)); [cbn | lia].
  replace (i + shift - shift) with i by lia.
  destruct (Z.ltb_spec (i + shift) (shift + 2)), (Z.ltb_spec i 2); try lia.
  - by rewrite andb_true_r.
  - rewrite andb_false_r. symmetry. apply (in_width_testbit_high 2); [lia | done].
Qed.

Lemma packed_value_other word shift shift' v :
  in_width 32 word -> 0 <= shift -> shift + 2 <= 32 -> 0 <= shift' -> 0 <= v < 4 ->
  shift' + 2 <= shift \/ shift + 2 <= shift' ->
  packed_value (packed_word_update word shift v) shift' = packed_value word shift'.
Proof.
  intros. apply Z.bits_inj'. intros i Hi.
  rewrite !packed_value_testbit, packed_update_testbit by (done || lia).
  destruct (Z.ltb_spec i 2); [ | by rewrite !andb_false_r].
  destruct (Z.leb_spec shift (i + shift')), (Z.ltb_spec (i + shift') (shift + 2));
    cbn; try lia; done.
Qed.

(** The word and the bit position of a port. *)
Lemma speed_position n : 0 <= n < 32 ->
  (speed_word n < 2)%nat /\ 0 <= speed_shift n /\ speed_shift n + 2 <= 32 /\
  n = 16 * Z.of_nat (speed_word n) + speed_shift n / 2 /\ speed_shift n mod 2 = 0.
Proof.
  intros Hn.
  assert (H : (Z.of_nat (speed_word n) <? 2) && (0 <=? speed_shift n) &&
    (speed_shift n + 2 <=? 32) && (n =? 16 * Z.of_nat (speed_word n) + speed_shift n / 2) &&
    (speed_shift n mod 2 =? 0) = true).
  { revert n Hn. apply forall_range. by vm_compute. }
  rewrite !andb_true_iff in H. lia.
Qed.

Lemma speed_to_Z_range sp : 0 <= port_speed_to_Z sp < 4.
Proof. destruct sp; cbn; lia. Qed.
Lemma speed_of_to_Z sp : port_speed_of_Z (port_speed_to_Z sp) = sp.
Proof. by destruct sp. Qed.

Definition speed_words_ok (l : list Z) : Prop := length l = 2%nat /\ Forall (in_width 32) l.

Lemma speed_words_lookup l n : speed_words_ok l -> 0 <= n < 32 ->
  exists w, l !! speed_word n = Some w /\ in_width 32 w.
Proof.
  intros [Hl Hw] Hn. destruct (speed_position n Hn) as [Hi _].
  destruct (lookup_lt_is_Some_2 l (speed_word n)) as [w Ew]; [lia | ].
  exists w. split; [done | ]. by eapply Forall_lookup_1.
Qed.

Lemma speed_list_set_ok l n sp : speed_words_ok l -> 0 <= n < 32 ->
  speed_words_ok (speed_list_set n sp l).
Proof.
  intros Hok Hn. destruct (speed_words_lookup l n Hok Hn) as (w & Ew & Hw).
  destruct (speed_position n Hn) as (_ & ? & ? & _). destruct Hok as [Hl Hf].
  unfold speed_list_set. rewrite Ew. split; [by rewrite length_insert | ].
  apply Forall_insert; [done | ].
  apply packed_update_width; auto using speed_to_Z_range.
Qed.

(** Reading the speed map after a write: the written position has the new
    speed, every other position keeps its own. *)
Lemma speed_at_set l n k sp : speed_words_ok l -> 0 <= n < 32 -> 0 <= k < 32 ->
  speed_at (speed_list_set n sp l) k = if decide (n = k) then sp else speed_at l k.
Proof.
  intros Hok Hn Hk. destruct (speed_words_lookup l n Hok Hn) as (w & Ew & Hw).
  destruct (speed_position n Hn) as (Hwn & ? & ? & En & ?).
  destruct (speed_position k Hk) as (Hwk & ? & ? & Ek & ?).
  unfold speed_at, speed_list_set. rewrite Ew. cbn [default].
  destruct (decide (speed_word n = speed_word k)) as [Ewd|Ewd].
  - rewrite <- Ewd, list_lookup_insert_eq by (destruct Hok as [-> _]; lia). rewrite Ew. cbn.
    case_decide as Hnk.
    + subst. by rewrite packed_value_same, speed_of_to_Z by auto using speed_to_Z_range.
    + rewrite packed_value_other; auto using speed_to_Z_range.
      assert (speed_shift n / 2 <> speed_shift k / 2) by lia.
      assert (speed_shift n = 2 * (speed_shift n / 2)) by (apply Z.div_exact; lia).
      assert (speed_shift k = 2 * (speed_shift k / 2)) by (apply Z.div_exact; lia). lia.
  - rewrite list_lookup_insert_ne by done. case_decide; [by subst | done].
Qed.

(** ** Views of the bus *)

Definition port_valid (hv : virtusb_hub) (n : Z) : bool :=
  (0 <? n) && (n <=? hub_port_count hv).

(** The USB-visible connection of port [n] of the hub at [h]: attached to an
    upstream port that signals, with VBUS. *)
Definition port_connected (m : gmap port_ptr virtusb_port) (h : hub_ptr) (n : Z) : bool :=
  match m !! HubPort h (n - 1) with
  | Some dv =>
      match port_peer dv with
      | Some q =>
          match m !! q with
          | Some uv =>
              bool_decide (port_role uv = VIRTUSB_PORT_ROLE_UPSTREAM) &&
              downstream_powered (port_state dv) &&
              upstream_connection_signaling (port_state uv)
          | None => false
          end
      | None => false
      end
  | None => false
  end.

(** The fastest speed in a capability mask. *)
Definition speed_of_caps (caps : Z) : virtusb_port_speed :=
  if Z.testbit caps 2 then VIRTUSB_PORT_SPEED_HIGH
  else if Z.testbit caps 1 then VIRTUSB_PORT_SPEED_FULL
  else if Z.testbit caps 0 then VIRTUSB_PORT_SPEED_LOW
  else VIRTUSB_PORT_SPEED_NONE.

Definition effective_speed (m : gmap port_ptr virtusb_port) (h : hub_ptr) (n : Z)
    : virtusb_port_speed :=
  match m !! HubPort h (n - 1) with
  | Some dv =>
      match port_peer dv with
      | Some q =>
          match m !! q with
          | Some uv =>
              if decide (port_role uv = VIRTUSB_PORT_ROLE_UPSTREAM)
              then speed_of_caps (Z.land (port_speed dv) (port_speed uv))
              else VIRTUSB_PORT_SPEED_NONE
          | None => VIRTUSB_PORT_SPEED_NONE
          end
      | None => VIRTUSB_PORT_SPEED_NONE
      end
  | None => VIRTUSB_PORT_SPEED_NONE
  end.

Definition hub_speed (hv : virtusb_hub) (n : Z) : virtusb_port_speed :=
  speed_at (usb_speed (hub_usb hv)) n.

(** ** The structural invariant *)

Definition speed_caps_ok (c : Z) : Prop := 1 <= c <= 7.

Record usb_words_ok (u : usb_state) : Prop := {
  uw_enabled : in_width 32 (usb_enabled u);
  uw_suspended : in_width 32 (usb_suspended u);
  uw_reset : in_width 32 (usb_reset u);
  uw_speed : speed_words_ok (usb_speed u);
}.
Record change_words_ok (c : usb_change) : Prop := {
  cw_connected : in_width 32 (ch_connected c);
  cw_enabled : in_width 32 (ch_enabled c);
  cw_suspended : in_width 32 (ch_suspended c);
  cw_reset : in_width 32 (ch_reset c);
  cw_over_current : in_width 32 (ch_over_current c);
}.

Record hub_wf (m : gmap port_ptr virtusb_port) (h : hub_ptr) (hv : virtusb_hub) : Prop := {
  hw_count : 1 <= hub_port_count hv <= VIRTUSB_MAX_HUB_PORTS;
  hw_usb : usb_words_ok (hub_usb hv);
  hw_change : change_words_ok (hub_change hv);
  hw_ports : forall i, 0 <= i < VIRTUSB_MAX_HUB_PORTS -> is_Some (m !! HubPort h i);
  hw_down : forall i v, i < hub_port_count hv -> m !! HubPort h i = Some v ->
    port_role v = VIRTUSB_PORT_ROLE_DOWNSTREAM /\ port_owner v = Some (OwnerHub h) /\
    port_speed v = VIRTUSB_PORT_SPEED_CAP_ALL;
  hw_rest : forall i v, hub_port_count hv <= i -> m !! HubPort h i = Some v -> v = zero_port;
}.

Record bus_wf (m : gmap port_ptr virtusb_port) (hs : gmap hub_ptr virtusb_hub) : Prop := {
  bw_hub : forall h hv, hs !! h = Some hv -> hub_wf m h hv;
  bw_hubport : forall h i v, m !! HubPort h i = Some v ->
    0 <= i < VIRTUSB_MAX_HUB_PORTS /\ is_Some (hs !! h);
  bw_devport : forall d v, m !! DevPort d = Some v ->
    port_role v = VIRTUSB_PORT_ROLE_UPSTREAM /\ port_owner v = Some (OwnerDevice d) /\
    speed_caps_ok (port_speed v);
  bw_recip : ports_reciprocal m;
}.

(** ** The protocol invariant

    A port is enabled, or has an operating speed, only while it is connected;
    the speed is then the one its two ends support; reset signalling is never
    left pending. *)
Definition usb_port_ok (enabled reset : bool) (speed effective : virtusb_port_speed)
    (connected : bool) : Prop :=
  (enabled = true -> connected = true /\ speed <> VIRTUSB_PORT_SPEED_NONE) /\
  (speed <> VIRTUSB_PORT_SPEED_NONE -> connected = true /\ speed = effective) /\
  reset = false.
Definition usb_ok (m : gmap port_ptr virtusb_port) (h : hub_ptr) (hv : virtusb_hub) : Prop :=
  forall n, 0 <= n < 32 ->
    usb_port_ok (Z.testbit (usb_enabled (hub_usb hv)) n) (Z.testbit (usb_reset (hub_usb hv)) n)
      (hub_speed hv n) (effective_speed m h n) (port_connected m h n).

Lemma usb_port_ok_cleared effective connected :
  usb_port_ok false false VIRTUSB_PORT_SPEED_NONE effective connected.
Proof. by repeat split. Qed.

Lemma usb_port_ok_disconnected e r sp eff : usb_port_ok e r sp eff false ->
  e = false /\ r = false /\ sp = VIRTUSB_PORT_SPEED_NONE.
Proof.
  intros (H1 & H2 & H3). repeat split; [ | done | ].
  - destruct e; [ | done]. by destruct (H1 eq_refl).
  - destruct (decide (sp = VIRTUSB_PORT_SPEED_NONE)) as [|Hne]; [done | ].
    by destruct (H2 Hne).
Qed.

(** While a port stays disconnected, or stays connected with the same effective
    speed, its protocol state may stay as it is. *)
Lemma usb_port_ok_keep e r sp eff eff' conn : usb_port_ok e r sp eff conn ->
  (conn = true -> eff' = eff) -> usb_port_ok e r sp eff' conn.
Proof.
  destruct conn.
  - intros H E. by rewrite (E eq_refl).
  - intros H _. destruct (usb_port_ok_disconnected _ _ _ _ H) as (-> & -> & ->).
    apply usb_port_ok_cleared.
Qed.

Definition bus_ok (s : kernel) : Prop :=
  bus_wf (k_ports s) (k_hubs s) /\
  forall h hv, k_hubs s !! h = Some hv -> usb_ok (k_ports s) h hv.

(** ** Consequences of the structural invariant *)

Section wf.
Context (m : gmap port_ptr virtusb_port) (hs : gmap hub_ptr virtusb_hub).
Context (Hwf : bus_wf m hs).

Lemma wf_port h hv n : hs !! h = Some hv -> port_valid hv n = true ->
  exists v, m !! HubPort h (n - 1) = Some v /\
    port_role v = VIRTUSB_PORT_ROLE_DOWNSTREAM /\ port_owner v = Some (OwnerHub h) /\
    port_speed v = VIRTUSB_PORT_SPEED_CAP_ALL.
Proof.
  intros Hh Hv. unfold port_valid in Hv. rewrite andb_true_iff in Hv.
  pose proof (bw_hub _ _ Hwf _ _ Hh) as W. pose proof (hw_count _ _ _ W).
  destruct (hw_ports _ _ _ W (n - 1)) as [v Ev]; [lia | ].
  exists v. split; [done | ]. apply (hw_down _ _ _ W (n - 1)); [lia | done].
Qed.

Lemma wf_peer p v q : m !! p = Some v -> port_peer v = Some q ->
  exists w, m !! q = Some w /\ port_peer w = Some p /\
    opposite_roles (port_role v) (port_role w).
Proof. apply (bw_recip _ _ Hwf). Qed.

(** A hub port is attached to a device port and the other way round. *)
Lemma wf_hub_peer h hv i v q : hs !! h = Some hv ->
  m !! HubPort h i = Some v -> port_peer v = Some q ->
  0 <= i < hub_port_count hv /\
  exists d w, q = DevPort d /\ m !! DevPort d = Some w /\ port_peer w = Some (HubPort h i) /\
    port_role w = VIRTUSB_PORT_ROLE_UPSTREAM.
Proof.
  intros Hh Hi Hq. pose proof (bw_hub _ _ Hwf _ _ Hh) as W.
  destruct (bw_hubport _ _ Hwf _ _ _ Hi) as [Hr _].
  assert (Hlt : i < hub_port_count hv).
  { destruct (Z.lt_ge_cases i (hub_port_count hv)) as [|Hge]; [done | ].
    pose proof (hw_rest _ _ _ W i v Hge Hi). by subst. }
  destruct (hw_down _ _ _ W i v Hlt Hi) as (Rv & _).
  destruct (wf_peer _ _ _ Hi Hq) as (w & Hw & Hb & Ho).
  rewrite Rv in Ho. destruct Ho as [[_ Ro]|[? _]]; [ | done].
  split; [lia | ]. destruct q as [d|h' i'].
  - by exists d, w.
  - exfalso. destruct (bw_hubport _ _ Hwf _ _ _ Hw) as [Hr' [hv' Hh']].
    pose proof (bw_hub _ _ Hwf _ _ Hh') as W'.
    destruct (Z.lt_ge_cases i' (hub_port_count hv')) as [Hlt'|Hge].
    + by destruct (hw_down _ _ _ W' i' w Hlt' Hw) as [? _]; congruence.
    + pose proof (hw_rest _ _ _ W' i' w Hge Hw). by subst.
Qed.

Lemma wf_dev_peer d v q : m !! DevPort d = Some v -> port_peer v = Some q ->
  exists h hv i w, q = HubPort h i /\ hs !! h = Some hv /\ 0 <= i < hub_port_count hv /\
    m !! HubPort h i = Some w /\ port_peer w = Some (DevPort d) /\
    port_role w = VIRTUSB_PORT_ROLE_DOWNSTREAM /\ port_owner w = Some (OwnerHub h).
Proof.
  intros Hd Hq. destruct (bw_devport _ _ Hwf _ _ Hd) as (Rv & _).
  destruct (wf_peer _ _ _ Hd Hq) as (w & Hw & Hb & Ho).
  rewrite Rv in Ho. destruct Ho as [[? _]|[_ Ro]]; [done | ].
  destruct q as [d'|h i].
  - destruct (bw_devport _ _ Hwf _ _ Hw) as (Rw & _). congruence.
  - destruct (bw_hubport _ _ Hwf _ _ _ Hw) as [Hr [hv Hh]].
    pose proof (bw_hub _ _ Hwf _ _ Hh) as W.
    destruct (Z.lt_ge_cases i (hub_port_count hv)) as [Hlt|Hge].
    + destruct (hw_down _ _ _ W i w Hlt Hw) as (_ & Ow & _).
      exists h, hv, i, w. repeat split; done || lia.
    + pose proof (hw_rest _ _ _ W i w Hge Hw). by subst.
Qed.

(** Positions that are no ports are never connected. *)
Lemma wf_invalid_port h hv n : hs !! h = Some hv -> port_valid hv n = false ->
  match m !! HubPort h (n - 1) with
  | Some v => port_peer v = None
  | None => True
  end.
Proof.
  intros Hh Hv. destruct (m !! _) as [v|] eqn:Ev; [ | done].
  destruct (port_peer v) as [q|] eqn:Eq; [ | done].
  destruct (wf_hub_peer _ _ _ _ _ Hh Ev Eq) as [Hr _].
  unfold port_valid in Hv. rewrite andb_false_iff in Hv. lia.
Qed.

Lemma wf_invalid_not_connected h hv n : hs !! h = Some hv -> port_valid hv n = false ->
  port_connected m h n = false.
Proof.
  intros Hh Hv. pose proof (wf_invalid_port _ _ _ Hh Hv) as H. unfold port_connected.
  destruct (m !! _); [by rewrite H | done].
Qed.

Lemma wf_invalid_speed h hv n : hs !! h = Some hv -> port_valid hv n = false ->
  effective_speed m h n = VIRTUSB_PORT_SPEED_NONE.
Proof.
  intros Hh Hv. pose proof (wf_invalid_port _ _ _ Hh Hv) as H. unfold effective_speed.
  destruct (m !! _); [by rewrite H | done].
Qed.

Lemma wf_connected_valid h hv n : hs !! h = Some hv -> port_connected m h n = true ->
  port_valid hv n = true.
Proof.
  intros Hh Hc. destruct (port_valid hv n) eqn:E; [done | ].
  by rewrite (wf_invalid_not_connected _ _ _ Hh E) in Hc.
Qed.

Lemma wf_position h hv n : hs !! h = Some hv -> port_valid hv n = true -> 0 <= n < 32.
Proof using Hwf.
  intros Hh. destruct (hw_count _ _ _ (bw_hub _ _ Hwf h hv Hh)) as [_ Hc].
  unfold port_valid. rewrite andb_true_iff, Z.ltb_lt, Z.leb_le.
  unfold VIRTUSB_MAX_HUB_PORTS in Hc. lia.
Qed.

(** The two ends of a connection. *)
Lemma wf_connected_facts h hv n : hs !! h = Some hv -> port_connected m h n = true ->
  exists dv uv d, m !! HubPort h (n - 1) = Some dv /\ port_peer dv = Some (DevPort d) /\
    m !! DevPort d = Some uv /\ port_peer uv = Some (HubPort h (n - 1)) /\
    downstream_powered (port_state dv) = true /\
    upstream_connection_signaling (port_state uv) = true /\
    effective_speed m h n = speed_of_caps (Z.land (port_speed dv) (port_speed uv)).
Proof using Hwf.
  intros Hh. unfold port_connected, effective_speed.
  destruct (m !! HubPort h (n - 1)) as [dv|] eqn:Hd; [ | done].
  destruct (port_peer dv) as [q|] eqn:Hp; [ | done].
  destruct (wf_hub_peer h hv (n - 1) dv q Hh Hd Hp) as (_ & d & uv & -> & Hu & Hpu & Hr).
  rewrite Hu, decide_True by done. rewrite !andb_true_iff. intros [[_ ?] ?].
  by exists dv, uv, d.
Qed.
End wf.

(** ** Reading operations *)

Lemma caps_test c k : 0 <= k -> negb (Z.land c (Z.shiftl 1 k) =? 0) = Z.testbit c k.
Proof. intros Hk. exact (bit_test_spec c k Hk). Qed.

Lemma cap_all_ok : speed_caps_ok VIRTUSB_PORT_SPEED_CAP_ALL.
Proof. by vm_compute. Qed.

Lemma speed_caps_land a b : speed_caps_ok a -> u8 (Z.land a b) = Z.land a b.
Proof.
  intros Ha. apply Z.bits_inj'. intros i Hi. rewrite wrap_testbit, Z.land_spec by lia.
  destruct (Z.ltb_spec i 8); cbn; [done | ].
  rewrite (in_width_testbit_high 3 a); [done | lia | ].
  unfold speed_caps_ok in Ha. unfold in_width. lia.
Qed.

Section reads.
Context (s : kernel) (Hwf : bus_wf (k_ports s) (k_hubs s)).
Context (h : hub_ptr) (hv : virtusb_hub) (Hh : k_hubs s !! h = Some hv).

Lemma hub_port_is_valid_eq n :
  virtusb_hub_port_is_valid (Some h) n s = Some (port_valid hv n, s).
Proof. unfold virtusb_hub_port_is_valid. by run. Qed.

Lemma hub_get_port_eq n :
  virtusb_hub_get_port (Some h) n s =
    Some (if port_valid hv n then Some (HubPort h (n - 1)) else None, s).
Proof.
  unfold virtusb_hub_get_port, bind. rewrite hub_port_is_valid_eq.
  by destruct (port_valid hv n).
Qed.

Lemma hub_get_port_const_eq n :
  virtusb_hub_get_port_const (Some h) n s =
    Some (if port_valid hv n then Some (HubPort h (n - 1)) else None, s).
Proof.
  unfold virtusb_hub_get_port_const, bind. rewrite hub_port_is_valid_eq.
  by destruct (port_valid hv n).
Qed.

Lemma hub_port_is_connected_eq n :
  virtusb_hub_port_is_connected (Some h) n s = Some (port_connected (k_ports s) h n, s).
Proof.
  unfold virtusb_hub_port_is_connected, bind. rewrite hub_get_port_const_eq.
  destruct (port_valid hv n) eqn:Hv.
  - destruct (wf_port _ _ Hwf _ _ _ Hh Hv) as (v & Ev & _).
    unfold port_connected. run. destruct (port_peer v) as [q|] eqn:Eq; [ | done].
    destruct (wf_peer _ _ Hwf _ _ _ Ev Eq) as (w & Ew & _). run.
    destruct (decide (port_role w = VIRTUSB_PORT_ROLE_UPSTREAM)); run; [ | done].
    by destruct (downstream_powered (port_state v)).
  - by rewrite (wf_invalid_not_connected _ _ Hwf _ _ _ Hh Hv).
Qed.

Lemma hub_determine_port_speed_eq n :
  virtusb_hub_determine_port_speed (Some h) n s = Some (effective_speed (k_ports s) h n, s).
Proof.
  unfold virtusb_hub_determine_port_speed, bind. rewrite hub_get_port_const_eq.
  destruct (port_valid hv n) eqn:Hv.
  - destruct (wf_port _ _ Hwf _ _ _ Hh Hv) as (v & Ev & _ & _ & Hsp).
    unfold effective_speed. run. destruct (port_peer v) as [q|] eqn:Eq; [ | done].
    destruct (wf_peer _ _ Hwf _ _ _ Ev Eq) as (w & Ew & _). run.
    case_decide as Hr; run; [ | done]. rewrite Hsp.
    unfold VIRTUSB_PORT_SPEED_CAP_HIGH, VIRTUSB_PORT_SPEED_CAP_FULL,
      VIRTUSB_PORT_SPEED_CAP_LOW.
    rewrite (speed_caps_land _ _ cap_all_ok), !caps_test by lia. unfold speed_of_caps.
    repeat (destruct (Z.testbit _ _); try done).
  - by rewrite (wf_invalid_speed _ _ Hwf _ _ _ Hh Hv).
Qed.

Lemma hub_get_port_speed_eq n :
  virtusb_hub_get_port_speed (Some h) n s =
    Some (if port_valid hv n then hub_speed hv n else VIRTUSB_PORT_SPEED_NONE, s).
Proof.
  unfold virtusb_hub_get_port_speed, bind. rewrite hub_port_is_valid_eq.
  destruct (port_valid hv n) eqn:Hv; [ | done].
  pose proof (bw_hub _ _ Hwf _ _ Hh) as W. pose proof (hw_count _ _ _ W) as Hc.
  unfold port_valid in Hv. rewrite andb_true_iff in Hv.
  unfold VIRTUSB_MAX_HUB_PORTS in Hc.
  destruct (speed_words_lookup (usb_speed (hub_usb hv)) n) as (w & Ew & _);
    [apply W | lia | ].
  unfold hub_speed, speed_at. run. unfold speed_word in Ew. by rewrite Ew.
Qed.

Lemma hub_port_is_powered_eq n :
  virtusb_hub_port_is_powered (Some h) n s =
    Some (match k_ports s !! HubPort h (n - 1) with
          | Some v => port_valid hv n && downstream_powered (port_state v)
          | None => false
          end, s).
Proof.
  unfold virtusb_hub_port_is_powered, bind. rewrite hub_get_port_const_eq.
  destruct (port_valid hv n) eqn:Hv.
  - destruct (wf_port _ _ Hwf _ _ _ Hh Hv) as (v & Ev & _). by run.
  - by destruct (k_ports s !! _).
Qed.

Lemma hub_port_is_over_current_eq n :
  virtusb_hub_port_is_over_current (Some h) n s =
    Some (bool_decide (hub_over_current_mode hv = VIRTUSB_HUB_OVER_CURRENT_PER_PORT) &&
          match k_ports s !! HubPort h (n - 1) with
          | Some v => port_valid hv n && downstream_over_current (port_state v)
          | None => false
          end, s).
Proof.
  unfold virtusb_hub_port_is_over_current, bind. run.
  destruct (decide (hub_over_current_mode hv = VIRTUSB_HUB_OVER_CURRENT_PER_PORT));
    run; [ | done].
  rewrite hub_get_port_const_eq.
  destruct (port_valid hv n) eqn:Hv.
  - destruct (wf_port _ _ Hwf _ _ _ Hh Hv) as (v & Ev & _). by run.
  - by destruct (k_ports s !! _).
Qed.

Lemma hub_is_over_current_eq :
  virtusb_hub_is_over_current (Some h) s =
    Some (bool_decide (hub_over_current_mode hv = VIRTUSB_HUB_OVER_CURRENT_GLOBAL) &&
          hub_over_current hv, s).
Proof.
  unfold virtusb_hub_is_over_current. run.
  by destruct (decide (hub_over_current_mode hv = VIRTUSB_HUB_OVER_CURRENT_GLOBAL)); run.
Qed.

(** Looking up the number of a port by its address. *)
Lemma find_port_loop p (k : nat) : forall lo,
  for_from k lo (fun index =>
      if bool_decide (HubPort h index = p) then ret (Some (index + 1)) else ret None) s =
    Some (match p with
          | HubPort h' i => if decide (h' = h /\ lo <= i < lo + Z.of_nat k)
                            then Some (i + 1) else None
          | DevPort _ => None
          end, s).
Proof.
  induction k as [|k IH]; intros lo; cbn.
  - destruct p as [d|h' i]; [done | ]. case_decide; [lia | done].
  - unfold bind. case_bool_decide as E; cbn.
    + subst p. cbn iota. rewrite decide_True by (split; [done | lia]). done.
    + rewrite IH. destruct p as [d|h' i]; [done | ].
      destruct (decide (h' = h)) as [->|].
      * assert (i <> lo) by congruence.
        destruct (decide (lo <= i < lo + Z.of_nat (S k))).
        -- rewrite !decide_True by (split; [done | lia]). done.
        -- rewrite !decide_False by (intros [_ ?]; lia). done.
      * by rewrite !decide_False by tauto.
Qed.

Lemma hub_find_port_number_eq p out :
  virtusb_hub_find_port_number (Some h) (Some p) (Some out) s =
    Some (match p with
          | HubPort h' i => if decide (h' = h /\ 0 <= i < hub_port_count hv)
                            then (0, Some (i + 1)) else (- ENOENT, Some out)
          | DevPort _ => (- ENOENT, Some out)
          end, s).
Proof.
  pose proof (hw_count _ _ _ (bw_hub _ _ Hwf _ _ Hh)).
  unfold virtusb_hub_find_port_number, for_range, bind at 1. run.
  rewrite find_port_loop. unfold ret.
  destruct p as [d|h' i]; [done | ].
  destruct (decide (h' = h)) as [->|].
  - destruct (decide (0 <= i < hub_port_count hv)).
    + rewrite !decide_True by (split; [done | lia]). done.
    + rewrite !decide_False by (intros [_ ?]; lia). done.
  - by rewrite !decide_False by tauto.
Qed.
End reads.

(** ** Reporting a connection change

    The effect of [virtusb_hub_mark_port_connection_change] as a pure update. *)

Section report.
Context `{StatusChangedTable}.

Definition disconnect_usb (n : Z) (u : usb_state) : usb_state :=
  mk_usb_state (bit_clear (usb_enabled u) n) (bit_clear (usb_suspended u) n)
    (bit_clear (usb_reset u) n) (speed_list_set n VIRTUSB_PORT_SPEED_NONE (usb_speed u)).

Definition notify_events (h : hub_ptr) (hv : virtusb_hub) : list event :=
  match hub_status_changed hv with
  | Some f => status_changed_events f h (hub_status_changed_context hv)
  | None => []
  end.

Definition hub_report (connected : bool) (n : Z) (hv : virtusb_hub) : virtusb_hub :=
  let u := if connected then hub_usb hv else disconnect_usb n (hub_usb hv) in
  let c := if bit_test (ch_connected (hub_change hv)) n then hub_change hv
           else set_ch_connected (bit_set (ch_connected (hub_change hv)) n) (hub_change hv) in
  set_hub_change c (set_hub_usb u hv).

Definition report_events (h : hub_ptr) (n : Z) (hv : virtusb_hub) : list event :=
  if bit_test (ch_connected (hub_change hv)) n then [] else notify_events h hv.

Definition report (h : hub_ptr) (n : Z) (s : kernel) : kernel :=
  match k_hubs s !! h with
  | None => s
  | Some hv =>
      set_trace (k_trace s ++ report_events h n hv)
        (set_hubs (<[h := hub_report (port_connected (k_ports s) h n) n hv]> (k_hubs s)) s)
  end.

(** Replacing the port heap by [m] and reporting the effect on port [n] of the
    hub at [h]: nothing is reported when the connection did not change. *)
Definition settle (h : hub_ptr) (n : Z) (m : gmap port_ptr virtusb_port) (s : kernel) : kernel :=
  if eqb (port_connected (k_ports s) h n) (port_connected m h n)
  then set_ports m s
  else report h n (set_ports m s).

Lemma hub_set_port_speed_eq s h hv n sp :
  k_hubs s !! h = Some hv -> speed_words_ok (usb_speed (hub_usb hv)) -> 0 <= n < 32 ->
  virtusb_hub_set_port_speed h n sp s =
    Some (tt, set_hubs (<[h := set_hub_usb (set_usb_speed (speed_list_set n sp
                                 (usb_speed (hub_usb hv))) (hub_usb hv)) hv]> (k_hubs s)) s).
Proof.
  intros Hh Hok Hn. destruct (speed_words_lookup _ n Hok Hn) as (w & Ew & _).
  unfold virtusb_hub_set_port_speed, speed_list_set. rewrite Ew.
  unfold speed_word, speed_shift in *. by run.
Qed.

Lemma hub_notify_eq s h hv : k_hubs s !! h = Some hv ->
  virtusb_hub_notify_status_changed (Some h) s =
    Some (tt, set_trace (k_trace s ++ notify_events h hv) s).
Proof.
  intros Hh. unfold virtusb_hub_notify_status_changed, notify_events. run.
  destruct (hub_status_changed hv).
  - apply call_status_changed_spec.
  - by rewrite app_nil_r, set_trace_id.
Qed.

Lemma update_hub_eq s h hv f : k_hubs s !! h = Some hv ->
  update_hub h f s = Some (tt, set_hubs (<[h := f hv]> (k_hubs s)) s).
Proof. intros Hh. unfold update_hub. by run. Qed.

Lemma set_port_speed_bind {B} s h hv n sp (k : unit -> K B) :
  k_hubs s !! h = Some hv -> speed_words_ok (usb_speed (hub_usb hv)) -> 0 <= n < 32 ->
  bind (virtusb_hub_set_port_speed h n sp) k s =
    k tt (set_hubs (<[h := set_hub_usb (set_usb_speed (speed_list_set n sp
                       (usb_speed (hub_usb hv))) (hub_usb hv)) hv]> (k_hubs s)) s).
Proof. intros. unfold bind. by rewrite (hub_set_port_speed_eq _ _ hv). Qed.

Lemma hub_mark_eq s h hv n :
  bus_wf (k_ports s) (k_hubs s) -> k_hubs s !! h = Some hv -> port_valid hv n = true ->
  virtusb_hub_mark_port_connection_change (Some h) n s = Some (tt, report h n s).
Proof.
  intros Hwf Hh Hv. pose proof (bw_hub _ _ Hwf _ _ Hh) as W.
  assert (Hn : 0 <= n < 32).
  { pose proof (hw_count _ _ _ W). unfold port_valid, VIRTUSB_MAX_HUB_PORTS in *.
    rewrite andb_true_iff in Hv. lia. }
  unfold virtusb_hub_mark_port_connection_change, bind at 1.
  rewrite (hub_port_is_valid_eq _ _ _ Hh), Hv. cbn [negb].
  unfold bind at 1. rewrite (hub_port_is_connected_eq _ Hwf _ _ Hh).
  unfold report, hub_report, report_events. rewrite Hh.
  destruct (port_connected (k_ports s) h n); cbn [negb].
  - unfold update_change, update_hub. run.
    destruct (bit_test _ _).
    + cbn. rewrite app_nil_r, insert_id by (by destruct hv). by destruct s.
    + run. by erewrite hub_notify_eq by (cbn; apply lookup_insert_eq).
  - unfold update_change, update_usb, update_hub. run.
    erewrite hub_set_port_speed_eq; [ | by cbn; rewrite lookup_insert_eq | apply W | done].
    run. rewrite !insert_insert_eq.
    destruct (bit_test _ _).
    + cbn. by rewrite app_nil_r.
    + run. erewrite hub_notify_eq by (cbn; apply lookup_insert_eq).
      cbn. rewrite !insert_insert_eq. done.
Qed.
End report.

(** ** Preservation of the bus invariant *)

Lemma hub_wf_update m h hv hv' : hub_wf m h hv ->
  hub_port_count hv' = hub_port_count hv ->
  usb_words_ok (hub_usb hv') -> change_words_ok (hub_change hv') -> hub_wf m h hv'.
Proof. intros [] E ? ?. by constructor; rewrite ?E. Qed.

Lemma bus_wf_hub_insert m hs h hv hv' : bus_wf m hs -> hs !! h = Some hv ->
  hub_port_count hv' = hub_port_count hv ->
  usb_words_ok (hub_usb hv') -> change_words_ok (hub_change hv') ->
  bus_wf m (<[h := hv']> hs).
Proof.
  intros [Hb Hp Hd Hr] Hh Ec Hu Hc. constructor; try done.
  - intros h' hv''. rewrite lookup_insert. case_decide; [ | by apply Hb].
    intros [= <-]. subst. eapply hub_wf_update; eauto.
  - intros h' i v Hv. destruct (Hp _ _ _ Hv) as [? ?]. split; [done | ].
    rewrite lookup_insert. by case_decide.
Qed.

Lemma disconnect_words_ok n u : 0 <= n < 32 -> usb_words_ok u ->
  usb_words_ok (disconnect_usb n u).
Proof.
  intros Hn [? ? ? ?]. constructor; cbn; auto with width. by apply speed_list_set_ok.
Qed.

(** The change words only gain bits of a 32-bit word. *)
Lemma report_change_words_ok conn n hv : change_words_ok (hub_change hv) ->
  change_words_ok (hub_change (hub_report conn n hv)).
Proof.
  intros [? ? ? ? ?]. unfold hub_report. cbn.
  destruct (bit_test _ _); constructor; cbn; auto with width.
Qed.

Lemma report_usb_words_ok conn n hv : 0 <= n < 32 -> usb_words_ok (hub_usb hv) ->
  usb_words_ok (hub_usb (hub_report conn n hv)).
Proof. intros. destruct conn; cbn; [done | ]. by apply disconnect_words_ok. Qed.

(** [m'] differs from [m] at most in the connection of port [n] of [h]. *)
Record change_at (h : hub_ptr) (n : Z) (m m' : gmap port_ptr virtusb_port) : Prop := {
  ca_other : forall h' k, ~ (h' = h /\ k = n) ->
    port_connected m' h' k = port_connected m h' k /\
    effective_speed m' h' k = effective_speed m h' k;
  ca_same : port_connected m h n = true -> port_connected m' h n = true ->
    effective_speed m' h n = effective_speed m h n;
}.

(** It is enough to look at which ports were written: the hub port itself and a
    device port that is attached to it or detached. *)
Lemma change_at_other hs h n od m m' : bus_wf m hs ->
  (forall p, p <> HubPort h (n - 1) -> (forall d, od = Some d -> p <> DevPort d) ->
     m' !! p = m !! p) ->
  (forall d v, od = Some d -> m !! DevPort d = Some v ->
     port_peer v = None \/ port_peer v = Some (HubPort h (n - 1))) ->
  forall h' k, ~ (h' = h /\ k = n) ->
    port_connected m' h' k = port_connected m h' k /\
    effective_speed m' h' k = effective_speed m h' k.
Proof.
  intros Hwf Hm Hod h' k Hne.
  assert (E : m' !! HubPort h' (k - 1) = m !! HubPort h' (k - 1)).
  { apply Hm; [ | done]. intros [= -> E]. apply Hne. split; [done | lia]. }
  unfold port_connected, effective_speed. rewrite E.
  destruct (m !! HubPort h' (k - 1)) as [v|] eqn:Ev; [ | done].
  destruct (port_peer v) as [q|] eqn:Eq; [ | done].
  enough (m' !! q = m !! q) as -> by done.
  destruct (bw_hubport _ _ Hwf _ _ _ Ev) as [_ [hv' Hh']].
  destruct (wf_hub_peer _ _ Hwf _ _ _ _ _ Hh' Ev Eq) as (_ & d & w & -> & Hw & Hb & _).
  apply Hm; [done | ]. intros d' Hd' [= <-].
  destruct (Hod _ _ Hd' Hw) as [?|Ho]; [congruence | ].
  rewrite Hb in Ho. injection Ho as -> ?. apply Hne. split; [done | lia].
Qed.

Section settle.
Context `{StatusChangedTable}.
Context (s : kernel) (Hok : bus_ok s).
Context (h : hub_ptr) (hv : virtusb_hub) (Hh : k_hubs s !! h = Some hv).
Context (n : Z) (Hv : port_valid hv n = true).
Context (m : gmap port_ptr virtusb_port) (Hwf : bus_wf m (k_hubs s)).
Context (Hca : change_at h n (k_ports s) m).

Lemma valid_range : 0 <= n < 32.
Proof using Hok Hh Hv.
  destruct Hok as [Hwf0 _]. pose proof (hw_count _ _ _ (bw_hub _ _ Hwf0 _ _ Hh)).
  unfold port_valid, VIRTUSB_MAX_HUB_PORTS in *. rewrite andb_true_iff in Hv. lia.
Qed.

(** Another hub keeps its protocol state. *)
Lemma usb_ok_other_hub h' hv' : h' <> h -> usb_ok (k_ports s) h' hv' -> usb_ok m h' hv'.
Proof using Hca.
  intros Hne Hu k Hk. destruct (ca_other _ _ _ _ Hca h' k) as [-> ->]; [by intros [? ?] | ].
  by apply Hu.
Qed.

Lemma usb_ok_unchanged : port_connected (k_ports s) h n = port_connected m h n -> usb_ok m h hv.
Proof using Hok Hh Hca.
  intros Hc k Hk. destruct Hok as [_ Hu]. specialize (Hu _ _ Hh k Hk).
  destruct (decide (k = n)) as [->|Hne].
  - rewrite Hc in Hu. eapply usb_port_ok_keep; [done | ].
    intros E. apply (ca_same _ _ _ _ Hca); congruence.
  - by destruct (ca_other _ _ _ _ Hca h k) as [-> ->]; [by intros [? ?] | ].
Qed.

(** A reported change: the port lost its connection and is cleared, or it was
    disconnected and hence already clear. *)
Lemma usb_ok_reported :
  port_connected (k_ports s) h n <> port_connected m h n ->
  usb_ok m h (hub_report (port_connected m h n) n hv).
Proof using Hok Hh Hv Hca.
  intros Hc k Hk. pose proof valid_range as Hn.
  destruct Hok as [Hwf0 Hu]. specialize (Hu _ _ Hh k Hk).
  pose proof (hw_usb _ _ _ (bw_hub _ _ Hwf0 _ _ Hh)) as [Hwe Hws Hwr Hwsp].
  unfold hub_report, hub_speed in *.
  destruct (decide (k = n)) as [->|Hne].
  - destruct (port_connected m h n); cbn.
    + destruct (port_connected (k_ports s) h n); [done | ].
      destruct (usb_port_ok_disconnected _ _ _ _ Hu) as (-> & -> & ->).
      apply usb_port_ok_cleared.
    + rewrite !bit_clear_testbit, speed_at_set, Z.eqb_refl, decide_True by (done || lia).
      apply usb_port_ok_cleared.
  - destruct (ca_other _ _ _ _ Hca h k) as [-> ->]; [by intros [? ?] | ].
    destruct (port_connected m h n); cbn; [done | ].
    rewrite !bit_clear_testbit, speed_at_set by (done || lia).
    destruct (Z.eqb_spec n k); [lia | cbn]. by rewrite decide_False by done.
Qed.

Lemma settle_bus_ok : bus_ok (settle h n m s).
Proof using Hok Hh Hv Hwf Hca.
  unfold settle. pose proof valid_range as Hn. destruct Hok as [_ Hu].
  pose proof (bw_hub _ _ Hwf _ _ Hh) as W.
  destruct (eqb _ _) eqn:E.
  - apply eqb_prop in E. split; [done | ]. intros h' hv' Hh'. cbn in *.
    destruct (decide (h' = h)) as [->|]; [ | by apply usb_ok_other_hub; [ | apply Hu]].
    assert (hv' = hv) as -> by congruence. by apply usb_ok_unchanged.
  - apply eqb_false_iff in E. unfold report. cbn. rewrite Hh. split; cbn.
    + eapply bus_wf_hub_insert; eauto.
      * apply report_usb_words_ok; [done | apply W].
      * apply report_change_words_ok, W.
    + intros h' hv'. rewrite lookup_insert. case_decide as Eh.
      * rewrite <- Eh. intros [= <-]. by apply usb_ok_reported.
      * intros Hh'. apply usb_ok_other_hub; [done | by apply Hu].
Qed.

End settle.

(** ** Changing the hardware state of a port *)

Definition with_byte0 (b : bool) (v : virtusb_port) : virtusb_port :=
  set_port_state (set_byte0 b (port_state v)) v.
Definition with_byte1 (b : bool) (v : virtusb_port) : virtusb_port :=
  set_port_state (set_byte1 b (port_state v)) v.

Lemma update_port_insert p f v m : m !! p = Some v -> update_port p f m = <[p := f v]> m.
Proof. apply alter_insert_lookup. Qed.

Lemma bus_wf_update_state m hs p v u : bus_wf m hs -> m !! p = Some v ->
  port_role v <> VIRTUSB_PORT_ROLE_INVALID -> bus_wf (<[p := set_port_state u v]> m) hs.
Proof.
  intros [Hb Hp Hd Hr] Hv Hrole. constructor.
  - intros h hv Hh. destruct (Hb _ _ Hh) as [? ? ? Hports Hdown Hrest].
    constructor; try done.
    + intros i Hi. rewrite lookup_insert. case_decide; [done | by apply Hports].
    + intros i w Hi. rewrite lookup_insert. case_decide as E; [ | by apply Hdown].
      intros [= <-]. subst p. exact (Hdown i v Hi Hv).
    + intros i w Hi. rewrite lookup_insert. case_decide as E; [ | by apply Hrest].
      subst p. rewrite (Hrest i v Hi Hv) in Hrole. done.
  - intros h i w. rewrite lookup_insert. case_decide as E; [ | by apply Hp].
    subst p. intros _. exact (Hp h i v Hv).
  - intros d w. rewrite lookup_insert. case_decide as E; [ | by apply Hd].
    intros [= <-]. subst p. exact (Hd d v Hv).
  - by eapply reciprocal_update.
Qed.

(** Changing the state of a hub port, or of the device port attached to it, is
    a change at that hub port. *)
Lemma change_at_hub_state m hs h n v u : bus_wf m hs -> m !! HubPort h (n - 1) = Some v ->
  change_at h n m (<[HubPort h (n - 1) := set_port_state u v]> m).
Proof.
  intros Hwf Hv. split.
  - apply (change_at_other hs h n None); [done | | done].
    intros p Hp _. by rewrite lookup_insert_ne by done.
  - intros _ _. unfold effective_speed. rewrite lookup_insert_eq, Hv. cbn.
    destruct (port_peer v) as [q|] eqn:Eq; [ | done].
    destruct (bw_hubport _ _ Hwf _ _ _ Hv) as [_ [hv Hh]].
    destruct (wf_hub_peer _ _ Hwf _ _ _ _ _ Hh Hv Eq) as (_ & d & w & -> & _ & _).
    by rewrite lookup_insert_ne by done.
Qed.

Lemma change_at_dev_state m hs h n d v u : bus_wf m hs -> m !! DevPort d = Some v ->
  port_peer v = Some (HubPort h (n - 1)) ->
  change_at h n m (<[DevPort d := set_port_state u v]> m).
Proof.
  intros Hwf Hv Hq. split.
  - apply (change_at_other hs h n (Some d)); [done | | ].
    + intros p _ Hp. rewrite lookup_insert_ne; [done | ]. intros <-. by apply (Hp d).
    + intros d' v' [= <-] Hv'. simplify_eq. by right.
  - intros _ _. unfold effective_speed. rewrite lookup_insert_ne by done.
    destruct (m !! HubPort h (n - 1)) as [w|] eqn:Ew; [ | done].
    destruct (port_peer w) as [q|] eqn:Eq; [ | done].
    destruct (decide (DevPort d = q)) as [<-|].
    + by rewrite lookup_insert_eq, Hv.
    + by rewrite lookup_insert_ne by done.
Qed.

Lemma change_at_link m hs h n d dv uv : bus_wf m hs ->
  m !! HubPort h (n - 1) = Some dv -> m !! DevPort d = Some uv ->
  port_peer dv = None -> port_peer uv = None ->
  change_at h n m (link_ports (HubPort h (n - 1)) (DevPort d) dv uv m).
Proof.
  intros Hwf Hd Hu Pd Pu. split.
  - apply (change_at_other hs h n (Some d)); [done | | ].
    + intros p Hp Hp'. unfold link_ports. specialize (Hp' d eq_refl).
      by rewrite !lookup_insert_ne by congruence.
    + intros d' v [= <-] Hv. simplify_eq. by left.
  - unfold port_connected at 1. by rewrite Hd, Pd.
Qed.

Lemma change_at_unlink m hs h n d dv uv : bus_wf m hs ->
  m !! HubPort h (n - 1) = Some dv -> m !! DevPort d = Some uv ->
  port_peer uv = Some (HubPort h (n - 1)) ->
  change_at h n m (unlink_ports (DevPort d) (HubPort h (n - 1)) uv dv m).
Proof.
  intros Hwf Hd Hu Pu. split.
  - apply (change_at_other hs h n (Some d)); [done | | ].
    + intros p Hp Hp'. unfold unlink_ports. specialize (Hp' d eq_refl).
      by rewrite !lookup_insert_ne by congruence.
    + intros d' v [= <-] Hv. simplify_eq. by right.
  - intros _. unfold port_connected, unlink_ports. by rewrite lookup_insert_eq.
Qed.

(** Linking and unlinking keep the structural invariant. *)
Lemma bus_wf_set_peers m hs h i d dv uv q q' : bus_wf m hs ->
  m !! HubPort h i = Some dv -> m !! DevPort d = Some uv ->
  port_role dv = VIRTUSB_PORT_ROLE_DOWNSTREAM ->
  ports_reciprocal (<[DevPort d := set_peer q uv]> (<[HubPort h i := set_peer q' dv]> m)) ->
  bus_wf (<[DevPort d := set_peer q uv]> (<[HubPort h i := set_peer q' dv]> m)) hs.
Proof.
  intros [Hb Hp Hd _] Hdv Huv Rd Hr. constructor; [ | | | done].
  - intros h' hv Hh. destruct (Hb _ _ Hh) as [? ? ? Hports Hdown Hrest]. constructor; try done.
    + intros k Hk. rewrite lookup_insert_ne, lookup_insert by done.
      case_decide; [done | by apply Hports].
    + intros k w Hk. rewrite lookup_insert_ne, lookup_insert by done.
      case_decide as E; [ | by apply Hdown].
      injection E as -> ->. intros [= <-]. exact (Hdown k dv Hk Hdv).
    + intros k w Hk. rewrite lookup_insert_ne, lookup_insert by done.
      case_decide as E; [ | by apply Hrest].
      injection E as -> ->. rewrite (Hrest k dv Hk Hdv) in Rd. done.
  - intros h' k w. rewrite lookup_insert_ne, lookup_insert by done.
    case_decide as E; [ | by apply Hp]. injection E as -> ->. intros _. exact (Hp h' k dv Hdv).
  - intros d' w. rewrite lookup_insert. case_decide as E.
    + injection E as ->. intros [= <-]. exact (Hd d' uv Huv).
    + rewrite lookup_insert_ne by done. by apply Hd.
Qed.

(** ** Writing operations *)

Section writes.
Context `{StatusChangedTable}.

(** The tail shared by the topology operations: compare the connection with its
    old value and report. *)
Lemma settle_run {B} s h hv n m (k : unit -> K B) :
  bus_wf m (k_hubs s) -> k_hubs s !! h = Some hv -> port_valid hv n = true ->
  (is_connected <- virtusb_hub_port_is_connected (Some h) n ;;
   (if negb (eqb (port_connected (k_ports s) h n) is_connected)
    then virtusb_hub_mark_port_connection_change (Some h) n
    else ret tt) ;; k tt) (set_ports m s) = k tt (settle h n m s).
Proof.
  intros Hwf Hh Hv. unfold bind at 1.
  rewrite (hub_port_is_connected_eq (set_ports m s) Hwf h hv Hh). simpl.
  unfold settle, bind. destruct (eqb _ _); [done | ]. cbn [negb].
  by rewrite (hub_mark_eq (set_ports m s) h hv n Hwf Hh Hv).
Qed.

Definition power_ports (b : bool) (h : hub_ptr) (n : Z) (m : gmap port_ptr virtusb_port) :
    gmap port_ptr virtusb_port := update_port (HubPort h (n - 1)) (with_byte0 b) m.
Definition power_state (b : bool) (h : hub_ptr) (n : Z) (s : kernel) : kernel :=
  settle h n (power_ports b h n (k_ports s)) s.

Section power.
Context (s : kernel) (Hok : bus_ok s).
Context (h : hub_ptr) (hv : virtusb_hub) (Hh : k_hubs s !! h = Some hv).
Context (n : Z) (Hv : port_valid hv n = true) (b : bool).

Lemma power_facts :
  bus_wf (power_ports b h n (k_ports s)) (k_hubs s) /\
  change_at h n (k_ports s) (power_ports b h n (k_ports s)).
Proof using Hok Hh Hv.
  destruct Hok as [Hwf _].
  destruct (wf_port _ _ Hwf _ _ _ Hh Hv) as (v & Ev & Rv & _).
  unfold power_ports. rewrite (update_port_insert _ _ v) by done. split.
  - apply bus_wf_update_state; [done.. | congruence].
  - by eapply change_at_hub_state.
Qed.

Lemma power_state_ok : bus_ok (power_state b h n s).
Proof using Hok Hh Hv.
  destruct power_facts. by eapply settle_bus_ok.
Qed.

Lemma power_run {B} (k : unit -> K B) (err : Z -> K B) :
  (was_connected <- virtusb_hub_port_is_connected (Some h) n ;;
   r <- virtusb_port_set_powered (Some (HubPort h (n - 1))) b ;;
   if r <? 0 then err r
   else
     is_connected <- virtusb_hub_port_is_connected (Some h) n ;;
     (if negb (eqb was_connected is_connected)
      then virtusb_hub_mark_port_connection_change (Some h) n
      else ret tt) ;; k tt) s = k tt (power_state b h n s).
Proof using Hok Hh Hv.
  destruct power_facts as [Hwf' _]. destruct Hok as [Hwf _].
  destruct (wf_port _ _ Hwf _ _ _ Hh Hv) as (v & Ev & Rv & _).
  unfold bind at 1. rewrite (hub_port_is_connected_eq _ Hwf _ _ Hh). cbn iota beta.
  unfold bind at 1. rewrite (port_set_powered_ok _ _ v) by done.
  cbn [Z.ltb Z.compare]. unfold power_state.
  change (<[HubPort h (n - 1):=set_port_state (set_byte0 b (port_state v)) v]> (k_ports s))
    with (<[HubPort h (n - 1):= with_byte0 b v]> (k_ports s)).
  rewrite <- update_port_insert by done.
  by apply (settle_run s h hv n).
Qed.
End power.

Lemma hub_set_port_power_eq s h hv n b :
  bus_ok s -> k_hubs s !! h = Some hv -> port_valid hv n = true ->
  hub_power_switching_mode hv = VIRTUSB_HUB_POWER_SWITCHING_INDIVIDUAL ->
  virtusb_hub_set_port_power (Some h) n b s = Some (0, power_state b h n s).
Proof.
  intros Hok Hh Hv Hm. pose proof Hok as [Hwf _].
  unfold virtusb_hub_set_port_power, bind at 1.
  rewrite (hub_get_port_eq _ _ _ Hh), Hv. unfold bind at 1. unfold load at 1. rewrite Hh.
  rewrite Hm, bool_decide_eq_false_2 by done.
  exact (power_run s Hok h hv Hh n Hv b (fun _ => ret 0) ret).
Qed.

Lemma hub_set_port_power_invalid s h hv n b :
  k_hubs s !! h = Some hv -> port_valid hv n = false ->
  virtusb_hub_set_port_power (Some h) n b s = Some (- EINVAL, s).
Proof.
  intros Hh Hv. unfold virtusb_hub_set_port_power, bind at 1.
  by rewrite (hub_get_port_eq _ _ _ Hh), Hv.
Qed.

(** What reporting keeps. *)
Lemma settle_hub_lookup h n m s h' hv' : k_hubs s !! h' = Some hv' ->
  exists hv'', k_hubs (settle h n m s) !! h' = Some hv'' /\
    hub_port_count hv'' = hub_port_count hv' /\
    hub_power_switching_mode hv'' = hub_power_switching_mode hv'.
Proof.
  intros Hh'. unfold settle. destruct (eqb _ _); cbn; [by exists hv' | ].
  unfold report. cbn. destruct (k_hubs s !! h) as [hv|] eqn:Hh; cbn; [ | by exists hv'].
  rewrite lookup_insert. case_decide; subst; simplify_eq; eauto.
Qed.

Lemma settle_ports h n m s : k_ports (settle h n m s) = m.
Proof.
  unfold settle. destruct (eqb _ _); cbn; [done | ]. unfold report. cbn.
  by destruct (k_hubs s !! h).
Qed.

(** All ports, in increasing order. *)
Fixpoint power_all (b : bool) (h : hub_ptr) (k : nat) (n : Z) (s : kernel) : kernel :=
  match k with
  | O => s
  | S k => power_all b h k (n + 1) (power_state b h n s)
  end.

Definition power_body (b : bool) (h : hub_ptr) (port_number : Z) : K (option Z) :=
  was_connected <- virtusb_hub_port_is_connected (Some h) port_number ;;
  r <- virtusb_port_set_powered (Some (HubPort h (port_number - 1))) b ;;
  if r <? 0 then ret (Some r)
  else
    is_connected <- virtusb_hub_port_is_connected (Some h) port_number ;;
    (if negb (eqb was_connected is_connected)
     then virtusb_hub_mark_port_connection_change (Some h) port_number
     else ret tt) ;;
    ret None.

Lemma power_loop b h k : forall n s hv, bus_ok s -> k_hubs s !! h = Some hv ->
  1 <= n -> n + Z.of_nat k <= hub_port_count hv + 1 ->
  for_from k n (power_body b h) s = Some (None, power_all b h k n s) /\
  bus_ok (power_all b h k n s).
Proof.
  induction k as [|k IH]; intros n s hv Hok Hh Hn Hk; [done | ].
  assert (Hv : port_valid hv n = true)
    by (unfold port_valid; rewrite andb_true_iff; lia).
  destruct (settle_hub_lookup h n (power_ports b h n (k_ports s)) s h hv Hh)
    as (hv' & Hh' & Ec & _).
  pose proof (power_state_ok s Hok h hv Hh n Hv b) as Hok'.
  assert (E : power_body b h n s = Some (None, power_state b h n s))
    by exact (power_run s Hok h hv Hh n Hv b (fun _ => ret None) (fun r => ret (Some r))).
  cbn [for_from power_all]. unfold bind. rewrite E.
  apply (IH (n + 1) _ hv'); [done | done | lia | rewrite Ec; lia].
Qed.

Lemma hub_set_all_ports_power_eq s h hv b :
  bus_ok s -> k_hubs s !! h = Some hv ->
  virtusb_hub_set_all_ports_power (Some h) b s =
    Some (0, power_all b h (Z.to_nat (hub_port_count hv)) 1 s) /\
  bus_ok (power_all b h (Z.to_nat (hub_port_count hv)) 1 s).
Proof.
  intros Hok Hh. pose proof (hw_count _ _ _ (bw_hub _ _ (proj1 Hok) _ _ Hh)).
  destruct (power_loop b h (Z.to_nat (hub_port_count hv)) 1 s hv Hok Hh) as [E Hok'];
    [lia.. | ].
  split; [ | done].
  unfold virtusb_hub_set_all_ports_power, bind at 1. unfold load. rewrite Hh.
  unfold bind at 1, for_range.
  replace (hub_port_count hv + 1 - 1) with (hub_port_count hv) by lia.
  fold (power_body b h). by rewrite E.
Qed.
End writes.

(** ** Port reset *)

Section reset.
Context `{StatusChangedTable}.

Definition reset_usb (n : Z) (sp : virtusb_port_speed) (u : usb_state) : usb_state :=
  mk_usb_state (bit_set (bit_clear (usb_enabled u) n) n) (bit_clear (usb_suspended u) n)
    (bit_clear (bit_set (usb_reset u) n) n) (speed_list_set n sp (usb_speed u)).

Definition reset_change (n : Z) (c : usb_change) : usb_change :=
  if bit_test (ch_reset c) n then c else set_ch_reset (bit_set (ch_reset c) n) c.

Definition reset_hub (n : Z) (sp : virtusb_port_speed) (hv : virtusb_hub) : virtusb_hub :=
  set_hub_change (reset_change n (hub_change hv)) (set_hub_usb (reset_usb n sp (hub_usb hv)) hv).

Definition reset_events (h : hub_ptr) (n : Z) (hv : virtusb_hub) : list event :=
  if bit_test (ch_reset (hub_change hv)) n then [] else notify_events h hv.

(** The state after resetting port [n] of the hub [hv] at [h]. *)
Definition reset_state (h : hub_ptr) (hv : virtusb_hub) (n : Z) (s : kernel) : kernel :=
  set_trace (k_trace s ++ reset_events h n hv)
    (set_hubs (<[h := reset_hub n (effective_speed (k_ports s) h n) hv]> (k_hubs s)) s).

(** Two ends with valid capability masks share a speed: hub ports support all
    of them. *)
Lemma connected_speed s h hv n :
  bus_wf (k_ports s) (k_hubs s) -> k_hubs s !! h = Some hv ->
  port_connected (k_ports s) h n = true ->
  effective_speed (k_ports s) h n <> VIRTUSB_PORT_SPEED_NONE.
Proof.
  intros Hwf Hh Hc. pose proof (wf_connected_valid _ _ Hwf _ _ _ Hh Hc) as Hv.
  destruct (wf_port _ _ Hwf _ _ _ Hh Hv) as (v & Ev & _ & _ & Esp).
  unfold port_connected in Hc. rewrite Ev in Hc. unfold effective_speed. rewrite Ev.
  destruct (port_peer v) as [q|] eqn:Eq; [ | done].
  destruct (wf_hub_peer _ _ Hwf _ _ _ _ _ Hh Ev Eq) as (_ & d & w & -> & Ew & _ & Rw).
  rewrite Ew. destruct (decide _); [ | done]. rewrite Esp.
  destruct (bw_devport _ _ Hwf _ _ Ew) as (_ & _ & Hcaps). unfold speed_caps_ok in Hcaps.
  assert (Hin : in_width 3 (port_speed w)) by (unfold in_width; lia).
  destruct (decide (port_speed w = 0)) as [|Hne]; [lia | ].
  assert (E : negb (bool_decide (speed_of_caps (Z.land VIRTUSB_PORT_SPEED_CAP_ALL (port_speed w))
              = VIRTUSB_PORT_SPEED_NONE)) || (port_speed w =? 0) = true).
  { revert Hin. generalize (port_speed w). apply forall_range. by vm_compute. }
  rewrite orb_true_iff, Z.eqb_eq in E. destruct E as [E|]; [ | done].
  apply negb_true_iff in E. by apply bool_decide_eq_false in E.
Qed.

Lemma hub_reset_port_eq s h hv n :
  bus_wf (k_ports s) (k_hubs s) -> k_hubs s !! h = Some hv ->
  virtusb_hub_reset_port (Some h) n s =
    Some (if port_valid hv n
          then if port_connected (k_ports s) h n then (0, reset_state h hv n s)
               else (- ENODEV, s)
          else (- EINVAL, s)).
Proof.
  intros Hwf Hh. unfold virtusb_hub_reset_port, bind at 1.
  rewrite (hub_port_is_valid_eq _ _ _ Hh).
  destruct (port_valid hv n) eqn:Hv; cbn [negb]; [ | done].
  unfold bind at 1. rewrite (hub_port_is_connected_eq _ Hwf _ _ Hh).
  destruct (port_connected (k_ports s) h n) eqn:Hc; cbn [negb]; [ | done].
  unfold bind at 1. rewrite (hub_determine_port_speed_eq _ Hwf _ _ Hh).
  rewrite bool_decide_eq_false_2 by (by eapply connected_speed).
  pose proof (bw_hub _ _ Hwf _ _ Hh) as W.
  assert (Hn : 0 <= n < 32).
  { pose proof (hw_count _ _ _ W). unfold port_valid, VIRTUSB_MAX_HUB_PORTS in *.
    rewrite andb_true_iff in Hv. lia. }
  unfold update_change, update_usb, update_hub. run.
  erewrite hub_set_port_speed_eq; [ | by cbn; rewrite lookup_insert_eq | apply W | done].
  run. unfold reset_state, reset_hub, reset_events, reset_change.
  destruct (bit_test _ _); cbn [negb].
  - cbn. by rewrite !insert_insert_eq, app_nil_r.
  - run. erewrite hub_notify_eq by (cbn; apply lookup_insert_eq).
    cbn. rewrite !insert_insert_eq. done.
Qed.

Lemma reset_usb_testbits n sp u k : usb_words_ok u -> 0 <= n < 32 -> 0 <= k < 32 ->
  Z.testbit (usb_enabled (reset_usb n sp u)) k = (n =? k) || Z.testbit (usb_enabled u) k /\
  Z.testbit (usb_suspended (reset_usb n sp u)) k =
    negb (n =? k) && Z.testbit (usb_suspended u) k /\
  Z.testbit (usb_reset (reset_usb n sp u)) k = negb (n =? k) && Z.testbit (usb_reset u) k /\
  speed_at (usb_speed (reset_usb n sp u)) k =
    if decide (n = k) then sp else speed_at (usb_speed u) k.
Proof.
  intros [? ? ? ?] Hn Hk. cbn.
  rewrite bit_set_testbit, !bit_clear_testbit, bit_set_testbit, speed_at_set
    by (auto with width || lia).
  by destruct (Z.eqb_spec n k); cbn.
Qed.

Lemma reset_words_ok n sp hv : 0 <= n < 32 -> usb_words_ok (hub_usb hv) ->
  change_words_ok (hub_change hv) ->
  usb_words_ok (hub_usb (reset_hub n sp hv)) /\ change_words_ok (hub_change (reset_hub n sp hv)).
Proof.
  intros Hn [? ? ? ?] [? ? ? ? ?]. split.
  - constructor; cbn; auto with width. by apply speed_list_set_ok.
  - unfold reset_hub, reset_change. cbn.
    destruct (bit_test _ _); constructor; cbn; auto with width.
Qed.

Lemma reset_bus_ok s h hv n : bus_ok s -> k_hubs s !! h = Some hv ->
  port_connected (k_ports s) h n = true -> bus_ok (reset_state h hv n s).
Proof.
  intros [Hwf Hu] Hh Hc. pose proof (bw_hub _ _ Hwf _ _ Hh) as W.
  pose proof (wf_connected_valid _ _ Hwf _ _ _ Hh Hc) as Hv.
  assert (Hn : 0 <= n < 32).
  { pose proof (hw_count _ _ _ W). unfold port_valid, VIRTUSB_MAX_HUB_PORTS in *.
    rewrite andb_true_iff in Hv. lia. }
  destruct (reset_words_ok n (effective_speed (k_ports s) h n) hv Hn (hw_usb _ _ _ W)
              (hw_change _ _ _ W)) as [? ?].
  split; cbn.
  - by eapply bus_wf_hub_insert.
  - intros h' hv'. rewrite lookup_insert. case_decide as Eh; [ | by apply Hu].
    subst h'. intros [= <-] k Hk. unfold hub_speed, reset_hub. cbn [hub_usb set_hub_change set_hub_usb].
    destruct (reset_usb_testbits n (effective_speed (k_ports s) h n) (hub_usb hv) k
                (hw_usb _ _ _ W) Hn Hk) as (-> & _ & -> & ->).
    destruct (Z.eqb_spec n k) as [<-|]; cbn.
    + rewrite decide_True by done. rewrite Hc.
      split; [ | done]. intros _. split; [done | ]. by eapply connected_speed.
    + rewrite decide_False by done. by apply Hu.
Qed.
End reset.

(** ** Initialisation *)

Section init.
Implicit Types (m : gmap port_ptr virtusb_port) (h : hub_ptr).

(** Writing [f i] to [k] consecutive entries of the port array. *)
Fixpoint write_ports h (f : Z -> virtusb_port) (k : nat) (lo : Z) m :=
  match k with
  | O => m
  | S k => write_ports h f k (lo + 1) (<[HubPort h lo := f lo]> m)
  end.

Lemma write_ports_lookup h f k : forall lo m p,
  write_ports h f k lo m !! p =
    match p with
    | HubPort h' i => if decide (h' = h /\ lo <= i < lo + Z.of_nat k) then Some (f i) else m !! p
    | DevPort _ => m !! p
    end.
Proof.
  induction k as [|k IH]; intros lo m p; cbn [write_ports].
  - destruct p as [d|h' i]; [done | ]. by rewrite decide_False by (intros [_ ?]; lia).
  - rewrite IH. destruct p as [d|h' i]; [by rewrite lookup_insert_ne by done | ].
    destruct (decide (h' = h)) as [->|].
    + destruct (decide (i = lo)) as [->|].
      * rewrite decide_False, decide_True by (try (intros [_ ?]); try split; done || lia).
        by rewrite lookup_insert_eq.
      * rewrite lookup_insert_ne by congruence.
        destruct (decide (lo <= i < lo + Z.of_nat (S k))).
        -- rewrite !decide_True by (split; [done | lia]). done.
        -- rewrite !decide_False by (intros [_ ?]; lia). done.
    + rewrite !decide_False by tauto. by rewrite lookup_insert_ne by congruence.
Qed.

Lemma store_loop h f (body : Z -> K (option Z)) k : forall lo s,
  (forall i s', lo <= i < lo + Z.of_nat k -> is_Some (k_ports s' !! HubPort h i) ->
     body i s' = Some (None, set_ports (<[HubPort h i := f i]> (k_ports s')) s')) ->
  (forall i, lo <= i < lo + Z.of_nat k -> is_Some (k_ports s !! HubPort h i)) ->
  for_from k lo body s = Some (None, set_ports (write_ports h f k lo (k_ports s)) s).
Proof.
  induction k as [|k IH]; intros lo s Hbody Hlive; cbn [for_from write_ports].
  - by rewrite set_ports_id.
  - unfold bind. rewrite Hbody by (lia || apply Hlive; lia). rewrite IH.
    + by rewrite set_ports_twice.
    + intros i s' Hi. apply Hbody. lia.
    + intros i Hi. simpl. rewrite lookup_insert. case_decide; [done | ]. apply Hlive. lia.
Qed.

Lemma memset_loop h k : forall lo s,
  (forall i, lo <= i < lo + Z.of_nat k -> is_Some (k_ports s !! HubPort h i)) ->
  for_from k lo (fun i => store_port (HubPort h i) zero_port ;; ret (@None unit)) s =
    Some (None, set_ports (write_ports h (fun _ => zero_port) k lo (k_ports s)) s).
Proof.
  induction k as [|k IH]; intros lo s Hlive; cbn [for_from write_ports].
  - by rewrite set_ports_id.
  - destruct (Hlive lo) as [v Ev]; [lia | ]. unfold bind at 1. unfold bind at 1.
    unfold store at 1. rewrite Ev. cbn -[for_from set_ports]. rewrite IH.
    + by rewrite set_ports_twice.
    + intros i Hi. simpl. rewrite lookup_insert. case_decide; [done | ]. apply Hlive. lia.
Qed.

Lemma memset_hub_eq s h :
  is_Some (k_hubs s !! h) ->
  (forall i, 0 <= i < VIRTUSB_MAX_HUB_PORTS -> is_Some (k_ports s !! HubPort h i)) ->
  memset_hub h s = Some (tt,
    set_ports (write_ports h (fun _ => zero_port) 31 0 (k_ports s))
      (set_hubs (<[h := zero_hub]> (k_hubs s)) s)).
Proof.
  intros [hv Hh] Hlive. unfold memset_hub.
  unfold bind at 1, store at 1. rewrite Hh. unfold bind at 1. unfold for_range, VIRTUSB_MAX_HUB_PORTS.
  change (Z.to_nat (31 - 0)) with 31%nat.
  by rewrite memset_loop by exact Hlive.
Qed.

Definition init_port (h : hub_ptr) : virtusb_port :=
  mk_port VIRTUSB_PORT_ROLE_DOWNSTREAM (Some (OwnerHub h)) VIRTUSB_PORT_SPEED_CAP_ALL None
    (mk_port_union false false).
Definition init_hub (port_count : Z) : virtusb_hub :=
  mk_hub port_count VIRTUSB_HUB_POWER_SWITCHING_INDIVIDUAL VIRTUSB_HUB_OVER_CURRENT_PER_PORT
    false zero_usb zero_change None None.
Definition init_ports (h : hub_ptr) (port_count : Z) (m : gmap port_ptr virtusb_port) :=
  write_ports h (fun _ => init_port h) (Z.to_nat port_count) 0
    (write_ports h (fun _ => zero_port) 31 0 m).

Lemma init_ports_lookup h n m p : 1 <= n <= VIRTUSB_MAX_HUB_PORTS ->
  init_ports h n m !! p =
    match p with
    | HubPort h' i =>
        if decide (h' = h /\ 0 <= i < VIRTUSB_MAX_HUB_PORTS)
        then Some (if i <? n then init_port h else zero_port) else m !! p
    | DevPort _ => m !! p
    end.
Proof.
  unfold VIRTUSB_MAX_HUB_PORTS. intros Hn. unfold init_ports. rewrite !write_ports_lookup.
  destruct p as [d|h' i]; [done | ]. destruct (decide (h' = h)) as [->|].
  - destruct (decide (0 <= i < 31)) as [Hi|Hi].
    + destruct (Z.ltb_spec i n).
      * rewrite !decide_True by (split; [done | lia]). done.
      * rewrite (decide_False (P := h = h /\ 0 <= i < 0 + Z.of_nat (Z.to_nat n)))
          by (intros [_ ?]; lia).
        by rewrite !decide_True by (split; [done | lia]).
    + by rewrite !decide_False by (intros [_ ?]; lia).
  - by rewrite !decide_False by tauto.
Qed.

Lemma port_init_ok s p v role speed owner :
  k_ports s !! p = Some v -> role <> VIRTUSB_PORT_ROLE_INVALID ->
  virtusb_port_speed_is_valid speed = true ->
  virtusb_port_init (Some p) role speed (Some owner) s =
    Some (0, set_ports (<[p := mk_port role (Some owner) speed None
                                (mk_port_union false false)]> (k_ports s)) s).
Proof.
  intros Hp Hr Hs. unfold virtusb_port_init. rewrite Hs. destruct role; [done | by run..].
Qed.

Lemma hub_init_eq s h n :
  is_Some (k_hubs s !! h) ->
  (forall i, 0 <= i < VIRTUSB_MAX_HUB_PORTS -> is_Some (k_ports s !! HubPort h i)) ->
  1 <= n <= VIRTUSB_MAX_HUB_PORTS ->
  virtusb_hub_init (Some h) n s =
    Some (0, set_ports (init_ports h n (k_ports s))
               (set_hubs (<[h := init_hub n]> (k_hubs s)) s)).
Proof.
  unfold VIRTUSB_MAX_HUB_PORTS. intros Hh Hlive Hn.
  unfold virtusb_hub_init, VIRTUSB_MAX_HUB_PORTS.
  destruct (Z.eqb_spec n 0); [lia | ]. destruct (Z.ltb_spec 31 n); [lia | ]. cbn [orb].
  unfold bind at 1. rewrite memset_hub_eq by done.
  set (s1 := set_ports _ _).
  assert (H1 : k_hubs s1 !! h = Some zero_hub) by apply lookup_insert_eq.
  unfold bind at 1, load at 1. rewrite H1. unfold bind at 1, store at 1. rewrite H1.
  unfold bind at 1, for_range. rewrite Z.sub_0_r.
  rewrite (store_loop h (fun _ => init_port h)).
  - cbn. unfold set_hubs, set_ports, ret. cbn.
    rewrite insert_insert_eq, (wrap_small 8 n) by (unfold in_width; lia). done.
  - intros i s' Hi [v Hv]. unfold bind at 1.
    rewrite (port_init_ok _ _ v) by done. done.
  - intros i Hi. unfold s1. cbn -[write_ports].
    rewrite write_ports_lookup. case_decide; [done | ]. apply Hlive. lia.
Qed.

(** Creating a root hub in fresh memory extends the bus. *)
Section hub_init.
Context (s : kernel) (h : hub_ptr) (n : Z) (Hok : bus_ok s) (Hh : k_hubs s !! h = None).
Context (Hn : 1 <= n <= VIRTUSB_MAX_HUB_PORTS).

(** No port of a hub that does not exist yet. *)
Lemma new_hub_port i : k_ports s !! HubPort h i = None.
Proof using Hok Hh.
  destruct Hok as [Hwf _]. destruct (k_ports s !! HubPort h i) eqn:E; [ | done].
  destruct (bw_hubport _ _ Hwf _ _ _ E) as [_ [? ?]]. congruence.
Qed.
(** All other ports stay, with their peers. *)
Lemma init_ports_other p : (forall i, p <> HubPort h i) -> init_ports h n (k_ports s) !! p = k_ports s !! p.
Proof using Hn.
  intros Hp. rewrite init_ports_lookup by done. destruct p as [d|h' i]; [done | ].
  rewrite decide_False; [done | ]. intros [-> _]. by apply (Hp i).
Qed.
Lemma peer_not_new p v q : k_ports s !! p = Some v -> port_peer v = Some q -> forall i, q <> HubPort h i.
Proof using Hok Hh.
  intros Hp Hq i ->. destruct Hok as [Hwf _]. destruct (bw_recip _ _ Hwf _ _ _ Hp Hq) as (w & Hw & _).
  by rewrite new_hub_port in Hw.
Qed.
Lemma init_ports_view h' k : h' <> h ->
  port_connected (init_ports h n (k_ports s)) h' k = port_connected (k_ports s) h' k /\
  effective_speed (init_ports h n (k_ports s)) h' k = effective_speed (k_ports s) h' k.
Proof using Hok Hh Hn.
  intros Hne. unfold port_connected, effective_speed.
  rewrite init_ports_other by congruence. destruct (k_ports s !! _) as [v|] eqn:Ev; [ | done].
  destruct (port_peer v) as [q|] eqn:Eq; [ | done].
  rewrite init_ports_other by exact (peer_not_new _ _ _ Ev Eq). done.
Qed.

(** A cleared hub has nothing to report. *)
Lemma zero_speed k : 0 <= k < 32 ->
  speed_at (usb_speed zero_usb) k = VIRTUSB_PORT_SPEED_NONE.
Proof using.
  intros Hk. assert (F : bool_decide (speed_at (usb_speed zero_usb) k = VIRTUSB_PORT_SPEED_NONE) = true).
  { revert k Hk. apply forall_range. by vm_compute. }
  by apply bool_decide_eq_true in F.
Qed.

Lemma hub_init_bus_ok :
  bus_ok (set_ports (init_ports h n (k_ports s)) (set_hubs (<[h := init_hub n]> (k_hubs s)) s)).
Proof using Hok Hh Hn.
  pose proof Hok as [Hwf Hu]. split; [constructor | ]; cbn.
  - intros h' hv'. rewrite lookup_insert. case_decide as E.
    + intros [= <-]. subst h'. constructor; cbn; try done.
      * by repeat constructor.
      * intros i Hi. rewrite init_ports_lookup, decide_True by done. by eexists.
      * intros i v Hi. rewrite init_ports_lookup by done. case_decide; [ | by rewrite new_hub_port].
        destruct (Z.ltb_spec i n); [ | lia]. by intros [= <-].
      * intros i v Hi. rewrite init_ports_lookup by done. case_decide; [ | by rewrite new_hub_port].
        destruct (Z.ltb_spec i n); [lia | ]. by intros [= <-].
    + intros Hh'. destruct (bw_hub _ _ Hwf _ _ Hh') as [? ? ? Hports Hdown Hrest].
      constructor; try done.
      * intros i Hi. rewrite init_ports_other by congruence. by apply Hports.
      * intros i v Hi. rewrite init_ports_other by congruence. by apply Hdown.
      * intros i v Hi. rewrite init_ports_other by congruence. by apply Hrest.
  - intros h' i v. rewrite init_ports_lookup by done. case_decide as E.
    + intros _. destruct E as [-> ?]. split; [done | ]. by rewrite lookup_insert_eq.
    + intros Hv. destruct (bw_hubport _ _ Hwf _ _ _ Hv) as [? ?]. split; [done | ].
      rewrite lookup_insert. by case_decide.
  - intros d v. rewrite init_ports_other by done. apply (bw_devport _ _ Hwf).
  - intros p v q Hp Hq. assert (Hps : k_ports s !! p = Some v).
    { rewrite init_ports_lookup in Hp by done. destruct p as [d|h' i]; [done | ].
      case_decide; [ | done]. injection Hp as <-. by destruct (i <? n). }
    destruct (bw_recip _ _ Hwf _ _ _ Hps Hq) as (w & Hw & ?). exists w.
    rewrite init_ports_other by exact (peer_not_new _ _ _ Hps Hq). done.
  - intros h' hv'. rewrite lookup_insert. case_decide as E.
    + intros [= <-] k Hk. unfold hub_speed. cbn. rewrite zero_speed, Z.bits_0 by done. apply usb_port_ok_cleared.
    + intros Hh' k Hk. destruct (init_ports_view h' k) as [-> ->]; [congruence | ]. by apply Hu.
Qed.
End hub_init.
End init.

(** ** Topology steps

    What every operation on attachment, signalling or power guarantees about the
    USB-visible side: a changed connection is pending as C_PORT_CONNECTION, and
    the owner of the hub is notified when the condition was not pending yet. *)

Section steps.
Context `{StatusChangedTable}.

Definition connection_pending (hv : virtusb_hub) (n : Z) : bool :=
  Z.testbit (ch_connected (hub_change hv)) n.

Record hub_step (hv hv' : virtusb_hub) : Prop := {
  hs_count : hub_port_count hv' = hub_port_count hv;
  hs_power : hub_power_switching_mode hv' = hub_power_switching_mode hv;
  hs_oc : hub_over_current_mode hv' = hub_over_current_mode hv;
  hs_fn : hub_status_changed hv' = hub_status_changed hv;
  hs_ctx : hub_status_changed_context hv' = hub_status_changed_context hv;
  hs_pending : forall n, 0 <= n -> connection_pending hv n = true ->
    connection_pending hv' n = true;
}.

Record topology_step (s s' : kernel) : Prop := {
  ts_hub : forall h hv, k_hubs s !! h = Some hv ->
    exists hv', k_hubs s' !! h = Some hv' /\ hub_step hv hv';
  ts_trace : exists l, k_trace s' = k_trace s ++ l /\ Forall is_notification l;
  ts_reported : forall h hv' n, 0 <= n -> k_hubs s' !! h = Some hv' ->
    port_connected (k_ports s) h n <> port_connected (k_ports s') h n ->
    connection_pending hv' n = true;
  ts_notified : forall h hv hv' n, 0 <= n ->
    k_hubs s !! h = Some hv -> k_hubs s' !! h = Some hv' ->
    connection_pending hv n = false -> connection_pending hv' n = true ->
    exists l1 l2, k_trace s' = k_trace s ++ l1 ++ notify_events h hv ++ l2;
}.

Lemma hub_step_refl hv : hub_step hv hv.
Proof. by constructor. Qed.
Lemma hub_step_trans hv1 hv2 hv3 : hub_step hv1 hv2 -> hub_step hv2 hv3 -> hub_step hv1 hv3.
Proof. intros [] []. constructor; [congruence.. | auto]. Qed.

Lemma notify_events_step h hv hv' : hub_step hv hv' -> notify_events h hv' = notify_events h hv.
Proof. intros [_ _ _ Ef Ec _]. unfold notify_events. by rewrite Ef, Ec. Qed.

Lemma topology_step_refl s : topology_step s s.
Proof.
  constructor; [ | by exists []; rewrite app_nil_r; split | done | ].
  - intros h hv Hh. exists hv. by split; [ | apply hub_step_refl].
  - intros h hv hv' n _ E E'. rewrite E in E'. injection E' as ->. congruence.
Qed.

Lemma topology_step_trans s1 s2 s3 : dom (k_hubs s3) ⊆ dom (k_hubs s1) ->
  topology_step s1 s2 -> topology_step s2 s3 -> topology_step s1 s3.
Proof.
  intros Hdom [H1 (l1 & T1 & F1) R1 N1] [H2 (l2 & T2 & F2) R2 N2]. constructor.
  - intros h hv Hh. destruct (H1 _ _ Hh) as (hv2 & Hh2 & S1).
    destruct (H2 _ _ Hh2) as (hv3 & Hh3 & S2). exists hv3.
    split; [done | by eapply hub_step_trans].
  - exists (l1 ++ l2). rewrite T2, T1, app_assoc. split; [done | by apply Forall_app].
  - intros h hv3 n Hn Hh3 Hne.
    destruct (proj1 (elem_of_dom (k_hubs s1) h)) as [hv Hh].
    { apply Hdom, elem_of_dom. by eexists. }
    destruct (H1 _ _ Hh) as (hv2 & Hh2 & S1). destruct (H2 _ _ Hh2) as (hv3' & Hh3' & S2).
    simplify_eq.
    destruct (decide (port_connected (k_ports s1) h n = port_connected (k_ports s2) h n))
      as [E|E].
    + rewrite E in Hne. by eapply R2.
    + apply S2; [done | ]. by eapply R1.
  - intros h hv hv3 n Hn Hh Hh3 Hp Hp3.
    destruct (H1 _ _ Hh) as (hv2 & Hh2 & S1).
    destruct (connection_pending hv2 n) eqn:E.
    + destruct (N1 _ _ _ _ Hn Hh Hh2 Hp E) as (a & b & Et).
      exists a, (b ++ l2). by rewrite T2, Et, <- !app_assoc.
    + destruct (N2 _ _ _ _ Hn Hh2 Hh3 E Hp3) as (a & b & Et).
      exists (l1 ++ a), b. by rewrite Et, T1, (notify_events_step _ _ _ S1), <- !app_assoc.
Qed.

Lemma report_hub_step conn n hv : 0 <= n < 32 -> change_words_ok (hub_change hv) ->
  hub_step hv (hub_report conn n hv) /\ connection_pending (hub_report conn n hv) n = true.
Proof.
  intros Hn [Hw _ _ _ _]. split.
  - constructor; try done. intros k Hk. unfold connection_pending, hub_report. cbn.
    destruct (bit_test _ _); cbn; [done | ].
    rewrite bit_set_testbit by (done || lia). intros ->. apply orb_true_r.
  - unfold connection_pending, hub_report. cbn.
    destruct (bit_test _ _) eqn:E; cbn.
    + by rewrite bit_test_spec in E by lia.
    + rewrite bit_set_testbit, Z.eqb_refl by (done || lia). done.
Qed.

Lemma report_quiet h n hv : Forall is_notification (report_events h n hv).
Proof.
  unfold report_events, notify_events. destruct (bit_test _ _); [done | ].
  destruct (hub_status_changed hv); [apply status_changed_quiet | done].
Qed.

Lemma settle_topology_step s h hv n m :
  bus_ok s -> k_hubs s !! h = Some hv -> port_valid hv n = true ->
  change_at h n (k_ports s) m -> topology_step s (settle h n m s).
Proof.
  intros Hok Hh Hv Hca. pose proof (valid_range s Hok h hv Hh n Hv) as Hn.
  pose proof (hw_change _ _ _ (bw_hub _ _ (proj1 Hok) _ _ Hh)) as Hcw.
  destruct (report_hub_step (port_connected m h n) n hv Hn Hcw) as [Hstep Hpend].
  assert (Hother : forall h' k, ~ (h' = h /\ k = n) ->
            port_connected (k_ports s) h' k = port_connected m h' k).
  { intros h' k Hne. by destruct (ca_other _ _ _ _ Hca h' k Hne). }
  unfold settle. destruct (eqb _ _) eqn:E.
  { apply eqb_prop in E. constructor.
    - intros h' hv' Hh'. exists hv'. by split; [ | apply hub_step_refl].
    - exists []. rewrite app_nil_r. by split.
    - intros h' hv' k Hk _ Hne. exfalso. apply Hne. simpl.
      destruct (decide (h' = h /\ k = n)) as [[-> ->]|]; [done | by apply Hother].
    - intros h' hv1 hv2 k _ E1 E2. simpl in E2. rewrite E1 in E2. injection E2 as ->. congruence. }
  unfold report. simpl. rewrite Hh. constructor; simpl.
  - intros h' hv' Hh'. rewrite lookup_insert. case_decide as Eh.
    + subst h'. simplify_eq. by eexists.
    + exists hv'. by split; [ | apply hub_step_refl].
  - eexists. split; [done | apply report_quiet].
  - intros h' hv' k Hk. rewrite lookup_insert. case_decide as Eh.
    + subst h'. intros [= <-] Hne. destruct (decide (k = n)) as [->|Hkn]; [done | ].
      exfalso. apply Hne, Hother. by intros [_ ?].
    + intros _ Hne. exfalso. apply Hne, Hother. intros [? _]. congruence.
  - intros h' hv1 hv2 k Hk E1. rewrite lookup_insert. case_decide as Eh.
    + subst h'. simplify_eq. intros [= <-] Hp1 Hp2.
      assert (k = n) as ->.
      { unfold connection_pending, hub_report in *. cbn in Hp2.
        destruct (bit_test _ _); cbn in Hp2; [congruence | ].
        rewrite bit_set_testbit, Hp1, orb_false_r in Hp2 by (apply Hcw || lia). lia. }
      exists [], []. unfold report_events. rewrite bit_test_spec by lia.
      unfold connection_pending in Hp1. by rewrite Hp1, app_nil_r.
    + intros E2. rewrite E1 in E2. injection E2 as ->. congruence.
Qed.

Lemma settle_hubs_dom h n m s : dom (k_hubs (settle h n m s)) = dom (k_hubs s).
Proof.
  unfold settle. destruct (eqb _ _); [done | ]. unfold report. simpl.
  destruct (k_hubs s !! h) as [hv|] eqn:Hh; [ | done]. simpl.
  apply dom_insert_lookup_L. by eexists.
Qed.

Lemma power_all_step b h k : forall n s hv, bus_ok s -> k_hubs s !! h = Some hv ->
  1 <= n -> n + Z.of_nat k <= hub_port_count hv + 1 ->
  topology_step s (power_all b h k n s) /\ dom (k_hubs (power_all b h k n s)) = dom (k_hubs s).
Proof.
  induction k as [|k IH]; intros n s hv Hok Hh Hn Hk; cbn [power_all].
  { split; [apply topology_step_refl | done]. }
  assert (Hv : port_valid hv n = true)
    by (unfold port_valid; rewrite andb_true_iff; lia).
  destruct (settle_hub_lookup h n (power_ports b h n (k_ports s)) s h hv Hh)
    as (hv' & Hh' & Ec & _).
  destruct (power_facts s Hok h hv Hh n Hv b) as [_ Hca].
  destruct (IH (n + 1) (power_state b h n s) hv') as [Hs Hd];
    [by eapply power_state_ok | done | lia | lia | ].
  unfold power_state in *. rewrite settle_hubs_dom in Hd. split; [ | done].
  eapply topology_step_trans; [by rewrite Hd | | done].
  by eapply settle_topology_step.
Qed.

(** VBUS after switching all ports. *)
Definition port_powered (m : gmap port_ptr virtusb_port) (h : hub_ptr) (n : Z) : bool :=
  match m !! HubPort h (n - 1) with
  | Some v => downstream_powered (port_state v)
  | None => false
  end.

Lemma power_state_powered b h n s k : is_Some (k_ports s !! HubPort h (n - 1)) ->
  port_powered (k_ports (power_state b h n s)) h k =
    if decide (k = n) then b else port_powered (k_ports s) h k.
Proof.
  intros [v Ev]. unfold power_state, power_ports, port_powered.
  rewrite settle_ports, (update_port_insert _ _ v), lookup_insert by done.
  destruct (decide (k = n)) as [->|]; [by rewrite decide_True | ].
  rewrite decide_False; [done | ]. intros [= E]. lia.
Qed.

Lemma power_all_powered b h k : forall n s hv, bus_ok s -> k_hubs s !! h = Some hv ->
  1 <= n -> n + Z.of_nat k <= hub_port_count hv + 1 ->
  forall j, port_powered (k_ports (power_all b h k n s)) h j =
    if decide (n <= j < n + Z.of_nat k) then b else port_powered (k_ports s) h j.
Proof.
  induction k as [|k IH]; intros n s hv Hok Hh Hn Hk j; cbn [power_all].
  { by rewrite decide_False by lia. }
  assert (Hv : port_valid hv n = true)
    by (unfold port_valid; rewrite andb_true_iff; lia).
  destruct (settle_hub_lookup h n (power_ports b h n (k_ports s)) s h hv Hh)
    as (hv' & Hh' & Ec & _).
  destruct (wf_port _ _ (proj1 Hok) _ _ _ Hh Hv) as (v & Ev & _).
  rewrite (IH (n + 1) _ hv'); [ | by eapply power_state_ok | done | lia | rewrite Ec; lia].
  rewrite power_state_powered by (by eexists).
  destruct (decide (j = n)) as [->|].
  - rewrite decide_False, decide_True by lia. done.
  - destruct (decide (n + 1 <= j < n + 1 + Z.of_nat k));
      [rewrite decide_True by lia | rewrite decide_False by lia]; done.
Qed.
End steps.
