(* ===== verification/Object.v ===== *)
(** * Objects and the object manager (kernel/src/virtusb_object.c,
    virtusb_object_manager.c)

    Reference-counted object storage, the registry that publishes objects under
    runtime IDs, and the invariant that ties reference counts to the references
    that are held.  The final-release callback belongs to the concrete
    component and enters through the interface [ReleaseTable]. *)

From stdpp Require Import sorting.
From S2P Require Import Prelude Uapi Kernel.

(** ** The release interface

    The law covers the storage of the only concrete component that is allocated
    through this module, the device: its object and its upstream port. *)

Class ReleaseTable := {
  call_release : release_fn -> obj_ptr -> K unit;
  release_events : release_fn -> virtusb_port -> list event;
  call_release_spec : forall f o s ov pv,
    k_objects s !! o = Some ov -> k_ports s !! DevPort o = Some pv ->
    call_release f o s =
      Some (tt, set_trace (k_trace s ++ release_events f pv)
                  (set_ports (delete (DevPort o) (k_ports s))
                    (set_objects (delete o (k_objects s)) s)));
  release_detached : forall f pv, port_peer pv = None -> release_events f pv = [];
}.

(** ** Operations *)

(** [kref_get] and [kref_put] on a count that is not positive are a use after
    free. *)
Definition kref_get (o : obj_ptr) : K unit :=
  ov <- load_object o ;;
  if ob_refcount ov <=? 0 then stuck
  else store_object o (set_ob_refcount (ob_refcount ov + 1) ov).

Definition kref_put (o : obj_ptr) (release : obj_ptr -> K unit) : K unit :=
  ov <- load_object o ;;
  if ob_refcount ov <=? 0 then stuck
  else
    store_object o (set_ob_refcount (ob_refcount ov - 1) ov) ;;
    if ob_refcount ov - 1 =? 0 then release o else ret tt.

(** [kzalloc(size)] of a block that holds an object and, when it is large
    enough for a device, its upstream port. *)
Definition zero_object : virtusb_object :=
  mk_object 0 VIRTUSB_OBJECT_TYPE_INVALID 0 VIRTUSB_DEVICE_RELEASE false.
Definition kzalloc_object (size : Z) (o : obj_ptr) : K unit :=
  alloc k_objects set_objects o zero_object ;;
  if sizeof_virtusb_device <=? size
  then alloc k_ports set_ports (DevPort o) zero_port
  else ret tt.

Section Operations.
Context `{ReleaseTable}.

Definition virtusb_object_release_kref (o : obj_ptr) : K unit :=
  ov <- load_object o ;; call_release (ob_release ov) o.

(** [mem] is what the allocator returns. *)
Definition virtusb_object_alloc (size : Z) (release : option release_fn)
    (mem : option obj_ptr) : K (option obj_ptr) :=
  match release with
  | None => ret None
  | Some release =>
      if size <? sizeof_virtusb_object then ret None
      else match mem with
           | None => ret None
           | Some o =>
               kzalloc_object size o ;;
               store_object o (mk_object VIRTUSB_OBJECT_ID_INVALID
                 VIRTUSB_OBJECT_TYPE_INVALID 1 release false) ;;
               ret (Some o)
           end
  end.

Definition virtusb_object_get (object : option obj_ptr) : K (option obj_ptr) :=
  match object with
  | None => ret None
  | Some o => kref_get o ;; ret (Some o)
  end.

Definition virtusb_object_put (object : option obj_ptr) : K unit :=
  match object with
  | None => ret tt
  | Some o => kref_put o virtusb_object_release_kref
  end.

(** ** Object manager

    The mutex serialises the operations; each is one step of the model. *)

Definition virtusb_object_manager_init : K unit := modify (set_next_object_id 1).

Definition virtusb_object_manager_exit : K unit :=
  registry <- gets k_registry ;;
  (if bool_decide (registry = ∅) then ret tt else emit EvWarn) ;;
  modify (set_registry ∅).

(** [xa_insert]: -EBUSY for a used index, -ENOMEM when memory runs out. *)
Definition xa_insert (id : Z) (o : obj_ptr) (oom : bool) : K Z :=
  registry <- gets k_registry ;;
  match registry !! id with
  | Some _ => ret (- EBUSY)
  | None => if oom then ret (- ENOMEM)
            else modify (set_registry (<[id := o]> registry)) ;; ret 0
  end.

Definition virtusb_object_register (object : option obj_ptr)
    (type : virtusb_object_type) (oom : bool) : K Z :=
  match object with
  | None => ret (- EINVAL)
  | Some o =>
      if (object_type_to_Z type <=? object_type_to_Z VIRTUSB_OBJECT_TYPE_INVALID) ||
         (object_type_to_Z VIRTUSB_OBJECT_TYPE_DEVICE <? object_type_to_Z type)
      then ret (- EINVAL)
      else
        ov <- load_object o ;;
        if ob_registered ov then ret (- EALREADY)
        else
          next <- gets k_next_object_id ;;
          if U32_MAX <? next then ret (- ENOSPC)
          else
            let id := u32 next in
            virtusb_object_get object ;;
            r <- xa_insert id o oom ;;
            if r <? 0 then virtusb_object_put object ;; ret r
            else
              ov <- load_object o ;;
              store_object o (set_ob_identity id type true ov) ;;
              modify (fun s => set_next_object_id (u64 (k_next_object_id s + 1)) s) ;;
              ret r
  end.

Definition virtusb_object_unregister (object : option obj_ptr) : K Z :=
  match object with
  | None => ret (- EINVAL)
  | Some o =>
      ov <- load_object o ;;
      if negb (ob_registered ov) || (ob_id ov =? VIRTUSB_OBJECT_ID_INVALID)
      then ret (- ENOENT)
      else
        registry <- gets k_registry ;;
        if bool_decide (registry !! ob_id ov <> Some o) then ret (- ENOENT)
        else
          modify (set_registry (delete (ob_id ov) registry)) ;;
          store_object o (set_ob_registered false ov) ;;
          virtusb_object_put object ;;
          ret 0
  end.

Definition virtusb_object_lookup (id : Z) : K (option obj_ptr) :=
  if id =? VIRTUSB_OBJECT_ID_INVALID then ret None
  else
    registry <- gets k_registry ;;
    match registry !! id with
    | Some o => virtusb_object_get (Some o) ;; ret (Some o)
    | None => ret None
    end.

(** [xa_for_each] visits the entries in increasing order of their index. *)
Definition id_le (a b : Z * obj_ptr) : Prop := a.1 <= b.1.
#[global] Instance id_le_dec a b : Decision (id_le a b).
Proof. unfold id_le. apply _. Defined.
Definition xa_entries (registry : gmap Z obj_ptr) : list (Z * obj_ptr) :=
  merge_sort id_le (map_to_list registry).

Fixpoint first_by_type (entries : list (Z * obj_ptr)) (type : virtusb_object_type)
    : K (option obj_ptr) :=
  match entries with
  | [] => ret None
  | (_, o) :: rest =>
      ov <- load_object o ;;
      if bool_decide (ob_type ov = type)
      then virtusb_object_get (Some o) ;; ret (Some o)
      else first_by_type rest type
  end.

Definition virtusb_object_lookup_first_by_type (type : virtusb_object_type)
    : K (option obj_ptr) :=
  registry <- gets k_registry ;;
  first_by_type (xa_entries registry) type.
End Operations.

#[global] Arguments kref_get : simpl never.
#[global] Arguments kref_put : simpl never.
#[global] Arguments virtusb_object_alloc : simpl never.
#[global] Arguments virtusb_object_get : simpl never.
#[global] Arguments virtusb_object_put : simpl never.
#[global] Arguments virtusb_object_register : simpl never.
#[global] Arguments virtusb_object_unregister : simpl never.
#[global] Arguments virtusb_object_lookup : simpl never.
#[global] Arguments virtusb_object_lookup_first_by_type : simpl never.
#[global] Arguments xa_insert : simpl never.
#[global] Arguments xa_entries : simpl never.

(** ** The invariant

    [ext o] is the number of references to [o] that are held outside the
    registry.  Every count is exact: no reference is lost and none is released
    twice. *)

Definition registry_refs (ov : virtusb_object) : Z := if ob_registered ov then 1 else 0.

Record objects_ok (ext : obj_ptr -> Z) (s : kernel) : Prop := {
  oo_next : 1 <= k_next_object_id s <= U32_MAX + 1;
  oo_registry : forall id o, k_registry s !! id = Some o ->
    1 <= id < k_next_object_id s /\
    exists ov, k_objects s !! o = Some ov /\ ob_registered ov = true /\ ob_id ov = id;
  oo_registered : forall o ov, k_objects s !! o = Some ov -> ob_registered ov = true ->
    k_registry s !! ob_id ov = Some o;
  oo_refcount : forall o ov, k_objects s !! o = Some ov ->
    0 <= ext o /\ ob_refcount ov = registry_refs ov + ext o /\ 0 < ob_refcount ov;
  oo_ext : forall o, k_objects s !! o = None -> ext o = 0;
  oo_port : forall o, is_Some (k_objects s !! o) <-> is_Some (k_ports s !! DevPort o);
  oo_attached : forall o ov pv, k_objects s !! o = Some ov ->
    k_ports s !! DevPort o = Some pv -> port_peer pv <> None -> ob_registered ov = true;
}.

Lemma objects_ok_ext ext ext' s : (forall o, ext o = ext' o) -> objects_ok ext s -> objects_ok ext' s.
Proof.
  intros E [? ? ? Hr Ho ? ?]. constructor; try done.
  - intros o ov Hv. rewrite <- E. by apply Hr.
  - intros o Hn. rewrite <- E. by apply Ho.
Qed.

(** The invariant reads four components of the state. *)
Lemma objects_ok_frame ext s s' : objects_ok ext s ->
  k_objects s' = k_objects s -> k_registry s' = k_registry s ->
  k_next_object_id s' = k_next_object_id s -> k_ports s' = k_ports s -> objects_ok ext s'.
Proof. intros [] Eo Er En Ep. by constructor; rewrite ?Eo, ?Er, ?En, ?Ep. Qed.

#[export] Instance objects_ok_proper :
  Proper (pointwise_relation obj_ptr eq ==> eq ==> iff) objects_ok.
Proof.
  intros e e' He s s' ->. split; apply objects_ok_ext; intros o; [ | symmetry]; apply He.
Qed.

(** ** Reference counting *)

Definition object_ref (o : obj_ptr) (n : Z) (s : kernel) : kernel :=
  set_objects (alter (fun ov => set_ob_refcount (ob_refcount ov + n) ov) o (k_objects s)) s.
Definition object_free (o : obj_ptr) (s : kernel) : kernel :=
  set_ports (delete (DevPort o) (k_ports s)) (set_objects (delete o (k_objects s)) s).
(** Dropping one reference: the last one frees the storage. *)
Definition object_drop (o : obj_ptr) (s : kernel) : kernel :=
  match k_objects s !! o with
  | Some ov => if ob_refcount ov =? 1 then object_free o s else object_ref o (-1) s
  | None => s
  end.

Section refcounts.
Context `{ReleaseTable}.
Context (ext : obj_ptr -> Z) (s : kernel) (Hok : objects_ok ext s).

Lemma object_ref_ok o n ov : k_objects s !! o = Some ov ->
  0 <= ext o + n -> 0 < ob_refcount ov + n ->
  objects_ok (add_ref o n ext) (object_ref o n s).
Proof using Hok.
  intros Ho Hn Hp. destruct Hok as [H1 H2 H3 H4 H5 H6 H7].
  assert (Hlk : forall x, k_objects (object_ref o n s) !! x =
            if decide (o = x) then Some (set_ob_refcount (ob_refcount ov + n) ov)
            else k_objects s !! x).
  { intros x. cbn. rewrite lookup_alter. case_decide; [subst; by rewrite Ho | done]. }
  constructor; cbn; try done.
  - intros id x Hx. destruct (H2 _ _ Hx) as (Hr & xv & Hxv & Hreg & Hid). split; [done | ].
    setoid_rewrite Hlk. case_decide; [ | by eexists]. simplify_eq. by eexists.
  - intros x xv. setoid_rewrite Hlk. case_decide; [ | by apply H3].
    intros [= <-]. subst. exact (H3 _ _ Ho).
  - intros x xv. setoid_rewrite Hlk. unfold add_ref. case_decide as E.
    + intros [= <-]. subst. rewrite decide_True by done.
      destruct (H4 _ _ Ho) as (? & ? & ?). unfold registry_refs in *. cbn. lia.
    + rewrite decide_False by done. apply H4.
  - intros x. setoid_rewrite Hlk. case_decide; [done | ]. intros Hx.
    rewrite add_ref_ne by done. by apply H5.
  - intros x. setoid_rewrite Hlk. rewrite <- H6. case_decide; [ | done].
    subst. rewrite Ho. split; intros _; by eexists.
  - intros x xv pv. setoid_rewrite Hlk. case_decide; [ | by apply H7].
    intros [= <-]. subst. exact (H7 _ ov _ Ho).
Qed.

Lemma object_get_eq o ov : k_objects s !! o = Some ov ->
  virtusb_object_get (Some o) s = Some (Some o, object_ref o 1 s).
Proof using Hok.
  intros Ho. destruct (oo_refcount _ _ Hok _ _ Ho) as (_ & _ & Hp).
  unfold virtusb_object_get, kref_get, object_ref. run.
  destruct (Z.leb_spec (ob_refcount ov) 0); [lia | ]. run.
  by rewrite (alter_insert_lookup _ _ ov).
Qed.

Lemma ext_live o : 1 <= ext o -> exists ov pv,
  k_objects s !! o = Some ov /\ k_ports s !! DevPort o = Some pv.
Proof using Hok.
  intros He. destruct (k_objects s !! o) as [ov|] eqn:Ho.
  - destruct (proj1 (oo_port _ _ Hok o)) as [pv Hpv]; [by eexists | ]. eauto.
  - pose proof (oo_ext _ _ Hok _ Ho). lia.
Qed.

(** The last reference goes away only when the object is neither registered nor
    attached. *)
Lemma last_ref_detached o ov pv : 1 <= ext o -> k_objects s !! o = Some ov ->
  k_ports s !! DevPort o = Some pv -> ob_refcount ov = 1 ->
  ob_registered ov = false /\ ext o = 1 /\ port_peer pv = None.
Proof using Hok.
  intros He Ho Hp Hr. destruct (oo_refcount _ _ Hok _ _ Ho) as (_ & Hc & _).
  unfold registry_refs in Hc. destruct (ob_registered ov) eqn:E; [lia | ].
  split; [done | ]. split; [lia | ]. destruct (port_peer pv) eqn:Eq; [ | done].
  by rewrite (oo_attached _ _ Hok _ _ _ Ho Hp) in E by congruence.
Qed.

Lemma object_put_eq o : 1 <= ext o ->
  virtusb_object_put (Some o) s = Some (tt, object_drop o s).
Proof using Hok.
  intros He. destruct (ext_live o He) as (ov & pv & Ho & Hp).
  destruct (oo_refcount _ _ Hok _ _ Ho) as (_ & _ & Hpos).
  unfold virtusb_object_put, kref_put, object_drop, virtusb_object_release_kref. rewrite Ho. run.
  destruct (Z.leb_spec (ob_refcount ov) 0); [lia | ]. run.
  destruct (Z.eqb_spec (ob_refcount ov - 1) 0) as [E|E];
    destruct (Z.eqb_spec (ob_refcount ov) 1); try lia.
  - destruct (last_ref_detached o ov pv) as (_ & _ & Hq); [done.. | lia | ].
    run. erewrite call_release_spec; [ | by cbn; rewrite lookup_insert_eq | done].
    rewrite release_detached by done. unfold object_free. cbn.
    by rewrite app_nil_r, delete_insert_eq.
  - unfold object_ref. by rewrite (alter_insert_lookup _ _ ov).
Qed.

Lemma object_free_ok o ov pv : 1 <= ext o -> k_objects s !! o = Some ov ->
  k_ports s !! DevPort o = Some pv -> ob_refcount ov = 1 ->
  objects_ok (add_ref o (-1) ext) (object_free o s).
Proof using Hok.
  intros He Ho Hp Hr. destruct (last_ref_detached o ov pv He Ho Hp Hr) as (Hu & He1 & Hq).
  destruct Hok as [H1 H2 H3 H4 H5 H6 H7]. constructor; cbn; try done.
  - intros id x Hx. destruct (H2 _ _ Hx) as (? & xv & Hxv & Hreg & Hid). split; [done | ].
    exists xv. rewrite lookup_delete_ne by congruence. done.
  - intros x xv. rewrite lookup_delete. case_decide; [done | apply H3].
  - intros x xv. rewrite lookup_delete. case_decide; [done | ].
    rewrite add_ref_ne by done. apply H4.
  - intros x. rewrite lookup_delete. case_decide as E.
    + intros _. subst. rewrite add_ref_eq. lia.
    + rewrite add_ref_ne by done. apply H5.
  - intros x. rewrite !lookup_delete. destruct (decide (o = x)) as [->|].
    + rewrite decide_True by done. by split; intros [? ?].
    + rewrite decide_False by congruence. apply H6.
  - intros x xv w. rewrite !lookup_delete. case_decide; [done | ].
    case_decide; [done | ]. apply H7.
Qed.

Lemma object_drop_ok o : 1 <= ext o -> objects_ok (add_ref o (-1) ext) (object_drop o s).
Proof using Hok.
  intros He. destruct (ext_live o He) as (ov & pv & Ho & Hp).
  unfold object_drop. rewrite Ho. destruct (oo_refcount _ _ Hok _ _ Ho) as (? & ? & ?).
  destruct (Z.eqb_spec (ob_refcount ov) 1).
  - by eapply object_free_ok.
  - eapply object_ref_ok; [done | lia | lia].
Qed.
End refcounts.

(** Taking a reference and dropping it again changes nothing. *)
Lemma object_ref_ref o m n s : object_ref o n (object_ref o m s) = object_ref o (m + n) s.
Proof.
  unfold object_ref. cbn. unfold set_objects. cbn. f_equal. apply map_eq. intros x.
  destruct (decide (o = x)) as [->|]; [ | by rewrite !lookup_alter_ne].
  rewrite !lookup_alter_eq. destruct (k_objects s !! x); cbn; [ | done].
  unfold set_ob_refcount. cbn. do 2 f_equal. lia.
Qed.

Lemma object_ref_zero o s : object_ref o 0 s = s.
Proof.
  unfold object_ref. rewrite <- (set_objects_id s) at 3. f_equal.
  apply map_eq. intros x. destruct (decide (o = x)) as [->|]; [ | by rewrite lookup_alter_ne].
  rewrite lookup_alter_eq. destruct (k_objects s !! x) as [v|]; cbn; [ | done]. cbn. rewrite Z.add_0_r. by destruct v.
Qed.

Lemma object_ref_drop o ov s : k_objects s !! o = Some ov -> 0 < ob_refcount ov ->
  object_drop o (object_ref o 1 s) = s.
Proof.
  intros Ho Hp. unfold object_drop. cbn. rewrite lookup_alter, decide_True, Ho by done. cbn.
  destruct (Z.eqb_spec (ob_refcount ov + 1) 1); [lia | ].
  rewrite object_ref_ref. apply object_ref_zero.
Qed.

(** ** The registry *)

(** Publication of [o] under the next ID, and its withdrawal: the reference of
    the registry becomes one that the caller of the withdrawal holds. *)
Definition object_publish (o : obj_ptr) (type : virtusb_object_type) (s : kernel) : kernel :=
  set_next_object_id (k_next_object_id s + 1)
    (set_objects (alter (fun ov => set_ob_identity (k_next_object_id s) type true
                                     (set_ob_refcount (ob_refcount ov + 1) ov)) o (k_objects s))
      (set_registry (<[k_next_object_id s := o]> (k_registry s)) s)).
Definition object_withdraw (o : obj_ptr) (id : Z) (s : kernel) : kernel :=
  set_objects (alter (set_ob_registered false) o (k_objects s))
    (set_registry (delete id (k_registry s)) s).

Section registry.
Context `{ReleaseTable}.
Context (ext : obj_ptr -> Z) (s : kernel) (Hok : objects_ok ext s).

Lemma next_id_fresh : k_registry s !! k_next_object_id s = None.
Proof using Hok.
  destruct (k_registry s !! _) eqn:E; [ | done].
  destruct (oo_registry _ _ Hok _ _ E) as [? _]. lia.
Qed.

(** The result of [virtusb_object_register] on every branch. *)
Lemma object_register_eq o ov type oom : k_objects s !! o = Some ov ->
  virtusb_object_register (Some o) type oom s =
    Some (if bool_decide (type = VIRTUSB_OBJECT_TYPE_INVALID) then (- EINVAL, s)
          else if ob_registered ov then (- EALREADY, s)
          else if U32_MAX <? k_next_object_id s then (- ENOSPC, s)
          else if oom then (- ENOMEM, s)
          else (0, object_publish o type s)).
Proof using Hok.
  intros Ho. pose proof (oo_next _ _ Hok) as Hn.
  destruct (oo_refcount _ _ Hok _ _ Ho) as (_ & _ & Hp).
  unfold virtusb_object_register.
  assert (E : (object_type_to_Z type <=? object_type_to_Z VIRTUSB_OBJECT_TYPE_INVALID) ||
              (object_type_to_Z VIRTUSB_OBJECT_TYPE_DEVICE <? object_type_to_Z type) =
              bool_decide (type = VIRTUSB_OBJECT_TYPE_INVALID)) by by destruct type.
  rewrite E. case_bool_decide; [done | ]. run.
  destruct (ob_registered ov) eqn:Er; [done | ]. run.
  destruct (Z.ltb_spec U32_MAX (k_next_object_id s)); [done | ].
  rewrite (wrap_small 32) by (unfold in_width, U32_MAX in *; lia).
  rewrite (object_get_eq ext s Hok o ov Ho). unfold xa_insert. run.
  rewrite next_id_fresh. destruct oom; run.
  - assert (Hok' : objects_ok (add_ref o 1 ext) (object_ref o 1 s)).
    { destruct (oo_refcount _ _ Hok _ _ Ho) as (? & ? & ?).
      eapply object_ref_ok; [done | done | lia | lia]. }
    rewrite (object_put_eq _ _ Hok').
    + by rewrite (object_ref_drop o ov).
    + rewrite add_ref_eq. destruct (oo_refcount _ _ Hok _ _ Ho). lia.
  - unfold object_ref, object_publish. cbn. rewrite lookup_alter_eq, Ho. cbn.
    rewrite (alter_insert_lookup (k_objects s) _ ov), insert_insert_eq by done.
    rewrite (alter_insert_lookup (k_objects s) _ ov), lookup_insert_eq by done. cbn.
    rewrite (wrap_small 64) by (unfold in_width, U32_MAX in *; lia). done.
Qed.

Lemma object_publish_ok o ov type : k_objects s !! o = Some ov -> ob_registered ov = false ->
  k_next_object_id s <= U32_MAX -> objects_ok ext (object_publish o type s).
Proof using Hok.
  intros Ho Hr Hn. pose proof next_id_fresh as Hf. destruct Hok as [H1 H2 H3 H4 H5 H6 H7].
  unfold object_publish. rewrite (alter_insert_lookup _ _ ov) by done.
  constructor; cbn.
  - lia.
  - intros id x. rewrite lookup_insert. case_decide as E.
    + intros [= <-]. subst. split; [lia | ]. rewrite lookup_insert_eq. by eexists.
    + intros Hx. destruct (H2 _ _ Hx) as (? & xv & Hxv & Hreg & Hid). split; [lia | ].
      rewrite lookup_insert_ne by congruence. by eexists.
  - intros x xv. rewrite lookup_insert. case_decide as E.
    + intros [= <-] _. subst. cbn. by rewrite lookup_insert_eq.
    + intros Hx Hreg. pose proof (H3 _ _ Hx Hreg) as Hl.
      rewrite lookup_insert_ne; [done | ]. congruence.
  - intros x xv. rewrite lookup_insert. case_decide as E; [ | apply H4].
    intros [= <-]. subst. destruct (H4 _ _ Ho) as (? & ? & ?).
    unfold registry_refs in *. rewrite Hr in *. cbn. lia.
  - intros x. rewrite lookup_insert. case_decide; [done | apply H5].
  - intros x. rewrite lookup_insert. rewrite <- H6. case_decide as E; [ | done].
    subst. rewrite Ho. split; intros _; by eexists.
  - intros x xv pv. rewrite lookup_insert. case_decide; [ | apply H7].
    by intros [= <-].
Qed.

Lemma object_withdraw_ok o ov pv : k_objects s !! o = Some ov -> ob_registered ov = true ->
  k_ports s !! DevPort o = Some pv -> port_peer pv = None ->
  objects_ok (add_ref o 1 ext) (object_withdraw o (ob_id ov) s).
Proof using Hok.
  intros Ho Hr Hpv Hpeer. pose proof (oo_registered _ _ Hok _ _ Ho Hr) as Hreg.
  destruct Hok as [H1 H2 H3 H4 H5 H6 H7].
  unfold object_withdraw. rewrite (alter_insert_lookup _ _ ov) by done.
  constructor; cbn; [done | | | | | | ].
  - intros id x. rewrite lookup_delete. case_decide as E; [done | ]. intros Hx.
    destruct (H2 _ _ Hx) as (? & xv & Hxv & Hxr & Hid). split; [done | ].
    rewrite lookup_insert_ne; [by eexists | ]. congruence.
  - intros x xv. rewrite lookup_insert. case_decide as E; [by intros [= <-] | ].
    intros Hx Hxr. pose proof (H3 _ _ Hx Hxr) as Hl. rewrite lookup_delete_ne; [done | ].
    congruence.
  - intros x xv. rewrite lookup_insert. case_decide as E.
    + intros [= <-]. subst. rewrite add_ref_eq. destruct (H4 _ _ Ho) as (? & ? & ?).
      unfold registry_refs in *. rewrite Hr in *. cbn. lia.
    + rewrite add_ref_ne by done. apply H4.
  - intros x. rewrite lookup_insert. case_decide; [done | ].
    rewrite add_ref_ne by done. apply H5.
  - intros x. rewrite lookup_insert. rewrite <- H6. case_decide as E; [ | done].
    subst. rewrite Ho. split; intros _; by eexists.
  - intros x xv w. rewrite lookup_insert. case_decide as E; [ | apply H7].
    intros [= <-] Hw Hne. subst. congruence.
Qed.

(** The registry finds exactly the registered objects. *)
Lemma object_unregister_eq o ov : k_objects s !! o = Some ov ->
  (forall pv, k_ports s !! DevPort o = Some pv -> port_peer pv = None) ->
  virtusb_object_unregister (Some o) s =
    Some (if ob_registered ov then (0, object_drop o (object_withdraw o (ob_id ov) s))
          else (- ENOENT, s)).
Proof using Hok.
  intros Ho Hpeer. unfold virtusb_object_unregister. run.
  destruct (ob_registered ov) eqn:Er; cbn [negb orb]; [ | done].
  pose proof (oo_registered _ _ Hok _ _ Ho Er) as Hreg.
  destruct (oo_registry _ _ Hok _ _ Hreg) as [Hid _].
  unfold VIRTUSB_OBJECT_ID_INVALID. destruct (Z.eqb_spec (ob_id ov) 0); [lia | ]. run.
  destruct (proj1 (oo_port _ _ Hok o)) as [pv Hpv]; [by eexists | ].
  pose proof (object_withdraw_ok o ov pv Ho Er Hpv (Hpeer _ Hpv)) as Hok'.
  unfold object_withdraw in *. rewrite (alter_insert_lookup _ _ ov) in * by done.
  rewrite (object_put_eq _ _ Hok'); [done | ].
  rewrite add_ref_eq. destruct (oo_refcount _ _ Hok _ _ Ho). lia.
Qed.

Lemma object_lookup_eq id :
  virtusb_object_lookup id s =
    Some (match k_registry s !! id with
          | Some o => (Some o, object_ref o 1 s)
          | None => (None, s)
          end).
Proof using Hok.
  unfold virtusb_object_lookup, VIRTUSB_OBJECT_ID_INVALID. destruct (Z.eqb_spec id 0) as [->|].
  - destruct (k_registry s !! 0) eqn:E; [ | done].
    destruct (oo_registry _ _ Hok _ _ E). lia.
  - run. destruct (k_registry s !! id) as [o|] eqn:E; [ | done].
    destruct (oo_registry _ _ Hok _ _ E) as (_ & ov & Ho & _).
    by rewrite (object_get_eq ext s Hok o ov Ho).
Qed.

(** A registered object can always be referenced. *)
Lemma registered_ref_ok id o : k_registry s !! id = Some o ->
  objects_ok (add_ref o 1 ext) (object_ref o 1 s).
Proof using Hok.
  intros E. destruct (oo_registry _ _ Hok _ _ E) as (_ & ov & Ho & _).
  destruct (oo_refcount _ _ Hok _ _ Ho) as (? & ? & ?).
  eapply object_ref_ok; [done | done | lia | lia].
Qed.
End registry.

(** ** Enumeration by type *)

Lemma StronglySorted_lookup_lt {A} (R : relation A) l i j x y : StronglySorted R l ->
  l !! i = Some x -> l !! j = Some y -> (i < j)%nat -> R x y.
Proof.
  intros Hs. revert i j. induction Hs as [|a l Hs IH Ha]; intros i j Hi Hj Hij; [done | ].
  destruct j as [|j]; [lia | ]. destruct i as [|i]; cbn in *.
  - simplify_eq. rewrite Forall_forall in Ha. by eapply Ha, list_elem_of_lookup_2.
  - apply (IH i j); [done.. | lia].
Qed.

Section first_by_type.
Context `{ReleaseTable}.
Context (ext : obj_ptr -> Z) (s : kernel) (Hok : objects_ok ext s).

Lemma xa_entries_elem registry id o : (id, o) ∈ xa_entries registry <-> registry !! id = Some o.
Proof.
  unfold xa_entries. rewrite merge_sort_Permutation. apply elem_of_map_to_list.
Qed.

Lemma xa_entries_sorted registry : StronglySorted id_le (xa_entries registry).
Proof.
  apply StronglySorted_merge_sort.
  - intros [a x] [b y] [c z]. unfold id_le. cbn. lia.
  - intros [a x] [b y]. unfold id_le. cbn. lia.
Qed.

(** The entry found: the first one of the type. *)
Definition type_of (o : obj_ptr) : option virtusb_object_type := ob_type <$> k_objects s !! o.

Lemma first_by_type_eq entries type :
  (forall id o, (id, o) ∈ entries -> k_registry s !! id = Some o) ->
  first_by_type entries type s =
    Some (match list_find (fun e => type_of e.2 = Some type) entries with
          | Some (_, (_, o)) => (Some o, object_ref o 1 s)
          | None => (None, s)
          end).
Proof using Hok.
  induction entries as [|[id o] entries IH]; intros He; [done | ]. cbn [first_by_type list_find].
  destruct (oo_registry _ _ Hok id o) as (_ & ov & Ho & _); [apply He; by left | ].
  assert (Ht : type_of o = Some (ob_type ov)) by (unfold type_of; by rewrite Ho).
  unfold bind at 1, load. rewrite Ho. case_bool_decide as E; cbn [snd].
  - rewrite decide_True by congruence. unfold bind.
    by rewrite (object_get_eq ext s Hok o ov Ho).
  - rewrite decide_False by congruence.
    rewrite IH by (intros ? ? ?; apply He; by right).
    by destruct (list_find _ entries) as [[? [? ?]]|].
Qed.

(** [virtusb_object_lookup_first_by_type] returns the registered object of the
    type with the smallest ID, with a new reference, and NULL only if there is
    no object of the type. *)
Lemma lookup_first_by_type_spec type :
  (exists id o, virtusb_object_lookup_first_by_type type s = Some (Some o, object_ref o 1 s) /\
     k_registry s !! id = Some o /\ type_of o = Some type /\
     forall id' o', k_registry s !! id' = Some o' -> type_of o' = Some type -> id <= id') \/
  (virtusb_object_lookup_first_by_type type s = Some (None, s) /\
     forall id o, k_registry s !! id = Some o -> type_of o <> Some type).
Proof using Hok.
  assert (E : virtusb_object_lookup_first_by_type type s =
              first_by_type (xa_entries (k_registry s)) type s) by done.
  rewrite E, first_by_type_eq by (intros ? ?; apply xa_entries_elem).
  destruct (list_find _ _) as [[i [id o]]|] eqn:Hf.
  - left. apply list_find_Some in Hf. destruct Hf as (Hi & Ht & Hfirst). exists id, o.
    split; [done | ]. split; [by eapply xa_entries_elem, list_elem_of_lookup_2 | ].
    split; [done | ]. intros id' o' Hreg Ht'.
    apply xa_entries_elem, list_elem_of_lookup in Hreg. destruct Hreg as [j Hj].
    destruct (lt_eq_lt_dec i j) as [[Hlt| ->]|Hgt].
    + pose proof (xa_entries_sorted (k_registry s)) as Hs.
      exact (StronglySorted_lookup_lt _ _ i j _ _ Hs Hi Hj Hlt).
    + simplify_eq. done.
    + by destruct (Hfirst j _ Hj Hgt).
  - right. split; [done | ]. intros id o Hreg.
    apply list_find_None in Hf. rewrite Forall_forall in Hf.
    apply (Hf (id, o)). by apply xa_entries_elem.
Qed.
End first_by_type.
