(* ===== verification/Device.v ===== *)
(** * Devices (kernel/src/virtusb_device.c)

    Creation and destruction of device objects, and the topology operations:
    attachment, detachment and connection signalling.  The device supplies the
    final-release callback of the object layer. *)

From S2P Require Import Prelude Uapi Kernel Port Hub Object.

(** ** The release callback *)

Definition virtusb_device_release (object : obj_ptr) : K unit :=
  pv <- load_port (DevPort object) ;;
  (if bool_decide (port_peer pv <> None) then emit EvWarn else ret tt) ;;
  free k_objects set_objects object ;;
  free k_ports set_ports (DevPort object).

#[export, refine] Instance device_release_table : ReleaseTable := {
  call_release f o := match f with VIRTUSB_DEVICE_RELEASE => virtusb_device_release o end;
  release_events f pv := if bool_decide (port_peer pv <> None) then [EvWarn] else [];
}.
Proof.
  - intros [] o s ov pv Ho Hp. unfold virtusb_device_release, emit. run.
    case_bool_decide; run; [done | by rewrite app_nil_r].
  - intros [] pv ->. done.
Defined.

(** ** Operations *)

Section Operations.
Context `{StatusChangedTable}.

Definition virtusb_device_create (speed : Z) (mem : option obj_ptr) (oom : bool)
    : K (result obj_ptr) :=
  object <- virtusb_object_alloc sizeof_virtusb_device (Some VIRTUSB_DEVICE_RELEASE) mem ;;
  match object with
  | None => ret (Err (- ENOMEM))
  | Some device =>
      r <- virtusb_port_init (Some (DevPort device)) VIRTUSB_PORT_ROLE_UPSTREAM speed
             (Some (OwnerDevice device)) ;;
      if r <? 0 then virtusb_object_put object ;; ret (Err r)
      else
        r <- virtusb_object_register object VIRTUSB_OBJECT_TYPE_DEVICE oom ;;
        if r <? 0 then virtusb_object_put object ;; ret (Err r)
        else ret (Ok device)
  end.

(** [port->owner] used as a hub: undefined for a port of a device. *)
Definition owner_hub (owner : option owner_ptr) : K (option hub_ptr) :=
  match owner with
  | None => ret None
  | Some (OwnerHub h) => ret (Some h)
  | Some (OwnerDevice _) => stuck
  end.

Definition virtusb_device_get_attached_hub (device : option obj_ptr)
    (port_number : option Z) : K (option hub_ptr * option Z) :=
  match device, port_number with
  | Some d, Some _ =>
      uv <- load_port (DevPort d) ;;
      match port_peer uv with
      | None => ret (None, port_number)
      | Some downstream =>
          dv <- load_port downstream ;;
          if bool_decide (port_role dv <> VIRTUSB_PORT_ROLE_DOWNSTREAM)
          then ret (None, port_number)
          else
            hub <- owner_hub (port_owner dv) ;;
            match hub with
            | None => ret (None, port_number)
            | Some h =>
                both r, port_number <-
                  virtusb_hub_find_port_number (Some h) (Some downstream) port_number ;;
                if r <? 0 then ret (None, port_number) else ret (Some h, port_number)
            end
      end
  | _, _ => ret (None, port_number)
  end.

(** An uninitialised [unsigned int]: any value; the functions below write it
    before they read it. *)
Definition uninit : Z := 0.
Definition out_value (out : option Z) : Z := match out with Some v => v | None => uninit end.

Definition virtusb_device_attach (device : option obj_ptr)
    (downstream_port : option port_ptr) : K Z :=
  match device, downstream_port with
  | Some d, Some downstream =>
      dv <- load_port downstream ;;
      hub <- owner_hub (port_owner dv) ;;
      match hub with
      | None => ret (- EINVAL)
      | Some _ =>
          both r, out <- virtusb_hub_find_port_number hub downstream_port (Some uninit) ;;
          if r <? 0 then ret r
          else
            let port_number := out_value out in
            was_connected <- virtusb_hub_port_is_connected hub port_number ;;
            r <- virtusb_port_attach downstream_port (Some (DevPort d)) ;;
            if r <? 0 then ret r
            else
              is_connected <- virtusb_hub_port_is_connected hub port_number ;;
              (if negb (eqb was_connected is_connected)
               then virtusb_hub_mark_port_connection_change hub port_number
               else ret tt) ;;
              ret 0
      end
  | _, _ => ret (- EINVAL)
  end.

Definition virtusb_device_detach (device : option obj_ptr) : K unit :=
  match device with
  | None => ret tt
  | Some d =>
      both hub, out <- virtusb_device_get_attached_hub device (Some uninit) ;;
      match hub with
      | None => virtusb_port_detach (Some (DevPort d))
      | Some _ =>
          let port_number := out_value out in
          was_connected <- virtusb_hub_port_is_connected hub port_number ;;
          virtusb_port_detach (Some (DevPort d)) ;;
          if was_connected
          then virtusb_hub_mark_port_connection_change hub port_number
          else ret tt
      end
  end.

Definition virtusb_device_set_connection_signaling (device : option obj_ptr)
    (enabled : bool) : K Z :=
  match device with
  | None => ret (- EINVAL)
  | Some d =>
      both hub, out <- virtusb_device_get_attached_hub device (Some uninit) ;;
      match hub with
      | None => virtusb_port_set_connection_signaling (Some (DevPort d)) enabled
      | Some _ =>
          let port_number := out_value out in
          was_connected <- virtusb_hub_port_is_connected hub port_number ;;
          r <- virtusb_port_set_connection_signaling (Some (DevPort d)) enabled ;;
          if r <? 0 then ret r
          else
            is_connected <- virtusb_hub_port_is_connected hub port_number ;;
            (if negb (eqb was_connected is_connected)
             then virtusb_hub_mark_port_connection_change hub port_number
             else ret tt) ;;
            ret 0
      end
  end.

Definition virtusb_device_has_vbus (device : option obj_ptr) : K bool :=
  match device with
  | None => ret false
  | Some d => virtusb_port_has_vbus (Some (DevPort d))
  end.

Definition virtusb_device_destroy (device : option obj_ptr) (force : bool) : K Z :=
  match device with
  | None => ret (- EINVAL)
  | Some d =>
      uv <- load_port (DevPort d) ;;
      if bool_decide (port_peer uv <> None) then
        if negb force then ret (- EBUSY)
        else
          r <- virtusb_device_set_connection_signaling device false ;;
          if r <? 0 then ret r
          else virtusb_device_detach device ;; virtusb_object_unregister device
      else virtusb_object_unregister device
  end.

(** [for (;;)] with [fuel] iterations. *)
Fixpoint virtusb_device_shutdown_all (fuel : nat) : K unit :=
  match fuel with
  | O => stuck
  | S fuel =>
      object <- virtusb_object_lookup_first_by_type VIRTUSB_OBJECT_TYPE_DEVICE ;;
      match object with
      | None => ret tt
      | Some _ =>
          _ <- virtusb_device_destroy object true ;;
          virtusb_object_put object ;;
          virtusb_device_shutdown_all fuel
      end
  end.
End Operations.

#[global] Arguments virtusb_device_create : simpl never.
#[global] Arguments virtusb_device_get_attached_hub : simpl never.
#[global] Arguments virtusb_device_attach : simpl never.
#[global] Arguments virtusb_device_detach : simpl never.
#[global] Arguments virtusb_device_set_connection_signaling : simpl never.
#[global] Arguments virtusb_device_has_vbus : simpl never.
#[global] Arguments virtusb_device_destroy : simpl never.

(** ** What device operations leave alone *)

Record transfer_frame (s s' : kernel) : Prop := {
  fr_transfers : k_transfers s' = k_transfers s;
  fr_next_transfer_id : k_next_transfer_id s' = k_next_transfer_id s;
  fr_hcds : k_hcds s' = k_hcds s;
  fr_usb_hcds : k_usb_hcds s' = k_usb_hcds s;
  fr_urbs : k_urbs s' = k_urbs s;
  fr_files : k_files s' = k_files s;
}.

#[export] Instance transfer_frame_preorder : PreOrder transfer_frame.
Proof.
  split; [by constructor | ].
  intros s1 s2 s3 [] []. constructor; congruence.
Qed.

(** [settle] writes ports, one hub and the trace only. *)
Lemma settle_frame `{StatusChangedTable} h n m s :
  settle h n m s =
    set_trace (k_trace (settle h n m s)) (set_hubs (k_hubs (settle h n m s)) (set_ports m s)).
Proof.
  unfold settle. destruct (eqb _ _); [done | ]. unfold report. cbn.
  by destruct (k_hubs s !! h).
Qed.

(** Steps that change no connection and no hub. *)
Lemma topology_step_quiet `{StatusChangedTable} s s' :
  k_hubs s' = k_hubs s -> k_trace s' = k_trace s ->
  (forall h hv n, k_hubs s !! h = Some hv ->
     port_connected (k_ports s') h n = port_connected (k_ports s) h n) ->
  topology_step s s'.
Proof.
  intros Eh Et Ec. constructor; rewrite ?Eh; [ | by exists []; rewrite app_nil_r | | ].
  - intros h hv Hh. exists hv. by split; [ | apply hub_step_refl].
  - intros h hv n _ Hh Hne. by rewrite (Ec h hv n Hh) in Hne.
  - intros h hv hv' n _ Hh Hh'. congruence.
Qed.

(** ** Storage of devices *)

(** Adding or removing a detached upstream port. *)
Lemma view_dev_port m hs d w h n : bus_wf m hs ->
  (forall v, m !! DevPort d = Some v -> port_peer v = None) ->
  (forall p, p <> DevPort d -> w !! p = m !! p) ->
  port_connected w h n = port_connected m h n /\
  effective_speed w h n = effective_speed m h n.
Proof.
  intros Hwf Hd Hw. unfold port_connected, effective_speed. rewrite Hw by done.
  destruct (m !! HubPort h (n - 1)) as [v|] eqn:Ev; [ | done].
  destruct (port_peer v) as [q|] eqn:Eq; [ | done].
  rewrite Hw; [done | ]. intros ->.
  destruct (bw_recip _ _ Hwf _ _ _ Ev Eq) as (u & Hu & Hb & _).
  rewrite (Hd u Hu) in Hb. done.
Qed.

Section storage.
Context (s : kernel) (Hok : bus_ok s) (d : obj_ptr).
Context (Hdet : forall v, k_ports s !! DevPort d = Some v -> port_peer v = None).

Lemma no_peer_is_dev p v : k_ports s !! p = Some v -> port_peer v <> Some (DevPort d).
Proof using Hok Hdet.
  intros Hv Hq. destruct (bw_recip _ _ (proj1 Hok) _ _ _ Hv Hq) as (u & Hu & Hb & _).
  by rewrite (Hdet u Hu) in Hb.
Qed.

Lemma bus_ok_dev_port m :
  (forall p, p <> DevPort d -> m !! p = k_ports s !! p) ->
  (forall v, m !! DevPort d = Some v ->
     port_role v = VIRTUSB_PORT_ROLE_UPSTREAM /\ port_owner v = Some (OwnerDevice d) /\
     speed_caps_ok (port_speed v) /\ port_peer v = None) ->
  bus_wf m (k_hubs s) /\
  (forall h hv, k_hubs s !! h = Some hv -> usb_ok m h hv) /\
  (forall h n, port_connected m h n = port_connected (k_ports s) h n).
Proof using Hok Hdet.
  intros Hm Hd. destruct Hok as [Hwf Hu].
  assert (Hview : forall h n, port_connected m h n = port_connected (k_ports s) h n /\
            effective_speed m h n = effective_speed (k_ports s) h n)
    by (intros h n; by eapply view_dev_port).
  split; [ | split; [ | apply Hview]].
  - constructor.
    + intros h hv Hh. destruct (bw_hub _ _ Hwf _ _ Hh) as [? ? ? Hports Hdown Hrest].
      constructor; try done; intros i; rewrite Hm by done.
      * apply Hports.
      * apply Hdown.
      * apply Hrest.
    + intros h i v. rewrite Hm by done. apply (bw_hubport _ _ Hwf).
    + intros x v. destruct (decide (x = d)) as [->|].
      * intros Hv. destruct (Hd v Hv) as (? & ? & ? & _). done.
      * rewrite Hm by congruence. apply (bw_devport _ _ Hwf).
    + intros p v q Hp Hq. destruct (decide (p = DevPort d)) as [->|].
      * destruct (Hd v Hp) as (_ & _ & _ & E). congruence.
      * rewrite Hm in Hp by done. destruct (bw_recip _ _ Hwf _ _ _ Hp Hq) as (w & Hw & ?).
        exists w. rewrite Hm; [done | ]. intros ->. by apply (no_peer_is_dev p v).
  - intros h hv Hh n Hn. destruct (Hview h n) as [-> ->]. by apply Hu.
Qed.
End storage.

(** ** The state a reader of the object layer sees *)

(** Changes to ports that keep every upstream port alive and attach registered
    devices only. *)
Lemma objects_ok_ports ext s s' : objects_ok ext s ->
  k_objects s' = k_objects s -> k_registry s' = k_registry s ->
  k_next_object_id s' = k_next_object_id s ->
  (forall o, is_Some (k_ports s' !! DevPort o) <-> is_Some (k_ports s !! DevPort o)) ->
  (forall o v v', k_ports s !! DevPort o = Some v -> k_ports s' !! DevPort o = Some v' ->
     port_peer v' <> None -> port_peer v <> None \/
     exists ov, k_objects s !! o = Some ov /\ ob_registered ov = true) ->
  objects_ok ext s'.
Proof.
  intros [H1 H2 H3 H4 H5 H6 H7] Eo Er En Hp Ha.
  constructor; rewrite ?Eo, ?Er, ?En; try done.
  - intros o. by rewrite Hp.
  - intros o ov v' Ho Hv' Hne.
    destruct (proj1 (Hp o)) as [v Hv]; [by eexists | ].
    destruct (Ha _ _ _ Hv Hv' Hne) as [Hq|(ov' & Ho' & ?)]; [by eapply H7 | congruence].
Qed.

(** ** The topology operations as state updates *)

(** The hub port that a device is attached to. *)
Definition attached_port (m : gmap port_ptr virtusb_port) (d : obj_ptr) : option (hub_ptr * Z) :=
  match m !! DevPort d with
  | Some v => match port_peer v with
              | Some (HubPort h i) => Some (h, i + 1)
              | _ => None
              end
  | None => None
  end.

(** A new port heap is reported to the hub the device is attached to, if any. *)
Definition device_settle `{StatusChangedTable} (d : obj_ptr) (m : gmap port_ptr virtusb_port)
    (s : kernel) : kernel :=
  match attached_port (k_ports s) d with
  | Some (h, n) => settle h n m s
  | None => set_ports m s
  end.

Definition unlink_device (d : obj_ptr) (m : gmap port_ptr virtusb_port) : gmap port_ptr virtusb_port :=
  match m !! DevPort d with
  | Some uv =>
      match port_peer uv with
      | Some q => match m !! q with
                  | Some dv => unlink_ports (DevPort d) q uv dv m
                  | None => m
                  end
      | None => m
      end
  | None => m
  end.

Definition device_signal `{StatusChangedTable} (b : bool) (d : obj_ptr) (s : kernel) : kernel :=
  device_settle d (update_port (DevPort d) (with_byte0 b) (k_ports s)) s.
Definition device_unplug `{StatusChangedTable} (d : obj_ptr) (s : kernel) : kernel :=
  device_settle d (unlink_device d (k_ports s)) s.

Section topology.
Context `{StatusChangedTable}.
Context (s : kernel) (Hok : bus_ok s).
Context (d : obj_ptr) (uv : virtusb_port) (Hd : k_ports s !! DevPort d = Some uv).

(** The hub port on the other side. *)
Lemma attached_facts h n : attached_port (k_ports s) d = Some (h, n) ->
  exists hv dv, k_hubs s !! h = Some hv /\ port_valid hv n = true /\
    port_peer uv = Some (HubPort h (n - 1)) /\ k_ports s !! HubPort h (n - 1) = Some dv /\
    port_peer dv = Some (DevPort d) /\ port_role dv = VIRTUSB_PORT_ROLE_DOWNSTREAM /\
    port_owner dv = Some (OwnerHub h).
Proof using Hok Hd.
  unfold attached_port. rewrite Hd. destruct (port_peer uv) as [[|h' i]|] eqn:Eq; [done | | done].
  intros [= -> <-].
  destruct (wf_dev_peer _ _ (proj1 Hok) _ _ _ Hd Eq)
    as (h2 & hv & i2 & dv & [= <- <-] & Hh & Hi & Hdv & Hb & Hr & Ho).
  exists hv, dv. replace (i + 1 - 1) with i by lia.
  split; [done | ]. split; [ | done]. unfold port_valid. rewrite andb_true_iff. lia.
Qed.

Lemma not_attached : attached_port (k_ports s) d = None -> port_peer uv = None.
Proof using Hok Hd.
  unfold attached_port. rewrite Hd. destruct (port_peer uv) as [q|] eqn:Eq; [ | done].
  destruct (wf_dev_peer _ _ (proj1 Hok) _ _ _ Hd Eq) as (h & hv & i & dv & -> & _). done.
Qed.

Lemma find_attached h hv n out : k_hubs s !! h = Some hv -> port_valid hv n = true ->
  virtusb_hub_find_port_number (Some h) (Some (HubPort h (n - 1))) (Some out) s =
    Some ((0, Some n), s).
Proof using Hok.
  intros Hh Hv. rewrite (hub_find_port_number_eq _ (proj1 Hok) _ _ Hh).
  unfold port_valid in Hv. rewrite andb_true_iff in Hv.
  rewrite decide_True by (split; [done | lia]).
  unfold ret. do 3 f_equal. f_equal. lia.
Qed.

Lemma get_attached_hub_eq out :
  virtusb_device_get_attached_hub (Some d) (Some out) s =
    Some (match attached_port (k_ports s) d with
          | Some (h, n) => (Some h, Some n)
          | None => (None, Some out)
          end, s).
Proof using Hok Hd.
  unfold virtusb_device_get_attached_hub.
  destruct (attached_port (k_ports s) d) as [[h n]|] eqn:Ea.
  - destruct (attached_facts h n Ea) as (hv & dv & Hh & Hv & Hp & Hdv & _ & Hr & Ho).
    run. rewrite Hp. run. rewrite ?Hr, Ho. run.
    by rewrite (find_attached h hv n out Hh Hv).
  - run. by rewrite (not_attached Ea).
Qed.

(** The end of a topology operation. *)
Lemma settle_tail {B} h hv n m (k : unit -> K B) : attached_port (k_ports s) d = Some (h, n) ->
  k_hubs s !! h = Some hv -> port_valid hv n = true -> bus_wf m (k_hubs s) ->
  (is_connected <- virtusb_hub_port_is_connected (Some h) n ;;
   (if negb (eqb (port_connected (k_ports s) h n) is_connected)
    then virtusb_hub_mark_port_connection_change (Some h) n
    else ret tt) ;; k tt) (set_ports m s) = k tt (device_settle d m s).
Proof using.
  intros Ea Hh Hv Hm. rewrite (settle_run s h hv n m k) by done.
  unfold device_settle. by rewrite Ea.
Qed.

Lemma signal_facts b : bus_wf (<[DevPort d := with_byte0 b uv]> (k_ports s)) (k_hubs s).
Proof using Hok Hd.
  destruct Hok as [Hwf _]. destruct (bw_devport _ _ Hwf _ _ Hd) as (Hr & _).
  apply bus_wf_update_state; [done.. | congruence].
Qed.

Lemma device_signal_eq b :
  virtusb_device_set_connection_signaling (Some d) b s = Some (0, device_signal b d s).
Proof using Hok Hd.
  destruct (bw_devport _ _ (proj1 Hok) _ _ Hd) as (Hr & _).
  unfold virtusb_device_set_connection_signaling, device_signal.
  rewrite (update_port_insert _ _ uv) by done. unfold bind at 1. rewrite get_attached_hub_eq.
  destruct (attached_port (k_ports s) d) as [[h n]|] eqn:Ea; cbn iota beta.
  - destruct (attached_facts h n Ea) as (hv & dv & Hh & Hv & _). cbn [out_value].
    unfold bind at 1. rewrite (hub_port_is_connected_eq _ (proj1 Hok) _ _ Hh).
    unfold bind at 1. rewrite (port_set_connection_signaling_ok _ _ uv) by done.
    cbn [Z.ltb Z.compare].
    exact (settle_tail h hv n _ (fun _ => ret 0) Ea Hh Hv (signal_facts b)).
  - rewrite (port_set_connection_signaling_ok _ _ uv) by done.
    unfold device_settle. by rewrite Ea.
Qed.

Lemma unlink_facts h n : attached_port (k_ports s) d = Some (h, n) ->
  exists dv, k_ports s !! HubPort h (n - 1) = Some dv /\
    unlink_device d (k_ports s) = unlink_ports (DevPort d) (HubPort h (n - 1)) uv dv (k_ports s) /\
    bus_wf (unlink_device d (k_ports s)) (k_hubs s) /\
    change_at h n (k_ports s) (unlink_device d (k_ports s)) /\
    port_connected (unlink_device d (k_ports s)) h n = false.
Proof using Hok Hd.
  intros Ea. destruct (attached_facts h n Ea) as (hv & dv & Hh & Hv & Hp & Hdv & Hb & Hr & Ho).
  destruct Hok as [Hwf _].
  assert (E : unlink_device d (k_ports s) =
              unlink_ports (DevPort d) (HubPort h (n - 1)) uv dv (k_ports s))
    by (unfold unlink_device; by rewrite Hd, Hp, Hdv).
  exists dv. rewrite E. split; [done | ]. split; [done | ]. split; [ | split].
  - unfold unlink_ports. rewrite insert_insert_ne by done. eapply bus_wf_set_peers; try done.
    rewrite <- insert_insert_ne by done.
    apply (reciprocal_unlink _ (DevPort d) (HubPort h (n - 1)) uv dv); try done.
    apply (bw_recip _ _ Hwf).
  - by eapply change_at_unlink.
  - unfold port_connected, unlink_ports. by rewrite lookup_insert_eq.
Qed.

Lemma unlink_none : attached_port (k_ports s) d = None -> unlink_device d (k_ports s) = k_ports s.
Proof using Hok Hd. intros Ea. unfold unlink_device. by rewrite Hd, (not_attached Ea). Qed.

Lemma device_detach_eq : virtusb_device_detach (Some d) s = Some (tt, device_unplug d s).
Proof using Hok Hd.
  unfold virtusb_device_detach, device_unplug. unfold bind at 1. rewrite get_attached_hub_eq.
  destruct (attached_port (k_ports s) d) as [[h n]|] eqn:Ea; cbn iota beta.
  - destruct (attached_facts h n Ea) as (hv & dv & Hh & Hv & Hp & Hdv & _). cbn [out_value].
    destruct (unlink_facts h n Ea) as (dv' & Hdv' & E & Hwf' & _ & Hc). simplify_eq.
    unfold bind at 1. rewrite (hub_port_is_connected_eq _ (proj1 Hok) _ _ Hh).
    unfold bind at 1. rewrite (port_detach_ok _ _ (HubPort h (n - 1)) uv dv)
      by (done || apply (bw_recip _ _ (proj1 Hok))).
    rewrite <- E. unfold device_settle. rewrite Ea. unfold settle. rewrite Hc.
    destruct (port_connected (k_ports s) h n); [ | done]. cbn [eqb].
    by rewrite (hub_mark_eq (set_ports _ s) h hv n Hwf' Hh Hv).
  - rewrite (port_detach_none _ _ uv Hd (not_attached Ea)).
    unfold device_settle. by rewrite Ea, unlink_none, set_ports_id.
Qed.

Lemma device_has_vbus_eq :
  virtusb_device_has_vbus (Some d) s =
    Some (match attached_port (k_ports s) d with
          | Some (h, n) => port_powered (k_ports s) h n
          | None => false
          end, s).
Proof using Hok Hd.
  destruct (bw_devport _ _ (proj1 Hok) _ _ Hd) as (Hr & _).
  unfold virtusb_device_has_vbus, virtusb_port_has_vbus. run. rewrite ?Hr. run.
  destruct (attached_port (k_ports s) d) as [[h n]|] eqn:Ea.
  - destruct (attached_facts h n Ea) as (hv & dv & Hh & Hv & Hp & Hdv & _ & Hrd & _).
    rewrite Hp. run. rewrite ?Hrd. run. unfold port_powered. by rewrite Hdv.
  - by rewrite (not_attached Ea).
Qed.
End topology.

(** ** Attachment *)

Section attach.
Context `{StatusChangedTable}.
Context (s : kernel) (Hok : bus_ok s).
Context (d : obj_ptr) (uv : virtusb_port) (Hd : k_ports s !! DevPort d = Some uv).
Context (h : hub_ptr) (hv : virtusb_hub) (Hh : k_hubs s !! h = Some hv).
Context (n : Z) (Hv : port_valid hv n = true).

Definition link_device (dv : virtusb_port) : gmap port_ptr virtusb_port :=
  link_ports (HubPort h (n - 1)) (DevPort d) dv uv (k_ports s).

Lemma link_facts dv : k_ports s !! HubPort h (n - 1) = Some dv ->
  port_role dv = VIRTUSB_PORT_ROLE_DOWNSTREAM -> port_peer dv = None -> port_peer uv = None ->
  bus_wf (link_device dv) (k_hubs s) /\ change_at h n (k_ports s) (link_device dv).
Proof using Hok Hd.
  intros Hdv Hr Pd Pu. destruct Hok as [Hwf _].
  destruct (bw_devport _ _ Hwf _ _ Hd) as (Ru & _). split.
  - unfold link_device, link_ports. eapply bus_wf_set_peers; try done.
    apply (reciprocal_link _ (HubPort h (n - 1)) (DevPort d) dv uv); try done.
    apply (bw_recip _ _ Hwf).
  - by eapply change_at_link.
Qed.

Lemma device_attach_eq dv : k_ports s !! HubPort h (n - 1) = Some dv ->
  virtusb_device_attach (Some d) (Some (HubPort h (n - 1))) s =
    Some (if decide (port_peer dv = None /\ port_peer uv = None)
          then (0, settle h n (link_device dv) s) else (- EBUSY, s)).
Proof using Hok Hd Hh Hv.
  intros Hdv. pose proof (wf_port _ _ (proj1 Hok) _ _ _ Hh Hv) as (v & Ev & Rv & Ov & _).
  simplify_eq. destruct (bw_devport _ _ (proj1 Hok) _ _ Hd) as (Ru & _).
  unfold virtusb_device_attach. unfold bind at 1, load. rewrite Hdv.
  unfold bind at 1. rewrite Ov. cbn [owner_hub ret].
  unfold bind at 1. rewrite (find_attached s Hok h hv n uninit Hh Hv).
  cbn [Z.ltb Z.compare out_value]. unfold bind at 1.
  rewrite (hub_port_is_connected_eq _ (proj1 Hok) _ _ Hh). unfold bind at 1.
  case_decide as Hp.
  - destruct Hp as [Pd Pu]. rewrite (port_attach_ok _ _ _ dv uv) by done.
    cbn [Z.ltb Z.compare]. destruct (link_facts dv Hdv Rv Pd Pu) as [Hwf' _].
    exact (settle_run s h hv n _ (fun _ => ret 0) Hwf' Hh Hv).
  - rewrite (port_attach_busy _ _ _ dv uv); [done.. | ].
    destruct (port_peer dv), (port_peer uv); auto; naive_solver.
Qed.
End attach.

(** ** Preservation of the invariants *)

(** What every operation of this file guarantees. *)
Record device_step `{StatusChangedTable} (ext' : obj_ptr -> Z) (s s' : kernel) : Prop := {
  ds_bus : bus_ok s';
  ds_objects : objects_ok ext' s';
  ds_topology : topology_step s s';
  ds_hubs : dom (k_hubs s') = dom (k_hubs s);
  ds_frame : transfer_frame s s';
}.

Lemma device_step_trans `{StatusChangedTable} ext2 ext3 s1 s2 s3 :
  device_step ext2 s1 s2 -> device_step ext3 s2 s3 -> device_step ext3 s1 s3.
Proof.
  intros [_ _ T1 D1 F1] [B O T2 D2 F2]. constructor; [done.. | | congruence | ].
  - eapply topology_step_trans; [ | done..]. by rewrite D2, D1.
  - by etrans.
Qed.

Lemma device_step_refl `{StatusChangedTable} ext s : bus_ok s -> objects_ok ext s ->
  device_step ext s s.
Proof. intros. constructor; [done.. | apply topology_step_refl | done | done]. Qed.

Section preservation.
Context `{StatusChangedTable}.
Context (ext : obj_ptr -> Z) (s : kernel) (Hbus : bus_ok s) (Hobj : objects_ok ext s).

Lemma settle_device_step h hv n m : k_hubs s !! h = Some hv -> port_valid hv n = true ->
  bus_wf m (k_hubs s) -> change_at h n (k_ports s) m ->
  (forall o, is_Some (m !! DevPort o) <-> is_Some (k_ports s !! DevPort o)) ->
  (forall o v v', k_ports s !! DevPort o = Some v -> m !! DevPort o = Some v' ->
     port_peer v' <> None -> port_peer v <> None \/
     exists ov, k_objects s !! o = Some ov /\ ob_registered ov = true) ->
  device_step ext s (settle h n m s).
Proof using Hbus Hobj.
  intros Hh Hv Hwf Hca Hlive Hatt. constructor.
  - by eapply settle_bus_ok.
  - rewrite settle_frame. eapply objects_ok_ports; [exact Hobj | done.. | apply Hlive | apply Hatt].
  - by eapply settle_topology_step.
  - apply settle_hubs_dom.
  - rewrite settle_frame. by constructor.
Qed.

Context (d : obj_ptr) (uv : virtusb_port) (Hd : k_ports s !! DevPort d = Some uv).

(** A change of a detached device port concerns nobody. *)
Lemma detached_device_step v : port_peer uv = None ->
  port_role v = port_role uv -> port_owner v = port_owner uv -> port_speed v = port_speed uv ->
  port_peer v = None ->
  device_step ext s (set_ports (<[DevPort d := v]> (k_ports s)) s).
Proof using Hbus Hobj Hd.
  intros Hn Er Eo Es Ep. destruct (bw_devport _ _ (proj1 Hbus) _ _ Hd) as (Hr & Ho & Hs).
  destruct (bus_ok_dev_port s Hbus d) with (m := <[DevPort d := v]> (k_ports s))
    as (Hwf & Hu & Hc).
  - intros w Hw. by simplify_eq.
  - intros p Hp. by rewrite lookup_insert_ne by congruence.
  - intros w. rewrite lookup_insert_eq. intros [= <-]. rewrite Er, Eo, Es, Ep. done.
  - constructor.
    + by split.
    + eapply objects_ok_ports; [exact Hobj | done.. | | ].
      * intros o. cbn. rewrite lookup_insert. case_decide as E; [ | done].
        injection E as <-. rewrite Hd. split; intros _; by eexists.
      * intros o w w' Hw. cbn. rewrite lookup_insert. case_decide as E; [by intros [= <-] | ].
        intros Hw' Hne. left. congruence.
    + apply topology_step_quiet; [done | done | ].
      intros h hv n _. apply Hc.
    + done.
    + by constructor.
Qed.

Lemma device_signal_step b : device_step ext s (device_signal b d s).
Proof using Hbus Hobj Hd.
  unfold device_signal, device_settle. rewrite (update_port_insert _ _ uv) by done.
  destruct (attached_port (k_ports s) d) as [[h n]|] eqn:Ea.
  - destruct (attached_facts s Hbus d uv Hd h n Ea) as (hv & dv & Hh & Hv & Hp & _).
    apply (settle_device_step h hv); [done | done | by apply signal_facts | | | ].
    + eapply change_at_dev_state; [apply Hbus | done | done].
    + intros o. rewrite lookup_insert. case_decide as E; [ | done].
      injection E as <-. rewrite Hd. split; intros _; by eexists.
    + intros o w w' Hw. rewrite lookup_insert. case_decide as E.
      * injection E as <-. intros [= <-] Hne. left. simplify_eq. done.
      * intros Hw' Hne. left. congruence.
  - apply detached_device_step; try done; exact (not_attached s Hbus d uv Hd Ea).
Qed.

Lemma device_unplug_step : device_step ext s (device_unplug d s).
Proof using Hbus Hobj Hd.
  unfold device_unplug, device_settle.
  destruct (attached_port (k_ports s) d) as [[h n]|] eqn:Ea.
  - destruct (attached_facts s Hbus d uv Hd h n Ea) as (hv & dv & Hh & Hv & Hp & Hdv & _).
    destruct (unlink_facts s Hbus d uv Hd h n Ea) as (dv' & Hdv' & E & Hwf & Hca & _).
    simplify_eq. apply (settle_device_step h hv); [done.. | | ].
    + intros o. rewrite E. unfold unlink_ports. rewrite lookup_insert_ne, lookup_insert by done.
      case_decide as Eo; [ | done]. injection Eo as <-. rewrite Hd. split; intros _; by eexists.
    + intros o w w' Hw. rewrite E. unfold unlink_ports.
      rewrite lookup_insert_ne, lookup_insert by done.
      case_decide as Eo; [by intros [= <-] | ]. intros Hw' Hne. left. congruence.
  - rewrite (unlink_none s Hbus d uv) by done. rewrite set_ports_id. by apply device_step_refl.
Qed.

(** After unplugging, the device is detached. *)
Lemma device_unplug_detached v :
  k_ports (device_unplug d s) !! DevPort d = Some v -> port_peer v = None.
Proof using Hbus Hd.
  unfold device_unplug, device_settle.
  destruct (attached_port (k_ports s) d) as [[h n]|] eqn:Ea.
  - rewrite settle_ports. destruct (unlink_facts s Hbus d uv Hd h n Ea) as (dv & _ & -> & _).
    unfold unlink_ports. rewrite lookup_insert_ne, lookup_insert_eq by done. by intros [= <-].
  - rewrite (unlink_none s Hbus d uv) by done. cbn. rewrite Hd. intros [= <-].
    by eapply not_attached.
Qed.

Lemma device_link_step h hv n dv ov : k_hubs s !! h = Some hv -> port_valid hv n = true ->
  k_ports s !! HubPort h (n - 1) = Some dv -> port_peer dv = None -> port_peer uv = None ->
  k_objects s !! d = Some ov -> ob_registered ov = true ->
  device_step ext s (settle h n (link_device s d uv h n dv) s).
Proof using Hbus Hobj Hd.
  intros Hh Hv Hdv Pd Pu Ho Hr.
  pose proof (wf_port _ _ (proj1 Hbus) _ _ _ Hh Hv) as (v & Ev & Rv & Ov & _). simplify_eq.
  destruct (link_facts s Hbus d uv Hd h n dv Hdv Rv Pd Pu) as [Hwf Hca].
  apply (settle_device_step h hv); [done.. | | ].
  - intros o. unfold link_device, link_ports. rewrite lookup_insert. case_decide as E.
    + injection E as <-. rewrite Hd. split; intros _; by eexists.
    + by rewrite lookup_insert_ne by done.
  - intros o w w' Hw. unfold link_device, link_ports. rewrite lookup_insert. case_decide as E.
    + injection E as <-. intros _ _. right. by exists ov.
    + rewrite lookup_insert_ne by done. intros Hw' Hne. left. congruence.
Qed.
End preservation.

(** ** Creation *)

Definition new_object : virtusb_object :=
  mk_object VIRTUSB_OBJECT_ID_INVALID VIRTUSB_OBJECT_TYPE_INVALID 1 VIRTUSB_DEVICE_RELEASE false.
Definition new_device_port (o : obj_ptr) (speed : Z) : virtusb_port :=
  mk_port VIRTUSB_PORT_ROLE_UPSTREAM (Some (OwnerDevice o)) speed None (mk_port_union false false).
(** The heap with the storage of a device at [o]. *)
Definition with_device (o : obj_ptr) (v : virtusb_port) (s : kernel) : kernel :=
  set_ports (<[DevPort o := v]> (k_ports s)) (set_objects (<[o := new_object]> (k_objects s)) s).
Definition created_device (o : obj_ptr) (speed : Z) (s : kernel) : kernel :=
  object_publish o VIRTUSB_OBJECT_TYPE_DEVICE (with_device o (new_device_port o speed) s).

Section create.
Context `{StatusChangedTable}.
Context (ext : obj_ptr -> Z) (s : kernel) (Hobj : objects_ok ext s).
Context (o : obj_ptr) (Hfresh : k_objects s !! o = None).

Lemma fresh_port : k_ports s !! DevPort o = None.
Proof using Hobj Hfresh.
  destruct (k_ports s !! DevPort o) eqn:E; [ | done].
  destruct (proj2 (oo_port _ _ Hobj o)) as [? ?]; [by eexists | congruence].
Qed.

Lemma with_device_ok v : port_peer v = None -> objects_ok (add_ref o 1 ext) (with_device o v s).
Proof using Hobj Hfresh.
  intros Hp. destruct Hobj as [H1 H2 H3 H4 H5 H6 H7]. constructor; cbn.
  - done.
  - intros id x Hx. destruct (H2 _ _ Hx) as (? & xv & Hxv & ?). split; [done | ].
    rewrite lookup_insert_ne by congruence. by exists xv.
  - intros x xv. rewrite lookup_insert. case_decide; [by intros [= <-] | apply H3].
  - intros x xv. rewrite lookup_insert. case_decide as E.
    + intros [= <-]. subst. rewrite add_ref_eq, (H5 _ Hfresh). done.
    + rewrite add_ref_ne by done. apply H4.
  - intros x. rewrite lookup_insert. case_decide; [done | ].
    rewrite add_ref_ne by done. apply H5.
  - intros x. rewrite !lookup_insert. destruct (decide (o = x)) as [->|].
    + rewrite decide_True by done. split; intros _; by eexists.
    + rewrite decide_False by congruence. apply H6.
  - intros x xv w. rewrite !lookup_insert. destruct (decide (o = x)) as [->|].
    + rewrite decide_True by done. intros _ [= <-] Hn. congruence.
    + rewrite decide_False by congruence. apply H7.
Qed.

Lemma with_device_drop v : object_drop o (with_device o v s) = s.
Proof using Hobj Hfresh.
  unfold object_drop, with_device. cbn. rewrite lookup_insert_eq. cbn.
  unfold object_free. cbn. rewrite !delete_insert_id by (done || apply fresh_port).
  by destruct s.
Qed.

(** [virtusb_device_create] on every branch; a failure leaves no trace. *)
Lemma device_create_eq speed oom :
  virtusb_device_create speed (Some o) oom s =
    Some (if virtusb_port_speed_is_valid speed then
            if U32_MAX <? k_next_object_id s then (Err (- ENOSPC), s)
            else if oom then (Err (- ENOMEM), s)
            else (Ok o, created_device o speed s)
          else (Err (- EINVAL), s)).
Proof using Hobj Hfresh.
  pose proof fresh_port as Hfp.
  assert (Ealloc : virtusb_object_alloc sizeof_virtusb_device (Some VIRTUSB_DEVICE_RELEASE)
                     (Some o) s = Some (Some o, with_device o zero_port s)).
  { unfold virtusb_object_alloc, kzalloc_object.
    change (sizeof_virtusb_device <? sizeof_virtusb_object) with false.
    change (sizeof_virtusb_device <=? sizeof_virtusb_device) with true.
    run. unfold with_device. by rewrite insert_insert_eq. }
  assert (Hput : forall v, port_peer v = None ->
            virtusb_object_put (Some o) (with_device o v s) = Some (tt, s)).
  { intros v Hv. rewrite (object_put_eq _ _ (with_device_ok v Hv)).
    - by rewrite with_device_drop.
    - rewrite add_ref_eq, (oo_ext _ _ Hobj _ Hfresh). lia. }
  unfold virtusb_device_create. unfold bind at 1. rewrite Ealloc.
  destruct (virtusb_port_speed_is_valid speed) eqn:Es.
  - unfold bind at 1. rewrite (port_init_ok _ _ zero_port) by (done || apply lookup_insert_eq).
    change (0 <? 0) with false. cbn iota.
    assert (E : set_ports (<[DevPort o := mk_port VIRTUSB_PORT_ROLE_UPSTREAM (Some (OwnerDevice o))
                  speed None (mk_port_union false false)]> (k_ports (with_device o zero_port s)))
                  (with_device o zero_port s) = with_device o (new_device_port o speed) s).
    { unfold with_device, new_device_port. cbn. unfold set_ports. cbn.
      by rewrite insert_insert_eq. }
    rewrite E. unfold bind at 1.
    rewrite (object_register_eq _ _ (with_device_ok (new_device_port o speed) eq_refl) o new_object)
      by apply lookup_insert_eq.
    rewrite bool_decide_eq_false_2 by done. cbn [new_object ob_registered].
    change (k_next_object_id (with_device o (new_device_port o speed) s))
      with (k_next_object_id s).
    destruct (U32_MAX <? k_next_object_id s); [ | destruct oom]; cbn iota.
    + change (- ENOSPC <? 0) with true. unfold bind. by rewrite Hput.
    + change (- ENOMEM <? 0) with true. unfold bind. by rewrite Hput.
    + done.
  - unfold bind at 1, virtusb_port_init. rewrite Es.
    rewrite (bool_decide_eq_false_2 (VIRTUSB_PORT_ROLE_UPSTREAM <> _)) by auto.
    cbn [andb negb]. unfold ret at 1. change (- EINVAL <? 0) with true. unfold bind.
    by rewrite Hput.
Qed.

Lemma created_device_step speed : bus_ok s -> virtusb_port_speed_is_valid speed = true ->
  in_width 8 speed -> k_next_object_id s <= U32_MAX ->
  device_step (add_ref o 1 ext) s (created_device o speed s).
Proof using Hobj Hfresh.
  intros Hbus Hs Hw Hn. pose proof fresh_port as Hfp.
  destruct (bus_ok_dev_port s Hbus o) with (m := <[DevPort o := new_device_port o speed]> (k_ports s))
    as (Hwf & Hu & Hc).
  - intros v. by rewrite Hfp.
  - intros p Hp. by rewrite lookup_insert_ne by congruence.
  - intros v. rewrite lookup_insert_eq. intros [= <-]. cbn.
    split; [done | ]. split; [done | ]. split; [ | done]. by apply speed_is_valid_iff.
  - constructor.
    + by split.
    + eapply object_publish_ok; [by apply with_device_ok | apply lookup_insert_eq | done | done].
    + apply topology_step_quiet; [done | done | ].
      intros h hv n _. apply Hc.
    + done.
    + by constructor.
Qed.
End create.

(** ** Dropping references and destruction *)

(** The ports of hubs stay as they are, and so do those of the devices that still
    exist. *)
Definition ports_kept (m m' : gmap port_ptr virtusb_port) : Prop :=
  (forall h i, m' !! HubPort h i = m !! HubPort h i) /\
  (forall d, is_Some (m' !! DevPort d) -> m' !! DevPort d = m !! DevPort d).
Lemma ports_kept_trans m1 m2 m3 : ports_kept m1 m2 -> ports_kept m2 m3 -> ports_kept m1 m3.
Proof.
  intros [H1 D1] [H2 D2]. split; [congruence | ]. intros d Hd. rewrite (D2 d Hd). apply D1. by rewrite <- D2.
Qed.

(** Steps on the storage of objects and transfers: the bus looks the same. *)
Record storage_step (s s' : kernel) : Prop := {
  ss_bus : bus_ok s';
  ss_connected : forall h n,
    port_connected (k_ports s') h n = port_connected (k_ports s) h n;
  ss_hubs : k_hubs s' = k_hubs s;
  ss_registry : k_registry s' = k_registry s;
  ss_next_object_id : k_next_object_id s' = k_next_object_id s;
  ss_next_transfer_id : k_next_transfer_id s' = k_next_transfer_id s;
  ss_hcds : k_hcds s' = k_hcds s;
  ss_usb_hcds : k_usb_hcds s' = k_usb_hcds s;
  ss_urbs : k_urbs s' = k_urbs s;
  ss_files : k_files s' = k_files s;
  ss_trace : k_trace s' = k_trace s;
  ss_ports : ports_kept (k_ports s) (k_ports s');
}.

Lemma storage_step_refl s : bus_ok s -> storage_step s s.
Proof. by constructor. Qed.
Lemma storage_step_trans s1 s2 s3 : storage_step s1 s2 -> storage_step s2 s3 -> storage_step s1 s3.
Proof. intros [] []. constructor; [done | congruence.. | by eapply ports_kept_trans]. Qed.

Lemma storage_topology_step `{StatusChangedTable} s s' : storage_step s s' -> topology_step s s'.
Proof.
  intros []. by apply topology_step_quiet.
Qed.

Lemma object_ref_storage s o n : bus_ok s -> storage_step s (object_ref o n s).
Proof. by constructor. Qed.

Lemma object_drop_storage ext s o : bus_ok s -> objects_ok ext s -> 1 <= ext o ->
  storage_step s (object_drop o s).
Proof.
  intros Hbus Hobj He. destruct (ext_live ext s Hobj o He) as (ov & pv & Ho & Hp).
  unfold object_drop in *. rewrite Ho in *. destruct (Z.eqb_spec (ob_refcount ov) 1) as [E|E];
    [ | by constructor].
  destruct (last_ref_detached ext s Hobj o ov pv He Ho Hp E) as (_ & _ & Hq).
  destruct (bus_ok_dev_port s Hbus o) with (m := delete (DevPort o) (k_ports s))
    as (Hwf & Hu & Hc).
  - intros v Hv. congruence.
  - intros p Hne. by rewrite lookup_delete_ne by congruence.
  - intros v. by rewrite lookup_delete_eq.
  - constructor; try done. split; [intros h i; cbn; by rewrite lookup_delete_ne | ]. intros d. cbn.
    destruct (decide (d = o)) as [->|]; [ | by rewrite lookup_delete_ne by congruence].
    rewrite lookup_delete_eq. by intros [? ?].
Qed.

Section destroy.
Context `{StatusChangedTable}.

Lemma object_drop_step ext s o : bus_ok s -> objects_ok ext s -> 1 <= ext o ->
  device_step (add_ref o (-1) ext) s (object_drop o s).
Proof.
  intros Hbus Hobj He. pose proof (object_drop_storage ext s o Hbus Hobj He) as S.
  constructor; [apply S | by apply object_drop_ok | by apply storage_topology_step | | ].
  - by rewrite (ss_hubs _ _ S).
  - unfold object_drop. destruct (k_objects s !! o); [destruct (_ =? 1) | ]; by constructor.
Qed.

(** Registry operations do not concern the bus. *)
Lemma object_withdraw_step ext s o ov pv : bus_ok s -> objects_ok ext s ->
  k_objects s !! o = Some ov -> ob_registered ov = true ->
  k_ports s !! DevPort o = Some pv -> port_peer pv = None ->
  device_step (add_ref o 1 ext) s (object_withdraw o (ob_id ov) s).
Proof.
  intros Hbus Hobj Ho Hr Hp Hq. constructor; [done | | | done | by constructor].
  - by eapply object_withdraw_ok.
  - by apply topology_step_quiet.
Qed.

(** The state after unregistering a detached object, and after forced
    destruction. *)
Definition device_unregister (d : obj_ptr) (id : Z) (s : kernel) : kernel :=
  object_drop d (object_withdraw d id s).

Lemma device_unregister_step ext s o ov pv : bus_ok s -> objects_ok ext s ->
  k_objects s !! o = Some ov -> ob_registered ov = true ->
  k_ports s !! DevPort o = Some pv -> port_peer pv = None ->
  device_step ext s (device_unregister o (ob_id ov) s).
Proof.
  intros Hbus Hobj Ho Hr Hp Hq.
  pose proof (object_withdraw_step ext s o ov pv Hbus Hobj Ho Hr Hp Hq) as S1.
  pose proof (object_drop_step (add_ref o 1 ext) _ o (ds_bus _ _ _ S1) (ds_objects _ _ _ S1)) as S2.
  rewrite add_ref_eq in S2. specialize (S2 ltac:(destruct (oo_refcount _ _ Hobj _ _ Ho); lia)).
  pose proof (device_step_trans _ _ _ _ _ S1 S2) as [B O T D F].
  constructor; [done | | done..].
  eapply objects_ok_ext; [ | exact O]. intros x. apply (add_ref_cancel o 1 ext).
Qed.

Definition device_force (d : obj_ptr) (s : kernel) : kernel :=
  device_unplug d (device_signal false d s).

Lemma device_force_frame d s :
  k_objects (device_force d s) = k_objects s /\ k_registry (device_force d s) = k_registry s.
Proof.
  assert (E : forall m s, k_objects (device_settle d m s) = k_objects s /\
                k_registry (device_settle d m s) = k_registry s).
  { intros m s'. unfold device_settle. destruct (attached_port _ _) as [[h n]|]; [ | done].
    by rewrite settle_frame. }
  unfold device_force, device_unplug, device_signal.
  split; [rewrite (proj1 (E _ _)) | rewrite (proj2 (E _ _))]; apply E.
Qed.

Lemma device_force_step ext s d uv : bus_ok s -> objects_ok ext s ->
  k_ports s !! DevPort d = Some uv ->
  device_step ext s (device_force d s) /\
  exists v, k_ports (device_force d s) !! DevPort d = Some v /\ port_peer v = None.
Proof.
  intros Hbus Hobj Hd.
  pose proof (device_signal_step ext s Hbus Hobj d uv Hd false) as S1.
  destruct (proj1 (oo_port _ _ (ds_objects _ _ _ S1) d)) as [v Hv].
  { unfold device_signal.
    destruct (proj2 (oo_port _ _ Hobj d)) as [ov Ho]; [by eexists | ]. exists ov.
    unfold device_settle. destruct (attached_port _ _) as [[h n]|]; [by rewrite settle_frame | done]. }
  pose proof (device_unplug_step ext _ (ds_bus _ _ _ S1) (ds_objects _ _ _ S1) d v Hv) as S2.
  split; [by eapply device_step_trans | ].
  destruct (proj1 (oo_port _ _ (ds_objects _ _ _ S2) d)) as [w Hw].
  { destruct (proj2 (oo_port _ _ Hobj d)) as [ov Ho]; [by eexists | ]. exists ov.
    pose proof (proj1 (device_force_frame d s)) as E. unfold device_force in E. by rewrite E. }
  exists w. split; [done | ].
  exact (device_unplug_detached _ (ds_bus _ _ _ S1) d v Hv w Hw).
Qed.

(** [virtusb_device_destroy] on every branch. *)
Lemma device_destroy_eq ext s d uv ov force : bus_ok s -> objects_ok ext s ->
  k_ports s !! DevPort d = Some uv -> k_objects s !! d = Some ov ->
  virtusb_device_destroy (Some d) force s =
    Some (if decide (port_peer uv = None)
          then if ob_registered ov then (0, device_unregister d (ob_id ov) s) else (- ENOENT, s)
          else if force then (0, device_unregister d (ob_id ov) (device_force d s))
          else (- EBUSY, s)).
Proof.
  intros Hbus Hobj Hd Ho. unfold virtusb_device_destroy. unfold bind at 1, load. rewrite Hd.
  case_decide as Hp.
  - rewrite bool_decide_eq_false_2 by (intros E; by apply E).
    apply (object_unregister_eq ext s Hobj d ov Ho). intros pv Hpv. congruence.
  - rewrite bool_decide_eq_true_2 by done. destruct force; cbn [negb]; [ | done].
    pose proof (oo_attached _ _ Hobj _ _ _ Ho Hd Hp) as Hreg.
    unfold bind at 1. rewrite (device_signal_eq s Hbus d uv Hd false). change (0 <? 0) with false.
    cbn iota.
    pose proof (device_signal_step ext s Hbus Hobj d uv Hd false) as S1.
    destruct (device_force_step ext s d uv Hbus Hobj Hd) as (S2 & v & Hv & Hn).
    destruct (device_force_frame d s) as [Eo Er].
    destruct (proj1 (oo_port _ _ (ds_objects _ _ _ S1) d)) as [w Hw].
    { exists ov. unfold device_signal, device_settle.
      destruct (attached_port _ _) as [[h n]|]; [by rewrite settle_frame | done]. }
    unfold bind at 1. rewrite (device_detach_eq _ (ds_bus _ _ _ S1) d w Hw).
    fold (device_force d s).
    rewrite (object_unregister_eq ext _ (ds_objects _ _ _ S2) d ov).
    + by rewrite Hreg.
    + by rewrite Eo.
    + intros pv Hpv. congruence.
Qed.

Lemma device_destroy_step ext s d uv ov force r s' : bus_ok s -> objects_ok ext s ->
  k_ports s !! DevPort d = Some uv -> k_objects s !! d = Some ov ->
  virtusb_device_destroy (Some d) force s = Some (r, s') ->
  device_step ext s s' /\
  (r = 0 -> k_registry s' = delete (ob_id ov) (k_registry s) /\ ob_registered ov = true) /\
  (r <> 0 -> s' = s).
Proof.
  intros Hbus Hobj Hd Ho. rewrite (device_destroy_eq ext s d uv ov force Hbus Hobj Hd Ho).
  assert (Hreg : forall id x, k_registry (device_unregister d id x) = delete id (k_registry x)).
  { intros id x. unfold device_unregister, object_drop. cbn. rewrite lookup_alter_eq.
    destruct (k_objects x !! d); cbn; [ | done]. by destruct (_ =? 1). }
  case_decide as Hp.
  - destruct (ob_registered ov) eqn:Er; intros [= <- <-].
    + split; [by eapply device_unregister_step | ]. split; [ | done]. by rewrite Hreg.
    + split; [by apply device_step_refl | ]. by split.
  - destruct force; intros [= <- <-]; [ | by split; [apply device_step_refl | split]].
    destruct (device_force_step ext s d uv Hbus Hobj Hd) as (S2 & v & Hv & Hn).
    destruct (device_force_frame d s) as [Eo Er].
    pose proof (oo_attached _ _ Hobj _ _ _ Ho Hd Hp) as Hr.
    rewrite Hreg, Er. split; [ | done].
    eapply device_step_trans; [exact S2 | ].
    eapply device_unregister_step; [apply S2 | apply S2 | by rewrite Eo | done..].
Qed.
End destroy.

(** ** Shutdown *)

Section shutdown.
Context `{StatusChangedTable}.

(** One round: the device found is destroyed and the reference of the lookup is
    dropped; the registry loses exactly one entry. *)
Lemma shutdown_round ext s id o : bus_ok s -> objects_ok ext s -> k_registry s !! id = Some o ->
  exists r s2,
    virtusb_device_destroy (Some o) true (object_ref o 1 s) = Some (r, s2) /\
    virtusb_object_put (Some o) s2 = Some (tt, object_drop o s2) /\
    device_step ext s (object_drop o s2) /\
    k_registry (object_drop o s2) = delete id (k_registry s).
Proof.
  intros Hbus Hobj Hreg. destruct (oo_registry _ _ Hobj _ _ Hreg) as (_ & ov & Ho & Hr & Hid).
  pose proof (registered_ref_ok ext s Hobj id o Hreg) as Hobj1.
  assert (S1 : device_step (add_ref o 1 ext) s (object_ref o 1 s)).
  { constructor; [done | done | | done | by constructor].
    by apply topology_step_quiet. }
  set (s1 := object_ref o 1 s) in *.
  assert (Ho1 : k_objects s1 !! o = Some (set_ob_refcount (ob_refcount ov + 1) ov))
    by (cbn; by rewrite lookup_alter_eq, Ho).
  destruct (proj1 (oo_port _ _ Hobj1 o)) as [uv Huv]; [by eexists | ].
  destruct (virtusb_device_destroy (Some o) true s1) as [[r s2]|] eqn:E;
    [ | by rewrite (device_destroy_eq _ s1 o uv _ true Hbus Hobj1 Huv Ho1) in E; case_decide;
          cbn in E; rewrite ?Hr in E].
  destruct (device_destroy_step _ s1 o uv _ true r s2 Hbus Hobj1 Huv Ho1 E) as (S2 & Hz & _).
  assert (r = 0) as ->.
  { rewrite (device_destroy_eq _ s1 o uv _ true Hbus Hobj1 Huv Ho1) in E.
    cbn [ob_registered set_ob_refcount] in E. rewrite Hr in E. case_decide; by simplify_eq. }
  destruct (Hz eq_refl) as [Hd _]. cbn in Hd. rewrite Hid in Hd.
  assert (He : 1 <= add_ref o 1 ext o).
  { rewrite add_ref_eq. destruct (oo_refcount _ _ Hobj _ _ Ho). lia. }
  exists 0, s2. split; [done | ]. split.
  { apply (object_put_eq _ s2 (ds_objects _ _ _ S2)). done. }
  pose proof (object_drop_step _ s2 o (ds_bus _ _ _ S2) (ds_objects _ _ _ S2) He) as S3.
  split.
  - destruct (device_step_trans _ _ _ _ _ (device_step_trans _ _ _ _ _ S1 S2) S3) as [B O T D F].
    constructor; [done | | done..].
    eapply objects_ok_ext; [ | exact O]. intros x. apply (add_ref_cancel o 1 ext).
  - unfold object_drop. destruct (k_objects s2 !! o); [ | done]. by destruct (_ =? 1).
Qed.

Lemma shutdown_all_spec ext fuel : forall s, bus_ok s -> objects_ok ext s ->
  (size (k_registry s) < fuel)%nat ->
  exists s', virtusb_device_shutdown_all fuel s = Some (tt, s') /\ device_step ext s s' /\
    forall id o ov, k_registry s' !! id = Some o -> k_objects s' !! o = Some ov ->
      ob_type ov <> VIRTUSB_OBJECT_TYPE_DEVICE.
Proof.
  induction fuel as [|fuel IH]; intros s Hbus Hobj Hf; [lia | ].
  cbn [virtusb_device_shutdown_all]. unfold bind at 1.
  destruct (lookup_first_by_type_spec ext s Hobj VIRTUSB_OBJECT_TYPE_DEVICE)
    as [(id & o & -> & Hreg & _)|[-> Hnone]].
  - destruct (shutdown_round ext s id o Hbus Hobj Hreg) as (r & s2 & E1 & E2 & S & Er).
    unfold bind at 1. rewrite E1. unfold bind at 1. rewrite E2.
    destruct (IH (object_drop o s2)) as (s' & E & S' & Hs');
      [apply S | apply S | | ].
    + rewrite Er, map_size_delete_Some by (by eexists).
      assert (size (k_registry s) <> 0%nat); [ | lia].
      intros Hz. apply map_size_empty_inv in Hz. by rewrite Hz in Hreg.
    + exists s'. split; [done | ]. split; [by eapply device_step_trans | done].
  - exists s. split; [done | ]. split; [by apply device_step_refl | ].
    intros id o ov Hreg Ho E. apply (Hnone id o Hreg). unfold type_of. by rewrite Ho, <- E.
Qed.
End shutdown.
