(* ===== verification/Transfer.v ===== *)
(** * Transfers (kernel/src/virtusb_transfer.c)

    Creation, reference counting and the state machine of one transfer.  A
    transfer holds a reference to its device from creation to release. *)

From S2P Require Import Prelude Uapi Kernel Port Hub Object Device.

(** ** Operations *)

Section Operations.
Context `{ReleaseTable}.

(** [kfree(transfer->buffer)] needs no step: the buffer is part of the record. *)
Definition virtusb_transfer_release (transfer : transfer_ptr) : K unit :=
  tv <- load_transfer transfer ;;
  virtusb_object_put (Some (tr_device tv)) ;;
  free k_transfers set_transfers transfer.

Definition transfer_type_of_Z (type : Z) : option virtusb_transfer_type :=
  if type =? 0 then Some VIRTUSB_TRANSFER_TYPE_CONTROL
  else if type =? 1 then Some VIRTUSB_TRANSFER_TYPE_ISOCHRONOUS
  else if type =? 2 then Some VIRTUSB_TRANSFER_TYPE_BULK
  else if type =? 3 then Some VIRTUSB_TRANSFER_TYPE_INTERRUPT
  else None.
Definition transfer_direction_of_Z (direction : Z) : option virtusb_transfer_direction :=
  if direction =? 0 then Some VIRTUSB_TRANSFER_DIRECTION_OUT
  else if direction =? 1 then Some VIRTUSB_TRANSFER_DIRECTION_IN
  else None.

(** [memcpy] of [n] bytes out of a block; reading past its end is undefined. *)
Definition read_bytes (n : Z) (block : list Z) : K (list Z) :=
  if Z.of_nat (length block) <? n then stuck else ret (take (Z.to_nat n) block).

(** [atomic64_inc_return] and the cast to [u64]: arithmetic modulo 2^64. *)
Definition next_transfer_id : K Z :=
  modify (fun s => set_next_transfer_id (u64 (k_next_transfer_id s + 1)) s) ;;
  gets k_next_transfer_id.

(** [tmem] is the block for the structure; [bmem] the block for the buffer with
    its uninitialised contents. *)
Definition virtusb_transfer_create (device : option obj_ptr) (type direction endpoint : Z)
    (setup data : option (list Z)) (length : Z)
    (tmem : option transfer_ptr) (bmem : option (list Z)) : K (option transfer_ptr) :=
  match device, transfer_type_of_Z type, transfer_direction_of_Z direction with
  | Some d, Some ty, Some dir =>
      if 15 <? endpoint then ret None
      else if bool_decide (ty = VIRTUSB_TRANSFER_TYPE_CONTROL) && bool_decide (setup = None)
      then ret None
      else if bool_decide (dir = VIRTUSB_TRANSFER_DIRECTION_OUT) && (0 <? length) &&
              bool_decide (data = None)
      then ret None
      else match tmem with
      | None => ret None
      | Some t =>
          let allocated :=
            if 0 <? length then
              match bmem with
              | None => ret (Err (- ENOMEM))
              | Some block =>
                  if bool_decide (dir = VIRTUSB_TRANSFER_DIRECTION_OUT)
                  then bytes <- read_bytes length (match data with Some b => b | None => [] end) ;;
                       ret (Ok (Some bytes))
                  else ret (Ok (Some block))
              end
            else ret (Ok None) in
          buffer <- allocated ;;
          match buffer with
          | Err _ => ret None
          | Ok buffer =>
              id <- next_transfer_id ;;
              virtusb_object_get device ;;
              setup_bytes <- (match setup with
                              | Some b => read_bytes 8 b
                              | None => ret (replicate 8 0)
                              end) ;;
              alloc k_transfers set_transfers t
                (mk_transfer 1 id d ty dir VIRTUSB_TRANSFER_STATE_NEW endpoint
                  (bool_decide (setup <> None)) setup_bytes buffer length 0 (- EINPROGRESS)) ;;
              ret (Some t)
          end
      end
  | _, _, _ => ret None
  end.

Definition virtusb_transfer_get (transfer : option transfer_ptr) : K (option transfer_ptr) :=
  match transfer with
  | None => ret None
  | Some t =>
      tv <- load_transfer t ;;
      if tr_refcount tv <=? 0 then stuck
      else store_transfer t (set_tr_refcount (tr_refcount tv + 1) tv) ;; ret transfer
  end.

Definition virtusb_transfer_put (transfer : option transfer_ptr) : K unit :=
  match transfer with
  | None => ret tt
  | Some t =>
      tv <- load_transfer t ;;
      if tr_refcount tv <=? 0 then stuck
      else
        store_transfer t (set_tr_refcount (tr_refcount tv - 1) tv) ;;
        if tr_refcount tv - 1 =? 0 then virtusb_transfer_release t else ret tt
  end.
End Operations.

Definition virtusb_transfer_mark_queued (transfer : option transfer_ptr) : K Z :=
  match transfer with
  | None => ret (- EINVAL)
  | Some t =>
      tv <- load_transfer t ;;
      if bool_decide (tr_state tv <> VIRTUSB_TRANSFER_STATE_NEW) then ret (- EINVAL)
      else store_transfer t (set_tr_state VIRTUSB_TRANSFER_STATE_QUEUED tv) ;; ret 0
  end.

Definition virtusb_transfer_complete (transfer : option transfer_ptr)
    (status actual_length : Z) : K Z :=
  match transfer with
  | None => ret (- EINVAL)
  | Some t =>
      tv <- load_transfer t ;;
      if bool_decide (tr_state tv <> VIRTUSB_TRANSFER_STATE_NEW) &&
         bool_decide (tr_state tv <> VIRTUSB_TRANSFER_STATE_QUEUED) then ret (- EINVAL)
      else if tr_requested_length tv <? actual_length then ret (- EMSGSIZE)
      else
        store_transfer t
          (set_tr_result actual_length status VIRTUSB_TRANSFER_STATE_COMPLETED tv) ;;
        ret 0
  end.

Definition virtusb_transfer_cancel (transfer : option transfer_ptr) (status : Z) : K Z :=
  match transfer with
  | None => ret (- EINVAL)
  | Some t =>
      tv <- load_transfer t ;;
      if bool_decide (tr_state tv <> VIRTUSB_TRANSFER_STATE_NEW) &&
         bool_decide (tr_state tv <> VIRTUSB_TRANSFER_STATE_QUEUED) then ret (- EINVAL)
      else
        store_transfer t (set_tr_result 0 status VIRTUSB_TRANSFER_STATE_CANCELLED tv) ;; ret 0
  end.

#[global] Arguments virtusb_transfer_release : simpl never.
#[global] Arguments virtusb_transfer_create : simpl never.
#[global] Arguments virtusb_transfer_get : simpl never.
#[global] Arguments virtusb_transfer_put : simpl never.
#[global] Arguments virtusb_transfer_mark_queued : simpl never.
#[global] Arguments virtusb_transfer_complete : simpl never.
#[global] Arguments virtusb_transfer_cancel : simpl never.
#[global] Arguments next_transfer_id : simpl never.
#[global] Arguments read_bytes : simpl never.

(** ** Well-formed transfers *)

Record transfer_wf (tv : virtusb_transfer) : Prop := {
  tw_endpoint : 0 <= tr_endpoint tv <= 15;
  tw_setup : length (tr_setup tv) = 8%nat;
  tw_control : tr_type tv = VIRTUSB_TRANSFER_TYPE_CONTROL -> tr_has_setup tv = true;
  tw_buffer : match tr_buffer tv with
              | Some b => Z.of_nat (length b) = tr_requested_length tv
              | None => tr_requested_length tv = 0
              end;
  tw_actual : 0 <= tr_actual_length tv <= tr_requested_length tv;
}.

(** The number of live transfers for a device: each holds one reference. *)
Definition transfer_refs (m : gmap transfer_ptr virtusb_transfer) (d : obj_ptr) : Z :=
  map_sum (fun _ tv => if decide (tr_device tv = d) then 1 else 0) m.

(** [T t] is the number of references to the transfer [t]. *)
Record transfers_ok (T : transfer_ptr -> Z) (s : kernel) : Prop := {
  to_wf : forall t tv, k_transfers s !! t = Some tv -> transfer_wf tv;
  to_refcount : forall t tv, k_transfers s !! t = Some tv ->
    tr_refcount tv = T t /\ 0 < tr_refcount tv;
  to_dead : forall t, k_transfers s !! t = None -> T t = 0;
  to_id : forall t tv, k_transfers s !! t = Some tv -> 1 <= tr_id tv <= k_next_transfer_id s;
  to_unique : forall t t' tv tv', k_transfers s !! t = Some tv -> k_transfers s !! t' = Some tv' ->
    tr_id tv = tr_id tv' -> t = t';
  to_next : 0 <= k_next_transfer_id s < 2 ^ 64;
}.

(** The storage of objects and transfers: [X] counts the references to objects
    other than those of the registry and of the transfers. *)
Record refs_ok (X : obj_ptr -> Z) (T : transfer_ptr -> Z) (s : kernel) : Prop := {
  ro_bus : bus_ok s;
  ro_objects : objects_ok (fun o => transfer_refs (k_transfers s) o + X o) s;
  ro_transfers : transfers_ok T s;
  ro_nonneg : forall o, 0 <= X o;
}.

Lemma transfer_refs_nonneg m d : 0 <= transfer_refs m d.
Proof. apply map_sum_nonneg. intros. by case_decide. Qed.

Lemma refs_ok_ext X X' T T' s : (forall o, X o = X' o) -> (forall t, T t = T' t) ->
  refs_ok X T s -> refs_ok X' T' s.
Proof.
  intros EX ET [Hb Ho [? Hr Hd ? ? ?] Hn]. constructor; [done | | | ].
  - eapply objects_ok_ext; [ | exact Ho]. intros o. cbn. by rewrite EX.
  - constructor; try done.
    + intros t tv Ht. rewrite <- ET. by apply Hr.
    + intros t Ht. rewrite <- ET. by apply Hd.
  - intros o. rewrite <- EX. apply Hn.
Qed.

#[export] Instance refs_ok_proper :
  Proper (pointwise_relation obj_ptr eq ==> pointwise_relation transfer_ptr eq ==> eq ==> iff)
    refs_ok.
Proof.
  intros X X' HX T T' HT s s' ->. split; apply refs_ok_ext; intros ?; (symmetry + idtac);
    (apply HX || apply HT).
Qed.

(** Replacing the record of a live transfer. *)
Definition put_transfer (t : transfer_ptr) (tv : virtusb_transfer) (s : kernel) : kernel :=
  set_transfers (<[t := tv]> (k_transfers s)) s.

Lemma transfer_replace X T T' s t tv tv' : refs_ok X T s -> k_transfers s !! t = Some tv ->
  tr_device tv' = tr_device tv -> tr_id tv' = tr_id tv -> transfer_wf tv' ->
  tr_refcount tv' = T' t -> 0 < T' t -> (forall x, x <> t -> T' x = T x) ->
  refs_ok X T' (put_transfer t tv' s).
Proof.
  intros [Hb Ho Ht Hn] Htv Ed Ei Hwf Er Hp HT. destruct Ht as [H1 H2 H3 H4 H5 H6].
  constructor; [exact Hb | | | exact Hn].
  - eapply objects_ok_ext; [ | by eapply objects_ok_frame]. intros o. cbn.
    unfold transfer_refs. rewrite (map_sum_update _ _ t tv) by done. rewrite Ed. lia.
  - constructor; cbn; [ | | | | | done].
    + intros x xv. rewrite lookup_insert. case_decide; [by intros [= <-] | apply H1].
    + intros x xv. rewrite lookup_insert. case_decide as E.
      * intros [= <-]. subst. lia.
      * rewrite HT by done. apply H2.
    + intros x. rewrite lookup_insert. case_decide; [done | ]. rewrite HT by done. apply H3.
    + intros x xv. rewrite lookup_insert. case_decide; [ | apply H4].
      intros [= <-]. rewrite Ei. by eapply H4.
    + assert (Hold : forall x xv, <[t := tv']> (k_transfers s) !! x = Some xv ->
                exists xo, k_transfers s !! x = Some xo /\ tr_id xo = tr_id xv).
      { intros x xv. rewrite lookup_insert. case_decide as E; [ | by eauto].
        intros [= <-]. subst x. exists tv. by rewrite Ei. }
      intros x y xv yv Hx Hy Eid.
      destruct (Hold x xv Hx) as (xo & Hxo & Ex). destruct (Hold y yv Hy) as (yo & Hyo & Ey).
      apply (H5 x y xo yo); congruence.
Qed.

Lemma put_transfer_storage s t tv : bus_ok s -> storage_step s (put_transfer t tv s).
Proof. by constructor. Qed.

(** ** Reference counting *)

Definition transfer_ref (t : transfer_ptr) (n : Z) (s : kernel) : kernel :=
  set_transfers (alter (fun tv => set_tr_refcount (tr_refcount tv + n) tv) t (k_transfers s)) s.
Definition transfer_free (t : transfer_ptr) (s : kernel) : kernel :=
  set_transfers (delete t (k_transfers s)) s.
(** Dropping one reference: the last one releases the device and the storage. *)
Definition transfer_drop (t : transfer_ptr) (s : kernel) : kernel :=
  match k_transfers s !! t with
  | Some tv => if tr_refcount tv =? 1 then transfer_free t (object_drop (tr_device tv) s)
               else transfer_ref t (-1) s
  | None => s
  end.

Section refcounts.
Context (X : obj_ptr -> Z) (T : transfer_ptr -> Z) (s : kernel) (Hok : refs_ok X T s).

Lemma set_refcount_wf n tv : transfer_wf tv -> transfer_wf (set_tr_refcount n tv).
Proof. by intros []. Qed.

Lemma transfer_ref_ok t n tv : k_transfers s !! t = Some tv -> 0 < tr_refcount tv + n ->
  refs_ok X (add_ref t n T) (transfer_ref t n s).
Proof using Hok.
  intros Ht Hp. unfold transfer_ref. rewrite (alter_insert_lookup _ _ tv) by done.
  destruct (to_refcount _ _ (ro_transfers _ _ _ Hok) _ _ Ht) as [Er _].
  apply (transfer_replace X T _ s t tv); try done.
  - apply set_refcount_wf. by eapply (to_wf _ _ (ro_transfers _ _ _ Hok)).
  - rewrite add_ref_eq. cbn. lia.
  - rewrite add_ref_eq. lia.
  - intros x Hx. by apply add_ref_ne.
Qed.

Lemma transfer_get_eq t tv : k_transfers s !! t = Some tv ->
  virtusb_transfer_get (Some t) s = Some (Some t, transfer_ref t 1 s).
Proof using Hok.
  intros Ht. destruct (to_refcount _ _ (ro_transfers _ _ _ Hok) _ _ Ht) as [_ Hp].
  unfold virtusb_transfer_get, transfer_ref. run.
  destruct (Z.leb_spec (tr_refcount tv) 0); [lia | ]. run.
  by rewrite (alter_insert_lookup _ _ tv).
Qed.

Lemma live_transfer t : 1 <= T t -> exists tv, k_transfers s !! t = Some tv.
Proof using Hok.
  intros HT. destruct (k_transfers s !! t) as [tv|] eqn:E; [by eexists | ].
  rewrite (to_dead _ _ (ro_transfers _ _ _ Hok) _ E) in HT. lia.
Qed.

(** The device of a live transfer is alive. *)
Lemma transfer_device_ref t tv : k_transfers s !! t = Some tv ->
  1 <= transfer_refs (k_transfers s) (tr_device tv) + X (tr_device tv).
Proof using Hok.
  intros Ht. pose proof (ro_nonneg _ _ _ Hok (tr_device tv)).
  assert (1 <= transfer_refs (k_transfers s) (tr_device tv)); [ | lia].
  unfold transfer_refs.
  etrans; [ | apply (map_sum_le _ _ t tv); [ | done]]; cbn.
  - by rewrite decide_True.
  - intros. by case_decide.
Qed.

Lemma transfer_last_ok t tv : k_transfers s !! t = Some tv -> tr_refcount tv = 1 ->
  refs_ok X (add_ref t (-1) T) (transfer_free t (object_drop (tr_device tv) s)) /\
  storage_step s (transfer_free t (object_drop (tr_device tv) s)).
Proof using Hok.
  intros Ht Hr. destruct Hok as [Hb Ho [H1 H2 H3 H4 H5 H6] Hn].
  pose proof (transfer_device_ref t tv Ht) as Hd.
  pose proof (object_drop_ok _ s Ho (tr_device tv) Hd) as Ho'.
  pose proof (object_drop_storage _ s (tr_device tv) Hb Ho Hd) as S.
  assert (Et : k_transfers (object_drop (tr_device tv) s) = k_transfers s).
  { unfold object_drop. destruct (k_objects s !! _); [by destruct (_ =? 1) | done]. }
  assert (S' : storage_step s (transfer_free t (object_drop (tr_device tv) s)))
    by (destruct S; by constructor).
  split; [ | done]. constructor; [apply S' | | | done].
  - apply (objects_ok_frame _ (object_drop (tr_device tv) s)); [ | done..].
    eapply objects_ok_ext; [ | exact Ho'].
    intros o. cbn. rewrite Et. unfold transfer_refs, add_ref.
    rewrite (map_sum_delete _ _ t tv) by done.
    destruct (decide (o = tr_device tv)) as [->|].
    + rewrite decide_True by done. lia.
    + rewrite decide_False by congruence. lia.
  - constructor; cbn; rewrite ?Et, ?(ss_next_transfer_id _ _ S).
    + intros x xv. rewrite lookup_delete. case_decide; [done | apply H1].
    + intros x xv. rewrite lookup_delete. case_decide; [done | ].
      rewrite add_ref_ne by congruence. apply H2.
    + intros x. rewrite lookup_delete. case_decide as E.
      * intros _. rewrite <- E, add_ref_eq. destruct (H2 _ _ Ht). lia.
      * rewrite add_ref_ne by congruence. apply H3.
    + intros x xv. rewrite lookup_delete. case_decide; [done | apply H4].
    + intros x y xv yv. rewrite !lookup_delete. case_decide; [done | ].
      case_decide; [done | ]. apply H5.
    + done.
Qed.

Lemma transfer_put_eq t : 1 <= T t ->
  virtusb_transfer_put (Some t) s = Some (tt, transfer_drop t s).
Proof using Hok.
  intros HT. destruct (live_transfer t HT) as [tv Ht].
  destruct (to_refcount _ _ (ro_transfers _ _ _ Hok) _ _ Ht) as [Er Hp].
  unfold virtusb_transfer_put, transfer_drop, virtusb_transfer_release. rewrite Ht. run.
  destruct (Z.leb_spec (tr_refcount tv) 0); [lia | ]. run.
  destruct (Z.eqb_spec (tr_refcount tv - 1) 0) as [E|E];
    destruct (Z.eqb_spec (tr_refcount tv) 1); try lia.
  - run. set (s1 := set_transfers _ s).
    assert (Ho : objects_ok (fun o => transfer_refs (k_transfers s) o + X o) s1)
      by (eapply objects_ok_frame; [apply Hok | done..]).
    rewrite (object_put_eq _ s1 Ho) by (by eapply transfer_device_ref).
    assert (Ed : object_drop (tr_device tv) s1 =
                 set_transfers (k_transfers s1) (object_drop (tr_device tv) s)).
    { unfold object_drop, s1. cbn. destruct (k_objects s !! _); [by destruct (_ =? 1) | done]. }
    rewrite Ed. cbn. rewrite lookup_insert_eq, delete_insert_eq.
    unfold transfer_free. do 2 f_equal. cbn. unfold set_transfers at 1 3. cbn.
    assert (Et : k_transfers (object_drop (tr_device tv) s) = k_transfers s).
    { unfold object_drop. destruct (k_objects s !! _); [by destruct (_ =? 1) | done]. }
    by rewrite Et.
  - unfold transfer_ref. by rewrite (alter_insert_lookup _ _ tv).
Qed.

Lemma transfer_drop_ok t : 1 <= T t ->
  refs_ok X (add_ref t (-1) T) (transfer_drop t s) /\ storage_step s (transfer_drop t s).
Proof using Hok.
  intros HT. destruct (live_transfer t HT) as [tv Ht].
  destruct (to_refcount _ _ (ro_transfers _ _ _ Hok) _ _ Ht) as [Er Hp].
  unfold transfer_drop. rewrite Ht. destruct (Z.eqb_spec (tr_refcount tv) 1).
  - by apply transfer_last_ok.
  - split; [apply (transfer_ref_ok t (-1) tv); [done | lia] | ].
    constructor; try done. apply Hok.
Qed.
End refcounts.

Lemma transfer_ref_ref t m n s : transfer_ref t n (transfer_ref t m s) = transfer_ref t (m + n) s.
Proof.
  unfold transfer_ref. cbn. unfold set_transfers. cbn. f_equal. apply map_eq. intros x.
  destruct (decide (t = x)) as [->|]; [ | by rewrite !lookup_alter_ne].
  rewrite !lookup_alter_eq. destruct (k_transfers s !! x); cbn; [ | done].
  unfold set_tr_refcount. cbn. do 2 f_equal. lia.
Qed.

Lemma transfer_ref_zero t s : transfer_ref t 0 s = s.
Proof.
  unfold transfer_ref. rewrite <- (set_transfers_id s) at 3. f_equal.
  apply map_eq. intros x. destruct (decide (t = x)) as [->|]; [ | by rewrite lookup_alter_ne].
  rewrite lookup_alter_eq. destruct (k_transfers s !! x) as [v|]; cbn; [ | done].
  rewrite Z.add_0_r. by destruct v.
Qed.

(** ** Creation *)

Section create.
Context (d : obj_ptr) (ty : virtusb_transfer_type) (dir : virtusb_transfer_direction).
Context (endpoint : Z) (setup data : option (list Z)) (len : Z).

(** The arguments that are accepted. *)
Record create_args_ok : Prop := {
  ca_endpoint : 0 <= endpoint <= 15;
  ca_setup : ty = VIRTUSB_TRANSFER_TYPE_CONTROL -> setup <> None;
  ca_setup_bytes : forall b, setup = Some b -> (8 <= length b)%nat;
  ca_data : dir = VIRTUSB_TRANSFER_DIRECTION_OUT -> 0 < len -> data <> None;
  ca_data_bytes : forall b, data = Some b -> len <= Z.of_nat (length b);
  ca_len : 0 <= len;
}.

Definition new_buffer (block : list Z) : option (list Z) :=
  if 0 <? len then
    match dir with
    | VIRTUSB_TRANSFER_DIRECTION_OUT => Some (take (Z.to_nat len) (default [] data))
    | VIRTUSB_TRANSFER_DIRECTION_IN => Some block
    end
  else None.

Definition new_transfer (id : Z) (block : list Z) : virtusb_transfer :=
  mk_transfer 1 id d ty dir VIRTUSB_TRANSFER_STATE_NEW endpoint
    (match setup with Some _ => true | None => false end)
    (match setup with Some b => take 8 b | None => replicate 8 0 end)
    (new_buffer block) len 0 (- EINPROGRESS).

Definition created_transfer (t : transfer_ptr) (block : list Z) (s : kernel) : kernel :=
  put_transfer t (new_transfer (k_next_transfer_id s + 1) block)
    (object_ref d 1 (set_next_transfer_id (k_next_transfer_id s + 1) s)).

Lemma new_transfer_wf id block : create_args_ok -> Z.of_nat (length block) = len ->
  transfer_wf (new_transfer id block).
Proof.
  intros [Hep Hs Hsb Hd Hdb Hl] Hb. constructor; cbn.
  - done.
  - destruct setup as [b|]; [ | done]. rewrite length_take. specialize (Hsb b eq_refl). lia.
  - intros Ht. destruct setup; [done | by destruct (Hs Ht)].
  - unfold new_buffer. destruct (Z.ltb_spec 0 len); [ | lia].
    destruct dir; [ | done]. destruct data as [b|]; cbn.
    + rewrite length_take. specialize (Hdb b eq_refl). lia.
    + by destruct (Hd eq_refl).
  - lia.
Qed.

Context (X : obj_ptr -> Z) (T : transfer_ptr -> Z) (s : kernel) (Hok : refs_ok X T s).
Context (ov : virtusb_object) (Hd : k_objects s !! d = Some ov).
Context (t : transfer_ptr) (Ht : k_transfers s !! t = None).
Context (block : list Z) (Hblock : Z.of_nat (length block) = len).
Context (Hargs : create_args_ok).

Lemma transfer_create_eq : k_next_transfer_id s + 1 < 2 ^ 64 ->
  virtusb_transfer_create (Some d) (transfer_type_to_Z ty) (transfer_direction_to_Z dir) endpoint
    setup data len (Some t) (Some block) s = Some (Some t, created_transfer t block s).
Proof using Hok Hd Ht Hargs.
  intros Hn. destruct Hargs as [Hep Hs Hsb Hda Hdb Hl].
  pose proof (to_next _ _ (ro_transfers _ _ _ Hok)) as Hnx.
  unfold virtusb_transfer_create.
  replace (transfer_type_of_Z (transfer_type_to_Z ty)) with (Some ty) by by destruct ty.
  replace (transfer_direction_of_Z (transfer_direction_to_Z dir)) with (Some dir)
    by by destruct dir.
  destruct (Z.ltb_spec 15 endpoint); [lia | ].
  replace (bool_decide (ty = VIRTUSB_TRANSFER_TYPE_CONTROL) && bool_decide (setup = None))
    with false by (symmetry; apply andb_false_iff; rewrite !bool_decide_eq_false;
                   destruct (decide (setup = None)) as [E|E]; [left; intros Ec; by apply Hs | by right]).
  replace (bool_decide (dir = VIRTUSB_TRANSFER_DIRECTION_OUT) && (0 <? len) &&
           bool_decide (data = None)) with false.
  2:{ destruct dir; [ | done]. destruct (Z.ltb_spec 0 len); [ | by rewrite andb_false_r].
      rewrite (bool_decide_eq_false_2 (data = None)) by auto. by rewrite andb_false_r. }
  set (bufm := if 0 <? len then _ else _).
  assert (Eb : bufm s = Some (Ok (new_buffer block), s)).
  { unfold bufm, new_buffer. destruct (Z.ltb_spec 0 len); [ | done].
    destruct dir; [ | done]. rewrite bool_decide_eq_true_2 by done.
    destruct data as [b|]; [ | by destruct (Hda eq_refl)]. unfold read_bytes.
    specialize (Hdb b eq_refl). destruct (Z.ltb_spec (Z.of_nat (length b)) len); [lia | done]. }
  cbv zeta. unfold bind at 1. rewrite Eb. unfold bind at 1, next_transfer_id.
  unfold bind at 1, modify, gets. cbn iota beta. rewrite wrap_small by (unfold in_width; lia).
  set (s1 := set_next_transfer_id _ s).
  assert (Ho1 : objects_ok (fun o => transfer_refs (k_transfers s) o + X o) s1)
    by (eapply objects_ok_frame; [apply Hok | done..]).
  unfold bind at 1. rewrite (object_get_eq _ s1 Ho1 d ov Hd). cbn iota beta.
  assert (Es : (match setup with Some b => read_bytes 8 b | None => ret (replicate 8 0) end)
                 (object_ref d 1 s1) =
               Some (match setup with Some b => take 8 b | None => replicate 8 0 end,
                     object_ref d 1 s1)).
  { destruct setup as [b|]; [ | done]. unfold read_bytes. specialize (Hsb b eq_refl).
    destruct (Z.ltb_spec (Z.of_nat (length b)) 8); [lia | done]. }
  match goal with
  | |- bind ?m _ _ = _ => unfold bind at 1; rewrite (Es : m (object_ref d 1 s1) = _)
  end.
  cbn iota beta. unfold bind, alloc. cbn. rewrite Ht.
  unfold created_transfer, put_transfer, new_transfer. cbn. by destruct setup.
Qed.

Lemma created_transfer_ok : k_next_transfer_id s + 1 < 2 ^ 64 ->
  refs_ok X (add_ref t 1 T) (created_transfer t block s).
Proof using Hok Hd Ht Hblock Hargs.
  intros Hn. destruct Hok as [Hb Ho [H1 H2 H3 H4 H5 H6] HX].
  constructor; [done | | | done].
  - eapply objects_ok_ext; [ | apply (objects_ok_frame _ (object_ref d 1 s)); [ | done..];
      eapply object_ref_ok; [exact Ho | exact Hd | | ]].
    + intros o. cbn. unfold transfer_refs, add_ref. rewrite map_sum_insert by done. cbn.
      destruct (decide (o = d)) as [->|].
      * rewrite decide_True by done. lia.
      * rewrite decide_False by congruence. lia.
    + cbn. pose proof (transfer_refs_nonneg (k_transfers s) d). specialize (HX d). lia.
    + destruct (oo_refcount _ _ Ho _ _ Hd). lia.
  - constructor; cbn.
    + intros x xv. rewrite lookup_insert. case_decide; [ | apply H1].
      intros [= <-]. by apply new_transfer_wf.
    + intros x xv. rewrite lookup_insert. case_decide as E.
      * intros [= <-]. subst x. rewrite add_ref_eq, (H3 t Ht). done.
      * rewrite add_ref_ne by congruence. apply H2.
    + intros x. rewrite lookup_insert. case_decide; [done | ].
      rewrite add_ref_ne by congruence. apply H3.
    + intros x xv. rewrite lookup_insert. case_decide.
      * intros [= <-]. cbn. lia.
      * intros Hx. destruct (H4 _ _ Hx). lia.
    + intros x y xv yv. rewrite !lookup_insert. repeat case_decide; subst; [done | | | apply H5].
      * intros [= <-] Hy E. cbn in E. destruct (H4 _ _ Hy). lia.
      * intros Hx [= <-] E. cbn in E. destruct (H4 _ _ Hx). lia.
    + lia.
Qed.
End create.

(** ** The state machine *)

Definition transfer_open (tv : virtusb_transfer) : bool :=
  match tr_state tv with
  | VIRTUSB_TRANSFER_STATE_NEW | VIRTUSB_TRANSFER_STATE_QUEUED => true
  | VIRTUSB_TRANSFER_STATE_COMPLETED | VIRTUSB_TRANSFER_STATE_CANCELLED => false
  end.

Section machine.
Context (s : kernel) (t : transfer_ptr) (tv : virtusb_transfer).
Context (Ht : k_transfers s !! t = Some tv).

Lemma transfer_mark_queued_eq :
  virtusb_transfer_mark_queued (Some t) s =
    Some (if decide (tr_state tv = VIRTUSB_TRANSFER_STATE_NEW)
          then (0, put_transfer t (set_tr_state VIRTUSB_TRANSFER_STATE_QUEUED tv) s)
          else (- EINVAL, s)).
Proof using Ht. unfold virtusb_transfer_mark_queued. run. case_decide; by run. Qed.

Lemma transfer_complete_eq status actual :
  virtusb_transfer_complete (Some t) status actual s =
    Some (if transfer_open tv then
            if tr_requested_length tv <? actual then (- EMSGSIZE, s)
            else (0, put_transfer t
                       (set_tr_result actual status VIRTUSB_TRANSFER_STATE_COMPLETED tv) s)
          else (- EINVAL, s)).
Proof using Ht.
  unfold virtusb_transfer_complete, transfer_open. run.
  destruct (tr_state tv); run; try done; destruct (_ <? _); by run.
Qed.

Lemma transfer_cancel_eq status :
  virtusb_transfer_cancel (Some t) status s =
    Some (if transfer_open tv
          then (0, put_transfer t (set_tr_result 0 status VIRTUSB_TRANSFER_STATE_CANCELLED tv) s)
          else (- EINVAL, s)).
Proof using Ht.
  unfold virtusb_transfer_cancel, transfer_open. run. destruct (tr_state tv); by run.
Qed.
End machine.

Lemma set_state_wf x tv : transfer_wf tv -> transfer_wf (set_tr_state x tv).
Proof. by intros []. Qed.
Lemma set_result_wf a st x tv : transfer_wf tv -> 0 <= a <= tr_requested_length tv ->
  transfer_wf (set_tr_result a st x tv).
Proof. intros [] ?. by constructor. Qed.
