(* ===== verification/Backend.v ===== *)
(** * The backend queues of one HCD (kernel/src/virtusb_backend.c)

    Bindings of control files to devices, and the two queues of requests:
    pending ones in submission order and active ones that a backend fetched.
    A list node is the position of an element, so [list_del], [list_move] and
    [list_move_tail] are list updates.  A section under the backend lock is one
    step. *)

From S2P Require Import Prelude Uapi Kernel Port Hub Object Device Transfer.

Definition update_backend (h : hcd_ptr) (f : virtusb_backend -> virtusb_backend) : K unit :=
  v <- load_hcd h ;; store_hcd h (set_backend (f (vh_backend v)) v).
Definition get_backend (h : hcd_ptr) : K virtusb_backend :=
  v <- load_hcd h ;; ret (vh_backend v).
Definition wake_up (h : hcd_ptr) : K unit := emit (EvWakeUp h).

(** Linear search with a condition that reads memory: position and element. *)
Fixpoint find_from (i : nat) (p : virtusb_hcd_request -> K bool)
    (l : list virtusb_hcd_request) : K (option (nat * virtusb_hcd_request)) :=
  match l with
  | [] => ret None
  | r :: l => b <- p r ;; if b then ret (Some (i, r)) else find_from (S i) p l
  end.
Definition find_request := find_from 0.

(** [memcpy] of [n] bytes over the start of a block. *)
Definition write_bytes (n : Z) (src dst : list Z) : K (list Z) :=
  if (Z.of_nat (length src) <? n) || (Z.of_nat (length dst) <? n) then stuck
  else ret (take (Z.to_nat n) src ++ drop (Z.to_nat n) dst).

Section Operations.
Context `{ReleaseTable}.

Definition virtusb_backend_release_request (request : virtusb_hcd_request) : K unit :=
  virtusb_transfer_put (Some (rq_transfer request)).

Definition virtusb_backend_giveback (hcd : hcd_ptr) (request : virtusb_hcd_request)
    (status : Z) : K unit :=
  emit (EvGiveback hcd (rq_urb request) status) ;;
  virtusb_backend_release_request request.

Definition virtusb_backend_init (h : hcd_ptr) : K unit :=
  update_backend h (fun _ => mk_backend [] [] [] false).

Definition virtusb_backend_find_owner_locked (backend : virtusb_backend) (owner : file_ptr) :
    option (nat * virtusb_backend_binding) :=
  list_find (fun b => bd_owner b = owner) (be_bindings backend).

Definition virtusb_backend_find_device_locked (backend : virtusb_backend) (device : obj_ptr) :
    option (nat * virtusb_backend_binding) :=
  list_find (fun b => bd_device b = device) (be_bindings backend).

Definition virtusb_backend_register (virt_hcd : option hcd_ptr) (owner : option file_ptr)
    (device : option obj_ptr) (oom : bool) : K Z :=
  match virt_hcd, owner, device with
  | Some h, Some owner, Some d =>
      if oom then ret (- ENOMEM)
      else
        virtusb_object_get device ;;
        backend <- get_backend h ;;
        r <- (if be_stopping backend then ret (- ESHUTDOWN)
              else if bool_decide (virtusb_backend_find_owner_locked backend owner <> None) ||
                      bool_decide (virtusb_backend_find_device_locked backend d <> None)
              then ret (- EBUSY)
              else
                update_backend h (fun b => set_bindings (be_bindings b ++ [mk_binding d owner]) b) ;;
                ret 0) ;;
        if r <? 0 then virtusb_object_put device ;; ret r
        else wake_up h ;; ret 0
  | _, _, _ => ret (- EINVAL)
  end.

(** Which of the two queues a request was found in. *)
Inductive queue := Pending | Active.

Definition virtusb_backend_find_urb_locked (backend : virtusb_backend) (u : urb_ptr) :
    option (queue * nat * virtusb_hcd_request) :=
  match list_find (fun r => rq_urb r = u) (be_pending backend) with
  | Some (i, r) => Some (Pending, i, r)
  | None =>
      match list_find (fun r => rq_urb r = u) (be_active backend) with
      | Some (i, r) => Some (Active, i, r)
      | None => None
      end
  end.

Definition virtusb_backend_find_id_locked (backend : virtusb_backend) (owner : file_ptr)
    (transfer_id : Z) : K (option (nat * virtusb_hcd_request)) :=
  find_request (fun r =>
    if bool_decide (rq_owner r = Some owner)
    then tv <- load_transfer (rq_transfer r) ;; ret (tr_id tv =? transfer_id)
    else ret false) (be_active backend).

Definition virtusb_backend_find_pending_device_locked (backend : virtusb_backend)
    (device : obj_ptr) : K (option (nat * virtusb_hcd_request)) :=
  find_request (fun r =>
    tv <- load_transfer (rq_transfer r) ;; ret (bool_decide (tr_device tv = device)))
    (be_pending backend).

(** [list_del] of the request at a position. *)
Definition del_request (q : queue) (i : nat) (b : virtusb_backend) : virtusb_backend :=
  match q with
  | Pending => set_queues (delete i (be_pending b)) (be_active b) b
  | Active => set_queues (be_pending b) (delete i (be_active b)) b
  end.

(** [link] is what [usb_hcd_link_urb_to_ep] returns. *)
Definition virtusb_backend_submit (virt_hcd hcd : option hcd_ptr) (u : option urb_ptr)
    (transfer : option transfer_ptr) (oom : bool) (link : Z) : K Z :=
  match virt_hcd, hcd, u, transfer with
  | Some h, Some uhcd, Some u, Some t =>
      tv <- load_transfer t ;;
      if VIRTUSB_TRANSFER_DATA_MAX <? tr_requested_length tv then ret (- EMSGSIZE)
      else if oom then ret (- ENOMEM)
      else
        virtusb_transfer_get transfer ;;
        let request := mk_request u t None in
        r <- virtusb_transfer_mark_queued transfer ;;
        if r <? 0 then virtusb_backend_release_request request ;; ret r
        else
          backend <- get_backend h ;;
          tv <- load_transfer t ;;
          r <- (if be_stopping backend then ret (- ESHUTDOWN)
                else if bool_decide
                       (virtusb_backend_find_device_locked backend (tr_device tv) = None)
                then ret (- ENODEV)
                else if link =? 0 then
                  emit (EvLinkUrb uhcd u) ;;
                  update_backend h
                    (fun b => set_queues (be_pending b ++ [request]) (be_active b) b) ;;
                  ret link
                else ret link) ;;
          if r <? 0 then
            _ <- virtusb_transfer_cancel transfer r ;;
            virtusb_backend_release_request request ;;
            ret r
          else wake_up h ;; ret 0
  | _, _, _, _ => ret (- EINVAL)
  end.

(** [check] is what [usb_hcd_check_unlink_urb] returns. *)
Definition virtusb_backend_cancel (virt_hcd hcd : option hcd_ptr) (u : option urb_ptr)
    (status check : Z) : K Z :=
  match virt_hcd, hcd, u with
  | Some h, Some uhcd, Some u =>
      if check <? 0 then ret check
      else
        backend <- get_backend h ;;
        match virtusb_backend_find_urb_locked backend u with
        | None => ret (- EIDRM)
        | Some (q, i, request) =>
            update_backend h (del_request q i) ;;
            emit (EvUnlinkUrb uhcd u) ;;
            _ <- virtusb_transfer_cancel (Some (rq_transfer request)) status ;;
            virtusb_backend_giveback uhcd request status ;;
            ret 0
        end
  | _, _, _ => ret (- EINVAL)
  end.

Definition virtusb_backend_pending_for_owner_or_stopping (h : hcd_ptr) (owner : file_ptr) :
    K bool :=
  backend <- get_backend h ;;
  if be_stopping backend then ret true
  else match virtusb_backend_find_owner_locked backend owner with
       | None => ret false
       | Some (_, binding) =>
           r <- virtusb_backend_find_pending_device_locked backend (bd_device binding) ;;
           ret (bool_decide (r <> None))
       end.

Definition virtusb_backend_has_pending (virt_hcd : option hcd_ptr) (owner : option file_ptr) :
    K bool :=
  match virt_hcd, owner with
  | Some h, Some owner => virtusb_backend_pending_for_owner_or_stopping h owner
  | _, _ => ret false
  end.

(** One evaluation of the lock section of [virtusb_backend_fetch]. *)
Inductive fetch_result :=
  | FetchReturn (r : Z)
  | FetchGot (transfer : transfer_ptr)
  | FetchWait.

Definition fetch_section (h : hcd_ptr) (owner : file_ptr) (nonblock : bool) : K fetch_result :=
  backend <- get_backend h ;;
  match virtusb_backend_find_owner_locked backend owner with
  | None => ret (FetchReturn (- ENODEV))
  | Some (_, binding) =>
      found <- virtusb_backend_find_pending_device_locked backend (bd_device binding) ;;
      match found with
      | Some (i, request) =>
          let request := mk_request (rq_urb request) (rq_transfer request) (Some owner) in
          update_backend h (fun b =>
            set_queues (delete i (be_pending b)) (be_active b ++ [request]) b) ;;
          virtusb_transfer_get (Some (rq_transfer request)) ;;
          ret (FetchGot (rq_transfer request))
      | None =>
          if be_stopping backend then ret (FetchReturn (- ESHUTDOWN))
          else if nonblock then ret (FetchReturn (- EAGAIN))
          else ret FetchWait
      end
  end.

(** While a caller of [wait_event_interruptible] sleeps, other threads run
    [others]; in [Signalled] a signal arrives then. *)
Inductive sleep :=
  | Others (others : K unit)
  | Signalled (others : K unit).
Definition ERESTARTSYS : Z := 512.

Definition trace_now : K (list event) := fun s => Some (k_trace s, s).

(** The wait queue of [h] was woken between two looks at the trace. *)
Definition is_wake_up (h : hcd_ptr) (e : event) : bool :=
  match e with EvWakeUp h' => bool_decide (h' = h) | _ => false end.
Definition woken (h : hcd_ptr) (before after : list event) : bool :=
  existsb (is_wake_up h) (drop (length before) after).

(** The condition is tested once before the caller sleeps, after each wake-up
    of its queue, and after a signal, which ends the sleep in any case.  What the
    others do without a wake-up goes unnoticed, and with nothing left to wake it
    the call does not return. *)
Fixpoint wait_event (h : hcd_ptr) (condition : K bool) (awake : bool) (sleeps : list sleep) :
    K (Z * list sleep) :=
  ready <- (if awake then condition else ret false) ;;
  if ready : bool then ret (0, sleeps)
  else match sleeps with
       | [] => stuck
       | Others others :: sleeps =>
           before <- trace_now ;;
           others ;;
           after <- trace_now ;;
           wait_event h condition (woken h before after) sleeps
       | Signalled others :: sleeps =>
           others ;;
           ready <- condition ;;
           ret (if ready : bool then 0 else - ERESTARTSYS, sleeps)
       end.
Definition wait_event_interruptible (h : hcd_ptr) (condition : K bool) (sleeps : list sleep) :
    K (Z * list sleep) :=
  wait_event h condition true sleeps.

Fixpoint fetch_loop (fuel : nat) (h : hcd_ptr) (owner : file_ptr) (nonblock : bool)
    (sleeps : list sleep) : K (result transfer_ptr) :=
  match fuel with
  | O => stuck
  | S fuel =>
      step <- fetch_section h owner nonblock ;;
      match step with
      | FetchReturn r => ret (Err r)
      | FetchGot transfer => ret (Ok transfer)
      | FetchWait =>
          both r, sleeps <- wait_event_interruptible h
            (virtusb_backend_pending_for_owner_or_stopping h owner) sleeps ;;
          if r <? 0 then ret (Err r)
          else fetch_loop fuel h owner nonblock sleeps
      end
  end.

(** The structure filled in for user space. *)
Definition fetch_fill (transfer : transfer_ptr) : K virtusb_transfer_fetch :=
  tv <- load_transfer transfer ;;
  ov <- load_object (tr_device tv) ;;
  let zero_setup := replicate (Z.to_nat VIRTUSB_TRANSFER_SETUP_SIZE) 0 in
  let zero_data := replicate (Z.to_nat VIRTUSB_TRANSFER_DATA_MAX) 0 in
  setup <- (if tr_has_setup tv
            then write_bytes VIRTUSB_TRANSFER_SETUP_SIZE (tr_setup tv) zero_setup
            else ret zero_setup) ;;
  let copies := bool_decide (tr_direction tv = VIRTUSB_TRANSFER_DIRECTION_OUT) &&
                (0 <? tr_requested_length tv) in
  data <- (if copies
           then match tr_buffer tv with
                | None => stuck
                | Some b => write_bytes (tr_requested_length tv) b zero_data
                end
           else ret zero_data) ;;
  ret (mk_transfer_fetch (tr_id tv) (ob_id ov) (transfer_type_to_Z (tr_type tv))
         (transfer_direction_to_Z (tr_direction tv)) (tr_endpoint tv)
         (if tr_has_setup tv then 1 else 0) (u32 (tr_requested_length tv))
         (if copies then u32 (tr_requested_length tv) else 0) setup data).

(** Every round of the loop that does not return consumes a [sleep]. *)
Definition virtusb_backend_fetch (virt_hcd : option hcd_ptr) (owner : option file_ptr)
    (fetch : option virtusb_transfer_fetch) (nonblock : bool) (sleeps : list sleep) :
    K (Z * option virtusb_transfer_fetch) :=
  match virt_hcd, owner, fetch with
  | Some h, Some owner, Some _ =>
      r <- fetch_loop (S (S (length sleeps))) h owner nonblock sleeps ;;
      match r with
      | Err r => ret (r, fetch)
      | Ok transfer =>
          filled <- fetch_fill transfer ;;
          virtusb_transfer_put (Some transfer) ;;
          ret (0, Some filled)
      end
  | _, _, _ => ret (- EINVAL, fetch)
  end.

Definition virtusb_backend_fetch_rollback (virt_hcd : option hcd_ptr) (owner : option file_ptr)
    (transfer_id : Z) : K Z :=
  match virt_hcd, owner with
  | Some h, Some owner =>
      if transfer_id =? 0 then ret (- EINVAL)
      else
        backend <- get_backend h ;;
        found <- virtusb_backend_find_id_locked backend owner transfer_id ;;
        match found with
        | None => ret (- ENOENT)
        | Some (i, request) =>
            let request := mk_request (rq_urb request) (rq_transfer request) None in
            update_backend h (fun b =>
              set_queues (request :: be_pending b) (delete i (be_active b)) b) ;;
            wake_up h ;;
            ret 0
        end
  | _, _ => ret (- EINVAL)
  end.

Definition copy_result (request : virtusb_hcd_request) (data : list Z) (actual_length : Z) :
    K unit :=
  tv <- load_transfer (rq_transfer request) ;;
  if bool_decide (tr_direction tv = VIRTUSB_TRANSFER_DIRECTION_IN) && (0 <? actual_length) then
    match tr_buffer tv with
    | None => stuck
    | Some b =>
        b <- write_bytes actual_length data b ;;
        store_transfer (rq_transfer request) (set_tr_buffer (Some b) tv) ;;
        uv <- load_urb (rq_urb request) ;;
        match ur_transfer_buffer uv with
        | None => stuck
        | Some ub =>
            ub <- write_bytes actual_length b ub ;;
            store_urb (rq_urb request) (set_ur_buffer (Some ub) uv)
        end
    end
  else ret tt.

(** [actual_length] is a [__u32], hence never negative. *)
Definition virtusb_backend_complete (virt_hcd hcd : option hcd_ptr) (owner : option file_ptr)
    (completion : option virtusb_transfer_complete_request) : K Z :=
  match virt_hcd, hcd, owner, completion with
  | Some h, Some uhcd, Some owner, Some completion =>
      if tc_transfer_id completion =? 0 then ret (- EINVAL)
      else
        backend <- get_backend h ;;
        found <- virtusb_backend_find_id_locked backend owner (tc_transfer_id completion) ;;
        match found with
        | None => ret (- ENOENT)
        | Some (i, request) =>
            update_backend h (del_request Active i) ;;
            emit (EvUnlinkUrb uhcd (rq_urb request)) ;;
            let transfer := Some (rq_transfer request) in
            let actual_length := tc_actual_length completion in
            tv <- load_transfer (rq_transfer request) ;;
            if (tr_requested_length tv <? actual_length) ||
               (VIRTUSB_TRANSFER_DATA_MAX <? actual_length)
            then
              _ <- virtusb_transfer_cancel transfer (- EMSGSIZE) ;;
              virtusb_backend_giveback uhcd request (- EMSGSIZE) ;;
              ret (- EMSGSIZE)
            else
              copy_result request (tc_data completion) actual_length ;;
              r <- virtusb_transfer_complete transfer (tc_status completion) actual_length ;;
              if r <? 0 then
                _ <- virtusb_transfer_cancel transfer r ;;
                virtusb_backend_giveback uhcd request r ;;
                ret r
              else
                uv <- load_urb (rq_urb request) ;;
                store_urb (rq_urb request) (set_ur_actual_length (u32 actual_length) uv) ;;
                virtusb_backend_giveback uhcd request (tc_status completion) ;;
                ret 0
        end
  | _, _, _, _ => ret (- EINVAL)
  end.

(** The end of a request that is taken out of its queue by [release_owner] and
    [stop]. *)
Definition shut_down_request (h uhcd : hcd_ptr) (q : queue) (i : nat)
    (request : virtusb_hcd_request) : K unit :=
  update_backend h (del_request q i) ;;
  emit (EvUnlinkUrb uhcd (rq_urb request)) ;;
  _ <- virtusb_transfer_cancel (Some (rq_transfer request)) (- ESHUTDOWN) ;;
  virtusb_backend_giveback uhcd request (- ESHUTDOWN).

Definition find_owner_request (backend : virtusb_backend) (device : obj_ptr) (owner : file_ptr) :
    K (option (queue * nat * virtusb_hcd_request)) :=
  found <- find_request (fun r =>
    tv <- load_transfer (rq_transfer r) ;; ret (bool_decide (tr_device tv = device)))
    (be_pending backend) ;;
  match found with
  | Some (i, r) => ret (Some (Pending, i, r))
  | None =>
      found <- find_request (fun r =>
        tv <- load_transfer (rq_transfer r) ;;
        ret (bool_decide (tr_device tv = device) && bool_decide (rq_owner r = Some owner)))
        (be_active backend) ;;
      match found with
      | Some (i, r) => ret (Some (Active, i, r))
      | None => ret None
      end
  end.

Fixpoint drain_owner (fuel : nat) (h uhcd : hcd_ptr) (device : obj_ptr) (owner : file_ptr) :
    K unit :=
  match fuel with
  | O => stuck
  | S fuel =>
      backend <- get_backend h ;;
      found <- find_owner_request backend device owner ;;
      match found with
      | None => ret tt
      | Some (q, i, request) =>
          shut_down_request h uhcd q i request ;; drain_owner fuel h uhcd device owner
      end
  end.

(** The number of requests bounds the rounds of the drain loops. *)
Definition queue_fuel (b : virtusb_backend) : nat :=
  S (length (be_pending b) + length (be_active b)).

(** One step, although the code leaves the lock around each giveback. *)
Definition virtusb_backend_release_owner (virt_hcd hcd : option hcd_ptr)
    (owner : option file_ptr) : K unit :=
  match virt_hcd, hcd, owner with
  | Some h, Some uhcd, Some owner =>
      backend <- get_backend h ;;
      match virtusb_backend_find_owner_locked backend owner with
      | None => ret tt
      | Some (i, binding) =>
          update_backend h (fun b => set_bindings (delete i (be_bindings b)) b) ;;
          drain_owner (queue_fuel backend) h uhcd (bd_device binding) owner ;;
          virtusb_object_put (Some (bd_device binding)) ;;
          wake_up h
      end
  | _, _, _ => ret tt
  end.

Fixpoint drain_all (fuel : nat) (h uhcd : hcd_ptr) : K unit :=
  match fuel with
  | O => stuck
  | S fuel =>
      backend <- get_backend h ;;
      match be_pending backend, be_active backend with
      | request :: _, _ =>
          shut_down_request h uhcd Pending 0 request ;; drain_all fuel h uhcd
      | [], request :: _ =>
          shut_down_request h uhcd Active 0 request ;; drain_all fuel h uhcd
      | [], [] => ret tt
      end
  end.

Fixpoint drop_bindings (fuel : nat) (h : hcd_ptr) : K unit :=
  match fuel with
  | O => stuck
  | S fuel =>
      backend <- get_backend h ;;
      match be_bindings backend with
      | [] => ret tt
      | binding :: rest =>
          update_backend h (set_bindings rest) ;;
          virtusb_object_put (Some (bd_device binding)) ;;
          drop_bindings fuel h
      end
  end.

(** One step, as above. *)
Definition virtusb_backend_stop (virt_hcd hcd : option hcd_ptr) : K unit :=
  match virt_hcd, hcd with
  | Some h, Some uhcd =>
      update_backend h (set_stopping true) ;;
      wake_up h ;;
      backend <- get_backend h ;;
      drain_all (queue_fuel backend) h uhcd ;;
      drop_bindings (S (length (be_bindings backend))) h
  | _, _ => ret tt
  end.
End Operations.

#[global] Arguments update_backend : simpl never.
#[global] Arguments get_backend : simpl never.
#[global] Arguments wake_up : simpl never.
#[global] Arguments find_request : simpl never.
#[global] Arguments write_bytes : simpl never.
#[global] Arguments virtusb_backend_release_request : simpl never.
#[global] Arguments virtusb_backend_giveback : simpl never.
#[global] Arguments virtusb_backend_find_owner_locked : simpl never.
#[global] Arguments virtusb_backend_find_device_locked : simpl never.
#[global] Arguments virtusb_backend_find_urb_locked : simpl never.
#[global] Arguments virtusb_backend_find_id_locked : simpl never.
#[global] Arguments virtusb_backend_find_pending_device_locked : simpl never.
#[global] Arguments virtusb_backend_register : simpl never.
#[global] Arguments virtusb_backend_submit : simpl never.
#[global] Arguments virtusb_backend_cancel : simpl never.
#[global] Arguments virtusb_backend_fetch : simpl never.
#[global] Arguments virtusb_backend_fetch_rollback : simpl never.
#[global] Arguments virtusb_backend_complete : simpl never.
#[global] Arguments virtusb_backend_release_owner : simpl never.
#[global] Arguments virtusb_backend_stop : simpl never.
#[global] Arguments fetch_section : simpl never.
#[global] Arguments fetch_fill : simpl never.
#[global] Arguments copy_result : simpl never.
#[global] Arguments shut_down_request : simpl never.
#[global] Arguments find_owner_request : simpl never.
