(* ===== verification/BackendInv.v ===== *)
(** * The invariant of the backend queues

    Reference counts, queue contents and the trace of URB calls fit together in
    every state between two operations of [Backend]. *)

From S2P Require Import Prelude Uapi Kernel Port Hub Object Device Transfer Backend.

(** ** Counting over all HCDs *)

Definition all_requests (b : virtusb_backend) : list virtusb_hcd_request :=
  be_pending b ++ be_active b.
Definition backend_bindings (o : obj_ptr) (b : virtusb_backend) : Z :=
  count (fun x => bd_device x = o) (be_bindings b).
Definition backend_requests (t : transfer_ptr) (b : virtusb_backend) : Z :=
  count (fun r => rq_transfer r = t) (all_requests b).
Definition backend_urbs (u : urb_ptr) (b : virtusb_backend) : Z :=
  count (fun r => rq_urb r = u) (all_requests b).

Definition hcd_sum (f : virtusb_backend -> Z) (m : gmap hcd_ptr virtusb_hcd) : Z :=
  map_sum (fun _ v => f (vh_backend v)) m.

Definition with_backend (h : hcd_ptr) (f : virtusb_backend -> virtusb_backend) (s : kernel) : kernel :=
  set_hcds (alter (fun v => set_backend (f (vh_backend v)) v) h (k_hcds s)) s.

Lemma hcd_sum_with_backend f g h v s : k_hcds s !! h = Some v ->
  hcd_sum f (k_hcds (with_backend h g s)) =
    hcd_sum f (k_hcds s) - f (vh_backend v) + f (g (vh_backend v)).
Proof.
  intros Hv. unfold hcd_sum, with_backend. cbn.
  rewrite (alter_insert_lookup _ _ v) by done. by rewrite (map_sum_update _ _ h v).
Qed.

Lemma hcd_sum_le f h v m : m !! h = Some v -> (forall b, 0 <= f b) -> f (vh_backend v) <= hcd_sum f m.
Proof.
  intros Hv Hf. unfold hcd_sum. apply (map_sum_le (fun _ v => f (vh_backend v)) m h v); [ | done].
  intros. apply Hf.
Qed.

Lemma hcd_sum_nonneg f m : (forall b, 0 <= f b) -> 0 <= hcd_sum f m.
Proof. intros Hf. apply map_sum_nonneg. intros. apply Hf. Qed.

Lemma backend_bindings_nonneg o b : 0 <= backend_bindings o b.
Proof. apply count_nonneg. Qed.
Lemma backend_requests_nonneg t b : 0 <= backend_requests t b.
Proof. apply count_nonneg. Qed.
Lemma backend_urbs_nonneg u b : 0 <= backend_urbs u b.
Proof. apply count_nonneg. Qed.

Definition binding_refs (s : kernel) (o : obj_ptr) : Z := hcd_sum (backend_bindings o) (k_hcds s).
Definition request_refs (s : kernel) (t : transfer_ptr) : Z :=
  hcd_sum (backend_requests t) (k_hcds s).
Definition urb_refs (s : kernel) (u : urb_ptr) : Z := hcd_sum (backend_urbs u) (k_hcds s).

Lemma binding_refs_nonneg s o : 0 <= binding_refs s o.
Proof. apply hcd_sum_nonneg, backend_bindings_nonneg. Qed.
Lemma request_refs_nonneg s t : 0 <= request_refs s t.
Proof. apply hcd_sum_nonneg, backend_requests_nonneg. Qed.

(** ** Requests and queues *)

(** A queued request: its transfer is queued and small enough for the UAPI, its
    URB is alive and has room for the data of an IN transfer. *)
Record request_ok (s : kernel) (r : virtusb_hcd_request) : Prop := {
  rk_transfer : exists tv, k_transfers s !! rq_transfer r = Some tv /\
    tr_state tv = VIRTUSB_TRANSFER_STATE_QUEUED /\
    tr_requested_length tv <= VIRTUSB_TRANSFER_DATA_MAX /\
    exists uv, k_urbs s !! rq_urb r = Some uv /\
      (tr_direction tv = VIRTUSB_TRANSFER_DIRECTION_IN -> 0 < tr_requested_length tv ->
       exists ub, ur_transfer_buffer uv = Some ub /\
         tr_requested_length tv <= Z.of_nat (length ub));
}.

Record queue_ok (s : kernel) (b : virtusb_backend) : Prop := {
  qo_owners : NoDup (map bd_owner (be_bindings b));
  qo_devices : NoDup (map bd_device (be_bindings b));
  qo_requests : forall r, r ∈ all_requests b -> request_ok s r;
  qo_pending : forall r, r ∈ be_pending b -> rq_owner r = None;
  qo_active : forall r, r ∈ be_active b -> rq_owner r <> None;
}.

(** Storage, reference counts and queues. [X] and [T] count the references that
    callers hold. *)
Record backend_core (X : obj_ptr -> Z) (T : transfer_ptr -> Z) (s : kernel) : Prop := {
  bc_refs : refs_ok (fun o => binding_refs s o + X o) (fun t => request_refs s t + T t) s;
  bc_X : forall o, 0 <= X o;
  bc_T : forall t, 0 <= T t;
  bc_queue : forall h v, k_hcds s !! h = Some v -> queue_ok s (vh_backend v);
  bc_single : forall t, request_refs s t <= 1;
}.

(** The device that a request is for. *)
Definition request_device (s : kernel) (r : virtusb_hcd_request) : option obj_ptr :=
  tr_device <$> k_transfers s !! rq_transfer r.

(** Every queued request belongs to a registered backend: pending ones to the
    binding of their device, active ones also to its owner. *)
Definition request_bound_in (s : kernel) (bindings : list virtusb_backend_binding)
    (r : virtusb_hcd_request) : Prop :=
  exists x, x ∈ bindings /\ request_device s r = Some (bd_device x) /\
    (rq_owner r <> None -> rq_owner r = Some (bd_owner x)).
Definition request_bound (s : kernel) (b : virtusb_backend) (r : virtusb_hcd_request) : Prop :=
  request_bound_in s (be_bindings b) r.
(** [B h v] is the list of bindings that the requests of the HCD at [h] refer to. *)
Definition bound_with (B : hcd_ptr -> virtusb_hcd -> list virtusb_backend_binding)
    (s : kernel) : Prop :=
  forall h v r, k_hcds s !! h = Some v -> r ∈ all_requests (vh_backend v) ->
    request_bound_in s (B h v) r.
Definition bound_ok : kernel -> Prop := bound_with (fun _ v => be_bindings (vh_backend v)).

(** Every URB that was linked has been unlinked and given back, or is queued. *)
Definition is_link (u : urb_ptr) (e : event) : bool :=
  match e with EvLinkUrb _ x => bool_decide (x = u) | _ => false end.
Definition is_unlink (u : urb_ptr) (e : event) : bool :=
  match e with EvUnlinkUrb _ x => bool_decide (x = u) | _ => false end.
Definition is_giveback (u : urb_ptr) (e : event) : bool :=
  match e with EvGiveback _ x _ => bool_decide (x = u) | _ => false end.
Definition balance_ok (s : kernel) : Prop :=
  forall u, countb (is_link u) (k_trace s) - countb (is_giveback u) (k_trace s) = urb_refs s u /\
    countb (is_unlink u) (k_trace s) = countb (is_giveback u) (k_trace s).

Record backend_inv (X : obj_ptr -> Z) (T : transfer_ptr -> Z) (s : kernel) : Prop := {
  bi_core : backend_core X T s;
  bi_bound : bound_ok s;
  bi_balance : balance_ok s;
}.

(** What the operations leave alone. *)
Record backend_step (s s' : kernel) : Prop := {
  bk_connected : forall h n, port_connected (k_ports s') h n = port_connected (k_ports s) h n;
  bk_hubs : k_hubs s' = k_hubs s;
  bk_registry : k_registry s' = k_registry s;
  bk_next_object_id : k_next_object_id s' = k_next_object_id s;
  bk_next_transfer_id : k_next_transfer_id s' = k_next_transfer_id s;
  bk_usb_hcds : k_usb_hcds s' = k_usb_hcds s;
  bk_files : k_files s' = k_files s;
  bk_hcds : forall h, (k_hcds s !! h = None -> k_hcds s' !! h = None) /\
    forall v, k_hcds s !! h = Some v -> exists b, k_hcds s' !! h = Some (set_backend b v);
  bk_trace : exists l, k_trace s' = k_trace s ++ l;
  bk_ports : ports_kept (k_ports s) (k_ports s');
}.

Lemma set_backend_id v : set_backend (vh_backend v) v = v.
Proof. by destruct v. Qed.

Lemma backend_step_refl s : backend_step s s.
Proof.
  constructor; try done.
  - intros h. split; [done | ]. intros v Hv. exists (vh_backend v). by rewrite set_backend_id.
  - exists []. by rewrite app_nil_r.
Qed.

Lemma backend_step_trans s1 s2 s3 : backend_step s1 s2 -> backend_step s2 s3 -> backend_step s1 s3.
Proof.
  intros [? ? ? ? ? ? ? H1 [l1 T1] ?] [? ? ? ? ? ? ? H2 [l2 T2] ?].
  constructor; [congruence.. | | | by eapply ports_kept_trans].
  - intros h. destruct (H1 h) as [N1 S1], (H2 h) as [N2 S2]. split; [auto | ].
    intros v Hv. destruct (S1 v Hv) as [b Hb]. destruct (S2 _ Hb) as [b' Hb']. by exists b'.
  - exists (l1 ++ l2). by rewrite T2, T1, app_assoc.
Qed.

#[export] Instance backend_step_preorder : PreOrder backend_step.
Proof. split; [exact backend_step_refl | exact backend_step_trans]. Qed.

Lemma storage_backend_step s s' : storage_step s s' -> backend_step s s'.
Proof.
  intros []. constructor; try done.
  - intros h. rewrite ss_hcds. split; [done | ]. intros v Hv. exists (vh_backend v).
    by rewrite set_backend_id.
  - exists []. by rewrite app_nil_r.
Qed.

Lemma with_backend_step h f s : backend_step s (with_backend h f s).
Proof.
  constructor; try done.
  - intros h'. cbn. rewrite lookup_alter. split.
    + intros Hn. case_decide; [subst; by rewrite Hn | done].
    + intros v Hv. case_decide; [subst; rewrite Hv; by eexists | ].
      exists (vh_backend v). by rewrite set_backend_id.
  - exists []. by rewrite app_nil_r.
Qed.

Lemma trace_backend_step s l : backend_step s (set_trace (k_trace s ++ l) s).
Proof.
  constructor; try done; [ | by eexists].
  intros h. split; [done | ]. intros v Hv. exists (vh_backend v). by rewrite set_backend_id.
Qed.

(** ** Monad equations *)

Section equations.
Context (s : kernel) (h : hcd_ptr) (v : virtusb_hcd) (Hv : k_hcds s !! h = Some v).

Lemma get_backend_eq : get_backend h s = Some (vh_backend v, s).
Proof using Hv. unfold get_backend. by run. Qed.

Lemma update_backend_eq f : update_backend h f s = Some (tt, with_backend h f s).
Proof using Hv.
  unfold update_backend, with_backend. run. by rewrite (alter_insert_lookup _ _ v).
Qed.

Lemma with_backend_lookup f : k_hcds (with_backend h f s) !! h = Some (set_backend (f (vh_backend v)) v).
Proof using Hv. cbn. by rewrite lookup_alter_eq, Hv. Qed.
End equations.

Lemma find_from_eq p (f : virtusb_hcd_request -> bool) s l : forall i,
  (forall r, r ∈ l -> p r s = Some (f r, s)) ->
  find_from i p l s = Some ((fun x => ((x.1 + i)%nat, x.2)) <$> list_find (fun r => f r = true) l, s).
Proof.
  induction l as [|r l IH]; intros i Hp; [done | ]. cbn [find_from list_find].
  unfold bind. rewrite (Hp r) by by left. destruct (f r) eqn:E.
  - by rewrite decide_True by done.
  - rewrite decide_False by done. rewrite IH by (intros; apply Hp; by right).
    unfold ret. do 2 f_equal. destruct (list_find _ l) as [[j x]|]; [ | done].
    cbn. do 2 f_equal. lia.
Qed.

Lemma find_request_eq p (f : virtusb_hcd_request -> bool) s l :
  (forall r, r ∈ l -> p r s = Some (f r, s)) ->
  find_request p l s = Some (list_find (fun r => f r = true) l, s).
Proof.
  intros Hp. unfold find_request. rewrite (find_from_eq p f) by done.
  destruct (list_find _ l) as [[j x]|]; [ | done]. cbn. by rewrite Nat.add_0_r.
Qed.

(** ** Steps that keep the core invariant *)

Lemma backend_core_ext X X' T T' s : (forall o, X o = X' o) -> (forall t, T t = T' t) ->
  backend_core X T s -> backend_core X' T' s.
Proof.
  intros EX ET [Hr HX HT Hq Hs]. constructor; [ | intros o | intros t | done..].
  - eapply refs_ok_ext; [ | | exact Hr]; intros ?; cbn; by rewrite ?EX, ?ET.
  - by rewrite <- EX.
  - by rewrite <- ET.
Qed.

#[export] Instance backend_core_proper :
  Proper (pointwise_relation obj_ptr eq ==> pointwise_relation transfer_ptr eq ==> eq ==> iff)
    backend_core.
Proof.
  intros X X' HX T T' HT s s' ->.
  split; apply backend_core_ext; intros ?; (apply HX || apply HT || symmetry; apply HX || apply HT).
Qed.

Lemma request_counted s h v r : k_hcds s !! h = Some v -> r ∈ all_requests (vh_backend v) ->
  1 <= request_refs s (rq_transfer r).
Proof.
  intros Hv Hr. unfold request_refs.
  etrans; [ | apply (hcd_sum_le _ h v); [done | apply backend_requests_nonneg]].
  unfold backend_requests. by apply (count_pos _ _ r).
Qed.

Lemma queue_ok_mono s s' b : queue_ok s b ->
  (forall r, r ∈ all_requests b -> request_ok s r -> request_ok s' r) -> queue_ok s' b.
Proof. intros [H1 H2 H3 H4 H5] H. constructor; auto. Qed.

(** A queued request only looks at these parts of the state. *)
Lemma request_ok_frame s s' r : request_ok s r -> k_urbs s' = k_urbs s ->
  (forall tv, k_transfers s !! rq_transfer r = Some tv ->
     exists tv', k_transfers s' !! rq_transfer r = Some tv' /\ tr_state tv' = tr_state tv /\
       tr_requested_length tv' = tr_requested_length tv /\ tr_direction tv' = tr_direction tv) ->
  request_ok s' r.
Proof.
  intros [(tv & Ht & Hs & Hl & uv & Hu & Hb)] Eu H.
  destruct (H tv Ht) as (tv' & Ht' & Es & El & Ed). constructor. exists tv'.
  rewrite Es, El, Ed. split; [done | ]. split; [done | ]. split; [done | ].
  exists uv. by rewrite Eu.
Qed.

Section core.
Context (X : obj_ptr -> Z) (T : transfer_ptr -> Z) (s : kernel) (Hc : backend_core X T s).

Lemma core_live t : 1 <= T t -> exists tv, k_transfers s !! t = Some tv.
Proof using Hc.
  intros HT. apply (live_transfer _ _ _ (bc_refs _ _ _ Hc)).
  pose proof (request_refs_nonneg s t). lia.
Qed.

Lemma core_refcount t tv : k_transfers s !! t = Some tv ->
  tr_refcount tv = request_refs s t + T t /\ 0 < tr_refcount tv.
Proof using Hc. intros Ht. by apply (to_refcount _ _ (ro_transfers _ _ _ (bc_refs _ _ _ Hc))). Qed.

Lemma core_wf t tv : k_transfers s !! t = Some tv -> transfer_wf tv.
Proof using Hc. apply (to_wf _ _ (ro_transfers _ _ _ (bc_refs _ _ _ Hc))). Qed.

Lemma drop_lookup t x : x <> t -> k_transfers (transfer_drop t s) !! x = k_transfers s !! x.
Proof using.
  intros Hx. unfold transfer_drop. destruct (k_transfers s !! t) as [tv|]; [ | done].
  destruct (_ =? 1); cbn.
  - rewrite lookup_delete_ne by congruence. unfold object_drop.
    destruct (k_objects s !! _); [by destruct (_ =? 1) | done].
  - by rewrite lookup_alter_ne by congruence.
Qed.

Lemma core_transfer_drop t : 1 <= T t ->
  backend_core X (add_ref t (-1) T) (transfer_drop t s) /\ storage_step s (transfer_drop t s) /\
  virtusb_transfer_put (Some t) s = Some (tt, transfer_drop t s).
Proof using Hc.
  intros HT. destruct Hc as [Hr HX HTn Hq Hs].
  pose proof (request_refs_nonneg s t) as Hrt.
  destruct (transfer_drop_ok _ _ s Hr t) as [Hr' Hst]; [lia | ].
  assert (Eh : k_hcds (transfer_drop t s) = k_hcds s) by apply Hst.
  split; [ | split; [done | apply (transfer_put_eq _ _ s Hr); lia]].
  constructor; unfold binding_refs, request_refs; rewrite ?Eh.
  - eapply refs_ok_ext; [ | | exact Hr']; intros x; [done | ].
    cbn. unfold add_ref, request_refs. destruct (decide _); lia.
  - done.
  - intros x. unfold add_ref. specialize (HTn x). destruct (decide (x = t)) as [->|]; lia.
  - intros h v Hv. eapply queue_ok_mono; [by eapply Hq | ]. intros r Hrin Hrok.
    eapply request_ok_frame; [done | apply Hst | ]. intros tv Htv.
    destruct (decide (rq_transfer r = t)) as [E|E].
    + pose proof (request_counted s h v r Hv Hrin) as Hcnt. rewrite E in *.
      destruct (core_refcount t tv Htv) as [Erc _]. unfold transfer_drop. rewrite Htv.
      destruct (Z.eqb_spec (tr_refcount tv) 1); [lia | ]. cbn.
      rewrite lookup_alter_eq, Htv. by eexists.
    + rewrite drop_lookup by done. by exists tv.
  - apply Hs.
Qed.

Lemma core_transfer_ref t tv : k_transfers s !! t = Some tv ->
  backend_core X (add_ref t 1 T) (transfer_ref t 1 s) /\ storage_step s (transfer_ref t 1 s) /\
  virtusb_transfer_get (Some t) s = Some (Some t, transfer_ref t 1 s).
Proof using Hc.
  intros Ht. destruct Hc as [Hr HX HTn Hq Hs].
  destruct (core_refcount t tv Ht) as [Erc Hp].
  pose proof (transfer_ref_ok _ _ s Hr t 1 tv Ht ltac:(lia)) as Hr'.
  split; [ | split; [constructor; try done; apply Hr | by apply (transfer_get_eq _ _ s Hr t tv)]].
  constructor.
  - eapply refs_ok_ext; [ | | exact Hr']; intros x; [done | ].
    cbn. unfold add_ref, request_refs. destruct (decide _); cbn; lia.
  - done.
  - intros x. unfold add_ref. specialize (HTn x). destruct (decide _); lia.
  - intros h v Hv. eapply queue_ok_mono; [by eapply Hq | ]. intros r Hrin Hrok.
    eapply request_ok_frame; [done | done | ]. intros xv Hxv. cbn.
    destruct (decide (rq_transfer r = t)) as [E|E].
    + rewrite E in *. rewrite lookup_alter_eq, Hxv. by eexists.
    + rewrite lookup_alter_ne by congruence. by exists xv.
  - apply Hs.
Qed.

(** A transfer that is in no queue may change its state. *)
Lemma core_put_transfer t tv tv' : k_transfers s !! t = Some tv -> request_refs s t = 0 ->
  tr_device tv' = tr_device tv -> tr_id tv' = tr_id tv -> tr_refcount tv' = tr_refcount tv ->
  transfer_wf tv' -> backend_core X T (put_transfer t tv' s).
Proof using Hc.
  intros Ht H0 Ed Ei Er Hwf. destruct Hc as [Hr HX HTn Hq Hs].
  destruct (core_refcount t tv Ht) as [Erc Hp]. constructor; [ | done | done | | done].
  - apply (transfer_replace _ _ _ s t tv tv' Hr); try done.
    + rewrite Er. exact Erc.
    + change (0 < request_refs s t + T t). lia.
  - intros h v Hv. eapply queue_ok_mono; [by eapply Hq | ]. intros r Hrin Hrok.
    eapply request_ok_frame; [done | done | ]. intros xv Hxv. cbn.
    pose proof (request_counted s h v r Hv Hrin).
    rewrite lookup_insert_ne; [by exists xv | ]. intros E. rewrite E in H0. lia.
Qed.

(** Replacing the queues or bindings of one HCD. *)
Lemma core_with_backend X' T' h v f : k_hcds s !! h = Some v ->
  queue_ok s (f (vh_backend v)) ->
  (forall o, 0 <= X' o /\ backend_bindings o (f (vh_backend v)) + X' o =
             backend_bindings o (vh_backend v) + X o) ->
  (forall t, 0 <= T' t /\ backend_requests t (f (vh_backend v)) + T' t =
             backend_requests t (vh_backend v) + T t) ->
  (forall t, request_refs s t - backend_requests t (vh_backend v) +
             backend_requests t (f (vh_backend v)) <= 1) ->
  backend_core X' T' (with_backend h f s).
Proof using Hc.
  intros Hv Hq' HX' HT' Hs'. destruct Hc as [Hr HX HTn Hq Hs]. constructor.
  - eapply (refs_ok_ext (fun o => binding_refs s o + X o) _ (fun t => request_refs s t + T t)).
    + intros o. unfold binding_refs. rewrite (hcd_sum_with_backend _ f h v s Hv).
      specialize (HX' o). lia.
    + intros t. unfold request_refs. rewrite (hcd_sum_with_backend _ f h v s Hv).
      specialize (HT' t). lia.
    + destruct Hr as [Hb Ho [? ? ? ? ? ?] Hn]. constructor; [done | | by constructor | done].
      by eapply objects_ok_frame.
  - intros o. apply HX'.
  - intros t. apply HT'.
  - intros h' v'. cbn. rewrite lookup_alter. case_decide as E.
    + subst h'. rewrite Hv. intros [= <-]. cbn.
      eapply queue_ok_mono; [exact Hq' | ]. intros r _ Hrok.
      eapply request_ok_frame; [exact Hrok | done | ]. intros tv Htv. by exists tv.
    + intros Hv'. eapply queue_ok_mono; [by eapply Hq | ]. intros r _ Hrok.
      eapply request_ok_frame; [exact Hrok | done | ]. intros tv Htv. by exists tv.
  - intros t. unfold request_refs. rewrite (hcd_sum_with_backend _ f h v s Hv). apply Hs'.
Qed.

(** The trace is not part of it. *)
Lemma core_set_trace l : backend_core X T (set_trace l s).
Proof using Hc.
  destruct Hc as [[Hb Ho [? ? ? ? ? ?] Hn] HX HTn Hq Hs]. constructor; try done.
  - constructor; [done | | by constructor | done]. by eapply objects_ok_frame.
  - intros h v Hv. eapply queue_ok_mono; [by eapply Hq | ]. intros r _ Hrok.
    eapply request_ok_frame; [exact Hrok | done | ]. intros tv Htv. by exists tv.
Qed.

(** Objects. *)
Lemma core_object_drop o : 1 <= X o ->
  backend_core (add_ref o (-1) X) T (object_drop o s) /\ storage_step s (object_drop o s) /\
  virtusb_object_put (Some o) s = Some (tt, object_drop o s).
Proof using Hc.
  intros HXo. destruct Hc as [[Hb Ho Ht Hn] HX HTn Hq Hs].
  assert (Et : k_transfers (object_drop o s) = k_transfers s)
    by (unfold object_drop; destruct (k_objects s !! o); [by destruct (_ =? 1) | done]).
  assert (He : 1 <= transfer_refs (k_transfers s) o + (binding_refs s o + X o)).
  { pose proof (transfer_refs_nonneg (k_transfers s) o).
    pose proof (binding_refs_nonneg s o). lia. }
  pose proof (object_drop_ok _ s Ho o He) as Ho'.
  pose proof (object_drop_storage _ s o Hb Ho He) as Hst.
  assert (Eh : k_hcds (object_drop o s) = k_hcds s) by apply Hst.
  split; [ | split; [done | by apply (object_put_eq _ s Ho)]].
  constructor; unfold binding_refs, request_refs; rewrite ?Eh; try done.
  - constructor.
    + apply Hst.
    + eapply objects_ok_ext; [ | exact Ho']. intros x. cbn. rewrite Et. unfold binding_refs.
      unfold add_ref. destruct (decide _); lia.
    + destruct Ht as [? ? ? ? ? ?]. constructor; rewrite ?Et, ?(ss_next_transfer_id _ _ Hst); done.
    + intros x. specialize (HX x). pose proof (binding_refs_nonneg s x) as Hbn.
      unfold binding_refs in Hbn. unfold add_ref. destruct (decide (x = o)) as [->|]; lia.
  - intros x. unfold add_ref. specialize (HX x). destruct (decide (x = o)) as [->|]; lia.
  - intros h v Hv. eapply queue_ok_mono; [by eapply Hq | ]. intros r _ Hrok.
    eapply request_ok_frame; [exact Hrok | apply Hst | ]. intros tv Htv. rewrite Et. by exists tv.
Qed.

Lemma core_object_ref o ov : k_objects s !! o = Some ov ->
  backend_core (add_ref o 1 X) T (object_ref o 1 s) /\ storage_step s (object_ref o 1 s) /\
  virtusb_object_get (Some o) s = Some (Some o, object_ref o 1 s).
Proof using Hc.
  intros Hov. destruct Hc as [[Hb Ho Ht Hn] HX HTn Hq Hs].
  destruct (oo_refcount _ _ Ho _ _ Hov) as (? & ? & ?).
  pose proof (object_ref_ok _ s Ho o 1 ov Hov ltac:(lia) ltac:(lia)) as Ho'.
  split; [ | split; [by apply object_ref_storage | by apply (object_get_eq _ s Ho o ov)]].
  constructor; try done.
  - constructor; [done | | by destruct Ht | ].
    + eapply objects_ok_ext; [ | exact Ho']. intros x. cbn. unfold add_ref, binding_refs.
      destruct (decide _); cbn; lia.
    + intros x. specialize (HX x). pose proof (binding_refs_nonneg s x) as Hbn.
      unfold binding_refs in *. cbn. unfold add_ref. destruct (decide (x = o)) as [->|]; lia.
  - intros x. unfold add_ref. specialize (HX x). destruct (decide (x = o)) as [->|]; lia.
  - intros h v Hv. eapply queue_ok_mono; [by eapply Hq | ]. intros r _ Hrok.
    eapply request_ok_frame; [exact Hrok | done | ]. intros tv Htv. by exists tv.
Qed.
End core.

(** ** Taking a request out of its queue *)

Definition queue_of (q : queue) (b : virtusb_backend) : list virtusb_hcd_request :=
  match q with Pending => be_pending b | Active => be_active b end.

Lemma queue_of_elem q b i r : queue_of q b !! i = Some r -> r ∈ all_requests b.
Proof.
  intros Hi. apply list_elem_of_lookup_2 in Hi. unfold all_requests. apply elem_of_app.
  destruct q; auto.
Qed.

Lemma del_request_count (P : virtusb_hcd_request -> Prop) `{!forall x, Decision (P x)} q i r b :
  queue_of q b !! i = Some r ->
  count P (all_requests (del_request q i b)) =
    count P (all_requests b) - (if decide (P r) then 1 else 0).
Proof.
  intros Hi. unfold all_requests. destruct q; cbn in *; rewrite !count_app, (count_delete _ _ i r) by done; lia.
Qed.

Lemma del_request_incl q i b : (forall r, r ∈ be_pending (del_request q i b) -> r ∈ be_pending b) /\
  (forall r, r ∈ be_active (del_request q i b) -> r ∈ be_active b) /\
  be_bindings (del_request q i b) = be_bindings b.
Proof.
  assert (E : forall (l : list virtusb_hcd_request) r, r ∈ delete i l -> r ∈ l).
  { intros l r Hr. eapply elem_of_submseteq; [done | ].
    apply sublist_submseteq, sublist_delete. }
  destruct q; cbn; eauto.
Qed.

Lemma del_request_all q i b r : r ∈ all_requests (del_request q i b) -> r ∈ all_requests b.
Proof.
  destruct (del_request_incl q i b) as (H1 & H2 & _). unfold all_requests.
  rewrite !elem_of_app. intros [?|?]; auto.
Qed.

Section take.
Context (X : obj_ptr -> Z) (T : transfer_ptr -> Z) (s : kernel) (Hc : backend_core X T s).
Context (h : hcd_ptr) (v : virtusb_hcd) (Hv : k_hcds s !! h = Some v).
Context (q : queue) (i : nat) (r : virtusb_hcd_request).
Context (Hi : queue_of q (vh_backend v) !! i = Some r).

Lemma take_request :
  backend_core X (add_ref (rq_transfer r) 1 T) (with_backend h (del_request q i) s) /\
  request_refs (with_backend h (del_request q i) s) (rq_transfer r) = 0.
Proof using Hc Hv Hi.
  pose proof (queue_of_elem _ _ _ _ Hi) as Hin.
  pose proof (request_counted s h v r Hv Hin) as Hcnt.
  pose proof (bc_single _ _ _ Hc) as Hs.
  assert (Ereq : forall t, backend_requests t (del_request q i (vh_backend v)) =
            backend_requests t (vh_backend v) - (if decide (rq_transfer r = t) then 1 else 0))
    by (intros t; unfold backend_requests; by rewrite (del_request_count (fun x => rq_transfer x = t) q i r)).
  split.
  - apply (core_with_backend X T s Hc X _ h v); [done | | | | ].
    + destruct (bc_queue _ _ _ Hc h v Hv) as [H1 H2 H3 H4 H5].
      destruct (del_request_incl q i (vh_backend v)) as (E1 & E2 & E3).
      constructor; rewrite ?E3; auto. intros x Hx. by eapply H3, del_request_all.
    + intros o. split; [apply (bc_X _ _ _ Hc) | ]. unfold backend_bindings.
      destruct (del_request_incl q i (vh_backend v)) as (_ & _ & ->). done.
    + intros t. rewrite Ereq. pose proof (bc_T _ _ _ Hc t). unfold add_ref.
      destruct (decide (t = rq_transfer r)) as [->|].
      * rewrite decide_True by done. lia.
      * rewrite decide_False by congruence. lia.
    + intros t. rewrite Ereq. specialize (Hs t). case_decide; lia.
  - unfold request_refs in *. rewrite (hcd_sum_with_backend _ _ h v s Hv), Ereq, decide_True by done.
    specialize (Hs (rq_transfer r)). unfold request_refs in Hs. lia.
Qed.

Lemma taken_transfer : exists tv, k_transfers s !! rq_transfer r = Some tv /\
  tr_state tv = VIRTUSB_TRANSFER_STATE_QUEUED /\ transfer_open tv = true /\
  tr_requested_length tv <= VIRTUSB_TRANSFER_DATA_MAX /\ transfer_wf tv.
Proof using Hc Hv Hi.
  pose proof (queue_of_elem _ _ _ _ Hi) as Hin.
  destruct (qo_requests _ _ (bc_queue _ _ _ Hc h v Hv) r Hin) as [(tv & Ht & Hs & Hl & _)].
  exists tv. split; [done | ]. split; [done | ]. split; [by unfold transfer_open; rewrite Hs | ].
  split; [done | ]. by eapply (core_wf _ _ _ Hc).
Qed.

(** The trace and the queues of the state in which the request has ended. *)
Lemma balance_end s' hcd st : balance_ok s ->
  k_trace s' = k_trace s ++ [EvUnlinkUrb hcd (rq_urb r); EvGiveback hcd (rq_urb r) st] ->
  k_hcds s' = k_hcds (with_backend h (del_request q i) s) -> balance_ok s'.
Proof using Hv Hi.
  intros Hb Et Eh u. destruct (Hb u) as [B1 B2]. unfold urb_refs in *. rewrite Et, Eh.
  rewrite (hcd_sum_with_backend _ _ h v s Hv). unfold backend_urbs at 3.
  rewrite (del_request_count (fun x => rq_urb x = u) q i r) by done.
  fold (backend_urbs u (vh_backend v)).
  rewrite !countb_app. cbn [countb is_link is_unlink is_giveback].
  destruct (decide (rq_urb r = u)) as [E|E].
  - rewrite !bool_decide_eq_true_2 by done. lia.
  - rewrite !bool_decide_eq_false_2 by done. lia.
Qed.

Lemma bound_end B s' : (forall h' w j p, B h' (set_backend (del_request p j (vh_backend w)) w) = B h' w) ->
  bound_with B s -> k_hcds s' = k_hcds (with_backend h (del_request q i) s) ->
  (forall x, 1 <= request_refs s' x ->
     tr_device <$> k_transfers s' !! x = tr_device <$> k_transfers s !! x) ->
  bound_with B s'.
Proof using Hv.
  intros HB Hb Eh Hd h' v' r' Hv' Hr'.
  pose proof (Hd _ (request_counted s' h' v' r' Hv' Hr')) as Ed.
  rewrite Eh in Hv'. cbn in Hv'. rewrite lookup_alter in Hv'. case_decide as E.
  - subst h'. rewrite Hv in Hv'. injection Hv' as <-. cbn in *.
    destruct (Hb h v r' Hv) as (x & Hx & Hdev & Hown); [by eapply del_request_all | ].
    exists x. rewrite HB.
    split; [done | ]. split; [ | done]. unfold request_device in *. by rewrite Ed.
  - destruct (Hb h' v' r' Hv' Hr') as (x & Hx & Hdev & Hown). exists x.
    split; [done | ]. split; [ | done]. unfold request_device in *. by rewrite Ed.
Qed.
End take.

(** ** Ending a request

    The last steps of [cancel], [complete], [release_owner] and [stop]: the
    transfer reaches a final state, the URB is given back and the reference of
    the queue is dropped. [s1] is a state in which the request [r] is already
    out of its queue. *)
Definition finish (t : transfer_ptr) (tv' : virtusb_transfer) (events : list event) (s1 : kernel) :
    kernel :=
  transfer_drop t (set_trace (k_trace s1 ++ events) (put_transfer t tv' s1)).

Section finish.
Context (X : obj_ptr -> Z) (T : transfer_ptr -> Z) (s1 : kernel).
Context (t : transfer_ptr) (Hc : backend_core X (add_ref t 1 T) s1).
Context (HT : 0 <= T t) (H0 : request_refs s1 t = 0).
Context (tv tv' : virtusb_transfer) (Ht : k_transfers s1 !! t = Some tv).
Context (Ed : tr_device tv' = tr_device tv) (Ei : tr_id tv' = tr_id tv).
Context (Er : tr_refcount tv' = tr_refcount tv) (Hwf : transfer_wf tv').
Context (events : list event).

Lemma finish_facts :
  backend_core X T (finish t tv' events s1) /\
  virtusb_transfer_put (Some t) (set_trace (k_trace s1 ++ events) (put_transfer t tv' s1)) =
    Some (tt, finish t tv' events s1) /\
  backend_step s1 (finish t tv' events s1) /\
  k_trace (finish t tv' events s1) = k_trace s1 ++ events /\
  k_hcds (finish t tv' events s1) = k_hcds s1 /\
  k_urbs (finish t tv' events s1) = k_urbs s1 /\
  (forall x, x <> t -> k_transfers (finish t tv' events s1) !! x = k_transfers s1 !! x).
Proof using Hc HT H0 Ht Ed Ei Er Hwf.
  pose proof (core_put_transfer _ _ _ Hc t tv tv' Ht H0 Ed Ei Er Hwf) as Hc2.
  pose proof (core_set_trace _ _ _ Hc2 (k_trace s1 ++ events)) as Hc3.
  set (s3 := set_trace _ _) in *.
  destruct (core_transfer_drop _ _ _ Hc3 t) as (Hc4 & Hst & Eq);
    [rewrite add_ref_eq; lia | ].
  unfold finish. fold s3. split; [ | split; [done | ]].
  { eapply backend_core_ext; [ | | exact Hc4]; intros x; [done | apply (add_ref_cancel t 1 T)]. }
  split.
  { trans s3; [ | by apply storage_backend_step].
    trans (put_transfer t tv' s1).
    - apply storage_backend_step, put_transfer_storage, Hc.
    - apply (trace_backend_step (put_transfer t tv' s1)). }
  split; [by rewrite (ss_trace _ _ Hst) | ]. split; [by rewrite (ss_hcds _ _ Hst) | ].
  split; [by rewrite (ss_urbs _ _ Hst) | ].
  intros x Hx. rewrite drop_lookup by done. cbn. by rewrite lookup_insert_ne by congruence.
Qed.
End finish.

(** The effect of ending request [r] with status [st]: nothing else changes. *)
Record request_ended (h uhcd : hcd_ptr) (q : queue) (i : nat) (r : virtusb_hcd_request) (st : Z)
    (s s' : kernel) : Prop := {
  re_step : backend_step s s';
  re_trace : k_trace s' =
    k_trace s ++ [EvUnlinkUrb uhcd (rq_urb r); EvGiveback uhcd (rq_urb r) st];
  re_hcds : k_hcds s' = k_hcds (with_backend h (del_request q i) s);
  re_transfers : forall x, x <> rq_transfer r -> k_transfers s' !! x = k_transfers s !! x;
}.

Lemma request_ended_inv B X T s s' h v uhcd q i r st : backend_core X T s ->
  (forall h' w j p, B h' (set_backend (del_request p j (vh_backend w)) w) = B h' w) ->
  k_hcds s !! h = Some v -> queue_of q (vh_backend v) !! i = Some r ->
  request_ended h uhcd q i r st s s' ->
  (bound_with B s -> bound_with B s') /\ (balance_ok s -> balance_ok s').
Proof.
  intros Hc HB Hv Hi [_ Et Eh Ex]. split; intros H.
  - apply (bound_end s h v Hv q i B s' HB H Eh). intros x Hx.
    destruct (decide (x = rq_transfer r)) as [->|Hne]; [ | by rewrite Ex].
    destruct (take_request X T s Hc h v Hv q i r Hi) as [_ H0].
    unfold request_refs in Hx. rewrite Eh in Hx. unfold request_refs in H0. lia.
  - by eapply balance_end.
Qed.

Lemma bindings_stable (h' : hcd_ptr) w j p :
  be_bindings (vh_backend (set_backend (del_request p j (vh_backend w)) w)) =
    be_bindings (vh_backend w).
Proof. cbn. by destruct (del_request_incl p j (vh_backend w)) as (_ & _ & ->). Qed.

(** Cancelling the transfer of a request that was taken out and giving it back. *)
Lemma cancel_taken X T s h v q i r uhcd st : backend_core X T s ->
  k_hcds s !! h = Some v -> queue_of q (vh_backend v) !! i = Some r ->
  exists s',
    (update_backend h (del_request q i) ;;
     emit (EvUnlinkUrb uhcd (rq_urb r)) ;;
     _ <- virtusb_transfer_cancel (Some (rq_transfer r)) st ;;
     virtusb_backend_giveback uhcd r st) s = Some (tt, s') /\
    backend_core X T s' /\ k_urbs s' = k_urbs s /\ request_ended h uhcd q i r st s s'.
Proof.
  intros Hc Hv Hi. destruct (taken_transfer X T s Hc h v Hv q i r Hi)
    as (tv & Ht & Hst & Hopen & Hlen & Hwf).
  destruct (take_request X T s Hc h v Hv q i r Hi) as [Hc1 H0].
  set (s1 := with_backend h (del_request q i) s) in *.
  set (s2 := set_trace (k_trace s1 ++ [EvUnlinkUrb uhcd (rq_urb r)]) s1).
  pose proof (core_set_trace _ _ s1 Hc1 (k_trace s1 ++ [EvUnlinkUrb uhcd (rq_urb r)])) as Hc2.
  set (tv' := set_tr_result 0 st VIRTUSB_TRANSFER_STATE_CANCELLED tv).
  assert (Hwf' : transfer_wf tv') by (apply set_result_wf; [done | destruct Hwf; lia]).
  destruct (finish_facts X T s2 (rq_transfer r) Hc2 (bc_T _ _ _ Hc _) H0 tv tv' Ht eq_refl eq_refl
              eq_refl Hwf' [EvGiveback uhcd (rq_urb r) st])
    as (Hc3 & Eput & Hstep & Etr & Eh & Eu & Ex).
  exists (finish (rq_transfer r) tv' [EvGiveback uhcd (rq_urb r) st] s2).
  split; [ | split; [done | split; [done | ]]].
  - unfold bind at 1. rewrite (update_backend_eq s h v Hv). fold s1.
    unfold bind at 1, emit, modify. fold s2. unfold bind at 1.
    rewrite (transfer_cancel_eq s2 (rq_transfer r) tv Ht), Hopen.
    unfold virtusb_backend_giveback, virtusb_backend_release_request, emit, modify.
    unfold bind. exact Eput.
  - constructor.
    + etrans; [ | exact Hstep]. trans s1; [apply with_backend_step | apply trace_backend_step].
    + rewrite Etr. cbn. by rewrite <- app_assoc.
    + by rewrite Eh.
    + intros x Hx. by rewrite Ex.
Qed.
