(* ===== verification/BackendOps.v ===== *)
(** * The backend operations preserve the invariant

    Total correctness of every operation of [Backend]: no undefined behaviour,
    termination of the drain loops, the result on every branch. *)

From S2P Require Import Prelude Uapi Kernel Port Hub Object Device Transfer Backend BackendInv.

(** ** Searching *)

Section search.
Context (X : obj_ptr -> Z) (T : transfer_ptr -> Z) (s : kernel) (Hc : backend_core X T s).
Context (h : hcd_ptr) (v : virtusb_hcd) (Hv : k_hcds s !! h = Some v).

Lemma queued_transfer r : r ∈ all_requests (vh_backend v) ->
  exists tv, k_transfers s !! rq_transfer r = Some tv.
Proof using Hc Hv.
  intros Hr. destruct (qo_requests _ _ (bc_queue _ _ _ Hc h v Hv) r Hr) as [(tv & Ht & _)].
  by exists tv.
Qed.

Definition for_device (d : obj_ptr) (r : virtusb_hcd_request) : bool :=
  bool_decide (request_device s r = Some d).
Definition has_id (owner : file_ptr) (id : Z) (r : virtusb_hcd_request) : bool :=
  bool_decide (rq_owner r = Some owner) &&
  bool_decide (tr_id <$> k_transfers s !! rq_transfer r = Some id).

Lemma find_pending_device_eq d :
  virtusb_backend_find_pending_device_locked (vh_backend v) d s =
    Some (list_find (fun r => for_device d r = true) (be_pending (vh_backend v)), s).
Proof using Hc Hv.
  unfold virtusb_backend_find_pending_device_locked. apply find_request_eq. intros r Hr.
  destruct (queued_transfer r) as [tv Ht]; [unfold all_requests; apply elem_of_app; by left | ].
  unfold for_device, request_device. run. do 2 f_equal. apply bool_decide_ext. naive_solver.
Qed.

Lemma find_id_eq owner id :
  virtusb_backend_find_id_locked (vh_backend v) owner id s =
    Some (list_find (fun r => has_id owner id r = true) (be_active (vh_backend v)), s).
Proof using Hc Hv.
  unfold virtusb_backend_find_id_locked. apply find_request_eq. intros r Hr.
  destruct (queued_transfer r) as [tv Ht]; [unfold all_requests; apply elem_of_app; by right | ].
  unfold has_id. case_bool_decide; [ | done]. run. do 2 f_equal.
  destruct (Z.eqb_spec (tr_id tv) id); [by rewrite bool_decide_eq_true_2 by congruence | ].
  by rewrite bool_decide_eq_false_2 by congruence.
Qed.

Lemma list_find_queue q (f : virtusb_hcd_request -> bool) i r :
  list_find (fun r => f r = true) (queue_of q (vh_backend v)) = Some (i, r) ->
  queue_of q (vh_backend v) !! i = Some r /\ f r = true.
Proof using. intros E. apply list_find_Some in E as (Hi & Hf & _). by split. Qed.
End search.

(** ** Cancellation *)

Section cancel.
Context (X : obj_ptr -> Z) (T : transfer_ptr -> Z) (s : kernel) (Hinv : backend_inv X T s).
Context (h uhcd : hcd_ptr) (v : virtusb_hcd) (Hv : k_hcds s !! h = Some v).

Lemma ended_inv q i r st s' : queue_of q (vh_backend v) !! i = Some r -> backend_core X T s' ->
  request_ended h uhcd q i r st s s' -> backend_inv X T s'.
Proof using Hinv Hv.
  intros Hi Hc' He. destruct Hinv as [Hc Hbd Hbl].
  destruct (request_ended_inv _ X T s s' h v uhcd q i r st Hc bindings_stable Hv Hi He)
    as [H1 H2].
  constructor; [done | exact (H1 Hbd) | exact (H2 Hbl)].
Qed.

Lemma find_urb_queue u q i r : virtusb_backend_find_urb_locked (vh_backend v) u = Some (q, i, r) ->
  queue_of q (vh_backend v) !! i = Some r /\ rq_urb r = u.
Proof using.
  unfold virtusb_backend_find_urb_locked.
  destruct (list_find _ (be_pending _)) as [[j x]|] eqn:E.
  - intros [= <- <- <-]. by apply list_find_Some in E as (? & ? & _).
  - destruct (list_find _ (be_active _)) as [[j x]|] eqn:E'; [ | done].
    intros [= <- <- <-]. by apply list_find_Some in E' as (? & ? & _).
Qed.

Lemma find_urb_none u : virtusb_backend_find_urb_locked (vh_backend v) u = None ->
  u ∉ map rq_urb (all_requests (vh_backend v)).
Proof using.
  unfold virtusb_backend_find_urb_locked, all_requests. intros E.
  destruct (list_find _ (be_pending _)) as [[i r]|] eqn:Ep; [done | ].
  destruct (list_find _ (be_active _)) as [[i r]|] eqn:Ea; [done | ].
  rewrite list_find_None, Forall_forall in Ep, Ea. intros (r & -> & Hr)%list_elem_of_fmap.
  apply elem_of_app in Hr as [Hr|Hr]; [by destruct (Ep r Hr) | by destruct (Ea r Hr)].
Qed.

Lemma backend_cancel_spec u status check :
  exists r s', virtusb_backend_cancel (Some h) (Some uhcd) (Some u) status check s = Some (r, s') /\
    backend_inv X T s' /\ backend_step s s' /\ k_urbs s' = k_urbs s /\
    if check <? 0 then r = check /\ s' = s
    else match virtusb_backend_find_urb_locked (vh_backend v) u with
         | None => r = - EIDRM /\ s' = s
         | Some (q, i, req) => r = 0 /\ request_ended h uhcd q i req status s s'
         end.
Proof using Hinv Hv.
  unfold virtusb_backend_cancel. destruct (check <? 0).
  { exists check, s. split; [done | ]. split; [done | ]. by split. }
  unfold bind at 1. rewrite (get_backend_eq s h v Hv).
  destruct (virtusb_backend_find_urb_locked _ u) as [[[q i] r]|] eqn:E; cbn iota beta.
  - destruct (find_urb_queue u q i r E) as [Hi Hu].
    destruct (cancel_taken X T s h v q i r uhcd status (bi_core _ _ _ Hinv) Hv Hi)
      as (s' & Es & Hc' & Hur & He).
    exists 0, s'. split; [ | split; [by eapply ended_inv | split; [apply He | done]]].
    unfold bind in *. rewrite Hu in Es.
    destruct (update_backend h (del_request q i) s) as [[[] s1]|]; [ | done].
    destruct (emit _ s1) as [[[] s2]|]; [ | done].
    destruct (virtusb_transfer_cancel _ _ s2) as [[x s3]|]; [ | done].
    by rewrite Es.
  - exists (- EIDRM), s. split; [done | ]. split; [done | ]. by split.
Qed.
End cancel.

(** ** Completion *)

Lemma core_put_urb X T s u uv uv' : backend_core X T s -> k_urbs s !! u = Some uv ->
  (forall b, ur_transfer_buffer uv = Some b ->
     exists b', ur_transfer_buffer uv' = Some b' /\ length b' = length b) ->
  backend_core X T (set_urbs (<[u := uv']> (k_urbs s)) s).
Proof.
  intros [[Hb Ho [? ? ? ? ? ?] Hn] HX HTn Hq Hs] Hu Hlen. constructor; try done.
  - constructor; [done | | by constructor | done]. by eapply objects_ok_frame.
  - intros h v Hv. eapply queue_ok_mono; [by eapply Hq | ].
    intros r _ [(tv & Ht & Hst & Hl & uv0 & Hu0 & Hub)]. constructor. exists tv.
    split; [done | ]. split; [done | ]. split; [done | ]. cbn. rewrite lookup_insert.
    case_decide as E; [ | by exists uv0]. exists uv'. split; [done | ]. intros Hd Hpos.
    rewrite <- E, Hu in Hu0. injection Hu0 as <-.
    destruct (Hub Hd Hpos) as (ub & Eub & Hle). destruct (Hlen ub Eub) as (b' & Eb' & El).
    exists b'. split; [done | lia].
Qed.

(** [completion] as copied from user space. *)
Record completion_ok (c : virtusb_transfer_complete_request) : Prop := {
  co_actual : in_width 32 (tc_actual_length c);
  co_data : Z.of_nat (length (tc_data c)) = VIRTUSB_TRANSFER_DATA_MAX;
}.

Definition copies_data (c : virtusb_transfer_complete_request) (tv : virtusb_transfer) : bool :=
  bool_decide (tr_direction tv = VIRTUSB_TRANSFER_DIRECTION_IN) && (0 <? tc_actual_length c).
(** A block whose first bytes are those of the completion. *)
Definition received (c : virtusb_transfer_complete_request) (b : list Z) : list Z :=
  take (Z.to_nat (tc_actual_length c)) (tc_data c) ++ drop (Z.to_nat (tc_actual_length c)) b.
Definition received_transfer (c : virtusb_transfer_complete_request) (tv : virtusb_transfer) :=
  if copies_data c tv then set_tr_buffer (received c <$> tr_buffer tv) tv else tv.
Definition completed_transfer (c : virtusb_transfer_complete_request) (tv : virtusb_transfer) :=
  set_tr_result (tc_actual_length c) (tc_status c) VIRTUSB_TRANSFER_STATE_COMPLETED
    (received_transfer c tv).
Definition received_urb (c : virtusb_transfer_complete_request) (tv : virtusb_transfer) (uv : urb) :=
  if copies_data c tv then set_ur_buffer (received c <$> ur_transfer_buffer uv) uv else uv.
Definition completed_urb (c : virtusb_transfer_complete_request) (tv : virtusb_transfer) (uv : urb) :=
  set_ur_actual_length (tc_actual_length c) (received_urb c tv uv).

Lemma received_length c b : completion_ok c -> tc_actual_length c <= VIRTUSB_TRANSFER_DATA_MAX ->
  tc_actual_length c <= Z.of_nat (length b) -> length (received c b) = length b.
Proof.
  intros [[H0 _] Hd] H1 H2. unfold received. rewrite length_app, length_take, length_drop. lia.
Qed.

Lemma write_received c b (s : kernel) : completion_ok c ->
  tc_actual_length c <= VIRTUSB_TRANSFER_DATA_MAX ->
  tc_actual_length c <= Z.of_nat (length b) ->
  write_bytes (tc_actual_length c) (tc_data c) b s = Some (received c b, s).
Proof.
  intros [_ Hd] H1 H2. unfold write_bytes.
  destruct (Z.ltb_spec (Z.of_nat (length (tc_data c))) (tc_actual_length c)); [lia | ].
  destruct (Z.ltb_spec (Z.of_nat (length b)) (tc_actual_length c)); [lia | ]. done.
Qed.

(** The second copy takes the same bytes from the transfer buffer. *)
Lemma write_received_again c b ub (s : kernel) : completion_ok c ->
  tc_actual_length c <= VIRTUSB_TRANSFER_DATA_MAX ->
  tc_actual_length c <= Z.of_nat (length b) -> tc_actual_length c <= Z.of_nat (length ub) ->
  write_bytes (tc_actual_length c) (received c b) ub s = Some (received c ub, s).
Proof.
  intros Hc H1 H2 H3. pose proof Hc as [[H0 _] Hd]. unfold write_bytes.
  rewrite (received_length c b) by done.
  destruct (Z.ltb_spec (Z.of_nat (length b)) (tc_actual_length c)); [lia | ].
  destruct (Z.ltb_spec (Z.of_nat (length ub)) (tc_actual_length c)); [lia | ]. cbn [orb].
  unfold ret, received at 1 2. do 3 f_equal. rewrite take_app_le, take_take.
  - by rewrite Nat.min_id.
  - rewrite length_take. lia.
Qed.

Lemma completed_transfer_wf c tv : completion_ok c -> transfer_wf tv ->
  tc_actual_length c <= tr_requested_length tv -> tc_actual_length c <= VIRTUSB_TRANSFER_DATA_MAX ->
  transfer_wf (completed_transfer c tv).
Proof.
  intros Hc [H1 H2 H3 H4 H5] Hl Hl2. pose proof Hc as [[H0 _] Hd].
  unfold completed_transfer, received_transfer. destruct (copies_data c tv); cbn.
  - constructor; cbn; try done. destruct (tr_buffer tv) as [b|]; cbn; [ | done].
    by rewrite received_length by (done || lia).
  - by constructor.
Qed.

Lemma copy_result_eq c r tv uv (s : kernel) : completion_ok c ->
  tc_actual_length c <= VIRTUSB_TRANSFER_DATA_MAX -> transfer_wf tv ->
  tc_actual_length c <= tr_requested_length tv ->
  k_transfers s !! rq_transfer r = Some tv -> k_urbs s !! rq_urb r = Some uv ->
  (tr_direction tv = VIRTUSB_TRANSFER_DIRECTION_IN -> 0 < tr_requested_length tv ->
   exists ub, ur_transfer_buffer uv = Some ub /\ tr_requested_length tv <= Z.of_nat (length ub)) ->
  copy_result r (tc_data c) (tc_actual_length c) s =
    Some (tt, set_urbs (<[rq_urb r := received_urb c tv uv]> (k_urbs s))
                (put_transfer (rq_transfer r) (received_transfer c tv) s)).
Proof.
  intros Hc Hmax Hwf Hle Ht Hu Hroom. unfold copy_result, received_urb, received_transfer.
  unfold bind at 1, load. rewrite Ht. fold (copies_data c tv).
  destruct (copies_data c tv) eqn:Ecp.
  - unfold copies_data in Ecp. apply andb_true_iff in Ecp. destruct Ecp as [Hd Hp].
    apply bool_decide_eq_true in Hd. apply Z.ltb_lt in Hp.
    destruct (Hroom Hd ltac:(lia)) as (ub & Eub & Hub).
    pose proof (tw_buffer _ Hwf) as Hb. destruct (tr_buffer tv) as [b|] eqn:Eb; [ | lia].
    unfold bind at 1. rewrite write_received by (done || lia).
    unfold bind at 1, store. rewrite Ht. cbn iota beta.
    unfold bind at 1. cbn [k_urbs set_transfers]. rewrite Hu. rewrite Eub.
    unfold bind at 1. rewrite write_received_again by (done || lia).
    cbn [k_urbs set_transfers]. rewrite Hu. done.
  - unfold put_transfer. rewrite !insert_id by done. by destruct s.
Qed.

Section complete.
Context (X : obj_ptr -> Z) (T : transfer_ptr -> Z) (s : kernel) (Hinv : backend_inv X T s).
Context (h uhcd : hcd_ptr) (v : virtusb_hcd) (Hv : k_hcds s !! h = Some v).
Context (owner : file_ptr) (c : virtusb_transfer_complete_request) (Hcok : completion_ok c).

(** The request that a completion names. *)
Definition completed_request : option (nat * virtusb_hcd_request) :=
  list_find (fun r => has_id s owner (tc_transfer_id c) r = true) (be_active (vh_backend v)).

(** What a successful completion leaves in the URB. *)
Record urb_completed (r : virtusb_hcd_request) (s' : kernel) : Prop := {
  uc_urb : exists tv uv, k_transfers s !! rq_transfer r = Some tv /\
    k_urbs s !! rq_urb r = Some uv /\
    k_urbs s' = <[rq_urb r := completed_urb c tv uv]> (k_urbs s) /\
    tc_actual_length c <= tr_requested_length tv;
}.

(** *** A completion that fits its request *)

Section fits.
Context (i : nat) (req : virtusb_hcd_request) (Hi : queue_of Active (vh_backend v) !! i = Some req).
Context (tv : virtusb_transfer) (Ht : k_transfers s !! rq_transfer req = Some tv).
Context (uv : urb) (Hu : k_urbs s !! rq_urb req = Some uv).
Context (Hwf : transfer_wf tv) (Hopen : transfer_open tv = true).
Context (Hroom : tr_direction tv = VIRTUSB_TRANSFER_DIRECTION_IN -> 0 < tr_requested_length tv ->
  exists ub, ur_transfer_buffer uv = Some ub /\ tr_requested_length tv <= Z.of_nat (length ub)).
Context (Hle : tc_actual_length c <= tr_requested_length tv).
Context (Hmax : tc_actual_length c <= VIRTUSB_TRANSFER_DATA_MAX).

(** The request is off the queue and its URB unlinked; then the data is copied;
    then the URB is given back and the transfer released. *)
Definition unlinked : kernel :=
  set_trace (k_trace s ++ [EvUnlinkUrb uhcd (rq_urb req)]) (with_backend h (del_request Active i) s).
Definition delivered : kernel := set_urbs (<[rq_urb req := completed_urb c tv uv]> (k_urbs s)) unlinked.
Definition completed : kernel :=
  finish (rq_transfer req) (completed_transfer c tv) [EvGiveback uhcd (rq_urb req) (tc_status c)] delivered.

Lemma delivered_core : backend_core X (add_ref (rq_transfer req) 1 T) delivered.
Proof using Hinv Hv Hcok Hi Hu Hroom Hle Hmax.
  destruct Hinv as [Hc _ _]. destruct (take_request X T s Hc h v Hv Active i req Hi) as [Hc1 _].
  pose proof (core_set_trace _ _ _ Hc1 (k_trace s ++ [EvUnlinkUrb uhcd (rq_urb req)])) as Hc2.
  pose proof (co_actual _ Hcok) as [Hpos _].
  apply (core_put_urb X _ unlinked (rq_urb req) uv (completed_urb c tv uv) Hc2 Hu). intros b Eb.
  unfold completed_urb, received_urb. destruct (copies_data c tv) eqn:Ecp; cbn; [ | by exists b].
  rewrite Eb. cbn. eexists. split; [done | ]. apply received_length; [done | lia | ].
  unfold copies_data in Ecp. apply andb_true_iff in Ecp. destruct Ecp as [Hd Hp].
  apply bool_decide_eq_true in Hd. apply Z.ltb_lt in Hp.
  destruct (Hroom Hd ltac:(lia)) as (ub & Eub & Hub). simplify_eq. lia.
Qed.

Lemma completed_facts :
  virtusb_transfer_put (Some (rq_transfer req))
    (set_trace (k_trace delivered ++ [EvGiveback uhcd (rq_urb req) (tc_status c)])
       (put_transfer (rq_transfer req) (completed_transfer c tv) delivered)) = Some (tt, completed) /\
  backend_core X T completed /\ k_urbs completed = <[rq_urb req := completed_urb c tv uv]> (k_urbs s) /\
  request_ended h uhcd Active i req (tc_status c) s completed.
Proof using Hinv Hv Hcok Hi Ht Hu Hwf Hroom Hle Hmax.
  destruct Hinv as [Hc _ _]. destruct (take_request X T s Hc h v Hv Active i req Hi) as [_ H0].
  assert (Hsame : tr_device (completed_transfer c tv) = tr_device tv /\
            tr_id (completed_transfer c tv) = tr_id tv /\
            tr_refcount (completed_transfer c tv) = tr_refcount tv).
  { unfold completed_transfer, received_transfer. by destruct (copies_data c tv). }
  destruct Hsame as (Ed & Ei & Er).
  destruct (finish_facts X T delivered (rq_transfer req) delivered_core (bc_T _ _ _ Hc _) H0 tv
    (completed_transfer c tv) Ht Ed Ei Er ltac:(by apply completed_transfer_wf)
    [EvGiveback uhcd (rq_urb req) (tc_status c)]) as (Hc4 & Eput & Hstep & Etr & Eh & Eu & Ex).
  fold completed in *. split; [done | ]. split; [done | ]. split; [done | ]. constructor.
  - etrans; [ | exact Hstep]. etrans; [apply (with_backend_step h (del_request Active i)) | ].
    etrans; [apply (trace_backend_step _ [EvUnlinkUrb uhcd (rq_urb req)]) | ]. constructor; try done.
    + intros h'. split; [done | ]. intros v' Hv'. exists (vh_backend v'). by rewrite set_backend_id.
    + exists []. by rewrite app_nil_r.
  - rewrite Etr. cbn. by rewrite <- app_assoc.
  - by rewrite Eh.
  - intros x Hx. by rewrite Ex.
Qed.

(** The code from the copy on. *)
Lemma completed_run :
  (copy_result req (tc_data c) (tc_actual_length c) ;;
   r <- virtusb_transfer_complete (Some (rq_transfer req)) (tc_status c) (tc_actual_length c) ;;
   if r <? 0 then
     _ <- virtusb_transfer_cancel (Some (rq_transfer req)) r ;;
     virtusb_backend_giveback uhcd req r ;;
     ret r
   else
     uv <- load_urb (rq_urb req) ;;
     store_urb (rq_urb req) (set_ur_actual_length (u32 (tc_actual_length c)) uv) ;;
     virtusb_backend_giveback uhcd req (tc_status c) ;;
     ret 0) unlinked = Some (0, completed).
Proof using Hinv Hv Hcok Hi Ht Hu Hwf Hopen Hroom Hle Hmax.
  unfold bind at 1. rewrite (copy_result_eq c req tv uv unlinked Hcok Hmax Hwf Hle Ht Hu Hroom).
  set (s2 := set_urbs _ (put_transfer _ _ unlinked)).
  unfold bind at 1. rewrite (transfer_complete_eq s2 _ (received_transfer c tv)) by apply lookup_insert_eq.
  assert (Eo : transfer_open (received_transfer c tv) = true /\
            tr_requested_length (received_transfer c tv) = tr_requested_length tv)
    by (unfold received_transfer, transfer_open in *; destruct (copies_data c tv); by split).
  destruct Eo as [-> ->]. rewrite (proj2 (Z.ltb_ge _ _)) by done. change (0 <? 0) with false. cbn iota.
  unfold bind at 1, load. cbn [k_urbs put_transfer set_transfers s2 set_urbs].
  rewrite lookup_insert_eq. unfold bind at 1, store. cbn [k_urbs put_transfer set_transfers s2 set_urbs].
  rewrite lookup_insert_eq. unfold virtusb_backend_giveback, virtusb_backend_release_request.
  rewrite (wrap_small 32 _ (co_actual _ Hcok)). unfold bind, emit, modify.
  destruct completed_facts as [Eput _].
  match type of Eput with virtusb_transfer_put _ ?st' = _ =>
    match goal with |- match virtusb_transfer_put _ ?st with _ => _ end = _ => replace st with st' end end.
  { by rewrite Eput. }
  unfold delivered, s2, put_transfer, completed_transfer, completed_urb. cbn.
  unfold set_trace, set_urbs, set_transfers. cbn. by rewrite !insert_insert_eq.
Qed.
End fits.

Lemma backend_complete_spec : tc_transfer_id c <> 0 ->
  exists r s', virtusb_backend_complete (Some h) (Some uhcd) (Some owner) (Some c) s = Some (r, s') /\
    backend_inv X T s' /\ backend_step s s' /\
    match completed_request with
    | None => r = - ENOENT /\ s' = s
    | Some (i, req) =>
        (r = 0 /\ request_ended h uhcd Active i req (tc_status c) s s' /\ urb_completed req s') \/
        (r = - EMSGSIZE /\ request_ended h uhcd Active i req (- EMSGSIZE) s s' /\
         k_urbs s' = k_urbs s /\
         exists tv, k_transfers s !! rq_transfer req = Some tv /\
           tr_requested_length tv < tc_actual_length c)
    end.
Proof using Hinv Hv Hcok.
  intros Hid. pose proof Hinv as [Hc _ _].
  unfold virtusb_backend_complete. destruct (Z.eqb_spec (tc_transfer_id c) 0); [done | ].
  unfold bind at 1. rewrite (get_backend_eq s h v Hv).
  unfold bind at 1. rewrite (find_id_eq X T s Hc h v Hv). fold completed_request.
  destruct completed_request as [[i req]|] eqn:Efind; cbn iota beta.
  2:{ exists (- ENOENT), s. split; [done | ]. split; [done | ]. by split. }
  destruct (list_find_queue v Active _ i req Efind) as [Hi _].
  destruct (taken_transfer X T s Hc h v Hv Active i req Hi) as (tv & Ht & _ & Hopen & Hmax & Hwf).
  destruct (qo_requests _ _ (bc_queue _ _ _ Hc h v Hv) req (queue_of_elem _ _ _ _ Hi))
    as [(tv0 & Ht0 & _ & _ & uv & Hu & Hroom)]. simplify_eq.
  destruct (Z.ltb_spec (tr_requested_length tv) (tc_actual_length c)) as [Hbig|Hsmall].
  - (* too much data *)
    destruct (cancel_taken X T s h v Active i req uhcd (- EMSGSIZE) Hc Hv Hi) as (s' & Es & Hc' & Hur & He).
    exists (- EMSGSIZE), s'. split; [ | split; [by eapply ended_inv | split; [apply He | ]]].
    + unfold bind in *. rewrite (update_backend_eq s h v Hv) in *. cbn iota beta in *.
      unfold emit at 1, modify at 1 in Es. unfold emit at 1, modify at 1.
      unfold load. cbn [k_transfers set_trace with_backend set_hcds]. rewrite Ht.
      rewrite (proj2 (Z.ltb_lt _ _)) by done. cbn [orb].
      destruct (virtusb_transfer_cancel _ _ _) as [[x s3]|]; [ | done]. by rewrite Es.
    + right. split; [done | ]. split; [done | ]. split; [done | ]. by exists tv.
  - (* completion *)
    destruct (completed_facts i req Hi tv Ht uv Hu Hwf Hroom Hsmall ltac:(lia)) as (_ & Hc' & Eu & He).
    exists 0, (completed i req tv uv). split; [ | split; [by eapply ended_inv | split; [apply He | left]]].
    + unfold bind at 1. rewrite (update_backend_eq s h v Hv).
      unfold bind at 1, emit, modify. unfold bind at 1, load. cbn [k_transfers set_trace with_backend set_hcds].
      rewrite Ht. rewrite (proj2 (Z.ltb_ge _ _)) by done. rewrite (proj2 (Z.ltb_ge _ _)) by lia. cbn [orb].
      by apply completed_run; try lia.
    + split; [done | ]. split; [done | ]. constructor. by exists tv, uv.
Qed.
End complete.

(** ** Changes of the queues that end no request *)

Section rearrange.
Context (X : obj_ptr -> Z) (T : transfer_ptr -> Z) (s : kernel) (Hinv : backend_inv X T s).
Context (h : hcd_ptr) (v : virtusb_hcd) (Hv : k_hcds s !! h = Some v).

(** Queues with the same requests: counts and bindings do not change. *)
Lemma rearranged_inv f : queue_ok s (f (vh_backend v)) ->
  be_bindings (f (vh_backend v)) = be_bindings (vh_backend v) ->
  (forall t, backend_requests t (f (vh_backend v)) = backend_requests t (vh_backend v)) ->
  (forall u, backend_urbs u (f (vh_backend v)) = backend_urbs u (vh_backend v)) ->
  (forall r, r ∈ all_requests (f (vh_backend v)) -> request_bound s (f (vh_backend v)) r) ->
  backend_inv X T (with_backend h f s).
Proof using Hinv Hv.
  intros Hq Hbs Hreq Hurb Hbound. destruct Hinv as [Hc Hbd Hbl]. constructor.
  - apply (core_with_backend X T s Hc X T h v); [done | done | | | ].
    + intros o. split; [apply (bc_X _ _ _ Hc) | ]. unfold backend_bindings. by rewrite Hbs.
    + intros t. split; [apply (bc_T _ _ _ Hc) | ]. by rewrite Hreq.
    + intros t. rewrite Hreq. pose proof (bc_single _ _ _ Hc t). lia.
  - intros h' v' r. cbn. rewrite lookup_alter. case_decide as E.
    + subst h'. rewrite Hv. intros [= <-] Hr. by apply Hbound.
    + intros Hv' Hr. by eapply Hbd.
  - intros u. destruct (Hbl u) as [B1 B2]. split; [ | done]. unfold urb_refs in *.
    rewrite (hcd_sum_with_backend _ f h v s Hv), Hurb. cbn. lia.
Qed.

Lemma inv_set_trace l : Forall (fun e => forall u,
    is_link u e = false /\ is_unlink u e = false /\ is_giveback u e = false) l ->
  backend_inv X T (set_trace (k_trace s ++ l) s).
Proof using Hinv.
  intros Hl. destruct Hinv as [Hc Hbd Hbl]. constructor.
  - by apply core_set_trace.
  - exact Hbd.
  - intros u. destruct (Hbl u) as [B1 B2]. cbn. rewrite !countb_app.
    rewrite Forall_forall in Hl.
    rewrite (countb_zero (is_link u) l), (countb_zero (is_unlink u) l),
      (countb_zero (is_giveback u) l) by (intros e He; apply (Hl e He u)).
    change (urb_refs (set_trace _ s) u) with (urb_refs s u). lia.
Qed.

Lemma inv_transfer_ref t tv : k_transfers s !! t = Some tv ->
  backend_inv X (add_ref t 1 T) (transfer_ref t 1 s).
Proof using Hinv.
  intros Ht. destruct Hinv as [Hc Hbd Hbl].
  destruct (core_transfer_ref X T s Hc t tv Ht) as (Hc' & Hst & _). constructor; [done | | done].
  intros h' v' r Hv' Hr. destruct (Hbd h' v' r Hv' Hr) as (x & Hx & Hd & Ho).
  exists x. split; [done | ]. split; [ | done]. rewrite <- Hd. unfold request_device. cbn.
  destruct (decide (t = rq_transfer r)) as [->|Hne].
  - rewrite lookup_alter_eq. by destruct (k_transfers s !! rq_transfer r).
  - by rewrite lookup_alter_ne.
Qed.
End rearrange.

Lemma wake_up_spec X T s h : backend_inv X T s -> exists s',
  wake_up h s = Some (tt, s') /\ s' = set_trace (k_trace s ++ [EvWakeUp h]) s /\
  backend_inv X T s' /\ backend_step s s'.
Proof.
  intros Hinv. eexists. split; [done | ]. split; [done | ]. split; [ | apply trace_backend_step].
  apply inv_set_trace; [done | ]. by repeat constructor.
Qed.

(** ** Fetching *)

Section fetch.
Context (X : obj_ptr -> Z) (T : transfer_ptr -> Z) (s : kernel) (Hinv : backend_inv X T s).
Context (h : hcd_ptr) (v : virtusb_hcd) (Hv : k_hcds s !! h = Some v).
Context (owner : file_ptr).

Definition owned (r : virtusb_hcd_request) : virtusb_hcd_request :=
  mk_request (rq_urb r) (rq_transfer r) (Some owner).
Definition fetched (i : nat) (r : virtusb_hcd_request) (b : virtusb_backend) : virtusb_backend :=
  set_queues (delete i (be_pending b)) (be_active b ++ [owned r]) b.

(** The oldest pending request for the device of the owner's binding. *)
Definition next_request : option (nat * virtusb_hcd_request) :=
  match virtusb_backend_find_owner_locked (vh_backend v) owner with
  | Some (_, x) =>
      list_find (fun r => for_device s (bd_device x) r = true) (be_pending (vh_backend v))
  | None => None
  end.

Lemma fetched_counts (P : virtusb_hcd_request -> Prop) `{!forall r, Decision (P r)} i r :
  be_pending (vh_backend v) !! i = Some r -> (P (owned r) <-> P r) ->
  count P (all_requests (fetched i r (vh_backend v))) = count P (all_requests (vh_backend v)).
Proof using.
  intros Hi HP. unfold all_requests, fetched. cbn.
  rewrite !count_app, (count_delete P _ i r), count_cons, count_nil by done.
  destruct (decide (P (owned r))), (decide (P r)); tauto || lia.
Qed.

Lemma fetched_inv i x r : virtusb_backend_find_owner_locked (vh_backend v) owner = Some (i, x) ->
  forall j, be_pending (vh_backend v) !! j = Some r ->
  request_device s r = Some (bd_device x) ->
  backend_inv X T (with_backend h (fetched j r) s).
Proof using Hinv Hv.
  intros Ex j Hj Hd. pose proof (bi_core _ _ _ Hinv) as Hc.
  destruct (bc_queue _ _ _ Hc h v Hv) as [H1 H2 H3 H4 H5].
  pose proof (list_elem_of_lookup_2 _ _ _ Hj) as Hin.
  destruct (del_request_incl Pending j (vh_backend v)) as (E1 & _ & _). cbn in E1.
  assert (Hrok : request_ok s r) by (apply H3; unfold all_requests; apply elem_of_app; by left).
  apply list_find_Some in Ex as (Hx & Hox & _). apply list_elem_of_lookup_2 in Hx.
  apply (rearranged_inv X T s Hinv h v Hv).
  - constructor; cbn; try done.
    + intros r'. unfold all_requests. cbn. rewrite !elem_of_app, list_elem_of_singleton.
      intros [Hr|[Hr| ->]].
      * apply H3. unfold all_requests. apply elem_of_app. auto.
      * apply H3. unfold all_requests. apply elem_of_app. auto.
      * destruct Hrok as [Hrok]. by constructor.
    + intros r' Hr. apply H4. auto.
    + intros r'. rewrite elem_of_app, list_elem_of_singleton. intros [Hr| ->]; [auto | done].
  - done.
  - intros t. apply (fetched_counts (fun a => rq_transfer a = t) j r Hj). done.
  - intros u. apply (fetched_counts (fun a => rq_urb a = u) j r Hj). done.
  - intros r'. unfold all_requests. cbn. rewrite !elem_of_app, list_elem_of_singleton.
    intros [Hr|[Hr| ->]].
    + apply (bi_bound _ _ _ Hinv h v r' Hv). unfold all_requests. apply elem_of_app. auto.
    + apply (bi_bound _ _ _ Hinv h v r' Hv). unfold all_requests. apply elem_of_app. auto.
    + exists x. cbn. split; [done | ]. split; [done | ]. intros _. by rewrite Hox.
Qed.

Lemma fetch_section_spec nonblock :
  match next_request with
  | Some (i, r) => exists tv,
      k_transfers s !! rq_transfer r = Some tv /\
      fetch_section h owner nonblock s =
        Some (FetchGot (rq_transfer r),
              transfer_ref (rq_transfer r) 1 (with_backend h (fetched i r) s)) /\
      backend_inv X T (with_backend h (fetched i r) s) /\
      backend_inv X (add_ref (rq_transfer r) 1 T)
        (transfer_ref (rq_transfer r) 1 (with_backend h (fetched i r) s))
  | None =>
      fetch_section h owner nonblock s =
        Some (if decide (virtusb_backend_find_owner_locked (vh_backend v) owner = None)
              then FetchReturn (- ENODEV)
              else if be_stopping (vh_backend v) then FetchReturn (- ESHUTDOWN)
              else if nonblock then FetchReturn (- EAGAIN) else FetchWait, s)
  end.
Proof using Hinv Hv.
  pose proof (bi_core _ _ _ Hinv) as Hc. unfold next_request.
  destruct (virtusb_backend_find_owner_locked (vh_backend v) owner) as [[i x]|] eqn:Eo.
  2:{ rewrite decide_True by done. unfold fetch_section, bind at 1.
      by rewrite (get_backend_eq s h v Hv), Eo. }
  destruct (list_find _ _) as [[j r]|] eqn:Ef; cbn iota beta.
  2:{ rewrite decide_False by done. unfold fetch_section, bind at 1.
      rewrite (get_backend_eq s h v Hv), Eo. unfold bind at 1.
      rewrite (find_pending_device_eq X T s Hc h v Hv (bd_device x)), Ef.
      destruct (be_stopping _); [done | by destruct nonblock]. }
  destruct (list_find_queue v Pending _ j r Ef) as [Hj Hd]. cbn in Hj.
  unfold for_device in Hd. apply bool_decide_eq_true in Hd.
  destruct (queued_transfer X T s Hc h v Hv r) as [tv Ht].
  { unfold all_requests. apply elem_of_app. left. by eapply list_elem_of_lookup_2. }
  pose proof (fetched_inv i x r Eo j Hj Hd) as Hinv'.
  exists tv. split; [done | ]. split; [ | split; [done | ]].
  - unfold fetch_section, bind at 1. rewrite (get_backend_eq s h v Hv), Eo. unfold bind at 1.
    rewrite (find_pending_device_eq X T s Hc h v Hv (bd_device x)), Ef.
    unfold bind at 1. rewrite (update_backend_eq s h v Hv).
    change (fun b => set_queues (delete j (be_pending b)) (be_active b ++ [_]) b) with (fetched j r).
    cbn [rq_transfer]. unfold bind.
    destruct (core_transfer_ref X T _ (bi_core _ _ _ Hinv') (rq_transfer r) tv Ht)
      as (_ & _ & ->). done.
  - by apply (inv_transfer_ref X T _ Hinv' (rq_transfer r) tv).
Qed.
End fetch.

(** ** What a fetch returns *)

(** [data] followed by zeros up to [n] bytes. *)
Definition padded (n : Z) (data : list Z) : list Z :=
  data ++ replicate (Z.to_nat n - length data) 0.

(** The view of a transfer that user space gets. *)
Definition carries_data (tv : virtusb_transfer) : bool :=
  bool_decide (tr_direction tv = VIRTUSB_TRANSFER_DIRECTION_OUT) && (0 <? tr_requested_length tv).
Definition fetch_view (tv : virtusb_transfer) (ov : virtusb_object) : virtusb_transfer_fetch :=
  mk_transfer_fetch (tr_id tv) (ob_id ov) (transfer_type_to_Z (tr_type tv))
    (transfer_direction_to_Z (tr_direction tv)) (tr_endpoint tv)
    (if tr_has_setup tv then 1 else 0) (tr_requested_length tv)
    (if carries_data tv then tr_requested_length tv else 0)
    (if tr_has_setup tv then tr_setup tv else replicate 8 0)
    (padded VIRTUSB_TRANSFER_DATA_MAX (if carries_data tv then default [] (tr_buffer tv) else [])).

Lemma write_zeros n b (s : kernel) : Z.of_nat (length b) <= n -> 0 <= n ->
  write_bytes (Z.of_nat (length b)) b (replicate (Z.to_nat n) 0) s = Some (padded n b, s).
Proof.
  intros Hl Hn. unfold write_bytes, padded. rewrite length_replicate.
  destruct (Z.ltb_spec (Z.of_nat (length b)) (Z.of_nat (length b))); [lia | ].
  destruct (Z.ltb_spec (Z.of_nat (Z.to_nat n)) (Z.of_nat (length b))); [lia | ].
  unfold ret. cbn [orb]. rewrite Nat2Z.id, firstn_all, drop_replicate. done.
Qed.

Lemma fetch_fill_eq t tv ov (s : kernel) : k_transfers s !! t = Some tv ->
  k_objects s !! tr_device tv = Some ov -> transfer_wf tv ->
  tr_requested_length tv <= VIRTUSB_TRANSFER_DATA_MAX ->
  fetch_fill t s = Some (fetch_view tv ov, s).
Proof.
  intros Ht Ho [H1 H2 H3 H4 H5] Hmax. unfold fetch_fill. unfold bind at 1, load. rewrite Ht.
  unfold bind at 1, load. rewrite Ho. fold (carries_data tv). cbv zeta.
  set (setup_m := if tr_has_setup tv then _ else _).
  assert (Es : setup_m s = Some (if tr_has_setup tv then tr_setup tv else replicate 8 0, s)).
  { unfold setup_m. destruct (tr_has_setup tv); [ | done].
    pose proof (write_zeros VIRTUSB_TRANSFER_SETUP_SIZE (tr_setup tv) s) as E.
    rewrite H2 in E. change (Z.of_nat 8) with VIRTUSB_TRANSFER_SETUP_SIZE in E.
    rewrite E by done. unfold padded. by rewrite H2, app_nil_r. }
  unfold bind at 1. rewrite Es. cbn iota beta.
  set (data_m := if carries_data tv then _ else _).
  assert (Ed : data_m s = Some (padded VIRTUSB_TRANSFER_DATA_MAX
                 (if carries_data tv then default [] (tr_buffer tv) else []), s)).
  { unfold data_m. destruct (carries_data tv) eqn:Ec; [ | done].
    apply andb_true_iff in Ec. destruct Ec as [_ Hp]. apply Z.ltb_lt in Hp.
    destruct (tr_buffer tv) as [b|]; [ | lia]. rewrite <- H4 in *. cbn [default].
    by apply write_zeros. }
  unfold bind at 1. rewrite Ed. cbn iota beta. unfold ret, fetch_view.
  rewrite (wrap_small 32) by (unfold in_width, VIRTUSB_TRANSFER_DATA_MAX in *; lia). done.
Qed.

(** A non-blocking fetch never goes to sleep. *)
Lemma fetch_section_returns h o s s' : fetch_section h o true s <> Some (FetchWait, s').
Proof.
  unfold fetch_section, bind. destruct (get_backend h s) as [[b s1]|]; [ | done].
  destruct (virtusb_backend_find_owner_locked b o) as [[j x]|]; [ | done].
  destruct (virtusb_backend_find_pending_device_locked b _ s1) as [[[[i r]|] s2]|]; [ | | done].
  - destruct (update_backend h _ s2) as [[[] s3]|]; [ | done].
    by destruct (virtusb_transfer_get _ s3) as [[? ?]|].
  - by destruct (be_stopping b).
Qed.

Section fetch_calls.
Context (X : obj_ptr -> Z) (T : transfer_ptr -> Z) (s : kernel) (Hinv : backend_inv X T s).
Context (h : hcd_ptr) (v : virtusb_hcd) (Hv : k_hcds s !! h = Some v).
Context (owner : file_ptr).

(** The error that a fetch without a request returns, [0] when it sleeps. *)
Definition fetch_error (nonblock : bool) : Z :=
  if decide (virtusb_backend_find_owner_locked (vh_backend v) owner = None) then - ENODEV
  else if be_stopping (vh_backend v) then - ESHUTDOWN
  else if nonblock then - EAGAIN else 0.

Lemma next_request_facts i r : next_request s v owner = Some (i, r) ->
  be_pending (vh_backend v) !! i = Some r /\
  exists tv ov, k_transfers s !! rq_transfer r = Some tv /\
    k_objects s !! tr_device tv = Some ov /\ transfer_wf tv /\
    tr_requested_length tv <= VIRTUSB_TRANSFER_DATA_MAX.
Proof using Hinv Hv.
  unfold next_request. destruct (virtusb_backend_find_owner_locked _ owner) as [[j x]|]; [ | done].
  intros Ef. destruct (list_find_queue v Pending _ i r Ef) as [Hi _]. cbn in Hi.
  split; [done | ]. pose proof (bi_core _ _ _ Hinv) as Hc.
  destruct (taken_transfer X T s Hc h v Hv Pending i r Hi) as (tv & Ht & _ & _ & Hl & Hwf).
  exists tv. pose proof (bc_refs _ _ _ Hc) as Hr.
  destruct (ext_live _ s (ro_objects _ _ _ Hr) (tr_device tv)) as (ov & pv & Ho & _).
  { by apply (transfer_device_ref _ _ s Hr (rq_transfer r)). }
  by exists ov.
Qed.

(** Filling the structure and dropping the reference of the fetch. *)
Lemma fetch_finish i r tv ov : next_request s v owner = Some (i, r) ->
  k_transfers s !! rq_transfer r = Some tv -> k_objects s !! tr_device tv = Some ov ->
  transfer_wf tv -> tr_requested_length tv <= VIRTUSB_TRANSFER_DATA_MAX ->
  backend_inv X (add_ref (rq_transfer r) 1 T)
    (transfer_ref (rq_transfer r) 1 (with_backend h (fetched owner i r) s)) ->
  (filled <- fetch_fill (rq_transfer r) ;;
   virtusb_transfer_put (Some (rq_transfer r)) ;;
   ret (0, Some filled))
    (transfer_ref (rq_transfer r) 1 (with_backend h (fetched owner i r) s)) =
    Some ((0, Some (fetch_view tv ov)), with_backend h (fetched owner i r) s).
Proof using Hinv.
  intros _ Ht Ho Hwf Hl Hinv'. set (t := rq_transfer r) in *.
  set (s1 := with_backend h (fetched owner i r) s) in *.
  assert (Ht' : k_transfers (transfer_ref t 1 s1) !! t =
                Some (set_tr_refcount (tr_refcount tv + 1) tv))
    by (cbn; by rewrite lookup_alter_eq, Ht).
  unfold bind at 1. rewrite (fetch_fill_eq t _ ov _ Ht' Ho) by (done || by apply set_refcount_wf).
  change (fetch_view (set_tr_refcount _ tv) ov) with (fetch_view tv ov).
  unfold bind. destruct (core_transfer_drop _ _ _ (bi_core _ _ _ Hinv') t) as (_ & _ & ->).
  { rewrite add_ref_eq. pose proof (bc_T _ _ _ (bi_core _ _ _ Hinv) t). lia. }
  unfold transfer_drop. rewrite Ht'. cbn [tr_refcount set_tr_refcount].
  destruct (core_refcount X T s (bi_core _ _ _ Hinv) t tv Ht) as [_ Hp].
  destruct (Z.eqb_spec (tr_refcount tv + 1) 1); [lia | ].
  rewrite transfer_ref_ref. change (1 + -1) with 0. by rewrite transfer_ref_zero.
Qed.

Lemma backend_fetch_spec buffer nonblock sleeps :
  match next_request s v owner with
  | Some (i, r) => exists tv ov,
      k_transfers s !! rq_transfer r = Some tv /\ k_objects s !! tr_device tv = Some ov /\
      virtusb_backend_fetch (Some h) (Some owner) (Some buffer) nonblock sleeps s =
        Some ((0, Some (fetch_view tv ov)), with_backend h (fetched owner i r) s) /\
      backend_inv X T (with_backend h (fetched owner i r) s)
  | None =>
      fetch_error nonblock <> 0 ->
      virtusb_backend_fetch (Some h) (Some owner) (Some buffer) nonblock sleeps s =
        Some ((fetch_error nonblock, Some buffer), s)
  end.
Proof using Hinv Hv.
  pose proof (fetch_section_spec X T s Hinv h v Hv owner nonblock) as Hsec.
  pose proof next_request_facts as Hnext.
  destruct (next_request s v owner) as [[i r]|] eqn:En.
  - destruct Hsec as (tv & Ht & Esec & Hinv1 & Hinv2).
    destruct (Hnext i r eq_refl) as (_ & tv' & ov & Ht' & Ho & Hwf & Hl).
    assert (tv' = tv) as -> by congruence. exists tv, ov. split; [done | ]. split; [done | ]. split; [ | done].
    unfold virtusb_backend_fetch. cbn [fetch_loop]. unfold bind at 1, bind at 1. rewrite Esec.
    cbn iota beta. unfold ret at 1. cbn iota beta.
    by apply (fetch_finish i r tv ov).
  - unfold fetch_error. intros Hne. unfold virtusb_backend_fetch. cbn [fetch_loop].
    unfold bind at 1, bind at 1. rewrite Hsec.
    case_decide; [done | ]. destruct (be_stopping _); [done | ]. by destruct nonblock.
Qed.

(** A fetch that does not go to sleep has a request or an error. *)
Lemma fetch_no_wait nonblock :
  (forall s', fetch_section h owner nonblock s <> Some (FetchWait, s')) ->
  next_request s v owner <> None \/ fetch_error nonblock < 0.
Proof using Hinv Hv.
  intros Hn. pose proof (fetch_section_spec X T s Hinv h v Hv owner nonblock) as Hsec.
  destruct (next_request s v owner) as [[i r]|]; [by left | right]. unfold fetch_error.
  case_decide; [done | ]. destruct (be_stopping _); [done | ]. destruct nonblock; [done | ].
  by apply Hn in Hsec.
Qed.

(** [pending_for_owner_or_stopping] tells whether a fetch has something to do. *)
Lemma pending_for_owner_eq :
  virtusb_backend_pending_for_owner_or_stopping h owner s =
    Some (be_stopping (vh_backend v) || bool_decide (next_request s v owner <> None), s).
Proof using Hinv Hv.
  pose proof (bi_core _ _ _ Hinv) as Hc. unfold virtusb_backend_pending_for_owner_or_stopping, next_request.
  unfold bind at 1. rewrite (get_backend_eq s h v Hv). destruct (be_stopping _); [done | ].
  destruct (virtusb_backend_find_owner_locked _ owner) as [[j x]|]; [ | done].
  unfold bind. by rewrite (find_pending_device_eq X T s Hc h v Hv (bd_device x)).
Qed.
End fetch_calls.

(** ** Sleeping *)

Section sleeping.
Context (X : obj_ptr -> Z) (T : transfer_ptr -> Z) (s : kernel) (Hinv : backend_inv X T s).
Context (h : hcd_ptr) (v : virtusb_hcd) (Hv : k_hcds s !! h = Some v).
Context (owner : file_ptr).
Context (Hno : next_request s v owner = None).
Context (Hbound : virtusb_backend_find_owner_locked (vh_backend v) owner <> None).
Context (Hrun : be_stopping (vh_backend v) = false).

(** A fetch with nothing to do goes to sleep. *)
Lemma fetch_section_waits : fetch_section h owner false s = Some (FetchWait, s).
Proof using Hinv Hv Hno Hbound Hrun.
  pose proof (fetch_section_spec X T s Hinv h v Hv owner false) as Hsec.
  rewrite Hno, decide_False, Hrun in Hsec by done. exact Hsec.
Qed.

Lemma fetch_condition_false :
  virtusb_backend_pending_for_owner_or_stopping h owner s = Some (false, s).
Proof using Hinv Hv Hno Hrun. by rewrite (pending_for_owner_eq X T s Hinv h v Hv owner), Hrun, Hno. Qed.
End sleeping.

(** ** Rolling back a fetch *)

Section rollback.
Context (X : obj_ptr -> Z) (T : transfer_ptr -> Z) (s : kernel) (Hinv : backend_inv X T s).
Context (h : hcd_ptr) (v : virtusb_hcd) (Hv : k_hcds s !! h = Some v).
Context (owner : file_ptr).

Definition disowned (r : virtusb_hcd_request) : virtusb_hcd_request :=
  mk_request (rq_urb r) (rq_transfer r) None.
Definition rolled_back (i : nat) (r : virtusb_hcd_request) (b : virtusb_backend) : virtusb_backend :=
  set_queues (disowned r :: be_pending b) (delete i (be_active b)) b.

Lemma rolled_back_counts (P : virtusb_hcd_request -> Prop) `{!forall r, Decision (P r)} i r :
  be_active (vh_backend v) !! i = Some r -> (P (disowned r) <-> P r) ->
  count P (all_requests (rolled_back i r (vh_backend v))) = count P (all_requests (vh_backend v)).
Proof using.
  intros Hi HP. unfold all_requests, rolled_back. cbn.
  rewrite count_cons, !count_app, (count_delete P _ i r) by done.
  destruct (decide (P (disowned r))), (decide (P r)); tauto || lia.
Qed.

Lemma rolled_back_inv i r : be_active (vh_backend v) !! i = Some r ->
  backend_inv X T (with_backend h (rolled_back i r) s).
Proof using Hinv Hv.
  intros Hi. pose proof (bi_core _ _ _ Hinv) as Hc.
  destruct (bc_queue _ _ _ Hc h v Hv) as [H1 H2 H3 H4 H5].
  pose proof (list_elem_of_lookup_2 _ _ _ Hi) as Hin.
  assert (Hall : r ∈ all_requests (vh_backend v)) by (unfold all_requests; apply elem_of_app; auto).
  destruct (del_request_incl Active i (vh_backend v)) as (_ & E2 & _). cbn in E2.
  apply (rearranged_inv X T s Hinv h v Hv).
  - constructor; cbn; try done.
    + intros r'. unfold all_requests. cbn. rewrite elem_of_cons, elem_of_app.
      intros [->|[Hr|Hr]].
      * destruct (H3 r Hall) as [Hrok]. by constructor.
      * apply H3. unfold all_requests. apply elem_of_app. auto.
      * apply H3. unfold all_requests. apply elem_of_app. auto.
    + intros r'. rewrite elem_of_cons. intros [->|Hr]; [done | auto].
    + intros r' Hr. apply H5. auto.
  - done.
  - intros t. apply (rolled_back_counts (fun a => rq_transfer a = t) i r Hi). done.
  - intros u. apply (rolled_back_counts (fun a => rq_urb a = u) i r Hi). done.
  - intros r'. unfold all_requests. cbn. rewrite elem_of_cons, elem_of_app.
    intros [->|[Hr|Hr]].
    + destruct (bi_bound _ _ _ Hinv h v r Hv Hall) as (x & Hx & Hd & _).
      exists x. cbn. split; [done | ]. by split.
    + apply (bi_bound _ _ _ Hinv h v r' Hv). unfold all_requests. apply elem_of_app. auto.
    + apply (bi_bound _ _ _ Hinv h v r' Hv). unfold all_requests. apply elem_of_app. auto.
Qed.

Lemma fetch_rollback_spec id : id <> 0 ->
  exists r s', virtusb_backend_fetch_rollback (Some h) (Some owner) id s = Some (r, s') /\
    backend_inv X T s' /\ backend_step s s' /\ k_urbs s' = k_urbs s /\
    k_transfers s' = k_transfers s /\ k_objects s' = k_objects s /\
    match list_find (fun r => has_id s owner id r = true) (be_active (vh_backend v)) with
    | Some (i, req) => r = 0 /\ k_hcds s' = k_hcds (with_backend h (rolled_back i req) s)
    | None => r = - ENOENT /\ s' = s
    end.
Proof using Hinv Hv.
  intros Hid. pose proof (bi_core _ _ _ Hinv) as Hc.
  unfold virtusb_backend_fetch_rollback. destruct (Z.eqb_spec id 0); [done | ].
  unfold bind at 1. rewrite (get_backend_eq s h v Hv).
  unfold bind at 1. rewrite (find_id_eq X T s Hc h v Hv).
  destruct (list_find _ _) as [[i r]|] eqn:Ef; cbn iota beta.
  - destruct (list_find_queue v Active _ i r Ef) as [Hi _]. cbn in Hi.
    destruct (wake_up_spec X T _ h (rolled_back_inv i r Hi)) as (s' & Ew & -> & Hinv' & Hst).
    exists 0. eexists. split; [ | split; [exact Hinv' | split; [ | done]]].
    + unfold bind at 1. rewrite (update_backend_eq s h v Hv).
      change (fun b => set_queues (_ :: be_pending b) _ b) with (rolled_back i r).
      unfold bind. by rewrite Ew.
    + etrans; [apply (with_backend_step h (rolled_back i r)) | exact Hst].
  - exists (- ENOENT), s. split; [done | ]. split; [done | ]. by split.
Qed.
End rollback.

(** ** Registration *)

(** A search fails when no binding matches. *)
Lemma find_device_none b d : virtusb_backend_find_device_locked b d = None <->
  d ∉ map bd_device (be_bindings b).
Proof.
  unfold virtusb_backend_find_device_locked. rewrite list_find_None, Forall_forall. split.
  - intros E (x & -> & Hx)%list_elem_of_fmap. by apply (E x Hx).
  - intros Hn x Hx <-. apply Hn, list_elem_of_fmap. by exists x.
Qed.
Lemma find_owner_none b owner : virtusb_backend_find_owner_locked b owner = None <->
  owner ∉ map bd_owner (be_bindings b).
Proof.
  unfold virtusb_backend_find_owner_locked. rewrite list_find_None, Forall_forall. split.
  - intros E (x & -> & Hx)%list_elem_of_fmap. by apply (E x Hx).
  - intros Hn x Hx <-. apply Hn, list_elem_of_fmap. by exists x.
Qed.


Section register.
Context (X : obj_ptr -> Z) (T : transfer_ptr -> Z) (s : kernel) (Hinv : backend_inv X T s).
Context (h : hcd_ptr) (v : virtusb_hcd) (Hv : k_hcds s !! h = Some v).
Context (owner : file_ptr) (d : obj_ptr).

Definition bound_backend (b : virtusb_backend) : virtusb_backend :=
  set_bindings (be_bindings b ++ [mk_binding d owner]) b.

Lemma not_found_binding {A} `{EqDecision A} (f : virtusb_backend_binding -> A) (a : A) l :
  list_find (fun b => f b = a) l = None -> a ∉ map f l.
Proof using.
  intros Hf Hin. apply list_find_None in Hf. rewrite Forall_forall in Hf.
  apply list_elem_of_In, in_map_iff in Hin. destruct Hin as (b & Eb & Hb).
  by apply (Hf b); [apply list_elem_of_In | ].
Qed.

Lemma bound_backend_inv s1 : backend_inv (add_ref d 1 X) T s1 -> k_hcds s1 !! h = Some v ->
  virtusb_backend_find_owner_locked (vh_backend v) owner = None ->
  virtusb_backend_find_device_locked (vh_backend v) d = None ->
  backend_inv X T (with_backend h bound_backend s1).
Proof using Hinv.
  intros [Hc1 Hbd1 Hbl1] Hv1 Ho Hd. constructor.
  - apply (core_with_backend _ T s1 Hc1 X T h v); [done | | | | ].
    + destruct (bc_queue _ _ _ Hc1 h v Hv1) as [H1 H2 H3 H4 H5]. constructor; cbn; try done.
      * rewrite map_app. apply NoDup_app. split; [done | ]. split; [ | apply NoDup_singleton].
        intros x Hx Hx'. cbn in Hx'. apply list_elem_of_singleton in Hx' as ->.
        by apply (not_found_binding bd_owner owner (be_bindings (vh_backend v)) Ho).
      * rewrite map_app. apply NoDup_app. split; [done | ]. split; [ | apply NoDup_singleton].
        intros x Hx Hx'. cbn in Hx'. apply list_elem_of_singleton in Hx' as ->.
        by apply (not_found_binding bd_device d (be_bindings (vh_backend v)) Hd).
    + intros o. split; [apply (bc_X _ _ _ (bi_core _ _ _ Hinv)) | ].
      unfold backend_bindings, bound_backend, add_ref. cbn.
      rewrite count_app, count_cons, count_nil. cbn.
      destruct (decide (d = o)) as [->|]; [rewrite decide_True by done; lia | ].
      rewrite decide_False by congruence. lia.
    + intros t. split; [apply (bc_T _ _ _ Hc1) | done].
    + intros t. pose proof (bc_single _ _ _ Hc1 t).
      change (backend_requests t (bound_backend (vh_backend v)))
        with (backend_requests t (vh_backend v)). lia.
  - intros h' v' r. cbn. rewrite lookup_alter. case_decide as E.
    + subst h'. rewrite Hv1. intros [= <-] Hr.
      destruct (Hbd1 h v r Hv1 Hr) as (x & Hx & Hdx & Hox). exists x. cbn.
      split; [apply elem_of_app; by left | by split].
    + intros Hv' Hr. by eapply Hbd1.
  - intros u. destruct (Hbl1 u) as [B1 B2]. split; [ | done]. unfold urb_refs in *.
    rewrite (hcd_sum_with_backend _ bound_backend h v s1 Hv1).
    change (backend_urbs u (bound_backend (vh_backend v))) with (backend_urbs u (vh_backend v)).
    cbn. lia.
Qed.

(** Storage steps that keep the queued transfers in place keep the invariant. *)
Lemma inv_object_ref ov : k_objects s !! d = Some ov ->
  backend_inv (add_ref d 1 X) T (object_ref d 1 s).
Proof using Hinv.
  intros Ho. destruct Hinv as [Hc Hbd Hbl].
  destruct (core_object_ref X T s Hc d ov Ho) as (Hc' & _ & _). by constructor.
Qed.

Lemma register_result_spec ov oom : k_objects s !! d = Some ov ->
  exists r s', virtusb_backend_register (Some h) (Some owner) (Some d) oom s = Some (r, s') /\
    backend_inv X T s' /\ backend_step s s' /\ k_urbs s' = k_urbs s /\
    (if oom then r = - ENOMEM /\ s' = s
     else if be_stopping (vh_backend v) then r = - ESHUTDOWN /\ s' = s
     else if decide (virtusb_backend_find_owner_locked (vh_backend v) owner = None /\
                     virtusb_backend_find_device_locked (vh_backend v) d = None)
     then r = 0 /\ k_hcds s' = k_hcds (with_backend h bound_backend s)
     else r = - EBUSY /\ s' = s).
Proof using Hinv Hv.
  intros Ho. pose proof (bi_core _ _ _ Hinv) as Hc. unfold virtusb_backend_register.
  destruct oom.
  { exists (- ENOMEM), s. split; [done | ]. split; [done | ]. by split. }
  destruct (core_object_ref X T s Hc d ov Ho) as (Hc1 & Hst1 & Eget).
  pose proof (inv_object_ref ov Ho) as Hinv1. set (s1 := object_ref d 1 s) in *.
  assert (Hback : virtusb_object_put (Some d) s1 = Some (tt, s)).
  { destruct (core_object_drop _ T s1 Hc1 d) as (_ & _ & ->).
    - rewrite add_ref_eq. pose proof (bc_X _ _ _ Hc d). lia.
    - destruct (oo_refcount _ _ (ro_objects _ _ _ (bc_refs _ _ _ Hc)) _ _ Ho) as (_ & _ & Hp).
      unfold s1. by rewrite (object_ref_drop d ov). }
  unfold bind at 1. rewrite Eget. cbn iota beta. fold s1.
  unfold bind at 1. rewrite (get_backend_eq s1 h v Hv). cbn iota beta.
  destruct (be_stopping (vh_backend v)).
  { exists (- ESHUTDOWN), s. split; [ | split; [done | by split]].
    unfold bind at 1, ret at 1. change (- ESHUTDOWN <? 0) with true. unfold bind. by rewrite Hback. }
  case_decide as Hfree.
  - destruct Hfree as [Hfo Hfd].
    rewrite (bool_decide_eq_false_2 (_ <> None)) by (by rewrite Hfo; intros E; apply E).
    rewrite (bool_decide_eq_false_2 (_ <> None)) by (by rewrite Hfd; intros E; apply E).
    cbn [orb]. pose proof (bound_backend_inv s1 Hinv1 Hv Hfo Hfd) as Hinv2.
    destruct (wake_up_spec X T _ h Hinv2) as (s' & Ew & -> & Hinv' & Hst).
    exists 0. eexists. split; [ | split; [exact Hinv' | split; [ | by split]]].
    + unfold bind at 1, bind at 1. rewrite (update_backend_eq s1 h v Hv).
      change (fun b => set_bindings _ b) with bound_backend. unfold ret at 1.
      change (0 <? 0) with false. cbn iota. unfold bind. by rewrite Ew.
    + etrans; [apply storage_backend_step, Hst1 | ].
      etrans; [apply (with_backend_step h bound_backend) | exact Hst].
  - replace (bool_decide _ || bool_decide _) with true.
    + exists (- EBUSY), s. split; [ | split; [done | by split]].
      unfold bind at 1, ret at 1. change (- EBUSY <? 0) with true. unfold bind. by rewrite Hback.
    + symmetry. apply orb_true_iff. rewrite !bool_decide_eq_true.
      destruct (virtusb_backend_find_owner_locked _ owner); [by left | ].
      destruct (virtusb_backend_find_device_locked _ d); [by right | tauto].
Qed.
End register.

(** ** Submission *)

Section submit.
Context (X : obj_ptr -> Z) (T : transfer_ptr -> Z) (s : kernel) (Hinv : backend_inv X T s).
Context (h uhcd : hcd_ptr) (v : virtusb_hcd) (Hv : k_hcds s !! h = Some v).
Context (t : transfer_ptr) (tv : virtusb_transfer) (Ht : k_transfers s !! t = Some tv).
Context (Hnew : tr_state tv = VIRTUSB_TRANSFER_STATE_NEW) (HT : 1 <= T t).
Context (u : urb_ptr) (uv : urb) (Hu : k_urbs s !! u = Some uv).
Context (Hroom : tr_direction tv = VIRTUSB_TRANSFER_DIRECTION_IN -> 0 < tr_requested_length tv ->
  exists ub, ur_transfer_buffer uv = Some ub /\ tr_requested_length tv <= Z.of_nat (length ub)).

Definition queued (b : virtusb_backend) : virtusb_backend :=
  set_queues (be_pending b ++ [mk_request u t None]) (be_active b) b.

(** A new transfer is in no queue. *)
Lemma new_not_queued : request_refs s t = 0.
Proof using Hinv Ht Hnew.
  pose proof (bi_core _ _ _ Hinv) as Hc. unfold request_refs, hcd_sum.
  apply map_sum_zero. intros h' v' Hv'. unfold backend_requests. apply count_zero.
  intros r Hr E.
  destruct (qo_requests _ _ (bc_queue _ _ _ Hc h' v' Hv') r Hr) as [(tv' & Ht' & Hst & _)].
  rewrite E, Ht in Ht'. congruence.
Qed.

Definition submit_error (oom : bool) (link : Z) : Z :=
  if VIRTUSB_TRANSFER_DATA_MAX <? tr_requested_length tv then - EMSGSIZE
  else if oom then - ENOMEM
  else if be_stopping (vh_backend v) then - ESHUTDOWN
  else if decide (virtusb_backend_find_device_locked (vh_backend v) (tr_device tv) = None)
  then - ENODEV else link.

Definition queued_transfer_state : kernel :=
  put_transfer t (set_tr_refcount (tr_refcount tv + 1)
                    (set_tr_state VIRTUSB_TRANSFER_STATE_QUEUED tv)) s.

Lemma queued_core : backend_core X (add_ref t 1 T) queued_transfer_state.
Proof using Hinv Ht Hnew.
  pose proof (bi_core _ _ _ Hinv) as Hc.
  destruct (core_transfer_ref X T s Hc t tv Ht) as (Hc1 & _ & _).
  assert (Ht1 : k_transfers (transfer_ref t 1 s) !! t =
                Some (set_tr_refcount (tr_refcount tv + 1) tv))
    by (cbn; by rewrite lookup_alter_eq, Ht).
  assert (E : queued_transfer_state = put_transfer t (set_tr_refcount (tr_refcount tv + 1)
                (set_tr_state VIRTUSB_TRANSFER_STATE_QUEUED tv)) (transfer_ref t 1 s)).
  { unfold queued_transfer_state, transfer_ref, put_transfer. cbn. unfold set_transfers. cbn.
    rewrite (alter_insert_lookup _ _ tv) by done. by rewrite insert_insert_eq. }
  rewrite E. eapply core_put_transfer; [exact Hc1 | exact Ht1 | exact new_not_queued | done.. | ].
  apply set_refcount_wf, set_state_wf. by eapply (core_wf _ _ _ Hc).
Qed.

Lemma inv_put_transfer tv' : request_refs s t = 0 -> tr_device tv' = tr_device tv ->
  tr_id tv' = tr_id tv -> tr_refcount tv' = tr_refcount tv -> transfer_wf tv' ->
  backend_inv X T (put_transfer t tv' s).
Proof using Hinv Ht.
  intros H0 Ed Ei Er Hwf. destruct Hinv as [Hc Hbd Hbl]. constructor; [ | | exact Hbl].
  - by eapply core_put_transfer.
  - intros h' v' r Hv' Hr. destruct (Hbd h' v' r Hv' Hr) as (x & Hx & Hdx & Hox).
    exists x. split; [done | ]. split; [ | done]. rewrite <- Hdx. unfold request_device. cbn.
    pose proof (request_counted s h' v' r Hv' Hr). rewrite lookup_insert_ne; [done | ].
    intros E. rewrite <- E in *. lia.
Qed.

(** With the URB linked; then the request is queued. *)
Definition linked : kernel := set_trace (k_trace s ++ [EvLinkUrb uhcd u]) queued_transfer_state.

Lemma queued_count a : backend_requests a (queued (vh_backend v)) =
  backend_requests a (vh_backend v) + (if decide (t = a) then 1 else 0).
Proof using.
  unfold backend_requests, all_requests, queued. cbn. rewrite !count_app, count_cons, count_nil. cbn. lia.
Qed.
Lemma elem_of_queued r : r ∈ all_requests (queued (vh_backend v)) ->
  r ∈ all_requests (vh_backend v) \/ r = mk_request u t None.
Proof using.
  unfold all_requests. cbn. rewrite !elem_of_app, list_elem_of_singleton. tauto.
Qed.

Lemma queued_in_core : tr_requested_length tv <= VIRTUSB_TRANSFER_DATA_MAX ->
  backend_core X T (with_backend h queued linked).
Proof using Hinv Hv Ht Hnew HT Hu Hroom.
  intros Hmax. pose proof (bi_core _ _ _ Hinv) as Hc. pose proof new_not_queued as H0.
  pose proof (core_set_trace _ _ _ queued_core (k_trace s ++ [EvLinkUrb uhcd u])) as Hc2. fold linked in Hc2.
  apply (core_with_backend _ _ linked Hc2 X T h v); [done | | | | ].
  - destruct (bc_queue _ _ _ Hc2 h v Hv) as [H1 H2 H3 H4 H5]. constructor; cbn; try done.
    + intros r [Hr| ->]%elem_of_queued; [by apply H3 | ].
      constructor. eexists. split; [apply lookup_insert_eq | ]. cbn.
      split; [done | ]. split; [done | ]. by exists uv.
    + intros r. rewrite elem_of_app, list_elem_of_singleton. intros [Hr| ->]; [auto | done].
  - intros o. split; [apply (bc_X _ _ _ Hc) | done].
  - intros a. split; [apply (bc_T _ _ _ Hc) | ]. rewrite queued_count. unfold add_ref.
    destruct (decide (t = a)) as [->|]; [rewrite decide_True by done; lia | ].
    rewrite decide_False by congruence. lia.
  - intros a. rewrite queued_count. pose proof (bc_single _ _ _ Hc a) as Hs.
    change (request_refs linked a) with (request_refs s a). destruct (decide (t = a)) as [->|]; lia.
Qed.

Lemma queued_bound x : virtusb_backend_find_device_locked (vh_backend v) (tr_device tv) = Some x ->
  bound_ok (with_backend h queued linked).
Proof using Hinv Hv Ht Hnew.
  intros Hx h' v' r Hv' Hr. pose proof new_not_queued as H0. destruct Hinv as [Hc Hbd _].
  assert (Hold : forall h0 v0 r0, k_hcds s !! h0 = Some v0 -> r0 ∈ all_requests (vh_backend v0) ->
            request_bound linked (vh_backend v0) r0).
  { intros h0 v0 r0 Hv0 Hr0. destruct (Hbd h0 v0 r0 Hv0 Hr0) as (y & Hy & Hdy & Hoy). exists y.
    split; [done | ]. split; [ | done]. rewrite <- Hdy. unfold request_device, linked. cbn.
    rewrite lookup_insert_ne; [done | ]. intros E. pose proof (request_counted s h0 v0 r0 Hv0 Hr0) as Hn.
    rewrite <- E in Hn. lia. }
  cbn in Hv'. rewrite lookup_alter in Hv'. case_decide as E; [ | by eapply Hold].
  subst h'. rewrite Hv in Hv'. injection Hv' as <-. cbn in Hr |- *.
  apply elem_of_queued in Hr as [Hr| ->]; [by apply (Hold h) | ].
  destruct x as [j x]. apply list_find_Some in Hx as (Hj & Hdx & _).
  exists x. cbn. split; [by eapply list_elem_of_lookup_2 | ]. split; [ | done].
  unfold request_device, linked. cbn. rewrite lookup_insert_eq. cbn. by rewrite Hdx.
Qed.

Lemma queued_balance : balance_ok (with_backend h queued linked).
Proof using Hinv Hv.
  intros a. destruct (bi_balance _ _ _ Hinv a) as [B1 B2]. unfold urb_refs in *.
  rewrite (hcd_sum_with_backend _ queued h v linked Hv). cbn. rewrite !countb_app. cbn.
  assert (Eu : backend_urbs a (queued (vh_backend v)) =
            backend_urbs a (vh_backend v) + (if decide (u = a) then 1 else 0)).
  { unfold backend_urbs, all_requests, queued. cbn. rewrite !count_app, count_cons, count_nil. cbn. lia. }
  rewrite Eu. destruct (decide (u = a)).
  - rewrite bool_decide_eq_true_2 by done. cbn in B1. lia.
  - rewrite bool_decide_eq_false_2 by done. cbn in B1. lia.
Qed.

Lemma queued_inv x : virtusb_backend_find_device_locked (vh_backend v) (tr_device tv) = Some x ->
  tr_requested_length tv <= VIRTUSB_TRANSFER_DATA_MAX ->
  backend_inv X T (with_backend h queued
    (set_trace (k_trace s ++ [EvLinkUrb uhcd u]) queued_transfer_state)).
Proof using Hinv Hv Ht Hnew HT Hu Hroom.
  intros Hx Hmax. constructor; [by apply queued_in_core | by eapply queued_bound | exact queued_balance].
Qed.

(** The lock section accepts the request or names the error. *)
Lemma submit_rejected e : e < 0 -> exists s',
  (_ <- virtusb_transfer_cancel (Some t) e ;;
   virtusb_backend_release_request (mk_request u t None) ;;
   ret e) queued_transfer_state = Some (e, s') /\
  backend_inv X T s' /\ backend_step s s' /\
  s' = put_transfer t (set_tr_result 0 e VIRTUSB_TRANSFER_STATE_CANCELLED tv) s.
Proof using Hinv Ht Hnew HT.
  intros He. pose proof (bi_core _ _ _ Hinv) as Hc. pose proof new_not_queued as H0.
  set (s1 := queued_transfer_state).
  assert (Ht1 : k_transfers s1 !! t = Some (set_tr_refcount (tr_refcount tv + 1)
                  (set_tr_state VIRTUSB_TRANSFER_STATE_QUEUED tv))) by apply lookup_insert_eq.
  set (tc := set_tr_result 0 e VIRTUSB_TRANSFER_STATE_CANCELLED
               (set_tr_refcount (tr_refcount tv + 1)
                  (set_tr_state VIRTUSB_TRANSFER_STATE_QUEUED tv))).
  assert (Hwf : transfer_wf tv) by (by eapply (core_wf _ _ _ Hc)).
  assert (Hwfc : transfer_wf tc).
  { apply set_result_wf; [apply set_refcount_wf, set_state_wf, Hwf | cbn; destruct Hwf; lia]. }
  assert (Hc2 : backend_core X (add_ref t 1 T) (put_transfer t tc s1))
    by (eapply core_put_transfer; [exact queued_core | exact Ht1 | exact H0 | done..]).
  destruct (core_transfer_drop _ _ _ Hc2 t) as (_ & _ & Eput);
    [rewrite add_ref_eq; lia | ].
  destruct (core_refcount X T s Hc t tv Ht) as [_ Hp].
  assert (Efin : transfer_drop t (put_transfer t tc s1) =
            put_transfer t (set_tr_result 0 e VIRTUSB_TRANSFER_STATE_CANCELLED tv) s).
  { unfold transfer_drop. cbn [k_transfers put_transfer set_transfers].
    rewrite lookup_insert_eq. cbn [tr_refcount tc set_tr_result set_tr_refcount].
    destruct (Z.eqb_spec (tr_refcount tv + 1) 1); [lia | ].
    unfold transfer_ref, put_transfer, s1, queued_transfer_state, put_transfer. cbn.
    rewrite (alter_insert_lookup _ _ tc) by apply lookup_insert_eq.
    unfold set_transfers. cbn. rewrite !insert_insert_eq. do 2 f_equal.
    unfold tc, set_tr_refcount, set_tr_result. cbn. f_equal. lia. }
  eexists. split; [ | split; [ | split; [ | reflexivity]]].
  - unfold bind at 1. rewrite (transfer_cancel_eq s1 t _ Ht1). cbn [transfer_open tr_state
      set_tr_refcount set_tr_state]. unfold virtusb_backend_release_request, bind.
    cbn [rq_transfer]. fold tc. rewrite Eput, Efin. done.
  - apply inv_put_transfer; try done.
    apply set_result_wf; [done | destruct Hwf; lia].
  - apply storage_backend_step, put_transfer_storage. apply (ro_bus _ _ _ (bc_refs _ _ _ Hc)).
Qed.

(** The state after a submission: refused before or after the transfer was
    marked, or accepted. *)
Definition rejected (e : Z) : kernel :=
  put_transfer t (set_tr_result 0 e VIRTUSB_TRANSFER_STATE_CANCELLED tv) s.
Definition accepted : kernel :=
  set_trace (k_trace s ++ [EvLinkUrb uhcd u; EvWakeUp h])
    (with_backend h queued queued_transfer_state).
Definition submit_state (oom : bool) (link : Z) : kernel :=
  if (VIRTUSB_TRANSFER_DATA_MAX <? tr_requested_length tv) || oom then s
  else if submit_error oom link =? 0 then accepted
  else rejected (submit_error oom link).

Lemma queued_steps : backend_step s queued_transfer_state /\
  (virtusb_transfer_get (Some t) s = Some (Some t, transfer_ref t 1 s)) /\
  virtusb_transfer_mark_queued (Some t) (transfer_ref t 1 s) = Some (0, queued_transfer_state).
Proof using Hinv Ht Hnew.
  pose proof (bi_core _ _ _ Hinv) as Hc. split; [ | split].
  - apply storage_backend_step, put_transfer_storage. apply (ro_bus _ _ _ (bc_refs _ _ _ Hc)).
  - by destruct (core_transfer_ref X T s Hc t tv Ht) as (_ & _ & ?).
  - rewrite (transfer_mark_queued_eq _ t (set_tr_refcount (tr_refcount tv + 1) tv))
      by (cbn; by rewrite lookup_alter_eq, Ht).
    rewrite decide_True by done. unfold queued_transfer_state, put_transfer, transfer_ref. cbn.
    unfold set_transfers. cbn. rewrite (alter_insert_lookup _ _ tv) by done.
    by rewrite insert_insert_eq.
Qed.

(** The end of an accepted submission. *)
(** The error in terms of the registered devices. *)
Lemma submit_error_eq oom link : submit_error oom link =
  (if VIRTUSB_TRANSFER_DATA_MAX <? tr_requested_length tv then - EMSGSIZE
   else if oom then - ENOMEM
   else if be_stopping (vh_backend v) then - ESHUTDOWN
   else if decide (tr_device tv ∈ map bd_device (be_bindings (vh_backend v))) then link
   else - ENODEV).
Proof using.
  unfold submit_error. destruct (_ <? _), oom, (be_stopping (vh_backend v)); try done.
  destruct (decide (virtusb_backend_find_device_locked (vh_backend v) (tr_device tv) = None)) as [E|E].
  - by rewrite decide_False by by apply find_device_none.
  - rewrite decide_True; [done | ]. rewrite find_device_none in E. by apply dec_stable.
Qed.

(** The transfer after a submission. *)
Lemma submit_state_transfer oom link : exists tv',
  k_transfers (submit_state oom link) = <[t := tv']> (k_transfers s) /\
  if decide (submit_error oom link = 0)
  then tr_state tv' = VIRTUSB_TRANSFER_STATE_QUEUED /\ tr_refcount tv' = tr_refcount tv + 1 /\
       submit_state oom link = accepted
  else tr_state tv' <> VIRTUSB_TRANSFER_STATE_QUEUED /\ tr_refcount tv' = tr_refcount tv /\
       k_hcds (submit_state oom link) = k_hcds s /\ k_trace (submit_state oom link) = k_trace s.
Proof using Ht Hnew.
  unfold submit_state. destruct (_ || oom) eqn:E.
  - exists tv. split; [by rewrite insert_id | ]. rewrite decide_False.
    + by rewrite Hnew.
    + unfold submit_error. apply orb_true_iff in E as [->| ->]; [done | by case_match].
  - destruct (Z.eqb_spec (submit_error oom link) 0) as [E0|Hne].
    + eexists. split; [reflexivity | ]. by rewrite decide_True.
    + eexists. split; [reflexivity | ]. by rewrite decide_False.
Qed.

Lemma submit_accepted x :
  virtusb_backend_find_device_locked (vh_backend v) (tr_device tv) = Some x ->
  tr_requested_length tv <= VIRTUSB_TRANSFER_DATA_MAX ->
  (emit (EvLinkUrb uhcd u) ;; update_backend h queued ;; wake_up h) queued_transfer_state =
    Some (tt, accepted) /\
  backend_inv X T accepted /\ backend_step s accepted.
Proof using Hinv Hv Ht Hnew HT Hu Hroom.
  intros Ex Hmax.
  destruct (wake_up_spec X T _ h (queued_inv x Ex Hmax)) as (s' & Ew & Es' & Hinv' & Hst).
  assert (s' = accepted) as ->.
  { rewrite Es'. unfold accepted, with_backend, set_trace, set_hcds. cbn. by rewrite <- app_assoc. }
  split; [ | split; [done | ]].
  - unfold bind, emit, modify.
    match goal with |- context [update_backend h _ ?st] =>
      rewrite (update_backend_eq st h v Hv) end.
    change (k_trace queued_transfer_state) with (k_trace s). by rewrite Ew.
  - etrans; [ | exact Hst]. etrans; [ | apply (with_backend_step h queued)].
    etrans; [apply queued_steps | apply (trace_backend_step queued_transfer_state)].
Qed.

Lemma backend_submit_spec oom link : link <= 0 ->
  virtusb_backend_submit (Some h) (Some uhcd) (Some u) (Some t) oom link s =
    Some (submit_error oom link, submit_state oom link) /\
  backend_inv X T (submit_state oom link) /\ backend_step s (submit_state oom link).
Proof using Hinv Hv Ht Hnew HT Hu Hroom.
  intros Hlink. destruct queued_steps as (_ & Eget & Equeue).
  unfold virtusb_backend_submit, submit_state, submit_error. unfold bind at 1, load. rewrite Ht.
  destruct (Z.ltb_spec VIRTUSB_TRANSFER_DATA_MAX (tr_requested_length tv)) as [|Hmax]; [done | ].
  destruct oom; [done | ].
  unfold bind at 1. rewrite Eget. cbn iota beta. unfold bind at 1. rewrite Equeue.
  change (0 <? 0) with false. cbn iota beta.
  unfold bind at 1. rewrite (get_backend_eq queued_transfer_state h v Hv). cbn iota beta.
  unfold bind at 1. replace (k_transfers queued_transfer_state !! t) with
    (Some (set_tr_refcount (tr_refcount tv + 1) (set_tr_state VIRTUSB_TRANSFER_STATE_QUEUED tv)))
    by (symmetry; apply lookup_insert_eq). cbn iota beta.
  cbn [tr_device set_tr_refcount set_tr_state].
  assert (Hrej : forall e, e < 0 ->
            (r <- ret e ;;
             if r <? 0 then
               _ <- virtusb_transfer_cancel (Some t) r ;;
               virtusb_backend_release_request (mk_request u t None) ;; ret r
             else wake_up h ;; ret 0) queued_transfer_state = Some (e, rejected e) /\
            backend_inv X T (rejected e) /\ backend_step s (rejected e)).
  { intros e He. destruct (submit_rejected e He) as (s' & Es & Hinv' & Hst & ->).
    split; [ | done]. unfold bind at 1, ret at 1. by rewrite (proj2 (Z.ltb_lt e 0)) by done. }
  cbn [orb]. destruct (be_stopping (vh_backend v)); [by apply Hrej | ].
  case_decide as Hd; [rewrite bool_decide_eq_true_2 by done; by apply Hrej | ].
  rewrite bool_decide_eq_false_2 by done.
  destruct (Z.eqb_spec link 0) as [->|Hne]; [ | by apply Hrej; lia].
  destruct (virtusb_backend_find_device_locked (vh_backend v) (tr_device tv)) as [x|] eqn:Ex;
    [ | done].
  destruct (submit_accepted x Ex Hmax) as (Ea & ? & ?). split; [ | done].
  unfold bind at 1 2 3. unfold bind in Ea. change (fun b => set_queues (be_pending b ++ _) _ b) with queued.
  revert Ea. unfold emit, modify, ret. destruct (update_backend h queued _) as [[[] s2]|]; [ | done].
  change (0 <? 0) with false. cbn iota. unfold bind. intros Ea. by rewrite Ea.
Qed.
End submit.

(** ** Draining *)

(** What draining the requests of one owner selects. *)
Definition drains (s : kernel) (d : obj_ptr) (owner : file_ptr) (q : queue)
    (r : virtusb_hcd_request) : bool :=
  match q with
  | Pending => for_device s d r
  | Active => for_device s d r && bool_decide (rq_owner r = Some owner)
  end.
Definition keep (s : kernel) (d : obj_ptr) (owner : file_ptr) (q : queue) (b : virtusb_backend) :
    list virtusb_hcd_request :=
  filter (fun r => drains s d owner q r = false) (queue_of q b).

(** The requests selected, in the order in which they are ended, and what the
    USB core sees of it. *)
Definition victims (s : kernel) (d : obj_ptr) (owner : file_ptr) (b : virtusb_backend) :
    list virtusb_hcd_request :=
  filter (fun r => drains s d owner Pending r = true) (be_pending b) ++
  filter (fun r => drains s d owner Active r = true) (be_active b).
Definition shutdowns (uhcd : hcd_ptr) (l : list virtusb_hcd_request) : list event :=
  concat (map (fun r => [EvUnlinkUrb uhcd (rq_urb r); EvGiveback uhcd (rq_urb r) (- ESHUTDOWN)]) l).

(** The state after draining: the requests selected are gone, the others are in
    place. *)
Record drained (h uhcd : hcd_ptr) (d : obj_ptr) (owner : file_ptr) (s s' : kernel) : Prop := {
  dr_step : backend_step s s';
  dr_urbs : k_urbs s' = k_urbs s;
  dr_hcd : forall v, k_hcds s !! h = Some v -> exists b, k_hcds s' !! h = Some (set_backend b v) /\
    be_bindings b = be_bindings (vh_backend v) /\ be_stopping b = be_stopping (vh_backend v) /\
    forall q, queue_of q b = keep s d owner q (vh_backend v) /\
      forall r, r ∈ queue_of q b -> drains s' d owner q r = false;
  dr_others : forall h', h' <> h -> k_hcds s' !! h' = k_hcds s !! h';
  dr_trace : forall v, k_hcds s !! h = Some v ->
    k_trace s' = k_trace s ++ shutdowns uhcd (victims s d owner (vh_backend v));
  dr_transfers : forall v x, k_hcds s !! h = Some v ->
    x ∉ map rq_transfer (victims s d owner (vh_backend v)) -> k_transfers s' !! x = k_transfers s !! x;
}.

Section drain_step.
Context (X : obj_ptr -> Z) (T : transfer_ptr -> Z) (s : kernel) (Hc : backend_core X T s).
Context (h : hcd_ptr) (v : virtusb_hcd) (Hv : k_hcds s !! h = Some v).
Context (d : obj_ptr) (owner : file_ptr).

Lemma find_owner_request_eq :
  find_owner_request (vh_backend v) d owner s =
    Some (match list_find (fun r => drains s d owner Pending r = true) (be_pending (vh_backend v)) with
          | Some (i, r) => Some (Pending, i, r)
          | None =>
              match list_find (fun r => drains s d owner Active r = true) (be_active (vh_backend v)) with
              | Some (i, r) => Some (Active, i, r)
              | None => None
              end
          end, s).
Proof using Hc Hv.
  unfold find_owner_request. unfold bind at 1.
  pose proof (find_pending_device_eq X T s Hc h v Hv d) as Ep.
  unfold virtusb_backend_find_pending_device_locked in Ep. rewrite Ep. cbn [drains].
  destruct (list_find _ (be_pending _)) as [[i r]|]; cbn iota beta; [done | ].
  unfold bind at 1. rewrite (find_request_eq _ (drains s d owner Active)).
  - by destruct (list_find _ (be_active _)) as [[i r]|].
  - intros r Hr. destruct (queued_transfer X T s Hc h v Hv r) as [tv Ht];
      [unfold all_requests; apply elem_of_app; by right | ].
    unfold drains, for_device, request_device. run. do 3 f_equal.
    apply bool_decide_ext. naive_solver.
Qed.

(** A request that stays in a queue keeps its device. *)
Lemma drains_stable s' uhcd q0 i r0 st q r : queue_of q0 (vh_backend v) !! i = Some r0 ->
  request_ended h uhcd q0 i r0 st s s' ->
  r ∈ all_requests (del_request q0 i (vh_backend v)) ->
  drains s' d owner q r = drains s d owner q r.
Proof using Hc Hv.
  intros Hi He Hr. assert (Hne : rq_transfer r <> rq_transfer r0).
  { intros E. destruct (take_request X T s Hc h v Hv q0 i r0 Hi) as [_ H0].
    pose proof (request_counted (with_backend h (del_request q0 i) s) h _ r
                  (with_backend_lookup s h v Hv _) Hr) as Hcnt. rewrite E in Hcnt. lia. }
  unfold drains, for_device, request_device. by rewrite (re_transfers _ _ _ _ _ _ _ _ He).
Qed.

(** The victims after the first one. *)
Lemma victims_rest s' uhcd q0 i r0 st : queue_of q0 (vh_backend v) !! i = Some r0 ->
  request_ended h uhcd q0 i r0 st s s' ->
  victims s' d owner (del_request q0 i (vh_backend v)) = victims s d owner (del_request q0 i (vh_backend v)).
Proof using Hc Hv.
  intros Hi He. assert (Hst : forall q, Forall (fun r => drains s' d owner q r = drains s d owner q r)
    (queue_of q (del_request q0 i (vh_backend v)))).
  { intros q. apply Forall_forall. intros r Hr. apply (drains_stable s' uhcd q0 i r0 st q r Hi He).
    unfold all_requests. apply elem_of_app. destruct q; auto. }
  unfold victims. f_equal.
  - apply filter_true_ext. by apply Forall_forall, (Hst Pending).
  - apply filter_true_ext. by apply Forall_forall, (Hst Active).
Qed.

Lemma victims_pending i r : list_find (fun r => drains s d owner Pending r = true) (be_pending (vh_backend v)) = Some (i, r) ->
  victims s d owner (vh_backend v) = r :: victims s d owner (del_request Pending i (vh_backend v)).
Proof using. intros Hf. unfold victims. by rewrite (filter_find _ _ _ _ Hf). Qed.
Lemma victims_active i r : list_find (fun r => drains s d owner Pending r = true) (be_pending (vh_backend v)) = None ->
  list_find (fun r => drains s d owner Active r = true) (be_active (vh_backend v)) = Some (i, r) ->
  victims s d owner (vh_backend v) = r :: victims s d owner (del_request Active i (vh_backend v)).
Proof using.
  intros Hn Hf. unfold victims. cbn [del_request set_queues be_pending be_active].
  rewrite (filter_find _ _ _ _ Hf). by rewrite (filter_true_nil _ _ Hn).
Qed.

Lemma drain_one s' uhcd q0 i r0 : queue_of q0 (vh_backend v) !! i = Some r0 ->
  drains s d owner q0 r0 = true ->
  request_ended h uhcd q0 i r0 (- ESHUTDOWN) s s' ->
  exists v', k_hcds s' !! h = Some v' /\ v' = set_backend (del_request q0 i (vh_backend v)) v /\
    forall q, keep s' d owner q (vh_backend v') = keep s d owner q (vh_backend v).
Proof using Hc Hv.
  intros Hi Hd He. eexists. rewrite (re_hcds _ _ _ _ _ _ _ _ He).
  split; [by apply with_backend_lookup | ]. split; [done | ]. intros q. cbn.
  assert (Efil : keep s' d owner q (del_request q0 i (vh_backend v)) =
                 keep s d owner q (del_request q0 i (vh_backend v))).
  { unfold keep. apply filter_ext_in. intros r Hr.
    rewrite (drains_stable s' uhcd q0 i r0 _ q r Hi He); [done | ].
    unfold all_requests. apply elem_of_app. destruct q; auto. }
  rewrite Efil. unfold keep.
  destruct q, q0; cbn in *; try done; apply (filter_delete _ _ _ r0); try done; by rewrite Hd.
Qed.
End drain_step.

Section drain.
Context (h uhcd : hcd_ptr) (d : obj_ptr) (owner : file_ptr).
Context (B : hcd_ptr -> virtusb_hcd -> list virtusb_backend_binding).
Context (HB : forall h' w j p, B h' (set_backend (del_request p j (vh_backend w)) w) = B h' w).

Lemma drained_trans_one X T s s1 s2 v q i r : backend_core X T s -> k_hcds s !! h = Some v ->
  queue_of q (vh_backend v) !! i = Some r -> drains s d owner q r = true ->
  victims s d owner (vh_backend v) = r :: victims s d owner (del_request q i (vh_backend v)) ->
  request_ended h uhcd q i r (- ESHUTDOWN) s s1 -> k_urbs s1 = k_urbs s ->
  drained h uhcd d owner s1 s2 -> drained h uhcd d owner s s2.
Proof.
  intros Hc Hv Hi Hd Hvic He Eu [Hst Hu Hh Ho Htr Hts].
  pose proof (victims_rest X T s Hc h v Hv d owner s1 uhcd q i r _ Hi He) as Hrest.
  destruct (drain_one X T s Hc h v Hv d owner s1 uhcd q i r Hi Hd He) as (v1 & Hv1 & Ev1 & Hk).
  constructor.
  - etrans; [apply He | exact Hst].
  - congruence.
  - intros v' Hv'. assert (v' = v) as -> by congruence.
    destruct (Hh v1 Hv1) as (b & Hb & Eb & Es & Hq). exists b. subst v1. cbn in *.
    destruct (del_request_incl q i (vh_backend v)) as (_ & _ & E3).
    split; [done | ]. split; [by rewrite Eb | ]. split; [by destruct q; rewrite Es | ].
    intros q'. destruct (Hq q') as [E1 E2]. split; [ | done]. rewrite E1. apply Hk.
  - intros h' Hne. rewrite Ho by done. rewrite (re_hcds _ _ _ _ _ _ _ _ He). cbn.
    by rewrite lookup_alter_ne by done.
  - intros v' Hv'. assert (v' = v) as -> by congruence. rewrite (Htr v1 Hv1). subst v1. cbn [vh_backend set_backend].
    rewrite Hrest, Hvic, (re_trace _ _ _ _ _ _ _ _ He). by rewrite <- app_assoc.
  - intros v' x Hv' Hx. assert (v' = v) as -> by congruence. rewrite Hvic in Hx. cbn in Hx.
    rewrite not_elem_of_cons in Hx. destruct Hx as [Hne Hx].
    rewrite (Hts v1 x Hv1); [by apply (re_transfers _ _ _ _ _ _ _ _ He) | ].
    subst v1. cbn [vh_backend set_backend]. by rewrite Hrest.
Qed.

Lemma nothing_drains s v : k_hcds s !! h = Some v ->
  list_find (fun r => drains s d owner Pending r = true) (be_pending (vh_backend v)) = None ->
  list_find (fun r => drains s d owner Active r = true) (be_active (vh_backend v)) = None ->
  drained h uhcd d owner s s.
Proof.
  intros Hv Hp Ha. constructor; [apply backend_step_refl | done | | done | | done].
  - intros v' Hv'. assert (v' = v) as -> by congruence. exists (vh_backend v).
    rewrite set_backend_id. split; [done | ]. split; [done | ]. split; [done | ].
    intros q. assert (E : list_find (fun r => drains s d owner q r = true) (queue_of q (vh_backend v))
                          = None) by by destruct q.
    split; [by rewrite <- (list_find_none _ _ E) at 1 | ].
    intros r Hr. apply list_find_None in E. rewrite Forall_forall in E.
    by apply not_true_is_false, E.
  - intros v' Hv'. assert (v' = v) as -> by congruence. unfold victims.
    by rewrite (filter_true_nil _ _ Hp), (filter_true_nil _ _ Ha), app_nil_r.
Qed.

Lemma drain_owner_spec X T fuel : forall s v, backend_core X T s -> bound_with B s -> balance_ok s ->
  k_hcds s !! h = Some v ->
  (length (be_pending (vh_backend v)) + length (be_active (vh_backend v)) < fuel)%nat ->
  exists s', drain_owner fuel h uhcd d owner s = Some (tt, s') /\
    backend_core X T s' /\ bound_with B s' /\ balance_ok s' /\ drained h uhcd d owner s s'.
Proof using HB.
  induction fuel as [|fuel IH]; intros s v Hc Hbd Hbl Hv Hf; [lia | ].
  cbn [drain_owner]. unfold bind at 1. rewrite (get_backend_eq s h v Hv).
  unfold bind at 1. rewrite (find_owner_request_eq X T s Hc h v Hv).
  assert (Hone : forall q i r, queue_of q (vh_backend v) !! i = Some r ->
            drains s d owner q r = true ->
            victims s d owner (vh_backend v) = r :: victims s d owner (del_request q i (vh_backend v)) ->
            exists s', (shut_down_request h uhcd q i r ;; drain_owner fuel h uhcd d owner) s =
                Some (tt, s') /\ backend_core X T s' /\ bound_with B s' /\ balance_ok s' /\
                drained h uhcd d owner s s').
  { intros q i r Hi Hd Hvic.
    destruct (cancel_taken X T s h v q i r uhcd (- ESHUTDOWN) Hc Hv Hi)
      as (s1 & Es1 & Hc1 & Eu1 & He).
    destruct (request_ended_inv B X T s s1 h v uhcd q i r _ Hc HB Hv Hi He) as [Hbd1 Hbl1].
    destruct (drain_one X T s Hc h v Hv d owner s1 uhcd q i r Hi Hd He) as (v1 & Hv1 & -> & _).
    destruct (IH s1 _ Hc1 (Hbd1 Hbd) (Hbl1 Hbl) Hv1) as (s' & Es' & Hc' & Hbd' & Hbl' & Hdr).
    { pose proof (lookup_lt_Some _ _ _ Hi) as Hlt.
      destruct q; cbn in *; rewrite length_delete by (by eexists); lia. }
    exists s'. unfold bind at 1, shut_down_request. rewrite Es1.
    split; [done | ]. split; [done | ]. split; [done | ]. split; [done | ].
    by eapply drained_trans_one. }
  destruct (list_find _ (be_pending _)) as [[i r]|] eqn:Ep; cbn iota beta.
  { destruct (list_find_queue v Pending _ i r Ep) as [Hi Hd]. 
    apply (Hone Pending); [done.. | by apply victims_pending]. }
  destruct (list_find _ (be_active _)) as [[i r]|] eqn:Ea; cbn iota beta.
  { destruct (list_find_queue v Active _ i r Ea) as [Hi Hd]. 
    apply (Hone Active); [done.. | by apply victims_active]. }
  exists s. split; [done | ]. split; [done | ]. split; [done | ]. split; [done | ].
  by eapply nothing_drains.
Qed.
End drain.

(** ** Releasing the binding of a file *)

Lemma bound_frame B s s' : bound_with B s -> k_hcds s' = k_hcds s ->
  (forall r, request_device s' r = request_device s r) -> bound_with B s'.
Proof.
  intros Hb Eh Ed h v r Hv Hr. rewrite Eh in Hv. destruct (Hb h v r Hv Hr) as (x & Hx & Hd & Ho).
  exists x. rewrite Ed. done.
Qed.

Lemma balance_frame s s' : balance_ok s -> k_hcds s' = k_hcds s -> k_trace s' = k_trace s ->
  balance_ok s'.
Proof. intros Hb Eh Et u. unfold urb_refs. rewrite Eh, Et. apply Hb. Qed.

(** A reference that a binding held becomes one that the caller holds. *)
Lemma core_unbind X T s h v d f : backend_core X T s -> k_hcds s !! h = Some v ->
  all_requests (f (vh_backend v)) = all_requests (vh_backend v) ->
  be_pending (f (vh_backend v)) = be_pending (vh_backend v) ->
  be_active (f (vh_backend v)) = be_active (vh_backend v) ->
  NoDup (map bd_owner (be_bindings (f (vh_backend v)))) ->
  NoDup (map bd_device (be_bindings (f (vh_backend v)))) ->
  (forall o, backend_bindings o (f (vh_backend v)) =
     backend_bindings o (vh_backend v) - (if decide (o = d) then 1 else 0)) ->
  backend_core (add_ref d 1 X) T (with_backend h f s).
Proof.
  intros Hc Hv Ea Ep Eac N1 N2 Hb. apply (core_with_backend X T s Hc _ T h v f Hv).
  - destruct (bc_queue _ _ _ Hc h v Hv) as [H1 H2 H3 H4 H5].
    constructor; rewrite ?Ea, ?Ep, ?Eac; done.
  - intros o. rewrite Hb. pose proof (bc_X _ _ _ Hc o). unfold add_ref.
    destruct (decide (o = d)); lia.
  - intros t. split; [apply (bc_T _ _ _ Hc) | ]. unfold backend_requests. by rewrite Ea.
  - intros t. unfold backend_requests. rewrite Ea. pose proof (bc_single _ _ _ Hc t). lia.
Qed.

Lemma object_drop_transfers o s : k_transfers (object_drop o s) = k_transfers s.
Proof. unfold object_drop. destruct (k_objects s !! _); [by destruct (_ =? 1) | done]. Qed.

Section release.
Context (X : obj_ptr -> Z) (T : transfer_ptr -> Z) (s : kernel) (Hinv : backend_inv X T s).
Context (h uhcd : hcd_ptr) (v : virtusb_hcd) (Hv : k_hcds s !! h = Some v).
Context (owner : file_ptr).

Definition unbound_backend (i : nat) (b : virtusb_backend) : virtusb_backend :=
  set_bindings (delete i (be_bindings b)) b.

Lemma unbound_core i x : be_bindings (vh_backend v) !! i = Some x ->
  backend_core (add_ref (bd_device x) 1 X) T (with_backend h (unbound_backend i) s).
Proof using Hinv Hv.
  intros Hi. pose proof (bi_core _ _ _ Hinv) as Hc.
  destruct (bc_queue _ _ _ Hc h v Hv) as [H1 H2 _ _ _].
  apply (core_unbind X T s h v); try done.
  - cbn. rewrite map_delete. by eapply sublist_NoDup, sublist_delete.
  - cbn. rewrite map_delete. by eapply sublist_NoDup, sublist_delete.
  - intros o. unfold backend_bindings. cbn. rewrite (count_delete _ _ i x) by done.
    destruct (decide (bd_device x = o)), (decide (o = bd_device x)); congruence || lia.
Qed.

(** The bindings that the queued requests refer to while they are drained. *)
Definition old_bindings (h' : hcd_ptr) (w : virtusb_hcd) : list virtusb_backend_binding :=
  if decide (h' = h) then be_bindings (vh_backend v) else be_bindings (vh_backend w).

Lemma old_bindings_stable h' w j p :
  old_bindings h' (set_backend (del_request p j (vh_backend w)) w) = old_bindings h' w.
Proof.
  unfold old_bindings. case_decide; [done | ]. apply (bindings_stable h').
Qed.

(** After the drain, the requests left are bound to the other bindings. *)
Lemma released_bound i x s2 : be_bindings (vh_backend v) !! i = Some x -> bd_owner x = owner ->
  backend_core (add_ref (bd_device x) 1 X) T s2 -> bound_with old_bindings s2 ->
  drained h uhcd (bd_device x) owner (with_backend h (unbound_backend i) s) s2 -> bound_ok s2.
Proof using Hv.
  intros Hi Hox Hc2 Hb2 Hdr h' w r Hw Hr. destruct (Hb2 h' w r Hw Hr) as (y & Hy & Hdy & Hoy).
  unfold old_bindings in Hy. case_decide as E; [ | by exists y]. subst h'.
  destruct (dr_hcd _ _ _ _ _ _ Hdr _ (with_backend_lookup s h v Hv (unbound_backend i)))
    as (b & Hb & Ebind & _ & Hq).
  rewrite Hw in Hb. injection Hb as ->. cbn in *. rewrite Ebind.
  exists y. split; [ | done]. apply (elem_of_delete_ne _ _ _ x); [done | done | ]. intros ->.
  pose proof (bc_queue _ _ _ Hc2 h _ Hw) as Hqok. cbn in Hqok.
  unfold all_requests in Hr. apply elem_of_app in Hr. destruct Hr as [Hr|Hr].
  - destruct (Hq Pending) as [_ Hno]. specialize (Hno r Hr). cbn in Hno.
    unfold for_device in Hno. by rewrite Hdy, bool_decide_eq_true_2 in Hno.
  - destruct (Hq Active) as [_ Hno]. specialize (Hno r Hr). cbn in Hno.
    unfold for_device in Hno. rewrite Hdy, bool_decide_eq_true_2 in Hno by done.
    rewrite (Hoy (qo_active _ _ Hqok r Hr)), Hox, bool_decide_eq_true_2 in Hno by done. done.
Qed.

(** Removing the binding leaves the other parts of the invariant alone. *)
Lemma unbound_facts i : bound_with old_bindings (with_backend h (unbound_backend i) s) /\
  balance_ok (with_backend h (unbound_backend i) s).
Proof using Hinv Hv.
  destruct Hinv as [_ Hbd Hbl]. split.
  - intros h' w r Hw Hr. unfold old_bindings. cbn in Hw. rewrite lookup_alter in Hw.
    case_decide as E.
    + subst h'. rewrite Hv in Hw. injection Hw as <-. rewrite decide_True by done.
      exact (Hbd h v r Hv Hr).
    + rewrite decide_False by congruence. exact (Hbd h' w r Hw Hr).
  - intros u. destruct (Hbl u) as [B1 B2]. split; [ | done]. unfold urb_refs in *.
    rewrite (hcd_sum_with_backend _ _ h v s Hv).
    change (backend_urbs u (unbound_backend i (vh_backend v)))
      with (backend_urbs u (vh_backend v)). cbn. lia.
Qed.

(** The reference of the binding is dropped last. *)
Lemma unbound_put d s2 : backend_core (add_ref d 1 X) T s2 -> bound_ok s2 -> balance_ok s2 ->
  virtusb_object_put (Some d) s2 = Some (tt, object_drop d s2) /\
  backend_inv X T (object_drop d s2) /\ storage_step s2 (object_drop d s2).
Proof using Hinv.
  intros Hc2 Hbd2 Hbl2. destruct (core_object_drop _ T s2 Hc2 d) as (Hc3 & Hst3 & Eput).
  { rewrite add_ref_eq. pose proof (bc_X _ _ _ (bi_core _ _ _ Hinv) d). lia. }
  split_and!; [done | | done].
  assert (Et3 : k_transfers (object_drop d s2) = k_transfers s2)
    by apply object_drop_transfers.
  constructor.
  - eapply backend_core_ext; [ | | exact Hc3]; intros o; [ | done]. apply (add_ref_cancel d 1 X).
  - eapply bound_frame; [exact Hbd2 | apply Hst3 | ]. intros r. unfold request_device. by rewrite Et3.
  - eapply balance_frame; [exact Hbl2 | apply Hst3..].
Qed.

Lemma release_owner_spec :
  exists s', virtusb_backend_release_owner (Some h) (Some uhcd) (Some owner) s = Some (tt, s') /\
    backend_inv X T s' /\ backend_step s s' /\ k_urbs s' = k_urbs s /\
    match virtusb_backend_find_owner_locked (vh_backend v) owner with
    | None => s' = s
    | Some (i, x) => exists b, k_hcds s' !! h = Some (set_backend b v) /\
        be_bindings b = delete i (be_bindings (vh_backend v)) /\
        be_stopping b = be_stopping (vh_backend v) /\
        (forall q, queue_of q b = keep s (bd_device x) owner q (vh_backend v)) /\
        (forall h', h' <> h -> k_hcds s' !! h' = k_hcds s !! h') /\
        k_trace s' = k_trace s ++ shutdowns uhcd (victims s (bd_device x) owner (vh_backend v)) ++ [EvWakeUp h] /\
        forall t, t ∉ map rq_transfer (victims s (bd_device x) owner (vh_backend v)) ->
          k_transfers s' !! t = k_transfers s !! t
    end.
Proof using Hinv Hv.
  unfold virtusb_backend_release_owner. unfold bind at 1. rewrite (get_backend_eq s h v Hv).
  destruct (virtusb_backend_find_owner_locked _ owner) as [[i x]|] eqn:Ef; cbn iota beta.
  2:{ exists s. split; [done | ]. split; [done | ]. by split. }
  apply list_find_Some in Ef as (Hi & Hox & _).
  pose proof (unbound_core i x Hi) as Hc1. destruct (unbound_facts i) as [Hbd1 Hbl1].
  set (s1 := with_backend h (unbound_backend i) s) in *.
  pose proof (with_backend_lookup s h v Hv (unbound_backend i)) as Hv1. fold s1 in Hv1.
  destruct (drain_owner_spec h uhcd (bd_device x) owner old_bindings old_bindings_stable
              (add_ref (bd_device x) 1 X) T (queue_fuel (vh_backend v)) s1 _ Hc1 Hbd1 Hbl1 Hv1)
    as (s2 & Edr & Hc2 & Hbd2 & Hbl2 & Hdr); [unfold queue_fuel; cbn; lia | ].
  pose proof (released_bound i x s2 Hi Hox Hc2 Hbd2 Hdr) as Hbd2'.
  destruct (unbound_put (bd_device x) s2 Hc2 Hbd2' Hbl2) as (Eput & Hinv3 & Hst3).
  set (s3 := object_drop (bd_device x) s2) in *.
  destruct (wake_up_spec X T s3 h Hinv3) as (s4 & Ew & Es4 & Hinv4 & Hst4).
  exists s4. split; [ | split; [done | split; [ | split]]].
  - unfold bind at 1. rewrite (update_backend_eq s h v Hv).
    change (fun b => set_bindings (delete i _) b) with (unbound_backend i). fold s1.
    unfold bind at 1. rewrite Edr. unfold bind. by rewrite Eput.
  - etrans; [apply (with_backend_step h (unbound_backend i)) | ].
    etrans; [apply Hdr | ]. etrans; [apply storage_backend_step, Hst3 | exact Hst4].
  - rewrite Es4. cbn. rewrite (ss_urbs _ _ Hst3), (dr_urbs _ _ _ _ _ _ Hdr). done.
  - destruct (dr_hcd _ _ _ _ _ _ Hdr _ Hv1) as (b & Hb & Ebind & Est & Hq). exists b.
    rewrite Es4. cbn. rewrite (ss_hcds _ _ Hst3). split_and!; [exact Hb | done | done | | | | ].
    + intros q. destruct (Hq q) as [-> _]. cbn. unfold keep. by destruct q.
    + intros h' Hne. rewrite (dr_others _ _ _ _ _ _ Hdr) by done. cbn. by rewrite lookup_alter_ne by done.
    + rewrite (ss_trace _ _ Hst3), (dr_trace _ _ _ _ _ _ Hdr _ Hv1). by rewrite app_assoc.
    + intros t Ht. unfold s3. rewrite object_drop_transfers, (dr_transfers _ _ _ _ _ _ Hdr _ t Hv1); done.
Qed.
End release.

(** ** Stopping *)

(** What the drain loops of [stop] keep. *)
Record stopped_step (h : hcd_ptr) (s s' : kernel) : Prop := {
  sp_step : backend_step s s';
  sp_urbs : k_urbs s' = k_urbs s;
  sp_others : forall h', h' <> h -> k_hcds s' !! h' = k_hcds s !! h';
}.

Lemma stopped_step_trans h s1 s2 s3 : stopped_step h s1 s2 -> stopped_step h s2 s3 ->
  stopped_step h s1 s3.
Proof.
  intros [A1 U1 O1] [A2 U2 O2]. constructor; [by etrans | congruence | ].
  intros h' Hne. by rewrite O2, O1.
Qed.

Lemma shut_down_spec X T s h v uhcd q i r : backend_inv X T s ->
  k_hcds s !! h = Some v -> queue_of q (vh_backend v) !! i = Some r ->
  exists s', shut_down_request h uhcd q i r s = Some (tt, s') /\ backend_inv X T s' /\
    stopped_step h s s' /\ k_trace s' = k_trace s ++ shutdowns uhcd [r] /\
    k_hcds s' !! h = Some (set_backend (del_request q i (vh_backend v)) v).
Proof.
  intros Hinv Hv Hi.
  destruct (cancel_taken X T s h v q i r uhcd (- ESHUTDOWN) (bi_core _ _ _ Hinv) Hv Hi)
    as (s' & Es & Hc' & Eu & He).
  exists s'. split; [exact Es | ]. split; [by eapply (ended_inv X T s Hinv h uhcd v Hv q i r) | ].
  split; [ | split; [apply He | ]].
  - constructor; [apply He | done | ]. intros h' Hne. rewrite (re_hcds _ _ _ _ _ _ _ _ He). cbn.
    by rewrite lookup_alter_ne by done.
  - rewrite (re_hcds _ _ _ _ _ _ _ _ He). by apply with_backend_lookup.
Qed.

Lemma drain_all_spec X T h uhcd fuel : forall s v, backend_inv X T s -> k_hcds s !! h = Some v ->
  (length (be_pending (vh_backend v)) + length (be_active (vh_backend v)) < fuel)%nat ->
  exists s', drain_all fuel h uhcd s = Some (tt, s') /\ backend_inv X T s' /\ stopped_step h s s' /\
    k_trace s' = k_trace s ++ shutdowns uhcd (all_requests (vh_backend v)) /\
    k_hcds s' !! h = Some (set_backend (set_queues [] [] (vh_backend v)) v).
Proof.
  induction fuel as [|fuel IH]; intros s v Hinv Hv Hf; [lia | ].
  cbn [drain_all]. unfold bind at 1. rewrite (get_backend_eq s h v Hv).
  assert (Hone : forall q r, queue_of q (vh_backend v) !! 0%nat = Some r ->
            all_requests (vh_backend v) = r :: all_requests (del_request q 0 (vh_backend v)) ->
            exists s', (shut_down_request h uhcd q 0 r ;; drain_all fuel h uhcd) s = Some (tt, s') /\
              backend_inv X T s' /\ stopped_step h s s' /\
              k_trace s' = k_trace s ++ shutdowns uhcd (all_requests (vh_backend v)) /\
              k_hcds s' !! h = Some (set_backend (set_queues [] [] (vh_backend v)) v)).
  { intros q r Hi Eall. destruct (shut_down_spec X T s h v uhcd q 0 r Hinv Hv Hi)
      as (s1 & Es1 & Hinv1 & Hst1 & Et1 & Hv1).
    destruct (IH s1 _ Hinv1 Hv1) as (s' & Es' & Hinv' & Hst' & Et' & Hv').
    { pose proof (lookup_lt_Some _ _ _ Hi) as Hlt.
      destruct q; cbn in *; rewrite length_delete by (by eexists); lia. }
    exists s'. unfold bind. rewrite Es1. split; [done | ]. split; [done | ].
    split; [by eapply stopped_step_trans | ]. split; [ | rewrite Hv'; cbn; by destruct q].
    rewrite Et', Et1, Eall. by rewrite <- app_assoc. }
  destruct (be_pending (vh_backend v)) as [|r l] eqn:Ep.
  2: { apply (Hone Pending); unfold all_requests; cbn; by rewrite Ep. }
  destruct (be_active (vh_backend v)) as [|r l] eqn:Ea.
  2: { apply (Hone Active); unfold all_requests; cbn; by rewrite ?Ep, ?Ea. }
  exists s. split; [done | ]. split; [done | ]. split; [ | split].
  - constructor; [apply backend_step_refl | done | done].
  - unfold all_requests. by rewrite Ep, Ea, app_nil_r.
  - rewrite Hv. destruct v as [ins lh [bs p a st] ct]. cbn in *. by subst.
Qed.

(** The first binding of a backend without requests is dropped. *)
Definition unbound (h : hcd_ptr) (x : virtusb_backend_binding) (rest : list virtusb_backend_binding) (s : kernel) : kernel :=
  object_drop (bd_device x) (with_backend h (set_bindings rest) s).

Lemma drop_binding X T h s v x rest : backend_inv X T s -> k_hcds s !! h = Some v ->
  all_requests (vh_backend v) = [] -> be_bindings (vh_backend v) = x :: rest ->
  virtusb_object_put (Some (bd_device x)) (with_backend h (set_bindings rest) s) = Some (tt, unbound h x rest s) /\
  backend_inv X T (unbound h x rest s) /\ storage_step (with_backend h (set_bindings rest) s) (unbound h x rest s).
Proof.
  intros [Hc Hbd Hbl] Hv Hno Eb. unfold unbound.
  destruct (bc_queue _ _ _ Hc h v Hv) as [N1 N2 _ _ _]. rewrite Eb in N1, N2.
  assert (Hc1 : backend_core (add_ref (bd_device x) 1 X) T (with_backend h (set_bindings rest) s)).
  { apply (core_unbind X T s h v); try done.
    - by inversion N1.
    - by inversion N2.
    - intros o. unfold backend_bindings. cbn. rewrite Eb, count_cons.
      destruct (decide (bd_device x = o)), (decide (o = bd_device x)); congruence || lia. }
  set (s1 := with_backend h (set_bindings rest) s) in *.
  destruct (core_object_drop _ T s1 Hc1 (bd_device x)) as (Hc2 & Hst2 & Eput).
  { rewrite add_ref_eq. pose proof (bc_X _ _ _ Hc (bd_device x)). lia. }
  set (s2 := object_drop (bd_device x) s1) in *.
  assert (Et2 : k_transfers s2 = k_transfers s1)
    by (unfold s2; apply object_drop_transfers).
  split; [done | ]. split; [ | done]. constructor.
  - eapply backend_core_ext; [ | | exact Hc2]; intros o; [ | done]. apply (add_ref_cancel (bd_device x) 1 X).
  - intros h' w r Hw Hr. rewrite (ss_hcds _ _ Hst2) in Hw. cbn in Hw.
    rewrite lookup_alter in Hw. case_decide as E.
    + rewrite Hv in Hw. injection Hw as <-. unfold all_requests in *. cbn in Hr.
      rewrite Hno in Hr. by apply not_elem_of_nil in Hr.
    + destruct (Hbd h' w r Hw Hr) as (y & Hy & Hdy & Hoy). exists y.
      split; [done | ]. split; [ | done]. unfold request_device in *. by rewrite Et2.
  - intros u. destruct (Hbl u) as [B1 B2]. unfold urb_refs in *.
    rewrite (ss_hcds _ _ Hst2), (ss_trace _ _ Hst2). unfold s1.
    rewrite (hcd_sum_with_backend _ _ h v s Hv).
    change (backend_urbs u (set_bindings rest (vh_backend v))) with (backend_urbs u (vh_backend v)). cbn. lia.
Qed.

Lemma drop_bindings_spec X T h fuel : forall s v, backend_inv X T s -> k_hcds s !! h = Some v ->
  all_requests (vh_backend v) = [] -> (length (be_bindings (vh_backend v)) < fuel)%nat ->
  exists s', drop_bindings fuel h s = Some (tt, s') /\ backend_inv X T s' /\ stopped_step h s s' /\
    k_trace s' = k_trace s /\
    k_hcds s' !! h = Some (set_backend (set_bindings [] (vh_backend v)) v).
Proof.
  induction fuel as [|fuel IH]; intros s v Hinv Hv Hno Hf; [lia | ].
  cbn [drop_bindings]. unfold bind at 1. rewrite (get_backend_eq s h v Hv).
  destruct (be_bindings (vh_backend v)) as [|x rest] eqn:Eb.
  { exists s. split; [done | ]. split; [done | ]. split; [ | split; [done | ]].
    - constructor; [apply backend_step_refl | done | done].
    - rewrite Hv. destruct v as [ins lh [bs p a st] ct]. cbn in *. by subst. }
  destruct (drop_binding X T h s v x rest Hinv Hv Hno Eb) as (Eput & Hinv2 & Hst2).
  set (s2 := unbound h x rest s) in *.
  pose proof (with_backend_lookup s h v Hv (set_bindings rest)) as Hv1.
  destruct (IH s2 (set_backend (set_bindings rest (vh_backend v)) v) Hinv2)
    as (s' & Es' & Hinv' & Hst' & Etr & Hv'); [by rewrite (ss_hcds _ _ Hst2) | done | cbn in *; lia | ].
  exists s'. split; [ | split; [done | split; [ | split]]].
  - unfold bind at 1. rewrite (update_backend_eq s h v Hv). unfold bind. by rewrite Eput.
  - eapply stopped_step_trans; [ | exact Hst']. constructor.
    + etrans; [apply (with_backend_step h (set_bindings rest)) | ].
      by apply storage_backend_step.
    + by rewrite (ss_urbs _ _ Hst2).
    + intros h' Hne. rewrite (ss_hcds _ _ Hst2). cbn. by rewrite lookup_alter_ne by done.
  - by rewrite Etr, (ss_trace _ _ Hst2).
  - rewrite Hv'. done.
Qed.

Lemma backend_stop_spec X T s h uhcd v : backend_inv X T s -> k_hcds s !! h = Some v ->
  exists s', virtusb_backend_stop (Some h) (Some uhcd) s = Some (tt, s') /\
    backend_inv X T s' /\ stopped_step h s s' /\
    k_hcds s' !! h = Some (set_backend (mk_backend [] [] [] true) v) /\
    k_trace s' = k_trace s ++ [EvWakeUp h] ++ shutdowns uhcd (all_requests (vh_backend v)).
Proof.
  intros Hinv Hv.
  assert (Hinv1 : backend_inv X T (with_backend h (set_stopping true) s)).
  { apply (rearranged_inv X T s Hinv h v Hv); try done.
    - by destruct (bc_queue _ _ _ (bi_core _ _ _ Hinv) h v Hv).
    - intros r Hr. apply (bi_bound _ _ _ Hinv h v r Hv Hr). }
  pose proof (with_backend_lookup s h v Hv (set_stopping true)) as Hv1.
  destruct (wake_up_spec X T _ h Hinv1) as (s2 & Ew & Es2 & Hinv2 & Hst2).
  assert (Hv2 : k_hcds s2 !! h = Some (set_backend (set_stopping true (vh_backend v)) v))
    by by rewrite Es2.
  destruct (drain_all_spec X T h uhcd (queue_fuel (set_stopping true (vh_backend v))) s2 _ Hinv2 Hv2)
    as (s3 & E3 & Hinv3 & Hst3 & Et3 & Hv3); [unfold queue_fuel; cbn; lia | ].
  destruct (drop_bindings_spec X T h (S (length (be_bindings (vh_backend v)))) s3 _ Hinv3 Hv3)
    as (s4 & E4 & Hinv4 & Hst4 & Et4 & Hv4); [done | cbn; lia | ].
  exists s4. split; [ | split; [done | split; [ | split; [exact Hv4 | ]]]].
  - unfold virtusb_backend_stop. unfold bind at 1. rewrite (update_backend_eq s h v Hv).
    unfold bind at 1. rewrite Ew. unfold bind at 1. rewrite (get_backend_eq s2 h _ Hv2).
    unfold bind at 1. cbn [vh_backend set_backend]. rewrite E3. exact E4.
  - apply (stopped_step_trans h s s2); [ | by eapply stopped_step_trans]. constructor.
    + etrans; [apply (with_backend_step h (set_stopping true)) | exact Hst2].
    + by rewrite Es2.
    + intros h' Hne. rewrite Es2. cbn. by rewrite lookup_alter_ne by done.
  - rewrite Et4, Et3, Es2. cbn. by rewrite <- app_assoc.
Qed.
