(* ===== verification/Hcd.v ===== *)
(** * The host-controller interface (kernel/src/virtusb_hcd.c)

    The root-hub requests of the USB core and the URB entry points.  The HCD
    supplies the status-change callback of its root hub. *)

From S2P Require Import Prelude Uapi Kernel Port Hub Object Device Transfer Backend.

(** ** Constants of the USB 2.0 specification (linux/usb/ch9.h, ch11.h, hcd.h) *)

Definition USB_PORT_STAT_CONNECTION := 0x0001.
Definition USB_PORT_STAT_ENABLE := 0x0002.
Definition USB_PORT_STAT_SUSPEND := 0x0004.
Definition USB_PORT_STAT_OVERCURRENT := 0x0008.
Definition USB_PORT_STAT_RESET := 0x0010.
Definition USB_PORT_STAT_POWER := 0x0100.
Definition USB_PORT_STAT_LOW_SPEED := 0x0200.
Definition USB_PORT_STAT_HIGH_SPEED := 0x0400.
Definition USB_PORT_STAT_C_CONNECTION := 0x0001.
Definition USB_PORT_STAT_C_ENABLE := 0x0002.
Definition USB_PORT_STAT_C_SUSPEND := 0x0004.
Definition USB_PORT_STAT_C_OVERCURRENT := 0x0008.
Definition USB_PORT_STAT_C_RESET := 0x0010.

Definition USB_PORT_FEAT_ENABLE := 1.
Definition USB_PORT_FEAT_SUSPEND := 2.
Definition USB_PORT_FEAT_RESET := 4.
Definition USB_PORT_FEAT_POWER := 8.
Definition USB_PORT_FEAT_C_CONNECTION := 16.
Definition USB_PORT_FEAT_C_ENABLE := 17.
Definition USB_PORT_FEAT_C_SUSPEND := 18.
Definition USB_PORT_FEAT_C_OVER_CURRENT := 19.
Definition USB_PORT_FEAT_C_RESET := 20.

Definition C_HUB_LOCAL_POWER := 0.
Definition C_HUB_OVER_CURRENT := 1.
Definition HUB_STATUS_OVERCURRENT := 0x0002.
Definition HUB_CHANGE_OVERCURRENT := 0x0002.
Definition HUB_CHAR_INDV_PORT_LPSM := 0x0001.
Definition HUB_CHAR_INDV_PORT_OCPM := 0x0008.
Definition HUB_CHAR_NO_OCPM := 0x0010.
Definition USB_DT_HUB := 0x29.
Definition USB_DT_HUB_NONVAR_SIZE := 7.

Definition ClearHubFeature := 0x2001.
Definition ClearPortFeature := 0x2301.
Definition GetHubDescriptor := 0xa006.
Definition GetHubStatus := 0xa000.
Definition GetPortStatus := 0xa300.
Definition SetHubFeature := 0x2003.
Definition SetPortFeature := 0x2303.

Definition PIPE_ISOCHRONOUS := 0.
Definition PIPE_INTERRUPT := 1.
Definition PIPE_CONTROL := 2.
Definition PIPE_BULK := 3.

(** ** The status-change callback *)

Definition virtusb_hcd_root_hub_status_changed (hub : hub_ptr) (context : option hcd_ptr) :
    K unit :=
  match context with
  | Some hcd => emit (EvPollRhStatus hcd)
  | None => ret tt
  end.

#[export, refine] Instance hcd_status_changed_table : StatusChangedTable := {
  call_status_changed f h c :=
    match f with
    | VIRTUSB_HCD_ROOT_HUB_STATUS_CHANGED => virtusb_hcd_root_hub_status_changed h c
    end;
  status_changed_events f h c :=
    match c with Some hcd => [EvPollRhStatus hcd] | None => [] end;
}.
Proof.
  - intros [] h [c|] s; [done | ]. cbn. by rewrite app_nil_r, set_trace_id.
  - intros [] h [c|]; by repeat constructor.
Defined.

(** ** Root-hub requests *)

(** A 16-bit register assembled with [|=]. *)
Definition or_if (b : bool) (flag status : Z) : Z := if b then u16 (Z.lor status flag) else status.

(** [put_unaligned_le16]. *)
Definition le16 (x : Z) : list Z := [u8 x; u8 (Z.shiftr x 8)].

(** Writing [bytes] at [offset] of a buffer of the caller. *)
Definition write_at (offset : Z) (bytes buf : list Z) : K (list Z) :=
  if Z.of_nat (length buf) <? offset + Z.of_nat (length bytes) then stuck
  else ret (take (Z.to_nat offset) buf ++ bytes ++
            drop (Z.to_nat offset + length bytes) buf).

Definition virtusb_hcd_port_change_mask (hub : virtusb_hub) : Z :=
  let c := hub_change hub in
  let changes := Z.lor (Z.lor (Z.lor (Z.lor (ch_connected c) (ch_enabled c)) (ch_suspended c))
                          (ch_reset c)) (ch_over_current c) in
  let changes := u32 (Z.land changes (c_not 64 (BIT 0))) in
  u32 (Z.lor changes (Z.land (ch_over_current c) (BIT 0))).

Definition virtusb_hcd_build_port_status (h : hub_ptr) (port_number : Z) : K Z :=
  connected <- virtusb_hub_port_is_connected (Some h) port_number ;;
  let status := or_if connected USB_PORT_STAT_CONNECTION 0 in
  hv <- load_hub h ;;
  let status := or_if (bit_test (usb_enabled (hub_usb hv)) port_number)
                  USB_PORT_STAT_ENABLE status in
  let status := or_if (bit_test (usb_suspended (hub_usb hv)) port_number)
                  USB_PORT_STAT_SUSPEND status in
  over_current <- virtusb_hub_port_is_over_current (Some h) port_number ;;
  let status := or_if over_current USB_PORT_STAT_OVERCURRENT status in
  let status := or_if (bit_test (usb_reset (hub_usb hv)) port_number)
                  USB_PORT_STAT_RESET status in
  powered <- virtusb_hub_port_is_powered (Some h) port_number ;;
  let status := or_if powered USB_PORT_STAT_POWER status in
  speed <- virtusb_hub_get_port_speed (Some h) port_number ;;
  match speed with
  | VIRTUSB_PORT_SPEED_LOW => ret (or_if true USB_PORT_STAT_LOW_SPEED status)
  | VIRTUSB_PORT_SPEED_HIGH => ret (or_if true USB_PORT_STAT_HIGH_SPEED status)
  | VIRTUSB_PORT_SPEED_NONE | VIRTUSB_PORT_SPEED_FULL => ret status
  end.

Definition virtusb_hcd_build_port_change (hub : virtusb_hub) (port_number : Z) : Z :=
  let c := hub_change hub in
  let change := or_if (bit_test (ch_connected c) port_number) USB_PORT_STAT_C_CONNECTION 0 in
  let change := or_if (bit_test (ch_enabled c) port_number) USB_PORT_STAT_C_ENABLE change in
  let change := or_if (bit_test (ch_suspended c) port_number) USB_PORT_STAT_C_SUSPEND change in
  let change := or_if (bit_test (ch_over_current c) port_number)
                  USB_PORT_STAT_C_OVERCURRENT change in
  or_if (bit_test (ch_reset c) port_number) USB_PORT_STAT_C_RESET change.

(** The bytes of the change bitmap. *)
Fixpoint status_bytes (n : nat) (i changes : Z) : list Z :=
  match n with
  | O => []
  | S n => Z.land (Z.shiftr changes (i * 8)) 0xff :: status_bytes n (i + 1) changes
  end.

Definition virtusb_hcd_hub_status_data (hcd : hcd_ptr) (buf : list Z) : K (Z * list Z) :=
  hub <- load_hub hcd ;;
  let changes := virtusb_hcd_port_change_mask hub in
  if changes =? 0 then ret (0, buf)
  else
    let byte_count := (hub_port_count hub + 8) / 8 in
    buf <- write_at 0 (status_bytes (Z.to_nat byte_count) 0 changes) buf ;;
    ret (byte_count, buf).

Definition hub_characteristics (hub : virtusb_hub) : Z :=
  let characteristics :=
    or_if (bool_decide (hub_power_switching_mode hub = VIRTUSB_HUB_POWER_SWITCHING_INDIVIDUAL))
      HUB_CHAR_INDV_PORT_LPSM 0 in
  match hub_over_current_mode hub with
  | VIRTUSB_HUB_OVER_CURRENT_PER_PORT => or_if true HUB_CHAR_INDV_PORT_OCPM characteristics
  | VIRTUSB_HUB_OVER_CURRENT_NONE => or_if true HUB_CHAR_NO_OCPM characteristics
  | VIRTUSB_HUB_OVER_CURRENT_GLOBAL => characteristics
  end.

Definition virtusb_hcd_get_hub_descriptor (h : hub_ptr) (buf : list Z) : K (Z * list Z) :=
  hub <- load_hub h ;;
  let bitmap_bytes := (hub_port_count hub + 8) / 8 in
  let descriptor_length := USB_DT_HUB_NONVAR_SIZE + 2 * bitmap_bytes in
  buf <- write_at 0 (replicate (Z.to_nat descriptor_length) 0) buf ;;
  buf <- write_at 0 [u8 descriptor_length] buf ;;
  buf <- write_at 1 [USB_DT_HUB] buf ;;
  buf <- write_at 2 [hub_port_count hub] buf ;;
  buf <- write_at 3 (le16 (hub_characteristics hub)) buf ;;
  buf <- write_at 5 [0] buf ;;
  buf <- write_at 6 [0] buf ;;
  buf <- write_at USB_DT_HUB_NONVAR_SIZE (replicate (Z.to_nat bitmap_bytes) 0) buf ;;
  buf <- write_at (USB_DT_HUB_NONVAR_SIZE + bitmap_bytes)
           (replicate (Z.to_nat bitmap_bytes) 0xff) buf ;;
  ret (descriptor_length, buf).

Definition virtusb_hcd_get_hub_status (h : hub_ptr) (buf : list Z) : K (Z * list Z) :=
  over_current <- virtusb_hub_is_over_current (Some h) ;;
  hub <- load_hub h ;;
  let status := or_if over_current HUB_STATUS_OVERCURRENT 0 in
  let change := or_if (bit_test (ch_over_current (hub_change hub)) 0) HUB_CHANGE_OVERCURRENT 0 in
  buf <- write_at 0 (le16 status) buf ;;
  buf <- write_at 2 (le16 change) buf ;;
  ret (0, buf).

Definition virtusb_hcd_get_port_status (h : hub_ptr) (port_number : Z) (buf : list Z) :
    K (Z * list Z) :=
  valid <- virtusb_hub_port_is_valid (Some h) port_number ;;
  if negb valid then ret (- EPIPE, buf)
  else
    status <- virtusb_hcd_build_port_status h port_number ;;
    hub <- load_hub h ;;
    let change := virtusb_hcd_build_port_change hub port_number in
    buf <- write_at 0 (le16 status) buf ;;
    buf <- write_at 2 (le16 change) buf ;;
    ret (0, buf).

Definition clear_usb_enabled n u := set_usb_enabled (bit_clear (usb_enabled u) n) u.
Definition clear_usb_suspended n u := set_usb_suspended (bit_clear (usb_suspended u) n) u.
Definition set_usb_suspended_bit n u := set_usb_suspended (bit_set (usb_suspended u) n) u.
Definition clear_ch_connected n c := set_ch_connected (bit_clear (ch_connected c) n) c.
Definition clear_ch_enabled n c := set_ch_enabled (bit_clear (ch_enabled c) n) c.
Definition clear_ch_suspended n c := set_ch_suspended (bit_clear (ch_suspended c) n) c.
Definition clear_ch_over_current n c := set_ch_over_current (bit_clear (ch_over_current c) n) c.
Definition clear_ch_reset n c := set_ch_reset (bit_clear (ch_reset c) n) c.

Definition virtusb_hcd_clear_port_feature (h : hub_ptr) (port_number feature : Z) : K Z :=
  valid <- virtusb_hub_port_is_valid (Some h) port_number ;;
  if negb valid then ret (- EPIPE)
  else if feature =? USB_PORT_FEAT_ENABLE then
    update_usb h (clear_usb_enabled port_number) ;; ret 0
  else if feature =? USB_PORT_FEAT_SUSPEND then
    update_usb h (clear_usb_suspended port_number) ;; ret 0
  else if feature =? USB_PORT_FEAT_POWER then
    virtusb_hub_set_port_power (Some h) port_number false
  else if feature =? USB_PORT_FEAT_C_CONNECTION then
    update_change h (clear_ch_connected port_number) ;; ret 0
  else if feature =? USB_PORT_FEAT_C_ENABLE then
    update_change h (clear_ch_enabled port_number) ;; ret 0
  else if feature =? USB_PORT_FEAT_C_SUSPEND then
    update_change h (clear_ch_suspended port_number) ;; ret 0
  else if feature =? USB_PORT_FEAT_C_OVER_CURRENT then
    update_change h (clear_ch_over_current port_number) ;; ret 0
  else if feature =? USB_PORT_FEAT_C_RESET then
    update_change h (clear_ch_reset port_number) ;; ret 0
  else ret (- EPIPE).

Definition virtusb_hcd_set_port_feature (h : hub_ptr) (port_number feature : Z) : K Z :=
  valid <- virtusb_hub_port_is_valid (Some h) port_number ;;
  if negb valid then ret (- EPIPE)
  else if feature =? USB_PORT_FEAT_SUSPEND then
    update_usb h (set_usb_suspended_bit port_number) ;; ret 0
  else if feature =? USB_PORT_FEAT_POWER then
    virtusb_hub_set_port_power (Some h) port_number true
  else if feature =? USB_PORT_FEAT_RESET then
    virtusb_hub_reset_port (Some h) port_number
  else ret (- EPIPE).

Definition with_buf (buf : list Z) (m : K Z) : K (Z * list Z) := r <- m ;; ret (r, buf).

Definition virtusb_hcd_hub_control (hcd : hcd_ptr) (type_req value index : Z) (buf : list Z)
    (len : Z) : K (Z * list Z) :=
  let port_number := Z.land index 0xff in
  if type_req =? ClearHubFeature then
    if value =? C_HUB_LOCAL_POWER then ret (0, buf)
    else if value =? C_HUB_OVER_CURRENT then
      update_change hcd (clear_ch_over_current 0) ;; ret (0, buf)
    else ret (- EPIPE, buf)
  else if type_req =? ClearPortFeature then
    with_buf buf (virtusb_hcd_clear_port_feature hcd port_number value)
  else if type_req =? GetHubDescriptor then virtusb_hcd_get_hub_descriptor hcd buf
  else if type_req =? GetHubStatus then virtusb_hcd_get_hub_status hcd buf
  else if type_req =? GetPortStatus then virtusb_hcd_get_port_status hcd port_number buf
  else if type_req =? SetHubFeature then ret (- EPIPE, buf)
  else if type_req =? SetPortFeature then
    with_buf buf (virtusb_hcd_set_port_feature hcd port_number value)
  else ret (- EPIPE, buf).

(** ** URBs *)

Definition virtusb_hcd_start (hcd : hcd_ptr) : K Z := ret 0.
Definition virtusb_hcd_stop (hcd : hcd_ptr) : K unit := ret tt.

Definition virtusb_hcd_get_urb_device (hcd : option hcd_ptr) (u : option urb_ptr) :
    K (option obj_ptr) :=
  match hcd, u with
  | Some h, Some u =>
      uv <- load_urb u ;;
      match ur_dev uv with
      | None => ret None
      | Some dev =>
          uhcd <- load_usb_hcd h ;;
          if bool_decide (ud_parent dev <> uh_root_hub uhcd) then ret None
          else
            downstream <- virtusb_hub_get_port (Some h) (ud_portnum dev) ;;
            match downstream with
            | None => ret None
            | Some downstream =>
                dv <- load_port downstream ;;
                match port_peer dv with
                | None => ret None
                | Some upstream =>
                    pv <- load_port upstream ;;
                    if bool_decide (port_role pv <> VIRTUSB_PORT_ROLE_UPSTREAM) then ret None
                    else match port_owner pv with
                         | None => ret None
                         | Some (OwnerDevice d) => ret (Some d)
                         | Some (OwnerHub _) => stuck
                         end
                end
            end
      end
  | _, _ => ret None
  end.

Definition virtusb_hcd_get_transfer_type (uv : urb) : result virtusb_transfer_type :=
  let type := ur_pipetype uv in
  if type =? PIPE_CONTROL then Ok VIRTUSB_TRANSFER_TYPE_CONTROL
  else if type =? PIPE_ISOCHRONOUS then Ok VIRTUSB_TRANSFER_TYPE_ISOCHRONOUS
  else if type =? PIPE_BULK then Ok VIRTUSB_TRANSFER_TYPE_BULK
  else if type =? PIPE_INTERRUPT then Ok VIRTUSB_TRANSFER_TYPE_INTERRUPT
  else Err (- EINVAL).

(** What the allocator and [usb_hcd_link_urb_to_ep] return during one call. *)
Record enqueue_env := mk_enqueue_env {
  en_transfer : option transfer_ptr;
  en_buffer : option (list Z);
  en_request_oom : bool;
  en_link : Z;
}.

Definition virtusb_hcd_urb_enqueue (hcd : option hcd_ptr) (u : option urb_ptr)
    (env : enqueue_env) : K Z :=
  match hcd, u with
  | Some _, Some up =>
      device <- virtusb_hcd_get_urb_device hcd u ;;
      match device with
      | None => ret (- ENODEV)
      | Some _ =>
          uv <- load_urb up ;;
          match virtusb_hcd_get_transfer_type uv with
          | Err r => ret r
          | Ok type =>
              if negb (ur_num_sgs uv =? 0) || negb (ur_number_of_packets uv =? 0)
              then ret (- EOPNOTSUPP)
              else
                let direction := if ur_pipein uv then VIRTUSB_TRANSFER_DIRECTION_IN
                                 else VIRTUSB_TRANSFER_DIRECTION_OUT in
                let endpoint := u8 (ur_pipeendpoint uv) in
                if bool_decide (type = VIRTUSB_TRANSFER_TYPE_CONTROL) &&
                   bool_decide (ur_setup_packet uv = None) then ret (- EINVAL)
                else
                  let setup := if bool_decide (type = VIRTUSB_TRANSFER_TYPE_CONTROL)
                               then ur_setup_packet uv else None in
                  let out := bool_decide (direction = VIRTUSB_TRANSFER_DIRECTION_OUT) &&
                             (0 <? ur_transfer_buffer_length uv) in
                  if out && bool_decide (ur_transfer_buffer uv = None) then ret (- EINVAL)
                  else
                    let data := if out then ur_transfer_buffer uv else None in
                    transfer <- virtusb_transfer_create device (transfer_type_to_Z type)
                      (transfer_direction_to_Z direction) endpoint setup data
                      (ur_transfer_buffer_length uv) (en_transfer env) (en_buffer env) ;;
                    match transfer with
                    | None => ret (- ENOMEM)
                    | Some t =>
                        tv <- load_transfer t ;;
                        if VIRTUSB_TRANSFER_DATA_MAX <? tr_requested_length tv then
                          virtusb_transfer_put transfer ;; ret (- EMSGSIZE)
                        else
                          r <- virtusb_backend_submit hcd hcd u transfer
                                 (en_request_oom env) (en_link env) ;;
                          virtusb_transfer_put transfer ;;
                          ret r
                    end
          end
      end
  | _, _ => ret (- EINVAL)
  end.

Definition virtusb_hcd_urb_dequeue (hcd : option hcd_ptr) (u : option urb_ptr)
    (status check : Z) : K Z :=
  match hcd, u with
  | Some _, Some _ => virtusb_backend_cancel hcd hcd u status check
  | _, _ => ret (- EINVAL)
  end.

#[global] Arguments virtusb_hcd_build_port_status : simpl never.
#[global] Arguments virtusb_hcd_build_port_change : simpl never.
#[global] Arguments virtusb_hcd_port_change_mask : simpl never.
#[global] Arguments virtusb_hcd_hub_status_data : simpl never.
#[global] Arguments virtusb_hcd_get_hub_descriptor : simpl never.
#[global] Arguments virtusb_hcd_get_hub_status : simpl never.
#[global] Arguments virtusb_hcd_get_port_status : simpl never.
#[global] Arguments virtusb_hcd_clear_port_feature : simpl never.
#[global] Arguments virtusb_hcd_set_port_feature : simpl never.
#[global] Arguments virtusb_hcd_hub_control : simpl never.
#[global] Arguments virtusb_hcd_get_urb_device : simpl never.
#[global] Arguments virtusb_hcd_urb_enqueue : simpl never.
#[global] Arguments virtusb_hcd_urb_dequeue : simpl never.
#[global] Arguments write_at : simpl never.
#[global] Arguments or_if : simpl never.
#[global] Arguments le16 : simpl never.
