(* ===== verification/HcdSpec.v ===== *)
(** * The root-hub requests and URB entry points meet the bus and queue invariants

    Equations and preservation lemmas for [Hcd]: the port status words bit by
    bit, the change bitmap, the descriptors, the feature requests and the
    enqueueing of URBs. *)

From S2P Require Import Prelude Uapi Kernel Port Hub Object Device Transfer Backend BackendInv BackendOps Hcd.

(** ** Steps of the bus and the invariant of the queues *)

(** The queues read the storage of objects, which a step on the bus keeps
    consistent, and the trace, which it extends by notifications only. *)
Lemma inv_outside X X' T s s' : backend_inv X T s -> (forall o, 0 <= X' o) -> bus_ok s' ->
  objects_ok (fun o => transfer_refs (k_transfers s) o + (binding_refs s o + X' o)) s' ->
  transfer_frame s s' ->
  (exists l, k_trace s' = k_trace s ++ l /\ Forall is_notification l) ->
  backend_inv X' T s'.
Proof.
  intros [Hc Hb Hbal] HX' Hbus Hobj [Et En Eh _ Eu _] (l & El & Hl).
  destruct Hc as [Hr HX HT Hq Hs]. split.
  - split; try done.
    + split; [done | | | ].
      * rewrite Et. unfold binding_refs. rewrite Eh. exact Hobj.
      * unfold request_refs. rewrite Eh. destruct (ro_transfers _ _ _ Hr). split; rewrite ?Et, ?En; done.
      * intros o. pose proof (binding_refs_nonneg s' o). specialize (HX' o). lia.
    + intros h v. rewrite Eh. intros Hv. apply queue_ok_mono with s; [by apply (Hq h) | ].
      intros r _ Hok. apply (request_ok_frame s); [done | done | ]. intros tv. rewrite Et. eauto.
    + intros t. unfold request_refs. rewrite Eh. apply Hs.
  - intros h v r. rewrite Eh. intros Hv Hr'. destruct (Hb h v r Hv Hr') as (x & Hx & Ed & Eo).
    exists x. unfold request_device in *. by rewrite Et.
  - intros u. specialize (Hbal u). rewrite El. unfold urb_refs. rewrite Eh, !countb_app.
    assert (forall f, (forall e, is_notification e -> f e = false) -> countb f l = 0) as Hz.
    { intros f Hf. apply countb_zero. intros e He. apply Hf. rewrite Forall_forall in Hl. by apply Hl. }
    rewrite !Hz by (by intros []). unfold urb_refs in Hbal. lia.
Qed.

Lemma device_step_inv `{StatusChangedTable} X X' T s s' :
  backend_inv X T s -> (forall o, 0 <= X' o) ->
  device_step (fun o => transfer_refs (k_transfers s) o + (binding_refs s o + X' o)) s s' ->
  backend_inv X' T s'.
Proof. intros Hi HX' [Hb Ho Ht _ Hf]. eapply inv_outside; eauto. by destruct Ht. Qed.

Lemma inv_objects X T s : backend_inv X T s ->
  objects_ok (fun o => transfer_refs (k_transfers s) o + (binding_refs s o + X o)) s.
Proof. intros [[[_ Ho _ _] _ _ _ _] _ _]. exact Ho. Qed.
Lemma inv_bus X T s : backend_inv X T s -> bus_ok s.
Proof. intros [[[Hb _ _ _] _ _ _ _] _ _]. exact Hb. Qed.
#[export] Hint Resolve inv_objects inv_bus : heap.

(** What a request to a hub guarantees: objects and upstream ports are not
    touched, the bus stays well-formed, and the trace gains notifications. *)
Record bus_step (s s' : kernel) : Prop := {
  bs_bus : bus_ok s';
  bs_hubs : dom (k_hubs s') = dom (k_hubs s);
  bs_objects : k_objects s' = k_objects s;
  bs_registry : k_registry s' = k_registry s;
  bs_next : k_next_object_id s' = k_next_object_id s;
  bs_devices : forall d, k_ports s' !! DevPort d = k_ports s !! DevPort d;
  bs_frame : transfer_frame s s';
  bs_trace : exists l, k_trace s' = k_trace s ++ l /\ Forall is_notification l;
}.

Lemma bus_step_refl s : bus_ok s -> bus_step s s.
Proof. intros. split; try done. exists []. by rewrite app_nil_r. Qed.

Lemma bus_step_trans s1 s2 s3 : bus_step s1 s2 -> bus_step s2 s3 -> bus_step s1 s3.
Proof.
  intros [_ Hh Ho Hr Hn Hd Hf (l & El & Hl)] [Hb' Hh' Ho' Hr' Hn' Hd' Hf' (l' & El' & Hl')].
  split; [done | congruence.. | intros d; by rewrite Hd' | by transitivity s2 | ].
  exists (l ++ l'). rewrite El', El, app_assoc. split; [done | by apply Forall_app].
Qed.

Lemma bus_step_objects ext s s' : bus_step s s' -> objects_ok ext s -> objects_ok ext s'.
Proof.
  intros [_ _ Ho Hr Hn Hd _ _] Hok. apply (objects_ok_ports ext s); try done.
  - intros o. by rewrite Hd.
  - intros o v v'. rewrite Hd. intros E E' Hp. left. congruence.
Qed.

Lemma bus_step_inv X T s s' : backend_inv X T s -> bus_step s s' -> backend_inv X T s'.
Proof.
  intros Hi Hs. apply (inv_outside X X T s); [done | | | | | ].
  - apply (bi_core _ _ _ Hi).
  - by destruct Hs.
  - apply (bus_step_objects _ s); eauto with heap.
  - by destruct Hs.
  - by destruct Hs.
Qed.

(** Replacing the record of one hub. *)
Definition put_hub (h : hub_ptr) (hv : virtusb_hub) (s : kernel) : kernel :=
  set_hubs (<[h := hv]> (k_hubs s)) s.

Lemma put_hub_step s h hv hv' l : bus_ok s -> k_hubs s !! h = Some hv ->
  hub_port_count hv' = hub_port_count hv ->
  usb_words_ok (hub_usb hv') -> change_words_ok (hub_change hv') -> usb_ok (k_ports s) h hv' ->
  Forall is_notification l ->
  bus_step s (set_trace (k_trace s ++ l) (put_hub h hv' s)).
Proof.
  intros [Hwf Hok] Hh Hc Hu Hch Hus Hl. split; cbn; try done.
  - split; cbn; [by apply (bus_wf_hub_insert _ _ h hv) | ].
    intros h' hv''. destruct (decide (h = h')) as [<-|].
    + rewrite lookup_insert_eq. by intros [= <-].
    + rewrite lookup_insert_ne by done. apply Hok.
  - apply dom_insert_lookup_L. by rewrite Hh.
  - by exists l.
Qed.

Lemma put_hub_quiet s h hv hv' : bus_ok s -> k_hubs s !! h = Some hv ->
  hub_port_count hv' = hub_port_count hv ->
  usb_words_ok (hub_usb hv') -> change_words_ok (hub_change hv') -> usb_ok (k_ports s) h hv' ->
  bus_step s (put_hub h hv' s).
Proof.
  intros Hb Hh Hc Hu Hch Hus.
  pose proof (put_hub_step s h hv hv' [] Hb Hh Hc Hu Hch Hus (Forall_nil_2 _)) as Hs.
  by rewrite app_nil_r in Hs.
Qed.

(** ** Feature requests *)

Lemma valid_bounds m h hv n : hub_wf m h hv -> port_valid hv n = true -> 1 <= n < 32.
Proof.
  intros [Hc _ _ _ _ _]. unfold port_valid, VIRTUSB_MAX_HUB_PORTS in *.
  rewrite andb_true_iff, Z.ltb_lt, Z.leb_le. lia.
Qed.

(** Protocol state that enables no further port is still consistent. *)
Lemma usb_ok_less m h hv hv' : usb_ok m h hv ->
  (forall k, 0 <= k < 32 -> Z.testbit (usb_enabled (hub_usb hv')) k = true ->
     Z.testbit (usb_enabled (hub_usb hv)) k = true) ->
  usb_reset (hub_usb hv') = usb_reset (hub_usb hv) ->
  usb_speed (hub_usb hv') = usb_speed (hub_usb hv) -> usb_ok m h hv'.
Proof.
  intros Hok He Er Es n Hn. destruct (Hok n Hn) as (H1 & H2 & H3). unfold hub_speed.
  rewrite Er, Es. split_and!; [ | done | done]. intros E. apply H1. by apply He.
Qed.

Section features.
Context (s : kernel) (Hok : bus_ok s).
Context (h : hub_ptr) (hv : virtusb_hub) (Hh : k_hubs s !! h = Some hv).

Lemma hub_wf_here : hub_wf (k_ports s) h hv.
Proof. destruct Hok as [Hwf _]. by apply (bw_hub _ _ Hwf). Qed.

Definition with_usb (f : usb_state -> usb_state) : kernel :=
  put_hub h (set_hub_usb (f (hub_usb hv)) hv) s.
Definition with_change (f : usb_change -> usb_change) : kernel :=
  put_hub h (set_hub_change (f (hub_change hv)) hv) s.

Lemma update_usb_eq f : update_usb h f s = Some (tt, with_usb f).
Proof. unfold update_usb. by rewrite (update_hub_eq s h hv). Qed.
Lemma update_change_eq f : update_change h f s = Some (tt, with_change f).
Proof. unfold update_change. by rewrite (update_hub_eq s h hv). Qed.

Lemma with_change_step f : change_words_ok (f (hub_change hv)) -> bus_step s (with_change f).
Proof.
  intros Hf. destruct hub_wf_here. apply (put_hub_quiet s h hv); try done.
  apply (usb_ok_less _ _ hv); try done. by apply Hok.
Qed.

Lemma with_usb_step f : usb_words_ok (f (hub_usb hv)) ->
  (forall k, 0 <= k < 32 -> Z.testbit (usb_enabled (f (hub_usb hv))) k = true ->
     Z.testbit (usb_enabled (hub_usb hv)) k = true) ->
  usb_reset (f (hub_usb hv)) = usb_reset (hub_usb hv) ->
  usb_speed (f (hub_usb hv)) = usb_speed (hub_usb hv) -> bus_step s (with_usb f).
Proof.
  intros Hf He Er Es. destruct hub_wf_here. apply (put_hub_quiet s h hv); try done.
  apply (usb_ok_less _ _ hv); try done. by apply Hok.
Qed.

(** The change register that a ClearPortFeature request acknowledges. *)
Definition cleared_change (n feature : Z) : option (usb_change -> usb_change) :=
  if feature =? USB_PORT_FEAT_C_CONNECTION then Some (clear_ch_connected n)
  else if feature =? USB_PORT_FEAT_C_ENABLE then Some (clear_ch_enabled n)
  else if feature =? USB_PORT_FEAT_C_SUSPEND then Some (clear_ch_suspended n)
  else if feature =? USB_PORT_FEAT_C_OVER_CURRENT then Some (clear_ch_over_current n)
  else if feature =? USB_PORT_FEAT_C_RESET then Some (clear_ch_reset n)
  else None.

Lemma cleared_change_ok n feature f : cleared_change n feature = Some f ->
  change_words_ok (f (hub_change hv)).
Proof.
  destruct (hw_change _ _ _ hub_wf_here) as [? ? ? ? ?]. unfold cleared_change.
  repeat (case_match; [intros [= <-]; split; cbn; auto with width | ]). done.
Qed.
End features.

(** ** Port power *)

Lemma settle_trace `{StatusChangedTable} h n m s :
  exists l, k_trace (settle h n m s) = k_trace s ++ l /\ Forall is_notification l.
Proof.
  unfold settle. case_match; cbn; [exists []; by rewrite app_nil_r | ].
  unfold report. cbn. case_match; cbn.
  - eexists. split; [done | apply report_quiet].
  - exists []. by rewrite app_nil_r.
Qed.

Lemma settle_bus_step `{StatusChangedTable} s h hv n m : bus_ok s -> k_hubs s !! h = Some hv ->
  port_valid hv n = true -> bus_wf m (k_hubs s) -> change_at h n (k_ports s) m ->
  (forall d, m !! DevPort d = k_ports s !! DevPort d) -> bus_step s (settle h n m s).
Proof.
  intros Hok Hh Hv Hwf Hca Hd. rewrite settle_frame. split; cbn; try done.
  - rewrite <- settle_frame. by eapply settle_bus_ok.
  - apply settle_hubs_dom.
  - apply settle_trace.
Qed.

Section power.
Context `{StatusChangedTable}.

Lemma power_bus_step s h hv n b : bus_ok s -> k_hubs s !! h = Some hv -> port_valid hv n = true ->
  bus_step s (power_state b h n s).
Proof.
  intros Hok Hh Hv. destruct (power_facts s Hok h hv Hh n Hv b) as [Hwf Hca].
  apply (settle_bus_step s h hv); try done. intros d. unfold power_ports, update_port.
  by rewrite lookup_alter_ne.
Qed.

Lemma power_all_bus_step b h k : forall n s hv, bus_ok s -> k_hubs s !! h = Some hv ->
  1 <= n -> n + Z.of_nat k <= hub_port_count hv + 1 -> bus_step s (power_all b h k n s).
Proof.
  induction k as [|k IH]; intros n s hv Hok Hh Hn Hk; cbn [power_all]; [by apply bus_step_refl | ].
  assert (Hv : port_valid hv n = true) by (unfold port_valid; rewrite andb_true_iff; lia).
  pose proof (power_bus_step s h hv n b Hok Hh Hv) as Hs.
  destruct (settle_hub_lookup h n (power_ports b h n (k_ports s)) s h hv Hh)
    as (hv' & Hh' & Ec & _).
  apply (bus_step_trans _ _ _ Hs). apply (IH _ _ hv'); [apply Hs | exact Hh' | lia | lia].
Qed.

(** The state after switching the power of a valid port: ganged switching acts
    on all ports. *)
Definition switched (b : bool) (h : hub_ptr) (hv : virtusb_hub) (n : Z) (s : kernel) : kernel :=
  match hub_power_switching_mode hv with
  | VIRTUSB_HUB_POWER_SWITCHING_GANGED => power_all b h (Z.to_nat (hub_port_count hv)) 1 s
  | VIRTUSB_HUB_POWER_SWITCHING_INDIVIDUAL => power_state b h n s
  end.

(** The ports that a request for port [n] switches. *)
Definition switches (hv : virtusb_hub) (n k : Z) : bool :=
  match hub_power_switching_mode hv with
  | VIRTUSB_HUB_POWER_SWITCHING_GANGED => port_valid hv k
  | VIRTUSB_HUB_POWER_SWITCHING_INDIVIDUAL => k =? n
  end.

Context (s : kernel) (Hok : bus_ok s).
Context (h : hub_ptr) (hv : virtusb_hub) (Hh : k_hubs s !! h = Some hv).

Lemma set_port_power_eq n b :
  virtusb_hub_set_port_power (Some h) n b s =
    Some (if port_valid hv n then (0, switched b h hv n s) else (- EINVAL, s)).
Proof.
  destruct (port_valid hv n) eqn:Hv; [ | by apply (hub_set_port_power_invalid s h hv)].
  unfold switched. destruct (hub_power_switching_mode hv) eqn:E.
  - unfold virtusb_hub_set_port_power. unfold bind at 1.
    rewrite (hub_get_port_eq s h hv) by done. rewrite Hv.
    unfold bind, load. rewrite Hh, E.
    exact (proj1 (hub_set_all_ports_power_eq s h hv b Hok Hh)).
  - by apply (hub_set_port_power_eq s h hv).
Qed.

Lemma hub_count_here : 1 <= hub_port_count hv <= 31.
Proof. destruct (hub_wf_here s Hok h hv Hh) as [Hc _ _ _ _ _]. exact Hc. Qed.

Lemma switched_step n b : port_valid hv n = true -> bus_step s (switched b h hv n s).
Proof.
  intros Hv. unfold switched. case_match; [ | by eapply power_bus_step].
  pose proof hub_count_here. apply (power_all_bus_step _ _ _ _ _ hv); (done || lia).
Qed.

Lemma switched_topology n b : port_valid hv n = true -> topology_step s (switched b h hv n s).
Proof.
  intros Hv. unfold switched. case_match.
  - pose proof hub_count_here. apply (power_all_step _ _ _ _ _ hv); (done || lia).
  - destruct (power_facts s Hok h hv Hh n Hv b). by eapply settle_topology_step.
Qed.

Lemma switched_powered n b k : port_valid hv n = true ->
  port_powered (k_ports (switched b h hv n s)) h k =
    if switches hv n k then b else port_powered (k_ports s) h k.
Proof.
  intros Hv. pose proof hub_count_here. unfold switched, switches, port_valid in *. case_match.
  - rewrite (power_all_powered _ _ _ _ _ hv) by (done || lia).
    destruct (decide _) as [Hd|Hd].
    + by destruct (Z.ltb_spec 0 k), (Z.leb_spec k (hub_port_count hv)); cbn; lia || done.
    + destruct (Z.ltb_spec 0 k), (Z.leb_spec k (hub_port_count hv)); cbn; done || lia.
  - rewrite power_state_powered.
    + case_decide; by destruct (Z.eqb_spec k n).
    + apply (hub_wf_here s Hok h hv Hh). rewrite andb_true_iff in Hv. unfold VIRTUSB_MAX_HUB_PORTS. lia.
Qed.
End power.

(** ** Port reset *)

Section reset.
Context `{StatusChangedTable}.
Context (s : kernel) (Hok : bus_ok s).
Context (h : hub_ptr) (hv : virtusb_hub) (Hh : k_hubs s !! h = Some hv).

Lemma reset_quiet n : Forall is_notification (reset_events h n hv).
Proof.
  unfold reset_events, notify_events. case_match; [done | ]. case_match; [ | done].
  apply status_changed_quiet.
Qed.

Lemma reset_bus_step n : port_connected (k_ports s) h n = true ->
  bus_step s (reset_state h hv n s).
Proof.
  intros Hc. split; cbn; try done.
  - by apply reset_bus_ok.
  - apply dom_insert_lookup_L. by rewrite Hh.
  - eexists. split; [done | apply reset_quiet].
Qed.
End reset.

(** ** Status and change words, bit by bit *)

Lemma or_if_width b flag st : in_width 16 st -> in_width 16 (or_if b flag st).
Proof. intros. unfold or_if. destruct b; [by apply wrap_width | done]. Qed.
#[export] Hint Resolve or_if_width : width.

Lemma wrap_or_testbit w b flag st i : 0 <= w -> in_width w st -> in_width w flag -> 0 <= i ->
  Z.testbit (if b : bool then wrap w (Z.lor st flag) else st) i =
    b && Z.testbit flag i || Z.testbit st i.
Proof.
  intros Hw Hs Hf Hi. destruct b; cbn; [ | done].
  rewrite wrap_testbit, Z.lor_spec by lia. destruct (Z.ltb_spec i w); cbn.
  - apply orb_comm.
  - by rewrite !(in_width_testbit_high w) by (done || lia).
Qed.

Lemma or_if_testbit b flag st i : in_width 16 st -> in_width 16 flag -> 0 <= i ->
  Z.testbit (or_if b flag st) i = b && Z.testbit flag i || Z.testbit st i.
Proof. intros. by apply wrap_or_testbit. Qed.

Lemma zero_width w : 0 <= w -> in_width w 0.
Proof. intros. split; [done | ]. apply Z.pow_pos_nonneg; lia. Qed.
#[export] Hint Resolve zero_width : width.

Ltac width := repeat first
  [ apply or_if_width | apply wrap_width; lia | apply zero_width; lia | (split; done) ].

Section words.
Context (m : gmap port_ptr virtusb_port) (h : hub_ptr) (hv : virtusb_hub) (n : Z).

Definition port_over_current : bool :=
  match m !! HubPort h (n - 1) with
  | Some v => bool_decide (hub_over_current_mode hv = VIRTUSB_HUB_OVER_CURRENT_PER_PORT) &&
              downstream_over_current (port_state v)
  | None => false
  end.

(** The bits of wPortStatus and wPortChange (USB 2.0, tables 11-21 and 11-22). *)
Definition status_bit (i : Z) : bool :=
  if i =? 0 then port_connected m h n
  else if i =? 1 then Z.testbit (usb_enabled (hub_usb hv)) n
  else if i =? 2 then Z.testbit (usb_suspended (hub_usb hv)) n
  else if i =? 3 then port_over_current
  else if i =? 4 then Z.testbit (usb_reset (hub_usb hv)) n
  else if i =? 8 then port_powered m h n
  else if i =? 9 then bool_decide (hub_speed hv n = VIRTUSB_PORT_SPEED_LOW)
  else if i =? 10 then bool_decide (hub_speed hv n = VIRTUSB_PORT_SPEED_HIGH)
  else false.
Definition change_bit (i : Z) : bool :=
  if i =? 0 then Z.testbit (ch_connected (hub_change hv)) n
  else if i =? 1 then Z.testbit (ch_enabled (hub_change hv)) n
  else if i =? 2 then Z.testbit (ch_suspended (hub_change hv)) n
  else if i =? 3 then Z.testbit (ch_over_current (hub_change hv)) n
  else if i =? 4 then Z.testbit (ch_reset (hub_change hv)) n
  else false.

Definition port_status_word : Z :=
  let status := or_if (port_connected m h n) USB_PORT_STAT_CONNECTION 0 in
  let status := or_if (bit_test (usb_enabled (hub_usb hv)) n) USB_PORT_STAT_ENABLE status in
  let status := or_if (bit_test (usb_suspended (hub_usb hv)) n) USB_PORT_STAT_SUSPEND status in
  let status := or_if port_over_current USB_PORT_STAT_OVERCURRENT status in
  let status := or_if (bit_test (usb_reset (hub_usb hv)) n) USB_PORT_STAT_RESET status in
  let status := or_if (port_powered m h n) USB_PORT_STAT_POWER status in
  let status := or_if (bool_decide (hub_speed hv n = VIRTUSB_PORT_SPEED_LOW))
                  USB_PORT_STAT_LOW_SPEED status in
  or_if (bool_decide (hub_speed hv n = VIRTUSB_PORT_SPEED_HIGH)) USB_PORT_STAT_HIGH_SPEED status.

Lemma status_word_width : in_width 16 port_status_word.
Proof. unfold port_status_word. width. Qed.

Lemma change_word_width : in_width 16 (virtusb_hcd_build_port_change hv n).
Proof. unfold virtusb_hcd_build_port_change. width. Qed.

(** The sixteen positions of a word. *)
Lemma bits16 (P : Z -> Prop) : (forall i, i ∈ seqZ 0 16 -> P i) -> forall i, 0 <= i < 16 -> P i.
Proof. intros H i Hi. apply H. apply elem_of_seqZ. lia. Qed.

Lemma status_word_bits i : 0 <= n -> 0 <= i < 16 -> Z.testbit port_status_word i = status_bit i.
Proof.
  intros Hn. revert i. apply bits16. unfold port_status_word.
  intros i Hi. rewrite !or_if_testbit by (width || (apply elem_of_seqZ in Hi; lia)).
  rewrite !bit_test_spec by done. revert i Hi. apply Forall_forall.
  cbn [seqZ Z.to_nat Pos.to_nat Pos.iter_op Nat.add seq fmap list_fmap].
  repeat constructor; cbn; by rewrite ?andb_false_r, ?andb_true_r, ?orb_false_r.
Qed.

Lemma change_word_bits i : 0 <= n -> 0 <= i < 16 ->
  Z.testbit (virtusb_hcd_build_port_change hv n) i = change_bit i.
Proof.
  intros Hn. revert i. apply bits16. unfold virtusb_hcd_build_port_change.
  intros i Hi. rewrite !or_if_testbit by (width || (apply elem_of_seqZ in Hi; lia)).
  rewrite !bit_test_spec by done. revert i Hi. apply Forall_forall.
  cbn [seqZ Z.to_nat Pos.to_nat Pos.iter_op Nat.add seq fmap list_fmap].
  repeat constructor; cbn; by rewrite ?andb_false_r, ?andb_true_r, ?orb_false_r.
Qed.
End words.

(** ** Requests that read *)

Lemma write_at_eq k bytes buf (s : kernel) : 0 <= k ->
  (Z.to_nat k + length bytes <= length buf)%nat ->
  write_at k bytes buf s =
    Some (take (Z.to_nat k) buf ++ bytes ++ drop (Z.to_nat k + length bytes) buf, s).
Proof.
  intros Hk Hl. unfold write_at.
  by destruct (Z.ltb_spec (Z.of_nat (length buf)) (k + Z.of_nat (length bytes))); [lia | ].
Qed.

Lemma write_at_zero bytes buf (s : kernel) : (length bytes <= length buf)%nat ->
  write_at 0 bytes buf s = Some (bytes ++ drop (length bytes) buf, s).
Proof.
  intros Hl. unfold write_at. destruct (Z.ltb_spec (Z.of_nat (length buf)) (0 + Z.of_nat (length bytes)));
    [lia | done].
Qed.

(** Writing after a prefix that is already in place. *)
Lemma write_at_app k pre bytes mid rest (s : kernel) : k = Z.of_nat (length pre) ->
  length mid = length bytes ->
  write_at k bytes (pre ++ mid ++ rest) s = Some (pre ++ bytes ++ rest, s).
Proof.
  intros -> Hl. unfold write_at. rewrite !length_app.
  destruct (Z.ltb_spec (Z.of_nat (length pre + (length mid + length rest)))
              (Z.of_nat (length pre) + Z.of_nat (length bytes))); [lia | ].
  rewrite Nat2Z.id, take_app_length, <- Hl, <- drop_drop, drop_app_length, drop_app_length. done.
Qed.

Section requests.
Context (s : kernel) (Hok : bus_ok s).
Context (h : hub_ptr) (hv : virtusb_hub) (Hh : k_hubs s !! h = Some hv).

Lemma port_powered_eq n : port_valid hv n = true ->
  virtusb_hub_port_is_powered (Some h) n s = Some (port_powered (k_ports s) h n, s).
Proof.
  intros Hv. destruct Hok as [Hwf _]. rewrite (hub_port_is_powered_eq s Hwf h hv Hh), Hv.
  unfold port_powered. by case_match.
Qed.

Lemma port_over_current_eq n : port_valid hv n = true ->
  virtusb_hub_port_is_over_current (Some h) n s = Some (port_over_current (k_ports s) h hv n, s).
Proof.
  intros Hv. destruct Hok as [Hwf _]. rewrite (hub_port_is_over_current_eq s Hwf h hv Hh), Hv.
  unfold port_over_current. case_match; [done | by rewrite andb_false_r].
Qed.

Lemma build_port_status_eq n : port_valid hv n = true ->
  virtusb_hcd_build_port_status h n s = Some (port_status_word (k_ports s) h hv n, s).
Proof.
  intros Hv. pose proof Hok as [Hwf _]. unfold virtusb_hcd_build_port_status, bind.
  rewrite (hub_port_is_connected_eq s Hwf h hv) by done.
  unfold load. rewrite Hh. rewrite port_over_current_eq by done.
  rewrite port_powered_eq, (hub_get_port_speed_eq s Hwf h hv), Hv by done.
  unfold port_status_word. by destruct (hub_speed hv n).
Qed.

Definition port_status_bytes (n : Z) : list Z :=
  le16 (port_status_word (k_ports s) h hv n) ++ le16 (virtusb_hcd_build_port_change hv n).

Lemma get_port_status_eq n buf : (4 <= length buf)%nat ->
  virtusb_hcd_get_port_status h n buf s =
    Some (if port_valid hv n then (0, port_status_bytes n ++ drop 4 buf) else (- EPIPE, buf), s).
Proof.
  intros Hl. unfold virtusb_hcd_get_port_status. unfold bind at 1.
  rewrite (hub_port_is_valid_eq s h hv) by done. destruct (port_valid hv n) eqn:Hv; [cbn [negb] | done].
  unfold bind. rewrite build_port_status_eq by done. unfold load. rewrite Hh.
  destruct buf as [|b0 [|b1 [|b2 [|b3 rest]]]]; cbn in Hl; try lia.
  rewrite write_at_zero by (unfold le16; cbn; lia).
  change (drop (length (le16 _)) _) with ([b2; b3] ++ rest).
  rewrite (write_at_app 2 (le16 (port_status_word (k_ports s) h hv n)) _ [b2; b3]) by done.
  unfold ret, port_status_bytes. by rewrite <- app_assoc.
Qed.

(** The hub descriptor: at most fifteen bytes, all ports removable. *)
Definition bitmap_bytes : Z := (hub_port_count hv + 8) / 8.
Definition hub_descriptor : list Z :=
  [USB_DT_HUB_NONVAR_SIZE + 2 * bitmap_bytes; USB_DT_HUB; hub_port_count hv] ++
  le16 (hub_characteristics hv) ++ [0; 0] ++
  replicate (Z.to_nat bitmap_bytes) 0 ++ replicate (Z.to_nat bitmap_bytes) 0xff.

Lemma bitmap_bytes_range : 1 <= bitmap_bytes <= 4 /\ hub_port_count hv < 8 * bitmap_bytes.
Proof.
  destruct (hub_wf_here s Hok h hv Hh) as [Hc _ _ _ _ _]. unfold bitmap_bytes, VIRTUSB_MAX_HUB_PORTS in *.
  split; [split | ].
  - apply Z.div_le_lower_bound; lia.
  - apply Z.lt_succ_r, Z.div_lt_upper_bound; lia.
  - pose proof (Z.mul_succ_div_gt (hub_port_count hv + 8) 8). lia.
Qed.

Lemma hub_descriptor_length : Z.of_nat (length hub_descriptor) = USB_DT_HUB_NONVAR_SIZE + 2 * bitmap_bytes.
Proof.
  pose proof bitmap_bytes_range. unfold hub_descriptor, USB_DT_HUB_NONVAR_SIZE.
  rewrite !length_app, !length_replicate. unfold le16. cbn [length]. lia.
Qed.

(** The bitmaps have one to four bytes, so that the writes can be evaluated. *)
Lemma get_hub_descriptor_eq buf : (15 <= length buf)%nat ->
  virtusb_hcd_get_hub_descriptor h buf s =
    Some ((Z.of_nat (length hub_descriptor), hub_descriptor ++ drop (length hub_descriptor) buf), s).
Proof.
  intros Hl. do 15 (destruct buf as [|? buf]; [cbn in Hl; lia | ]). clear Hl.
  rewrite hub_descriptor_length. pose proof bitmap_bytes_range as [Hr _].
  unfold virtusb_hcd_get_hub_descriptor, hub_descriptor, bind, load. rewrite Hh. fold bitmap_bytes.
  assert (bitmap_bytes = 1 \/ bitmap_bytes = 2 \/ bitmap_bytes = 3 \/ bitmap_bytes = 4) as Hc by lia.
  unfold ret. destruct Hc as [-> | [-> | [-> | ->]]];
    by repeat (rewrite write_at_eq; [ | done | apply Nat.leb_le; reflexivity]).
Qed.

Lemma get_hub_status_eq buf : (4 <= length buf)%nat ->
  virtusb_hcd_get_hub_status h buf s =
    Some ((0, le16 (or_if (bool_decide (hub_over_current_mode hv = VIRTUSB_HUB_OVER_CURRENT_GLOBAL) &&
                          hub_over_current hv) HUB_STATUS_OVERCURRENT 0) ++
              le16 (or_if (bit_test (ch_over_current (hub_change hv)) 0) HUB_CHANGE_OVERCURRENT 0) ++
              drop 4 buf), s).
Proof.
  intros Hl. unfold virtusb_hcd_get_hub_status, bind. rewrite (hub_is_over_current_eq s h hv Hh).
  unfold load. rewrite Hh.
  destruct buf as [|b0 [|b1 [|b2 [|b3 rest]]]]; cbn in Hl; try lia.
  by rewrite !write_at_eq by (done || apply Nat.leb_le; reflexivity).
Qed.

(** A position of the hub status bitmap: the hub itself or a port. *)
Definition position_changed (n : Z) : bool :=
  let c := hub_change hv in
  Z.testbit (ch_over_current c) n ||
  negb (n =? 0) && (Z.testbit (ch_connected c) n || Z.testbit (ch_enabled c) n ||
                    Z.testbit (ch_suspended c) n || Z.testbit (ch_reset c) n).

Lemma change_mask_width : in_width 32 (virtusb_hcd_port_change_mask hv).
Proof. by apply wrap_width. Qed.

Lemma change_mask_testbit n : 0 <= n < 32 ->
  Z.testbit (virtusb_hcd_port_change_mask hv) n = position_changed n.
Proof.
  intros Hn. unfold virtusb_hcd_port_change_mask, position_changed, c_not.
  rewrite !wrap_testbit, !Z.lor_spec, !wrap_testbit, !Z.land_spec, wrap_testbit, Z.lnot_spec by lia.
  rewrite !Z.lor_spec, !BIT_testbit by lia. rewrite (Z.eqb_sym 0 n).
  destruct (Z.ltb_spec n 32), (Z.ltb_spec n 64); [ | lia..].
  destruct (n =? 0), (Z.testbit (ch_over_current (hub_change hv)) n); cbn;
    by rewrite ?andb_true_r, ?andb_false_r, ?orb_true_r, ?orb_false_r.
Qed.

Lemma change_mask_zero : virtusb_hcd_port_change_mask hv = 0 <->
  forall n, 0 <= n < 32 -> position_changed n = false.
Proof.
  split.
  - intros E n Hn. rewrite <- change_mask_testbit, E by done. apply Z.bits_0.
  - intros Hz. apply Z.bits_inj'. intros n Hn. rewrite Z.bits_0.
    destruct (decide (n < 32)); [rewrite change_mask_testbit by lia; apply Hz; lia | ].
    apply (in_width_testbit_high 32); [lia | apply change_mask_width].
Qed.

Lemma status_bytes_lookup k : forall i changes j, (j < k)%nat ->
  status_bytes k i changes !! j = Some (Z.land (Z.shiftr changes ((i + Z.of_nat j) * 8)) 0xff).
Proof.
  induction k as [|k IH]; intros i changes j Hj; [lia | ]. destruct j as [|j]; cbn.
  - by rewrite Z.add_0_r.
  - rewrite IH by lia. do 3 f_equal. lia.
Qed.

Lemma status_bytes_length k i changes : length (status_bytes k i changes) = k.
Proof. revert i. induction k as [|k IH]; intros i; cbn; [done | by rewrite IH]. Qed.

(** Bit [n] of the bitmap is bit [n mod 8] of byte [n / 8]. *)
Lemma status_bytes_testbit k changes n byte : 0 <= n ->
  status_bytes k 0 changes !! Z.to_nat (n / 8) = Some byte ->
  Z.testbit byte (n mod 8) = Z.testbit changes n.
Proof.
  intros Hn E. pose proof (lookup_lt_Some _ _ _ E) as Hl. rewrite status_bytes_length in Hl.
  rewrite status_bytes_lookup in E by done. injection E as <-.
  pose proof (Z.mod_pos_bound n 8). pose proof (Z.div_pos n 8).
  change 0xff with (Z.ones 8).
  rewrite Z.land_spec, Z.shiftr_spec, Z.ones_spec_low, andb_true_r by lia.
  f_equal. rewrite Z2Nat.id by lia. pose proof (Z.div_mod n 8). lia.
Qed.

Definition change_bitmap : list Z :=
  status_bytes (Z.to_nat bitmap_bytes) 0 (virtusb_hcd_port_change_mask hv).

Lemma hub_status_data_eq buf : bitmap_bytes <= Z.of_nat (length buf) ->
  virtusb_hcd_hub_status_data h buf s =
    Some (if virtusb_hcd_port_change_mask hv =? 0 then (0, buf)
          else (bitmap_bytes, change_bitmap ++ drop (Z.to_nat bitmap_bytes) buf), s).
Proof.
  intros Hl. unfold virtusb_hcd_hub_status_data, bind, load. rewrite Hh. fold bitmap_bytes.
  destruct (_ =? 0); [done | ]. fold change_bitmap.
  assert (length change_bitmap = Z.to_nat bitmap_bytes) as E by apply status_bytes_length.
  rewrite write_at_zero by lia. by rewrite E.
Qed.

(** ** Requests that write *)

(** The state after ClearPortFeature, when the feature is supported. *)
Definition clear_feature_state (n feature : Z) : option kernel :=
  if feature =? USB_PORT_FEAT_ENABLE then Some (with_usb s h hv (clear_usb_enabled n))
  else if feature =? USB_PORT_FEAT_SUSPEND then Some (with_usb s h hv (clear_usb_suspended n))
  else if feature =? USB_PORT_FEAT_POWER then Some (switched false h hv n s)
  else with_change s h hv <$> cleared_change n feature.

Lemma clear_port_feature_eq n feature :
  virtusb_hcd_clear_port_feature h n feature s =
    Some (if port_valid hv n then
            match clear_feature_state n feature with
            | Some s' => (0, s')
            | None => (- EPIPE, s)
            end
          else (- EPIPE, s)).
Proof.
  unfold virtusb_hcd_clear_port_feature. unfold bind at 1. rewrite (hub_port_is_valid_eq s h hv Hh).
  destruct (port_valid hv n) eqn:Hv; [cbn [negb] | done].
  unfold clear_feature_state, cleared_change.
  repeat (destruct (feature =? _);
    [unfold bind; by rewrite ?(update_usb_eq s h hv Hh), ?(update_change_eq s h hv Hh),
       ?(set_port_power_eq s Hok h hv Hh), ?Hv | ]).
  done.
Qed.

Lemma clear_feature_step n feature s' : port_valid hv n = true ->
  clear_feature_state n feature = Some s' -> bus_step s s'.
Proof.
  intros Hv. pose proof (hub_wf_here s Hok h hv Hh) as W. destruct (hw_usb _ _ _ W) as [? ? ? ?].
  pose proof (valid_bounds _ _ _ _ W Hv) as Hn. unfold clear_feature_state.
  destruct (feature =? USB_PORT_FEAT_ENABLE).
  { intros [= <-]. apply with_usb_step; try done; [by split; cbn; auto with width | ].
    intros k Hk. cbn. rewrite bit_clear_testbit by (done || lia). by rewrite andb_true_iff; intros []. }
  destruct (feature =? USB_PORT_FEAT_SUSPEND).
  { intros [= <-]. apply with_usb_step; try done. by split; cbn; auto with width. }
  destruct (feature =? USB_PORT_FEAT_POWER); [intros [= <-]; by apply switched_step | ].
  destruct (cleared_change n feature) as [f|] eqn:Ec; [ | done]. intros [= <-].
  apply with_change_step; try done. by eapply cleared_change_ok.
Qed.

(** The result of SetPortFeature. *)
Definition set_feature_result (n feature : Z) : Z * kernel :=
  if feature =? USB_PORT_FEAT_SUSPEND then (0, with_usb s h hv (set_usb_suspended_bit n))
  else if feature =? USB_PORT_FEAT_POWER then (0, switched true h hv n s)
  else if feature =? USB_PORT_FEAT_RESET then
    if port_connected (k_ports s) h n then (0, reset_state h hv n s) else (- ENODEV, s)
  else (- EPIPE, s).

Lemma set_port_feature_eq n feature :
  virtusb_hcd_set_port_feature h n feature s =
    Some (if port_valid hv n then set_feature_result n feature else (- EPIPE, s)).
Proof.
  unfold virtusb_hcd_set_port_feature. unfold bind at 1. rewrite (hub_port_is_valid_eq s h hv Hh).
  destruct (port_valid hv n) eqn:Hv; [cbn [negb] | done].
  unfold set_feature_result. pose proof Hok as [Hwf _].
  repeat (destruct (feature =? _);
    [unfold bind; by rewrite ?(update_usb_eq s h hv Hh), ?(set_port_power_eq s Hok h hv Hh),
       ?(hub_reset_port_eq s h hv n Hwf Hh), ?Hv | ]).
  done.
Qed.

Lemma set_feature_step n feature : port_valid hv n = true ->
  bus_step s (set_feature_result n feature).2 /\
  ((set_feature_result n feature).1 < 0 -> (set_feature_result n feature).2 = s).
Proof.
  intros Hv. pose proof (hub_wf_here s Hok h hv Hh) as W. destruct (hw_usb _ _ _ W) as [? ? ? ?].
  unfold set_feature_result.
  destruct (feature =? USB_PORT_FEAT_SUSPEND).
  { split; [ | done]. apply with_usb_step; try done. by split; cbn; auto with width. }
  destruct (feature =? USB_PORT_FEAT_POWER); [split; [by apply switched_step | done] | ].
  destruct (feature =? USB_PORT_FEAT_RESET); [ | split; [by apply bus_step_refl | done]].
  destruct (port_connected (k_ports s) h n) eqn:Hc; [ | split; [by apply bus_step_refl | done]].
  split; [by apply reset_bus_step | done].
Qed.

(** Every root-hub request returns; a refused request has no effect. *)
Lemma hub_control_spec type_req value index buf len : (15 <= length buf)%nat ->
  exists r buf' s', virtusb_hcd_hub_control h type_req value index buf len s = Some ((r, buf'), s') /\
    bus_step s s' /\ length buf' = length buf /\ (r < 0 -> s' = s /\ buf' = buf).
Proof.
  intros Hl. pose proof (bus_step_refl s Hok) as Hrefl.
  assert (forall r b, r < 0 \/ length b = length buf -> (r < 0 -> b = buf) -> exists r' buf' s',
    Some ((r, b), s) = Some ((r', buf'), s') /\
    bus_step s s' /\ length buf' = length buf /\ (r' < 0 -> s' = s /\ buf' = buf)) as Hkeep.
  { intros r b Hb Hr. exists r, b, s. split_and!; try done; [ | auto].
    destruct Hb; [by rewrite Hr | done]. }
  unfold virtusb_hcd_hub_control, with_buf.
  destruct (type_req =? ClearHubFeature).
  { case_match; [by apply Hkeep; [right | ] | ]. case_match; [ | by apply Hkeep; [left | ]].
    unfold bind. rewrite (update_change_eq s h hv Hh). do 3 eexists. split; [done | ].
    split_and!; [ | done..]. apply with_change_step; try done.
    destruct (hw_change _ _ _ (hub_wf_here s Hok h hv Hh)). split; cbn; auto with width. }
  destruct (type_req =? ClearPortFeature).
  { unfold bind. rewrite clear_port_feature_eq.
    destruct (port_valid hv _) eqn:Hv; [ | by apply Hkeep; [left | ]].
    destruct (clear_feature_state _ _) as [s'|] eqn:E; [ | by apply Hkeep; [left | ]].
    do 3 eexists. split; [done | ]. split_and!; [by eapply clear_feature_step | done..]. }
  destruct (type_req =? GetHubDescriptor).
  { rewrite get_hub_descriptor_eq by done. apply Hkeep; [right | lia].
    pose proof hub_descriptor_length. pose proof bitmap_bytes_range as [? _].
    unfold USB_DT_HUB_NONVAR_SIZE in *. rewrite length_app, length_drop. lia. }
  destruct (type_req =? GetHubStatus).
  { rewrite get_hub_status_eq by lia. apply Hkeep; [right | done].
    rewrite !length_app, length_drop. unfold le16. cbn [length]. lia. }
  destruct (type_req =? GetPortStatus).
  { rewrite get_port_status_eq by lia. destruct (port_valid hv _); [ | by apply Hkeep; [left | ]].
    apply Hkeep; [right | done]. unfold port_status_bytes.
    rewrite !length_app, length_drop. unfold le16. cbn [length]. lia. }
  destruct (type_req =? SetHubFeature); [by apply Hkeep; [left | ] | ].
  destruct (type_req =? SetPortFeature); [ | by apply Hkeep; [left | ]].
  unfold bind. rewrite set_port_feature_eq.
  destruct (port_valid hv _) eqn:Hv; [ | by apply Hkeep; [left | ]].
  destruct (set_feature_step _ value Hv) as [Hs He]. destruct (set_feature_result _ _) as [r s'].
  exists r, buf, s'. split_and!; [done.. | ]. intros Hr. by split; [apply He | ].
Qed.
End requests.
