(* ===== verification/UrbSpec.v ===== *)
(** * The URB entry points (urb_enqueue, urb_dequeue)

    Which device a URB reaches, and the complete effect of enqueueing one: the
    transfer that is created, the queue it ends in, and the clean-up on every
    error. *)

From S2P Require Import Prelude Uapi Kernel Port Hub Object Device Transfer Backend BackendInv BackendOps Hcd HcdSpec.

(** ** The device behind a port *)

(** The device attached to port [n] of the hub at [h]. *)
Definition port_device (m : gmap port_ptr virtusb_port) (h : hub_ptr) (n : Z) : option obj_ptr :=
  match m !! HubPort h (n - 1) with
  | Some v => match port_peer v with Some (DevPort d) => Some d | _ => None end
  | None => None
  end.

Section device.
Context (s : kernel) (Hok : bus_ok s).
Context (h : hub_ptr) (hv : virtusb_hub) (Hh : k_hubs s !! h = Some hv).
Context (uhcd : usb_hcd) (Huh : k_usb_hcds s !! h = Some uhcd).
Context (u : urb_ptr) (uv : urb) (Hu : k_urbs s !! u = Some uv).

(** Only devices that sit directly below the root hub are reachable. *)
Definition urb_device : option obj_ptr :=
  match ur_dev uv with
  | Some dev => if decide (ud_parent dev = uh_root_hub uhcd)
                then port_device (k_ports s) h (ud_portnum dev) else None
  | None => None
  end.

Lemma get_urb_device_eq :
  virtusb_hcd_get_urb_device (Some h) (Some u) s = Some (urb_device, s).
Proof.
  destruct Hok as [Hwf _]. unfold virtusb_hcd_get_urb_device, urb_device.
  unfold bind at 1, load. rewrite Hu. destruct (ur_dev uv) as [dev|]; [ | done].
  unfold bind at 1. rewrite Huh. case_decide as Hp.
  2: { by rewrite bool_decide_eq_true_2. }
  rewrite bool_decide_eq_false_2 by auto. unfold bind at 1.
  rewrite (hub_get_port_eq s h hv Hh). unfold port_device.
  destruct (port_valid hv (ud_portnum dev)) eqn:Hv.
  - destruct (wf_port _ _ Hwf h hv _ Hh Hv) as (dv & Hdv & _). unfold bind. rewrite Hdv.
    destruct (port_peer dv) as [q|] eqn:Eq; [ | done].
    destruct (wf_hub_peer _ _ Hwf h hv _ dv q Hh Hdv Eq) as (_ & d & w & -> & Hw & _ & Er).
    rewrite Hw, Er, bool_decide_eq_false_2 by auto.
    by destruct (bw_devport _ _ Hwf d w Hw) as (_ & -> & _).
  - pose proof (wf_invalid_port _ _ Hwf h hv _ Hh Hv) as Hn.
    destruct (k_ports s !! _) as [v|]; [by rewrite Hn | done].
Qed.

Lemma urb_device_live ext d : objects_ok ext s -> urb_device = Some d ->
  exists ov, k_objects s !! d = Some ov.
Proof.
  intros Hobj. unfold urb_device, port_device. destruct (ur_dev uv) as [dev|]; [ | done].
  case_decide; [ | done]. destruct (k_ports s !! _) as [v|] eqn:Ev; [ | done].
  destruct (port_peer v) as [[d'|]|] eqn:Ep; [ | done..]. intros [= ->].
  destruct Hok as [Hwf _]. destruct (wf_peer _ _ Hwf _ v (DevPort d) Ev Ep) as (w & Hw & _).
  apply (oo_port _ _ Hobj). by rewrite Hw.
Qed.
End device.

(** ** What the USB core guarantees about a URB that it enqueues *)
Record urb_wf (uv : urb) : Prop := {
  uw_endpoint : 0 <= ur_pipeendpoint uv <= 15;
  uw_length : 0 <= ur_transfer_buffer_length uv;
  uw_setup : forall b, ur_setup_packet uv = Some b -> (8 <= length b)%nat;
  uw_buffer : forall b, ur_transfer_buffer uv = Some b ->
    ur_transfer_buffer_length uv <= Z.of_nat (length b);
  uw_in : ur_pipein uv = true -> 0 < ur_transfer_buffer_length uv -> ur_num_sgs uv = 0 ->
    ur_transfer_buffer uv <> None;
}.

(** What the allocator and the USB core return. *)
Record env_wf (s : kernel) (uv : urb) (env : enqueue_env) : Prop := {
  ew_transfer : forall t, en_transfer env = Some t -> k_transfers s !! t = None;
  ew_buffer : forall b, en_buffer env = Some b ->
    Z.of_nat (length b) = ur_transfer_buffer_length uv;
  ew_link : en_link env <= 0;
}.

(** ** Creating the transfer *)

Lemma transfer_create_oom d ty dir endpoint setup data len tmem bmem (s : kernel) :
  tmem = None \/ (0 < len /\ bmem = None) ->
  virtusb_transfer_create (Some d) ty dir endpoint setup data len tmem bmem s = Some (None, s).
Proof.
  intros Hm. unfold virtusb_transfer_create.
  destruct (transfer_type_of_Z ty); [ | done]. destruct (transfer_direction_of_Z dir); [ | done].
  destruct (15 <? endpoint); [done | ]. destruct (_ && bool_decide (setup = None)); [done | ].
  destruct (_ && _); [done | ]. destruct Hm as [->|[Hl ->]]; [done | ].
  destruct tmem; [ | done]. cbv zeta. unfold bind. by rewrite (proj2 (Z.ltb_lt 0 len) Hl).
Qed.

Lemma transfer_create_nodata d ty dir endpoint setup data t bmem (s : kernel) :
  virtusb_transfer_create (Some d) ty dir endpoint setup data 0 (Some t) bmem s =
    virtusb_transfer_create (Some d) ty dir endpoint setup data 0 (Some t) (Some []) s.
Proof. done. Qed.

(** ** Steps on one transfer *)

(** Dropping a reference of a caller: a transfer that is queued stays alive. *)
Lemma inv_transfer_drop X T s t : backend_inv X T s -> 1 <= T t ->
  backend_inv X (add_ref t (-1) T) (transfer_drop t s) /\ storage_step s (transfer_drop t s) /\
  virtusb_transfer_put (Some t) s = Some (tt, transfer_drop t s).
Proof.
  intros [Hc Hb Hbal] HT. destruct (core_transfer_drop X T s Hc t HT) as (Hc' & Hst & E).
  split; [ | done]. destruct Hst as [_ _ _ _ _ _ Eh _ _ _ Et]. split; [done | | ].
  - intros h v r. rewrite Eh. intros Hv Hr. destruct (Hb h v r Hv Hr) as (x & Hx & Hd & Ho).
    exists x. split; [done | ]. split; [ | done]. rewrite <- Hd. unfold request_device.
    destruct (decide (rq_transfer r = t)) as [<-|Hne]; [ | by rewrite drop_lookup].
    pose proof (request_counted s h v r Hv Hr) as Hn.
    destruct (core_live X T s Hc _ HT) as [tv Ht].
    destruct (core_refcount X T s Hc _ tv Ht) as [Erc _].
    unfold transfer_drop. rewrite Ht. destruct (Z.eqb_spec (tr_refcount tv) 1); [lia | ].
    cbn. by rewrite lookup_alter_eq, Ht.
  - by apply (balance_frame s).
Qed.

(** A transfer without references is gone. *)
Lemma unreferenced_gone X T s t : backend_core X T s -> request_refs s t = 0 -> T t = 0 ->
  k_transfers s !! t = None.
Proof.
  intros Hc H0 HT. destruct (k_transfers s !! t) as [tv|] eqn:Ht; [ | done].
  destruct (core_refcount X T s Hc t tv Ht). lia.
Qed.

Section created.
Context (d : obj_ptr) (ty : virtusb_transfer_type) (dir : virtusb_transfer_direction).
Context (endpoint : Z) (setup data : option (list Z)) (len : Z).
Context (X : obj_ptr -> Z) (T : transfer_ptr -> Z) (s : kernel) (Hinv : backend_inv X T s).
Context (ov : virtusb_object) (Hd : k_objects s !! d = Some ov).
Context (t : transfer_ptr) (Ht : k_transfers s !! t = None).
Context (block : list Z) (Hblock : Z.of_nat (length block) = len).
Context (Hargs : create_args_ok ty dir endpoint setup data len).
Context (Hid : k_next_transfer_id s + 1 < 2 ^ 64).

Lemma created_inv :
  backend_inv X (add_ref t 1 T) (created_transfer d ty dir endpoint setup data len t block s).
Proof.
  destruct Hinv as [[Hr HX HT Hq Hs] Hb Hbal].
  assert (Hkeep : forall x tv, k_transfers s !! x = Some tv ->
    k_transfers (created_transfer d ty dir endpoint setup data len t block s) !! x = Some tv).
  { intros x tv Hx. cbn. rewrite lookup_insert_ne; [done | congruence]. }
  split; [split | | ].
  - eapply refs_ok_ext; [ | | eapply (created_transfer_ok d ty dir endpoint setup data len
      (fun o => binding_refs s o + X o) (fun t => request_refs s t + T t) s Hr ov Hd t Ht block
      Hblock Hargs Hid)]; [done | ].
    intros x. unfold add_ref, request_refs. cbn. case_decide; lia.
  - done.
  - intros x. unfold add_ref. specialize (HT x). case_decide; lia.
  - intros h v Hv. apply queue_ok_mono with s; [by apply (Hq h) | ].
    intros r _ Hok. apply (request_ok_frame s); [done | done | ]. intros tv Htv.
    exists tv. by rewrite (Hkeep _ _ Htv).
  - apply Hs.
  - intros h v r Hv Hr'. destruct (Hb h v r Hv Hr') as (x & Hx & Ed & Eo).
    exists x. split_and!; [done | | done]. rewrite <- Ed. unfold request_device.
    destruct (k_transfers s !! rq_transfer r) as [tv|] eqn:E; [by rewrite (Hkeep _ _ E) | ].
    unfold request_device in Ed. by rewrite E in Ed.
  - by apply (balance_frame s).
Qed.
End created.

(** ** Enqueueing *)

Definition urb_direction (uv : urb) : virtusb_transfer_direction :=
  if ur_pipein uv then VIRTUSB_TRANSFER_DIRECTION_IN else VIRTUSB_TRANSFER_DIRECTION_OUT.
(** The URB carries data to the device. *)
Definition urb_out (uv : urb) : bool :=
  bool_decide (urb_direction uv = VIRTUSB_TRANSFER_DIRECTION_OUT) &&
  (0 <? ur_transfer_buffer_length uv).
Definition urb_setup (uv : urb) (ty : virtusb_transfer_type) : option (list Z) :=
  if bool_decide (ty = VIRTUSB_TRANSFER_TYPE_CONTROL) then ur_setup_packet uv else None.
Definition urb_data (uv : urb) : option (list Z) :=
  if urb_out uv then ur_transfer_buffer uv else None.

(** The checks before anything is allocated. *)
Definition urb_check (s : kernel) (h : hcd_ptr) (uhcd : usb_hcd) (uv : urb) :
    result (obj_ptr * virtusb_transfer_type) :=
  match urb_device s h uhcd uv with
  | None => Err (- ENODEV)
  | Some d =>
      match virtusb_hcd_get_transfer_type uv with
      | Err r => Err r
      | Ok ty =>
          if negb (ur_num_sgs uv =? 0) || negb (ur_number_of_packets uv =? 0)
          then Err (- EOPNOTSUPP)
          else if bool_decide (ty = VIRTUSB_TRANSFER_TYPE_CONTROL) &&
                  bool_decide (ur_setup_packet uv = None) then Err (- EINVAL)
          else if urb_out uv && bool_decide (ur_transfer_buffer uv = None) then Err (- EINVAL)
          else Ok (d, ty)
      end
  end.

(** The memory that the two allocations deliver. *)
Definition urb_memory (uv : urb) (env : enqueue_env) : option (transfer_ptr * list Z) :=
  match en_transfer env, (if 0 <? ur_transfer_buffer_length uv then en_buffer env else Some []) with
  | Some t, Some block => Some (t, block)
  | _, _ => None
  end.

Definition urb_transfer (s : kernel) (uv : urb) (d : obj_ptr) (ty : virtusb_transfer_type)
    (block : list Z) : virtusb_transfer :=
  new_transfer d ty (urb_direction uv) (ur_pipeendpoint uv) (urb_setup uv ty) (urb_data uv)
    (ur_transfer_buffer_length uv) (k_next_transfer_id s + 1) block.
Definition urb_created (s : kernel) (uv : urb) (d : obj_ptr) (ty : virtusb_transfer_type)
    (t : transfer_ptr) (block : list Z) : kernel :=
  created_transfer d ty (urb_direction uv) (ur_pipeendpoint uv) (urb_setup uv ty) (urb_data uv)
    (ur_transfer_buffer_length uv) t block s.

(** The result of the submission and the state after the reference of the
    creator is dropped. *)
Definition urb_result (s : kernel) (h : hcd_ptr) (v : virtusb_hcd) (u : urb_ptr) (uv : urb)
    (env : enqueue_env) (d : obj_ptr) (ty : virtusb_transfer_type) (t : transfer_ptr)
    (block : list Z) : Z * kernel :=
  let tv := urb_transfer s uv d ty block in
  let s1 := urb_created s uv d ty t block in
  (submit_error v tv (en_request_oom env) (en_link env),
   transfer_drop t (submit_state s1 h h v t tv u (en_request_oom env) (en_link env))).

Section enqueue.
Context (X : obj_ptr -> Z) (T : transfer_ptr -> Z) (s : kernel) (Hinv : backend_inv X T s).
Context (h : hcd_ptr) (hv : virtusb_hub) (Hh : k_hubs s !! h = Some hv).
Context (uhcd : usb_hcd) (Huh : k_usb_hcds s !! h = Some uhcd).
Context (v : virtusb_hcd) (Hv : k_hcds s !! h = Some v).
Context (u : urb_ptr) (uv : urb) (Hu : k_urbs s !! u = Some uv) (Hwf : urb_wf uv).
Context (env : enqueue_env) (Henv : env_wf s uv env).
Context (Hid : k_next_transfer_id s + 1 < 2 ^ 64).

Lemma urb_args_ok d ty : urb_check s h uhcd uv = Ok (d, ty) ->
  create_args_ok ty (urb_direction uv) (ur_pipeendpoint uv) (urb_setup uv ty) (urb_data uv)
    (ur_transfer_buffer_length uv).
Proof using Hwf.
  destruct Hwf as [He Hl Hs Hb _]. unfold urb_check. destruct (urb_device s h uhcd uv); [ | done].
  destruct (virtusb_hcd_get_transfer_type uv) as [ty'|]; [ | done].
  destruct (_ || _); [done | ]. destruct (bool_decide _ && _) eqn:E1; [done | ].
  destruct (urb_out uv && _) eqn:E2; [done | ]. intros [= -> ->]. unfold urb_setup, urb_data.
  split; try done.
  - intros ->. rewrite bool_decide_eq_true_2 in * by done. cbn in E1. by apply bool_decide_eq_false in E1.
  - intros b. destruct (bool_decide (ty = _)); [apply Hs | done].
  - intros Hd Hlen. unfold urb_out in *. rewrite bool_decide_eq_true_2, (proj2 (Z.ltb_lt _ _) Hlen) in * by done.
    cbn in *. by apply bool_decide_eq_false in E2.
  - intros b. destruct (urb_out uv); [apply Hb | done].
Qed.

(** The call after the checks. *)
Lemma enqueue_checked :
  virtusb_hcd_urb_enqueue (Some h) (Some u) env s =
    match urb_check s h uhcd uv with
    | Err r => Some (r, s)
    | Ok (d, ty) =>
        (transfer <- virtusb_transfer_create (Some d) (transfer_type_to_Z ty)
           (transfer_direction_to_Z (urb_direction uv)) (ur_pipeendpoint uv) (urb_setup uv ty)
           (urb_data uv) (ur_transfer_buffer_length uv) (en_transfer env) (en_buffer env) ;;
         match transfer with
         | None => ret (- ENOMEM)
         | Some t =>
             tv <- load_transfer t ;;
             if VIRTUSB_TRANSFER_DATA_MAX <? tr_requested_length tv then
               virtusb_transfer_put transfer ;; ret (- EMSGSIZE)
             else
               r <- virtusb_backend_submit (Some h) (Some h) (Some u) transfer
                      (en_request_oom env) (en_link env) ;;
               virtusb_transfer_put transfer ;; ret r
         end) s
    end.
Proof using Hinv Hh Huh Hu Hwf.
  unfold virtusb_hcd_urb_enqueue, urb_check. unfold bind at 1.
  rewrite (get_urb_device_eq s (inv_bus _ _ _ Hinv) h hv Hh uhcd Huh u uv Hu).
  destruct (urb_device s h uhcd uv) as [d|]; [ | done].
  unfold bind at 1, load at 1. rewrite Hu.
  destruct (virtusb_hcd_get_transfer_type uv) as [ty|r]; [ | done].
  destruct (_ || _); [done | ]. destruct (bool_decide _ && _); [done | ].
  rewrite (wrap_small 8) by (destruct Hwf; unfold in_width; lia).
  fold (urb_direction uv). fold (urb_out uv). by destruct (urb_out uv && _).
Qed.

Context (d : obj_ptr) (ty : virtusb_transfer_type) (Hcheck : urb_check s h uhcd uv = Ok (d, ty)).

Lemma enqueue_oom : urb_memory uv env = None ->
  virtusb_hcd_urb_enqueue (Some h) (Some u) env s = Some (- ENOMEM, s).
Proof using Hinv Hh Huh Hu Hwf Hcheck.
  intros Hm. rewrite enqueue_checked, Hcheck. unfold bind. rewrite transfer_create_oom; [done | ].
  unfold urb_memory in Hm. destruct (en_transfer env); [right | by left].
  destruct (Z.ltb_spec 0 (ur_transfer_buffer_length uv)); [ | done]. by destruct (en_buffer env).
Qed.

Context (t : transfer_ptr) (block : list Z) (Hmem : urb_memory uv env = Some (t, block)).

Lemma urb_memory_ok : k_transfers s !! t = None /\
  Z.of_nat (length block) = ur_transfer_buffer_length uv.
Proof using Hwf Henv Hmem.
  destruct Henv as [Ht Hb _]. destruct Hwf as [_ Hl _ _ _]. unfold urb_memory in Hmem.
  destruct (en_transfer env) as [t'|]; [ | done].
  destruct (Z.ltb_spec 0 (ur_transfer_buffer_length uv)).
  - destruct (en_buffer env) as [b|]; [ | done]. injection Hmem as <- <-. auto.
  - injection Hmem as <- <-. cbn. split; [auto | lia].
Qed.

Lemma urb_create_eq :
  virtusb_transfer_create (Some d) (transfer_type_to_Z ty)
    (transfer_direction_to_Z (urb_direction uv)) (ur_pipeendpoint uv) (urb_setup uv ty)
    (urb_data uv) (ur_transfer_buffer_length uv) (en_transfer env) (en_buffer env) s =
  Some (Some t, urb_created s uv d ty t block) /\
  backend_inv X (add_ref t 1 T) (urb_created s uv d ty t block).
Proof using Hinv Hwf Henv Hid Hcheck Hmem Hh.
  destruct urb_memory_ok as [Ht Hlen]. pose proof (urb_args_ok d ty Hcheck) as Hargs.
  assert (Hdev : urb_device s h uhcd uv = Some d).
  { unfold urb_check in Hcheck. by repeat case_match; simplify_eq. }
  destruct (urb_device_live s (inv_bus _ _ _ Hinv) h uhcd uv _ d (inv_objects _ _ _ Hinv) Hdev)
    as [ov Hd].
  split; [ | by eapply created_inv].
  pose proof (transfer_create_eq d ty (urb_direction uv) (ur_pipeendpoint uv) (urb_setup uv ty)
    (urb_data uv) (ur_transfer_buffer_length uv) _ _ s (bc_refs _ _ _ (bi_core _ _ _ Hinv)) ov Hd t
    Ht block Hargs Hid) as E.
  unfold urb_memory in Hmem. destruct (en_transfer env) as [t'|]; [ | done].
  destruct (Z.ltb_spec 0 (ur_transfer_buffer_length uv)).
  - destruct (en_buffer env) as [b|]; [ | done]. by injection Hmem as -> ->.
  - pose proof (uw_length _ Hwf). injection Hmem as -> <-.
    assert (ur_transfer_buffer_length uv = 0) as El by lia.
    unfold urb_created. rewrite El in E |- *.
    by rewrite transfer_create_nodata.
Qed.

(** What enqueueing leaves behind: an accepted URB is the newest pending request,
    with the transfer that describes it; a refused one leaves nothing. *)
Record urb_enqueued (r : Z) (s' : kernel) : Prop := {
  ue_urbs : k_urbs s' = k_urbs s;
  ue_hubs : k_hubs s' = k_hubs s;
  ue_connected : forall h n, port_connected (k_ports s') h n = port_connected (k_ports s) h n;
  ue_accepted : r = 0 ->
    k_hcds s' = k_hcds (with_backend h (queued t u) s) /\
    k_trace s' = k_trace s ++ [EvLinkUrb h u; EvWakeUp h] /\
    k_transfers s' = <[t := set_tr_state VIRTUSB_TRANSFER_STATE_QUEUED
                              (urb_transfer s uv d ty block)]> (k_transfers s);
  ue_refused : r <> 0 ->
    k_hcds s' = k_hcds s /\ k_trace s' = k_trace s /\ k_transfers s' = k_transfers s;
}.
End enqueue.

Lemma backend_inv_ext X X' T T' s : (forall o, X o = X' o) -> (forall t, T t = T' t) ->
  backend_inv X T s -> backend_inv X' T' s.
Proof. intros HX HT [Hc Hb Hl]. split; [by apply (backend_core_ext X X' T T') | done | done]. Qed.

(** Dropping one of two references, and the last one. *)
Lemma transfer_drop_shared t tv s : k_transfers s !! t = Some tv -> tr_refcount tv <> 1 ->
  k_transfers (transfer_drop t s) =
    <[t := set_tr_refcount (tr_refcount tv - 1) tv]> (k_transfers s).
Proof.
  intros Ht Hn. unfold transfer_drop. rewrite Ht, (proj2 (Z.eqb_neq _ _) Hn). cbn.
  by rewrite (alter_insert_lookup _ _ tv).
Qed.
Lemma transfer_drop_last t tv s : k_transfers s !! t = Some tv -> tr_refcount tv = 1 ->
  k_transfers (transfer_drop t s) = delete t (k_transfers s).
Proof.
  intros Ht Hn. unfold transfer_drop. rewrite Ht, Hn. cbn. by rewrite object_drop_transfers.
Qed.

Section enqueue_result.
Context (X : obj_ptr -> Z) (T : transfer_ptr -> Z) (s : kernel) (Hinv : backend_inv X T s).
Context (h : hcd_ptr) (hv : virtusb_hub) (Hh : k_hubs s !! h = Some hv).
Context (uhcd : usb_hcd) (Huh : k_usb_hcds s !! h = Some uhcd).
Context (v : virtusb_hcd) (Hv : k_hcds s !! h = Some v).
Context (u : urb_ptr) (uv : urb) (Hu : k_urbs s !! u = Some uv) (Hwf : urb_wf uv).
Context (env : enqueue_env) (Henv : env_wf s uv env).
Context (Hid : k_next_transfer_id s + 1 < 2 ^ 64).
Context (d : obj_ptr) (ty : virtusb_transfer_type) (Hcheck : urb_check s h uhcd uv = Ok (d, ty)).
Context (t : transfer_ptr) (block : list Z) (Hmem : urb_memory uv env = Some (t, block)).

Abbreviation tv := (urb_transfer s uv d ty block).
Abbreviation s1 := (urb_created s uv d ty t block).
Abbreviation s2 := (submit_state s1 h h v t tv u (en_request_oom env) (en_link env)).

Lemma created_lookup : k_transfers s1 !! t = Some tv.
Proof. apply lookup_insert_eq. Qed.

(** An IN URB has room for the data. *)
Lemma urb_room : tr_direction tv = VIRTUSB_TRANSFER_DIRECTION_IN -> 0 < tr_requested_length tv ->
  exists ub, ur_transfer_buffer uv = Some ub /\ tr_requested_length tv <= Z.of_nat (length ub).
Proof using Hwf Hcheck.
  destruct Hwf as [_ _ _ Hb Hin]. cbn. unfold urb_direction. intros Hd Hl.
  destruct (ur_pipein uv) eqn:Ep; [ | done].
  assert (ur_num_sgs uv = 0) as Esg.
  { unfold urb_check in Hcheck. repeat (case_match; simplify_eq).
    match goal with H : negb _ || negb _ = false |- _ =>
      apply orb_false_iff in H as [H _]; apply negb_false_iff, Z.eqb_eq in H; exact H end. }
  destruct (ur_transfer_buffer uv) as [ub|] eqn:Eb; [ | by destruct (Hin eq_refl Hl Esg)].
  exists ub. auto.
Qed.

Lemma submitted_spec :
  virtusb_backend_submit (Some h) (Some h) (Some u) (Some t) (en_request_oom env) (en_link env) s1 =
    Some (submit_error v tv (en_request_oom env) (en_link env), s2) /\
  backend_inv X (add_ref t 1 T) s2 /\ backend_step s1 s2.
Proof using Hinv Hh Hv Hu Hwf Henv Hid Hcheck Hmem.
  destruct (urb_create_eq X T s Hinv h hv Hh uhcd uv Hwf env Henv Hid d ty Hcheck t block Hmem)
    as [_ Hinv1].
  pose proof (bc_T _ _ _ (bi_core _ _ _ Hinv) t) as HT.
  refine (backend_submit_spec X (add_ref t 1 T) s1 Hinv1 h h v Hv t tv created_lookup eq_refl _
    u uv Hu urb_room _ _ (ew_link _ _ _ Henv)).
  rewrite add_ref_eq. lia.
Qed.

Lemma urb_enqueue_eq :
  virtusb_hcd_urb_enqueue (Some h) (Some u) env s = Some (urb_result s h v u uv env d ty t block) /\
  backend_inv X T (urb_result s h v u uv env d ty t block).2 /\
  storage_step s2 (urb_result s h v u uv env d ty t block).2.
Proof using Hinv Hh Huh Hv Hu Hwf Henv Hid Hcheck Hmem.
  destruct (urb_create_eq X T s Hinv h hv Hh uhcd uv Hwf env Henv Hid d ty Hcheck t block Hmem)
    as [Ecreate _].
  destruct submitted_spec as (Esub & Hinv2 & _).
  pose proof (bc_T _ _ _ (bi_core _ _ _ Hinv) t) as HT.
  destruct (inv_transfer_drop X (add_ref t 1 T) s2 t Hinv2) as (Hinv3 & Hst & Eput);
    [rewrite add_ref_eq; lia | ].
  split; [ | split; [ | exact Hst]].
  - rewrite (enqueue_checked X T s Hinv h hv Hh uhcd Huh u uv Hu Hwf env), Hcheck.
    unfold bind at 1. rewrite Ecreate. unfold bind at 1, load. rewrite created_lookup.
    unfold urb_result. revert Esub Eput. unfold submit_state, submit_error.
    destruct (VIRTUSB_TRANSFER_DATA_MAX <? tr_requested_length tv) eqn:El; cbn [orb]; intros Esub Eput.
    + unfold bind. by rewrite Eput.
    + unfold bind. rewrite Esub. by rewrite Eput.
  - eapply backend_inv_ext; [done | | exact Hinv3]. intros x. apply add_ref_cancel.
Qed.

Lemma submit_error_neg : submit_error v tv (en_request_oom env) (en_link env) <= 0.
Proof using Henv.
  pose proof (ew_link _ _ _ Henv). unfold submit_error. by repeat case_match.
Qed.

Lemma urb_result_enqueued :
  urb_enqueued s h u uv d ty t block (urb_result s h v u uv env d ty t block).1
    (urb_result s h v u uv env d ty t block).2.
Proof using Hinv Hh Huh Hv Hu Hwf Henv Hid Hcheck Hmem.
  destruct urb_enqueue_eq as (_ & _ & Hst). destruct submitted_spec as (_ & _ & Hbk).
  destruct (urb_memory_ok s uv Hwf env Henv t block Hmem) as [Hfresh _].
  assert (Hdel : forall x, delete t (<[t := x]> (k_transfers s1)) = k_transfers s).
  { intros x. rewrite delete_insert_eq. cbn. rewrite delete_insert_eq. by apply delete_id. }
  cbn [urb_result fst snd] in *. split.
  - rewrite (ss_urbs _ _ Hst). unfold submit_state. by repeat case_match.
  - rewrite (ss_hubs _ _ Hst). by rewrite (bk_hubs _ _ Hbk).
  - intros h' n. by rewrite (ss_connected _ _ Hst), (bk_connected _ _ Hbk).
  - intros E. rewrite (ss_hcds _ _ Hst), (ss_trace _ _ Hst).
    assert (s2 = accepted s1 h h t tv u) as ->.
    { unfold submit_state. rewrite E. unfold submit_error in E. by repeat (case_match; try done). }
    split_and!; [done.. | ]. rewrite (transfer_drop_shared _ _ _ (lookup_insert_eq _ _ _)) by done.
    cbn. by rewrite !insert_insert_eq.
  - intros Hne. rewrite (ss_hcds _ _ Hst), (ss_trace _ _ Hst).
    unfold submit_state. rewrite (proj2 (Z.eqb_neq _ _) Hne).
    destruct (_ || _).
    + split_and!; [done.. | ]. rewrite (transfer_drop_last _ _ _ created_lookup) by done.
      cbn. rewrite delete_insert_eq. by apply delete_id.
    + split_and!; [done.. | ]. rewrite (transfer_drop_last _ _ _ (lookup_insert_eq _ _ _)) by done. apply Hdel.
Qed.
End enqueue_result.

(** The checks alone. *)
Lemma urb_check_ok s h uhcd uv d ty : urb_check s h uhcd uv = Ok (d, ty) ->
  urb_device s h uhcd uv = Some d /\ virtusb_hcd_get_transfer_type uv = Ok ty.
Proof. unfold urb_check. intros E. by repeat (case_match; simplify_eq). Qed.

Lemma urb_check_error s h uhcd uv e : urb_check s h uhcd uv = Err e -> e <> 0.
Proof.
  unfold urb_check, virtusb_hcd_get_transfer_type. intros E. by repeat (case_match; simplify_eq).
Qed.

(** ** Enqueueing in one piece *)

(** The error that a URB ends with, if any. *)
Definition enqueue_error (s : kernel) (h : hcd_ptr) (uhcd : usb_hcd) (v : virtusb_hcd) (uv : urb)
    (env : enqueue_env) : Z :=
  match urb_check s h uhcd uv with
  | Err e => e
  | Ok (d, ty) =>
      match urb_memory uv env with
      | None => - ENOMEM
      | Some (t, block) =>
          submit_error v (urb_transfer s uv d ty block) (en_request_oom env) (en_link env)
      end
  end.

Section enqueue_cases.
Context (X : obj_ptr -> Z) (T : transfer_ptr -> Z) (s : kernel) (Hinv : backend_inv X T s).
Context (h : hcd_ptr) (hv : virtusb_hub) (Hh : k_hubs s !! h = Some hv).
Context (uhcd : usb_hcd) (Huh : k_usb_hcds s !! h = Some uhcd).
Context (v : virtusb_hcd) (Hv : k_hcds s !! h = Some v).
Context (u : urb_ptr) (uv : urb) (Hu : k_urbs s !! u = Some uv) (Hwf : urb_wf uv).
Context (env : enqueue_env) (Henv : env_wf s uv env).
Context (Hid : k_next_transfer_id s + 1 < 2 ^ 64).

Lemma enqueue_cases : exists s',
  virtusb_hcd_urb_enqueue (Some h) (Some u) env s = Some (enqueue_error s h uhcd v uv env, s') /\
  backend_inv X T s' /\ k_urbs s' = k_urbs s /\ k_hubs s' = k_hubs s /\
  (enqueue_error s h uhcd v uv env <> 0 ->
     k_hcds s' = k_hcds s /\ k_trace s' = k_trace s /\ k_transfers s' = k_transfers s) /\
  (enqueue_error s h uhcd v uv env = 0 -> exists d ty t block,
     urb_check s h uhcd uv = Ok (d, ty) /\ urb_memory uv env = Some (t, block) /\
     k_transfers s !! t = None /\
     k_hcds s' = k_hcds (with_backend h (queued t u) s) /\
     k_trace s' = k_trace s ++ [EvLinkUrb h u; EvWakeUp h] /\
     k_transfers s' = <[t := set_tr_state VIRTUSB_TRANSFER_STATE_QUEUED
                               (urb_transfer s uv d ty block)]> (k_transfers s)).
Proof using Hinv Hh Huh Hv Hu Hwf Henv Hid.
  pose proof (enqueue_checked X T s Hinv h hv Hh uhcd Huh u uv Hu Hwf env) as E. unfold enqueue_error.
  destruct (urb_check s h uhcd uv) as [[d ty]|e] eqn:Hc.
  2: { pose proof (urb_check_error s h uhcd uv e Hc). exists s. by split_and!. }
  destruct (urb_memory uv env) as [[t block]|] eqn:Hmem.
  2: { exists s. split_and!; try done. by eapply enqueue_oom. }
  destruct (urb_enqueue_eq X T s Hinv h hv Hh uhcd Huh v Hv u uv Hu Hwf env Henv Hid d ty Hc t block Hmem)
    as (Er & Hi' & _).
  destruct (urb_result_enqueued X T s Hinv h hv Hh uhcd Huh v Hv u uv Hu Hwf env Henv Hid d ty Hc t block
    Hmem) as [Eu Ehub _ Hacc Href].
  destruct (urb_memory_ok s uv Hwf env Henv t block Hmem) as [Hfresh _].
  eexists. split; [exact Er | ]. split_and!; try done. intros Hr. destruct (Hacc Hr) as (? & ? & ?).
  by exists d, ty, t, block.
Qed.
End enqueue_cases.
