(* ===== verification/FetchSpec.v ===== *)
(** * Fetching in context: undone, woken, left asleep

    A fetch whose result cannot be delivered is undone by the rollback; a
    sleeping fetch looks at the queues again when others have woken it; the
    unregistration of its own backend wakes it, but gives it nothing to do. *)

From S2P Require Import Prelude Uapi Kernel Port Hub Object Device Transfer Backend BackendInv BackendOps Hcd HcdSpec UrbSpec.

(** ** Rolling back *)

Lemma disowned_owned owner r : rq_owner r = None -> disowned (owned owner r) = r.
Proof. destruct r. cbn. by intros ->. Qed.

Section rollback.
Context (X : obj_ptr -> Z) (T : transfer_ptr -> Z) (s : kernel) (Hinv : backend_inv X T s).
Context (h : hcd_ptr) (v : virtusb_hcd) (Hv : k_hcds s !! h = Some v).
Context (owner : file_ptr) (i : nat) (r : virtusb_hcd_request).
Context (Hnext : next_request s v owner = Some (i, r)).
Context (tv : virtusb_transfer) (Ht : k_transfers s !! rq_transfer r = Some tv).

Lemma next_pending : be_pending (vh_backend v) !! i = Some r.
Proof using Hinv Hv Hnext. exact (proj1 (next_request_facts X T s Hinv h v Hv owner i r Hnext)). Qed.

Lemma next_unowned : disowned (owned owner r) = r.
Proof using Hinv Hv Hnext.
  apply disowned_owned, (qo_pending _ _ (bc_queue _ _ _ (bi_core _ _ _ Hinv) h v Hv)).
  eapply list_elem_of_lookup_2, next_pending.
Qed.

(** It is the first one for its device. *)
Lemma next_is_first d : for_device s d r = true ->
  forall j y, be_pending (vh_backend v) !! j = Some y -> (j < i)%nat -> for_device s d y = false.
Proof using Hnext.
  intros Hr j y Hj Hlt. unfold next_request in Hnext.
  destruct (virtusb_backend_find_owner_locked _ _) as [[k x]|]; [ | done].
  apply list_find_Some in Hnext as (_ & Hx & Hfirst).
  apply not_true_is_false. intros Hy. apply (Hfirst j y Hj Hlt).
  unfold for_device in *. apply bool_decide_eq_true in Hr, Hx, Hy.
  apply bool_decide_eq_true. congruence.
Qed.

(** A transfer ID names one request of the HCD. *)
Lemma active_other_id r' : r' ∈ be_active (vh_backend v) -> has_id s owner (tr_id tv) r' = false.
Proof using Hinv Hv Hnext Ht.
  intros Hr'. unfold has_id. destruct (bool_decide (rq_owner r' = _)); [cbn | done].
  apply bool_decide_eq_false. intros E. destruct (k_transfers s !! rq_transfer r') as [tv'|] eqn:Ht'; [ | done].
  injection E as E. pose proof (bi_core _ _ _ Hinv) as Hc.
  pose proof (to_unique _ _ (ro_transfers _ _ _ (bc_refs _ _ _ Hc)) _ _ _ _ Ht' Ht E) as Et.
  pose proof (bc_single _ _ _ Hc (rq_transfer r)) as Hs.
  pose proof (hcd_sum_le (backend_requests (rq_transfer r)) h v (k_hcds s) Hv
    (backend_requests_nonneg (rq_transfer r))) as Hle.
  fold (request_refs s (rq_transfer r)) in Hle. unfold backend_requests, all_requests in Hle.
  rewrite count_app in Hle.
  pose proof (count_pos (fun x => rq_transfer x = rq_transfer r) (be_pending (vh_backend v)) r
    (list_elem_of_lookup_2 _ _ _ next_pending) eq_refl).
  pose proof (count_pos (fun x => rq_transfer x = rq_transfer r) (be_active (vh_backend v)) r' Hr' Et).
  lia.
Qed.

Lemma find_fetched :
  list_find (fun x => has_id s owner (tr_id tv) x = true) (be_active (vh_backend v) ++ [owned owner r]) =
    Some (length (be_active (vh_backend v)), owned owner r).
Proof using Hinv Hv Hnext Ht.
  rewrite list_find_app_r.
  - cbn. rewrite decide_True; [done | ].
    unfold has_id. cbn. by rewrite Ht, !bool_decide_eq_true_2.
  - apply list_find_None, Forall_forall. intros x Hx. by rewrite (active_other_id x Hx).
Qed.

(** The queues after fetching and rolling back. *)
Definition refetchable (b : virtusb_backend) : virtusb_backend :=
  set_queues (r :: delete i (be_pending b)) (be_active b) b.

Lemma rolled_back_fetched :
  rolled_back (length (be_active (vh_backend v))) (owned owner r) (fetched owner i r (vh_backend v)) =
    refetchable (vh_backend v).
Proof using Hinv Hv Hnext.
  unfold rolled_back, fetched, refetchable, set_queues. cbn. rewrite next_unowned. f_equal.
  apply delete_snoc.
Qed.
End rollback.

(** ** Sleeping and waking up *)

Lemma woken_app h l l' : woken h l (l ++ l') = existsb (is_wake_up h) l'.
Proof. unfold woken. by rewrite drop_app_length. Qed.
Lemma is_wake_up_here h : is_wake_up h (EvWakeUp h) = true.
Proof. by apply bool_decide_eq_true. Qed.

Section sleeping.
Context (h : hcd_ptr) (f : file_ptr).
Abbreviation condition := (virtusb_backend_pending_for_owner_or_stopping h f).

(** A sleeper sleeps through [os]: nothing that the others do leaves it
    something to do. *)
Inductive sleeps_through (s : kernel) : list (K unit) -> kernel -> Prop :=
  | through_none : condition s = Some (false, s) -> sleeps_through s [] s
  | through_more o os s1 s2 : condition s = Some (false, s) -> o s = Some (tt, s1) ->
      sleeps_through s1 os s2 -> sleeps_through s (o :: os) s2.

Lemma through_start s os s1 : sleeps_through s os s1 -> condition s = Some (false, s).
Proof. by destruct 1. Qed.
Lemma through_end s os s1 : sleeps_through s os s1 -> condition s1 = Some (false, s1).
Proof. by induction 1. Qed.

(** Waking up when there is nothing to do makes no difference. *)
Lemma wait_awake s awake rest : condition s = Some (false, s) ->
  wait_event h condition awake rest s = wait_event h condition true rest s.
Proof.
  intros E. destruct awake; [done | ]. destruct rest as [|[o|o] rest]; cbn [wait_event]; unfold bind, ret; by rewrite E.
Qed.
Lemma wait_others s o s1 rest : condition s = Some (false, s) -> o s = Some (tt, s1) ->
  wait_event h condition true (Others o :: rest) s =
    wait_event h condition (woken h (k_trace s) (k_trace s1)) rest s1.
Proof. intros E Eo. cbn [wait_event]. unfold bind, trace_now. by rewrite E, Eo. Qed.
Lemma wait_through s os s1 rest : sleeps_through s os s1 ->
  wait_event h condition true (map Others os ++ rest) s = wait_event h condition true rest s1.
Proof.
  induction 1 as [|s o os s1 s2 E Eo Hr IH]; [done | ]. cbn [map app]. rewrite (wait_others s o s1) by done.
  rewrite wait_awake; [exact IH | by eapply through_start].
Qed.
Lemma wait_ready s rest : condition s = Some (true, s) ->
  wait_event h condition true rest s = Some ((0, rest), s).
Proof. intros E. destruct rest; cbn [wait_event]; unfold bind, ret; by rewrite E. Qed.
Lemma wait_signal s o s1 rest : condition s = Some (false, s) -> o s = Some (tt, s1) ->
  condition s1 = Some (false, s1) ->
  wait_event h condition true (Signalled o :: rest) s = Some ((- ERESTARTSYS, rest), s1).
Proof. intros E Eo E1. cbn [wait_event]. unfold bind, ret. by rewrite E, Eo, E1. Qed.

(** A fetch that need not sleep ignores what would happen while it sleeps. *)
Lemma fetch_loop_at_once n sleeps s x nonblock : fetch_section h f nonblock s = Some x -> x.1 <> FetchWait ->
  fetch_loop (S n) h f nonblock sleeps s =
    Some (match x.1 with FetchGot t => Ok t | FetchReturn r => Err r | FetchWait => Err 0 end, x.2).
Proof. intros E Hx. cbn [fetch_loop]. unfold bind. rewrite E. by destruct x as [[] ?]. Qed.

(** A fetch that need not sleep gives the same whatever would happen in a sleep. *)
Lemma backend_fetch_at_once buffer n1 n2 l1 l2 s x : fetch_section h f n1 s = Some x -> x.1 <> FetchWait ->
  fetch_section h f n2 s = Some x ->
  virtusb_backend_fetch (Some h) (Some f) (Some buffer) n1 l1 s =
    virtusb_backend_fetch (Some h) (Some f) (Some buffer) n2 l2 s.
Proof.
  intros E1 Hx E2. unfold virtusb_backend_fetch, bind.
  by rewrite (fetch_loop_at_once (S (length l1)) l1 s x n1), (fetch_loop_at_once (S (length l2)) l2 s x n2).
Qed.

(** The call once its sleep is over: with an error it ends, otherwise it goes on
    as a call in the new state. *)
Lemma fetch_sleep_error buffer sleeps rest r s s1 : fetch_section h f false s = Some (FetchWait, s) ->
  wait_event h condition true sleeps s = Some ((r, rest), s1) -> r < 0 ->
  virtusb_backend_fetch (Some h) (Some f) (Some buffer) false sleeps s = Some ((r, Some buffer), s1).
Proof.
  intros Ew E Hr. unfold virtusb_backend_fetch. unfold bind at 1. cbn [fetch_loop]. unfold bind at 1. rewrite Ew.
  cbn iota beta. unfold bind at 1, wait_event_interruptible. rewrite E. by rewrite (proj2 (Z.ltb_lt _ _) Hr).
Qed.
Lemma fetch_sleep_over buffer sleeps rest l s s1 x : fetch_section h f false s = Some (FetchWait, s) ->
  wait_event h condition true sleeps s = Some ((0, rest), s1) ->
  fetch_section h f false s1 = Some x -> x.1 <> FetchWait ->
  virtusb_backend_fetch (Some h) (Some f) (Some buffer) false sleeps s =
    virtusb_backend_fetch (Some h) (Some f) (Some buffer) false l s1.
Proof.
  intros Ew E Es Hx. unfold virtusb_backend_fetch, bind.
  assert (fetch_loop (S (S (length sleeps))) h f false sleeps s = fetch_loop (S (length sleeps)) h f false rest s1) as ->.
  { cbn [fetch_loop]. unfold bind. rewrite Ew. cbn iota beta. unfold wait_event_interruptible. by rewrite E. }
  by rewrite (fetch_loop_at_once (length sleeps) rest s1 x false),
    (fetch_loop_at_once (S (length l)) l s1 x false).
Qed.
End sleeping.

(** ** Unregistering the backend of a sleeping fetch *)

(** At most one binding belongs to a file. *)
Lemma find_owner_deleted b owner i x : NoDup (map bd_owner (be_bindings b)) ->
  virtusb_backend_find_owner_locked b owner = Some (i, x) ->
  forall b', be_bindings b' = delete i (be_bindings b) ->
  virtusb_backend_find_owner_locked b' owner = None.
Proof.
  unfold virtusb_backend_find_owner_locked. intros Hnd Hf b' ->.
  apply list_find_Some in Hf as (Hi & Ho & _).
  rewrite list_find_None, Forall_forall. intros y Hy Hyo.
  rewrite <- (take_drop_middle _ i x Hi), map_app in Hnd. cbn in Hnd.
  rewrite delete_take_drop in Hy. apply NoDup_app in Hnd as (_ & Hd & Hnd).
  apply NoDup_cons in Hnd as [Hn _]. rewrite Ho, <- Hyo in *. apply elem_of_app in Hy as [Hy|Hy].
  - apply (Hd (bd_owner y)); [by apply list_elem_of_fmap_2 | by left].
  - apply Hn. by apply list_elem_of_fmap_2.
Qed.

Section unregistered.
Context (X : obj_ptr -> Z) (T : transfer_ptr -> Z) (s : kernel) (Hinv : backend_inv X T s).
Context (h : hcd_ptr) (v : virtusb_hcd) (Hv : k_hcds s !! h = Some v).
Context (owner : file_ptr).
Context (Hno : next_request s v owner = None).
Context (i : nat) (x : virtusb_backend_binding).
Context (Hbound : virtusb_backend_find_owner_locked (vh_backend v) owner = Some (i, x)).
Context (Hrun : be_stopping (vh_backend v) = false).

(** The state that unregistering leaves: the sleepers were woken, and there is
    nothing to do for this one. *)
Lemma unregistered_asleep uhcd : exists s1 b,
  virtusb_backend_release_owner (Some h) (Some uhcd) (Some owner) s = Some (tt, s1) /\
  backend_inv X T s1 /\ k_hcds s1 !! h = Some (set_backend b v) /\
  virtusb_backend_find_owner_locked b owner = None /\
  woken h (k_trace s) (k_trace s1) = true /\
  virtusb_backend_pending_for_owner_or_stopping h owner s1 = Some (false, s1).
Proof using Hinv Hv Hbound Hrun.
  destruct (release_owner_spec X T s Hinv h uhcd v Hv owner) as (s1 & E & Hinv1 & _ & _ & Hb).
  rewrite Hbound in Hb. destruct Hb as (b & Hv1 & Ebd & Est & _ & _ & Etr & _). exists s1, b.
  pose proof (qo_owners _ _ (bc_queue _ _ _ (bi_core _ _ _ Hinv) h v Hv)) as Hnd.
  pose proof (find_owner_deleted _ _ _ _ Hnd Hbound b Ebd) as Hgone. split_and!; try done.
  - rewrite Etr, woken_app, existsb_app. cbn [existsb]. by rewrite is_wake_up_here, orb_true_r.
  - apply (fetch_condition_false X T s1 Hinv1 h _ Hv1 owner).
    + unfold next_request. cbn [vh_backend set_backend]. by rewrite Hgone.
    + cbn [vh_backend set_backend]. by rewrite Est.
Qed.

(** A file without a backend gets -ENODEV. *)
Lemma unbound_section X1 T1 s1 v1 nonblock : backend_inv X1 T1 s1 -> k_hcds s1 !! h = Some v1 ->
  virtusb_backend_find_owner_locked (vh_backend v1) owner = None ->
  fetch_section h owner nonblock s1 = Some (FetchReturn (- ENODEV), s1).
Proof using.
  intros Hi Hv1 Hgone. pose proof (fetch_section_spec X1 T1 s1 Hi h v1 Hv1 owner nonblock) as Hsec.
  unfold next_request in Hsec. rewrite Hgone in Hsec. by rewrite decide_True in Hsec.
Qed.
Lemma unbound_fetch X1 T1 s1 v1 buffer nonblock sleeps : backend_inv X1 T1 s1 -> k_hcds s1 !! h = Some v1 ->
  virtusb_backend_find_owner_locked (vh_backend v1) owner = None ->
  virtusb_backend_fetch (Some h) (Some owner) (Some buffer) nonblock sleeps s1 =
    Some ((- ENODEV, Some buffer), s1).
Proof using.
  intros Hi Hv1 Hgone. unfold virtusb_backend_fetch. unfold bind at 1.
  by rewrite (fetch_loop_at_once h owner _ _ _ _ _ (unbound_section _ _ _ _ nonblock Hi Hv1 Hgone)).
Qed.
End unregistered.

(** ** Waking a sleeping fetch by a URB *)

Section woken.
Context (X : obj_ptr -> Z) (T : transfer_ptr -> Z) (s : kernel) (Hinv : backend_inv X T s).
Context (h : hcd_ptr) (hv : virtusb_hub) (Hh : k_hubs s !! h = Some hv).
Context (uhcd : usb_hcd) (Huh : k_usb_hcds s !! h = Some uhcd).
Context (v : virtusb_hcd) (Hv : k_hcds s !! h = Some v).
Context (u : urb_ptr) (uv : urb) (Hu : k_urbs s !! u = Some uv) (Hwf : urb_wf uv).
Context (env : enqueue_env) (Henv : env_wf s uv env).
Context (Hid : k_next_transfer_id s + 1 < 2 ^ 64).
Context (d : obj_ptr) (ty : virtusb_transfer_type) (Hcheck : urb_check s h uhcd uv = Ok (d, ty)).
Context (t : transfer_ptr) (block : list Z) (Hmem : urb_memory uv env = Some (t, block)).
Context (owner : file_ptr) (i : nat) (x : virtusb_backend_binding).
Context (Hbound : virtusb_backend_find_owner_locked (vh_backend v) owner = Some (i, x)).
Context (Hdev : bd_device x = d).
Context (Hno : next_request s v owner = None).

(** The accepted request is the next one of the owner. *)
Lemma accepted_next s1 : backend_inv X T s1 ->
  k_hcds s1 = k_hcds (with_backend h (queued t u) s) ->
  k_transfers s1 = <[t := set_tr_state VIRTUSB_TRANSFER_STATE_QUEUED
                            (urb_transfer s uv d ty block)]> (k_transfers s) ->
  exists v1 ov, k_hcds s1 !! h = Some v1 /\
    next_request s1 v1 owner = Some (length (be_pending (vh_backend v)), mk_request u t None) /\
    k_objects s1 !! d = Some ov.
Proof using Hinv Hv Hwf Henv Hmem Hbound Hdev Hno.
  intros Hinv1 Eh Et. exists (set_backend (queued t u (vh_backend v)) v).
  pose proof (with_backend_lookup s h v Hv (queued t u)) as Hv1. rewrite <- Eh in Hv1.
  assert (Hnext : next_request s1 (set_backend (queued t u (vh_backend v)) v) owner =
            Some (length (be_pending (vh_backend v)), mk_request u t None)).
  { unfold next_request in *. cbn [vh_backend set_backend].
    change (virtusb_backend_find_owner_locked (queued t u (vh_backend v)) owner)
      with (virtusb_backend_find_owner_locked (vh_backend v) owner).
    rewrite Hbound in *. cbn [be_pending queued set_queues]. rewrite list_find_app_r.
    - cbn. rewrite decide_True; [done | ]. unfold for_device, request_device. cbn.
      rewrite Et, lookup_insert_eq. cbn. by rewrite Hdev, bool_decide_eq_true_2.
    - rewrite list_find_None, Forall_forall in *. intros r Hr Hf. apply (Hno r Hr).
      rewrite <- Hf. unfold for_device, request_device. rewrite Et, lookup_insert_ne; [done | ].
      intros Heq. destruct (urb_memory_ok s uv Hwf env Henv t block Hmem) as [Hfresh _].
      destruct (rk_transfer _ _ (qo_requests _ _ (bc_queue _ _ _ (bi_core _ _ _ Hinv) h v Hv) r
        (proj2 (elem_of_app _ _ _) (or_introl Hr)))) as (tv & Ht & _). congruence. }
  destruct (next_request_facts X T s1 Hinv1 h _ Hv1 owner _ _ Hnext) as (_ & tv & ov & Ht & Ho & _).
  cbn [rq_transfer] in Ht. rewrite Et, lookup_insert_eq in Ht. injection Ht as <-.
  exists ov. split_and!; done.
Qed.
End woken.
