(* ===== verification/Control.v ===== *)
(** * The control device (kernel/src/virtusb_control.c)

    The ioctl handlers and the file operations.  User memory is an oracle: what
    [copy_from_user] delivers ([None] when it faults) and whether [copy_to_user]
    succeeds. *)

From S2P Require Import Prelude Uapi Kernel Port Hub Object Device Transfer Backend Hcd.

(** ** The outside of one call *)

Record user := mk_user {
  us_port_status : option virtusb_port_status;
  us_device_create : option virtusb_device_create_req;
  us_device_destroy : option virtusb_device_destroy_req;
  us_device_attach : option virtusb_device_attach_req;
  us_device_object : option virtusb_device_object_req;
  us_device_connection : option virtusb_device_connection_req;
  us_port_power : option virtusb_port_power_req;
  us_backend_register : option virtusb_backend_register_req;
  us_complete : result virtusb_transfer_complete_request;  (* memdup_user *)
  us_copy_out : bool;
}.

(** The structure copied out to user space. *)
Inductive reply :=
  | ReplyPortStatus (r : virtusb_port_status)
  | ReplyDeviceCreate (r : virtusb_device_create_req)
  | ReplyFetch (r : virtusb_transfer_fetch).

Record ioctl_env := mk_ioctl_env {
  ie_mem : option obj_ptr;      (* kzalloc of a device *)
  ie_xa_oom : bool;             (* xa_insert runs out of memory *)
  ie_oom : bool;                (* kzalloc of a binding or of the fetch buffer fails *)
  ie_sleeps : list sleep;
}.

(** ** Port status *)

Definition or_u32 (b : bool) (flag status : Z) : Z := if b then u32 (Z.lor status flag) else status.

Definition virtusb_control_state_test (state port : Z) : bool := bit_test state port.

(** [a && f()]: [f] is called only when [a] holds. *)
Definition and_then (a : bool) (f : K bool) : K bool := if a then f else ret false.

Definition virtusb_control_build_port_state (h : hub_ptr) (port : Z) : K virtusb_port_state :=
  connected <- and_then (0 <? port) (virtusb_hub_port_is_connected (Some h) port) ;;
  let status := or_u32 connected VIRTUSB_PORT_STATUS_CONNECTED 0 in
  hv <- load_hub h ;;
  let status := or_u32 (virtusb_control_state_test (usb_enabled (hub_usb hv)) port)
                  VIRTUSB_PORT_STATUS_ENABLED status in
  let status := or_u32 (virtusb_control_state_test (usb_suspended (hub_usb hv)) port)
                  VIRTUSB_PORT_STATUS_SUSPENDED status in
  hub_oc <- and_then (port =? 0) (virtusb_hub_is_over_current (Some h)) ;;
  over_current <- (if hub_oc : bool then ret true
                   else and_then (0 <? port) (virtusb_hub_port_is_over_current (Some h) port)) ;;
  let status := or_u32 over_current VIRTUSB_PORT_STATUS_OVER_CURRENT status in
  let status := or_u32 (virtusb_control_state_test (usb_reset (hub_usb hv)) port)
                  VIRTUSB_PORT_STATUS_RESET status in
  powered <- and_then (0 <? port) (virtusb_hub_port_is_powered (Some h) port) ;;
  let status := or_u32 powered VIRTUSB_PORT_STATUS_POWER status in
  let c := hub_change hv in
  let change := or_u32 (virtusb_control_state_test (ch_connected c) port)
                  VIRTUSB_PORT_CHANGE_CONNECTED 0 in
  let change := or_u32 (virtusb_control_state_test (ch_enabled c) port)
                  VIRTUSB_PORT_CHANGE_ENABLED change in
  let change := or_u32 (virtusb_control_state_test (ch_suspended c) port)
                  VIRTUSB_PORT_CHANGE_SUSPENDED change in
  let change := or_u32 (virtusb_control_state_test (ch_over_current c) port)
                  VIRTUSB_PORT_CHANGE_OVER_CURRENT change in
  let change := or_u32 (virtusb_control_state_test (ch_reset c) port)
                  VIRTUSB_PORT_CHANGE_RESET change in
  if port =? 0 then ret (mk_port_state status change (port_speed_to_Z VIRTUSB_PORT_SPEED_NONE))
  else
    speed <- virtusb_hub_get_port_speed (Some h) port ;;
    ret (mk_port_state status change (port_speed_to_Z speed)).

(** [control] is the control plane inside the HCD at [c]. *)
Definition load_control (c : hcd_ptr) : K virtusb_control :=
  v <- load_hcd c ;; ret (vh_control v).
(** [control->hcd], dereferenced. *)
Definition control_hcd (c : hcd_ptr) : K hcd_ptr :=
  cv <- load_control c ;; match ct_hcd cv with Some h => ret h | None => stuck end.
Definition control_linux_hcd (c : hcd_ptr) : K (option hcd_ptr) :=
  h <- control_hcd c ;; v <- load_hcd h ;; ret (vh_linux_hcd v).

Definition zero_port_state : virtusb_port_state := mk_port_state 0 0 0.

(** The entries for ports [1 .. n]. *)
Fixpoint build_port_states (n : nat) (port : Z) (h : hub_ptr) : K (list virtusb_port_state) :=
  match n with
  | O => ret []
  | S n =>
      st <- virtusb_control_build_port_state h port ;;
      rest <- build_port_states n (port + 1) h ;;
      ret (st :: rest)
  end.

Definition virtusb_control_get_port_status (c : hcd_ptr) (us : user) : K (Z * option reply) :=
  match us_port_status us with
  | None => ret (- EFAULT, None)
  | Some request =>
      if negb (ps_hub_id request =? VIRTUSB_ROOT_HUB_ID) then ret (- ENODEV, None)
      else
        h <- control_hcd c ;;
        hv <- load_hub h ;;
        if hub_port_count hv <? ps_port request then ret (- EINVAL, None)
        else
          state <- virtusb_control_build_port_state h (ps_port request) ;;
          let zeros := replicate (Z.to_nat VIRTUSB_MAX_HUB_PORTS) zero_port_state in
          ports <- (if ps_port request =? 0 then
                      if VIRTUSB_MAX_HUB_PORTS <? hub_port_count hv then stuck
                      else
                        filled <- build_port_states (Z.to_nat (hub_port_count hv)) 1 h ;;
                        ret (filled ++ drop (Z.to_nat (hub_port_count hv)) zeros)
                    else ret zeros) ;;
          let request := mk_port_status (ps_hub_id request) (ps_port request)
                           (hub_port_count hv) state ports in
          if us_copy_out us then ret (0, Some (ReplyPortStatus request))
          else ret (- EFAULT, None)
  end.

(** ** Devices *)

Definition virtusb_control_speed_caps_valid (speed_caps : Z) : bool :=
  negb (speed_caps =? 0) && (Z.land speed_caps (c_not 32 VIRTUSB_SPEED_CAP_ALL) =? 0).

Definition virtusb_control_device_create (us : user) (env : ioctl_env) : K (Z * option reply) :=
  match us_device_create us with
  | None => ret (- EFAULT, None)
  | Some request =>
      if negb (virtusb_control_speed_caps_valid (dc_speed_caps request))
      then ret (- EINVAL, None)
      else
        device <- virtusb_device_create (u8 (dc_speed_caps request)) (ie_mem env) (ie_xa_oom env) ;;
        match device with
        | Err r => ret (r, None)
        | Ok d =>
            ov <- load_object d ;;
            let request := mk_device_create_req (dc_speed_caps request) (ob_id ov) in
            if negb (us_copy_out us) then
              _ <- virtusb_device_destroy (Some d) true ;;
              virtusb_object_put (Some d) ;;
              ret (- EFAULT, None)
            else
              virtusb_object_put (Some d) ;;
              ret (0, Some (ReplyDeviceCreate request))
        end
  end.

Definition virtusb_control_device_destroy (us : user) : K Z :=
  match us_device_destroy us with
  | None => ret (- EFAULT)
  | Some request =>
      if (dd_object_id request =? VIRTUSB_OBJECT_ID_INVALID) ||
         negb (Z.land (dd_flags request) (c_not 32 VIRTUSB_DEVICE_DESTROY_FLAGS) =? 0)
      then ret (- EINVAL)
      else
        object <- virtusb_object_lookup (dd_object_id request) ;;
        match object with
        | None => ret (- ENOENT)
        | Some o =>
            ov <- load_object o ;;
            if bool_decide (ob_type ov <> VIRTUSB_OBJECT_TYPE_DEVICE) then
              virtusb_object_put object ;; ret (- EINVAL)
            else
              let force := negb (Z.land (dd_flags request) VIRTUSB_DEVICE_DESTROY_FORCE =? 0) in
              r <- virtusb_device_destroy (Some o) force ;;
              virtusb_object_put object ;;
              ret r
        end
  end.

(** On success the caller owns a reference to the device. *)
Definition virtusb_control_lookup_device (object_id : Z) : K (result obj_ptr) :=
  if object_id =? VIRTUSB_OBJECT_ID_INVALID then ret (Err (- EINVAL))
  else
    lookup <- virtusb_object_lookup object_id ;;
    match lookup with
    | None => ret (Err (- ENOENT))
    | Some o =>
        ov <- load_object o ;;
        if bool_decide (ob_type ov <> VIRTUSB_OBJECT_TYPE_DEVICE) then
          virtusb_object_put lookup ;; ret (Err (- EINVAL))
        else ret (Ok o)
    end.

Definition virtusb_control_get_hub (control : option hcd_ptr) (hub_id : Z) : K (option hub_ptr) :=
  match control with
  | None => ret None
  | Some c =>
      cv <- load_control c ;;
      match ct_hcd cv with
      | None => ret None
      | Some h => if negb (hub_id =? 0) then ret None else ret (Some h)
      end
  end.

Definition virtusb_control_device_attach (c : hcd_ptr) (us : user) : K Z :=
  match us_device_attach us with
  | None => ret (- EFAULT)
  | Some request =>
      hub <- virtusb_control_get_hub (Some c) (da_hub_id request) ;;
      match hub with
      | None => ret (- ENOENT)
      | Some _ =>
          port <- virtusb_hub_get_port hub (da_port request) ;;
          match port with
          | None => ret (- EINVAL)
          | Some _ =>
              device <- virtusb_control_lookup_device (da_object_id request) ;;
              match device with
              | Err r => ret r
              | Ok d =>
                  r <- virtusb_device_attach (Some d) port ;;
                  virtusb_object_put (Some d) ;;
                  ret r
              end
          end
      end
  end.

Definition virtusb_control_device_detach (us : user) : K Z :=
  match us_device_object us with
  | None => ret (- EFAULT)
  | Some request =>
      device <- virtusb_control_lookup_device (do_object_id request) ;;
      match device with
      | Err r => ret r
      | Ok d =>
          virtusb_device_detach (Some d) ;;
          virtusb_object_put (Some d) ;;
          ret 0
      end
  end.

Definition virtusb_control_device_connection (us : user) : K Z :=
  match us_device_connection us with
  | None => ret (- EFAULT)
  | Some request =>
      if 1 <? dn_enabled request then ret (- EINVAL)
      else
        device <- virtusb_control_lookup_device (dn_object_id request) ;;
        match device with
        | Err r => ret r
        | Ok d =>
            r <- virtusb_device_set_connection_signaling (Some d)
                   (negb (dn_enabled request =? 0)) ;;
            virtusb_object_put (Some d) ;;
            ret r
        end
  end.

Definition virtusb_control_set_port_power (c : hcd_ptr) (us : user) : K Z :=
  match us_port_power us with
  | None => ret (- EFAULT)
  | Some request =>
      if 1 <? pp_powered request then ret (- EINVAL)
      else
        hub <- virtusb_control_get_hub (Some c) (pp_hub_id request) ;;
        match hub with
        | None => ret (- ENOENT)
        | Some _ =>
            virtusb_hub_set_port_power hub (pp_port request) (negb (pp_powered request =? 0))
        end
  end.

(** ** Backends *)

Definition virtusb_control_backend_register (f : file_ptr) (c : hcd_ptr) (us : user)
    (env : ioctl_env) : K Z :=
  match us_backend_register us with
  | None => ret (- EFAULT)
  | Some request =>
      device <- virtusb_control_lookup_device (br_object_id request) ;;
      match device with
      | Err r => ret r
      | Ok d =>
          uv <- load_port (DevPort d) ;;
          belongs <- (match port_peer uv with
                      | None => ret false
                      | Some peer =>
                          pv <- load_port peer ;;
                          h <- control_hcd c ;;
                          ret (bool_decide (port_owner pv = Some (OwnerHub h)))
                      end) ;;
          if negb belongs then virtusb_object_put (Some d) ;; ret (- ENODEV)
          else
            h <- control_hcd c ;;
            r <- virtusb_backend_register (Some h) (Some f) (Some d) (ie_oom env) ;;
            virtusb_object_put (Some d) ;;
            ret r
      end
  end.

Definition zero_fetch : virtusb_transfer_fetch :=
  mk_transfer_fetch 0 0 0 0 0 0 0 0 (replicate (Z.to_nat VIRTUSB_TRANSFER_SETUP_SIZE) 0)
    (replicate (Z.to_nat VIRTUSB_TRANSFER_DATA_MAX) 0).

(** Fetch, copy and rollback are one step here, without a thread in between. *)
Definition virtusb_control_transfer_fetch (f : file_ptr) (c : hcd_ptr) (us : user)
    (env : ioctl_env) : K (Z * option reply) :=
  if ie_oom env then ret (- ENOMEM, None)
  else
    h <- control_hcd c ;;
    fv <- load_file f ;;
    both r, fetch <- virtusb_backend_fetch (Some h) (Some f) (Some zero_fetch)
                       (fl_nonblock fv) (ie_sleeps env) ;;
    if r <? 0 then ret (r, None)
    else match fetch with
         | None => stuck
         | Some fetch =>
             if negb (us_copy_out us) then
               h <- control_hcd c ;;
               _ <- virtusb_backend_fetch_rollback (Some h) (Some f) (tf_transfer_id fetch) ;;
               ret (- EFAULT, None)
             else ret (0, Some (ReplyFetch fetch))
         end.

Definition virtusb_control_transfer_complete (f : file_ptr) (c : hcd_ptr) (us : user) : K Z :=
  match us_complete us with
  | Err r => ret r
  | Ok completion =>
      h <- control_hcd c ;;
      uhcd <- control_linux_hcd c ;;
      virtusb_backend_complete (Some h) uhcd (Some f) (Some completion)
  end.

(** ** File operations *)

Definition no_reply (m : K Z) : K (Z * option reply) := r <- m ;; ret (r, None).

(** The control plane of an open file that is usable: the entry test of [ioctl]
    and [poll]. *)
Definition active_control (f : file_ptr) : K (option hcd_ptr) :=
  fv <- load_file f ;;
  match fl_private_data fv with
  | None => ret None
  | Some context =>
      match cf_control context with
      | None => ret None
      | Some c =>
          cv <- load_control c ;;
          if bool_decide (ct_hcd cv = None) || negb (ct_active cv) then ret None
          else ret (Some c)
      end
  end.

Definition virtusb_control_ioctl (enc : ioctl_encoding) (f : file_ptr) (command : Z) (us : user)
    (env : ioctl_env) : K (Z * option reply) :=
  control <- active_control f ;;
  match control with
  | None => ret (- ENODEV, None)
  | Some c =>
      if command =? VIRTUSB_IOCTL_GET_PORT_STATUS enc then virtusb_control_get_port_status c us
      else if command =? VIRTUSB_IOCTL_DEVICE_CREATE enc then virtusb_control_device_create us env
      else if command =? VIRTUSB_IOCTL_DEVICE_DESTROY enc then
        no_reply (virtusb_control_device_destroy us)
      else if command =? VIRTUSB_IOCTL_DEVICE_ATTACH enc then
        no_reply (virtusb_control_device_attach c us)
      else if command =? VIRTUSB_IOCTL_DEVICE_DETACH enc then
        no_reply (virtusb_control_device_detach us)
      else if command =? VIRTUSB_IOCTL_DEVICE_CONNECTION enc then
        no_reply (virtusb_control_device_connection us)
      else if command =? VIRTUSB_IOCTL_SET_PORT_POWER enc then
        no_reply (virtusb_control_set_port_power c us)
      else if command =? VIRTUSB_IOCTL_BACKEND_REGISTER enc then
        no_reply (virtusb_control_backend_register f c us env)
      else if command =? VIRTUSB_IOCTL_BACKEND_UNREGISTER enc then
        h <- control_hcd c ;;
        uhcd <- control_linux_hcd c ;;
        virtusb_backend_release_owner (Some h) uhcd (Some f) ;;
        ret (0, None)
      else if command =? VIRTUSB_IOCTL_TRANSFER_FETCH enc then
        virtusb_control_transfer_fetch f c us env
      else if command =? VIRTUSB_IOCTL_TRANSFER_COMPLETE enc then
        no_reply (virtusb_control_transfer_complete f c us)
      else ret (- ENOTTY, None)
  end.

(** [c] is the control plane that the inode of the character device belongs to. *)
Definition virtusb_control_open (c : hcd_ptr) (f : file_ptr) (oom : bool) : K Z :=
  if oom then ret (- ENOMEM)
  else
    fv <- load_file f ;;
    store_file f (mk_file (Some (mk_control_file (Some c))) (fl_nonblock fv)) ;;
    ret 0.

Definition virtusb_control_release (f : file_ptr) : K Z :=
  fv <- load_file f ;;
  let control := match fl_private_data fv with
                 | None => None
                 | Some context => cf_control context
                 end in
  (match control with
   | None => ret tt
   | Some c =>
       cv <- load_control c ;;
       match ct_hcd cv with
       | None => ret tt
       | Some h =>
           uhcd <- control_linux_hcd c ;;
           virtusb_backend_release_owner (Some h) uhcd (Some f)
       end
   end) ;;
  fv <- load_file f ;;
  store_file f (mk_file None (fl_nonblock fv)) ;;
  ret 0.

Definition EPOLLIN : Z := 0x0001.
Definition EPOLLERR : Z := 0x0008.
Definition EPOLLHUP : Z := 0x0010.
Definition EPOLLRDNORM : Z := 0x0040.

Definition virtusb_control_poll (f : file_ptr) : K Z :=
  control <- active_control f ;;
  match control with
  | None => ret (Z.lor EPOLLERR EPOLLHUP)
  | Some c =>
      h <- control_hcd c ;;
      pending <- virtusb_backend_has_pending (Some h) (Some f) ;;
      ret (if pending : bool then Z.lor EPOLLIN EPOLLRDNORM else 0)
  end.

#[global] Arguments virtusb_control_build_port_state : simpl never.
#[global] Arguments virtusb_control_get_port_status : simpl never.
#[global] Arguments virtusb_control_device_create : simpl never.
#[global] Arguments virtusb_control_device_destroy : simpl never.
#[global] Arguments virtusb_control_lookup_device : simpl never.
#[global] Arguments virtusb_control_get_hub : simpl never.
#[global] Arguments virtusb_control_device_attach : simpl never.
#[global] Arguments virtusb_control_device_detach : simpl never.
#[global] Arguments virtusb_control_device_connection : simpl never.
#[global] Arguments virtusb_control_set_port_power : simpl never.
#[global] Arguments virtusb_control_backend_register : simpl never.
#[global] Arguments virtusb_control_transfer_fetch : simpl never.
#[global] Arguments virtusb_control_transfer_complete : simpl never.
#[global] Arguments virtusb_control_ioctl : simpl never.
#[global] Arguments virtusb_control_open : simpl never.
#[global] Arguments virtusb_control_release : simpl never.
#[global] Arguments virtusb_control_poll : simpl never.
#[global] Arguments active_control : simpl never.
#[global] Arguments load_control : simpl never.
#[global] Arguments control_hcd : simpl never.
#[global] Arguments control_linux_hcd : simpl never.
