(* ===== verification/Frame.v ===== *)
(** * What the topology cannot touch

    Ports, hubs, devices and the control requests that work on them reach the
    rest of the module only through the storage of objects.  A property of the
    state that survives the heap accesses of ports and hubs and the six
    operations on objects therefore survives all of that code; the class
    [Framed] is this contract. *)

From S2P Require Import Prelude Uapi Kernel Port Hub Object Device Transfer Backend Hcd Control.

Class Framed (I : kernel -> Prop) : Prop := {
  fd_store_port p v : maintains I (store_port p v);
  fd_alloc_port p v : maintains I (alloc k_ports set_ports p v);
  fd_store_hub h v : maintains I (store_hub h v);
  fd_poll_rh_status h : maintains I (emit (EvPollRhStatus h));
  fd_object_alloc size release mem : maintains I (virtusb_object_alloc size release mem);
  fd_object_get o : maintains I (virtusb_object_get o);
  fd_object_put o : maintains I (virtusb_object_put o);
  fd_object_register o oom : maintains I (virtusb_object_register o VIRTUSB_OBJECT_TYPE_DEVICE oom);
  fd_object_unregister o : maintains I (virtusb_object_unregister o);
  fd_object_lookup id : maintains I (virtusb_object_lookup id);
  fd_object_lookup_first type : maintains I (virtusb_object_lookup_first_by_type type);
}.
#[export] Hint Resolve fd_store_port fd_alloc_port fd_store_hub fd_poll_rh_status fd_object_alloc
  fd_object_get fd_object_put fd_object_register fd_object_unregister fd_object_lookup
  fd_object_lookup_first : frame.

Section framed.
Context (I : kernel -> Prop) {HI : Framed I}.
Abbreviation framed := (maintains I).

(** Ports and hubs. *)
Lemma framed_port_init p role speed owner : framed (virtusb_port_init p role speed owner).
Proof. unfold virtusb_port_init. maintain. Qed.
#[local] Hint Resolve framed_port_init : frame.
Lemma framed_port_attach a b : framed (virtusb_port_attach a b).
Proof. unfold virtusb_port_attach. maintain. Qed.
#[local] Hint Resolve framed_port_attach : frame.
Lemma framed_port_detach p : framed (virtusb_port_detach p).
Proof. unfold virtusb_port_detach. maintain. Qed.
#[local] Hint Resolve framed_port_detach : frame.
Lemma framed_port_is_attached p : framed (virtusb_port_is_attached p).
Proof. unfold virtusb_port_is_attached. maintain. Qed.
#[local] Hint Resolve framed_port_is_attached : frame.
Lemma framed_port_has_vbus p : framed (virtusb_port_has_vbus p).
Proof. unfold virtusb_port_has_vbus. maintain. Qed.
#[local] Hint Resolve framed_port_has_vbus : frame.
Lemma framed_port_set_connection_signaling p b : framed (virtusb_port_set_connection_signaling p b).
Proof. unfold virtusb_port_set_connection_signaling. maintain. Qed.
#[local] Hint Resolve framed_port_set_connection_signaling : frame.
Lemma framed_port_set_powered p b : framed (virtusb_port_set_powered p b).
Proof. unfold virtusb_port_set_powered. maintain. Qed.
#[local] Hint Resolve framed_port_set_powered : frame.
Lemma framed_port_set_over_current p b : framed (virtusb_port_set_over_current p b).
Proof. unfold virtusb_port_set_over_current. maintain. Qed.
#[local] Hint Resolve framed_port_set_over_current : frame.
Lemma framed_update_hub h f : framed (update_hub h f).
Proof. unfold update_hub. maintain. Qed.
#[local] Hint Resolve framed_update_hub : frame.
Lemma framed_update_usb h f : framed (update_usb h f).
Proof. unfold update_usb. maintain. Qed.
#[local] Hint Resolve framed_update_usb : frame.
Lemma framed_update_change h f : framed (update_change h f).
Proof. unfold update_change. maintain. Qed.
#[local] Hint Resolve framed_update_change : frame.
Lemma framed_hcd_root_hub_status_changed h c : framed (virtusb_hcd_root_hub_status_changed h c).
Proof. unfold virtusb_hcd_root_hub_status_changed. maintain. Qed.
#[local] Hint Resolve framed_hcd_root_hub_status_changed : frame.
Lemma framed_call_status_changed f h c : framed (call_status_changed f h c).
Proof. destruct f. apply framed_hcd_root_hub_status_changed. Qed.
#[local] Hint Resolve framed_call_status_changed : frame.
Lemma framed_hub_notify_status_changed h : framed (virtusb_hub_notify_status_changed h).
Proof. unfold virtusb_hub_notify_status_changed. maintain. Qed.
#[local] Hint Resolve framed_hub_notify_status_changed : frame.
Lemma framed_hub_set_port_speed h n v : framed (virtusb_hub_set_port_speed h n v).
Proof. unfold virtusb_hub_set_port_speed. maintain. Qed.
#[local] Hint Resolve framed_hub_set_port_speed : frame.
Lemma framed_hub_port_is_valid h n : framed (virtusb_hub_port_is_valid h n).
Proof. unfold virtusb_hub_port_is_valid. maintain. Qed.
#[local] Hint Resolve framed_hub_port_is_valid : frame.
Lemma framed_hub_get_port h n : framed (virtusb_hub_get_port h n).
Proof. unfold virtusb_hub_get_port. maintain. Qed.
#[local] Hint Resolve framed_hub_get_port : frame.
Lemma framed_hub_get_port_const h n : framed (virtusb_hub_get_port_const h n).
Proof. unfold virtusb_hub_get_port_const. maintain. Qed.
#[local] Hint Resolve framed_hub_get_port_const : frame.
Lemma framed_hub_determine_port_speed h n : framed (virtusb_hub_determine_port_speed h n).
Proof. unfold virtusb_hub_determine_port_speed. maintain. Qed.
#[local] Hint Resolve framed_hub_determine_port_speed : frame.
Lemma framed_memset_hub h : framed (memset_hub h).
Proof. unfold memset_hub. maintain. Qed.
#[local] Hint Resolve framed_memset_hub : frame.
Lemma framed_hub_init h n : framed (virtusb_hub_init h n).
Proof. unfold virtusb_hub_init. maintain. Qed.
#[local] Hint Resolve framed_hub_init : frame.
Lemma framed_hub_reset h : framed (virtusb_hub_reset h).
Proof. unfold virtusb_hub_reset. maintain. Qed.
#[local] Hint Resolve framed_hub_reset : frame.
Lemma framed_hub_set_status_changed_callback h f c : framed (virtusb_hub_set_status_changed_callback h f c).
Proof. unfold virtusb_hub_set_status_changed_callback. maintain. Qed.
#[local] Hint Resolve framed_hub_set_status_changed_callback : frame.
Lemma framed_hub_find_port_number h p n : framed (virtusb_hub_find_port_number h p n).
Proof. unfold virtusb_hub_find_port_number. maintain. Qed.
#[local] Hint Resolve framed_hub_find_port_number : frame.
Lemma framed_hub_port_is_connected h n : framed (virtusb_hub_port_is_connected h n).
Proof. unfold virtusb_hub_port_is_connected. maintain. Qed.
#[local] Hint Resolve framed_hub_port_is_connected : frame.
Lemma framed_hub_mark_port_connection_change h n : framed (virtusb_hub_mark_port_connection_change h n).
Proof. unfold virtusb_hub_mark_port_connection_change. maintain. Qed.
#[local] Hint Resolve framed_hub_mark_port_connection_change : frame.
Lemma framed_hub_reset_port h n : framed (virtusb_hub_reset_port h n).
Proof. unfold virtusb_hub_reset_port. maintain. Qed.
#[local] Hint Resolve framed_hub_reset_port : frame.
Lemma framed_hub_set_all_ports_power h b : framed (virtusb_hub_set_all_ports_power h b).
Proof. unfold virtusb_hub_set_all_ports_power. maintain. Qed.
#[local] Hint Resolve framed_hub_set_all_ports_power : frame.
Lemma framed_hub_set_port_power h n b : framed (virtusb_hub_set_port_power h n b).
Proof. unfold virtusb_hub_set_port_power. maintain. Qed.
#[local] Hint Resolve framed_hub_set_port_power : frame.
Lemma framed_hub_port_is_powered h n : framed (virtusb_hub_port_is_powered h n).
Proof. unfold virtusb_hub_port_is_powered. maintain. Qed.
#[local] Hint Resolve framed_hub_port_is_powered : frame.
Lemma framed_hub_port_is_over_current h n : framed (virtusb_hub_port_is_over_current h n).
Proof. unfold virtusb_hub_port_is_over_current. maintain. Qed.
#[local] Hint Resolve framed_hub_port_is_over_current : frame.
Lemma framed_hub_is_over_current h : framed (virtusb_hub_is_over_current h).
Proof. unfold virtusb_hub_is_over_current. maintain. Qed.
#[local] Hint Resolve framed_hub_is_over_current : frame.
Lemma framed_hub_get_port_speed h n : framed (virtusb_hub_get_port_speed h n).
Proof. unfold virtusb_hub_get_port_speed. maintain. Qed.
#[local] Hint Resolve framed_hub_get_port_speed : frame.
Lemma framed_root_hub_init h n : framed (virtusb_root_hub_init h n).
Proof. unfold virtusb_root_hub_init. maintain. Qed.
#[local] Hint Resolve framed_root_hub_init : frame.
(** Objects and devices. *)
Lemma framed_owner_hub o : framed (owner_hub o).
Proof. unfold owner_hub. maintain. Qed.
#[local] Hint Resolve framed_owner_hub : frame.
Lemma framed_device_get_attached_hub d n : framed (virtusb_device_get_attached_hub d n).
Proof. unfold virtusb_device_get_attached_hub. maintain. Qed.
#[local] Hint Resolve framed_device_get_attached_hub : frame.
Lemma framed_device_detach d : framed (virtusb_device_detach d).
Proof. unfold virtusb_device_detach. maintain. Qed.
#[local] Hint Resolve framed_device_detach : frame.
Lemma framed_device_create speed mem oom : framed (virtusb_device_create speed mem oom).
Proof. unfold virtusb_device_create. maintain. Qed.
#[local] Hint Resolve framed_device_create : frame.
Lemma framed_device_attach d p : framed (virtusb_device_attach d p).
Proof. unfold virtusb_device_attach. maintain. Qed.
#[local] Hint Resolve framed_device_attach : frame.
Lemma framed_device_set_connection_signaling d b : framed (virtusb_device_set_connection_signaling d b).
Proof. unfold virtusb_device_set_connection_signaling. maintain. Qed.
#[local] Hint Resolve framed_device_set_connection_signaling : frame.
Lemma framed_device_destroy d force : framed (virtusb_device_destroy d force).
Proof. unfold virtusb_device_destroy. maintain. Qed.
#[local] Hint Resolve framed_device_destroy : frame.
Lemma framed_device_shutdown_all fuel : framed (virtusb_device_shutdown_all fuel).
Proof. induction fuel; cbn; maintain. Qed.
#[local] Hint Resolve framed_device_shutdown_all : frame.
Lemma framed_read_bytes n l : framed (read_bytes n l).
Proof. unfold read_bytes. maintain. Qed.
#[local] Hint Resolve framed_read_bytes : frame.
(** The backend. *)
Lemma framed_get_backend h : framed (get_backend h).
Proof. unfold get_backend. maintain. Qed.
#[local] Hint Resolve framed_get_backend : frame.
Lemma framed_find_from p l : (forall r, framed (p r)) -> forall i, framed (find_from i p l).
Proof. intros Hp. induction l as [|r l IH]; intros i; cbn; maintain. Qed.
#[local] Hint Resolve framed_find_from : frame.
Lemma framed_find_request p l : (forall r, framed (p r)) -> framed (find_request p l).
Proof. intros Hp. by apply framed_find_from. Qed.
#[local] Hint Resolve framed_find_request : frame.
Lemma framed_write_bytes n src dst : framed (write_bytes n src dst).
Proof. unfold write_bytes. maintain. Qed.
#[local] Hint Resolve framed_write_bytes : frame.
Lemma framed_backend_find_id_locked b o id : framed (virtusb_backend_find_id_locked b o id).
Proof. unfold virtusb_backend_find_id_locked. apply framed_find_request. intros r. maintain. Qed.
#[local] Hint Resolve framed_backend_find_id_locked : frame.
Lemma framed_backend_find_pending_device_locked b d : framed (virtusb_backend_find_pending_device_locked b d).
Proof. unfold virtusb_backend_find_pending_device_locked. apply framed_find_request. intros r. maintain. Qed.
#[local] Hint Resolve framed_backend_find_pending_device_locked : frame.
Lemma framed_backend_pending_for_owner_or_stopping h o : framed (virtusb_backend_pending_for_owner_or_stopping h o).
Proof. unfold virtusb_backend_pending_for_owner_or_stopping. maintain. Qed.
#[local] Hint Resolve framed_backend_pending_for_owner_or_stopping : frame.
Lemma framed_backend_has_pending h o : framed (virtusb_backend_has_pending h o).
Proof. unfold virtusb_backend_has_pending. maintain. Qed.
#[local] Hint Resolve framed_backend_has_pending : frame.
Lemma framed_fetch_fill t : framed (fetch_fill t).
Proof. unfold fetch_fill. maintain. Qed.
#[local] Hint Resolve framed_fetch_fill : frame.
Lemma framed_find_owner_request b d o : framed (find_owner_request b d o).
Proof.
  unfold find_owner_request. apply maintains_bind; [apply framed_find_request; intros r; maintain | ].
  intros [[i r]|]; [maintain | ].
  apply maintains_bind; [apply framed_find_request; intros r; maintain | intros x; maintain].
Qed.
#[local] Hint Resolve framed_find_owner_request : frame.
(** The host controller. *)
Lemma framed_write_at off l buf : framed (write_at off l buf).
Proof. unfold write_at. maintain. Qed.
#[local] Hint Resolve framed_write_at : frame.
Lemma framed_hcd_build_port_status h n : framed (virtusb_hcd_build_port_status h n).
Proof. unfold virtusb_hcd_build_port_status. maintain. Qed.
#[local] Hint Resolve framed_hcd_build_port_status : frame.
Lemma framed_hcd_hub_status_data h buf : framed (virtusb_hcd_hub_status_data h buf).
Proof. unfold virtusb_hcd_hub_status_data. maintain. Qed.
#[local] Hint Resolve framed_hcd_hub_status_data : frame.
Lemma framed_hcd_get_hub_descriptor h buf : framed (virtusb_hcd_get_hub_descriptor h buf).
Proof. unfold virtusb_hcd_get_hub_descriptor. maintain. Qed.
#[local] Hint Resolve framed_hcd_get_hub_descriptor : frame.
Lemma framed_hcd_get_hub_status h buf : framed (virtusb_hcd_get_hub_status h buf).
Proof. unfold virtusb_hcd_get_hub_status. maintain. Qed.
#[local] Hint Resolve framed_hcd_get_hub_status : frame.
Lemma framed_hcd_get_port_status h n buf : framed (virtusb_hcd_get_port_status h n buf).
Proof. unfold virtusb_hcd_get_port_status. maintain. Qed.
#[local] Hint Resolve framed_hcd_get_port_status : frame.
Lemma framed_hcd_clear_port_feature h n f : framed (virtusb_hcd_clear_port_feature h n f).
Proof. unfold virtusb_hcd_clear_port_feature. maintain. Qed.
#[local] Hint Resolve framed_hcd_clear_port_feature : frame.
Lemma framed_hcd_set_port_feature h n f : framed (virtusb_hcd_set_port_feature h n f).
Proof. unfold virtusb_hcd_set_port_feature. maintain. Qed.
#[local] Hint Resolve framed_hcd_set_port_feature : frame.
Lemma framed_with_buf buf m : framed m -> framed (with_buf buf m).
Proof. intros Hm. unfold with_buf. maintain. Qed.
#[local] Hint Resolve framed_with_buf : frame.
Lemma framed_hcd_hub_control h ty v i buf len : framed (virtusb_hcd_hub_control h ty v i buf len).
Proof. unfold virtusb_hcd_hub_control. maintain. Qed.
#[local] Hint Resolve framed_hcd_hub_control : frame.
Lemma framed_hcd_get_urb_device h u : framed (virtusb_hcd_get_urb_device h u).
Proof. unfold virtusb_hcd_get_urb_device. maintain. Qed.
#[local] Hint Resolve framed_hcd_get_urb_device : frame.
(** The control device. *)
Lemma framed_and_then b m : framed m -> framed (and_then b m).
Proof. intros Hm. unfold and_then. maintain. Qed.
#[local] Hint Resolve framed_and_then : frame.
Lemma framed_control_build_port_state h n : framed (virtusb_control_build_port_state h n).
Proof. unfold virtusb_control_build_port_state. maintain. Qed.
#[local] Hint Resolve framed_control_build_port_state : frame.
Lemma framed_load_control c : framed (load_control c).
Proof. unfold load_control. maintain. Qed.
#[local] Hint Resolve framed_load_control : frame.
Lemma framed_control_hcd c : framed (control_hcd c).
Proof. unfold control_hcd. maintain. Qed.
#[local] Hint Resolve framed_control_hcd : frame.
Lemma framed_control_linux_hcd c : framed (control_linux_hcd c).
Proof. unfold control_linux_hcd. maintain. Qed.
#[local] Hint Resolve framed_control_linux_hcd : frame.
Lemma framed_build_port_states n : forall port h, framed (build_port_states n port h).
Proof. induction n; intros; cbn; maintain. Qed.
#[local] Hint Resolve framed_build_port_states : frame.
Lemma framed_control_get_port_status c us : framed (virtusb_control_get_port_status c us).
Proof. unfold virtusb_control_get_port_status. maintain. Qed.
#[local] Hint Resolve framed_control_get_port_status : frame.
Lemma framed_control_device_create us env : framed (virtusb_control_device_create us env).
Proof. unfold virtusb_control_device_create. maintain. Qed.
#[local] Hint Resolve framed_control_device_create : frame.
Lemma framed_control_device_destroy us : framed (virtusb_control_device_destroy us).
Proof. unfold virtusb_control_device_destroy. maintain. Qed.
#[local] Hint Resolve framed_control_device_destroy : frame.
Lemma framed_control_lookup_device id : framed (virtusb_control_lookup_device id).
Proof. unfold virtusb_control_lookup_device. maintain. Qed.
#[local] Hint Resolve framed_control_lookup_device : frame.
Lemma framed_control_get_hub c id : framed (virtusb_control_get_hub c id).
Proof. unfold virtusb_control_get_hub. maintain. Qed.
#[local] Hint Resolve framed_control_get_hub : frame.
Lemma framed_control_device_attach c us : framed (virtusb_control_device_attach c us).
Proof. unfold virtusb_control_device_attach. maintain. Qed.
#[local] Hint Resolve framed_control_device_attach : frame.
Lemma framed_control_device_detach us : framed (virtusb_control_device_detach us).
Proof. unfold virtusb_control_device_detach. maintain. Qed.
#[local] Hint Resolve framed_control_device_detach : frame.
Lemma framed_control_device_connection us : framed (virtusb_control_device_connection us).
Proof. unfold virtusb_control_device_connection. maintain. Qed.
#[local] Hint Resolve framed_control_device_connection : frame.
Lemma framed_control_set_port_power c us : framed (virtusb_control_set_port_power c us).
Proof. unfold virtusb_control_set_port_power. maintain. Qed.
#[local] Hint Resolve framed_control_set_port_power : frame.
Lemma framed_no_reply m : framed m -> framed (no_reply m).
Proof. intros Hm. unfold no_reply. maintain. Qed.
#[local] Hint Resolve framed_no_reply : frame.
Lemma framed_active_control f : framed (active_control f).
Proof. unfold active_control. maintain. Qed.
#[local] Hint Resolve framed_active_control : frame.
Lemma framed_control_poll f : framed (virtusb_control_poll f).
Proof. unfold virtusb_control_poll. maintain. Qed.
#[local] Hint Resolve framed_control_poll : frame.
End framed.

#[export] Hint Resolve framed_port_init framed_port_attach framed_port_detach framed_port_is_attached
  framed_port_has_vbus framed_port_set_connection_signaling framed_port_set_powered
  framed_port_set_over_current framed_update_hub framed_update_usb framed_update_change
  framed_hcd_root_hub_status_changed framed_call_status_changed framed_hub_notify_status_changed
  framed_hub_set_port_speed framed_hub_port_is_valid framed_hub_get_port framed_hub_get_port_const
  framed_hub_determine_port_speed framed_memset_hub framed_hub_init framed_hub_reset
  framed_hub_set_status_changed_callback framed_hub_find_port_number framed_hub_port_is_connected
  framed_hub_mark_port_connection_change framed_hub_reset_port framed_hub_set_all_ports_power
  framed_hub_set_port_power framed_hub_port_is_powered framed_hub_port_is_over_current
  framed_hub_is_over_current framed_hub_get_port_speed framed_root_hub_init framed_owner_hub
  framed_device_get_attached_hub framed_device_detach framed_device_create framed_device_attach
  framed_device_set_connection_signaling framed_device_destroy framed_device_shutdown_all
  framed_read_bytes framed_get_backend framed_find_from framed_find_request framed_write_bytes
  framed_backend_find_id_locked framed_backend_find_pending_device_locked
  framed_backend_pending_for_owner_or_stopping framed_backend_has_pending framed_fetch_fill
  framed_find_owner_request framed_write_at framed_hcd_build_port_status
  framed_hcd_hub_status_data framed_hcd_get_hub_descriptor framed_hcd_get_hub_status
  framed_hcd_get_port_status framed_hcd_clear_port_feature framed_hcd_set_port_feature
  framed_with_buf framed_hcd_hub_control framed_hcd_get_urb_device framed_and_then
  framed_control_build_port_state framed_load_control framed_control_hcd framed_control_linux_hcd
  framed_build_port_states framed_control_get_port_status framed_control_device_create
  framed_control_device_destroy framed_control_lookup_device framed_control_get_hub
  framed_control_device_attach framed_control_device_detach framed_control_device_connection
  framed_control_set_port_power framed_no_reply framed_active_control framed_control_poll : frame.
