(* ===== verification/ControlSpec.v ===== *)
(** * The control device keeps the whole module consistent

    The invariant of all components together, and its preservation by every
    handler of the control device: each ioctl returns, leaks no reference and
    leaves queues, objects and topology consistent on every path. *)

From S2P Require Import Prelude Uapi Kernel Port Hub Object Device Transfer Backend BackendInv BackendOps Hcd HcdSpec UrbSpec Control.

(** ** The module invariant

    [X] and [T] count the references that the running call holds; between two
    calls there are none. *)
Record module_with (X : obj_ptr -> Z) (T : transfer_ptr -> Z) (s : kernel) : Prop := {
  mo_inv : backend_inv X T s;
  mo_hcd : forall c v, k_hcds s !! c = Some v ->
    vh_linux_hcd v = Some c /\ is_Some (k_hubs s !! c) /\ is_Some (k_usb_hcds s !! c) /\
    forall h, ct_hcd (vh_control v) = Some h -> h = c;
  mo_file : forall f fv ctx c, k_files s !! f = Some fv -> fl_private_data fv = Some ctx ->
    cf_control ctx = Some c -> is_Some (k_hcds s !! c);
}.
Definition module_ok : kernel -> Prop := module_with (fun _ => 0) (fun _ => 0).

Lemma module_backend X X' T T' s s' : module_with X T s -> backend_step s s' ->
  backend_inv X' T' s' -> module_with X' T' s'.
Proof.
  intros [_ Hh Hf] [_ Eh _ _ _ Eu Ef Hhcd _] Hinv. split; [done | | ].
  - intros c v' Hv'. destruct (Hhcd c) as [Hn Hs]. destruct (k_hcds s !! c) as [v|] eqn:Hv.
    + destruct (Hs v eq_refl) as [b Hb]. assert (v' = set_backend b v) as -> by congruence.
      rewrite Eh, Eu. exact (Hh c v Hv).
    + rewrite Hn in Hv'; done.
  - intros f fv ctx c. rewrite Ef. intros H1 H2 H3. destruct (Hf f fv ctx c H1 H2 H3) as [v Hv].
    destruct (Hhcd c) as [_ Hs]. destruct (Hs v Hv) as [b ->]. by eexists.
Qed.

(** Steps that change neither HCDs nor hubs nor files. *)
Lemma module_storageless X X' T T' s s' : module_with X T s -> backend_inv X' T' s' ->
  k_hcds s' = k_hcds s -> k_hubs s' = k_hubs s -> k_usb_hcds s' = k_usb_hcds s ->
  k_files s' = k_files s -> module_with X' T' s'.
Proof.
  intros [_ Hh Hf] Hi Eh Eb Eu Ef. split; [done | | ].
  - intros c v. rewrite Eh, Eb, Eu. apply Hh.
  - intros f fv ctx c. rewrite Ef, Eh. apply Hf.
Qed.

(** Steps that leave HCDs and files alone. *)
Lemma module_frame X X' T s s' : module_with X T s -> transfer_frame s s' ->
  dom (k_hubs s') = dom (k_hubs s) -> backend_inv X' T s' -> module_with X' T s'.
Proof.
  intros [_ Hh Hf] [_ _ Eh Eu _ Ef] Ed Hinv. split; [done | | ].
  - intros c v. rewrite Eh, Eu. intros Hv. destruct (Hh c v Hv) as (H1 & H2 & H3 & H4).
    split_and!; try done. rewrite <- elem_of_dom, Ed. by apply elem_of_dom.
  - intros f fv ctx c. rewrite Ef, Eh. apply Hf.
Qed.

Lemma module_bus_step X T s s' : module_with X T s -> bus_step s s' -> module_with X T s'.
Proof.
  intros Hm Hs. apply (module_frame X X T s); [done | apply Hs.. | ].
  eapply bus_step_inv; [apply Hm | done].
Qed.

Lemma module_device_step X X' T s s' : module_with X T s -> (forall o, 0 <= X' o) ->
  device_step (fun o => transfer_refs (k_transfers s) o + (binding_refs s o + X' o)) s s' ->
  module_with X' T s'.
Proof.
  intros Hm HX' Hs. apply (module_frame X X' T s); [done | apply Hs.. | ].
  by apply (device_step_inv X X' T s s' (mo_inv _ _ _ Hm)).
Qed.

Lemma module_storage X X' T s s' : module_with X T s -> storage_step s s' ->
  backend_inv X' T s' -> module_with X' T s'.
Proof. intros Hm Hs. apply (module_backend X X' T T s); [done | by apply storage_backend_step]. Qed.

Lemma module_bus X T s : module_with X T s -> bus_ok s.
Proof. intros Hm. apply (inv_bus _ _ _ (mo_inv _ _ _ Hm)). Qed.
Lemma module_objects X T s : module_with X T s ->
  objects_ok (fun o => transfer_refs (k_transfers s) o + (binding_refs s o + X o)) s.
Proof. intros Hm. apply (inv_objects _ _ _ (mo_inv _ _ _ Hm)). Qed.
#[export] Hint Resolve module_bus module_objects : heap.

(** ** References of the running call *)

Section refs.
Context (X : obj_ptr -> Z) (T : transfer_ptr -> Z) (s : kernel) (Hm : module_with X T s).

Lemma module_X o : 0 <= X o.
Proof. apply (bc_X _ _ _ (bi_core _ _ _ (mo_inv _ _ _ Hm))). Qed.

Lemma module_ref o ov : k_objects s !! o = Some ov ->
  module_with (add_ref o 1 X) T (object_ref o 1 s).
Proof.
  intros Ho. destruct (core_object_ref X T s (bi_core _ _ _ (mo_inv _ _ _ Hm)) o ov Ho)
    as (_ & Hst & _).
  apply (module_storage X _ T s); [done | done | ]. eapply inv_object_ref; [apply Hm | done].
Qed.

Lemma module_put o : 1 <= X o ->
  virtusb_object_put (Some o) s = Some (tt, object_drop o s) /\
  module_with (add_ref o (-1) X) T (object_drop o s).
Proof.
  intros Ho. destruct Hm as [[Hc Hb Hbal] _ _].
  destruct (core_object_drop X T s Hc o Ho) as (Hc' & Hst & E). split; [done | ].
  apply (module_storage X _ T s); [done | done | ]. split; [done | | ].
  - apply (bound_frame _ s); [done | apply Hst | ]. intros r. unfold request_device.
    by rewrite object_drop_transfers.
  - apply (balance_frame s); [done | apply Hst..].
Qed.
End refs.

Lemma module_ext X X' T s : (forall o, X o = X' o) -> module_with X T s -> module_with X' T s.
Proof. intros HX [Hi Hh Hf]. split; [by apply (backend_inv_ext X X' T T) | done..]. Qed.

(** The reference that a call took is dropped at its end. *)
Lemma module_release X T s o : module_with (add_ref o 1 X) T s -> (forall x, 0 <= X x) ->
  virtusb_object_put (Some o) s = Some (tt, object_drop o s) /\ module_with X T (object_drop o s).
Proof.
  intros Hm HX. destruct (module_put _ _ _ Hm o) as [E Hm']; [rewrite add_ref_eq; specialize (HX o); lia | ].
  split; [done | ]. eapply module_ext; [ | exact Hm']. intros x. apply add_ref_cancel.
Qed.

(** ** Looking up a device *)

Definition lookup_result (s : kernel) (id : Z) : result obj_ptr :=
  if id =? VIRTUSB_OBJECT_ID_INVALID then Err (- EINVAL)
  else match k_registry s !! id with
       | Some o => if decide (type_of s o = Some VIRTUSB_OBJECT_TYPE_DEVICE) then Ok o
                   else Err (- EINVAL)
       | None => Err (- ENOENT)
       end.

Lemma object_ref_lookup s o ov : k_objects s !! o = Some ov ->
  k_objects (object_ref o 1 s) !! o = Some (set_ob_refcount (ob_refcount ov + 1) ov).
Proof. intros Ho. cbn. by rewrite lookup_alter_eq, Ho. Qed.

Section lookup.
Context (X : obj_ptr -> Z) (T : transfer_ptr -> Z) (s : kernel) (Hm : module_with X T s).

Lemma lookup_device_eq id :
  virtusb_control_lookup_device id s =
    Some (lookup_result s id,
          match lookup_result s id with Ok o => object_ref o 1 s | Err _ => s end).
Proof.
  pose proof (module_objects _ _ _ Hm) as Hobj. unfold virtusb_control_lookup_device, lookup_result.
  destruct (id =? VIRTUSB_OBJECT_ID_INVALID); [done | ]. unfold bind at 1.
  rewrite (object_lookup_eq _ s Hobj). destruct (k_registry s !! id) as [o|] eqn:Er; [ | done].
  destruct (oo_registry _ _ Hobj id o Er) as (_ & ov & Ho & _ & _).
  unfold bind at 1, load. rewrite (object_ref_lookup s o ov Ho). cbn [ob_type set_ob_refcount].
  unfold type_of. rewrite Ho. cbn [fmap option_fmap option_map].
  destruct (decide (ob_type ov = VIRTUSB_OBJECT_TYPE_DEVICE)) as [Et|Et].
  - rewrite bool_decide_eq_false_2, decide_True by (congruence || (intros ?; congruence)). done.
  - rewrite bool_decide_eq_true_2, decide_False by (congruence || (intros ?; congruence)).
    pose proof (module_ref X T s Hm o ov Ho) as Hm1. unfold bind.
    destruct (module_release X T _ o Hm1 (module_X X T s Hm)) as [-> _].
    rewrite (object_ref_drop o ov s Ho); [done | ]. by destruct (oo_refcount _ _ Hobj o ov Ho) as (_ & _ & ?).
Qed.

(** A device that was found is alive, registered, and has an upstream port. *)
Lemma lookup_found id d : lookup_result s id = Ok d ->
  exists ov uv, k_registry s !! id = Some d /\ k_objects s !! d = Some ov /\
    ob_registered ov = true /\ ob_id ov = id /\ ob_type ov = VIRTUSB_OBJECT_TYPE_DEVICE /\
    k_ports s !! DevPort d = Some uv /\
    module_with (add_ref d 1 X) T (object_ref d 1 s).
Proof.
  pose proof (module_objects _ _ _ Hm) as Hobj. unfold lookup_result.
  destruct (_ =? _); [done | ]. destruct (k_registry s !! id) as [o|] eqn:Er; [ | done].
  case_decide as Et; [intros [= ->] | done].
  destruct (oo_registry _ _ Hobj id d Er) as (_ & ov & Ho & Hr & Hid).
  destruct (proj1 (oo_port _ _ Hobj d)) as [uv Huv]; [by rewrite Ho | ].
  exists ov, uv. unfold type_of in Et. rewrite Ho in Et. split_and!; try done; [by injection Et | ].
  by apply (module_ref X T s Hm d ov).
Qed.
End lookup.

(** ** Device operations in the module *)

Lemma device_step_ext `{StatusChangedTable} ext ext' s s' : (forall o, ext o = ext' o) ->
  device_step ext s s' -> device_step ext' s s'.
Proof. intros E [Hb Ho Ht Hh Hf]. split; try done. by apply (objects_ok_ext ext). Qed.

Section devices.
Context (X : obj_ptr -> Z) (T : transfer_ptr -> Z) (s : kernel) (Hm : module_with X T s).

Lemma module_step_ext ext' X' s' : device_step ext' s s' -> (forall o, 0 <= X' o) ->
  (forall o, ext' o = transfer_refs (k_transfers s) o + (binding_refs s o + X' o)) ->
  module_with X' T s'.
Proof. intros Hs HX' E. apply (module_device_step X X' T s s' Hm HX'). by eapply device_step_ext. Qed.

Section live.
Context (d : obj_ptr) (ov : virtusb_object) (uv : virtusb_port).
Context (Ho : k_objects s !! d = Some ov) (Hu : k_ports s !! DevPort d = Some uv).

Lemma module_destroy force : exists r s', virtusb_device_destroy (Some d) force s = Some (r, s') /\
  module_with X T s' /\
  (r = 0 -> k_registry s' = delete (ob_id ov) (k_registry s) /\ ob_registered ov = true) /\
  (r <> 0 -> s' = s).
Proof.
  pose proof (device_destroy_eq _ s d uv ov force (module_bus _ _ _ Hm) (module_objects _ _ _ Hm) Hu Ho)
    as E.
  match type of E with _ = Some ?res => destruct res as [r s'] end. exists r, s'.
  destruct (device_destroy_step _ s d uv ov force r s' (module_bus _ _ _ Hm) (module_objects _ _ _ Hm)
    Hu Ho E) as (Hs & H0 & Hn).
  split_and!; try done. by apply (module_step_ext _ X _ Hs (module_X _ _ _ Hm)).
Qed.

Lemma module_detach : virtusb_device_detach (Some d) s = Some (tt, device_unplug d s) /\
  module_with X T (device_unplug d s).
Proof.
  split; [by apply (device_detach_eq s (module_bus _ _ _ Hm) d uv) | ].
  by apply (module_step_ext _ X _ (device_unplug_step _ s (module_bus _ _ _ Hm)
    (module_objects _ _ _ Hm) d uv Hu) (module_X _ _ _ Hm)).
Qed.

Lemma module_signal b :
  virtusb_device_set_connection_signaling (Some d) b s = Some (0, device_signal b d s) /\
  module_with X T (device_signal b d s).
Proof.
  split; [by apply (device_signal_eq s (module_bus _ _ _ Hm) d uv) | ].
  by apply (module_step_ext _ X _ (device_signal_step _ s (module_bus _ _ _ Hm)
    (module_objects _ _ _ Hm) d uv Hu b) (module_X _ _ _ Hm)).
Qed.

Lemma module_attach h hv n : k_hubs s !! h = Some hv -> port_valid hv n = true ->
  ob_registered ov = true ->
  exists r s', virtusb_device_attach (Some d) (Some (HubPort h (n - 1))) s = Some (r, s') /\
    module_with X T s' /\ k_objects s' = k_objects s.
Proof.
  intros Hh Hv Hr. pose proof (module_bus _ _ _ Hm) as Hbus.
  destruct (wf_port _ _ (proj1 Hbus) h hv n Hh Hv) as (dv & Hdv & _).
  pose proof (device_attach_eq s Hbus d uv Hu h hv Hh n Hv dv Hdv) as E.
  destruct (decide _) as [[Hp Hq]|].
  - do 2 eexists. split; [exact E | ].
    split; [ | by rewrite settle_frame].
    by apply (module_step_ext _ X _ (device_link_step _ s Hbus (module_objects _ _ _ Hm) d uv Hu h hv n
      dv ov Hh Hv Hdv Hp Hq Ho Hr) (module_X _ _ _ Hm)).
  - by exists (- EBUSY), s.
Qed.
End live.

Lemma module_create o speed oom : k_objects s !! o = None -> in_width 8 speed ->
  exists r s', virtusb_device_create speed (Some o) oom s = Some (r, s') /\
    match r with
    | Ok d => d = o /\ s' = created_device o speed s /\ module_with (add_ref o 1 X) T s'
    | Err e => e < 0 /\ s' = s
    end.
Proof.
  intros Hf Hw. pose proof (module_objects _ _ _ Hm) as Hobj.
  pose proof (device_create_eq _ s Hobj o Hf speed oom) as E.
  destruct (virtusb_port_speed_is_valid speed) eqn:Es; [ | by do 2 eexists].
  destruct (Z.ltb_spec U32_MAX (k_next_object_id s)); [by do 2 eexists | ].
  destruct oom; [by do 2 eexists | ].
  do 2 eexists. split; [exact E | ]. split_and!; [done.. | ].
  eapply (module_step_ext _ _ _ (created_device_step _ s Hobj o Hf speed
    (module_bus _ _ _ Hm) Es Hw H)).
  - intros x. pose proof (module_X _ _ _ Hm x). unfold add_ref. case_decide; lia.
  - intros x. unfold add_ref. case_decide; lia.
Qed.
End devices.

Lemma device_create_no_memory speed oom (s : kernel) :
  virtusb_device_create speed None oom s = Some (Err (- ENOMEM), s).
Proof. done. Qed.

(** ** The handlers *)

(** The call returns, and the module is consistent afterwards. *)
Definition keeps {A} (m : K A) (s : kernel) : Prop := wp m (fun _ s' => module_ok s') s.

Lemma keeps_ret {A} (a : A) s : module_ok s -> keeps (ret a) s.
Proof. done. Qed.
Lemma keeps_bind {A B} (m : K A) (k : A -> K B) s a s' :
  m s = Some (a, s') -> keeps (k a) s' -> keeps (bind m k) s.
Proof. intros E Hk. unfold keeps. apply wp_bind. by apply (wp_eq m a s'). Qed.
Lemma keeps_eq {A} (m : K A) a s s' : m s = Some (a, s') -> module_ok s' -> keeps m s.
Proof. intros E H. by apply (wp_eq m a s'). Qed.

(** The last step of a handler: its reference to the device is dropped. *)
Lemma keeps_put {B} o (k : unit -> K B) s : module_with (add_ref o 1 (fun _ => 0)) (fun _ => 0) s ->
  (forall s', module_ok s' -> keeps (k tt) s') ->
  keeps (bind (virtusb_object_put (Some o)) k) s.
Proof.
  intros Hm Hk. destruct (module_release _ _ _ _ Hm) as [E Hm']; [done | ].
  by apply (keeps_bind _ _ _ _ _ E), Hk.
Qed.

(** What the caller of an ioctl and the allocator deliver. *)
Record user_wf (us : user) : Prop := {
  uf_create : forall r, us_device_create us = Some r -> in_width 32 (dc_speed_caps r);
  uf_status : forall r, us_port_status us = Some r -> 0 <= ps_port r;
  uf_complete : forall r, us_complete us = Ok r -> completion_ok r;
}.
Definition ioctl_env_wf (s : kernel) (env : ioctl_env) : Prop :=
  forall o, ie_mem env = Some o -> k_objects s !! o = None.

Lemma speed_caps_valid_range caps : in_width 32 caps -> virtusb_control_speed_caps_valid caps = true ->
  1 <= caps <= 7.
Proof.
  intros Hw. unfold virtusb_control_speed_caps_valid. rewrite andb_true_iff, negb_true_iff.
  intros [H0 H1]. apply Z.eqb_neq in H0. apply Z.eqb_eq in H1.
  assert (forall i, 3 <= i < 32 -> Z.testbit caps i = false) as Hb.
  { intros i Hi. assert (Z.testbit (Z.land caps (c_not 32 VIRTUSB_SPEED_CAP_ALL)) i = false) as E
      by (rewrite H1; apply Z.bits_0).
    rewrite Z.land_spec in E. unfold c_not in E. rewrite wrap_testbit, Z.lnot_spec in E by lia.
    replace (Z.testbit VIRTUSB_SPEED_CAP_ALL i) with false in E.
    2: { symmetry. change VIRTUSB_SPEED_CAP_ALL with (Z.ones 3). apply Z.ones_spec_high. lia. }
    destruct (Z.ltb_spec i 32); [ | lia]. cbn in E. by rewrite andb_true_r in E. }
  pose proof (proj1 Hw) as Hw0. assert (caps < 2 ^ 3) as Hlt; [ | lia].
  destruct (decide (caps < 2 ^ 3)) as [|Hge]; [done | exfalso].
  assert (0 < caps) as Hpos by lia. pose proof (Z.bit_log2 caps Hpos) as Hbit.
  assert (3 <= Z.log2 caps) by (apply Z.log2_le_pow2; lia).
  destruct (decide (Z.log2 caps < 32)); [rewrite Hb in Hbit by lia; done | ].
  rewrite (in_width_testbit_high 32) in Hbit; [done | lia | done].
Qed.

Section handlers.
Context (s : kernel) (Hm : module_ok s).

Ltac lookup_device id d Hl ov uv :=
  eapply keeps_bind; [apply (lookup_device_eq _ _ s Hm id) | ];
  destruct (lookup_result s id) as [d|] eqn:Hl; [ | by apply keeps_ret];
  destruct (lookup_found _ _ s Hm id d Hl) as (ov & uv & _ & Ho & Hreg & _ & _ & Hu & Hm1).

Lemma device_create_keeps us env : user_wf us -> ioctl_env_wf s env ->
  keeps (virtusb_control_device_create us env) s.
Proof.
  intros [Hcr _ _] Henv. unfold virtusb_control_device_create.
  destruct (us_device_create us) as [req|]; [ | by apply keeps_ret]. specialize (Hcr req eq_refl).
  destruct (virtusb_control_speed_caps_valid _) eqn:Ev; [cbn [negb] | by apply keeps_ret].
  pose proof (speed_caps_valid_range _ Hcr Ev) as Hr.
  unfold ioctl_env_wf in Henv. destruct (ie_mem env) as [o|].
  2: { eapply keeps_bind; [apply device_create_no_memory | by apply keeps_ret]. }
  destruct (module_create _ _ s Hm o (u8 (dc_speed_caps req)) (ie_xa_oom env) (Henv o eq_refl))
    as (r & s1 & E & Hs1); [by apply wrap_width | ].
  eapply keeps_bind; [exact E | ]. destruct r as [d|e].
  2: { destruct Hs1 as [_ ->]. by apply keeps_ret. }
  destruct Hs1 as (-> & -> & Hm1).
  pose proof (module_objects _ _ _ Hm1) as Hobj1.
  assert (exists ov, k_objects (created_device o (u8 (dc_speed_caps req)) s) !! o = Some ov) as [ov Ho].
  { eexists. cbn. by rewrite lookup_alter_eq, lookup_insert_eq. }
  destruct (proj1 (oo_port _ _ Hobj1 o)) as [uv Hu]; [by rewrite Ho | ].
  unfold keeps. apply wp_bind. eapply wp_load; [exact Ho | ].
  destruct (us_copy_out us); cbn [negb].
  - by apply keeps_put.
  - destruct (module_destroy _ _ _ Hm1 o ov uv Ho Hu true) as (r & s2 & Ed & Hm2 & _).
    eapply keeps_bind; [exact Ed | ]. by apply keeps_put.
Qed.

Lemma device_destroy_keeps us : keeps (virtusb_control_device_destroy us) s.
Proof.
  unfold virtusb_control_device_destroy. destruct (us_device_destroy us) as [req|]; [ | by apply keeps_ret].
  destruct (_ || _); [by apply keeps_ret | ].
  pose proof (module_objects _ _ _ Hm) as Hobj.
  pose proof (object_lookup_eq _ s Hobj (dd_object_id req)) as El.
  destruct (k_registry s !! dd_object_id req) as [o|] eqn:Er; (eapply keeps_bind; [exact El | ]);
    [ | by apply keeps_ret].
  destruct (oo_registry _ _ Hobj _ o Er) as (_ & ov & Ho & _ & _).
  pose proof (module_ref _ _ s Hm o ov Ho) as Hm1.
  destruct (proj1 (oo_port _ _ Hobj o)) as [uv Hu]; [by rewrite Ho | ].
  unfold keeps. apply wp_bind. eapply wp_load; [by apply (object_ref_lookup s o ov) | ].
  case_bool_decide; [by apply keeps_put | ].
  destruct (module_destroy _ _ _ Hm1 o _ uv (object_ref_lookup s o ov Ho) Hu
    (negb (Z.land (dd_flags req) VIRTUSB_DEVICE_DESTROY_FORCE =? 0))) as (r & s2 & Ed & Hm2 & _).
  eapply keeps_bind; [exact Ed | ]. by apply keeps_put.
Qed.

Lemma device_detach_keeps us : keeps (virtusb_control_device_detach us) s.
Proof.
  unfold virtusb_control_device_detach. destruct (us_device_object us) as [req|]; [ | by apply keeps_ret].
  lookup_device (do_object_id req) d Hl ov uv.
  destruct (module_detach _ _ _ Hm1 d uv Hu) as [E Hm2].
  eapply keeps_bind; [exact E | ]. by apply keeps_put.
Qed.

Lemma device_connection_keeps us : keeps (virtusb_control_device_connection us) s.
Proof.
  unfold virtusb_control_device_connection.
  destruct (us_device_connection us) as [req|]; [ | by apply keeps_ret].
  destruct (1 <? dn_enabled req); [by apply keeps_ret | ].
  lookup_device (dn_object_id req) d Hl ov uv.
  destruct (module_signal _ _ _ Hm1 d uv Hu (negb (dn_enabled req =? 0))) as [E Hm2].
  eapply keeps_bind; [exact E | ]. by apply keeps_put.
Qed.

(** The handlers that use the HCD of the control plane. *)
Context (c : hcd_ptr) (v : virtusb_hcd) (Hv : k_hcds s !! c = Some v).
Context (Hc : ct_hcd (vh_control v) = Some c).
Context (hv : virtusb_hub) (Hh : k_hubs s !! c = Some hv).

Lemma load_control_eq : load_control c s = Some (vh_control v, s).
Proof. unfold load_control, bind, load. by rewrite Hv. Qed.
Lemma control_hcd_eq : control_hcd c s = Some (c, s).
Proof. unfold control_hcd, bind. rewrite load_control_eq. by rewrite Hc. Qed.
Lemma control_linux_hcd_eq : control_linux_hcd c s = Some (Some c, s).
Proof.
  unfold control_linux_hcd, bind. rewrite control_hcd_eq. unfold load. rewrite Hv.
  by destruct (mo_hcd _ _ _ Hm c v Hv) as [-> _].
Qed.

(** The only hub is the root hub. *)
Lemma get_hub_eq id : virtusb_control_get_hub (Some c) id s =
  Some (if id =? 0 then Some c else None, s).
Proof. unfold virtusb_control_get_hub, bind. rewrite load_control_eq, Hc. by destruct (id =? 0). Qed.

Lemma device_attach_keeps us : keeps (virtusb_control_device_attach c us) s.
Proof.
  unfold virtusb_control_device_attach. destruct (us_device_attach us) as [req|]; [ | by apply keeps_ret].
  eapply keeps_bind; [apply get_hub_eq | ]. destruct (da_hub_id req =? 0); [ | by apply keeps_ret].
  eapply keeps_bind; [apply (hub_get_port_eq s c hv Hh) | ].
  destruct (port_valid hv (da_port req)) eqn:Hp; [ | by apply keeps_ret].
  lookup_device (da_object_id req) d Hl ov uv.
  destruct (module_attach _ _ _ Hm1 d _ uv (object_ref_lookup s d ov Ho) Hu c hv (da_port req) Hh Hp Hreg)
    as (r & s2 & E & Hm2 & _).
  eapply keeps_bind; [exact E | ]. by apply keeps_put.
Qed.

Lemma set_port_power_keeps us : keeps (virtusb_control_set_port_power c us) s.
Proof.
  unfold virtusb_control_set_port_power. destruct (us_port_power us) as [req|]; [ | by apply keeps_ret].
  destruct (1 <? pp_powered req); [by apply keeps_ret | ].
  eapply keeps_bind; [apply get_hub_eq | ]. destruct (pp_hub_id req =? 0); [ | by apply keeps_ret].
  pose proof (set_port_power_eq s (module_bus _ _ _ Hm) c hv Hh (pp_port req)
    (negb (pp_powered req =? 0))) as E.
  destruct (port_valid hv (pp_port req)) eqn:Hp; (eapply keeps_eq; [exact E | ]); [ | done].
  apply (module_bus_step _ _ s); [done | ]. by apply switched_step; [apply module_bus with (1 := Hm) | | ].
Qed.
End handlers.

(** ** The port status of the control device *)

Lemma or_u32_testbit b flag st i : in_width 32 st -> in_width 32 flag -> 0 <= i ->
  Z.testbit (or_u32 b flag st) i = b && Z.testbit flag i || Z.testbit st i.
Proof. intros. by apply wrap_or_testbit. Qed.
Lemma or_u32_width b flag st : in_width 32 st -> in_width 32 (or_u32 b flag st).
Proof. intros. unfold or_u32. destruct b; [by apply wrap_width | done]. Qed.
Ltac width32 := repeat first
  [ apply or_u32_width | apply wrap_width; lia | apply zero_width; lia | (split; done) ].

Section port_state.
Context (s : kernel) (Hok : bus_ok s).
Context (h : hub_ptr) (hv : virtusb_hub) (Hh : k_hubs s !! h = Some hv).

Definition control_status_word (n : Z) : Z :=
  let status := or_u32 (port_connected (k_ports s) h n) VIRTUSB_PORT_STATUS_CONNECTED 0 in
  let status := or_u32 (bit_test (usb_enabled (hub_usb hv)) n) VIRTUSB_PORT_STATUS_ENABLED status in
  let status := or_u32 (bit_test (usb_suspended (hub_usb hv)) n) VIRTUSB_PORT_STATUS_SUSPENDED status in
  let status := or_u32 (port_over_current (k_ports s) h hv n) VIRTUSB_PORT_STATUS_OVER_CURRENT status in
  let status := or_u32 (bit_test (usb_reset (hub_usb hv)) n) VIRTUSB_PORT_STATUS_RESET status in
  or_u32 (port_powered (k_ports s) h n) VIRTUSB_PORT_STATUS_POWER status.
Definition control_change_word (n : Z) : Z :=
  let c := hub_change hv in
  let change := or_u32 (bit_test (ch_connected c) n) VIRTUSB_PORT_CHANGE_CONNECTED 0 in
  let change := or_u32 (bit_test (ch_enabled c) n) VIRTUSB_PORT_CHANGE_ENABLED change in
  let change := or_u32 (bit_test (ch_suspended c) n) VIRTUSB_PORT_CHANGE_SUSPENDED change in
  let change := or_u32 (bit_test (ch_over_current c) n) VIRTUSB_PORT_CHANGE_OVER_CURRENT change in
  or_u32 (bit_test (ch_reset c) n) VIRTUSB_PORT_CHANGE_RESET change.

Lemma build_port_state_eq n : port_valid hv n = true ->
  virtusb_control_build_port_state h n s =
    Some (mk_port_state (control_status_word n) (control_change_word n)
            (port_speed_to_Z (hub_speed hv n)), s).
Proof.
  intros Hv. pose proof Hok as [Hwf _]. unfold virtusb_control_build_port_state.
  assert (0 < n) as Hn by (unfold port_valid in Hv; rewrite andb_true_iff in Hv; lia).
  rewrite (proj2 (Z.ltb_lt 0 n) Hn), (proj2 (Z.eqb_neq n 0)) by lia. unfold and_then, bind.
  rewrite (hub_port_is_connected_eq s Hwf h hv) by done. unfold load. rewrite Hh. unfold ret at 1.
  rewrite (port_over_current_eq s Hok h hv Hh), (port_powered_eq s Hok h hv Hh),
    (hub_get_port_speed_eq s Hwf h hv Hh), Hv by done.
  done.
Qed.

(** Position 0 describes the hub itself. *)
Definition control_hub_word : Z :=
  let status := or_u32 (bit_test (usb_enabled (hub_usb hv)) 0) VIRTUSB_PORT_STATUS_ENABLED 0 in
  let status := or_u32 (bit_test (usb_suspended (hub_usb hv)) 0) VIRTUSB_PORT_STATUS_SUSPENDED status in
  let status := or_u32 (bool_decide (hub_over_current_mode hv = VIRTUSB_HUB_OVER_CURRENT_GLOBAL) &&
                        hub_over_current hv) VIRTUSB_PORT_STATUS_OVER_CURRENT status in
  or_u32 (bit_test (usb_reset (hub_usb hv)) 0) VIRTUSB_PORT_STATUS_RESET status.
Definition control_port_state (n : Z) : virtusb_port_state :=
  if n =? 0 then mk_port_state control_hub_word (control_change_word 0) 0
  else mk_port_state (control_status_word n) (control_change_word n) (port_speed_to_Z (hub_speed hv n)).

Lemma build_port_state_total n : 0 <= n <= hub_port_count hv ->
  virtusb_control_build_port_state h n s = Some (control_port_state n, s).
Proof.
  intros Hn. unfold control_port_state. destruct (Z.eqb_spec n 0) as [->|].
  - unfold virtusb_control_build_port_state, and_then, bind. cbn. unfold load. rewrite Hh.
    rewrite (hub_is_over_current_eq s h hv Hh). unfold control_hub_word, virtusb_control_state_test.
    by destruct (_ && _).
  - apply build_port_state_eq. unfold port_valid. rewrite andb_true_iff. lia.
Qed.

Lemma build_port_states_eq k : forall n, 1 <= n -> n + Z.of_nat k <= hub_port_count hv + 1 ->
  build_port_states k n h s =
    Some (map control_port_state (seqZ n (Z.of_nat k)), s).
Proof.
  induction k as [|k IH]; intros n Hn Hk; [done | ]. cbn [build_port_states].
  rewrite seqZ_cons by lia. cbn [map]. unfold bind.
  rewrite build_port_state_total, IH by lia. unfold ret. replace (Z.pred (Z.of_nat (S k))) with (Z.of_nat k) by lia.
  replace (Z.succ n) with (n + 1) by lia. done.
Qed.

(** The words of the two interfaces agree: USB and control device report the
    same port. *)
Lemma control_status_bits n i : 0 <= n -> 0 <= i < 9 ->
  Z.testbit (control_status_word n) i = status_bit (k_ports s) h hv n i.
Proof.
  intros Hn Hi. assert (i ∈ seqZ 0 9) as He by (apply elem_of_seqZ; lia). clear Hi.
  unfold control_status_word.
  rewrite !or_u32_testbit by (width32 || (apply elem_of_seqZ in He; lia)).
  rewrite !bit_test_spec by done. revert i He. apply Forall_forall.
  cbn [seqZ Z.to_nat Pos.to_nat Pos.iter_op Nat.add seq fmap list_fmap].
  repeat constructor; cbn; by rewrite ?andb_false_r, ?andb_true_r, ?orb_false_r.
Qed.

Lemma control_change_bits n i : 0 <= n -> 0 <= i < 16 ->
  Z.testbit (control_change_word n) i = change_bit hv n i.
Proof.
  intros Hn. revert i. apply bits16. unfold control_change_word.
  intros i Hi. rewrite !or_u32_testbit by (width32 || (apply elem_of_seqZ in Hi; lia)).
  rewrite !bit_test_spec by done. revert i Hi. apply Forall_forall.
  cbn [seqZ Z.to_nat Pos.to_nat Pos.iter_op Nat.add seq fmap list_fmap].
  repeat constructor; cbn; by rewrite ?andb_false_r, ?andb_true_r, ?orb_false_r.
Qed.

(** No other bit is ever set. *)
Lemma or_u32_range b flag st n : 1 <= n <= 32 -> 0 <= st < 2 ^ n -> 0 <= flag < 2 ^ n ->
  0 <= or_u32 b flag st < 2 ^ n.
Proof.
  intros Hn Hs Hf. unfold or_u32. destruct b; [ | done].
  assert (0 <= Z.lor st flag < 2 ^ n) as Hl.
  { split; [apply Z.lor_nonneg; lia | ]. destruct (decide (Z.lor st flag = 0)) as [->|]; [lia | ].
    assert (0 <= Z.lor st flag) by (apply Z.lor_nonneg; lia).
    apply Z.log2_lt_pow2; [lia | ]. rewrite Z.log2_lor by lia.
    assert (forall x, 0 <= x < 2 ^ n -> Z.log2 x < n) as Hlog; [ | by apply Z.max_lub_lt; apply Hlog].
    intros x Hx. destruct (decide (x = 0)) as [->|]; [cbn; lia | apply Z.log2_lt_pow2; lia]. }
  rewrite wrap_small; [done | ]. unfold in_width. split; [lia | ].
  apply Z.lt_le_trans with (2 ^ n); [lia | ]. apply Z.pow_le_mono_r; lia.
Qed.

Lemma control_word_ranges n : 0 <= control_status_word n < 2 ^ 9 /\
  0 <= control_change_word n < 2 ^ 9.
Proof. split; unfold control_status_word, control_change_word; repeat apply or_u32_range; done || lia. Qed.
End port_state.

(** ** Handlers of the control plane *)

Section control.
Context (s : kernel) (Hm : module_ok s).
Context (c : hcd_ptr) (v : virtusb_hcd) (Hv : k_hcds s !! c = Some v).
Context (Hc : ct_hcd (vh_control v) = Some c).
Context (hv : virtusb_hub) (Hh : k_hubs s !! c = Some hv).

(** The ports of a valid request; port 0 asks for all of them. *)
Definition all_port_states : list virtusb_port_state :=
  map (control_port_state s c hv) (seqZ 1 (hub_port_count hv)) ++
  replicate (Z.to_nat (VIRTUSB_MAX_HUB_PORTS - hub_port_count hv)) zero_port_state.

Lemma drop_zero_states n : 0 <= n <= VIRTUSB_MAX_HUB_PORTS ->
  drop (Z.to_nat n) (replicate (Z.to_nat VIRTUSB_MAX_HUB_PORTS) zero_port_state) =
    replicate (Z.to_nat (VIRTUSB_MAX_HUB_PORTS - n)) zero_port_state.
Proof. intros Hn. rewrite drop_replicate. f_equal. unfold VIRTUSB_MAX_HUB_PORTS in *. lia. Qed.

Definition port_status_reply (req : virtusb_port_status) : virtusb_port_status :=
  mk_port_status (ps_hub_id req) (ps_port req) (hub_port_count hv)
    (control_port_state s c hv (ps_port req))
    (if ps_port req =? 0 then all_port_states
     else replicate (Z.to_nat VIRTUSB_MAX_HUB_PORTS) zero_port_state).

Lemma get_port_status_result us req : us_port_status us = Some req -> 0 <= ps_port req ->
  virtusb_control_get_port_status c us s = Some (
    if ps_hub_id req =? VIRTUSB_ROOT_HUB_ID then
      if hub_port_count hv <? ps_port req then (- EINVAL, None)
      else if us_copy_out us then (0, Some (ReplyPortStatus (port_status_reply req)))
      else (- EFAULT, None)
    else (- ENODEV, None), s).
Proof.
  intros Hus Hp. pose proof (module_bus _ _ _ Hm) as Hbus.
  destruct (hub_wf_here s Hbus c hv Hh) as [Hcount _ _ _ _ _].
  unfold virtusb_control_get_port_status, port_status_reply. rewrite Hus.
  destruct (_ =? VIRTUSB_ROOT_HUB_ID); [cbn [negb] | done].
  unfold bind at 1. rewrite (control_hcd_eq s c v Hv Hc). unfold bind at 1, load. rewrite Hh.
  destruct (Z.ltb_spec (hub_port_count hv) (ps_port req)) as [Hlt|Hge]; [done | ].
  unfold bind at 1. rewrite (build_port_state_total s Hbus c hv Hh) by lia.
  destruct (Z.eqb_spec (ps_port req) 0); [ | unfold bind, ret; by destruct (us_copy_out us)].
  rewrite (proj2 (Z.ltb_ge _ _)) by lia. unfold bind at 1 2.
  rewrite (build_port_states_eq s Hbus c hv Hh) by lia. unfold ret at 1.
  rewrite Z2Nat.id, drop_zero_states by lia. unfold bind, ret. by destruct (us_copy_out us).
Qed.

Lemma get_port_status_keeps us : user_wf us -> keeps (virtusb_control_get_port_status c us) s.
Proof.
  intros [_ Hst _]. destruct (us_port_status us) as [req|] eqn:Hus.
  2: { unfold virtusb_control_get_port_status. rewrite Hus. by apply keeps_ret. }
  pose proof (get_port_status_result us req Hus (Hst req eq_refl)) as E.
  by repeat case_match; (eapply keeps_eq; [exact E | ]).
Qed.

(** ** Backends *)

(** The device is attached to this host controller. *)
Definition below_hcd (d : obj_ptr) : bool :=
  match k_ports s !! DevPort d with
  | Some uv => match port_peer uv with
               | Some (HubPort h _) => bool_decide (h = c)
               | _ => false
               end
  | None => false
  end.

Lemma belongs_eq X T s1 d uv : module_with X T s1 -> k_hcds s1 !! c = Some v ->
  k_ports s1 !! DevPort d = Some uv -> k_ports s1 = k_ports s ->
  (match port_peer uv with
   | None => ret false
   | Some peer =>
       pv <- load_port peer ;;
       h <- control_hcd c ;;
       ret (bool_decide (port_owner pv = Some (OwnerHub h)))
   end) s1 = Some (below_hcd d, s1).
Proof.
  intros Hm1 Hv1 Hu Ep. unfold below_hcd. rewrite <- Ep, Hu.
  destruct (port_peer uv) as [q|] eqn:Eq; [ | done]. pose proof (module_bus _ _ _ Hm1) as [Hwf _].
  destruct (wf_dev_peer _ _ Hwf d uv q Hu Eq) as (h & hv' & i & w & -> & _ & _ & Hw & _ & _ & Eo).
  unfold bind at 1, load. rewrite Hw. unfold bind, control_hcd, load_control, bind, load.
  rewrite Hv1. cbn. rewrite Hc. unfold ret. rewrite Eo. do 2 f_equal.
  apply bool_decide_ext. split; congruence.
Qed.

Lemma backend_register_keeps f us env : keeps (virtusb_control_backend_register f c us env) s.
Proof.
  unfold virtusb_control_backend_register.
  destruct (us_backend_register us) as [req|]; [ | by apply keeps_ret].
  eapply keeps_bind; [apply (lookup_device_eq _ _ s Hm) | ].
  destruct (lookup_result s (br_object_id req)) as [d|] eqn:Hl; [ | by apply keeps_ret].
  destruct (lookup_found _ _ s Hm _ d Hl) as (ov & uv & _ & Ho & _ & _ & _ & Hu & Hm1).
  unfold keeps. apply wp_bind. eapply wp_load; [exact Hu | ].
  eapply keeps_bind; [by apply (belongs_eq _ _ _ d uv Hm1) | ].
  destruct (below_hcd d); cbn [negb]; [ | by apply keeps_put].
  eapply keeps_bind; [by apply (control_hcd_eq _ c v) | ].
  destruct (register_result_spec _ _ _ (mo_inv _ _ _ Hm1) c v Hv f d _ (ie_oom env)
    (object_ref_lookup s d ov Ho)) as (r & s2 & E & Hi2 & Hst & _).
  eapply keeps_bind; [exact E | ]. apply keeps_put; [ | done].
  by apply (module_backend _ _ _ _ _ _ Hm1 Hst).
Qed.

Lemma transfer_complete_keeps f us : user_wf us ->
  keeps (virtusb_control_transfer_complete f c us) s.
Proof.
  intros [_ _ Hco]. unfold virtusb_control_transfer_complete.
  destruct (us_complete us) as [comp|] eqn:Eu; [ | by apply keeps_ret]. specialize (Hco comp eq_refl).
  eapply keeps_bind; [by apply (control_hcd_eq _ c v) | ].
  eapply keeps_bind; [by apply (control_linux_hcd_eq s Hm c v) | ].
  destruct (decide (tc_transfer_id comp = 0)) as [E0|Hne].
  { unfold virtusb_backend_complete. rewrite E0. by apply keeps_ret. }
  destruct (backend_complete_spec _ _ s (mo_inv _ _ _ Hm) c c v Hv f comp Hco Hne)
    as (r & s' & E & Hi & Hst & _).
  apply (keeps_eq _ _ _ _ E). by apply (module_backend _ _ _ _ _ _ Hm Hst).
Qed.

Lemma release_owner_keeps f :
  keeps (virtusb_backend_release_owner (Some c) (Some c) (Some f)) s.
Proof.
  destruct (release_owner_spec _ _ s (mo_inv _ _ _ Hm) c c v Hv f) as (s' & E & Hi & Hst & _).
  apply (keeps_eq _ _ _ _ E). by apply (module_backend _ _ _ _ _ _ Hm Hst).
Qed.

(** A fetch that has something to return or may not sleep returns; a fetch whose
    result cannot be delivered is rolled back. *)
Lemma transfer_fetch_keeps f fv us env : k_files s !! f = Some fv ->
  (forall s', fetch_section c f (fl_nonblock fv) s <> Some (FetchWait, s')) ->
  keeps (virtusb_control_transfer_fetch f c us env) s.
Proof.
  intros Hf Hn. unfold virtusb_control_transfer_fetch. destruct (ie_oom env); [by apply keeps_ret | ].
  eapply keeps_bind; [by apply (control_hcd_eq _ c v) | ].
  unfold keeps. apply wp_bind. eapply wp_load; [exact Hf | ].
  pose proof (fetch_no_wait _ _ s (mo_inv _ _ _ Hm) c v Hv f (fl_nonblock fv) Hn) as Hne.
  pose proof (backend_fetch_spec _ _ s (mo_inv _ _ _ Hm) c v Hv f zero_fetch (fl_nonblock fv) (ie_sleeps env)) as Hs.
  destruct (next_request s v f) as [[i r]|] eqn:En.
  2: { destruct Hne as [|Hneg]; [done | ]. eapply keeps_bind; [apply Hs; lia | ]. cbn beta iota.
       rewrite (proj2 (Z.ltb_lt _ _)) by done. by apply keeps_ret. }
  destruct Hs as (tv & ov & Ht & _ & E & Hi). eapply keeps_bind; [exact E | ]. cbn iota.
  assert (Hm1 : module_ok (with_backend c (fetched f i r) s))
    by apply (module_backend _ _ _ _ _ _ Hm (with_backend_step _ _ _) Hi).
  destruct (us_copy_out us); cbn [negb]; [by apply keeps_ret | ].
  pose proof (with_backend_lookup s c v Hv (fetched f i r)) as Hv1.
  eapply keeps_bind; [by apply (control_hcd_eq _ c _ Hv1) | ].
  assert (tr_id tv <> 0) as Hid.
  { pose proof (to_id _ _ (ro_transfers _ _ _ (bc_refs _ _ _ (bi_core _ _ _ (mo_inv _ _ _ Hm)))) _ _ Ht).
    lia. }
  destruct (fetch_rollback_spec _ _ _ (mo_inv _ _ _ Hm1) c _ Hv1 f (tr_id tv) Hid)
    as (r' & s' & E' & Hi' & Hst' & _).
  eapply keeps_bind; [exact E' | ]. apply keeps_ret. by apply (module_backend _ _ _ _ _ _ Hm1 Hst').
Qed.
End control.

(** ** File operations *)

Section files.
Context (s : kernel) (Hm : module_ok s).
Context (f : file_ptr) (fv : file) (Hf : k_files s !! f = Some fv).

(** The usable control plane behind an open file. *)
Definition file_control : option hcd_ptr :=
  match fl_private_data fv with
  | Some ctx =>
      match cf_control ctx with
      | Some c => match k_hcds s !! c with
                  | Some v => if bool_decide (ct_hcd (vh_control v) = None) ||
                                 negb (ct_active (vh_control v)) then None else Some c
                  | None => None
                  end
      | None => None
      end
  | None => None
  end.

Lemma active_control_eq : active_control f s = Some (file_control, s).
Proof using Hm Hf.
  unfold active_control, file_control. unfold bind at 1, load. rewrite Hf.
  destruct (fl_private_data fv) as [ctx|] eqn:Ec; [ | done].
  destruct (cf_control ctx) as [c|] eqn:Ecc; [ | done].
  destruct (mo_file _ _ _ Hm f fv ctx c Hf Ec Ecc) as [v Hv].
  unfold bind. rewrite (load_control_eq s c v Hv), Hv. by destruct (_ || _).
Qed.

Lemma file_control_facts c : file_control = Some c -> exists v hv,
  k_hcds s !! c = Some v /\ ct_hcd (vh_control v) = Some c /\ k_hubs s !! c = Some hv.
Proof using Hm Hf.
  unfold file_control. destruct (fl_private_data fv) as [ctx|] eqn:Ec; [ | done].
  destruct (cf_control ctx) as [c'|] eqn:Ecc; [ | done].
  destruct (k_hcds s !! c') as [v|] eqn:Hv; [ | done].
  destruct (_ || _) eqn:Eb; [done | intros [= ->]]. apply orb_false_iff in Eb as [Eb _].
  apply bool_decide_eq_false in Eb. destruct (ct_hcd (vh_control v)) as [h|] eqn:Eh; [ | done].
  destruct (mo_hcd _ _ _ Hm c v Hv) as (_ & [hv Hh] & _ & Hs). exists v, hv.
  split_and!; [done | by rewrite (Hs h Eh) in Eh | done].
Qed.

(** A fetch that returns without going to sleep. *)
Definition fetch_at_once : Prop :=
  forall c v h s', file_control = Some c -> k_hcds s !! c = Some v -> ct_hcd (vh_control v) = Some h ->
    fetch_section h f (fl_nonblock fv) s <> Some (FetchWait, s').

Lemma nonblock_at_once : fl_nonblock fv = true -> fetch_at_once.
Proof using. intros Hnb c v h s' _ _ _. rewrite Hnb. apply fetch_section_returns. Qed.

Lemma ioctl_keeps enc command us env : user_wf us -> ioctl_env_wf s env ->
  command <> VIRTUSB_IOCTL_TRANSFER_FETCH enc \/ fetch_at_once ->
  keeps (virtusb_control_ioctl enc f command us env) s.
Proof using Hm Hf.
  intros Hus Henv Hnb. unfold virtusb_control_ioctl.
  eapply keeps_bind; [apply active_control_eq | ].
  destruct file_control as [c|] eqn:Efc; [ | by apply keeps_ret].
  destruct (file_control_facts c Efc) as (v & hv & Hv & Hc & Hh).
  assert (Hno : forall m, keeps m s -> keeps (no_reply m) s).
  { intros m. unfold keeps, no_reply. intros Hk. apply wp_bind. by eapply wp_mono. }
  destruct (_ =? _); [by eapply get_port_status_keeps | ].
  destruct (_ =? _); [by apply device_create_keeps | ].
  destruct (_ =? _); [by apply Hno, device_destroy_keeps | ].
  destruct (_ =? _); [by eapply Hno, device_attach_keeps | ].
  destruct (_ =? _); [by apply Hno, device_detach_keeps | ].
  destruct (_ =? _); [by apply Hno, device_connection_keeps | ].
  destruct (_ =? _); [by eapply Hno, set_port_power_keeps | ].
  destruct (_ =? _); [by eapply Hno, backend_register_keeps | ].
  destruct (_ =? _).
  { eapply keeps_bind; [by apply (control_hcd_eq _ c v) | ].
    eapply keeps_bind; [by apply (control_linux_hcd_eq s Hm c v) | ].
    unfold keeps. apply wp_bind. eapply wp_mono; [by apply (release_owner_keeps s Hm c v Hv) | done]. }
  destruct (Z.eqb_spec command (VIRTUSB_IOCTL_TRANSFER_FETCH enc)) as [->|].
  { destruct Hnb as [|Hnb]; [done | ]. eapply transfer_fetch_keeps; [done.. | ]. intros s'. by eapply Hnb. }
  destruct (_ =? _); [by eapply Hno, transfer_complete_keeps | by apply keeps_ret].
Qed.

(** Installing or clearing the private data of a file. *)
Lemma module_set_file d : (forall ctx c, d = Some ctx -> cf_control ctx = Some c ->
    is_Some (k_hcds s !! c)) ->
  module_ok (set_files (<[f := mk_file d (fl_nonblock fv)]> (k_files s)) s).
Proof using Hm Hf.
  intros Hd. destruct Hm as [[Hc Hb Hbal] Hh Hfl]. split; [ | done | ].
  - destruct Hc as [[Hbus [] [] HX] ? ? Hq ?]. split; [split; [split | | | | ] | | ]; try done.
    intros h v Hv. apply queue_ok_mono with s; [by apply (Hq h) | ].
    intros r _ Hr. apply (request_ok_frame s); eauto.
  - intros f' fv' ctx c. cbn. destruct (decide (f' = f)) as [->|].
    + rewrite lookup_insert_eq. intros [= <-]. cbn. apply Hd.
    + rewrite lookup_insert_ne by done. apply Hfl.
Qed.

Lemma open_keeps c v oom : k_hcds s !! c = Some v -> keeps (virtusb_control_open c f oom) s.
Proof using Hm Hf.
  intros Hv. unfold virtusb_control_open. destruct oom; [by apply keeps_ret | ].
  unfold keeps. apply wp_bind. eapply wp_load; [exact Hf | ]. apply wp_bind.
  eapply wp_store; [exact Hf | ]. apply wp_ret. apply module_set_file.
  intros ctx c' [= <-] [= <-]. by rewrite Hv.
Qed.

Lemma poll_eq : virtusb_control_poll f s = Some (
  match file_control with
  | None => Z.lor EPOLLERR EPOLLHUP
  | Some c => match k_hcds s !! c with
              | Some v => if be_stopping (vh_backend v) || bool_decide (next_request s v f <> None)
                          then Z.lor EPOLLIN EPOLLRDNORM else 0
              | None => 0
              end
  end, s).
Proof using Hm Hf.
  unfold virtusb_control_poll. unfold bind at 1. rewrite active_control_eq.
  destruct file_control as [c|] eqn:Efc; [ | done].
  destruct (file_control_facts c Efc) as (v & hv & Hv & Hc & Hh).
  unfold bind at 1. rewrite (control_hcd_eq s c v Hv Hc). unfold bind, virtusb_backend_has_pending.
  rewrite (pending_for_owner_eq _ _ s (mo_inv _ _ _ Hm) c v Hv), Hv. by destruct (_ || _).
Qed.
End files.

Lemma release_keeps s f fv : module_ok s -> k_files s !! f = Some fv ->
  keeps (virtusb_control_release f) s.
Proof.
  intros Hm Hf. unfold virtusb_control_release. unfold keeps at 1. apply wp_bind.
  eapply wp_load; [exact Hf | ]. apply wp_bind.
  assert (Hend : forall s', module_ok s' -> k_files s' !! f = Some fv ->
    keeps (fv <- load_file f ;; store_file f (mk_file None (fl_nonblock fv)) ;; ret 0) s').
  { intros s' Hm' Hf'. unfold keeps. apply wp_bind. eapply wp_load; [exact Hf' | ]. apply wp_bind.
    eapply wp_store; [exact Hf' | ]. apply wp_ret. by apply module_set_file. }
  destruct (fl_private_data fv) as [ctx|] eqn:Ec; [ | by apply Hend].
  destruct (cf_control ctx) as [c|] eqn:Ecc; [ | by apply Hend].
  destruct (mo_file _ _ _ Hm f fv ctx c Hf Ec Ecc) as [v Hv].
  apply wp_bind. eapply wp_eq; [apply (load_control_eq s c v Hv) | ].
  destruct (ct_hcd (vh_control v)) as [h|] eqn:Eh; [ | by apply Hend].
  destruct (mo_hcd _ _ _ Hm c v Hv) as (_ & _ & _ & Hs). assert (h = c) as -> by (by apply Hs). clear Hs.
  apply wp_bind. eapply wp_eq; [by apply (control_linux_hcd_eq s Hm c v) | ].
  destruct (release_owner_spec _ _ s (mo_inv _ _ _ Hm) c c v Hv f) as (s' & E & Hi & Hst & _).
  eapply wp_eq; [exact E | ]. apply Hend; [by apply (module_backend _ _ _ _ _ _ Hm Hst) | ].
  by rewrite (bk_files _ _ Hst).
Qed.

(** ** Command numbers *)

(** The commands that have a handler, and the ones that the header only reserves. *)
Definition commands (enc : ioctl_encoding) : list Z :=
  [VIRTUSB_IOCTL_GET_PORT_STATUS enc; VIRTUSB_IOCTL_DEVICE_CREATE enc;
   VIRTUSB_IOCTL_DEVICE_DESTROY enc; VIRTUSB_IOCTL_DEVICE_ATTACH enc;
   VIRTUSB_IOCTL_DEVICE_DETACH enc; VIRTUSB_IOCTL_DEVICE_CONNECTION enc;
   VIRTUSB_IOCTL_SET_PORT_POWER enc; VIRTUSB_IOCTL_BACKEND_REGISTER enc;
   VIRTUSB_IOCTL_BACKEND_UNREGISTER enc; VIRTUSB_IOCTL_TRANSFER_FETCH enc;
   VIRTUSB_IOCTL_TRANSFER_COMPLETE enc].
Definition reserved_commands (enc : ioctl_encoding) : list Z :=
  [VIRTUSB_IOCTL_GET_POWER enc; VIRTUSB_IOCTL_GET_ENABLED enc; VIRTUSB_IOCTL_GET_SUSPENDED enc;
   VIRTUSB_IOCTL_GET_RESET enc; VIRTUSB_IOCTL_GET_OVER_CURRENT enc; VIRTUSB_IOCTL_GET_SPEED enc;
   VIRTUSB_IOCTL_SET_OVER_CURRENT enc; VIRTUSB_IOCTL_SET_SPEED enc].
