(* ===== verification/ModuleSpec.v ===== *)
(** * The loaded module as a transition system

    The calls that user space and the USB core make into the module, each run
    to its end, and the states that any sequence of them reaches. *)

From S2P Require Import Prelude Uapi Kernel Port Hub Object Device Transfer Backend BackendInv BackendOps Hcd HcdSpec UrbSpec Control ControlSpec.

(** ** The entry points of the USB core *)

Section usb_core.
Context (s : kernel) (Hm : module_ok s).
Context (h : hcd_ptr) (v : virtusb_hcd) (Hv : k_hcds s !! h = Some v).

Lemma hcd_parts : exists hv uhcd, k_hubs s !! h = Some hv /\ k_usb_hcds s !! h = Some uhcd.
Proof. destruct (mo_hcd _ _ _ Hm h v Hv) as (_ & [hv ?] & [uhcd ?] & _). by exists hv, uhcd. Qed.

Lemma hub_control_keeps type_req value index buf len : (15 <= length buf)%nat ->
  keeps (virtusb_hcd_hub_control h type_req value index buf len) s.
Proof.
  intros Hl. destruct hcd_parts as (hv & uhcd & Hh & _).
  destruct (hub_control_spec s (module_bus _ _ _ Hm) h hv Hh type_req value index buf len Hl)
    as (r & buf' & s' & E & Hs & _).
  apply (keeps_eq _ _ _ _ E). by apply (module_bus_step _ _ s).
Qed.

Lemma hub_status_data_keeps buf : (4 <= length buf)%nat -> keeps (virtusb_hcd_hub_status_data h buf) s.
Proof.
  intros Hl. destruct hcd_parts as (hv & uhcd & Hh & _).
  pose proof (bitmap_bytes_range s (module_bus _ _ _ Hm) h hv Hh) as [Hr _].
  pose proof (hub_status_data_eq s h hv Hh buf) as E.
  destruct (_ =? 0); (eapply keeps_eq; [apply E; lia | done]).
Qed.

Lemma urb_dequeue_keeps u status check : keeps (virtusb_hcd_urb_dequeue (Some h) (Some u) status check) s.
Proof.
  destruct (backend_cancel_spec _ _ s (mo_inv _ _ _ Hm) h h v Hv u status check)
    as (r & s' & E & Hi & Hst & _).
  apply (keeps_eq _ _ _ _ E). by apply (module_backend _ _ _ _ _ _ Hm Hst).
Qed.

Lemma urb_enqueue_keeps u uv env : k_urbs s !! u = Some uv -> urb_wf uv -> env_wf s uv env ->
  k_next_transfer_id s + 1 < 2 ^ 64 ->
  keeps (virtusb_hcd_urb_enqueue (Some h) (Some u) env) s.
Proof.
  intros Hu Hwf Henv Hid. destruct hcd_parts as (hv & uhcd & Hh & Huh).
  pose proof (mo_inv _ _ _ Hm) as Hi.
  pose proof (enqueue_checked _ _ s Hi h hv Hh uhcd Huh u uv Hu Hwf env) as E.
  destruct (urb_check s h uhcd uv) as [[d ty]|e] eqn:Hc; [ | by apply (keeps_eq _ _ _ _ E)].
  destruct (urb_memory uv env) as [[t block]|] eqn:Hmem.
  2: { eapply keeps_eq; [by eapply enqueue_oom | done]. }
  destruct (urb_enqueue_eq _ _ s Hi h hv Hh uhcd Huh v Hv u uv Hu Hwf env Henv Hid d ty Hc t block Hmem)
    as (Er & Hi' & Hst).
  destruct (submitted_spec _ _ s Hi h hv Hh uhcd v Hv u uv Hu Hwf env Henv Hid d ty Hc t block Hmem)
    as (_ & Hi2 & Hbk).
  destruct (urb_result s h v u uv env d ty t block) as [r s'] eqn:Eres. apply (keeps_eq _ _ _ _ Er).
  assert (Hm1 : module_with (fun _ => 0) (add_ref t 1 (fun _ => 0)) (urb_created s uv d ty t block)).
  { destruct (urb_create_eq _ _ s Hi h hv Hh uhcd uv Hwf env Henv Hid d ty Hc t block Hmem) as [_ Hi1].
    by apply (module_storageless _ _ _ _ _ _ Hm Hi1). }
  pose proof (module_backend _ _ _ _ _ _ Hm1 Hbk Hi2) as Hm2.
  by apply (module_backend _ _ _ _ _ _ Hm2 (storage_backend_step _ _ Hst)).
Qed.
End usb_core.

(** ** Calls *)

Inductive call :=
  | CallOpen (c : hcd_ptr) (f : file_ptr) (oom : bool)
  | CallIoctl (f : file_ptr) (command : Z) (us : user) (env : ioctl_env)
  | CallPoll (f : file_ptr)
  | CallRelease (f : file_ptr)
  | CallHubControl (h : hcd_ptr) (type_req value index : Z) (buf : list Z) (len : Z)
  | CallHubStatusData (h : hcd_ptr) (buf : list Z)
  | CallEnqueue (h : hcd_ptr) (u : urb_ptr) (env : enqueue_env)
  | CallDequeue (h : hcd_ptr) (u : urb_ptr) (status check : Z).

Definition no_result {A} (m : K A) : K unit := _ <- m ;; ret tt.

Definition run_call (enc : ioctl_encoding) (c : call) : K unit :=
  match c with
  | CallOpen c f oom => no_result (virtusb_control_open c f oom)
  | CallIoctl f command us env => no_result (virtusb_control_ioctl enc f command us env)
  | CallPoll f => no_result (virtusb_control_poll f)
  | CallRelease f => no_result (virtusb_control_release f)
  | CallHubControl h type_req value index buf len =>
      no_result (virtusb_hcd_hub_control h type_req value index buf len)
  | CallHubStatusData h buf => no_result (virtusb_hcd_hub_status_data h buf)
  | CallEnqueue h u env => no_result (virtusb_hcd_urb_enqueue (Some h) (Some u) env)
  | CallDequeue h u status check => no_result (virtusb_hcd_urb_dequeue (Some h) (Some u) status check)
  end.

(** What Linux guarantees when it makes a call: the file is open, the HCD is
    registered, buffers have their documented size, memory is fresh.  A fetch
    is one call when it does not sleep; one that sleeps lets other calls run and
    is the subject of BlockSpec. *)
Definition call_allowed (enc : ioctl_encoding) (s : kernel) (c : call) : Prop :=
  match c with
  | CallOpen c f _ => is_Some (k_hcds s !! c) /\ is_Some (k_files s !! f)
  | CallIoctl f command us env => exists fv, k_files s !! f = Some fv /\
      user_wf us /\ ioctl_env_wf s env /\
      (command <> VIRTUSB_IOCTL_TRANSFER_FETCH enc \/ fetch_at_once s f fv)
  | CallPoll f | CallRelease f => is_Some (k_files s !! f)
  | CallHubControl h _ _ _ buf _ => is_Some (k_hcds s !! h) /\ (15 <= length buf)%nat
  | CallHubStatusData h buf => is_Some (k_hcds s !! h) /\ (4 <= length buf)%nat
  | CallEnqueue h u env => is_Some (k_hcds s !! h) /\ k_next_transfer_id s + 1 < 2 ^ 64 /\
      exists uv, k_urbs s !! u = Some uv /\ urb_wf uv /\ env_wf s uv env
  | CallDequeue h _ _ _ => is_Some (k_hcds s !! h)
  end.

Lemma no_result_keeps {A} (m : K A) s : keeps m s -> keeps (no_result m) s.
Proof. intros Hk. apply wp_bind. by eapply wp_mono. Qed.

Lemma run_call_keeps enc s c : module_ok s -> call_allowed enc s c -> keeps (run_call enc c) s.
Proof.
  intros Hm. destruct c; cbn; intros Ha; apply no_result_keeps.
  - destruct Ha as [[v Hv] [fv Hf]]. by eapply open_keeps.
  - destruct Ha as (fv & Hf & ? & ? & ?). by eapply ioctl_keeps.
  - destruct Ha as [fv Hf]. eapply keeps_eq; [by eapply poll_eq | done].
  - destruct Ha as [fv Hf]. by eapply release_keeps.
  - destruct Ha as [[v Hv] ?]. by eapply hub_control_keeps.
  - destruct Ha as [[v Hv] ?]. by eapply hub_status_data_keeps.
  - destruct Ha as ([v Hv] & ? & uv & ? & ? & ?). by eapply urb_enqueue_keeps.
  - destruct Ha as [v Hv]. by eapply urb_dequeue_keeps.
Qed.

(** ** The environment

    Between two calls the USB core prepares URBs that are in no queue, and
    files are allocated or get another O_NONBLOCK flag. *)
Definition put_urb (u : urb_ptr) (uv : urb) (s : kernel) : kernel :=
  set_urbs (<[u := uv]> (k_urbs s)) s.
Definition put_file (f : file_ptr) (fv : file) (s : kernel) : kernel :=
  set_files (<[f := fv]> (k_files s)) s.

Definition file_data (s : kernel) (f : file_ptr) : option virtusb_control_file :=
  match k_files s !! f with Some fv => fl_private_data fv | None => None end.

Lemma module_put_urb s u uv : module_ok s -> urb_refs s u = 0 -> module_ok (put_urb u uv s).
Proof.
  intros Hm H0. destruct Hm as [[Hc Hb Hbal] Hh Hfl]. split; [ | done | done].
  destruct Hc as [[Hbus [] [] HX] ? ? Hq ?]. split; [split; [split | | | | ] | | ]; try done.
  intros h v Hv. apply queue_ok_mono with s; [by apply (Hq h) | ].
  intros r Hr [(tv & Ht & Hst & Hl & uv0 & Hu0 & Hub)]. constructor. exists tv.
  split_and!; [done.. | ]. exists uv0. split; [ | done]. cbn.
  rewrite lookup_insert_ne; [done | ]. intros ->.
  assert (1 <= backend_urbs (rq_urb r) (vh_backend v)) by (by apply (count_pos _ _ r)).
  assert (backend_urbs (rq_urb r) (vh_backend v) <= urb_refs s (rq_urb r))
    by (apply (hcd_sum_le _ h v); [done | apply backend_urbs_nonneg]).
  lia.
Qed.

Lemma module_put_file s f fv : module_ok s -> fl_private_data fv = file_data s f ->
  module_ok (put_file f fv s).
Proof.
  intros Hm Ef. destruct Hm as [[Hc Hb Hbal] Hh Hfl]. split; [ | done | ].
  - destruct Hc as [[Hbus [] [] HX] ? ? Hq ?]. split; [split; [split | | | | ] | | ]; try done.
    intros h v Hv. apply queue_ok_mono with s; [by apply (Hq h) | ].
    intros r _ Hr. apply (request_ok_frame s); eauto.
  - intros f' fv' ctx c. cbn. destruct (decide (f' = f)) as [->|].
    + rewrite lookup_insert_eq. intros [= <-]. rewrite Ef. unfold file_data.
      destruct (k_files s !! f) as [fv0|] eqn:Hf; [by apply Hfl with f | done].
    + rewrite lookup_insert_ne by done. apply Hfl.
Qed.

(** ** Runs *)

(** One step, and any number of steps. *)
Inductive module_step (enc : ioctl_encoding) : kernel -> kernel -> Prop :=
  | step_call s c s' : call_allowed enc s c -> run_call enc c s = Some (tt, s') ->
      module_step enc s s'
  | step_urb s u uv : urb_refs s u = 0 -> module_step enc s (put_urb u uv s)
  | step_file s f fv : fl_private_data fv = file_data s f -> module_step enc s (put_file f fv s).
Definition module_reach (enc : ioctl_encoding) : kernel -> kernel -> Prop := rtc (module_step enc).

Lemma module_step_ok enc s s' : module_step enc s s' -> module_ok s -> module_ok s'.
Proof.
  intros [s0 c s1 Ha E | s0 u uv H0 | s0 f fv Ef] Hm.
  - pose proof (run_call_keeps enc s0 c Hm Ha) as Hk.
    unfold keeps, wp in Hk. by rewrite E in Hk.
  - by apply module_put_urb.
  - by apply module_put_file.
Qed.

Lemma module_reach_ok enc s s' : module_reach enc s s' -> module_ok s -> module_ok s'.
Proof. induction 1; [done | ]. intros Hm. eauto using module_step_ok. Qed.

(** The call after a run returns. *)
Lemma module_call_returns enc s s' c : module_ok s -> module_reach enc s s' ->
  call_allowed enc s' c -> exists s'', run_call enc c s' = Some (tt, s'') /\ module_ok s''.
Proof.
  intros Hm Hr Ha. pose proof (run_call_keeps enc s' c (module_reach_ok _ _ _ Hr Hm) Ha) as Hk.
  unfold keeps, wp in Hk. destruct (run_call enc c s') as [[[] s'']|]; [by exists s'' | done].
Qed.
