(* ===== verification/Service.v ===== *)
(** * What the module is for: the abstract specification

    Seen from outside, every host controller is a service that hands requests
    from the USB core to user-space backends.  Nothing is left here of the two
    queues, the objects, the reference counts and the locks: a service has
    backends, requests that wait and requests that a backend has taken.  The
    file states what may happen to a service, and proves what follows for any
    run of such steps: every request lives once and backends see the requests
    of a device in order.  [ServiceSpec] shows that the module is such a
    service. *)

From stdpp Require Import sorting.
From S2P Require Import Prelude Uapi Kernel.

(** ** Requests and what can happen to them *)

Record job := mk_job {
  jb_id : Z;
  jb_urb : urb_ptr;
  jb_device : obj_ptr;
}.

(** Why a request ends: a backend answers, the USB core cancels it, or the
    backend it depends on goes away. *)
Inductive reason :=
  | Answered (f : file_ptr)
  | Cancelled
  | Unregistered (f : file_ptr).

Inductive happening :=
  | Submitted (j : job)
  | Faulted (j : job) (f : file_ptr)      (* fetched, but not delivered to user space *)
  | Delivered (j : job) (f : file_ptr)
  | Ended (j : job) (status : Z) (why : reason).
Definition job_in (x : happening) : job :=
  match x with Submitted j | Faulted j _ | Delivered j _ | Ended j _ _ => j end.

(** What the USB core observes. *)
Definition seen_at (h : hcd_ptr) (x : happening) : list event :=
  match x with
  | Submitted j => [EvLinkUrb h (jb_urb j)]
  | Faulted _ _ | Delivered _ _ => []
  | Ended j status _ => [EvUnlinkUrb h (jb_urb j); EvGiveback h (jb_urb j) status]
  end.

Abbreviation log := (list (hcd_ptr * happening)).
Definition seen (l : log) : list event := concat (map (fun x => seen_at x.1 x.2) l).

Lemma seen_app l1 l2 : seen (l1 ++ l2) = seen l1 ++ seen l2.
Proof. unfold seen. by rewrite map_app, concat_app. Qed.

(** ** One service *)

Record service := mk_service {
  sv_bindings : list virtusb_backend_binding;
  sv_waiting : list job;
  sv_taken : list (job * file_ptr);
}.

Definition waits_for (d : obj_ptr) (j : job) : bool := bool_decide (jb_device j = d).
Definition taken_by (d : obj_ptr) (f : file_ptr) (x : job * file_ptr) : bool :=
  waits_for d x.1 && bool_decide (x.2 = f).

(** The requests that depend on the backend [f] of [d], in the order in which
    they end when it goes away. *)
Definition dependents (d : obj_ptr) (f : file_ptr) (sv : service) : list job :=
  filter (fun j => waits_for d j = true) (sv_waiting sv) ++
  map fst (filter (fun x => taken_by d f x = true) (sv_taken sv)).
Definition unbound_service (i : nat) (d : obj_ptr) (f : file_ptr) (sv : service) : service :=
  mk_service (delete i (sv_bindings sv))
    (filter (fun j => waits_for d j = false) (sv_waiting sv))
    (filter (fun x => taken_by d f x = false) (sv_taken sv)).

(** The oldest waiting request of a device. *)
Definition oldest (d : obj_ptr) (sv : service) : option (nat * job) :=
  list_find (fun j => waits_for d j = true) (sv_waiting sv).

Inductive service_step (sv : service) : list happening -> service -> Prop :=
  | does_bind d f : d ∉ map bd_device (sv_bindings sv) -> f ∉ map bd_owner (sv_bindings sv) ->
      service_step sv []
        (mk_service (sv_bindings sv ++ [mk_binding d f]) (sv_waiting sv) (sv_taken sv))
  | does_unbind i d f : sv_bindings sv !! i = Some (mk_binding d f) ->
      service_step sv (map (fun j => Ended j (- ESHUTDOWN) (Unregistered f)) (dependents d f sv))
        (unbound_service i d f sv)
  | does_submit j : jb_device j ∈ map bd_device (sv_bindings sv) ->
      service_step sv [Submitted j]
        (mk_service (sv_bindings sv) (sv_waiting sv ++ [j]) (sv_taken sv))
  | does_deliver d f i j : mk_binding d f ∈ sv_bindings sv -> oldest d sv = Some (i, j) ->
      service_step sv [Delivered j f]
        (mk_service (sv_bindings sv) (delete i (sv_waiting sv)) (sv_taken sv ++ [(j, f)]))
  | does_fault d f i j : mk_binding d f ∈ sv_bindings sv -> oldest d sv = Some (i, j) ->
      service_step sv [Faulted j f]
        (mk_service (sv_bindings sv) (j :: delete i (sv_waiting sv)) (sv_taken sv))
  | does_answer i j f status : sv_taken sv !! i = Some (j, f) ->
      service_step sv [Ended j status (Answered f)]
        (mk_service (sv_bindings sv) (sv_waiting sv) (delete i (sv_taken sv)))
  | does_cancel_waiting i j status : sv_waiting sv !! i = Some j ->
      service_step sv [Ended j status Cancelled]
        (mk_service (sv_bindings sv) (delete i (sv_waiting sv)) (sv_taken sv))
  | does_cancel_taken i j f status : sv_taken sv !! i = Some (j, f) ->
      service_step sv [Ended j status Cancelled]
        (mk_service (sv_bindings sv) (sv_waiting sv) (delete i (sv_taken sv))).

(** ** All services

    Transfer IDs are given out in increasing order over all host controllers;
    an ID that was given to a rejected request is lost. *)
Record services := mk_services {
  sc_at : gmap hcd_ptr service;
  sc_last : Z;
}.

Inductive services_step (S : services) : log -> services -> Prop :=
  | sc_skip n : sc_last S <= n -> services_step S [] (mk_services (sc_at S) n)
  | sc_acts h sv l sv' n : sc_at S !! h = Some sv -> service_step sv l sv' -> sc_last S <= n ->
      (forall j, Submitted j ∈ l -> sc_last S < jb_id j <= n) ->
      services_step S (map (pair h) l) (mk_services (<[h := sv']> (sc_at S)) n).

Inductive services_run (S : services) : log -> services -> Prop :=
  | run_nil : services_run S [] S
  | run_snoc l S1 l' S2 : services_run S l S1 -> services_step S1 l' S2 ->
      services_run S (l ++ l') S2.

(** ** The life of a request *)

(** Where a transfer ID is: not given out yet, held by a host controller (by a
    backend, when there is one), or gone for ever. *)
Inductive place :=
  | Unborn
  | Held (h : hcd_ptr) (j : job) (backend : option file_ptr)
  | Gone.

Definition hid (x : job * option file_ptr) : Z := jb_id x.1.

(** The requests of a service, with the backend that has taken them. *)
Definition held (sv : service) : list (job * option file_ptr) :=
  map (fun j => (j, None)) (sv_waiting sv) ++ map (fun x => (x.1, Some x.2)) (sv_taken sv).
Definition held_at (S : services) (h : hcd_ptr) (x : job * option file_ptr) : Prop :=
  exists sv, sc_at S !! h = Some sv /\ x ∈ held sv.
Definition located (S : services) (n : Z) (p : place) : Prop :=
  match p with
  | Unborn => sc_last S < n
  | Held h j o => jb_id j = n /\ held_at S h (j, o)
  | Gone => n <= sc_last S /\ forall h x, held_at S h x -> hid x <> n
  end.

(** Who may end a request: the USB core at any time, the backend that has taken
    it, and the loss of that backend or, while it waits, of any backend. *)
Definition may_end (backend : option file_ptr) (why : reason) : Prop :=
  match why with
  | Cancelled => True
  | Answered f => backend = Some f
  | Unregistered f => backend = None \/ backend = Some f
  end.

Inductive moves : place -> log -> place -> Prop :=
  | stays_there p : moves p [] p
  | is_lost : moves Unborn [] Gone
  | is_submitted h j : moves Unborn [(h, Submitted j)] (Held h j None)
  | is_faulted h j f : moves (Held h j None) [(h, Faulted j f)] (Held h j None)
  | is_delivered h j f : moves (Held h j None) [(h, Delivered j f)] (Held h j (Some f))
  | is_ended h j o status why : may_end o why ->
      moves (Held h j o) [(h, Ended j status why)] Gone.

Inductive life (p : place) : log -> place -> Prop :=
  | life_start : life p [] p
  | life_moves l p1 l' p2 : life p l p1 -> moves p1 l' p2 -> life p (l ++ l') p2.

(** The entries of a log about one transfer ID, and the IDs that backends of one
    device got, in that order. *)
Definition about (n : Z) (l : log) : log := filter (fun x => jb_id (job_in x.2) = n) l.
Definition delivered_id (h : hcd_ptr) (d : obj_ptr) (x : hcd_ptr * happening) : option Z :=
  match x.2 with
  | Delivered j _ => if decide (x.1 = h /\ jb_device j = d) then Some (jb_id j) else None
  | _ => None
  end.
Definition delivered_ids (h : hcd_ptr) (d : obj_ptr) (l : log) : list Z := omap (delivered_id h d) l.
Definition waiting_ids (h : hcd_ptr) (d : obj_ptr) (S : services) : list Z :=
  match sc_at S !! h with
  | Some sv => map jb_id (filter (fun j => waits_for d j = true) (sv_waiting sv))
  | None => []
  end.

(** IDs are unique and were given out. *)
Record services_ok (S : services) : Prop := {
  so_last : forall h x, held_at S h x -> hid x <= sc_last S;
  so_nodup : forall h sv, sc_at S !! h = Some sv -> NoDup (map hid (held sv));
  so_apart : forall h h' x x', held_at S h x -> held_at S h' x' -> hid x = hid x' -> h = h';
}.

(** ** The requests of a service as a multiset *)

Abbreviation holding := (list (job * option file_ptr)).
(** How one step changes what is held. *)
Inductive shape (A : holding) : list happening -> holding -> Prop :=
  | shape_same A' : A ≡ₚ A' -> shape A [] A'
  | shape_new j A' : A' ≡ₚ (j, None) :: A -> shape A [Submitted j] A'
  | shape_fault j f A' : (j, None) ∈ A -> A ≡ₚ A' -> shape A [Faulted j f] A'
  | shape_taken j f R A' : A ≡ₚ (j, None) :: R -> A' ≡ₚ (j, Some f) :: R -> shape A [Delivered j f] A'
  | shape_end E status why A' : A ≡ₚ E ++ A' -> (forall x, x ∈ E -> may_end x.2 why) ->
      shape A (map (fun x => Ended x.1 status why) E) A'.

Lemma filter_split {A} (f : A -> bool) (l : list A) :
  l ≡ₚ filter (fun x => f x = true) l ++ filter (fun x => f x = false) l.
Proof.
  induction l as [|x l IH]; [done | ]. destruct (f x) eqn:E.
  - rewrite filter_cons_True, filter_cons_False by congruence. cbn. by rewrite <- IH.
  - rewrite filter_cons_False, filter_cons_True by congruence. by rewrite <- Permutation_middle, <- IH.
Qed.

Lemma oldest_lookup d sv i j : oldest d sv = Some (i, j) ->
  sv_waiting sv !! i = Some j /\ jb_device j = d.
Proof.
  intros (Hi & Hd & _)%list_find_Some. split; [done | ]. by apply bool_decide_eq_true in Hd.
Qed.

Lemma oldest_first d sv i j : oldest d sv = Some (i, j) -> forall d', waits_for d' j = true ->
  forall k y, sv_waiting sv !! k = Some y -> (k < i)%nat -> waits_for d' y = false.
Proof.
  intros Hold d' Hd' k y Hk Hlt. destruct (oldest_lookup _ _ _ _ Hold) as [_ Hd].
  apply bool_decide_eq_true in Hd'. rewrite Hd in Hd'. subst d'.
  apply list_find_Some in Hold as (_ & _ & Hfirst). apply not_true_is_false. exact (Hfirst k y Hk Hlt).
Qed.

Lemma held_waiting sv i j : sv_waiting sv !! i = Some j ->
  held sv ≡ₚ (j, None) :: map (fun j => (j, None)) (delete i (sv_waiting sv)) ++
                          map (fun x => (x.1, Some x.2)) (sv_taken sv).
Proof. intros Hi. unfold held. by rewrite (delete_Permutation _ i j Hi) at 1. Qed.

Lemma held_taken sv i j f : sv_taken sv !! i = Some (j, f) ->
  held sv ≡ₚ (j, Some f) :: map (fun j => (j, None)) (sv_waiting sv) ++
                            map (fun x => (x.1, Some x.2)) (delete i (sv_taken sv)).
Proof.
  intros Hi. unfold held. rewrite (delete_Permutation _ i (j, f) Hi) at 1. cbn.
  by rewrite <- Permutation_middle.
Qed.

Lemma held_unbound sv i d f : shape (held sv)
  (map (fun j => Ended j (- ESHUTDOWN) (Unregistered f)) (dependents d f sv)) (held (unbound_service i d f sv)).
Proof.
  set (E := map (fun j => (j, @None file_ptr)) (filter (fun j => waits_for d j = true) (sv_waiting sv)) ++
            map (fun x : job * file_ptr => (x.1, Some x.2)) (filter (fun x => taken_by d f x = true) (sv_taken sv))).
  assert (map (fun j => Ended j (- ESHUTDOWN) (Unregistered f)) (dependents d f sv) =
          map (fun x => Ended x.1 (- ESHUTDOWN) (Unregistered f)) E) as ->
    by (unfold E, dependents; by rewrite !map_app, !map_map).
  apply shape_end.
  - unfold E, held, unbound_service. cbn.
    rewrite (filter_split (waits_for d) (sv_waiting sv)) at 1.
    rewrite (filter_split (taken_by d f) (sv_taken sv)) at 1. rewrite !map_app. solve_Permutation.
  - intros x [Hx|Hx]%elem_of_app; apply list_elem_of_In, in_map_iff in Hx as (y & <- & Hy); cbn; [by left | right].
    apply list_elem_of_In, list_elem_of_filter in Hy as [Hy _]. unfold taken_by in Hy.
    apply andb_true_iff in Hy as [_ Hy]. apply bool_decide_eq_true in Hy. by rewrite Hy.
Qed.

Lemma service_step_shape sv l sv' : service_step sv l sv' -> shape (held sv) l (held sv').
Proof.
  intros [d f Hd Hf|i d f Hi|j Hj|d f i j Hb Ho|d f i j Hb Ho|i j f st Hi|i j st Hi|i j f st Hi].
  - by apply shape_same.
  - apply held_unbound.
  - apply shape_new. unfold held. cbn. rewrite map_app. cbn. solve_Permutation.
  - destruct (oldest_lookup _ _ _ _ Ho) as [Hi _]. eapply shape_taken; [exact (held_waiting sv i j Hi) | ].
    unfold held. cbn. rewrite map_app. cbn. solve_Permutation.
  - destruct (oldest_lookup _ _ _ _ Ho) as [Hi _]. pose proof (held_waiting sv i j Hi) as Hp.
    apply shape_fault; [rewrite Hp; by left | exact Hp].
  - apply (shape_end _ [(j, Some f)]); [exact (held_taken sv i j f Hi) | ]. by intros x ->%list_elem_of_singleton.
  - apply (shape_end _ [(j, None)]); [exact (held_waiting sv i j Hi) | ]. by intros x ->%list_elem_of_singleton.
  - apply (shape_end _ [(j, Some f)]); [exact (held_taken sv i j f Hi) | ]. by intros x ->%list_elem_of_singleton.
Qed.

(** ** IDs stay unique *)

Lemma hid_unique (A : holding) x y : NoDup (map hid A) -> x ∈ A -> y ∈ A -> hid x = hid y -> x = y.
Proof.
  induction A as [|a A IH]; cbn; [by intros _ ?%not_elem_of_nil | ]. intros [Ha Hn]%NoDup_cons Hx Hy E.
  assert (Hin : forall z, z ∈ A -> hid z ∈ map hid A) by (intros z Hz; by apply list_elem_of_fmap_2).
  apply elem_of_cons in Hx as [->|Hx], Hy as [->|Hy]; [done | | | by apply IH].
  - destruct Ha. rewrite E. by apply Hin.
  - destruct Ha. rewrite <- E. by apply Hin.
Qed.

Lemma filter_hid (E : holding) x : NoDup (map hid E) -> x ∈ E -> filter (fun y => hid y = hid x) E = [x].
Proof.
  intros Hn [i Hi]%list_elem_of_lookup. rewrite <- (take_drop_middle E i x Hi).
  rewrite <- (take_drop_middle E i x Hi), map_app in Hn. cbn in Hn.
  apply NoDup_app in Hn as (_ & H1 & [H2 _]%NoDup_cons).
  rewrite filter_app, filter_cons_True by done.
  rewrite (filter_none _ (take i E)), (filter_none _ (drop _ E)); [done | | ].
  - intros y Hy Ey. apply H2. rewrite <- Ey. by apply list_elem_of_fmap_2.
  - intros y Hy Ey. destruct (H1 (hid y)); [by apply list_elem_of_fmap_2 | ]. rewrite Ey. by left.
Qed.

Lemma about_app n l1 l2 : about n (l1 ++ l2) = about n l1 ++ about n l2.
Proof. apply filter_app. Qed.
Lemma about_one n h x : about n [(h, x)] = if decide (jb_id (job_in x) = n) then [(h, x)] else [].
Proof. reflexivity. Qed.
Lemma about_ended n h (E : holding) st why :
  about n (map (pair h) (map (fun x => Ended x.1 st why) E)) =
  map (fun x => (h, Ended x.1 st why)) (filter (fun x => hid x = n) E).
Proof.
  induction E as [|x E IH]; [done | ]. cbn [map]. unfold about in *. rewrite !filter_cons, IH. cbn.
  change (hid x) with (jb_id x.1). by case_decide.
Qed.

(** IDs come from the service before, or from a submission. *)
Lemma shape_ids A l A' x : shape A l A' -> x ∈ A' ->
  (exists y, y ∈ A /\ hid y = hid x) \/ Submitted x.1 ∈ l.
Proof.
  intros [A1 E|j A1 E|j f A1 Hin E|j f R A1 E E'|E st why A1 HE Hw] Hx.
  - left. exists x. by rewrite E.
  - rewrite E in Hx. apply elem_of_cons in Hx as [->|Hx]; [right; by left | left; by exists x].
  - left. exists x. by rewrite E.
  - rewrite E' in Hx. left. apply elem_of_cons in Hx as [->|Hx].
    + exists (j, None). rewrite E. split; [by left | done].
    + exists x. rewrite E. split; [by right | done].
  - left. exists x. rewrite HE. split; [by apply elem_of_app; right | done].
Qed.

Lemma shape_nodup A l A' : shape A l A' -> NoDup (map hid A) ->
  (forall j, Submitted j ∈ l -> forall x, x ∈ A -> hid x <> jb_id j) -> NoDup (map hid A').
Proof.
  intros Hs Hn Hf. destruct Hs as [A1 E|j A1 E|j f A1 Hin E|j f R A1 E E'|E st why A1 HE Hw].
  - by rewrite <- E.
  - rewrite E. cbn. apply NoDup_cons. split; [ | done]. intros (x & Hx & Hin)%list_elem_of_fmap.
    by destruct (Hf j ltac:(by left) x Hin).
  - by rewrite <- E.
  - rewrite E'. rewrite E in Hn. exact Hn.
  - rewrite HE, map_app in Hn. by apply NoDup_app in Hn as (_ & _ & ?).
Qed.

(** ** One request at a time *)

Section request.
Context (h : hcd_ptr) (n : Z).

(** What becomes of a request that is held. *)
Lemma held_moves A l A' x : shape A l A' -> NoDup (map hid A) ->
  (forall j, Submitted j ∈ l -> jb_id j <> n) -> x ∈ A -> hid x = n ->
  (exists o, (x.1, o) ∈ A' /\ moves (Held h x.1 x.2) (about n (map (pair h) l)) (Held h x.1 o)) \/
  ((forall y, y ∈ A' -> hid y <> n) /\ moves (Held h x.1 x.2) (about n (map (pair h) l)) Gone).
Proof.
  intros Hs Hn Hf Hx Hxn. assert (Hx' : (x.1, x.2) ∈ A) by by destruct x.
  assert (Hsame : forall j, jb_id j = n -> (j, None) ∈ A -> x = (j, None)).
  { intros j Hj Hin. by apply (hid_unique A); [ | | | rewrite Hxn]. }
  destruct Hs as [A1 E|j A1 E|j f A1 Hin E|j f R A1 E E'|E st why A1 HE Hw].
  - left. exists x.2. rewrite <- E. split; [done | constructor].
  - left. exists x.2. rewrite E. split; [by right | ]. cbn [map]. rewrite about_one.
    rewrite decide_False by (apply Hf; by left). constructor.
  - left. cbn [map]. rewrite about_one. case_decide as Hj.
    + rewrite (Hsame j Hj Hin) in *. exists None. rewrite <- E. split; [done | constructor].
    + exists x.2. rewrite <- E. split; [done | constructor].
  - left. cbn [map]. rewrite about_one. case_decide as Hj.
    + rewrite (Hsame j Hj) by (rewrite E; by left). exists (Some f). rewrite E'. split; [by left | constructor].
    + exists x.2. rewrite E'. split; [right | constructor]. rewrite E in Hx'.
      apply elem_of_cons in Hx' as [Hx'|]; [ | done]. destruct Hj. rewrite <- Hxn. unfold hid. by injection Hx' as <-.
  - rewrite about_ended. rewrite HE in Hx, Hn. rewrite map_app in Hn.
    apply NoDup_app in Hn as (Hn & Hap & _). apply elem_of_app in Hx as [Hx|Hx].
    + right. split.
      * intros y Hy Ey. apply (Hap n); [rewrite <- Hxn | rewrite <- Ey]; by apply list_elem_of_fmap_2.
      * rewrite <- Hxn, (filter_hid E x Hn Hx). apply is_ended. by apply Hw.
    + left. exists x.2. split; [by destruct x | ]. rewrite filter_none; [constructor | ].
      intros y Hy Ey. apply (Hap n); [rewrite <- Ey | rewrite <- Hxn]; by apply list_elem_of_fmap_2.
Qed.

(** An ID that is not held takes part in a step only when it is submitted. *)
Lemma absent_moves A l A' : shape A l A' -> (forall x, x ∈ A -> hid x <> n) ->
  (exists j, l = [Submitted j] /\ jb_id j = n /\ (j, None) ∈ A') \/
  (about n (map (pair h) l) = [] /\ forall x, x ∈ A' -> hid x <> n).
Proof.
  intros Hs Ha. destruct Hs as [A1 E|j A1 E|j f A1 Hin E|j f R A1 E E'|E st why A1 HE Hw].
  - right. split; [done | ]. intros x. rewrite <- E. apply Ha.
  - destruct (decide (jb_id j = n)) as [Hj|Hj].
    + left. exists j. rewrite E. split_and!; [done | done | by left].
    + right. cbn [map]. rewrite about_one, decide_False by done. split; [done | ]. intros x. rewrite E.
      intros [->|Hx]%elem_of_cons; [done | by apply Ha].
  - right. cbn [map]. rewrite about_one, decide_False by apply (Ha _ Hin). split; [done | ].
    intros x. rewrite <- E. apply Ha.
  - right. assert (jb_id j <> n) as Hj by (apply (Ha (j, None)); rewrite E; by left).
    cbn [map]. rewrite about_one, decide_False by done. split; [done | ]. intros x. rewrite E'.
    intros [->|Hx]%elem_of_cons; [done | ]. apply Ha. rewrite E. by right.
  - right. rewrite about_ended, filter_none.
    + split; [done | ]. intros x Hx. apply Ha. rewrite HE. by apply elem_of_app; right.
    + intros x Hx. apply Ha. rewrite HE. by apply elem_of_app; left.
Qed.
End request.

(** ** Steps of the whole *)

Lemma held_at_put S h sv sv' n h' x : sc_at S !! h = Some sv ->
  held_at (mk_services (<[h := sv']> (sc_at S)) n) h' x <->
  (h' = h /\ x ∈ held sv') \/ (h' <> h /\ held_at S h' x).
Proof.
  intros Hsv. unfold held_at. cbn. split.
  - intros (w & [[<- <-]|[Hne Hw]]%lookup_insert_Some & Hx); [by left | right]. split; [by intros -> | by exists w].
  - intros [[-> Hx]|[Hne (w & Hw & Hx)]]; [exists sv' | exists w]; (split; [ | done]).
    + apply lookup_insert_eq.
    + by rewrite lookup_insert_ne by congruence.
Qed.

Section step.
Context (S : services) (Hok : services_ok S).
Context (h : hcd_ptr) (sv : service) (Hsv : sc_at S !! h = Some sv).
Context (l : list happening) (sv' : service) (Hst : service_step sv l sv').
Context (n : Z) (Hn : sc_last S <= n).
Context (Hsub : forall j, Submitted j ∈ l -> sc_last S < jb_id j <= n).
Abbreviation S' := (mk_services (<[h := sv']> (sc_at S)) n).

Lemma held_here x : x ∈ held sv -> held_at S h x.
Proof using Hsv. intros Hx. by exists sv. Qed.

Lemma submitted_fresh j x h' : Submitted j ∈ l -> held_at S h' x -> hid x <> jb_id j.
Proof using Hok Hsub.
  intros Hj Hx. specialize (Hsub j Hj). pose proof (so_last _ Hok h' x Hx). lia.
Qed.

Lemma step_unique : (forall h' x, held_at S' h' x -> hid x <= n) /\
  (forall h' w, sc_at S' !! h' = Some w -> NoDup (map hid (held w))) /\
  (forall h1 h2 x1 x2, held_at S' h1 x1 -> held_at S' h2 x2 -> hid x1 = hid x2 -> h1 = h2).
Proof using Hok Hsv Hst Hn Hsub.
  pose proof (service_step_shape _ _ _ Hst) as Hs.
  assert (Hput : forall h' x, held_at S' h' x <-> (h' = h /\ x ∈ held sv') \/ (h' <> h /\ held_at S h' x))
    by (intros; by apply (held_at_put S h sv)).
  assert (Hids : forall x, x ∈ held sv' -> (exists y, held_at S h y /\ hid y = hid x) \/
                   (forall h' y, held_at S h' y -> hid y <> hid x) /\ hid x <= n).
  { intros x Hx. destruct (shape_ids _ _ _ x Hs Hx) as [(y & Hy & E)|Hj].
    - left. exists y. split; [by apply held_here | done].
    - right. split; [ | by apply Hsub]. intros h' y Hy. by apply (submitted_fresh x.1 y h'). }
  split_and!.
  - intros h' x [[-> Hx]|[_ Hx]]%Hput; [ | pose proof (so_last _ Hok h' x Hx); lia].
    destruct (Hids x Hx) as [(y & Hy & <-)|[_ ?]]; [ | done]. pose proof (so_last _ Hok h y Hy). lia.
  - intros h' w; cbn [sc_at]; intros [[<- <-]|[_ Hw]]%lookup_insert_Some; [ | by apply (so_nodup _ Hok h')].
    apply (shape_nodup _ _ _ Hs); [by apply (so_nodup _ Hok h) | ].
    intros j Hj x Hx. apply (submitted_fresh j x h Hj). by apply held_here.
  - intros h1 h2 x1 x2 [[-> H1]|[N1 H1]]%Hput [[-> H2]|[N2 H2]]%Hput E; [done | | | by apply (so_apart _ Hok h1 h2 x1 x2)].
    + destruct (Hids x1 H1) as [(y & Hy & Ey)|[Hf _]]; [ | by destruct (Hf h2 x2 H2)].
      apply (so_apart _ Hok h h2 y x2 Hy H2). congruence.
    + destruct (Hids x2 H2) as [(y & Hy & Ey)|[Hf _]]; [ | by destruct (Hf h1 x1 H1)].
      apply (so_apart _ Hok h1 h x1 y H1 Hy). congruence.
Qed.

(** Whatever happens, an ID makes one move. *)
Lemma step_moves m p : located S m p -> exists p', moves p (about m (map (pair h) l)) p' /\ located S' m p'.
Proof using Hok Hsv Hst Hn Hsub.
  pose proof (service_step_shape _ _ _ Hst) as Hs.
  assert (Hput : forall h' x, held_at S' h' x <-> (h' = h /\ x ∈ held sv') \/ (h' <> h /\ held_at S h' x))
    by (intros; by apply (held_at_put S h sv)).
  assert (Hgone : (forall h' x, held_at S h' x -> hid x <> m) -> (forall j, Submitted j ∈ l -> jb_id j <> m) ->
    about m (map (pair h) l) = [] /\ forall h' x, held_at S' h' x -> hid x <> m).
  { intros Ha Hj. destruct (absent_moves h m _ _ _ Hs) as [(j & -> & E & _)|[E H]].
    - intros x Hx. by apply (Ha h), held_here.
    - by destruct (Hj j ltac:(by left)).
    - split; [done | ]. intros h' x [[-> Hx]|[_ Hx]]%Hput; [by apply H | by apply (Ha h')]. }
  destruct p as [|h' j o|].
  - intros Hm. assert (Ha : forall h' x, held_at S h' x -> hid x <> m)
      by (intros h' x Hx; pose proof (so_last _ Hok h' x Hx); cbn in Hm; lia).
    destruct (absent_moves h m _ _ _ Hs) as [(j & -> & <- & Hin)|[E H]]; [intros x Hx; by apply (Ha h), held_here | | ].
    + exists (Held h j None). cbn [map]. rewrite about_one, decide_True by done. split; [constructor | ].
      split; [done | ]. apply Hput. by left.
    + rewrite E. destruct (Z.lt_ge_cases n m).
      * exists Unborn. split; [constructor | done].
      * exists Gone. split; [constructor | ]. split; [done | ].
        intros h' x [[-> Hx]|[_ Hx]]%Hput; [by apply H | by apply (Ha h')].
  - intros [Hj Hh]. destruct (decide (h' = h)) as [->|Hne].
    + assert (Hin : (j, o) ∈ held sv) by (destruct Hh as (w & Hw & Hx); congruence).
      destruct (held_moves h m _ _ _ (j, o) Hs (so_nodup _ Hok h sv Hsv)) as [(o' & Hin' & Hm)|[Ha Hm]]; try done.
      * intros j' Hj' E. by apply (submitted_fresh j' (j, o) h Hj'); [ | rewrite E].
      * exists (Held h j o'). split; [done | ]. split; [done | ]. apply Hput. by left.
      * exists Gone. split; [done | ]. split; [by pose proof (so_last _ Hok h (j, o) Hh) as Hl; unfold hid in Hl; cbn in *; lia | ].
        intros h' x [[-> Hx]|[Hne Hx]]%Hput; [by apply Ha | ]. intros E. apply Hne.
        apply (so_apart _ Hok h' h x (j, o) Hx Hh). by rewrite E.
    + exists (Held h' j o). split.
      * destruct (absent_moves h m _ _ _ Hs) as [(j' & El & E & _)|[-> _]]; [ | | constructor].
        -- intros x Hx E. apply Hne. apply (so_apart _ Hok h' h (j, o) x Hh); [by apply held_here | by rewrite E].
        -- destruct (submitted_fresh j' (j, o) h' ltac:(rewrite El; by left) Hh). by rewrite E.
      * split; [done | ]. apply Hput. by right.
  - intros [Hm Ha]. destruct Hgone as [-> H]; [done | intros j Hj; pose proof (Hsub j Hj); lia | ].
    exists Gone. split; [constructor | ]. split; [cbn; lia | done].
Qed.
End step.

(** ** The order of delivery *)

Lemma StronglySorted_sublist {A} (R : relation A) l l' :
  l' `sublist_of` l -> StronglySorted R l -> StronglySorted R l'.
Proof.
  induction 1 as [|x l1 l2 Hs IH|x l1 l2 Hs IH]; [done | | ]; intros [Hx Hl]%StronglySorted_cons; [ | by apply IH].
  apply StronglySorted_cons. split; [ | by apply IH]. rewrite Forall_forall in Hx |- *.
  intros y Hy. apply Hx. by eapply sublist_subseteq.
Qed.

Lemma delivered_app h d l1 l2 : delivered_ids h d (l1 ++ l2) = delivered_ids h d l1 ++ delivered_ids h d l2.
Proof. apply omap_app. Qed.
Lemma delivered_elsewhere h h' d l : h' <> h -> delivered_ids h' d (map (pair h) l) = [].
Proof.
  intros Hne. induction l as [|x l IH]; [done | ]. unfold delivered_ids in *. cbn [map].
  change ((h, x) :: map (pair h) l) with ([(h, x)] ++ map (pair h) l). rewrite omap_app, IH.
  unfold delivered_id. cbn. destruct x; try done. rewrite decide_False; [done | ]. by intros [-> _].
Qed.
Lemma delivered_ended h h' d (js : list job) st why :
  delivered_ids h d (map (pair h') (map (fun j => Ended j st why) js)) = [].
Proof. induction js as [|j js IH]; [done | exact IH]. Qed.

Abbreviation wids d sv := (map jb_id (filter (fun j => waits_for d j = true) (sv_waiting sv))).

Lemma wids_sublist d (w w' : list job) : w' `sublist_of` w ->
  map jb_id (filter (fun j => waits_for d j = true) w') `sublist_of`
  map jb_id (filter (fun j => waits_for d j = true) w).
Proof.
  intros Hs. apply (fmap_sublist jb_id). induction Hs as [|x l1 l2 _ IH|x l1 l2 _ IH]; [done | | ].
  - rewrite !filter_cons. case_decide; [by apply sublist_skip | done].
  - rewrite filter_cons. case_decide; [by apply sublist_cons | done].
Qed.

(** The IDs that were delivered in a step and that still wait after it were
    waiting before in this order; a submission is last. *)
Lemma service_step_order sv l sv' h d : service_step sv l sv' ->
  (delivered_ids h d (map (pair h) l) ++ wids d sv') `sublist_of` wids d sv \/
  exists j, l = [Submitted j] /\ wids d sv' = wids d sv ++ [jb_id j].
Proof.
  intros [d' f Hd Hf|i d' f Hi|j Hj|d' f i j Hb Ho|d' f i j Hb Ho|i j f st Hi|i j st Hi|i j f st Hi]; cbn [sv_waiting].
  - by left.
  - left. rewrite delivered_ended. cbn. apply wids_sublist, sublist_filter.
  - rewrite filter_app. destruct (waits_for d j) eqn:E.
    + right. exists j. rewrite filter_cons_True by done. by rewrite map_app.
    + left. rewrite filter_cons_False by congruence. by rewrite app_nil_r.
  - left. destruct (oldest_lookup _ _ _ _ Ho) as [Hi Hd]. unfold delivered_ids, delivered_id. cbn.
    destruct (decide (d' = d)) as [->|Hne].
    + rewrite decide_True by done. unfold oldest in Ho. cbn.
      by rewrite (filter_find (waits_for d) _ _ _ Ho).
    + rewrite decide_False by (intros [_ E]; congruence). cbn.
      rewrite (filter_delete _ _ _ j Hi); [done | ]. intros E%bool_decide_eq_true. congruence.
  - left. destruct (oldest_lookup _ _ _ _ Ho) as [Hi _].
    change (delivered_ids h d (map (pair h) [Faulted j f])) with (@nil Z).
    by rewrite (filter_move (waits_for d) _ _ _ Hi (oldest_first _ _ _ _ Ho d)).
  - by left.
  - left. cbn. apply wids_sublist, sublist_delete.
  - by left.
Qed.

(** Everything that was logged about an ID that waits is older. *)
Definition in_order (l : log) (S : services) : Prop := forall h d,
  StronglySorted Z.lt (delivered_ids h d l ++ waiting_ids h d S) /\
  Forall (fun i => i <= sc_last S) (delivered_ids h d l ++ waiting_ids h d S).

Lemma waiting_held S h sv j : sc_at S !! h = Some sv -> j ∈ sv_waiting sv -> held_at S h (j, None).
Proof.
  intros Hsv Hj. exists sv. split; [done | ]. unfold held. apply elem_of_app. left. by apply (list_elem_of_fmap_2 (fun j => (j, None))).
Qed.

Lemma waiting_given_out S h d : services_ok S -> Forall (fun i => i <= sc_last S) (waiting_ids h d S).
Proof.
  intros Hok. apply Forall_forall. intros i Hi. unfold waiting_ids in Hi.
  destruct (sc_at S !! h) as [sv|] eqn:Hsv; [ | by apply not_elem_of_nil in Hi].
  apply list_elem_of_fmap in Hi as (j & -> & [_ Hj]%list_elem_of_filter).
  apply (so_last _ Hok h (j, None)). by eapply waiting_held.
Qed.

(** Where the requests of each device wait in the order of their IDs. *)
Definition waits_in_order (S : services) : Prop := forall h d, StronglySorted Z.lt (waiting_ids h d S).
Lemma order_start S : services_ok S -> waits_in_order S -> in_order [] S.
Proof. intros Hok Hw h d. split; [apply Hw | by apply waiting_given_out]. Qed.

Lemma order_step S l l' S' : in_order l S -> services_step S l' S' -> in_order (l ++ l') S'.
Proof.
  intros Ho Hst h d. destruct (Ho h d) as [Hs Hl]. destruct Hst as [n Hn|h' sv l' sv' n Hsv Hst Hn Hsub].
  - rewrite app_nil_r. split; [exact Hs | ]. eapply Forall_impl; [exact Hl | ]. cbn. lia.
  - rewrite delivered_app. unfold waiting_ids in *. cbn [sc_at sc_last].
    rewrite lookup_insert. case_decide as E.
    + subst h'. rewrite Hsv in Hs, Hl.
      destruct (service_step_order _ _ _ h d Hst) as [Hsl|(j & -> & Ew)].
      * rewrite <- app_assoc. assert (Hall : (delivered_ids h d l ++ delivered_ids h d (map (pair h) l') ++ wids d sv')
          `sublist_of` delivered_ids h d l ++ wids d sv) by by apply sublist_app.
        split; [by eapply StronglySorted_sublist | ]. apply Forall_forall. intros i Hi. rewrite Forall_forall in Hl.
        specialize (Hl i (sublist_subseteq _ _ Hall i Hi)). cbn in Hl. lia.
      * rewrite Ew. cbn [map]. change (delivered_ids h d [(h, Submitted j)]) with (@nil Z). rewrite app_nil_r, app_assoc.
        pose proof (Hsub j ltac:(by left)) as Hj. split.
        -- apply StronglySorted_app_2; [ | done | by repeat constructor].
           intros x y Hx ->%list_elem_of_singleton. rewrite Forall_forall in Hl. specialize (Hl x Hx). cbn in Hl. lia.
        -- apply Forall_app. split; [ | apply Forall_singleton; lia]. eapply Forall_impl; [exact Hl | ]. cbn. lia.
    + rewrite delivered_elsewhere, app_nil_r by done. split; [exact Hs | ].
      eapply Forall_impl; [exact Hl | ]. cbn. lia.
Qed.

(** ** Runs *)

Lemma services_step_ok S l S' : services_ok S -> services_step S l S' -> services_ok S'.
Proof.
  intros Hok Hst. destruct Hst as [n Hn|h sv l sv' n Hsv Hst Hn Hsub].
  - destruct Hok as [H1 H2 H3]. split; try done. intros h x Hx. specialize (H1 h x Hx). cbn. lia.
  - destruct (step_unique S Hok h sv Hsv l sv' Hst n Hn Hsub) as (H1 & H2 & H3). by split.
Qed.

Lemma services_step_moves S l S' m p : services_ok S -> services_step S l S' -> located S m p ->
  exists p', moves p (about m l) p' /\ located S' m p'.
Proof.
  intros Hok [n Hn|h sv l' sv' n Hsv Hst Hn Hsub] Hp; [ | by eapply step_moves].
  destruct p as [|h j o|].
  - cbn in Hp. destruct (Z.lt_ge_cases n m) as [Hlt|Hge].
    + exists Unborn. split; [constructor | exact Hlt].
    + exists Gone. split; [constructor | ]. split; [exact Hge | ]. intros h x Hx.
      pose proof (so_last _ Hok h x Hx). lia.
  - exists (Held h j o). split; [constructor | exact Hp].
  - exists Gone. split; [constructor | ]. destruct Hp as [Hm Ha]. split; [cbn; lia | exact Ha].
Qed.

Lemma services_run_ok S l S' : services_ok S -> services_run S l S' -> services_ok S'.
Proof. intros Hok. induction 1 as [|l S1 l' S2 Hr IH Hst]; [done | by eapply services_step_ok]. Qed.

Lemma services_run_order S l S' : services_ok S -> waits_in_order S -> services_run S l S' -> in_order l S'.
Proof.
  intros Hok Hw. induction 1 as [|l S1 l' S2 Hr IH Hst]; [by apply order_start | by eapply order_step].
Qed.

Lemma services_run_life S l S' m p : services_ok S -> services_run S l S' -> located S m p ->
  exists p', life p (about m l) p' /\ located S' m p'.
Proof.
  intros Hok Hr Hp. induction Hr as [|l S1 l' S2 Hr (p1 & Hl & Hp1) Hst]; [exists p; by split; [constructor | ] | ].
  destruct (services_step_moves S1 l' S2 m p1) as (p2 & Hm & Hp2);
    [by apply (services_run_ok S l S1) | done | done | ].
  exists p2. rewrite about_app. split; [by econstructor | done].
Qed.

(** An ID is in one place. *)
Lemma located_unique S n p p' : services_ok S -> located S n p -> located S n p' -> p = p'.
Proof.
  intros Hok Hp Hp'.
  assert (Hheld : forall h j o, located S n (Held h j o) -> n <= sc_last S).
  { intros h j o [<- Hh]. exact (so_last _ Hok h (j, o) Hh). }
  destruct p as [|h j o|], p' as [|h' j' o'|]; try done;
    try (apply Hheld in Hp; cbn in Hp'; lia); try (apply Hheld in Hp'; cbn in Hp; lia);
    try (cbn in Hp, Hp'; lia).
  - destruct Hp as [Ej Hh], Hp' as [Ej' Hh'].
    assert (E : hid (j, o) = hid (j', o')) by (unfold hid; cbn; congruence).
    pose proof (so_apart _ Hok h h' _ _ Hh Hh' E) as <-. destruct Hh as (sv & Hsv & Hin), Hh' as (sv' & Hsv' & Hin').
    assert (sv' = sv) as -> by congruence.
    pose proof (hid_unique _ _ _ (so_nodup _ Hok h sv Hsv) Hin Hin' E) as [= -> ->]. done.
  - destruct Hp as [Ej Hh], Hp' as [_ Ha]. by destruct (Ha h (j, o) Hh).
  - destruct Hp' as [Ej Hh], Hp as [_ Ha]. by destruct (Ha h' (j', o') Hh).
Qed.

(** ** A whole life in one piece *)

(** Nothing, or: submitted once, fetched in vain any number of times, delivered
    at most once, ended at most once, and not heard of again. *)
Inductive whole_life : log -> place -> Prop :=
  | never_lived p : p = Unborn \/ p = Gone -> whole_life [] p
  | lived h j (vain : list file_ptr) backend o l p :
      o = match backend with Some f => [(h, Delivered j f)] | None => [] end ->
      (l = [] /\ p = Held h j backend \/
       exists status why, l = [(h, Ended j status why)] /\ may_end backend why /\ p = Gone) ->
      whole_life ((h, Submitted j) :: map (fun f => (h, Faulted j f)) vain ++ o ++ l) p.

Lemma life_is_whole l p : life Unborn l p -> whole_life l p.
Proof.
  induction 1 as [|l p1 l' p2 _ IH Hm]; [constructor; by left | ].
  destruct IH as [p Hp|h j vain backend o l p Ho Hp].
  - destruct Hp as [-> | ->]; inversion Hm; subst; cbn.
    + constructor. by left.
    + constructor. by right.
    + apply (lived _ _ [] None [] []); [done | by left].
    + constructor. by right.
  - assert (Hcons : forall x, ((h, Submitted j) :: map (fun f => (h, Faulted j f)) vain ++ o ++ l) ++ x =
      (h, Submitted j) :: map (fun f => (h, Faulted j f)) vain ++ o ++ (l ++ x))
      by (intros x; cbn; by rewrite <- !app_assoc).
    rewrite Hcons. destruct Hp as [[-> ->]|(st & why & -> & Hw & ->)]; cbn [app].
    + inversion Hm; subst.
      * eapply lived; [done | by left].
      * cbn. pose proof (lived h j (vain ++ [f]) None [] [] (Held h j None) eq_refl) as Hl.
        rewrite map_app in Hl. cbn in Hl. rewrite app_nil_r in Hl. apply Hl. by left.
      * pose proof (lived h j vain (Some f) _ [] (Held h j (Some f)) eq_refl) as Hl. apply Hl. by left.
      * eapply lived; [done | right]. by eexists _, _.
    + inversion Hm; subst. cbn. eapply lived; [done | right]. by eexists _, _.
Qed.
