(* ===== verification/ServiceSpec.v ===== *)
(** * The loaded module is the service of [Service]

    The queues of a host controller, read with the transfers they point to, are
    one service; the operations on the queues are its steps, and the URB events
    of the trace are what the USB core sees of them.  The calls that make these
    steps are in [CallSpec]. *)

From S2P Require Import Prelude Uapi Kernel Port Hub Object Device Transfer Backend BackendInv BackendOps Hcd HcdSpec UrbSpec FetchSpec Control Frame ControlSpec ModuleSpec Service.

(** ** Reading the services off the state *)

Definition job_of (s : kernel) (r : virtusb_hcd_request) : job :=
  match k_transfers s !! rq_transfer r with
  | Some tv => mk_job (tr_id tv) (rq_urb r) (tr_device tv)
  | None => mk_job 0 (rq_urb r) (Ptr 1)
  end.
Definition owner_of (r : virtusb_hcd_request) : file_ptr := default (Ptr 1) (rq_owner r).
Definition service_of (s : kernel) (b : virtusb_backend) : service :=
  mk_service (be_bindings b) (map (job_of s) (be_pending b))
    (map (fun r => (job_of s r, owner_of r)) (be_active b)).
Definition services_of (s : kernel) : services :=
  mk_services ((fun v => service_of s (vh_backend v)) <$> k_hcds s) (k_next_transfer_id s).

Definition is_urb_event (e : event) : bool :=
  match e with EvLinkUrb _ _ | EvUnlinkUrb _ _ | EvGiveback _ _ _ => true | _ => false end.
Definition urb_events (l : list event) : list event := filter (fun e => is_urb_event e = true) l.
Definition urb_trace (s : kernel) : list event := urb_events (k_trace s).

Lemma urb_events_app l1 l2 : urb_events (l1 ++ l2) = urb_events l1 ++ urb_events l2.
Proof. apply filter_app. Qed.

(** ** What the services do not depend on *)

Record same_services (s s' : kernel) : Prop := {
  se_hcds : k_hcds s' = k_hcds s;
  se_transfers : k_transfers s' = k_transfers s;
  se_next : k_next_transfer_id s' = k_next_transfer_id s;
  se_trace : urb_trace s' = urb_trace s;
}.

Lemma same_services_refl s : same_services s s.
Proof. by split. Qed.
Lemma same_services_trans s1 s2 s3 : same_services s1 s2 -> same_services s2 s3 -> same_services s1 s3.
Proof. intros [] []. split; congruence. Qed.

(** A property of the services only: storage of objects and ports, and events
    that are not about URBs, do not matter to it. *)
Class ServiceOnly (I : kernel -> Prop) : Prop := service_only s s' : same_services s s' -> I s -> I s'.

Section service_only.
Context (I : kernel -> Prop) {HI : ServiceOnly I}.
Abbreviation served := (maintains I).

Lemma served_modify f : (forall s, same_services s (f s)) -> served (modify f).
Proof using HI. intros Hf. apply maintains_modify. intros s. apply service_only, Hf. Qed.
Lemma served_emit e : is_urb_event e = false -> served (emit e).
Proof using HI.
  intros He. apply served_modify. intros s. split; try done. unfold urb_trace. cbn.
  rewrite urb_events_app. unfold urb_events at 2. by rewrite filter_cons_False, app_nil_r by congruence.
Qed.
Lemma served_store_object o v : served (store_object o v).
Proof using HI. apply maintains_store. intros s w Hs _. by apply (service_only s). Qed.
Lemma served_alloc_object o v : served (alloc k_objects set_objects o v).
Proof using HI. apply maintains_alloc. intros s Hs _. by apply (service_only s). Qed.
Lemma served_free_object o : served (free k_objects set_objects o).
Proof using HI. apply maintains_free. intros s w Hs _. by apply (service_only s). Qed.
Lemma served_store_port p v : served (store_port p v).
Proof using HI. apply maintains_store. intros s w Hs _. by apply (service_only s). Qed.
Lemma served_alloc_port p v : served (alloc k_ports set_ports p v).
Proof using HI. apply maintains_alloc. intros s Hs _. by apply (service_only s). Qed.
Lemma served_free_port p : served (free k_ports set_ports p).
Proof using HI. apply maintains_free. intros s w Hs _. by apply (service_only s). Qed.
Lemma served_store_hub h v : served (store_hub h v).
Proof using HI. apply maintains_store. intros s w Hs _. by apply (service_only s). Qed.
Lemma served_store_file f v : served (store_file f v).
Proof using HI. apply maintains_store. intros s w Hs _. by apply (service_only s). Qed.
Lemma served_store_urb u v : served (store_urb u v).
Proof using HI. apply maintains_store. intros s w Hs _. by apply (service_only s). Qed.
#[local] Hint Resolve served_store_object served_alloc_object served_free_object served_store_port
  served_alloc_port served_free_port served_store_hub served_store_file served_store_urb : frame.

(** Objects. *)
Lemma served_warn : served (emit EvWarn).
Proof using HI. by apply served_emit. Qed.
#[local] Hint Resolve served_warn : frame.
Lemma served_kref_get o : served (kref_get o).
Proof using HI. unfold kref_get. maintain. Qed.
#[local] Hint Resolve served_kref_get : frame.
Lemma served_device_release o : served (virtusb_device_release o).
Proof using HI. unfold virtusb_device_release. maintain. Qed.
Lemma served_call_release f o : served (call_release f o).
Proof using HI. destruct f. apply served_device_release. Qed.
#[local] Hint Resolve served_call_release : frame.
Lemma served_object_release_kref o : served (virtusb_object_release_kref o).
Proof using HI. unfold virtusb_object_release_kref. maintain. Qed.
#[local] Hint Resolve served_object_release_kref : frame.
Lemma served_object_put o : served (virtusb_object_put o).
Proof using HI. unfold virtusb_object_put, kref_put. maintain. Qed.
#[local] Hint Resolve served_object_put : frame.
Lemma served_object_get o : served (virtusb_object_get o).
Proof using HI. unfold virtusb_object_get. maintain. Qed.
#[local] Hint Resolve served_object_get : frame.
Lemma served_first_by_type l type : served (first_by_type l type).
Proof using HI. induction l as [|[id o] l IH]; cbn; maintain. Qed.
#[local] Hint Resolve served_first_by_type : frame.

#[export] Instance service_only_framed : Framed I.
Proof using HI.
  split; intros.
  - apply served_store_port.
  - apply served_alloc_port.
  - apply served_store_hub.
  - by apply served_emit.
  - unfold virtusb_object_alloc, kzalloc_object. maintain.
  - apply served_object_get.
  - apply served_object_put.
  - unfold virtusb_object_register, xa_insert. maintain; by apply served_modify.
  - unfold virtusb_object_unregister. maintain; by apply served_modify.
  - unfold virtusb_object_lookup. maintain.
  - unfold virtusb_object_lookup_first_by_type. maintain.
Qed.
End service_only.
#[export] Hint Resolve service_only_framed served_store_file served_store_urb : frame.

(** ** Steps of the services *)

(** Transfers never change their ID or their device. *)
Definition jobs_kept (s0 s : kernel) : Prop := k_next_transfer_id s = k_next_transfer_id s0 /\
  forall t tv, k_transfers s !! t = Some tv -> exists tv0, k_transfers s0 !! t = Some tv0 /\
    tr_id tv = tr_id tv0 /\ tr_device tv = tr_device tv0.

#[export] Instance same_services_only s0 : ServiceOnly (same_services s0).
Proof. intros s s' Hs H0. by eapply same_services_trans. Qed.
#[export] Instance jobs_kept_only s0 : ServiceOnly (jobs_kept s0).
Proof. intros s s' [_ Et En _] [H1 H2]. split; [congruence | ]. by rewrite Et. Qed.
#[export] Instance same_trace_only s0 : ServiceOnly (fun s => urb_trace s = urb_trace s0).
Proof. intros s s' [_ _ _ Et] E. congruence. Qed.

#[export] Hint Resolve same_services_only jobs_kept_only same_trace_only : frame.

Lemma jobs_kept_refl s : jobs_kept s s.
Proof. split; [done | ]. intros t tv Ht. by exists tv. Qed.

(** [s] does the happenings [l] on its way to [s']. *)
Record acts (s : kernel) (l : log) (s' : kernel) : Prop := {
  ac_step : services_step (services_of s) l (services_of s');
  ac_seen : urb_trace s' = urb_trace s ++ seen l;
}.

Lemma same_services_of s s' : same_services s s' -> services_of s' = services_of s.
Proof. intros [Eh Et En _]. unfold services_of, service_of, job_of. by rewrite Eh, Et, En. Qed.

Lemma acts_nothing s s' : same_services s s' -> acts s [] s'.
Proof.
  intros Hs. split; [ | by rewrite (se_trace _ _ Hs), app_nil_r].
  rewrite (same_services_of s s' Hs). by apply sc_skip.
Qed.

(** Queued requests have a transfer. *)
Definition queued_live (s : kernel) : Prop := forall h v r, k_hcds s !! h = Some v ->
  r ∈ all_requests (vh_backend v) -> is_Some (k_transfers s !! rq_transfer r).
Lemma inv_queued_live X T s : backend_inv X T s -> queued_live s.
Proof.
  intros Hi h v r Hv Hr. destruct (qo_requests _ _ (bc_queue _ _ _ (bi_core _ _ _ Hi) h v Hv) r Hr) as [(tv & Ht & _)].
  by exists tv.
Qed.

Lemma job_of_kept s s' r : jobs_kept s s' -> is_Some (k_transfers s' !! rq_transfer r) -> job_of s' r = job_of s r.
Proof.
  intros [_ Hk] [tv Ht]. destruct (Hk _ _ Ht) as (tv0 & Ht0 & E1 & E2). unfold job_of.
  by rewrite Ht, Ht0, E1, E2.
Qed.

Lemma service_of_ext s s' b : (forall r, r ∈ all_requests b -> job_of s' r = job_of s r) ->
  service_of s' b = service_of s b.
Proof.
  intros Hj. unfold service_of. f_equal; apply map_ext_in; intros r Hr%list_elem_of_In;
    rewrite Hj; try done; unfold all_requests; apply elem_of_app; auto.
Qed.

Lemma services_at s h v : k_hcds s !! h = Some v ->
  sc_at (services_of s) !! h = Some (service_of s (vh_backend v)).
Proof. intros Hv. cbn. by rewrite lookup_fmap, Hv. Qed.

(** One backend changes and every transfer that is still queued is as it was. *)
Lemma services_put s s' h v b : k_hcds s' = <[h := set_backend b v]> (k_hcds s) ->
  (forall h' v' r, k_hcds s' !! h' = Some v' -> r ∈ all_requests (vh_backend v') -> h' <> h ->
     job_of s' r = job_of s r) ->
  sc_at (services_of s') = <[h := service_of s' b]> (sc_at (services_of s)).
Proof.
  intros Eh Hj. cbn. apply map_eq. intros h'. rewrite lookup_fmap, lookup_insert, lookup_fmap, Eh, lookup_insert.
  case_decide as E; [by subst | ]. destruct (k_hcds s !! h') as [v'|] eqn:Hv'; [ | done]. cbn. f_equal.
  apply service_of_ext. intros r Hr. apply (Hj h' v' r); [ | done | by apply not_eq_sym].
  by rewrite Eh, lookup_insert_ne.
Qed.

Section one_backend.
Context (s s' : kernel) (h : hcd_ptr) (v : virtusb_hcd) (Hv : k_hcds s !! h = Some v).

Lemma acts_one b l : k_hcds s' = <[h := set_backend b v]> (k_hcds s) ->
  jobs_kept s s' -> queued_live s' ->
  service_step (service_of s (vh_backend v)) l (service_of s b) ->
  (forall j, Submitted j ∉ l) ->
  urb_trace s' = urb_trace s ++ seen (map (pair h) l) -> acts s (map (pair h) l) s'.
Proof using Hv.
  intros Eh Hk Hl Hst Hno Et. split; [ | done].
  assert (Hj : forall h' v' r, k_hcds s' !! h' = Some v' -> r ∈ all_requests (vh_backend v') ->
    job_of s' r = job_of s r) by (intros; eapply job_of_kept; eauto).
  pose proof (services_put s s' h v b Eh ltac:(eauto)) as Eat.
  rewrite (service_of_ext s s') in Eat by (intros r Hr; apply (Hj h (set_backend b v)); [ | done]; by rewrite Eh, lookup_insert_eq).
  assert (services_of s' = mk_services (<[h := service_of s b]> (sc_at (services_of s))) (k_next_transfer_id s)) as ->.
  { rewrite <- Eat, <- (proj1 Hk). reflexivity. }
  eapply sc_acts; [by apply services_at | done | done | ]. intros j Hin. by destruct (Hno j).
Qed.
End one_backend.

Lemma with_backend_insert s h v f : k_hcds s !! h = Some v ->
  k_hcds (with_backend h f s) = <[h := set_backend (f (vh_backend v)) v]> (k_hcds s).
Proof. intros Hv. cbn. by rewrite (alter_insert_lookup _ _ v). Qed.

(** ** What the queue operations are to the service *)

Section operations.
Context (s : kernel) (b : virtusb_backend).
Abbreviation sv := (service_of s b).

Lemma job_device r d : is_Some (k_transfers s !! rq_transfer r) ->
  waits_for d (job_of s r) = for_device s d r.
Proof.
  intros [tv Ht]. unfold waits_for, for_device, request_device, job_of. rewrite Ht. cbn.
  apply bool_decide_ext. split; congruence.
Qed.

Context (Hlive : forall r, r ∈ all_requests b -> is_Some (k_transfers s !! rq_transfer r)).

Lemma live_pending r : r ∈ be_pending b -> is_Some (k_transfers s !! rq_transfer r).
Proof using Hlive. intros Hr. apply Hlive. by apply elem_of_app; left. Qed.
Lemma live_active r : r ∈ be_active b -> is_Some (k_transfers s !! rq_transfer r).
Proof using Hlive. intros Hr. apply Hlive. by apply elem_of_app; right. Qed.

Lemma list_find_map_ext {A B} (g : A -> B) (f : B -> bool) (f' : A -> bool) (l : list A) :
  (forall x, x ∈ l -> f (g x) = f' x) ->
  list_find (fun y => f y = true) (map g l) = prod_map id g <$> list_find (fun x => f' x = true) l.
Proof.
  induction l as [|x l IH]; intros Hf; [done | ]. cbn. rewrite (Hf x) by by left.
  case_decide; [done | ]. rewrite IH by (intros; apply Hf; by right). by destruct (list_find _ l) as [[]|].
Qed.
Lemma filter_map_ext {A B} (g : A -> B) (f : B -> bool) (f' : A -> bool) c (l : list A) :
  (forall x, x ∈ l -> f (g x) = f' x) ->
  filter (fun y => f y = c) (map g l) = map g (filter (fun x => f' x = c) l).
Proof.
  induction l as [|x l IH]; intros Hf; [done | ]. cbn [map]. rewrite !filter_cons, (Hf x) by by left.
  rewrite IH by (intros; apply Hf; by right). by case_decide.
Qed.

Lemma oldest_pending d : oldest d sv =
  prod_map id (job_of s) <$> list_find (fun r => for_device s d r = true) (be_pending b).
Proof using Hlive.
  apply list_find_map_ext. intros r Hr. by apply job_device, live_pending.
Qed.

Lemma owner_of_active r f : rq_owner r = Some f -> owner_of r = f.
Proof. unfold owner_of. by intros ->. Qed.

(** The owner of the binding takes the oldest request of its device. *)
Lemma binding_of_owner f k x : virtusb_backend_find_owner_locked b f = Some (k, x) ->
  be_bindings b !! k = Some (mk_binding (bd_device x) f).
Proof. intros (Hk & Hx & _)%list_find_Some. rewrite Hk, <- Hx. by destruct x. Qed.

Section next.
Context (f : file_ptr) (k : nat) (x : virtusb_backend_binding).
Context (Hf : virtusb_backend_find_owner_locked b f = Some (k, x)).
Context (i : nat) (r : virtusb_hcd_request).
Context (Hr : list_find (fun r => for_device s (bd_device x) r = true) (be_pending b) = Some (i, r)).

Lemma fetched_step : service_step sv [Delivered (job_of s r) f] (service_of s (fetched f i r b)).
Proof using Hlive Hf Hr.
  pose proof (does_deliver sv (bd_device x) f i (job_of s r)) as Hd. rewrite oldest_pending, Hr in Hd.
  unfold service_of at 2, fetched. cbn. rewrite map_delete, map_app.
  apply Hd; [ | done]. eapply list_elem_of_lookup_2, binding_of_owner, Hf.
Qed.

Lemma refetchable_step : service_step sv [Faulted (job_of s r) f] (service_of s (refetchable i r b)).
Proof using Hlive Hf Hr.
  pose proof (does_fault sv (bd_device x) f i (job_of s r)) as Hd. rewrite oldest_pending, Hr in Hd.
  unfold service_of at 2, refetchable. cbn. rewrite map_delete.
  apply Hd; [ | done]. eapply list_elem_of_lookup_2, binding_of_owner, Hf.
Qed.
End next.

Lemma cancelled_step q i r st : queue_of q b !! i = Some r ->
  service_step sv [Ended (job_of s r) st Cancelled] (service_of s (del_request q i b)).
Proof using.
  intros Hi. unfold service_of at 2. destruct q; cbn; rewrite map_delete; cbn in Hi.
  - apply does_cancel_waiting. cbn. by rewrite (list_lookup_fmap (job_of s)), Hi.
  - apply (does_cancel_taken sv i (job_of s r) (owner_of r)). cbn.
    by rewrite (list_lookup_fmap (fun r => (job_of s r, owner_of r))), Hi.
Qed.

Lemma answered_step i r f st : be_active b !! i = Some r -> rq_owner r = Some f ->
  service_step sv [Ended (job_of s r) st (Answered f)] (service_of s (del_request Active i b)).
Proof using.
  intros Hi Hf. unfold service_of at 2. cbn. rewrite map_delete. apply does_answer. cbn.
  by rewrite (list_lookup_fmap (fun r => (job_of s r, owner_of r))), Hi, <- (owner_of_active r f Hf).
Qed.

Lemma bound_step d f : virtusb_backend_find_owner_locked b f = None ->
  virtusb_backend_find_device_locked b d = None -> service_step sv [] (service_of s (bound_backend f d b)).
Proof using.
  intros Hf Hd. apply (does_bind sv d f); [by apply find_device_none | by apply find_owner_none].
Qed.

Lemma submitted_step t u tv : virtusb_backend_find_device_locked b (tr_device tv) <> None ->
  k_transfers s !! t = Some tv ->
  service_step sv [Submitted (mk_job (tr_id tv) u (tr_device tv))] (service_of s (queued t u b)).
Proof using.
  intros Hd Ht. unfold service_of at 2, queued. cbn. rewrite map_app. cbn. unfold job_of at 2. cbn. rewrite Ht.
  apply does_submit. cbn. rewrite find_device_none in Hd. by apply dec_stable.
Qed.

(** The requests of a lost binding. *)
Context (Howner : forall r, r ∈ be_active b -> rq_owner r <> None).

Lemma taken_drains d f r : r ∈ be_active b ->
  taken_by d f (job_of s r, owner_of r) = drains s d f Active r.
Proof using Hlive Howner.
  intros Hr. unfold taken_by, drains. cbn. rewrite job_device by by apply live_active. f_equal.
  apply bool_decide_ext. unfold owner_of. pose proof (Howner r Hr).
  destruct (rq_owner r); [cbn; split; congruence | done].
Qed.

Lemma dependents_victims d f : dependents d f sv = map (job_of s) (victims s d f b).
Proof using Hlive Howner.
  unfold dependents, victims. cbn. rewrite map_app. f_equal.
  - apply filter_map_ext. intros r Hr. by apply job_device, live_pending.
  - rewrite (filter_map_ext _ _ (drains s d f Active)) by (intros r Hr; by apply taken_drains). by rewrite map_map.
Qed.

Lemma released_step k d f b' : be_bindings b !! k = Some (mk_binding d f) ->
  be_bindings b' = delete k (be_bindings b) -> (forall q, queue_of q b' = keep s d f q b) ->
  service_step sv (map (fun r => Ended (job_of s r) (- ESHUTDOWN) (Unregistered f)) (victims s d f b))
    (service_of s b').
Proof using Hlive Howner.
  intros Hk Eb Hq. pose proof (does_unbind sv k d f Hk) as Hd. rewrite dependents_victims, map_map in Hd.
  unfold service_of at 2. rewrite Eb. change (be_pending b') with (queue_of Pending b'). change (be_active b') with (queue_of Active b').
  rewrite !Hq. unfold unbound_service in Hd. cbn in Hd.
  rewrite (filter_map_ext _ _ (drains s d f Pending)) in Hd by (intros r Hr; by apply job_device, live_pending).
  rewrite (filter_map_ext _ _ (drains s d f Active)) in Hd by (intros r Hr; by apply taken_drains).
  exact Hd.
Qed.
End operations.

(** ** Transfers keep their ID and device *)

Section jobs.
Context (s0 : kernel).
Abbreviation kept := (maintains (jobs_kept s0)).

Lemma kept_store_transfer t tv : (exists s tv0, jobs_kept s0 s /\ k_transfers s !! t = Some tv0 /\
    tr_id tv = tr_id tv0 /\ tr_device tv = tr_device tv0) -> kept (store_transfer t tv).
Proof.
  intros (s & tv0 & [_ Hk] & Ht & E1 & E2). apply maintains_store. intros s1 w [Hn H1] _. split; [done | ].
  intros t' tv'. cbn. rewrite lookup_insert. case_decide as E; [subst t'; intros [= <-] | apply H1].
  destruct (Hk t tv0 Ht) as (tv1 & ? & ? & ?). exists tv1. split_and!; congruence.
Qed.
Lemma kept_update_transfer {B} t (f : virtusb_transfer -> virtusb_transfer) (k : virtusb_transfer -> K B) :
  (forall tv, tr_id (f tv) = tr_id tv /\ tr_device (f tv) = tr_device tv) ->
  (forall tv, kept (store_transfer t (f tv)) -> kept (k tv)) -> kept (tv <- load_transfer t ;; k tv).
Proof.
  intros Hf Hk. apply maintains_bind_load. intros tv (s & Hs & Ht). apply Hk, kept_store_transfer.
  exists s, tv. by rewrite !(proj1 (Hf tv)), (proj2 (Hf tv)).
Qed.
Lemma kept_free_transfer t : kept (free k_transfers set_transfers t).
Proof.
  apply maintains_free. intros s1 w [Hn H1] _. split; [done | ]. intros t' tv'. cbn.
  rewrite lookup_delete_Some. intros [_ ?]. by apply H1.
Qed.
#[local] Hint Resolve kept_free_transfer : frame.
Lemma kept_update_backend h f : kept (update_backend h f).
Proof.
  apply maintains_bind; [maintain | intros v]. apply maintains_store. by intros s w [] _.
Qed.
#[local] Hint Resolve kept_update_backend : frame.
Lemma kept_emit e : kept (emit e).
Proof. apply maintains_modify. by intros s []. Qed.
#[local] Hint Resolve kept_emit : frame.
Lemma kept_transfer_put t : kept (virtusb_transfer_put t).
Proof.
  unfold virtusb_transfer_put. destruct t as [t|]; [ | maintain].
  apply (kept_update_transfer t (fun tv => set_tr_refcount (tr_refcount tv - 1) tv)); [done | ].
  intros tv Hst. cbn beta in Hst. unfold virtusb_transfer_release. maintain.
Qed.
#[local] Hint Resolve kept_transfer_put : frame.
Lemma kept_transfer_cancel t st : kept (virtusb_transfer_cancel t st).
Proof.
  unfold virtusb_transfer_cancel. destruct t as [t|]; [ | maintain].
  apply (kept_update_transfer t (set_tr_result 0 st VIRTUSB_TRANSFER_STATE_CANCELLED)); [done | ].
  intros tv Hst. maintain.
Qed.
#[local] Hint Resolve kept_transfer_cancel : frame.
Lemma kept_transfer_complete t st n : kept (virtusb_transfer_complete t st n).
Proof.
  unfold virtusb_transfer_complete. destruct t as [t|]; [ | maintain].
  apply (kept_update_transfer t (set_tr_result n st VIRTUSB_TRANSFER_STATE_COMPLETED)); [done | ].
  intros tv Hst. maintain.
Qed.
#[local] Hint Resolve kept_transfer_complete : frame.
Lemma kept_copy_result r l n : kept (copy_result r l n).
Proof.
  unfold copy_result. apply maintains_bind_load. intros tv (s & Hs & Ht).
  assert (forall b, kept (store_transfer (rq_transfer r) (set_tr_buffer b tv))) as Hst
    by (intros b; apply kept_store_transfer; by exists s, tv).
  maintain.
Qed.
#[local] Hint Resolve kept_copy_result : frame.
Lemma kept_backend_giveback h r st : kept (virtusb_backend_giveback h r st).
Proof. unfold virtusb_backend_giveback, virtusb_backend_release_request. maintain. Qed.
#[local] Hint Resolve kept_backend_giveback : frame.
Lemma kept_backend_cancel h uh u st check : kept (virtusb_backend_cancel h uh u st check).
Proof. unfold virtusb_backend_cancel. maintain. Qed.
Lemma kept_backend_complete h uh o c : kept (virtusb_backend_complete h uh o c).
Proof. unfold virtusb_backend_complete. maintain. Qed.
Lemma kept_drain_owner fuel h uh d o : kept (drain_owner fuel h uh d o).
Proof. induction fuel; cbn; unfold shut_down_request; maintain. Qed.
#[local] Hint Resolve kept_drain_owner : frame.
Lemma kept_backend_release_owner h uh o : kept (virtusb_backend_release_owner h uh o).
Proof. unfold virtusb_backend_release_owner, wake_up. maintain. Qed.
Lemma kept_backend_register h o d oom : kept (virtusb_backend_register h o d oom).
Proof. unfold virtusb_backend_register, wake_up. maintain. Qed.
End jobs.
#[export] Hint Resolve kept_backend_cancel kept_backend_complete kept_backend_release_owner
  kept_backend_register : frame.

(** Registering a backend is no event of a URB. *)
Lemma register_trace s0 h o d oom : maintains (fun s => urb_trace s = urb_trace s0) (virtusb_backend_register h o d oom).
Proof.
  assert (forall f, maintains (fun s => urb_trace s = urb_trace s0) (update_backend (default (Ptr 1) h) f)) as Hu.
  { intros f. apply maintains_bind; [maintain | intros v]. by apply maintains_store. }
  assert (maintains (fun s => urb_trace s = urb_trace s0) (wake_up (default (Ptr 1) h))) as Hw
    by (apply (served_emit _); done).
  unfold virtusb_backend_register. destruct h; cbn in *; maintain.
Qed.
