(* ===== verification/CallSpec.v ===== *)
(** * The calls into the module are steps of the service

    Each call into the module, with the happenings it causes and the caller that
    is entitled to them, and the runs that such calls make up; and that a call
    which gives a sleeping fetch something to do wakes it.  What the queue
    operations do to the service is in [ServiceSpec]. *)

From S2P Require Import Prelude Uapi Kernel Port Hub Object Device Transfer Backend BackendInv BackendOps Hcd HcdSpec UrbSpec FetchSpec Control Frame ControlSpec ModuleSpec Service ServiceSpec.

(** ** Every call is a step, made by the caller it names *)

(** The call that makes an entry of the log: URBs come from the USB core, a file
    takes and answers requests itself and drops them by unregistering or closing. *)
Definition authored (enc : ioctl_encoding) (c : call) (x : hcd_ptr * happening) : Prop :=
  match x.2 with
  | Submitted j => exists env, c = CallEnqueue x.1 (jb_urb j) env
  | Faulted _ f => exists us env, c = CallIoctl f (VIRTUSB_IOCTL_TRANSFER_FETCH enc) us env /\ us_copy_out us = false
  | Delivered _ f => exists us env, c = CallIoctl f (VIRTUSB_IOCTL_TRANSFER_FETCH enc) us env /\ us_copy_out us = true
  | Ended j st Cancelled => exists check, c = CallDequeue x.1 (jb_urb j) st check
  | Ended j st (Answered f) => exists us env comp,
      c = CallIoctl f (VIRTUSB_IOCTL_TRANSFER_COMPLETE enc) us env /\
      us_complete us = Ok comp /\ tc_transfer_id comp = jb_id j /\
      (st = tc_status comp \/ st = - EMSGSIZE)
  | Ended j st (Unregistered f) => st = - ESHUTDOWN /\
      (c = CallRelease f \/ exists us env, c = CallIoctl f (VIRTUSB_IOCTL_BACKEND_UNREGISTER enc) us env)
  end.

Definition acts_by (enc : ioctl_encoding) (c : call) (s s' : kernel) : Prop :=
  exists l, acts s l s' /\ Forall (authored enc c) l.

Lemma acts_by_nothing enc c s s' : same_services s s' -> acts_by enc c s s'.
Proof. intros Hs. exists []. split; [by apply acts_nothing | constructor]. Qed.

Lemma quiet_acts {A} enc c (m : K A) s a s' : maintains (same_services s) m -> m s = Some (a, s') -> acts_by enc c s s'.
Proof. intros Hm E. apply acts_by_nothing. apply (Hm s a s'); [apply same_services_refl | done]. Qed.

Lemma job_urb s r : jb_urb (job_of s r) = rq_urb r.
Proof. unfold job_of. by destruct (k_transfers s !! _). Qed.

Section backend_calls.
Context (enc : ioctl_encoding) (s : kernel) (Hm : module_ok s).
Context (h : hcd_ptr) (v : virtusb_hcd) (Hv : k_hcds s !! h = Some v).
Abbreviation b := (vh_backend v).
Abbreviation Hinv := (mo_inv _ _ _ Hm).

Lemma live_here r : r ∈ all_requests b -> is_Some (k_transfers s !! rq_transfer r).
Proof using Hm Hv. apply (inv_queued_live _ _ _ Hinv h v r Hv). Qed.

Lemma ended_acts q i r st why s' : request_ended h h q i r st s s' -> jobs_kept s s' -> queued_live s' ->
  service_step (service_of s b) [Ended (job_of s r) st why] (service_of s (del_request q i b)) ->
  acts s [(h, Ended (job_of s r) st why)] s'.
Proof using Hv.
  intros [_ Et Eh _] Hk Hl Hst. apply (acts_one s s' h v Hv _ [Ended (job_of s r) st why]) in Hst; try done.
  - rewrite Eh. by apply with_backend_insert.
  - by intros j ?%list_elem_of_singleton.
  - unfold urb_trace. rewrite Et, urb_events_app. cbn. by rewrite job_urb.
Qed.

Lemma cancel_acts u st check r s' :
  virtusb_backend_cancel (Some h) (Some h) (Some u) st check s = Some (r, s') ->
  acts_by enc (CallDequeue h u st check) s s'.
Proof using Hm Hv.
  intros E. pose proof (kept_backend_cancel s _ _ _ _ _ s r s' (jobs_kept_refl s) E) as Hk.
  destruct (backend_cancel_spec _ _ s Hinv h h v Hv u st check) as (r' & s1 & E1 & Hi & _ & _ & H).
  rewrite E in E1. injection E1 as <- <-.
  destruct (check <? 0); [destruct H as [_ ->]; by apply acts_by_nothing, same_services_refl | ].
  destruct (virtusb_backend_find_urb_locked b u) as [[[q i] req]|] eqn:Ef.
  2: { destruct H as [_ ->]. by apply acts_by_nothing, same_services_refl. }
  destruct (find_urb_queue v u q i req Ef) as [Hq Eu]. destruct H as [_ He].
  eexists. split; [eapply ended_acts; [exact He | done | by eapply inv_queued_live | by apply cancelled_step] | ].
  apply Forall_singleton. cbn. rewrite job_urb, Eu. by exists check.
Qed.

Lemma complete_acts f us env comp r s' : completion_ok comp -> us_complete us = Ok comp ->
  virtusb_backend_complete (Some h) (Some h) (Some f) (Some comp) s = Some (r, s') ->
  acts_by enc (CallIoctl f (VIRTUSB_IOCTL_TRANSFER_COMPLETE enc) us env) s s'.
Proof using Hm Hv.
  intros Hco Hus E. pose proof (kept_backend_complete s _ _ _ _ s r s' (jobs_kept_refl s) E) as Hk.
  destruct (decide (tc_transfer_id comp = 0)) as [E0|Hne].
  { unfold virtusb_backend_complete in E. rewrite E0 in E. injection E as _ <-.
    by apply acts_by_nothing, same_services_refl. }
  destruct (backend_complete_spec _ _ s Hinv h h v Hv f comp Hco Hne) as (r' & s1 & E1 & Hi & _ & H).
  rewrite E in E1. injection E1 as <- <-.
  destruct (completed_request s v f comp) as [[i req]|] eqn:Ef.
  2: { destruct H as [_ ->]. by apply acts_by_nothing, same_services_refl. }
  apply list_find_Some in Ef as (Hq & Hid & _). unfold has_id in Hid. apply andb_true_iff in Hid as [Ho Hid].
  apply bool_decide_eq_true in Ho, Hid.
  assert (Hjob : jb_id (job_of s req) = tc_transfer_id comp).
  { unfold job_of. destruct (k_transfers s !! _); [cbn in *; congruence | done]. }
  assert (Hend : forall st, st = tc_status comp \/ st = - EMSGSIZE -> request_ended h h Active i req st s s' ->
    acts_by enc (CallIoctl f (VIRTUSB_IOCTL_TRANSFER_COMPLETE enc) us env) s s').
  { intros st Hst He. eexists. split.
    - eapply ended_acts; [exact He | done | by eapply inv_queued_live | by apply answered_step].
    - apply Forall_singleton. cbn. by exists us, env, comp. }
  destruct H as [(_ & He & _)|(_ & He & _)]; (eapply Hend; [ | exact He]); [by left | by right].
Qed.

Lemma shutdowns_seen f l : urb_events (shutdowns h l) =
  seen (map (pair h) (map (fun r => Ended (job_of s r) (- ESHUTDOWN) (Unregistered f)) l)).
Proof using.
  induction l as [|r l IH]; [done | ]. unfold shutdowns in *. cbn [map concat]. rewrite urb_events_app, IH.
  unfold seen. cbn. by rewrite job_urb.
Qed.

Lemma release_acts c f r s' : c = CallRelease f \/ (exists us env, c = CallIoctl f (VIRTUSB_IOCTL_BACKEND_UNREGISTER enc) us env) ->
  virtusb_backend_release_owner (Some h) (Some h) (Some f) s = Some (r, s') -> acts_by enc c s s'.
Proof using Hm Hv.
  intros Hc E. pose proof (kept_backend_release_owner s _ _ _ s r s' (jobs_kept_refl s) E) as Hk.
  destruct (release_owner_spec _ _ s Hinv h h v Hv f) as (s1 & E1 & Hi & _ & _ & H).
  rewrite E in E1. injection E1 as -> <-.
  destruct (virtusb_backend_find_owner_locked b f) as [[k x]|] eqn:Ef.
  2: { rewrite H. by apply acts_by_nothing, same_services_refl. }
  destruct H as (b' & Hb' & Ebd & _ & Hq & Ho & Et & _).
  eexists. split.
  - apply (acts_one s s' h v Hv b'); [ | done | by eapply inv_queued_live | | | ].
    + apply map_eq. intros h'. rewrite lookup_insert. case_decide as E'; [by subst | by apply Ho, not_eq_sym].
    + eapply released_step; [apply live_here | | by eapply binding_of_owner | exact Ebd | exact Hq].
      apply (qo_active _ _ (bc_queue _ _ _ (bi_core _ _ _ Hinv) h v Hv)).
    + intros j Hj%list_elem_of_fmap. by destruct Hj as (? & ? & _).
    + unfold urb_trace. rewrite Et, !urb_events_app, (shutdowns_seen f). by rewrite app_nil_r.
  - apply Forall_forall. intros y (z & -> & (w & -> & _)%list_elem_of_fmap)%list_elem_of_fmap. by split.
Qed.
End backend_calls.

(** ** Enqueueing *)

Section enqueue.
Context (enc : ioctl_encoding) (s : kernel) (Hm : module_ok s).
Context (h : hcd_ptr) (v : virtusb_hcd) (Hv : k_hcds s !! h = Some v).
Abbreviation b := (vh_backend v).
Abbreviation Hinv := (mo_inv _ _ _ Hm).

(** A rejected URB costs an ID at most. *)
Lemma rejected_acts c s' : k_hcds s' = k_hcds s -> k_transfers s' = k_transfers s ->
  k_trace s' = k_trace s -> k_next_transfer_id s <= k_next_transfer_id s' -> acts_by enc c s s'.
Proof using.
  intros Eh Et El Hn. exists []. split; [ | constructor]. split.
  - assert (services_of s' = mk_services (sc_at (services_of s)) (k_next_transfer_id s')) as ->
      by (unfold services_of, service_of, job_of; cbn; by rewrite Eh, Et).
    by apply sc_skip.
  - unfold urb_trace. by rewrite El, app_nil_r.
Qed.

(** An accepted one is submitted with the new ID. *)
Lemma accepted_acts u t tv env s' : k_transfers s !! t = None ->
  k_hcds s' = k_hcds (with_backend h (queued t u) s) -> k_transfers s' = <[t := tv]> (k_transfers s) ->
  k_trace s' = k_trace s ++ [EvLinkUrb h u; EvWakeUp h] ->
  virtusb_backend_find_device_locked b (tr_device tv) <> None ->
  tr_id tv = k_next_transfer_id s + 1 -> k_next_transfer_id s' = k_next_transfer_id s + 1 ->
  acts_by enc (CallEnqueue h u env) s s'.
Proof using Hm Hv.
  intros Hfresh Eh Et El Hd Hid Hn. rewrite (with_backend_insert s h v) in Eh by done.
  assert (Hold : forall h' v' r, k_hcds s !! h' = Some v' -> r ∈ all_requests (vh_backend v') -> job_of s' r = job_of s r).
  { intros h' v' r Hv' Hr. destruct (inv_queued_live _ _ _ Hinv h' v' r Hv' Hr) as [tv' Ht'].
    unfold job_of. rewrite Et, lookup_insert_ne; [done | ]. intros E. by rewrite <- E, Hfresh in Ht'. }
  pose proof (services_put s s' h v _ Eh) as Eat.
  eexists [(h, Submitted (mk_job (tr_id tv) u (tr_device tv)))]. split; [split | ].
  - assert (services_of s' = mk_services (<[h := service_of s' (queued t u b)]> (sc_at (services_of s)))
             (k_next_transfer_id s')) as ->.
    { rewrite <- Eat; [done | ]. intros h' v' r Hv' Hr Hne. rewrite Eh, lookup_insert_ne in Hv' by done. by eapply Hold. }
    apply (sc_acts _ h (service_of s b) [Submitted (mk_job (tr_id tv) u (tr_device tv))]).
    + by apply services_at.
    + rewrite <- (service_of_ext s s') by (intros r Hr; by apply (Hold h v)).
      apply submitted_step; [done | ]. by rewrite Et, lookup_insert_eq.
    + cbn. lia.
    + intros j [= ->]%list_elem_of_singleton. cbn. lia.
  - unfold urb_trace. by rewrite El, urb_events_app.
  - apply Forall_singleton. by exists env.
Qed.

Lemma enqueue_acts u uv env r s' : k_urbs s !! u = Some uv -> urb_wf uv -> env_wf s uv env ->
  k_next_transfer_id s + 1 < 2 ^ 64 ->
  virtusb_hcd_urb_enqueue (Some h) (Some u) env s = Some (r, s') -> acts_by enc (CallEnqueue h u env) s s'.
Proof using Hm Hv.
  intros Hu Hwf Henv Hid E. destruct (hcd_parts s Hm h v Hv) as (hv & uhcd & Hh & Huh).
  pose proof (enqueue_checked _ _ s Hinv h hv Hh uhcd Huh u uv Hu Hwf env) as Ec.
  destruct (urb_check s h uhcd uv) as [[d ty]|e] eqn:Hc.
  2: { rewrite E in Ec. injection Ec as _ ->. by apply acts_by_nothing, same_services_refl. }
  destruct (urb_memory uv env) as [[t block]|] eqn:Hmem.
  2: { pose proof (enqueue_oom _ _ s Hinv h hv Hh uhcd Huh u uv Hu Hwf env d ty Hc Hmem) as Eo.
       rewrite E in Eo. injection Eo as _ ->. by apply acts_by_nothing, same_services_refl. }
  destruct (urb_enqueue_eq _ _ s Hinv h hv Hh uhcd Huh v Hv u uv Hu Hwf env Henv Hid d ty Hc t block Hmem)
    as (Er & _ & Hst).
  destruct (submitted_spec _ _ s Hinv h hv Hh uhcd v Hv u uv Hu Hwf env Henv Hid d ty Hc t block Hmem)
    as (_ & _ & Hbk).
  pose proof (urb_result_enqueued _ _ s Hinv h hv Hh uhcd Huh v Hv u uv Hu Hwf env Henv Hid d ty Hc t block Hmem)
    as [_ _ _ Hacc Href].
  assert (Hn : k_next_transfer_id (urb_result s h v u uv env d ty t block).2 = k_next_transfer_id s + 1)
    by (rewrite (ss_next_transfer_id _ _ Hst), (bk_next_transfer_id _ _ Hbk); reflexivity).
  destruct (urb_memory_ok s uv Hwf env Henv t block Hmem) as [Hfresh _].
  assert (Eres : urb_result s h v u uv env d ty t block = (r, s')) by congruence.
  rewrite Eres in Hacc, Href, Hn. cbn [fst snd] in *.
  assert (Ee : submit_error v (urb_transfer s uv d ty block) (en_request_oom env) (en_link env) = r)
    by (injection Eres as <- _; reflexivity).
  destruct (decide (r = 0)) as [->|Hne].
  - destruct (Hacc eq_refl) as (E1 & E2 & E3). eapply accepted_acts; try done.
    intros Hnone. revert Ee. unfold submit_error. rewrite decide_True by exact Hnone. by repeat case_match.
  - destruct (Href Hne) as (E1 & E2 & E3). apply rejected_acts; try done. lia.
Qed.
End enqueue.

Lemma acts_by_quiet enc c s s1 s2 s3 : same_services s s1 -> acts_by enc c s1 s2 -> same_services s2 s3 ->
  acts_by enc c s s3.
Proof.
  intros H1 (l & [Hst Hs] & Ha) H3. exists l. split; [split | done].
  - by rewrite <- (same_services_of _ _ H1), (same_services_of _ _ H3).
  - by rewrite (se_trace _ _ H3), Hs, (se_trace _ _ H1).
Qed.

(** Registering a backend adds a binding, or nothing. *)
Lemma register_acts enc c X T s h v f d ov oom r s' : backend_inv X T s -> k_hcds s !! h = Some v ->
  k_objects s !! d = Some ov ->
  virtusb_backend_register (Some h) (Some f) (Some d) oom s = Some (r, s') -> acts_by enc c s s'.
Proof.
  intros Hi Hv Ho E. pose proof (kept_backend_register s _ _ _ _ s r s' (jobs_kept_refl s) E) as Hk.
  pose proof (register_trace s _ _ _ _ s r s' eq_refl E) as Et.
  destruct (register_result_spec X T s Hi h v Hv f d ov oom Ho) as (r' & s1 & E1 & Hi1 & _ & _ & H).
  rewrite E in E1. injection E1 as <- <-.
  assert (Hsame : s' = s -> acts_by enc c s s') by (intros ->; by apply acts_by_nothing, same_services_refl).
  destruct oom; [by apply Hsame, H | ]. destruct (be_stopping _); [by apply Hsame, H | ].
  case_decide as Hnone; [ | by apply Hsame, H]. destruct H as [_ Eh]. destruct Hnone as [Hf Hd].
  exists []. split; [ | constructor].
  apply (acts_one s s' h v Hv (bound_backend f d (vh_backend v)) []).
  - rewrite Eh. by apply with_backend_insert.
  - exact Hk.
  - by eapply inv_queued_live.
  - by apply bound_step.
  - intros j. apply not_elem_of_nil.
  - by rewrite Et, app_nil_r.
Qed.

(** ** The control device *)

Section control.
Context (enc : ioctl_encoding) (s : kernel) (Hm : module_ok s).
Context (c : hcd_ptr) (v : virtusb_hcd) (Hv : k_hcds s !! c = Some v).
Context (Hc : ct_hcd (vh_control v) = Some c).
Abbreviation Hinv := (mo_inv _ _ _ Hm).

Lemma fetch_acts f fv us env r s' : k_files s !! f = Some fv ->
  (forall s1, fetch_section c f (fl_nonblock fv) s <> Some (FetchWait, s1)) ->
  virtusb_control_transfer_fetch f c us env s = Some (r, s') ->
  acts_by enc (CallIoctl f (VIRTUSB_IOCTL_TRANSFER_FETCH enc) us env) s s'.
Proof using Hm Hv Hc.
  intros Hf Hn. unfold virtusb_control_transfer_fetch.
  destruct (ie_oom env); [by intros [= _ <-]; apply acts_by_nothing, same_services_refl | ].
  unfold bind at 1. rewrite (control_hcd_eq s c v Hv Hc). unfold bind at 1, load at 1. rewrite Hf.
  pose proof (fetch_no_wait _ _ s Hinv c v Hv f (fl_nonblock fv) Hn) as Hne.
  pose proof (backend_fetch_spec _ _ s Hinv c v Hv f zero_fetch (fl_nonblock fv) (ie_sleeps env)) as Hs.
  destruct (next_request s v f) as [[i req]|] eqn:En.
  2: { destruct Hne as [|Hneg]; [done | ]. unfold bind at 1. rewrite Hs by lia. cbn iota beta.
       rewrite (proj2 (Z.ltb_lt _ _)) by done. intros [= _ <-]. by apply acts_by_nothing, same_services_refl. }
  destruct Hs as (tv & ov & Ht & _ & E & Hi). unfold bind at 1. rewrite E. cbn iota beta.
  change (0 <? 0) with false. cbn iota.
  pose proof En as Hnext. unfold next_request in Hnext.
  destruct (virtusb_backend_find_owner_locked (vh_backend v) f) as [[k x]|] eqn:Ef; [ | done].
  pose proof (live_here s Hm c v Hv) as Hlive.
  destruct (us_copy_out us) eqn:Eout; cbn [negb].
  - intros [= _ <-]. exists [(c, Delivered (job_of s req) f)]. split.
    + apply (acts_one s (with_backend c (fetched f i req) s) c v Hv _ [Delivered (job_of s req) f]
        (with_backend_insert _ _ _ _ Hv)).
      * exact (jobs_kept_refl s).
      * by eapply inv_queued_live.
      * by eapply fetched_step.
      * by intros j ?%list_elem_of_singleton.
      * by rewrite app_nil_r.
    + apply Forall_singleton. by exists us, env.
  - pose proof (with_backend_lookup s c v Hv (fetched f i req)) as Hv1.
    unfold bind at 1. rewrite (control_hcd_eq _ c _ Hv1 Hc).
    assert (tr_id tv <> 0) as Hid
      by (pose proof (to_id _ _ (ro_transfers _ _ _ (bc_refs _ _ _ (bi_core _ _ _ Hinv))) _ _ Ht); lia).
    destruct (fetch_rollback_spec _ _ _ Hi c _ Hv1 f (tr_id tv) Hid)
      as (r' & s2 & E' & Hi2 & Hst & _ & Et2 & _ & Hfind).
    unfold bind at 1. change (tf_transfer_id (fetch_view tv ov)) with (tr_id tv). rewrite E'. intros [= _ <-].
    pose proof (find_fetched _ _ s Hinv c v Hv f i req En tv Ht) as Efind.
    change (list_find (fun r => has_id (with_backend c (fetched f i req) s) f (tr_id tv) r = true)
      (be_active (vh_backend (set_backend (fetched f i req (vh_backend v)) v)))) with
      (list_find (fun r => has_id s f (tr_id tv) r = true) (be_active (vh_backend v) ++ [owned f req])) in Hfind.
    rewrite Efind in Hfind. destruct Hfind as [_ Eh].
    rewrite (with_backend_insert _ c _ _ Hv1) in Eh. cbn [vh_backend set_backend] in Eh.
    rewrite (rolled_back_fetched _ _ s Hinv c v Hv f i req En) in Eh.
    assert (Htr : k_trace s2 = k_trace s ++ [EvWakeUp c]).
    { revert E'. unfold virtusb_backend_fetch_rollback. rewrite (proj2 (Z.eqb_neq _ _) Hid).
      unfold bind at 1. rewrite (get_backend_eq _ c _ Hv1). unfold bind at 1.
      rewrite (find_id_eq _ _ _ (bi_core _ _ _ Hi) c _ Hv1).
      change (list_find (fun r => has_id (with_backend c (fetched f i req) s) f (tr_id tv) r = true)
        (be_active (vh_backend (set_backend (fetched f i req (vh_backend v)) v)))) with
        (list_find (fun r => has_id s f (tr_id tv) r = true) (be_active (vh_backend v) ++ [owned f req])).
      rewrite Efind. unfold bind at 1. rewrite (update_backend_eq _ c _ Hv1). by intros [= _ <-]. }
    exists [(c, Faulted (job_of s req) f)]. split.
    + apply (acts_one s s2 c v Hv (refetchable i req (vh_backend v)) [Faulted (job_of s req) f]).
      * rewrite Eh, (with_backend_insert _ _ _ _ Hv), insert_insert_eq. done.
      * split; [by rewrite (bk_next_transfer_id _ _ Hst) | ]. intros t tv'. rewrite Et2. intros Htv'. by exists tv'.
      * by eapply inv_queued_live.
      * by eapply refetchable_step.
      * by intros j ?%list_elem_of_singleton.
      * unfold urb_trace. by rewrite Htr, urb_events_app.
    + apply Forall_singleton. by exists us, env.
Qed.
Lemma complete_ioctl_acts f us env r s' : user_wf us ->
  virtusb_control_transfer_complete f c us s = Some (r, s') ->
  acts_by enc (CallIoctl f (VIRTUSB_IOCTL_TRANSFER_COMPLETE enc) us env) s s'.
Proof using Hm Hv Hc.
  intros [_ _ Hco]. unfold virtusb_control_transfer_complete.
  destruct (us_complete us) as [comp|] eqn:Eu.
  2: { intros [= _ <-]. by apply acts_by_nothing, same_services_refl. }
  unfold bind at 1. rewrite (control_hcd_eq s c v Hv Hc). unfold bind.
  rewrite (control_linux_hcd_eq s Hm c v Hv Hc). intros E.
  by apply (complete_acts enc s Hm c v Hv f us env comp r s' (Hco comp eq_refl)).
Qed.

(** Registration looks the device up, binds it and drops the reference. *)
Lemma register_ioctl_acts cl f us env r s' :
  virtusb_control_backend_register f c us env s = Some (r, s') -> acts_by enc cl s s'.
Proof using Hm Hv Hc.
  unfold virtusb_control_backend_register. destruct (us_backend_register us) as [req|].
  2: { intros [= _ <-]. by apply acts_by_nothing, same_services_refl. }
  unfold bind at 1. rewrite (lookup_device_eq _ _ s Hm).
  destruct (lookup_result s (br_object_id req)) as [d|e] eqn:Ed; cbn iota beta.
  2: { intros [= _ <-]. by apply acts_by_nothing, same_services_refl. }
  destruct (lookup_found _ _ s Hm (br_object_id req) d Ed) as (ov & uv & _ & Ho & _ & _ & _ & Hu & Hm1).
  set (s1 := object_ref d 1 s) in *. assert (H1 : same_services s s1) by by split.
  assert (Hp : forall x s2, same_services s1 s2 -> (virtusb_object_put (Some d) ;; ret x) s2 = Some (r, s') ->
    acts_by enc cl s s').
  { intros x s2 H2 E. apply acts_by_nothing. eapply same_services_trans; [exact H1 | ].
    assert (maintains (same_services s1) (virtusb_object_put (Some d) ;; ret x)) as Hp by maintain.
    by apply (Hp s2 r). }
  unfold bind at 1, load at 1. change (k_ports s1) with (k_ports s). rewrite Hu. unfold bind at 1.
  rewrite (belongs_eq s c v Hc _ _ s1 d uv Hm1 Hv Hu eq_refl). destruct (below_hcd s c d); cbn [negb].
  2: { apply Hp, same_services_refl. }
  unfold bind at 1. rewrite (control_hcd_eq s1 c v Hv Hc). unfold bind at 1.
  destruct (virtusb_backend_register _ _ _ _ s1) as [[r1 s2]|] eqn:E; [ | done]. intros Eput.
  eapply acts_by_quiet; [exact H1 | | ].
  - by eapply (register_acts _ _ _ _ s1 c v f d); [apply (mo_inv _ _ _ Hm1) | | apply object_ref_lookup | exact E].
  - assert (maintains (same_services s2) (virtusb_object_put (Some d) ;; ret r1)) as Hp2 by maintain.
    apply (Hp2 s2 r); [apply same_services_refl | exact Eput].
Qed.

Lemma unregister_ioctl_acts f us env r s' :
  (h <- control_hcd c ;; uhcd <- control_linux_hcd c ;;
   virtusb_backend_release_owner (Some h) uhcd (Some f) ;; ret (0, @None reply)) s = Some (r, s') ->
  acts_by enc (CallIoctl f (VIRTUSB_IOCTL_BACKEND_UNREGISTER enc) us env) s s'.
Proof using Hm Hv Hc.
  unfold bind at 1. rewrite (control_hcd_eq s c v Hv Hc). unfold bind at 1.
  rewrite (control_linux_hcd_eq s Hm c v Hv Hc). unfold bind.
  destruct (virtusb_backend_release_owner _ _ _ s) as [[a s1]|] eqn:E; [ | done]. intros [= _ <-].
  eapply release_acts; [done | exact Hv | | exact E]. right. by exists us, env.
Qed.
End control.

Section calls.
Context (enc : ioctl_encoding) (s : kernel) (Hm : module_ok s).

Lemma no_reply_some m r s' : no_reply m s = Some (r, s') -> exists a, m s = Some (a, s').
Proof. unfold no_reply, bind. destruct (m s) as [[a s1]|]; [ | done]. intros [= _ <-]. by exists a. Qed.

Lemma ioctl_acts f fv command us env r s' : k_files s !! f = Some fv -> user_wf us ->
  command <> VIRTUSB_IOCTL_TRANSFER_FETCH enc \/ fetch_at_once s f fv ->
  virtusb_control_ioctl enc f command us env s = Some (r, s') -> acts_by enc (CallIoctl f command us env) s s'.
Proof using Hm.
  intros Hf Hus Hnb. unfold virtusb_control_ioctl. unfold bind at 1. rewrite (active_control_eq s Hm f fv Hf).
  destruct (file_control s fv) as [c|] eqn:Efc; cbn iota beta.
  2: { intros [= _ <-]. by apply acts_by_nothing, same_services_refl. }
  destruct (file_control_facts s Hm f fv Hf c Efc) as (v & hv & Hv & Hc & Hh).
  (* the requests that are not about backends *)
  do 7 (destruct (_ =? _); [intros E; eapply quiet_acts; [ | exact E]; maintain | ]).
  destruct (_ =? _); [intros [a E]%no_reply_some; by eapply register_ioctl_acts | ].
  destruct (Z.eqb_spec command (VIRTUSB_IOCTL_BACKEND_UNREGISTER enc)) as [->|]; [by eapply unregister_ioctl_acts | ].
  destruct (Z.eqb_spec command (VIRTUSB_IOCTL_TRANSFER_FETCH enc)) as [->|].
  { destruct Hnb as [|Hnb]; [done | ]. eapply fetch_acts; try done. intros s1. by eapply Hnb. }
  destruct (Z.eqb_spec command (VIRTUSB_IOCTL_TRANSFER_COMPLETE enc)) as [->|].
  - intros [a E]%no_reply_some. by eapply complete_ioctl_acts.
  - intros [= _ <-]. by apply acts_by_nothing, same_services_refl.
Qed.

Lemma release_call_acts f fv r s' : k_files s !! f = Some fv ->
  virtusb_control_release f s = Some (r, s') -> acts_by enc (CallRelease f) s s'.
Proof using Hm.
  intros Hf. unfold virtusb_control_release. unfold bind at 1, load at 1. rewrite Hf. cbv zeta.
  set (close := fv <- load_file f ;; store_file f (mk_file None (fl_nonblock fv)) ;; ret 0).
  assert (Hclose : forall s1 a s2, close s1 = Some (a, s2) -> same_services s1 s2).
  { intros s1 a s2. assert (maintains (same_services s1) close) as Hq by (unfold close; maintain).
    apply Hq, same_services_refl. }
  assert (Hnone : (ret tt ;; close) s = Some (r, s') -> acts_by enc (CallRelease f) s s')
    by (intros E; by eapply acts_by_nothing, Hclose).
  destruct (fl_private_data fv) as [ctx|] eqn:Ec; [ | done].
  destruct (cf_control ctx) as [c|] eqn:Ecc; [ | done].
  destruct (mo_file _ _ _ Hm f fv ctx c Hf Ec Ecc) as [v Hv]. unfold bind at 1, bind at 1.
  rewrite (load_control_eq s c v Hv). destruct (ct_hcd (vh_control v)) as [h|] eqn:Eh; [ | done].
  destruct (mo_hcd _ _ _ Hm c v Hv) as (_ & _ & _ & Hs). assert (h = c) as -> by (by apply Hs).
  unfold bind at 1. rewrite (control_linux_hcd_eq s Hm c v Hv Eh).
  destruct (virtusb_backend_release_owner _ _ _ s) as [[a s1]|] eqn:E; [ | done]. intros Ecl.
  eapply acts_by_quiet; [apply same_services_refl | | by eapply Hclose].
  eapply release_acts; [done | exact Hv | by left | exact E].
Qed.

Lemma run_call_acts c s' : call_allowed enc s c -> run_call enc c s = Some (tt, s') -> acts_by enc c s s'.
Proof using Hm.
  intros Ha E. assert (Hrun : forall A (m : K A), no_result m s = Some (tt, s') -> exists a, m s = Some (a, s')).
  { intros A m. unfold no_result, bind. destruct (m s) as [[a s1]|]; [ | done]. intros [= <-]. by exists a. }
  destruct c as [c f oom|f command us env|f|f|h ty w i buf len|h buf|h u env|h u st chk]; cbn in Ha, E;
    apply Hrun in E as [a E].
  - eapply quiet_acts; [ | exact E]. unfold virtusb_control_open. maintain.
  - destruct Ha as (fv & Hf & Hus & _ & Hnb). by eapply ioctl_acts.
  - eapply quiet_acts; [ | exact E]. maintain.
  - destruct Ha as [fv Hf]. by eapply release_call_acts.
  - eapply quiet_acts; [ | exact E]. maintain.
  - eapply quiet_acts; [ | exact E]. maintain.
  - destruct Ha as ([v Hv] & Hid & uv & Hu & Hwf & Henv). by eapply enqueue_acts.
  - destruct Ha as [v Hv]. by eapply cancel_acts.
Qed.
End calls.

(** ** No wake-up is lost *)

(** Something waits for the device of a backend. *)
Definition something_for (f : file_ptr) (sv : service) : Prop :=
  exists d j, mk_binding d f ∈ sv_bindings sv /\ j ∈ sv_waiting sv /\ jb_device j = d.

(** Only a submission brings something for a backend: no backend is bound to a
    device that requests wait for already. *)
Lemma something_new f sv l sv' : service_step sv l sv' ->
  (forall j, j ∈ sv_waiting sv -> jb_device j ∈ map bd_device (sv_bindings sv)) ->
  something_for f sv' -> something_for f sv \/ exists j, l = [Submitted j].
Proof.
  intros Hst Hbound (d & j & Hb & Hj & Hd). unfold something_for.
  destruct Hst as [d' f' Hd' _|i d' f' Hi|j' _|d' f' i j' _ Ho|d' f' i j' _ Ho|i j' f' st _|i j' st _|i j' f' st _];
    cbn in Hb, Hj.
  - apply elem_of_app in Hb as [Hb|Hb]; [left; eauto | ]. apply list_elem_of_singleton in Hb as [= <- <-].
    destruct Hd'. rewrite <- Hd. by apply Hbound.
  - left. apply list_elem_of_filter in Hj as [_ Hj]. exists d, j.
    by split; [eapply sublist_subseteq; [apply sublist_delete | exact Hb] | ].
  - right. eauto.
  - left. exists d, j. by split_and!; [ | eapply sublist_subseteq; [apply sublist_delete | exact Hj] | ].
  - left. exists d, j. split_and!; [done | | done]. apply elem_of_cons in Hj as [->|Hj].
    + destruct (oldest_lookup _ _ _ _ Ho) as [Hi _]. by eapply list_elem_of_lookup_2.
    + by eapply sublist_subseteq; [apply sublist_delete | ].
  - left. eauto.
  - left. exists d, j. by split_and!; [ | eapply sublist_subseteq; [apply sublist_delete | exact Hj] | ].
  - left. eauto.
Qed.

(** The service tells whether a fetch would find a request. *)
Lemma next_request_something s h v f : module_ok s -> k_hcds s !! h = Some v ->
  next_request s v f <> None <-> something_for f (service_of s (vh_backend v)).
Proof.
  intros Hm Hv. pose proof (bc_queue _ _ _ (bi_core _ _ _ (mo_inv _ _ _ Hm)) h v Hv) as Hq.
  assert (Hlive : forall r, r ∈ all_requests (vh_backend v) -> is_Some (k_transfers s !! rq_transfer r))
    by (intros r; by apply (live_here s Hm h v Hv)).
  assert (Hold : forall d, list_find (fun r => for_device s d r = true) (be_pending (vh_backend v)) <> None <->
    exists j, j ∈ sv_waiting (service_of s (vh_backend v)) /\ jb_device j = d).
  { intros d. assert (oldest d (service_of s (vh_backend v)) <> None <->
      exists j, j ∈ sv_waiting (service_of s (vh_backend v)) /\ jb_device j = d) as <-.
    { unfold oldest. split.
      - destruct (list_find _ _) as [[i j]|] eqn:Ef; [intros _ | done].
        apply list_find_Some in Ef as (Hi & Hw%bool_decide_eq_true & _). exists j.
        by split; [eapply list_elem_of_lookup_2 | ].
      - intros (j & Hj & Hd). rewrite list_find_None, Forall_forall. intros Hn. apply (Hn j Hj).
        by apply bool_decide_eq_true. }
    rewrite (oldest_pending s (vh_backend v) Hlive d). by destruct (list_find _ _). }
  unfold next_request, something_for. split.
  - destruct (virtusb_backend_find_owner_locked _ f) as [[k x]|] eqn:Ef; [ | done].
    intros (j & Hj & Hd)%Hold. exists (bd_device x), j. split_and!; [ | done..].
    by eapply list_elem_of_lookup_2, binding_of_owner.
  - intros (d & j & Hb & Hj & Hd). cbn in Hb.
    destruct (virtusb_backend_find_owner_locked _ f) as [[k x]|] eqn:Ef.
    + apply Hold. exists j. split; [done | ]. apply binding_of_owner in Ef. rewrite Hd.
      apply list_elem_of_lookup in Hb as [k' Hk'].
      assert (k' = k) as ->; [ | congruence].
      apply (NoDup_lookup (map bd_owner (be_bindings (vh_backend v))) k' k f (qo_owners _ _ Hq));
        by rewrite list_lookup_fmap, ?Hk', ?Ef.
    + apply find_owner_none in Ef. destruct Ef. by apply (list_elem_of_fmap_2 bd_owner) in Hb.
Qed.

Section wakes.
Context (enc : ioctl_encoding) (s : kernel) (Hm : module_ok s).

Lemma run_call_ok c s' : call_allowed enc s c -> run_call enc c s = Some (tt, s') -> module_ok s'.
Proof using Hm. intros Ha E. pose proof (run_call_keeps enc s c Hm Ha) as Hk. unfold keeps, wp in Hk. by rewrite E in Hk. Qed.

(** A sleeper has no request. *)
Lemma asleep_no_request h v f : k_hcds s !! h = Some v ->
  virtusb_backend_pending_for_owner_or_stopping h f s = Some (false, s) -> next_request s v f = None.
Proof using Hm.
  intros Hv. rewrite (pending_for_owner_eq _ _ s (mo_inv _ _ _ Hm) h v Hv f). intros [= [_ Hn]%orb_false_iff].
  apply bool_decide_eq_false in Hn. by destruct (next_request s v f); [destruct Hn | ].
Qed.

(** Requests wait for bound devices only. *)
Lemma waiting_bound h v j : k_hcds s !! h = Some v -> j ∈ sv_waiting (service_of s (vh_backend v)) ->
  jb_device j ∈ map bd_device (sv_bindings (service_of s (vh_backend v))).
Proof using Hm.
  intros Hv (r & -> & Hr)%list_elem_of_fmap.
  assert (Hall : r ∈ all_requests (vh_backend v)) by (by apply elem_of_app; left).
  pose proof (bi_bound _ _ _ (mo_inv _ _ _ Hm) h v r Hv Hall) as (x & Hx & Hd & _).
  destruct (live_here s Hm h v Hv r Hall) as [tv Ht]. cbn. unfold job_of. unfold request_device in Hd.
  rewrite Ht in Hd |- *. injection Hd as ->. by apply (list_elem_of_fmap_2 bd_device).
Qed.

(** A call after which there is something to fetch that was not there before has
    woken the sleepers. *)
Lemma call_wakes c s' h v v' f : call_allowed enc s c -> run_call enc c s = Some (tt, s') ->
  k_hcds s !! h = Some v -> k_hcds s' !! h = Some v' ->
  next_request s v f = None -> next_request s' v' f <> None ->
  woken h (k_trace s) (k_trace s') = true.
Proof using Hm.
  intros Ha E Hv Hv' Hno Hyes.
  pose proof (run_call_ok c s' Ha E) as Hm'.
  assert (Hno' : ~ something_for f (service_of s (vh_backend v)))
    by (intros Hs; by apply (next_request_something s h v f Hm Hv) in Hs).
  apply (next_request_something s' h v' f Hm' Hv') in Hyes.
  destruct (run_call_acts enc s Hm c s' Ha E) as (l & [Hst _] & Hau).
  pose proof (services_at s' h v' Hv') as Hat'. pose proof (services_at s h v Hv) as Hat.
  remember (services_of s') as S' eqn:ES in Hst, Hat'.
  destruct Hst as [n Hn|h' sv l' sv' n Hsv Hs Hn Hsub]; cbn [sc_at] in Hat'.
  { congruence. }
  clear ES. destruct (decide (h' = h)) as [->|Hne].
  2: { rewrite lookup_insert_ne in Hat' by done. congruence. }
  rewrite lookup_insert_eq in Hat'. injection Hat' as ->. rewrite Hat in Hsv. injection Hsv as <-.
  destruct (something_new f _ _ _ Hs (fun j => waiting_bound h v j Hv) Hyes) as [|[j ->]]; [done | ].
  apply Forall_singleton in Hau as [env ->]. cbn [fst snd] in *.
  destruct Ha as (_ & Hid & uv & Hu & Hwf & Henv). destruct (hcd_parts s Hm h v Hv) as (hv & uhcd & Hh & Huh).
  destruct (enqueue_cases _ _ s (mo_inv _ _ _ Hm) h hv Hh uhcd Huh v Hv _ uv Hu Hwf env Henv Hid)
    as (s1 & E1 & _ & _ & _ & Href & Hacc).
  cbn in E. unfold no_result, bind in E. rewrite E1 in E. injection E as <-.
  destruct (decide (enqueue_error s h uhcd v uv env = 0)) as [E0|Hne].
  - destruct (Hacc E0) as (? & ? & ? & ? & _ & _ & _ & _ & -> & _). rewrite woken_app. cbn.
    by rewrite bool_decide_eq_true_2.
  - destruct (Href Hne) as (Eh & _ & Et). destruct Hno'.
    rewrite Eh, Hv in Hv'. injection Hv' as <-. unfold service_of, job_of in *. by rewrite Et in Hyes.
Qed.
End wakes.

(** ** Runs of the module *)

(** A run from [s] with the log of everything that happened to requests: each
    entry is made by a call that was entitled to it. *)
Inductive module_log (enc : ioctl_encoding) (s : kernel) : log -> kernel -> Prop :=
  | log_start : module_log enc s [] s
  | log_call l s1 c l' s2 : module_log enc s l s1 ->
      call_allowed enc s1 c -> run_call enc c s1 = Some (tt, s2) ->
      acts s1 l' s2 -> Forall (authored enc c) l' -> module_log enc s (l ++ l') s2
  | log_environment l s1 s2 : module_log enc s l s1 -> module_step enc s1 s2 -> same_services s1 s2 ->
      module_log enc s l s2.

Lemma module_run_log enc s s' : module_ok s -> module_reach enc s s' -> exists l, module_log enc s l s'.
Proof.
  intros Hm. apply (rtc_ind_r (fun s' => exists l, module_log enc s l s') s); [exists []; constructor | ].
  intros s1 s2 Hr Hst [l Hl].
  assert (Hm1 : module_ok s1) by by eapply module_reach_ok.
  destruct Hst as [s1 c s2 Ha E|s1 u uv H0|s1 f fv Ef].
  - destruct (run_call_acts enc s1 Hm1 c s2 Ha E) as (l' & Hact & Hau). exists (l ++ l'). by eapply log_call.
  - exists l. eapply log_environment; [exact Hl | by apply step_urb | by split].
  - exists l. eapply log_environment; [exact Hl | by apply step_file | by split].
Qed.

Lemma module_log_run enc s l s' : module_log enc s l s' ->
  services_run (services_of s) l (services_of s') /\ urb_trace s' = urb_trace s ++ seen l.
Proof.
  induction 1 as [|l s1 c l' s2 _ [IH1 IH2] _ _ [Hst Hs] _|l s1 s2 _ [IH1 IH2] _ Hs].
  - split; [constructor | by rewrite app_nil_r].
  - split; [by econstructor | ]. by rewrite Hs, IH2, seen_app, app_assoc.
  - rewrite (same_services_of _ _ Hs), (se_trace _ _ Hs). done.
Qed.

(** ** IDs in a loaded module *)

Lemma hcd_sum_two f m h h' v v' : m !! h = Some v -> m !! h' = Some v' -> h <> h' -> (forall b, 0 <= f b) ->
  f (vh_backend v) + f (vh_backend v') <= hcd_sum f m.
Proof.
  intros Hv Hv' Hne Hf. unfold hcd_sum.
  pose proof (map_sum_delete (fun _ w => f (vh_backend w)) m h v Hv) as Hd.
  pose proof (map_sum_le (fun _ w => f (vh_backend w)) (delete h m) h' v') as Hle.
  cbn in *. rewrite Hd in Hle. specialize (Hle ltac:(auto) ltac:(by rewrite lookup_delete_ne)). lia.
Qed.

Lemma NoDup_map_count {A B} `{EqDecision B} (f : A -> B) (l : list A) :
  (forall y, count (fun x => f x = y) l <= 1) -> NoDup (map f l).
Proof.
  induction l as [|x l IH]; intros Hc; [constructor | ]. cbn. apply NoDup_cons. split.
  - intros (z & E & Hz)%list_elem_of_fmap. specialize (Hc (f x)). rewrite count_cons, decide_True in Hc by done.
    pose proof (count_pos (fun y => f y = f x) l z Hz (eq_sym E)). lia.
  - apply IH. intros y. specialize (Hc y). rewrite count_cons in Hc. destruct (decide _); lia.
Qed.

Section unique.
Context (s : kernel) (Hm : module_ok s).
Abbreviation Hinv := (mo_inv _ _ _ Hm).
Abbreviation Htr := (ro_transfers _ _ _ (bc_refs _ _ _ (bi_core _ _ _ Hinv))).

(** What a service holds are the requests of its two queues. *)
Lemma held_requests b x : x ∈ held (service_of s b) -> exists r, r ∈ all_requests b /\ x.1 = job_of s r.
Proof using.
  unfold held. cbn. intros [Hx|Hx]%elem_of_app; apply list_elem_of_fmap in Hx as (y & -> & Hy).
  - apply list_elem_of_fmap in Hy as (r & -> & Hr). exists r. split; [by apply elem_of_app; left | done].
  - apply list_elem_of_fmap in Hy as (r & -> & Hr). exists r. split; [by apply elem_of_app; right | done].
Qed.
Lemma held_ids b : map hid (held (service_of s b)) = map (fun r => jb_id (job_of s r)) (all_requests b).
Proof using. unfold held, all_requests. cbn. by rewrite !map_app, !map_map. Qed.

Lemma job_transfer r r' : is_Some (k_transfers s !! rq_transfer r) -> is_Some (k_transfers s !! rq_transfer r') ->
  jb_id (job_of s r) = jb_id (job_of s r') -> rq_transfer r = rq_transfer r'.
Proof using Hm.
  intros [tv Ht] [tv' Ht']. unfold job_of. rewrite Ht, Ht'. apply (to_unique _ _ Htr _ _ _ _ Ht Ht').
Qed.

Lemma request_once h v t : k_hcds s !! h = Some v -> backend_requests t (vh_backend v) <= 1.
Proof using Hm.
  intros Hv. pose proof (hcd_sum_le (backend_requests t) h v (k_hcds s) Hv (backend_requests_nonneg t)).
  pose proof (bc_single _ _ _ (bi_core _ _ _ Hinv) t). unfold request_refs in *. lia.
Qed.

Lemma module_services_ok : services_ok (services_of s).
Proof using Hm.
  pose proof (inv_queued_live _ _ _ Hinv) as Hlive.
  assert (Hheld : forall h x, held_at (services_of s) h x -> exists v r, k_hcds s !! h = Some v /\
    r ∈ all_requests (vh_backend v) /\ x.1 = job_of s r).
  { intros h x (sv & Hsv & Hx). cbn in Hsv. rewrite lookup_fmap, fmap_Some in Hsv. destruct Hsv as (v & Hv & ->).
    destruct (held_requests _ x Hx) as (r & Hr & E). by exists v, r. }
  split.
  - intros h x Hx. destruct (Hheld h x Hx) as (v & r & Hv & Hr & E). unfold hid. rewrite E. unfold job_of.
    destruct (Hlive h v r Hv Hr) as [tv Ht]. rewrite Ht. cbn. apply (to_id _ _ Htr _ _ Ht).
  - intros h sv Hsv. cbn in Hsv. rewrite lookup_fmap, fmap_Some in Hsv. destruct Hsv as (v & Hv & ->).
    rewrite held_ids.
    assert (Hn : NoDup (map rq_transfer (all_requests (vh_backend v))))
      by (apply NoDup_map_count; intros t; by eapply request_once).
    pose proof (NoDup_fmap_1 _ _ Hn) as Hn1. apply (NoDup_fmap_2_strong (fun r => jb_id (job_of s r))); [ | done].
    intros r r' Hr Hr' E. pose proof (job_transfer r r' (Hlive h v r Hv Hr) (Hlive h v r' Hv Hr') E) as Et.
    apply list_elem_of_lookup in Hr as [i Hi], Hr' as [j Hj].
    assert (i = j) as <-; [ | congruence]. eapply NoDup_lookup; [exact Hn | | ].
    + by rewrite (list_lookup_fmap rq_transfer), Hi.
    + rewrite (list_lookup_fmap rq_transfer), Hj. cbn. by rewrite Et.
  - intros h h' x x' Hx Hx' E. destruct (Hheld h x Hx) as (v & r & Hv & Hr & Ex).
    destruct (Hheld h' x' Hx') as (v' & r' & Hv' & Hr' & Ex'). unfold hid in E. rewrite Ex, Ex' in E.
    pose proof (job_transfer r r' (Hlive h v r Hv Hr) (Hlive h' v' r' Hv' Hr') E) as Et.
    destruct (decide (h = h')) as [|Hne]; [done | exfalso].
    pose proof (hcd_sum_two (backend_requests (rq_transfer r)) _ h h' v v' Hv Hv' Hne (backend_requests_nonneg _)).
    pose proof (bc_single _ _ _ (bi_core _ _ _ Hinv) (rq_transfer r)). unfold request_refs in *.
    pose proof (count_pos (fun x => rq_transfer x = rq_transfer r) (all_requests (vh_backend v)) r Hr eq_refl).
    pose proof (count_pos (fun x => rq_transfer x = rq_transfer r) (all_requests (vh_backend v')) r' Hr' (eq_sym Et)).
    unfold backend_requests in *. lia.
Qed.
End unique.
