(* ===== verification/Config.v ===== *)
(** * What a running module never changes

    Which host controllers exist, how they are configured, which hubs there are
    and what the USB core knows of them is fixed between probe and remove;
    every registered object is a device; and an object ID is never given to a
    second object.  These are invariants of every call into the module. *)

From S2P Require Import Prelude Uapi Kernel Port Hub Object Device Transfer Backend BackendOps Hcd Control Frame ControlSpec ModuleSpec.

(** The part of a [virtusb_hcd] that only probe and remove write. *)
Record hcd_config := mk_hcd_config {
  hc_instance : Z;
  hc_linux_hcd : option hcd_ptr;
  hc_control : virtusb_control;
}.
Definition config_of (v : virtusb_hcd) : hcd_config :=
  mk_hcd_config (vh_instance v) (vh_linux_hcd v) (vh_control v).

Record config := mk_config {
  cg_hcds : gmap hcd_ptr hcd_config;
  cg_hubs : gset hub_ptr;
  cg_usb_hcds : gmap hcd_ptr usb_hcd;
}.
Definition module_config (s : kernel) : config :=
  mk_config (config_of <$> k_hcds s) (dom (k_hubs s)) (k_usb_hcds s).

Definition object_typed (ov : virtusb_object) : Prop :=
  ob_registered ov = true -> ob_type ov = VIRTUSB_OBJECT_TYPE_DEVICE.
Definition typed (s : kernel) : Prop :=
  forall o ov, k_objects s !! o = Some ov -> object_typed ov.

(** What an ID that was given away stands for from then on: nothing, or the
    object [x]. *)
Definition id_kept (s : kernel) (id : Z) (x : option obj_ptr) : Prop :=
  id < k_next_object_id s /\ (k_registry s !! id = None \/ k_registry s !! id = x).

(** A file that exists and, when [d] says so, has a certain context. *)
Definition file_kept (s : kernel) (f : file_ptr) (d : option (option virtusb_control_file)) : Prop :=
  exists fv, k_files s !! f = Some fv /\ forall x, d = Some x -> fl_private_data fv = x.

Abbreviation kept_files := (gmap file_ptr (option (option virtusb_control_file))).
Abbreviation kept_ids := (gmap Z (option obj_ptr)).

(** [F] are files that exist, [D] are IDs that were given away. *)
Record configured (C : config) (F : kept_files) (D : kept_ids) (s : kernel) : Prop := {
  cf_config : module_config s = C;
  cf_typed : typed s;
  cf_files : forall f d, F !! f = Some d -> file_kept s f d;
  cf_ids : forall id x, D !! id = Some x -> id_kept s id x;
}.

(** A typed state is configured as it is. *)
Definition files_here (s : kernel) : kept_files := (fun _ => None) <$> k_files s.
Lemma configured_here s : typed s -> configured (module_config s) (files_here s) ∅ s.
Proof.
  intros Ht. split; [done | done | | done]. intros f d. unfold files_here. rewrite lookup_fmap, fmap_Some.
  intros (fv & Hf & ->). by exists fv.
Qed.
Lemma files_here_kept s s' f D : configured (module_config s) (files_here s) D s' ->
  is_Some (k_files s !! f) -> is_Some (k_files s' !! f).
Proof.
  intros Hc [fv Hf]. destruct (cf_files _ _ _ _ Hc f None) as (fv' & Hf' & _); [ | by eexists].
  unfold files_here. by rewrite lookup_fmap, Hf.
Qed.

Section frame.
Context (C : config) (F : kept_files) (D : kept_ids).
Implicit Types s : kernel.
Abbreviation stays := (maintains (configured C F D)).

(** ** Heap accesses *)

Lemma stays_modify f : (forall s, module_config (f s) = module_config s /\ k_objects (f s) = k_objects s /\
    k_files (f s) = k_files s /\ k_registry (f s) = k_registry s /\
    k_next_object_id (f s) = k_next_object_id s) ->
  stays (modify f).
Proof.
  intros Hf. apply maintains_modify. intros s [Hc Ht HF HD]. destruct (Hf s) as (E1 & E2 & E3 & E4 & E5).
  split; [congruence | unfold typed | unfold file_kept | unfold id_kept]; by rewrite ?E2, ?E3, ?E4, ?E5.
Qed.

Lemma stays_emit e : stays (emit e).
Proof. by apply stays_modify. Qed.

Lemma stays_store_port p v : stays (store_port p v).
Proof. apply maintains_store. by intros s w [] _. Qed.
Lemma stays_alloc_port p v : stays (alloc k_ports set_ports p v).
Proof. apply maintains_alloc. by intros s [] _. Qed.
Lemma stays_free_port p : stays (free k_ports set_ports p).
Proof. apply maintains_free. by intros s w [] _. Qed.

Lemma stays_store_transfer t v : stays (store_transfer t v).
Proof. apply maintains_store. by intros s w [] _. Qed.
Lemma stays_alloc_transfer t v : stays (alloc k_transfers set_transfers t v).
Proof. apply maintains_alloc. by intros s [] _. Qed.
Lemma stays_free_transfer t : stays (free k_transfers set_transfers t).
Proof. apply maintains_free. by intros s w [] _. Qed.

Lemma stays_store_urb u v : stays (store_urb u v).
Proof. apply maintains_store. by intros s w [] _. Qed.
(** Files are opened and closed only when their context is free to change. *)
Definition context_free (f : file_ptr) : Prop := forall x, F !! f <> Some (Some x).
Lemma stays_put_file f v s : configured C F D s ->
  context_free f \/ (exists w, k_files s !! f = Some w /\ fl_private_data v = fl_private_data w) \/
    k_files s !! f = None ->
  configured C F D (set_files (<[f := v]> (k_files s)) s).
Proof.
  intros [Hc Ht HF HD] Hfree. split; [done.. | | done]. intros f' d Hd. unfold file_kept. cbn.
  destruct (HF f' d Hd) as (fv & Hfv & Hx). rewrite lookup_insert. case_decide as E; [subst f' | by exists fv].
  exists v. split; [done | ]. intros x ->. destruct Hfree as [Hf|[(w & Hw & E)|Hnew]]; [by destruct (Hf x) | | congruence].
  assert (w = fv) as -> by congruence. rewrite E. by apply Hx.
Qed.
Lemma stays_store_file f v : context_free f -> stays (store_file f v).
Proof. intros Hf. apply maintains_store. intros s w Hs _. apply stays_put_file; [done | by left]. Qed.

Lemma stays_store_hub h v : stays (store_hub h v).
Proof.
  apply maintains_store. intros s w [Hc Ht HF HD] Hw. split; [ | done..]. rewrite <- Hc.
  unfold module_config. cbn. f_equal. by rewrite dom_insert_lookup_L by (by eexists).
Qed.

Lemma stays_store_object o ov : object_typed ov -> stays (store_object o ov).
Proof.
  intros Hov. apply maintains_store. intros s w [Hc Ht HF HD] Hw. split; [done | | done..].
  intros o' ov'. cbn. rewrite lookup_insert. case_decide; [by intros [= <-] | apply Ht].
Qed.
Lemma stays_alloc_object o : stays (alloc k_objects set_objects o zero_object).
Proof.
  apply maintains_alloc. intros s [Hc Ht HF HD] Hw. split; [done | | done..].
  intros o' ov'. cbn. rewrite lookup_insert. case_decide; [by intros [= <-] | apply Ht].
Qed.
Lemma stays_free_object o : stays (free k_objects set_objects o).
Proof.
  apply maintains_free. intros s w [Hc Ht HF HD] Hw. split; [done | | done..].
  intros o' ov'. cbn. rewrite lookup_delete_Some. intros [_ ?]. by eapply Ht.
Qed.

Lemma stays_update_backend h f : stays (update_backend h f).
Proof.
  intros s a s' [Hc Ht HF HD]. unfold update_backend, bind, load, store.
  destruct (k_hcds s !! h) as [v|] eqn:Hv; [ | done]. rewrite Hv. intros [= _ <-].
  split; [ | done..]. rewrite <- Hc. unfold module_config. cbn. f_equal.
  rewrite fmap_insert. apply insert_id. by rewrite lookup_fmap, Hv.
Qed.
End frame.

#[export] Hint Resolve stays_emit stays_store_port stays_alloc_port stays_free_port
  stays_store_transfer stays_alloc_transfer stays_free_transfer stays_store_urb stays_store_file
  stays_store_hub stays_alloc_object stays_free_object stays_update_backend : frame.

(** ** Every function *)

Section functions.
Context (C : config) (F : kept_files) (D : kept_ids).
Abbreviation stays := (maintains (configured C F D)).

(** Objects. *)
Lemma stays_kref_get o : stays (kref_get o).
Proof.
  apply maintains_bind_load. intros ov (s & [_ Ht _ _] & Ho). destruct (_ <=? _); [maintain | ].
  apply stays_store_object. apply (Ht o ov Ho).
Qed.
#[local] Hint Resolve stays_kref_get : frame.
Lemma stays_device_release o : stays (virtusb_device_release o).
Proof. unfold virtusb_device_release. maintain. Qed.
#[local] Hint Resolve stays_device_release : frame.
Lemma stays_call_release f o : stays (call_release f o).
Proof. destruct f. apply stays_device_release. Qed.
#[local] Hint Resolve stays_call_release : frame.
Lemma stays_object_release_kref o : stays (virtusb_object_release_kref o).
Proof. unfold virtusb_object_release_kref. maintain. Qed.
#[local] Hint Resolve stays_object_release_kref : frame.
Lemma stays_kref_put o release : (forall x, stays (release x)) -> stays (kref_put o release).
Proof.
  intros Hr. apply maintains_bind_load. intros ov (s & [_ Ht _ _] & Ho). destruct (_ <=? _); [maintain | ].
  apply maintains_bind; [apply stays_store_object; apply (Ht o ov Ho) | intros _; maintain].
Qed.
#[local] Hint Resolve stays_kref_put : frame.
Lemma stays_object_get o : stays (virtusb_object_get o).
Proof. unfold virtusb_object_get. maintain. Qed.
#[local] Hint Resolve stays_object_get : frame.
Lemma stays_object_put o : stays (virtusb_object_put o).
Proof. unfold virtusb_object_put. maintain. Qed.
#[local] Hint Resolve stays_object_put : frame.
Lemma stays_kzalloc_object size o : stays (kzalloc_object size o).
Proof. unfold kzalloc_object. maintain. Qed.
#[local] Hint Resolve stays_kzalloc_object : frame.
Lemma stays_object_alloc size release mem : stays (virtusb_object_alloc size release mem).
Proof. unfold virtusb_object_alloc. maintain. by apply stays_store_object. Qed.
#[local] Hint Resolve stays_object_alloc : frame.
Lemma stays_object_register o oom : stays (virtusb_object_register o VIRTUSB_OBJECT_TYPE_DEVICE oom).
Proof.
  unfold virtusb_object_register. destruct o as [o|]; [ | maintain]. destruct (_ || _); [maintain | ].
  apply maintains_bind; [maintain | intros ov]. destruct (ob_registered ov); [maintain | ].
  intros s a s' Hs. unfold bind at 1, gets at 1. destruct (U32_MAX <? k_next_object_id s) eqn:Hmax; [by intros [= _ <-] | ].
  apply Z.ltb_ge in Hmax. cbv zeta. set (next := k_next_object_id s) in *. unfold bind at 1.
  destruct (virtusb_object_get (Some o) s) as [[g s1]|] eqn:E1; [ | done].
  pose proof (stays_object_get (Some o) s g s1 Hs E1) as Hs1.
  assert (k_next_object_id s1 = next) as En1.
  { revert E1. unfold virtusb_object_get, kref_get, bind, load, emit, modify, ret, store.
    destruct (k_objects s !! o) as [w|] eqn:Ho; [ | done].
    destruct (ob_refcount w <=? 0); [by intros [= _ <-] | ]. rewrite Ho. by intros [= _ <-]. }
  assert (Hpart : forall r s2, xa_insert (u32 next) o oom s1 = Some (r, s2) ->
    configured C F D s2 /\ k_next_object_id s2 = next).
  { intros r s2. unfold xa_insert, bind, gets. destruct (k_registry s1 !! u32 next) eqn:Er; [by intros [= _ <-] | ].
    destruct oom; intros [= _ <-]; [done | ]. destruct Hs1 as [Hc Ht HF HD]. split; [ | done].
    split; [done.. | ]. intros id x Hid. destruct (HD id x Hid) as [Hlt Hr]. split; [done | ]. cbn.
    rewrite lookup_insert_ne; [done | ]. intros <-. rewrite En1 in Hlt.
    unfold u32, wrap in *.
    destruct (Z.lt_ge_cases next 0) as [|Hpos]; [ | rewrite Z.mod_small in Hlt by (unfold U32_MAX in Hmax; lia); lia].
    pose proof (Z.mod_pos_bound next (2 ^ 32)). lia. }
  unfold bind at 1. destruct (xa_insert (u32 next) o oom s1) as [[r s2]|] eqn:E2; [ | done].
  destruct (Hpart r s2 eq_refl) as [Hs2 En2]. destruct (r <? 0).
  { assert (stays (virtusb_object_put (Some o) ;; ret r)) as Hst by maintain. by apply Hst. }
  unfold bind at 1, load at 1. destruct (k_objects s2 !! o) as [w|] eqn:Ho; [ | done].
  unfold bind, store, modify, ret. rewrite Ho. intros [= _ <-].
  pose proof (stays_store_object C F D o (set_ob_identity (u32 next) VIRTUSB_OBJECT_TYPE_DEVICE true w) ltac:(done) s2 tt) as Hst.
  unfold store in Hst. rewrite Ho in Hst. destruct (Hst _ Hs2 eq_refl) as [Hc Ht HF HD].
  split; [done.. | ]. intros id x Hid. destruct (HD id x Hid) as [Hlt Hr]. split; [ | done]. cbn in *.
  rewrite En2 in *. unfold u64, wrap. pose proof (Z.mod_pos_bound (next + 1) (2 ^ 64)).
  destruct (Z.lt_ge_cases (next + 1) 0); [lia | ]. rewrite Z.mod_small by (unfold U32_MAX in Hmax; lia). lia.
Qed.
#[local] Hint Resolve stays_object_register : frame.
Lemma stays_delete_id id : stays (modify (fun s => set_registry (delete id (k_registry s)) s)).
Proof.
  apply maintains_modify. intros s [Hc Ht HF HD]. split; [done.. | ]. intros i x Hi.
  destruct (HD i x Hi) as [Hlt Hr]. split; [done | ]. cbn. rewrite lookup_delete. by destruct (decide _); [left | ].
Qed.
#[local] Hint Resolve stays_delete_id : frame.
Lemma stays_object_unregister o : stays (virtusb_object_unregister o).
Proof.
  unfold virtusb_object_unregister. destruct o as [o|]; [ | maintain].
  apply maintains_bind; [maintain | intros ov]. destruct (_ || _); [maintain | ].
  intros s a s' Hs. unfold bind at 1, gets at 1. case_bool_decide; [by intros [= _ <-] | ].
  assert (stays (modify (fun s => set_registry (delete (ob_id ov) (k_registry s)) s) ;;
    store_object o (set_ob_registered false ov) ;; virtusb_object_put (Some o) ;; ret 0)) as Hst
    by (maintain; by apply stays_store_object).
  apply (Hst s a s' Hs).
Qed.
#[local] Hint Resolve stays_object_unregister : frame.
Lemma stays_object_lookup id : stays (virtusb_object_lookup id).
Proof. unfold virtusb_object_lookup. maintain. Qed.
#[local] Hint Resolve stays_object_lookup : frame.
Lemma stays_first_by_type l type : stays (first_by_type l type).
Proof. induction l as [|[id o] l IH]; cbn; maintain. Qed.
#[local] Hint Resolve stays_first_by_type : frame.
Lemma stays_object_lookup_first_by_type type : stays (virtusb_object_lookup_first_by_type type).
Proof. unfold virtusb_object_lookup_first_by_type. maintain. Qed.
#[local] Hint Resolve stays_object_lookup_first_by_type : frame.
#[export] Instance configured_framed : Framed (configured C F D).
Proof. split; intros; maintain. Qed.
#[local] Hint Resolve configured_framed : frame.

(** Transfers. *)
Lemma stays_next_transfer_id : stays next_transfer_id.
Proof. unfold next_transfer_id. maintain. by apply stays_modify. Qed.
#[local] Hint Resolve stays_next_transfer_id : frame.
Lemma stays_transfer_release t : stays (virtusb_transfer_release t).
Proof. unfold virtusb_transfer_release. maintain. Qed.
#[local] Hint Resolve stays_transfer_release : frame.
Lemma stays_transfer_create d ty dir ep setup data n mem bmem : stays (virtusb_transfer_create d ty dir ep setup data n mem bmem).
Proof. unfold virtusb_transfer_create. maintain. Qed.
#[local] Hint Resolve stays_transfer_create : frame.
Lemma stays_transfer_get t : stays (virtusb_transfer_get t).
Proof. unfold virtusb_transfer_get. maintain. Qed.
#[local] Hint Resolve stays_transfer_get : frame.
Lemma stays_transfer_put t : stays (virtusb_transfer_put t).
Proof. unfold virtusb_transfer_put. maintain. Qed.
#[local] Hint Resolve stays_transfer_put : frame.
Lemma stays_transfer_mark_queued t : stays (virtusb_transfer_mark_queued t).
Proof. unfold virtusb_transfer_mark_queued. maintain. Qed.
#[local] Hint Resolve stays_transfer_mark_queued : frame.
Lemma stays_transfer_complete t st n : stays (virtusb_transfer_complete t st n).
Proof. unfold virtusb_transfer_complete. maintain. Qed.
#[local] Hint Resolve stays_transfer_complete : frame.
Lemma stays_transfer_cancel t st : stays (virtusb_transfer_cancel t st).
Proof. unfold virtusb_transfer_cancel. maintain. Qed.
#[local] Hint Resolve stays_transfer_cancel : frame.
(** The backend. *)
Lemma stays_wake_up h : stays (wake_up h).
Proof. unfold wake_up. maintain. Qed.
#[local] Hint Resolve stays_wake_up : frame.
Lemma stays_backend_release_request r : stays (virtusb_backend_release_request r).
Proof. unfold virtusb_backend_release_request. maintain. Qed.
#[local] Hint Resolve stays_backend_release_request : frame.
Lemma stays_backend_giveback h r st : stays (virtusb_backend_giveback h r st).
Proof. unfold virtusb_backend_giveback. maintain. Qed.
#[local] Hint Resolve stays_backend_giveback : frame.
Lemma stays_backend_init h : stays (virtusb_backend_init h).
Proof. unfold virtusb_backend_init. maintain. Qed.
#[local] Hint Resolve stays_backend_init : frame.
Lemma stays_backend_register h o d oom : stays (virtusb_backend_register h o d oom).
Proof. unfold virtusb_backend_register. maintain. Qed.
#[local] Hint Resolve stays_backend_register : frame.
Lemma stays_backend_submit h uh u t oom link : stays (virtusb_backend_submit h uh u t oom link).
Proof. unfold virtusb_backend_submit. maintain. Qed.
#[local] Hint Resolve stays_backend_submit : frame.
Lemma stays_backend_cancel h uh u st check : stays (virtusb_backend_cancel h uh u st check).
Proof. unfold virtusb_backend_cancel. maintain. Qed.
#[local] Hint Resolve stays_backend_cancel : frame.
Lemma stays_fetch_section h o nb : stays (fetch_section h o nb).
Proof. unfold fetch_section. maintain. Qed.
#[local] Hint Resolve stays_fetch_section : frame.
Lemma stays_backend_fetch_rollback h o id : stays (virtusb_backend_fetch_rollback h o id).
Proof. unfold virtusb_backend_fetch_rollback. maintain. Qed.
#[local] Hint Resolve stays_backend_fetch_rollback : frame.
Lemma stays_copy_result r l n : stays (copy_result r l n).
Proof. unfold copy_result. maintain. Qed.
#[local] Hint Resolve stays_copy_result : frame.
Lemma stays_backend_complete h uh o c : stays (virtusb_backend_complete h uh o c).
Proof. unfold virtusb_backend_complete. maintain. Qed.
#[local] Hint Resolve stays_backend_complete : frame.
Lemma stays_shut_down_request h uh q i r : stays (shut_down_request h uh q i r).
Proof. unfold shut_down_request. maintain. Qed.
#[local] Hint Resolve stays_shut_down_request : frame.
Lemma stays_drain_owner fuel h uh d o : stays (drain_owner fuel h uh d o).
Proof. induction fuel; cbn; maintain. Qed.
#[local] Hint Resolve stays_drain_owner : frame.
Lemma stays_backend_release_owner h uh o : stays (virtusb_backend_release_owner h uh o).
Proof. unfold virtusb_backend_release_owner. maintain. Qed.
#[local] Hint Resolve stays_backend_release_owner : frame.
Lemma stays_drain_all fuel h uh : stays (drain_all fuel h uh).
Proof. induction fuel; cbn; maintain. Qed.
#[local] Hint Resolve stays_drain_all : frame.
Lemma stays_drop_bindings fuel h : stays (drop_bindings fuel h).
Proof. induction fuel; cbn; maintain. Qed.
#[local] Hint Resolve stays_drop_bindings : frame.
Lemma stays_backend_stop h uh : stays (virtusb_backend_stop h uh).
Proof. unfold virtusb_backend_stop. maintain. Qed.
#[local] Hint Resolve stays_backend_stop : frame.
(** The host controller. *)
Lemma stays_hcd_urb_enqueue h u env : stays (virtusb_hcd_urb_enqueue h u env).
Proof. unfold virtusb_hcd_urb_enqueue. maintain. Qed.
#[local] Hint Resolve stays_hcd_urb_enqueue : frame.
Lemma stays_hcd_urb_dequeue h u st check : stays (virtusb_hcd_urb_dequeue h u st check).
Proof. unfold virtusb_hcd_urb_dequeue. maintain. Qed.
#[local] Hint Resolve stays_hcd_urb_dequeue : frame.
(** The control device. *)
Lemma stays_control_backend_register f c us env : stays (virtusb_control_backend_register f c us env).
Proof. unfold virtusb_control_backend_register. maintain. Qed.
#[local] Hint Resolve stays_control_backend_register : frame.
Lemma stays_control_transfer_complete f c us : stays (virtusb_control_transfer_complete f c us).
Proof. unfold virtusb_control_transfer_complete. maintain. Qed.
#[local] Hint Resolve stays_control_transfer_complete : frame.
Lemma stays_control_open c f oom : context_free F f -> stays (virtusb_control_open c f oom).
Proof. intros Hf. unfold virtusb_control_open. maintain. Qed.
#[local] Hint Resolve stays_control_open : frame.
Lemma stays_control_release f : context_free F f -> stays (virtusb_control_release f).
Proof. intros Hf. unfold virtusb_control_release. maintain. Qed.
#[local] Hint Resolve stays_control_release : frame.

(** A fetch that does not go to sleep. *)
Section at_once.
Context (h : hcd_ptr) (o : file_ptr) (nonblock : bool) (s : kernel) (Hs : configured C F D s).
Context (Hn : forall s', fetch_section h o nonblock s <> Some (FetchWait, s')).

Lemma stays_backend_fetch fetch sleeps a s' :
  virtusb_backend_fetch (Some h) (Some o) (Some fetch) nonblock sleeps s = Some (a, s') -> configured C F D s'.
Proof using Hs Hn.
  unfold virtusb_backend_fetch. cbn [fetch_loop]. unfold bind at 1, bind at 1.
  destruct (fetch_section h o nonblock s) as [[r s1]|] eqn:E; [ | done].
  pose proof (stays_fetch_section h o nonblock s r s1 Hs E) as Hs1.
  destruct r as [r|t|]; [by intros [= _ <-] | | by destruct (Hn s1)].
  assert (stays (filled <- fetch_fill t ;; virtusb_transfer_put (Some t) ;; ret (0, Some filled))) as Hst by maintain.
  apply (Hst s1 a s' Hs1).
Qed.
End at_once.

Lemma stays_control_transfer_fetch s f fv c us env a s' : k_files s !! f = Some fv ->
  file_control s fv = Some c -> fetch_at_once s f fv -> configured C F D s ->
  virtusb_control_transfer_fetch f c us env s = Some (a, s') -> configured C F D s'.
Proof.
  intros Hf Hc Hn Hs. unfold virtusb_control_transfer_fetch. destruct (ie_oom env); [by intros [= _ <-] | ].
  unfold bind at 1. destruct (control_hcd c s) as [[h s1]|] eqn:E; [ | done].
  assert (s1 = s /\ exists v, k_hcds s !! c = Some v /\ ct_hcd (vh_control v) = Some h) as (-> & v & Hv & Hh).
  { revert E. unfold control_hcd, load_control, bind, load. destruct (k_hcds s !! c) as [v|]; [ | done].
    cbn. destruct (ct_hcd _) eqn:Eh; [intros [= <- <-] | done]. split; [done | by exists v]. }
  unfold bind at 1, load at 1. rewrite Hf. unfold bind at 1.
  destruct (virtusb_backend_fetch _ _ _ _ _ s) as [[[r fetch] s1]|] eqn:Ef; [ | done].
  eapply stays_backend_fetch in Ef; [ | done | intros s2; by apply (Hn c v)].
  assert (stays (if r <? 0 then ret (r, None)
    else match fetch with
         | None => stuck
         | Some fetch =>
             if negb (us_copy_out us) then
               h <- control_hcd c ;;
               _ <- virtusb_backend_fetch_rollback (Some h) (Some f) (tf_transfer_id fetch) ;;
               ret (- EFAULT, None)
             else ret (0, Some (ReplyFetch fetch))
         end)) as Hst by maintain.
  apply (Hst s1 a s' Ef).
Qed.

Lemma stays_control_ioctl enc s f fv command us env a s' : k_files s !! f = Some fv ->
  command <> VIRTUSB_IOCTL_TRANSFER_FETCH enc \/ fetch_at_once s f fv -> configured C F D s ->
  virtusb_control_ioctl enc f command us env s = Some (a, s') -> configured C F D s'.
Proof.
  intros Hf Hnb Hs. unfold virtusb_control_ioctl. unfold bind at 1.
  destruct (active_control f s) as [[[c|] s1]|] eqn:E; [ | | done].
  2: { intros [= _ <-]. by apply (framed_active_control (configured C F D) f s _ _ Hs E). }
  assert (s1 = s /\ file_control s fv = Some c) as [-> Hc].
  { revert E. unfold active_control, file_control, load_control, bind, load. rewrite Hf. cbn.
    destruct (fl_private_data fv) as [ctx|]; [ | by intros [= _ <-]].
    destruct (cf_control ctx) as [c'|]; [ | by intros [= _ <-]].
    destruct (k_hcds s !! c'); [ | done]. cbn. destruct (_ || _); [by intros [= _ <-] | ].
    by intros [= <- <-]. }
  (* every branch but the fetch *)
  repeat match goal with |- (if ?b then ?m else ?k) s = _ -> _ =>
    lazymatch m with virtusb_control_transfer_fetch _ _ _ _ => fail | _ => idtac end;
    destruct b; [assert (stays m) as Hm by maintain; exact (Hm s a s' Hs) | ]
  end.
  destruct (command =? VIRTUSB_IOCTL_TRANSFER_FETCH enc) eqn:Hcmd.
  - apply Z.eqb_eq in Hcmd. destruct Hnb as [|Hnb]; [done | ].
    by eapply stays_control_transfer_fetch.
  - destruct (command =? VIRTUSB_IOCTL_TRANSFER_COMPLETE enc); [ | by injection 1 as _ <-].
    assert (stays (no_reply (virtusb_control_transfer_complete f c us))) as Hm by maintain.
    exact (Hm s a s' Hs).
Qed.

(** ** Every step of a run *)

Lemma stays_no_result {A} (m : K A) : stays m -> stays (no_result m).
Proof. intros Hm. unfold no_result. maintain. Qed.

(** A call that opens or closes no file whose context is kept. *)
Definition keeps_contexts (c : call) : Prop :=
  match c with CallOpen _ f _ | CallRelease f => context_free F f | _ => True end.

Lemma run_call_configured enc s c s' : keeps_contexts c -> call_allowed enc s c -> configured C F D s ->
  run_call enc c s = Some (tt, s') -> configured C F D s'.
Proof.
  intros Hk Ha Hs. assert (Hgen : forall m : K unit, stays m -> m s = Some (tt, s') -> configured C F D s')
    by (intros m Hm; by apply Hm).
  destruct c as [c f oom|f command us env|f|f|h ty v i buf len|h buf|h u env|h u st chk]; cbn in *;
    [apply Hgen, stays_no_result; maintain | | apply Hgen, stays_no_result; maintain..].
  destruct Ha as (fv & Hf & _ & _ & Hnb). unfold no_result, bind.
  destruct (virtusb_control_ioctl enc f command us env s) as [[r s1]|] eqn:E; [ | done].
  intros [= <-]. by eapply stays_control_ioctl.
Qed.

Lemma put_file_configured s f fv : fl_private_data fv = file_data s f -> configured C F D s ->
  configured C F D (put_file f fv s).
Proof.
  unfold file_data. intros Ef Hs. apply stays_put_file; [done | right].
  destruct (k_files s !! f) as [w|]; [left; by exists w | by right].
Qed.

(** When no context is kept, every step is fine. *)
Context (Hfree : forall f, context_free F f).
Lemma module_step_configured enc s s' : module_step enc s s' -> configured C F D s -> configured C F D s'.
Proof using Hfree.
  intros [s0 c s1 Ha E | s0 u uv H0 | s0 f fv Ef] Hs; [ | by destruct Hs | by apply put_file_configured].
  eapply run_call_configured; [ | done..]. by destruct c; cbn.
Qed.

Lemma module_reach_configured enc s s' : module_reach enc s s' -> configured C F D s -> configured C F D s'.
Proof using Hfree. induction 1; [done | ]. eauto using module_step_configured. Qed.
End functions.

Lemma files_here_free s f : context_free (files_here s) f.
Proof.
  intros x. unfold files_here. rewrite lookup_fmap. by destruct (k_files s !! f).
Qed.

(** Steps from a typed state. *)
Lemma reach_here enc s s' D : module_reach enc s s' -> configured (module_config s) (files_here s) D s ->
  configured (module_config s) (files_here s) D s'.
Proof. apply module_reach_configured, files_here_free. Qed.
Lemma module_reach_stays enc s s' : module_reach enc s s' -> typed s ->
  configured (module_config s) (files_here s) ∅ s'.
Proof. intros Hr Ht. apply (reach_here enc s s' ∅ Hr). by apply configured_here. Qed.
