(* ===== verification/BlockSpec.v ===== *)
(** * Blocking fetches

    A fetch that sleeps lets other calls into the module run.  When these are
    steps of the module, the whole fetch is a run of the module too: the steps
    of the others, and then one fetch that does not sleep, or none when a signal
    ended the sleep. *)

From S2P Require Import Prelude Uapi Kernel Port Hub Object Device Transfer Backend BackendInv BackendOps Hcd HcdSpec UrbSpec FetchSpec Control ControlSpec ModuleSpec Config.

(** ** Runs that leave some files open *)

Definition file_reach (enc : ioctl_encoding) (F : gset file_ptr) (s s' : kernel) : Prop :=
  module_reach enc s s' /\
  forall f d, f ∈ F -> file_data s f = Some d -> file_data s' f = Some d.

#[export] Instance file_reach_preorder enc F : PreOrder (file_reach enc F).
Proof.
  split; [by intros s | ]. intros s1 s2 s3 [H1 E1] [H2 E2]. split; [by etrans | ].
  intros f d Hf Hd. apply E2, E1; done.
Qed.
Lemma file_reach_subset enc F F' s s' : F' ⊆ F -> file_reach enc F s s' -> file_reach enc F' s s'.
Proof. intros HF [Hr Hd]. split; [done | ]. intros f d Hf. apply Hd, HF, Hf. Qed.
Lemma file_reach_empty enc s s' : module_reach enc s s' -> file_reach enc ∅ s s'.
Proof. intros Hr. split; [done | ]. intros f d Hf. by apply not_elem_of_empty in Hf. Qed.

(** What other threads and the USB core do, from any state: steps of the module
    that do not reopen or close the files [F]. *)
Definition interferes (enc : ioctl_encoding) (F : gset file_ptr) (others : K unit) : Prop :=
  forall s, module_ok s -> typed s -> exists s', others s = Some (tt, s') /\ file_reach enc F s s'.

Definition sleep_of (x : sleep) : K unit := match x with Others o | Signalled o => o end.
Definition is_signal (x : sleep) : Prop := match x with Signalled _ => True | Others _ => False end.

(** However long the fetch sleeps, a signal would end it. *)
Record sleeps_ok (enc : ioctl_encoding) (F : gset file_ptr) (sleeps : list sleep) : Prop := {
  sl_others : Forall (fun x => interferes enc F (sleep_of x)) sleeps;
  sl_signal : Exists is_signal sleeps;
}.

Lemma interferes_nothing enc F : interferes enc F (ret tt).
Proof. intros s _ _. by exists s. Qed.

Lemma interferes_seq enc F a b : interferes enc F a -> interferes enc F b -> interferes enc F (a ;; b).
Proof.
  intros Ha Hb s Hm Ht. destruct (Ha s Hm Ht) as (s1 & E1 & Hr1).
  pose proof (module_reach_stays enc s s1 (proj1 Hr1) Ht) as Hc.
  destruct (Hb s1 (module_reach_ok _ _ _ (proj1 Hr1) Hm) (cf_typed _ _ _ _ Hc)) as (s2 & E2 & Hr2).
  exists s2. split; [unfold bind; by rewrite E1 | by etrans].
Qed.

Section blocking.
Context (enc : ioctl_encoding) (F : gset file_ptr).
Implicit Types s : kernel.

(** What a run keeps of the host controllers and the files. *)
Lemma file_reach_control f s s' fv c : f ∈ F -> file_reach enc F s s' -> typed s -> k_files s !! f = Some fv ->
  file_control s fv = Some c -> exists fv', k_files s' !! f = Some fv' /\ file_control s' fv' = Some c.
Proof.
  intros HfF [Hr Hd] Ht Hf Hc. specialize (Hd f). pose proof (module_reach_stays enc s s' Hr Ht) as Hs.
  destruct (files_here_kept s s' f ∅ Hs) as [fv' Hf']; [by eexists | ]. exists fv'. split; [done | ].
  revert Hc. unfold file_data in Hd. rewrite Hf, Hf' in Hd. unfold file_control.
  destruct (fl_private_data fv) as [ctx|]; [ | done]. rewrite (Hd ctx HfF eq_refl).
  destruct (cf_control ctx) as [c'|]; [ | done].
  pose proof (cf_config _ _ _ _ Hs) as Hcfg. unfold module_config in Hcfg. injection Hcfg as Eh _ _.
  assert (El : config_of <$> k_hcds s' !! c' = config_of <$> k_hcds s !! c') by (by rewrite <- !lookup_fmap, Eh).
  destruct (k_hcds s !! c') as [v|], (k_hcds s' !! c') as [v'|]; try done.
  injection El as _ _ ->. done.
Qed.

Lemma module_reach_hcd s s' h : module_reach enc s s' -> typed s -> is_Some (k_hcds s !! h) ->
  is_Some (k_hcds s' !! h).
Proof.
  intros Hr Ht [v Hv]. pose proof (cf_config _ _ _ _ (module_reach_stays enc s s' Hr Ht)) as Hcfg.
  unfold module_config in Hcfg. injection Hcfg as Eh _ _.
  assert (El : config_of <$> k_hcds s' !! h = config_of <$> k_hcds s !! h) by (by rewrite <- !lookup_fmap, Eh).
  rewrite Hv in El. destruct (k_hcds s' !! h); [by eexists | done].
Qed.

(** ** Sleeping *)

Section fetch.
Context (h : hcd_ptr) (f : file_ptr).
Abbreviation condition := (virtusb_backend_pending_for_owner_or_stopping h f).

(** The sleep ends with the condition fulfilled or with a signal. *)
Lemma wait_returns sleeps : forall awake s, module_ok s -> typed s -> is_Some (k_hcds s !! h) ->
  sleeps_ok enc F sleeps ->
  exists r rest s', wait_event h condition awake sleeps s = Some ((r, rest), s') /\
    file_reach enc F s s' /\ (r = - ERESTARTSYS \/ (r = 0 /\ condition s' = Some (true, s'))).
Proof.
  induction sleeps as [|x rest IH]; intros awake s Hm Ht [v Hv] [Ho Hsig]; [by apply Exists_nil in Hsig | ].
  pose proof (pending_for_owner_eq _ _ s (mo_inv _ _ _ Hm) h v Hv f) as Ec.
  assert (exists ready, (if awake return M kernel bool then condition else ret false) s = Some (ready, s) /\
    (ready = true -> condition s = Some (true, s))) as (ready & Er & Hready).
  { destruct awake; [ | by exists false]. eexists. split; [exact Ec | ]. intros <-. exact Ec. }
  cbn [wait_event]. unfold bind at 1. rewrite Er. destruct ready.
  { exists 0, (x :: rest), s. split; [done | ]. split; [done | right]. by split; [ | apply Hready]. }
  apply Forall_cons in Ho as [Hx Ho]. destruct (Hx s Hm Ht) as (s1 & E1 & Hr1).
  pose proof (module_reach_ok _ _ _ (proj1 Hr1) Hm) as Hm1.
  pose proof (cf_typed _ _ _ _ (module_reach_stays enc s s1 (proj1 Hr1) Ht)) as Ht1.
  pose proof (module_reach_hcd s s1 h (proj1 Hr1) Ht ltac:(by eexists)) as Hv1.
  destruct x as [o|o]; cbn in E1.
  - unfold bind, trace_now. rewrite E1. apply Exists_cons in Hsig as [[]|Hsig].
    destruct (IH (woken h (k_trace s) (k_trace s1)) s1 Hm1 Ht1 Hv1 ltac:(done)) as (r & rest' & s' & E & Hr & Hcase).
    exists r, rest', s'. split_and!; [done | by etrans | done].
  - unfold bind at 1. rewrite E1.
    destruct Hv1 as [v1 Hv1]. pose proof (pending_for_owner_eq _ _ s1 (mo_inv _ _ _ Hm1) h v1 Hv1 f) as Ec1.
    unfold bind, ret. rewrite Ec1. eexists _, rest, s1. split; [done | ]. split; [done | ].
    destruct (be_stopping (vh_backend v1) || _); [by right | by left].
Qed.

(** Once the condition holds, a fetch does not sleep, and O_NONBLOCK makes no
    difference. *)
Lemma condition_at_once s : module_ok s -> is_Some (k_hcds s !! h) -> condition s = Some (true, s) ->
  exists x, (forall nonblock, fetch_section h f nonblock s = Some x) /\ x.1 <> FetchWait.
Proof.
  intros Hm [v Hv] Hc. rewrite (pending_for_owner_eq _ _ s (mo_inv _ _ _ Hm) h v Hv f) in Hc.
  injection Hc as Hc.
  pose proof (fetch_section_spec _ _ s (mo_inv _ _ _ Hm) h v Hv f) as Hsec.
  destruct (next_request s v f) as [[i r]|] eqn:En.
  - eexists. split; [intros nb; by destruct (Hsec nb) as (tv & _ & E & _) | done].
  - rewrite bool_decide_eq_false_2, orb_false_r in Hc by auto. rewrite Hc in Hsec.
    case_decide; (eexists; split; [exact Hsec | done]).
Qed.

(** A fetch that sleeps is a run of the others, and then a fetch that does not
    sleep unless a signal ended it. *)
Lemma backend_fetch_blocks buffer nonblock sleeps s : module_ok s -> typed s -> is_Some (k_hcds s !! h) ->
  sleeps_ok enc F sleeps ->
  exists s', file_reach enc F s s' /\
    (virtusb_backend_fetch (Some h) (Some f) (Some buffer) nonblock sleeps s =
       Some ((- ERESTARTSYS, Some buffer), s') \/
     exists x, x.1 <> FetchWait /\
       forall nb, (s' = s -> nb = nonblock) -> fetch_section h f nb s' = Some x /\
         forall l, virtusb_backend_fetch (Some h) (Some f) (Some buffer) nonblock sleeps s =
           virtusb_backend_fetch (Some h) (Some f) (Some buffer) nb l s').
Proof.
  intros Hm Ht Hh Hsl. destruct Hh as [v Hv].
  pose proof (fetch_section_spec _ _ s (mo_inv _ _ _ Hm) h v Hv f nonblock) as Hsec.
  assert (Hcase : (exists x, fetch_section h f nonblock s = Some x /\ x.1 <> FetchWait) \/
    fetch_section h f nonblock s = Some (FetchWait, s)).
  { destruct (next_request s v f) as [[i r]|].
    - destruct Hsec as (tv & _ & E & _). left. by eexists.
    - rewrite Hsec. case_decide; [left; by eexists | ]. destruct (be_stopping _); [left; by eexists | ].
      destruct nonblock; [left; by eexists | by right]. }
  destruct Hcase as [(x & E & Hx)|Ew].
  { exists s. split; [done | right]. exists x. split; [done | ]. intros nb Hnb. rewrite (Hnb eq_refl).
    split; [done | ]. intros l. by apply (backend_fetch_at_once h f buffer nonblock nonblock sleeps l s x). }
  destruct (wait_returns sleeps true s Hm Ht ltac:(by eexists) Hsl) as (r & rest & s' & E & Hr & Hcase).
  exists s'. split; [done | ].
  assert (Efetch : forall k, fetch_loop (S k) h f nonblock sleeps s =
    (if r <? 0 then ret (Err r) else fetch_loop k h f nonblock rest) s').
  { intros k. cbn [fetch_loop]. unfold bind at 1. rewrite Ew. unfold bind at 1, wait_event_interruptible. by rewrite E. }
  destruct Hcase as [->|[-> Hc]].
  - left. unfold virtusb_backend_fetch. unfold bind at 1. by rewrite Efetch.
  - right. pose proof (module_reach_ok _ _ _ (proj1 Hr) Hm) as Hm'.
    pose proof (module_reach_hcd s s' h (proj1 Hr) Ht ltac:(by eexists)) as Hh'.
    destruct (condition_at_once s' Hm' Hh' Hc) as (x & Hx & Hne). exists x. split; [done | ].
    intros nb _. split; [done | ]. intros l. unfold virtusb_backend_fetch, bind. rewrite Efetch. cbn [Z.ltb Z.compare].
    by rewrite (fetch_loop_at_once h f (length sleeps) rest s' x nonblock), (fetch_loop_at_once h f (S (length l)) l s' x nb).
Qed.
End fetch.

(** ** The ioctl *)

Lemma commands_differ i j a b : NoDup (commands enc) -> commands enc !! i = Some a ->
  commands enc !! j = Some b -> i <> j -> (a =? b) = false.
Proof.
  intros Hn Ha Hb Hij. apply Z.eqb_neq. intros ->. apply Hij. by apply (NoDup_lookup (commands enc) i j b).
Qed.

Lemma fetch_ioctl_eq s f fv us env : NoDup (commands enc) -> module_ok s -> k_files s !! f = Some fv ->
  virtusb_control_ioctl enc f (VIRTUSB_IOCTL_TRANSFER_FETCH enc) us env s =
    match file_control s fv with
    | None => Some ((- ENODEV, None), s)
    | Some c => virtusb_control_transfer_fetch f c us env s
    end.
Proof.
  intros Hn Hm Hf. unfold virtusb_control_ioctl. unfold bind at 1. rewrite (active_control_eq s Hm f fv Hf).
  destruct (file_control s fv) as [c|]; [ | done].
  rewrite (commands_differ 9 0 _ (VIRTUSB_IOCTL_GET_PORT_STATUS enc) Hn),
    (commands_differ 9 1 _ (VIRTUSB_IOCTL_DEVICE_CREATE enc) Hn),
    (commands_differ 9 2 _ (VIRTUSB_IOCTL_DEVICE_DESTROY enc) Hn),
    (commands_differ 9 3 _ (VIRTUSB_IOCTL_DEVICE_ATTACH enc) Hn),
    (commands_differ 9 4 _ (VIRTUSB_IOCTL_DEVICE_DETACH enc) Hn),
    (commands_differ 9 5 _ (VIRTUSB_IOCTL_DEVICE_CONNECTION enc) Hn),
    (commands_differ 9 6 _ (VIRTUSB_IOCTL_SET_PORT_POWER enc) Hn),
    (commands_differ 9 7 _ (VIRTUSB_IOCTL_BACKEND_REGISTER enc) Hn),
    (commands_differ 9 8 _ (VIRTUSB_IOCTL_BACKEND_UNREGISTER enc) Hn), Z.eqb_refl by done.
  done.
Qed.

(** *** A fetch with a request *)

Section next.
Context (s : kernel) (Hm : module_ok s) (f : file_ptr) (fv : file) (Hf : k_files s !! f = Some fv).
Context (c : hcd_ptr) (Hc : file_control s fv = Some c) (v : virtusb_hcd) (Hv : k_hcds s !! c = Some v).
Context (Hn : NoDup (commands enc)) (env : ioctl_env) (Hoom : ie_oom env = false).
Context (i : nat) (rq : virtusb_hcd_request) (Hnext : next_request s v f = Some (i, rq)).

Lemma fetch_ioctl_next us : exists tv ov, k_transfers s !! rq_transfer rq = Some tv /\
  k_objects s !! tr_device tv = Some ov /\ transfer_wf tv /\
  tr_requested_length tv <= VIRTUSB_TRANSFER_DATA_MAX /\
  if us_copy_out us then
    virtusb_control_ioctl enc f (VIRTUSB_IOCTL_TRANSFER_FETCH enc) us env s =
      Some ((0, Some (ReplyFetch (fetch_view tv ov))), with_backend c (fetched f i rq) s) /\
    module_ok (with_backend c (fetched f i rq) s)
  else exists s2,
    virtusb_control_ioctl enc f (VIRTUSB_IOCTL_TRANSFER_FETCH enc) us env s = Some ((- EFAULT, None), s2) /\
    module_ok s2 /\ k_hcds s2 = k_hcds (with_backend c (refetchable i rq) s) /\
    k_transfers s2 = k_transfers s /\ k_objects s2 = k_objects s /\ k_urbs s2 = k_urbs s /\ k_files s2 = k_files s.
Proof using Hm Hf Hc Hv Hn Hoom Hnext.
  destruct (file_control_facts s Hm f fv Hf c Hc) as (v' & hv & Hv' & Hct & _). assert (v' = v) as -> by congruence.
  destruct (next_request_facts _ _ s (mo_inv _ _ _ Hm) c v Hv f i rq Hnext) as (_ & tv & ov & Ht & Ho & Hwf & Hl).
  exists tv, ov. split_and!; [done.. | ].
  pose proof (backend_fetch_spec _ _ s (mo_inv _ _ _ Hm) c v Hv f zero_fetch (fl_nonblock fv) (ie_sleeps env)) as Hs.
  rewrite Hnext in Hs. destruct Hs as (tv' & ov' & Ht' & Ho' & E & Hi). simplify_eq.
  assert (Hm1 : module_ok (with_backend c (fetched f i rq) s))
    by apply (module_backend _ _ _ _ _ _ Hm (with_backend_step _ _ _) Hi).
  assert (Eq : virtusb_control_ioctl enc f (VIRTUSB_IOCTL_TRANSFER_FETCH enc) us env s =
    (if negb (us_copy_out us) then
       h <- control_hcd c ;;
       _ <- virtusb_backend_fetch_rollback (Some h) (Some f) (tr_id tv) ;;
       ret (- EFAULT, None)
     else ret (0, Some (ReplyFetch (fetch_view tv ov)))) (with_backend c (fetched f i rq) s)).
  { rewrite (fetch_ioctl_eq s f fv us env Hn Hm Hf), Hc. unfold virtusb_control_transfer_fetch. rewrite Hoom.
    erewrite bind_eq by (by apply (control_hcd_eq s c v)). unfold bind at 1, load at 1. rewrite Hf.
    by erewrite bind_eq by exact E. }
  destruct (us_copy_out us); [done | ]. cbn [negb] in Eq.
  pose proof (with_backend_lookup s c v Hv (fetched f i rq)) as Hv1.
  erewrite bind_eq in Eq by (by apply (control_hcd_eq _ c _ Hv1 Hct)).
  assert (Hid : tr_id tv <> 0).
  { pose proof (to_id _ _ (ro_transfers _ _ _ (bc_refs _ _ _ (bi_core _ _ _ (mo_inv _ _ _ Hm)))) _ _ Ht). lia. }
  destruct (fetch_rollback_spec _ _ _ (mo_inv _ _ _ Hm1) c _ Hv1 f (tr_id tv) Hid)
    as (r' & s2 & E' & Hi2 & Hst & Eu & Et & Eo & H).
  change (list_find _ _) with (list_find (fun x => has_id s f (tr_id tv) x = true)
    (be_active (vh_backend v) ++ [owned f rq])) in H.
  rewrite (find_fetched _ _ s (mo_inv _ _ _ Hm) c v Hv f i rq Hnext tv Ht) in H. destruct H as [-> Eh].
  exists s2. erewrite bind_eq in Eq by exact E'. split_and!; [done | | | by rewrite Et | by rewrite Eo | by rewrite Eu | by rewrite (bk_files _ _ Hst)].
  - by apply (module_backend _ _ _ _ _ _ Hm1 Hst).
  - rewrite Eh. apply map_eq. intros x. cbn. destruct (decide (x = c)) as [->|]; [ | by rewrite !lookup_alter_ne].
    rewrite !lookup_alter_eq, Hv. cbn.
    by rewrite (rolled_back_fetched _ _ s (mo_inv _ _ _ Hm) c v Hv f i rq Hnext).
Qed.
End next.

(** Any other fetch that does not sleep fails and changes nothing. *)
Lemma fetch_ioctl_fails s f fv us env : NoDup (commands enc) -> module_ok s -> k_files s !! f = Some fv ->
  fetch_at_once s f fv ->
  (exists c v i rq, file_control s fv = Some c /\ k_hcds s !! c = Some v /\ ie_oom env = false /\
     next_request s v f = Some (i, rq)) \/
  exists r, r < 0 /\ virtusb_control_ioctl enc f (VIRTUSB_IOCTL_TRANSFER_FETCH enc) us env s = Some ((r, None), s).
Proof.
  intros Hn Hm Hf Hnow. rewrite (fetch_ioctl_eq s f fv us env Hn Hm Hf).
  destruct (file_control s fv) as [c|] eqn:Hc; [ | right; by exists (- ENODEV)].
  destruct (file_control_facts s Hm f fv Hf c Hc) as (v & hv & Hv & Hct & _).
  unfold virtusb_control_transfer_fetch. destruct (ie_oom env) eqn:Hoom; [right; by exists (- ENOMEM) | ].
  destruct (next_request s v f) as [[i rq]|] eqn:Hnext; [left; by exists c, v, i, rq | right].
  destruct (fetch_no_wait _ _ s (mo_inv _ _ _ Hm) c v Hv f (fl_nonblock fv)) as [|Hneg]; [by intros s'; apply (Hnow c v) | done | ].
  exists (fetch_error v f (fl_nonblock fv)). split; [done | ].
  erewrite bind_eq by (by apply (control_hcd_eq s c v)). unfold bind at 1, load at 1. rewrite Hf.
  pose proof (backend_fetch_spec _ _ s (mo_inv _ _ _ Hm) c v Hv f zero_fetch (fl_nonblock fv) (ie_sleeps env)) as Hs.
  rewrite Hnext in Hs. erewrite bind_eq by (apply Hs; lia). cbv beta iota. by rewrite (proj2 (Z.ltb_lt _ _) Hneg).
Qed.

(** No ioctl opens or closes a file. *)
Lemma ioctl_step s f fv command us env x s' : module_ok s -> typed s -> k_files s !! f = Some fv ->
  user_wf us -> ioctl_env_wf s env ->
  command <> VIRTUSB_IOCTL_TRANSFER_FETCH enc \/ fetch_at_once s f fv ->
  virtusb_control_ioctl enc f command us env s = Some (x, s') -> file_reach enc F s s'.
Proof.
  intros Hm Ht Hf Hus Henv Hnb E. split.
  - apply rtc_once. apply (step_call _ _ (CallIoctl f command us env)).
    + exists fv. by split_and!.
    + cbn. unfold no_result, bind. by rewrite E.
  - intros g d _ Hd. assert (Hc : configured (module_config s) {[g := Some (Some d)]} ∅ s).
    { split; [done | done | | done]. intros g' d' [<- <-]%lookup_singleton_Some. unfold file_data in Hd.
      destruct (k_files s !! g) as [gv|] eqn:Hg; [ | done]. exists gv. split; [done | ]. by intros x0 [= <-]. }
    eapply stays_control_ioctl in E; [ | done..].
    destruct (cf_files _ _ _ _ E g (Some (Some d))) as (gv & Hg & Hx); [by rewrite lookup_singleton_eq | ].
    unfold file_data. rewrite Hg. by apply Hx.
Qed.

(** A fetch on a blocking file fails without taking a request, after a signal or
    for lack of memory, or it is the same call in the later state, where it does
    not sleep. *)
Lemma ioctl_fetch_blocks s f fv us env : NoDup (commands enc) -> module_ok s -> typed s ->
  k_files s !! f = Some fv -> f ∈ F -> sleeps_ok enc F (ie_sleeps env) ->
  exists s' fv', file_reach enc F s s' /\ k_files s' !! f = Some fv' /\
    ((exists r, r < 0 /\
        virtusb_control_ioctl enc f (VIRTUSB_IOCTL_TRANSFER_FETCH enc) us env s = Some ((r, None), s')) \/
     (fetch_at_once s' f fv' /\
      virtusb_control_ioctl enc f (VIRTUSB_IOCTL_TRANSFER_FETCH enc) us env s =
      virtusb_control_ioctl enc f (VIRTUSB_IOCTL_TRANSFER_FETCH enc) us env s')).
Proof.
  intros Hn Hm Ht Hf HfF Hsl. rewrite (fetch_ioctl_eq s f fv us env Hn Hm Hf).
  destruct (file_control s fv) as [c|] eqn:Hc.
  2: { exists s, fv. split; [done | ]. split; [done | left]. by exists (- ENODEV). }
  destruct (file_control_facts s Hm f fv Hf c Hc) as (v & hv & Hv & Hct & _).
  unfold virtusb_control_transfer_fetch at 1 2. destruct (ie_oom env) eqn:Hoom.
  { exists s, fv. split; [done | ]. split; [done | left]. by exists (- ENOMEM). }
  destruct (backend_fetch_blocks c f zero_fetch (fl_nonblock fv) (ie_sleeps env) s Hm Ht ltac:(by eexists) Hsl)
    as (s' & Hr & Hcase). exists s'.
  destruct (file_reach_control f s s' fv c HfF Hr Ht Hf Hc) as (fv' & Hf' & Hc').
  pose proof (module_reach_ok _ _ _ (proj1 Hr) Hm) as Hm'.
  destruct (file_control_facts s' Hm' f fv' Hf' c Hc') as (v' & hv' & Hv' & Hct' & _).
  assert (Hstart : forall A (k : Z * option virtusb_transfer_fetch -> K A) s0 v0 fv0, k_hcds s0 !! c = Some v0 ->
    ct_hcd (vh_control v0) = Some c -> k_files s0 !! f = Some fv0 ->
    (h <- control_hcd c ;; fv <- load_file f ;;
     bind (virtusb_backend_fetch (Some h) (Some f) (Some zero_fetch) (fl_nonblock fv) (ie_sleeps env)) k) s0 =
    bind (virtusb_backend_fetch (Some c) (Some f) (Some zero_fetch) (fl_nonblock fv0) (ie_sleeps env)) k s0).
  { intros A k s0 v0 fv0 H1 H2 H3. unfold bind at 1. rewrite (control_hcd_eq s0 c v0 H1 H2).
    unfold bind at 1, load at 1. by rewrite H3. }
  exists fv'. split; [done | ]. split; [done | ].
  destruct Hcase as [E|(x & Hx & Hnb)].
  - left. exists (- ERESTARTSYS). split; [done | ]. rewrite (Hstart _ _ s v fv) by done. unfold bind. by rewrite E.
  - right. destruct (Hnb (fl_nonblock fv')) as [Es Efetch].
    { intros ->. congruence. }
    split.
    + intros c2 v2 h2 s2 Ec2 Hv2 Hh2. assert (c2 = c) as -> by congruence.
      assert (h2 = c) as -> by congruence. rewrite Es. destruct x as [x ?]. intros [= -> _]. by apply Hx.
    + rewrite (fetch_ioctl_eq s' f fv' us env Hn Hm' Hf'), Hc'. unfold virtusb_control_transfer_fetch. rewrite Hoom.
      rewrite (Hstart _ _ s v fv), (Hstart _ _ s' v' fv') by done. unfold bind. by rewrite (Efetch (ie_sleeps env)).
Qed.
(** What a fetch can return. *)
Lemma fetch_ioctl_reply s f fv us env r w s2 : NoDup (commands enc) -> module_ok s -> typed s ->
  k_files s !! f = Some fv -> f ∈ F -> sleeps_ok enc F (ie_sleeps env) ->
  virtusb_control_ioctl enc f (VIRTUSB_IOCTL_TRANSFER_FETCH enc) us env s = Some ((r, w), s2) ->
  (r < 0 /\ w = None) \/
  (r = 0 /\ exists tv ov, transfer_wf tv /\ tr_requested_length tv <= VIRTUSB_TRANSFER_DATA_MAX /\
     w = Some (ReplyFetch (fetch_view tv ov))).
Proof.
  intros Hn Hm Ht Hf HfF Hsl E.
  destruct (ioctl_fetch_blocks s f fv us env Hn Hm Ht Hf HfF Hsl) as (s1 & fv1 & Hr & Hf1 & Hcase).
  destruct Hcase as [(r' & Hneg & E')|[Hnow E']]; rewrite E' in E; [injection E as <- <- <-; by left | ].
  pose proof (module_reach_ok _ _ _ (proj1 Hr) Hm) as Hm1.
  destruct (fetch_ioctl_fails s1 f fv1 us env Hn Hm1 Hf1 Hnow) as [(c & v & i & rq & Hc & Hv & Hoom & Hnext)|(r' & Hneg & E1)];
    [ | rewrite E1 in E; injection E as <- <- <-; by left].
  destruct (fetch_ioctl_next s1 Hm1 f fv1 Hf1 c Hc v Hv Hn env Hoom i rq Hnext us) as (tv & ov & _ & _ & Hwf & Hl & H).
  destruct (us_copy_out us).
  - destruct H as [E1 _]. rewrite E1 in E. injection E as <- <- <-. right. split; [done | ]. by exists tv, ov.
  - destruct H as (s3 & E1 & _). rewrite E1 in E. injection E as <- <- <-. by left.
Qed.

(** Every ioctl returns, and its effect is a run of the module. *)
Lemma ioctl_returns s f fv command us env : NoDup (commands enc) -> module_ok s -> typed s ->
  k_files s !! f = Some fv -> user_wf us -> ioctl_env_wf s env ->
  (command = VIRTUSB_IOCTL_TRANSFER_FETCH enc -> fetch_at_once s f fv \/ (f ∈ F /\ sleeps_ok enc F (ie_sleeps env))) ->
  exists r w s', virtusb_control_ioctl enc f command us env s = Some ((r, w), s') /\ file_reach enc F s s'.
Proof.
  intros Hn Hm Ht Hf Hus Henv Hfetch.
  assert (Hnow : forall s0 fv0 env0, module_ok s0 -> typed s0 -> k_files s0 !! f = Some fv0 -> ioctl_env_wf s0 env0 ->
    command <> VIRTUSB_IOCTL_TRANSFER_FETCH enc \/ fetch_at_once s0 f fv0 ->
    exists r w s', virtusb_control_ioctl enc f command us env0 s0 = Some ((r, w), s') /\ file_reach enc F s0 s').
  { intros s0 fv0 env0 Hm0 Ht0 Hf0 Henv0 Hnb. pose proof (ioctl_keeps s0 Hm0 f fv0 Hf0 enc command us env0 Hus Henv0 Hnb) as Hk.
    unfold keeps, wp in Hk. destruct (virtusb_control_ioctl enc f command us env0 s0) as [[[r w] s']|] eqn:E; [ | done].
    exists r, w, s'. split; [done | ]. by eapply (ioctl_step s0 f fv0 command us env0). }
  destruct (decide (command = VIRTUSB_IOCTL_TRANSFER_FETCH enc)) as [->|Hne]; [ | by apply (Hnow s fv); try left].
  destruct (Hfetch eq_refl) as [Hnb|[HfF Hsl]]; [by apply (Hnow s fv); try right | ].
  destruct (ioctl_fetch_blocks s f fv us env Hn Hm Ht Hf HfF Hsl) as (s1 & fv1 & Hr & Hf1 & Hcase).
  destruct Hcase as [(r & _ & E)|[Hnb ->]]; [by exists r, None, s1 | ].
  pose proof (module_reach_ok _ _ _ (proj1 Hr) Hm) as Hm1.
  pose proof (cf_typed _ _ _ _ (module_reach_stays enc s s1 (proj1 Hr) Ht)) as Ht1.
  set (env1 := mk_ioctl_env None (ie_xa_oom env) (ie_oom env) (ie_sleeps env)).
  replace (virtusb_control_ioctl enc f (VIRTUSB_IOCTL_TRANSFER_FETCH enc) us env s1)
    with (virtusb_control_ioctl enc f (VIRTUSB_IOCTL_TRANSFER_FETCH enc) us env1 s1)
    by (by rewrite !(fetch_ioctl_eq s1 f fv1)).
  destruct (Hnow s1 fv1 env1 Hm1 Ht1 Hf1 ltac:(done) ltac:(by right)) as (r & w & s' & E & Hr').
  exists r, w, s'. split; [done | by etrans].
Qed.
End blocking.
