(* ===== verification/Linux.v ===== *)
(** * The module within Linux

    The state that load and unload of the module work on, the functions of Linux
    that they call, and what the module relies on.

    The functions are not part of the sources.  [LinuxCore] is the class of these
    functions, so the definitions of [Platform] work with any of them, and
    [LinuxLaws] states their documented behaviour.  A function takes the callbacks
    of the module that it may run and, last, what is up to Linux in this call:
    the address of new memory, the device number, 0 or an error. *)

From S2P Require Import Prelude Uapi Kernel Port Hub Object Device Transfer Backend Hcd.

(** ** State *)

(** struct platform_device; [pd_bound] is the result of its probe. *)
Record platform_device := mk_pdev {
  pd_id : Z;
  pd_platdata : option Z;
  pd_drvdata : option hcd_ptr;
  pd_bound : bool;
}.
Definition set_pd_platdata x (p : platform_device) : platform_device :=
  mk_pdev (pd_id p) x (pd_drvdata p) (pd_bound p).
Definition set_pd_drvdata x (p : platform_device) : platform_device :=
  mk_pdev (pd_id p) (pd_platdata p) x (pd_bound p).
Definition set_pd_bound x (p : platform_device) : platform_device :=
  mk_pdev (pd_id p) (pd_platdata p) (pd_drvdata p) x.

(** What Linux holds for the module. *)
Record linux_side := mk_linux {
  lx_chrdev : option (Z * Z);         (* first device number and size of the region *)
  lx_class : bool;
  lx_cdevs : gset Z;                  (* cdev_add *)
  lx_nodes : gset Z;                  (* device_create *)
  lx_hcds : gset hcd_ptr;             (* usb_add_hcd *)
  lx_driver : bool;                   (* platform_driver_register *)
  lx_pdevs : gmap pdev_ptr platform_device;
}.
Definition set_chrdev x (l : linux_side) : linux_side :=
  mk_linux x (lx_class l) (lx_cdevs l) (lx_nodes l) (lx_hcds l) (lx_driver l) (lx_pdevs l).
Definition set_class x (l : linux_side) : linux_side :=
  mk_linux (lx_chrdev l) x (lx_cdevs l) (lx_nodes l) (lx_hcds l) (lx_driver l) (lx_pdevs l).
Definition set_cdevs x (l : linux_side) : linux_side :=
  mk_linux (lx_chrdev l) (lx_class l) x (lx_nodes l) (lx_hcds l) (lx_driver l) (lx_pdevs l).
Definition set_nodes x (l : linux_side) : linux_side :=
  mk_linux (lx_chrdev l) (lx_class l) (lx_cdevs l) x (lx_hcds l) (lx_driver l) (lx_pdevs l).
Definition set_added x (l : linux_side) : linux_side :=
  mk_linux (lx_chrdev l) (lx_class l) (lx_cdevs l) (lx_nodes l) x (lx_driver l) (lx_pdevs l).
Definition set_driver x (l : linux_side) : linux_side :=
  mk_linux (lx_chrdev l) (lx_class l) (lx_cdevs l) (lx_nodes l) (lx_hcds l) x (lx_pdevs l).
Definition set_pdevs x (l : linux_side) : linux_side :=
  mk_linux (lx_chrdev l) (lx_class l) (lx_cdevs l) (lx_nodes l) (lx_hcds l) (lx_driver l) x.

(** The static variables of virtusb_control.c and virtusb_module.c. *)
Record statics := mk_statics {
  st_class : bool;                    (* virtusb_control_class is not NULL *)
  st_base_devt : Z;
  st_instance_count : Z;
  st_hcd_devices : option (list (option pdev_ptr));
  st_created_count : Z;
}.
Definition set_control_class x (t : statics) : statics :=
  mk_statics x (st_base_devt t) (st_instance_count t) (st_hcd_devices t) (st_created_count t).
Definition set_base_devt x (t : statics) : statics :=
  mk_statics (st_class t) x (st_instance_count t) (st_hcd_devices t) (st_created_count t).
Definition set_instance_count x (t : statics) : statics :=
  mk_statics (st_class t) (st_base_devt t) x (st_hcd_devices t) (st_created_count t).
Definition set_hcd_devices x (t : statics) : statics :=
  mk_statics (st_class t) (st_base_devt t) (st_instance_count t) x (st_created_count t).
Definition set_created_count x (t : statics) : statics :=
  mk_statics (st_class t) (st_base_devt t) (st_instance_count t) (st_hcd_devices t) x.

Record system := mk_system {
  sy_kernel : kernel;
  sy_statics : statics;
  sy_linux : linux_side;
}.
Definition Sys (A : Type) : Type := M system A.
Definition set_kernel k (s : system) : system := mk_system k (sy_statics s) (sy_linux s).
Definition set_statics t (s : system) : system := mk_system (sy_kernel s) t (sy_linux s).
Definition set_linux l (s : system) : system := mk_system (sy_kernel s) (sy_statics s) l.

(** A function of the module proper, run inside the system. *)
Definition lift {A} (m : K A) : Sys A :=
  fun s => match m (sy_kernel s) with
           | Some (a, k) => Some (a, set_kernel k s)
           | None => None
           end.
Lemma lift_eq {A} (m : K A) k t l a k' : m k = Some (a, k') ->
  lift m (mk_system k t l) = Some (a, mk_system k' t l).
Proof. intros E. unfold lift. cbn. by rewrite E. Qed.

Definition modify_statics (f : statics -> statics) : Sys unit :=
  modify (fun s => set_statics (f (sy_statics s)) s).
Definition modify_linux (f : linux_side -> linux_side) : Sys unit :=
  modify (fun s => set_linux (f (sy_linux s)) s).

Definition sy_pdevs (s : system) : gmap pdev_ptr platform_device := lx_pdevs (sy_linux s).
Definition sy_set_pdevs m (s : system) : system := set_linux (set_pdevs m (sy_linux s)) s.
Abbreviation load_pdev := (load sy_pdevs).
Abbreviation store_pdev := (store sy_pdevs sy_set_pdevs).
Definition update_pdev (p : pdev_ptr) (f : platform_device -> platform_device) : Sys unit :=
  pd <- load_pdev p ;; store_pdev p (f pd).

(** ** Callbacks *)

(** struct hc_driver. *)
Record hc_driver := mk_hc_driver {
  hd_start : hcd_ptr -> K Z;
  hd_stop : hcd_ptr -> K unit;
  hd_urb_enqueue : option hcd_ptr -> option urb_ptr -> enqueue_env -> K Z;
  hd_urb_dequeue : option hcd_ptr -> option urb_ptr -> Z -> Z -> K Z;
  hd_hub_status_data : hcd_ptr -> list Z -> K (Z * list Z);
  hd_hub_control : hcd_ptr -> Z -> Z -> Z -> list Z -> Z -> K (Z * list Z);
}.

(** The macros of include/linux/kdev_t.h. *)
Record devt_macros := {
  MKDEV : Z -> Z -> Z;
  MAJOR : Z -> Z;
  MINOR : Z -> Z;
}.

(** ** Effects of Linux functions on the state *)

(** A new [struct usb_hcd] is zeroed, with the private data of the driver: the
    [virtusb_hcd] with its root hub and ports. *)
Definition zero_control : virtusb_control := mk_control None 0 false false.
Definition zero_hcd : virtusb_hcd := mk_hcd 0 None (mk_backend [] [] [] false) zero_control.
Definition with_zero_hcd (h : hcd_ptr) (k : kernel) : kernel :=
  set_ports (write_ports h (fun _ => zero_port) 31 0 (k_ports k))
    (set_hubs (<[h := zero_hub]> (k_hubs k))
      (set_hcds (<[h := zero_hcd]> (k_hcds k))
        (set_usb_hcds (<[h := mk_usb_hcd None false]> (k_usb_hcds k)) k))).

Definition foreign_port (h : hcd_ptr) (p : port_ptr) : Prop :=
  match p with HubPort h' _ => h' <> h | DevPort _ => True end.
#[export] Instance foreign_port_dec h p : Decision (foreign_port h p).
Proof. destruct p; apply _. Defined.
Definition ports_without (h : hcd_ptr) (m : gmap port_ptr virtusb_port) :
    gmap port_ptr virtusb_port := filter (fun x => foreign_port h x.1) m.
Definition without_hcd (h : hcd_ptr) (k : kernel) : kernel :=
  set_ports (ports_without h (k_ports k))
    (set_hubs (delete h (k_hubs k))
      (set_hcds (delete h (k_hcds k)) (set_usb_hcds (delete h (k_usb_hcds k)) k))).

(** An HCD has one address in all maps that hold a part of it. *)
Definition fresh_hcd (h : hcd_ptr) (k : kernel) : Prop :=
  k_hcds k !! h = None /\ k_hubs k !! h = None /\ k_usb_hcds k !! h = None.
Definition live_hcd (h : hcd_ptr) (k : kernel) : Prop :=
  is_Some (k_hcds k !! h) /\ is_Some (k_hubs k !! h) /\ is_Some (k_usb_hcds k !! h).

Definition set_uh_root_hub r (u : usb_hcd) : usb_hcd := mk_usb_hcd r (uh_has_tt u).
Definition with_root_hub (h : hcd_ptr) (r : option usbdev_ptr) (u : usb_hcd) (k : kernel) : kernel :=
  set_usb_hcds (<[h := set_uh_root_hub r u]> (k_usb_hcds k)) k.

Definition on_linux (f : linux_side -> linux_side) (s : system) : system := set_linux (f (sy_linux s)) s.
Definition put_pdev (p : pdev_ptr) (pd : platform_device) (s : system) : system :=
  on_linux (fun l => set_pdevs (<[p := pd]> (lx_pdevs l)) l) s.
Definition drop_pdev (p : pdev_ptr) (s : system) : system :=
  on_linux (fun l => set_pdevs (delete p (lx_pdevs l)) l) s.

(** ** The functions *)

Class LinuxCore := {
  (* drivers/usb/core/hcd.c; the driver is a field of the HCD in C *)
  usb_create_hcd : hc_driver -> option hcd_ptr -> K (option hcd_ptr);
  usb_add_hcd : hc_driver -> hcd_ptr -> usbdev_ptr -> Z -> Sys Z;
  usb_remove_hcd : hc_driver -> hcd_ptr -> Sys unit;
  usb_put_hcd : hcd_ptr -> K unit;
  (* drivers/base/platform.c *)
  platform_device_alloc : Z -> option pdev_ptr -> Sys (option pdev_ptr);
  platform_device_add_data : pdev_ptr -> Z -> Z -> Sys Z;
  platform_device_add : (pdev_ptr -> Sys Z) -> pdev_ptr -> Z -> Sys Z;
  platform_device_put : pdev_ptr -> Sys unit;
  platform_device_unregister : (pdev_ptr -> Sys unit) -> pdev_ptr -> Sys unit;
  platform_driver_register : Z -> Sys Z;
  platform_driver_unregister : (pdev_ptr -> Sys unit) -> Sys unit;
  (* fs/char_dev.c *)
  alloc_chrdev_region : Z -> Z -> Z -> Sys (result Z);
  unregister_chrdev_region : Z -> Z -> Sys unit;
  cdev_add : Z -> Z -> Sys Z;
  cdev_del : Z -> Sys unit;
  (* drivers/base/class.c, core.c *)
  class_create : Z -> Sys (result unit);
  class_destroy : Sys unit;
  device_create : Z -> Z -> Sys (result unit);
  device_destroy : Z -> Sys unit;
}.

(** ** What the module relies on *)

(** The USB core runs a driver on an HCD only through its callbacks, with buffers
    of the documented size: at least [USB_DT_HUB_NONVAR_SIZE] and the bitmaps for
    a descriptor, and the interrupt buffer of a hub for its status.  So it keeps
    every property that the callbacks keep, wherever it calls them.  The root hub
    is its own: no callback changes the [struct usb_hcd]. *)
Definition callback_keeps {A} (P : kernel -> Prop) (m : K A) : Prop :=
  forall k, P k -> exists a k', m k = Some (a, k') /\ P k' /\ k_usb_hcds k' = k_usb_hcds k.
Record driver_keeps (D : hc_driver) (h : hcd_ptr) (P : kernel -> Prop) : Prop := {
  dk_live : forall k, P k -> live_hcd h k;
  dk_start : forall k, P k ->
    exists k', hd_start D h k = Some (0, k') /\ P k' /\ k_usb_hcds k' = k_usb_hcds k;
  dk_stop : callback_keeps P (hd_stop D h);
  dk_status : forall buf, (4 <= length buf)%nat -> callback_keeps P (hd_hub_status_data D h buf);
  dk_control : forall type_req value index buf len, (15 <= length buf)%nat ->
    callback_keeps P (hd_hub_control D h type_req value index buf len);
  dk_root_hub : forall k u r, P k -> k_usb_hcds k !! h = Some u -> P (with_root_hub h r u k);
}.

Class LinuxLaws (X : LinuxCore) : Prop := {
  create_hcd_oom : forall D k, usb_create_hcd D None k = Some (None, k);
  create_hcd_zero : forall D h k, fresh_hcd h k ->
    usb_create_hcd D (Some h) k = Some (Some h, with_zero_hcd h k);
  put_hcd_free : forall h k, live_hcd h k -> usb_put_hcd h k = Some (tt, without_hcd h k);
  (* starts the HCD and makes its root hub; a failure leaves no root hub *)
  add_hcd_run : forall D h P root r k t l, driver_keeps D h P -> P k -> h ∉ lx_hcds l ->
    exists k' u, P k' /\ k_usb_hcds k' !! h = Some u /\
      uh_root_hub u = (if r <? 0 then None else Some root) /\
      usb_add_hcd D h root r (mk_system k t l) =
        Some (if r <? 0 then r else 0,
              mk_system k' t (if r <? 0 then l else set_added ({[h]} ∪ lx_hcds l) l));
  remove_hcd_run : forall D h P k t l, driver_keeps D h P -> P k -> h ∈ lx_hcds l ->
    exists k' u, P k' /\ k_usb_hcds k' !! h = Some u /\ uh_root_hub u = None /\
      usb_remove_hcd D h (mk_system k t l) =
        Some (tt, mk_system k' t (set_added (lx_hcds l ∖ {[h]}) l));

  pdev_alloc_oom : forall id s, platform_device_alloc id None s = Some (None, s);
  pdev_alloc_new : forall id p s, sy_pdevs s !! p = None ->
    platform_device_alloc id (Some p) s = Some (Some p, put_pdev p (mk_pdev id None None false) s);
  pdev_add_data : forall p n r s pd, sy_pdevs s !! p = Some pd ->
    platform_device_add_data p n r s =
      Some (if r <? 0 then r else 0, if r <? 0 then s else put_pdev p (set_pd_platdata (Some n) pd) s);
  pdev_add_error : forall probe p r s, r < 0 -> platform_device_add probe p r s = Some (r, s);
  (* a failed probe leaves the device registered and unbound *)
  pdev_add_probe : forall probe p r s a s' pd, 0 <= r -> lx_driver (sy_linux s) = true ->
    probe p s = Some (a, s') -> sy_pdevs s' !! p = Some pd ->
    platform_device_add probe p r s = Some (0, put_pdev p (set_pd_bound (a =? 0) pd) s');
  pdev_put : forall p s pd, sy_pdevs s !! p = Some pd -> pd_bound pd = false ->
    platform_device_put p s = Some (tt, drop_pdev p s);
  pdev_unregister_unbound : forall remove p s pd, sy_pdevs s !! p = Some pd -> pd_bound pd = false ->
    platform_device_unregister remove p s = Some (tt, drop_pdev p s);
  pdev_unregister_bound : forall remove p s pd s', sy_pdevs s !! p = Some pd -> pd_bound pd = true ->
    remove p s = Some (tt, s') -> is_Some (sy_pdevs s' !! p) ->
    platform_device_unregister remove p s = Some (tt, drop_pdev p s');
  driver_register : forall r s, sy_pdevs s = ∅ ->
    platform_driver_register r s = Some (if r <? 0 then r else 0, if r <? 0 then s else on_linux (set_driver true) s);
  driver_unregister : forall remove s,
    (forall p pd, sy_pdevs s !! p = Some pd -> pd_bound pd = false) ->
    platform_driver_unregister remove s = Some (tt, on_linux (set_driver false) s);

  chrdev_alloc : forall count base r s, lx_chrdev (sy_linux s) = None ->
    alloc_chrdev_region count base r s =
      Some (if r <? 0 then Err r else Ok base, if r <? 0 then s else on_linux (set_chrdev (Some (base, count))) s);
  chrdev_unregister : forall base count s, lx_chrdev (sy_linux s) = Some (base, count) ->
    unregister_chrdev_region base count s = Some (tt, on_linux (set_chrdev None) s);
  cdev_add_run : forall devt r s, devt ∉ lx_cdevs (sy_linux s) ->
    cdev_add devt r s =
      Some (if r <? 0 then r else 0,
            if r <? 0 then s else on_linux (fun l => set_cdevs ({[devt]} ∪ lx_cdevs l) l) s);
  cdev_del_run : forall devt s, devt ∈ lx_cdevs (sy_linux s) ->
    cdev_del devt s = Some (tt, on_linux (fun l => set_cdevs (lx_cdevs l ∖ {[devt]}) l) s);
  class_create_run : forall r s, lx_class (sy_linux s) = false ->
    class_create r s = Some (if r <? 0 then Err r else Ok tt, if r <? 0 then s else on_linux (set_class true) s);
  class_destroy_run : forall s, lx_class (sy_linux s) = true ->
    class_destroy s = Some (tt, on_linux (set_class false) s);
  device_create_run : forall devt r s, devt ∉ lx_nodes (sy_linux s) ->
    device_create devt r s =
      Some (if r <? 0 then Err r else Ok tt,
            if r <? 0 then s else on_linux (fun l => set_nodes ({[devt]} ∪ lx_nodes l) l) s);
  device_destroy_run : forall devt s, devt ∈ lx_nodes (sy_linux s) ->
    device_destroy devt s = Some (tt, on_linux (fun l => set_nodes (lx_nodes l ∖ {[devt]}) l) s);
}.
