(* ===== verification/Platform.v ===== *)
(** * The life cycle of the module

    The platform driver (kernel/src/virtusb_hcd.c: probe, remove, creation and
    destruction of host controllers), the registration of the control plane
    (kernel/src/virtusb_control.c) and module init and exit
    (kernel/src/virtusb_module.c).

    Linux is a parameter (the class of [Linux]); an [env] argument holds what is
    up to Linux in a call, such as the address of new memory or an error. *)

From S2P Require Import Prelude Uapi Kernel Port Hub Object Device Transfer Backend Hcd Control Linux.

Section platform.
Context {X : LinuxCore} (L : devt_macros).

(** What is up to Linux in one probe. *)
Record probe_env := mk_probe_env {
  pe_memory : option hcd_ptr;           (* usb_create_hcd *)
  pe_root_hub : usbdev_ptr;             (* the root hub's usb_device *)
  pe_add : Z;                           (* usb_add_hcd *)
  pe_cdev_add : Z;
  pe_device_create : Z;                 (* 0, or the error in the pointer *)
}.

(** ** The control plane of the module and of one HCD (virtusb_control.c) *)

(** What alloc_chrdev_region and class_create return: the first device number
    and 0, or a negative error. *)
Record control_env := mk_control_env {
  ce_alloc_chrdev : Z;
  ce_base : Z;
  ce_class : Z;
}.

Definition virtusb_control_register (instance_count : Z) (env : control_env) : Sys Z :=
  t <- gets sy_statics ;;
  if instance_count =? 0 then ret (- EINVAL)
  else if st_class t then ret (- EBUSY)
  else
    region <- alloc_chrdev_region instance_count (ce_base env) (ce_alloc_chrdev env) ;;
    match region with
    | Err r => ret r
    | Ok base =>
        modify_statics (set_base_devt base) ;;
        class <- class_create (ce_class env) ;;
        match class with
        | Err r =>
            modify_statics (set_control_class false) ;;
            unregister_chrdev_region base instance_count ;;
            modify_statics (set_base_devt 0) ;;
            ret r
        | Ok _ =>
            modify_statics (set_control_class true) ;;
            modify_statics (set_instance_count instance_count) ;;
            ret 0
        end
    end.

Definition virtusb_control_unregister : Sys unit :=
  t <- gets sy_statics ;;
  if negb (st_class t) then ret tt
  else
    class_destroy ;;
    modify_statics (set_control_class false) ;;
    unregister_chrdev_region (st_base_devt t) (st_instance_count t) ;;
    modify_statics (set_base_devt 0) ;;
    modify_statics (set_instance_count 0).

Definition update_control (c : hcd_ptr) (f : virtusb_control -> virtusb_control) : Sys unit :=
  lift (v <- load_hcd c ;; store_hcd c (set_control (f (vh_control v)) v)).
Definition set_ct_hcd x (c : virtusb_control) : virtusb_control :=
  mk_control x (ct_devt c) (ct_device c) (ct_active c).
Definition set_ct_devt x (c : virtusb_control) : virtusb_control :=
  mk_control (ct_hcd c) x (ct_device c) (ct_active c).
Definition set_ct_device x (c : virtusb_control) : virtusb_control :=
  mk_control (ct_hcd c) (ct_devt c) x (ct_active c).
Definition set_ct_active x (c : virtusb_control) : virtusb_control :=
  mk_control (ct_hcd c) (ct_devt c) (ct_device c) x.

(** The label [clear_control]. *)
Definition clear_control (c : hcd_ptr) (r : Z) : Sys Z :=
  update_control c (set_ct_hcd None) ;;
  update_control c (set_ct_devt 0) ;;
  ret r.

Definition virtusb_control_instance_create (control hcd : option hcd_ptr)
    (parent : option pdev_ptr) (instance : Z) (env : probe_env) : Sys Z :=
  match control, hcd, parent with
  | Some c, Some h, Some _ =>
      t <- gets sy_statics ;;
      if negb (st_class t) then ret (- ENODEV)
      else if st_instance_count t <=? instance then ret (- EINVAL)
      else
        update_control c (fun _ => zero_control) ;;
        update_control c (set_ct_hcd (Some h)) ;;
        let devt := MKDEV L (MAJOR L (st_base_devt t)) (u32 (MINOR L (st_base_devt t) + instance)) in
        update_control c (set_ct_devt devt) ;;
        r <- cdev_add devt (pe_cdev_add env) ;;
        if r <? 0 then clear_control c r
        else
          device <- device_create devt (pe_device_create env) ;;
          match device with
          | Err r =>
              update_control c (set_ct_device false) ;;
              cdev_del devt ;;
              clear_control c r
          | Ok _ =>
              update_control c (set_ct_device true) ;;
              update_control c (set_ct_active true) ;;
              ret 0
          end
  | _, _, _ => ret (- EINVAL)
  end.

Definition virtusb_control_instance_destroy (control : option hcd_ptr) : Sys unit :=
  match control with
  | None => ret tt
  | Some c =>
      cv <- lift (load_control c) ;;
      if negb (ct_active cv) then ret tt
      else
        update_control c (set_ct_active false) ;;
        device_destroy (ct_devt cv) ;;
        update_control c (set_ct_device false) ;;
        cdev_del (ct_devt cv) ;;
        update_control c (set_ct_hcd None) ;;
        update_control c (set_ct_devt 0)
  end.

(** ** The platform driver (virtusb_hcd.c) *)

Definition virtusb_hc_driver : hc_driver := {|
  hd_start := virtusb_hcd_start;
  hd_stop := virtusb_hcd_stop;
  hd_urb_enqueue := virtusb_hcd_urb_enqueue;
  hd_urb_dequeue := virtusb_hcd_urb_dequeue;
  hd_hub_status_data := virtusb_hcd_hub_status_data;
  hd_hub_control := virtusb_hcd_hub_control;
|}.

(** The labels [put_hcd] and [clear_drvdata] of the probe. *)
Definition put_hcd (h : hcd_ptr) (r : Z) : Sys Z := lift (usb_put_hcd h) ;; ret r.
Definition clear_drvdata (pdev : pdev_ptr) (h : hcd_ptr) (r : Z) : Sys Z :=
  update_pdev pdev (set_pd_drvdata None) ;; put_hcd h r.

Definition virtusb_hcd_platform_probe (env : probe_env) (pdev : pdev_ptr) : Sys Z :=
  pd <- load_pdev pdev ;;
  match pd_platdata pd with
  | None => ret (- EINVAL)
  | Some port_count =>
      if (port_count =? 0) || (VIRTUSB_MAX_HUB_PORTS <? port_count) then ret (- EINVAL)
      else
        hcd <- lift (usb_create_hcd virtusb_hc_driver (pe_memory env)) ;;
        match hcd with
        | None => ret (- ENOMEM)
        | Some h =>
            lift (v <- load_hcd h ;;
                  store_hcd h (mk_hcd (u32 (pd_id pd)) (Some h) (vh_backend v) (vh_control v)) ;;
                  u <- load_usb_hcd h ;;
                  store_usb_hcd h (mk_usb_hcd (uh_root_hub u) true) ;;
                  virtusb_backend_init h) ;;
            r <- lift (virtusb_root_hub_init (Some h) port_count) ;;
            if r <? 0 then put_hcd h r
            else
              update_pdev pdev (set_pd_drvdata (Some h)) ;;
              r <- usb_add_hcd virtusb_hc_driver h (pe_root_hub env) (pe_add env) ;;
              if r <? 0 then clear_drvdata pdev h r
              else
                lift (virtusb_hub_set_status_changed_callback (Some h)
                        (Some VIRTUSB_HCD_ROOT_HUB_STATUS_CHANGED) (Some h) ;;
                      emit (EvPollRhStatus h)) ;;
                v <- lift (load_hcd h) ;;
                r <- virtusb_control_instance_create (Some h) (Some h) (Some pdev) (vh_instance v) env ;;
                if r <? 0 then
                  usb_remove_hcd virtusb_hc_driver h ;; clear_drvdata pdev h r
                else ret 0
        end
  end.

Definition virtusb_hcd_platform_remove (pdev : pdev_ptr) : Sys unit :=
  pd <- load_pdev pdev ;;
  match pd_drvdata pd with
  | None => ret tt
  | Some h =>
      virtusb_control_instance_destroy (Some h) ;;
      lift (virtusb_hub_set_status_changed_callback (Some h) None None ;;
            virtusb_backend_stop (Some h) (Some h)) ;;
      usb_remove_hcd virtusb_hc_driver h ;;
      update_pdev pdev (set_pd_drvdata None) ;;
      lift (usb_put_hcd h)
  end.

(** What is up to Linux while an instance is created. *)
Record create_env := mk_create_env {
  cr_memory : option pdev_ptr;          (* platform_device_alloc *)
  cr_add_data : Z;                      (* platform_device_add_data *)
  cr_add : Z;                           (* platform_device_add *)
  cr_probe : probe_env;
}.

Definition s32 (x : Z) : Z := (x + 2 ^ 31) mod 2 ^ 32 - 2 ^ 31.

(** *** Creation and destruction of host controllers *)

Definition virtusb_hcd_driver_register (r : Z) : Sys Z := platform_driver_register r.
Definition virtusb_hcd_driver_unregister : Sys unit :=
  platform_driver_unregister virtusb_hcd_platform_remove.

(** The label [put_device]. *)
Definition put_device (p : pdev_ptr) (r : Z) : Sys (result pdev_ptr) :=
  platform_device_put p ;; ret (Err r).

Definition virtusb_hcd_create (instance port_count : Z) (env : create_env) : Sys (result pdev_ptr) :=
  if (port_count =? 0) || (VIRTUSB_MAX_HUB_PORTS <? port_count) then ret (Err (- EINVAL))
  else
    pdev <- platform_device_alloc (s32 instance) (cr_memory env) ;;
    match pdev with
    | None => ret (Err (- ENOMEM))
    | Some p =>
        r <- platform_device_add_data p port_count (cr_add_data env) ;;
        if r <? 0 then put_device p r
        else
          r <- platform_device_add (virtusb_hcd_platform_probe (cr_probe env)) p (cr_add env) ;;
          if r <? 0 then put_device p r
          else
            pd <- load_pdev p ;;
            match pd_drvdata pd with
            | None => platform_device_unregister virtusb_hcd_platform_remove p ;; ret (Err (- ENODEV))
            | Some _ => ret (Ok p)
            end
    end.

Definition virtusb_hcd_destroy (pdev : option pdev_ptr) : Sys unit :=
  match pdev with
  | None => ret tt
  | Some p => platform_device_unregister virtusb_hcd_platform_remove p
  end.

(** ** The module (virtusb_module.c) *)

Definition VIRTUSB_DEFAULT_HCD_COUNT : Z := 1.
Definition VIRTUSB_MAX_HCD_COUNT : Z := 31.
Definition VIRTUSB_ROOT_HUB_PORTS : Z := 31.

(** Reading and writing [virtusb_hcd_devices[i]]. *)
Definition read_hcd_device (i : Z) : Sys (option pdev_ptr) :=
  t <- gets sy_statics ;;
  match st_hcd_devices t with
  | Some l => match l !! Z.to_nat i with Some p => ret p | None => stuck end
  | None => stuck
  end.
Definition write_hcd_device (i : Z) (p : option pdev_ptr) : Sys unit :=
  t <- gets sy_statics ;;
  match st_hcd_devices t with
  | Some l =>
      if i <? Z.of_nat (length l) then
        modify_statics (set_hcd_devices (Some (<[Z.to_nat i := p]> l)))
      else stuck
  | None => stuck
  end.

Fixpoint module_destroy_loop (fuel : nat) : Sys unit :=
  match fuel with
  | O => stuck
  | Datatypes.S fuel =>
      t <- gets sy_statics ;;
      if st_created_count t <=? 0 then ret tt
      else
        modify_statics (set_created_count (st_created_count t - 1)) ;;
        p <- read_hcd_device (st_created_count t - 1) ;;
        virtusb_hcd_destroy p ;;
        write_hcd_device (st_created_count t - 1) None ;;
        module_destroy_loop fuel
  end.
Definition virtusb_module_destroy_hcds : Sys unit :=
  t <- gets sy_statics ;;
  module_destroy_loop (Datatypes.S (Z.to_nat (st_created_count t))).

(** What the kernel does during the load of the module. *)
Record init_env := mk_init_env {
  in_devices_oom : bool;                          (* kcalloc of the array *)
  in_control : control_env;
  in_driver_register : Z;
  in_create : Z -> create_env;                    (* per instance *)
}.

(** The labels [free_hcd_devices] and [exit_object_manager]. *)
Definition exit_object_manager (r : Z) : Sys Z := lift virtusb_object_manager_exit ;; ret r.
Definition free_hcd_devices (r : Z) : Sys Z :=
  modify_statics (set_hcd_devices None) ;; exit_object_manager r.
Definition unregister_control (r : Z) : Sys Z := virtusb_control_unregister ;; free_hcd_devices r.

(** The loop over the instances; the result is that of the failed creation. *)
Fixpoint create_hcds (n : nat) (instance : Z) (env : init_env) : Sys Z :=
  match n with
  | O => ret 0
  | Datatypes.S n =>
      p <- virtusb_hcd_create instance VIRTUSB_ROOT_HUB_PORTS (in_create env instance) ;;
      match p with
      | Err r => write_hcd_device instance None ;; ret r
      | Ok p =>
          write_hcd_device instance (Some p) ;;
          t <- gets sy_statics ;;
          modify_statics (set_created_count (u32 (st_created_count t + 1))) ;;
          create_hcds n (instance + 1) env
      end
  end.

Definition virtusb_module_init (hcd_count : Z) (env : init_env) : Sys Z :=
  if (hcd_count =? 0) || (VIRTUSB_MAX_HCD_COUNT <? hcd_count) then ret (- EINVAL)
  else
    lift virtusb_object_manager_init ;;
    if in_devices_oom env then exit_object_manager (- ENOMEM)
    else
      modify_statics (set_hcd_devices (Some (replicate (Z.to_nat hcd_count) None))) ;;
      r <- virtusb_control_register hcd_count (in_control env) ;;
      if r <? 0 then free_hcd_devices r
      else
        r <- virtusb_hcd_driver_register (in_driver_register env) ;;
        if r <? 0 then unregister_control r
        else
          r <- create_hcds (Z.to_nat hcd_count) 0 env ;;
          if r <? 0 then
            virtusb_module_destroy_hcds ;;
            virtusb_hcd_driver_unregister ;;
            unregister_control r
          else ret 0.

(** [fuel] bounds the rounds of [virtusb_device_shutdown_all]. *)
Definition virtusb_module_exit (fuel : nat) : Sys unit :=
  lift (virtusb_device_shutdown_all fuel) ;;
  virtusb_module_destroy_hcds ;;
  virtusb_hcd_driver_unregister ;;
  virtusb_control_unregister ;;
  modify_statics (set_hcd_devices None) ;;
  lift virtusb_object_manager_exit.
End platform.
