(* ===== verification/LifeSpec.v ===== *)
(** * Creating and removing one host controller

    How the module state changes while one HCD is built up, torn down or
    removed: everything else stays as it is, and a consistent module stays
    consistent. *)

From S2P Require Import Prelude Uapi Kernel Port Hub Object Device Transfer Backend BackendInv BackendOps Hcd HcdSpec UrbSpec Control ControlSpec ModuleSpec Config Linux Platform.

(** ** Changes at one HCD *)

(** The queues and bindings at an address; a missing HCD has none. *)
Definition load_of (s : kernel) (h : hcd_ptr) :
    list virtusb_backend_binding * list virtusb_hcd_request * list virtusb_hcd_request :=
  match k_hcds s !! h with
  | Some v => (be_bindings (vh_backend v), be_pending (vh_backend v), be_active (vh_backend v))
  | None => ([], [], [])
  end.

(** Only the HCD at [h], its hub and its ports change. *)
Record side_step (h : hcd_ptr) (s s' : kernel) : Prop := {
  sd_objects : k_objects s' = k_objects s;
  sd_registry : k_registry s' = k_registry s;
  sd_next_object_id : k_next_object_id s' = k_next_object_id s;
  sd_transfers : k_transfers s' = k_transfers s;
  sd_next_transfer_id : k_next_transfer_id s' = k_next_transfer_id s;
  sd_urbs : k_urbs s' = k_urbs s;
  sd_files : k_files s' = k_files s;
  sd_devices : forall d, k_ports s' !! DevPort d = k_ports s !! DevPort d;
  sd_hcds : delete h (k_hcds s') = delete h (k_hcds s);
  sd_hubs : dom (k_hubs s') ∖ {[h]} = dom (k_hubs s) ∖ {[h]};
  sd_usb_hcds : delete h (k_usb_hcds s') = delete h (k_usb_hcds s);
  sd_trace : exists l, k_trace s' = k_trace s ++ l /\ Forall is_notification l;
}.

#[export] Instance side_step_preorder h : PreOrder (side_step h).
Proof.
  split.
  - intros s. split; try done. exists []. by rewrite app_nil_r.
  - intros s1 s2 s3 [] []. split; try congruence.
    destruct sd_trace0 as (l1 & E1 & F1), sd_trace1 as (l2 & E2 & F2).
    exists (l1 ++ l2). rewrite E2, E1, <- app_assoc. split; [done | by apply Forall_app].
Qed.

Lemma bus_side_step h s s' : bus_step s s' -> side_step h s s'.
Proof.
  intros [_ Hd ? ? ? ? [] ?]. split; try done; congruence.
Qed.

Lemma hcd_lookup_ne h s s' x : side_step h s s' -> x <> h -> k_hcds s' !! x = k_hcds s !! x.
Proof.
  intros Hs Hx. pose proof (f_equal (fun m => m !! x) (sd_hcds _ _ _ Hs)) as E.
  by rewrite !lookup_delete_ne in E by done.
Qed.
Lemma usb_lookup_ne h s s' x : side_step h s s' -> x <> h -> k_usb_hcds s' !! x = k_usb_hcds s !! x.
Proof.
  intros Hs Hx. pose proof (f_equal (fun m => m !! x) (sd_usb_hcds _ _ _ Hs)) as E.
  by rewrite !lookup_delete_ne in E by done.
Qed.
Lemma hub_dom_ne h s s' x : side_step h s s' -> x <> h -> is_Some (k_hubs s !! x) ->
  is_Some (k_hubs s' !! x).
Proof.
  rewrite <- !elem_of_dom. intros Hs Hx Hi.
  assert (x ∈ dom (k_hubs s) ∖ {[h]}) as Hd
    by (apply elem_of_difference; by rewrite elem_of_singleton).
  rewrite <- (sd_hubs _ _ _ Hs), elem_of_difference in Hd. by destruct Hd.
Qed.

(** Sums over all HCDs only look at queues and bindings. *)
Lemma hcd_sum_at f h m :
  hcd_sum f m = hcd_sum f (delete h m) +
    match m !! h with Some v => f (vh_backend v) | None => 0 end.
Proof.
  destruct (m !! h) as [v|] eqn:E.
  - unfold hcd_sum. rewrite (map_sum_delete _ m h v E). lia.
  - rewrite delete_id by done. lia.
Qed.

Section side.
Context (h : hcd_ptr) (s s' : kernel) (Hs : side_step h s s').
Context (Hload : load_of s' h = load_of s h).

Lemma side_sum (f : virtusb_backend -> Z)
    (g : list virtusb_backend_binding * list virtusb_hcd_request * list virtusb_hcd_request -> Z) :
  (forall b, f b = g (be_bindings b, be_pending b, be_active b)) -> g ([], [], []) = 0 ->
  hcd_sum f (k_hcds s') = hcd_sum f (k_hcds s).
Proof.
  intros Hf H0. rewrite (hcd_sum_at f h (k_hcds s')), (hcd_sum_at f h (k_hcds s)), (sd_hcds _ _ _ Hs).
  f_equal. revert Hload. unfold load_of.
  destruct (k_hcds s' !! h), (k_hcds s !! h); rewrite ?Hf; intros E.
  - by rewrite E.
  - by rewrite E.
  - by rewrite <- E.
  - done.
Qed.

Lemma side_binding_refs o : binding_refs s' o = binding_refs s o.
Proof. by apply (side_sum _ (fun x => count (fun b => bd_device b = o) x.1.1)). Qed.
Lemma side_request_refs t : request_refs s' t = request_refs s t.
Proof. by apply (side_sum _ (fun x => count (fun r => rq_transfer r = t) (x.1.2 ++ x.2))). Qed.
Lemma side_urb_refs u : urb_refs s' u = urb_refs s u.
Proof. by apply (side_sum _ (fun x => count (fun r => rq_urb r = u) (x.1.2 ++ x.2))). Qed.

(** The queues of every HCD are those of before, or empty. *)
Lemma side_backend x v : k_hcds s' !! x = Some v ->
  (exists v0, k_hcds s !! x = Some v0 /\ be_bindings (vh_backend v) = be_bindings (vh_backend v0) /\
     be_pending (vh_backend v) = be_pending (vh_backend v0) /\
     be_active (vh_backend v) = be_active (vh_backend v0)) \/
  be_bindings (vh_backend v) = [] /\ be_pending (vh_backend v) = [] /\ be_active (vh_backend v) = [].
Proof.
  intros Hv. destruct (decide (x = h)) as [->|Hx].
  - revert Hload. unfold load_of. rewrite Hv. destruct (k_hcds s !! h) as [v0|].
    + intros [= ? ? ?]. left. by exists v0.
    + intros [= ? ? ?]. by right.
  - left. exists v. by rewrite <- (hcd_lookup_ne h s s' x).
Qed.

Lemma side_queue_ok v v0 : queue_ok s (vh_backend v0) ->
  be_bindings (vh_backend v) = be_bindings (vh_backend v0) ->
  be_pending (vh_backend v) = be_pending (vh_backend v0) ->
  be_active (vh_backend v) = be_active (vh_backend v0) -> queue_ok s' (vh_backend v).
Proof.
  intros [Q1 Q2 Q3 Q4 Q5] E1 E2 E3. unfold all_requests in Q3.
  split; unfold all_requests; rewrite ?E1, ?E2, ?E3; try done.
  intros r Hr. apply (request_ok_frame s); [by apply Q3 | apply Hs | ].
  intros tv Ht. exists tv. by rewrite (sd_transfers _ _ _ Hs).
Qed.

Lemma is_notification_quiet l : Forall is_notification l -> forall u,
  countb (is_link u) l = 0 /\ countb (is_giveback u) l = 0 /\ countb (is_unlink u) l = 0.
Proof.
  intros Hl u. rewrite Forall_forall in Hl.
  split_and!; apply countb_zero; intros e He; specialize (Hl e He); by destruct e.
Qed.

Lemma side_inv X T : bus_ok s' -> backend_inv X T s -> backend_inv X T s'.
Proof.
  intros Hb [[[_ Ho Ht Hn] HX HT Hq H1] Hbd Hbl]. split; [split | | ]; try done.
  - split; [done | | | ].
    + destruct Ho as [O1 O2 O3 O4 O5 O6 O7]. split; rewrite ?(sd_objects _ _ _ Hs), ?(sd_registry _ _ _ Hs),
        ?(sd_next_object_id _ _ _ Hs), ?(sd_transfers _ _ _ Hs); try done.
      * intros o ov Hov. rewrite side_binding_refs. by apply O4.
      * intros o Hov. rewrite side_binding_refs. by apply O5.
      * intros o. rewrite (sd_devices _ _ _ Hs). apply O6.
      * intros o ov pv. rewrite (sd_devices _ _ _ Hs). apply O7.
    + destruct Ht as [T1 T2 T3 T4 T5 T6]. split; rewrite ?(sd_transfers _ _ _ Hs), ?(sd_next_transfer_id _ _ _ Hs); try done.
      * intros t tv Htv. rewrite side_request_refs. eauto.
      * intros t Htv. rewrite side_request_refs. eauto.
    + intros o. rewrite side_binding_refs. apply Hn.
  - intros x v Hv. destruct (side_backend x v Hv) as [(v0 & Hv0 & E1 & E2 & E3)|(E1 & E2 & E3)].
    + apply (side_queue_ok v v0); [by apply (Hq x) | done..].
    + split; unfold all_requests; rewrite ?E1, ?E2, ?E3; cbn;
        first [by apply NoDup_nil_2 | intros r Hr; by apply elem_of_nil in Hr].
  - intros t. rewrite side_request_refs. apply H1.
  - intros x v r Hv Hr. destruct (side_backend x v Hv) as [(v0 & Hv0 & E1 & E2 & E3)|(E1 & E2 & E3)].
    + unfold all_requests in Hr. rewrite E2, E3 in Hr.
      destruct (Hbd x v0 r Hv0 Hr) as (y & ? & ? & ?). exists y. rewrite E1.
      unfold request_device in *. by rewrite (sd_transfers _ _ _ Hs).
    + unfold all_requests in Hr. rewrite E2, E3 in Hr. by apply elem_of_nil in Hr.
  - intros u. rewrite side_urb_refs. destruct (Hbl u) as [B1 B2].
    destruct (sd_trace _ _ _ Hs) as (l & -> & Hl). rewrite !countb_app.
    destruct (is_notification_quiet l Hl u) as (-> & -> & ->). lia.
Qed.
End side.

(** No open file uses the HCD. *)
Definition no_file (h : hcd_ptr) (s : kernel) : Prop :=
  forall f fv ctx, k_files s !! f = Some fv -> fl_private_data fv = Some ctx ->
    cf_control ctx <> Some h.
Definition hcd_wired (h : hcd_ptr) (s : kernel) : Prop :=
  forall v, k_hcds s !! h = Some v ->
    vh_linux_hcd v = Some h /\ is_Some (k_hubs s !! h) /\ is_Some (k_usb_hcds s !! h) /\
    forall x, ct_hcd (vh_control v) = Some x -> x = h.

Lemma side_module X T h s s' : module_with X T s -> side_step h s s' -> bus_ok s' ->
  load_of s' h = load_of s h -> hcd_wired h s' -> is_Some (k_hcds s' !! h) \/ no_file h s ->
  module_with X T s'.
Proof.
  intros [Hi Hh Hf] Hs Hb Hl Hw Hn. split.
  - by apply (side_inv h s).
  - intros c v Hv. destruct (decide (c = h)) as [->|Hc]; [by apply Hw | ].
    rewrite (hcd_lookup_ne h s s') in Hv by done. destruct (Hh c v Hv) as (? & ? & ? & ?).
    split_and!; [done | by apply (hub_dom_ne h s s') | by rewrite (usb_lookup_ne h s s') | done].
  - intros f fv ctx c Hfv Hctx Hcc. rewrite (sd_files _ _ _ Hs) in Hfv.
    destruct (decide (c = h)) as [->|Hc].
    + destruct Hn as [|Hn]; [done | ]. by destruct (Hn f fv ctx Hfv Hctx).
    + rewrite (hcd_lookup_ne h s s') by done. by apply (Hf f fv ctx c).
Qed.

(** ** One HCD without queues *)

(** No device is attached to a port of the hub. *)
Definition unplugged (h : hcd_ptr) (s : kernel) : Prop :=
  forall d pv i, k_ports s !! DevPort d = Some pv -> port_peer pv <> Some (HubPort h i).

(** [s] differs from [s0] in the HCD at [h], which has these records and empty
    queues; nothing is attached to it. *)
Record built (s0 : kernel) (h : hcd_ptr) (v : virtusb_hcd) (u : usb_hcd) (s : kernel) : Prop := {
  bt_side : side_step h s0 s;
  bt_bus : bus_ok s;
  bt_hcd : k_hcds s !! h = Some v;
  bt_usb : k_usb_hcds s !! h = Some u;
  bt_hub : is_Some (k_hubs s !! h);
  bt_unplugged : unplugged h s;
}.

Lemma unplugged_side h s s' : side_step h s s' -> unplugged h s -> unplugged h s'.
Proof. intros Hs Hu d pv i. rewrite (sd_devices _ _ _ Hs). apply Hu. Qed.

Section built.
Context (s0 : kernel) (h : hcd_ptr).

Lemma built_bus_step v u s s' : built s0 h v u s -> bus_step s s' -> built s0 h v u s'.
Proof.
  intros [Hsd Hb Hv Hu Hh Hn] Hs. assert (Hd : side_step h s s') by by apply bus_side_step.
  destruct (bs_frame _ _ Hs) as [_ _ F1 F2 _ _]. split.
  - by etrans; [exact Hsd | ].
  - apply Hs.
  - by rewrite F1.
  - by rewrite F2.
  - apply elem_of_dom. rewrite (bs_hubs _ _ Hs). by apply elem_of_dom.
  - by apply (unplugged_side h s).
Qed.

(** Writing the records of the HCD. *)
Lemma built_set_hcd v u s v' : built s0 h v u s ->
  built s0 h v' u (set_hcds (<[h := v']> (k_hcds s)) s).
Proof.
  intros [Hs Hb Hv Hu Hh Hn]. split; try done.
  - etrans; [exact Hs | ]. split; try done; cbn.
    + by rewrite delete_insert_eq.
    + exists []. by rewrite app_nil_r.
  - apply lookup_insert_eq.
Qed.
Lemma built_set_usb v u s u' : built s0 h v u s ->
  built s0 h v u' (set_usb_hcds (<[h := u']> (k_usb_hcds s)) s).
Proof.
  intros [Hs Hb Hv Hu Hh Hn]. split; try done.
  - etrans; [exact Hs | ]. split; try done; cbn.
    + by rewrite delete_insert_eq.
    + exists []. by rewrite app_nil_r.
  - apply lookup_insert_eq.
Qed.

Lemma built_live v u s : built s0 h v u s -> live_hcd h s.
Proof. intros Hb. split_and!; [eexists; apply Hb | apply Hb | eexists; apply Hb]. Qed.

(** The callbacks of the driver keep an HCD as it was built, whatever the root
    hub's device is. *)
Lemma driver_keeps_built v u :
  driver_keeps virtusb_hc_driver h (fun s => exists r, built s0 h v (set_uh_root_hub r u) s).
Proof.
  split.
  - intros s [r Hb]. by apply (built_live v (set_uh_root_hub r u)).
  - intros s Hb. by exists s.
  - intros s Hb. by exists tt, s.
  - intros buf Hl s [r Hb]. destruct (bt_hub _ _ _ _ _ Hb) as [hv Hh].
    pose proof (bitmap_bytes_range s (bt_bus _ _ _ _ _ Hb) h hv Hh) as [Hr _].
    eexists _, s. split_and!; [ | by exists r | done]. cbn [hd_hub_status_data virtusb_hc_driver].
    apply (hub_status_data_eq s h hv Hh). lia.
  - intros type_req value index buf len Hl s [r Hb]. destruct (bt_hub _ _ _ _ _ Hb) as [hv Hh].
    destruct (hub_control_spec s (bt_bus _ _ _ _ _ Hb) h hv Hh type_req value index buf len Hl)
      as (x & buf' & s1 & E & Hs & _).
    exists (x, buf'), s1. split_and!; [exact E | | apply (bs_frame _ _ Hs)]. exists r.
    by apply (built_bus_step v (set_uh_root_hub r u) s).
  - intros s w r' [r Hb] Hw. exists r'. rewrite (bt_usb _ _ _ _ _ Hb) in Hw. injection Hw as <-.
    by apply (built_set_usb v (set_uh_root_hub r u)).
Qed.

Lemma set_callback_step s fn ctx hv : bus_ok s -> k_hubs s !! h = Some hv ->
  virtusb_hub_set_status_changed_callback (Some h) fn ctx s =
    Some (tt, put_hub h (set_hub_callback fn ctx hv) s) /\
  bus_step s (put_hub h (set_hub_callback fn ctx hv) s).
Proof.
  intros Hb Hh. split.
  - unfold virtusb_hub_set_status_changed_callback, update_hub, bind, load, store. by rewrite Hh, Hh.
  - destruct (hub_wf_here s Hb h hv Hh). apply (put_hub_quiet s h hv); try done.
    apply (usb_ok_less _ _ hv); try done. by apply Hb.
Qed.

Lemma built_callback v u s fn ctx : built s0 h v u s ->
  exists s', virtusb_hub_set_status_changed_callback (Some h) fn ctx s = Some (tt, s') /\
    built s0 h v u s'.
Proof.
  intros Hb. destruct (bt_hub _ _ _ _ _ Hb) as [hv Hh].
  destruct (set_callback_step s fn ctx hv (bt_bus _ _ _ _ _ Hb) Hh) as [E Hs].
  eexists. split; [exact E | ]. by apply (built_bus_step v u s).
Qed.

Lemma built_poll v u s : built s0 h v u s ->
  exists s', emit (EvPollRhStatus h) s = Some (tt, s') /\ built s0 h v u s'.
Proof.
  intros [Hs Hb Hv Hu Hh Hn]. eexists. split; [done | ]. split; try done.
  etrans; [exact Hs | ]. split; try done. exists [EvPollRhStatus h]. split; [done | ].
  by repeat constructor.
Qed.
End built.

(** ** Removing a hub *)

Lemma ports_without_lookup h m p :
  ports_without h m !! p = if decide (foreign_port h p) then m !! p else None.
Proof.
  unfold ports_without. destruct (decide (foreign_port h p)) as [Hf|Hf].
  - destruct (m !! p) as [v|] eqn:E.
    + by apply map_lookup_filter_Some.
    + apply map_lookup_filter_None. by left.
  - apply map_lookup_filter_None. right. by intros v _ ?.
Qed.

Section hub_removed.
Context (h : hcd_ptr) (s : kernel) (Hb : bus_ok s) (Hn : unplugged h s).
Abbreviation m := (k_ports s).

Lemma peer_foreign p v q : m !! p = Some v -> port_peer v = Some q -> foreign_port h p -> foreign_port h q.
Proof.
  intros Hp Hq Hf. destruct p as [d|h' i].
  - destruct q as [d'|h'' i']; [done | ]. cbn. intros ->. by apply (Hn d v i').
  - destruct (bw_hubport _ _ (proj1 Hb) _ _ _ Hp) as [_ [hv Hh]].
    destruct (wf_hub_peer _ _ (proj1 Hb) h' hv i v q Hh Hp Hq) as (_ & d & w & -> & _). done.
Qed.

Lemma ports_without_view h' k : h' <> h ->
  port_connected (ports_without h m) h' k = port_connected m h' k /\
  effective_speed (ports_without h m) h' k = effective_speed m h' k.
Proof.
  intros Hne. unfold port_connected, effective_speed.
  rewrite ports_without_lookup, decide_True by done. destruct (m !! _) as [v|] eqn:Ev; [ | done].
  destruct (port_peer v) as [q|] eqn:Eq; [ | done].
  by rewrite ports_without_lookup, decide_True by (by apply (peer_foreign _ v q Ev Eq)).
Qed.

Lemma hub_removed_bus_ok :
  bus_ok (set_ports (ports_without h m) (set_hubs (delete h (k_hubs s)) s)).
Proof.
  destruct Hb as [Hwf Hu]. split; [split | ]; cbn [k_ports k_hubs set_ports set_hubs].
  - intros h' hv. rewrite lookup_delete_Some. intros [Hne Hh].
    destruct (bw_hub _ _ Hwf _ _ Hh) as [? ? ? Hp Hd Hr].
    split; try done; intros i *; rewrite ports_without_lookup, decide_True by (by apply not_eq_sym);
      [apply Hp | apply Hd | apply Hr].
  - intros h' i v. rewrite ports_without_lookup. case_decide as Hf; [ | done]. intros Hi.
    destruct (bw_hubport _ _ Hwf _ _ _ Hi) as [? [hv Hh]]. split; [done | ]. exists hv.
    rewrite lookup_delete_ne; [done | ]. by apply not_eq_sym.
  - intros d v. rewrite ports_without_lookup, decide_True by done. apply (bw_devport _ _ Hwf).
  - intros p v q. rewrite ports_without_lookup. case_decide as Hf; [ | done]. intros Hp Hq.
    destruct (bw_recip _ _ Hwf _ _ _ Hp Hq) as (w & Hw & ?). exists w.
    by rewrite ports_without_lookup, decide_True by (by apply (peer_foreign _ v q Hp Hq)).
  - intros h' hv. rewrite lookup_delete_Some. intros [Hne Hh] k Hk.
    destruct (ports_without_view h' k) as [-> ->]; [by apply not_eq_sym | ]. by apply Hu.
Qed.
End hub_removed.

(** [usb_put_hcd] leaves nothing of the HCD behind. *)
Record gone (s0 : kernel) (h : hcd_ptr) (s : kernel) : Prop := {
  gn_side : side_step h s0 s;
  gn_bus : bus_ok s;
  gn_hcd : k_hcds s !! h = None;
  gn_usb : k_usb_hcds s !! h = None;
  gn_hub : k_hubs s !! h = None;
  gn_ports : forall i, k_ports s !! HubPort h i = None;
}.

Lemma built_put `{LinuxLaws} s0 h v u s : built s0 h v u s ->
  exists s', usb_put_hcd h s = Some (tt, s') /\ gone s0 h s'.
Proof.
  intros Hbt. exists (without_hcd h s). split; [by apply put_hcd_free, (built_live s0 h v u) | ].
  destruct Hbt as [Hs Hb Hv Hu [hv Hh] Hn].
  - split; cbn; try apply lookup_delete_eq.
    + etrans; [exact Hs | ]. split; try done; cbn.
      * intros d. by rewrite ports_without_lookup, decide_True.
      * by rewrite delete_delete_eq.
      * by rewrite dom_delete_L, difference_difference_l_L, union_idemp_L.
      * by rewrite delete_delete_eq.
      * exists []. by rewrite app_nil_r.
    + apply (hub_removed_bus_ok h s Hb Hn).
    + intros i. rewrite ports_without_lookup. by case_decide.
Qed.

(** ** Building an HCD in fresh memory *)

Lemma init_over_zero h n m : 1 <= n <= VIRTUSB_MAX_HUB_PORTS ->
  init_ports h n (write_ports h (fun _ => zero_port) 31 0 m) = init_ports h n m.
Proof.
  intros Hn. apply map_eq. intros p. rewrite !init_ports_lookup by done.
  destruct p as [d|h' i]; rewrite write_ports_lookup; [done | ]. by repeat case_decide.
Qed.

Lemma fresh_unplugged h s : bus_ok s -> k_hubs s !! h = None -> unplugged h s.
Proof.
  intros [Hwf _] Hh d pv i Hd Hq. destruct (bw_recip _ _ Hwf _ _ _ Hd Hq) as (w & Hw & _).
  destruct (bw_hubport _ _ Hwf _ _ _ Hw) as [_ [? ?]]. congruence.
Qed.

Definition new_hcd (h : hcd_ptr) (instance : Z) : virtusb_hcd :=
  mk_hcd instance (Some h) (mk_backend [] [] [] false) zero_control.

(** The part of the probe between the allocation and [usb_add_hcd]. *)
Definition prepare_hcd (h : hcd_ptr) (id : Z) : K unit :=
  v <- load_hcd h ;;
  store_hcd h (mk_hcd (u32 id) (Some h) (vh_backend v) (vh_control v)) ;;
  u <- load_usb_hcd h ;;
  store_usb_hcd h (mk_usb_hcd (uh_root_hub u) true) ;;
  virtusb_backend_init h.

Lemma built_created `{LinuxLaws} s0 h id n : bus_ok s0 -> fresh_hcd h s0 -> 1 <= n <= VIRTUSB_MAX_HUB_PORTS ->
  exists s1 s2 s3, usb_create_hcd virtusb_hc_driver (Some h) s0 = Some (Some h, s1) /\
    prepare_hcd h id s1 = Some (tt, s2) /\
    virtusb_root_hub_init (Some h) n s2 = Some (0, s3) /\
    built s0 h (new_hcd h (u32 id)) (mk_usb_hcd None true) s3.
Proof.
  intros Hb (Hv & Hh & Hu) Hn.
  set (m1 := write_ports h (fun _ => zero_port) 31 0 (k_ports s0)).
  set (mk := fun v u hv m => set_ports m (set_hubs (<[h := hv]> (k_hubs s0))
    (set_hcds (<[h := v]> (k_hcds s0)) (set_usb_hcds (<[h := u]> (k_usb_hcds s0)) s0)))).
  exists (mk zero_hcd (mk_usb_hcd None false) zero_hub m1),
    (mk (new_hcd h (u32 id)) (mk_usb_hcd None true) zero_hub m1),
    (mk (new_hcd h (u32 id)) (mk_usb_hcd None true) (init_hub n) (init_ports h n (k_ports s0))).
  split_and!.
  - by apply create_hcd_zero.
  - unfold prepare_hcd, virtusb_backend_init, update_backend, bind, load, store, mk.
    cbn [k_hcds k_usb_hcds k_hubs k_ports set_hcds set_usb_hcds set_hubs set_ports].
    repeat (rewrite lookup_insert_eq; cbn [k_hcds k_usb_hcds k_hubs k_ports set_hcds set_usb_hcds
      set_hubs set_ports]). unfold set_hcds, set_usb_hcds, set_ports, set_hubs. cbn.
    by rewrite !insert_insert_eq.
  - unfold virtusb_root_hub_init. rewrite hub_init_eq.
    + unfold mk, m1. cbn -[init_ports write_ports]. rewrite (init_over_zero h n (k_ports s0) Hn).
      unfold set_hcds, set_usb_hcds, set_ports, set_hubs. cbn -[init_ports]. by rewrite insert_insert_eq.
    + cbn -[write_ports]. rewrite lookup_insert_eq. by eexists.
    + intros i Hi. cbn -[write_ports]. unfold m1. rewrite write_ports_lookup.
      rewrite decide_True by (split; [done | unfold VIRTUSB_MAX_HUB_PORTS in Hi; lia]). by eexists.
    + done.
  - split; cbn -[init_ports]; try apply lookup_insert_eq.
    + split; try done; cbn -[init_ports].
      * intros d. by rewrite init_ports_lookup.
      * by rewrite delete_insert_eq.
      * by rewrite dom_insert_L, difference_union_distr_l_L, difference_diag_L, (left_id_L ∅ _).
      * by rewrite delete_insert_eq.
      * exists []. by rewrite app_nil_r.
    + by apply (hub_init_bus_ok s0 h n).
    + rewrite lookup_insert_eq. by eexists.
    + intros d pv i. cbn -[init_ports]. rewrite init_ports_lookup by done.
      by apply (fresh_unplugged h s0).
Qed.

(** ** Stopping a backend unplugs nothing

    An invariant of the ports that survives the release of a device is kept by
    everything that [virtusb_backend_stop] does. *)

Class PortInvariant (I : kernel -> Prop) := {
  pi_ports : forall s s', k_ports s' = k_ports s -> I s -> I s';
  pi_free : forall s d, I s -> I (set_ports (delete (DevPort d) (k_ports s)) s);
}.

#[export] Instance unplugged_invariant h : PortInvariant (unplugged h).
Proof.
  split.
  - intros s s' E Hu d pv i. rewrite E. apply Hu.
  - intros s d Hu d' pv i. cbn. rewrite lookup_delete_Some. intros [_ ?]. by apply (Hu d').
Qed.

Section port_invariant.
Context (I : kernel -> Prop) `{!PortInvariant I}.

Ltac quiet := intros; eapply pi_ports; [ | eassumption]; reflexivity.
Lemma keep_emit e : maintains I (emit e).
Proof. apply maintains_modify. quiet. Qed.
Lemma keep_store_hcd h v : maintains I (store_hcd h v).
Proof. apply maintains_store. quiet. Qed.
Lemma keep_store_transfer t v : maintains I (store_transfer t v).
Proof. apply maintains_store. quiet. Qed.
Lemma keep_free_transfer t : maintains I (free k_transfers set_transfers t).
Proof. apply maintains_free. quiet. Qed.
Lemma keep_store_object o v : maintains I (store_object o v).
Proof. apply maintains_store. quiet. Qed.
Lemma keep_free_object o : maintains I (free k_objects set_objects o).
Proof. apply maintains_free. quiet. Qed.
Lemma keep_free_port d : maintains I (free k_ports set_ports (DevPort d)).
Proof. apply maintains_free. intros. by apply pi_free. Qed.
#[local] Hint Resolve keep_emit keep_store_hcd keep_store_transfer keep_free_transfer
  keep_store_object keep_free_object keep_free_port : frame.

Lemma keep_call_release f o : maintains I (call_release f o).
Proof. destruct f. unfold call_release, device_release_table, virtusb_device_release. maintain. Qed.
#[local] Hint Resolve keep_call_release : frame.
Lemma keep_object_put o : maintains I (virtusb_object_put o).
Proof. unfold virtusb_object_put, kref_put, virtusb_object_release_kref. maintain. Qed.
#[local] Hint Resolve keep_object_put : frame.
Lemma keep_transfer_put t : maintains I (virtusb_transfer_put t).
Proof. unfold virtusb_transfer_put, virtusb_transfer_release. maintain. Qed.
Lemma keep_transfer_cancel t st : maintains I (virtusb_transfer_cancel t st).
Proof. unfold virtusb_transfer_cancel. maintain. Qed.
Lemma keep_get_backend h : maintains I (get_backend h).
Proof. unfold get_backend. maintain. Qed.
Lemma keep_update_backend h f : maintains I (update_backend h f).
Proof. unfold update_backend. maintain. Qed.
#[local] Hint Resolve keep_transfer_put keep_transfer_cancel keep_get_backend keep_update_backend : frame.
Lemma keep_shut_down_request h uh q i r : maintains I (shut_down_request h uh q i r).
Proof.
  unfold shut_down_request, virtusb_backend_giveback, virtusb_backend_release_request. maintain.
Qed.
#[local] Hint Resolve keep_shut_down_request : frame.
Lemma keep_drain_all fuel h uh : maintains I (drain_all fuel h uh).
Proof. induction fuel; cbn; maintain. Qed.
Lemma keep_drop_bindings fuel h : maintains I (drop_bindings fuel h).
Proof. induction fuel; cbn; maintain. Qed.
#[local] Hint Resolve keep_drain_all keep_drop_bindings : frame.
Lemma keep_backend_stop h uh : maintains I (virtusb_backend_stop h uh).
Proof. unfold virtusb_backend_stop, wake_up. maintain. Qed.
End port_invariant.

(** ** Removing the HCD of a running module *)

(** What a removal leaves alone. *)
Record removed (h : hcd_ptr) (s s' : kernel) : Prop := {
  rm_ok : no_file h s -> module_ok s';
  rm_hcd : k_hcds s' = delete h (k_hcds s);
  rm_hubs : dom (k_hubs s') = dom (k_hubs s) ∖ {[h]};
  rm_usb : k_usb_hcds s' = delete h (k_usb_hcds s);
  rm_registry : k_registry s' = k_registry s;
  rm_files : k_files s' = k_files s;
  rm_typed : typed s -> typed s';
  rm_unplugged : forall h', unplugged h' s -> unplugged h' s';
  rm_ports : forall i, k_ports s' !! HubPort h i = None;
}.

(** The control plane and the callback are cleared before the backend stops. *)
Lemma hcd_replaced h s v v' : k_hcds s !! h = Some v -> vh_backend v' = vh_backend v ->
  side_step h s (set_hcds (<[h := v']> (k_hcds s)) s) /\
  load_of (set_hcds (<[h := v']> (k_hcds s)) s) h = load_of s h.
Proof.
  intros Hv Eb. split.
  - split; try done; cbn; [by rewrite delete_insert_eq | ]. exists []. by rewrite app_nil_r.
  - unfold load_of. cbn. by rewrite lookup_insert_eq, Hv, Eb.
Qed.

Lemma module_hcd_replaced h s v v' : module_ok s -> k_hcds s !! h = Some v ->
  vh_backend v' = vh_backend v -> vh_linux_hcd v' = vh_linux_hcd v ->
  (forall x, ct_hcd (vh_control v') = Some x -> x = h) ->
  module_ok (set_hcds (<[h := v']> (k_hcds s)) s).
Proof.
  intros Hm Hv Eb El Hc. destruct (hcd_replaced h s v v' Hv Eb) as [Hs Hl].
  apply (side_module _ _ h s); try done.
  - apply (module_bus _ _ _ Hm).
  - intros w. cbn. rewrite lookup_insert_eq. intros [= <-].
    destruct (mo_hcd _ _ _ Hm h v Hv) as (E1 & E2 & E3 & _). split_and!; [congruence | done..].
  - left. cbn. rewrite lookup_insert_eq. by eexists.
Qed.

Section removal.
Context (h : hcd_ptr) (k : kernel) (Hm : module_ok k) (Hn : unplugged h k).
Context (v : virtusb_hcd) (Hv : k_hcds k !! h = Some v).
Context (v1 : virtusb_hcd) (Eb : vh_backend v1 = vh_backend v) (El : vh_linux_hcd v1 = vh_linux_hcd v).
Context (Hc : forall x, ct_hcd (vh_control v1) = Some x -> x = h).
Abbreviation k1 := (set_hcds (<[h := v1]> (k_hcds k)) k).

(** The callback is cleared, then the backend stops. *)
Lemma stop_spec : exists k3 u,
  (virtusb_hub_set_status_changed_callback (Some h) None None ;;
   virtusb_backend_stop (Some h) (Some h)) k1 = Some (tt, k3) /\
  module_ok k3 /\ (typed k -> typed k3) /\ (forall h', unplugged h' k -> unplugged h' k3) /\
  built k3 h (set_backend (mk_backend [] [] [] true) v1) u k3 /\
  delete h (k_hcds k3) = delete h (k_hcds k) /\ dom (k_hubs k3) = dom (k_hubs k) /\
  k_usb_hcds k3 = k_usb_hcds k /\ k_registry k3 = k_registry k /\ k_files k3 = k_files k.
Proof.
  pose proof (module_hcd_replaced h k v v1 Hm Hv Eb El Hc) as Hm1.
  destruct (mo_hcd _ _ _ Hm1 h v1 (lookup_insert_eq _ _ _)) as (_ & [hv Hh] & [u Hu] & _).
  destruct (set_callback_step h k1 None None hv (module_bus _ _ _ Hm1) Hh) as [E2 S2].
  set (k2 := put_hub _ _ _) in *.
  pose proof (module_bus_step _ _ _ _ Hm1 S2) as Hm2. destruct (bs_frame _ _ S2) as [_ _ F1 F2 _ F3].
  assert (Hv2 : k_hcds k2 !! h = Some v1) by (rewrite F1; apply lookup_insert_eq).
  destruct (backend_stop_spec _ _ k2 h h v1 (mo_inv _ _ _ Hm2) Hv2) as (k3 & E3 & Hi3 & S3 & Hv3 & _).
  pose proof (sp_step _ _ _ S3) as B3.
  pose proof (module_backend _ _ _ _ _ _ Hm2 B3 Hi3) as Hm3.
  assert (Hkeep : forall h', unplugged h' k -> unplugged h' k3).
  { intros h' Hn'. apply (keep_backend_stop (unplugged h') (Some h) (Some h) k2 tt k3); [ | done].
    intros d pv i. rewrite (bs_devices _ _ S2). apply Hn'. }
  exists k3, u. split_and!.
  - by erewrite bind_eq; [ | exact E2].
  - done.
  - intros Ht. eapply (stays_backend_stop _ _ _ (Some h) (Some h) k2 tt k3); [ | done].
    apply configured_here. unfold typed. by rewrite (bs_objects _ _ S2).
  - done.
  - split; try done.
    + apply (module_bus _ _ _ Hm3).
    + by rewrite (bk_usb_hcds _ _ B3), F2.
    + rewrite (bk_hubs _ _ B3). apply elem_of_dom. rewrite (bs_hubs _ _ S2). apply elem_of_dom. by exists hv.
    + by apply Hkeep.
  - transitivity (delete h (k_hcds k2)).
    + apply map_eq. intros x. destruct (decide (x = h)) as [->|]; [by rewrite !lookup_delete_eq | ].
      rewrite !lookup_delete_ne by done. by apply (sp_others _ _ _ S3).
    + rewrite F1. cbn. by rewrite delete_insert_eq.
  - by rewrite (bk_hubs _ _ B3), (bs_hubs _ _ S2).
  - by rewrite (bk_usb_hcds _ _ B3), F2.
  - by rewrite (bk_registry _ _ B3), (bs_registry _ _ S2).
  - by rewrite (bk_files _ _ B3), F3.
Qed.

Lemma removed_spec k3 w u k' : module_ok k3 -> (typed k -> typed k3) ->
  (forall h', unplugged h' k -> unplugged h' k3) -> built k3 h w u k3 ->
  delete h (k_hcds k3) = delete h (k_hcds k) -> dom (k_hubs k3) = dom (k_hubs k) ->
  k_usb_hcds k3 = k_usb_hcds k -> k_registry k3 = k_registry k -> k_files k3 = k_files k ->
  load_of k3 h = ([], [], []) -> gone k3 h k' -> removed h k k'.
Proof.
  intros Hm3 Ht3 Hn3 Hb3 Eh Ehub Eu Er Ef El3 [Hs Hb G1 G2 G3 G4]. split; try done.
  - intros Hnf. apply (side_module _ _ h k3); try done.
    + unfold load_of at 1. by rewrite G1, El3.
    + intros x Hx. congruence.
    + right. intros f fv ctx. rewrite Ef. apply Hnf.
  - transitivity (delete h (k_hcds k')); [by rewrite delete_id | ].
    by rewrite (sd_hcds _ _ _ Hs).
  - rewrite <- Ehub. pose proof (sd_hubs _ _ _ Hs) as Ed.
    rewrite difference_disjoint_L in Ed; [done | ].
    apply disjoint_singleton_r. by apply not_elem_of_dom.
  - transitivity (delete h (k_usb_hcds k')); [by rewrite delete_id | ].
    by rewrite (sd_usb_hcds _ _ _ Hs), Eu.
  - by rewrite (sd_registry _ _ _ Hs).
  - by rewrite (sd_files _ _ _ Hs).
  - intros Ht. unfold typed. rewrite (sd_objects _ _ _ Hs). by apply Ht3.
  - intros h' Hn' d pv i. rewrite (sd_devices _ _ _ Hs). by apply Hn3.
Qed.
End removal.
