(* ===== verification/PlatformSpec.v ===== *)
(** * Probe and remove

    What the platform driver does to the state of the module and to what Linux
    holds for it, on every path. *)

From S2P Require Import Prelude Uapi Kernel Port Hub Object Device Transfer Backend BackendInv BackendOps Hcd HcdSpec UrbSpec Control ControlSpec ModuleSpec Config Linux Platform LifeSpec.

(** [execute E] runs the first statement, whose effect is [E]. *)
Ltac execute E := erewrite bind_eq; [ | exact E]; cbn beta iota.
Ltac execute_cbn := erewrite bind_eq; [ | reflexivity];
  cbn beta iota; unfold set_linux, set_statics; cbn [sy_kernel sy_statics sy_linux].

Lemma update_pdev_eq p f k t l pd : lx_pdevs l !! p = Some pd ->
  update_pdev p f (mk_system k t l) =
    Some (tt, mk_system k t (set_pdevs (<[p := f pd]> (lx_pdevs l)) l)).
Proof. intros Hp. unfold update_pdev, bind, load, store, sy_pdevs. cbn. rewrite Hp. cbn. by rewrite Hp. Qed.

Lemma put_pdev_twice p q q' k t m l :
  put_pdev p q' (mk_system k t (set_pdevs (<[p := q]> m) l)) = mk_system k t (set_pdevs (<[p := q']> m) l).
Proof. unfold put_pdev, on_linux, set_linux, set_pdevs. cbn. by rewrite insert_insert_eq. Qed.

Lemma load_pdev_eq p k t l pd : lx_pdevs l !! p = Some pd ->
  load_pdev p (mk_system k t l) = Some (pd, mk_system k t l).
Proof. intros Hp. unfold load, sy_pdevs. cbn. by rewrite Hp. Qed.

Lemma add_remove_id `{Countable A} (x : A) (Y : gset A) : x ∉ Y -> ({[x]} ∪ Y) ∖ {[x]} = Y.
Proof.
  intros Hx. rewrite difference_union_distr_l_L, difference_diag_L, (left_id_L ∅ _).
  apply difference_disjoint_L, disjoint_singleton_r, Hx.
Qed.

(** ** The control plane of one HCD *)

Lemma built_control k0 h v u k t l f : built k0 h v u k ->
  exists k', update_control h f (mk_system k t l) = Some (tt, mk_system k' t l) /\
    built k0 h (set_control (f (vh_control v)) v) u k'.
Proof.
  intros Hb. eexists. split; [ | by apply (built_set_hcd k0 h v u k)].
  unfold update_control. apply lift_eq. unfold bind, load, store.
  by rewrite (bt_hcd _ _ _ _ _ Hb), (bt_hcd _ _ _ _ _ Hb).
Qed.

Section control.
Context `{LinuxLaws} (L : devt_macros).

(** The device number of an instance. *)
Definition instance_devt (base instance : Z) : Z :=
  MKDEV L (MAJOR L base) (u32 (MINOR L base + instance)).

Definition control_result (t : statics) (instance : Z) (env : probe_env) : Z :=
  if negb (st_class t) then - ENODEV
  else if st_instance_count t <=? instance then - EINVAL
  else if pe_cdev_add env <? 0 then pe_cdev_add env
  else if pe_device_create env <? 0 then pe_device_create env
  else 0.

Definition with_node (devt : Z) (l : linux_side) : linux_side :=
  set_nodes ({[devt]} ∪ lx_nodes l) (set_cdevs ({[devt]} ∪ lx_cdevs l) l).
Definition active_control_of (h : hcd_ptr) (devt : Z) : virtusb_control :=
  mk_control (Some h) devt true true.

Ltac control_step Hb f k' Hb' :=
  lazymatch goal with |- context [bind _ _ (mk_system _ ?t ?l)] =>
    let E := fresh in
    destruct (built_control _ _ _ _ _ t l f Hb) as (k' & E & Hb'); execute E; clear E
  end.

Lemma control_create_spec k0 h v u k t l p instance env : built k0 h v u k ->
  let devt := instance_devt (st_base_devt t) instance in
  devt ∉ lx_cdevs l -> devt ∉ lx_nodes l ->
  exists v' k', virtusb_control_instance_create L (Some h) (Some h) (Some p) instance env (mk_system k t l) =
      Some (control_result t instance env,
            mk_system k' t (if control_result t instance env =? 0 then with_node devt l else l)) /\
    built k0 h v' u k' /\
    (control_result t instance env = 0 -> v' = set_control (active_control_of h devt) v).
Proof.
  intros Hb devt Hc Hno. unfold virtusb_control_instance_create, control_result. execute_cbn. cbn [sy_statics].
  destruct (st_class t); cbn [negb]; [ | by exists v, k].
  destruct (st_instance_count t <=? instance); [by exists v, k | ].
  control_step Hb (fun _ : virtusb_control => zero_control) k1 Hb1.
  control_step Hb1 (set_ct_hcd (Some h)) k2 Hb2.
  control_step Hb2 (set_ct_devt devt) k3 Hb3.
  execute (cdev_add_run devt (pe_cdev_add env) (mk_system k3 t l) Hc).
  destruct (pe_cdev_add env <? 0) eqn:E1; [rewrite E1 | cbn [Z.ltb Z.compare]].
  { unfold clear_control.
    control_step Hb3 (set_ct_hcd None) k4 Hb4. control_step Hb4 (set_ct_devt 0) k5 Hb5.
    eexists _, k5. apply Z.ltb_lt in E1. destruct (Z.eqb_spec (pe_cdev_add env) 0); [lia | ].
    by split_and!; [ | exact Hb5 | ]. }
  execute (device_create_run devt (pe_device_create env)
    (mk_system k3 t (set_cdevs ({[devt]} ∪ lx_cdevs l) l)) Hno).
  destruct (pe_device_create env <? 0) eqn:E2.
  { control_step Hb3 (set_ct_device false) k4 Hb4.
    execute (cdev_del_run devt (mk_system k4 t (set_cdevs ({[devt]} ∪ lx_cdevs l) l)) ltac:(set_solver)).
    unfold clear_control, on_linux, set_linux. cbn [sy_kernel sy_statics sy_linux].
    control_step Hb4 (set_ct_hcd None) k5 Hb5. control_step Hb5 (set_ct_devt 0) k6 Hb6.
    eexists _, k6. apply Z.ltb_lt in E2. destruct (Z.eqb_spec (pe_device_create env) 0); [lia | ].
    split_and!; [ | exact Hb6 | done]. cbn. rewrite (add_remove_id _ _ Hc). by destruct l. }
  unfold on_linux, set_linux. cbn [sy_kernel sy_statics sy_linux].
  control_step Hb3 (set_ct_device true) k4 Hb4. control_step Hb4 (set_ct_active true) k5 Hb5.
  eexists _, k5. split_and!; [done | exact Hb5 | ]. by destruct v.
Qed.
End control.

(** ** The USB core *)

Section usb_core.
Context `{LinuxLaws} (k0 : kernel) (h : hcd_ptr) (v : virtusb_hcd) (u : usb_hcd).
Context (k : kernel) (t : statics) (l : linux_side) (Hb : built k0 h v u k).

Lemma built_as_it_is : exists r, built k0 h v (set_uh_root_hub r u) k.
Proof. exists (uh_root_hub u). by destruct u. Qed.

Lemma built_root_hub r k' w : k_usb_hcds k' !! h = Some w -> uh_root_hub w = r ->
  (exists r', built k0 h v (set_uh_root_hub r' u) k') -> built k0 h v (set_uh_root_hub r u) k'.
Proof.
  intros Hw <- [r' Hb']. rewrite (bt_usb _ _ _ _ _ Hb') in Hw. by injection Hw as <-.
Qed.

Lemma add_hcd_spec root r : h ∉ lx_hcds l ->
  exists k', usb_add_hcd virtusb_hc_driver h root r (mk_system k t l) =
      Some (if r <? 0 then r else 0,
            mk_system k' t (if r <? 0 then l else set_added ({[h]} ∪ lx_hcds l) l)) /\
    built k0 h v (set_uh_root_hub (if r <? 0 then None else Some root) u) k'.
Proof.
  intros Hl. destruct (add_hcd_run _ h _ root r k t l (driver_keeps_built k0 h v u) built_as_it_is Hl)
    as (k' & w & Hk & Hw & Er & E).
  exists k'. split; [done | ]. by apply (built_root_hub _ k' w).
Qed.

Lemma remove_hcd_spec : h ∈ lx_hcds l ->
  exists k', usb_remove_hcd virtusb_hc_driver h (mk_system k t l) =
      Some (tt, mk_system k' t (set_added (lx_hcds l ∖ {[h]}) l)) /\
    built k0 h v (set_uh_root_hub None u) k'.
Proof.
  intros Hl. destruct (remove_hcd_run _ h _ k t l (driver_keeps_built k0 h v u) built_as_it_is Hl)
    as (k' & w & Hk & Hw & Er & E).
  exists k'. split; [done | ]. by apply (built_root_hub _ k' w).
Qed.
End usb_core.

(** ** Probe *)

Section probe.
Context `{LinuxLaws} (L : devt_macros).
Context (k : kernel) (t : statics) (l : linux_side) (p : pdev_ptr) (pd : platform_device).
Context (Hbus : bus_ok k) (Hp : lx_pdevs l !! p = Some pd) (Hdrv : pd_drvdata pd = None).
Context (n : Z) (Hn : 0 <= n) (Hdata : pd_platdata pd = Some n) (env : probe_env).

(** Memory is fresh, and the device number of the instance is free. *)
Record probe_env_wf : Prop := {
  pw_memory : forall h, pe_memory env = Some h -> fresh_hcd h k /\ h ∉ lx_hcds l;
  pw_cdev : instance_devt L (st_base_devt t) (u32 (pd_id pd)) ∉ lx_cdevs l;
  pw_node : instance_devt L (st_base_devt t) (u32 (pd_id pd)) ∉ lx_nodes l;
}.
Context (Hwf : probe_env_wf).

(** The result of the probe: the first step that fails. *)
Definition probe_result : Z :=
  if (n =? 0) || (VIRTUSB_MAX_HUB_PORTS <? n) then - EINVAL
  else match pe_memory env with
       | None => - ENOMEM
       | Some _ => if pe_add env <? 0 then pe_add env else control_result t (u32 (pd_id pd)) env
       end.

Definition probed_hcd (h : hcd_ptr) : virtusb_hcd :=
  set_control (active_control_of h (instance_devt L (st_base_devt t) (u32 (pd_id pd))))
    (new_hcd h (u32 (pd_id pd))).
Definition probed_linux (h : hcd_ptr) : linux_side :=
  with_node (instance_devt L (st_base_devt t) (u32 (pd_id pd)))
    (set_added ({[h]} ∪ lx_hcds l) (set_pdevs (<[p := set_pd_drvdata (Some h) pd]> (lx_pdevs l)) l)).

Lemma restore_pdev x : set_pdevs (<[p := set_pd_drvdata None (set_pd_drvdata x pd)]>
    (<[p := set_pd_drvdata x pd]> (lx_pdevs l))) l = l.
Proof.
  rewrite insert_insert_eq, insert_id; [by destruct l | ]. rewrite Hp. by destruct pd; cbn in *; subst.
Qed.

(** The label [clear_drvdata]. *)
Lemma clear_drvdata_spec k0 h v u k1 r : built k0 h v u k1 ->
  exists k', clear_drvdata p h r
      (mk_system k1 t (set_pdevs (<[p := set_pd_drvdata (Some h) pd]> (lx_pdevs l)) l)) =
    Some (r, mk_system k' t l) /\ gone k0 h k'.
Proof.
  intros Hb. unfold clear_drvdata.
  execute (update_pdev_eq p (set_pd_drvdata None) k1 t
    (set_pdevs (<[p := set_pd_drvdata (Some h) pd]> (lx_pdevs l)) l) (set_pd_drvdata (Some h) pd)
    (lookup_insert_eq _ _ _)).
  replace (set_pdevs _ _) with l by (symmetry; apply (restore_pdev (Some h))).
  destruct (built_put k0 h v u k1 Hb) as (k' & E & Hg). exists k'. split; [ | done].
  unfold put_hcd. by erewrite bind_eq; [ | by apply lift_eq].
Qed.

Lemma probe_spec : exists s',
  virtusb_hcd_platform_probe L env p (mk_system k t l) = Some (probe_result, s') /\
  if probe_result =? 0 then
    exists h k', pe_memory env = Some h /\ s' = mk_system k' t (probed_linux h) /\
      built k h (probed_hcd h) (mk_usb_hcd (Some (pe_root_hub env)) true) k'
  else exists k', s' = mk_system k' t l /\
    (k' = k \/ exists h, pe_memory env = Some h /\ gone k h k').
Proof.
  destruct Hwf as [Hmem Hcdev Hnode]. unfold virtusb_hcd_platform_probe, probe_result.
  execute (load_pdev_eq p k t l pd Hp). rewrite Hdata.
  destruct ((n =? 0) || (VIRTUSB_MAX_HUB_PORTS <? n)) eqn:En.
  { exists (mk_system k t l). split; [done | ]. exists k. by split; [ | left]. }
  apply orb_false_iff in En. destruct En as [En1 En2]. apply Z.eqb_neq in En1. apply Z.ltb_ge in En2.
  destruct (pe_memory env) as [h|] eqn:Em.
  2: { execute (lift_eq _ k t l _ _ (create_hcd_oom virtusb_hc_driver k)). exists (mk_system k t l). split; [done | ]. exists k. by split; [ | left]. }
  destruct (Hmem h eq_refl) as [Hfresh Hadded].
  destruct (built_created k h (pd_id pd) n Hbus Hfresh ltac:(lia)) as (k1 & k2 & k3 & E1 & E2 & E3 & Hb3).
  execute (lift_eq _ k t l _ _ E1). execute (lift_eq (prepare_hcd h (pd_id pd)) k1 t l _ _ E2).
  execute (lift_eq _ k2 t l _ _ E3). cbn [Z.ltb Z.compare].
  execute (update_pdev_eq p (set_pd_drvdata (Some h)) k3 t l pd Hp).
  set (l1 := set_pdevs _ l).
  destruct (add_hcd_spec k h _ _ k3 t l1 Hb3 (pe_root_hub env) (pe_add env) Hadded) as (k4 & E4 & Hb4).
  execute E4. clear E1 E2 E3 E4. destruct (pe_add env <? 0) eqn:Ea.
  { rewrite Ea. destruct (clear_drvdata_spec k h _ _ k4 (pe_add env) Hb4) as (k' & E & Hg).
    eexists. split; [exact E | ]. apply Z.ltb_lt in Ea. destruct (Z.eqb_spec (pe_add env) 0); [lia | ].
    exists k'. split; [done | ]. right. by exists h. }
  cbn [Z.ltb Z.compare].
  destruct (built_callback k h _ _ k4 (Some VIRTUSB_HCD_ROOT_HUB_STATUS_CHANGED) (Some h) Hb4) as (k5 & E5 & Hb5).
  destruct (built_poll k h _ _ k5 Hb5) as (k6 & E6 & Hb6).
  erewrite bind_eq; [ | apply lift_eq; erewrite bind_eq; [exact E6 | exact E5]]. clear E5 E6.
  assert (Ev : load_hcd h k6 = Some (new_hcd h (u32 (pd_id pd)), k6))
    by (unfold load; by rewrite (bt_hcd _ _ _ _ _ Hb6)).
  erewrite bind_eq; [ | apply lift_eq; exact Ev]. clear Ev.
  set (l2 := set_added _ l1).
  destruct (control_create_spec L k h _ _ k6 t l2 p (u32 (pd_id pd)) env Hb6 Hcdev Hnode)
    as (v7 & k7 & E7 & Hb7 & Hv7). cbn [new_hcd vh_instance]. execute E7. clear E7.
  set (r := control_result t (u32 (pd_id pd)) env) in *. destruct (Z.eqb_spec r 0) as [Er|Er].
  - rewrite Er. cbn [Z.ltb Z.compare]. eexists. split; [done | ]. exists h, k7. split_and!; [done.. | ].
    by rewrite (Hv7 Er) in Hb7.
  - assert ((r <? 0) = true) as ->.
    { unfold r, control_result in *. by repeat case_match. }
    destruct (remove_hcd_spec k h _ _ k7 t l2 Hb7
      (elem_of_union_l _ _ _ (elem_of_singleton_2 h h eq_refl))) as (k8 & E8 & Hb8).
    execute E8. replace (set_added _ l2) with l1.
    + destruct (clear_drvdata_spec k h _ _ k8 r Hb8) as (k' & E & Hg).
      eexists. split; [exact E | ]. exists k'. split; [done | ]. right. by exists h.
    + unfold l2, l1. cbn. by rewrite add_remove_id.
Qed.
End probe.

(** ** Remove *)

Definition without_node (devt : Z) (l : linux_side) : linux_side :=
  set_cdevs (lx_cdevs l ∖ {[devt]}) (set_nodes (lx_nodes l ∖ {[devt]}) l).

Lemma update_control_eq h f k t l v : k_hcds k !! h = Some v ->
  update_control h f (mk_system k t l) =
    Some (tt, mk_system (set_hcds (<[h := set_control (f (vh_control v)) v]> (k_hcds k)) k) t l).
Proof. intros Hv. apply lift_eq. unfold bind, load, store. by rewrite Hv, Hv. Qed.

Lemma update_control_twice h f k t l v w : k_hcds k !! h = Some v ->
  update_control h f (mk_system (set_hcds (<[h := w]> (k_hcds k)) k) t l) =
    Some (tt, mk_system (set_hcds (<[h := set_control (f (vh_control w)) w]> (k_hcds k)) k) t l).
Proof.
  intros Hv. rewrite (update_control_eq h f _ t l w (lookup_insert_eq _ _ _)).
  unfold set_hcds. cbn. by rewrite insert_insert_eq.
Qed.

Lemma control_destroy_spec `{LinuxLaws} h k t l v : k_hcds k !! h = Some v ->
  ct_active (vh_control v) = true -> ct_devt (vh_control v) ∈ lx_cdevs l ->
  ct_devt (vh_control v) ∈ lx_nodes l ->
  virtusb_control_instance_destroy (Some h) (mk_system k t l) =
    Some (tt, mk_system (set_hcds (<[h := set_control zero_control v]> (k_hcds k)) k) t
                (without_node (ct_devt (vh_control v)) l)).
Proof.
  intros Hv Ha Hc Hno. unfold virtusb_control_instance_destroy.
  assert (E : load_control h k = Some (vh_control v, k))
    by (unfold load_control, bind, load; by rewrite Hv).
  execute (lift_eq _ k t l _ _ E). rewrite Ha. cbn [negb].
  execute (update_control_eq h (set_ct_active false) k t l v Hv).
  execute (device_destroy_run (ct_devt (vh_control v))
    (mk_system (set_hcds (<[h := set_control (set_ct_active false (vh_control v)) v]> (k_hcds k)) k) t l) Hno).
  unfold on_linux, set_linux. cbn [sy_kernel sy_statics sy_linux].
  execute (update_control_twice h (set_ct_device false) k t
    (set_nodes (lx_nodes l ∖ {[ct_devt (vh_control v)]}) l) v
    (set_control (set_ct_active false (vh_control v)) v) Hv).
  erewrite bind_eq; [ | apply cdev_del_run; exact Hc].
  unfold on_linux, set_linux. cbn [sy_kernel sy_statics sy_linux].
  erewrite bind_eq; [ | by apply (update_control_twice h _ k t _ v)].
  by rewrite (update_control_twice h _ k t _ v _ Hv).
Qed.

Section remove.
Context `{LinuxLaws} (k : kernel) (t : statics) (l : linux_side) (p : pdev_ptr) (pd : platform_device).
Context (Hp : lx_pdevs l !! p = Some pd) (h : hcd_ptr) (Hdrv : pd_drvdata pd = Some h).
Context (Hm : module_ok k) (Hn : unplugged h k).
Context (v : virtusb_hcd) (Hv : k_hcds k !! h = Some v) (Ha : ct_active (vh_control v) = true).
Context (Hadded : h ∈ lx_hcds l) (Hc : ct_devt (vh_control v) ∈ lx_cdevs l).
Context (Hno : ct_devt (vh_control v) ∈ lx_nodes l).

Definition removed_linux : linux_side :=
  set_pdevs (<[p := set_pd_drvdata None pd]> (lx_pdevs l))
    (set_added (lx_hcds l ∖ {[h]}) (without_node (ct_devt (vh_control v)) l)).

Lemma remove_spec : exists k',
  virtusb_hcd_platform_remove p (mk_system k t l) =
    Some (tt, mk_system k' t removed_linux) /\ removed h k k'.
Proof.
  unfold virtusb_hcd_platform_remove. execute (load_pdev_eq p k t l pd Hp). rewrite Hdrv.
  execute (control_destroy_spec h k t l v Hv Ha Hc Hno).
  set (l1 := without_node _ l). set (v1 := set_control zero_control v).
  destruct (stop_spec h k Hm Hn v Hv v1) as (k3 & u & E3 & Hm3 & Ht3 & Hn3 & Hb3 & Eh & Ed & Eu & Er & Ef);
    [done.. | ].
  execute (lift_eq _ _ t l1 _ _ E3).
  destruct (remove_hcd_spec k3 h _ u k3 t l1 Hb3 Hadded) as (k4 & E4 & Hb4). execute E4.
  execute (update_pdev_eq p (set_pd_drvdata None) k4 t (set_added (lx_hcds l1 ∖ {[h]}) l1) pd Hp).
  destruct (built_put k3 h _ _ k4 Hb4) as (k' & E5 & Hg). exists k'. split.
  - by rewrite (lift_eq _ _ t _ _ _ E5).
  - eapply (removed_spec h k); try done; try exact Hb3.
    unfold load_of. by rewrite (bt_hcd _ _ _ _ _ Hb3).
Qed.
End remove.
