(* ===== verification/InitSpec.v ===== *)
(** * Loading and unloading the module

    The state of the module between init and exit: which host controllers exist
    and what belongs to each, in Linux and in the static variables. *)

From S2P Require Import Prelude Uapi Kernel Port Hub Object Device Transfer Backend BackendInv BackendOps Hcd HcdSpec UrbSpec Control ControlSpec ModuleSpec Config Linux Platform LifeSpec PlatformSpec.

(** ** Probing in fresh memory *)

Lemma delete_fresh {V} (h : hcd_ptr) (m m' : gmap hcd_ptr V) :
  delete h m' = delete h m -> m !! h = None -> m' !! h = None -> m' = m.
Proof. intros E H1 H2. by rewrite <- (delete_id m h H1), <- (delete_id m' h H2). Qed.
Lemma delete_insert_fresh {V} (h : hcd_ptr) (m m' : gmap hcd_ptr V) v :
  delete h m' = delete h m -> m !! h = None -> m' !! h = Some v -> m' = <[h := v]> m.
Proof.
  intros E H1 H2. rewrite <- (delete_id m h H1), <- E, insert_delete_eq.
  symmetry. by apply insert_id.
Qed.

Lemma fresh_no_file h s : module_ok s -> k_hcds s !! h = None -> no_file h s.
Proof.
  intros Hm Hh f fv ctx Hf Hctx Hc. destruct (mo_file _ _ _ Hm f fv ctx h Hf Hctx Hc) as [? ?]. congruence.
Qed.

Section fresh.
Context (h : hcd_ptr) (k k' : kernel) (Hm : module_ok k) (Hf : fresh_hcd h k).

Lemma gone_fresh : gone k h k' ->
  module_ok k' /\ k_hcds k' = k_hcds k /\ dom (k_hubs k') = dom (k_hubs k) /\ k_usb_hcds k' = k_usb_hcds k.
Proof.
  destruct Hf as (F1 & F2 & F3). intros [Hs Hb G1 G2 G3 G4]. split_and!.
  - apply (side_module _ _ h k); try done.
    + unfold load_of. by rewrite G1, F1.
    + intros v Hv. congruence.
    + right. by apply fresh_no_file.
  - apply (delete_fresh h); [apply Hs | done..].
  - pose proof (sd_hubs _ _ _ Hs) as E. rewrite !difference_disjoint_L in E; [done | | ];
      by apply disjoint_singleton_r, not_elem_of_dom.
  - apply (delete_fresh h); [apply Hs | done..].
Qed.

Lemma built_fresh v u : built k h v u k' -> vh_linux_hcd v = Some h ->
  (forall x, ct_hcd (vh_control v) = Some x -> x = h) ->
  be_bindings (vh_backend v) = [] -> be_pending (vh_backend v) = [] -> be_active (vh_backend v) = [] ->
  module_ok k' /\ k_hcds k' = <[h := v]> (k_hcds k) /\ dom (k_hubs k') = {[h]} ∪ dom (k_hubs k) /\
  k_usb_hcds k' = <[h := u]> (k_usb_hcds k).
Proof.
  destruct Hf as (F1 & F2 & F3). intros [Hs Hb Hv Hu Hh Hn] El Hc E1 E2 E3. split_and!.
  - apply (side_module _ _ h k); try done.
    + unfold load_of. by rewrite Hv, F1, E1, E2, E3.
    + intros w Hw. rewrite Hv in Hw. injection Hw as <-. split_and!; [done | done | by eexists | done].
    + left. by eexists.
  - apply delete_insert_fresh; [apply Hs | done..].
  - pose proof (sd_hubs _ _ _ Hs) as E.
    rewrite (difference_disjoint_L (dom (k_hubs k))) in E
      by (by apply disjoint_singleton_r, not_elem_of_dom).
    rewrite <- E. apply elem_of_dom in Hh. by apply union_difference_singleton_L.
  - apply delete_insert_fresh; [apply Hs | done..].
Qed.
End fresh.

(** ** The host controllers of a loaded module

    The instances, newest first; the index of an instance is the number of
    those before it. *)

Abbreviation instances := (list (pdev_ptr * hcd_ptr)).

Section loaded.
Context (L : devt_macros) (base : Z).

Definition devt_of (i : nat) : Z := instance_devt L base (Z.of_nat i).

Fixpoint pdev_table (l : instances) : gmap pdev_ptr platform_device :=
  match l with
  | [] => ∅
  | (p, h) :: l =>
      <[p := mk_pdev (Z.of_nat (length l)) (Some VIRTUSB_ROOT_HUB_PORTS) (Some h) true]> (pdev_table l)
  end.
Fixpoint hcd_table (l : instances) : gmap hcd_ptr hcd_config :=
  match l with
  | [] => ∅
  | (p, h) :: l =>
      <[h := mk_hcd_config (Z.of_nat (length l)) (Some h) (active_control_of h (devt_of (length l)))]>
        (hcd_table l)
  end.
Fixpoint hcd_set (l : instances) : gset hcd_ptr :=
  match l with [] => ∅ | (p, h) :: l => {[h]} ∪ hcd_set l end.
Fixpoint devt_set (l : instances) : gset Z :=
  match l with [] => ∅ | _ :: l => {[devt_of (length l)]} ∪ devt_set l end.

(** The numbers of the driver's region are distinct device numbers. *)
Record region_ok : Prop := {
  rg_minor : forall ma mi, 0 <= mi < 2 ^ 20 -> MAJOR L (MKDEV L ma mi) = ma /\ MINOR L (MKDEV L ma mi) = mi;
  rg_base : 0 <= MINOR L base /\ MINOR L base + VIRTUSB_MAX_HCD_COUNT <= 2 ^ 20;
}.

Record loaded (l : instances) (s : system) : Prop := {
  ld_module : module_ok (sy_kernel s);
  ld_typed : typed (sy_kernel s);
  ld_hcds : config_of <$> k_hcds (sy_kernel s) = hcd_table l;
  ld_hubs : dom (k_hubs (sy_kernel s)) = hcd_set l;
  ld_usb : dom (k_usb_hcds (sy_kernel s)) = hcd_set l;
  ld_pdevs : lx_pdevs (sy_linux s) = pdev_table l;
  ld_added : lx_hcds (sy_linux s) = hcd_set l;
  ld_cdevs : lx_cdevs (sy_linux s) = devt_set l;
  ld_nodes : lx_nodes (sy_linux s) = devt_set l;
  ld_pdev_new : NoDup l.*1;
  ld_hcd_new : NoDup l.*2;
}.

Lemma hcd_set_elem l h : h ∈ hcd_set l <-> h ∈ l.*2.
Proof.
  induction l as [|[p x] l IH]; cbn; [set_solver | ].
  rewrite elem_of_union, elem_of_singleton, elem_of_cons, IH. done.
Qed.
Lemma hcd_table_dom l : dom (hcd_table l) = hcd_set l.
Proof. induction l as [|[p x] l IH]; cbn; [apply dom_empty_L | by rewrite dom_insert_L, IH]. Qed.
Lemma hcd_table_size l : NoDup l.*2 -> size (hcd_table l) = length l.
Proof.
  induction l as [|[p x] l IH]; cbn; intros Hn; [apply map_size_empty | ].
  apply NoDup_cons in Hn as [Hx Hn]. rewrite map_size_insert_None, IH; [done | done | ].
  apply not_elem_of_dom. by rewrite hcd_table_dom, hcd_set_elem.
Qed.
Lemma loaded_size l s : loaded l s -> size (k_hcds (sy_kernel s)) = length l.
Proof.
  intros Hl. rewrite <- (map_size_fmap config_of), (ld_hcds _ _ Hl). apply hcd_table_size, Hl.
Qed.
Lemma pdev_table_None l p : p ∉ l.*1 -> pdev_table l !! p = None.
Proof.
  induction l as [|[q x] l IH]; cbn; [done | ]. rewrite not_elem_of_cons. intros [Hq Hl].
  rewrite lookup_insert_ne; [auto | done].
Qed.

Context (Hrg : region_ok).

Lemma devt_of_minor i : Z.of_nat i < VIRTUSB_MAX_HCD_COUNT ->
  MINOR L (devt_of i) = MINOR L base + Z.of_nat i.
Proof.
  intros Hi. destruct Hrg as [Hm [H1 H2]]. unfold devt_of, instance_devt, VIRTUSB_MAX_HCD_COUNT in *.
  rewrite (wrap_small 32) by (unfold in_width; lia). apply Hm. lia.
Qed.
Lemma devt_of_inj i j : Z.of_nat i < VIRTUSB_MAX_HCD_COUNT -> Z.of_nat j < VIRTUSB_MAX_HCD_COUNT ->
  devt_of i = devt_of j -> i = j.
Proof. intros Hi Hj E. pose proof (devt_of_minor i Hi). pose proof (devt_of_minor j Hj). rewrite E in *. lia. Qed.

Lemma devt_set_elem l x : x ∈ devt_set l -> exists i, (i < length l)%nat /\ x = devt_of i.
Proof.
  induction l as [|y l IH]; cbn; [set_solver | ]. rewrite elem_of_union, elem_of_singleton.
  intros [->|Hx]; [by exists (length l); split; [lia | ] | ].
  destruct (IH Hx) as (i & ? & ->). exists i. split; [lia | done].
Qed.
Lemma devt_set_new l n : Z.of_nat n < VIRTUSB_MAX_HCD_COUNT -> (length l <= n)%nat ->
  devt_of n ∉ devt_set l.
Proof.
  intros Hn Hl Hin. destruct (devt_set_elem l _ Hin) as (i & Hi & E).
  apply devt_of_inj in E; [lia | done | ]. unfold VIRTUSB_MAX_HCD_COUNT in *. lia.
Qed.

(** ** A module without users

    No device is attached, no file is open and no object is registered. *)
Record idle_module (k : kernel) : Prop := {
  im_unplugged : forall h, unplugged h k;
  im_files : forall f fv, k_files k !! f = Some fv -> fl_private_data fv = None;
  im_registry : k_registry k = ∅;
}.

Lemma idle_side h k k' : side_step h k k' -> idle_module k -> idle_module k'.
Proof.
  intros Hs [Hu Hf Hr]. split.
  - intros h' d pv i. rewrite (sd_devices _ _ _ Hs). apply Hu.
  - rewrite (sd_files _ _ _ Hs). exact Hf.
  - by rewrite (sd_registry _ _ _ Hs).
Qed.
Lemma idle_removed h k k' : removed h k k' -> idle_module k -> idle_module k'.
Proof.
  intros Hs [Hu Hf Hr]. split.
  - intros h'. by apply Hs.
  - rewrite (rm_files _ _ _ Hs). exact Hf.
  - by rewrite (rm_registry _ _ _ Hs).
Qed.
Lemma idle_no_file h k : idle_module k -> no_file h k.
Proof. intros Hi f fv ctx Hf Hctx. by rewrite (im_files _ Hi f fv Hf) in Hctx. Qed.

Lemma typed_side h k k' : side_step h k k' -> typed k -> typed k'.
Proof. intros Hs Ht. unfold typed. by rewrite (sd_objects _ _ _ Hs). Qed.

(** ** Creating an instance *)

Record create_env_wf (l : instances) (env : create_env) : Prop := {
  cw_pdev : forall p, cr_memory env = Some p -> p ∉ l.*1;
  cw_hcd : forall h, pe_memory (cr_probe env) = Some h -> h ∉ l.*2;
}.

Section create.
Context `{LinuxLaws} (l : instances) (k : kernel) (t : statics) (x : linux_side).
Context (Hl : loaded l (mk_system k t x)).
Context (Hbase : st_base_devt t = base).
Context (Hcount : Z.of_nat (length l) < st_instance_count t <= VIRTUSB_MAX_HCD_COUNT).
Context (Hdriver : lx_driver x = true).
Context (env : create_env) (Hwf : create_env_wf l env).

(** The platform device between allocation and probe. *)
Definition raw_pdev : platform_device :=
  mk_pdev (Z.of_nat (length l)) (Some VIRTUSB_ROOT_HUB_PORTS) None false.

Lemma instance_number : u32 (Z.of_nat (length l)) = Z.of_nat (length l) /\
  s32 (Z.of_nat (length l)) = Z.of_nat (length l).
Proof.
  unfold VIRTUSB_MAX_HCD_COUNT in *. split; [apply wrap_small; unfold in_width; lia | ].
  unfold s32. rewrite Z.mod_small by lia. lia.
Qed.

Lemma loaded_fresh h : h ∉ l.*2 -> fresh_hcd h k /\ h ∉ lx_hcds x.
Proof.
  destruct Hl as [_ _ E1 E2 E3 _ E4 _ _ _ _]. cbn in *. intros Hh.
  assert (Hn : h ∉ hcd_set l) by by rewrite hcd_set_elem.
  split; [unfold fresh_hcd; split_and! | by rewrite E4].
  - assert (config_of <$> k_hcds k !! h = None) as E.
    { rewrite <- lookup_fmap, E1. apply not_elem_of_dom. by rewrite hcd_table_dom. }
    by destruct (k_hcds k !! h).
  - apply not_elem_of_dom. by rewrite E2.
  - apply not_elem_of_dom. by rewrite E3.
Qed.

(** A failed probe leaves the instances as they are. *)
Lemma loaded_gone h k' : h ∉ l.*2 -> gone k h k' -> loaded l (mk_system k' t x).
Proof.
  intros Hh Hg. destruct (loaded_fresh h Hh) as [Hf _].
  destruct (gone_fresh h k k' (ld_module _ _ Hl) Hf Hg) as (Hm & E1 & E2 & E3).
  destruct Hl. cbn in *. split; cbn; try done; try congruence.
  by apply (typed_side h k); [apply Hg | ].
Qed.

Lemma loaded_built p h k' u : p ∉ l.*1 -> h ∉ l.*2 ->
  built k h (probed_hcd L t raw_pdev h) u k' ->
  loaded ((p, h) :: l) (mk_system k' t (set_pdevs (<[p := set_pd_bound true (set_pd_drvdata (Some h) raw_pdev)]>
    (lx_pdevs x)) (with_node (devt_of (length l)) (set_added ({[h]} ∪ lx_hcds x) x)))).
Proof.
  intros Hp Hh Hb. destruct (loaded_fresh h Hh) as [Hf _].
  destruct (built_fresh h k k' (ld_module _ _ Hl) Hf _ u Hb) as (Hm & E1 & E2 & E3);
    [done | by intros y [= <-] | done.. | ].
  pose proof (bt_side _ _ _ _ _ Hb) as Hs. pose proof (ld_typed _ _ Hl) as Ht.
  destruct Hl as [_ _ L1 L2 L3 L4 L5 L6 L7 L8 L9]. cbn in *. split; cbn; try done.
  - by apply (typed_side h k).
  - rewrite E1, fmap_insert, L1. unfold config_of, probed_hcd, devt_of, raw_pdev. cbn.
    destruct instance_number as [-> _]. by rewrite Hbase.
  - by rewrite E2, L2.
  - by rewrite E3, dom_insert_L, L3.
  - by rewrite L4.
  - by rewrite L5.
  - by rewrite L6.
  - by rewrite L7.
  - by constructor.
  - by constructor.
Qed.

Lemma drop_new_pdev p q k' : lx_pdevs x !! p = None ->
  drop_pdev p (mk_system k' t (set_pdevs (<[p := q]> (lx_pdevs x)) x)) = mk_system k' t x.
Proof.
  intros Hp. unfold drop_pdev, on_linux, set_linux, set_pdevs. cbn.
  rewrite delete_insert_id by done. by destruct x.
Qed.

Lemma put_device_eq p q k' r : lx_pdevs x !! p = None -> pd_bound q = false ->
  put_device p r (mk_system k' t (set_pdevs (<[p := q]> (lx_pdevs x)) x)) =
    Some (Err r, mk_system k' t x).
Proof.
  intros Hp Hq. unfold put_device. erewrite bind_eq; [ | apply (pdev_put p _ q); [apply lookup_insert_eq | done]].
  by rewrite drop_new_pdev.
Qed.

(** The probe of the new device. *)
Lemma raw_probe_spec p : p ∉ l.*1 ->
  exists r s', virtusb_hcd_platform_probe L (cr_probe env) p
      (mk_system k t (set_pdevs (<[p := raw_pdev]> (lx_pdevs x)) x)) = Some (r, s') /\
    if r =? 0 then exists h k' u, pe_memory (cr_probe env) = Some h /\
      s' = mk_system k' t (set_pdevs (<[p := set_pd_drvdata (Some h) raw_pdev]> (lx_pdevs x))
             (with_node (devt_of (length l)) (set_added ({[h]} ∪ lx_hcds x) x))) /\
      built k h (probed_hcd L t raw_pdev h) u k'
    else exists k', s' = mk_system k' t (set_pdevs (<[p := raw_pdev]> (lx_pdevs x)) x) /\
      (k' = k \/ exists h, (h ∉ l.*2) /\ gone k h k').
Proof.
  intros Hp. destruct Hwf as [Hw1 Hw2].
  set (x' := set_pdevs (<[p := raw_pdev]> (lx_pdevs x)) x).
  destruct (probe_spec L k t x' p raw_pdev (module_bus _ _ _ (ld_module _ _ Hl)) (lookup_insert_eq _ _ _)
    eq_refl VIRTUSB_ROOT_HUB_PORTS ltac:(done) eq_refl (cr_probe env)) as (s' & E & Hs').
  { split; try done.
    - intros h Hh. apply loaded_fresh. by apply Hw2.
    - cbn. destruct instance_number as [-> _]. rewrite Hbase.
      pose proof (ld_cdevs _ _ Hl) as Ec. cbn in Ec. rewrite Ec.
      apply devt_set_new; [lia | done].
    - cbn. destruct instance_number as [-> _]. rewrite Hbase.
      pose proof (ld_nodes _ _ Hl) as Ec. cbn in Ec. rewrite Ec.
      apply devt_set_new; [lia | done]. }
  eexists _, s'. split; [exact E | ]. destruct (_ =? 0).
  - destruct Hs' as (h & k' & Em & -> & Hb). exists h, k', (mk_usb_hcd (Some (pe_root_hub (cr_probe env))) true).
    split_and!; [done | | done]. f_equal. unfold probed_linux, x', devt_of, with_node. cbn.
    rewrite insert_insert_eq, Hbase. by destruct instance_number as [-> _].
  - destruct Hs' as (k' & -> & Hk). exists k'. split; [done | ].
    destruct Hk as [->|(h & Em & Hg)]; [by left | right]. exists h. split; [by apply Hw2 | done].
Qed.

(** Its registration. *)
Abbreviation with_pdev p := (fun q => mk_system k t (set_pdevs (<[p := q]> (lx_pdevs x)) x)).
Lemma added_spec p : p ∉ l.*1 -> cr_memory env = Some p -> 0 <= cr_add env ->
  exists s', platform_device_add (virtusb_hcd_platform_probe L (cr_probe env)) p (cr_add env)
      (with_pdev p raw_pdev) = Some (0, s') /\
    ((exists h k' x', s' = mk_system k' t x' /\ pe_memory (cr_probe env) = Some h /\
        lx_pdevs x' !! p = Some (set_pd_bound true (set_pd_drvdata (Some h) raw_pdev)) /\
        side_step h k k' /\ loaded ((p, h) :: l) s' /\
        lx_chrdev x' = lx_chrdev x /\ lx_class x' = lx_class x /\ lx_driver x' = true) \/
     exists k', s' = mk_system k' t (set_pdevs (<[p := raw_pdev]> (lx_pdevs x)) x) /\
       loaded l (mk_system k' t x) /\ (idle_module k -> idle_module k')).
Proof.
  intros Hp Em Hpos. destruct (raw_probe_spec p Hp) as (r & s1 & E1 & H1).
  pose proof (fun pd A B => pdev_add_probe (virtusb_hcd_platform_probe L (cr_probe env)) p (cr_add env)
    (with_pdev p raw_pdev) r s1 pd A B E1) as Hadd. cbn beta in Hadd.
  destruct (r =? 0).
  - destruct H1 as (h & k' & u & Eh & -> & Hb).
    rewrite (Hadd _ Hpos Hdriver (lookup_insert_eq _ _ _)), put_pdev_twice. eexists. split; [done | ].
    left. eexists h, k', _. split_and!; try done; [apply lookup_insert_eq | apply Hb | ].
    by apply (loaded_built p h k' u Hp); [apply Hwf | ].
  - destruct H1 as (k' & -> & Hk).
    rewrite (Hadd _ Hpos Hdriver (lookup_insert_eq _ _ _)), put_pdev_twice. eexists. split; [done | ].
    right. exists k'. split_and!; [done | | ]; destruct Hk as [->|(h & Hh & Hg)]; try done.
    + by apply (loaded_gone h k').
    + apply (idle_side h k k'), Hg.
Qed.

Lemma create_spec : exists r s',
  virtusb_hcd_create L (Z.of_nat (length l)) VIRTUSB_ROOT_HUB_PORTS env (mk_system k t x) =
    Some (r, s') /\
  (idle_module k -> idle_module (sy_kernel s')) /\
  match r with
  | Ok p => exists h k' x', s' = mk_system k' t x' /\ cr_memory env = Some p /\
      pe_memory (cr_probe env) = Some h /\ loaded ((p, h) :: l) s' /\
      lx_chrdev x' = lx_chrdev x /\ lx_class x' = lx_class x /\ lx_driver x' = true
  | Err e => exists k', s' = mk_system k' t x /\ loaded l s' /\ (e < 0)
  end.
Proof.
  pose proof (ld_pdevs _ _ Hl) as Ep. cbn in Ep.
  unfold virtusb_hcd_create. change ((_ =? 0) || _) with false. cbn [orb].
  destruct instance_number as [_ Hs32]. rewrite Hs32. destruct (cr_memory env) as [p|] eqn:Em.
  2: { execute (pdev_alloc_oom (Z.of_nat (length l)) (mk_system k t x)).
       eexists _, _. split; [done | ]. split; [done | ]. by exists k. }
  assert (Hp : p ∉ l.*1) by by apply Hwf.
  assert (Hpx : lx_pdevs x !! p = None) by (rewrite Ep; by apply pdev_table_None).
  execute (pdev_alloc_new (Z.of_nat (length l)) p (mk_system k t x) Hpx).
  set (pd0 := mk_pdev (Z.of_nat (length l)) None None false).
  execute (pdev_add_data p VIRTUSB_ROOT_HUB_PORTS (cr_add_data env) (put_pdev p pd0 (mk_system k t x)) pd0
    (lookup_insert_eq _ _ _)).
  destruct (cr_add_data env <? 0) eqn:Ed.
  { rewrite Ed, (put_device_eq p pd0 k _ Hpx eq_refl). eexists _, _. split; [done | ].
    split; [done | ]. exists k. split_and!; [done.. | by apply Z.ltb_lt]. }
  cbn [Z.ltb Z.compare].
  change (put_pdev p _ (put_pdev p _ _)) with
    (put_pdev p raw_pdev (mk_system k t (set_pdevs (<[p := pd0]> (lx_pdevs x)) x))).
  rewrite put_pdev_twice. destruct (Z.lt_ge_cases (cr_add env) 0) as [Hneg|Hpos].
  { execute (pdev_add_error (virtusb_hcd_platform_probe L (cr_probe env)) p (cr_add env)
      (with_pdev p raw_pdev) Hneg).
    rewrite (proj2 (Z.ltb_lt _ _) Hneg), (put_device_eq p raw_pdev k _ Hpx eq_refl).
    eexists _, _. split; [done | ]. split; [done | ]. exists k. by split_and!. }
  destruct (added_spec p Hp Em Hpos) as (s' & E & [(h & k' & x' & -> & Eh & Ex & Hs & Hl' & E1 & E2 & E3)|(k' & -> & Hl' & Hi)]).
  - execute E. cbn [Z.ltb Z.compare]. execute (load_pdev_eq p k' t x' _ Ex). eexists _, _. split; [done | ]. split.
    { apply (idle_side h k k' Hs). }
    exists h, k', x'. by split_and!.
  - execute E. cbn [Z.ltb Z.compare].
    execute (load_pdev_eq p k' t (set_pdevs (<[p := raw_pdev]> (lx_pdevs x)) x) raw_pdev (lookup_insert_eq _ _ _)).
    change (pd_drvdata raw_pdev) with (@None hcd_ptr). cbn iota.
    execute (pdev_unregister_unbound virtusb_hcd_platform_remove p
      (mk_system k' t (set_pdevs (<[p := raw_pdev]> (lx_pdevs x)) x)) raw_pdev (lookup_insert_eq _ _ _) eq_refl).
    rewrite (drop_new_pdev p raw_pdev k' Hpx). eexists _, _. split; [done | ]. split; [done | ].
    by exists k'.
Qed.
End create.

(** ** Destroying the newest instance *)

Section destroy.
Context `{LinuxLaws} (p : pdev_ptr) (h : hcd_ptr) (l : instances) (k : kernel) (t : statics) (x : linux_side).
Context (Hl : loaded ((p, h) :: l) (mk_system k t x)) (Hi : idle_module k).
Context (Hlen : Z.of_nat (length l) < VIRTUSB_MAX_HCD_COUNT).
Lemma newest_hcd : exists v, k_hcds k !! h = Some v /\
  vh_control v = active_control_of h (devt_of (length l)).
Proof.
  pose proof (ld_hcds _ _ Hl) as E. cbn in E. apply (f_equal (fun m => m !! h)) in E.
  rewrite lookup_fmap, lookup_insert_eq in E. destruct (k_hcds k !! h) as [v|]; [ | done].
  exists v. split; [done | ]. by injection E.
Qed.

Lemma destroy_spec : exists k' x',
  platform_device_unregister virtusb_hcd_platform_remove p (mk_system k t x) = Some (tt, mk_system k' t x') /\
  loaded l (mk_system k' t x') /\ idle_module k' /\
  lx_chrdev x' = lx_chrdev x /\ lx_class x' = lx_class x /\ lx_driver x' = lx_driver x.
Proof.
  destruct newest_hcd as (v & Hv & Ec).
  pose proof (ld_pdevs _ _ Hl) as Ep. cbn in Ep.
  assert (Hp : lx_pdevs x !! p = Some (mk_pdev (Z.of_nat (length l)) (Some VIRTUSB_ROOT_HUB_PORTS) (Some h) true))
    by (rewrite Ep; apply lookup_insert_eq).
  destruct (remove_spec k t x p _ Hp h eq_refl (ld_module _ _ Hl) (im_unplugged _ Hi h) v Hv
    ltac:(by rewrite Ec)) as (k' & E & Hr).
  { pose proof (ld_added _ _ Hl) as El. cbn in El. rewrite El. apply elem_of_union_l, elem_of_singleton_2, eq_refl. }
  { pose proof (ld_cdevs _ _ Hl) as El. cbn in El. rewrite El, Ec. apply elem_of_union_l, elem_of_singleton_2, eq_refl. }
  { pose proof (ld_nodes _ _ Hl) as El. cbn in El. rewrite El, Ec. apply elem_of_union_l, elem_of_singleton_2, eq_refl. }
  set (x1 := removed_linux x p _ h v) in E.
  assert (Hp1 : lx_pdevs x1 !! p = Some (mk_pdev (Z.of_nat (length l)) (Some VIRTUSB_ROOT_HUB_PORTS) None true))
    by apply lookup_insert_eq.
  exists k', (set_pdevs (delete p (lx_pdevs x)) x1). split_and!; try done.
  - rewrite (pdev_unregister_bound virtusb_hcd_platform_remove p (mk_system k t x) _ _ Hp eq_refl E (mk_is_Some _ _ Hp1)).
    unfold drop_pdev, on_linux, set_linux, set_pdevs. cbn. by rewrite delete_insert_eq.
  - pose proof (ld_pdev_new _ _ Hl) as N1. pose proof (ld_hcd_new _ _ Hl) as N2. cbn in N1, N2.
    apply NoDup_cons in N1 as [N1 N1']. apply NoDup_cons in N2 as [N2 N2'].
    assert (Nh : h ∉ hcd_set l) by by rewrite hcd_set_elem.
    assert (Nd : devt_of (length l) ∉ devt_set l) by by apply devt_set_new.
    destruct Hl as [_ Ht L1 L2 L3 _ L5 L6 L7 _ _]. cbn in *. split; cbn; try done.
    + apply (rm_ok _ _ _ Hr). by apply idle_no_file.
    + by apply (rm_typed _ _ _ Hr).
    + rewrite (rm_hcd _ _ _ Hr), fmap_delete, L1, delete_insert_id; [done | ].
      apply not_elem_of_dom. by rewrite hcd_table_dom.
    + rewrite (rm_hubs _ _ _ Hr), L2. by apply add_remove_id.
    + rewrite (rm_usb _ _ _ Hr), dom_delete_L, L3. by apply add_remove_id.
    + rewrite Ep, delete_insert_id; [done | ]. by apply pdev_table_None.
    + rewrite L5. by apply add_remove_id.
    + rewrite L6, Ec. by apply add_remove_id.
    + rewrite L7, Ec. by apply add_remove_id.
  - by apply (idle_removed h k).
Qed.
End destroy.
End loaded.
