(* ===== verification/LoadSpec.v ===== *)
(** * Module init and exit

    The loops over the instances, and the two entry points of the module as a
    whole: init either builds all host controllers or leaves nothing behind, and
    exit takes everything down. *)

From S2P Require Import Prelude Uapi Kernel Port Hub Object Device Transfer Backend BackendInv BackendOps Hcd HcdSpec UrbSpec Control ControlSpec Frame ModuleSpec Config Linux Platform LifeSpec PlatformSpec InitSpec.

(** The array [virtusb_hcd_devices]. *)
Definition device_slots (n : nat) (l : instances) : list (option pdev_ptr) :=
  map Some (rev l.*1) ++ replicate (n - length l) None.

Lemma device_slots_length n l : (length l <= n)%nat -> length (device_slots n l) = n.
Proof. intros Hl. unfold device_slots. rewrite length_app, length_map, length_rev, length_fmap, length_replicate. lia. Qed.

Lemma device_slots_front (l : instances) : length (map Some (rev l.*1)) = length l.
Proof. by rewrite length_map, length_rev, length_fmap. Qed.

Lemma device_slots_insert n l v : (length l < n)%nat ->
  <[length l := v]> (device_slots n l) =
    map Some (rev l.*1) ++ v :: replicate (n - S (length l)) None.
Proof.
  intros Hl. unfold device_slots. rewrite insert_app_r_alt by (by rewrite device_slots_front).
  rewrite device_slots_front, Nat.sub_diag.
  by replace (n - length l)%nat with (S (n - S (length l))) by lia.
Qed.
Lemma device_slots_add n l p h : (length l < n)%nat ->
  <[length l := Some p]> (device_slots n l) = device_slots n ((p, h) :: l).
Proof.
  intros Hl. rewrite device_slots_insert by done. unfold device_slots. cbn.
  by rewrite map_app, <- app_assoc.
Qed.
Lemma device_slots_none n l : (length l < n)%nat ->
  <[length l := None]> (device_slots n l) = device_slots n l.
Proof.
  intros Hl. rewrite device_slots_insert by done. unfold device_slots.
  by replace (n - length l)%nat with (S (n - S (length l))) by lia.
Qed.
Lemma device_slots_clear n l p h : (length l < n)%nat ->
  <[length l := None]> (device_slots n ((p, h) :: l)) = device_slots n l.
Proof.
  intros Hl. rewrite <- device_slots_add, list_insert_insert_eq by done. by apply device_slots_none.
Qed.
Lemma device_slots_last n l p h : (length l < n)%nat ->
  device_slots n ((p, h) :: l) !! length l = Some (Some p).
Proof.
  intros Hl. rewrite <- device_slots_add by done. apply list_lookup_insert_eq.
  rewrite device_slots_length; lia.
Qed.

(** ** The module that is not loaded *)

(** No storage, no reference, every URB given back, every file closed. *)
Record empty_module (k : kernel) : Prop := {
  em_hcds : k_hcds k = ∅;
  em_hubs : k_hubs k = ∅;
  em_usb : k_usb_hcds k = ∅;
  em_ports : k_ports k = ∅;
  em_objects : k_objects k = ∅;
  em_registry : k_registry k = ∅;
  em_transfers : k_transfers k = ∅;
  em_next : 0 <= k_next_transfer_id k < 2 ^ 64;
  em_urbs : balance_ok k;
  em_files : forall f fv, k_files k !! f = Some fv -> fl_private_data fv = None;
}.
Definition no_statics : statics := mk_statics false 0 0 None 0.
Definition no_linux : linux_side := mk_linux None false ∅ ∅ ∅ false ∅.
Record unloaded (s : system) : Prop := {
  ul_kernel : empty_module (sy_kernel s);
  ul_statics : sy_statics s = no_statics;
  ul_linux : sy_linux s = no_linux;
}.

Lemma empty_module_ok k : empty_module k -> 1 <= k_next_object_id k <= U32_MAX + 1 -> module_ok k.
Proof.
  intros [E1 E2 E3 E4 E5 E6 E7 E8 E9 E10] Hid.
  assert (Hsum : forall f, hcd_sum f (k_hcds k) = 0) by (intros f; by rewrite E1).
  split; [split; [split | | ] | | ].
  - split.
    + split; [split | ]; rewrite ?E2, ?E4; done.
    + split; rewrite ?E5, ?E6, ?E7; try done.
      * intros o _. unfold binding_refs. by rewrite Hsum.
      * intros o. rewrite E4. by split; intros [? ?].
    + split; rewrite ?E7; try done. intros t _. unfold request_refs. by rewrite Hsum.
    + intros o. unfold binding_refs. by rewrite Hsum.
  - done.
  - done.
  - intros h v. by rewrite E1.
  - intros t. unfold request_refs. by rewrite Hsum.
  - intros h v r. by rewrite E1.
  - done.
  - intros c v. by rewrite E1.
  - intros f fv ctx c Hf. by rewrite (E10 f fv Hf).
Qed.

Lemma empty_module_idle k : empty_module k -> idle_module k /\ typed k.
Proof.
  intros []. split; [split | ]; try done.
  - intros h d pv i. by rewrite em_ports0.
  - intros o ov. by rewrite em_objects0.
Qed.

(** Without HCDs and registered objects nothing is left. *)
Lemma nothing_left k : module_ok k -> idle_module k -> k_hcds k = ∅ -> dom (k_hubs k) = ∅ ->
  dom (k_usb_hcds k) = ∅ -> empty_module k.
Proof.
  intros Hm [Hu Hf Hr] E1 E2 E3. apply dom_empty_inv_L in E2, E3.
  pose proof (mo_inv _ _ _ Hm) as [[[Hb Ho Ht _] _ _ _ _] _ Hbal].
  assert (Hsum : forall f, hcd_sum f (k_hcds k) = 0) by (intros f; by rewrite E1).
  assert (E7 : k_transfers k = ∅).
  { apply map_eq. intros t. rewrite lookup_empty. destruct (k_transfers k !! t) as [tv|] eqn:E; [ | done].
    destruct (to_refcount _ _ Ht t tv E) as [Er Hpos]. unfold request_refs in Er. rewrite Hsum in Er. lia. }
  assert (E5 : k_objects k = ∅).
  { apply map_eq. intros o. rewrite lookup_empty. destruct (k_objects k !! o) as [ov|] eqn:E; [ | done].
    destruct (oo_refcount _ _ Ho o ov E) as (_ & Er & Hpos). unfold binding_refs in Er.
    rewrite E7, Hsum in Er. unfold registry_refs in Er. destruct (ob_registered ov) eqn:Ereg.
    - pose proof (oo_registered _ _ Ho o ov E Ereg) as Hreg. by rewrite Hr in Hreg.
    - assert (transfer_refs ∅ o = 0) by apply map_sum_empty. lia. }
  split; try done.
  - apply map_eq. intros p. rewrite lookup_empty. destruct (k_ports k !! p) as [pv|] eqn:E; [ | done].
    destruct p as [d|h i].
    + destruct (proj2 (oo_port _ _ Ho d)) as [ov Hov]; [by eexists | ]. by rewrite E5 in Hov.
    + destruct (bw_hubport _ _ (proj1 Hb) _ _ _ E) as [_ [hv Hh]]. by rewrite E2 in Hh.
  - apply (to_next _ _ Ht).
Qed.

Section load.
Context `{LinuxLaws} (L : devt_macros) (base : Z) (Hrg : region_ok L base).
Context (n : Z) (Hn : 1 <= n <= VIRTUSB_MAX_HCD_COUNT).

Record running (l : instances) (s : system) : Prop := {
  rn_loaded : loaded L base l s;
  rn_statics : sy_statics s =
    mk_statics true base n (Some (device_slots (Z.to_nat n) l)) (Z.of_nat (length l));
  rn_chrdev : lx_chrdev (sy_linux s) = Some (base, n);
  rn_class : lx_class (sy_linux s) = true;
  rn_driver : lx_driver (sy_linux s) = true;
  rn_length : Z.of_nat (length l) <= n;
}.

Lemma write_slot k x l i v : Z.of_nat i < n -> (length l <= Z.to_nat n)%nat ->
  write_hcd_device (Z.of_nat i) v
    (mk_system k (mk_statics true base n (Some (device_slots (Z.to_nat n) l)) (Z.of_nat (length l))) x) =
  Some (tt, mk_system k (mk_statics true base n (Some (<[i := v]> (device_slots (Z.to_nat n) l)))
                           (Z.of_nat (length l))) x).
Proof.
  intros Hi Hl. unfold write_hcd_device. execute_cbn. cbn [st_hcd_devices].
  rewrite device_slots_length by done. destruct (Z.ltb_spec (Z.of_nat i) (Z.of_nat (Z.to_nat n))); [ | lia].
  by rewrite Nat2Z.id.
Qed.

(** ** Creating the instances *)

Record init_env_wf (env : init_env) : Prop := {
  iw_pdev : forall i j p, 0 <= i < n -> 0 <= j < n -> cr_memory (in_create env i) = Some p ->
    cr_memory (in_create env j) = Some p -> i = j;
  iw_hcd : forall i j h, 0 <= i < n -> 0 <= j < n -> pe_memory (cr_probe (in_create env i)) = Some h ->
    pe_memory (cr_probe (in_create env j)) = Some h -> i = j;
}.

(** The memory of the instances was allocated for them. *)
Definition allocated (env : init_env) (l : instances) : Prop :=
  forall p h, (p, h) ∈ l -> exists i, 0 <= i < Z.of_nat (length l) /\
    cr_memory (in_create env i) = Some p /\ pe_memory (cr_probe (in_create env i)) = Some h.

Lemma allocated_wf env l : init_env_wf env -> allocated env l -> Z.of_nat (length l) < n ->
  create_env_wf l (in_create env (Z.of_nat (length l))).
Proof.
  intros Hw Ha Hl. split.
  - intros p Hp Hin. apply list_elem_of_fmap in Hin as ([p' h] & -> & Hin).
    destruct (Ha _ _ Hin) as (i & Hi & E & _).
    pose proof (iw_pdev _ Hw i (Z.of_nat (length l)) p' ltac:(lia) ltac:(lia) E Hp). lia.
  - intros h Hh Hin. apply list_elem_of_fmap in Hin as ([p h'] & -> & Hin).
    destruct (Ha _ _ Hin) as (i & Hi & _ & E).
    pose proof (iw_hcd _ Hw i (Z.of_nat (length l)) h' ltac:(lia) ltac:(lia) E Hh). lia.
Qed.

Lemma create_hcds_spec env (Hw : init_env_wf env) m : forall l s, running l s -> allocated env l ->
  Z.of_nat (length l + m) <= n ->
  exists r s' l', create_hcds L m (Z.of_nat (length l)) env s = Some (r, s') /\
    running l' s' /\ (idle_module (sy_kernel s) -> idle_module (sy_kernel s')) /\
    (r = 0 /\ length l' = (length l + m)%nat \/ r < 0).
Proof.
  induction m as [|m IH]; intros l [k t x] Hr Ha Hlen; cbn [create_hcds].
  { exists 0, (mk_system k t x), l. split_and!; [done.. | ]. left. lia. }
  destruct Hr as [Hl Et Ec Ecl Ed Hll]. cbn in Et, Ec, Ecl, Ed. subst t.
  destruct (create_spec L base Hrg l k _ x Hl eq_refl ltac:(cbn; lia) Ed
    (in_create env (Z.of_nat (length l))) (allocated_wf env l Hw Ha ltac:(lia)))
    as (r & s1 & E & Hidle & H1).
  execute E. destruct r as [p|e].
  - destruct H1 as (h & k' & x' & -> & Em & Eh & Hl' & X1 & X2 & X3).
    execute (write_slot k' x' l (length l) (Some p) ltac:(lia) ltac:(lia)).
    rewrite (device_slots_add _ l p h) by lia. execute_cbn. execute_cbn. cbn [st_created_count].
    unfold set_created_count. cbn.
    rewrite (wrap_small 32) by (unfold in_width, VIRTUSB_MAX_HCD_COUNT in *; lia).
    replace (Z.of_nat (length l) + 1) with (Z.of_nat (length ((p, h) :: l))) by (cbn; lia).
    destruct (IH ((p, h) :: l) (mk_system k' (mk_statics true base n
        (Some (device_slots (Z.to_nat n) ((p, h) :: l))) (Z.of_nat (length ((p, h) :: l)))) x'))
      as (r & s' & l' & E' & Hr' & Hi' & Hres); [ | | | exists r, s', l'].
    + split; [ | reflexivity | cbn; congruence | cbn; congruence | done | cbn; lia].
      by destruct Hl'; split.
    + intros q y Hin. apply elem_of_cons in Hin as [[= -> ->]|Hin].
      * exists (Z.of_nat (length l)). cbn. split_and!; [lia | lia | done | done].
      * destruct (Ha q y Hin) as (i & ? & ? & ?). exists i. cbn. split_and!; [lia | lia | done | done].
    + cbn. lia.
    + split_and!; [exact E' | done | by intros; apply Hi', Hidle | ]. cbn in Hres. lia.
  - destruct H1 as (k' & -> & Hl' & He).
    execute (write_slot k' x l (length l) None ltac:(lia) ltac:(lia)).
    rewrite device_slots_none by lia. eexists _, _, l. split; [done | ]. split_and!; [by split | done | by right].
Qed.

(** ** Destroying them *)

Lemma destroy_loop_spec l : forall s, running l s ->
  idle_module (sy_kernel s) ->
  exists s', module_destroy_loop (S (length l)) s = Some (tt, s') /\
    running [] s' /\ idle_module (sy_kernel s').
Proof.
  induction l as [|[p h] l IH]; intros [k t x] Hr Hi; destruct Hr as [Hl Et Ec Ecl Ed Hll];
    cbn in Et, Ec, Ecl, Ed, Hi; subst t.
  { eexists. split; [reflexivity | ]. by split; [split | ]. }
  cbn [length] in *. cbn [module_destroy_loop]. execute_cbn. cbn [st_created_count].
  destruct (Z.leb_spec (Z.of_nat (S (length l))) 0); [lia | ].
  execute_cbn. unfold set_created_count. cbn.
  replace (Z.of_nat (S (length l)) - 1) with (Z.of_nat (length l)) by lia.
  assert (Er : read_hcd_device (Z.of_nat (length l)) (mk_system k
      (mk_statics true base n (Some (device_slots (Z.to_nat n) ((p, h) :: l))) (Z.of_nat (length l))) x) =
    Some (Some p, mk_system k
      (mk_statics true base n (Some (device_slots (Z.to_nat n) ((p, h) :: l))) (Z.of_nat (length l))) x)).
  { unfold read_hcd_device. execute_cbn. cbn [st_hcd_devices].
    rewrite Nat2Z.id, (device_slots_last _ l p h) by lia. done. }
  execute Er. clear Er. unfold virtusb_hcd_destroy.
  set (t1 := mk_statics _ _ _ _ _).
  assert (Hl1 : loaded L base ((p, h) :: l) (mk_system k t1 x)) by by destruct Hl; split.
  destruct (destroy_spec L base Hrg p h l k t1 x Hl1 Hi ltac:(lia))
    as (k' & x' & E & Hl' & Hi' & X1 & X2 & X3).
  execute E. clear E. unfold t1 at 1.
  assert (Ew : write_hcd_device (Z.of_nat (length l)) None (mk_system k' t1 x') = Some (tt, mk_system k'
      (mk_statics true base n (Some (device_slots (Z.to_nat n) l)) (Z.of_nat (length l))) x')).
  { unfold write_hcd_device. execute_cbn. cbn [st_hcd_devices t1].
    rewrite device_slots_length by (cbn; lia).
    destruct (Z.ltb_spec (Z.of_nat (length l)) (Z.of_nat (Z.to_nat n))); [ | lia].
    rewrite Nat2Z.id, device_slots_clear by lia. done. }
  execute Ew. clear Ew. apply IH; [ | done].
  split; [by destruct Hl'; split | reflexivity | cbn; congruence | cbn; congruence | cbn; congruence | cbn; lia].
Qed.

(** ** Taking the rest down *)

Lemma running_nil k t x : running [] (mk_system k t x) ->
  t = mk_statics true base n (Some (replicate (Z.to_nat n) None)) 0 /\
  x = mk_linux (Some (base, n)) true ∅ ∅ ∅ true ∅.
Proof.
  intros [[_ _ _ _ _ P1 P2 P3 P4 _ _] Et Ec Ecl Ed _]. cbn in *. split.
  - rewrite Et. unfold device_slots. cbn. by rewrite Nat.sub_0_r.
  - destruct x. cbn in *. congruence.
Qed.

Lemma running_nil_empty k t x : running [] (mk_system k t x) -> idle_module k -> empty_module k.
Proof.
  intros [[Hm _ P1 P2 P3 _ _ _ _ _ _] _ _ _ _ _] Hi. cbn in *.
  apply nothing_left; try done. by apply fmap_empty_inv in P1.
Qed.

Lemma driver_unregister_eq k t x : lx_pdevs x = ∅ ->
  virtusb_hcd_driver_unregister (mk_system k t x) = Some (tt, mk_system k t (set_driver false x)).
Proof.
  intros Hx. unfold virtusb_hcd_driver_unregister. rewrite driver_unregister; [done | ].
  intros p pd. unfold sy_pdevs. cbn. by rewrite Hx.
Qed.

Lemma control_unregister_eq k b c devices created cdevs nodes hcds drv pdevs :
  virtusb_control_unregister (mk_system k (mk_statics true b c devices created)
    (mk_linux (Some (b, c)) true cdevs nodes hcds drv pdevs)) =
  Some (tt, mk_system k (mk_statics false 0 0 devices created) (mk_linux None false cdevs nodes hcds drv pdevs)).
Proof.
  unfold virtusb_control_unregister. execute_cbn. cbn [st_class negb].
  erewrite bind_eq; [ | by apply class_destroy_run]. execute_cbn. cbn [st_base_devt st_instance_count].
  erewrite bind_eq; [ | by apply chrdev_unregister]. done.
Qed.

Lemma manager_exit_eq k : k_registry k = ∅ -> virtusb_object_manager_exit k = Some (tt, k).
Proof.
  intros E. unfold virtusb_object_manager_exit, bind, gets, modify. rewrite E.
  rewrite bool_decide_eq_true_2 by done. cbn. by rewrite <- E, set_registry_id.
Qed.

Lemma free_hcd_devices_eq k devices x r : k_registry k = ∅ ->
  free_hcd_devices r (mk_system k (mk_statics false 0 0 devices 0) x) = Some (r, mk_system k no_statics x).
Proof.
  intros E. unfold free_hcd_devices, exit_object_manager. execute_cbn. unfold set_hcd_devices. cbn.
  by execute (lift_eq _ k no_statics x _ _ (manager_exit_eq k E)).
Qed.

(** ** Init *)

Lemma control_register_eq k devices env : ce_base env = base ->
  virtusb_control_register n env (mk_system k (mk_statics false 0 0 devices 0) no_linux) =
    if ce_alloc_chrdev env <? 0
    then Some (ce_alloc_chrdev env, mk_system k (mk_statics false 0 0 devices 0) no_linux)
    else if ce_class env <? 0
    then Some (ce_class env, mk_system k (mk_statics false 0 0 devices 0) no_linux)
    else Some (0, mk_system k (mk_statics true base n devices 0)
                    (mk_linux (Some (base, n)) true ∅ ∅ ∅ false ∅)).
Proof.
  intros Hb. unfold virtusb_control_register. execute_cbn. destruct (Z.eqb_spec n 0); [lia | ]. cbn [st_class].
  execute (chrdev_alloc n (ce_base env) (ce_alloc_chrdev env)
    (mk_system k (mk_statics false 0 0 devices 0) no_linux) eq_refl).
  destruct (ce_alloc_chrdev env <? 0); [done | ]. rewrite Hb. execute_cbn.
  erewrite bind_eq; [ | by apply class_create_run].
  destruct (ce_class env <? 0); cbn iota; [ | done]. execute_cbn.
  erewrite bind_eq; [ | by apply chrdev_unregister]. done.
Qed.

(** What init returns: all instances, or nothing. *)
Definition init_result (r : Z) (s' : system) : Prop :=
  if r =? 0
  then exists l, running l s' /\ Z.of_nat (length l) = n /\ idle_module (sy_kernel s')
  else r < 0 /\ unloaded s'.

Lemma free_devices_result k devices r : empty_module k -> r < 0 ->
  exists r' s', free_hcd_devices r (mk_system k (mk_statics false 0 0 devices 0) no_linux) = Some (r', s') /\
    init_result r' s'.
Proof.
  intros Hk Hr. exists r, (mk_system k no_statics no_linux). rewrite free_hcd_devices_eq by apply (em_registry _ Hk).
  split; [done | ]. unfold init_result. rewrite (proj2 (Z.eqb_neq _ _)) by lia. by split.
Qed.
Lemma unregister_control_result k devices drv r : empty_module k -> r < 0 ->
  exists r' s', unregister_control r (mk_system k (mk_statics true base n devices 0)
      (mk_linux (Some (base, n)) true ∅ ∅ ∅ drv ∅)) = Some (r', s') /\
    (drv = false -> init_result r' s').
Proof.
  intros Hk Hr. unfold unregister_control. execute (control_unregister_eq k base n devices 0 ∅ ∅ ∅ drv ∅).
  rewrite free_hcd_devices_eq by apply (em_registry _ Hk). eexists _, _. split; [done | ]. intros ->.
  unfold init_result. rewrite (proj2 (Z.eqb_neq _ _)) by lia. by split.
Qed.

(** Everything is registered, and no instance exists. *)
Lemma registered_running k : empty_module k -> k_next_object_id k = 1 ->
  running [] (mk_system k (mk_statics true base n (Some (replicate (Z.to_nat n) None)) 0)
    (mk_linux (Some (base, n)) true ∅ ∅ ∅ true ∅)).
Proof using Hn.
  intros Hk Hid. split; try done; [ | unfold device_slots; cbn; by rewrite Nat.sub_0_r | cbn; lia].
  destruct (empty_module_idle k Hk) as [_ Ht].
  split; try done; cbn.
  - apply empty_module_ok; [done | by rewrite Hid].
  - by rewrite (em_hcds _ Hk), fmap_empty.
  - by rewrite (em_hubs _ Hk), dom_empty_L.
  - by rewrite (em_usb _ Hk), dom_empty_L.
  - constructor.
  - constructor.
Qed.

(** The loop over the instances, and its way back. *)
Lemma create_phase env k : empty_module k -> k_next_object_id k = 1 -> init_env_wf env ->
  exists r s',
    (r <- create_hcds L (Z.to_nat n) 0 env ;;
     if r <? 0 then
       virtusb_module_destroy_hcds ;;
       virtusb_hcd_driver_unregister ;;
       unregister_control r
     else ret 0) (mk_system k (mk_statics true base n (Some (replicate (Z.to_nat n) None)) 0)
      (mk_linux (Some (base, n)) true ∅ ∅ ∅ true ∅)) = Some (r, s') /\ init_result r s'.
Proof using H Hn Hrg.
  intros Hk Hid Hw. pose proof (registered_running k Hk Hid) as Hr2. set (s2 := mk_system k _ _) in *.
  assert (Ha2 : allocated env []) by (intros p h Hin; by apply elem_of_nil in Hin).
  destruct (create_hcds_spec env Hw (Z.to_nat n) [] s2 Hr2 Ha2 ltac:(cbn; lia))
    as (r & [k3 t3 x3] & l & E3 & Hr3 & Hi3 & Hres).
  specialize (Hi3 (proj1 (empty_module_idle k Hk))). cbn in Hi3. execute E3. clear E3.
  cbn [length Nat.add] in Hres. destruct Hres as [[-> Hlen]|Hneg].
  { cbn [Z.ltb Z.compare]. eexists _, _. split; [done | ]. exists l. split_and!; [done | lia | done]. }
  apply Z.ltb_lt in Hneg as Er3. rewrite Er3.
  destruct (destroy_loop_spec l _ Hr3 Hi3) as ([k4 t4 x4] & E4 & Hr4 & Hi4).
  cbn in Hi4. assert (E4' : virtusb_module_destroy_hcds (mk_system k3 t3 x3) =
    Some (tt, mk_system k4 t4 x4)).
  { unfold virtusb_module_destroy_hcds. execute_cbn. pose proof (rn_statics _ _ Hr3) as Et. cbn in Et.
    by rewrite Et in E4 |- *; cbn [st_created_count]; rewrite Nat2Z.id. }
  execute E4'. clear E4 E4'. pose proof (running_nil_empty _ _ _ Hr4 Hi4) as Hk4.
  destruct (running_nil _ _ _ Hr4) as [-> ->].
  execute (driver_unregister_eq k4 (mk_statics true base n (Some (replicate (Z.to_nat n) None)) 0)
    (mk_linux (Some (base, n)) true ∅ ∅ ∅ true ∅) eq_refl).
  unfold set_driver. cbn [lx_chrdev lx_class lx_cdevs lx_nodes lx_hcds lx_pdevs].
  destruct (unregister_control_result k4 (Some (replicate (Z.to_nat n) None)) false r Hk4 Hneg) as (r' & s' & E & Hres).
  exists r', s'. split; [exact E | by apply Hres].
Qed.

Lemma init_spec env s : unloaded s -> init_env_wf env -> ce_base (in_control env) = base ->
  exists r s', virtusb_module_init L n env s = Some (r, s') /\
    if r =? 0
    then exists l, running l s' /\ Z.of_nat (length l) = n /\ idle_module (sy_kernel s')
    else r < 0 /\ unloaded s'.
Proof.
  destruct s as [k t x]. intros [Hk Et Ex] Hw Hbase. cbn in Hk, Et, Ex. subst t x.
  change (exists r s', virtusb_module_init L n env (mk_system k no_statics no_linux) = Some (r, s') /\ init_result r s').
  unfold virtusb_module_init.
  destruct (Z.eqb_spec n 0); [lia | ]. destruct (Z.ltb_spec VIRTUSB_MAX_HCD_COUNT n); [lia | ].
  cbn [orb]. set (k1 := set_next_object_id 1 k).
  assert (Hk1 : empty_module k1) by (destruct Hk; by split).
  execute (lift_eq virtusb_object_manager_init k no_statics no_linux tt k1 eq_refl).
  destruct (in_devices_oom env).
  { unfold exit_object_manager.
    execute (lift_eq _ k1 no_statics no_linux _ _ (manager_exit_eq k1 (em_registry _ Hk1))).
    eexists _, _. by split. }
  execute_cbn. unfold set_hcd_devices. cbn [no_statics st_class st_base_devt st_instance_count st_created_count].
  set (devices := Some (replicate (Z.to_nat n) None)).
  unfold bind at 1. rewrite (control_register_eq k1 devices _ Hbase).
  destruct (ce_alloc_chrdev (in_control env) <? 0) eqn:Ea.
  { rewrite Ea. apply free_devices_result; [done | by apply Z.ltb_lt]. }
  destruct (ce_class (in_control env) <? 0) eqn:Ec.
  { rewrite Ec. apply free_devices_result; [done | by apply Z.ltb_lt]. }
  cbn [Z.ltb Z.compare]. unfold virtusb_hcd_driver_register.
  erewrite bind_eq; [ | by apply driver_register].
  destruct (in_driver_register env <? 0) eqn:Ed; cbn beta iota; [ | by apply create_phase].
  rewrite Ed. apply Z.ltb_lt in Ed.
  destruct (unregister_control_result k1 devices false _ Hk1 Ed) as (r & s' & E & Hres).
  exists r, s'. split; [exact E | by apply Hres].
Qed.

(** ** Running *)

(** Calls into the module change no instance. *)
Lemma running_reach enc l k k' t x : running l (mk_system k t x) -> module_reach enc k k' ->
  running l (mk_system k' t x).
Proof.
  intros [Hl Et Ec Ecl Ed Hll] Hr. split; try done. destruct Hl as [Hm Ht L1 L2 L3 L4 L5 L6 L7 L8 L9]. cbn in *.
  destruct (module_reach_stays enc k k' Hr Ht) as [Hc Ht' _ _].
  unfold module_config in Hc. injection Hc as C1 C2 C3.
  split; cbn; try done.
  - by apply (module_reach_ok enc k).
  - by rewrite C1.
  - by rewrite C2.
  - by rewrite C3.
Qed.

(** ** Exit *)

Definition all_files_closed (k : kernel) : Prop :=
  forall f fv, k_files k !! f = Some fv -> fl_private_data fv = None.

(** The shutdown of all devices leaves a module without users. *)
Lemma shutdown_idle k fuel : module_ok k -> typed k -> all_files_closed k -> (size (k_registry k) < fuel)%nat ->
  exists k', virtusb_device_shutdown_all fuel k = Some (tt, k') /\ module_ok k' /\ typed k' /\
    idle_module k' /\ module_config k' = module_config k.
Proof.
  intros Hm Ht Hf Hfuel.
  destruct (shutdown_all_spec _ fuel k (module_bus _ _ _ Hm) (module_objects _ _ _ Hm) Hfuel)
    as (k' & E & Hs & Hdev).
  assert (Hm' : module_ok k') by (by eapply (module_device_step _ _ _ k k' Hm)).
  destruct (framed_device_shutdown_all (configured _ _ _) fuel k tt k' (configured_here k Ht) E) as [Hc Ht' _ _].
  pose proof (ds_objects _ _ _ Hs) as Ho.
  assert (Er : k_registry k' = ∅).
  { apply map_eq. intros id. rewrite lookup_empty. destruct (k_registry k' !! id) as [o|] eqn:E'; [ | done].
    destruct (oo_registry _ _ Ho id o E') as (_ & ov & Hov & Hreg & _).
    by destruct (Hdev id o ov E' Hov (Ht' o ov Hov Hreg)). }
  exists k'. split_and!; try done. split; [ | | done].
  - intros h d pv i Hd Hq. destruct (proj2 (oo_port _ _ Ho d)) as [ov Hov]; [by eexists | ].
    assert (Hreg : ob_registered ov = true) by (by apply (oo_attached _ _ Ho d ov pv Hov Hd); rewrite Hq).
    pose proof (oo_registered _ _ Ho d ov Hov Hreg) as E'. by rewrite Er in E'.
  - intros f fv. rewrite (fr_files _ _ (ds_frame _ _ _ Hs)). apply Hf.
Qed.

Lemma exit_spec l s fuel : running l s -> all_files_closed (sy_kernel s) ->
  (size (k_registry (sy_kernel s)) < fuel)%nat ->
  exists s', virtusb_module_exit fuel s = Some (tt, s') /\ unloaded s'.
Proof.
  destruct s as [k t x]. intros Hr Hf Hfuel. cbn in Hf, Hfuel.
  pose proof (rn_loaded _ _ Hr) as Hl.
  destruct (shutdown_idle k fuel (ld_module _ _ _ _ Hl) (ld_typed _ _ _ _ Hl) Hf Hfuel)
    as (k1 & E1 & Hm1 & Ht1 & Hi1 & Hc1).
  assert (Hr1 : running l (mk_system k1 t x)).
  { destruct Hr as [_ Et Ec Ecl Ed Hll]. split; try done.
    destruct Hl as [_ _ L1 L2 L3 L4 L5 L6 L7 L8 L9]. cbn in *.
    unfold module_config in Hc1. injection Hc1 as C1 C2 C3. split; cbn; congruence || done. }
  destruct (destroy_loop_spec l _ Hr1 Hi1) as ([k2 t2 x2] & E2 & Hr2 & Hi2). cbn in Hi2.
  pose proof (running_nil_empty _ _ _ Hr2 Hi2) as Hk2. destruct (running_nil _ _ _ Hr2) as [-> ->].
  unfold virtusb_module_exit. execute (lift_eq _ k t x _ _ E1).
  assert (E2' : virtusb_module_destroy_hcds (mk_system k1 t x) =
    Some (tt, mk_system k2 (mk_statics true base n (Some (replicate (Z.to_nat n) None)) 0)
                (mk_linux (Some (base, n)) true ∅ ∅ ∅ true ∅))).
  { unfold virtusb_module_destroy_hcds. execute_cbn. pose proof (rn_statics _ _ Hr) as Et. cbn in Et.
    rewrite Et in E2 |- *. cbn [st_created_count]. by rewrite Nat2Z.id. }
  execute E2'. clear E2 E2'.
  execute (driver_unregister_eq k2 (mk_statics true base n (Some (replicate (Z.to_nat n) None)) 0)
    (mk_linux (Some (base, n)) true ∅ ∅ ∅ true ∅) eq_refl).
  unfold set_driver. cbn [lx_chrdev lx_class lx_cdevs lx_nodes lx_hcds lx_pdevs].
  execute (control_unregister_eq k2 base n (Some (replicate (Z.to_nat n) None)) 0 ∅ ∅ ∅ false ∅).
  execute_cbn. unfold set_hcd_devices. cbn.
  eexists. split; [by apply lift_eq, manager_exit_eq, Hk2 | ]. by split.
Qed.
End load.
