(* ===== verification/Scenario.v ===== *)
(** * A concrete run of the module

    One host controller with four ports, two control files and two devices: the
    states that the witnesses of the properties refer to.  Each state is the
    result of evaluating a handler in the previous one. *)

From S2P Require Import Prelude Uapi Kernel Port Hub Object Device Transfer Backend BackendInv BackendOps Hcd HcdSpec UrbSpec Control ControlSpec ModuleSpec.

(** The encoding of include/uapi/asm-generic/ioctl.h. *)
Definition ioc (dir type nr size : Z) : Z :=
  Z.lor (Z.lor (Z.shiftl dir 30) (Z.shiftl size 16)) (Z.lor (Z.shiftl type 8) nr).
Definition linux : ioctl_encoding := {|
  _IO type nr := ioc 0 type nr 0;
  _IOR type nr size := ioc 2 type nr size;
  _IOW type nr size := ioc 1 type nr size;
  _IOWR type nr size := ioc 3 type nr size;
|}.

Definition h1 : hcd_ptr := Ptr 1.
Definition d1 : obj_ptr := Ptr 1.
Definition d2 : obj_ptr := Ptr 2.
Definition f1 : file_ptr := Ptr 1.
Definition f2 : file_ptr := Ptr 2.
Definition u1 : urb_ptr := Ptr 1.
Definition u2 : urb_ptr := Ptr 2.
Definition t1 : transfer_ptr := Ptr 1.
Definition t2 : transfer_ptr := Ptr 2.
Definition root_dev : usbdev_ptr := Ptr 1.

(** An IN control URB and an OUT bulk URB for the device at port 1. *)
Definition setup_packet : list Z := [0x80; 6; 0; 1; 0; 0; 18; 0].
Definition urb_in : urb :=
  mk_urb (Some (mk_usb_device (Some root_dev) 1)) PIPE_CONTROL true 0 0 0 (Some setup_packet)
    (Some (replicate 18 0)) 18 0.
Definition urb_bulk : urb :=
  mk_urb (Some (mk_usb_device (Some root_dev) 1)) PIPE_BULK false 2 0 0 None
    (Some [1; 2; 3; 4]) 4 0.

(** The state after the host controller was probed and two files were opened. *)
Definition empty_kernel : kernel := mk_kernel ∅ ∅ ∅ ∅ 1 ∅ 0 ∅ ∅ ∅ ∅ [].
Definition bare : kernel :=
  set_ports (init_ports h1 4 ∅) (set_hubs (<[h1 := init_hub 4]> ∅) empty_kernel).
Definition root_hub : virtusb_hub :=
  set_hub_callback (Some VIRTUSB_HCD_ROOT_HUB_STATUS_CHANGED) (Some h1) (init_hub 4).
Definition hcd_record : virtusb_hcd :=
  mk_hcd 0 (Some h1) (mk_backend [] [] [] false) (mk_control (Some h1) 0 true true).
Definition open_file : file := mk_file (Some (mk_control_file (Some h1))) true.
Definition booted : kernel :=
  mk_kernel (init_ports h1 4 ∅) {[h1 := root_hub]} ∅ ∅ 1 ∅ 0 {[h1 := hcd_record]}
    {[h1 := mk_usb_hcd (Some root_dev) true]} {[u1 := urb_in; u2 := urb_bulk]}
    {[f1 := open_file; f2 := open_file]} [].

Lemma empty_bus_ok : bus_ok empty_kernel.
Proof. by split. Qed.

Lemma booted_bus_ok : bus_ok booted.
Proof.
  assert (Hb : bus_ok bare) by (by apply (hub_init_bus_ok empty_kernel h1 4 empty_bus_ok)).
  assert (Hh : k_hubs bare !! h1 = Some (init_hub 4)) by done.
  destruct (hub_wf_here bare Hb h1 _ Hh) as [_ Hu Hc _ _ _].
  assert (Hs : bus_step bare (put_hub h1 root_hub bare)).
  { apply (put_hub_quiet bare h1 (init_hub 4)); [done.. | ].
    apply (usb_ok_less _ _ (init_hub 4)); [by apply (proj2 Hb) | done..]. }
  destruct Hs as [Hb' _ _ _ _ _ _ _]. unfold bus_ok in *.
  replace (k_hubs booted) with (k_hubs (put_hub h1 root_hub bare)); [exact Hb' | ].
  by apply insert_insert_eq.
Qed.

Lemma booted_ports : forall d, k_ports booted !! DevPort d = None.
Proof. intros d. cbn [k_ports booted]. by rewrite init_ports_lookup. Qed.

Lemma booted_objects : objects_ok (fun o => transfer_refs ∅ o + (binding_refs booted o + 0)) booted.
Proof.
  split; try done.
  - intros o. split; intros [x Hx]; [done | ]. by rewrite booted_ports in Hx.
Qed.

Lemma booted_lookup h v : k_hcds booted !! h = Some v -> h = h1 /\ v = hcd_record.
Proof.
  unfold booted. cbn [k_hcds]. rewrite lookup_singleton_Some. by intros [-> ->].
Qed.

Lemma booted_inv : backend_inv (fun _ => 0) (fun _ => 0) booted.
Proof.
  split; [split | | ].
  - split; [apply booted_bus_ok | apply booted_objects | | ].
    + by split.
    + intros o. by pose proof (binding_refs_nonneg booted o); lia.
  - done.
  - done.
  - intros h v Hv. destruct (booted_lookup h v Hv) as [-> ->]. split; cbn;
      [constructor | constructor | intros r Hr; by apply elem_of_nil in Hr..].
  - done.
  - intros h v r Hv Hr. destruct (booted_lookup h v Hv) as [-> ->]. by apply elem_of_nil in Hr.
  - done.
Qed.

Lemma booted_ok : module_ok booted.
Proof.
  split; [apply booted_inv | | ].
  - intros c v Hv. destruct (booted_lookup c v Hv) as [-> ->].
    split_and!; [done | by eexists | by eexists | by intros h [= <-]].
  - intros f fv ctx c Hf. unfold booted in Hf. cbn [k_files] in Hf.
    assert (fv = open_file) as ->.
    { rewrite lookup_insert_Some, lookup_singleton_Some in Hf.
      by destruct Hf as [[_ <-]|[_ [_ <-]]]. }
    intros [= <-] [= <-]. by eexists.
Qed.

(** ** Running calls *)

Definition after (c : call) (s : kernel) : kernel :=
  match run_call linux c s with Some (_, s') => s' | None => s end.

(** The states are reachable from [booted]. *)
Definition reached : kernel -> Prop := module_reach linux booted.
Lemma reached_ok s : reached s -> module_ok s.
Proof. intros Hr. exact (module_reach_ok linux booted s Hr booted_ok). Qed.

Lemma after_reached c s : reached s -> call_allowed linux s c -> reached (after c s).
Proof.
  intros Hr Ha. apply (rtc_r _ _ _ Hr), step_call with c; [done | ].
  pose proof (run_call_keeps linux s c (reached_ok s Hr) Ha) as Hk. unfold keeps, wp in Hk.
  unfold after. by destruct (run_call linux c s) as [[[] s']|].
Qed.

Definition no_user : user :=
  mk_user None None None None None None None None (Err (- EFAULT)) true.
Definition no_env : ioctl_env := mk_ioctl_env None false false [].

Definition user_create (caps : Z) : user :=
  mk_user None (Some (mk_device_create_req caps 0)) None None None None None None (Err (- EFAULT)) true.
Definition user_destroy (id flags : Z) : user :=
  mk_user None None (Some (mk_device_destroy_req id flags)) None None None None None (Err (- EFAULT)) true.
Definition user_attach (id port : Z) : user :=
  mk_user None None None (Some (mk_device_attach_req id 0 port)) None None None None (Err (- EFAULT)) true.
Definition user_detach (id : Z) : user :=
  mk_user None None None None (Some (mk_device_object_req id)) None None None (Err (- EFAULT)) true.
Definition user_connection (id enabled : Z) : user :=
  mk_user None None None None None (Some (mk_device_connection_req id enabled)) None None
    (Err (- EFAULT)) true.
Definition user_power (port powered : Z) : user :=
  mk_user None None None None None None (Some (mk_port_power_req 0 port powered)) None
    (Err (- EFAULT)) true.
Definition user_register (id : Z) : user :=
  mk_user None None None None None None None (Some (mk_backend_register_req id)) (Err (- EFAULT)) true.
Definition completion (id actual : Z) : virtusb_transfer_complete_request :=
  mk_transfer_complete_request id 0 actual (replicate 4096 7).
Definition user_complete (id actual : Z) : user :=
  mk_user None None None None None None None None (Ok (completion id actual)) true.

Definition ioctl (command : ioctl_encoding -> Z) (us : user) (env : ioctl_env) : call :=
  CallIoctl f1 (command linux) us env.
Definition with_memory (o : obj_ptr) : ioctl_env := mk_ioctl_env (Some o) false false [].
Definition enqueue_mem (t : transfer_ptr) (n : nat) : enqueue_env :=
  mk_enqueue_env (Some t) (Some (replicate n 0xaa)) false 0.

Definition created1 := after (ioctl VIRTUSB_IOCTL_DEVICE_CREATE (user_create 7) (with_memory d1)) booted.
Definition created2 := after (ioctl VIRTUSB_IOCTL_DEVICE_CREATE (user_create 3) (with_memory d2)) created1.
Definition powered := after (ioctl VIRTUSB_IOCTL_SET_PORT_POWER (user_power 1 1) no_env) created2.
Definition attached := after (ioctl VIRTUSB_IOCTL_DEVICE_ATTACH (user_attach 1 1) no_env) powered.
Definition connected := after (ioctl VIRTUSB_IOCTL_DEVICE_CONNECTION (user_connection 1 1) no_env) attached.
Definition reset := after (CallHubControl h1 SetPortFeature USB_PORT_FEAT_RESET 1 (replicate 15 0) 0) connected.
Definition registered := after (ioctl VIRTUSB_IOCTL_BACKEND_REGISTER (user_register 1) no_env) reset.
Definition enqueued1 := after (CallEnqueue h1 u1 (enqueue_mem t1 18)) registered.
Definition enqueued2 := after (CallEnqueue h1 u2 (enqueue_mem t2 4)) enqueued1.
Definition fetched1 := after (ioctl VIRTUSB_IOCTL_TRANSFER_FETCH no_user no_env) enqueued2.

(** Evaluation. *)
Definition ok_call (c : call) (s : kernel) : bool :=
  match run_call linux c s with Some _ => true | None => false end.

Lemma no_user_wf : user_wf no_user.
Proof. by split. Qed.

(** An ioctl of this file is allowed in every state in which the file is open. *)
Lemma ioctl_allowed command us env s : k_files s !! f1 = Some open_file -> user_wf us ->
  ioctl_env_wf s env -> call_allowed linux s (ioctl command us env).
Proof. intros Hf Hu He. exists open_file. split_and!; try done. right. by apply nonblock_at_once. Qed.

(** Hypotheses about concrete states hold by evaluation. *)
Ltac eval_eq := vm_compute; reflexivity.
Ltac found := match goal with |- is_Some ?m =>
  let r := eval vm_compute in m in
  match r with Some ?x => exists x; eval_eq end end.

Ltac user_wf_tac := split; intros ? [= <-]; first [split; vm_compute; congruence | vm_compute; congruence].
Ltac ioctl_tac Hm :=
  apply after_reached; [exact Hm | ];
  apply ioctl_allowed; [eval_eq | first [exact no_user_wf | user_wf_tac] | ].
Ltac fresh_memory := unfold ioctl_env_wf; cbn; intros ? [= <-]; eval_eq.

Lemma reach_booted : reached booted.
Proof. apply rtc_refl. Qed.
Lemma reach_created1 : reached created1.
Proof. ioctl_tac reach_booted. fresh_memory. Qed.
Lemma reach_created2 : reached created2.
Proof. ioctl_tac reach_created1. fresh_memory. Qed.
Lemma reach_powered : reached powered.
Proof. ioctl_tac reach_created2. by intros o. Qed.
Lemma reach_attached : reached attached.
Proof. ioctl_tac reach_powered. by intros o. Qed.
Lemma reach_connected : reached connected.
Proof. ioctl_tac reach_attached. by intros o. Qed.
Lemma reach_reset : reached reset.
Proof.
  apply after_reached; [exact reach_connected | ]. split; [found | ]. apply Nat.leb_le. eval_eq.
Qed.
Lemma reach_registered : reached registered.
Proof. ioctl_tac reach_reset. by intros o. Qed.

Lemma urb_in_wf : urb_wf urb_in.
Proof. split; cbn; try done; intros ? [= <-]; cbn; lia. Qed.
Lemma urb_bulk_wf : urb_wf urb_bulk.
Proof. split; cbn; try done; intros ? [= <-]; cbn; lia. Qed.

Lemma enqueue_allowed s u uv t n : is_Some (k_hcds s !! h1) ->
  (k_next_transfer_id s + 1 <? 2 ^ 64) = true -> k_urbs s !! u = Some uv -> urb_wf uv ->
  k_transfers s !! t = None -> Z.of_nat n = ur_transfer_buffer_length uv ->
  call_allowed linux s (CallEnqueue h1 u (enqueue_mem t n)).
Proof.
  intros Hh Hn Hu Hw Ht Hl. split_and!; [done | by apply Z.ltb_lt | ]. exists uv.
  split_and!; [done.. | ]. split; [by intros ? [= <-] | | done].
  intros ? [= <-]. by rewrite length_replicate.
Qed.

Lemma reach_enqueued1 : reached enqueued1.
Proof.
  apply after_reached; [exact reach_registered | ].
  apply enqueue_allowed with urb_in; [found | eval_eq | eval_eq | exact urb_in_wf | eval_eq | done].
Qed.
Lemma reach_enqueued2 : reached enqueued2.
Proof.
  apply after_reached; [exact reach_enqueued1 | ].
  apply enqueue_allowed with urb_bulk; [found | eval_eq | eval_eq | exact urb_bulk_wf | eval_eq | done].
Qed.
Lemma reach_fetched1 : reached fetched1.
Proof. ioctl_tac reach_enqueued2. by intros o. Qed.

(** In particular the invariant holds in them. *)
Lemma created1_ok : module_ok created1.
Proof. exact (reached_ok _ reach_created1). Qed.
Lemma created2_ok : module_ok created2.
Proof. exact (reached_ok _ reach_created2). Qed.
Lemma powered_ok : module_ok powered.
Proof. exact (reached_ok _ reach_powered). Qed.
Lemma attached_ok : module_ok attached.
Proof. exact (reached_ok _ reach_attached). Qed.
Lemma connected_ok : module_ok connected.
Proof. exact (reached_ok _ reach_connected). Qed.
Lemma reset_ok : module_ok reset.
Proof. exact (reached_ok _ reach_reset). Qed.
Lemma registered_ok : module_ok registered.
Proof. exact (reached_ok _ reach_registered). Qed.
Lemma enqueued1_ok : module_ok enqueued1.
Proof. exact (reached_ok _ reach_enqueued1). Qed.
Lemma enqueued2_ok : module_ok enqueued2.
Proof. exact (reached_ok _ reach_enqueued2). Qed.
Lemma fetched1_ok : module_ok fetched1.
Proof. exact (reached_ok _ reach_fetched1). Qed.

(** The records of the host controller and of its hub in a state. *)
Definition hcd_at (s : kernel) : virtusb_hcd := default hcd_record (k_hcds s !! h1).
Definition hub_at (s : kernel) : virtusb_hub := default root_hub (k_hubs s !! h1).
Definition object_at (s : kernel) (o : obj_ptr) : virtusb_object :=
  default zero_object (k_objects s !! o).
Definition port_at (s : kernel) (p : port_ptr) : virtusb_port := default zero_port (k_ports s !! p).
Definition dead_transfer : virtusb_transfer :=
  mk_transfer 0 0 d1 VIRTUSB_TRANSFER_TYPE_BULK VIRTUSB_TRANSFER_DIRECTION_IN
    VIRTUSB_TRANSFER_STATE_CANCELLED 0 false [] None 0 0 0.
Definition transfer_at (s : kernel) (t : transfer_ptr) : virtusb_transfer :=
  default dead_transfer (k_transfers s !! t).

Lemma completion_ok_1 actual : in_width 32 actual -> completion_ok (completion 1 actual).
Proof. by split. Qed.
Lemma fetched1_inv : backend_inv (fun _ => 0) (fun _ => 0) fetched1.
Proof. apply fetched1_ok. Qed.
Lemma enqueued2_inv : backend_inv (fun _ => 0) (fun _ => 0) enqueued2.
Proof. apply enqueued2_ok. Qed.
