(* ===== verification/BackendProps.v ===== *)
(** * Properties of the backend queues and of URBs *)

From S2P Require Import Prelude Uapi Kernel Port Hub Object Device Transfer Backend BackendInv BackendOps Hcd HcdSpec UrbSpec FetchSpec Control ControlSpec ModuleSpec Service ServiceSpec CallSpec Scenario.

(** ** Completion *)

(** C14. [virtusb_backend_complete] ends exactly the active request of the caller
    that has the given transfer ID.  Without one the result is -ENOENT and
    nothing changes.  With one, the request leaves the active queue, its URB is
    unlinked and given back once, every other transfer keeps its state, and:
    a length beyond the requested one gives -EMSGSIZE to caller and URB and
    leaves all URB buffers alone; otherwise the URB gets the status and length
    of the completion and, for an IN transfer, the data. *)
Theorem backend_complete_correct X T s h uhcd v owner c :
  backend_inv X T s -> k_hcds s !! h = Some v -> completion_ok c -> tc_transfer_id c <> 0 ->
  exists r s', virtusb_backend_complete (Some h) (Some uhcd) (Some owner) (Some c) s = Some (r, s') /\
    backend_inv X T s' /\ backend_step s s' /\
    match list_find (fun r => has_id s owner (tc_transfer_id c) r = true) (be_active (vh_backend v)) with
    | None => r = - ENOENT /\ s' = s
    | Some (i, req) => exists tv uv,
        k_transfers s !! rq_transfer req = Some tv /\ k_urbs s !! rq_urb req = Some uv /\
        r = (if tr_requested_length tv <? tc_actual_length c then - EMSGSIZE else 0) /\
        k_hcds s' = k_hcds (with_backend h (del_request Active i) s) /\
        k_trace s' = k_trace s ++
          [EvUnlinkUrb uhcd (rq_urb req);
           EvGiveback uhcd (rq_urb req) (if r =? 0 then tc_status c else r)] /\
        k_urbs s' = (if r =? 0 then <[rq_urb req := completed_urb c tv uv]> (k_urbs s)
                     else k_urbs s) /\
        forall t, t <> rq_transfer req -> k_transfers s' !! t = k_transfers s !! t
    end.
Proof.
  intros Hi Hv Hc Hid.
  destruct (backend_complete_spec X T s Hi h uhcd v Hv owner c Hc Hid) as (r & s' & E & Hi' & Hst & Hr).
  exists r, s'. split_and!; [done.. | ]. unfold completed_request in Hr.
  destruct (list_find _ _) as [[i req]|] eqn:Ef; [ | done].
  destruct Hr as [(-> & [_ Et Eh Etr] & [(tv & uv & Ht & Hu & Eu & Hl)])|
                  (-> & [_ Et Eh Etr] & Eu & tv & Ht & Hl)].
  - exists tv, uv. by rewrite (proj2 (Z.ltb_ge _ _) Hl).
  - destruct (list_find_queue v Active (has_id s owner (tc_transfer_id c)) i req Ef) as [Hq _].
    destruct (rk_transfer _ _ (qo_requests _ _ (bc_queue _ _ _ (bi_core _ _ _ Hi) h v Hv) req
      (queue_of_elem Active _ _ _ Hq))) as (_ & _ & _ & _ & uv & Hu & _).
    exists tv, uv. by rewrite (proj2 (Z.ltb_lt _ _) Hl).
Qed.

Lemma backend_complete_correct_witness : exists r s',
  virtusb_backend_complete (Some h1) (Some h1) (Some f1) (Some (completion 1 18)) fetched1 =
    Some (r, s') /\ backend_inv (fun _ => 0) (fun _ => 0) s'.
Proof.
  destruct (backend_complete_correct _ _ fetched1 h1 h1 (hcd_at fetched1) f1 (completion 1 18)
    fetched1_inv) as (r & s' & E & Hi & _); [eval_eq | by apply completion_ok_1 | done | ].
  exists r, s'. exact (conj E Hi).
Defined.

(** ** Unregistering a backend *)

(** C15. [virtusb_backend_release_owner] removes the binding of the file and ends
    exactly the requests that depend on it: pending requests for its device and
    active requests for its device that it had fetched.  All other requests stay
    in their queues in the same order, and all other transfers and host
    controllers are untouched.  The URBs of those requests are unlinked and given
    back with -ESHUTDOWN, the pending ones first and each queue in order, and
    sleepers are woken once.  A file without a binding changes nothing. *)
Theorem release_owner_correct X T s h uhcd v owner :
  backend_inv X T s -> k_hcds s !! h = Some v ->
  exists s', virtusb_backend_release_owner (Some h) (Some uhcd) (Some owner) s = Some (tt, s') /\
    backend_inv X T s' /\ backend_step s s' /\ k_urbs s' = k_urbs s /\
    match virtusb_backend_find_owner_locked (vh_backend v) owner with
    | None => s' = s
    | Some (i, x) => exists b, k_hcds s' !! h = Some (set_backend b v) /\
        be_bindings b = delete i (be_bindings (vh_backend v)) /\
        be_pending b = filter (fun r => for_device s (bd_device x) r = false)
                         (be_pending (vh_backend v)) /\
        be_active b = filter (fun r => for_device s (bd_device x) r &&
                                       bool_decide (rq_owner r = Some owner) = false)
                        (be_active (vh_backend v)) /\
        (forall h', h' <> h -> k_hcds s' !! h' = k_hcds s !! h') /\
        k_trace s' = k_trace s ++ shutdowns uhcd (victims s (bd_device x) owner (vh_backend v)) ++ [EvWakeUp h] /\
        forall t, t ∉ map rq_transfer (victims s (bd_device x) owner (vh_backend v)) ->
          k_transfers s' !! t = k_transfers s !! t
    end.
Proof.
  intros Hi Hv. destruct (release_owner_spec X T s Hi h uhcd v Hv owner) as (s' & E & Hi' & Hst & Eu & H).
  exists s'. split_and!; try done. destruct (virtusb_backend_find_owner_locked _ _) as [[i x]|]; [ | done].
  destruct H as (b & Hb & Ebd & _ & Hq & Hrest). exists b.
  split_and!; [done | done | exact (Hq Pending) | exact (Hq Active) | apply Hrest..].
Qed.

Lemma release_owner_correct_witness : exists s',
  virtusb_backend_release_owner (Some h1) (Some h1) (Some f1) fetched1 = Some (tt, s') /\
  backend_inv (fun _ => 0) (fun _ => 0) s'.
Proof.
  destruct (release_owner_correct _ _ fetched1 h1 h1 (hcd_at fetched1) f1 fetched1_inv)
    as (s' & E & Hi & _); [eval_eq | ].
  exists s'. exact (conj E Hi).
Defined.

(** ** Enqueueing URBs *)

(** The pipe types of USB 2.0 in linux/usb/ch9.h and the transfers they carry. *)
Definition pipe_types : list (Z * virtusb_transfer_type) :=
  [(0, VIRTUSB_TRANSFER_TYPE_ISOCHRONOUS); (1, VIRTUSB_TRANSFER_TYPE_INTERRUPT);
   (2, VIRTUSB_TRANSFER_TYPE_CONTROL); (3, VIRTUSB_TRANSFER_TYPE_BULK)].

Lemma transfer_type_pipe uv ty : virtusb_hcd_get_transfer_type uv = Ok ty ->
  (ur_pipetype uv, ty) ∈ pipe_types.
Proof.
  unfold virtusb_hcd_get_transfer_type, pipe_types.
  repeat case_match; intros; simplify_eq; rewrite ?Z.eqb_eq in *;
    repeat match goal with H : ur_pipetype uv = _ |- _ => rewrite H end; set_solver.
Qed.

Lemma transfer_type_known uv : match virtusb_hcd_get_transfer_type uv with
  | Ok ty => ur_pipetype uv ∈ map fst pipe_types /\
      (ty = VIRTUSB_TRANSFER_TYPE_CONTROL <-> (ur_pipetype uv, VIRTUSB_TRANSFER_TYPE_CONTROL) ∈ pipe_types)
  | Err r => r = - EINVAL /\ ur_pipetype uv ∉ map fst pipe_types
  end.
Proof.
  destruct (virtusb_hcd_get_transfer_type uv) as [ty|r] eqn:E.
  - pose proof (transfer_type_pipe uv ty E) as Hp. split; [by apply (list_elem_of_fmap_2 fst) in Hp | ].
    split; [by intros <- | ]. rewrite !list_elem_of_In in *. cbn in *. intuition congruence.
  - revert E. unfold virtusb_hcd_get_transfer_type. rewrite list_elem_of_In. cbn.
    destruct (_ =? PIPE_CONTROL) eqn:E0; [done | ]. destruct (_ =? PIPE_ISOCHRONOUS) eqn:E1; [done | ].
    destruct (_ =? PIPE_BULK) eqn:E2; [done | ]. destruct (_ =? PIPE_INTERRUPT) eqn:E3; [done | ].
    rewrite Z.eqb_neq in *. unfold PIPE_CONTROL, PIPE_ISOCHRONOUS, PIPE_BULK, PIPE_INTERRUPT in *.
    intros [= <-]. split; [done | ]. intuition congruence.
Qed.

Lemma if_decide_bool {A} (P : Prop) `{!Decision P} (b : bool) (x y : A) : (P <-> b = true) ->
  (if decide P then x else y) = if b then x else y.
Proof. intros H. destruct b; [rewrite decide_True | rewrite decide_False]; [done | by apply H | done | by intros ?%H]. Qed.
Lemma control_check uv ty :
  (ty = VIRTUSB_TRANSFER_TYPE_CONTROL <-> (ur_pipetype uv, VIRTUSB_TRANSFER_TYPE_CONTROL) ∈ pipe_types) ->
  (ur_pipetype uv, VIRTUSB_TRANSFER_TYPE_CONTROL) ∈ pipe_types /\ ur_setup_packet uv = None <->
  bool_decide (ty = VIRTUSB_TRANSFER_TYPE_CONTROL) && bool_decide (ur_setup_packet uv = None) = true.
Proof. intros <-. by rewrite andb_true_iff, !bool_decide_eq_true. Qed.
Lemma data_check uv :
  ur_pipein uv = false /\ 0 < ur_transfer_buffer_length uv /\ ur_transfer_buffer uv = None <->
  urb_out uv && bool_decide (ur_transfer_buffer uv = None) = true.
Proof.
  unfold urb_out, urb_direction. rewrite !andb_true_iff, !bool_decide_eq_true, Z.ltb_lt.
  split; [by intros (-> & ? & ?) | ]. intros [[Hd ?] ?]. by destruct (ur_pipein uv).
Qed.
Lemma enqueue_submit_error s uv v d ty block oom link :
  submit_error v (urb_transfer s uv d ty block) oom link =
    if decide (VIRTUSB_TRANSFER_DATA_MAX < ur_transfer_buffer_length uv) then - EMSGSIZE
    else if oom then - ENOMEM
    else if be_stopping (vh_backend v) then - ESHUTDOWN
    else if decide (d ∉ map bd_device (be_bindings (vh_backend v))) then - ENODEV
    else link.
Proof.
  rewrite submit_error_eq. rewrite (if_decide_bool (VIRTUSB_TRANSFER_DATA_MAX < _) _ _ _ (iff_sym (Z.ltb_lt _ _))).
  change (tr_requested_length (urb_transfer s uv d ty block)) with (ur_transfer_buffer_length uv).
  change (tr_device (urb_transfer s uv d ty block)) with d.
  destruct (_ <? _), oom, (be_stopping (vh_backend v)); try done. by repeat case_decide.
Qed.

(** The result of enqueueing, check by check. *)
Lemma enqueue_error_eq s h uhcd v uv env : enqueue_error s h uhcd v uv env =
  match urb_device s h uhcd uv with
  | None => - ENODEV
  | Some d =>
      if decide (ur_pipetype uv ∉ map fst pipe_types) then - EINVAL
      else if decide (ur_num_sgs uv <> 0 \/ ur_number_of_packets uv <> 0) then - EOPNOTSUPP
      else if decide ((ur_pipetype uv, VIRTUSB_TRANSFER_TYPE_CONTROL) ∈ pipe_types /\
                      ur_setup_packet uv = None) then - EINVAL
      else if decide (ur_pipein uv = false /\ 0 < ur_transfer_buffer_length uv /\
                      ur_transfer_buffer uv = None) then - EINVAL
      else if decide (en_transfer env = None \/
                      (0 < ur_transfer_buffer_length uv /\ en_buffer env = None)) then - ENOMEM
      else if decide (VIRTUSB_TRANSFER_DATA_MAX < ur_transfer_buffer_length uv) then - EMSGSIZE
      else if en_request_oom env then - ENOMEM
      else if be_stopping (vh_backend v) then - ESHUTDOWN
      else if decide (d ∉ map bd_device (be_bindings (vh_backend v))) then - ENODEV
      else en_link env
  end.
Proof.
  unfold enqueue_error, urb_check. destruct (urb_device s h uhcd uv) as [d|]; [ | done].
  pose proof (transfer_type_known uv) as Hty. destruct (virtusb_hcd_get_transfer_type uv) as [ty|r].
  2: { destruct Hty as [-> Hn]. by rewrite decide_True. }
  destruct Hty as [Hin Hctl]. rewrite (decide_False (P := _ ∉ _)) by (intros Hn; by apply Hn).
  destruct (decide (ur_num_sgs uv <> 0 \/ ur_number_of_packets uv <> 0)) as [Hs|Hs].
  { assert (negb (ur_num_sgs uv =? 0) || negb (ur_number_of_packets uv =? 0) = true) as -> by lia. done. }
  assert (negb (ur_num_sgs uv =? 0) || negb (ur_number_of_packets uv =? 0) = false) as -> by lia.
  rewrite (if_decide_bool _ _ (- EINVAL) _ (control_check uv ty Hctl)).
  rewrite (if_decide_bool _ _ (- EINVAL) _ (data_check uv)).
  destruct (bool_decide (ty = _) && _); [done | ]. destruct (urb_out uv && _); [done | ].
  unfold urb_memory. destruct (en_transfer env) as [t|]; [ | by rewrite decide_True by by left].
  destruct (0 <? ur_transfer_buffer_length uv) eqn:El; rewrite ?Z.ltb_lt, ?Z.ltb_ge in El.
  - destruct (en_buffer env) as [block|]; [ | by rewrite decide_True by by right].
    rewrite decide_False by by intros [|[]]. apply enqueue_submit_error.
  - rewrite decide_False by (intros [|[]]; [done | lia]). apply enqueue_submit_error.
Qed.

(** C17. [virtusb_hcd_urb_enqueue] returns for every well-formed URB, and its
    result is the first error of this list, or what [usb_hcd_link_urb_to_ep]
    returns: no device of this HCD below the port that the URB names (-ENODEV),
    no known pipe type (-EINVAL), scatter/gather or isochronous packets
    (-EOPNOTSUPP), a control URB without setup packet (-EINVAL), data to send
    but no buffer (-EINVAL), no memory (-ENOMEM), more data than a transfer
    holds (-EMSGSIZE), no memory for the request (-ENOMEM), a stopped HCD
    (-ESHUTDOWN), no backend for the device (-ENODEV).  A rejected URB leaves
    queues, trace and transfers as they were; an accepted one is the newest
    pending request of this HCD, with one new transfer that describes it, and
    wakes the sleepers. *)
Theorem urb_enqueue_correct X T s h hv uhcd v u uv env :
  backend_inv X T s -> k_hubs s !! h = Some hv -> k_usb_hcds s !! h = Some uhcd ->
  k_hcds s !! h = Some v -> k_urbs s !! u = Some uv -> urb_wf uv -> env_wf s uv env ->
  k_next_transfer_id s + 1 < 2 ^ 64 ->
  exists r s', virtusb_hcd_urb_enqueue (Some h) (Some u) env s = Some (r, s') /\
    backend_inv X T s' /\ k_urbs s' = k_urbs s /\ k_hubs s' = k_hubs s /\
    r = match urb_device s h uhcd uv with
        | None => - ENODEV
        | Some d =>
            if decide (ur_pipetype uv ∉ map fst pipe_types) then - EINVAL
            else if decide (ur_num_sgs uv <> 0 \/ ur_number_of_packets uv <> 0) then - EOPNOTSUPP
            else if decide ((ur_pipetype uv, VIRTUSB_TRANSFER_TYPE_CONTROL) ∈ pipe_types /\
                            ur_setup_packet uv = None) then - EINVAL
            else if decide (ur_pipein uv = false /\ 0 < ur_transfer_buffer_length uv /\
                            ur_transfer_buffer uv = None) then - EINVAL
            else if decide (en_transfer env = None \/
                            (0 < ur_transfer_buffer_length uv /\ en_buffer env = None)) then - ENOMEM
            else if decide (VIRTUSB_TRANSFER_DATA_MAX < ur_transfer_buffer_length uv) then - EMSGSIZE
            else if en_request_oom env then - ENOMEM
            else if be_stopping (vh_backend v) then - ESHUTDOWN
            else if decide (d ∉ map bd_device (be_bindings (vh_backend v))) then - ENODEV
            else en_link env
        end /\
    (r <> 0 -> k_hcds s' = k_hcds s /\ k_trace s' = k_trace s /\ k_transfers s' = k_transfers s) /\
    (r = 0 -> exists d ty t block, urb_device s h uhcd uv = Some d /\
       (ur_pipetype uv, ty) ∈ pipe_types /\ k_transfers s !! t = None /\
       k_hcds s' = k_hcds (with_backend h (queued t u) s) /\
       k_trace s' = k_trace s ++ [EvLinkUrb h u; EvWakeUp h] /\
       k_transfers s' = <[t := set_tr_state VIRTUSB_TRANSFER_STATE_QUEUED
                                 (urb_transfer s uv d ty block)]> (k_transfers s)).
Proof.
  intros Hi Hh Huh Hv Hu Hwf Henv Hid.
  destruct (enqueue_cases X T s Hi h hv Hh uhcd Huh v Hv u uv Hu Hwf env Henv Hid)
    as (s' & E & Hi' & Eu & Ehub & Href & Hacc).
  exists (enqueue_error s h uhcd v uv env), s'. split_and!; try done; [apply enqueue_error_eq | ].
  intros Hr. destruct (Hacc Hr) as (d & ty & t & block & Hc & _ & ? & ? & ? & ?).
  destruct (urb_check_ok s h uhcd uv d ty Hc) as [Hd Hty].
  exists d, ty, t, block. split_and!; try done. by apply transfer_type_pipe.
Qed.

(** The URB of an IN request for the device of the backend is accepted. *)
Lemma urb_enqueue_correct_witness : exists s' t,
  virtusb_hcd_urb_enqueue (Some h1) (Some u1) (enqueue_mem t1 18) registered = Some (0, s') /\
  k_hcds s' = k_hcds (with_backend h1 (queued t u1) registered) /\
  k_trace s' = k_trace registered ++ [EvLinkUrb h1 u1; EvWakeUp h1].
Proof.
  destruct (urb_enqueue_correct _ _ registered h1 (hub_at registered) (mk_usb_hcd (Some root_dev) true)
    (hcd_at registered) u1 urb_in (enqueue_mem t1 18) (mo_inv _ _ _ registered_ok))
    as (r & s' & E & _ & _ & _ & Hr & _ & Hacc); try eval_eq.
  - exact urb_in_wf.
  - split; [intros ? [= <-]; eval_eq | intros ? [= <-]; eval_eq | done].
  - assert (H0 : r = 0) by (rewrite Hr; eval_eq). clear Hr. subst r.
    destruct (Hacc eq_refl) as (d & ty & t & block & _ & _ & _ & Eh & Et & _).
    exists s', t. exact (conj E (conj Eh Et)).
Defined.

(** ** Submitting, cancelling *)

(** [virtusb_backend_submit] of a new transfer: the result is the first
    error of too long, out of memory, stopping, no backend for the device, and
    the result of linking the URB.  On success the request is appended to the
    pending queue after the URB was linked; on an error the queues and the trace
    are unchanged and the transfer is not left queued. *)
Theorem backend_submit_correct X T s h uhcd v t tv u uv oom link :
  backend_inv X T s -> k_hcds s !! h = Some v -> k_transfers s !! t = Some tv ->
  tr_state tv = VIRTUSB_TRANSFER_STATE_NEW -> 1 <= T t -> k_urbs s !! u = Some uv ->
  (tr_direction tv = VIRTUSB_TRANSFER_DIRECTION_IN -> 0 < tr_requested_length tv ->
   exists ub, ur_transfer_buffer uv = Some ub /\ tr_requested_length tv <= Z.of_nat (length ub)) ->
  link <= 0 ->
  exists r s' tv', virtusb_backend_submit (Some h) (Some uhcd) (Some u) (Some t) oom link s = Some (r, s') /\
    backend_inv X T s' /\ backend_step s s' /\
    k_transfers s' = <[t := tv']> (k_transfers s) /\
    r = (if VIRTUSB_TRANSFER_DATA_MAX <? tr_requested_length tv then - EMSGSIZE
         else if oom then - ENOMEM
         else if be_stopping (vh_backend v) then - ESHUTDOWN
         else if decide (tr_device tv ∈ map bd_device (be_bindings (vh_backend v))) then link
         else - ENODEV) /\
    if decide (r = 0)
    then tr_state tv' = VIRTUSB_TRANSFER_STATE_QUEUED /\
         tr_refcount tv' = tr_refcount tv + 1 /\
         k_hcds s' = k_hcds (with_backend h (fun b =>
           set_queues (be_pending b ++ [mk_request u t None]) (be_active b) b) s) /\
         k_trace s' = k_trace s ++ [EvLinkUrb uhcd u; EvWakeUp h]
    else tr_state tv' <> VIRTUSB_TRANSFER_STATE_QUEUED /\
         tr_refcount tv' = tr_refcount tv /\ k_hcds s' = k_hcds s /\ k_trace s' = k_trace s.
Proof.
  intros Hi Hv Ht Hnew HT Hu Hroom Hl.
  destruct (backend_submit_spec X T s Hi h uhcd v Hv t tv Ht Hnew HT u uv Hu Hroom oom link Hl)
    as (E & Hi' & Hst).
  destruct (submit_state_transfer s h uhcd v t tv Ht Hnew u oom link) as (tv' & Etr & Hcase).
  exists (submit_error v tv oom link), (submit_state s h uhcd v t tv u oom link), tv'.
  split_and!; try done; [apply submit_error_eq | ].
  case_decide; [ | done]. by destruct Hcase as (? & ? & ->).
Qed.

(** [virtusb_backend_cancel]: an error of the USB core is passed on; a URB
    that is in neither queue gives -EIDRM; both change nothing.  Otherwise the
    request of that URB leaves its queue and the URB is unlinked and given back
    once, with the status of the caller. *)
Theorem backend_cancel_correct X T s h uhcd v u status check :
  backend_inv X T s -> k_hcds s !! h = Some v ->
  exists r s', virtusb_backend_cancel (Some h) (Some uhcd) (Some u) status check s = Some (r, s') /\
    backend_inv X T s' /\ backend_step s s' /\ k_urbs s' = k_urbs s /\
    if check <? 0 then r = check /\ s' = s
    else if decide (u ∈ map rq_urb (all_requests (vh_backend v)))
    then exists q i req, queue_of q (vh_backend v) !! i = Some req /\ rq_urb req = u /\ r = 0 /\
           k_hcds s' = k_hcds (with_backend h (del_request q i) s) /\
           k_trace s' = k_trace s ++ [EvUnlinkUrb uhcd u; EvGiveback uhcd u status] /\
           forall t, t <> rq_transfer req -> k_transfers s' !! t = k_transfers s !! t
    else r = - EIDRM /\ s' = s.
Proof.
  intros Hi Hv. destruct (backend_cancel_spec X T s Hi h uhcd v Hv u status check)
    as (r & s' & E & Hi' & Hst & Eu & H).
  exists r, s'. split_and!; try done. destruct (check <? 0); [done | ].
  destruct (virtusb_backend_find_urb_locked (vh_backend v) u) as [[[q i] req]|] eqn:Ef.
  - destruct (find_urb_queue v u q i req Ef) as [Hq <-]. destruct H as (-> & [_ Et Eh Etr]).
    rewrite decide_True; [by exists q, i, req | ].
    apply list_elem_of_fmap. exists req. split; [done | by eapply queue_of_elem].
  - rewrite decide_False; [done | ]. by apply find_urb_none.
Qed.

Lemma backend_cancel_correct_witness : exists r s',
  virtusb_backend_cancel (Some h1) (Some h1) (Some u2) (- EPIPE) 0 fetched1 = Some (r, s') /\
  backend_inv (fun _ => 0) (fun _ => 0) s'.
Proof.
  destruct (backend_cancel_correct _ _ fetched1 h1 h1 (hcd_at fetched1) u2 (- EPIPE) 0 fetched1_inv)
    as (r & s' & E & Hi & _); [eval_eq | ].
  exists r, s'. exact (conj E Hi).
Defined.

(** A new transfer that its creator still holds. *)
Definition new_in : kernel :=
  urb_created registered urb_in d1 VIRTUSB_TRANSFER_TYPE_CONTROL t1 (replicate 18 0xaa).
Lemma new_in_inv : backend_inv (fun _ => 0) (add_ref t1 1 (fun _ => 0)) new_in.
Proof.
  apply (urb_create_eq _ _ registered (mo_inv _ _ _ registered_ok) h1 (hub_at registered) ltac:(eval_eq)
    (mk_usb_hcd (Some root_dev) true) urb_in urb_in_wf (enqueue_mem t1 18)); try eval_eq.
  split; [intros ? [= <-]; eval_eq | intros ? [= <-]; eval_eq | done].
Qed.

Lemma backend_submit_correct_witness : exists r s' tv',
  virtusb_backend_submit (Some h1) (Some h1) (Some u1) (Some t1) false 0 new_in = Some (r, s') /\
  k_transfers s' = <[t1 := tv']> (k_transfers new_in).
Proof.
  destruct (backend_submit_correct _ _ new_in h1 h1 (hcd_at new_in) t1 (transfer_at new_in t1) u1 urb_in
    false 0 new_in_inv) as (r & s' & tv' & E & _ & _ & Et & _); try eval_eq.
  - vm_compute. congruence.
  - intros _ _. exists (replicate 18 0). split; [eval_eq | vm_compute; congruence].
  - done.
  - exists r, s', tv'. exact (conj E Et).
Defined.

(** ** Fetching *)

(** C18. [virtusb_backend_fetch] hands out requests in order: the caller gets
    the oldest pending request for the device of its binding, which moves to the
    end of the active queue with the caller as owner; the structure for user
    space shows that transfer; no reference is left behind.  Without such a
    request a non-blocking call fails with -ENODEV (no binding), -ESHUTDOWN
    (stopping) or -EAGAIN, and changes nothing. *)
Theorem backend_fetch_correct X T s h v owner buffer sleeps :
  backend_inv X T s -> k_hcds s !! h = Some v ->
  match virtusb_backend_find_owner_locked (vh_backend v) owner with
  | None => virtusb_backend_fetch (Some h) (Some owner) (Some buffer) true sleeps s =
              Some ((- ENODEV, Some buffer), s)
  | Some (_, x) =>
      match list_find (fun r => for_device s (bd_device x) r = true) (be_pending (vh_backend v)) with
      | Some (i, r) => exists tv ov s',
          k_transfers s !! rq_transfer r = Some tv /\ k_objects s !! tr_device tv = Some ov /\
          (forall nonblock, virtusb_backend_fetch (Some h) (Some owner) (Some buffer) nonblock sleeps s =
             Some ((0, Some (fetch_view tv ov)), s')) /\
          s' = with_backend h (fun b => set_queues (delete i (be_pending b))
                 (be_active b ++ [mk_request (rq_urb r) (rq_transfer r) (Some owner)]) b) s /\
          backend_inv X T s'
      | None =>
          virtusb_backend_fetch (Some h) (Some owner) (Some buffer) true sleeps s =
            Some ((if be_stopping (vh_backend v) then - ESHUTDOWN else - EAGAIN, Some buffer), s)
      end
  end.
Proof.
  intros Hi Hv.
  pose proof (fun nonblock => backend_fetch_spec X T s Hi h v Hv owner buffer nonblock sleeps) as Hf.
  unfold next_request, fetch_error in Hf.
  destruct (virtusb_backend_find_owner_locked (vh_backend v) owner) as [[j x]|].
  - destruct (list_find _ _) as [[i r]|].
    + destruct (Hf true) as (tv & ov & Ht & Ho & _ & Hi'). exists tv, ov. eexists.
      split_and!; [done | done | | reflexivity | exact Hi'].
      intros nonblock. destruct (Hf nonblock) as (tv' & ov' & Ht' & Ho' & E & _).
      by simplify_eq.
    + specialize (Hf true). rewrite decide_False in Hf by done. destruct (be_stopping _); by apply Hf.
  - specialize (Hf true). rewrite decide_True in Hf by done. by apply Hf.
Qed.

Lemma backend_fetch_correct_witness : exists r s',
  virtusb_backend_fetch (Some h1) (Some f1) (Some zero_fetch) true [] enqueued2 = Some ((0, r), s') /\
  backend_inv (fun _ => 0) (fun _ => 0) s'.
Proof.
  pose proof (backend_fetch_correct _ _ enqueued2 h1 (hcd_at enqueued2) f1 zero_fetch [] enqueued2_inv
    ltac:(eval_eq)) as H.
  destruct (virtusb_backend_find_owner_locked (vh_backend (hcd_at enqueued2)) f1) as [[j x]|] eqn:E1.
  2: { exfalso. vm_compute in E1. congruence. }
  destruct (list_find _ _) as [[i r]|] eqn:E2.
  - destruct H as (tv & ov & s' & _ & _ & E & _ & Hi). exists (Some (fetch_view tv ov)), s'.
    exact (conj (E true) Hi).
  - exfalso. vm_compute in E1. injection E1 as <- <-. vm_compute in E2. congruence.
Defined.

(** C19. Rolling back a fetch undoes it: after a successful fetch, a rollback
    with the fetched ID succeeds, the active queue, all transfers, objects and
    URBs are as before the fetch, and for every device the pending requests are
    the same in the same order, so that the request is fetched again first. *)
Theorem fetch_rollback_undoes_fetch X T s h v owner buffer nonblock sleeps view s1 :
  backend_inv X T s -> k_hcds s !! h = Some v -> next_request s v owner <> None ->
  virtusb_backend_fetch (Some h) (Some owner) (Some buffer) nonblock sleeps s =
    Some ((0, Some view), s1) ->
  exists s2 b, virtusb_backend_fetch_rollback (Some h) (Some owner) (tf_transfer_id view) s1 =
      Some (0, s2) /\ backend_inv X T s2 /\
    k_hcds s2 !! h = Some (set_backend b v) /\
    be_bindings b = be_bindings (vh_backend v) /\ be_active b = be_active (vh_backend v) /\
    (forall d, filter (fun r => for_device s d r = true) (be_pending b) =
               filter (fun r => for_device s d r = true) (be_pending (vh_backend v))) /\
    k_transfers s2 = k_transfers s /\ k_objects s2 = k_objects s /\ k_urbs s2 = k_urbs s.
Proof.
  intros Hi Hv Hn E.
  pose proof (backend_fetch_spec X T s Hi h v Hv owner buffer nonblock sleeps) as Hf.
  destruct (next_request s v owner) as [[i r]|] eqn:Hnext; [ | done].
  destruct Hf as (tv & ov & Ht & _ & E' & Hi1). rewrite E' in E. injection E as <- <-.
  pose proof (with_backend_lookup s h v Hv (fetched owner i r)) as Hv1.
  assert (Hid : tr_id tv <> 0).
  { pose proof (to_id _ _ (ro_transfers _ _ _ (bc_refs _ _ _ (bi_core _ _ _ Hi))) _ _ Ht). lia. }
  destruct (fetch_rollback_spec X T _ Hi1 h _ Hv1 owner (tr_id tv) Hid)
    as (e & s2 & Er & Hi2 & _ & Eu & Et & Eo & H).
  change (list_find _ _) with (list_find (fun x => has_id s owner (tr_id tv) x = true)
    (be_active (vh_backend v) ++ [owned owner r])) in H.
  rewrite (find_fetched X T s Hi h v Hv owner i r Hnext tv Ht) in H. destruct H as [-> Eh].
  exists s2, (refetchable i r (vh_backend v)). split_and!; try done.
  - rewrite Eh, (with_backend_lookup _ h _ Hv1). cbn [vh_backend set_backend].
    by rewrite (rolled_back_fetched X T s Hi h v Hv owner i r Hnext).
  - intros d. apply filter_move; [by apply (next_pending X T s Hi h v Hv owner i r) | ].
    by apply (next_is_first s v owner i r).
Qed.

Lemma fetch_rollback_undoes_fetch_witness : exists s2 b,
  virtusb_backend_fetch_rollback (Some h1) (Some f1) 1 fetched1 = Some (0, s2) /\
  k_hcds s2 !! h1 = Some (set_backend b (hcd_at enqueued2)).
Proof.
  destruct (fetch_rollback_undoes_fetch _ _ enqueued2 h1 (hcd_at enqueued2) f1 zero_fetch true []
    (fetch_view (transfer_at enqueued2 t1) (object_at enqueued2 d1)) fetched1 enqueued2_inv)
    as (s2 & b & E & _ & Eh & _); try eval_eq.
  - vm_compute. congruence.
  - exists s2, b. exact (conj E Eh).
Defined.

(** The buffer of the URB has room for what the device sends. *)
Definition room_for (tv : virtusb_transfer) (uv : urb) : Prop :=
  tr_direction tv = VIRTUSB_TRANSFER_DIRECTION_IN -> 0 < tr_requested_length tv ->
  exists ub, ur_transfer_buffer uv = Some ub /\ tr_requested_length tv <= Z.of_nat (length ub).

(** A stopped HCD refuses a transfer. *)
Lemma submit_stopped X T s (Hi : backend_inv X T s) h uhcd v (Hv : k_hcds s !! h = Some v) t tv
    (Ht : k_transfers s !! t = Some tv) (Hnew : tr_state tv = VIRTUSB_TRANSFER_STATE_NEW) (HT : 1 <= T t)
    u uv (Hu : k_urbs s !! u = Some uv) (Hroom : room_for tv uv) link (Hl : link <= 0) :
  be_stopping (vh_backend v) = true -> tr_requested_length tv <= VIRTUSB_TRANSFER_DATA_MAX ->
  exists s2 tv2, virtusb_backend_submit (Some h) (Some uhcd) (Some u) (Some t) false link s =
      Some (- ESHUTDOWN, s2) /\ backend_inv X T s2 /\
    k_hcds s2 = k_hcds s /\ k_trace s2 = k_trace s /\ k_urbs s2 = k_urbs s /\
    k_transfers s2 = <[t := tv2]> (k_transfers s) /\ tr_state tv2 <> VIRTUSB_TRANSFER_STATE_QUEUED.
Proof.
  intros Hst Hlen.
  destruct (backend_submit_spec X T s Hi h uhcd v Hv t tv Ht Hnew HT u uv Hu Hroom false link Hl)
    as (E & Hi' & _).
  destruct (submit_state_transfer s h uhcd v t tv Ht Hnew u false link) as (tv2 & Etr & Hcase).
  assert (Er : submit_error v tv false link = - ESHUTDOWN)
    by (rewrite submit_error_eq, Hst; by rewrite (proj2 (Z.ltb_ge _ _) Hlen)).
  rewrite Er in *. rewrite decide_False in Hcase by done. destruct Hcase as (? & _ & ? & ?).
  eexists _, tv2. split; [exact E | ]. split_and!; try done. unfold submit_state. by repeat case_match.
Qed.

(** C21. [virtusb_backend_stop] terminates with empty queues, no bindings and
    the stopping flag set and leaves other host controllers alone.  It wakes the
    sleepers, and unlinks and gives back the URB of every request once with
    -ESHUTDOWN, pending ones first and each queue in order: afterwards a URB that
    no other host controller holds has been given back exactly as often as it was
    linked.  From then on new backends and new transfers are refused with
    -ESHUTDOWN; a refused transfer is not queued and its URB is not linked. *)
Theorem backend_stop_correct X T s h uhcd v :
  backend_inv X T s -> k_hcds s !! h = Some v ->
  exists s' v', virtusb_backend_stop (Some h) (Some uhcd) s = Some (tt, s') /\ backend_inv X T s' /\
    k_hcds s' !! h = Some v' /\ vh_backend v' = mk_backend [] [] [] true /\
    (forall h', h' <> h -> k_hcds s' !! h' = k_hcds s !! h') /\
    k_trace s' = k_trace s ++ [EvWakeUp h] ++ shutdowns uhcd (all_requests (vh_backend v)) /\
    (forall u, (forall h' w, k_hcds s !! h' = Some w -> h' <> h -> backend_urbs u (vh_backend w) = 0) ->
       countb (is_link u) (k_trace s') = countb (is_giveback u) (k_trace s')) /\
    (forall owner d ov, k_objects s' !! d = Some ov ->
       virtusb_backend_register (Some h) (Some owner) (Some d) false s' = Some (- ESHUTDOWN, s')) /\
    (forall t tv u uv link, 1 <= T t -> k_transfers s' !! t = Some tv ->
       tr_state tv = VIRTUSB_TRANSFER_STATE_NEW -> tr_requested_length tv <= VIRTUSB_TRANSFER_DATA_MAX ->
       k_urbs s' !! u = Some uv -> room_for tv uv -> link <= 0 ->
       exists s2 tv2, virtusb_backend_submit (Some h) (Some uhcd) (Some u) (Some t) false link s' =
           Some (- ESHUTDOWN, s2) /\ backend_inv X T s2 /\
         k_hcds s2 = k_hcds s' /\ k_trace s2 = k_trace s' /\ k_urbs s2 = k_urbs s' /\
         k_transfers s2 = <[t := tv2]> (k_transfers s') /\
         tr_state tv2 <> VIRTUSB_TRANSFER_STATE_QUEUED).
Proof.
  intros Hi Hv. destruct (backend_stop_spec X T s h uhcd v Hi Hv) as (s' & E & Hi' & Hst & Hv' & Et).
  exists s', (set_backend (mk_backend [] [] [] true) v). split_and!; try done.
  - apply Hst.
  - intros u Hu. destruct (bi_balance _ _ _ Hi' u) as [Hb _].
    assert (urb_refs s' u = 0) as H0; [ | lia]. apply map_sum_zero. intros h' w Hw.
    destruct (decide (h' = h)) as [->|Hne]; [by simplify_eq | ].
    rewrite (sp_others _ _ _ Hst h' Hne) in Hw. by apply (Hu h' w).
  - intros owner d ov Hd.
    destruct (register_result_spec X T s' Hi' h _ Hv' owner d ov false Hd)
      as (r & s2 & Er & _ & _ & _ & H). cbn in H. by destruct H as [-> ->].
  - intros t tv u uv link HT Ht Hnew Hlen Hu Hroom Hl.
    by apply (submit_stopped X T s' Hi' h uhcd _ Hv' t tv Ht Hnew HT u uv Hu Hroom link Hl).
Qed.

(** A transfer whose creator still holds it when the HCD stops is refused. *)
Definition stopped_new : kernel :=
  match virtusb_backend_stop (Some h1) (Some h1) new_in with Some (_, s') => s' | None => new_in end.

Lemma backend_stop_correct_witness : exists s' s2,
  virtusb_backend_stop (Some h1) (Some h1) new_in = Some (tt, s') /\
  virtusb_backend_submit (Some h1) (Some h1) (Some u1) (Some t1) false 0 s' = Some (- ESHUTDOWN, s2) /\
  k_hcds s2 = k_hcds s' /\ k_trace s2 = k_trace s'.
Proof.
  destruct (backend_stop_correct _ _ new_in h1 h1 (hcd_at new_in) new_in_inv ltac:(eval_eq))
    as (s' & v' & E & _ & _ & _ & _ & _ & _ & _ & Hsub).
  assert (Es : s' = stopped_new) by (unfold stopped_new; by rewrite E). rewrite Es in Hsub, E. clear Es.
  destruct (Hsub t1 (transfer_at stopped_new t1) u1 urb_in 0) as (s2 & tv2 & Es & _ & Eh & Et & _); try eval_eq.
  - vm_compute. congruence.
  - vm_compute. congruence.
  - intros _ _. exists (replicate 18 0). split; [eval_eq | vm_compute; congruence].
  - done.
  - exists stopped_new, s2. exact (conj E (conj Es (conj Eh Et))).
Defined.

(** ** Registration *)

(** C22. [virtusb_backend_register] of a live device: -ENOMEM, -ESHUTDOWN, and
    -EBUSY when the file or the device already has a binding, all without any
    effect; otherwise the binding is appended and holds one reference to the
    device.  So a file serves at most one device and a device has at most one
    file. *)
Theorem backend_register_correct X T s h v owner d ov oom :
  backend_inv X T s -> k_hcds s !! h = Some v -> k_objects s !! d = Some ov ->
  exists r s', virtusb_backend_register (Some h) (Some owner) (Some d) oom s = Some (r, s') /\
    backend_inv X T s' /\ backend_step s s' /\
    r = (if oom then - ENOMEM else if be_stopping (vh_backend v) then - ESHUTDOWN
         else if decide (owner ∈ map bd_owner (be_bindings (vh_backend v)) \/
                         d ∈ map bd_device (be_bindings (vh_backend v))) then - EBUSY else 0) /\
    (r <> 0 -> s' = s) /\
    (r = 0 -> k_hcds s' = k_hcds (with_backend h (fun b =>
                set_bindings (be_bindings b ++ [mk_binding d owner]) b) s) /\
              binding_refs s' d = binding_refs s d + 1).
Proof.
  intros Hi Hv Hd. destruct (register_result_spec X T s Hi h v Hv owner d ov oom Hd)
    as (r & s' & E & Hi' & Hst & _ & H). exists r, s'. split_and!; try done.
  - destruct oom; [by destruct H | ]. destruct (be_stopping _); [by destruct H | ].
    pose proof (find_owner_none (vh_backend v) owner) as Ho.
    pose proof (find_device_none (vh_backend v) d) as Hd'.
    destruct (decide (virtusb_backend_find_owner_locked _ _ = None /\ _)) as [[Eo Ed]|Hn].
    + rewrite decide_False by tauto. by destruct H.
    + rewrite decide_True; [by destruct H | ].
      destruct (decide (owner ∈ map bd_owner (be_bindings (vh_backend v)))); [by left | right].
      apply dec_stable. tauto.
  - intros Hr. destruct oom; [by destruct H | ]. destruct (be_stopping _); [by destruct H | ].
    destruct (decide _); by destruct H.
  - intros ->. destruct oom; [by destruct H | ]. destruct (be_stopping _); [by destruct H | ].
    destruct (decide _); [ | by destruct H]. destruct H as [_ Eh]. split; [exact Eh | ].
    unfold binding_refs. rewrite Eh, (hcd_sum_with_backend _ _ h v s Hv).
    unfold bound_backend, backend_bindings. cbn [be_bindings set_bindings].
    rewrite count_app, count_cons, decide_True by done. rewrite count_nil. unfold hcd_sum. lia.
Qed.

Lemma backend_register_correct_witness : exists r s',
  virtusb_backend_register (Some h1) (Some f1) (Some d1) false reset = Some (r, s') /\
  backend_inv (fun _ => 0) (fun _ => 0) s'.
Proof.
  destruct (backend_register_correct _ _ reset h1 (hcd_at reset) f1 d1 (object_at reset d1) false
    (mo_inv _ _ _ reset_ok) ltac:(eval_eq) ltac:(eval_eq)) as (r & s' & E & Hi & _).
  exists r, s'. exact (conj E Hi).
Defined.

(** ** Sleeping *)

(** C23. No wake-up is lost.  While a fetch sleeps, others do anything that leaves
    it nothing to do; then one call into the module, whichever it is, leaves a
    pending request for the device of the file: that call woke the sleeper, and
    the fetch returns 0 with the oldest such request, which moves to the active
    queue with the file as owner.  The successful submission of a URB for that
    device is such a call: the URB becomes the request that the fetch returns. *)
Theorem fetch_woken_by_urb enc h f s0 os s c s1 v v1 buffer rest :
  fetch_section h f false s0 = Some (FetchWait, s0) -> sleeps_through h f s0 os s ->
  module_ok s -> call_allowed enc s c -> run_call enc c s = Some (tt, s1) ->
  k_hcds s !! h = Some v -> k_hcds s1 !! h = Some v1 ->
  (forall i r, next_request s1 v1 f = Some (i, r) -> exists tv ov,
     k_transfers s1 !! rq_transfer r = Some tv /\ k_objects s1 !! tr_device tv = Some ov /\
     virtusb_backend_fetch (Some h) (Some f) (Some buffer) false
       (map Others os ++ Others (run_call enc c) :: rest) s0 =
       Some ((0, Some (fetch_view tv ov)), with_backend h (fetched f i r) s1)) /\
  (forall u uv env uhcd k x, c = CallEnqueue h u env -> k_urbs s !! u = Some uv ->
     k_usb_hcds s !! h = Some uhcd ->
     virtusb_hcd_urb_enqueue (Some h) (Some u) env s = Some (0, s1) ->
     virtusb_backend_find_owner_locked (vh_backend v) f = Some (k, x) ->
     urb_device s h uhcd uv = Some (bd_device x) ->
     exists t tv, next_request s1 v1 f = Some (length (be_pending (vh_backend v)), mk_request u t None) /\
       k_transfers s1 !! t = Some tv /\ tr_id tv = k_next_transfer_id s + 1 /\
       tr_requested_length tv = ur_transfer_buffer_length uv).
Proof.
  intros Hwait Hthrough Hm Ha E Hv Hv1. pose proof (run_call_ok enc s Hm c s1 Ha E) as Hm1.
  pose proof (asleep_no_request s Hm h v f Hv (through_end _ _ _ _ _ Hthrough)) as Hno. split.
  - intros i r Hn.
    pose proof (backend_fetch_spec _ _ s1 (mo_inv _ _ _ Hm1) h v1 Hv1 f buffer false []) as Hf.
    rewrite Hn in Hf. destruct Hf as (tv & ov & Ht & Ho & Ef & _). exists tv, ov. split_and!; [done.. | ].
    rewrite <- Ef. assert (Hsome : next_request s1 v1 f <> None) by congruence.
    pose proof (call_wakes enc s Hm c s1 h v v1 f Ha E Hv Hv1 Hno Hsome) as Hw.
    assert (Hready : virtusb_backend_pending_for_owner_or_stopping h f s1 = Some (true, s1)).
    { rewrite (pending_for_owner_eq _ _ s1 (mo_inv _ _ _ Hm1) h v1 Hv1 f), Hn. by rewrite orb_true_r. }
    pose proof (fetch_section_spec _ _ s1 (mo_inv _ _ _ Hm1) h v1 Hv1 f false) as Hsec. rewrite Hn in Hsec.
    destruct Hsec as (_ & _ & Esec & _).
    eapply (fetch_sleep_over h f buffer _ rest [] s0 s1); [exact Hwait | | exact Esec | done].
    rewrite (wait_through h f s0 os s) by done.
    rewrite (wait_others h f s (run_call enc c) s1) by (by eapply through_end || done).
    rewrite Hw. by apply wait_ready.
  - intros u uv env uhcd k x -> Hu Huh Eenq Hb Hd.
    destruct Ha as (_ & Hid & uv' & Hu' & Hwf & Henv). assert (uv' = uv) as -> by congruence.
    destruct (hcd_parts s Hm h v Hv) as (hv & uhcd' & Hh & Huh'). assert (uhcd' = uhcd) as -> by congruence.
    destruct (enqueue_cases _ _ s (mo_inv _ _ _ Hm) h hv Hh uhcd Huh v Hv u uv Hu Hwf env Henv Hid)
      as (s2 & E2 & _ & _ & _ & _ & Hacc).
    rewrite Eenq in E2. injection E2 as E0 <-.
    destruct (Hacc (eq_sym E0)) as (d & ty & t & block & Hc & Hmem & _ & Eh & _ & Et).
    assert (d = bd_device x) as -> by (destruct (urb_check_ok s h uhcd uv d ty Hc) as [Hd' _]; congruence).
    destruct (accepted_next _ _ s (mo_inv _ _ _ Hm) h v Hv u uv Hwf env Henv _ ty t block Hmem f k x Hb eq_refl
      Hno s1 (mo_inv _ _ _ Hm1) Eh Et) as (v2 & ov & Hv2 & Hn & _).
    assert (v2 = v1) as -> by congruence. eexists t, _. split; [exact Hn | ].
    split; [rewrite Et; apply lookup_insert_eq | done].
Qed.

(** A poll by another process leaves the sleeper alone, a URB wakes it. *)
Lemma fetch_woken_by_urb_witness : exists view s2,
  virtusb_backend_fetch (Some h1) (Some f1) (Some zero_fetch) false
    [Others (run_call linux (CallPoll f1)); Others (run_call linux (CallEnqueue h1 u1 (enqueue_mem t1 18)))]
    registered = Some ((0, Some view), s2).
Proof.
  destruct (fetch_woken_by_urb linux h1 f1 registered [run_call linux (CallPoll f1)] registered
    (CallEnqueue h1 u1 (enqueue_mem t1 18)) enqueued1 (hcd_at registered) (hcd_at enqueued1) zero_fetch [])
    as [Hf _]; try eval_eq.
  - eapply through_more; [eval_eq | eval_eq | ]. constructor. eval_eq.
  - exact registered_ok.
  - apply enqueue_allowed with urb_in; [found | eval_eq | eval_eq | exact urb_in_wf | eval_eq | done].
  - destruct (Hf 0%nat (mk_request u1 t1 None) ltac:(eval_eq)) as (tv & ov & _ & _ & E). eexists _, _. exact E.
Defined.

(** C24. What ends the sleep of a fetch whose backend is unregistered.  The
    unregistration by another thread wakes the sleeper, but although a new fetch
    would fail with -ENODEV at once, this one goes back to sleep, and it sleeps on
    as long as the others leave it nothing to do, until a signal ends it with
    -ERESTARTSYS or the HCD stops: then it returns -ENODEV. *)
Theorem fetch_sleeps_through_unregister X T s h uhcd v owner i x buffer :
  backend_inv X T s -> k_hcds s !! h = Some v ->
  virtusb_backend_find_owner_locked (vh_backend v) owner = Some (i, x) ->
  next_request s v owner = None -> be_stopping (vh_backend v) = false ->
  exists s1,
    virtusb_backend_release_owner (Some h) (Some uhcd) (Some owner) s = Some (tt, s1) /\
    woken h (k_trace s) (k_trace s1) = true /\
    virtusb_backend_fetch (Some h) (Some owner) (Some buffer) false [] s1 =
      Some ((- ENODEV, Some buffer), s1) /\
    forall os s2, sleeps_through h owner s1 os s2 ->
      let others := map Others (virtusb_backend_release_owner (Some h) (Some uhcd) (Some owner) :: os) in
      virtusb_backend_fetch (Some h) (Some owner) (Some buffer) false (others ++ [Signalled (ret tt)]) s =
        Some ((- ERESTARTSYS, Some buffer), s2) /\
      forall X2 T2 v2 rest, backend_inv X2 T2 s2 -> k_hcds s2 !! h = Some v2 ->
        exists s3, virtusb_backend_stop (Some h) (Some uhcd) s2 = Some (tt, s3) /\
          virtusb_backend_fetch (Some h) (Some owner) (Some buffer) false
            (others ++ Others (virtusb_backend_stop (Some h) (Some uhcd)) :: rest) s =
            Some ((- ENODEV, Some buffer), s3).
Proof.
  intros Hi Hv Hb Hno Hrun.
  destruct (unregistered_asleep X T s Hi h v Hv owner i x Hb Hrun uhcd) as (s1 & b & E & Hi1 & Hv1 & Hgone & Hw & _).
  pose proof (fetch_condition_false X T s Hi h v Hv owner Hno Hrun) as Hcond.
  assert (Hwait : fetch_section h owner false s = Some (FetchWait, s))
    by (apply (fetch_section_waits X T s Hi h v Hv owner Hno); [by rewrite Hb | done]).
  exists s1. split_and!; [done | done | by apply (unbound_fetch h owner X T s1 _ buffer false [] Hi1 Hv1) | ].
  intros os s2 Hos others.
  assert (Hall : sleeps_through h owner s (virtusb_backend_release_owner (Some h) (Some uhcd) (Some owner) :: os) s2)
    by by eapply through_more.
  pose proof (through_end _ _ _ _ _ Hos) as Hcond2. unfold others. split.
  - eapply fetch_sleep_error; [exact Hwait | | done]. rewrite (wait_through h owner s _ s2) by done.
    by apply (wait_signal h owner s2 (ret tt) s2).
  - intros X2 T2 v2 rest Hi2 Hv2.
    destruct (backend_stop_spec X2 T2 s2 h uhcd v2 Hi2 Hv2) as (s3 & E3 & Hi3 & _ & Hv3 & Etr). exists s3.
    split; [done | ]. rewrite <- (unbound_fetch h owner X2 T2 s3 _ buffer false [] Hi3 Hv3 eq_refl).
    eapply (fetch_sleep_over h owner buffer _ rest [] s s3); [exact Hwait | |
      exact (unbound_section h owner X2 T2 s3 _ false Hi3 Hv3 eq_refl) | done].
    rewrite (wait_through h owner s _ s2) by done. rewrite (wait_others h owner s2 _ s3) by done.
    rewrite Etr, woken_app. cbn [app existsb]. rewrite is_wake_up_here. apply wait_ready.
    by rewrite (pending_for_owner_eq X2 T2 s3 Hi3 h _ Hv3 owner).
Qed.

Definition unregistered : kernel :=
  match virtusb_backend_release_owner (Some h1) (Some h1) (Some f1) registered with
  | Some (_, s') => s'
  | None => registered
  end.
Lemma unregistered_inv : backend_inv (fun _ => 0) (fun _ => 0) unregistered.
Proof.
  destruct (release_owner_spec _ _ registered (mo_inv _ _ _ registered_ok) h1 h1 (hcd_at registered)
    ltac:(eval_eq) f1) as (s1 & E & Hi & _). unfold unregistered. by rewrite E.
Qed.

Lemma fetch_sleeps_through_unregister_witness : exists s3,
  virtusb_backend_fetch (Some h1) (Some f1) (Some zero_fetch) false
    [Others (virtusb_backend_release_owner (Some h1) (Some h1) (Some f1));
     Others (run_call linux (CallPoll f1)); Signalled (ret tt)] registered =
    Some ((- ERESTARTSYS, Some zero_fetch), unregistered) /\
  virtusb_backend_fetch (Some h1) (Some f1) (Some zero_fetch) false
    [Others (virtusb_backend_release_owner (Some h1) (Some h1) (Some f1));
     Others (run_call linux (CallPoll f1));
     Others (virtusb_backend_stop (Some h1) (Some h1))] registered = Some ((- ENODEV, Some zero_fetch), s3).
Proof.
  destruct (fetch_sleeps_through_unregister _ _ registered h1 h1 (hcd_at registered) f1 0%nat
    (mk_binding d1 f1) zero_fetch (mo_inv _ _ _ registered_ok)) as (s1 & E & _ & _ & H); try eval_eq.
  assert (Es : s1 = unregistered) by (unfold unregistered; by rewrite E). rewrite Es in H. clear E Es.
  destruct (H [run_call linux (CallPoll f1)] unregistered) as [Hsig Hstop].
  - eapply through_more; [eval_eq | eval_eq | ]. constructor. eval_eq.
  - destruct (Hstop _ _ (hcd_at unregistered) [] unregistered_inv ltac:(eval_eq)) as (s3 & _ & E3).
    exists s3. exact (conj Hsig E3).
Defined.
