(* ===== verification/ModuleProps.v ===== *)
(** * Properties of the loaded module
    What holds in every state that a run of system calls and USB core calls can
    reach. *)

From S2P Require Import Prelude Uapi Kernel Port Hub Object Device Transfer Backend BackendInv BackendOps Hcd HcdSpec UrbSpec Control ControlSpec ModuleSpec Config Scenario.

(** C1. The module never gets stuck: starting from a consistent state, after any
    sequence of open, ioctl, poll, release, hub control, hub status, URB enqueue
    and URB dequeue calls with any arguments, every further call returns and
    leaves the module consistent.  In particular no path dereferences NULL or
    freed memory, takes a reference count below zero, reads or writes beyond a
    buffer, or loops forever. *)
Theorem every_call_returns enc s s' c : module_ok s -> module_reach enc s s' ->
  call_allowed enc s' c -> exists s'', run_call enc c s' = Some (tt, s'') /\ module_ok s''.
Proof. apply module_call_returns. Qed.

Lemma every_call_returns_witness : exists s'',
  run_call linux (ioctl VIRTUSB_IOCTL_TRANSFER_COMPLETE (user_complete 1 18) no_env) fetched1 =
    Some (tt, s'') /\ module_ok s''.
Proof.
  apply (every_call_returns linux booted fetched1); [exact booted_ok | exact reach_fetched1 | ].
  apply ioctl_allowed; [eval_eq | | by intros o].
  split; [done | done | intros ? [= <-]]. apply completion_ok_1. split; vm_compute; congruence.
Defined.

(** C9. URBs are conserved.  In every state of a run, the URBs that were linked
    to an endpoint and not yet given back are exactly the queued ones, and an
    URB was unlinked as often as it was given back.  So none is lost, none is
    given back twice, and an idle module has returned all of them. *)
Theorem urbs_conserved enc s s' u : module_ok s -> module_reach enc s s' ->
  countb (is_link u) (k_trace s') = countb (is_giveback u) (k_trace s') + urb_refs s' u /\
  countb (is_unlink u) (k_trace s') = countb (is_giveback u) (k_trace s') /\
  0 <= urb_refs s' u.
Proof.
  intros Hm Hr. destruct (bi_balance _ _ _ (mo_inv _ _ _ (module_reach_ok _ _ _ Hr Hm)) u) as [H1 H2].
  split_and!; [lia | done | ]. apply hcd_sum_nonneg, backend_urbs_nonneg.
Qed.

Lemma urbs_conserved_witness :
  countb (is_link u1) (k_trace fetched1) = 1 /\ countb (is_giveback u1) (k_trace fetched1) = 0 /\
  urb_refs fetched1 u1 = 1.
Proof.
  destruct (urbs_conserved linux booted fetched1 u1 booted_ok reach_fetched1) as (H1 & _ & H3).
  assert (countb (is_link u1) (k_trace fetched1) = 1) as E1 by eval_eq.
  assert (countb (is_giveback u1) (k_trace fetched1) = 0) as E2 by eval_eq.
  split; [exact E1 | ]. split; [exact E2 | ]. rewrite E1, E2 in H1. symmetry. exact H1.
Defined.

(** C10. Reference counts are exact.  Between two calls the count of an object is
    the number of its holders, the registry, the bindings of backends and the
    live transfers for it, and there is at least one; an object that was freed
    has no holder left.  A live transfer has one reference and is in exactly one
    queue: no call leaks a reference or keeps a pointer to freed memory. *)
Theorem references_exact enc s s' : module_ok s -> module_reach enc s s' ->
  (forall o ov, k_objects s' !! o = Some ov ->
     ob_refcount ov = registry_refs ov + transfer_refs (k_transfers s') o + binding_refs s' o /\
     0 < ob_refcount ov) /\
  (forall o, k_objects s' !! o = None ->
     transfer_refs (k_transfers s') o = 0 /\ binding_refs s' o = 0 /\
     forall id, k_registry s' !! id <> Some o) /\
  (forall t tv, k_transfers s' !! t = Some tv -> tr_refcount tv = 1 /\ request_refs s' t = 1) /\
  (forall t, k_transfers s' !! t = None -> request_refs s' t = 0).
Proof.
  intros Hm Hr. pose proof (module_reach_ok _ _ _ Hr Hm) as [[[Hrefs _ _ _ Hsingle] _ _] _ _].
  destruct Hrefs as [_ [_ Hreg _ Hcnt Hext _ _] [_ Htc Htd _ _ _] _].
  split_and!.
  - intros o ov Ho. destruct (Hcnt o ov Ho) as (_ & E & ?). lia.
  - intros o Ho. pose proof (Hext o Ho). pose proof (transfer_refs_nonneg (k_transfers s') o).
    pose proof (binding_refs_nonneg s' o). split_and!; [lia.. | ].
    intros id Hid. destruct (Hreg id o Hid) as (_ & ov & Ho' & _). congruence.
  - intros t tv Ht. destruct (Htc t tv Ht). specialize (Hsingle t). lia.
  - intros t Ht. specialize (Htd t Ht). lia.
Qed.

Lemma references_exact_witness :
  ob_refcount (object_at fetched1 d1) =
    registry_refs (object_at fetched1 d1) + transfer_refs (k_transfers fetched1) d1 +
    binding_refs fetched1 d1 /\ request_refs fetched1 t1 = 1.
Proof.
  destruct (references_exact linux booted fetched1 booted_ok reach_fetched1) as (Ho & _ & Ht & _).
  destruct (Ho d1 (object_at fetched1 d1) ltac:(eval_eq)) as [E _].
  destruct (Ht t1 (transfer_at fetched1 t1) ltac:(eval_eq)) as [_ Er].
  exact (conj E Er).
Defined.

(** C11. The USB protocol state of every port is consistent with its hardware
    state.  In every state of a run, an enabled port of a root hub is powered,
    attached to a device that signals, and its speed is the fastest one that
    both ends support; a port without connection is neither enabled nor has a
    speed; and no port is left in reset. *)
Theorem ports_consistent enc s s' h hv n : module_ok s -> module_reach enc s s' ->
  k_hubs s' !! h = Some hv -> port_valid hv n = true ->
  Z.testbit (usb_reset (hub_usb hv)) n = false /\
  (Z.testbit (usb_enabled (hub_usb hv)) n = true ->
     hub_speed hv n <> VIRTUSB_PORT_SPEED_NONE /\
     exists dv uv d, k_ports s' !! HubPort h (n - 1) = Some dv /\
       port_peer dv = Some (DevPort d) /\ k_ports s' !! DevPort d = Some uv /\
       port_peer uv = Some (HubPort h (n - 1)) /\
       downstream_powered (port_state dv) = true /\
       upstream_connection_signaling (port_state uv) = true /\
       hub_speed hv n = speed_of_caps (Z.land (port_speed dv) (port_speed uv))) /\
  (port_connected (k_ports s') h n = false ->
     Z.testbit (usb_enabled (hub_usb hv)) n = false /\ hub_speed hv n = VIRTUSB_PORT_SPEED_NONE).
Proof.
  intros Hm Hr Hh Hv. pose proof (module_bus _ _ _ (module_reach_ok _ _ _ Hr Hm)) as [Hwf Husb].
  destruct (Husb h hv Hh n (wf_position _ _ Hwf h hv n Hh Hv)) as (He & Hsp & Hre).
  split_and!; [done | | ].
  - intros Hen. destruct (He Hen) as [Hc Hne]. destruct (Hsp Hne) as [_ Heff].
    split; [done | ].
    destruct (wf_connected_facts _ _ Hwf _ _ _ Hh Hc) as (dv & uv & d & H1 & H2 & H3 & H4 & H5 & H6 & Es).
    exists dv, uv, d. split_and!; [done.. | ]. by rewrite Heff.
  - intros Hc. rewrite Hc in *. destruct (hub_speed hv n) eqn:Es; destruct (Z.testbit _ _) eqn:Een;
      try done; exfalso; (by destruct He) || by destruct Hsp.
Qed.

Lemma ports_consistent_witness :
  Z.testbit (usb_enabled (hub_usb (hub_at fetched1))) 1 = true /\
  hub_speed (hub_at fetched1) 1 <> VIRTUSB_PORT_SPEED_NONE.
Proof.
  destruct (ports_consistent linux booted fetched1 h1 (hub_at fetched1) 1 booted_ok reach_fetched1
    ltac:(eval_eq) ltac:(eval_eq)) as (_ & H & _).
  assert (Z.testbit (usb_enabled (hub_usb (hub_at fetched1))) 1 = true) as E by eval_eq.
  exact (conj E (proj1 (H E))).
Defined.

(** ** What stays as it was *)

(** C12. The type invariant of the object registry.  From a state whose registered
    objects are devices, whatever calls are made: the registry maps each ID to a
    live, registered object that carries this ID and the type
    VIRTUSB_OBJECT_TYPE_DEVICE, so that no handler takes its branch for an object
    of another type and a lookup by a valid ID fails only when the ID is not
    registered; and no call changes which host controllers and hubs there are
    or how they are configured. *)
Theorem registry_typed enc s s' : module_ok s -> typed s -> module_reach enc s s' ->
  module_config s' = module_config s /\ typed s' /\
  (forall id o, k_registry s' !! id = Some o -> exists ov, k_objects s' !! o = Some ov /\
     ob_type ov = VIRTUSB_OBJECT_TYPE_DEVICE /\ ob_id ov = id /\ ob_registered ov = true) /\
  forall id, id <> VIRTUSB_OBJECT_ID_INVALID -> exists r s2,
    virtusb_control_lookup_device id s' = Some (r, s2) /\
    match k_registry s' !! id with Some o => r = Ok o | None => r = Err (- ENOENT) end.
Proof.
  intros Hm Ht Hr.
  destruct (module_reach_stays enc s s' Hr Ht) as [Hc Ht' _ _].
  pose proof (module_reach_ok enc s s' Hr Hm) as Hm'. pose proof (module_objects _ _ _ Hm') as Hobj.
  assert (Hreg : forall id o, k_registry s' !! id = Some o -> exists ov, k_objects s' !! o = Some ov /\
    ob_type ov = VIRTUSB_OBJECT_TYPE_DEVICE /\ ob_id ov = id /\ ob_registered ov = true).
  { intros id o E. destruct (oo_registry _ _ Hobj id o E) as (_ & ov & Ho & Hid & Hrg).
    exists ov. split_and!; [done | by apply (Ht' o ov Ho) | done | done]. }
  split_and!; [done.. | ]. intros id Hid. eexists _, _. split; [by apply (lookup_device_eq _ _ s' Hm' id) | ].
  unfold lookup_result. rewrite (proj2 (Z.eqb_neq _ _) Hid).
  destruct (k_registry s' !! id) as [o|] eqn:E; [ | done]. destruct (Hreg id o E) as (ov & Ho & Hty & _).
  destruct (decide (type_of s' o = Some VIRTUSB_OBJECT_TYPE_DEVICE)) as [|Hn]; [done | ].
  destruct Hn. unfold type_of. by rewrite Ho, <- Hty.
Qed.

Lemma registry_typed_witness : exists s2,
  virtusb_control_lookup_device 1 created2 = Some (Ok d1, s2).
Proof.
  destruct (registry_typed linux booted created2 booted_ok ltac:(intros o ov Ho; discriminate Ho) reach_created2)
    as (_ & _ & _ & Hl).
  destruct (Hl 1 ltac:(discriminate)) as (r & s2 & E & Hr).
  assert (Er : k_registry created2 !! 1 = Some d1) by eval_eq. rewrite Er in Hr. rewrite Hr in E.
  exists s2. exact E.
Defined.

(** C13. An object ID is never reused.  An ID below the next one was given away:
    in every later state it names the object that it names now, or nothing, and
    an ID that names nothing any more never names an object again.  So a program
    that holds the ID of a device it created can never reach another device
    with it, whatever other programs destroy and create. *)
Theorem object_ids_unique enc s s' id : module_ok s -> typed s -> module_reach enc s s' ->
  id < k_next_object_id s ->
  id < k_next_object_id s' /\ (k_registry s' !! id = None \/ k_registry s' !! id = k_registry s !! id).
Proof.
  intros Hm Ht Hr Hid. assert (Hc : configured (module_config s) (files_here s) {[id := k_registry s !! id]} s).
  { destruct (configured_here s Ht) as [H1 H2 H3 _]. split; [done | done | done | ].
    intros j x [<- <-]%lookup_singleton_Some. split; [done | by right]. }
  destruct (reach_here enc s s' _ Hr Hc) as [_ _ _ Hids]. apply (Hids id). by rewrite lookup_singleton_eq.
Qed.

(** One call is a run. *)
Lemma after_reach c s : reached s -> call_allowed linux s c -> module_reach linux s (after c s).
Proof.
  intros Hr Ha. apply rtc_once, step_call with c; [done | ].
  pose proof (run_call_keeps linux s c (reached_ok s Hr) Ha) as Hk. unfold keeps, wp in Hk.
  unfold after. by destruct (run_call linux c s) as [[[] s']|].
Qed.

(** The first device is destroyed; the ID of the second one stays. *)
Definition destroy_first : call := ioctl VIRTUSB_IOCTL_DEVICE_DESTROY (user_destroy 1 0) no_env.
Lemma object_ids_unique_witness : 2 < k_next_object_id (after destroy_first created2) /\
  (k_registry (after destroy_first created2) !! 2 = None \/
   k_registry (after destroy_first created2) !! 2 = Some d2).
Proof.
  destruct (object_ids_unique linux created2 (after destroy_first created2) 2 created2_ok
    (cf_typed _ _ _ _ (module_reach_stays linux booted created2 reach_created2 ltac:(intros o ov Ho; discriminate Ho))))
    as [Hn Hid].
  - apply after_reach; [exact reach_created2 | ]. apply ioctl_allowed; [eval_eq | user_wf_tac | ]. intros o Ho. discriminate Ho.
  - apply Z.ltb_lt. eval_eq.
  - assert (E : k_registry created2 !! 2 = Some d2) by eval_eq. rewrite E in Hid. exact (conj Hn Hid).
Defined.
