(* ===== verification/ServiceProps.v ===== *)
(** * Properties of the module as a service
    Every call refines a step of the abstract service, and what follows for
    requests from submission to completion. *)

From stdpp Require Import sorting.
From S2P Require Import Prelude Uapi Kernel Port Hub Object Device Transfer Backend BackendInv BackendOps Hcd HcdSpec UrbSpec Control ControlSpec ModuleSpec Service ServiceSpec CallSpec Scenario.

(** C2. Every call into the module refines at most one action of the abstract
    service of [Service.v]: a backend binds or goes away with its requests, a
    request is submitted, delivered, fetched in vain, answered or cancelled.
    The URB events that the call adds to the trace are those of the action, and
    only the caller entitled to it causes it: URBs are submitted and cancelled by
    the USB core, a request is taken, answered and dropped by a call on the file
    of its backend. *)
Theorem call_refines_service enc s c s' : module_ok s -> call_allowed enc s c ->
  run_call enc c s = Some (tt, s') ->
  exists l, services_step (services_of s) l (services_of s') /\
    urb_trace s' = urb_trace s ++ seen l /\ Forall (authored enc c) l.
Proof.
  intros Hm Ha E. destruct (run_call_acts enc s Hm c s' Ha E) as (l & [Hst Hs] & Hau). by exists l.
Qed.

Definition fetch_first : call := ioctl VIRTUSB_IOCTL_TRANSFER_FETCH no_user no_env.
Lemma fetch_first_allowed : call_allowed linux enqueued2 fetch_first.
Proof. apply ioctl_allowed; [eval_eq | exact no_user_wf | by intros o]. Qed.

Lemma call_refines_service_witness : exists l,
  services_step (services_of enqueued2) l (services_of fetched1) /\
  urb_trace fetched1 = urb_trace enqueued2 ++ seen l /\ Forall (authored linux fetch_first) l.
Proof.
  apply (call_refines_service linux enqueued2 fetch_first fetched1).
  - exact enqueued2_ok.
  - exact fetch_first_allowed.
  - eval_eq.
Defined.

(** C3. Every run of the module is a run of the abstract service: there is a log
    of actions, each made by a call of the run, that leads from the service of
    the first state to the service of the last one and explains every URB event
    of the trace in order. *)
Theorem module_refines_service enc s s' : module_ok s -> module_reach enc s s' ->
  exists l, module_log enc s l s' /\ services_run (services_of s) l (services_of s') /\
    urb_trace s' = urb_trace s ++ seen l.
Proof.
  intros Hm Hr. destruct (module_run_log enc s s' Hm Hr) as [l Hl]. exists l. split; [done | ].
  by eapply module_log_run.
Qed.

Lemma module_refines_service_witness : exists l, module_log linux booted l fetched1 /\
  urb_trace fetched1 = seen l.
Proof.
  destruct (module_refines_service linux booted fetched1 booted_ok reach_fetched1) as (l & Hl & _ & Ht).
  exists l. exact (conj Hl Ht).
Defined.

(** C4. Requests live once.  In any run, the log of a transfer ID that is given
    out during the run is empty, or one submission, any number of fetches whose
    result could not be delivered, at most one delivery and at most one end, in
    this order; the end is by the USB core, by an answer of the file that the
    request was delivered to, or because a backend went away.  An ID that has not
    ended is still in the one place, waiting or with that backend, that the log
    says.  Requests from before the run continue from where they were. *)
Theorem requests_live_once enc s l s' : module_ok s -> module_log enc s l s' ->
  (forall n, k_next_transfer_id s < n ->
     exists p, whole_life (about n l) p /\ located (services_of s') n p) /\
  (forall n p, located (services_of s) n p ->
     exists p', life p (about n l) p' /\ located (services_of s') n p').
Proof.
  intros Hm Hl. destruct (module_log_run enc s l s' Hl) as [Hrun _].
  pose proof (module_services_ok s Hm) as Hok. split; [ | intros n p; by eapply services_run_life].
  intros n Hn. destruct (services_run_life _ _ _ n Unborn Hok Hrun Hn) as (p & Hlife & Hp).
  exists p. split; [by apply life_is_whole | done].
Qed.

(** The first URB of the scenario is with the file that fetched it. *)
Lemma first_job_place : located (services_of fetched1) 1 (Held h1 (mk_job 1 u1 d1) (Some f1)).
Proof.
  split; [done | ]. eexists. split; [apply (services_at fetched1 h1 (hcd_at fetched1)); eval_eq | ].
  assert (E : held (service_of fetched1 (vh_backend (hcd_at fetched1))) =
    [(mk_job 2 u2 d1, None); (mk_job 1 u1 d1, Some f1)]) by eval_eq.
  rewrite E. right. by left.
Qed.

Lemma requests_live_once_witness : exists l, module_log linux booted l fetched1 /\
  whole_life (about 1 l) (Held h1 (mk_job 1 u1 d1) (Some f1)).
Proof.
  destruct (module_run_log linux booted fetched1 booted_ok reach_fetched1) as [l Hl].
  destruct (proj1 (requests_live_once linux booted l fetched1 booted_ok Hl) 1) as (p & Hw & Hp);
    [reflexivity | ].
  exists l. split; [exact Hl | ].
  rewrite (located_unique _ _ _ _ (module_services_ok fetched1 fetched1_ok) first_job_place Hp). exact Hw.
Defined.

(** C5. Requests are delivered in order.  In any run that starts with queues in
    order, for each device the transfer IDs in the order in which a backend got
    them, followed by the IDs still waiting, increase: backends see the requests
    of a device in the order in which the USB core submitted them, none is
    delivered twice, and a fetch that is undone does not lose its place. *)
Theorem requests_in_order enc s l s' : module_ok s -> waits_in_order (services_of s) ->
  module_log enc s l s' -> forall h d,
  StronglySorted Z.lt (delivered_ids h d l ++ waiting_ids h d (services_of s')).
Proof.
  intros Hm Hw Hl h d. destruct (module_log_run enc s l s' Hl) as [Hrun _].
  by apply (services_run_order _ _ _ (module_services_ok s Hm) Hw Hrun).
Qed.

Lemma booted_in_order : waits_in_order (services_of booted).
Proof.
  intros h d. unfold waiting_ids, services_of. cbn [sc_at]. rewrite lookup_fmap.
  destruct (k_hcds booted !! h) as [v|] eqn:Hv; [ | constructor].
  destruct (booted_lookup h v Hv) as [-> ->]. constructor.
Qed.

Lemma requests_in_order_witness : exists l, module_log linux booted l fetched1 /\
  StronglySorted Z.lt (delivered_ids h1 d1 l ++ [2]).
Proof.
  destruct (module_run_log linux booted fetched1 booted_ok reach_fetched1) as [l Hl].
  pose proof (requests_in_order linux booted l fetched1 booted_ok booted_in_order Hl h1 d1) as Hs.
  assert (E : waiting_ids h1 d1 (services_of fetched1) = [2]) by eval_eq.
  exists l. split; [exact Hl | ]. rewrite <- E. exact Hs.
Defined.
