(* ===== verification/TransferProps.v ===== *)
(** * Properties of transfers *)

From S2P Require Import Prelude Uapi Kernel Port Hub Object Device Transfer Backend BackendInv BackendOps Hcd HcdSpec UrbSpec Control ControlSpec ModuleSpec Scenario.

(** ** Creation *)

(** Arguments that no transfer is created for. *)
Lemma create_refused d endpoint setup data len s type direction ty dir tmem bmem :
  transfer_type_of_Z type = Some ty -> transfer_direction_of_Z direction = Some dir ->
  ~ (endpoint <= 15 /\ (ty = VIRTUSB_TRANSFER_TYPE_CONTROL -> setup <> None) /\
     (dir = VIRTUSB_TRANSFER_DIRECTION_OUT -> 0 < len -> data <> None)) ->
  virtusb_transfer_create (Some d) type direction endpoint setup data len tmem bmem s = Some (None, s).
Proof.
  intros Et Ed Hn. unfold virtusb_transfer_create. rewrite Et, Ed.
  destruct (Z.ltb_spec 15 endpoint); [done | ].
  destruct (bool_decide (ty = _) && _) eqn:E1; [done | ].
  destruct (bool_decide (dir = _) && _ && _) eqn:E2; [done | ].
  destruct Hn. split_and!; [lia | intros -> -> | intros -> Hlen ->].
  - by rewrite !bool_decide_eq_true_2 in E1.
  - rewrite !bool_decide_eq_true_2 in E2 by done.
    by rewrite (proj2 (Z.ltb_lt 0 len) Hlen) in E2.
Qed.

Lemma of_Z_type type ty : transfer_type_of_Z type = Some ty -> transfer_type_to_Z ty = type.
Proof.
  unfold transfer_type_of_Z. intros H. repeat case_match; simplify_eq; cbn; lia.
Qed.
Lemma of_Z_direction z dir : transfer_direction_of_Z z = Some dir -> transfer_direction_to_Z dir = z.
Proof.
  unfold transfer_direction_of_Z. intros H. repeat case_match; simplify_eq; cbn; lia.
Qed.

Section create.
Context (X : obj_ptr -> Z) (T : transfer_ptr -> Z) (s : kernel) (Hok : refs_ok X T s).
Context (d : obj_ptr) (ov : virtusb_object) (Hd : k_objects s !! d = Some ov).
Context (endpoint : Z) (setup data : option (list Z)) (len : Z).
Context (He : 0 <= endpoint) (Hl : 0 <= len).
Context (Hsetup : forall b, setup = Some b -> (8 <= length b)%nat).
Context (Hdata : forall b, data = Some b -> len <= Z.of_nat (length b)).
Context (Hid : k_next_transfer_id s + 1 < 2 ^ 64).

Lemma create_accepted ty dir t bmem : endpoint <= 15 ->
  (ty = VIRTUSB_TRANSFER_TYPE_CONTROL -> setup <> None) ->
  (dir = VIRTUSB_TRANSFER_DIRECTION_OUT -> 0 < len -> data <> None) ->
  k_transfers s !! t = None -> (0 < len -> bmem <> None) ->
  (forall b, bmem = Some b -> Z.of_nat (length b) = len) ->
  let s' := created_transfer d ty dir endpoint setup data len t (default [] bmem) s in
  virtusb_transfer_create (Some d) (transfer_type_to_Z ty) (transfer_direction_to_Z dir) endpoint
    setup data len (Some t) bmem s = Some (Some t, s') /\ refs_ok X (add_ref t 1 T) s'.
Proof using Hok Hd He Hl Hsetup Hdata Hid.
  intros He15 Hs Hda Ht Hm Hb s'.
  assert (create_args_ok ty dir endpoint setup data len) as Hargs by (by constructor).
  assert (Z.of_nat (length (default [] bmem)) = len) as Hblock.
  { destruct bmem as [b|]; [by apply Hb | ]. destruct (decide (0 < len)); [by destruct Hm | cbn; lia]. }
  split; [ | by apply created_transfer_ok with ov].
  pose proof (transfer_create_eq d ty dir endpoint setup data len X T s Hok ov Hd t Ht
    (default [] bmem) Hargs Hid) as Eq.
  destruct bmem as [b|]; [exact Eq | ].
  assert (len = 0) as E0 by (destruct (decide (0 < len)); [by destruct Hm | lia]).
  revert Eq. subst s'. rewrite E0. rewrite <- transfer_create_nodata with (bmem := None). done.
Qed.
End create.

(** [virtusb_transfer_create] rejects exactly the invalid arguments: an
    unknown type or direction, an endpoint number beyond 15, a control transfer
    without SETUP packet, an OUT transfer with a length but without data.  It
    fails when memory runs out, and a failure changes nothing.  Otherwise the new
    transfer is in state NEW with one reference, a copy of the SETUP packet and
    of the data, an ID larger than that of every live transfer, and it holds one
    reference to its device. *)
Theorem transfer_create_correct X T s d ov type direction endpoint setup data len tmem bmem :
  refs_ok X T s -> k_objects s !! d = Some ov -> 0 <= endpoint -> 0 <= len ->
  (forall b, setup = Some b -> (8 <= length b)%nat) ->
  (forall b, data = Some b -> len <= Z.of_nat (length b)) ->
  (forall t, tmem = Some t -> k_transfers s !! t = None) ->
  (forall b, bmem = Some b -> Z.of_nat (length b) = len) ->
  k_next_transfer_id s + 1 < 2 ^ 64 ->
  exists r s',
    virtusb_transfer_create (Some d) type direction endpoint setup data len tmem bmem s = Some (r, s') /\
    match transfer_type_of_Z type, transfer_direction_of_Z direction, tmem with
    | Some ty, Some dir, Some t =>
        if decide (endpoint <= 15 /\ (ty = VIRTUSB_TRANSFER_TYPE_CONTROL -> setup <> None) /\
                   (dir = VIRTUSB_TRANSFER_DIRECTION_OUT -> 0 < len -> data <> None) /\
                   (0 < len -> bmem <> None))
        then r = Some t /\ refs_ok X (add_ref t 1 T) s' /\
             (exists ov', k_objects s' !! d = Some ov' /\ ob_refcount ov' = ob_refcount ov + 1) /\
             exists tv, k_transfers s' = <[t := tv]> (k_transfers s) /\
               tr_state tv = VIRTUSB_TRANSFER_STATE_NEW /\ tr_refcount tv = 1 /\
               tr_device tv = d /\ tr_type tv = ty /\ tr_direction tv = dir /\
               tr_endpoint tv = endpoint /\ tr_requested_length tv = len /\
               tr_actual_length tv = 0 /\ tr_status tv = - EINPROGRESS /\
               (forall b, setup = Some b -> tr_has_setup tv = true /\ tr_setup tv = take 8 b) /\
               (forall b, data = Some b -> 0 < len -> dir = VIRTUSB_TRANSFER_DIRECTION_OUT ->
                  tr_buffer tv = Some (take (Z.to_nat len) b)) /\
               forall t' tv', k_transfers s !! t' = Some tv' -> tr_id tv' < tr_id tv
        else r = None /\ s' = s
    | _, _, _ => r = None /\ s' = s
    end.
Proof.
  intros Hok Hd He Hl Hsetup Hdata Ht Hb Hid.
  destruct (transfer_type_of_Z type) as [ty|] eqn:Ety.
  2: { exists None, s. split; [ | done]. unfold virtusb_transfer_create. by rewrite Ety. }
  destruct (transfer_direction_of_Z direction) as [dir|] eqn:Edir.
  2: { exists None, s. split; [ | done]. unfold virtusb_transfer_create. by rewrite Ety, Edir. }
  destruct tmem as [t|].
  2: { exists None, s. split; [ | done]. by apply transfer_create_oom; left. }
  destruct (decide _) as [(H1 & H2 & H3 & H4)|Hn].
  - destruct (create_accepted X T s Hok d ov Hd endpoint setup data len He Hl Hsetup Hdata Hid ty dir t
      bmem H1 H2 H3 (Ht t eq_refl) H4 Hb) as [E Hok'].
    rewrite (of_Z_type _ _ Ety), (of_Z_direction _ _ Edir) in E.
    eexists _, _. split; [exact E | ]. split_and!; [done | done | | ].
    + eexists. split; [ | by instantiate (1 := set_ob_refcount (ob_refcount ov + 1) ov)].
      cbn. by rewrite lookup_alter_eq, Hd.
    + eexists. split; [done | ]. cbn. split_and!; try done.
      * by intros b ->.
      * intros b -> Hlen ->. unfold new_buffer. by rewrite (proj2 (Z.ltb_lt 0 len) Hlen).
      * intros t' tv' Ht'. pose proof (to_id _ _ (ro_transfers _ _ _ Hok) t' tv' Ht'). lia.
  - exists None, s. split; [ | done].
    destruct (decide (0 < len /\ bmem = None)); [by apply transfer_create_oom; right | ].
    eapply create_refused; [done | done | ]. intros (H1 & H2 & H3). apply Hn. split_and!; [done.. | ].
    intros Hlen E. by destruct n.
Qed.

Lemma transfer_create_correct_witness : exists r s',
  virtusb_transfer_create (Some d1) 0 1 0 (Some setup_packet) None 18 (Some t1)
    (Some (replicate 18 0xaa)) registered = Some (r, s').
Proof.
  destruct (transfer_create_correct _ _ registered d1 (object_at registered d1) 0 1 0
    (Some setup_packet) None 18 (Some t1) (Some (replicate 18 0xaa))
    (bc_refs _ _ _ (bi_core _ _ _ (mo_inv _ _ _ registered_ok))))
    as (r & s' & E & _).
  - eval_eq.
  - discriminate.
  - discriminate.
  - intros b [= <-]. exact (le_n 8).
  - discriminate.
  - intros t [= <-]. eval_eq.
  - intros b [= <-]. eval_eq.
  - eval_eq.
  - exists r, s'. exact E.
Defined.

(** ** Life of one transfer *)

(** The operations on the state of a transfer, in any order. *)
Inductive transfer_op :=
  | OpQueue
  | OpComplete (status actual_length : Z)
  | OpCancel (status : Z).

Definition run_op (t : transfer_ptr) (op : transfer_op) : K Z :=
  match op with
  | OpQueue => virtusb_transfer_mark_queued (Some t)
  | OpComplete status actual => virtusb_transfer_complete (Some t) status actual
  | OpCancel status => virtusb_transfer_cancel (Some t) status
  end.
Fixpoint run_ops (t : transfer_ptr) (ops : list transfer_op) : K (list Z) :=
  match ops with
  | [] => ret []
  | op :: ops => r <- run_op t op ;; rs <- run_ops t ops ;; ret (r :: rs)
  end.

(** The operation and its result: did it end the transfer? *)
Definition ended (x : transfer_op * Z) : Prop :=
  match x.1 with OpQueue => False | _ => x.2 = 0 end.
#[global] Instance ended_dec x : Decision (ended x).
Proof. unfold ended. destruct x.1; apply _. Defined.

Definition final_record (op : transfer_op) (tv : virtusb_transfer) : virtusb_transfer :=
  match op with
  | OpQueue => tv
  | OpComplete status actual => set_tr_result actual status VIRTUSB_TRANSFER_STATE_COMPLETED tv
  | OpCancel status => set_tr_result 0 status VIRTUSB_TRANSFER_STATE_CANCELLED tv
  end.

(** After the end nothing is accepted any more. *)
Lemma run_ops_closed t ops : forall s tv, k_transfers s !! t = Some tv -> transfer_open tv = false ->
  run_ops t ops s = Some (replicate (length ops) (- EINVAL), s).
Proof.
  induction ops as [|op ops IH]; intros s tv Ht Hc; [done | ].
  assert (run_op t op s = Some (- EINVAL, s)) as E.
  { destruct op; cbn.
    - rewrite (transfer_mark_queued_eq s t tv Ht), decide_False; [done | ].
      intros E. unfold transfer_open in Hc. by rewrite E in Hc.
    - by rewrite (transfer_complete_eq s t tv Ht), Hc.
    - by rewrite (transfer_cancel_eq s t tv Ht), Hc. }
  cbn [run_ops]. unfold bind at 1. rewrite E. unfold bind. by rewrite (IH s tv Ht Hc).
Qed.

(** Before the end an operation ends the transfer or leaves it open. *)
Lemma run_op_open t op s tv : k_transfers s !! t = Some tv -> transfer_open tv = true ->
  exists r tv', run_op t op s = Some (r, put_transfer t tv' s) /\
    (if decide (ended (op, r)) then tv' = final_record op tv /\ transfer_open tv' = false
     else transfer_open tv' = true /\ exists x, tv' = set_tr_state x tv).
Proof.
  intros Ht Ho.
  assert (put_transfer t tv s = s) as Eid.
  { unfold put_transfer. rewrite insert_id by done. by destruct s. }
  assert (tv = set_tr_state (tr_state tv) tv) as Etv by by destruct tv.
  destruct op as [|status actual|status]; cbn [run_op].
  - rewrite (transfer_mark_queued_eq s t tv Ht).
    destruct (decide _); [exists 0 | exists (- EINVAL)].
    + eexists. split; [done | ]. rewrite decide_False by by intros []. split; [done | by eexists].
    + exists tv. rewrite Eid. split; [done | ]. rewrite decide_False by by intros [].
      split; [done | by eexists].
  - rewrite (transfer_complete_eq s t tv Ht), Ho. destruct (_ <? _).
    + exists (- EMSGSIZE), tv. rewrite Eid. split; [done | ].
      rewrite decide_False by by unfold ended. split; [done | by eexists].
    + eexists 0, _. split; [done | ]. by rewrite decide_True by done.
  - rewrite (transfer_cancel_eq s t tv Ht), Ho. eexists 0, _. split; [done | ].
    by rewrite decide_True by done.
Qed.

(** A transfer ends once.  Whatever sequence of queueing, completion and
    cancellation is applied to an open transfer, each operation returns, the
    first completion or cancellation that returns 0 fixes the final state with
    its status and length, and every operation after it gives -EINVAL and changes
    nothing.  As long as none returns 0 the transfer stays open and keeps its
    data. *)
Theorem transfer_ends_once s t tv ops :
  k_transfers s !! t = Some tv -> transfer_open tv = true ->
  exists rs tv', run_ops t ops s = Some (rs, put_transfer t tv' s) /\ length rs = length ops /\
    match list_find ended (zip ops rs) with
    | None => transfer_open tv' = true /\ exists x, tv' = set_tr_state x tv
    | Some (i, (op, _)) =>
        transfer_open tv' = false /\ (exists x, tv' = final_record op (set_tr_state x tv)) /\
        forall j r, (i < j)%nat -> rs !! j = Some r -> r = - EINVAL
    end.
Proof.
  revert s tv. induction ops as [|op ops IH]; intros s tv Ht Ho.
  - exists [], tv. split; [ | split; [done | ]].
    + unfold put_transfer. rewrite insert_id by done. by destruct s.
    + split; [done | ]. exists (tr_state tv). by destruct tv.
  - destruct (run_op_open t op s tv Ht Ho) as (r & tv1 & E & Hr).
    assert (k_transfers (put_transfer t tv1 s) !! t = Some tv1) as Ht1 by apply lookup_insert_eq.
    cbn [run_ops]. unfold bind at 1. rewrite E.
    destruct (decide (ended (op, r))) as [Hend|Hend].
    + destruct Hr as [-> Hc]. unfold bind at 1. rewrite (run_ops_closed t ops _ _ Ht1 Hc).
      eexists (_ :: _), _. split; [done | ]. cbn. rewrite length_replicate. split; [done | ].
      rewrite decide_True by done. split; [done | ]. split; [by exists (tr_state tv); destruct tv | ].
      intros [|j] r' Hj; [lia | ]. cbn. intros Hr'. by apply lookup_replicate in Hr' as [-> _].
    + destruct Hr as [Ho1 (x1 & ->)]. destruct (IH _ _ Ht1 Ho1) as (rs & tv' & Ers & Hlen & Hrest).
      unfold bind at 1. rewrite Ers. exists (r :: rs), tv'. split; [ | split; [by cbn; rewrite Hlen | ]].
      { unfold ret, put_transfer. cbn. by rewrite insert_insert_eq. }
      cbn. rewrite decide_False by done.
      destruct (list_find ended (zip ops rs)) as [[i [op' r']]|]; cbn.
      * destruct Hrest as (? & (x & ->) & Hl). split; [done | ]. split; [by exists x | ].
        intros [|j] r'' Hj; [lia | ]. cbn. apply Hl. lia.
      * destruct Hrest as (? & x & ->). split; [done | by exists x].
Qed.

Lemma transfer_ends_once_witness : exists rs tv',
  run_ops t1 [OpQueue; OpComplete 0 99; OpComplete 0 18; OpCancel (-104); OpQueue] fetched1 =
    Some (rs, put_transfer t1 tv' fetched1) /\ rs = [- EINVAL; - EMSGSIZE; 0; - EINVAL; - EINVAL].
Proof.
  destruct (transfer_ends_once fetched1 t1 (transfer_at fetched1 t1)
    [OpQueue; OpComplete 0 99; OpComplete 0 18; OpCancel (-104); OpQueue]) as (rs & tv' & E & _);
    [eval_eq | eval_eq | ].
  exists rs, tv'. split; [exact E | ].
  assert (fst <$> run_ops t1 [OpQueue; OpComplete 0 99; OpComplete 0 18; OpCancel (-104); OpQueue] fetched1 =
    Some [- EINVAL; - EMSGSIZE; 0; - EINVAL; - EINVAL]) as E2 by eval_eq.
  rewrite E in E2. injection E2 as E2. exact E2.
Defined.
