(* ===== verification/ObjectProps.v ===== *)
(** * Properties of the object registry and of device lifetime *)

From S2P Require Import Prelude Uapi Kernel Port Hub Object Device Transfer Backend BackendInv BackendOps Hcd HcdSpec UrbSpec Control ControlSpec ModuleSpec Scenario.

(** The references to objects that are held outside the registry in a state
    between two calls. *)
Definition holders (s : kernel) (o : obj_ptr) : Z :=
  transfer_refs (k_transfers s) o + (binding_refs s o + 0).
Lemma module_holders s : module_ok s -> objects_ok (holders s) s.
Proof. apply (module_objects (fun _ => 0) (fun _ => 0) s). Qed.

(** ** The registry *)

Ltac refused := eexists _, _; split; [done | ]; split; [done | ]; split; [done | ];
  split; [ | done]; split; [done | ].

(** [virtusb_object_register] publishes an object under a fresh ID.  It
    succeeds exactly for a valid type, an unregistered object, an ID counter
    within 32 bits and enough memory; a failure changes nothing.  The new ID is
    larger than every ID in use, the counter moves past it, so no ID is ever
    given out twice, and the registry holds a reference of its own. *)
Theorem object_register_correct ext s o ov type oom :
  objects_ok ext s -> k_objects s !! o = Some ov ->
  exists r s', virtusb_object_register (Some o) type oom s = Some (r, s') /\
    objects_ok ext s' /\ (r <> 0 -> s' = s) /\
    (r = 0 <-> type <> VIRTUSB_OBJECT_TYPE_INVALID /\ ob_registered ov = false /\
               k_next_object_id s <= U32_MAX /\ oom = false) /\
    (r = 0 -> exists id,
       (forall id' o', k_registry s !! id' = Some o' -> id' < id) /\ in_width 32 id /\
       k_registry s' = <[id := o]> (k_registry s) /\ k_next_object_id s' = id + 1 /\
       exists ov', k_objects s' !! o = Some ov' /\ ob_id ov' = id /\ ob_type ov' = type /\
         ob_refcount ov' = ob_refcount ov + 1).
Proof.
  intros Hok Ho. rewrite (object_register_eq ext s Hok o ov type oom Ho).
  destruct (bool_decide (type = _)) eqn:Et.
  { apply bool_decide_eq_true in Et. refused. by intros (H & _). }
  apply bool_decide_eq_false in Et. destruct (ob_registered ov) eqn:Er.
  { refused. by intros (_ & H & _). }
  destruct (Z.ltb_spec U32_MAX (k_next_object_id s)).
  { refused. intros (_ & _ & H' & _). lia. }
  destruct oom.
  { refused. by intros (_ & _ & _ & H'). }
  eexists 0, _. split; [done | ].
  split; [by apply (object_publish_ok ext s Hok o ov type) | ].
  split; [done | ]. split; [done | ]. intros _. exists (k_next_object_id s).
  split; [intros id' o' Hid'; destruct (oo_registry _ _ Hok id' o' Hid') as [? _]; lia | ].
  split; [pose proof (oo_next _ _ Hok); unfold in_width, U32_MAX in *; lia | ].
  split; [done | ]. split; [done | ]. eexists. cbn. rewrite lookup_alter_eq, Ho. by split.
Qed.

Lemma object_register_correct_witness : exists r s',
  virtusb_object_register (Some d1) VIRTUSB_OBJECT_TYPE_DEVICE false registered = Some (r, s') /\
  objects_ok (holders registered) s'.
Proof.
  destruct (object_register_correct _ registered d1 (object_at registered d1)
    VIRTUSB_OBJECT_TYPE_DEVICE false (module_holders _ registered_ok) ltac:(eval_eq))
    as (r & s' & E & Hok & _).
  exists r, s'. exact (conj E Hok).
Defined.

(** Looking an ID up and withdrawing it.  [virtusb_object_lookup] returns the
    object registered under the ID with a reference that keeps it alive, and
    putting that reference back restores the state; an unknown ID gives NULL.
    [virtusb_object_unregister] of a detached object removes exactly its entry,
    so that the ID is not found again, and gives -ENOENT for an object that is
    not registered; the storage is freed when nobody else holds a reference. *)
Theorem object_lookup_unregister_correct ext s id :
  objects_ok ext s ->
  match k_registry s !! id with
  | None => virtusb_object_lookup id s = Some (None, s)
  | Some o => exists ov s1,
      virtusb_object_lookup id s = Some (Some o, s1) /\
      objects_ok (add_ref o 1 ext) s1 /\
      virtusb_object_put (Some o) s1 = Some (tt, s) /\
      k_objects s !! o = Some ov /\
      ((forall pv, k_ports s !! DevPort o = Some pv -> port_peer pv = None) ->
       exists s2, virtusb_object_unregister (Some o) s = Some (0, s2) /\ objects_ok ext s2 /\
         k_registry s2 = delete id (k_registry s) /\
         virtusb_object_lookup id s2 = Some (None, s2) /\
         (ext o = 0 <-> k_objects s2 !! o = None) /\
         (ext o <> 0 -> virtusb_object_unregister (Some o) s2 = Some (- ENOENT, s2)))
  end.
Proof.
  intros Hok. pose proof (object_lookup_eq ext s Hok id) as El.
  destruct (k_registry s !! id) as [o|] eqn:Hid; [ | done].
  destruct (oo_registry _ _ Hok id o Hid) as (_ & ov & Ho & Hreg & Eid).
  pose proof (registered_ref_ok ext s Hok id o Hid) as Hok1.
  destruct (oo_refcount _ _ Hok o ov Ho) as (Hnn & Erc & Hpos).
  exists ov, (object_ref o 1 s). split; [done | ]. split; [done | ]. split.
  { rewrite (object_put_eq _ _ Hok1 o) by (rewrite add_ref_eq; lia).
    by rewrite (object_ref_drop o ov s Ho Hpos). }
  split; [done | ]. intros Hdet.
  pose proof (object_unregister_eq ext s Hok o ov Ho Hdet) as Eu. rewrite Hreg in Eu.
  destruct (proj1 (oo_port _ _ Hok o) (ex_intro _ ov Ho)) as [pv Hpv].
  pose proof (object_withdraw_ok ext s Hok o ov pv Ho Hreg Hpv (Hdet pv Hpv)) as Hokw.
  pose proof (object_drop_ok _ _ Hokw o ltac:(rewrite add_ref_eq; lia)) as Hok2.
  set (s2 := object_drop o (object_withdraw o (ob_id ov) s)) in *.
  assert (objects_ok ext s2) as Hok2'.
  { eapply objects_ok_ext; [ | exact Hok2]. intros x. apply (add_ref_cancel o 1 ext). }
  assert (k_registry s2 = delete id (k_registry s)) as Er.
  { unfold s2, object_drop. repeat case_match; cbn; by rewrite Eid. }
  assert (k_objects (object_withdraw o (ob_id ov) s) !! o = Some (set_ob_registered false ov)) as Hw
    by (cbn; by rewrite lookup_alter_eq, Ho).
  exists s2. split; [done | ]. split; [done | ]. split; [done | ].
  rewrite (object_lookup_eq ext s2 Hok2' id), Er, lookup_delete_eq.
  unfold registry_refs in Erc. rewrite Hreg in Erc.
  split; [done | ]. unfold s2, object_drop. rewrite Hw. cbn [ob_refcount set_ob_registered].
  destruct (Z.eqb_spec (ob_refcount ov) 1).
  - assert (ext o = 0) as E0 by lia. rewrite E0. cbn. by rewrite lookup_delete_eq.
  - assert (ext o <> 0) as E0 by lia.
    assert (k_objects (object_ref o (-1) (object_withdraw o (ob_id ov) s)) !! o =
      Some (set_ob_refcount (ob_refcount ov + -1) (set_ob_registered false ov))) as Hw2
      by (cbn; by rewrite !lookup_alter_eq, Ho).
    split; [split; [done | by rewrite Hw2] | ]. intros _.
    assert (object_ref o (-1) (object_withdraw o (ob_id ov) s) = s2) as Es2.
    { unfold s2, object_drop. rewrite Hw. cbn. by destruct (Z.eqb_spec (ob_refcount ov) 1). }
    rewrite Es2 in *. rewrite (object_unregister_eq ext s2 Hok2' o _ Hw2); [done | ].
    intros pv'. rewrite <- Es2. apply Hdet.
Qed.

Lemma object_lookup_unregister_correct_witness : exists s2,
  virtusb_object_unregister (Some d2) created2 = Some (0, s2) /\
  virtusb_object_lookup 2 s2 = Some (None, s2).
Proof.
  pose proof (object_lookup_unregister_correct _ created2 2 (module_holders _ created2_ok)) as H.
  assert (k_registry created2 !! 2 = Some d2) as E2 by eval_eq. rewrite E2 in H.
  destruct H as (ov & s1 & _ & _ & _ & _ & H). destruct H as (s2 & E & _ & _ & El & _).
  - assert (k_ports created2 !! DevPort d2 = Some (port_at created2 (DevPort d2))) as Ep by eval_eq.
    intros pv Hpv. rewrite Ep in Hpv. injection Hpv as <-. eval_eq.
  - exists s2. exact (conj E El).
Defined.

(** [virtusb_object_lookup_first_by_type] returns the registered object of
    the type with the smallest ID, with a new reference, and NULL only if no
    registered object has the type. *)
Theorem object_lookup_first_by_type_correct ext s type :
  objects_ok ext s ->
  exists r s', virtusb_object_lookup_first_by_type type s = Some (r, s') /\
    match r with
    | Some o => objects_ok (add_ref o 1 ext) s' /\ virtusb_object_put r s' = Some (tt, s) /\
        exists id, k_registry s !! id = Some o /\ type_of s o = Some type /\
          forall id' o', k_registry s !! id' = Some o' -> type_of s o' = Some type -> id <= id'
    | None => s' = s /\ forall id o, k_registry s !! id = Some o -> type_of s o <> Some type
    end.
Proof.
  intros Hok. destruct (lookup_first_by_type_spec ext s Hok type) as [(id & o & E & Hid & Ht & Hmin)|[E Hn]].
  - eexists _, _. split; [exact E | ]. cbn. pose proof (registered_ref_ok ext s Hok id o Hid) as Hok1.
    destruct (oo_registry _ _ Hok id o Hid) as (_ & ov & Ho & _).
    destruct (oo_refcount _ _ Hok o ov Ho) as (Hnn & _ & Hpos).
    split; [done | ]. split; [ | by exists id].
    rewrite (object_put_eq _ _ Hok1 o) by (rewrite add_ref_eq; lia).
    by rewrite (object_ref_drop o ov s Ho Hpos).
  - eexists _, _. split; [exact E | ]. done.
Qed.

Lemma object_lookup_first_by_type_correct_witness : exists r s',
  virtusb_object_lookup_first_by_type VIRTUSB_OBJECT_TYPE_DEVICE created2 = Some (r, s') /\ r = Some d1.
Proof.
  destruct (object_lookup_first_by_type_correct _ created2 VIRTUSB_OBJECT_TYPE_DEVICE
    (module_holders _ created2_ok)) as (r & s' & E & _).
  exists r, s'. split; [exact E | ].
  assert (fst <$> virtusb_object_lookup_first_by_type VIRTUSB_OBJECT_TYPE_DEVICE created2 =
    Some (Some d1)) as E2 by eval_eq.
  rewrite E in E2. injection E2 as E2. exact E2.
Defined.

(** ** Devices *)

(** [virtusb_device_shutdown_all] terminates after at most one iteration per
    registered object and one more, and leaves no registered device; every bus
    and reference-count invariant is kept.  The number of iterations allowed
    beyond that makes no difference. *)
Theorem device_shutdown_all_terminates ext s :
  bus_ok s -> objects_ok ext s ->
  exists s', device_step ext s s' /\
    (forall id o ov, k_registry s' !! id = Some o -> k_objects s' !! o = Some ov ->
       ob_type ov <> VIRTUSB_OBJECT_TYPE_DEVICE) /\
    forall fuel, (size (k_registry s) < fuel)%nat ->
      virtusb_device_shutdown_all fuel s = Some (tt, s').
Proof.
  intros Hb Ho.
  assert (forall fuel st st', virtusb_device_shutdown_all fuel st = Some (tt, st') ->
    virtusb_device_shutdown_all (S fuel) st = Some (tt, st')) as Hmono.
  { induction fuel as [|fuel IH]; [done | ]. intros st st'. change (S fuel) with (0 + S fuel)%nat at 1.
    cbn [virtusb_device_shutdown_all Nat.add]. unfold bind.
    destruct (virtusb_object_lookup_first_by_type _ st) as [[[o|] s1]|]; [ | done..].
    destruct (virtusb_device_destroy _ _ s1) as [[r s2]|]; [ | done].
    destruct (virtusb_object_put _ s2) as [[[] s3]|]; [ | done]. apply IH. }
  destruct (shutdown_all_spec ext (S (size (k_registry s))) s Hb Ho ltac:(lia)) as (s' & E & Hs & Hn).
  exists s'. split; [done | ]. split; [done | ]. intros fuel Hf.
  replace fuel with (fuel - S (size (k_registry s)) + S (size (k_registry s)))%nat by lia.
  induction (fuel - S (size (k_registry s)))%nat; [done | ]. by apply Hmono.
Qed.

Lemma device_shutdown_all_terminates_witness : exists s',
  virtusb_device_shutdown_all 3 connected = Some (tt, s') /\ bus_ok s'.
Proof.
  destruct (device_shutdown_all_terminates _ connected (module_bus _ _ _ connected_ok)
    (module_holders _ connected_ok)) as (s' & Hs & _ & Hf).
  exists s'. split; [ | exact (ds_bus _ _ _ Hs)]. apply Hf.
  assert (size (k_registry connected) = 2%nat) as -> by eval_eq. exact (le_n 3).
Defined.
