(* ===== verification/TopologyProps.v ===== *)
(** * Properties of the topology: ports, hubs and devices *)

From S2P Require Import Prelude Uapi Kernel Port Hub Object Device Transfer Backend BackendInv BackendOps Hcd HcdSpec UrbSpec Control ControlSpec ModuleSpec Scenario ObjectProps.

(** ** Ports *)

(** [virtusb_port_attach] is total on live ports and gives exactly one of
    three outcomes: -EINVAL for wrong roles, -EBUSY when an end is already
    attached, both with the heap unchanged; otherwise 0, with the two peer
    pointers set to each other and nothing else changed.  In every case the
    port graph stays reciprocal. *)
Theorem virtusb_port_attach_correct s dp up dv uv :
  ports_reciprocal (k_ports s) ->
  k_ports s !! dp = Some dv -> k_ports s !! up = Some uv ->
  exists r m, virtusb_port_attach (Some dp) (Some up) s = Some (r, set_ports m s) /\
    ports_reciprocal m /\
    (if decide (port_role dv = VIRTUSB_PORT_ROLE_DOWNSTREAM /\
                port_role uv = VIRTUSB_PORT_ROLE_UPSTREAM)
     then if decide (port_peer dv = None /\ port_peer uv = None)
          then r = 0 /\ m = link_ports dp up dv uv (k_ports s)
          else r = - EBUSY /\ m = k_ports s
     else r = - EINVAL /\ m = k_ports s).
Proof.
  intros Hm Hd Hu. destruct (decide _) as [[Rd Ru]|Hr].
  - destruct (decide _) as [[Pd Pu]|Hp].
    + eexists 0, _. split; [by eapply port_attach_ok | ]. eauto with heap.
    + exists (- EBUSY), (k_ports s). rewrite set_ports_id.
      split; [ | done]. eapply port_attach_busy; eauto.
      destruct (port_peer dv), (port_peer uv); auto; naive_solver.
  - exists (- EINVAL), (k_ports s). rewrite set_ports_id.
    split; [by eapply port_attach_bad_role | done].
Qed.

(** Detaching undoes an attachment from either end: after a successful
    attach of two detached ports, detaching the downstream or the upstream port
    gives back the original state. *)
Theorem virtusb_port_detach_attach s dp up dv uv :
  ports_reciprocal (k_ports s) ->
  k_ports s !! dp = Some dv -> k_ports s !! up = Some uv ->
  port_role dv = VIRTUSB_PORT_ROLE_DOWNSTREAM -> port_role uv = VIRTUSB_PORT_ROLE_UPSTREAM ->
  port_peer dv = None -> port_peer uv = None ->
  (r <- virtusb_port_attach (Some dp) (Some up) ;; virtusb_port_detach (Some dp) ;; ret r) s
    = Some (0, s) /\
  (r <- virtusb_port_attach (Some dp) (Some up) ;; virtusb_port_detach (Some up) ;; ret r) s
    = Some (0, s).
Proof.
  intros Hm Hd Hu Rd Ru Pd Pu. assert (Hne : dp <> up) by congruence.
  unfold bind. rewrite (port_attach_ok s dp up dv uv) by done.
  destruct (unlink_link (k_ports s) dp up dv uv) as [E1 E2]; try done.
  set (s' := set_ports _ s).
  assert (Hr : ports_reciprocal (k_ports s')) by (cbn; eauto with heap).
  assert (H1 : k_ports s' !! dp = Some (set_peer (Some up) dv))
    by (cbn; unfold link_ports; by simplify_map_eq).
  assert (H2 : k_ports s' !! up = Some (set_peer (Some dp) uv))
    by (cbn; unfold link_ports; by simplify_map_eq).
  rewrite (port_detach_ok s' dp up _ _ Hr H1 eq_refl H2).
  rewrite (port_detach_ok s' up dp _ _ Hr H2 eq_refl H1).
  unfold s'. simpl. rewrite E1, E2, set_ports_twice, set_ports_id. done.
Qed.

Lemma virtusb_port_attach_correct_witness : exists r m,
  virtusb_port_attach (Some (HubPort h1 1)) (Some (DevPort d2)) connected = Some (r, set_ports m connected) /\
  ports_reciprocal m.
Proof.
  destruct (virtusb_port_attach_correct connected (HubPort h1 1) (DevPort d2)
    (port_at connected (HubPort h1 1)) (port_at connected (DevPort d2))
    (bw_recip _ _ (proj1 (module_bus _ _ _ connected_ok))) ltac:(eval_eq) ltac:(eval_eq))
    as (r & m & E & Hm & _).
  exists r, m. exact (conj E Hm).
Defined.

Lemma virtusb_port_detach_attach_witness :
  (r <- virtusb_port_attach (Some (HubPort h1 1)) (Some (DevPort d2)) ;;
   virtusb_port_detach (Some (DevPort d2)) ;; ret r) connected = Some (0, connected).
Proof.
  apply (virtusb_port_detach_attach connected (HubPort h1 1) (DevPort d2)
    (port_at connected (HubPort h1 1)) (port_at connected (DevPort d2))
    (bw_recip _ _ (proj1 (module_bus _ _ _ connected_ok))) ltac:(eval_eq) ltac:(eval_eq)
    ltac:(eval_eq) ltac:(eval_eq) ltac:(eval_eq) ltac:(eval_eq)).
Defined.

(** ** Hubs *)

(** C26. [virtusb_hub_reset_port] enables exactly the ports that can be enabled.
    An invalid number gives -EINVAL and a port without connection -ENODEV, both
    without effect; the result -EOPNOTSUPP of the code is never seen.  Otherwise
    the port is enabled, resumed and out of reset, its speed is the fastest one
    that both ends support, C_PORT_RESET is pending, the owner of the hub is
    notified unless it was pending already, and every other port keeps its
    state. *)
Theorem hub_reset_port_correct s h hv n :
  bus_ok s -> k_hubs s !! h = Some hv ->
  exists r s', virtusb_hub_reset_port (Some h) n s = Some (r, s') /\ bus_step s s' /\
    r = (if port_valid hv n then if port_connected (k_ports s) h n then 0 else - ENODEV
         else - EINVAL) /\
    (r <> 0 -> s' = s) /\
    (r = 0 -> exists hv', k_hubs s' = <[h := hv']> (k_hubs s) /\ k_ports s' = k_ports s /\
       hub_speed hv' n <> VIRTUSB_PORT_SPEED_NONE /\
       (forall k, 0 <= k < 32 ->
          Z.testbit (usb_enabled (hub_usb hv')) k = (n =? k) || Z.testbit (usb_enabled (hub_usb hv)) k /\
          Z.testbit (usb_suspended (hub_usb hv')) k =
            negb (n =? k) && Z.testbit (usb_suspended (hub_usb hv)) k /\
          Z.testbit (usb_reset (hub_usb hv')) k = false /\
          Z.testbit (ch_reset (hub_change hv')) k = (n =? k) || Z.testbit (ch_reset (hub_change hv)) k /\
          hub_speed hv' k = if decide (n = k) then effective_speed (k_ports s) h n else hub_speed hv k) /\
       k_trace s' = k_trace s ++ (if Z.testbit (ch_reset (hub_change hv)) n then []
                                  else notify_events h hv)).
Proof.
  intros Hok Hh. destruct Hok as [Hwf Husb]. rewrite (hub_reset_port_eq s h hv n Hwf Hh).
  pose proof (conj Hwf Husb : bus_ok s) as Hok.
  destruct (port_valid hv n) eqn:Hv.
  2: { eexists _, s. split; [done | ]. split; [by apply bus_step_refl | done]. }
  destruct (port_connected (k_ports s) h n) eqn:Hc.
  2: { eexists _, s. split; [done | ]. split; [by apply bus_step_refl | done]. }
  pose proof (wf_position _ _ Hwf h hv n Hh Hv) as Hn.
  destruct (bw_hub _ _ Hwf h hv Hh) as [_ Huw Hcw _ _ _].
  eexists 0, _. split; [done | ]. split; [by apply reset_bus_step | ]. split; [done | ].
  split; [done | ]. intros _. eexists. split; [done | ]. split; [done | ].
  destruct (reset_usb_testbits n (effective_speed (k_ports s) h n) (hub_usb hv) n Huw Hn Hn)
    as (_ & _ & _ & Esp). rewrite decide_True in Esp by done.
  split; [ | split].
  - unfold hub_speed, reset_hub. cbn [hub_usb set_hub_usb set_hub_change]. rewrite Esp. by apply (connected_speed s h hv n).
  - intros k Hk.
    destruct (reset_usb_testbits n (effective_speed (k_ports s) h n) (hub_usb hv) k Huw Hn Hk)
      as (E1 & E2 & E3 & E4).
    unfold hub_speed, reset_hub. cbn [hub_usb hub_change set_hub_usb set_hub_change].
    split; [exact E1 | ]. split; [exact E2 | ]. split.
    { rewrite E3. destruct (Husb h hv Hh k Hk) as (_ & _ & ->). apply andb_false_r. }
    split; [ | exact E4]. unfold reset_change. rewrite bit_test_spec by apply Hn.
    destruct (Z.testbit (ch_reset (hub_change hv)) n) eqn:Er; cbn [ch_reset set_ch_reset].
    + destruct (Z.eqb_spec n k) as [->|]; [by rewrite Er | done].
    + apply bit_set_testbit; [apply Hcw | done | lia].
  - unfold reset_state, reset_events. by rewrite <- bit_test_spec by apply Hn.
Qed.

Lemma hub_reset_port_correct_witness : exists r s',
  virtusb_hub_reset_port (Some h1) 1 connected = Some (r, s') /\ r = 0.
Proof.
  destruct (hub_reset_port_correct connected h1 (hub_at connected) 1
    (module_bus _ _ _ connected_ok) ltac:(eval_eq)) as (r & s' & E & _ & Er & _).
  exists r, s'. refine (conj E _). rewrite Er. eval_eq.
Defined.

(** [virtusb_hub_set_port_power] switches exactly the ports that the power
    switching mode couples to the request, the port itself or all ports of a
    ganged hub, and leaves every other VBUS alone.  Every connection that
    appears or disappears becomes pending as C_PORT_CONNECTION with a
    notification, and a port that loses its connection is disabled with it.  An
    invalid port number gives -EINVAL without effect. *)
Theorem hub_set_port_power_correct s h hv n b :
  bus_ok s -> k_hubs s !! h = Some hv ->
  exists r s', virtusb_hub_set_port_power (Some h) n b s = Some (r, s') /\
    bus_step s s' /\ topology_step s s' /\
    (port_valid hv n = false -> r = - EINVAL /\ s' = s) /\
    (port_valid hv n = true -> r = 0 /\ forall k,
       port_powered (k_ports s') h k =
         if switches hv n k then b else port_powered (k_ports s) h k).
Proof.
  intros Hok Hh. rewrite (set_port_power_eq s Hok h hv Hh n b).
  destruct (port_valid hv n) eqn:Hv.
  - eexists _, _. split; [done | ]. split; [by apply switched_step | ].
    split; [by apply switched_topology | ]. split; [done | ]. intros _. split; [done | ].
    intros k. by apply switched_powered.
  - eexists _, _. split; [done | ]. split; [by apply bus_step_refl | ].
    split; [apply topology_step_refl | done].
Qed.

Lemma hub_set_port_power_correct_witness : exists r s',
  virtusb_hub_set_port_power (Some h1) 1 false connected = Some (r, s') /\
  port_powered (k_ports s') h1 1 = false.
Proof.
  destruct (hub_set_port_power_correct connected h1 (hub_at connected) 1 false
    (module_bus _ _ _ connected_ok) ltac:(eval_eq)) as (r & s' & E & _ & _ & _ & H).
  destruct (H ltac:(eval_eq)) as [_ Hp].
  exists r, s'. refine (conj E _). exact (Hp 1).
Defined.

(** The packed speed map stores one speed per port.  Writing the speed of a
    port and reading the map back gives the new speed at that port and the old
    one at every other port, and the map stays two words of 32 bits. *)
Theorem port_speed_map_roundtrip s h hv n speed :
  bus_wf (k_ports s) (k_hubs s) -> k_hubs s !! h = Some hv -> 0 <= n < 32 ->
  exists s', virtusb_hub_set_port_speed h n speed s = Some (tt, s') /\
    bus_wf (k_ports s') (k_hubs s') /\
    forall k, port_valid hv k = true ->
      virtusb_hub_get_port_speed (Some h) k s' =
        Some (if decide (n = k) then speed else hub_speed hv k, s') /\
      virtusb_hub_get_port_speed (Some h) k s = Some (hub_speed hv k, s).
Proof.
  intros Hwf Hh Hn. destruct (bw_hub _ _ Hwf h hv Hh) as [_ Huw Hcw _ _ _].
  pose proof (uw_speed _ Huw) as Hsw. eexists. split; [by apply hub_set_port_speed_eq | ].
  set (hv' := set_hub_usb _ hv).
  assert (bus_wf (k_ports s) (<[h := hv']> (k_hubs s))) as Hwf'.
  { apply bus_wf_hub_insert with hv; try done. destruct Huw. constructor; try done.
    by apply speed_list_set_ok. }
  split; [done | ]. intros k Hv. pose proof (wf_position _ _ Hwf h hv k Hh Hv) as Hk.
  rewrite (hub_get_port_speed_eq s Hwf h hv Hh k), Hv. split; [ | done].
  rewrite (hub_get_port_speed_eq (set_hubs (<[h := hv']> (k_hubs s)) s) Hwf' h hv'
    (lookup_insert_eq _ _ _) k).
  replace (port_valid hv' k) with true by done. unfold hub_speed. cbn.
  by rewrite speed_at_set.
Qed.

Lemma port_speed_map_roundtrip_witness : exists s',
  virtusb_hub_set_port_speed h1 2 VIRTUSB_PORT_SPEED_FULL reset = Some (tt, s') /\
  virtusb_hub_get_port_speed (Some h1) 2 s' = Some (VIRTUSB_PORT_SPEED_FULL, s').
Proof.
  destruct (port_speed_map_roundtrip reset h1 (hub_at reset) 2 VIRTUSB_PORT_SPEED_FULL
    (proj1 (module_bus _ _ _ reset_ok)) ltac:(eval_eq)) as (s' & E & _ & H).
  - split; [discriminate | reflexivity].
  - exists s'. exact (conj E (proj1 (H 2 ltac:(eval_eq)))).
Defined.

(** [virtusb_hub_get_port] and [virtusb_hub_find_port_number] are inverse: a
    valid number designates a port whose number is that number, the numbers of
    two valid ports differ, and every other port pointer gives -ENOENT with the
    output untouched. *)
Theorem hub_port_numbers_inverse s h hv :
  bus_wf (k_ports s) (k_hubs s) -> k_hubs s !! h = Some hv ->
  (forall n p out, virtusb_hub_get_port (Some h) n s = Some (Some p, s) ->
     1 <= n <= hub_port_count hv /\ is_Some (k_ports s !! p) /\
     virtusb_hub_find_port_number (Some h) (Some p) (Some out) s = Some ((0, Some n), s)) /\
  (forall n, virtusb_hub_get_port (Some h) n s = Some (None, s) <-> ~ 1 <= n <= hub_port_count hv) /\
  (forall p out, (forall n, virtusb_hub_get_port (Some h) n s <> Some (Some p, s)) ->
     virtusb_hub_find_port_number (Some h) (Some p) (Some out) s = Some ((- ENOENT, Some out), s)).
Proof.
  intros Hwf Hh.
  assert (forall n, port_valid hv n = true <-> 1 <= n <= hub_port_count hv) as Hval.
  { intros n. unfold port_valid. rewrite andb_true_iff, Z.ltb_lt, Z.leb_le. lia. }
  assert (forall n, virtusb_hub_get_port (Some h) n s =
    Some (if port_valid hv n then Some (HubPort h (n - 1)) else None, s)) as Eg
    by (intros n; by apply hub_get_port_eq).
  split_and!.
  - intros n p out. rewrite Eg. destruct (port_valid hv n) eqn:Hv; [ | done]. intros [= <-].
    destruct (wf_port _ _ Hwf h hv n Hh Hv) as (v & Hp & _). apply Hval in Hv.
    split; [done | ]. split; [by eexists | ].
    rewrite (hub_find_port_number_eq s Hwf h hv Hh). rewrite decide_True by (split; [done | lia]).
    do 3 f_equal. f_equal. lia.
  - intros n. rewrite Eg. destruct (port_valid hv n) eqn:Hv.
    + split; [done | ]. by apply Hval in Hv.
    + split; [ | done]. intros _ Hn. apply Hval in Hn. congruence.
  - intros p out Hp. rewrite (hub_find_port_number_eq s Hwf h hv Hh). destruct p as [d|h' i]; [done | ].
    rewrite decide_False; [done | ]. intros [-> Hi]. apply (Hp (i + 1)). rewrite Eg.
    rewrite (proj2 (Hval (i + 1))) by lia. do 4 f_equal. lia.
Qed.

Lemma hub_port_numbers_inverse_witness :
  virtusb_hub_find_port_number (Some h1) (Some (HubPort h1 3)) (Some 0) reset =
    Some ((0, Some 4), reset).
Proof.
  destruct (hub_port_numbers_inverse reset h1 (hub_at reset)
    (proj1 (module_bus _ _ _ reset_ok)) ltac:(eval_eq)) as (H & _).
  destruct (H 4 (HubPort h1 3) 0 ltac:(eval_eq)) as (_ & _ & E). exact E.
Defined.

(** [virtusb_hub_init] in fresh memory accepts 1 to 31 ports and gives a
    consistent hub: individual power switching, no port powered, attached or
    connected, no change pending and no protocol state.  Any other count gives
    -EINVAL without effect. *)
Theorem hub_init_correct s h n :
  bus_ok s -> k_hubs s !! h = None -> 0 <= n ->
  let fresh := set_ports (write_ports h (fun _ => zero_port) 31 0 (k_ports s))
    (set_hubs (<[h := zero_hub]> (k_hubs s)) s) in
  exists r s', virtusb_hub_init (Some h) n fresh = Some (r, s') /\
    (~ 1 <= n <= 31 -> r = - EINVAL /\ s' = fresh) /\
    (1 <= n <= 31 -> r = 0 /\ bus_ok s' /\ exists hv, k_hubs s' !! h = Some hv /\
       hub_port_count hv = n /\
       hub_power_switching_mode hv = VIRTUSB_HUB_POWER_SWITCHING_INDIVIDUAL /\
       hub_usb hv = zero_usb /\ hub_change hv = zero_change /\ hub_status_changed hv = None /\
       forall k, 1 <= k <= n -> exists v, k_ports s' !! HubPort h (k - 1) = Some v /\
         port_role v = VIRTUSB_PORT_ROLE_DOWNSTREAM /\ port_peer v = None /\
         downstream_powered (port_state v) = false).
Proof.
  intros Hok Hh Hn fresh. destruct (decide (1 <= n <= 31)) as [Hr|Hr].
  - assert (is_Some (k_hubs fresh !! h)) as Hhub by (exists zero_hub; apply lookup_insert_eq).
    assert (forall i, 0 <= i < VIRTUSB_MAX_HUB_PORTS -> is_Some (k_ports fresh !! HubPort h i)) as Hp.
    { intros i Hi. unfold fresh. cbn [k_ports set_ports].
      rewrite write_ports_lookup, decide_True by (split; [done | exact Hi]). by eexists. }
    rewrite (hub_init_eq fresh h n Hhub Hp Hr). eexists _, _. split; [done | ].
    split; [done | ]. intros _. split; [done | ].
    pose proof (hub_init_bus_ok s h n Hok Hh Hr) as Hok'.
    replace (set_ports _ _) with
      (set_ports (init_ports h n (k_ports s)) (set_hubs (<[h := init_hub n]> (k_hubs s)) s)).
    + split; [done | ]. exists (init_hub n). cbn [k_hubs k_ports set_ports set_hubs].
      rewrite lookup_insert_eq. do 6 (split; [done | ]).
      intros k Hk. rewrite init_ports_lookup by done. rewrite decide_True by
        (split; [done | unfold VIRTUSB_MAX_HUB_PORTS; lia]).
      destruct (Z.ltb_spec (k - 1) n); [ | lia]. by exists (init_port h).
    + unfold fresh, set_ports, set_hubs. cbn [k_ports k_hubs k_objects k_registry k_next_object_id
        k_transfers k_next_transfer_id k_hcds k_usb_hcds k_urbs k_files k_trace].
      rewrite insert_insert_eq. f_equal. apply map_eq. intros p. rewrite !init_ports_lookup by done.
      destruct p as [d|h' i]; rewrite write_ports_lookup; [done | ].
      unfold VIRTUSB_MAX_HUB_PORTS. by repeat case_decide.
  - exists (- EINVAL), fresh. split; [ | done]. unfold virtusb_hub_init, VIRTUSB_MAX_HUB_PORTS.
    destruct (Z.eqb_spec n 0); [done | ]. by destruct (Z.ltb_spec 31 n); [ | lia].
Qed.

Lemma hub_init_correct_witness : exists s',
  virtusb_hub_init (Some h1) 4 (set_ports (write_ports h1 (fun _ => zero_port) 31 0 ∅)
    (set_hubs (<[h1 := zero_hub]> ∅) empty_kernel)) = Some (0, s') /\ bus_ok s'.
Proof.
  destruct (hub_init_correct empty_kernel h1 4 empty_bus_ok eq_refl) as (r & s' & E & _ & H).
  - discriminate.
  - destruct H as (-> & Hok & _); [split; discriminate | ]. exists s'. exact (conj E Hok).
Defined.

(** ** Devices *)

(** The connection of a port that has just been linked or unlinked. *)
Lemma linked_connected m h n d dv uv :
  port_role uv = VIRTUSB_PORT_ROLE_UPSTREAM ->
  port_connected (link_ports (HubPort h (n - 1)) (DevPort d) dv uv m) h n =
    downstream_powered (port_state dv) && upstream_connection_signaling (port_state uv).
Proof.
  intros Hr. unfold port_connected, link_ports. rewrite lookup_insert_ne by done.
  rewrite lookup_insert_eq. cbn. rewrite lookup_insert_eq. cbn.
  by rewrite bool_decide_eq_true_2.
Qed.

Lemma linked_attached m h n d dv uv :
  attached_port (link_ports (HubPort h (n - 1)) (DevPort d) dv uv m) d = Some (h, n).
Proof.
  unfold attached_port, link_ports. rewrite lookup_insert_eq. cbn. do 2 f_equal. lia.
Qed.

(** C27. [virtusb_device_attach] links a registered device and a hub port that are
    both free; otherwise it gives -EBUSY without effect.  Afterwards the device is
    attached to exactly this port, the port is connected when it has VBUS and the
    device signals, every other connection is unchanged, and a new connection is
    pending as C_PORT_CONNECTION and notified. *)
Theorem device_attach_correct ext s d uv ov h hv n dv :
  bus_ok s -> objects_ok ext s -> k_objects s !! d = Some ov -> ob_registered ov = true ->
  k_ports s !! DevPort d = Some uv -> k_hubs s !! h = Some hv -> port_valid hv n = true ->
  k_ports s !! HubPort h (n - 1) = Some dv ->
  exists r s', virtusb_device_attach (Some d) (Some (HubPort h (n - 1))) s = Some (r, s') /\
    device_step ext s s' /\
    (if decide (port_peer dv = None /\ port_peer uv = None)
     then r = 0 /\ attached_port (k_ports s') d = Some (h, n) /\
          port_connected (k_ports s') h n =
            downstream_powered (port_state dv) && upstream_connection_signaling (port_state uv) /\
          forall h' k, ~ (h' = h /\ k = n) ->
            port_connected (k_ports s') h' k = port_connected (k_ports s) h' k
     else r = - EBUSY /\ s' = s).
Proof.
  intros Hb Ho Hd Hreg Huv Hh Hv Hdv.
  rewrite (device_attach_eq s Hb d uv Huv h hv Hh n Hv dv Hdv).
  destruct (decide _) as [[Hp1 Hp2]|].
  - eexists _, _. split; [done | ]. split.
    { by apply (device_link_step ext s Hb Ho d uv Huv h hv n dv ov). }
    destruct (bw_devport _ _ (proj1 Hb) d uv Huv) as (Hrole & _).
    rewrite settle_ports. split; [done | ]. split; [apply linked_attached | ].
    split; [by apply linked_connected | ]. intros h' k Hne.
    by apply (ca_other _ _ _ _ (change_at_link _ _ h n d dv uv (proj1 Hb) Hdv Huv Hp1 Hp2)).
  - eexists _, _. split; [done | ]. split; [by apply device_step_refl | done].
Qed.

Lemma device_attach_correct_witness : exists r s',
  virtusb_device_attach (Some d2) (Some (HubPort h1 (2 - 1))) connected = Some (r, s') /\ bus_ok s'.
Proof.
  destruct (device_attach_correct _ connected d2 (port_at connected (DevPort d2)) (object_at connected d2)
    h1 (hub_at connected) 2 (port_at connected (HubPort h1 (2 - 1)))
    (module_bus _ _ _ connected_ok) (module_holders _ connected_ok)
    ltac:(eval_eq) ltac:(eval_eq) ltac:(eval_eq) ltac:(eval_eq) ltac:(eval_eq) ltac:(eval_eq))
    as (r & s' & E & Hs & _).
  exists r, s'. exact (conj E (ds_bus _ _ _ Hs)).
Defined.

(** What a lost connection does to the bits of a hub. *)
Lemma disconnected_testbits n hv k : usb_words_ok (hub_usb hv) -> change_words_ok (hub_change hv) ->
  0 <= n < 32 -> 0 <= k < 32 ->
  let hv' := hub_report false n hv in
  Z.testbit (usb_enabled (hub_usb hv')) k = negb (n =? k) && Z.testbit (usb_enabled (hub_usb hv)) k /\
  Z.testbit (usb_suspended (hub_usb hv')) k = negb (n =? k) && Z.testbit (usb_suspended (hub_usb hv)) k /\
  Z.testbit (usb_reset (hub_usb hv')) k = negb (n =? k) && Z.testbit (usb_reset (hub_usb hv)) k /\
  hub_speed hv' k = (if decide (n = k) then VIRTUSB_PORT_SPEED_NONE else hub_speed hv k) /\
  connection_pending hv' k = (n =? k) || connection_pending hv k.
Proof.
  intros [He Hs Hr Hsp] [Hc _ _ _ _] Hn Hk hv'. unfold hv', hub_speed, connection_pending, hub_report. cbn.
  rewrite !bit_clear_testbit, speed_at_set by (done || lia). split_and!; [done.. | ].
  rewrite bit_test_spec by apply Hn. destruct (Z.testbit (ch_connected (hub_change hv)) n) eqn:Et; cbn.
  - destruct (Z.eqb_spec n k) as [<-|]; [by rewrite Et | done].
  - rewrite bit_set_testbit by (done || lia). done.
Qed.

(** Detaching a device, with the effect on its hub. *)
Lemma detach_effect s d uv h n hv : bus_ok s -> k_ports s !! DevPort d = Some uv ->
  attached_port (k_ports s) d = Some (h, n) -> k_hubs s !! h = Some hv ->
  exists s2, virtusb_device_detach (Some d) s = Some (tt, s2) /\ s2 = device_unplug d s /\
    k_ports s2 = unlink_device d (k_ports s) /\
    if port_connected (k_ports s) h n
    then k_hubs s2 = <[h := hub_report false n hv]> (k_hubs s) /\
         k_trace s2 = k_trace s ++ report_events h n hv
    else k_hubs s2 = k_hubs s /\ k_trace s2 = k_trace s.
Proof.
  intros Hb Hd Ha Hh. exists (device_unplug d s). split; [by eapply device_detach_eq | ]. split; [done | ].
  destruct (unlink_facts s Hb d uv Hd h n Ha) as (dv & _ & _ & _ & _ & Hdis).
  unfold device_unplug, device_settle. rewrite Ha. split; [apply settle_ports | ].
  unfold settle. rewrite Hdis. destruct (port_connected (k_ports s) h n); [ | done].
  unfold report. cbn. by rewrite Hh, Hdis.
Qed.

(** C28. [virtusb_device_detach] undoes an attachment.  A registered device is
    attached to a port; then the host may do whatever leaves VBUS, signalling and
    attachments alone, such as resetting and enabling the port and acknowledging
    its changes; then the device is detached.  This gives back the ports as they
    were before the attachment.  If the device was connected, the port is now
    disabled, resumed and out of reset, has no speed, and its C_PORT_CONNECTION is
    pending and notified unless it was pending already; every other port keeps
    its state.  If not, the hub is left alone and nothing is reported. *)
Theorem device_detach_undoes_attach ext s d uv ov h hv n dv :
  bus_ok s -> objects_ok ext s -> k_objects s !! d = Some ov -> ob_registered ov = true ->
  k_ports s !! DevPort d = Some uv -> k_hubs s !! h = Some hv -> port_valid hv n = true ->
  k_ports s !! HubPort h (n - 1) = Some dv -> port_peer dv = None -> port_peer uv = None ->
  exists s1, virtusb_device_attach (Some d) (Some (HubPort h (n - 1))) s = Some (0, s1) /\
    device_step ext s s1 /\
    forall exta sa hva, bus_ok sa -> objects_ok exta sa -> k_ports sa = k_ports s1 ->
      k_hubs sa !! h = Some hva ->
      exists s2, virtusb_device_detach (Some d) sa = Some (tt, s2) /\ device_step exta sa s2 /\
        k_ports s2 = k_ports s /\
        if downstream_powered (port_state dv) && upstream_connection_signaling (port_state uv)
        then (exists hv2, k_hubs s2 = <[h := hv2]> (k_hubs sa) /\ forall k, 0 <= k < 32 ->
                Z.testbit (usb_enabled (hub_usb hv2)) k =
                  negb (n =? k) && Z.testbit (usb_enabled (hub_usb hva)) k /\
                Z.testbit (usb_suspended (hub_usb hv2)) k =
                  negb (n =? k) && Z.testbit (usb_suspended (hub_usb hva)) k /\
                Z.testbit (usb_reset (hub_usb hv2)) k =
                  negb (n =? k) && Z.testbit (usb_reset (hub_usb hva)) k /\
                hub_speed hv2 k = (if decide (n = k) then VIRTUSB_PORT_SPEED_NONE else hub_speed hva k) /\
                connection_pending hv2 k = (n =? k) || connection_pending hva k) /\
             k_trace s2 = k_trace sa ++ (if connection_pending hva n then [] else notify_events h hva)
        else k_hubs s2 = k_hubs sa /\ k_trace s2 = k_trace sa.
Proof.
  intros Hb Ho Hd Hreg Huv Hh Hv Hdv Hp1 Hp2.
  pose proof (wf_position _ _ (proj1 Hb) h hv n Hh Hv) as Hn.
  destruct (bw_devport _ _ (proj1 Hb) d uv Huv) as (Hrole & _).
  pose proof (device_attach_eq s Hb d uv Huv h hv Hh n Hv dv Hdv) as E1. rewrite decide_True in E1 by done.
  pose proof (device_link_step ext s Hb Ho d uv Huv h hv n dv ov Hh Hv Hdv Hp1 Hp2 Hd Hreg) as Hs1.
  eexists. split; [exact E1 | ]. split; [exact Hs1 | ]. rewrite settle_ports.
  intros exta sa hva Hba Hoa Ep Hha.
  assert (Hd1 : k_ports sa !! DevPort d = Some (set_peer (Some (HubPort h (n - 1))) uv))
    by (rewrite Ep; apply lookup_insert_eq).
  assert (Hdv1 : k_ports sa !! HubPort h (n - 1) = Some (set_peer (Some (DevPort d)) dv)).
  { rewrite Ep. unfold link_device, link_ports. rewrite lookup_insert_ne by done. apply lookup_insert_eq. }
  assert (Ha1 : attached_port (k_ports sa) d = Some (h, n)) by (rewrite Ep; apply linked_attached).
  assert (Hconn : port_connected (k_ports sa) h n =
    downstream_powered (port_state dv) && upstream_connection_signaling (port_state uv))
    by (rewrite Ep; by apply linked_connected).
  destruct (detach_effect sa d _ h n hva Hba Hd1 Ha1 Hha) as (s2 & E2 & Es2 & Ep2 & Hcase).
  exists s2. split; [done | ]. split; [rewrite Es2; by eapply device_unplug_step | ]. split.
  { destruct (unlink_facts sa Hba d _ Hd1 h n Ha1) as (dv1 & Hdv1' & Eu & _).
    assert (dv1 = set_peer (Some (DevPort d)) dv) as -> by congruence.
    rewrite Ep2, Eu, Ep. by apply unlink_link. }
  rewrite Hconn in Hcase. destruct (_ && _); [ | done]. destruct Hcase as [Eh Et].
  destruct (bw_hub _ _ (proj1 Hba) h hva Hha) as [_ Huw Hcw _ _ _]. split.
  - exists (hub_report false n hva). split; [exact Eh | ]. intros k Hk. by apply disconnected_testbits.
  - rewrite Et. unfold report_events, connection_pending. by rewrite bit_test_spec by apply Hn.
Qed.

(** The first device is unplugged; plugging it in again, the host resets the
    port and acknowledges the new connection. *)
Definition unplugged := after (ioctl VIRTUSB_IOCTL_DEVICE_DETACH (user_detach 1) no_env) reset.
Definition replugged := after (ioctl VIRTUSB_IOCTL_DEVICE_ATTACH (user_attach 1 1) no_env) unplugged.
Definition port_request (request feature : Z) : call :=
  CallHubControl h1 request feature 1 (replicate 15 0) 0.
Definition reenabled := after (port_request SetPortFeature USB_PORT_FEAT_RESET) replugged.
Definition acknowledged := after (port_request ClearPortFeature USB_PORT_FEAT_C_CONNECTION) reenabled.

Lemma reach_unplugged : reached unplugged.
Proof. ioctl_tac reach_reset. by intros o. Qed.
Lemma reach_replugged : reached replugged.
Proof. ioctl_tac reach_unplugged. by intros o. Qed.
Lemma reach_reenabled : reached reenabled.
Proof. apply after_reached; [exact reach_replugged | ]. split; [found | ]. apply Nat.leb_le. eval_eq. Qed.
Lemma reach_acknowledged : reached acknowledged.
Proof. apply after_reached; [exact reach_reenabled | ]. split; [found | ]. apply Nat.leb_le. eval_eq. Qed.
Lemma unplugged_ok : module_ok unplugged.
Proof. exact (reached_ok _ reach_unplugged). Qed.
Lemma acknowledged_ok : module_ok acknowledged.
Proof. exact (reached_ok _ reach_acknowledged). Qed.

Lemma some_map_value {A B} (f : A -> B) m a b : f <$> m = Some b -> m = Some a -> f a = b.
Proof. intros E ->. by injection E. Qed.

Lemma hub_inserted (h : hub_ptr) (hv : virtusb_hub) (m m' : gmap hub_ptr virtusb_hub) :
  m' = <[h := hv]> m -> m' !! h = Some hv.
Proof. intros ->. apply lookup_insert_eq. Qed.

(** The port was enabled and had nothing to report, and then the reverse. *)
Lemma device_detach_undoes_attach_witness : exists s2 hv2,
  virtusb_device_detach (Some d1) acknowledged = Some (tt, s2) /\ k_ports s2 = k_ports unplugged /\
  Z.testbit (usb_enabled (hub_usb (hub_at acknowledged))) 1 = true /\
  connection_pending (hub_at acknowledged) 1 = false /\
  k_hubs s2 !! h1 = Some hv2 /\
  Z.testbit (usb_enabled (hub_usb hv2)) 1 = false /\ connection_pending hv2 1 = true /\
  k_trace s2 = k_trace acknowledged ++ [EvPollRhStatus h1].
Proof.
  destruct (device_detach_undoes_attach _ unplugged d1 (port_at unplugged (DevPort d1))
    (object_at unplugged d1) h1 (hub_at unplugged) 1 (port_at unplugged (HubPort h1 (1 - 1)))
    (module_bus _ _ _ unplugged_ok) (module_holders _ unplugged_ok)
    ltac:(eval_eq) ltac:(eval_eq) ltac:(eval_eq) ltac:(eval_eq) ltac:(eval_eq) ltac:(eval_eq)
    ltac:(eval_eq) ltac:(eval_eq)) as (s1 & E1 & _ & Hdet).
  assert (Ep : (fun x => k_ports x.2) <$> virtusb_device_attach (Some d1) (Some (HubPort h1 (1 - 1))) unplugged =
    Some (k_ports acknowledged)) by eval_eq.
  pose proof (some_map_value _ _ _ _ Ep E1) as Ep1. cbn beta in Ep1. cbn [snd] in Ep1. clear E1 Ep.
  destruct (Hdet _ acknowledged (hub_at acknowledged) (module_bus _ _ _ acknowledged_ok)
    (module_holders _ acknowledged_ok) (eq_sym Ep1) ltac:(eval_eq)) as (s2 & E2 & _ & Epo & H).
  assert (Hc : downstream_powered (port_state (port_at unplugged (HubPort h1 (1 - 1)))) &&
    upstream_connection_signaling (port_state (port_at unplugged (DevPort d1))) = true) by eval_eq.
  rewrite Hc in H. destruct H as [(hv2 & Eh & Hbits) Et]. destruct (Hbits 1 ltac:(lia)) as (Hen & _ & _ & _ & Hpe).
  exists s2, hv2. split; [exact E2 | ]. split; [exact Epo | ]. split; [eval_eq | ]. split; [eval_eq | ].
  split; [exact (hub_inserted _ _ _ _ Eh) | ]. split; [exact Hen | ]. split; [exact Hpe | exact Et].
Defined.

(** The heap after a signalling change. *)
Lemma signalled_port `{StatusChangedTable} s d uv b : k_ports s !! DevPort d = Some uv ->
  k_ports (device_signal b d s) = <[DevPort d := with_byte0 b uv]> (k_ports s).
Proof.
  intros Hd. unfold device_signal, device_settle. rewrite (update_port_insert _ _ uv) by done.
  destruct (attached_port (k_ports s) d) as [[h n]|]; [apply settle_ports | done].
Qed.

(** [virtusb_device_set_connection_signaling] always succeeds and sets the
    signalling of the device.  A device that is attached to a port with VBUS
    becomes connected or disconnected with it, which is pending and notified; no
    other connection changes.  [virtusb_device_has_vbus] tells whether the port it
    is attached to is powered. *)
Theorem device_signaling_correct ext s d uv b :
  bus_ok s -> objects_ok ext s -> k_ports s !! DevPort d = Some uv ->
  exists s', virtusb_device_set_connection_signaling (Some d) b s = Some (0, s') /\
    device_step ext s s' /\
    (exists uv', k_ports s' !! DevPort d = Some uv' /\
       upstream_connection_signaling (port_state uv') = b /\ port_peer uv' = port_peer uv) /\
    match attached_port (k_ports s) d with
    | None => virtusb_device_has_vbus (Some d) s = Some (false, s) /\
        forall h k, port_connected (k_ports s') h k = port_connected (k_ports s) h k
    | Some (h, n) =>
        virtusb_device_has_vbus (Some d) s = Some (port_powered (k_ports s) h n, s) /\
        port_connected (k_ports s') h n = port_powered (k_ports s) h n && b /\
        forall h' k, ~ (h' = h /\ k = n) ->
          port_connected (k_ports s') h' k = port_connected (k_ports s) h' k
    end.
Proof.
  intros Hb Ho Hd. rewrite (device_signal_eq s Hb d uv Hd b). eexists. split; [done | ].
  split; [by apply (device_signal_step ext s Hb Ho d uv Hd) | ].
  rewrite (signalled_port s d uv b Hd). split.
  { exists (with_byte0 b uv). by rewrite lookup_insert_eq. }
  rewrite (device_has_vbus_eq s Hb d uv Hd). destruct (attached_port (k_ports s) d) as [[h n]|] eqn:Ha.
  - destruct (attached_facts s Hb d uv Hd h n Ha) as (hv & dv & Hh & Hv & Hp & Hdv & Hp2 & Hr & _).
    destruct (bw_devport _ _ (proj1 Hb) d uv Hd) as (Hrole & _).
    split; [done | ]. split.
    + unfold port_connected, port_powered. rewrite lookup_insert_ne by done.
      rewrite Hdv, Hp2, lookup_insert_eq. cbn. by rewrite bool_decide_eq_true_2.
    + intros h' k Hne.
      by apply (ca_other _ _ _ _ (change_at_dev_state _ _ h n d uv
        (set_byte0 b (port_state uv)) (proj1 Hb) Hd Hp)).
  - split; [done | ]. intros h k. pose proof (not_attached s Hb d uv Hd Ha) as Hp.
    apply (view_dev_port _ _ d _ h k (proj1 Hb)).
    + intros v Hv. rewrite Hd in Hv. by injection Hv as <-.
    + intros p Hne. by apply lookup_insert_ne.
Qed.

Lemma device_signaling_correct_witness : exists s',
  virtusb_device_set_connection_signaling (Some d1) false connected = Some (0, s') /\
  virtusb_device_has_vbus (Some d1) connected = Some (true, connected).
Proof.
  destruct (device_signaling_correct _ connected d1 (port_at connected (DevPort d1)) false
    (module_bus _ _ _ connected_ok) (module_holders _ connected_ok) ltac:(eval_eq))
    as (s' & E & _ & _ & H).
  exists s'. refine (conj E _).
  assert (attached_port (k_ports connected) d1 = Some (h1, 1)) as Ea by eval_eq.
  rewrite Ea in H. destruct H as [Ev _]. rewrite Ev. eval_eq.
Defined.

(** C29. [virtusb_device_destroy] refuses an attached device with -EBUSY unless
    forced, and one that is not registered with -ENOENT, without effect.  When it
    succeeds exactly the registry entry of the device is gone, a device that was
    attached has been disconnected and detached before, with the change reported,
    the device is detached if it is still referenced, and its storage is freed
    exactly when nobody else holds a reference. *)
Theorem device_destroy_correct ext s d uv ov force :
  bus_ok s -> objects_ok ext s -> k_ports s !! DevPort d = Some uv -> k_objects s !! d = Some ov ->
  exists r s', virtusb_device_destroy (Some d) force s = Some (r, s') /\ device_step ext s s' /\
    r = (if decide (port_peer uv = None) then if ob_registered ov then 0 else - ENOENT
         else if force then 0 else - EBUSY) /\
    (r <> 0 -> s' = s) /\
    (r = 0 -> k_registry s' = delete (ob_id ov) (k_registry s) /\
       (ext d = 0 <-> k_objects s' !! d = None) /\
       (forall uv', k_ports s' !! DevPort d = Some uv' -> port_peer uv' = None) /\
       (forall ov', k_objects s' !! d = Some ov' -> ob_registered ov' = false)).
Proof.
  intros Hb Ho Hd Hov. pose proof (device_destroy_eq ext s d uv ov force Hb Ho Hd Hov) as E.
  assert (exists r s', virtusb_device_destroy (Some d) force s = Some (r, s') /\
    r = (if decide (port_peer uv = None) then if ob_registered ov then 0 else - ENOENT
         else if force then 0 else - EBUSY)) as (r & s' & E' & Er).
  { rewrite E. repeat case_match; by eexists _, _. }
  destruct (device_destroy_step ext s d uv ov force r s' Hb Ho Hd Hov E') as (Hs & H0 & Hne).
  exists r, s'. split_and!; [done.. | ]. intros Hr. destruct (H0 Hr) as [Ereg Hreg].
  split; [done | ].
  assert (forall ov', k_objects s' !! d = Some ov' -> ob_registered ov' = false) as Hunreg.
  { intros ov' Hov'. destruct (ob_registered ov') eqn:Hr'; [ | done].
    pose proof (oo_registered _ _ (ds_objects _ _ _ Hs) d ov' Hov' Hr') as Hl.
    rewrite Ereg, lookup_delete_Some in Hl. destruct Hl as [Hid Hl].
    destruct (oo_registry _ _ Ho _ _ Hl) as (_ & ov2 & Hov2 & _ & Hid2). congruence. }
  split_and!; [ | | exact Hunreg].
  - split.
    + intros E0. destruct (k_objects s' !! d) as [ov'|] eqn:Hov'; [ | done]. exfalso.
      destruct (oo_refcount _ _ (ds_objects _ _ _ Hs) d ov' Hov') as (_ & Erc & Hpos).
      unfold registry_refs in Erc. rewrite (Hunreg ov' eq_refl) in Erc. lia.
    + intros Hn. by apply (oo_ext _ _ (ds_objects _ _ _ Hs)).
  - intros uv' Huv'. destruct (proj2 (oo_port _ _ (ds_objects _ _ _ Hs) d)) as [ov' Hov'];
      [by eexists | ].
    destruct (port_peer uv') eqn:Hp; [ | done]. exfalso.
    assert (ob_registered ov' = true) as Hc
      by (apply (oo_attached _ _ (ds_objects _ _ _ Hs) d ov' uv'); [done | done | by rewrite Hp]).
    by rewrite (Hunreg ov' Hov') in Hc.
Qed.

Lemma device_destroy_correct_witness : exists r s',
  virtusb_device_destroy (Some d1) true connected = Some (r, s') /\ k_objects s' !! d1 = None.
Proof.
  destruct (device_destroy_correct _ connected d1 (port_at connected (DevPort d1))
    (object_at connected d1) true (module_bus _ _ _ connected_ok) (module_holders _ connected_ok)
    ltac:(eval_eq) ltac:(eval_eq)) as (r & s' & E & _ & Er & _ & H).
  exists r, s'. refine (conj E _). apply H; [rewrite Er; eval_eq | eval_eq].
Defined.

(** [virtusb_device_create] in fresh memory fails without a trace for an
    invalid speed mask (-EINVAL), an exhausted ID space (-ENOSPC) and lack of
    memory (-ENOMEM).  Otherwise the device is registered under a fresh ID,
    detached, not signalling, with the given capabilities, referenced by its
    creator and by the registry. *)
Theorem device_create_correct ext s o speed oom :
  bus_ok s -> objects_ok ext s -> k_objects s !! o = None -> in_width 8 speed ->
  exists r s', virtusb_device_create speed (Some o) oom s = Some (r, s') /\
    virtusb_device_create speed None oom s = Some (Err (- ENOMEM), s) /\
    match r with
    | Err e => s' = s /\
        e = (if decide (1 <= speed <= 7) then if decide (k_next_object_id s <= U32_MAX)
             then - ENOMEM else - ENOSPC else - EINVAL) /\
        (oom = false -> e <> - ENOMEM)
    | Ok d => d = o /\ 1 <= speed <= 7 /\ oom = false /\ device_step (add_ref o 1 ext) s s' /\
        k_registry s !! k_next_object_id s = None /\
        k_registry s' = <[k_next_object_id s := o]> (k_registry s) /\
        (exists ov, k_objects s' !! o = Some ov /\ ob_id ov = k_next_object_id s /\
           ob_type ov = VIRTUSB_OBJECT_TYPE_DEVICE /\ ob_refcount ov = 2) /\
        exists uv, k_ports s' !! DevPort o = Some uv /\ port_speed uv = speed /\
          port_peer uv = None /\ upstream_connection_signaling (port_state uv) = false
    end.
Proof.
  intros Hb Ho Hfresh Hw. rewrite (device_create_eq ext s Ho o Hfresh speed oom).
  pose proof (speed_is_valid_iff speed Hw) as Hval.
  assert (virtusb_device_create speed None oom s = Some (Err (- ENOMEM), s)) as Enone by done.
  destruct (virtusb_port_speed_is_valid speed) eqn:Ev.
  2: { eexists _, s. split; [done | ]. split; [done | ]. split; [done | ].
       rewrite decide_False by (intros Hc; by apply Hval in Hc). done. }
  pose proof (proj1 Hval eq_refl) as Hr.
  destruct (Z.ltb_spec U32_MAX (k_next_object_id s)).
  { eexists _, s. split; [done | ]. split; [done | ]. split; [done | ].
    rewrite decide_True by done. by rewrite decide_False by lia. }
  destruct oom.
  { eexists _, s. split; [done | ]. split; [done | ]. split; [done | ].
    rewrite decide_True by done. by rewrite decide_True by lia. }
  eexists _, _. split; [done | ]. split; [done | ]. cbn [k_registry].
  split; [done | ]. split; [done | ]. split; [done | ].
  split; [by apply created_device_step | ]. split; [by apply (next_id_fresh ext) | ]. split; [done | ].
  split.
  - eexists. split; [cbn; by rewrite lookup_alter_eq, lookup_insert_eq | done].
  - eexists. split; [cbn; by rewrite lookup_insert_eq | done].
Qed.

Lemma device_create_correct_witness : exists r s',
  virtusb_device_create 3 (Some d2) false created1 = Some (r, s') /\ r = Ok d2.
Proof.
  destruct (device_create_correct _ created1 d2 3 false (module_bus _ _ _ created1_ok)
    (module_holders _ created1_ok) ltac:(eval_eq)) as (r & s' & E & _).
  - split; [discriminate | reflexivity].
  - exists r, s'. refine (conj E _).
    assert (fst <$> virtusb_device_create 3 (Some d2) false created1 = Some (Ok d2)) as E2 by eval_eq.
    rewrite E in E2. injection E2 as E2. exact E2.
Defined.
