(* ===== verification/HcdProps.v ===== *)
(** * Properties of the root-hub requests and of the control device *)

From S2P Require Import Prelude Uapi Kernel Port Hub Object Device Transfer Backend BackendInv BackendOps Hcd HcdSpec UrbSpec Control ControlSpec ModuleSpec Scenario.

(** ** Port status *)

Lemma land_port n : 0 <= n < 256 -> Z.land n 0xff = n.
Proof. intros Hn. change 0xff with (Z.ones 8). rewrite Z.land_ones by lia. by apply Z.mod_small. Qed.

Lemma valid_index s h hv n : bus_ok s -> k_hubs s !! h = Some hv -> port_valid hv n = true ->
  1 <= n <= hub_port_count hv /\ n <= 31 /\ Z.land n 0xff = n.
Proof.
  intros [Hwf _] Hh Hv. pose proof (wf_position _ _ Hwf h hv n Hh Hv).
  unfold port_valid in Hv. rewrite andb_true_iff, Z.ltb_lt, Z.leb_le in Hv.
  split; [lia | ]. split; [lia | ]. apply land_port. lia.
Qed.

(** C25. The USB core and the control device report the same port.  For every
    valid port of a root hub the wPortStatus and wPortChange words of
    GetPortStatus and the status, change and speed of VIRTUSB_IOCTL_GET_PORT_STATUS
    agree bit by bit: connection, enable, suspend, over-current, reset, power, the
    five change bits, low and high speed.  Neither request changes the state. *)
Theorem port_status_interfaces_agree s c v hv n value buf len us :
  module_ok s -> k_hcds s !! c = Some v -> ct_hcd (vh_control v) = Some c ->
  k_hubs s !! c = Some hv -> port_valid hv n = true -> (15 <= length buf)%nat ->
  us_port_status us = Some (mk_port_status VIRTUSB_ROOT_HUB_ID n 0 zero_port_state []) ->
  us_copy_out us = true ->
  exists status change reply,
    virtusb_hcd_hub_control c GetPortStatus value n buf len s =
      Some ((0, le16 status ++ le16 change ++ drop 4 buf), s) /\
    virtusb_control_get_port_status c us s = Some ((0, Some (ReplyPortStatus reply)), s) /\
    ps_port_count reply = hub_port_count hv /\
    (forall i, 0 <= i < 9 ->
       Z.testbit (st_status (ps_state reply)) i = Z.testbit status i) /\
    (forall i, 0 <= i < 16 ->
       Z.testbit (st_change (ps_state reply)) i = Z.testbit change i) /\
    (Z.testbit status 9 = true <->
       st_speed (ps_state reply) = port_speed_to_Z VIRTUSB_PORT_SPEED_LOW) /\
    (Z.testbit status 10 = true <->
       st_speed (ps_state reply) = port_speed_to_Z VIRTUSB_PORT_SPEED_HIGH) /\
    Z.testbit status 0 = port_connected (k_ports s) c n /\
    Z.testbit status 8 = port_powered (k_ports s) c n.
Proof.
  intros Hm Hv Hc Hh Hval Hbuf Hus Hout. pose proof (module_bus _ _ _ Hm) as Hok.
  destruct (valid_index s c hv n Hok Hh Hval) as (Hn & H31 & El).
  exists (port_status_word (k_ports s) c hv n), (virtusb_hcd_build_port_change hv n). eexists.
  split; [ | split].
  - unfold virtusb_hcd_hub_control. cbn [Z.eqb]. rewrite El.
    change (GetPortStatus =? ClearHubFeature) with false.
    change (GetPortStatus =? ClearPortFeature) with false.
    change (GetPortStatus =? GetHubDescriptor) with false.
    change (GetPortStatus =? GetHubStatus) with false.
    change (GetPortStatus =? GetPortStatus) with true. cbn iota.
    rewrite (get_port_status_eq s Hok c hv Hh n buf) by lia. rewrite Hval.
    unfold port_status_bytes. by rewrite <- app_assoc.
  - rewrite (get_port_status_result s Hm c v Hv Hc hv Hh us _ Hus) by (cbn; lia).
    cbn [ps_hub_id ps_port]. change (VIRTUSB_ROOT_HUB_ID =? VIRTUSB_ROOT_HUB_ID) with true.
    destruct (Z.ltb_spec (hub_port_count hv) n); [lia | ]. by rewrite Hout.
  - unfold port_status_reply, control_port_state. cbn [ps_state ps_port ps_port_count ps_hub_id].
    destruct (Z.eqb_spec n 0); [lia | ]. cbn [st_status st_change st_speed]. split; [done | ].
    assert (forall i, 0 <= i < 16 -> Z.testbit (port_status_word (k_ports s) c hv n) i =
      status_bit (k_ports s) c hv n i) as Hs by (intros i Hi; apply status_word_bits; lia).
    split_and!.
    + intros i Hi. rewrite Hs by lia. apply control_status_bits; lia.
    + intros i Hi. rewrite change_word_bits by lia. apply control_change_bits; lia.
    + rewrite Hs by lia. change (status_bit (k_ports s) c hv n 9) with
        (bool_decide (hub_speed hv n = VIRTUSB_PORT_SPEED_LOW)).
      rewrite bool_decide_eq_true. by destruct (hub_speed hv n).
    + rewrite Hs by lia. change (status_bit (k_ports s) c hv n 10) with
        (bool_decide (hub_speed hv n = VIRTUSB_PORT_SPEED_HIGH)).
      rewrite bool_decide_eq_true. by destruct (hub_speed hv n).
    + by rewrite Hs by lia.
    + by rewrite Hs by lia.
Qed.

Definition user_status (port : Z) : user :=
  mk_user (Some (mk_port_status VIRTUSB_ROOT_HUB_ID port 0 zero_port_state [])) None None None None
    None None None (Err (- EFAULT)) true.

Lemma port_status_interfaces_agree_witness : exists status change reply,
  virtusb_hcd_hub_control h1 GetPortStatus 0 1 (replicate 15 0) 4 reset =
    Some ((0, le16 status ++ le16 change ++ drop 4 (replicate 15 0)), reset) /\
  virtusb_control_get_port_status h1 (user_status 1) reset =
    Some ((0, Some (ReplyPortStatus reply)), reset).
Proof.
  destruct (port_status_interfaces_agree reset h1 (hcd_at reset) (hub_at reset) 1 0
    (replicate 15 0) 4 (user_status 1) reset_ok ltac:(eval_eq) ltac:(eval_eq) ltac:(eval_eq)
    ltac:(eval_eq) (le_n 15) eq_refl eq_refl) as (st & ch & rep & E1 & E2 & _).
  exists st, ch, rep. exact (conj E1 E2).
Defined.

(** ** Changes *)

(** C30. [virtusb_hcd_hub_status_data] tells the USB core which positions changed.
    It returns 0 and leaves the buffer alone exactly when no change is pending;
    otherwise the bitmap has just enough bytes for all ports, and bit 0 is set
    exactly for a pending over-current change of the hub, bit n exactly when some
    change of port n is pending. *)
Theorem hub_status_data_correct s h hv buf :
  bus_ok s -> k_hubs s !! h = Some hv -> (4 <= length buf)%nat ->
  exists r buf', virtusb_hcd_hub_status_data h buf s = Some ((r, buf'), s) /\
    (r = 0 <-> forall n, 0 <= n < 32 -> position_changed hv n = false) /\
    (r = 0 -> buf' = buf) /\
    (r <> 0 -> r = (hub_port_count hv + 8) / 8 /\
       drop (Z.to_nat r) buf' = drop (Z.to_nat r) buf /\
       forall n, 0 <= n <= hub_port_count hv -> exists byte, buf' !! Z.to_nat (n / 8) = Some byte /\
         Z.testbit byte (n mod 8) = position_changed hv n).
Proof.
  intros Hok Hh Hbuf. destruct (bitmap_bytes_range s Hok h hv Hh) as [Hb Hcnt].
  rewrite (hub_status_data_eq s h hv Hh buf) by lia.
  pose proof (change_mask_zero hv) as Hz.
  destruct (Z.eqb_spec (virtusb_hcd_port_change_mask hv) 0) as [E0|E0].
  - eexists _, _. split; [done | ]. split; [split; [intros _; by apply Hz | done] | ].
    by split.
  - eexists _, _. split; [done | ].
    assert (length (change_bitmap hv) = Z.to_nat (bitmap_bytes hv)) as Hlen by apply status_bytes_length.
    split; [ | split; [lia | ]].
    { split; [lia | ]. intros Hn. destruct E0. by apply Hz. }
    intros _. split; [done | ]. split; [by rewrite drop_app_length' | ].
    intros n Hn. assert (Z.to_nat (n / 8) < Z.to_nat (bitmap_bytes hv))%nat as Hlt.
    { assert (n / 8 < bitmap_bytes hv) by (apply Z.div_lt_upper_bound; lia).
      pose proof (Z.div_pos n 8). lia. }
    destruct (lookup_lt_is_Some_2 (change_bitmap hv) (Z.to_nat (n / 8))) as [byte Hbyte]; [lia | ].
    exists byte. split; [by rewrite lookup_app_l by lia | ].
    rewrite (status_bytes_testbit _ _ n byte ltac:(lia) Hbyte).
    apply (change_mask_testbit hv).
    pose proof (hub_count_here s Hok h hv Hh). lia.
Qed.

Lemma hub_status_data_correct_witness : exists r buf',
  virtusb_hcd_hub_status_data h1 [0; 0; 0; 0] reset = Some ((r, buf'), reset) /\ r = 1 /\ buf' = [2; 0; 0; 0].
Proof.
  destruct (hub_status_data_correct reset h1 (hub_at reset) [0; 0; 0; 0] (module_bus _ _ _ reset_ok)
    ltac:(eval_eq) (le_n 4)) as (r & buf' & E & _).
  exists r, buf'. refine (conj E _).
  assert (fst <$> virtusb_hcd_hub_status_data h1 [0; 0; 0; 0] reset = Some (1, [2; 0; 0; 0])) as E2
    by eval_eq.
  rewrite E in E2. injection E2 as E3 E4. exact (conj E3 E4).
Defined.

(** ClearPortFeature acknowledges one change at a time.  Feature 16 + i
    (C_PORT_CONNECTION, C_PORT_ENABLE, C_PORT_SUSPEND, C_PORT_OVER_CURRENT,
    C_PORT_RESET) of a valid port clears bit i of its change word and no other
    change of this or another port, and leaves the protocol state and the ports
    alone; nothing is notified. *)
Theorem clear_port_feature_acknowledges s h hv n i :
  bus_ok s -> k_hubs s !! h = Some hv -> port_valid hv n = true -> 0 <= i < 5 ->
  exists hv', virtusb_hcd_clear_port_feature h n (16 + i) s = Some (0, put_hub h hv' s) /\
    bus_ok (put_hub h hv' s) /\ hub_usb hv' = hub_usb hv /\
    forall k j, 0 <= k < 32 -> 0 <= j < 16 ->
      change_bit hv' k j = change_bit hv k j && negb ((k =? n) && (j =? i)).
Proof.
  intros Hok Hh Hv Hi. pose proof (wf_position _ _ (proj1 Hok) h hv n Hh Hv) as Hn.
  destruct (bw_hub _ _ (proj1 Hok) h hv Hh) as [_ _ Hcw _ _ _].
  rewrite (clear_port_feature_eq s Hok h hv Hh n (16 + i)), Hv.
  assert (exists f, cleared_change n (16 + i) = Some f /\
    clear_feature_state s h hv n (16 + i) = Some (with_change s h hv f) /\
    forall k j, 0 <= k < 32 -> 0 <= j < 16 ->
      change_bit (set_hub_change (f (hub_change hv)) hv) k j =
        change_bit hv k j && negb ((k =? n) && (j =? i))) as (f & Ef & Es & Hbits).
  { assert (forall x k, in_width 32 x -> 0 <= k < 32 ->
      Z.testbit (bit_clear x n) k = Z.testbit x k && negb (k =? n)) as Hclr.
    { intros x k Hx Hk. rewrite bit_clear_testbit by (done || lia). rewrite (Z.eqb_sym n k). apply andb_comm. }
    destruct Hcw.
    assert (i = 0 \/ i = 1 \/ i = 2 \/ i = 3 \/ i = 4) as Hcases by lia.
    destruct Hcases as [->|[->|[->|[->| ->]]]]; (eexists; split; [done | ]; split; [done | ]);
      intros k j Hk Hj; unfold change_bit; cbn [hub_change set_hub_change ch_connected ch_enabled
        ch_suspended ch_reset ch_over_current clear_ch_connected clear_ch_enabled clear_ch_suspended
        clear_ch_over_current clear_ch_reset set_ch_connected set_ch_enabled set_ch_suspended
        set_ch_over_current set_ch_reset]; rewrite ?Hclr by done;
      do 5 (match goal with |- context [if j =? ?x then _ else _] => destruct (Z.eqb_spec j x) as [->|] end;
        [by destruct (k =? n); cbn; rewrite ?andb_true_r, ?andb_false_r | ]); done. }
  rewrite Es. exists (set_hub_change (f (hub_change hv)) hv). split; [done | ].
  split; [ | by split].
  apply (bs_bus _ _ (clear_feature_step s Hok h hv Hh n (16 + i) _ Hv Es)).
Qed.

Lemma clear_port_feature_acknowledges_witness : exists hv',
  virtusb_hcd_clear_port_feature h1 1 USB_PORT_FEAT_C_RESET reset = Some (0, put_hub h1 hv' reset) /\
  change_bit hv' 1 4 = false /\ change_bit hv' 1 0 = true.
Proof.
  destruct (clear_port_feature_acknowledges reset h1 (hub_at reset) 1 4 (module_bus _ _ _ reset_ok)
    ltac:(eval_eq) ltac:(eval_eq)) as (hv' & E & _ & _ & H); [split; [discriminate | reflexivity] | ].
  exists hv'. refine (conj E _).
  rewrite (H 1 4) by (split; [discriminate | reflexivity]).
  rewrite (H 1 0) by (split; [discriminate | reflexivity]). split; eval_eq.
Defined.

(** ** The hub descriptor *)

(** GetHubDescriptor writes a USB 2.0 hub descriptor: its length byte is the
    returned length and counts the fixed part and two bitmaps, each with one bit
    per port and a reserved one; every port is removable; the characteristics
    tell the power switching and over-current modes; at most 15 bytes are written
    and the rest of the buffer is untouched. *)
Theorem hub_descriptor_correct s h hv value index buf len :
  bus_ok s -> k_hubs s !! h = Some hv -> (15 <= length buf)%nat ->
  exists r buf', virtusb_hcd_hub_control h GetHubDescriptor value index buf len s = Some ((r, buf'), s) /\
    let bitmap := (hub_port_count hv + 8) / 8 in
    r = 7 + 2 * bitmap /\ 9 <= r <= 15 /\ hub_port_count hv < 8 * bitmap /\
    length buf' = length buf /\ drop (Z.to_nat r) buf' = drop (Z.to_nat r) buf /\
    buf' !! 0%nat = Some r /\ buf' !! 1%nat = Some USB_DT_HUB /\ buf' !! 2%nat = Some (hub_port_count hv) /\
    (exists lo hi, buf' !! 3%nat = Some lo /\ buf' !! 4%nat = Some hi /\
       (Z.testbit lo 0 = true <-> hub_power_switching_mode hv = VIRTUSB_HUB_POWER_SWITCHING_INDIVIDUAL) /\
       (Z.testbit lo 3 = true <-> hub_over_current_mode hv = VIRTUSB_HUB_OVER_CURRENT_PER_PORT) /\
       (Z.testbit lo 4 = true <-> hub_over_current_mode hv = VIRTUSB_HUB_OVER_CURRENT_NONE) /\ hi = 0) /\
    (forall n, 0 <= n <= hub_port_count hv -> exists removable mask,
       buf' !! (7 + Z.to_nat (n / 8))%nat = Some removable /\
       buf' !! (7 + Z.to_nat bitmap + Z.to_nat (n / 8))%nat = Some mask /\
       Z.testbit removable (n mod 8) = false /\ Z.testbit mask (n mod 8) = true).
Proof.
  intros Hok Hh Hbuf. destruct (bitmap_bytes_range s Hok h hv Hh) as [Hb Hcnt].
  pose proof (hub_descriptor_length s Hok h hv Hh) as Hlen. unfold USB_DT_HUB_NONVAR_SIZE in Hlen.
  unfold virtusb_hcd_hub_control. change (GetHubDescriptor =? ClearHubFeature) with false.
  change (GetHubDescriptor =? ClearPortFeature) with false.
  change (GetHubDescriptor =? GetHubDescriptor) with true. cbn iota.
  rewrite (get_hub_descriptor_eq s Hok h hv Hh buf Hbuf). eexists _, _. split; [done | ].
  cbv zeta. change ((hub_port_count hv + 8) / 8) with (bitmap_bytes hv).
  split; [done | ]. split; [lia | ]. split; [lia | ].
  split; [rewrite length_app, length_drop; lia | ].
  split; [by rewrite Nat2Z.id, drop_app_length' | ].
  split; [rewrite Hlen; done | ]. split; [done | ]. split; [done | ]. split.
  { eexists _, _. split; [done | ]. split; [done | ]. unfold hub_characteristics.
    by destruct (hub_power_switching_mode hv), (hub_over_current_mode hv). }
  intros n Hn.
  assert (0 <= n / 8 < bitmap_bytes hv) as Hq
    by (split; [apply Z.div_pos; lia | apply Z.div_lt_upper_bound; lia]).
  exists 0, 0xff. rewrite !lookup_app_l by lia.
  set (pre := [USB_DT_HUB_NONVAR_SIZE + 2 * bitmap_bytes hv; USB_DT_HUB; hub_port_count hv] ++
    le16 (hub_characteristics hv) ++ [0; 0]).
  change (hub_descriptor hv) with (pre ++ replicate (Z.to_nat (bitmap_bytes hv)) 0 ++
    replicate (Z.to_nat (bitmap_bytes hv)) 0xff).
  assert (length pre = 7%nat) as Hpre by done. split; [ | split; [ | split]].
  - rewrite lookup_app_r by lia. rewrite lookup_app_l by (rewrite length_replicate; lia).
    apply lookup_replicate_2. lia.
  - rewrite lookup_app_r by lia. rewrite lookup_app_r by (rewrite length_replicate; lia).
    apply lookup_replicate_2. rewrite length_replicate. lia.
  - apply Z.bits_0.
  - change 0xff with (Z.ones 8). apply Z.ones_spec_low. by apply Z.mod_pos_bound.
Qed.

Lemma hub_descriptor_correct_witness : exists buf',
  virtusb_hcd_hub_control h1 GetHubDescriptor 0 0 (replicate 15 0x55) 15 reset = Some ((9, buf'), reset) /\
  buf' !! 2%nat = Some 4.
Proof.
  destruct (hub_descriptor_correct reset h1 (hub_at reset) 0 0 (replicate 15 0x55) 15
    (module_bus _ _ _ reset_ok) ltac:(eval_eq) (le_n 15)) as (r & buf' & E & H).
  destruct H as (Er & _ & _ & _ & _ & _ & _ & E2 & _).
  exists buf'. rewrite Er in E. exact (conj E E2).
Defined.
