(* ===== verification/ControlProps.v ===== *)
(** * Properties of the control device *)

From S2P Require Import Prelude Uapi Kernel Port Hub Object Device Transfer Backend BackendInv BackendOps Hcd HcdSpec UrbSpec Control ControlSpec ModuleSpec Scenario.

(** ** Command numbers *)

(** C31. The dispatch of ioctl commands on an active control file.  With the Linux
    encoding the eleven handled commands are distinct, a command that is none of
    them gives -ENOTTY without effect, and so does every reserved command but one:
    under every encoding the number of VIRTUSB_IOCTL_GET_CONNECTED is the number
    of VIRTUSB_IOCTL_DEVICE_CREATE, so that a request to read the connection
    bitmap creates a device. *)
Theorem ioctl_dispatch s f fv c us env :
  module_ok s -> k_files s !! f = Some fv -> file_control s fv = Some c ->
  NoDup (commands linux) /\
  (forall command, command ∉ commands linux ->
     virtusb_control_ioctl linux f command us env s = Some ((- ENOTTY, None), s)) /\
  (forall command, command ∈ reserved_commands linux -> command ∉ commands linux) /\
  forall enc, VIRTUSB_IOCTL_GET_CONNECTED enc <> VIRTUSB_IOCTL_GET_PORT_STATUS enc ->
    virtusb_control_ioctl enc f (VIRTUSB_IOCTL_GET_CONNECTED enc) us env s =
      virtusb_control_device_create us env s.
Proof.
  intros Hm Hf Hc. split_and!.
  - apply (bool_decide_eq_true_1 _). vm_compute. reflexivity.
  - intros command. unfold commands. rewrite !not_elem_of_cons. intros Hn.
    unfold virtusb_control_ioctl. unfold bind at 1. rewrite (active_control_eq s Hm f fv Hf), Hc.
    repeat match goal with |- context [command =? ?x] => destruct (Z.eqb_spec command x); [tauto | ] end.
    done.
  - apply Forall_forall. apply (bool_decide_eq_true_1 _). vm_compute. reflexivity.
  - intros enc Hne. unfold virtusb_control_ioctl. unfold bind at 1.
    rewrite (active_control_eq s Hm f fv Hf), Hc. destruct (Z.eqb_spec (VIRTUSB_IOCTL_GET_CONNECTED enc)
      (VIRTUSB_IOCTL_GET_PORT_STATUS enc)); [done | ].
    change (VIRTUSB_IOCTL_GET_CONNECTED enc) with (VIRTUSB_IOCTL_DEVICE_CREATE enc).
    by rewrite Z.eqb_refl.
Qed.

Lemma ioctl_dispatch_witness :
  virtusb_control_ioctl linux f1 (VIRTUSB_IOCTL_GET_CONNECTED linux) (user_create 3) (with_memory d2) created1 =
    virtusb_control_device_create (user_create 3) (with_memory d2) created1.
Proof.
  apply (ioctl_dispatch created1 f1 open_file h1 (user_create 3) (with_memory d2) created1_ok
    ltac:(eval_eq) ltac:(eval_eq)).
  intros H. vm_compute in H. discriminate H.
Defined.

(** ** Polling *)

(** C32. [virtusb_control_poll] and a non-blocking fetch agree.  A file that is not
    usable reports an error.  For a file with a registered backend poll reports
    readable exactly when a non-blocking fetch would not give -EAGAIN: there is
    a request to fetch, or the host controller is stopping.  For a file without
    backend poll reports readable only while the host controller is stopping,
    although a fetch fails at once with -ENODEV.  Poll changes nothing. *)
Theorem poll_matches_fetch s f fv buffer sleeps :
  module_ok s -> k_files s !! f = Some fv ->
  exists events, virtusb_control_poll f s = Some (events, s) /\
    match file_control s fv with
    | None => events = Z.lor EPOLLERR EPOLLHUP
    | Some c => exists v r view s',
        k_hcds s !! c = Some v /\
        virtusb_backend_fetch (Some c) (Some f) (Some buffer) true sleeps s = Some ((r, view), s') /\
        (events = 0 \/ events = Z.lor EPOLLIN EPOLLRDNORM) /\
        if decide (virtusb_backend_find_owner_locked (vh_backend v) f = None)
        then r = - ENODEV /\ (events = 0 <-> be_stopping (vh_backend v) = false)
        else events = 0 <-> r = - EAGAIN
    end.
Proof.
  intros Hm Hf. rewrite (poll_eq s Hm f fv Hf). eexists. split; [done | ].
  destruct (file_control s fv) as [c|] eqn:Hc; [ | done].
  destruct (file_control_facts s Hm f fv Hf c Hc) as (v & hv & Hv & _ & _). rewrite Hv.
  pose proof (backend_fetch_spec _ _ s (mo_inv _ _ _ Hm) c v Hv f buffer true sleeps) as Hfetch.
  assert (Z.lor EPOLLIN EPOLLRDNORM <> 0) as Hne by done.
  destruct (next_request s v f) as [[i r]|] eqn:En.
  - destruct Hfetch as (tv & ov & _ & _ & E & _). exists v. eexists _, _, _. split; [done | ].
    split; [exact E | ]. rewrite bool_decide_eq_true_2, orb_true_r by done. split; [by right | ].
    rewrite decide_False; [done | ]. unfold next_request in En. intros E0. by rewrite E0 in En.
  - assert (fetch_error v f true <> 0) as Hfe.
    { unfold fetch_error. case_decide; [done | ]. by destruct (be_stopping _). }
    exists v. eexists _, _, _. split; [done | ]. split; [by apply Hfetch | ].
    rewrite bool_decide_eq_false_2, orb_false_r by tauto. unfold fetch_error.
    destruct (be_stopping (vh_backend v)).
    + split; [by right | ]. by case_decide.
    + split; [by left | ]. by case_decide.
Qed.

Lemma poll_matches_fetch_witness : exists events,
  virtusb_control_poll f1 enqueued2 = Some (events, enqueued2) /\ events = Z.lor EPOLLIN EPOLLRDNORM.
Proof.
  destruct (poll_matches_fetch enqueued2 f1 open_file zero_fetch [] enqueued2_ok ltac:(eval_eq))
    as (events & E & _).
  exists events. refine (conj E _).
  assert (fst <$> virtusb_control_poll f1 enqueued2 = Some (Z.lor EPOLLIN EPOLLRDNORM)) as E2 by eval_eq.
  rewrite E in E2. injection E2 as E2. exact E2.
Defined.
