(* ===== verification/LinuxModel.v ===== *)
(** * A Linux for the module

    One set of functions that satisfies [Linux.LinuxLaws]: the bookkeeping that
    the laws describe, with a USB core that sends a list of requests to every
    root hub it adds or removes.  The witnesses run the module on it. *)

From S2P Require Import Prelude Uapi Kernel Port Hub Object Device Transfer Backend Hcd Control Linux.

(** A request of the USB core to the root hub. *)
Record hub_request := mk_hub_request {
  hr_type_req : Z;
  hr_value : Z;
  hr_index : Z;
  hr_buf : list Z;
  hr_len : Z;
}.

Section model.
Context (requests : list hub_request).

Fixpoint hub_requests (D : hc_driver) (h : hcd_ptr) (l : list hub_request) : K unit :=
  match l with
  | [] => ret tt
  | r :: l =>
      _ <- hd_hub_control D h (hr_type_req r) (hr_value r) (hr_index r) (hr_buf r) (hr_len r) ;;
      hub_requests D h l
  end.
Definition set_root_hub (h : hcd_ptr) (r : option usbdev_ptr) : K unit :=
  u <- load_usb_hcd h ;; store_usb_hcd h (set_uh_root_hub r u).
Definition start_hcd (D : hc_driver) (h : hcd_ptr) (root : usbdev_ptr) : K unit :=
  _ <- hd_start D h ;; set_root_hub h (Some root) ;;
  _ <- hd_hub_status_data D h (replicate 6 0) ;; hub_requests D h requests.
Definition stop_hcd (D : hc_driver) (h : hcd_ptr) : K unit :=
  hub_requests D h requests ;; hd_stop D h ;; set_root_hub h None.

Definition on (f : linux_side -> linux_side) : Sys unit := modify (on_linux f).
Definition fallible (r : Z) (f : linux_side -> linux_side) : Sys Z :=
  if r <? 0 then ret r else on f ;; ret 0.
Definition fallible_pointer {A} (r : Z) (a : A) (f : linux_side -> linux_side) : Sys (result A) :=
  if r <? 0 then ret (Err r) else on f ;; ret (Ok a).
Definition remove_bound (remove : pdev_ptr -> Sys unit) (p : pdev_ptr) : Sys unit :=
  pd <- load_pdev p ;; if pd_bound pd then remove p else ret tt.
Fixpoint remove_all (remove : pdev_ptr -> Sys unit) (l : list pdev_ptr) : Sys unit :=
  match l with [] => ret tt | p :: l => remove_bound remove p ;; remove_all remove l end.

Definition linux_model : LinuxCore := {|
  usb_create_hcd D memory :=
    match memory with
    | None => ret None
    | Some h => modify (with_zero_hcd h) ;; ret (Some h)
    end;
  usb_add_hcd D h root r :=
    lift (start_hcd D h root) ;;
    if r <? 0 then lift (stop_hcd D h) ;; ret r
    else on (fun l => set_added ({[h]} ∪ lx_hcds l) l) ;; ret 0;
  usb_remove_hcd D h :=
    lift (stop_hcd D h) ;; on (fun l => set_added (lx_hcds l ∖ {[h]}) l);
  usb_put_hcd h := modify (without_hcd h);
  platform_device_alloc id memory :=
    match memory with
    | None => ret None
    | Some p => alloc sy_pdevs sy_set_pdevs p (mk_pdev id None None false) ;; ret (Some p)
    end;
  platform_device_add_data p n r :=
    if r <? 0 then ret r else update_pdev p (set_pd_platdata (Some n)) ;; ret 0;
  platform_device_add probe p r :=
    if r <? 0 then ret r
    else
      l <- gets sy_linux ;;
      (if lx_driver l then a <- probe p ;; update_pdev p (set_pd_bound (a =? 0)) else ret tt) ;;
      ret 0;
  platform_device_put p := free sy_pdevs sy_set_pdevs p;
  platform_device_unregister remove p := remove_bound remove p ;; free sy_pdevs sy_set_pdevs p;
  platform_driver_register r := fallible r (set_driver true);
  platform_driver_unregister remove :=
    pdevs <- gets sy_pdevs ;;
    remove_all remove (fst <$> map_to_list pdevs) ;;
    on (set_driver false);
  alloc_chrdev_region count base r := fallible_pointer r base (set_chrdev (Some (base, count)));
  unregister_chrdev_region base count := on (set_chrdev None);
  cdev_add devt r := fallible r (fun l => set_cdevs ({[devt]} ∪ lx_cdevs l) l);
  cdev_del devt := on (fun l => set_cdevs (lx_cdevs l ∖ {[devt]}) l);
  class_create r := fallible_pointer r tt (set_class true);
  class_destroy := on (set_class false);
  device_create devt r := fallible_pointer r tt (fun l => set_nodes ({[devt]} ∪ lx_nodes l) l);
  device_destroy devt := on (fun l => set_nodes (lx_nodes l ∖ {[devt]}) l);
|}.

(** ** The laws *)

Lemma on_eq f s : on f s = Some (tt, on_linux f s).
Proof. done. Qed.
Lemma fallible_eq r f s :
  fallible r f s = Some (if r <? 0 then r else 0, if r <? 0 then s else on_linux f s).
Proof. unfold fallible. by destruct (r <? 0). Qed.
Lemma fallible_pointer_eq {A} r (a : A) f s :
  fallible_pointer r a f s = Some (if r <? 0 then Err r else Ok a, if r <? 0 then s else on_linux f s).
Proof. unfold fallible_pointer. by destruct (r <? 0). Qed.

Lemma put_pdev_store p pd s : is_Some (sy_pdevs s !! p) -> store_pdev p pd s = Some (tt, put_pdev p pd s).
Proof. intros [x Hx]. unfold store. by rewrite Hx. Qed.
Lemma update_pdev_put p f s pd : sy_pdevs s !! p = Some pd ->
  update_pdev p f s = Some (tt, put_pdev p (f pd) s).
Proof.
  intros Hp. unfold update_pdev, bind, load. rewrite Hp. apply put_pdev_store. by eexists.
Qed.
Lemma free_pdev p s : is_Some (sy_pdevs s !! p) -> free sy_pdevs sy_set_pdevs p s = Some (tt, drop_pdev p s).
Proof. intros [x Hx]. unfold free. by rewrite Hx. Qed.

Section driver.
Context (Hreq : Forall (fun r => (15 <= length (hr_buf r))%nat) requests).
Context (D : hc_driver) (h : hcd_ptr) (P : kernel -> Prop) (HD : driver_keeps D h P).

Lemma set_root_hub_keeps r k : P k ->
  exists k' u, set_root_hub h r k = Some (tt, k') /\ P k' /\
    k_usb_hcds k' !! h = Some u /\ uh_root_hub u = r.
Proof.
  intros Hk. destruct (dk_live _ _ _ HD k Hk) as (_ & _ & u & Hu).
  exists (with_root_hub h r u k), (set_uh_root_hub r u). split_and!.
  - unfold set_root_hub, bind, load, store. by rewrite Hu, Hu.
  - by apply (dk_root_hub _ _ _ HD).
  - apply lookup_insert_eq.
  - done.
Qed.

Lemma hub_requests_keeps : callback_keeps P (hub_requests D h requests).
Proof.
  induction Hreq as [|r l Hr Hl IH]; intros k Hk; cbn; [by exists tt, k | ].
  destruct (dk_control _ _ _ HD (hr_type_req r) (hr_value r) (hr_index r) (hr_buf r) (hr_len r) Hr k Hk)
    as (x & k1 & E1 & Hk1 & U1).
  destruct (IH Hl k1 Hk1) as ([] & k2 & E2 & Hk2 & U2).
  exists tt, k2. unfold bind. rewrite E1, E2. split_and!; [done | done | congruence].
Qed.

Lemma start_hcd_keeps root k : P k ->
  exists k' u, start_hcd D h root k = Some (tt, k') /\ P k' /\
    k_usb_hcds k' !! h = Some u /\ uh_root_hub u = Some root.
Proof.
  intros Hk. destruct (dk_start _ _ _ HD k Hk) as (k1 & E1 & Hk1 & _).
  destruct (set_root_hub_keeps (Some root) k1 Hk1) as (k2 & u & E2 & Hk2 & Hu & Er).
  destruct (dk_status _ _ _ HD (replicate 6 0) ltac:(cbn; lia) k2 Hk2) as (x & k3 & E3 & Hk3 & U3).
  destruct (hub_requests_keeps k3 Hk3) as ([] & k4 & E4 & Hk4 & U4).
  exists k4, u. split_and!; [ | done | congruence | done].
  unfold start_hcd, bind. by rewrite E1, E2, E3.
Qed.

Lemma stop_hcd_keeps k : P k ->
  exists k' u, stop_hcd D h k = Some (tt, k') /\ P k' /\
    k_usb_hcds k' !! h = Some u /\ uh_root_hub u = None.
Proof.
  intros Hk. destruct (hub_requests_keeps k Hk) as ([] & k1 & E1 & Hk1 & _).
  destruct (dk_stop _ _ _ HD k1 Hk1) as ([] & k2 & E2 & Hk2 & _).
  destruct (set_root_hub_keeps None k2 Hk2) as (k3 & u & E3 & Hk3 & Hu & Er).
  exists k3, u. split_and!; [ | done..]. unfold stop_hcd, bind. by rewrite E1, E2.
Qed.
End driver.

Lemma remove_bound_unbound remove p s : (forall pd, sy_pdevs s !! p = Some pd -> pd_bound pd = false) ->
  is_Some (sy_pdevs s !! p) -> remove_bound remove p s = Some (tt, s).
Proof. intros Hb [pd Hp]. unfold remove_bound, bind, load. by rewrite Hp, (Hb pd Hp). Qed.

Lemma remove_all_unbound remove s l : (forall p pd, sy_pdevs s !! p = Some pd -> pd_bound pd = false) ->
  Forall (fun p => is_Some (sy_pdevs s !! p)) l -> remove_all remove l s = Some (tt, s).
Proof.
  intros Hb. induction 1 as [|p l Hp Hl IH]; cbn; [done | ].
  unfold bind. by rewrite remove_bound_unbound by eauto.
Qed.

Section laws.
Context (Hreq : Forall (fun r => (15 <= length (hr_buf r))%nat) requests).

Lemma model_add_hcd D h P root r k t l : driver_keeps D h P -> P k ->
  exists k' u, P k' /\ k_usb_hcds k' !! h = Some u /\
    uh_root_hub u = (if r <? 0 then None else Some root) /\
    usb_add_hcd (LinuxCore := linux_model) D h root r (mk_system k t l) =
      Some (if r <? 0 then r else 0,
            mk_system k' t (if r <? 0 then l else set_added ({[h]} ∪ lx_hcds l) l)).
Proof.
  intros HD Hk. destruct (start_hcd_keeps Hreq D h P HD root k Hk) as (k1 & u & E1 & Hk1 & Hu & Er).
  cbn. erewrite bind_eq; [ | by apply lift_eq]. destruct (r <? 0).
  - destruct (stop_hcd_keeps Hreq D h P HD k1 Hk1) as (k2 & u2 & E2 & Hk2 & Hu2 & Er2).
    exists k2, u2. split_and!; [done.. | ]. by erewrite bind_eq; [ | by apply lift_eq].
  - by exists k1, u.
Qed.

Lemma model_remove_hcd D h P k t l : driver_keeps D h P -> P k ->
  exists k' u, P k' /\ k_usb_hcds k' !! h = Some u /\ uh_root_hub u = None /\
    usb_remove_hcd (LinuxCore := linux_model) D h (mk_system k t l) =
      Some (tt, mk_system k' t (set_added (lx_hcds l ∖ {[h]}) l)).
Proof.
  intros HD Hk. destruct (stop_hcd_keeps Hreq D h P HD k Hk) as (k1 & u & E1 & Hk1 & Hu & Er).
  exists k1, u. split_and!; [done.. | ]. cbn. by erewrite bind_eq; [ | by apply lift_eq].
Qed.

Lemma linux_model_laws : LinuxLaws linux_model.
Proof.
  split; try done; try (intros; first [apply fallible_eq | apply fallible_pointer_eq]).
  - intros D h P root r k t l HD Hk _. by apply (model_add_hcd D h P).
  - intros D h P k t l HD Hk _. by apply (model_remove_hcd D h P).
  - intros id p s Hp. cbn. unfold alloc, bind. by rewrite Hp.
  - intros p n r s pd Hp. cbn. destruct (r <? 0); [done | ].
    by rewrite (bind_eq _ _ _ _ _ (update_pdev_put p _ s pd Hp)).
  - intros probe p r s Hr. cbn. by rewrite (proj2 (Z.ltb_lt _ _) Hr).
  - intros probe p r s a s' pd Hr Hd E Hp. cbn. rewrite (proj2 (Z.ltb_ge _ _) Hr).
    unfold bind, gets. rewrite Hd, E. by rewrite (update_pdev_put p _ s' pd Hp).
  - intros p s pd Hp _. cbn. apply free_pdev. by eexists.
  - intros remove p s pd Hp Hb. cbn. rewrite (bind_eq _ _ s tt s); [apply free_pdev; by eexists | ].
    apply remove_bound_unbound; [ | by eexists]. intros x Hx. congruence.
  - intros remove p s pd s' Hp Hb E Hs. cbn. rewrite (bind_eq _ _ s tt s'); [by apply free_pdev | ].
    unfold remove_bound, bind, load. by rewrite Hp, Hb.
  - intros remove s Hb. cbn. rewrite (bind_eq _ _ s tt s); [done | ].
    apply remove_all_unbound; [done | ]. apply Forall_fmap, Forall_forall. intros [p pd] Hp.
    apply elem_of_map_to_list in Hp. by eexists.
Qed.
End laws.
End model.
