(* ===== verification/PlatformProps.v ===== *)
(** * Properties of the platform driver and of the module's life cycle *)

From S2P Require Import Prelude Uapi Kernel Port Hub Object Device Transfer Backend BackendInv BackendOps Hcd HcdSpec UrbSpec Control ControlSpec ModuleSpec Config Linux Platform LifeSpec PlatformSpec InitSpec LoadSpec Scenario LinuxModel.

(** ** A concrete load *)

(** The device numbers of include/linux/kdev_t.h. *)
Definition linux_devt : devt_macros := {|
  MKDEV ma mi := ma * 2 ^ 20 + mi;
  MAJOR d := d / 2 ^ 20;
  MINOR d := d mod 2 ^ 20;
|}.
Definition base_devt : Z := MKDEV linux_devt 240 0.

Lemma linux_region : region_ok linux_devt base_devt.
Proof.
  split; [ | by vm_compute]. intros ma mi Hmi. cbn -[Z.pow]. split.
  - rewrite Z.div_add_l, Z.div_small by lia. lia.
  - rewrite Z.add_comm, Z.mod_add, Z.mod_small by lia. lia.
Qed.

Definition power_on (port : Z) : hub_request :=
  mk_hub_request SetPortFeature USB_PORT_FEAT_POWER port (replicate 15 0) 0.
(** The USB core powers two ports. *)
Definition linux_core : LinuxCore := linux_model [power_on 1; power_on 2].
Lemma linux_core_laws : LinuxLaws linux_core.
Proof. apply linux_model_laws. repeat constructor. Qed.

Definition probe_outside (h : hcd_ptr) (add cdev : Z) : probe_env :=
  mk_probe_env (Some h) root_dev add cdev 0.
Definition create_outside (i add cdev : Z) : create_env :=
  mk_create_env (Some (Ptr (Z.to_pos (i + 1)))) 0 0 (probe_outside (Ptr (Z.to_pos (i + 1))) add cdev).
(** A load of [n] instances in which the probe of instance [bad] fails. *)
Definition load_outside (bad : Z) : init_env :=
  mk_init_env false (mk_control_env 0 base_devt 0) 0
    (fun i => create_outside i 0 (if i =? bad then - ENOMEM else 0)).

Lemma load_outside_wf n bad : init_env_wf n (load_outside bad).
Proof.
  split; cbn.
  - intros i j p Hi Hj [= <-] [= E]. lia.
  - intros i j h Hi Hj [= <-] [= E]. lia.
Qed.

Definition not_loaded : system := mk_system empty_kernel no_statics no_linux.
Lemma not_loaded_unloaded : unloaded not_loaded.
Proof. by split. Qed.

(** ** The life cycle *)

(** C7. Loading, running and unloading the module on any Linux that obeys [LinuxLaws].  [virtusb_module_init] returns
    for every instance count and every behaviour of Linux: on an error, whatever
    step failed in whatever instance, nothing is left, neither storage nor a
    device number, node, HCD or platform device; on success the module is
    consistent.  After any run of system calls and USB core calls that closes
    its files, [virtusb_module_exit] terminates and nothing is left either:
    every URB was given back, every reference count went to zero. *)
Theorem module_load_unload `{LinuxLaws} L n env s :
  unloaded s -> 0 <= n -> region_ok L (ce_base (in_control env)) -> init_env_wf n env ->
  exists r s1, virtusb_module_init L n env s = Some (r, s1) /\
    (r <> 0 -> r < 0 /\ unloaded s1) /\
    (r = 0 -> module_ok (sy_kernel s1) /\ Z.of_nat (size (k_hcds (sy_kernel s1))) = n /\
       forall enc k, module_reach enc (sy_kernel s1) k -> all_files_closed k ->
       forall fuel, (size (k_registry k) < fuel)%nat ->
       exists s2, virtusb_module_exit fuel (set_kernel k s1) = Some (tt, s2) /\ unloaded s2).
Proof.
  intros Hs Hn Hrg Hw.
  destruct (Z.eq_dec n 0) as [->|Hn0].
  { exists (- EINVAL), s. by split_and!. }
  destruct (Z.lt_ge_cases VIRTUSB_MAX_HCD_COUNT n) as [Hbig|Hsmall].
  { exists (- EINVAL), s. split_and!; [ | done..]. unfold virtusb_module_init.
    destruct (Z.eqb_spec n 0); [lia | ]. by destruct (Z.ltb_spec VIRTUSB_MAX_HCD_COUNT n); [ | lia]. }
  assert (Hr : 1 <= n <= VIRTUSB_MAX_HCD_COUNT) by lia.
  destruct (init_spec L _ Hrg n Hr env s Hs Hw eq_refl) as (r & s1 & E & H1).
  exists r, s1. split; [done | ]. destruct (Z.eqb_spec r 0) as [->|Hr0]; [ | by split].
  split; [done | ]. intros _. destruct H1 as (l & Hrun & Hlen & Hidle).
  pose proof (rn_loaded _ _ _ _ _ Hrun) as Hl. split_and!.
  - apply Hl.
  - rewrite <- Hlen, <- (loaded_size _ _ _ _ Hl). done.
  - intros enc k Hreach Hf fuel Hfuel. destruct s1 as [k1 t x].
    apply (exit_spec L _ Hrg n Hr l); try done. by apply (running_reach _ _ _ enc l k1).
Qed.

(** One instance, loaded and unloaded again. *)
Lemma module_load_unload_witness : exists s1 s2,
  virtusb_module_init (X := linux_core) linux_devt 1 (load_outside (-1)) not_loaded = Some (0, s1) /\
  virtusb_module_exit (X := linux_core) 1 s1 = Some (tt, s2) /\ unloaded s2.
Proof.
  destruct (module_load_unload (X := linux_core) (H := linux_core_laws) linux_devt 1 (load_outside (-1)) not_loaded not_loaded_unloaded
    ltac:(lia) linux_region (load_outside_wf 1 (-1))) as (r & s1 & E & _ & Hok).
  assert (Er : fst <$> virtusb_module_init (X := linux_core) linux_devt 1 (load_outside (-1)) not_loaded = Some 0) by eval_eq.
  rewrite E in Er. injection Er as Er.
  assert (Ek : (fun x => k_registry (sy_kernel x.2)) <$> virtusb_module_init (X := linux_core) linux_devt 1 (load_outside (-1)) not_loaded = Some ∅)
    by eval_eq.
  rewrite E in Ek. injection Ek as Ek.
  assert (Ef : (fun x => k_files (sy_kernel x.2)) <$> virtusb_module_init (X := linux_core) linux_devt 1 (load_outside (-1)) not_loaded = Some ∅)
    by eval_eq.
  rewrite E in Ef. injection Ef as Ef.
  destruct (Hok Er) as (_ & _ & Hexit).
  destruct (Hexit linux (sy_kernel s1)) with (fuel := 1%nat)
    as (s2 & E2 & Hu).
  - constructor.
  - intros f fv. rewrite Ef. intros Hf. discriminate Hf.
  - rewrite Ek. exact (le_n 1).
  - exists s1, s2. rewrite Er in E. destruct s1 as [k t x]. exact (conj E (conj E2 Hu)).
Defined.

(** C33. [virtusb_hcd_platform_probe] returns the error of the first step that
    fails and 0 otherwise.  On success the module has one more host controller,
    with empty queues, the instance number of its platform device and an active
    control plane under the device number of that instance; on failure the host
    controllers, and all that Linux holds for the module, are as before.  The
    module stays consistent either way. *)
Theorem platform_probe_correct `{LinuxLaws} L k t x p pd n env :
  module_ok k -> lx_pdevs x !! p = Some pd -> pd_drvdata pd = None -> pd_platdata pd = Some n -> 0 <= n ->
  probe_env_wf L k t x pd env ->
  exists k' x', virtusb_hcd_platform_probe L env p (mk_system k t x) =
      Some (probe_result t pd n env, mk_system k' t x') /\ module_ok k' /\
    if probe_result t pd n env =? 0 then
      exists h, pe_memory env = Some h /\ k_hcds k !! h = None /\
        k_hcds k' = <[h := mk_hcd (u32 (pd_id pd)) (Some h) (mk_backend [] [] [] false)
                            (mk_control (Some h) (instance_devt L (st_base_devt t) (u32 (pd_id pd))) true true)]>
                     (k_hcds k) /\
        is_Some (k_hubs k' !! h) /\ unplugged h k' /\
        k_usb_hcds k' = <[h := mk_usb_hcd (Some (pe_root_hub env)) true]> (k_usb_hcds k) /\
        x' = probed_linux L t x p pd h
    else k_hcds k' = k_hcds k /\ dom (k_hubs k') = dom (k_hubs k) /\
         k_usb_hcds k' = k_usb_hcds k /\ x' = x.
Proof.
  intros Hm Hp Hd Hn Hpos Hw.
  destruct (probe_spec L k t x p pd (module_bus _ _ _ Hm) Hp Hd n Hpos Hn env Hw) as (s' & E & H1).
  destruct (_ =? 0).
  - destruct H1 as (h & k' & Eh & -> & Hb). destruct (pw_memory _ _ _ _ _ _ Hw h Eh) as [Hf _].
    destruct (built_fresh h k k' Hm Hf _ _ Hb) as (Hm' & E1 & _ & E3); [done | by intros y [= <-] | done.. | ].
    exists k', (probed_linux L t x p pd h). split_and!; [done | done | ]. exists h.
    split_and!; try done; try apply Hb. apply Hf.
  - destruct H1 as (k' & -> & [->|(h & Eh & Hg)]).
    + by exists k, x.
    + destruct (pw_memory _ _ _ _ _ _ Hw h Eh) as [Hf _].
      destruct (gone_fresh h k k' Hm Hf Hg) as (Hm' & E1 & E2 & E3). by exists k', x.
Qed.

(** The platform device of a first instance. *)
Definition new_pdev : platform_device := mk_pdev 0 (Some 4) None false.
Definition pdev1 : pdev_ptr := Ptr 1.
Definition linux_with (pd : platform_device) : linux_side :=
  mk_linux (Some (base_devt, 1)) true ∅ ∅ ∅ true {[pdev1 := pd]}.
Definition registered_class : statics := mk_statics true base_devt 1 (Some [None]) 0.

Lemma platform_probe_correct_witness : exists k' x',
  virtusb_hcd_platform_probe (X := linux_core) linux_devt (probe_outside h1 0 (- ENOMEM)) pdev1
    (mk_system empty_kernel registered_class (linux_with new_pdev)) =
    Some (- ENOMEM, mk_system k' registered_class x') /\ module_ok k' /\ x' = linux_with new_pdev.
Proof.
  destruct (platform_probe_correct (X := linux_core) (H := linux_core_laws) linux_devt empty_kernel registered_class (linux_with new_pdev) pdev1
    new_pdev 4 (probe_outside h1 0 (- ENOMEM))) as (k' & x' & E & Hm & H1).
  - apply empty_module_ok; [apply not_loaded_unloaded | by vm_compute].
  - eval_eq.
  - reflexivity.
  - reflexivity.
  - lia.
  - split.
    + intros h [= <-]. split; [split_and!; reflexivity | intros Hin; by apply not_elem_of_empty in Hin].
    + intros Hin; by apply not_elem_of_empty in Hin.
    + intros Hin; by apply not_elem_of_empty in Hin.
  - exists k', x'. exact (conj E (conj Hm (proj2 (proj2 (proj2 H1))))).
Defined.


