(* ===== verification/Text.v ===== *)
(** * Text: the C library functions of the user-space programs

    Formatting of unsigned numbers (printf), [strtoul] with base 0, [strtok_r]
    with one delimiter, and [snprintf] into a buffer. *)

From Stdlib Require Strings.Ascii.
From stdpp Require Export strings.
From S2P Require Import Prelude.
Export Stdlib.Strings.Ascii (ascii(..), ascii_of_nat, nat_of_ascii).
Export (notations) Stdlib.Strings.Ascii.
Global Open Scope Z_scope.
Global Open Scope virtusb_scope.
Abbreviation strlen := String.length.

(** ** Digits *)

Definition digit_char (d : Z) : ascii :=
  ascii_of_nat (Z.to_nat (if d <? 10 then 48 + d else 87 + d)).
Definition digit_value (c : ascii) : option Z :=
  let n := Z.of_nat (nat_of_ascii c) in
  if (48 <=? n) && (n <=? 57) then Some (n - 48)
  else if (97 <=? n) && (n <=? 122) then Some (n - 87)
  else if (65 <=? n) && (n <=? 90) then Some (n - 55)
  else None.

Lemma digit_value_char d : 0 <= d < 36 -> digit_value (digit_char d) = Some d.
Proof.
  intros Hd. assert (bool_decide (digit_value (digit_char d) = Some d) = true) as E.
  { revert d Hd. apply forall_range. by vm_compute. }
  by apply bool_decide_eq_true in E.
Qed.

(** ** printf

    [%u] and [%x]; [tail] is the text that follows. *)
Fixpoint digits (fuel : nat) (b n : Z) (tail : string) : string :=
  match fuel with
  | O => tail
  | Datatypes.S fuel =>
      let text := String (digit_char (n mod b)) tail in
      if n / b =? 0 then text else digits fuel b (n / b) text
  end.
Definition format_u (n : Z) : string := digits 64 10 n EmptyString.
Definition format_x (n : Z) : string := digits 64 16 n EmptyString.

(** A minimal field width, filled with [c] on the left or on the right. *)
Fixpoint fill (n : nat) (c : ascii) : string :=
  match n with O => EmptyString | Datatypes.S n => String c (fill n c) end.
Definition pad_left (width : nat) (c : ascii) (s : string) : string :=
  (fill (width - strlen s) c +:+ s).
Definition pad_right (width : nat) (c : ascii) (s : string) : string :=
  (s +:+ fill (width - strlen s) c).
(** [%02x], [%04x] and [%08x] *)
Definition format_02x (n : Z) : string := pad_left 2 "0"%char (format_x n).
Definition format_04x (n : Z) : string := pad_left 4 "0"%char (format_x n).
Definition format_08x (n : Z) : string := pad_left 8 "0"%char (format_x n).

(** [snprintf(buffer, size, ...)] of a text: the stored string and the length
    of the full one. *)
Definition snprintf (size : Z) (text : string) : string * Z :=
  (String.substring 0 (Z.to_nat size - 1) text, Z.of_nat (strlen text)).

(** ** strtoul(text, &end, 0) *)

Definition is_space (c : ascii) : bool :=
  let n := Z.of_nat (nat_of_ascii c) in (n =? 32) || ((9 <=? n) && (n <=? 13)).
Fixpoint skip_space (s : string) : string :=
  match s with
  | String c r => if is_space c then skip_space r else s
  | EmptyString => s
  end.
Definition scan_sign (s : string) : bool * string :=
  match s with
  | String "-" r => (true, r)
  | String "+" r => (false, r)
  | _ => (false, s)
  end.
Definition is_digit (b : Z) (c : ascii) : bool :=
  match digit_value c with Some d => d <? b | None => false end.
(** Base 0: a prefix 0x before a hexadecimal digit, or 0, selects the base. *)
Definition scan_base (s : string) : Z * string :=
  match s with
  | String "0" (String x (String c r)) =>
      if ((x =? "x")%char || (x =? "X")%char) && is_digit 16 c then (16, String c r) else (8, s)
  | String "0" _ => (8, s)
  | _ => (10, s)
  end.
(** The digits at the front: their value, whether there are any, and the rest. *)
Fixpoint scan_digits (b acc : Z) (any : bool) (s : string) : Z * bool * string :=
  match s with
  | String c r =>
      match digit_value c with
      | Some d => if d <? b then scan_digits b (acc * b + d) true r else (acc, any, s)
      | None => (acc, any, s)
      end
  | EmptyString => (acc, any, s)
  end.
Definition ULONG_MAX : Z := 2 ^ 64 - 1.
(** The value, the text at [end] and the error. *)
Definition strtoul (text : string) : Z * string * Z :=
  let '(negative, s) := scan_sign (skip_space text) in
  let '(b, s) := scan_base s in
  let '(value, any, rest) := scan_digits b 0 false s in
  if negb any then (0, text, 0)
  else if ULONG_MAX <? value then (ULONG_MAX, rest, ERANGE)
  else (if negative : bool then wrap 64 (- value) else value, rest, 0).

(** ** strtok_r(text, delimiter, &saveptr) *)

Fixpoint skip_char (d : ascii) (s : string) : string :=
  match s with
  | String c r => if (c =? d)%char then skip_char d r else s
  | EmptyString => s
  end.
(** The text before the first delimiter and the one behind it. *)
Fixpoint split_char (d : ascii) (s : string) : string * string :=
  match s with
  | String c r =>
      if (c =? d)%char then (EmptyString, r) else let '(a, rest) := split_char d r in (String c a, rest)
  | EmptyString => (EmptyString, EmptyString)
  end.
(** The next token, if any, and the saved position. *)
Definition strtok_r (d : ascii) (s : string) : option string * string :=
  match skip_char d s with
  | EmptyString => (None, EmptyString)
  | s => let '(token, rest) := split_char d s in (Some token, rest)
  end.

(** ** Numbers survive printing and reading *)

Lemma div_digits b n k : 2 <= b -> 0 <= n < b ^ Z.of_nat (S k) -> 0 <= n / b < b ^ Z.of_nat k.
Proof.
  intros Hb Hn. split; [apply Z.div_pos; lia | ]. apply Z.div_lt_upper_bound; [lia | ].
  rewrite <- Z.pow_succ_r, <- Nat2Z.inj_succ by lia. lia.
Qed.

Lemma scan_digits_digits b fuel : forall n tail acc any, 2 <= b <= 36 -> 0 <= n < b ^ Z.of_nat fuel ->
  (0 < fuel)%nat ->
  exists k, 0 <= k /\ scan_digits b acc any (digits fuel b n tail) = scan_digits b (acc * b ^ k + n) true tail.
Proof.
  induction fuel as [|fuel IH]; intros n tail acc any Hb Hn Hf; [lia | ]. cbn [digits].
  assert (Hmod : 0 <= n mod b < b) by (apply Z.mod_pos_bound; lia).
  assert (Hstep : forall a x, scan_digits b a x (String (digit_char (n mod b)) tail) =
    scan_digits b (a * b + n mod b) true tail).
  { intros a x. cbn [scan_digits]. rewrite digit_value_char by lia.
    destruct (Z.ltb_spec (n mod b) b); [done | lia]. }
  pose proof (Z.div_mod n b ltac:(lia)) as Hdiv.
  destruct (Z.eqb_spec (n / b) 0) as [E|E].
  - exists 1. split; [lia | ]. rewrite Hstep. f_equal. rewrite E in Hdiv. rewrite Z.pow_1_r. lia.
  - assert (0 < n / b) by (pose proof (Z.div_pos n b); lia).
    destruct fuel as [|fuel]; [cbn in Hn; rewrite Z.pow_1_r in Hn; rewrite Z.div_small in E; lia | ].
    destruct (IH (n / b) (String (digit_char (n mod b)) tail) acc any Hb) as (k & Hk & ->); [ | lia | ].
    + apply div_digits; [lia | done].
    + exists (k + 1). split; [lia | ]. rewrite Hstep. f_equal.
      rewrite Z.pow_add_r, Z.pow_1_r by lia. nia.
Qed.

(** The first character of a number is its leading digit. *)
Lemma digits_head b fuel : forall n tail, 2 <= b -> 0 < n < b ^ Z.of_nat fuel ->
  exists d rest, digits fuel b n tail = String (digit_char d) rest /\ 1 <= d < b.
Proof.
  induction fuel as [|fuel IH]; intros n tail Hb Hn; [cbn in Hn; lia | ]. cbn [digits].
  pose proof (Z.div_mod n b ltac:(lia)) as Hdiv.
  assert (Hmod : 0 <= n mod b < b) by (apply Z.mod_pos_bound; lia).
  destruct (Z.eqb_spec (n / b) 0) as [E|E].
  - exists (n mod b), tail. split; [done | ]. rewrite E in Hdiv. lia.
  - apply IH; [done | ]. pose proof (Z.div_pos n b). pose proof (div_digits b n fuel Hb). lia.
Qed.

Lemma decimal_head d : 1 <= d < 10 -> is_space (digit_char d) = false /\
  forall r, scan_sign (String (digit_char d) r) = (false, String (digit_char d) r) /\
    scan_base (String (digit_char d) r) = (10, String (digit_char d) r).
Proof.
  intros Hd.
  assert (d = 1 \/ d = 2 \/ d = 3 \/ d = 4 \/ d = 5 \/ d = 6 \/ d = 7 \/ d = 8 \/ d = 9) as E by lia.
  repeat (destruct E as [-> | E]; [by split | ]). by subst.
Qed.

(** [strtoul] reads back what [%u] printed. *)
Lemma strtoul_format n : 0 <= n <= ULONG_MAX -> strtoul (format_u n) = (n, EmptyString, 0).
Proof.
  intros Hn. unfold format_u. destruct (decide (n = 0)) as [->|Hn0]; [by vm_compute | ].
  assert (Hpow : n < 10 ^ Z.of_nat 64) by (unfold ULONG_MAX in Hn; lia).
  destruct (digits_head 10 64 n EmptyString ltac:(lia) ltac:(lia)) as (d & rest & E & Hd).
  destruct (decimal_head d Hd) as [Hs Hr]. destruct (Hr rest) as [Hsign Hbase].
  unfold strtoul. rewrite E. cbn [skip_space]. rewrite Hs, Hsign, Hbase, <- E.
  destruct (scan_digits_digits 10 64 n EmptyString 0 false ltac:(lia) ltac:(lia) ltac:(lia)) as (k & _ & ->).
  cbn [scan_digits negb]. rewrite Z.mul_0_l, Z.add_0_l. destruct (Z.ltb_spec ULONG_MAX n); [lia | done].
Qed.

Lemma format_u_inj m n : 0 <= m <= ULONG_MAX -> 0 <= n <= ULONG_MAX -> format_u m = format_u n -> m = n.
Proof.
  intros Hm Hn E. pose proof (strtoul_format m Hm) as E1. rewrite E, (strtoul_format n Hn) in E1. congruence.
Qed.

(** A number below [b ^ k] has at most [k] digits. *)
Lemma digits_length b fuel : forall n tail k, 2 <= b -> 0 <= n < b ^ Z.of_nat k -> (0 < k <= fuel)%nat ->
  (strlen (digits fuel b n tail) <= k + strlen tail)%nat.
Proof.
  induction fuel as [|fuel IH]; intros n tail k Hb Hn Hk; [lia | ]. cbn [digits].
  destruct (Z.eqb_spec (n / b) 0) as [E|E]; [cbn; lia | ].
  destruct k as [|k]; [lia | ]. assert (0 < n / b) by (pose proof (Z.div_pos n b); lia).
  destruct k as [|k]; [cbn in Hn; rewrite Z.pow_1_r in Hn; rewrite Z.div_small in E; lia | ].
  etrans; [apply (IH _ _ (S k) Hb) | cbn; lia]; [ | lia]. by apply div_digits.
Qed.

Lemma format_u_length n : 0 <= n < 2 ^ 32 -> (strlen (format_u n) <= 10)%nat.
Proof.
  intros Hn. unfold format_u. pose proof (digits_length 10 64 n EmptyString 10 ltac:(lia)) as H.
  cbn [String.length] in H. rewrite Nat.add_0_r in H. apply H; [ | lia]. change (Z.of_nat 10) with 10. lia.
Qed.

(** A text that fits is stored as it is. *)
Lemma substring_all s : forall n, (strlen s <= n)%nat -> String.substring 0 n s = s.
Proof.
  induction s as [|c s IH]; intros [|n] Hn; cbn in *; [done | done | lia | ]. by rewrite IH by lia.
Qed.
Lemma snprintf_fits size s : Z.of_nat (strlen s) < size -> snprintf size s = (s, Z.of_nat (strlen s)).
Proof. intros Hs. unfold snprintf. by rewrite substring_all by lia. Qed.

Lemma strlen_app s1 s2 : strlen (s1 +:+ s2) = (strlen s1 + strlen s2)%nat.
Proof. induction s1 as [|c s1 IH]; [done | ]. apply (f_equal S IH). Qed.
Lemma app_inj s s1 s2 : s +:+ s1 = s +:+ s2 -> s1 = s2.
Proof. induction s as [|c s IH]; [done | ]. cbn. intros [= E]. auto. Qed.
