(* ===== verification/Lib.v ===== *)
(** * libvirtusb (libvirtusb/src/virtusb.c, libvirtusb/include/virtusb.h)

    The library functions in a process: its file descriptors, the handles that
    [calloc] gave it, [errno], what it printed, and the kernel it runs on.  The
    system calls open, close and ioctl enter the control device of the module.
    The functions keep the names of the C code; [virtusb_device_create] and a
    few others are also names of functions of the kernel module. *)

From S2P Require Import Prelude Uapi Kernel Port Hub Object Device Transfer Backend Hcd Control ModuleSpec Text.

(** ** The public types *)

Definition VIRTUSB_MAX_PORTS : Z := 31.

Definition VIRTUSB_STATUS_CONNECTED : Z := Z.shiftl 1 0.
Definition VIRTUSB_STATUS_ENABLED : Z := Z.shiftl 1 1.
Definition VIRTUSB_STATUS_SUSPENDED : Z := Z.shiftl 1 2.
Definition VIRTUSB_STATUS_OVER_CURRENT : Z := Z.shiftl 1 3.
Definition VIRTUSB_STATUS_RESET : Z := Z.shiftl 1 4.
Definition VIRTUSB_STATUS_POWER : Z := Z.shiftl 1 8.

Definition VIRTUSB_CHANGE_CONNECTED : Z := Z.shiftl 1 0.
Definition VIRTUSB_CHANGE_ENABLED : Z := Z.shiftl 1 1.
Definition VIRTUSB_CHANGE_SUSPENDED : Z := Z.shiftl 1 2.
Definition VIRTUSB_CHANGE_OVER_CURRENT : Z := Z.shiftl 1 3.
Definition VIRTUSB_CHANGE_RESET : Z := Z.shiftl 1 4.

Inductive virtusb_speed :=
  | VIRTUSB_SPEED_NONE
  | VIRTUSB_SPEED_LOW
  | VIRTUSB_SPEED_FULL
  | VIRTUSB_SPEED_HIGH.
#[export] Instance virtusb_speed_eq_dec : EqDecision virtusb_speed.
Proof. solve_decision. Defined.

Record virtusb_state := mk_state {
  vs_status : Z;
  vs_change : Z;
  vs_speed : virtusb_speed;
}.

Record virtusb_status := mk_status {
  vt_hub_id : Z;
  vt_port : Z;
  vt_port_count : Z;
  vt_state : virtusb_state;
  vt_ports : list virtusb_state;        (* VIRTUSB_MAX_PORTS entries *)
}.
Definition set_vt_ports (l : list virtusb_state) (st : virtusb_status) : virtusb_status :=
  mk_status (vt_hub_id st) (vt_port st) (vt_port_count st) (vt_state st) l.

Definition VIRTUSB_INVALID_OBJECT_ID : Z := 0.

Definition VIRTUSB_DEVICE_SPEED_LOW : Z := Z.shiftl 1 0.
Definition VIRTUSB_DEVICE_SPEED_FULL : Z := Z.shiftl 1 1.
Definition VIRTUSB_DEVICE_SPEED_HIGH : Z := Z.shiftl 1 2.
Definition VIRTUSB_DEVICE_SPEED_ALL : Z :=
  Z.lor (Z.lor VIRTUSB_DEVICE_SPEED_LOW VIRTUSB_DEVICE_SPEED_FULL) VIRTUSB_DEVICE_SPEED_HIGH.

(** The enumerators of enum virtusb_transfer_type and enum
    virtusb_transfer_direction; a field of these types holds the number that
    was cast to it. *)
Definition VIRTUSB_TRANSFER_CONTROL : Z := 0.
Definition VIRTUSB_TRANSFER_ISOCHRONOUS : Z := 1.
Definition VIRTUSB_TRANSFER_BULK : Z := 2.
Definition VIRTUSB_TRANSFER_INTERRUPT : Z := 3.
Definition VIRTUSB_TRANSFER_OUT : Z := 0.
Definition VIRTUSB_TRANSFER_IN : Z := 1.

Record virtusb_transfer_request := mk_transfer_request {
  rt_id : Z;
  rt_object_id : Z;
  rt_type : Z;
  rt_direction : Z;
  rt_endpoint : Z;
  rt_has_setup : bool;
  rt_requested_length : Z;
  rt_data_length : Z;
  rt_setup : list Z;                    (* VIRTUSB_TRANSFER_SETUP_SIZE bytes *)
  rt_data : list Z;                     (* VIRTUSB_TRANSFER_DATA_MAX bytes *)
}.

Definition VIRTUSB_DEVICE_PATH_MAX : Z := 64.

Record virtusb_handle := mk_handle {
  hd_fd : Z;
  hd_instance : Z;
  hd_device_path : string;
}.
Abbreviation handle_ptr := positive.

(** ** The process *)

Inductive stream := Stdout | Stderr.
Record process := mk_process {
  pr_kernel : kernel;
  pr_fds : gmap Z file_ptr;
  pr_handles : gmap handle_ptr virtusb_handle;
  pr_errno : Z;
  pr_output : list (stream * string);
}.
Definition set_pr_kernel k (p : process) : process :=
  mk_process k (pr_fds p) (pr_handles p) (pr_errno p) (pr_output p).
Definition set_pr_fds x (p : process) : process :=
  mk_process (pr_kernel p) x (pr_handles p) (pr_errno p) (pr_output p).
Definition set_pr_handles x (p : process) : process :=
  mk_process (pr_kernel p) (pr_fds p) x (pr_errno p) (pr_output p).
Definition set_pr_errno x (p : process) : process :=
  mk_process (pr_kernel p) (pr_fds p) (pr_handles p) x (pr_output p).
Definition set_pr_output x (p : process) : process :=
  mk_process (pr_kernel p) (pr_fds p) (pr_handles p) (pr_errno p) x.

Definition U (A : Type) : Type := M process A.
Definition in_kernel {A} (m : K A) : U A :=
  fun p => match m (pr_kernel p) with
           | Some (a, k) => Some (a, set_pr_kernel k p)
           | None => None
           end.
Definition set_errno (e : Z) : U unit := modify (set_pr_errno e).
Abbreviation load_handle := (load pr_handles).

(** ** System calls *)

(** The node that [device_create(..., "virtusb%u", instance)] makes appear for
    an active control plane. *)
Definition device_node (instance : Z) : string := "/dev/virtusb" +:+ format_u instance.
Definition is_node (path : string) (x : hcd_ptr * virtusb_hcd) : bool :=
  ct_active (vh_control x.2) && bool_decide (device_node (vh_instance x.2) = path).
Definition find_node (k : kernel) (path : string) : option hcd_ptr :=
  fst <$> head (List.filter (is_node path) (map_to_list (k_hcds k))).

(** What [open] and [calloc] find: an error before the driver is reached, the
    new struct file and its descriptor, memory for the file context, and the
    block of [calloc] or the errno it leaves. *)
Record open_env := mk_open_env {
  oe_error : option Z;
  oe_file : file_ptr;
  oe_fd : Z;
  oe_oom : bool;
  oe_handle : option handle_ptr;
  oe_calloc_errno : Z;
}.

(** A system call that the driver ends with [-e]; one that a signal interrupts
    fails with EINTR. *)
Definition syscall_error (r : Z) : U unit :=
  set_errno (if - r =? ERESTARTSYS then EINTR else - r).

Definition sys_open (path : string) (env : open_env) : U Z :=
  match oe_error env with
  | Some e => set_errno e ;; ret (-1)
  | None =>
      k <- gets pr_kernel ;;
      match find_node k path with
      | None => set_errno ENOENT ;; ret (-1)
      | Some c =>
          in_kernel (modify (put_file (oe_file env) (mk_file None false))) ;;
          r <- in_kernel (virtusb_control_open c (oe_file env) (oe_oom env)) ;;
          if r <? 0 then syscall_error r ;; ret (-1)
          else
            modify (fun p => set_pr_fds (<[oe_fd env := oe_file env]> (pr_fds p)) p) ;;
            ret (oe_fd env)
      end
  end.

Definition sys_close (fd : Z) : U Z :=
  fds <- gets pr_fds ;;
  match fds !! fd with
  | None => set_errno EBADF ;; ret (-1)
  | Some f =>
      modify (fun p => set_pr_fds (delete fd (pr_fds p)) p) ;;
      _ <- in_kernel (virtusb_control_release f) ;;
      ret 0
  end.

(** The structure that the argument of an ioctl points to. *)
Inductive request :=
  | ReqPortStatus (r : virtusb_port_status)
  | ReqDeviceCreate (r : virtusb_device_create_req)
  | ReqDeviceDestroy (r : virtusb_device_destroy_req)
  | ReqDeviceAttach (r : virtusb_device_attach_req)
  | ReqDeviceObject (r : virtusb_device_object_req)
  | ReqDeviceConnection (r : virtusb_device_connection_req)
  | ReqPortPower (r : virtusb_port_power_req)
  | ReqBackendRegister (r : virtusb_backend_register_req)
  | ReqTransferFetch
  | ReqTransferComplete (r : virtusb_transfer_complete_request)
  | ReqNone
  | ReqUnmapped.                        (* a pointer to no memory of the process *)

(** The kernel can read and write a structure; memdup_user may lack memory. *)
Definition user_memory (q : request) (oom : bool) : user := {|
  us_port_status := match q with ReqPortStatus r => Some r | _ => None end;
  us_device_create := match q with ReqDeviceCreate r => Some r | _ => None end;
  us_device_destroy := match q with ReqDeviceDestroy r => Some r | _ => None end;
  us_device_attach := match q with ReqDeviceAttach r => Some r | _ => None end;
  us_device_object := match q with ReqDeviceObject r => Some r | _ => None end;
  us_device_connection := match q with ReqDeviceConnection r => Some r | _ => None end;
  us_port_power := match q with ReqPortPower r => Some r | _ => None end;
  us_backend_register := match q with ReqBackendRegister r => Some r | _ => None end;
  us_complete := match q with
                 | ReqTransferComplete r => if oom then Err (- ENOMEM) else Ok r
                 | _ => Err (- EFAULT)
                 end;
  us_copy_out := match q with ReqUnmapped => false | _ => true end;
|}.

(** The result and what the kernel wrote back. *)
Definition sys_ioctl (enc : ioctl_encoding) (fd command : Z) (q : request) (env : ioctl_env) :
    U (Z * option reply) :=
  fds <- gets pr_fds ;;
  match fds !! fd with
  | None => set_errno EBADF ;; ret (-1, None)
  | Some f =>
      both r, written <- in_kernel (virtusb_control_ioctl enc f command (user_memory q (ie_oom env)) env) ;;
      if r <? 0 then syscall_error r ;; ret (-1, written)
      else ret (r, written)
  end.

(** ** Handles *)

Definition virtusb_speed_from_uapi (speed : Z) : virtusb_speed :=
  if speed =? port_speed_to_Z VIRTUSB_PORT_SPEED_LOW then VIRTUSB_SPEED_LOW
  else if speed =? port_speed_to_Z VIRTUSB_PORT_SPEED_FULL then VIRTUSB_SPEED_FULL
  else if speed =? port_speed_to_Z VIRTUSB_PORT_SPEED_HIGH then VIRTUSB_SPEED_HIGH
  else VIRTUSB_SPEED_NONE.

Definition virtusb_state_from_uapi (source : virtusb_port_state) : virtusb_state :=
  mk_state (st_status source) (st_change source) (virtusb_speed_from_uapi (st_speed source)).

(** An [int] result with an output parameter, [None] when it was not written. *)
Definition too_long (length size : Z) : bool := (length <? 0) || (size <=? length).

(** [out]: the pointer [handle] is not NULL; it receives NULL when the function
    fails. *)
Definition virtusb_open (instance : Z) (out : bool) (env : open_env) : U (Z * option handle_ptr) :=
  if negb out then ret (- EINVAL, None)
  else
    let '(path, length) := snprintf VIRTUSB_DEVICE_PATH_MAX ("/dev/virtusb" +:+ format_u instance) in
    if too_long length VIRTUSB_DEVICE_PATH_MAX then ret (- ENAMETOOLONG, None)
    else
      fd <- sys_open path env ;;
      if fd <? 0 then e <- gets pr_errno ;; ret (- e, None)
      else
        match oe_handle env with
        | None =>
            set_errno (oe_calloc_errno env) ;;
            saved_errno <- gets pr_errno ;;
            _ <- sys_close fd ;;
            ret (- (if saved_errno =? 0 then ENOMEM else saved_errno), None)
        | Some p =>
            let '(device_path, length) := snprintf VIRTUSB_DEVICE_PATH_MAX path in
            alloc pr_handles set_pr_handles p (mk_handle fd instance device_path) ;;
            if too_long length VIRTUSB_DEVICE_PATH_MAX then
              _ <- sys_close fd ;;
              free pr_handles set_pr_handles p ;;
              ret (- ENAMETOOLONG, None)
            else ret (0, Some p)
        end.

Definition virtusb_close (handle : option handle_ptr) : U unit :=
  match handle with
  | None => ret tt
  | Some p =>
      hv <- load_handle p ;;
      (if 0 <=? hd_fd hv then _ <- sys_close (hd_fd hv) ;; ret tt else ret tt) ;;
      free pr_handles set_pr_handles p
  end.

Definition virtusb_get_device_path (handle : option handle_ptr) : U (option string) :=
  match handle with
  | None => ret None
  | Some p => hv <- load_handle p ;; ret (Some (hd_device_path hv))
  end.

(** The two checks of the handle that every request starts with. *)
Definition handle_fd (handle : option handle_ptr) : U (result Z) :=
  match handle with
  | None => ret (Err (- EINVAL))
  | Some p => hv <- load_handle p ;; ret (if hd_fd hv <? 0 then Err (- EBADF) else Ok (hd_fd hv))
  end.

(** [if (ret < 0) return -errno;] *)
Definition or_errno (r : Z) : U Z := if r <? 0 then e <- gets pr_errno ;; ret (- e) else ret 0.

Section requests.
Variable enc : ioctl_encoding.

(** A request without a result. *)
Definition simple_request (handle : option handle_ptr) (command : Z) (q : request) (env : ioctl_env) : U Z :=
  fd <- handle_fd handle ;;
  match fd with
  | Err e => ret e
  | Ok fd => both r, _ <- sys_ioctl enc fd command q env ;; or_errno r
  end.

(** The loop over the downstream ports: [i < port_count && i < VIRTUSB_MAX_PORTS]. *)
Fixpoint copy_ports (fuel : nat) (i port_count : Z) (source : list virtusb_port_state)
    (ports : list virtusb_state) : option (list virtusb_state) :=
  match fuel with
  | O => None
  | Datatypes.S fuel =>
      if (i <? port_count) && (i <? VIRTUSB_MAX_PORTS) then
        match source !! Z.to_nat i, ports !! Z.to_nat i with
        | Some st, Some _ =>
            copy_ports fuel (i + 1) port_count source
              (<[Z.to_nat i := virtusb_state_from_uapi st]> ports)
        | _, _ => None
        end
      else Some ports
  end.

Definition zero_state : virtusb_state := mk_state 0 0 VIRTUSB_SPEED_NONE.
Definition zero_states : list virtusb_state := replicate (Z.to_nat VIRTUSB_MAX_PORTS) zero_state.

(** [out]: the pointer [status] is not NULL. *)
Definition virtusb_get_port_status (handle : option handle_ptr) (hub_id port : Z) (out : bool)
    (env : ioctl_env) : U (Z * option virtusb_status) :=
  if negb out then ret (- EINVAL, None)
  else
    fd <- handle_fd handle ;;
    match fd with
    | Err e => ret (e, None)
    | Ok fd =>
        let request := mk_port_status hub_id port 0 zero_port_state
                         (replicate (Z.to_nat VIRTUSB_MAX_HUB_PORTS) zero_port_state) in
        both r, written <- sys_ioctl enc fd (VIRTUSB_IOCTL_GET_PORT_STATUS enc) (ReqPortStatus request) env ;;
        if r <? 0 then e <- gets pr_errno ;; ret (- e, None)
        else
          let request := match written with Some (ReplyPortStatus x) => x | _ => request end in
          let status := mk_status (ps_hub_id request) (ps_port request) (ps_port_count request)
                          (virtusb_state_from_uapi (ps_state request)) zero_states in
          if ps_port request =? 0 then
            match copy_ports (S (Z.to_nat VIRTUSB_MAX_PORTS)) 0 (ps_port_count request)
                    (ps_ports request) zero_states with
            | Some ports => ret (0, Some (set_vt_ports ports status))
            | None => stuck
            end
          else ret (0, Some status)
    end.

(** [out]: the pointer [object_id] is not NULL. *)
Definition virtusb_device_create (handle : option handle_ptr) (speed_caps : Z) (out : bool)
    (env : ioctl_env) : U (Z * option Z) :=
  if negb out then ret (- EINVAL, None)
  else
    fd <- handle_fd handle ;;
    match fd with
    | Err e => ret (e, None)
    | Ok fd =>
        let request := mk_device_create_req speed_caps 0 in
        both r, written <- sys_ioctl enc fd (VIRTUSB_IOCTL_DEVICE_CREATE enc) (ReqDeviceCreate request) env ;;
        if r <? 0 then e <- gets pr_errno ;; ret (- e, None)
        else
          let request := match written with Some (ReplyDeviceCreate x) => x | _ => request end in
          ret (0, Some (dc_object_id request))
    end.

Definition virtusb_device_destroy (handle : option handle_ptr) (object_id : Z) (force : bool)
    (env : ioctl_env) : U Z :=
  simple_request handle (VIRTUSB_IOCTL_DEVICE_DESTROY enc)
    (ReqDeviceDestroy (mk_device_destroy_req object_id
       (if force then VIRTUSB_DEVICE_DESTROY_FORCE else 0))) env.

Definition virtusb_device_attach (handle : option handle_ptr) (object_id hub_id port : Z)
    (env : ioctl_env) : U Z :=
  simple_request handle (VIRTUSB_IOCTL_DEVICE_ATTACH enc)
    (ReqDeviceAttach (mk_device_attach_req object_id hub_id port)) env.

Definition virtusb_device_detach (handle : option handle_ptr) (object_id : Z) (env : ioctl_env) : U Z :=
  simple_request handle (VIRTUSB_IOCTL_DEVICE_DETACH enc)
    (ReqDeviceObject (mk_device_object_req object_id)) env.

Definition virtusb_device_set_connected (handle : option handle_ptr) (object_id : Z) (connected : bool)
    (env : ioctl_env) : U Z :=
  simple_request handle (VIRTUSB_IOCTL_DEVICE_CONNECTION enc)
    (ReqDeviceConnection (mk_device_connection_req object_id (if connected then 1 else 0))) env.

Definition virtusb_set_port_power (handle : option handle_ptr) (hub_id port : Z) (powered : bool)
    (env : ioctl_env) : U Z :=
  simple_request handle (VIRTUSB_IOCTL_SET_PORT_POWER enc)
    (ReqPortPower (mk_port_power_req hub_id port (if powered then 1 else 0))) env.

Definition virtusb_backend_register (handle : option handle_ptr) (object_id : Z) (env : ioctl_env) : U Z :=
  if object_id =? VIRTUSB_INVALID_OBJECT_ID then ret (- EINVAL)
  else simple_request handle (VIRTUSB_IOCTL_BACKEND_REGISTER enc)
         (ReqBackendRegister (mk_backend_register_req object_id)) env.

Definition virtusb_backend_unregister (handle : option handle_ptr) (env : ioctl_env) : U Z :=
  simple_request handle (VIRTUSB_IOCTL_BACKEND_UNREGISTER enc) ReqNone env.

(** [out]: the pointer [request] is not NULL. *)
Definition virtusb_transfer_fetch (handle : option handle_ptr) (out : bool) (env : ioctl_env) :
    U (Z * option virtusb_transfer_request) :=
  if negb out then ret (- EINVAL, None)
  else
    fd <- handle_fd handle ;;
    match fd with
    | Err e => ret (e, None)
    | Ok fd =>
        both r, written <- sys_ioctl enc fd (VIRTUSB_IOCTL_TRANSFER_FETCH enc) ReqTransferFetch env ;;
        if r <? 0 then e <- gets pr_errno ;; ret (- e, None)
        else
          let fetch := match written with Some (ReplyFetch x) => x | _ => zero_fetch end in
          ret (0, Some (mk_transfer_request (tf_transfer_id fetch) (tf_object_id fetch) (tf_type fetch)
                 (tf_direction fetch) (tf_endpoint fetch) (negb (tf_has_setup fetch =? 0))
                 (tf_requested_length fetch) (tf_data_length fetch) (tf_setup fetch) (tf_data fetch)))
    end.

(** [memcpy(completion.data, data, actual_length)] after the [memset]; the
    block at [data] must be that long. *)
Definition completion_data (data : option (list Z)) (actual_length : Z) : option (list Z) :=
  let rest := replicate (Z.to_nat (VIRTUSB_TRANSFER_DATA_MAX - actual_length)) 0 in
  if actual_length <=? 0 then Some rest
  else
    match data with
    | Some bytes =>
        if Z.of_nat (length bytes) <? actual_length then None
        else Some (take (Z.to_nat actual_length) bytes ++ rest)
    | None => None
    end.

Definition virtusb_transfer_complete (handle : option handle_ptr) (transfer_id status : Z)
    (data : option (list Z)) (actual_length : Z) (env : ioctl_env) : U Z :=
  fd <- handle_fd handle ;;
  match fd with
  | Err e => ret e
  | Ok fd =>
      if (VIRTUSB_TRANSFER_DATA_MAX <? actual_length) ||
         ((0 <? actual_length) && bool_decide (data = None))
      then ret (- EINVAL)
      else
        match completion_data data actual_length with
        | None => stuck
        | Some bytes =>
            let completion := mk_transfer_complete_request transfer_id status actual_length bytes in
            both r, _ <- sys_ioctl enc fd (VIRTUSB_IOCTL_TRANSFER_COMPLETE enc)
                           (ReqTransferComplete completion) env ;;
            or_errno r
        end
  end.
End requests.
