(* ===== verification/LibSpec.v ===== *)
(** * What the library functions do to the process and to the module

    Each system call is a run of module steps, and it keeps the process
    consistent: its descriptors are open files, its handles own distinct
    descriptors. *)

From S2P Require Import Prelude Uapi Kernel Port Hub Object Device Transfer Backend BackendInv BackendOps Hcd HcdSpec UrbSpec Control ControlSpec ModuleSpec Config BlockSpec Text Lib.

Record process_ok (p : process) : Prop := {
  po_kernel : module_ok (pr_kernel p);
  po_typed : typed (pr_kernel p);
  po_files : forall fd f, pr_fds p !! fd = Some f -> is_Some (k_files (pr_kernel p) !! f);
  po_handles : forall h hv, pr_handles p !! h = Some hv ->
    0 <= hd_fd hv /\ is_Some (pr_fds p !! hd_fd hv);
  po_distinct : forall h1 h2 hv1 hv2, pr_handles p !! h1 = Some hv1 -> pr_handles p !! h2 = Some hv2 ->
    hd_fd hv1 = hd_fd hv2 -> h1 = h2;
}.

Section steps.
Context (enc : ioctl_encoding) (F : gset file_ptr).
Implicit Types p : process.

(** ** Steps of the module under a process *)

Lemma module_step_frame s s' : module_step enc s s' -> module_ok s -> typed s ->
  module_ok s' /\ typed s' /\ (forall f, is_Some (k_files s !! f) -> is_Some (k_files s' !! f)).
Proof.
  intros Hs Hm Ht. split; [by eapply module_step_ok | ].
  pose proof (module_reach_stays enc s s' (rtc_once _ _ Hs) Ht) as Hc. split; [apply Hc | ].
  intros f. by apply (files_here_kept s s' f ∅ Hc).
Qed.
Lemma module_reach_frame s s' : module_reach enc s s' -> module_ok s -> typed s ->
  module_ok s' /\ typed s' /\ (forall f, is_Some (k_files s !! f) -> is_Some (k_files s' !! f)).
Proof.
  induction 1 as [s|s1 s2 s3 Hs _ IH]; intros Hm Ht; [done | ].
  destruct (module_step_frame s1 s2 Hs Hm Ht) as (Hm2 & Ht2 & Hf2).
  destruct (IH Hm2 Ht2) as (? & ? & Hf3). split_and!; auto.
Qed.

(** Only the kernel, errno and the output changed. *)
Definition same_tables p p' : Prop := pr_fds p' = pr_fds p /\ pr_handles p' = pr_handles p.

Lemma process_ok_step p p' : process_ok p -> same_tables p p' ->
  module_reach enc (pr_kernel p) (pr_kernel p') -> process_ok p'.
Proof.
  intros [Hm Ht Hf Hh Hd] [E1 E2] Hr. destruct (module_reach_frame _ _ Hr Hm Ht) as (Hm' & Ht' & Hf').
  split; rewrite ?E1, ?E2; eauto.
Qed.

(** A computation of a process that returns, keeps the process consistent and
    whose effect on the kernel is a run of module steps in which the files [F]
    stay open. *)
Definition runs {A} (m : U A) p (Q : A -> process -> Prop) : Prop :=
  exists a p', m p = Some (a, p') /\ process_ok p' /\
    file_reach enc F (pr_kernel p) (pr_kernel p') /\ Q a p'.

Lemma runs_ret {A} (a : A) p (Q : A -> process -> Prop) : process_ok p -> Q a p -> runs (ret a) p Q.
Proof. intros Hp HQ. by exists a, p. Qed.

Lemma runs_bind {A B} (m : U A) (k : A -> U B) p Q :
  runs m p (fun a p' => runs (k a) p' Q) -> runs (bind m k) p Q.
Proof.
  intros (a & p1 & E & _ & Hr1 & b & p2 & E2 & Hp2 & Hr2 & HQ). exists b, p2.
  split_and!; [unfold bind; by rewrite E | done | by etrans | done].
Qed.

Lemma runs_mono {A} (m : U A) p (Q Q' : A -> process -> Prop) :
  runs m p Q -> (forall a p', process_ok p' -> Q a p' -> Q' a p') -> runs m p Q'.
Proof. intros (a & p' & E & Hp & Hr & HQ) HI. exists a, p'. split_and!; eauto. Qed.

(** Reading the process and writing errno or the output. *)
Lemma runs_gets {A} (f : process -> A) p (Q : A -> process -> Prop) : process_ok p -> Q (f p) p ->
  runs (gets f) p Q.
Proof. intros Hp HQ. by exists (f p), p. Qed.

Lemma runs_modify (f : process -> process) p (Q : unit -> process -> Prop) : process_ok (f p) ->
  pr_kernel (f p) = pr_kernel p -> Q tt (f p) -> runs (modify f) p Q.
Proof. intros Hp E HQ. exists tt, (f p). split_and!; [done | done | by rewrite E | done]. Qed.

Lemma process_set_errno p e : process_ok p -> process_ok (set_pr_errno e p).
Proof. by intros []. Qed.
Lemma process_set_output p x : process_ok p -> process_ok (set_pr_output x p).
Proof. by intros []. Qed.

Lemma runs_load_handle h hv p (Q : virtusb_handle -> process -> Prop) : process_ok p ->
  pr_handles p !! h = Some hv -> Q hv p -> runs (load_handle h) p Q.
Proof.
  intros Hp Hh HQ. exists hv, p. split_and!; [unfold load; by rewrite Hh | done..].
Qed.

Lemma runs_kernel (m : K unit) p (Q : unit -> process -> Prop) : process_ok p ->
  interferes enc F m ->
  (forall k, file_reach enc F (pr_kernel p) k -> process_ok (set_pr_kernel k p) -> Q tt (set_pr_kernel k p)) ->
  runs (in_kernel m) p Q.
Proof.
  intros Hp Hm HQ. destruct (Hm (pr_kernel p) (po_kernel _ Hp) (po_typed _ Hp)) as (k & E & Hr).
  assert (process_ok (set_pr_kernel k p)) by (apply (process_ok_step p); [done | done | apply Hr]).
  exists tt, (set_pr_kernel k p). split_and!; [unfold in_kernel; by rewrite E | done | done | by apply HQ].
Qed.
End steps.

(** A run that keeps more files open is one that keeps fewer open. *)
Lemma runs_subset enc F F' {A} (m : U A) p Q : F' ⊆ F -> runs enc F m p Q -> runs enc F' m p Q.
Proof.
  intros HF (a & p' & E & Hp & Hr & HQ). exists a, p'. split_and!; [done | done | | done].
  by eapply file_reach_subset.
Qed.

Section spec.
Context (enc : ioctl_encoding) (F : gset file_ptr).
Implicit Types p : process.

(** ** System calls *)

(** A request as the library builds it. *)
Record request_wf (q : request) : Prop := {
  rq_create : forall r, q = ReqDeviceCreate r -> in_width 32 (dc_speed_caps r);
  rq_status : forall r, q = ReqPortStatus r -> 0 <= ps_port r;
  rq_complete : forall r, q = ReqTransferComplete r -> completion_ok r;
}.
Lemma user_memory_wf q oom : request_wf q -> user_wf (user_memory q oom).
Proof.
  intros [H1 H2 H3]. split; intros r; destruct q; cbn; try done; try (intros [= ->]; eauto).
  destruct oom; [done | ]. intros [= ->]. eauto.
Qed.

(** A fetch on a blocking descriptor sleeps, and others run meanwhile. *)
Definition fetch_ok p (fd command : Z) (env : ioctl_env) : Prop :=
  command = VIRTUSB_IOCTL_TRANSFER_FETCH enc ->
  forall f fv, pr_fds p !! fd = Some f -> k_files (pr_kernel p) !! f = Some fv ->
    fl_nonblock fv = true \/ sleeps_ok enc (F ∪ {[f]}) (ie_sleeps env).

Lemma ioctl_call p fd f command q env : NoDup (commands enc) -> process_ok p -> pr_fds p !! fd = Some f ->
  request_wf q -> ioctl_env_wf (pr_kernel p) env -> fetch_ok p fd command env ->
  exists r w k, virtusb_control_ioctl enc f command (user_memory q (ie_oom env)) env (pr_kernel p) =
    Some ((r, w), k) /\ file_reach enc F (pr_kernel p) k.
Proof.
  intros Hn Hp Hfd Hq Henv Hfetch. destruct (po_files _ Hp fd f Hfd) as [fv Hf].
  destruct (ioctl_returns enc (F ∪ {[f]}) (pr_kernel p) f fv command (user_memory q (ie_oom env)) env Hn
    (po_kernel _ Hp) (po_typed _ Hp) Hf (user_memory_wf q _ Hq) Henv) as (r & w & k & E & Hr).
  - intros Hc. destruct (Hfetch Hc f fv Hfd Hf); [left; by apply nonblock_at_once | right]. split; [set_solver | done].
  - exists r, w, k. split; [done | ]. eapply file_reach_subset; [ | exact Hr]. set_solver.
Qed.

(** An ioctl on an open descriptor: the result of the driver, or -1 and a
    positive errno. *)
Definition ioctl_outcome p fd command q env (x : Z * option reply) p' : Prop :=
  same_tables p p' /\ pr_output p' = pr_output p /\
  exists f r k, pr_fds p !! fd = Some f /\
    virtusb_control_ioctl enc f command (user_memory q (ie_oom env)) env (pr_kernel p) =
      Some ((r, x.2), k) /\ pr_kernel p' = k /\
    if r <? 0 then x.1 = -1 /\ pr_errno p' = (if - r =? ERESTARTSYS then EINTR else - r)
    else x.1 = r /\ pr_errno p' = pr_errno p.

Lemma sys_ioctl_runs p fd command q env : NoDup (commands enc) -> process_ok p -> is_Some (pr_fds p !! fd) ->
  request_wf q -> ioctl_env_wf (pr_kernel p) env -> fetch_ok p fd command env ->
  runs enc F (sys_ioctl enc fd command q env) p (ioctl_outcome p fd command q env).
Proof.
  intros Hn Hp [f Hfd] Hq Henv Hnb.
  destruct (ioctl_call p fd f command q env Hn Hp Hfd Hq Henv Hnb) as (r & w & k & E & Hr).
  unfold runs, sys_ioctl, bind, gets, in_kernel. rewrite Hfd, E.
  set (p1 := set_pr_kernel k p).
  assert (Hp1 : process_ok p1) by (apply (process_ok_step enc p); [done | done | apply Hr]).
  destruct (r <? 0) eqn:Hlt.
  - exists (-1, w), (set_pr_errno (if - r =? ERESTARTSYS then EINTR else - r) p1).
    split_and!; [done | by apply process_set_errno | done | ]. split_and!; [done | done | ].
    exists f, r, k. by rewrite Hlt.
  - exists (r, w), p1. split_and!; [done.. | ]. split_and!; [done | done | ]. exists f, r, k. by rewrite Hlt.
Qed.

Lemma outcome_errno p fd command q env x p' : ioctl_outcome p fd command q env x p' ->
  (x.1 <? 0) = true -> 0 < pr_errno p'.
Proof.
  intros (_ & _ & f & r & k & _ & _ & _ & H) Hx. destruct (Z.ltb_spec r 0) as [Hr|Hr]; destruct H as [E1 E2].
  - rewrite E2. case_match; unfold EINTR; lia.
  - apply Z.ltb_lt in Hx. lia.
Qed.

(** [find_node] finds an active control plane of that name. *)
Lemma find_node_some k path c : find_node k path = Some c -> exists v, k_hcds k !! c = Some v /\
  ct_active (vh_control v) = true /\ device_node (vh_instance v) = path.
Proof.
  unfold find_node. destruct (List.filter _ _) as [|[h v] rest] eqn:E; [done | ]. intros [= <-].
  assert (In (h, v) (List.filter (is_node path) (map_to_list (k_hcds k)))) as Hin by (rewrite E; by left).
  apply filter_In in Hin as [Hin Hn]. apply list_elem_of_In, elem_of_map_to_list in Hin.
  unfold is_node in Hn. apply andb_true_iff in Hn as [Ha Hb]. apply bool_decide_eq_true in Hb. by exists v.
Qed.

Record open_env_wf p (env : open_env) : Prop := {
  ow_error : forall e, oe_error env = Some e -> 0 < e;
  ow_file : k_files (pr_kernel p) !! oe_file env = None;
  ow_fd : 0 <= oe_fd env;
  ow_fd_new : pr_fds p !! oe_fd env = None;
  ow_handle : forall h, oe_handle env = Some h -> pr_handles p !! h = None;
  ow_errno : 0 <= oe_calloc_errno env;
}.

(** The process after [open]. *)
Definition file_on (c : hcd_ptr) : file := mk_file (Some (mk_control_file (Some c))) false.
Definition open_result p (path : string) (env : open_env) : Z * process :=
  match oe_error env with
  | Some e => (-1, set_pr_errno e p)
  | None =>
      match find_node (pr_kernel p) path with
      | None => (-1, set_pr_errno ENOENT p)
      | Some c =>
          if oe_oom env
          then (-1, set_pr_errno ENOMEM
                      (set_pr_kernel (put_file (oe_file env) (mk_file None false) (pr_kernel p)) p))
          else (oe_fd env, set_pr_fds (<[oe_fd env := oe_file env]> (pr_fds p))
                             (set_pr_kernel (put_file (oe_file env) (file_on c) (pr_kernel p)) p))
      end
  end.

Lemma sys_open_eq p path env : sys_open path env p = Some (open_result p path env).
Proof.
  unfold sys_open, open_result. destruct (oe_error env) as [e|]; [done | ].
  unfold bind at 1, gets at 1. destruct (find_node (pr_kernel p) path) as [c|]; [ | done].
  unfold bind, in_kernel, virtusb_control_open. cbn [modify].
  destruct (oe_oom env); [done | ]. unfold bind, load, store, modify, ret. cbn.
  rewrite lookup_insert_eq. cbn. rewrite lookup_insert_eq. cbn.
  unfold put_file, set_files. cbn. by rewrite insert_insert_eq.
Qed.

Lemma put_new_file k f d nb : k_files k !! f = None -> d = None ->
  module_reach enc k (put_file f (mk_file d nb) k).
Proof. intros Hf ->. apply rtc_once, step_file. unfold file_data. by rewrite Hf. Qed.

Lemma open_reach k f c : k_files k !! f = None -> is_Some (k_hcds k !! c) ->
  module_reach enc k (put_file f (file_on c) k).
Proof.
  intros Hf Hc. etrans; [apply (put_new_file k f None false Hf eq_refl) | ]. apply rtc_once.
  apply (step_call _ _ (CallOpen c f false)).
  - split; [done | ]. cbn. rewrite lookup_insert_eq. by eexists.
  - cbn. unfold no_result, virtusb_control_open, bind, load, store, ret. cbn.
    rewrite lookup_insert_eq. cbn. rewrite lookup_insert_eq. cbn.
    unfold put_file, set_files. cbn. by rewrite insert_insert_eq.
Qed.

Lemma sys_open_runs p path env : process_ok p -> open_env_wf p env ->
  runs enc ∅ (sys_open path env) p (fun fd p' => (fd, p') = open_result p path env).
Proof.
  intros Hp [He Hf Hfd0 Hfd _ _]. destruct (open_result p path env) as [fd p'] eqn:E.
  exists fd, p'. split; [by rewrite sys_open_eq, E | ]. revert E. unfold open_result.
  destruct (oe_error env) as [e|]; [intros [= <- <-]; split_and!; [by apply process_set_errno | done..] | ].
  destruct (find_node (pr_kernel p) path) as [c|] eqn:En;
    [ | intros [= <- <-]; split_and!; [by apply process_set_errno | done..]].
  destruct (find_node_some _ _ _ En) as (v & Hv & _).
  destruct (oe_oom env); intros [= <- <-].
  - assert (Hr : module_reach enc (pr_kernel p) (put_file (oe_file env) (mk_file None false) (pr_kernel p)))
      by (by apply put_new_file).
    split_and!; [ | by apply file_reach_empty | done]. apply process_set_errno. by apply (process_ok_step enc p).
  - assert (Hr : module_reach enc (pr_kernel p) (put_file (oe_file env) (file_on c) (pr_kernel p)))
      by (apply open_reach; [done | by exists v]).
    split_and!; [ | by apply file_reach_empty | done].
    destruct (process_ok_step enc p (set_pr_kernel (put_file (oe_file env) (file_on c) (pr_kernel p)) p) Hp)
      as [Hm Ht Hfl Hh Hd]; [done | done | ]. split; cbn in *; try done.
    + intros fd f. rewrite lookup_insert_Some. intros [[<- <-]|[_ Hl]]; [ | by eapply Hfl].
      rewrite lookup_insert_eq. by eexists.
    + intros h hv Hl. destruct (Hh h hv Hl) as [? Hs]. split; [done | ].
      rewrite lookup_insert. case_decide; [by eexists | done].
Qed.

(** ** close *)

Lemma release_closes f s r k : virtusb_control_release f s = Some (r, k) -> file_data k f = None.
Proof.
  unfold virtusb_control_release. unfold bind at 1. destruct (load_file f s) as [[fv s1]|]; [ | done].
  unfold bind at 1. match goal with |- context [match ?m with Some _ => _ | None => None end] => destruct m as [[[] s2]|] end; [ | done].
  unfold bind, load, store, ret. destruct (k_files s2 !! f) eqn:Hf; [rewrite Hf | done]. intros [= _ <-].
  unfold file_data. cbn. by rewrite lookup_insert_eq.
Qed.

Lemma sys_close_eq p fd f : process_ok p -> pr_fds p !! fd = Some f ->
  exists k, sys_close fd p = Some (0, set_pr_kernel k (set_pr_fds (delete fd (pr_fds p)) p)) /\
    module_reach enc (pr_kernel p) k /\ file_data k f = None.
Proof.
  intros Hp Hfd. destruct (po_files _ Hp fd f Hfd) as [fv Hf].
  pose proof (release_keeps _ f fv (po_kernel _ Hp) Hf) as Hk. unfold keeps, wp in Hk.
  destruct (virtusb_control_release f (pr_kernel p)) as [[r k]|] eqn:E; [ | done].
  exists k. split_and!; [ | | by eapply release_closes].
  - unfold sys_close, bind, gets, in_kernel. rewrite Hfd. cbn. by rewrite E.
  - apply rtc_once. apply (step_call _ _ (CallRelease f)); [by exists fv | ].
    cbn. unfold no_result, bind. by rewrite E.
Qed.

(** ** Library functions *)

Definition handle_ok p (handle : option handle_ptr) : Prop :=
  match handle with Some h => is_Some (pr_handles p !! h) | None => True end.

(** The descriptor of a handle, or -EINVAL. *)
Definition handle_descriptor p (handle : option handle_ptr) : result Z :=
  match handle with
  | None => Err (- EINVAL)
  | Some h => match pr_handles p !! h with Some hv => Ok (hd_fd hv) | None => Err 0 end
  end.

Lemma handle_fd_eq p handle : process_ok p -> handle_ok p handle ->
  handle_fd handle p = Some (handle_descriptor p handle, p).
Proof.
  intros Hp Hh. destruct handle as [h|]; [ | done]. destruct Hh as [hv Hv].
  unfold handle_fd, handle_descriptor, bind, load. rewrite Hv.
  destruct (po_handles _ Hp h hv Hv) as [Hpos _]. by rewrite (proj2 (Z.ltb_ge _ _) Hpos).
Qed.
Lemma handle_descriptor_open p handle fd : process_ok p -> handle_descriptor p handle = Ok fd ->
  is_Some (pr_fds p !! fd).
Proof.
  unfold handle_descriptor. intros Hp. destruct handle as [h|]; [ | done].
  destruct (pr_handles p !! h) as [hv|] eqn:Hv; [ | done]. intros [= <-]. by apply (po_handles _ Hp h hv).
Qed.
Lemma handle_descriptor_err p handle e : handle_ok p handle -> handle_descriptor p handle = Err e ->
  handle = None /\ e = - EINVAL.
Proof.
  unfold handle_descriptor. destruct handle as [h|]; [ | by intros _ [= <-]]. intros [hv Hv]. by rewrite Hv.
Qed.

(** The integer result of a library function. *)
Definition int_result p (r : Z) p' : Prop :=
  r <= 0 /\ same_tables p p' /\ pr_output p' = pr_output p.

(** An ioctl and the conversion of its result. *)
Lemma request_runs {B} p handle command q env (k : Z -> option reply -> U B) (bad : Z -> U B)
    (Q : B -> process -> Prop) :
  NoDup (commands enc) -> process_ok p -> handle_ok p handle -> request_wf q -> ioctl_env_wf (pr_kernel p) env ->
  (forall fd, handle_descriptor p handle = Ok fd -> fetch_ok p fd command env) ->
  (forall e, e < 0 -> runs enc F (bad e) p Q) ->
  (forall fd r w p', handle_descriptor p handle = Ok fd -> process_ok p' ->
     ioctl_outcome p fd command q env (r, w) p' -> runs enc F (k r w) p' Q) ->
  runs enc F (fd <- handle_fd handle ;;
        match fd with Err e => bad e | Ok fd => both r, w <- sys_ioctl enc fd command q env ;; k r w end) p Q.
Proof.
  intros Hn Hp Hh Hq Henv Hnb Hbad Hk. unfold runs at 1, bind at 1. rewrite (handle_fd_eq p handle Hp Hh).
  destruct (handle_descriptor p handle) as [fd|e] eqn:Ed.
  - apply runs_bind. eapply runs_mono; [apply sys_ioctl_runs; try done | intros [r w]; eauto].
    + by eapply handle_descriptor_open.
    + by apply Hnb.
  - apply Hbad. destruct (handle_descriptor_err p handle e Hh Ed) as [_ ->]. done.
Qed.

Lemma or_errno_runs p0 p fd command q env r w :
  process_ok p -> ioctl_outcome p0 fd command q env (r, w) p -> runs enc F (or_errno r) p (int_result p0).
Proof.
  intros Hp Ho. pose proof (outcome_errno _ _ _ _ _ _ _ Ho) as He. destruct Ho as (Hs & Hout & _).
  unfold or_errno. cbn in He. destruct (r <? 0) eqn:Hx.
  - apply runs_bind, runs_gets; [done | ]. apply runs_ret; [done | ]. specialize (He eq_refl).
    split; [lia | done].
  - apply runs_ret; [done | ]. by split.
Qed.

Lemma simple_request_runs p handle command q env : NoDup (commands enc) -> process_ok p -> handle_ok p handle ->
  request_wf q -> ioctl_env_wf (pr_kernel p) env -> command <> VIRTUSB_IOCTL_TRANSFER_FETCH enc ->
  runs enc F (simple_request enc handle command q env) p (int_result p).
Proof.
  intros Hn Hp Hh Hq Henv Hc. unfold simple_request.
  apply (request_runs p handle command q env (fun r _ => or_errno r) ret); try done.
  - by intros fd _ E.
  - intros e He. apply runs_ret; [done | ]. split_and!; [lia | done..].
  - intros fd r w p' _ Hp' Ho. by eapply or_errno_runs.
Qed.

(** *** virtusb_open and virtusb_close *)

Lemma device_node_length instance : in_width 32 instance ->
  Z.of_nat (strlen (device_node instance)) < VIRTUSB_DEVICE_PATH_MAX.
Proof.
  intros Hi. unfold device_node, VIRTUSB_DEVICE_PATH_MAX. rewrite strlen_app.
  pose proof (format_u_length instance Hi). change (strlen "/dev/virtusb") with 12%nat. lia.
Qed.
Lemma device_node_fits instance : in_width 32 instance ->
  snprintf VIRTUSB_DEVICE_PATH_MAX (device_node instance) =
    (device_node instance, Z.of_nat (strlen (device_node instance))) /\
  too_long (Z.of_nat (strlen (device_node instance))) VIRTUSB_DEVICE_PATH_MAX = false.
Proof.
  intros Hi. pose proof (device_node_length instance Hi). split; [by apply snprintf_fits | ].
  unfold too_long. apply orb_false_iff. split; [apply Z.ltb_ge | apply Z.leb_gt]; lia.
Qed.

(** What [virtusb_open] does in a 32-bit instance number. *)
Definition open_outcome p (instance : Z) (env : open_env) (x : Z * option handle_ptr) p' : Prop :=
  pr_output p' = pr_output p /\
  ((x.1 < 0 /\ x.2 = None /\ same_tables p p') \/
   (exists h c, x = (0, Some h) /\ oe_handle env = Some h /\ oe_error env = None /\
      find_node (pr_kernel p) (device_node instance) = Some c /\
      pr_fds p' = <[oe_fd env := oe_file env]> (pr_fds p) /\
      pr_handles p' = <[h := mk_handle (oe_fd env) instance (device_node instance)]> (pr_handles p) /\
      pr_kernel p' = put_file (oe_file env) (file_on c) (pr_kernel p))).

(** The result of [open] by its sign. *)
Lemma open_result_cases p path env fd p' : open_env_wf p env -> (fd, p') = open_result p path env ->
  pr_output p' = pr_output p /\ pr_handles p' = pr_handles p /\
  ((fd = -1 /\ pr_fds p' = pr_fds p /\ 0 < pr_errno p') \/
   (fd = oe_fd env /\ exists c, oe_error env = None /\ find_node (pr_kernel p) path = Some c /\
      p' = set_pr_fds (<[oe_fd env := oe_file env]> (pr_fds p))
             (set_pr_kernel (put_file (oe_file env) (file_on c) (pr_kernel p)) p))).
Proof.
  intros [He _ _ _ _ _]. unfold open_result.
  destruct (oe_error env) as [e|]; [intros [= -> ->]; split_and!; [done.. | left; split_and!; [done | done | by apply He]] | ].
  destruct (find_node _ path) as [c|]; [ | intros [= -> ->]; split_and!; [done.. | by left]].
  destruct (oe_oom env); intros [= -> ->]; (split_and!; [done.. | ]); [by left | right].
  split; [done | ]. by exists c.
Qed.

(** Closing a descriptor that no handle owns. *)
Lemma close_runs p fd : process_ok p -> is_Some (pr_fds p !! fd) ->
  (forall h hv, pr_handles p !! h = Some hv -> hd_fd hv <> fd) ->
  runs enc ∅ (sys_close fd) p (fun _ p' => pr_fds p' = delete fd (pr_fds p) /\
    pr_handles p' = pr_handles p /\ pr_output p' = pr_output p /\
    forall f, pr_fds p !! fd = Some f -> file_data (pr_kernel p') f = None).
Proof.
  intros Hp [f Hf] Hno. destruct (sys_close_eq p fd f Hp Hf) as (k & E & Hr & Hcl).
  exists 0, (set_pr_kernel k (set_pr_fds (delete fd (pr_fds p)) p)).
  split_and!; [done | | by apply file_reach_empty | done | done | done | by intros f' [= <-]%(eq_trans (eq_sym Hf))].
  destruct (process_ok_step enc p (set_pr_kernel k p) Hp) as [Hm Ht Hfl Hh Hd]; [done | done | ].
  split; cbn in *; try done.
  - intros fd' f'. rewrite lookup_delete_Some. intros [_ Hl]. by eapply Hfl.
  - intros h hv Hl. destruct (Hh h hv Hl) as [? [f' Hf']]. split; [done | ]. exists f'.
    apply lookup_delete_Some. split; [ | done]. intros E'. by apply (Hno h hv Hl).
Qed.

Lemma virtusb_open_runs p instance env : process_ok p -> open_env_wf p env -> in_width 32 instance ->
  runs enc ∅ (virtusb_open instance true env) p (open_outcome p instance env).
Proof.
  intros Hp Hw Hi. destruct (device_node_fits instance Hi) as [Esn Elong].
  unfold virtusb_open. cbn [negb]. fold (device_node instance). rewrite Esn, Elong.
  apply runs_bind. eapply runs_mono; [by apply sys_open_runs | ]. intros fd p1 Hp1 Er.
  destruct (open_result_cases _ _ _ _ _ Hw Er) as (Hout & Hhan & [(-> & Hfds & He)|(-> & c & Hne & Hc & Ep)]).
  { apply runs_bind, runs_gets; [done | ]. apply runs_ret; [done | ]. split; [done | left]. cbn. split_and!; [lia | done | done]. }
  destruct (Z.ltb_spec (oe_fd env) 0) as [Hneg|Hpos]; [pose proof (ow_fd _ _ Hw); lia | ].
  assert (Hfree : forall h hv, pr_handles p1 !! h = Some hv -> hd_fd hv <> oe_fd env).
  { intros h hv. rewrite Hhan. intros Hl E. destruct (po_handles _ Hp h hv Hl) as [_ Hs].
    rewrite E, (ow_fd_new _ _ Hw) in Hs. by destruct Hs. }
  destruct (oe_handle env) as [h|] eqn:Eh.
  - rewrite Esn, Elong. exists (0, Some h), (set_pr_handles (<[h := mk_handle (oe_fd env) instance (device_node instance)]> (pr_handles p1)) p1).
    assert (Hnew : pr_handles p1 !! h = None) by (rewrite Hhan; by apply (ow_handle _ _ Hw)).
    split_and!; [unfold bind, alloc; by rewrite Hnew | | done | ].
    + destruct Hp1 as [? ? ? Hh Hd]. split; try done; cbn.
      * intros h' hv. rewrite lookup_insert_Some. intros [[<- <-]|[_ Hl]]; [ | by eapply Hh].
        split; [done | ]. rewrite Ep. cbn. rewrite lookup_insert_eq. by eexists.
      * intros a b hva hvb. rewrite !lookup_insert_Some.
        intros [[<- <-]|[_ Ha]] [[<- <-]|[_ Hb]] E; cbn in E; [done | | | by eapply Hd].
        -- destruct (Hfree b hvb Hb). done.
        -- by destruct (Hfree a hva Ha).
    + split; [done | right]. exists h, c. split_and!; [done.. | | | ]; subst p1; done.
  - apply runs_bind, runs_modify; [by apply process_set_errno | done | ].
    apply runs_bind, runs_gets; [by apply process_set_errno | ]. apply runs_bind.
    eapply runs_mono; [apply close_runs; [by apply process_set_errno | | done] | ].
    + cbn. rewrite Ep. cbn. rewrite lookup_insert_eq. by eexists.
    + intros _ p2 Hp2 (E1 & E2 & E3 & _). apply runs_ret; [done | ]. split; [by rewrite E3 | left].
      split_and!; [ | done | split].
      * cbn. pose proof (ow_errno _ _ Hw). destruct (Z.eqb_spec (oe_calloc_errno env) 0); unfold ENOMEM; lia.
      * rewrite E1, Ep. cbn. by rewrite delete_insert_id by apply (ow_fd_new _ _ Hw).
      * by rewrite E2.
Qed.

Lemma virtusb_close_runs p handle : process_ok p -> handle_ok p handle ->
  runs enc ∅ (virtusb_close handle) p (fun _ p' => pr_output p' = pr_output p /\
    match handle with
    | None => p' = p
    | Some h => pr_handles p' = delete h (pr_handles p) /\
        exists hv f, pr_handles p !! h = Some hv /\ pr_fds p !! hd_fd hv = Some f /\
          pr_fds p' = delete (hd_fd hv) (pr_fds p) /\ file_data (pr_kernel p') f = None
    end).
Proof.
  intros Hp Hh. destruct handle as [h|]; [ | by apply runs_ret]. destruct Hh as [hv Hv].
  destruct (po_handles _ Hp h hv Hv) as [Hpos [f Hf]].
  destruct (sys_close_eq p (hd_fd hv) f Hp Hf) as (k & E & Hr & Hcl).
  exists tt, (set_pr_handles (delete h (pr_handles p)) (set_pr_kernel k (set_pr_fds (delete (hd_fd hv) (pr_fds p)) p))).
  split_and!; [ | | by apply file_reach_empty | done | done | by exists hv, f].
  - unfold virtusb_close, bind, load, free. rewrite Hv, (proj2 (Z.leb_le _ _) Hpos), E. cbn. by rewrite Hv.
  - destruct (process_ok_step enc p (set_pr_kernel k p) Hp) as [Hm Ht Hfl Hh Hd]; [done | done | ].
    split; cbn in *; try done.
    + intros fd f'. rewrite lookup_delete_Some. intros [_ Hl]. by eapply Hfl.
    + intros h' hv'. rewrite lookup_delete_Some. intros [Hne Hl]. destruct (Hh h' hv' Hl) as [? [f' Hf']].
      split; [done | ]. exists f'. apply lookup_delete_Some. split; [ | done]. intros E'.
      by apply Hne, (Hd h h' hv hv').
    + intros a b hva hvb. rewrite !lookup_delete_Some. intros [_ Ha] [_ Hb]. by eapply Hd.
Qed.

(** *** virtusb_get_port_status *)

Lemma copy_ports_lookup fuel : forall n m source ports, (n <= m <= 31)%nat -> length source = 31%nat ->
  length ports = 31%nat -> (m - n < fuel)%nat ->
  exists l, copy_ports fuel (Z.of_nat n) (Z.of_nat m) source ports = Some l /\ length l = 31%nat /\
    forall j, l !! j = if decide (n <= j < m)%nat then virtusb_state_from_uapi <$> source !! j else ports !! j.
Proof.
  induction fuel as [|fuel IH]; intros n m source ports Hnm Hs Hp Hf; [lia | ]. cbn [copy_ports].
  destruct (decide (n = m)) as [->|Hne].
  { rewrite (proj2 (Z.ltb_ge _ _)) by lia. exists ports. split_and!; [done.. | ]. intros j.
    by destruct (decide _); [lia | ]. }
  rewrite !(proj2 (Z.ltb_lt _ _)) by (unfold VIRTUSB_MAX_PORTS; lia). cbn [andb]. rewrite Nat2Z.id.
  destruct (lookup_lt_is_Some_2 source n) as [x Hx]; [lia | ].
  destruct (lookup_lt_is_Some_2 ports n) as [y Hy]; [lia | ]. rewrite Hx, Hy.
  replace (Z.of_nat n + 1) with (Z.of_nat (S n)) by lia.
  destruct (IH (S n) m source (<[n := virtusb_state_from_uapi x]> ports)) as (l & E & Hl & Hlk); [lia | done | | lia | ].
  { by rewrite length_insert. }
  exists l. split_and!; [done.. | ]. intros j. rewrite Hlk. destruct (decide (j = n)) as [->|Hj].
  - destruct (decide _); [lia | ]. destruct (decide _); [ | lia]. rewrite Hx, list_lookup_insert_eq; [done | lia].
  - rewrite list_lookup_insert_ne by done. by repeat destruct (decide _); try lia.
Qed.

(** The status that the library makes of a reply. *)
Definition port_states_of (r : virtusb_port_status) : list virtusb_state :=
  if ps_port r =? 0
  then map virtusb_state_from_uapi (take (Z.to_nat (ps_port_count r)) (ps_ports r)) ++
       replicate (Z.to_nat (VIRTUSB_MAX_PORTS - ps_port_count r)) zero_state
  else zero_states.
Definition status_of (r : virtusb_port_status) : virtusb_status :=
  mk_status (ps_hub_id r) (ps_port r) (ps_port_count r) (virtusb_state_from_uapi (ps_state r))
    (port_states_of r).

Lemma copy_ports_eq r : 0 <= ps_port_count r <= 31 -> length (ps_ports r) = 31%nat -> ps_port r = 0 ->
  copy_ports (S (Z.to_nat VIRTUSB_MAX_PORTS)) 0 (ps_port_count r) (ps_ports r) zero_states = Some (port_states_of r).
Proof.
  intros Hc Hl H0. unfold port_states_of. rewrite H0. cbn [Z.eqb]. set (m := Z.to_nat (ps_port_count r)).
  replace (VIRTUSB_MAX_PORTS - ps_port_count r) with (31 - ps_port_count r) by done.
  change (Z.to_nat VIRTUSB_MAX_PORTS) with 31%nat. change 0 with (Z.of_nat 0).
  replace (ps_port_count r) with (Z.of_nat m) by lia.
  destruct (copy_ports_lookup 32 0 m (ps_ports r) zero_states) as (l & E & Hl' & Hlk); [lia | done | done | lia | ].
  rewrite E. f_equal. apply list_eq. intros j. rewrite Hlk.
  assert (Hmap : length (map virtusb_state_from_uapi (take m (ps_ports r))) = m).
  { rewrite length_map, length_take. lia. }
  destruct (decide (0 <= j < m)%nat) as [Hj|Hj].
  - rewrite lookup_app_l by lia. rewrite (list_lookup_fmap virtusb_state_from_uapi).
    by rewrite lookup_take_lt by lia.
  - rewrite lookup_app_r, Hmap by lia. unfold zero_states. change (Z.to_nat VIRTUSB_MAX_PORTS) with 31%nat.
    destruct (decide (j < 31)%nat).
    + rewrite !lookup_replicate_2 by lia. done.
    + by rewrite !lookup_ge_None_2 by (rewrite length_replicate; lia).
Qed.

(** The reply of the driver on an active file. *)
Lemma ioctl_port_status_reply p f fv request env r w k :
  process_ok p -> k_files (pr_kernel p) !! f = Some fv -> 0 <= ps_port request ->
  virtusb_control_ioctl enc f (VIRTUSB_IOCTL_GET_PORT_STATUS enc)
    (user_memory (ReqPortStatus request) (ie_oom env)) env (pr_kernel p) = Some ((r, w), k) ->
  k = pr_kernel p /\
  ((r < 0 /\ w = None) \/
   exists c v hv, file_control (pr_kernel p) fv = Some c /\ k_hcds k !! c = Some v /\ k_hubs k !! c = Some hv /\
     ps_hub_id request = 0 /\ ps_port request <= hub_port_count hv /\ r = 0 /\
     w = Some (ReplyPortStatus (port_status_reply k c hv request))).
Proof.
  intros Hp Hf Hpos. unfold virtusb_control_ioctl. unfold bind at 1.
  rewrite (active_control_eq _ (po_kernel _ Hp) f fv Hf).
  destruct (file_control (pr_kernel p) fv) as [c|] eqn:Hc; [ | intros [= <- <- <-]; split; [done | left; done]].
  destruct (file_control_facts _ (po_kernel _ Hp) f fv Hf c Hc) as (v & hv & Hv & Hct & Hh).
  rewrite Z.eqb_refl, (get_port_status_result _ (po_kernel _ Hp) c v Hv Hct hv Hh _ request) by done.
  cbn [us_copy_out user_memory]. destruct (Z.eqb_spec (ps_hub_id request) VIRTUSB_ROOT_HUB_ID) as [E|].
  - destruct (Z.ltb_spec (hub_port_count hv) (ps_port request)); intros [= <- <- <-]; (split; [done | ]); [by left | right].
    by exists c, v, hv.
  - intros [= <- <- <-]. split; [done | by left].
Qed.

Lemma reply_length k c hv request : module_ok k -> k_hubs k !! c = Some hv ->
  1 <= hub_port_count hv <= 31 /\ length (ps_ports (port_status_reply k c hv request)) = 31%nat.
Proof.
  intros Hm Hh. destruct (hub_wf_here k (module_bus _ _ _ Hm) c hv Hh) as [Hcount _ _ _ _ _].
  unfold VIRTUSB_MAX_HUB_PORTS in Hcount. split; [done | ]. unfold port_status_reply, all_port_states. cbn.
  destruct (_ =? 0); [ | by rewrite length_replicate].
  rewrite length_app, length_map, length_seqZ, length_replicate. unfold VIRTUSB_MAX_HUB_PORTS. lia.
Qed.

(** The status of the hub behind a descriptor. *)
Definition port_status_outcome p handle hub_id port (x : Z * option virtusb_status) p' : Prop :=
  same_tables p p' /\ pr_output p' = pr_output p /\ pr_kernel p' = pr_kernel p /\
  ((x.1 < 0 /\ x.2 = None) \/
   exists fd f fv c hv, handle_descriptor p handle = Ok fd /\ pr_fds p !! fd = Some f /\
     k_files (pr_kernel p) !! f = Some fv /\ file_control (pr_kernel p) fv = Some c /\
     k_hubs (pr_kernel p) !! c = Some hv /\ hub_id = 0 /\ port <= hub_port_count hv /\ x.1 = 0 /\
     x.2 = Some (status_of (port_status_reply (pr_kernel p) c hv
                   (mk_port_status hub_id port 0 zero_port_state
                      (replicate (Z.to_nat VIRTUSB_MAX_HUB_PORTS) zero_port_state))))).

Lemma get_port_status_runs p handle hub_id port env : NoDup (commands enc) -> process_ok p ->
  handle_ok p handle -> 0 <= port -> ioctl_env_wf (pr_kernel p) env ->
  runs enc F (virtusb_get_port_status enc handle hub_id port true env) p (port_status_outcome p handle hub_id port).
Proof.
  intros Henc Hp Hh Hport Henv. unfold virtusb_get_port_status. cbn [negb].
  set (request := mk_port_status hub_id port 0 zero_port_state _).
  apply (request_runs p handle (VIRTUSB_IOCTL_GET_PORT_STATUS enc) (ReqPortStatus request) env); try done.
  - split; intros r [= <-]. done.
  - intros fd _ E. exfalso. revert E. apply NoDup_cons in Henc as [Hn _]. rewrite !not_elem_of_cons in Hn. tauto.
  - intros e He. apply runs_ret; [done | ]. split_and!; [done.. | by left].
  - intros fd r w p' Hfd Hp' Ho. pose proof (outcome_errno _ _ _ _ _ _ _ Ho) as He.
    destruct Ho as (Hs & Hout & f & r0 & k & Hf & E & Hk & Hr). cbn in E, Hr, He.
    destruct (po_files _ Hp fd f Hf) as [fv Hfv].
    destruct (ioctl_port_status_reply p f fv request env r0 w k Hp Hfv Hport E) as [-> Hcase].
    destruct Hcase as [[Hneg ->]|(c & v & hv & Hc & _ & Hhv & Hid & Hle & -> & ->)].
    + destruct (r0 <? 0) eqn:Hlt; [ | apply Z.ltb_ge in Hlt; lia]. destruct Hr as [-> _]. cbn [Z.ltb Z.compare].
      apply runs_bind, runs_gets; [done | ]. apply runs_ret; [done | ]. specialize (He eq_refl).
      split_and!; [done.. | left]. split; [cbn; lia | done].
    + destruct Hr as [-> _]. cbn [Z.ltb Z.compare].
      destruct (reply_length (pr_kernel p) c hv request (po_kernel _ Hp) Hhv) as [Hcount Hlen].
      set (reply := port_status_reply _ c hv request) in *.
      assert (Hcr : ps_port_count reply = hub_port_count hv) by done.
      assert (Hst : status_of reply = mk_status (ps_hub_id reply) (ps_port reply) (ps_port_count reply)
        (virtusb_state_from_uapi (ps_state reply)) (port_states_of reply)) by done.
      assert (Hres : port_status_outcome p handle hub_id port (0, Some (status_of reply)) p').
      { split_and!; [done.. | right]. exists fd, f, fv, c, hv. by split_and!. }
      destruct (Z.eqb_spec (ps_port reply) 0) as [E0|E0].
      * rewrite copy_ports_eq by (done || lia). by apply runs_ret.
      * apply runs_ret; [done | ]. rewrite Hst in Hres. unfold port_states_of in Hres.
        by rewrite (proj2 (Z.eqb_neq _ _) E0) in Hres.
Qed.

(** *** The other requests *)

Lemma device_create_runs p handle caps env : NoDup (commands enc) -> process_ok p -> handle_ok p handle ->
  in_width 32 caps -> ioctl_env_wf (pr_kernel p) env ->
  runs enc F (virtusb_device_create enc handle caps true env) p (fun x p' => int_result p x.1 p' /\
    (x.1 = 0 <-> is_Some x.2)).
Proof.
  intros Henc Hp Hh Hcaps Henv. unfold virtusb_device_create. cbn [negb].
  apply (request_runs p handle (VIRTUSB_IOCTL_DEVICE_CREATE enc)
    (ReqDeviceCreate (mk_device_create_req caps 0)) env); try done.
  - by split; intros r [= <-].
  - intros fd _ E. exfalso. revert E. apply NoDup_cons in Henc as [_ Henc]. apply NoDup_cons in Henc as [Hn _].
    rewrite !not_elem_of_cons in Hn. tauto.
  - intros e He. apply runs_ret; [done | ]. split; [split_and!; cbn; [lia | done..] | ].
    cbn. split; [lia | by intros [? ?]].
  - intros fd r w p' Hfd Hp' Ho. pose proof (outcome_errno _ _ _ _ _ _ _ Ho) as He.
    destruct Ho as (Hs & Hout & _). cbn in He. destruct (r <? 0).
    + apply runs_bind, runs_gets; [done | ]. apply runs_ret; [done | ]. specialize (He eq_refl).
      split; [split_and!; cbn; [lia | done..] | ]. cbn. split; [lia | by intros [? ?]].
    + apply runs_ret; [done | ]. split; [by split_and! | ]. cbn. split; [by eexists | done].
Qed.

Lemma transfer_fetch_runs p handle env : NoDup (commands enc) -> process_ok p -> handle_ok p handle ->
  ioctl_env_wf (pr_kernel p) env ->
  (forall fd, handle_descriptor p handle = Ok fd -> fetch_ok p fd (VIRTUSB_IOCTL_TRANSFER_FETCH enc) env) ->
  runs enc F (virtusb_transfer_fetch enc handle true env) p (fun x p' => int_result p x.1 p').
Proof.
  intros Hn Hp Hh Henv Hnb. unfold virtusb_transfer_fetch. cbn [negb].
  apply (request_runs p handle (VIRTUSB_IOCTL_TRANSFER_FETCH enc) ReqTransferFetch env); try done.
  - intros e He. apply runs_ret; [done | ]. split_and!; cbn; [lia | done..].
  - intros fd r w p' Hfd Hp' Ho. pose proof (outcome_errno _ _ _ _ _ _ _ Ho) as He.
    destruct Ho as (Hs & Hout & _). cbn in He. destruct (r <? 0).
    + apply runs_bind, runs_gets; [done | ]. apply runs_ret; [done | ]. specialize (He eq_refl).
      split_and!; cbn; [lia | done..].
    + apply runs_ret; [done | ]. by split_and!.
Qed.

(** The block at [data] is as long as the caller says. *)
Definition data_ok (data : option (list Z)) (actual_length : Z) : Prop :=
  forall bytes, data = Some bytes -> actual_length <= Z.of_nat (length bytes).

Lemma completion_data_eq data n : in_width 32 n -> n <= VIRTUSB_TRANSFER_DATA_MAX ->
  (0 < n -> data <> None) -> data_ok data n ->
  exists bytes, completion_data data n = Some bytes /\
    Z.of_nat (length bytes) = VIRTUSB_TRANSFER_DATA_MAX /\
    forall block, data = Some block -> take (Z.to_nat n) bytes = take (Z.to_nat n) block.
Proof.
  intros Hn Hmax Hnull Hd. unfold completion_data, VIRTUSB_TRANSFER_DATA_MAX, in_width in *.
  destruct (Z.leb_spec n 0).
  { eexists. split; [done | ]. rewrite length_replicate. split; [lia | ]. intros block _.
    by replace (Z.to_nat n) with 0%nat by lia. }
  destruct data as [block|]; [ | by destruct Hnull]. specialize (Hd block eq_refl).
  rewrite (proj2 (Z.ltb_ge _ _)) by done. eexists. split; [done | ].
  rewrite length_app, length_take, length_replicate. split; [lia | ]. intros b [= <-].
  rewrite take_app_le by (rewrite length_take; lia). by rewrite take_take, Nat.min_id.
Qed.

Lemma transfer_complete_runs p handle id status data n env : NoDup (commands enc) -> process_ok p ->
  handle_ok p handle -> in_width 32 n -> data_ok data n -> ioctl_env_wf (pr_kernel p) env ->
  runs enc F (virtusb_transfer_complete enc handle id status data n env) p (int_result p).
Proof.
  intros Henc Hp Hh Hn Hd Henv. unfold virtusb_transfer_complete.
  assert (Herr : forall e, e < 0 -> runs enc F (ret e) p (int_result p)).
  { intros e He. apply runs_ret; [done | ]. split_and!; [lia | done..]. }
  destruct ((_ <? n) || _) eqn:Ebad.
  - unfold runs at 1, bind at 1. rewrite (handle_fd_eq p handle Hp Hh).
    destruct (handle_descriptor p handle) as [fd|e] eqn:Ed; [by apply Herr | ].
    destruct (handle_descriptor_err p handle e Hh Ed) as [_ ->]. by apply Herr.
  - apply orb_false_iff in Ebad as [Hmax Hnull]. apply Z.ltb_ge in Hmax.
    destruct (completion_data_eq data n Hn Hmax) as (bytes & -> & Hlen & _); [ | done | ].
    { intros H0 ->. rewrite (proj2 (Z.ltb_lt _ _) H0) in Hnull. done. }
    apply (request_runs p handle (VIRTUSB_IOCTL_TRANSFER_COMPLETE enc)
      (ReqTransferComplete (mk_transfer_complete_request id status n bytes)) env (fun r _ => or_errno r) ret); try done.
    + split; intros r [= <-]. by split.
    + intros fd _ E. do 9 apply NoDup_cons in Henc as [_ Henc].
      apply NoDup_cons in Henc as [Hnin _]. exfalso. apply Hnin. rewrite <- E. by left.
    + intros fd r w p' _ Hp' Ho. by eapply or_errno_runs.
Qed.
End spec.
