(* ===== verification/LibProps.v ===== *)
(** * Properties of libvirtusb *)

From S2P Require Import Prelude Uapi Kernel Port Hub Object Device Transfer Backend BackendInv BackendOps Hcd HcdSpec UrbSpec Control ControlSpec ModuleSpec Config Linux Platform LifeSpec PlatformSpec InitSpec LoadSpec Scenario PlatformProps Text Lib LibSpec.

(** ** Runs of a program that uses the library *)

Inductive lib_call :=
  | LibOpen (instance : Z) (out : bool) (env : open_env)
  | LibClose (handle : option handle_ptr)
  | LibGetDevicePath (handle : option handle_ptr)
  | LibGetPortStatus (handle : option handle_ptr) (hub_id port : Z) (out : bool) (env : ioctl_env)
  | LibDeviceCreate (handle : option handle_ptr) (speed_caps : Z) (out : bool) (env : ioctl_env)
  | LibDeviceDestroy (handle : option handle_ptr) (object_id : Z) (force : bool) (env : ioctl_env)
  | LibDeviceAttach (handle : option handle_ptr) (object_id hub_id port : Z) (env : ioctl_env)
  | LibDeviceDetach (handle : option handle_ptr) (object_id : Z) (env : ioctl_env)
  | LibSetConnected (handle : option handle_ptr) (object_id : Z) (connected : bool) (env : ioctl_env)
  | LibSetPortPower (handle : option handle_ptr) (hub_id port : Z) (powered : bool) (env : ioctl_env)
  | LibBackendRegister (handle : option handle_ptr) (object_id : Z) (env : ioctl_env)
  | LibBackendUnregister (handle : option handle_ptr) (env : ioctl_env)
  | LibTransferFetch (handle : option handle_ptr) (out : bool) (env : ioctl_env)
  | LibTransferComplete (handle : option handle_ptr) (transfer_id status : Z) (data : option (list Z))
      (actual_length : Z) (env : ioctl_env).

Definition first_result {A} (m : U (Z * A)) : U Z := both r, _ <- m ;; ret r.
Definition run_lib (enc : ioctl_encoding) (c : lib_call) : U Z :=
  match c with
  | LibOpen instance out env => first_result (virtusb_open instance out env)
  | LibClose h => virtusb_close h ;; ret 0
  | LibGetDevicePath h => _ <- virtusb_get_device_path h ;; ret 0
  | LibGetPortStatus h hub_id port out env => first_result (virtusb_get_port_status enc h hub_id port out env)
  | LibDeviceCreate h caps out env => first_result (virtusb_device_create enc h caps out env)
  | LibDeviceDestroy h id force env => virtusb_device_destroy enc h id force env
  | LibDeviceAttach h id hub_id port env => virtusb_device_attach enc h id hub_id port env
  | LibDeviceDetach h id env => virtusb_device_detach enc h id env
  | LibSetConnected h id connected env => virtusb_device_set_connected enc h id connected env
  | LibSetPortPower h hub_id port powered env => virtusb_set_port_power enc h hub_id port powered env
  | LibBackendRegister h id env => virtusb_backend_register enc h id env
  | LibBackendUnregister h env => virtusb_backend_unregister enc h env
  | LibTransferFetch h out env => first_result (virtusb_transfer_fetch enc h out env)
  | LibTransferComplete h id status data n env => virtusb_transfer_complete enc h id status data n env
  end.

Definition handle_of (c : lib_call) : option handle_ptr :=
  match c with
  | LibOpen _ _ _ => None
  | LibClose h | LibGetDevicePath h | LibGetPortStatus h _ _ _ _ | LibDeviceCreate h _ _ _
  | LibDeviceDestroy h _ _ _ | LibDeviceAttach h _ _ _ _ | LibDeviceDetach h _ _
  | LibSetConnected h _ _ _ | LibSetPortPower h _ _ _ _ | LibBackendRegister h _ _
  | LibBackendUnregister h _ | LibTransferFetch h _ _ | LibTransferComplete h _ _ _ _ _ => h
  end.
Definition env_of (c : lib_call) : option ioctl_env :=
  match c with
  | LibOpen _ _ _ | LibClose _ | LibGetDevicePath _ => None
  | LibGetPortStatus _ _ _ _ e | LibDeviceCreate _ _ _ e | LibDeviceDestroy _ _ _ e
  | LibDeviceAttach _ _ _ _ e | LibDeviceDetach _ _ e | LibSetConnected _ _ _ e
  | LibSetPortPower _ _ _ _ e | LibBackendRegister _ _ e | LibBackendUnregister _ e
  | LibTransferFetch _ _ e | LibTransferComplete _ _ _ _ _ e => Some e
  end.

(** What a correct program and the system guarantee: the handle is NULL or was
    opened and not closed, numbers are in the range of their C type, a data
    block is as long as the caller says, new memory, files and descriptors are
    unused.  What happens while a fetch sleeps is a run of the module that does
    not reopen or close its file, and a signal would end the sleep. *)
Definition lib_allowed (enc : ioctl_encoding) p (c : lib_call) : Prop :=
  handle_ok p (handle_of c) /\ (forall e, env_of c = Some e -> ioctl_env_wf (pr_kernel p) e) /\
  match c with
  | LibOpen instance _ env => in_width 32 instance /\ open_env_wf p env
  | LibGetPortStatus _ _ port _ _ => 0 <= port
  | LibDeviceCreate _ caps _ _ => in_width 32 caps
  | LibTransferFetch h _ env => forall fd, handle_descriptor p h = Ok fd ->
      fetch_ok enc ∅ p fd (VIRTUSB_IOCTL_TRANSFER_FETCH enc) env
  | LibTransferComplete _ _ _ data n _ => in_width 32 n /\ data_ok data n
  | _ => True
  end.

(** A call of the program, or a step of another one. *)
Inductive process_step (enc : ioctl_encoding) : process -> process -> Prop :=
  | step_lib p c r p' : lib_allowed enc p c -> run_lib enc c p = Some (r, p') -> process_step enc p p'
  | step_others p k : module_step enc (pr_kernel p) k -> process_step enc p (set_pr_kernel k p).

Section calls.
Context (enc : ioctl_encoding) (Henc : NoDup (commands enc)).
Implicit Types p : process.

Lemma first_result_runs {A} (m : U (Z * A)) p Q : runs enc ∅ m p (fun x p' => Q x.1 p') ->
  runs enc ∅ (first_result m) p Q.
Proof.
  intros Hm. apply runs_bind. eapply runs_mono; [exact Hm | ]. intros [r a] p' Hp' HQ. by apply runs_ret.
Qed.

(** Every command but the fetch itself. *)
Lemma not_fetch n c : commands enc !! n = Some c -> n <> 9%nat -> c <> VIRTUSB_IOCTL_TRANSFER_FETCH enc.
Proof.
  intros Hn Hne ->. apply Hne. by apply (NoDup_lookup (commands enc) n 9 (VIRTUSB_IOCTL_TRANSFER_FETCH enc)).
Qed.

Lemma simple_runs n p h c q env : commands enc !! n = Some c -> n <> 9%nat -> process_ok p -> handle_ok p h ->
  ioctl_env_wf (pr_kernel p) env -> request_wf q ->
  runs enc ∅ (simple_request enc h c q env) p (fun r _ => r <= 0).
Proof.
  intros Hn Hne Hp Hh Henv Hq. eapply runs_mono; [apply simple_request_runs; try done | ].
  - by eapply not_fetch.
  - by intros r p' _ (? & _).
Qed.

Lemma null_out {A} p : process_ok p -> runs enc ∅ (ret (- EINVAL, @None A)) p (fun x _ => x.1 <= 0).
Proof. intros Hp. by apply runs_ret. Qed.

Lemma call_runs p c : process_ok p -> lib_allowed enc p c -> runs enc ∅ (run_lib enc c) p (fun r _ => r <= 0).
Proof.
  intros Hp (Hh & Henv & Hc). destruct c; cbn in *; try (specialize (Henv _ eq_refl)).
  - destruct Hc as [Hi Hw]. apply first_result_runs. destruct out; [ | by apply null_out].
    eapply runs_mono; [by apply virtusb_open_runs | ]. intros x p' _ (_ & [(? & _)|(? & ? & -> & _)]); cbn; lia.
  - apply runs_bind. eapply runs_mono; [by apply virtusb_close_runs | ]. intros ? p' Hp' _. by apply runs_ret.
  - destruct handle as [h|]; [ | by apply runs_ret]. destruct Hh as [hv Hv].
    apply runs_bind, runs_bind. eapply runs_load_handle; [done.. | ]. by repeat apply runs_ret.
  - apply first_result_runs. destruct out; [ | by apply null_out].
    eapply runs_mono; [by apply get_port_status_runs | ].
    intros x p' _ (_ & _ & _ & [[? _]|(? & ? & ? & ? & ? & _ & _ & _ & _ & _ & _ & _ & -> & _)]); lia.
  - apply first_result_runs. destruct out; [ | by apply null_out].
    eapply runs_mono; [by apply device_create_runs | ]. by intros x p' _ ((? & _) & _).
  - by apply (simple_runs 2).
  - by apply (simple_runs 3).
  - by apply (simple_runs 4).
  - by apply (simple_runs 5).
  - by apply (simple_runs 6).
  - unfold virtusb_backend_register. destruct (_ =? _); [by apply runs_ret | by apply (simple_runs 7)].
  - by apply (simple_runs 8).
  - apply first_result_runs. destruct out; [ | by apply null_out].
    eapply runs_mono; [by apply transfer_fetch_runs | ]. by intros x p' _ (? & _).
  - destruct Hc as [Hn Hd]. eapply runs_mono; [by apply transfer_complete_runs | ]. by intros x p' _ (? & _).
Qed.

Lemma process_step_ok p p' : process_step enc p p' -> process_ok p ->
  process_ok p' /\ module_reach enc (pr_kernel p) (pr_kernel p').
Proof.
  intros [p0 c r p1 Ha E|p0 k Hs] Hp.
  - destruct (call_runs p0 c Hp Ha) as (r' & p2 & E2 & Hp2 & [Hr _] & _). rewrite E2 in E. by injection E as _ <-.
  - pose proof (rtc_once _ _ Hs) as Hr. split; [ | done]. by apply (process_ok_step enc p0).
Qed.

Lemma process_reach_ok p p' : rtc (process_step enc) p p' -> process_ok p ->
  process_ok p' /\ module_reach enc (pr_kernel p) (pr_kernel p').
Proof.
  induction 1 as [p|p1 p2 p3 Hs _ IH]; intros Hp; [by split; [ | constructor] | ].
  destruct (process_step_ok p1 p2 Hs Hp) as [Hp2 Hr]. destruct (IH Hp2) as [? Hr2].
  split; [done | by etrans].
Qed.
End calls.

(** ** A process on the concrete module *)

(** File [f1] is open as descriptor 3, owned by the handle at 1. *)
Definition shell (k : kernel) : process :=
  mk_process k {[3 := f1]} {[1%positive := mk_handle 3 0 (device_node 0)]} 0 [].

Lemma linux_commands : NoDup (commands linux).
Proof. apply (bool_decide_eq_true_1 _). vm_compute. reflexivity. Qed.

Lemma reached_configured s : reached s -> configured (module_config booted) (files_here booted) ∅ s.
Proof. intros Hr. apply (module_reach_stays linux booted s Hr). by intros o ov. Qed.

Lemma shell_ok s : reached s -> process_ok (shell s).
Proof.
  intros Hr. pose proof (reached_configured s Hr) as Hc. pose proof (cf_typed _ _ _ _ Hc) as Ht. split; cbn.
  - by apply reached_ok.
  - done.
  - intros fd f [<- <-]%lookup_singleton_Some. by apply (files_here_kept booted s f1 ∅ Hc).
  - intros h hv [_ <-]%lookup_singleton_Some. split; [done | ]. cbn. rewrite lookup_singleton_eq. by eexists.
  - by intros a b hva hvb [<- <-]%lookup_singleton_Some [<- <-]%lookup_singleton_Some.
Qed.

(** ** Refinement *)

(** C6. The library refines the module.  Whatever calls a program makes, with
    whatever other programs and the USB core do in between, its kernel only
    takes steps of the module, so that every invariant of the module holds; its
    descriptors stay open files and its handles own distinct descriptors.  And
    every next call returns, with 0 or a negative error number, in such a state
    again: no call uses a freed handle, a closed file or an element beyond an
    array. *)
Theorem library_refines_module enc p p' :
  NoDup (commands enc) -> process_ok p -> rtc (process_step enc) p p' ->
  process_ok p' /\ module_reach enc (pr_kernel p) (pr_kernel p') /\
  forall c, lib_allowed enc p' c -> exists r p'', run_lib enc c p' = Some (r, p'') /\ r <= 0 /\
    process_ok p'' /\ module_reach enc (pr_kernel p') (pr_kernel p'').
Proof.
  intros Henc Hp Hr. destruct (process_reach_ok enc Henc p p' Hr Hp) as [Hp' Hk]. split_and!; [done.. | ].
  intros c Ha. destruct (call_runs enc Henc p' c Hp' Ha) as (r & p'' & E & Hp'' & [Hr'' _] & Hle).
  by exists r, p''.
Qed.

(** Attaching the device 1 to port 1 through the library. *)
Lemma library_refines_module_witness : exists r p'',
  run_lib linux (LibDeviceAttach (Some 1%positive) 1 0 1 no_env) (shell powered) = Some (r, p'') /\ r <= 0 /\
  module_reach linux powered (pr_kernel p'').
Proof.
  destruct (library_refines_module linux (shell powered) (shell powered) linux_commands
    (shell_ok powered reach_powered) (rtc_refl _ _)) as (_ & _ & Hnext).
  destruct (Hnext (LibDeviceAttach (Some 1%positive) 1 0 1 no_env)) as (r & p'' & E & Hle & _ & Hr).
  - split; [exists (mk_handle 3 0 (device_node 0)); eval_eq | ]. split; [ | exact I].
    intros e [= <-] o Ho. discriminate Ho.
  - exists r, p''. exact (conj E (conj Hle Hr)).
Defined.

(** ** Port status *)

(** The meaning of a state for a downstream port [n] of the hub [hv] of [h]. *)
Record describes_port (k : kernel) (h : hcd_ptr) (hv : virtusb_hub) (n : Z) (st : virtusb_state) : Prop := {
  dp_connected : bit_test (vs_status st) 0 = port_connected (k_ports k) h n;
  dp_enabled : bit_test (vs_status st) 1 = Z.testbit (usb_enabled (hub_usb hv)) n;
  dp_suspended : bit_test (vs_status st) 2 = Z.testbit (usb_suspended (hub_usb hv)) n;
  dp_over_current : bit_test (vs_status st) 3 = port_over_current (k_ports k) h hv n;
  dp_reset : bit_test (vs_status st) 4 = Z.testbit (usb_reset (hub_usb hv)) n;
  dp_power : bit_test (vs_status st) 8 = port_powered (k_ports k) h n;
  dp_change : forall i, 0 <= i < 16 -> Z.testbit (vs_change st) i = change_bit hv n i;
  dp_speed : vs_speed st = match hub_speed hv n with
                           | VIRTUSB_PORT_SPEED_NONE => VIRTUSB_SPEED_NONE
                           | VIRTUSB_PORT_SPEED_LOW => VIRTUSB_SPEED_LOW
                           | VIRTUSB_PORT_SPEED_FULL => VIRTUSB_SPEED_FULL
                           | VIRTUSB_PORT_SPEED_HIGH => VIRTUSB_SPEED_HIGH
                           end;
}.

Lemma control_state_described k h hv n : bus_ok k -> k_hubs k !! h = Some hv -> 1 <= n ->
  describes_port k h hv n (virtusb_state_from_uapi (control_port_state k h hv n)).
Proof.
  intros Hok Hh Hn. unfold control_port_state. rewrite (proj2 (Z.eqb_neq n 0)) by lia.
  split; cbn -[bit_test]; try (rewrite bit_test_spec, control_status_bits by lia; done).
  - intros i Hi. by rewrite control_change_bits by lia.
  - by destruct (hub_speed hv n).
Qed.

Lemma port_states_length r : 1 <= ps_port_count r <= 31 -> length (ps_ports r) = 31%nat ->
  length (port_states_of r) = 31%nat.
Proof.
  intros Hc Hl. unfold port_states_of. destruct (_ =? 0); [ | done].
  rewrite length_app, length_map, length_take, length_replicate. unfold VIRTUSB_MAX_PORTS. lia.
Qed.

Lemma set_pr_kernel_id p : set_pr_kernel (pr_kernel p) p = p.
Proof. by destruct p. Qed.

(** C35. [virtusb_get_port_status] on a handle of an active host controller.  The
    root hub is hub 0: another hub gives -ENODEV, a port beyond the last one
    -EINVAL.  Otherwise the result is 0 and the status names the port and the
    number of ports; the state of a downstream port has the connection, enable,
    suspend, over-current, reset, power, change and speed of that port, and the
    query for port 0 returns, for every port, the state that the query for the
    port itself returns.  Nothing but errno changes. *)
Theorem virtusb_get_port_status_correct enc p h hd f fv c hv env :
  process_ok p -> pr_handles p !! h = Some hd -> pr_fds p !! hd_fd hd = Some f ->
  k_files (pr_kernel p) !! f = Some fv -> file_control (pr_kernel p) fv = Some c ->
  k_hubs (pr_kernel p) !! c = Some hv ->
  exists status : Z -> virtusb_status,
    (forall hub_id port, 0 <= port -> virtusb_get_port_status enc (Some h) hub_id port true env p = Some (
       if negb (hub_id =? 0) then ((- ENODEV, None), set_pr_errno ENODEV p)
       else if hub_port_count hv <? port then ((- EINVAL, None), set_pr_errno EINVAL p)
       else ((0, Some (status port)), p))) /\
    forall port, 0 <= port <= hub_port_count hv ->
      vt_hub_id (status port) = 0 /\ vt_port (status port) = port /\
      vt_port_count (status port) = hub_port_count hv /\ length (vt_ports (status port)) = 31%nat /\
      (1 <= port -> describes_port (pr_kernel p) c hv port (vt_state (status port)) /\
         vt_ports (status 0) !! Z.to_nat (port - 1) = Some (vt_state (status port))).
Proof.
  intros Hp Hh Hf Hfv Hc Hhv.
  set (request hub_id port := mk_port_status hub_id port 0 zero_port_state
    (replicate (Z.to_nat VIRTUSB_MAX_HUB_PORTS) zero_port_state)).
  set (reply port := port_status_reply (pr_kernel p) c hv (request 0 port)).
  exists (fun port => status_of (reply port)).
  destruct (reply_length (pr_kernel p) c hv (request 0 0) (po_kernel _ Hp) Hhv) as [Hcount _]. split.
  - intros hub_id port Hport. unfold virtusb_get_port_status. cbn [negb].
    unfold bind at 1. rewrite (handle_fd_eq p (Some h) Hp) by (by exists hd).
    cbn [handle_descriptor]. rewrite Hh. unfold bind at 1, sys_ioctl.
    unfold bind at 1, gets at 1. rewrite Hf. unfold bind at 1, in_kernel, virtusb_control_ioctl.
    unfold bind at 1. rewrite (active_control_eq _ (po_kernel _ Hp) f fv Hfv), Hc, Z.eqb_refl.
    destruct (file_control_facts _ (po_kernel _ Hp) f fv Hfv c Hc) as (v & hv' & Hv & Hct & Hhv').
    assert (hv' = hv) as -> by congruence.
    rewrite (get_port_status_result _ (po_kernel _ Hp) c v Hv Hct hv Hhv _ (request hub_id port)) by done.
    cbn [us_copy_out user_memory ps_hub_id ps_port request]. unfold VIRTUSB_ROOT_HUB_ID.
    destruct (Z.eqb_spec hub_id 0) as [->|]; cbn [negb]; [ | by vm_compute].
    destruct (Z.ltb_spec (hub_port_count hv) port) as [|Hle]; [by vm_compute | ].
    destruct (reply_length (pr_kernel p) c hv (request 0 port) (po_kernel _ Hp) Hhv) as [_ Hlen].
    change (port_status_reply (pr_kernel p) c hv (request 0 port)) with (reply port) in *.
    assert (Hcr : ps_port_count (reply port) = hub_port_count hv) by done.
    unfold ret. rewrite set_pr_kernel_id. cbn [Z.ltb Z.compare]. cbv beta iota.
    destruct (ps_port (reply port) =? 0) eqn:E0.
    + rewrite copy_ports_eq by (done || (by apply Z.eqb_eq) || lia). done.
    + unfold status_of, port_states_of. by rewrite E0.
  - intros port Hport. split_and!; [done | done | done | | ].
    + apply port_states_length; [done | ].
      apply (reply_length (pr_kernel p) c hv (request 0 port) (po_kernel _ Hp) Hhv).
    + intros H1. split; [apply control_state_described; [apply (module_bus _ _ _ (po_kernel _ Hp)) | done | done] | ].
      cbn. unfold port_states_of. cbn. rewrite lookup_app_l.
      2: { rewrite length_map, length_take. unfold all_port_states.
           rewrite length_app, length_map, length_seqZ. lia. }
      rewrite (list_lookup_fmap virtusb_state_from_uapi), lookup_take_lt by lia.
      unfold all_port_states. rewrite lookup_app_l by (rewrite length_map, length_seqZ; lia).
      rewrite (list_lookup_fmap (control_port_state (pr_kernel p) c hv)), lookup_seqZ_lt by lia.
      cbn. do 2 f_equal. f_equal. lia.
Qed.

(** The device at port 1 is seen connected at high speed. *)
Lemma virtusb_get_port_status_correct_witness : exists st,
  virtusb_get_port_status linux (Some 1%positive) 0 1 true no_env (shell reset) =
    Some ((0, Some st), shell reset) /\
  describes_port reset h1 (hub_at reset) 1 (vt_state st) /\ vs_speed (vt_state st) = VIRTUSB_SPEED_HIGH.
Proof.
  destruct (virtusb_get_port_status_correct linux (shell reset) 1%positive (mk_handle 3 0 (device_node 0)) f1
    open_file h1 (hub_at reset) no_env (shell_ok reset reach_reset) ltac:(eval_eq) ltac:(eval_eq)
    ltac:(eval_eq) ltac:(eval_eq) ltac:(eval_eq)) as (status & E & Hst).
  assert (Ec : hub_port_count (hub_at reset) = 4) by eval_eq. rewrite Ec in E, Hst.
  specialize (E 0 1 ltac:(lia)). destruct (Hst 1 ltac:(lia)) as (_ & _ & _ & _ & Hd).
  destruct (Hd ltac:(lia)) as [Hd1 _]. exists (status 1).
  assert (Es : vs_speed (vt_state (status 1)) = VIRTUSB_SPEED_HIGH).
  { rewrite (dp_speed _ _ _ _ _ Hd1). assert (Eh : hub_speed (hub_at reset) 1 = VIRTUSB_PORT_SPEED_HIGH) by eval_eq.
    rewrite Eh. exact eq_refl. }
  exact (conj E (conj Hd1 Es)).
Defined.

(** ** Opening and closing *)

(** The host controllers of a loaded module are numbered from 0. *)
Record numbered (k : kernel) (n : Z) : Prop := {
  nb_active : forall h v, k_hcds k !! h = Some v ->
    ct_hcd (vh_control v) = Some h /\ ct_active (vh_control v) = true /\ 0 <= vh_instance v < n;
  nb_all : forall i, 0 <= i < n -> exists h v, k_hcds k !! h = Some v /\ vh_instance v = i;
  nb_distinct : forall h1 h2 v1 v2, k_hcds k !! h1 = Some v1 -> k_hcds k !! h2 = Some v2 ->
    vh_instance v1 = vh_instance v2 -> h1 = h2;
}.

Section table.
Context (L : devt_macros) (base : Z).

Lemma hcd_table_lookup l : NoDup l.*2 ->
  (forall h g, hcd_table L base l !! h = Some g -> ct_hcd (hc_control g) = Some h /\
     ct_active (hc_control g) = true /\ 0 <= hc_instance g < Z.of_nat (length l)) /\
  (forall i, 0 <= i < Z.of_nat (length l) -> exists h g, hcd_table L base l !! h = Some g /\ hc_instance g = i) /\
  (forall h1 h2 g1 g2, hcd_table L base l !! h1 = Some g1 -> hcd_table L base l !! h2 = Some g2 ->
     hc_instance g1 = hc_instance g2 -> h1 = h2).
Proof.
  induction l as [|[p x] l IH]; cbn; intros Hn; [split_and!; [done | lia | done] | ].
  apply NoDup_cons in Hn as [Hx Hn]. destruct (IH Hn) as (H1 & H2 & H3). split_and!.
  - intros h g. rewrite lookup_insert_Some. intros [[<- <-]|[_ Hg]]; [cbn; split_and!; done || lia | ].
    destruct (H1 h g Hg) as (? & ? & ?). split_and!; done || lia.
  - intros i Hi. destruct (decide (i = Z.of_nat (length l))) as [->|Hne].
    + exists x. eexists. split; [apply lookup_insert_eq | done].
    + destruct (H2 i ltac:(lia)) as (h & g & Hg & E). exists h, g. split; [ | done].
      rewrite lookup_insert_ne; [done | ]. intros ->. apply Hx.
      apply (hcd_set_elem l h). rewrite <- (hcd_table_dom L base), elem_of_dom. by eexists.
  - intros h1 h2 g1 g2. rewrite !lookup_insert_Some.
    intros [[<- <-]|[_ Hg1]] [[<- <-]|[_ Hg2]]; cbn; [done | | | by apply H3].
    + intros E. destruct (H1 _ _ Hg2) as (_ & _ & ?). lia.
    + intros E. destruct (H1 _ _ Hg1) as (_ & _ & ?). lia.
Qed.

Lemma running_numbered n l s : running L base n l s -> numbered (sy_kernel s) (Z.of_nat (length l)).
Proof.
  intros Hr. pose proof (rn_loaded _ _ _ _ _ Hr) as Hl.
  destruct (hcd_table_lookup l (ld_hcd_new _ _ _ _ Hl)) as (H1 & H2 & H3).
  assert (Hlk : forall h v, k_hcds (sy_kernel s) !! h = Some v -> hcd_table L base l !! h = Some (config_of v)).
  { intros h v Hv. rewrite <- (ld_hcds _ _ _ _ Hl), lookup_fmap, Hv. done. }
  split.
  - intros h v Hv. exact (H1 h (config_of v) (Hlk h v Hv)).
  - intros i Hi. destruct (H2 i Hi) as (h & g & Hg & E).
    rewrite <- (ld_hcds _ _ _ _ Hl), lookup_fmap_Some in Hg. destruct Hg as (v & <- & Hv). by exists h, v.
  - intros h1 h2 v1 v2 Hv1 Hv2 E. exact (H3 h1 h2 _ _ (Hlk _ _ Hv1) (Hlk _ _ Hv2) E).
Qed.
End table.

Lemma device_node_inj i j : in_width 32 i -> in_width 32 j -> device_node i = device_node j -> i = j.
Proof.
  unfold in_width. intros Hi Hj E. apply app_inj in E. apply format_u_inj in E; [done | | ]; unfold ULONG_MAX; lia.
Qed.

(** A path names the host controller with the instance number. *)
Lemma find_node_numbered k n i : numbered k n -> n <= 2 ^ 32 -> in_width 32 i ->
  match find_node k (device_node i) with
  | Some c => 0 <= i < n /\ exists v, k_hcds k !! c = Some v /\ vh_instance v = i
  | None => n <= i
  end.
Proof.
  intros [Ha Hall Hd] Hn Hi. destruct (find_node k (device_node i)) as [c|] eqn:E.
  - destruct (find_node_some _ _ _ E) as (v & Hv & _ & Ep). destruct (Ha c v Hv) as (_ & _ & Hr).
    apply device_node_inj in Ep; [ | unfold in_width; lia | done]. split; [lia | by exists v].
  - destruct (Z.lt_ge_cases i n) as [Hlt|]; [ | done]. unfold in_width in Hi.
    destruct (Hall i ltac:(lia)) as (h & v & Hv & Ev). unfold find_node in E.
    assert (In (h, v) (List.filter (is_node (device_node i)) (map_to_list (k_hcds k)))) as Hin.
    { apply filter_In. split; [by apply list_elem_of_In, elem_of_map_to_list | ].
      unfold is_node. cbn. destruct (Ha h v Hv) as (_ & -> & _). by rewrite Ev, bool_decide_eq_true_2. }
    destruct (List.filter _ _); [destruct Hin | done].
Qed.

(** Loading the module and opening an instance.  After [virtusb_module_init]
    made [n] host controllers, and any run of the module, [virtusb_open] finds
    exactly the instances below [n]: there it returns 0 and a handle whose path
    is /dev/virtusb followed by the number, and whose descriptor is an open file
    on the active control plane of the host controller with that number; for
    every other number it returns -ENOENT and changes no descriptor and no handle. *)
Theorem virtusb_open_after_load `{LinuxLaws} L n env s s1 enc p instance oenv b :
  unloaded s -> 0 <= n -> region_ok L (ce_base (in_control env)) -> init_env_wf n env ->
  virtusb_module_init L n env s = Some (0, s1) -> module_reach enc (sy_kernel s1) (pr_kernel p) ->
  process_ok p -> open_env_wf p oenv -> in_width 32 instance ->
  oe_error oenv = None -> oe_oom oenv = false -> oe_handle oenv = Some b ->
  exists r p', virtusb_open instance true oenv p = Some (r, p') /\ process_ok p' /\
    if instance <? n then
      r = (0, Some b) /\
      pr_handles p' = <[b := mk_handle (oe_fd oenv) instance (device_node instance)]> (pr_handles p) /\
      pr_fds p' = <[oe_fd oenv := oe_file oenv]> (pr_fds p) /\
      exists c v fv, k_hcds (pr_kernel p') !! c = Some v /\ vh_instance v = instance /\
        k_files (pr_kernel p') !! oe_file oenv = Some fv /\ file_control (pr_kernel p') fv = Some c
    else r = (- ENOENT, None) /\ same_tables p p'.
Proof.
  intros Hs Hn Hrg Hw Hinit Hreach Hp How Hi He Hoom Hb.
  assert (Hr : 1 <= n <= VIRTUSB_MAX_HCD_COUNT).
  { unfold virtusb_module_init in Hinit. destruct (Z.eqb_spec n 0); [done | ].
    destruct (Z.ltb_spec VIRTUSB_MAX_HCD_COUNT n); [done | lia]. }
  destruct (init_spec L _ Hrg n Hr env s Hs Hw eq_refl) as (r & s' & E & H1). rewrite Hinit in E.
  injection E as <- <-. destruct H1 as (l & Hrun & Hlen & _).
  assert (Hnum : numbered (pr_kernel p) n).
  { rewrite <- Hlen. destruct s1 as [k1 t x].
    apply (running_numbered L (ce_base (in_control env)) n l (mk_system (pr_kernel p) t x)).
    by apply (running_reach _ _ _ enc l k1). }
  assert (Hmax : n <= 2 ^ 32) by (unfold VIRTUSB_MAX_HCD_COUNT in Hr; lia).
  pose proof (find_node_numbered _ _ _ Hnum Hmax Hi) as Hfind.
  destruct (virtusb_open_runs enc p instance oenv Hp How Hi) as (r & p' & Eo & Hp' & _ & _ & Hcase).
  exists r, p'. split_and!; [done.. | ]. destruct Hcase as [(Hneg & Hout & Hsame)|(h & c & -> & Eh & _ & Ec & Ef & Ehan & Ek)].
  - unfold virtusb_open in Eo. cbn [negb] in Eo. fold (device_node instance) in Eo.
    destruct (device_node_fits instance Hi) as [Esn Elong]. rewrite Esn, Elong in Eo. unfold bind at 1 in Eo.
    rewrite sys_open_eq in Eo. unfold open_result in Eo. rewrite He in Eo.
    destruct (find_node (pr_kernel p) (device_node instance)) as [c|].
    + exfalso. rewrite Hoom in Eo. destruct (Z.ltb_spec (oe_fd oenv) 0); [pose proof (ow_fd _ _ How); lia | ].
      rewrite Hb, Esn, Elong in Eo. unfold bind, alloc in Eo. cbn in Eo.
      destruct (pr_handles p !! b); [done | ]. injection Eo as <- <-. cbn in Hneg. lia.
    + destruct (Z.ltb_spec instance n); [lia | ]. split; [ | done]. by injection Eo as <- <-.
  - rewrite Ec in Hfind. destruct Hfind as [Hlt (v & Hv & Ev)].
    destruct (Z.ltb_spec instance n); [ | lia]. rewrite Hb in Eh. injection Eh as <-. split_and!; [done.. | ].
    destruct (nb_active _ _ Hnum c v Hv) as (Hct & Hact & _).
    exists c, v, (file_on c). rewrite Ek. split_and!; [done | done | apply lookup_insert_eq | ].
    unfold file_control. cbn. by rewrite Hv, Hct, Hact.
Qed.

(** A new process of a module that was loaded with one instance. *)
Definition open_at (fd : Z) : open_env := mk_open_env None (Ptr 9) fd false (Some 1%positive) 0.
Definition new_process (k : kernel) : process := mk_process k ∅ ∅ 0 [].
Lemma new_process_ok k : module_ok k -> typed k -> process_ok (new_process k).
Proof. intros Hm Ht. by split. Qed.
Definition loaded_once : system :=
  default not_loaded (snd <$> virtusb_module_init (X := linux_core) linux_devt 1 (load_outside (-1)) not_loaded).
Lemma load_once : virtusb_module_init (X := linux_core) linux_devt 1 (load_outside (-1)) not_loaded = Some (0, loaded_once).
Proof. eval_eq. Qed.
Lemma loaded_once_ok : process_ok (new_process (sy_kernel loaded_once)).
Proof.
  destruct (init_spec (X := linux_core) (H := linux_core_laws) linux_devt base_devt linux_region 1 ltac:(done) (load_outside (-1)) not_loaded
    not_loaded_unloaded (load_outside_wf 1 (-1)) eq_refl) as (r & s & E & H1).
  rewrite load_once in E. apply Some_inj, pair_equal_spec in E as [<- <-].
  destruct H1 as (l & [Hl _ _ _ _ _] & _).
  apply new_process_ok; apply Hl.
Qed.
Lemma open_at_wf fd k : k_files k = ∅ -> 0 <= fd -> open_env_wf (new_process k) (open_at fd).
Proof. intros Hf Hfd. split; cbn; try done. by rewrite Hf. Qed.

Lemma virtusb_open_after_load_witness :
  exists p' v, virtusb_open 0 true (open_at 3) (new_process (sy_kernel loaded_once)) = Some ((0, Some 1%positive), p') /\
    exists c, k_hcds (pr_kernel p') !! c = Some v /\ vh_instance v = 0.
Proof.
  destruct (virtusb_open_after_load (X := linux_core) (H := linux_core_laws) linux_devt 1 (load_outside (-1)) not_loaded loaded_once linux
    (new_process (sy_kernel loaded_once)) 0 (open_at 3) 1%positive not_loaded_unloaded ltac:(lia) linux_region
    (load_outside_wf 1 (-1)) load_once (rtc_refl _ _) loaded_once_ok
    (open_at_wf 3 (sy_kernel loaded_once) ltac:(eval_eq) ltac:(lia)) (conj (Z.le_refl 0) eq_refl) eq_refl eq_refl eq_refl)
    as (r & p' & E & _ & -> & _ & _ & c & v & fv & Hv & Ev & _).
  exists p', v. exact (conj E (ex_intro _ c (conj Hv Ev))).
Defined.

(** Opening and closing.  A [virtusb_open] that fails returns a negative
    number and leaves no descriptor and no handle behind, whether the node, the
    driver or [calloc] failed.  After one that succeeds the handle has the path
    of the node, and [virtusb_close] gives back the descriptors and handles
    that there were before and closes the file of the kernel; a second close of
    the same handle would be a use after free. *)
Theorem virtusb_open_close enc p instance oenv :
  process_ok p -> open_env_wf p oenv -> in_width 32 instance ->
  exists r p1, virtusb_open instance true oenv p = Some (r, p1) /\ process_ok p1 /\
    ((r.1 < 0 /\ r.2 = None /\ same_tables p p1) \/
     (exists h p2, r = (0, Some h) /\
        virtusb_get_device_path (Some h) p1 = Some (Some (device_node instance), p1) /\
        virtusb_close (Some h) p1 = Some (tt, p2) /\ same_tables p p2 /\
        module_reach enc (pr_kernel p) (pr_kernel p2) /\
        file_data (pr_kernel p2) (oe_file oenv) = None /\ virtusb_close (Some h) p2 = None)).
Proof.
  intros Hp How Hi. destruct (virtusb_open_runs enc p instance oenv Hp How Hi) as (r & p1 & E & Hp1 & [Hr1 _] & _ & Hcase).
  exists r, p1. split_and!; [done.. | ]. destruct Hcase as [?|(h & c & -> & Eh & _ & _ & Ef & Ehan & _)]; [by left | right].
  set (hd := mk_handle (oe_fd oenv) instance (device_node instance)) in *.
  assert (Hh : pr_handles p1 !! h = Some hd) by (by rewrite Ehan, lookup_insert_eq).
  destruct (virtusb_close_runs enc p1 (Some h) Hp1) as ([] & p2 & E2 & _ & [Hr2 _] & _ & Edel & hv & f & Hhv & Hf & Efd & Hcl);
    [by exists hd | ].
  assert (hv = hd) as -> by congruence. exists h, p2. split_and!; try done.
  - unfold virtusb_get_device_path, bind, load. by rewrite Hh.
  - split; [rewrite Efd, Ef; apply delete_insert_id, How | rewrite Edel, Ehan].
    apply delete_insert_id. by apply (ow_handle _ _ How).
  - by etrans.
  - rewrite Ef in Hf. unfold hd in Hf. cbn in Hf. rewrite lookup_insert_eq in Hf. by injection Hf as <-.
  - unfold virtusb_close, bind, load. by rewrite Edel, lookup_delete_eq.
Qed.

Lemma virtusb_open_close_witness : exists h p1 p2,
  virtusb_open 0 true (open_at 3) (new_process (sy_kernel loaded_once)) = Some ((0, Some h), p1) /\
  virtusb_close (Some h) p1 = Some (tt, p2) /\ pr_fds p2 = ∅ /\ pr_handles p2 = ∅.
Proof.
  destruct (virtusb_open_close linux (new_process (sy_kernel loaded_once)) 0 (open_at 3) loaded_once_ok
    (open_at_wf 3 (sy_kernel loaded_once) ltac:(eval_eq) ltac:(lia)) (conj (Z.le_refl 0) eq_refl))
    as (r & p1 & E & _ & Hcase).
  assert (Er : (fun x => fst (fst x)) <$> virtusb_open 0 true (open_at 3) (new_process (sy_kernel loaded_once)) = Some 0)
    by eval_eq.
  rewrite E in Er. apply Some_inj in Er. destruct Hcase as [(Hneg & _)|(h & p2 & -> & _ & E2 & [E3 E4] & _)].
  - cbn in Er. lia.
  - exists h, p1, p2. exact (conj E (conj E2 (conj E3 E4))).
Defined.

(** The device path always fits.  For every instance number of 32 bits the
    text /dev/virtusb%u has at most 22 characters, so [snprintf] stores it whole
    in the 64-byte buffer and neither -ENAMETOOLONG of [virtusb_open] is
    reachable: such a result is the errno of [open] or [calloc].  Paths of
    different instances differ. *)
Theorem device_path_bounds instance :
  in_width 32 instance ->
  snprintf VIRTUSB_DEVICE_PATH_MAX ("/dev/virtusb" +:+ format_u instance) =
    (device_node instance, Z.of_nat (strlen (device_node instance))) /\
  (strlen (device_node instance) <= 22)%nat /\
  (forall j, in_width 32 j -> device_node instance = device_node j -> instance = j) /\
  forall env p r out p', virtusb_open instance true env p = Some ((r, out), p') -> r = - ENAMETOOLONG ->
    pr_errno p' = ENAMETOOLONG \/ (oe_handle env = None /\ oe_calloc_errno env = ENAMETOOLONG).
Proof.
  intros Hi. destruct (device_node_fits instance Hi) as [Esn Elong]. split_and!; [done | | by intros; apply device_node_inj | ].
  - unfold device_node. rewrite strlen_app. pose proof (format_u_length instance Hi).
    change (strlen "/dev/virtusb") with 12%nat. lia.
  - intros env p r out p' E Er. unfold virtusb_open in E. cbn [negb] in E. fold (device_node instance) in E.
    rewrite Esn, Elong in E. unfold bind at 1 in E. destruct (sys_open (device_node instance) env p) as [[fd p1]|]; [ | done].
    destruct (fd <? 0).
    + left. injection E as E1 _ <-. unfold ENAMETOOLONG in *. lia.
    + destruct (oe_handle env) as [h|].
      * rewrite Esn, Elong in E. unfold bind, alloc in E. destruct (pr_handles p1 !! h); [done | ].
        injection E as <- _ _. done.
      * right. split; [done | ]. unfold bind, set_errno, modify, gets in E.
        destruct (sys_close fd (set_pr_errno (oe_calloc_errno env) p1)) as [[? ?]|]; [ | done].
        injection E as E1 _ _. cbn in E1.
        destruct (Z.eqb_spec (oe_calloc_errno env) 0); unfold ENAMETOOLONG, ENOMEM in *; lia.
Qed.

Lemma device_path_bounds_witness :
  snprintf VIRTUSB_DEVICE_PATH_MAX ("/dev/virtusb" +:+ format_u 4294967295) = ("/dev/virtusb4294967295", 22).
Proof.
  assert (Hi : in_width 32 4294967295) by (split; [lia | reflexivity]).
  destruct (device_path_bounds 4294967295 Hi) as [E _]. exact E.
Defined.

(** ** Transfers *)

(** C36. What [virtusb_transfer_complete] sends.  More than 4096 bytes, or a
    length without data, gives -EINVAL without a system call.  Otherwise the
    request has all 4096 data bytes defined: the first [actual_length] are the
    caller's, the rest are zero, so that nothing of the library's stack reaches
    the kernel; and the result is that of the ioctl. *)
Theorem transfer_complete_bounds enc p handle fd transfer_id status data n env :
  process_ok p -> handle_ok p handle -> handle_descriptor p handle = Ok fd ->
  in_width 32 n -> data_ok data n ->
  virtusb_transfer_complete enc handle transfer_id status data n env p =
    (if (VIRTUSB_TRANSFER_DATA_MAX <? n) || ((0 <? n) && bool_decide (data = None))
     then Some (- EINVAL, p)
     else (both r, _ <- sys_ioctl enc fd (VIRTUSB_IOCTL_TRANSFER_COMPLETE enc)
             (ReqTransferComplete (mk_transfer_complete_request transfer_id status n
                (take (Z.to_nat n) (default [] data) ++
                 replicate (Z.to_nat (VIRTUSB_TRANSFER_DATA_MAX - n)) 0))) env ;; or_errno r) p) /\
  (n <= VIRTUSB_TRANSFER_DATA_MAX -> (0 < n -> data <> None) ->
     Z.of_nat (length (take (Z.to_nat n) (default [] data) ++
       replicate (Z.to_nat (VIRTUSB_TRANSFER_DATA_MAX - n)) 0)) = VIRTUSB_TRANSFER_DATA_MAX).
Proof.
  intros Hp Hh Hfd Hn Hd. split.
  - unfold virtusb_transfer_complete. unfold bind at 1. rewrite (handle_fd_eq p handle Hp Hh), Hfd.
    destruct (_ || _) eqn:Ebad; [done | ]. apply orb_false_iff in Ebad as [Hmax Hnull]. apply Z.ltb_ge in Hmax.
    unfold completion_data. destruct (Z.leb_spec n 0) as [Hle|Hgt].
    + unfold in_width in Hn. replace n with 0 by lia. done.
    + rewrite (proj2 (Z.ltb_lt 0 n) Hgt) in Hnull. apply bool_decide_eq_false in Hnull.
      destruct data as [block|]; [ | done]. by rewrite (proj2 (Z.ltb_ge _ _) (Hd block eq_refl)).
  - intros Hmax Hnull. rewrite length_app, length_take, length_replicate. unfold in_width in Hn.
    unfold VIRTUSB_TRANSFER_DATA_MAX in *. destruct data as [block|]; cbn.
    + specialize (Hd block eq_refl). lia.
    + destruct (Z.lt_ge_cases 0 n); [by destruct Hnull | lia].
Qed.

Lemma transfer_complete_bounds_witness :
  virtusb_transfer_complete linux (Some 1%positive) 1 0 None 4 no_env (shell fetched1) =
    Some (- EINVAL, shell fetched1).
Proof.
  destruct (transfer_complete_bounds linux (shell fetched1) (Some 1%positive) 3 1 0 None 4 no_env
    (shell_ok fetched1 reach_fetched1)) as [E _].
  - exists (mk_handle 3 0 (device_node 0)). eval_eq.
  - eval_eq.
  - split; [lia | reflexivity].
  - intros bytes Hb. discriminate Hb.
  - rewrite E. exact eq_refl.
Defined.

(** ** Arguments *)

(** The calls with a NULL handle, or with a NULL pointer for the result. *)
Definition null_argument (c : lib_call) : bool :=
  match c with
  | LibOpen _ out _ => negb out
  | LibClose _ | LibGetDevicePath _ => false
  | LibGetPortStatus h _ _ out _ | LibDeviceCreate h _ out _ | LibTransferFetch h out _ =>
      bool_decide (h = None) || negb out
  | LibBackendRegister h id _ => bool_decide (h = None) || (id =? VIRTUSB_INVALID_OBJECT_ID)
  | _ => bool_decide (handle_of c = None)
  end.

(** Wrong arguments.  Every function that returns an error number returns
    -EINVAL for a NULL handle, a NULL result pointer and, where it registers a
    backend, the invalid object ID, without a system call and without any other
    effect; closing NULL does nothing and its device path is NULL. *)
Theorem library_argument_errors enc p c :
  null_argument c = true ->
  run_lib enc c p = Some (- EINVAL, p) /\
  virtusb_close None p = Some (tt, p) /\ virtusb_get_device_path None p = Some (None, p).
Proof.
  intros Hn. split; [ | done].
  destruct c as [i o e|h|h|h hub port o e|h caps o e|h id fo e|h id hub port e|h id e|h id co e|h hub port po e
    |h id e|h e|h o e|h id st d n e]; cbn in Hn; try done.
  - by destruct o.
  - apply orb_true_iff in Hn as [Hn|Hn]; [apply bool_decide_eq_true in Hn as ->; by destruct o | by destruct o].
  - apply orb_true_iff in Hn as [Hn|Hn]; [apply bool_decide_eq_true in Hn as ->; by destruct o | by destruct o].
  - by apply bool_decide_eq_true in Hn as ->.
  - by apply bool_decide_eq_true in Hn as ->.
  - by apply bool_decide_eq_true in Hn as ->.
  - by apply bool_decide_eq_true in Hn as ->.
  - by apply bool_decide_eq_true in Hn as ->.
  - cbn. unfold virtusb_backend_register. destruct (id =? VIRTUSB_INVALID_OBJECT_ID) eqn:E; [done | ].
    rewrite orb_false_r in Hn. by apply bool_decide_eq_true in Hn as ->.
  - by apply bool_decide_eq_true in Hn as ->.
  - apply orb_true_iff in Hn as [Hn|Hn]; [apply bool_decide_eq_true in Hn as ->; by destruct o | by destruct o].
  - by apply bool_decide_eq_true in Hn as ->.
Qed.

Lemma library_argument_errors_witness :
  run_lib linux (LibDeviceCreate (Some 1%positive) 7 false no_env) (shell booted) =
    Some (- EINVAL, shell booted).
Proof.
  exact (proj1 (library_argument_errors linux (shell booted) (LibDeviceCreate (Some 1%positive) 7 false no_env) eq_refl)).
Defined.
