(* ===== verification/Program.v ===== *)
(** * What the user-space programs share

    Printing and the arguments of [main], and for a program that makes several
    calls: what the system and the other users of the module do at each of them. *)

From S2P Require Import Prelude Uapi Kernel Port Hub Object Device Transfer Backend Hcd Control ModuleSpec Text Lib.

(** ** stdio and arguments *)

Definition EXIT_SUCCESS : Z := 0.
Definition EXIT_FAILURE : Z := 1.

(** [fprintf(stream, ...)] of a formatted text. *)
Definition print (st : stream) (text : string) : U unit :=
  modify (fun p => set_pr_output (pr_output p ++ [(st, text)]) p).
Definition nl : string := String "010"%char EmptyString.

(** [argv[i]]; the element at [argc] is NULL. *)
Definition arg (argv : list string) (i : nat) : U string :=
  match argv !! i with Some s => ret s | None => stuck end.

(** ** The surroundings of a library call

    Since the last call, others ran; the kernel then finds memory, or not, in
    the state they left. *)
Record site := mk_site {
  si_others : K unit;
  si_env : kernel -> ioctl_env;
}.

Definition at_site {A} (x : site) (call : ioctl_env -> U A) : U A :=
  in_kernel (si_others x) ;;
  k <- gets pr_kernel ;;
  call (si_env x k).

(** The calls of the test programs, by their place in the code. *)
Inductive place :=
  | AtCreate | AtAttach | AtRegister | AtConnect                   (* the setup *)
  | AtVerify | AtUnregister | AtVerifyUnregistered | AtReregister | AtVerifyReregistered
  | AtFaultingFetch | AtFetchAgain
  | EndConnect | EndDetach | EndUnregister | EndDestroy.           (* at the label out *)

(** One turn of a loop that serves transfers: the fetch and the completion, and
    whether a signal is delivered in it. *)
Record round := mk_round {
  ro_fetch : site;
  ro_complete : site;
  ro_signal : bool;
}.

(** ** USB requests *)

Definition USB_DIR_IN : Z := 0x80.
Definition USB_TYPE_MASK : Z := 0x60.
Definition USB_TYPE_STANDARD : Z := 0x00.
Definition USB_RECIP_MASK : Z := 0x1f.
Definition USB_RECIP_DEVICE : Z := 0x00.
Definition USB_REQ_GET_STATUS : Z := 0x00.
Definition USB_REQ_SET_ADDRESS : Z := 0x05.
Definition USB_REQ_GET_DESCRIPTOR : Z := 0x06.
Definition USB_REQ_GET_CONFIGURATION : Z := 0x08.
Definition USB_REQ_SET_CONFIGURATION : Z := 0x09.
Definition USB_DT_DEVICE : Z := 0x01.
Definition USB_DT_CONFIG : Z := 0x02.
