(* ===== verification/ProgramSpec.v ===== *)
(** * Programs that make several calls

    A small program logic for the user-space programs: between any two library
    calls the other users of the module run, a blocking fetch may sleep, and the
    program still returns with its tables as they were.  A program talks when
    it prints to the standard output only. *)

From S2P Require Import Prelude Uapi Kernel Port Hub Object Device Transfer Backend BackendInv BackendOps Hcd HcdSpec UrbSpec Control ControlSpec ModuleSpec Config BlockSpec Text Lib LibSpec Program.

(** ** Output *)

Abbreviation output := (list (stream * string)).
Definition to_stdout (new : output) : Prop := Forall (fun x => x.1 = Stdout) new.
(** What was printed fits the exit status. *)
Definition printed (r : Z) (new : output) : Prop :=
  (r = EXIT_SUCCESS /\ to_stdout new) \/
  (r = EXIT_FAILURE /\ exists text, (Stderr, text) ∈ new).

Lemma to_stdout_app l1 l2 : to_stdout l1 -> to_stdout l2 -> to_stdout (l1 ++ l2).
Proof. intros. by apply Forall_app. Qed.
Lemma printed_app r l1 l2 : to_stdout l1 -> printed r l2 -> printed r (l1 ++ l2).
Proof.
  intros H1 [[-> H2]|[-> (text & H2)]]; [left; split; [done | by apply to_stdout_app] | right].
  split; [done | ]. exists text. apply elem_of_app. by right.
Qed.

Lemma printed_snoc r l1 l2 : printed r l1 -> to_stdout l2 -> printed r (l1 ++ l2).
Proof.
  intros [[-> H1]|[-> (text & H1)]] H2; [left; split; [done | by apply to_stdout_app] | right].
  split; [done | ]. exists text. apply elem_of_app. by left.
Qed.
(** The exit code of a program, [None] while it is still waiting. *)
Definition printed_by (code : option Z) (new : output) : Prop :=
  match code with Some r => printed r new | None => to_stdout new end.
Lemma printed_by_snoc code l1 l2 : printed_by code l1 -> to_stdout l2 -> printed_by code (l1 ++ l2).
Proof. destruct code; [apply printed_snoc | apply to_stdout_app]. Qed.

(** ** The surroundings *)

(** The others do not reopen or close the program's file, and the memory they
    leave for the call is fresh. *)
Record site_ok (enc : ioctl_encoding) (f : file_ptr) (x : site) : Prop := {
  sk_others : interferes enc {[f]} (si_others x);
  sk_env : forall k, module_ok k -> typed k -> ioctl_env_wf k (si_env x k);
}.
(** A fetch may sleep, too; a signal would wake it. *)
Record fetch_site_ok (enc : ioctl_encoding) (f : file_ptr) (x : site) : Prop := {
  fk_site : site_ok enc f x;
  fk_sleeps : forall k, sleeps_ok enc {[f]} (ie_sleeps (si_env x k));
}.
Definition round_ok (enc : ioctl_encoding) (f : file_ptr) (x : round) : Prop :=
  fetch_site_ok enc f (ro_fetch x) /\ site_ok enc f (ro_complete x).

Section logic.
Context (enc : ioctl_encoding) (Henc : NoDup (commands enc)).
Context (fd : Z) (f : file_ptr).
Implicit Types p : process.

Abbreviation frun := (runs enc {[f]}).

Lemma runs_mono_reach {A} (m : U A) p (Q Q' : A -> process -> Prop) :
  frun m p Q ->
  (forall a p', process_ok p' -> file_reach enc {[f]} (pr_kernel p) (pr_kernel p') -> Q a p' -> Q' a p') ->
  frun m p Q'.
Proof. intros (a & p' & E & Hp & Hr & HQ) HI. exists a, p'. split_and!; eauto. Qed.

Lemma at_site_runs {A} x (call : ioctl_env -> U A) p (Q : A -> process -> Prop) :
  process_ok p -> site_ok enc f x ->
  (forall k, process_ok (set_pr_kernel k p) -> file_reach enc {[f]} (pr_kernel p) k -> ioctl_env_wf k (si_env x k) ->
     frun (call (si_env x k)) (set_pr_kernel k p) Q) ->
  frun (at_site x call) p Q.
Proof.
  intros Hp [Ho He] Hc. apply runs_bind, runs_kernel; [done | done | ]. intros k Hr Hk.
  apply runs_bind, runs_gets; [done | ]. apply Hc; [done.. | ]. apply He; apply Hk.
Qed.

(** ** Programs with an open file

    [handle] is the handle of the descriptor, if the program uses one. *)
Context (handle : option handle_ptr).
Definition on_file p : Prop :=
  pr_fds p !! fd = Some f /\ (handle <> None -> handle_descriptor p handle = Ok fd).

Lemma same_tables_trans p1 p2 p3 : same_tables p1 p2 -> same_tables p2 p3 -> same_tables p1 p3.
Proof. intros [E1 E2] [E3 E4]. split; congruence. Qed.

Lemma on_file_same p p' : same_tables p p' -> on_file p -> on_file p'.
Proof.
  intros [E1 E2]. unfold on_file, handle_descriptor. by rewrite E1, E2.
Qed.

Definition does {A} (m : U A) (Q : A -> output -> Prop) : Prop :=
  forall p, process_ok p -> on_file p ->
    frun m p (fun a p' => same_tables p p' /\ exists new, pr_output p' = pr_output p ++ new /\ Q a new).
Definition talks {A} (m : U A) (Q : A -> Prop) : Prop := does m (fun a new => to_stdout new /\ Q a).

(** A property of what follows does not mind what was said before. *)
Definition after_talk {A} (Q : A -> output -> Prop) : Prop :=
  forall a l1 l2, to_stdout l1 -> Q a l2 -> Q a (l1 ++ l2).

Lemma after_talk_talks {A} (Q : A -> Prop) : after_talk (fun a new => to_stdout new /\ Q a).
Proof. intros a l1 l2 H1 [H2 Ha]. split; [by apply to_stdout_app | done]. Qed.
Lemma after_talk_printed : after_talk printed.
Proof. intros a l1 l2. apply printed_app. Qed.

Lemma does_bind {A B} (m : U A) (k : A -> U B) (P : A -> Prop) (Q : B -> output -> Prop) :
  after_talk Q -> talks m P -> (forall a, P a -> does (k a) Q) -> does (bind m k) Q.
Proof.
  intros HQ Hm Hk p Hp Hf. apply runs_bind. eapply runs_mono; [by apply Hm | ].
  intros a p1 Hp1 (Hs1 & l1 & E1 & Hl1 & Ha). eapply runs_mono; [apply (Hk a Ha p1 Hp1); by eapply on_file_same | ].
  intros b p2 Hp2 (Hs2 & l2 & E2 & Hb). split; [by apply same_tables_trans with p1 | ].
  exists (l1 ++ l2). rewrite E2, E1. split; [by rewrite app_assoc | by apply HQ].
Qed.
Lemma talks_bind {A B} (m : U A) (k : A -> U B) (P : A -> Prop) (Q : B -> Prop) :
  talks m P -> (forall a, P a -> talks (k a) Q) -> talks (bind m k) Q.
Proof. apply does_bind, after_talk_talks. Qed.

Lemma does_ret {A} (a : A) (Q : A -> output -> Prop) : Q a [] -> does (ret a) Q.
Proof.
  intros Ha p Hp Hf. apply runs_ret; [done | ]. split; [done | ]. exists []. by rewrite app_nil_r.
Qed.
Lemma talks_ret {A} (a : A) (Q : A -> Prop) : Q a -> talks (ret a) Q.
Proof. intros Ha. apply does_ret. split; [constructor | done]. Qed.

Lemma does_mono {A} (m : U A) (Q Q' : A -> output -> Prop) : does m Q -> (forall a l, Q a l -> Q' a l) -> does m Q'.
Proof.
  intros Hm HQ p Hp Hf. eapply runs_mono; [by apply Hm | ]. intros a p' _ (Hs & l & E & Ha).
  split; [done | ]. exists l. split; [done | by apply HQ].
Qed.
Lemma talks_mono {A} (m : U A) (Q Q' : A -> Prop) : talks m Q -> (forall a, Q a -> Q' a) -> talks m Q'.
Proof. intros Hm HQ. eapply does_mono; [exact Hm | ]. intros a l [Hl Ha]. by split; [ | apply HQ]. Qed.

Lemma print_does st text (Q : unit -> output -> Prop) : Q tt [(st, text)] -> does (print st text) Q.
Proof.
  intros HQ p Hp Hf. apply runs_modify; [by apply process_set_output | done | ].
  split; [done | ]. by exists [(st, text)].
Qed.
Lemma print_talks text : talks (print Stdout text) (fun _ => True).
Proof. apply print_does. split; [by repeat constructor | done]. Qed.

(** Printing an error and giving up. *)
Lemma complaint_does {B} text (g : Z -> B) (Q : B -> output -> Prop) : Q (g EXIT_FAILURE) [(Stderr, text)] ->
  does (e <- (print Stderr text ;; ret EXIT_FAILURE) ;; ret (g e)) Q.
Proof.
  intros HQ p Hp Hf. apply runs_bind. apply runs_bind, runs_modify; [by apply process_set_output | done | ].
  apply runs_ret; [by apply process_set_output | ]. apply runs_ret; [by apply process_set_output | ].
  split; [done | ]. by exists [(Stderr, text)].
Qed.
Lemma complaint_prints {B} text (g : Z -> B) (code : B -> option Z) : code (g EXIT_FAILURE) = Some EXIT_FAILURE ->
  does (e <- (print Stderr text ;; ret EXIT_FAILURE) ;; ret (g e)) (fun b new => printed_by (code b) new).
Proof. intros Hg. apply complaint_does. rewrite Hg. right. split; [done | ]. eexists. by left. Qed.

Lemma errno_talks : talks (gets pr_errno) (fun _ => True).
Proof.
  intros p Hp Hf. apply runs_gets; [done | ]. split; [done | ]. exists []. rewrite app_nil_r. split_and!; [done | constructor | done].
Qed.
Lemma set_errno_talks e : talks (set_errno e) (fun _ => True).
Proof.
  intros p Hp Hf. apply runs_modify; [by apply process_set_errno | done | ]. split; [done | ]. exists [].
  rewrite app_nil_r. split_and!; [done | constructor | done].
Qed.

Lemma after_talk_printed_by {A} (code : A -> option Z) : after_talk (fun a new => printed_by (code a) new).
Proof. intros a l1 l2. destruct (code a); [apply printed_app | apply to_stdout_app]. Qed.

(** *** Calls *)

(** A call under an environment that fits the kernel. *)
Definition call_does {A} (fetches : bool) (call : ioctl_env -> U A) (Q : A -> output -> Prop) : Prop :=
  forall p env, process_ok p -> on_file p -> ioctl_env_wf (pr_kernel p) env ->
    (fetches = true -> sleeps_ok enc {[f]} (ie_sleeps env)) ->
    frun (call env) p (fun a p' => same_tables p p' /\ exists new, pr_output p' = pr_output p ++ new /\ Q a new).
Definition call_talks {A} (fetches : bool) (call : ioctl_env -> U A) (Q : A -> Prop) : Prop :=
  call_does fetches call (fun a new => to_stdout new /\ Q a).

Lemma at_site_does {A} (call : ioctl_env -> U A) (Q : A -> output -> Prop) x :
  site_ok enc f x -> call_does false call Q -> does (at_site x call) Q.
Proof.
  intros Hx Hc p Hp Hf. apply at_site_runs; [done | done | ]. intros k Hk Hr He.
  apply (Hc (set_pr_kernel k p)); [done | done | done | done].
Qed.
Lemma at_fetch_does {A} (call : ioctl_env -> U A) (Q : A -> output -> Prop) x :
  fetch_site_ok enc f x -> call_does true call Q -> does (at_site x call) Q.
Proof.
  intros [Hx Hsl] Hc p Hp Hf. apply at_site_runs; [done | done | ]. intros k Hk Hr He.
  apply (Hc (set_pr_kernel k p)); [done | done | done | done].
Qed.

Lemma call_pure {A} b (m : U A) Q : does m Q -> call_does b (fun _ => m) Q.
Proof. intros Hm p env Hp Hf _ _. by apply Hm. Qed.
(** Printing before the call, and computing after it. *)
Lemma call_print {A} b st text (call : ioctl_env -> U A) (Q Q' : A -> output -> Prop) :
  call_does b call Q' -> (forall a l, Q' a l -> Q a ((st, text) :: l)) ->
  call_does b (fun env => print st text ;; call env) Q.
Proof.
  intros Hc HQ p env Hp Hf Henv Hsl. apply runs_bind, runs_modify; [by apply process_set_output | done | ].
  eapply runs_mono; [apply Hc; [by apply process_set_output | done..] | ].
  intros a p' _ (Hs & l & E & Ha). split; [done | ]. exists ((st, text) :: l). split; [ | by apply HQ].
  rewrite E. cbn. by rewrite <- app_assoc.
Qed.
Lemma call_print_talks {A} b text (call : ioctl_env -> U A) (Q : A -> Prop) :
  call_talks b call Q -> call_talks b (fun env => print Stdout text ;; call env) Q.
Proof. intros Hc. eapply call_print; [exact Hc | ]. intros a l [Hl Ha]. split; [by constructor | done]. Qed.

Lemma call_bind {A B} b (call : ioctl_env -> U A) (k : A -> U B) (P : A -> Prop) (Q : B -> output -> Prop) :
  after_talk Q -> call_talks b call P -> (forall a, P a -> does (k a) Q) ->
  call_does b (fun env => bind (call env) k) Q.
Proof.
  intros HQ Hm Hk p env Hp Hf Henv Hsl. apply runs_bind. eapply runs_mono; [by apply Hm | ].
  intros a p1 Hp1 (Hs1 & l1 & E1 & Hl1 & Ha). eapply runs_mono; [apply (Hk a Ha p1 Hp1); by eapply on_file_same | ].
  intros c p2 Hp2 (Hs2 & l2 & E2 & Hb). split; [by apply same_tables_trans with p1 | ].
  exists (l1 ++ l2). rewrite E2, E1. split; [by rewrite app_assoc | by apply HQ].
Qed.
Lemma call_map {A B} b (call : ioctl_env -> U A) (g : A -> B) (P : A -> Prop) (Q : B -> Prop) :
  call_talks b call P -> (forall a, P a -> Q (g a)) -> call_talks b (fun env => a <- call env ;; ret (g a)) Q.
Proof.
  intros Hc HQ. apply (call_bind b call _ P); [apply after_talk_talks | done | ].
  intros a Ha. apply talks_ret. by apply HQ.
Qed.
Lemma call_mono {A} b (call : ioctl_env -> U A) (P Q : A -> Prop) :
  call_talks b call P -> (forall a, P a -> Q a) -> call_talks b call Q.
Proof.
  intros Hc HQ p env Hp Hf Henv Hsl. eapply runs_mono; [by apply Hc | ].
  intros a p' _ (Hs & l & E & Hl & Ha). split; [done | ]. exists l. split_and!; [done | done | by apply HQ].
Qed.

(** *** The library *)

Lemma int_result_talks p (r : Z) p' : int_result p r p' ->
  same_tables p p' /\ exists new, pr_output p' = pr_output p ++ new /\ to_stdout new /\ r <= 0.
Proof. intros (Hr & Hs & E). split; [done | ]. exists []. rewrite app_nil_r. by repeat constructor. Qed.

Lemma on_file_handle p : on_file p -> handle_ok p handle.
Proof.
  intros [_ Hh]. destruct handle as [h|]; [ | done]. specialize (Hh ltac:(done)). cbn in Hh |- *.
  destruct (pr_handles p !! h); [by eexists | done].
Qed.
Lemma on_file_descriptor p x : on_file p -> handle_descriptor p handle = Ok x -> pr_fds p !! x = Some f.
Proof.
  intros [Hf Hh] E. destruct handle as [h|]; [ | done]. rewrite (Hh ltac:(done)) in E. by injection E as <-.
Qed.

Lemma simple_request_talks n c q : commands enc !! n = Some c -> n <> 9%nat -> request_wf q ->
  call_talks false (simple_request enc handle c q) (fun r => r <= 0).
Proof using Henc.
  intros Hn Hne Hq p env Hp Hf Henv _. eapply runs_mono; [apply simple_request_runs; try done | ].
  - by apply on_file_handle.
  - intros ->. apply Hne. by apply (NoDup_lookup (commands enc) n 9 (VIRTUSB_IOCTL_TRANSFER_FETCH enc)).
  - intros r p' _. apply int_result_talks.
Qed.

Lemma attach_talks id hub port : call_talks false (virtusb_device_attach enc handle id hub port) (fun r => r <= 0).
Proof using Henc. by apply (simple_request_talks 3). Qed.
Lemma detach_talks id : call_talks false (virtusb_device_detach enc handle id) (fun r => r <= 0).
Proof using Henc. by apply (simple_request_talks 4). Qed.
Lemma set_connected_talks id b : call_talks false (virtusb_device_set_connected enc handle id b) (fun r => r <= 0).
Proof using Henc. by apply (simple_request_talks 5). Qed.
Lemma backend_register_talks id : call_talks false (virtusb_backend_register enc handle id) (fun r => r <= 0).
Proof using Henc.
  unfold virtusb_backend_register. destruct (_ =? _); [apply call_pure; by apply talks_ret | ].
  by apply (simple_request_talks 7).
Qed.
Lemma backend_unregister_talks : call_talks false (virtusb_backend_unregister enc handle) (fun r => r <= 0).
Proof using Henc. by apply (simple_request_talks 8). Qed.
Lemma destroy_talks id force : call_talks false (virtusb_device_destroy enc handle id force) (fun r => r <= 0).
Proof using Henc. by apply (simple_request_talks 2). Qed.
Lemma complete_talks id status data n : in_width 32 n -> data_ok data n ->
  call_talks false (virtusb_transfer_complete enc handle id status data n) (fun r => r <= 0).
Proof using Henc.
  intros Hn Hd p env Hp Hf Henv _. eapply runs_mono; [apply transfer_complete_runs; try done | ].
  - by apply on_file_handle.
  - intros r p' _. apply int_result_talks.
Qed.
Lemma port_status_talks hub port : 0 <= port ->
  call_talks false (virtusb_get_port_status enc handle hub port true) (fun x => 0 <= x.1 -> is_Some x.2).
Proof using Henc.
  intros Hport p env Hp Hf Henv _. eapply runs_mono; [apply get_port_status_runs; try done | ].
  - by apply on_file_handle.
  - intros x p' _ (Hs & E & _ & Hcase). split; [done | ]. exists []. rewrite app_nil_r. split; [done | ].
    split; [constructor | ]. destruct Hcase as [[? _]|(? & ? & ? & ? & ? & _ & _ & _ & _ & _ & _ & _ & _ & ->)]; [lia | by eexists].
Qed.
Lemma create_talks caps : in_width 32 caps ->
  call_talks false (virtusb_device_create enc handle caps true) (fun x => x.1 <= 0 /\ (x.1 = 0 <-> is_Some x.2)).
Proof using Henc.
  intros Hc p env Hp Hf Henv _. eapply runs_mono; [apply device_create_runs; try done | ].
  - by apply on_file_handle.
  - intros x p' _ [Hi Hx]. destruct (int_result_talks _ _ _ Hi) as (Hs & l & E & Hl & Hr). split; [done | ]. by exists l.
Qed.

(** *** Fetching *)

(** A request as the kernel delivers it. *)
Record fetch_wf (x : Uapi.virtusb_transfer_fetch) : Prop := {
  fw_setup : length (tf_setup x) = 8%nat;
  fw_length : 0 <= tf_requested_length x <= VIRTUSB_TRANSFER_DATA_MAX;
}.
Lemma fetch_view_wf tv ov : transfer_wf tv -> tr_requested_length tv <= VIRTUSB_TRANSFER_DATA_MAX ->
  fetch_wf (fetch_view tv ov).
Proof. intros [] Hl. split; cbn; [by destruct (tr_has_setup tv) | lia]. Qed.

Lemma fetch_outcome_wf p env r w p' : process_ok p -> pr_fds p !! fd = Some f ->
  sleeps_ok enc {[f]} (ie_sleeps env) ->
  ioctl_outcome enc p fd (VIRTUSB_IOCTL_TRANSFER_FETCH enc) ReqTransferFetch env (r, w) p' ->
  (r < 0 /\ w = None) \/ (r = 0 /\ exists x, w = Some (ReplyFetch x) /\ fetch_wf x).
Proof using Henc.
  intros Hp Hfd Hsl (_ & _ & f' & r0 & k & Hfd' & E & _ & Hr).
  assert (f' = f) as -> by congruence. cbn in E, Hr.
  destruct (po_files _ Hp fd f Hfd) as [fv Hf].
  destruct (fetch_ioctl_reply enc {[f]} (pr_kernel p) f fv _ env r0 w k Henc (po_kernel _ Hp) (po_typed _ Hp) Hf
    ltac:(by apply elem_of_singleton) Hsl E) as [[Hneg ->]|(-> & tv & ov & Hwf & Hl & ->)].
  - left. rewrite (proj2 (Z.ltb_lt _ _) Hneg) in Hr. split; [lia | done].
  - right. cbn in Hr. split; [lia | ]. eexists. split; [done | by apply fetch_view_wf].
Qed.

Lemma fetch_ok_here p env : process_ok p -> pr_fds p !! fd = Some f -> sleeps_ok enc {[f]} (ie_sleeps env) ->
  fetch_ok enc {[f]} p fd (VIRTUSB_IOCTL_TRANSFER_FETCH enc) env.
Proof.
  intros Hp Hfd Hsl _ f' fv Hfd' _. assert (f' = f) as -> by congruence. right.
  by rewrite union_idemp_L.
Qed.

Definition request_ok (x : virtusb_transfer_request) : Prop :=
  length (rt_setup x) = 8%nat /\ 0 <= rt_requested_length x <= VIRTUSB_TRANSFER_DATA_MAX.
Lemma fetch_talks : call_talks true (virtusb_transfer_fetch enc handle true)
  (fun x => 0 <= x.1 -> exists request, x.2 = Some request /\ request_ok request).
Proof using Henc.
  intros p env Hp Hf Henv Hsl. specialize (Hsl eq_refl). unfold virtusb_transfer_fetch. cbn [negb].
  assert (Hquiet : forall p' (x : Z * option virtusb_transfer_request), process_ok p' -> same_tables p p' ->
    pr_output p' = pr_output p -> (0 <= x.1 -> exists request, x.2 = Some request /\ request_ok request) ->
    frun (ret x) p' (fun a p' => same_tables p p' /\ exists new, pr_output p' = pr_output p ++ new /\ to_stdout new /\
      (0 <= a.1 -> exists request, a.2 = Some request /\ request_ok request))).
  { intros p' x Hp' Hs E Hx. apply runs_ret; [done | ]. split; [done | ]. exists []. rewrite app_nil_r.
    split_and!; [done | constructor | done]. }
  apply (request_runs enc {[f]} p handle (VIRTUSB_IOCTL_TRANSFER_FETCH enc) ReqTransferFetch env); try done.
  - by apply on_file_handle.
  - intros x Hx. pose proof (on_file_descriptor p x Hf Hx) as Hfx. intros _ f' fv Hfd' _.
    assert (f' = f) as -> by congruence. right.
    by rewrite union_idemp_L.
  - intros e He. apply Hquiet; try done. cbn. lia.
  - intros x r w p' Hx Hp' Ho. pose proof (outcome_errno _ _ _ _ _ _ _ _ Ho) as He. cbn in He.
    assert (x = fd) as ->.
    { destruct Hf as [_ Hh]. destruct handle as [h|]; [ | done]. rewrite (Hh ltac:(done)) in Hx. by injection Hx. }
    pose proof (fetch_outcome_wf p env r w p' Hp (proj1 Hf) Hsl Ho) as Hw. destruct Ho as (Hs & Hout & _).
    destruct Hw as [[Hneg ->]|(-> & y & -> & Hy & Hl)].
    + rewrite (proj2 (Z.ltb_lt _ _) Hneg) in *. apply runs_bind, runs_gets; [done | ]. specialize (He eq_refl).
      apply Hquiet; try done. cbn. lia.
    + cbn [Z.ltb Z.compare]. apply Hquiet; try done. intros _. eexists. split; [done | ]. by split.
Qed.

(** *** The control plane behind the file *)

Definition usable p : Prop := exists fv c, k_files (pr_kernel p) !! f = Some fv /\
  file_control (pr_kernel p) fv = Some c.

Lemma usable_reach p p' : process_ok p -> file_reach enc {[f]} (pr_kernel p) (pr_kernel p') -> usable p -> usable p'.
Proof.
  intros Hp Hr (fv & c & Hf & Hc).
  destruct (file_reach_control enc {[f]} f (pr_kernel p) (pr_kernel p') fv c) as (fv' & Hf' & Hc');
    [by apply elem_of_singleton | done | apply Hp | done | done | ]. by exists fv', c.
Qed.

(** A request that succeeds found it. *)
Lemma ioctl_usable p command q env r w p' : process_ok p -> pr_fds p !! fd = Some f ->
  ioctl_outcome enc p fd command q env (r, w) p' -> 0 <= r -> usable p.
Proof.
  intros Hp Hfd (_ & _ & f' & r0 & k & Hfd' & E & _ & Hr) Hpos. assert (f' = f) as -> by congruence. cbn in E, Hr.
  destruct (po_files _ Hp fd f Hfd) as [fv Hf]. exists fv.
  destruct (file_control (pr_kernel p) fv) as [c|] eqn:Hc; [by exists c | ]. exfalso.
  unfold virtusb_control_ioctl in E.
  erewrite bind_eq in E by (apply (active_control_eq _ (po_kernel _ Hp) f fv Hf)). rewrite Hc in E.
  injection E as <- _ _. cbn in Hr. destruct Hr as [-> _]. lia.
Qed.

(** A forced destroy leaves no object with the ID. *)
Lemma destroy_ioctl_gone s fv c id us env : module_ok s -> typed s -> k_files s !! f = Some fv ->
  file_control s fv = Some c -> us_device_destroy us = Some (mk_device_destroy_req id VIRTUSB_DEVICE_DESTROY_FORCE) ->
  exists r s', virtusb_control_ioctl enc f (VIRTUSB_IOCTL_DEVICE_DESTROY enc) us env s = Some ((r, None), s') /\
    k_registry s' !! id = None.
Proof using Henc.
  intros Hm Ht Hf Hc Hus. pose proof (module_objects _ _ _ Hm) as Hobj. unfold virtusb_control_ioctl.
  erewrite bind_eq by (apply (active_control_eq s Hm f fv Hf)). rewrite Hc.
  rewrite (commands_differ enc 2 0 _ (VIRTUSB_IOCTL_GET_PORT_STATUS enc) Henc),
    (commands_differ enc 2 1 _ (VIRTUSB_IOCTL_DEVICE_CREATE enc) Henc), Z.eqb_refl by done.
  unfold no_reply, virtusb_control_device_destroy. rewrite Hus. cbn [dd_object_id dd_flags].
  change (negb (Z.land VIRTUSB_DEVICE_DESTROY_FORCE (c_not 32 VIRTUSB_DEVICE_DESTROY_FLAGS) =? 0)) with false.
  rewrite orb_false_r. destruct (Z.eqb_spec id VIRTUSB_OBJECT_ID_INVALID) as [->|Hne].
  { exists (- EINVAL), s. split; [done | ].
    destruct (k_registry s !! VIRTUSB_OBJECT_ID_INVALID) as [o|] eqn:Er; [ | done].
    destruct (oo_registry _ _ Hobj _ _ Er) as [Hid _]. unfold VIRTUSB_OBJECT_ID_INVALID in Hid. lia. }
  pose proof (object_lookup_eq _ s Hobj id) as El. destruct (k_registry s !! id) as [o|] eqn:Er.
  - destruct (oo_registry _ _ Hobj id o Er) as (_ & ov & Ho & Hreg & _).
    destruct (shutdown_round _ s id o (module_bus _ _ _ Hm) Hobj Er) as (r & s2 & Ed & Eput & _ & Edel).
    exists r, (object_drop o s2). split; [ | by rewrite Edel, lookup_delete_eq].
    unfold bind at 1. erewrite bind_eq by exact El. unfold bind at 1, load at 1.
    rewrite (object_ref_lookup s o ov Ho). cbn [ob_type set_ob_refcount]. rewrite (Ht o ov Ho Hreg).
    change (negb (Z.land VIRTUSB_DEVICE_DESTROY_FORCE VIRTUSB_DEVICE_DESTROY_FORCE =? 0)) with true.
    rewrite bool_decide_eq_false_2 by (by intros ?).
    erewrite bind_eq by exact Ed. by erewrite bind_eq by exact Eput.
  - exists (- ENOENT), s. split; [ | done]. unfold bind at 1. by erewrite bind_eq by exact El.
Qed.

Lemma destroy_outcome_gone p id env x p' : process_ok p -> pr_fds p !! fd = Some f -> usable p ->
  ioctl_outcome enc p fd (VIRTUSB_IOCTL_DEVICE_DESTROY enc)
    (ReqDeviceDestroy (mk_device_destroy_req id VIRTUSB_DEVICE_DESTROY_FORCE)) env x p' ->
  k_registry (pr_kernel p') !! id = None.
Proof using Henc.
  intros Hp Hfd (fv & c & Hf & Hc) (_ & _ & f' & r0 & k & Hfd' & E & Ek & _). assert (f' = f) as -> by congruence.
  destruct (destroy_ioctl_gone (pr_kernel p) fv c id
    (user_memory (ReqDeviceDestroy (mk_device_destroy_req id VIRTUSB_DEVICE_DESTROY_FORCE)) (ie_oom env)) env
    (po_kernel _ Hp) (po_typed _ Hp) Hf Hc eq_refl) as (r & s' & E' & Hgone).
  rewrite E' in E. injection E as _ _ <-. by rewrite Ek.
Qed.

Lemma destroy_gone_runs p id env : handle <> None -> process_ok p -> on_file p -> usable p ->
  ioctl_env_wf (pr_kernel p) env ->
  frun (virtusb_device_destroy enc handle id true env) p (fun r p' => int_result p r p' /\
    k_registry (pr_kernel p') !! id = None).
Proof using Henc.
  intros Hne Hp Hf Hu Henv. pose proof (on_file_handle p Hf) as Hok. destruct Hf as [Hfd Hh].
  unfold virtusb_device_destroy, simple_request, runs at 1. unfold bind at 1.
  rewrite (handle_fd_eq p handle Hp Hok), (Hh Hne). apply runs_bind.
  eapply runs_mono; [apply sys_ioctl_runs; try done | intros [r w] p' Hp' Ho].
  - intros E. pose proof (commands_differ enc 2 9 _ _ Henc eq_refl eq_refl ltac:(done)) as Hd.
    by rewrite E, Z.eqb_refl in Hd.
  - pose proof (destroy_outcome_gone p id env _ p' Hp Hfd Hu Ho) as Hgone.
    pose proof (outcome_errno _ _ _ _ _ _ _ _ Ho) as He. cbn in He. destruct Ho as (Hs & Hout & _).
    unfold or_errno. destruct (r <? 0).
    + apply runs_bind, runs_gets; [done | ]. apply runs_ret; [done | ]. specialize (He eq_refl).
      split; [split_and!; [lia | done..] | done].
    + apply runs_ret; [done | ]. by split; [split_and! | ].
Qed.

(** A device is only created through a usable control plane. *)
Lemma create_runs p caps env : handle <> None -> process_ok p -> on_file p -> in_width 32 caps ->
  ioctl_env_wf (pr_kernel p) env ->
  frun (virtusb_device_create enc handle caps true env) p (fun x p' => int_result p x.1 p' /\
    (x.1 = 0 <-> is_Some x.2) /\ (x.1 = 0 -> usable p')).
Proof using Henc.
  intros Hne Hp Hf Hc Henv. pose proof (on_file_handle p Hf) as Hok. destruct Hf as [Hfd Hh].
  destruct (po_files _ Hp fd f Hfd) as [fv Hfv].
  destruct (device_create_runs enc {[f]} p handle caps env Henc Hp Hok Hc Henv) as (x & p' & E & Hp' & Hr & Hi & Hx).
  exists x, p'. split_and!; [done.. | ]. intros Hz. apply (usable_reach p p'); [done | done | ]. exists fv.
  destruct (file_control (pr_kernel p) fv) as [c|] eqn:Hcon; [by exists c | exfalso].
  unfold virtusb_device_create in E. cbn [negb] in E.
  erewrite bind_eq in E by (apply (handle_fd_eq p handle Hp Hok)). rewrite (Hh Hne) in E.
  unfold bind at 1, sys_ioctl, bind at 1, gets at 1 in E. rewrite Hfd in E.
  unfold bind at 1, in_kernel, virtusb_control_ioctl in E.
  erewrite bind_eq in E by (apply (active_control_eq _ (po_kernel _ Hp) f fv Hfv)). rewrite Hcon in E.
  vm_compute in E. injection E as <- _. done.
Qed.

(** A call, and the exit when it fails. *)
Lemma step_or_fail {B} x (call : ioctl_env -> U Z) (bad : Z -> U B) (k : U B) Q : after_talk Q ->
  site_ok enc f x -> call_talks false call (fun r => r <= 0) -> (forall r, does (bad r) Q) -> does k Q ->
  does (r <- at_site x call ;; if r <? 0 then bad r else k) Q.
Proof.
  intros HQ Hx Hc Hb Hk. eapply does_bind; [done | by apply at_site_does | ].
  intros r _. by destruct (r <? 0).
Qed.

(** *** Leaving *)

(** The process is as before, apart from what it said, and no object has the ID. *)
Definition gone p (id : Z) p' : Prop :=
  same_tables p p' /\ (exists new, pr_output p' = pr_output p ++ new /\ to_stdout new) /\
  k_registry (pr_kernel p') !! id = None.
Definition leaves (id : Z) {A} (m : U A) : Prop :=
  forall p, process_ok p -> on_file p -> usable p -> frun m p (fun _ p' => gone p id p').

Lemma leaves_destroy x id : handle <> None -> site_ok enc f x ->
  leaves id (at_site x (virtusb_device_destroy enc handle id true)).
Proof using Henc.
  intros Hne Hx p Hp Hf Hu. apply at_site_runs; [done | done | ]. intros k Hk Hr He.
  eapply runs_mono; [apply (destroy_gone_runs (set_pr_kernel k p)); try done | ].
  - by apply (usable_reach p).
  - intros r p' _ [(_ & Hs & Eo) Hgone]. split_and!; [done | | done]. exists []. rewrite app_nil_r.
    split; [done | constructor].
Qed.
Lemma leaves_bind id {A B} (m : U A) (P : A -> Prop) (k : A -> U B) : talks m P ->
  (forall a, leaves id (k a)) -> leaves id (bind m k).
Proof.
  intros Hm Hk p Hp Hf Hu. apply runs_bind. eapply runs_mono_reach; [by apply Hm | ].
  intros a p1 Hp1 Hr (Hs1 & l1 & E1 & Hl1 & _).
  eapply runs_mono; [apply (Hk a p1 Hp1); [by eapply on_file_same | by apply (usable_reach p)] | ].
  intros b p2 _ (Hs2 & (l2 & E2 & Hl2) & Hgone). split_and!; [by apply same_tables_trans with p1 | | done].
  exists (l1 ++ l2). rewrite E2, E1, app_assoc. split; [done | by apply to_stdout_app].
Qed.
Lemma leaves_ret id {A B} (m : U A) (b : B) : leaves id m -> leaves id (_ <- m ;; ret b).
Proof.
  intros Hm p Hp Hf Hu. apply runs_bind. eapply runs_mono; [by apply Hm | ].
  intros a p' Hp' Hg. by apply runs_ret.
Qed.

(** The exit of a session with the device [x.2]: [x.1] is the exit code, if it
    has one. *)
Definition session_exit p (x : option Z * Z) p' : Prop :=
  same_tables p p' /\ (exists new, pr_output p' = pr_output p ++ new /\ printed_by x.1 new) /\
  (x.1 <> None -> x.2 <> VIRTUSB_INVALID_OBJECT_ID -> k_registry (pr_kernel p') !! x.2 = None).

(** The last part of a session. *)
Definition finishes (id : Z) (code : option Z) {C} (view : C -> option Z * Z) (m : U C) : Prop :=
  forall p, process_ok p -> on_file p -> (id <> VIRTUSB_INVALID_OBJECT_ID -> usable p) ->
    frun m p (fun c p' => same_tables p p' /\ (exists new, pr_output p' = pr_output p ++ new /\ to_stdout new) /\
      view c = (code, id) /\
      (code <> None -> id <> VIRTUSB_INVALID_OBJECT_ID -> k_registry (pr_kernel p') !! id = None)).

(** Cleaning up when there is a device. *)
Lemma finishes_cleanup {C} id code (view : C -> option Z * Z) (clean : U unit) (c : C) : view c = (code, id) ->
  (id = VIRTUSB_INVALID_OBJECT_ID -> clean = ret tt) -> (id <> VIRTUSB_INVALID_OBJECT_ID -> leaves id clean) ->
  finishes id code view (clean ;; ret c).
Proof.
  intros Hv Hno Hyes p Hp Hf Hu. apply runs_bind. destruct (decide (id = VIRTUSB_INVALID_OBJECT_ID)) as [E|Hid].
  - rewrite (Hno E). apply runs_ret; [done | ]. apply runs_ret; [done | ]. split_and!; [done | | done | done].
    exists []. rewrite app_nil_r. split; [done | constructor].
  - eapply runs_mono; [by apply (Hyes Hid p Hp Hf (Hu Hid)) | ].
    intros [] p' Hp' (Hs & Hl & Hgone). apply runs_ret; [done | ]. by split_and!.
Qed.
Lemma finishes_waiting {C} id (view : C -> option Z * Z) (c : C) : view c = (None, id) ->
  finishes id None view (ret c).
Proof.
  intros Hv p Hp Hf _. apply runs_ret; [done | ]. split_and!; [done | | done | done].
  exists []. rewrite app_nil_r. split; [done | constructor].
Qed.

(** A session: creating the device, using it, and the rest. *)
Lemma session_exits {B C} x (bad : Z -> U B) (body : Z -> U B) (finish : Z -> B -> U C)
    (code : B -> option Z) (view : C -> option Z * Z) p : handle <> None ->
  site_ok enc f x -> (forall r, does (bad r) (fun b new => printed_by (code b) new)) ->
  (forall id, does (body id) (fun b new => printed_by (code b) new)) ->
  (forall id b, finishes id (code b) view (finish id b)) -> process_ok p -> on_file p ->
  frun (both r, created <- at_site x (virtusb_device_create enc handle VIRTUSB_DEVICE_SPEED_FULL true) ;;
        let id := default VIRTUSB_INVALID_OBJECT_ID created in
        b <- (if r <? 0 then bad r else body id) ;; finish id b) p (fun c p' => session_exit p (view c) p').
Proof using Henc.
  intros Hne Hx Hbad Hbody Hfin Hp Hf. apply runs_bind. apply at_site_runs; [done | done | ].
  intros k Hk Hr He. eapply runs_mono; [apply (create_runs (set_pr_kernel k p)); try done | ].
  intros [r created] p1 Hp1 ((Hle & Hs1 & Eo1) & Hc & Hu). cbn [fst snd] in *. cbn in Eo1. cbv zeta.
  assert (Hf1 : on_file p1) by (apply (on_file_same p); done).
  set (id := default VIRTUSB_INVALID_OBJECT_ID created).
  assert (Hu1 : id <> VIRTUSB_INVALID_OBJECT_ID -> usable p1).
  { intros Hid. apply Hu, Hc. unfold id in Hid. destruct created; [by eexists | done]. }
  assert (Hb : does (if r <? 0 then bad r else body id) (fun b new => printed_by (code b) new))
    by (destruct (r <? 0); [apply Hbad | apply Hbody]).
  apply runs_bind. eapply runs_mono_reach; [by apply Hb | ]. intros b p2 Hp2 Hr2 (Hs2 & l & E2 & Hl).
  eapply runs_mono; [apply (Hfin id b p2 Hp2); [by eapply on_file_same | ] | ].
  { intros Hid. by apply (usable_reach p1 p2), Hu1. }
  intros c p3 Hp3 (Hs3 & (l3 & E3 & Hl3) & Ev & Hgone). unfold session_exit. rewrite Ev. split_and!; [ | | done].
  - apply (same_tables_trans p p2); [by apply (same_tables_trans p p1) | done].
  - exists (l ++ l3). rewrite E3, E2, Eo1, app_assoc. split; [done | by apply printed_by_snoc].
Qed.
End logic.
