(* ===== verification/Ctl.v ===== *)
(** * virtusbctl (tools/virtusbctl/main.c)

    The command-line tool on top of the library: printing, parsing of
    arguments, the commands and [main].  What it prints is appended to the
    output of the process.  [strerror] is a parameter. *)

From S2P Require Import Prelude Uapi Kernel Port Hub Object Device Transfer Backend Hcd Control ModuleSpec Text Lib Program.

(** ** Printing *)

Definition virtusbctl_print_usage (program : string) : U unit :=
  print Stderr (
    "Usage:" +:+ nl +:+
    "  " +:+ program +:+ " [-d INSTANCE] status [PORT]" +:+ nl +:+
    "  " +:+ program +:+ " [-d INSTANCE] device create SPEED[,SPEED...]" +:+ nl +:+
    "  " +:+ program +:+ " [-d INSTANCE] device destroy OBJECT_ID [--force]" +:+ nl +:+
    "  " +:+ program +:+ " [-d INSTANCE] device attach OBJECT_ID PORT" +:+ nl +:+
    "  " +:+ program +:+ " [-d INSTANCE] device detach OBJECT_ID" +:+ nl +:+
    "  " +:+ program +:+ " [-d INSTANCE] device connect OBJECT_ID" +:+ nl +:+
    "  " +:+ program +:+ " [-d INSTANCE] device disconnect OBJECT_ID" +:+ nl +:+
    "  " +:+ program +:+ " [-d INSTANCE] port power PORT on|off" +:+ nl).

Definition virtusbctl_speed_name (speed : virtusb_speed) : string :=
  match speed with
  | VIRTUSB_SPEED_NONE => "none"
  | VIRTUSB_SPEED_LOW => "low"
  | VIRTUSB_SPEED_FULL => "full"
  | VIRTUSB_SPEED_HIGH => "high"
  end.

(** PRINT_STATUS_FLAG and PRINT_CHANGE_FLAG; the result is the new [first]. *)
Definition print_flag (value flag : Z) (name : string) (first : bool) : U bool :=
  if negb (Z.land value flag =? 0) then
    print Stdout ((if first then EmptyString else ",") +:+ name) ;; ret false
  else ret first.

Definition virtusbctl_print_status_flags (status : Z) : U unit :=
  first <- print_flag status VIRTUSB_STATUS_CONNECTED "connected" true ;;
  first <- print_flag status VIRTUSB_STATUS_ENABLED "enabled" first ;;
  first <- print_flag status VIRTUSB_STATUS_SUSPENDED "suspended" first ;;
  first <- print_flag status VIRTUSB_STATUS_OVER_CURRENT "over-current" first ;;
  first <- print_flag status VIRTUSB_STATUS_RESET "reset" first ;;
  first <- print_flag status VIRTUSB_STATUS_POWER "power" first ;;
  if first : bool then print Stdout "none" else ret tt.

Definition virtusbctl_print_change_flags (change : Z) : U unit :=
  first <- print_flag change VIRTUSB_CHANGE_CONNECTED "connected" true ;;
  first <- print_flag change VIRTUSB_CHANGE_ENABLED "enabled" first ;;
  first <- print_flag change VIRTUSB_CHANGE_SUSPENDED "suspended" first ;;
  first <- print_flag change VIRTUSB_CHANGE_OVER_CURRENT "over-current" first ;;
  first <- print_flag change VIRTUSB_CHANGE_RESET "reset" first ;;
  if first : bool then print Stdout "none" else ret tt.

Definition virtusbctl_print_state (label : string) (state : virtusb_state) : U unit :=
  print Stdout (pad_right 8 " "%char label +:+ " status=0x" +:+ format_08x (vs_status state) +:+ " [") ;;
  virtusbctl_print_status_flags (vs_status state) ;;
  print Stdout ("] change=0x" +:+ format_08x (vs_change state) +:+ " [") ;;
  virtusbctl_print_change_flags (vs_change state) ;;
  print Stdout ("] speed=" +:+ virtusbctl_speed_name (vs_speed state) +:+ nl).

(** ** Parsing

    A C string has no NUL character inside; [unsigned long] has 64 bits.  The
    output pointer of both functions is the address of a local variable. *)

Definition virtusbctl_parse_unsigned (text : option string) : result Z :=
  match text with
  | None => Err (- EINVAL)
  | Some text =>
      if bool_decide (text = EmptyString) then Err (- EINVAL)
      else
        let '(parsed, rest, errno) := strtoul text in
        if negb (errno =? 0) || bool_decide (rest <> EmptyString) || (U32_MAX <? parsed)
        then Err (- EINVAL)
        else Ok (u32 parsed)
  end.

(** The loop over the tokens. *)
Fixpoint parse_caps (fuel : nat) (position : string) (caps : Z) : option (result Z) :=
  match fuel with
  | O => None
  | Datatypes.S fuel =>
      match strtok_r ","%char position with
      | (None, _) => Some (Ok caps)
      | (Some token, position) =>
          if bool_decide (token = "low") then
            parse_caps fuel position (Z.lor caps VIRTUSB_DEVICE_SPEED_LOW)
          else if bool_decide (token = "full") then
            parse_caps fuel position (Z.lor caps VIRTUSB_DEVICE_SPEED_FULL)
          else if bool_decide (token = "high") then
            parse_caps fuel position (Z.lor caps VIRTUSB_DEVICE_SPEED_HIGH)
          else Some (Err (- EINVAL))
      end
  end.
(** [sizeof(buffer)] *)
Definition caps_buffer_size : Z := 64.
Definition virtusbctl_parse_speed_caps (text : option string) : option (result Z) :=
  match text with
  | None => Some (Err (- EINVAL))
  | Some text =>
      let length := Z.of_nat (strlen text) in
      if (length =? 0) || (caps_buffer_size <=? length) then Some (Err (- EINVAL))
      else
        match parse_caps (S (strlen text)) text 0 with
        | Some (Ok caps) => Some (if caps =? 0 then Err (- EINVAL) else Ok caps)
        | other => other
        end
  end.

(** ** Commands *)

Section commands.
Context (enc : ioctl_encoding) (strerror : Z -> string).

(** What the system does for the open, and for the ioctl after it. *)
Record ctl_env := mk_ctl_env {
  cl_open : open_env;
  cl_ioctl : ioctl_env;
}.

(** The beginning of every command. *)
Definition print_open_failure (instance r : Z) : U Z :=
  print Stderr ("Failed to open /dev/virtusb" +:+ format_u instance +:+ ": " +:+ strerror (- r) +:+ nl) ;;
  ret EXIT_FAILURE.
(** [fprintf(stderr, "...: %s\n", strerror(-ret)); virtusb_close(handle);] *)
Definition fail_and_close (text : string) (r : Z) (handle : option handle_ptr) : U Z :=
  print Stderr (text +:+ ": " +:+ strerror (- r) +:+ nl) ;;
  virtusb_close handle ;;
  ret EXIT_FAILURE.
Definition print_and_close (text : string) (handle : option handle_ptr) : U Z :=
  print Stdout (text +:+ nl) ;; virtusb_close handle ;; ret EXIT_SUCCESS.

Definition virtusbctl_device_create (instance speed_caps : Z) (env : ctl_env) : U Z :=
  both r, handle <- virtusb_open instance true (cl_open env) ;;
  if r <? 0 then print_open_failure instance r
  else
    both r, object_id <- virtusb_device_create enc handle speed_caps true (cl_ioctl env) ;;
    if r <? 0 then fail_and_close "Failed to create device" r handle
    else
      match object_id with
      | None => stuck
      | Some object_id => print_and_close ("Device created: " +:+ format_u object_id) handle
      end.

Definition virtusbctl_device_destroy (instance object_id : Z) (force : bool) (env : ctl_env) : U Z :=
  both r, handle <- virtusb_open instance true (cl_open env) ;;
  if r <? 0 then print_open_failure instance r
  else
    r <- virtusb_device_destroy enc handle object_id force (cl_ioctl env) ;;
    if r <? 0 then fail_and_close ("Failed to destroy device " +:+ format_u object_id) r handle
    else print_and_close ("Device destroyed: " +:+ format_u object_id +:+
                            (if force then " (forced)" else EmptyString)) handle.

Definition virtusbctl_device_attach (instance object_id port : Z) (env : ctl_env) : U Z :=
  both r, handle <- virtusb_open instance true (cl_open env) ;;
  if r <? 0 then print_open_failure instance r
  else
    r <- virtusb_device_attach enc handle object_id 0 port (cl_ioctl env) ;;
    if r <? 0 then
      fail_and_close ("Failed to attach device " +:+ format_u object_id +:+ " to port " +:+ format_u port) r handle
    else print_and_close ("Device " +:+ format_u object_id +:+ " attached to port " +:+ format_u port) handle.

Definition virtusbctl_device_detach (instance object_id : Z) (env : ctl_env) : U Z :=
  both r, handle <- virtusb_open instance true (cl_open env) ;;
  if r <? 0 then print_open_failure instance r
  else
    r <- virtusb_device_detach enc handle object_id (cl_ioctl env) ;;
    if r <? 0 then fail_and_close ("Failed to detach device " +:+ format_u object_id) r handle
    else print_and_close ("Device detached: " +:+ format_u object_id) handle.

Definition virtusbctl_device_connection (instance object_id : Z) (connected : bool) (env : ctl_env) : U Z :=
  both r, handle <- virtusb_open instance true (cl_open env) ;;
  if r <? 0 then print_open_failure instance r
  else
    r <- virtusb_device_set_connected enc handle object_id connected (cl_ioctl env) ;;
    if r <? 0 then
      fail_and_close ("Failed to " +:+ (if connected then "connect" else "disconnect") +:+
                        " device " +:+ format_u object_id) r handle
    else print_and_close ("Device " +:+ (if connected then "connected" else "disconnected") +:+
                            ": " +:+ format_u object_id) handle.

Definition virtusbctl_port_power (instance port : Z) (powered : bool) (env : ctl_env) : U Z :=
  both r, handle <- virtusb_open instance true (cl_open env) ;;
  if r <? 0 then print_open_failure instance r
  else
    r <- virtusb_set_port_power enc handle 0 port powered (cl_ioctl env) ;;
    if r <? 0 then
      fail_and_close ("Failed to set port " +:+ format_u port +:+ " power " +:+
                        (if powered then "on" else "off")) r handle
    else print_and_close ("Port " +:+ format_u port +:+ " power: " +:+
                            (if powered then "on" else "off")) handle.

(** [snprintf(label, sizeof(label), "port %u:", port)] with a label of 32 bytes. *)
Definition port_label (port : Z) : string := fst (snprintf 32 ("port " +:+ format_u (u32 port) +:+ ":")).

(** The loop [for (i = 0; i < status.port_count; ++i)] over [status.ports]. *)
Definition print_ports (status : virtusb_status) : U unit :=
  _ <- for_range 0 (vt_port_count status) (fun i =>
    match vt_ports status !! Z.to_nat i with
    | None => stuck
    | Some state => virtusbctl_print_state (port_label (i + 1)) state ;; ret (@None unit)
    end) ;;
  ret tt.

Definition virtusbctl_status (instance port : Z) (env : ctl_env) : U Z :=
  both r, handle <- virtusb_open instance true (cl_open env) ;;
  if r <? 0 then print_open_failure instance r
  else
    both r, status <- virtusb_get_port_status enc handle 0 port true (cl_ioctl env) ;;
    if r <? 0 then fail_and_close ("Failed to query port " +:+ format_u port) r handle
    else
      match status with
      | None => stuck
      | Some status =>
          device_path <- virtusb_get_device_path handle ;;
          print Stdout ("Device: " +:+ default "<unknown>" device_path +:+ nl) ;;
          print Stdout ("Hub:    " +:+ format_u (vt_hub_id status) +:+ nl) ;;
          (if port =? 0 then
             print Stdout ("Ports:  " +:+ format_u (vt_port_count status) +:+ nl +:+ nl) ;;
             virtusbctl_print_state "hub:" (vt_state status) ;;
             print_ports status
           else
             print Stdout ("Port:   " +:+ format_u (vt_port status) +:+ nl +:+ nl) ;;
             virtusbctl_print_state (port_label (vt_port status)) (vt_state status)) ;;
          virtusb_close handle ;;
          ret EXIT_SUCCESS
      end.

(** ** main *)

Section main.
Context (argv : list string) (env : ctl_env).
Definition argc : nat := length argv.

Definition arg_is (i : nat) (s : string) : U bool := a <- arg argv i ;; ret (bool_decide (a = s)).

Definition usage : U Z := program <- arg argv 0 ;; virtusbctl_print_usage program ;; ret EXIT_FAILURE.
Definition complain (text : string) : U Z := print Stderr (text +:+ nl) ;; ret EXIT_FAILURE.

(** The checks of an argument: it is there, is a number, and is in range. *)
Definition checked_argument (in_range : Z -> bool) (i : nat) : option Z :=
  if (argc <=? i)%nat then None
  else
    match virtusbctl_parse_unsigned (argv !! i) with
    | Err _ => None
    | Ok value => if in_range value then Some value else None
    end.
Definition object_argument : nat -> option Z :=
  checked_argument (fun value => negb (value =? VIRTUSB_INVALID_OBJECT_ID)).
Definition port_argument : nat -> option Z :=
  checked_argument (fun port => negb ((port =? 0) || (VIRTUSB_MAX_PORTS <? port))).

(** The last check of a command: no argument is left. *)
Definition run_at_end (argument : nat) (command : U Z) : U Z :=
  if (argument =? argc)%nat then command else usage.

(** "status [PORT]", from the argument behind "status". *)
Definition main_status (instance : Z) (argument : nat) : U Z :=
  if (argument <? argc)%nat then
    text <- arg argv argument ;;
    match virtusbctl_parse_unsigned (Some text) with
    | Err _ => complain ("Invalid port: " +:+ text)
    | Ok port =>
        if VIRTUSB_MAX_PORTS <? port then complain ("Invalid port: " +:+ text)
        else run_at_end (S argument) (virtusbctl_status instance port env)
    end
  else run_at_end argument (virtusbctl_status instance 0 env).

(** "port power PORT on|off" *)
Definition main_port (instance : Z) (argument : nat) : U Z :=
  power <- (if (argc <=? argument)%nat then ret false else arg_is argument "power") ;;
  if negb power then usage
  else
    match port_argument (S argument) with
    | None => complain "Invalid port"
    | Some port =>
        let argument := S (S argument) in
        if (argc <=? argument)%nat then usage
        else
          text <- arg argv argument ;;
          if bool_decide (text = "on") then
            run_at_end (S argument) (virtusbctl_port_power instance port true env)
          else if bool_decide (text = "off") then
            run_at_end (S argument) (virtusbctl_port_power instance port false env)
          else complain "Power state must be 'on' or 'off'"
    end.

(** The commands behind "device"; [argument] is the one behind the command. *)
Definition main_create (instance : Z) (argument : nat) : U Z :=
  match (if (argc <=? argument)%nat then Some (Err (- EINVAL))
         else virtusbctl_parse_speed_caps (argv !! argument)) with
  | None => stuck
  | Some (Err _) => complain "Invalid device speed capability list"
  | Some (Ok speed_caps) =>
      run_at_end (S argument) (virtusbctl_device_create instance speed_caps env)
  end.

Definition main_destroy (instance : Z) (argument : nat) : U Z :=
  match object_argument argument with
  | None => complain "Invalid object ID"
  | Some value =>
      let argument := S argument in
      force <- (if (argument <? argc)%nat then arg_is argument "--force" else ret false) ;;
      run_at_end (if force : bool then S argument else argument)
        (virtusbctl_device_destroy instance value force env)
  end.

Definition main_attach (instance : Z) (argument : nat) : U Z :=
  match object_argument argument with
  | None => complain "Invalid object ID"
  | Some value =>
      match port_argument (S argument) with
      | None => complain "Invalid port"
      | Some port => run_at_end (S (S argument)) (virtusbctl_device_attach instance value port env)
      end
  end.

(** detach, connect and disconnect *)
Definition main_object (argument : nat) (command : Z -> U Z) : U Z :=
  match object_argument argument with
  | None => complain "Invalid object ID"
  | Some value => run_at_end (S argument) (command value)
  end.

Definition main_device (instance : Z) (argument : nat) : U Z :=
  if (argc <=? argument)%nat then usage
  else
    command <- arg argv argument ;;
    let argument := S argument in
    if bool_decide (command = "create") then main_create instance argument
    else if bool_decide (command = "destroy") then main_destroy instance argument
    else if bool_decide (command = "attach") then main_attach instance argument
    else if bool_decide (command = "detach") then
      main_object argument (fun value => virtusbctl_device_detach instance value env)
    else if bool_decide (command = "connect") || bool_decide (command = "disconnect") then
      main_object argument (fun value =>
        virtusbctl_device_connection instance value (bool_decide (command = "connect")) env)
    else usage.

(** From the first argument behind the option. *)
Definition main_command (instance : Z) (argument : nat) : U Z :=
  if (argc <=? argument)%nat then usage
  else
    command <- arg argv argument ;;
    if bool_decide (command = "status") then main_status instance (S argument)
    else if bool_decide (command = "port") then main_port instance (S argument)
    else if bool_decide (command <> "device") then usage
    else main_device instance (S argument).

Definition main : U Z :=
  option_d <- (if (1 <? argc)%nat then arg_is 1 "-d" else ret false) ;;
  if option_d : bool then
    if (argc <=? 2)%nat then usage
    else
      text <- arg argv 2 ;;
      match virtusbctl_parse_unsigned (Some text) with
      | Err _ => complain ("Invalid instance: " +:+ text)
      | Ok instance => main_command instance 3
      end
  else main_command 0 1.
End main.
End commands.
