(* ===== verification/CtlSpec.v ===== *)
(** * What virtusbctl parses, prints and leaves behind *)

From S2P Require Import Prelude Uapi Kernel Port Hub Object Device Transfer Backend BackendInv BackendOps Hcd HcdSpec UrbSpec Control ControlSpec ModuleSpec Config Text Lib LibSpec Program ProgramSpec Ctl.

(** ** Printing *)

(** A computation that only writes to the standard output. *)
Definition writes {A} (m : U A) : Prop := forall p, exists a new,
  m p = Some (a, set_pr_output (pr_output p ++ new) p) /\ Forall (fun x => x.1 = Stdout) new.

Lemma output_app p a b :
  set_pr_output ((pr_output (set_pr_output (pr_output p ++ a) p)) ++ b) (set_pr_output (pr_output p ++ a) p) =
  set_pr_output (pr_output p ++ a ++ b) p.
Proof. unfold set_pr_output. cbn. by rewrite app_assoc. Qed.

Lemma writes_ret {A} (a : A) : writes (ret a).
Proof. intros p. exists a, []. split; [ | constructor]. rewrite app_nil_r. by destruct p. Qed.
Lemma writes_bind {A B} (m : U A) (k : A -> U B) : writes m -> (forall a, writes (k a)) -> writes (bind m k).
Proof.
  intros Hm Hk p. destruct (Hm p) as (a & l1 & E1 & H1).
  destruct (Hk a (set_pr_output (pr_output p ++ l1) p)) as (b & l2 & E2 & H2).
  exists b, (l1 ++ l2). split; [ | by apply Forall_app]. unfold bind. rewrite E1, E2. by rewrite output_app.
Qed.
Lemma writes_print text : writes (print Stdout text).
Proof. intros p. exists tt, [(Stdout, text)]. split; [done | by repeat constructor]. Qed.

Create HintDb writes.
#[export] Hint Resolve writes_ret writes_print : writes.
Ltac write_step :=
  lazymatch goal with
  | |- writes (bind _ _) => apply writes_bind; [ | intros ?]
  | |- writes (if ?b then _ else _) => destruct b
  | |- writes _ => solve [auto with writes nocore]
  end.
Ltac writing := repeat write_step.

Lemma writes_print_flag value flag name first : writes (print_flag value flag name first).
Proof. unfold print_flag. writing. Qed.
#[export] Hint Resolve writes_print_flag : writes.
Lemma writes_status_flags status : writes (virtusbctl_print_status_flags status).
Proof. unfold virtusbctl_print_status_flags. writing. Qed.
Lemma writes_change_flags change : writes (virtusbctl_print_change_flags change).
Proof. unfold virtusbctl_print_change_flags. writing. Qed.
#[export] Hint Resolve writes_status_flags writes_change_flags : writes.
Lemma writes_print_state label state : writes (virtusbctl_print_state label state).
Proof. unfold virtusbctl_print_state. writing. Qed.
#[export] Hint Resolve writes_print_state : writes.

(** The array has an element for every port that is counted. *)
Lemma writes_print_ports status : vt_port_count status <= Z.of_nat (length (vt_ports status)) ->
  writes (print_ports status).
Proof.
  intros Hlen. unfold print_ports. apply writes_bind; [ | intros ?; apply writes_ret]. unfold for_range.
  set (body := fun i : Z => _). assert (Hbody : forall i, 0 <= i < vt_port_count status -> writes (body i)).
  { intros i Hi. unfold body. destruct (lookup_lt_is_Some_2 (vt_ports status) (Z.to_nat i)) as [st ->]; [lia | ]. writing. }
  assert (Hnone : forall i p, 0 <= i < vt_port_count status -> exists new,
    body i p = Some (None, set_pr_output (pr_output p ++ new) p) /\ Forall (fun x => x.1 = Stdout) new).
  { intros i p Hi. destruct (Hbody i Hi p) as (a & new & E & Hn). exists new. split; [ | done].
    destruct a as [[]|]; [ | done]. exfalso. revert E. unfold body.
    destruct (vt_ports status !! Z.to_nat i); [ | done]. unfold bind.
    by destruct (virtusbctl_print_state _ _ p) as [[? ?]|]. }
  assert (H : forall n i, 0 <= i -> i + Z.of_nat n <= Z.max 0 (vt_port_count status) -> writes (for_from n i body)).
  { induction n as [|n IH]; intros i Hi Hn; [apply writes_ret | ]. intros p. cbn [for_from]. unfold bind.
    destruct (Hnone i p ltac:(lia)) as (l1 & -> & H1).
    destruct (IH (i + 1) ltac:(lia) ltac:(lia) (set_pr_output (pr_output p ++ l1) p)) as (r & l2 & -> & H2).
    exists r, (l1 ++ l2). rewrite output_app. split; [done | by apply Forall_app]. }
  apply H; lia.
Qed.

(** ** Commands *)

Section commands.
Context (enc : ioctl_encoding) (Henc : NoDup (commands enc)) (strerror : Z -> string).
Implicit Types p : process.

(** The exit of a command that has the handle [h] open. *)
Definition closed p (h : handle_ptr) (r : Z) p' : Prop :=
  pr_handles p' = delete h (pr_handles p) /\
  (exists hd, pr_handles p !! h = Some hd /\ pr_fds p' = delete (hd_fd hd) (pr_fds p)) /\
  exists new, pr_output p' = pr_output p ++ new /\ printed r new.
(** The exit of the program. *)
Definition finished p (r : Z) p' : Prop :=
  same_tables p p' /\ exists new, pr_output p' = pr_output p ++ new /\ printed r new.

Lemma writes_runs {A} (m : U A) p (Q : A -> process -> Prop) : process_ok p -> writes m ->
  (forall a new, Forall (fun x => x.1 = Stdout) new -> Q a (set_pr_output (pr_output p ++ new) p)) ->
  runs enc ∅ m p Q.
Proof.
  intros Hp Hm HQ. destruct (Hm p) as (a & new & E & Hn). exists a, (set_pr_output (pr_output p ++ new) p).
  split_and!; [done | by apply process_set_output | done | by apply HQ].
Qed.

(** Closing after some output; [p0] is the process when the command began. *)
Lemma close_and_exit p h r new : process_ok p -> is_Some (pr_handles p !! h) -> printed r new ->
  forall p0, same_tables p0 p -> pr_output p = pr_output p0 ++ new ->
  runs enc ∅ (virtusb_close (Some h) ;; ret r) p (closed p0 h).
Proof.
  intros Hp Hh Hr p0 [E1 E2] Eo. apply runs_bind. eapply runs_mono; [by apply virtusb_close_runs | ].
  intros [] p' Hp' (Eout & Ehan & hd & f & Hhd & _ & Efd & _). apply runs_ret; [done | ].
  split_and!; [by rewrite Ehan, E2 | exists hd; by rewrite <- E2, Efd, E1 | ].
  exists new. by rewrite Eout, Eo.
Qed.

Lemma fail_and_close_runs text e p h : process_ok p -> is_Some (pr_handles p !! h) ->
  forall p0, same_tables p0 p -> pr_output p = pr_output p0 ->
  runs enc ∅ (fail_and_close strerror text e (Some h)) p (closed p0 h).
Proof.
  intros Hp Hh p0 Hs Eo. unfold fail_and_close, print. apply runs_bind, runs_modify; [by apply process_set_output | done | ].
  eapply close_and_exit; [by apply process_set_output | done | | done | cbn; by rewrite Eo].
  right. split; [done | ]. eexists. by left.
Qed.
Lemma print_and_close_runs text p h : process_ok p -> is_Some (pr_handles p !! h) ->
  forall p0, same_tables p0 p -> pr_output p = pr_output p0 ->
  runs enc ∅ (print_and_close text (Some h)) p (closed p0 h).
Proof.
  intros Hp Hh p0 Hs Eo. unfold print_and_close, print. apply runs_bind, runs_modify; [by apply process_set_output | done | ].
  eapply close_and_exit; [by apply process_set_output | done | | done | cbn; by rewrite Eo].
  left. split; [done | by repeat constructor].
Qed.

(** What the system guarantees to one run of the program. *)
Definition ctl_env_wf p (env : ctl_env) : Prop :=
  open_env_wf p (cl_open env) /\ ioctl_env_wf (pr_kernel p) (cl_ioctl env).

(** The frame of every command. *)
Lemma command_runs p instance env (body : option handle_ptr -> U Z) :
  process_ok p -> ctl_env_wf p env -> in_width 32 instance ->
  (forall h p1, process_ok p1 -> is_Some (pr_handles p1 !! h) -> ioctl_env_wf (pr_kernel p1) (cl_ioctl env) ->
     runs enc ∅ (body (Some h)) p1 (closed p1 h)) ->
  runs enc ∅ (both r, handle <- virtusb_open instance true (cl_open env) ;;
            if r <? 0 then print_open_failure strerror instance r else body handle) p (finished p).
Proof.
  intros Hp [How Hio] Hi Hbody. apply runs_bind.
  eapply runs_mono; [by apply virtusb_open_runs | ].
  intros [r out] p1 Hp1 (Eo & [(Hneg & _ & Hs)|(h & c & [= -> ->] & Eh & _ & _ & Ef & Ehan & Ek)]); cbn in *.
  - rewrite (proj2 (Z.ltb_lt r 0) Hneg). unfold print_open_failure, print.
    apply runs_bind, runs_modify; [by apply process_set_output | done | ].
    apply runs_ret; [by apply process_set_output | ]. split; [done | ]. eexists. cbn. rewrite Eo. split; [done | ].
    right. split; [done | ]. eexists. by left.
  - eapply runs_mono; [apply Hbody; [done | | ] | ].
    + rewrite Ehan, lookup_insert_eq. by eexists.
    + by rewrite Ek.
    + intros r' p2 Hp2 (E1 & (hd & Hhd & E2) & new & E3 & Hr). rewrite Ehan, lookup_insert_eq in Hhd. injection Hhd as <-.
      cbn in E2. split; [split | ].
      * rewrite E2, Ef. apply delete_insert_id, How.
      * rewrite E1, Ehan. apply delete_insert_id. by apply (ow_handle _ _ How).
      * exists new. by rewrite E3, Eo.
Qed.

(** A command with one request that has no result. *)
Lemma simple_command_runs p h n c q env failure success : process_ok p -> is_Some (pr_handles p !! h) ->
  ioctl_env_wf (pr_kernel p) env -> commands enc !! n = Some c -> n <> 9%nat -> request_wf q ->
  runs enc ∅ (r <- simple_request enc (Some h) c q env ;;
            if r <? 0 then fail_and_close strerror failure r (Some h) else print_and_close success (Some h))
    p (closed p h).
Proof.
  intros Hp Hh Henv Hn Hne Hq. apply runs_bind. eapply runs_mono; [apply simple_request_runs; try done | ].
  - intros ->. apply Hne. by apply (NoDup_lookup (commands enc) n 9 (VIRTUSB_IOCTL_TRANSFER_FETCH enc)).
  - intros r p' Hp' (_ & Hs & Eo). destruct (r <? 0);
      [apply fail_and_close_runs | apply print_and_close_runs]; try done; by rewrite (proj2 Hs).
Qed.

Lemma device_create_command_runs p instance caps env : process_ok p -> ctl_env_wf p env ->
  in_width 32 instance -> in_width 32 caps ->
  runs enc ∅ (virtusbctl_device_create enc strerror instance caps env) p (finished p).
Proof.
  intros Hp Hw Hi Hc. unfold virtusbctl_device_create.
  apply command_runs; [done.. | ].
  intros h p1 Hp1 Hh Henv. apply runs_bind. eapply runs_mono; [by apply device_create_runs | ].
  intros [r out] p2 Hp2 [(Hle & Hs & Eo) Hout]. cbn in *. destruct (Z.ltb_spec r 0) as [Hneg|Hpos].
  - apply fail_and_close_runs; try done. by rewrite (proj2 Hs).
  - destruct Hout as [Hout _]. destruct (Hout ltac:(lia)) as [id ->].
    apply print_and_close_runs; try done. by rewrite (proj2 Hs).
Qed.

Lemma device_destroy_command_runs p instance id force env : process_ok p -> ctl_env_wf p env ->
  in_width 32 instance -> runs enc ∅ (virtusbctl_device_destroy enc strerror instance id force env) p (finished p).
Proof.
  intros Hp Hw Hi. unfold virtusbctl_device_destroy.
  apply command_runs; [done.. | ]. intros h p1 Hp1 Hh Henv.
  apply (simple_command_runs p1 h 2); done.
Qed.

Lemma device_attach_command_runs p instance id port env : process_ok p -> ctl_env_wf p env ->
  in_width 32 instance -> runs enc ∅ (virtusbctl_device_attach enc strerror instance id port env) p (finished p).
Proof.
  intros Hp Hw Hi. unfold virtusbctl_device_attach.
  apply command_runs; [done.. | ]. intros h p1 Hp1 Hh Henv.
  apply (simple_command_runs p1 h 3); done.
Qed.

Lemma device_detach_command_runs p instance id env : process_ok p -> ctl_env_wf p env ->
  in_width 32 instance -> runs enc ∅ (virtusbctl_device_detach enc strerror instance id env) p (finished p).
Proof.
  intros Hp Hw Hi. unfold virtusbctl_device_detach.
  apply command_runs; [done.. | ]. intros h p1 Hp1 Hh Henv.
  apply (simple_command_runs p1 h 4); done.
Qed.

Lemma device_connection_command_runs p instance id connected env : process_ok p -> ctl_env_wf p env ->
  in_width 32 instance ->
  runs enc ∅ (virtusbctl_device_connection enc strerror instance id connected env) p (finished p).
Proof.
  intros Hp Hw Hi. unfold virtusbctl_device_connection.
  apply command_runs; [done.. | ]. intros h p1 Hp1 Hh Henv.
  apply (simple_command_runs p1 h 5); done.
Qed.

Lemma port_power_command_runs p instance port powered env : process_ok p -> ctl_env_wf p env ->
  in_width 32 instance -> runs enc ∅ (virtusbctl_port_power enc strerror instance port powered env) p (finished p).
Proof.
  intros Hp Hw Hi. unfold virtusbctl_port_power.
  apply command_runs; [done.. | ]. intros h p1 Hp1 Hh Henv.
  apply (simple_command_runs p1 h 6); done.
Qed.

(** The status has as many port states as it counts ports. *)
Lemma status_ports_counted p x handle hub_id port p' st : process_ok p ->
  port_status_outcome p handle hub_id port x p' -> x.2 = Some st ->
  vt_port_count st <= Z.of_nat (length (vt_ports st)).
Proof.
  intros Hp (_ & _ & _ & [[_ ->]|(fd & f & fv & c & hv & _ & _ & _ & _ & Hh & _ & _ & _ & ->)]); [done | ].
  intros [= <-]. cbn [vt_ports vt_port_count status_of].
  match goal with |- context [port_status_reply ?k ?c ?hv ?q] =>
    destruct (reply_length k c hv q (po_kernel _ Hp) Hh) as [Hc Hl]; set (reply := port_status_reply k c hv q) in * end.
  change (ps_port_count reply) with (hub_port_count hv). unfold port_states_of.
  destruct (_ =? 0); [ | unfold zero_states; rewrite length_replicate; unfold VIRTUSB_MAX_PORTS; lia].
  rewrite length_app, length_map, length_take, length_replicate, Hl.
  change (ps_port_count reply) with (hub_port_count hv). unfold VIRTUSB_MAX_PORTS. lia.
Qed.

Lemma status_command_runs p instance port env : process_ok p -> ctl_env_wf p env ->
  in_width 32 instance -> 0 <= port -> runs enc ∅ (virtusbctl_status enc strerror instance port env) p (finished p).
Proof.
  intros Hp Hw Hi Hport. unfold virtusbctl_status.
  apply command_runs; [done.. | ].
  intros h p1 Hp1 Hh Henv. apply runs_bind. eapply runs_mono; [by apply get_port_status_runs | ].
  intros x p2 Hp2 Ho. pose proof (status_ports_counted _ _ _ _ _ _ (default (mk_status 0 0 0 zero_state []) x.2) Hp1 Ho) as Hcount.
  destruct Ho as (Hs & Eo & _ & Hcase). destruct x as [r out]. cbn in *.
  assert (Hh2 : is_Some (pr_handles p2 !! h)) by (by rewrite (proj2 Hs)).
  destruct Hcase as [[Hneg _]|(fd & f & fv & c & hv & _ & _ & _ & _ & _ & _ & _ & -> & ->)].
  { rewrite (proj2 (Z.ltb_lt r 0) Hneg). by apply fail_and_close_runs. }
  cbn [Z.ltb Z.compare]. set (status := status_of _) in *. specialize (Hcount eq_refl). cbn [default] in Hcount.
  destruct Hh2 as [hd Hhd]. apply runs_bind.
  exists (Some (hd_device_path hd)), p2. split_and!; [unfold virtusb_get_device_path, bind, load; by rewrite Hhd | done | done | ].
  apply runs_bind, writes_runs; [done | auto with writes | ]. intros [] n1 H1.
  apply runs_bind, writes_runs; [by apply process_set_output | auto with writes | ]. intros [] n2 H2. rewrite output_app.
  apply runs_bind, writes_runs; [by apply process_set_output | | ].
  { destruct (port =? 0); writing. by apply writes_print_ports. }
  intros [] n3 H3. rewrite output_app.
  apply (close_and_exit _ h EXIT_SUCCESS ((n1 ++ n2) ++ n3)); [by apply process_set_output | by exists hd | | done | cbn; by rewrite Eo].
  left. split; [done | ]. by repeat apply to_stdout_app.
Qed.
End commands.

(** ** Parsing *)

Lemma parse_unsigned_range text n : virtusbctl_parse_unsigned text = Ok n -> in_width 32 n.
Proof.
  unfold virtusbctl_parse_unsigned. destruct text as [text|]; [ | done].
  destruct (bool_decide _); [done | ]. destruct (strtoul text) as [[x rest] e]. destruct (_ || _); [done | ].
  intros [= <-]. by apply wrap_width.
Qed.

(** [strtok_r] moves forward. *)
Lemma skip_char_length d s : (strlen (skip_char d s) <= strlen s)%nat.
Proof. induction s as [|c s IH]; cbn; [done | ]. destruct (_ =? _)%char; cbn; lia. Qed.
Lemma split_char_length d s : (strlen (split_char d s).2 <= strlen s)%nat.
Proof.
  induction s as [|c s IH]; cbn; [done | ]. destruct (_ =? _)%char; [cbn; lia | ].
  destruct (split_char d s) as [a r]. cbn in *. lia.
Qed.
Lemma skip_char_head d s c r : skip_char d s = String c r -> (c =? d)%char = false.
Proof.
  induction s as [|x s IH]; cbn; [done | ]. destruct (x =? d)%char eqn:E; [done | ]. by intros [= <- <-].
Qed.
Lemma strtok_shorter d s token rest : strtok_r d s = (Some token, rest) -> (strlen rest < strlen s)%nat.
Proof.
  unfold strtok_r. pose proof (skip_char_length d s) as Hl.
  destruct (skip_char d s) as [|c r] eqn:E; [done | ]. pose proof (skip_char_head d s c r E) as Hc.
  cbn [split_char]. rewrite Hc. pose proof (split_char_length d r) as Hr. destruct (split_char d r) as [a x].
  intros [= _ <-]. cbn in *. lia.
Qed.

(** The loop ends, and only collects capability bits. *)
Lemma parse_caps_total fuel : forall s caps, (strlen s < fuel)%nat -> 0 <= caps <= 7 ->
  exists r, parse_caps fuel s caps = Some r /\ forall n, r = Ok n -> 0 <= n <= 7.
Proof.
  assert (Hlor : forall a b, 0 <= a <= 7 -> 0 <= b <= 7 -> 0 <= Z.lor a b <= 7).
  { intros a b Ha Hb. assert (Z.lor a b = Z.land (Z.lor a b) 7) as ->.
    { rewrite Z.land_lor_distr_l. change 7 with (Z.ones 3). by rewrite !Z.land_ones, !Z.mod_small by lia. }
    change 7 with (Z.ones 3). rewrite Z.land_ones by lia. pose proof (Z.mod_pos_bound (Z.lor a b) (2 ^ 3)). change (Z.ones 3) with 7. lia. }
  induction fuel as [|fuel IH]; intros s caps Hf Hc; [lia | ]. cbn [parse_caps].
  destruct (strtok_r "," s) as [[token|] rest] eqn:E.
  - apply strtok_shorter in E.
    repeat match goal with |- context [if bool_decide ?P then _ else _] => destruct (bool_decide P) end;
      [apply IH; [lia | apply Hlor; [done | by vm_compute]].. | ].
    eexists. by split.
  - eexists. split; [done | ]. by intros n [= <-].
Qed.

Lemma parse_speed_caps_total text : exists r, virtusbctl_parse_speed_caps text = Some r /\
  forall n, r = Ok n -> 1 <= n <= 7.
Proof.
  unfold virtusbctl_parse_speed_caps. destruct text as [text|]; [ | eexists; by split].
  destruct (_ || _); [eexists; by split | ].
  destruct (parse_caps_total (S (strlen text)) text 0) as (r & -> & Hr); [lia | lia | ].
  destruct r as [n|e]; [ | eexists; by split]. specialize (Hr n eq_refl).
  eexists. split; [done | ]. intros n'. destruct (Z.eqb_spec n 0); [done | ]. intros [= <-]. lia.
Qed.

(** ** main *)

Section main.
Context (enc : ioctl_encoding) (Henc : NoDup (commands enc)) (strerror : Z -> string).
Context (program : string) (args : list string) (env : ctl_env).
Context (p : process) (Hp : process_ok p) (Hw : ctl_env_wf p env).
Abbreviation argv := (program :: args).
Abbreviation ends m := (runs enc ∅ m p (finished p)).

Lemma failure_ends (m : U unit) text : m = print Stderr text -> ends (m ;; ret EXIT_FAILURE).
Proof using Hp.
  intros ->. unfold print. apply runs_bind, runs_modify; [by apply process_set_output | done | ].
  apply runs_ret; [by apply process_set_output | ]. split; [done | ]. eexists. split; [done | ].
  right. split; [done | ]. eexists. by left.
Qed.
Lemma usage_ends : ends (usage argv).
Proof using Hp. by eapply failure_ends. Qed.
Lemma complain_ends text : ends (complain text).
Proof using Hp. by eapply failure_ends. Qed.
Lemma run_at_end_ends i m : ends m -> ends (run_at_end argv i m).
Proof using Hp. intros Hm. unfold run_at_end. destruct (_ =? _)%nat; [done | apply usage_ends]. Qed.

(** An argument that is there. *)
Lemma arg_ends {A} i (k : string -> U A) Q : (i < argc argv)%nat -> (forall text, runs enc ∅ (k text) p Q) ->
  runs enc ∅ (text <- arg argv i ;; k text) p Q.
Proof using Hp.
  intros Hi Hk. apply runs_bind. unfold arg. destruct (lookup_lt_is_Some_2 argv i Hi) as [text ->].
  by apply runs_ret.
Qed.
Lemma arg_is_runs i s (Q : bool -> process -> Prop) : (i < argc argv)%nat -> (forall b, Q b p) ->
  runs enc ∅ (arg_is argv i s) p Q.
Proof using Hp. intros Hi HQ. unfold arg_is. apply arg_ends; [done | ]. intros text. by apply runs_ret. Qed.

Lemma checked_argument_range in_range i n : checked_argument argv in_range i = Some n ->
  in_width 32 n /\ in_range n = true.
Proof.
  unfold checked_argument. destruct (_ <=? _)%nat; [done | ].
  destruct (virtusbctl_parse_unsigned (argv !! i)) as [x|] eqn:E; [ | done].
  destruct (in_range x) eqn:Er; [ | done]. intros [= <-]. split; [by eapply parse_unsigned_range | done].
Qed.

Lemma main_status_ends instance i : in_width 32 instance -> ends (main_status enc strerror argv env instance i).
Proof using Hp Hw Henc.
  intros Hi. unfold main_status. destruct (Nat.ltb_spec i (argc argv)) as [Hlt|].
  - apply arg_ends; [done | ]. intros text. destruct (virtusbctl_parse_unsigned (Some text)) as [port|] eqn:E;
      [ | apply complain_ends].
    destruct (_ <? port); [apply complain_ends | ]. apply run_at_end_ends, status_command_runs; try done.
    by apply (parse_unsigned_range _ _ E).
  - by apply run_at_end_ends, status_command_runs.
Qed.

Lemma main_port_ends instance i : in_width 32 instance -> ends (main_port enc strerror argv env instance i).
Proof using Hp Hw Henc.
  intros Hi. unfold main_port. apply runs_bind.
  assert (Hrest : forall power : bool, ends (if negb power then usage argv else
    match port_argument argv (S i) with
    | None => complain "Invalid port"
    | Some port =>
        let argument := S (S i) in
        if (argc argv <=? argument)%nat then usage argv
        else
          text <- arg argv argument ;;
          if bool_decide (text = "on") then
            run_at_end argv (S argument) (virtusbctl_port_power enc strerror instance port true env)
          else if bool_decide (text = "off") then
            run_at_end argv (S argument) (virtusbctl_port_power enc strerror instance port false env)
          else complain "Power state must be 'on' or 'off'"
    end)).
  { intros power. destruct (negb power); [apply usage_ends | ].
    destruct (port_argument argv (S i)) as [port|]; [cbv zeta | apply complain_ends].
    destruct (Nat.leb_spec (argc argv) (S (S i))); [apply usage_ends | ]. apply arg_ends; [done | ]. intros text.
    repeat case_match; try apply run_at_end_ends; try by apply port_power_command_runs. apply complain_ends. }
  destruct (Nat.leb_spec (argc argv) i); [apply runs_ret; [done | apply Hrest] | ]. by apply arg_is_runs.
Qed.

Lemma main_create_ends instance i : in_width 32 instance -> ends (main_create enc strerror argv env instance i).
Proof using Hp Hw Henc.
  intros Hi. unfold main_create. destruct (_ <=? _)%nat; [apply complain_ends | ].
  destruct (parse_speed_caps_total (argv !! i)) as (r & -> & Hr). destruct r as [caps|]; [ | apply complain_ends].
  specialize (Hr caps eq_refl). apply run_at_end_ends, device_create_command_runs; try done. unfold in_width. lia.
Qed.

Lemma main_destroy_ends instance i : in_width 32 instance -> ends (main_destroy enc strerror argv env instance i).
Proof using Hp Hw Henc.
  intros Hi. unfold main_destroy. destruct (object_argument argv i) as [id|]; [cbv zeta | apply complain_ends].
  apply runs_bind. assert (Hrest : forall force : bool, ends (run_at_end argv (if force then S (S i) else S i)
    (virtusbctl_device_destroy enc strerror instance id force env))).
  { intros force. by apply run_at_end_ends, device_destroy_command_runs. }
  destruct (Nat.ltb_spec (S i) (argc argv)); [by apply arg_is_runs | apply runs_ret; [done | apply (Hrest false)]].
Qed.

Lemma main_attach_ends instance i : in_width 32 instance -> ends (main_attach enc strerror argv env instance i).
Proof using Hp Hw Henc.
  intros Hi. unfold main_attach. destruct (object_argument argv i) as [id|]; [ | apply complain_ends].
  destruct (port_argument argv (S i)) as [port|]; [ | apply complain_ends].
  by apply run_at_end_ends, device_attach_command_runs.
Qed.

Lemma main_object_ends i command : (forall id, ends (command id)) -> ends (main_object argv i command).
Proof using Hp.
  intros Hc. unfold main_object. destruct (object_argument argv i) as [id|]; [ | apply complain_ends].
  by apply run_at_end_ends.
Qed.

Lemma main_command_ends instance i : in_width 32 instance -> ends (main_command enc strerror argv env instance i).
Proof using Hp Hw Henc.
  intros Hi. unfold main_command. destruct (Nat.leb_spec (argc argv) i) as [|Hlt]; [apply usage_ends | ].
  apply arg_ends; [done | ]. intros command.
  destruct (bool_decide _); [by apply main_status_ends | ].
  destruct (bool_decide _); [by apply main_port_ends | ].
  destruct (bool_decide _); [apply usage_ends | ].
  unfold main_device. destruct (Nat.leb_spec (argc argv) (S i)); [apply usage_ends | ].
  apply arg_ends; [done | ]. intros c. cbv zeta.
  destruct (bool_decide (c = "create")); [by apply main_create_ends | ].
  destruct (bool_decide (c = "destroy")); [by apply main_destroy_ends | ].
  destruct (bool_decide (c = "attach")); [by apply main_attach_ends | ].
  destruct (bool_decide (c = "detach")).
  { apply main_object_ends. intros id. by apply device_detach_command_runs. }
  destruct (_ || _); [ | apply usage_ends].
  apply main_object_ends. intros id. by apply device_connection_command_runs.
Qed.

Lemma main_ends : ends (main enc strerror argv env).
Proof using Hp Hw Henc.
  unfold main. apply runs_bind.
  assert (Hrest : forall b : bool, ends (if b then
    if (argc argv <=? 2)%nat then usage argv
    else
      text <- arg argv 2 ;;
      match virtusbctl_parse_unsigned (Some text) with
      | Err _ => complain ("Invalid instance: " +:+ text)
      | Ok instance => main_command enc strerror argv env instance 3
      end
    else main_command enc strerror argv env 0 1)).
  { intros b. destruct b; [ | by apply main_command_ends].
    destruct (Nat.leb_spec (argc argv) 2); [apply usage_ends | ]. apply arg_ends; [done | ]. intros text.
    destruct (virtusbctl_parse_unsigned (Some text)) as [instance|] eqn:E; [ | apply complain_ends].
    apply main_command_ends. by apply (parse_unsigned_range _ _ E). }
  destruct (Nat.ltb_spec 1 (argc argv)); [by apply arg_is_runs | apply runs_ret; [done | apply (Hrest false)]].
Qed.
End main.
