(* ===== verification/CtlProps.v ===== *)
(** * Properties of virtusbctl *)

From S2P Require Import Prelude Uapi Kernel Port Hub Object Device Transfer Backend BackendInv BackendOps Hcd HcdSpec UrbSpec Control ControlSpec ModuleSpec Config Linux Platform LifeSpec PlatformSpec InitSpec LoadSpec Scenario PlatformProps Text Lib LibSpec LibProps Program Ctl CtlSpec.

(** ** The program as a whole *)

(** C37. One run of virtusbctl.  For every argument list and every behaviour of the
    system [main] returns, with 0 or 1; its kernel took only steps of the
    module; the descriptors and handles are those from before, so every handle
    it opened was closed on every path; and the exit status is 0 exactly when
    it printed to the standard output only, 1 exactly when it printed an error. *)
Theorem virtusbctl_main_correct enc strerror program args env p :
  NoDup (commands enc) -> process_ok p -> ctl_env_wf p env ->
  exists r p', main enc strerror (program :: args) env p = Some (r, p') /\
    module_reach enc (pr_kernel p) (pr_kernel p') /\ process_ok p' /\ same_tables p p' /\
    exists new, pr_output p' = pr_output p ++ new /\
      (r = EXIT_SUCCESS /\ Forall (fun x => x.1 = Stdout) new \/
       r = EXIT_FAILURE /\ exists text, (Stderr, text) ∈ new).
Proof.
  intros Henc Hp Hw. destruct (main_ends enc Henc strerror program args env p Hp Hw)
    as (r & p' & E & Hp' & [Hr _] & Hs & new & Hout & Hpr).
  exists r, p'. split_and!; try done. by exists new.
Qed.

Definition ctl_outside : ctl_env := mk_ctl_env (open_at 3) (with_memory d1).
Definition first_process : process := new_process (sy_kernel loaded_once).
Lemma first_process_wf : ctl_env_wf first_process ctl_outside.
Proof.
  split; [apply open_at_wf; [eval_eq | lia] | ]. intros o [= <-]. eval_eq.
Qed.
Definition no_text (e : Z) : string := EmptyString.

(** Creating a device on the module of one instance. *)
Lemma virtusbctl_main_correct_witness : exists p',
  main linux no_text ["virtusbctl"; "device"; "create"; "low,full"] ctl_outside first_process = Some (0, p') /\
  pr_output p' = [(Stdout, "Device created: 1" +:+ nl)] /\ pr_fds p' = ∅ /\ pr_handles p' = ∅.
Proof.
  destruct (virtusbctl_main_correct linux no_text "virtusbctl" ["device"; "create"; "low,full"] ctl_outside
    first_process linux_commands loaded_once_ok first_process_wf) as (r & p' & E & _ & _ & [E1 E2] & _).
  assert (Eo : (fun x => (x.1, pr_output x.2)) <$>
    main linux no_text ["virtusbctl"; "device"; "create"; "low,full"] ctl_outside first_process =
    Some (0, [(Stdout, "Device created: 1" +:+ nl)])) by eval_eq.
  rewrite E in Eo. apply Some_inj, pair_equal_spec in Eo as [Er Eout]. cbn in Er, Eout. exists p'.
  rewrite Er in E. exact (conj E (conj Eout (conj E1 E2))).
Defined.

(** ** Numbers *)

Lemma parse_unsigned_text text n : strtoul text = (n, EmptyString, 0) -> in_width 32 n -> text <> EmptyString ->
  virtusbctl_parse_unsigned (Some text) = Ok n.
Proof.
  intros E Hn Ht. unfold virtusbctl_parse_unsigned. rewrite bool_decide_eq_false_2 by done. rewrite E.
  rewrite bool_decide_eq_false_2 by (intros H; by apply H). unfold in_width, U32_MAX in *.
  rewrite (proj2 (Z.ltb_ge _ _)) by lia. cbn. f_equal. by apply wrap_small.
Qed.

Lemma format_u_nonempty n : 0 <= n <= ULONG_MAX -> format_u n <> EmptyString.
Proof.
  intros Hn. destruct (decide (n = 0)) as [->|Hn0]; [by vm_compute | ]. unfold format_u, ULONG_MAX in *.
  assert (Hpow : n < 10 ^ Z.of_nat 64) by lia.
  destruct (digits_head 10 64 n EmptyString ltac:(lia) ltac:(lia)) as (d & rest & -> & _). done.
Qed.

Lemma parse_decimal n : in_width 32 n -> virtusbctl_parse_unsigned (Some (format_u n)) = Ok n.
Proof.
  intros Hn. assert (0 <= n <= ULONG_MAX) by (unfold in_width, ULONG_MAX in *; lia).
  apply parse_unsigned_text; [by apply strtoul_format | done | by apply format_u_nonempty].
Qed.

(** The digits of a hexadecimal number, with the prefix. *)
Lemma is_digit_char d : 0 <= d < 16 -> is_digit 16 (digit_char d) = true.
Proof. intros Hd. unfold is_digit. rewrite digit_value_char by lia. apply Z.ltb_lt. lia. Qed.
Lemma strtoul_hex n : in_width 32 n -> strtoul ("0x" +:+ format_x n) = (n, EmptyString, 0).
Proof.
  intros Hn. unfold format_x. destruct (decide (n = 0)) as [->|Hn0]; [by vm_compute | ]. unfold in_width in Hn.
  assert (Hpow : n < 16 ^ Z.of_nat 64) by lia.
  destruct (digits_head 16 64 n EmptyString ltac:(lia) ltac:(lia)) as (d & rest & E & Hd).
  assert (Hbase : scan_base ("0x" +:+ digits 64 16 n EmptyString) = (16, digits 64 16 n EmptyString)).
  { rewrite E. transitivity (if is_digit 16 (digit_char d) then (16, String (digit_char d) rest)
      else (8, "0x" +:+ String (digit_char d) rest)); [done | ]. by rewrite is_digit_char by lia. }
  unfold strtoul. change (skip_space ("0x" +:+ digits 64 16 n EmptyString)) with ("0x" +:+ digits 64 16 n EmptyString).
  change (scan_sign ("0x" +:+ digits 64 16 n EmptyString)) with (false, "0x" +:+ digits 64 16 n EmptyString).
  cbv beta iota. rewrite Hbase. destruct (scan_digits_digits 16 64 n EmptyString 0 false ltac:(lia) ltac:(lia) ltac:(lia)) as (k & _ & ->).
  cbn [scan_digits negb]. rewrite Z.mul_0_l, Z.add_0_l. unfold ULONG_MAX.
  destruct (Z.ltb_spec (2 ^ 64 - 1) n); [lia | done].
Qed.

(** C40. [virtusbctl_parse_unsigned] reads numbers back: the decimal text of %u and
    the hexadecimal one with 0x give the number, for every number of 32 bits.
    Whatever it accepts has 32 bits; text behind the number, larger numbers and
    no text at all give -EINVAL.  But [strtoul] also takes leading blanks and a
    minus sign, with which a number is negated modulo 2^64, so that
    -18446744073709551611 is accepted as 5. *)
Theorem parse_unsigned_roundtrip n :
  in_width 32 n ->
  virtusbctl_parse_unsigned (Some (format_u n)) = Ok n /\
  virtusbctl_parse_unsigned (Some ("0x" +:+ format_x n)) = Ok n /\
  (forall text m, virtusbctl_parse_unsigned text = Ok m -> in_width 32 m) /\
  virtusbctl_parse_unsigned None = Err (- EINVAL) /\
  virtusbctl_parse_unsigned (Some EmptyString) = Err (- EINVAL) /\
  (forall m, 2 ^ 32 <= m <= ULONG_MAX -> virtusbctl_parse_unsigned (Some (format_u m)) = Err (- EINVAL)) /\
  virtusbctl_parse_unsigned (Some "5x") = Err (- EINVAL) /\
  virtusbctl_parse_unsigned (Some " 5") = Ok 5 /\
  virtusbctl_parse_unsigned (Some "-18446744073709551611") = Ok 5.
Proof.
  intros Hn. split; [by apply parse_decimal | ].
  split; [apply parse_unsigned_text; [by apply strtoul_hex | done | done] | ].
  split; [apply parse_unsigned_range | ]. split; [done | ]. split; [done | ].
  split; [ | by vm_compute].
  intros m Hm. unfold virtusbctl_parse_unsigned.
  rewrite bool_decide_eq_false_2 by (apply format_u_nonempty; lia). rewrite strtoul_format by lia.
  rewrite (proj2 (Z.ltb_lt U32_MAX m)) by (unfold U32_MAX; lia). by rewrite orb_true_r.
Qed.

Lemma parse_unsigned_roundtrip_witness : virtusbctl_parse_unsigned (Some "4294967295") = Ok 4294967295.
Proof.
  assert (Hn : in_width 32 4294967295) by (split; [lia | reflexivity]).
  destruct (parse_unsigned_roundtrip 4294967295 Hn) as [E _]. exact E.
Defined.

(** ** Speed lists *)

(** Words with commas between them. *)
Fixpoint join (l : list string) : string :=
  match l with
  | [] => EmptyString
  | [word] => word
  | word :: l => word +:+ "," +:+ join l
  end.
Definition speed_cap (s : virtusb_speed) : Z :=
  match s with
  | VIRTUSB_SPEED_NONE => 0
  | VIRTUSB_SPEED_LOW => VIRTUSB_SPEED_CAP_LOW
  | VIRTUSB_SPEED_FULL => VIRTUSB_SPEED_CAP_FULL
  | VIRTUSB_SPEED_HIGH => VIRTUSB_SPEED_CAP_HIGH
  end.
Definition speed_list (l : list virtusb_speed) : string := join (map virtusbctl_speed_name l).
Definition caps_of (l : list virtusb_speed) (caps : Z) : Z := foldl (fun c s => Z.lor c (speed_cap s)) caps l.

Lemma parse_caps_step fuel s rest caps : s <> VIRTUSB_SPEED_NONE ->
  parse_caps (S fuel) (virtusbctl_speed_name s +:+ "," +:+ rest) caps =
    parse_caps fuel rest (Z.lor caps (speed_cap s)) /\
  parse_caps (S fuel) (virtusbctl_speed_name s) caps =
    parse_caps fuel EmptyString (Z.lor caps (speed_cap s)).
Proof. by destruct s. Qed.

Lemma speed_list_length l : Forall (fun s => s <> VIRTUSB_SPEED_NONE) l -> (length l <= strlen (speed_list l))%nat.
Proof.
  unfold speed_list. induction l as [|s l IH]; [done | ]. intros [Hs Hl]%Forall_cons. specialize (IH Hl).
  destruct l as [|s' l]; [by destruct s; cbn; lia || cbn; lia | ].
  change (join (map virtusbctl_speed_name (s :: s' :: l))) with
    (virtusbctl_speed_name s +:+ "," +:+ join (map virtusbctl_speed_name (s' :: l))).
  rewrite !strlen_app. change (strlen ",") with 1%nat. cbn [length] in *. lia.
Qed.

Lemma parse_caps_list l : forall fuel caps, Forall (fun s => s <> VIRTUSB_SPEED_NONE) l -> (length l < fuel)%nat ->
  parse_caps fuel (speed_list l) caps = Some (Ok (caps_of l caps)).
Proof.
  unfold speed_list. induction l as [|s l IH]; intros [|fuel] caps Hl Hf; cbn [length] in Hf; [lia | done | lia | ].
  apply Forall_cons in Hl as [Hs Hl]. destruct l as [|s' l].
  - destruct fuel as [|fuel]; [cbn in Hf; lia | ]. by rewrite (proj2 (parse_caps_step _ s EmptyString caps Hs)).
  - change (join (map virtusbctl_speed_name (s :: s' :: l))) with
      (virtusbctl_speed_name s +:+ "," +:+ join (map virtusbctl_speed_name (s' :: l))).
    rewrite (proj1 (parse_caps_step _ s _ caps Hs)). by rewrite IH by (done || lia).
Qed.

Lemma caps_of_nonzero l caps : caps <> 0 -> caps_of l caps <> 0.
Proof.
  revert caps. induction l as [|s l IH]; intros caps Hc; [done | ]. cbn. apply IH.
  intros E. apply Z.lor_eq_0_iff in E as [? _]. done.
Qed.

Lemma parse_speed_list l : l <> [] -> Forall (fun s => s <> VIRTUSB_SPEED_NONE) l ->
  (strlen (speed_list l) < 64)%nat ->
  virtusbctl_parse_speed_caps (Some (speed_list l)) = Some (Ok (caps_of l 0)).
Proof.
  intros Hne Hl Hlen. pose proof (speed_list_length l Hl) as Hlen'. unfold virtusbctl_parse_speed_caps, caps_buffer_size.
  assert (0 < length l)%nat by (destruct l; [done | cbn; lia]).
  rewrite (proj2 (Z.eqb_neq _ _)), (proj2 (Z.leb_gt _ _)) by lia. cbn [orb].
  rewrite parse_caps_list by (done || lia).
  destruct (Z.eqb_spec (caps_of l 0) 0) as [E|]; [ | done]. exfalso. destruct l as [|s l]; [done | ].
  apply Forall_cons in Hl as [Hs _]. revert E. cbn. apply caps_of_nonzero. by destruct s.
Qed.

(** [virtusbctl_parse_speed_caps].  The loop over the tokens ends for every
    text, and what the function accepts is a capability mask that the kernel
    accepts: one of 1 to 7.  Every non-empty list of the words low, full and
    high that fits the 64-byte buffer gives the union of their capabilities;
    words are the ones that the tool prints, and bits the ones of the kernel. *)
Theorem parse_speed_caps_correct text l :
  l <> [] -> Forall (fun s => s <> VIRTUSB_SPEED_NONE) l -> (strlen (speed_list l) < 64)%nat ->
  virtusbctl_parse_speed_caps (Some (speed_list l)) = Some (Ok (caps_of l 0)) /\
  (exists r, virtusbctl_parse_speed_caps text = Some r /\
     forall caps, r = Ok caps -> 1 <= caps <= 7 /\ virtusb_control_speed_caps_valid caps = true) /\
  virtusbctl_parse_speed_caps (Some "low,none") = Some (Err (- EINVAL)) /\
  virtusbctl_parse_speed_caps (Some ",") = Some (Err (- EINVAL)).
Proof.
  intros Hne Hl Hlen. split; [by apply parse_speed_list | ]. split; [ | by vm_compute].
  destruct (parse_speed_caps_total text) as (r & E & Hr). exists r. split; [done | ]. intros caps ->.
  specialize (Hr caps eq_refl). split; [done | ].
  assert (E7 : caps = 1 \/ caps = 2 \/ caps = 3 \/ caps = 4 \/ caps = 5 \/ caps = 6 \/ caps = 7) by lia.
  by repeat (destruct E7 as [-> | E7]; [vm_compute | ]); subst.
Qed.

Lemma parse_speed_caps_correct_witness :
  virtusbctl_parse_speed_caps (Some "high,low") = Some (Ok 5).
Proof.
  destruct (parse_speed_caps_correct None [VIRTUSB_SPEED_HIGH; VIRTUSB_SPEED_LOW]) as [E _];
    [discriminate | repeat constructor; discriminate | apply Nat.ltb_lt; eval_eq | exact E].
Defined.

(** ** Command lines *)

Inductive ctl_command :=
  | CmdStatus
  | CmdPortStatus (port : Z)
  | CmdCreate (speeds : list virtusb_speed)
  | CmdDestroy (object_id : Z) (force : bool)
  | CmdAttach (object_id port : Z)
  | CmdDetach (object_id : Z)
  | CmdConnection (object_id : Z) (connected : bool)
  | CmdPortPower (port : Z) (powered : bool).

(** The usage text as a function. *)
Definition command_line (c : ctl_command) : list string :=
  match c with
  | CmdStatus => ["status"]
  | CmdPortStatus port => ["status"; format_u port]
  | CmdCreate speeds => ["device"; "create"; speed_list speeds]
  | CmdDestroy id force => ["device"; "destroy"; format_u id] ++ (if force then ["--force"] else [])
  | CmdAttach id port => ["device"; "attach"; format_u id; format_u port]
  | CmdDetach id => ["device"; "detach"; format_u id]
  | CmdConnection id connected => ["device"; if connected then "connect" else "disconnect"; format_u id]
  | CmdPortPower port powered => ["port"; "power"; format_u port; if powered then "on" else "off"]
  end.
Definition instance_option (instance : option Z) : list string :=
  match instance with Some i => ["-d"; format_u i] | None => [] end.

Definition object_id_ok (id : Z) : Prop := in_width 32 id /\ id <> VIRTUSB_INVALID_OBJECT_ID.
Definition command_ok (c : ctl_command) : Prop :=
  match c with
  | CmdStatus => True
  | CmdPortStatus port => 0 <= port <= VIRTUSB_MAX_PORTS
  | CmdCreate speeds => speeds <> [] /\ Forall (fun s => s <> VIRTUSB_SPEED_NONE) speeds /\
      (strlen (speed_list speeds) < 64)%nat
  | CmdDestroy id _ | CmdDetach id | CmdConnection id _ => object_id_ok id
  | CmdAttach id port => object_id_ok id /\ 1 <= port <= VIRTUSB_MAX_PORTS
  | CmdPortPower port _ => 1 <= port <= VIRTUSB_MAX_PORTS
  end.

Lemma arg_at argv i s p : argv !! i = Some s -> arg argv i p = Some (s, p).
Proof. intros Hi. unfold arg. by rewrite Hi. Qed.

Ltac words_differ := let E := fresh in intros E; vm_compute in E; congruence.
(** One comparison of [main]: with the number of arguments, with a word, or of a
    number with its range. *)
Ltac line_step :=
  match goal with
  | H : ?argv !! ?i = Some ?w |- context [arg ?argv ?i ?p] => rewrite (arg_at argv i w p H)
  | |- context [(argc ?argv <=? ?i)%nat] =>
      first [rewrite (proj2 (Nat.leb_gt (argc argv) i)) by lia | rewrite (proj2 (Nat.leb_le (argc argv) i)) by lia]
  | |- context [(?i <? argc ?argv)%nat] =>
      first [rewrite (proj2 (Nat.ltb_lt i (argc argv))) by lia | rewrite (proj2 (Nat.ltb_ge i (argc argv))) by lia]
  | |- context [(?i =? argc ?argv)%nat] => rewrite (proj2 (Nat.eqb_eq i (argc argv))) by lia
  | |- context [bool_decide ?P] =>
      first [rewrite (bool_decide_eq_true_2 P) by (done || words_differ)
            | rewrite (bool_decide_eq_false_2 P) by words_differ]
  end; cbv beta iota.
Ltac lines := unfold main_command, main_status, main_port, main_device, main_create, main_destroy,
  main_attach, main_object, run_at_end, arg_is, bind, ret; cbv beta iota zeta; repeat (line_step; cbn [negb orb]).

Section lines.
Context (enc : ioctl_encoding) (strerror : Z -> string) (env : ctl_env).

Definition run_command (instance : Z) (c : ctl_command) : U Z :=
  match c with
  | CmdStatus => virtusbctl_status enc strerror instance 0 env
  | CmdPortStatus port => virtusbctl_status enc strerror instance port env
  | CmdCreate speeds => virtusbctl_device_create enc strerror instance (caps_of speeds 0) env
  | CmdDestroy id force => virtusbctl_device_destroy enc strerror instance id force env
  | CmdAttach id port => virtusbctl_device_attach enc strerror instance id port env
  | CmdDetach id => virtusbctl_device_detach enc strerror instance id env
  | CmdConnection id connected => virtusbctl_device_connection enc strerror instance id connected env
  | CmdPortPower port powered => virtusbctl_port_power enc strerror instance port powered env
  end.

Lemma object_argument_at argv i id : argv !! i = Some (format_u id) -> object_id_ok id ->
  object_argument argv i = Some id.
Proof.
  intros Hi [Hw Hid]. unfold object_argument, checked_argument, argc.
  apply lookup_lt_Some in Hi as Hlt. destruct (Nat.leb_spec (length argv) i); [lia | ].
  rewrite Hi, parse_decimal by done. by rewrite (proj2 (Z.eqb_neq _ _)).
Qed.
Lemma port_argument_at argv i port : argv !! i = Some (format_u port) -> 1 <= port <= VIRTUSB_MAX_PORTS ->
  port_argument argv i = Some port.
Proof.
  unfold VIRTUSB_MAX_PORTS. intros Hi Hp. unfold port_argument, checked_argument, argc.
  apply lookup_lt_Some in Hi as Hlt. destruct (Nat.leb_spec (length argv) i); [lia | ].
  rewrite Hi, parse_decimal by (unfold in_width; lia).
  rewrite (proj2 (Z.eqb_neq _ _)), (proj2 (Z.ltb_ge _ _)) by (unfold VIRTUSB_MAX_PORTS; lia). done.
Qed.

(** The command behind [pre]: the words are compared, the numbers parsed. *)
Lemma main_command_line pre instance c : command_ok c -> forall p,
  main_command enc strerror (pre ++ command_line c) env instance (length pre) p = run_command instance c p.
Proof.
  intros Hc p. set (argv := pre ++ command_line c). set (n := length pre).
  assert (Hat : forall i s, command_line c !! i = Some s -> argv !! (n + i)%nat = Some s).
  { intros i s Hs. unfold argv, n. rewrite lookup_app_r by lia. by replace (length pre + i - length pre)%nat with i by lia. }
  assert (Hargc : argc argv = (n + length (command_line c))%nat) by apply length_app.
  pose proof (Hat 0%nat) as H0. rewrite Nat.add_0_r in H0.
  pose proof (Hat 1%nat) as H1. rewrite Nat.add_1_r in H1.
  pose proof (Hat 2%nat) as H2. replace (n + 2)%nat with (S (S n)) in H2 by lia.
  pose proof (Hat 3%nat) as H3. replace (n + 3)%nat with (S (S (S n))) in H3 by lia.
  clear Hat. clearbody n argv.
  destruct c as [|port|speeds|id force|id port|id|id connected|port powered]; cbn [command_line command_ok app length lookup list_lookup] in *;
    try specialize (H0 _ eq_refl); try specialize (H1 _ eq_refl); try specialize (H2 _ eq_refl);
    try specialize (H3 _ eq_refl).
  - by lines.
  - lines. rewrite parse_decimal by (unfold in_width, VIRTUSB_MAX_PORTS in *; lia).
    rewrite (proj2 (Z.ltb_ge _ _)) by apply Hc. by lines.
  - lines. rewrite H2. destruct Hc as (? & ? & ?). rewrite parse_speed_list by done. by lines.
  - unfold main_command. lines. rewrite (object_argument_at argv (S (S n)) id H2 Hc).
    destruct force; cbn [app length] in *; [specialize (H3 _ eq_refl) | ]; by lines.
  - lines. destruct Hc as [Hid Hp]. rewrite (object_argument_at argv (S (S n)) id H2 Hid).
    rewrite (port_argument_at argv (S (S (S n))) port H3 Hp). by lines.
  - lines. rewrite (object_argument_at argv (S (S n)) id H2 Hc). by lines.
  - destruct connected; lines; rewrite (object_argument_at argv (S (S n)) id H2 Hc); by lines.
  - destruct powered; lines; rewrite (port_argument_at argv (S (S n)) port H2 Hc); by lines.
Qed.
End lines.

(** The command lines of virtusbctl.  [main] with the words of a command, with or
    without -d, does exactly that command on that instance, instance 0 without
    the option: all eight forms of the usage text, for every object ID but 0,
    every port of a hub, port 0 for the status only, and every speed list. *)
Theorem main_runs_command enc strerror env program instance c p :
  command_ok c -> (forall i, instance = Some i -> in_width 32 i) ->
  main enc strerror (program :: instance_option instance ++ command_line c) env p =
    run_command enc strerror env (default 0 instance) c p.
Proof.
  intros Hc Hi. destruct instance as [i|]; cbn [instance_option app default].
  - rewrite <- (main_command_line enc strerror env [program; "-d"; format_u i] i c Hc).
    change ([program; "-d"; format_u i] ++ command_line c) with (program :: "-d" :: format_u i :: command_line c).
    unfold main. set (argv := program :: _). unfold arg_is, bind, ret. cbv beta iota.
    assert (H1 : argv !! 1%nat = Some "-d") by done. assert (H2 : argv !! 2%nat = Some (format_u i)) by done.
    assert (Hlen : (3 <= argc argv)%nat) by (unfold argc, argv; cbn; lia).
    repeat line_step. rewrite parse_decimal by (by apply Hi). done.
  - rewrite <- (main_command_line enc strerror env [program] 0 c Hc).
    change ([program] ++ command_line c) with (program :: command_line c).
    assert (exists w rest, command_line c = w :: rest /\ w <> "-d") as (w & rest & -> & Hw).
    { destruct c; eexists _, _; (split; [done | words_differ]). }
    unfold main. set (argv := program :: _). unfold arg_is, bind, ret. cbv beta iota.
    assert (H1 : argv !! 1%nat = Some w) by done.
    assert (Hlen : (2 <= argc argv)%nat) by (unfold argc, argv; cbn; lia).
    rewrite (proj2 (Nat.ltb_lt 1 (argc argv))) by lia. rewrite (arg_at argv 1 w p H1). cbv beta iota.
    by rewrite bool_decide_eq_false_2 by done.
Qed.

Lemma main_runs_command_witness :
  main linux no_text ["virtusbctl"; "-d"; "2"; "device"; "attach"; "7"; "1"] ctl_outside first_process =
    virtusbctl_device_attach linux no_text 2 7 1 ctl_outside first_process.
Proof.
  assert (Hc : command_ok (CmdAttach 7 1)).
  { split; [split; [split; [lia | reflexivity] | discriminate] | unfold VIRTUSB_MAX_PORTS; lia]. }
  assert (Hi : forall i, Some 2 = Some i -> in_width 32 i) by (intros i [= <-]; split; [lia | reflexivity]).
  exact (main_runs_command linux no_text ctl_outside "virtusbctl" (Some 2) (CmdAttach 7 1) first_process Hc Hi).
Defined.
