(* ===== verification/TestDevice.v ===== *)
(** * The test device (tools/virtusb-test-device/main.c)

    A full-speed device without endpoints: the program creates it, attaches it
    to a port, and answers the control requests of the host until a signal
    stops it. *)

From S2P Require Import Prelude Uapi Kernel Port Hub Object Device Transfer Backend Hcd Control ModuleSpec Text Lib Program.

Definition device_descriptor : list Z :=
  [18; USB_DT_DEVICE;
   0x00; 0x02;
   0x00; 0x00; 0x00;
   64;
   0xad; 0xde;
   0x01; 0x00;
   0x00; 0x01;
   0; 0; 0;
   1].

Definition configuration_descriptor : list Z :=
  [9; USB_DT_CONFIG;
   18; 0;
   1;
   1;
   0;
   0x80;
   50;

   9; 0x04;
   0;
   0;
   0;
   0xff;
   0x00;
   0x00;
   0].

(** [data] points at least to two bytes. *)
Definition get_le16 (data : list Z) : option Z :=
  match data !! 0%nat, data !! 1%nat with
  | Some low, Some high => Some (u16 (Z.lor low (Z.shiftl high 8)))
  | _, _ => None
  end.

Definition print_usage (st : stream) (program : string) : U unit :=
  print st ("Usage: " +:+ program +:+ " [INSTANCE [PORT]]" +:+ nl).

(** The output pointer is the address of a local variable; at [end] is the rest
    of the text. *)
Definition parse_unsigned (text : option string) : result Z :=
  match text with
  | None => Err (- EINVAL)
  | Some text =>
      if bool_decide (text = EmptyString) then Err (- EINVAL)
      else
        let '(parsed, rest, errno) := strtoul text in
        if (errno =? ERANGE) || (U32_MAX <? parsed) then Err (- ERANGE)
        else if bool_decide (rest = text) || bool_decide (rest <> EmptyString) then Err (- EINVAL)
        else Ok (u32 parsed)
  end.

(** The new value of [stop_requested]. *)
Definition SIGINT : Z := 2.
Definition SIGTERM : Z := 15.
Definition handle_signal (signal_number : Z) : bool := true.

Section device.
Context (enc : ioctl_encoding) (strerror : Z -> string).

(** ** Control requests *)

Definition complete_data (handle : option handle_ptr) (request : virtusb_transfer_request)
    (data : list Z) (length : Z) (env : ioctl_env) : U Z :=
  let actual_length := length in
  let actual_length := if rt_requested_length request <? actual_length
                       then rt_requested_length request else actual_length in
  virtusb_transfer_complete enc handle (rt_id request) 0 (Some data) (u32 actual_length) env.

(** Printing the SETUP packet. *)
Definition print_setup (id object_id request_type usb_request value index length : Z) : U unit :=
  print Stdout ("transfer=" +:+ format_u id +:+ " object=" +:+ format_u object_id +:+
    " setup=" +:+ format_02x request_type +:+ " " +:+ format_02x usb_request +:+
    " " +:+ format_04x value +:+ " " +:+ format_04x index +:+ " " +:+ format_04x length +:+ nl).

Definition handle_control_transfer (handle : option handle_ptr) (request : virtusb_transfer_request)
    (env : ioctl_env) : U Z :=
  if negb (rt_has_setup request) then
    virtusb_transfer_complete enc handle (rt_id request) (- EINVAL) None 0 env
  else
    let setup := rt_setup request in
    match setup !! 0%nat, setup !! 1%nat, get_le16 (drop 2 setup), get_le16 (drop 4 setup), get_le16 (drop 6 setup) with
    | Some request_type, Some usb_request, Some value, Some index, Some length =>
        print_setup (rt_id request) (rt_object_id request) request_type usb_request value index length ;;
        let stall := virtusb_transfer_complete enc handle (rt_id request) (- EPIPE) None 0 env in
        let direction := Z.land request_type USB_DIR_IN in
        if negb (Z.land request_type USB_TYPE_MASK =? USB_TYPE_STANDARD) then stall
        else if usb_request =? USB_REQ_GET_DESCRIPTOR then
          if direction =? 0 then stall
          else
            let descriptor_type := u8 (Z.shiftr value 8) in
            if descriptor_type =? USB_DT_DEVICE then
              complete_data handle request device_descriptor 18 env
            else if descriptor_type =? USB_DT_CONFIG then
              complete_data handle request configuration_descriptor 18 env
            else stall
        else if (usb_request =? USB_REQ_SET_ADDRESS) || (usb_request =? USB_REQ_SET_CONFIGURATION) then
          if direction =? 0 then virtusb_transfer_complete enc handle (rt_id request) 0 None 0 env
          else stall
        else if usb_request =? USB_REQ_GET_CONFIGURATION then
          if Z.land request_type (Z.lor USB_DIR_IN USB_RECIP_MASK) =? Z.lor USB_DIR_IN USB_RECIP_DEVICE then
            complete_data handle request [1; 0] 1 env
          else stall
        else if usb_request =? USB_REQ_GET_STATUS then
          if negb (direction =? 0) then complete_data handle request [0; 0] 2 env
          else stall
        else stall
    | _, _, _, _, _ => stuck
    end.

(** ** The loop *)

(** One fetched request. *)
Definition serve_request (handle : option handle_ptr) (object_id : Z) (request : virtusb_transfer_request)
    (env : ioctl_env) : U Z :=
  if negb (rt_object_id request =? object_id) then
    virtusb_transfer_complete enc handle (rt_id request) (- ENODEV) None 0 env
  else if (rt_type request =? VIRTUSB_TRANSFER_CONTROL) && (rt_endpoint request =? 0) then
    handle_control_transfer handle request env
  else virtusb_transfer_complete enc handle (rt_id request) (- EPIPE) None 0 env.

(** [fprintf(stderr, "...: %s\n", strerror(-ret)); goto out;] *)
Definition fail (text : string) (r : Z) : U Z :=
  print Stderr (text +:+ ": " +:+ strerror (- r) +:+ nl) ;; ret EXIT_FAILURE.

(** The rounds until the program is stopped; behind the last one a signal
    interrupts the fetch. *)
Fixpoint serve (handle : option handle_ptr) (object_id : Z) (rounds : list round) (stop_requested : bool) : U Z :=
  if stop_requested then ret EXIT_SUCCESS
  else
    match rounds with
    | [] => if handle_signal SIGTERM then ret EXIT_SUCCESS else stuck
    | round :: rounds =>
        both r, request <- at_site (ro_fetch round) (virtusb_transfer_fetch enc handle true) ;;
        let stop_requested := if ro_signal round then handle_signal SIGINT else stop_requested in
        if r =? - EINTR then serve handle object_id rounds stop_requested
        else if r <? 0 then fail "transfer fetch" r
        else
          match request with
          | None => stuck
          | Some request =>
              r <- at_site (ro_complete round) (serve_request handle object_id request) ;;
              if r <? 0 then fail "transfer complete" r
              else serve handle object_id rounds stop_requested
          end
    end.

(** ** main *)

(** What the system and the others do: [sigaction] fails with an errno, the node
    is opened, the calls are made, a signal is delivered before the loop, the
    rounds are served. *)
Record world := mk_world {
  wo_sigaction : option Z;
  wo_open : open_env;
  wo_site : place -> site;
  wo_signal : bool;
  wo_rounds : list round;
}.

Section main.
Context (w : world).
Abbreviation at_place x := (at_site (wo_site w x)).

(** From the attachment to the end of the loop. *)
Definition run_device (handle : option handle_ptr) (object_id port : Z) : U Z :=
  r <- at_place AtAttach (virtusb_device_attach enc handle object_id 0 port) ;;
  if r <? 0 then fail "device attach" r
  else
    print Stdout ("VirtUSB test device " +:+ format_u object_id +:+ " attached to port " +:+ format_u port +:+ nl) ;;
    r <- at_place AtRegister (virtusb_backend_register enc handle object_id) ;;
    if r <? 0 then fail "backend register" r
    else
      r <- at_place AtConnect (virtusb_device_set_connected enc handle object_id true) ;;
      if r <? 0 then fail "device connect" r
      else serve handle object_id (wo_rounds w) (if wo_signal w then handle_signal SIGINT else false).

(** The label out, up to the close. *)
Definition cleanup (handle : option handle_ptr) (object_id : Z) : U unit :=
  if bool_decide (handle <> None) && negb (object_id =? VIRTUSB_INVALID_OBJECT_ID) then
    _ <- at_place EndConnect (virtusb_device_set_connected enc handle object_id false) ;;
    _ <- at_place EndDetach (virtusb_device_detach enc handle object_id) ;;
    _ <- at_place EndUnregister (virtusb_backend_unregister enc handle) ;;
    _ <- at_place EndDestroy (virtusb_device_destroy enc handle object_id true) ;;
    ret tt
  else ret tt.

(** Everything between the open and the close: the exit code and the ID of the
    device, VIRTUSB_INVALID_OBJECT_ID when there is none. *)
Definition session (handle : option handle_ptr) (port : Z) : U (Z * Z) :=
  both r, created <- at_place AtCreate (virtusb_device_create enc handle VIRTUSB_DEVICE_SPEED_FULL true) ;;
  let object_id := default VIRTUSB_INVALID_OBJECT_ID created in
  exit_code <- (if r <? 0 then fail "device create" r else run_device handle object_id port) ;;
  cleanup handle object_id ;;
  ret (exit_code, object_id).

(** From [virtusb_open] on. *)
Definition run (instance port : Z) : U Z :=
  both r, handle <- virtusb_open instance true (wo_open w) ;;
  if r <? 0 then
    exit_code <- fail "virtusb_open" r ;;
    cleanup handle VIRTUSB_INVALID_OBJECT_ID ;;
    virtusb_close handle ;;
    ret exit_code
  else
    both exit_code, _ <- session handle port ;;
    virtusb_close handle ;;
    ret exit_code.

Definition invalid_argument (argv : list string) (what text : string) : U Z :=
  print Stderr ("Invalid " +:+ what +:+ ": " +:+ text +:+ nl) ;;
  program <- arg argv 0 ;;
  print_usage Stderr program ;;
  ret EXIT_FAILURE.

Definition main (argv : list string) : U Z :=
  let argc := length argv in
  help <- (if (argc =? 2)%nat
           then a <- arg argv 1 ;; ret (bool_decide (a = "-h") || bool_decide (a = "--help"))
           else ret false) ;;
  if help : bool then program <- arg argv 0 ;; print_usage Stdout program ;; ret EXIT_SUCCESS
  else if (3 <? argc)%nat then program <- arg argv 0 ;; print_usage Stderr program ;; ret EXIT_FAILURE
  else
    match (if (2 <=? argc)%nat then parse_unsigned (argv !! 1%nat) else Ok 0) with
    | Err _ => text <- arg argv 1 ;; invalid_argument argv "INSTANCE" text
    | Ok instance =>
        match (if (3 <=? argc)%nat
               then match parse_unsigned (argv !! 2%nat) with
                    | Ok port => if port =? 0 then Err (- EINVAL) else Ok port
                    | Err e => Err e
                    end
               else Ok 1) with
        | Err _ => text <- arg argv 2 ;; invalid_argument argv "PORT" text
        | Ok port =>
            match wo_sigaction w with
            | Some e =>
                set_errno e ;; print Stderr ("sigaction: " +:+ strerror e +:+ nl) ;; ret EXIT_FAILURE
            | None => run instance port
            end
        end
    end.
End main.
End device.
