(* ===== verification/TestUnregister.v ===== *)
(** * The test of backend unregistration (tools/virtusb-test-backend-unregister/main.c)

    The program lets the host configure its device, then unregisters and
    re-registers the backend and checks that the port did not notice. *)

From S2P Require Import Prelude Uapi Kernel Port Hub Object Device Transfer Backend Hcd Control ModuleSpec Text Lib Program.

Definition device_descriptor : list Z :=
  [18; USB_DT_DEVICE; 0x00; 0x02; 0x00; 0x00; 0x00; 64; 0xad;
   0xde; 0x01; 0x00; 0x00; 0x01; 0; 0; 0; 1].

Definition configuration_descriptor : list Z :=
  [9; USB_DT_CONFIG; 18; 0; 1; 1; 0; 0x80; 50;
   9; 0x04; 0; 0; 0; 0xff; 0x00; 0x00; 0].

Definition get_le16 (data : list Z) : option Z :=
  match data !! 0%nat, data !! 1%nat with
  | Some low, Some high => Some (u16 (Z.lor low (Z.shiftl high 8)))
  | _, _ => None
  end.

Section test.
Context (enc : ioctl_encoding) (strerror : Z -> string).

Definition complete_data (handle : option handle_ptr) (request : virtusb_transfer_request)
    (data : list Z) (length : Z) (env : ioctl_env) : U Z :=
  let actual_length := length in
  let actual_length := if rt_requested_length request <? actual_length
                       then rt_requested_length request else actual_length in
  virtusb_transfer_complete enc handle (rt_id request) 0 (Some data) (u32 actual_length) env.

(** Printing the SETUP packet. *)
Definition print_setup (id object_id request_type usb_request value index length : Z) : U unit :=
  print Stdout ("transfer=" +:+ format_u id +:+ " object=" +:+ format_u object_id +:+
    " setup=" +:+ format_02x request_type +:+ " " +:+ format_02x usb_request +:+
    " " +:+ format_04x value +:+ " " +:+ format_04x index +:+ " " +:+ format_04x length +:+ nl).

(** The result and the new value of [*configured]. *)
Definition handle_control_transfer (handle : option handle_ptr) (request : virtusb_transfer_request)
    (configured : bool) (env : ioctl_env) : U (Z * bool) :=
  let same (m : U Z) : U (Z * bool) := r <- m ;; ret (r, configured) in
  if negb (rt_has_setup request) then
    same (virtusb_transfer_complete enc handle (rt_id request) (- EINVAL) None 0 env)
  else
    let setup := rt_setup request in
    match setup !! 0%nat, setup !! 1%nat, get_le16 (drop 2 setup), get_le16 (drop 4 setup), get_le16 (drop 6 setup) with
    | Some request_type, Some usb_request, Some value, Some index, Some length =>
        print_setup (rt_id request) (rt_object_id request) request_type usb_request value index length ;;
        let stall := same (virtusb_transfer_complete enc handle (rt_id request) (- EPIPE) None 0 env) in
        let direction := Z.land request_type USB_DIR_IN in
        if negb (Z.land request_type USB_TYPE_MASK =? USB_TYPE_STANDARD) then stall
        else if usb_request =? USB_REQ_GET_DESCRIPTOR then
          if negb (direction =? 0) then
            if u8 (Z.shiftr value 8) =? USB_DT_DEVICE then
              same (complete_data handle request device_descriptor 18 env)
            else if u8 (Z.shiftr value 8) =? USB_DT_CONFIG then
              same (complete_data handle request configuration_descriptor 18 env)
            else stall
          else stall
        else if usb_request =? USB_REQ_SET_ADDRESS then
          if direction =? 0 then same (virtusb_transfer_complete enc handle (rt_id request) 0 None 0 env)
          else stall
        else if usb_request =? USB_REQ_SET_CONFIGURATION then
          if direction =? 0 then
            r <- virtusb_transfer_complete enc handle (rt_id request) 0 None 0 env ;;
            ret (r, if r =? 0 then true else configured)
          else stall
        else if usb_request =? USB_REQ_GET_CONFIGURATION then
          if Z.land request_type (Z.lor USB_DIR_IN USB_RECIP_MASK) =? Z.lor USB_DIR_IN USB_RECIP_DEVICE then
            same (complete_data handle request [1; 0] 1 env)
          else stall
        else if usb_request =? USB_REQ_GET_STATUS then
          if negb (direction =? 0) then same (complete_data handle request [0; 0] 2 env)
          else stall
        else stall
    | _, _, _, _, _ => stuck
    end.

(** The status bits that a configured device keeps. *)
Definition required : Z :=
  Z.lor (Z.lor VIRTUSB_STATUS_CONNECTED VIRTUSB_STATUS_ENABLED) VIRTUSB_STATUS_POWER.

Definition verify_port (handle : option handle_ptr) (port : Z) (env : ioctl_env) : U Z :=
  both r, status <- virtusb_get_port_status enc handle 0 port true env ;;
  if r <? 0 then ret r
  else
    match status with
    | None => stuck
    | Some status =>
        let st := vt_state status in
        let speed := match vs_speed st with
                     | VIRTUSB_SPEED_NONE => 0 | VIRTUSB_SPEED_LOW => 1
                     | VIRTUSB_SPEED_FULL => 2 | VIRTUSB_SPEED_HIGH => 3
                     end in
        print Stdout ("port " +:+ format_u port +:+ " status=0x" +:+ format_08x (vs_status st) +:+
                        " speed=" +:+ format_u speed +:+ nl) ;;
        if negb (Z.land (vs_status st) required =? required) then ret (- EIO) else ret 0
    end.

(** [fprintf(stderr, "...: %s\n", strerror(-ret)); goto out;] *)
Definition fail (text : string) (r : Z) : U Z :=
  print Stderr (text +:+ ": " +:+ strerror (- r) +:+ nl) ;; ret EXIT_FAILURE.

(** ** The loop until the device is configured *)

Definition serve_request (handle : option handle_ptr) (object_id : Z) (request : virtusb_transfer_request)
    (configured : bool) (env : ioctl_env) : U (Z * bool) :=
  if negb (rt_object_id request =? object_id) || negb (rt_type request =? VIRTUSB_TRANSFER_CONTROL) ||
     negb (rt_endpoint request =? 0)
  then
    r <- virtusb_transfer_complete enc handle (rt_id request) (- EPIPE) None 0 env ;;
    ret (r, configured)
  else handle_control_transfer handle request configured env.

(** [Err]: the exit code; [None]: still waiting after these rounds. *)
Fixpoint configure (handle : option handle_ptr) (object_id : Z) (rounds : list round) (configured : bool) :
    U (option (result unit)) :=
  if configured then ret (Some (Ok tt))
  else
    match rounds with
    | [] => ret None
    | round :: rounds =>
        both r, request <- at_site (ro_fetch round) (virtusb_transfer_fetch enc handle true) ;;
        if r <? 0 then e <- fail "transfer fetch" r ;; ret (Some (Err e))
        else
          match request with
          | None => stuck
          | Some request =>
              both r, configured <- at_site (ro_complete round)
                                      (serve_request handle object_id request configured) ;;
              if r <? 0 then e <- fail "transfer complete" r ;; ret (Some (Err e))
              else configure handle object_id rounds configured
          end
    end.

(** ** main *)

Record world := mk_world {
  wo_open : open_env;
  wo_site : place -> site;
  wo_rounds : list round;
}.

Section main.
Context (w : world).
Abbreviation at_place x := (at_site (wo_site w x)).

(** The check itself, with the device configured: the exit code and the last
    value of [registered]. *)
Definition check_unregister (handle : option handle_ptr) (object_id : Z) : U (Z * bool) :=
  let failing (registered : bool) (text : string) (r : Z) : U (Z * bool) :=
    e <- fail text r ;; ret (e, registered) in
  r <- at_place AtVerify (verify_port handle 1) ;;
  if r <? 0 then failing true "port state before unregister is invalid" r
  else
    r <- at_place AtUnregister (virtusb_backend_unregister enc handle) ;;
    if r <? 0 then failing true "backend unregister" r
    else
      r <- at_place AtVerifyUnregistered (verify_port handle 1) ;;
      if r <? 0 then failing false "port state changed by backend unregister" r
      else
        r <- at_place AtReregister (virtusb_backend_register enc handle object_id) ;;
        if r <? 0 then failing false "backend re-register" r
        else
          r <- at_place AtVerifyReregistered (verify_port handle 1) ;;
          if r <? 0 then failing true "port state changed by backend re-register" r
          else
            print Stdout ("PASS: backend unregister/re-register did not change attachment or connection state" +:+ nl) ;;
            ret (EXIT_SUCCESS, true).

(** From the attachment to the label out; [None]: still waiting. *)
Definition run_device (handle : option handle_ptr) (object_id : Z) : U (option (Z * bool)) :=
  let failing (registered : bool) (text : string) (r : Z) : U (option (Z * bool)) :=
    e <- fail text r ;; ret (Some (e, registered)) in
  r <- at_place AtAttach (virtusb_device_attach enc handle object_id 0 1) ;;
  if r <? 0 then failing false "device attach" r
  else
    r <- at_place AtRegister (virtusb_backend_register enc handle object_id) ;;
    if r <? 0 then failing false "backend register" r
    else
      r <- at_place AtConnect (virtusb_device_set_connected enc handle object_id true) ;;
      if r <? 0 then failing true "device connect" r
      else
        x <- configure handle object_id (wo_rounds w) false ;;
        match x with
        | None => ret None
        | Some (Err e) => ret (Some (e, true))
        | Some (Ok _) => r <- check_unregister handle object_id ;; ret (Some r)
        end.

(** The label out, up to the close. *)
Definition cleanup (handle : option handle_ptr) (object_id : Z) (registered : bool) : U unit :=
  if bool_decide (handle <> None) && negb (object_id =? VIRTUSB_INVALID_OBJECT_ID) then
    _ <- at_place EndConnect (virtusb_device_set_connected enc handle object_id false) ;;
    _ <- at_place EndDetach (virtusb_device_detach enc handle object_id) ;;
    _ <- (if registered then at_place EndUnregister (virtusb_backend_unregister enc handle) else ret 0) ;;
    _ <- at_place EndDestroy (virtusb_device_destroy enc handle object_id true) ;;
    ret tt
  else ret tt.

(** Everything between the open and the close: the exit code and the ID of the
    device. *)
Definition session (handle : option handle_ptr) : U (option Z * Z) :=
  both r, created <- at_place AtCreate (virtusb_device_create enc handle VIRTUSB_DEVICE_SPEED_FULL true) ;;
  let object_id := default VIRTUSB_INVALID_OBJECT_ID created in
  x <- (if r <? 0 then e <- fail "device create" r ;; ret (Some (e, false))
        else run_device handle object_id) ;;
  match x with
  | None => ret (None, object_id)
  | Some (exit_code, registered) =>
      cleanup handle object_id registered ;;
      ret (Some exit_code, object_id)
  end.

(** The exit code; [None]: the program is still waiting for the host. *)
Definition main : U (option Z) :=
  both r, handle <- virtusb_open 0 true (wo_open w) ;;
  if r <? 0 then e <- fail "virtusb_open" r ;; ret (Some e)
  else
    both exit_code, _ <- session handle ;;
    match exit_code with
    | None => ret None
    | Some exit_code => virtusb_close handle ;; ret (Some exit_code)
    end.
End main.
End test.
