(* ===== verification/TestRollback.v ===== *)
(** * The test of fetch rollback (tools/virtusb-test-fetch-rollback/main.c)

    The program makes a fetch whose result cannot be copied out, and checks that
    the next fetch returns the transfer.  It calls the driver without the
    library. *)

From S2P Require Import Prelude Uapi Kernel Port Hub Object Device Transfer Backend Hcd Control ModuleSpec Text Lib Program.

Definition device_descriptor : list Z :=
  [18; USB_DT_DEVICE; 0x00; 0x02; 0x00; 0x00; 0x00; 64; 0xad;
   0xde; 0x01; 0x00; 0x00; 0x01; 0; 0; 0; 1].

Definition configuration_descriptor : list Z :=
  [9; USB_DT_CONFIG; 18; 0; 1; 1; 0; 0x80; 50;
   9; 0x04; 0; 0; 0; 0xff; 0x00; 0x00; 0].

Definition get_le16 (data : list Z) : option Z :=
  match data !! 0%nat, data !! 1%nat with
  | Some low, Some high => Some (u16 (Z.lor low (Z.shiftl high 8)))
  | _, _ => None
  end.

Section test.
Context (enc : ioctl_encoding) (strerror : Z -> string).

(** ** Requests *)

(** The result and what the kernel wrote to the argument. *)
Definition do_ioctl (fd command : Z) (argument : request) (env : ioctl_env) : U (Z * option reply) :=
  both r, written <- sys_ioctl enc fd command argument env ;;
  if r <? 0 then e <- gets pr_errno ;; ret (- e, written) else ret (0, written).

(** One that writes nothing back. *)
Definition do_request (fd command : Z) (argument : request) (env : ioctl_env) : U Z :=
  both r, _ <- do_ioctl fd command argument env ;; ret r.

(** [data], when not NULL, points to at least [length] bytes. *)
Definition complete_transfer (fd transfer_id status : Z) (data : option (list Z)) (length : Z)
    (env : ioctl_env) : U Z :=
  if VIRTUSB_TRANSFER_DATA_MAX <? length then ret (- EMSGSIZE)
  else
    let zeros := replicate (Z.to_nat VIRTUSB_TRANSFER_DATA_MAX) 0 in
    let request bytes := mk_transfer_complete_request transfer_id status (u32 length) bytes in
    match data with
    | Some bytes =>
        if 0 <? length then
          if Z.of_nat (List.length bytes) <? length then stuck
          else
            let copied := take (Z.to_nat length) bytes ++ drop (Z.to_nat length) zeros in
            do_request fd (VIRTUSB_IOCTL_TRANSFER_COMPLETE enc) (ReqTransferComplete (request copied)) env
        else do_request fd (VIRTUSB_IOCTL_TRANSFER_COMPLETE enc) (ReqTransferComplete (request zeros)) env
    | None => do_request fd (VIRTUSB_IOCTL_TRANSFER_COMPLETE enc) (ReqTransferComplete (request zeros)) env
    end.

Definition complete_data (fd : Z) (request : Uapi.virtusb_transfer_fetch) (data : list Z) (length : Z)
    (env : ioctl_env) : U Z :=
  let length := if tf_requested_length request <? length then tf_requested_length request else length in
  complete_transfer fd (tf_transfer_id request) 0 (Some data) length env.

(** Printing the SETUP packet. *)
Definition print_setup (id object_id request_type usb_request value index length : Z) : U unit :=
  print Stdout ("transfer=" +:+ format_u id +:+ " object=" +:+ format_u object_id +:+
    " setup=" +:+ format_02x request_type +:+ " " +:+ format_02x usb_request +:+
    " " +:+ format_04x value +:+ " " +:+ format_04x index +:+ " " +:+ format_04x length +:+ nl).

(** The result and the new value of [*configured]. *)
Definition handle_control_transfer (fd : Z) (request : Uapi.virtusb_transfer_fetch) (configured : bool)
    (env : ioctl_env) : U (Z * bool) :=
  let same (m : U Z) : U (Z * bool) := r <- m ;; ret (r, configured) in
  if tf_has_setup request =? 0 then
    same (complete_transfer fd (tf_transfer_id request) (- EINVAL) None 0 env)
  else
    let setup := tf_setup request in
    match setup !! 0%nat, setup !! 1%nat, get_le16 (drop 2 setup), get_le16 (drop 4 setup), get_le16 (drop 6 setup) with
    | Some request_type, Some usb_request, Some value, Some index, Some length =>
        print_setup (tf_transfer_id request) (tf_object_id request) request_type usb_request value index length ;;
        let stall := same (complete_transfer fd (tf_transfer_id request) (- EPIPE) None 0 env) in
        let direction := Z.land request_type USB_DIR_IN in
        if negb (Z.land request_type USB_TYPE_MASK =? USB_TYPE_STANDARD) then stall
        else if usb_request =? USB_REQ_GET_DESCRIPTOR then
          if negb (direction =? 0) then
            if u8 (Z.shiftr value 8) =? USB_DT_DEVICE then
              same (complete_data fd request device_descriptor 18 env)
            else if u8 (Z.shiftr value 8) =? USB_DT_CONFIG then
              same (complete_data fd request configuration_descriptor 18 env)
            else stall
          else stall
        else if usb_request =? USB_REQ_SET_ADDRESS then
          if direction =? 0 then same (complete_transfer fd (tf_transfer_id request) 0 None 0 env)
          else stall
        else if usb_request =? USB_REQ_SET_CONFIGURATION then
          if direction =? 0 then
            r <- complete_transfer fd (tf_transfer_id request) 0 None 0 env ;;
            ret (r, if r =? 0 then true else configured)
          else stall
        else if usb_request =? USB_REQ_GET_CONFIGURATION then
          if Z.land request_type (Z.lor USB_DIR_IN USB_RECIP_MASK) =? Z.lor USB_DIR_IN USB_RECIP_DEVICE then
            same (complete_data fd request [1; 0] 1 env)
          else stall
        else if usb_request =? USB_REQ_GET_STATUS then
          if negb (direction =? 0) then same (complete_data fd request [0; 0] 2 env)
          else stall
        else stall
    | _, _, _, _, _ => stuck
    end.

(** A fetch into a zeroed structure. *)
Definition fetch_transfer (fd : Z) (env : ioctl_env) : U (Z * Uapi.virtusb_transfer_fetch) :=
  both r, written <- do_ioctl fd (VIRTUSB_IOCTL_TRANSFER_FETCH enc) ReqTransferFetch env ;;
  ret (r, match written with Some (ReplyFetch x) => x | _ => zero_fetch end).

(** [fprintf(stderr, "...: %s\n", strerror(-ret)); goto out;] *)
Definition fail (text : string) (r : Z) : U Z :=
  print Stderr (text +:+ ": " +:+ strerror (- r) +:+ nl) ;; ret EXIT_FAILURE.
(** [fputs("...\n", stderr); goto out;] *)
Definition complain (text : string) : U Z := print Stderr (text +:+ nl) ;; ret EXIT_FAILURE.

Definition serve_request (fd : Z) (fetch : Uapi.virtusb_transfer_fetch) (configured : bool) (env : ioctl_env) :
    U (Z * bool) :=
  if negb (tf_type fetch =? VIRTUSB_UAPI_TRANSFER_TYPE_CONTROL) || negb (tf_endpoint fetch =? 0) then
    r <- complete_transfer fd (tf_transfer_id fetch) (- EPIPE) None 0 env ;; ret (r, configured)
  else handle_control_transfer fd fetch configured env.

(** ** main *)

Record world := mk_world {
  wo_open : open_env;
  wo_site : place -> site;
  wo_rounds : list round;
}.

(** The four flags that the label out looks at. *)
Record progress := mk_progress {
  pg_created : bool;
  pg_attached : bool;
  pg_registered : bool;
  pg_connected : bool;
}.

Section main.
Context (w : world).
Abbreviation at_place x := (at_site (wo_site w x)).

(** The loop from a fetched transfer on.  A round is the completion of the
    transfer and then the fetch of the next one; [None]: still waiting after
    these rounds. *)
Fixpoint configure (fd : Z) (fetch : Uapi.virtusb_transfer_fetch) (rounds : list round) (configured : bool) :
    U (option Z) :=
  match rounds with
  | [] => ret None
  | round :: rounds =>
      both r, configured <- at_site (ro_complete round) (serve_request fd fetch configured) ;;
      if r <? 0 then e <- fail "transfer complete" r ;; ret (Some e)
      else if configured : bool then
        print Stdout ("PASS: EFAULT rolled the transfer back without unregistering the backend" +:+ nl) ;;
        ret (Some EXIT_SUCCESS)
      else
        both r, fetch <- at_site (ro_fetch round) (fetch_transfer fd) ;;
        if r <? 0 then e <- fail "transfer fetch" r ;; ret (Some e)
        else configure fd fetch rounds configured
  end.

(** The fetch that faults and the one after it. *)
Definition check_rollback (fd object_id : Z) : U (option Z) :=
  let failing (m : U Z) : U (option Z) := e <- m ;; ret (Some e) in
  set_errno 0 ;;
  both r, _ <- at_place AtFaultingFetch (sys_ioctl enc fd (VIRTUSB_IOCTL_TRANSFER_FETCH enc) ReqUnmapped) ;;
  errno <- gets pr_errno ;;
  if 0 <=? r then failing (complain "faulting fetch unexpectedly succeeded")
  else if negb (errno =? EFAULT) then
    failing (complain ("faulting fetch returned " +:+ strerror errno +:+ " instead of EFAULT"))
  else
    print Stdout ("faulting fetch returned EFAULT as expected" +:+ nl) ;;
    both r, fetch <- at_place AtFetchAgain (fetch_transfer fd) ;;
    if r <? 0 then failing (fail "fetch after EFAULT" r)
    else if (tf_transfer_id fetch =? 0) || negb (tf_object_id fetch =? object_id) then
      failing (complain "fetch after EFAULT returned an invalid transfer")
    else
      print Stdout ("rollback recovered transfer=" +:+ format_u (tf_transfer_id fetch) +:+
                      " object=" +:+ format_u (tf_object_id fetch) +:+ nl) ;;
      configure fd fetch (wo_rounds w) false.

(** From the attachment to the label out. *)
Definition run_device (fd object_id : Z) : U (option Z * progress) :=
  let failing (text : string) (r : Z) (p : progress) : U (option Z * progress) :=
    e <- fail text r ;; ret (Some e, p) in
  r <- at_place AtAttach (do_request fd (VIRTUSB_IOCTL_DEVICE_ATTACH enc)
         (ReqDeviceAttach (mk_device_attach_req object_id VIRTUSB_ROOT_HUB_ID 1))) ;;
  if r <? 0 then failing "device attach" r (mk_progress true false false false)
  else
    r <- at_place AtRegister (do_request fd (VIRTUSB_IOCTL_BACKEND_REGISTER enc)
           (ReqBackendRegister (mk_backend_register_req object_id))) ;;
    if r <? 0 then failing "backend register" r (mk_progress true true false false)
    else
      r <- at_place AtConnect (do_request fd (VIRTUSB_IOCTL_DEVICE_CONNECTION enc)
             (ReqDeviceConnection (mk_device_connection_req object_id 1))) ;;
      if r <? 0 then failing "device connect" r (mk_progress true true true false)
      else
        x <- check_rollback fd object_id ;;
        ret (x, mk_progress true true true true).

(** [if (flag) (void)do_ioctl(...);] *)
Definition when (flag : bool) (m : U Z) : U unit := if flag then _ <- m ;; ret tt else ret tt.

(** The label out, up to the close. *)
Definition cleanup (fd object_id : Z) (p : progress) : U unit :=
  when (pg_connected p) (at_place EndConnect (do_request fd (VIRTUSB_IOCTL_DEVICE_CONNECTION enc)
    (ReqDeviceConnection (mk_device_connection_req object_id 0)))) ;;
  when (pg_attached p) (at_place EndDetach (do_request fd (VIRTUSB_IOCTL_DEVICE_DETACH enc)
    (ReqDeviceObject (mk_device_object_req object_id)))) ;;
  when (pg_registered p) (at_place EndUnregister (do_request fd (VIRTUSB_IOCTL_BACKEND_UNREGISTER enc) ReqNone)) ;;
  when (pg_created p) (at_place EndDestroy (do_request fd (VIRTUSB_IOCTL_DEVICE_DESTROY enc)
    (ReqDeviceDestroy (mk_device_destroy_req object_id VIRTUSB_DEVICE_DESTROY_FORCE)))).

(** Everything between the open and the close: the exit code and the ID of the
    device, if there is one. *)
Definition session (fd : Z) : U (option Z * option Z) :=
  let create := mk_device_create_req VIRTUSB_SPEED_CAP_FULL 0 in
  both r, written <- at_place AtCreate (do_ioctl fd (VIRTUSB_IOCTL_DEVICE_CREATE enc) (ReqDeviceCreate create)) ;;
  let create := match written with Some (ReplyDeviceCreate x) => x | _ => create end in
  if r <? 0 then e <- fail "device create" r ;; ret (Some e, None)
  else
    let object_id := dc_object_id create in
    both x, p <- run_device fd object_id ;;
    match x with
    | None => ret (None, Some object_id)
    | Some exit_code => cleanup fd object_id p ;; ret (Some exit_code, Some object_id)
    end.

(** The exit code; [None]: the program is still waiting for the host. *)
Definition main : U (option Z) :=
  fd <- sys_open "/dev/virtusb0" (wo_open w) ;;
  if fd <? 0 then
    errno <- gets pr_errno ;;
    print Stderr ("open /dev/virtusb0: " +:+ strerror errno +:+ nl) ;;
    ret (Some EXIT_FAILURE)
  else
    both exit_code, _ <- session fd ;;
    match exit_code with
    | None => ret None
    | Some exit_code => _ <- sys_close fd ;; ret (Some exit_code)
    end.
End main.
End test.
