(* ===== verification/TestSpec.v ===== *)
(** * What the test programs do

    Each of them returns whatever the host and the other users of the module do,
    with its tables as they were, and the object it created is gone. *)

From S2P Require Import Prelude Uapi Kernel Port Hub Object Device Transfer Backend BackendInv BackendOps Hcd HcdSpec UrbSpec Control ControlSpec ModuleSpec Config BlockSpec Text Lib LibSpec Program ProgramSpec.
From S2P Require TestDevice TestUnregister TestRollback.

Section tests.
Context (enc : ioctl_encoding) (Henc : NoDup (commands enc)) (strerror : Z -> string).
Implicit Types p : process.

(** What surrounds a program whose file is [f]. *)
Record surroundings (f : file_ptr) (sites : place -> site) (rounds : list round) : Prop := {
  su_sites : forall x, site_ok enc f (sites x);
  su_fetches : forall x, x = AtFaultingFetch \/ x = AtFetchAgain -> fetch_site_ok enc f (sites x);
  su_rounds : Forall (round_ok enc f) rounds;
}.

(** ** SETUP packets *)

Lemma setup_bytes (l : list Z) : length l = 8%nat ->
  exists a b c d e f g h, l = [a; b; c; d; e; f; g; h].
Proof. intros Hl. do 8 (destruct l as [|? l]; [done | ]). destruct l; [ | done]. by do 8 eexists. Qed.

Section device.
Context (fd : Z) (f : file_ptr) (h : handle_ptr).
Abbreviation handle := (Some h).
Abbreviation talks m Q := (talks enc fd f handle m Q).
Abbreviation does m Q := (does enc fd f handle m Q).
Abbreviation call_talks call := (call_talks enc fd f handle false call (fun r => r <= 0)).
Abbreviation frun := (runs enc {[f]}).
Abbreviation leaves id m := (leaves enc fd f handle id m).

(** ** virtusb-test-device *)

Lemma data_bounded request (data : list Z) n : request_ok request -> 0 <= n <= Z.of_nat (length data) ->
  n <= VIRTUSB_TRANSFER_DATA_MAX ->
  let m := u32 (if rt_requested_length request <? n then rt_requested_length request else n) in
  in_width 32 m /\ data_ok (Some data) m.
Proof.
  intros [_ Hr] Hn Hmax m. unfold VIRTUSB_TRANSFER_DATA_MAX in *.
  assert (Em : m = Z.min (rt_requested_length request) n).
  { unfold m. rewrite wrap_small; destruct (Z.ltb_spec (rt_requested_length request) n); unfold in_width; lia. }
  rewrite Em. split; [unfold in_width; lia | ]. intros b [= <-]. lia.
Qed.

Lemma device_complete_data_talks request data n : request_ok request -> 0 <= n <= Z.of_nat (length data) ->
  n <= VIRTUSB_TRANSFER_DATA_MAX -> call_talks (TestDevice.complete_data enc handle request data n).
Proof using Henc.
  intros Hr Hn Hmax. destruct (data_bounded request data n Hr Hn Hmax) as [Hw Hd].
  by apply complete_talks.
Qed.

Lemma answer_talks id status : call_talks (virtusb_transfer_complete enc handle id status None 0).
Proof using Henc. apply complete_talks; [done | by split | done]. Qed.

(** Every branch of a control request prints the packet and completes the
    transfer once. *)
Ltac answers := repeat (case_match; try (by apply answer_talks)).

Lemma device_control_talks request : request_ok request ->
  call_talks (TestDevice.handle_control_transfer enc handle request).
Proof using Henc.
  intros Hr. unfold TestDevice.handle_control_transfer. destruct (rt_has_setup request); [cbn [negb] | apply answer_talks].
  destruct (setup_bytes (rt_setup request)) as (a & b & c & d & e & g & i & j & ->); [apply Hr | ].
  cbn [lookup list_lookup drop TestDevice.get_le16]. apply call_print_talks.
  answers; by apply device_complete_data_talks.
Qed.

Lemma device_serve_request_talks id request : request_ok request ->
  call_talks (TestDevice.serve_request enc handle id request).
Proof using Henc.
  intros Hr. unfold TestDevice.serve_request. answers. by apply device_control_talks.
Qed.

Lemma device_fail_ends text r : does (TestDevice.fail strerror text r) printed.
Proof.
  intros p Hp Hf. apply runs_bind, runs_modify; [by apply process_set_output | done | ].
  apply runs_ret; [by apply process_set_output | ]. split; [done | ]. eexists. split; [done | ].
  right. split; [done | ]. eexists. by left.
Qed.
Lemma success_ends : does (ret EXIT_SUCCESS) printed.
Proof. apply does_ret. left. split; [done | constructor]. Qed.

Lemma device_serve_ends id rounds : Forall (round_ok enc f) rounds -> forall stop,
  does (TestDevice.serve enc strerror handle id rounds stop) printed.
Proof using Henc.
  induction 1 as [|x rounds [Hfetch Hcomp] _ IH]; intros stop; cbn [TestDevice.serve];
    (destruct stop; [apply success_ends | ]); [apply success_ends | ].
  eapply does_bind; [apply after_talk_printed | apply at_fetch_does; [done | by apply fetch_talks] | ].
  intros [r request] Hr. cbv zeta. destruct (r =? - EINTR); [apply IH | ].
  destruct (Z.ltb_spec r 0); [apply device_fail_ends | ].
  destruct (Hr ltac:(done)) as (req & E & Hreq). cbn in E. subst request.
  apply step_or_fail; [apply after_talk_printed | done | by apply device_serve_request_talks | intros; apply device_fail_ends | apply IH].
Qed.

Section world.
Context (w : TestDevice.world) (Hw : surroundings f (TestDevice.wo_site w) (TestDevice.wo_rounds w)).

Lemma device_run_ends id port : does (TestDevice.run_device enc strerror w handle id port) printed.
Proof using Henc Hw.
  destruct Hw as [Hs _ Hr]. unfold TestDevice.run_device.
  apply step_or_fail; [apply after_talk_printed | done | by apply attach_talks | intros; apply device_fail_ends | ].
  eapply does_bind; [apply after_talk_printed | apply print_talks | ]. intros _ _.
  apply step_or_fail; [apply after_talk_printed | done | by apply backend_register_talks | intros; apply device_fail_ends | ].
  apply step_or_fail; [apply after_talk_printed | done | by apply set_connected_talks | intros; apply device_fail_ends | ].
  by apply device_serve_ends.
Qed.


Lemma device_cleanup_leaves id : id <> VIRTUSB_INVALID_OBJECT_ID -> leaves id (TestDevice.cleanup enc w handle id).
Proof using Henc Hw.
  intros Hid. unfold TestDevice.cleanup. rewrite (bool_decide_eq_true_2 (handle <> None)) by done.
  rewrite (proj2 (Z.eqb_neq _ _) Hid). cbn [negb andb]. pose proof (su_sites _ _ _ Hw) as Hs.
  eapply leaves_bind; [apply at_site_does; [apply Hs | by apply set_connected_talks] | intros _].
  eapply leaves_bind; [apply at_site_does; [apply Hs | by apply detach_talks] | intros _].
  eapply leaves_bind; [apply at_site_does; [apply Hs | by apply backend_unregister_talks] | intros _].
  by apply leaves_ret, leaves_destroy.
Qed.

Lemma device_session_exits p port : process_ok p -> on_file fd f handle p ->
  frun (TestDevice.session enc strerror w handle port) p (fun x p' => session_exit p (Some x.1, x.2) p').
Proof using Henc Hw.
  intros Hp Hf.
  apply (session_exits enc Henc fd f handle (TestDevice.wo_site w AtCreate) (TestDevice.fail strerror "device create")
    (fun id => TestDevice.run_device enc strerror w handle id port)
    (fun id exit_code => TestDevice.cleanup enc w handle id ;; ret (exit_code, id)) Some
    (fun x => (Some x.1, x.2)) p);
    [done | apply Hw | intros; apply device_fail_ends | intros id; apply device_run_ends | | exact Hp | exact Hf].
  intros id code. apply finishes_cleanup; [done | | apply device_cleanup_leaves].
  intros ->. unfold TestDevice.cleanup. by rewrite Z.eqb_refl, andb_false_r.
Qed.
End world.

(** ** virtusb-test-backend-unregister *)

Abbreviation call_pair call := (ProgramSpec.call_talks enc fd f handle false call (fun x => x.1 <= 0)).

Lemma unregister_complete_data_talks request data n : request_ok request -> 0 <= n <= Z.of_nat (length data) ->
  n <= VIRTUSB_TRANSFER_DATA_MAX -> call_talks (TestUnregister.complete_data enc handle request data n).
Proof using Henc.
  intros Hr Hn Hmax. destruct (data_bounded request data n Hr Hn Hmax) as [Hw Hd].
  by apply complete_talks.
Qed.

Lemma with_flag (call : ioctl_env -> U Z) (g : Z -> bool) : call_talks call ->
  call_pair (fun env => r <- call env ;; ret (r, g r)).
Proof. intros Hc. by eapply call_map. Qed.

Lemma unregister_control_talks request configured : request_ok request ->
  call_pair (TestUnregister.handle_control_transfer enc handle request configured).
Proof using Henc.
  intros Hr. unfold TestUnregister.handle_control_transfer. cbv zeta.
  destruct (rt_has_setup request); cbn [negb]; [ | apply with_flag, answer_talks].
  destruct (setup_bytes (rt_setup request)) as (a & b & c & d & e & g & i & j & ->); [apply Hr | ].
  cbn [lookup list_lookup drop TestUnregister.get_le16]. apply call_print_talks.
  repeat (case_match; try (by apply with_flag, answer_talks));
    by apply with_flag, unregister_complete_data_talks.
Qed.

Lemma unregister_serve_request_talks id request configured : request_ok request ->
  call_pair (TestUnregister.serve_request enc handle id request configured).
Proof using Henc.
  intros Hr. unfold TestUnregister.serve_request.
  case_match; [by apply with_flag, answer_talks | by apply unregister_control_talks].
Qed.

Lemma verify_port_talks port : 0 <= port ->
  call_talks (TestUnregister.verify_port enc handle port).
Proof using Henc.
  intros Hp. unfold TestUnregister.verify_port. eapply call_bind; [apply after_talk_talks | by apply port_status_talks | ].
  intros [r status] Hs. cbn in Hs. destruct (Z.ltb_spec r 0); [apply talks_ret; lia | ].
  destruct (Hs ltac:(done)) as [st ->]. eapply talks_bind; [apply print_talks | intros _ _].
  case_match; by apply talks_ret.
Qed.

Lemma unregister_fail_prints {B} text r (g : Z -> B) (code : B -> option Z) : code (g EXIT_FAILURE) = Some EXIT_FAILURE ->
  does (e <- TestUnregister.fail strerror text r ;; ret (g e)) (fun b new => printed_by (code b) new).
Proof. apply complaint_prints. Qed.

Definition configure_code (x : option (result unit)) : option Z :=
  match x with Some (Err e) => Some e | _ => None end.
Lemma unregister_configure_does id rounds : Forall (round_ok enc f) rounds -> forall configured,
  does (TestUnregister.configure enc strerror handle id rounds configured)
    (fun x new => printed_by (configure_code x) new).
Proof using Henc.
  induction 1 as [|x rounds [Hfetch Hcomp] _ IH]; intros configured; cbn [TestUnregister.configure];
    (destruct configured; [apply does_ret; constructor | ]); [apply does_ret; constructor | ].
  eapply does_bind; [apply after_talk_printed_by | apply at_fetch_does; [done | by apply fetch_talks] | ].
  intros [r request] Hr. destruct (Z.ltb_spec r 0); [by apply unregister_fail_prints | ].
  destruct (Hr ltac:(done)) as (req & E & Hreq). cbn in E. subst request.
  eapply does_bind; [apply after_talk_printed_by | apply at_site_does; [done | by apply unregister_serve_request_talks] | ].
  intros [r' configured'] _. destruct (r' <? 0); [by apply unregister_fail_prints | apply IH].
Qed.

Section unregister_world.
Context (w : TestUnregister.world) (Hw : surroundings f (TestUnregister.wo_site w) (TestUnregister.wo_rounds w)).

Lemma check_unregister_does id : does (TestUnregister.check_unregister enc strerror w handle id)
  (fun x new => printed_by (Some x.1) new).
Proof using Henc Hw.
  pose proof (su_sites _ _ _ Hw) as Hs. unfold TestUnregister.check_unregister. cbv zeta.
  set (Q := fun (x : Z * bool) new => printed_by (Some x.1) new).
  assert (HQ : after_talk Q) by apply (after_talk_printed_by (fun x : Z * bool => Some x.1)).
  assert (Hfail : forall reg text r, does (e <- TestUnregister.fail strerror text r ;; ret (e, reg)) Q)
    by (intros; by apply (unregister_fail_prints _ _ _ (fun x : Z * bool => Some x.1))).
  assert (Hv : call_talks (TestUnregister.verify_port enc handle 1)) by (by apply verify_port_talks).
  apply step_or_fail; [done | apply Hs | done | intros; apply Hfail | ].
  apply step_or_fail; [done | apply Hs | by apply backend_unregister_talks | intros; apply Hfail | ].
  apply step_or_fail; [done | apply Hs | done | intros; apply Hfail | ].
  apply step_or_fail; [done | apply Hs | by apply backend_register_talks | intros; apply Hfail | ].
  apply step_or_fail; [done | apply Hs | done | intros; apply Hfail | ].
  eapply does_bind; [done | apply print_talks | intros _ _]. apply does_ret. left. split; [done | constructor].
Qed.

Lemma unregister_run_does id : does (TestUnregister.run_device enc strerror w handle id)
  (fun x new => printed_by (fst <$> x) new).
Proof using Henc Hw.
  pose proof (su_sites _ _ _ Hw) as Hs. unfold TestUnregister.run_device. cbv zeta.
  set (Q := fun (x : option (Z * bool)) new => printed_by (fst <$> x) new).
  assert (HQ : after_talk Q) by apply (after_talk_printed_by (fun x : option (Z * bool) => fst <$> x)).
  assert (Hfail : forall reg text r, does (e <- TestUnregister.fail strerror text r ;; ret (Some (e, reg))) Q)
    by (intros; by apply (unregister_fail_prints _ _ _ (fun x : option (Z * bool) => fst <$> x))).
  apply step_or_fail; [done | apply Hs | by apply attach_talks | intros; apply Hfail | ].
  apply step_or_fail; [done | apply Hs | by apply backend_register_talks | intros; apply Hfail | ].
  apply step_or_fail; [done | apply Hs | by apply set_connected_talks | intros; apply Hfail | ].
  intros p Hp Hf. apply runs_bind. eapply runs_mono; [by apply unregister_configure_does; [apply Hw | ..] | ].
  intros x p1 Hp1 (Hs1 & l1 & E1 & Hl1). pose proof (on_file_same fd f handle p p1 Hs1 Hf) as Hf1.
  destruct x as [[[]|e]|]; cbn in Hl1.
  - apply runs_bind. eapply runs_mono; [by apply check_unregister_does | ].
    intros y p2 Hp2 (Hs2 & l2 & E2 & Hl2). apply runs_ret; [done | ].
    split; [by apply (same_tables_trans p p1) | ]. exists (l1 ++ l2). rewrite E2, E1, app_assoc.
    split; [done | by apply (printed_app y.1)].
  - apply runs_ret; [done | ]. split; [done | ]. by exists l1.
  - apply runs_ret; [done | ]. split; [done | ]. by exists l1.
Qed.

Lemma unregister_cleanup_leaves id registered : id <> VIRTUSB_INVALID_OBJECT_ID ->
  leaves id (TestUnregister.cleanup enc w handle id registered).
Proof using Henc Hw.
  intros Hid. unfold TestUnregister.cleanup. rewrite (bool_decide_eq_true_2 (handle <> None)) by done.
  rewrite (proj2 (Z.eqb_neq _ _) Hid). cbn [negb andb]. pose proof (su_sites _ _ _ Hw) as Hs.
  eapply leaves_bind; [apply at_site_does; [apply Hs | by apply set_connected_talks] | intros _].
  eapply leaves_bind; [apply at_site_does; [apply Hs | by apply detach_talks] | intros _].
  apply (leaves_bind _ _ _ _ _ _ (fun r => r <= 0)).
  - destruct registered; [apply at_site_does; [apply Hs | by apply backend_unregister_talks] | by apply talks_ret].
  - intros _. by apply leaves_ret, leaves_destroy.
Qed.

Lemma unregister_session_exits p : process_ok p -> on_file fd f handle p ->
  frun (TestUnregister.session enc strerror w handle) p (session_exit p).
Proof using Henc Hw.
  intros Hp Hf.
  apply (session_exits enc Henc fd f handle (TestUnregister.wo_site w AtCreate)
    (fun r => e <- TestUnregister.fail strerror "device create" r ;; ret (Some (e, false)))
    (TestUnregister.run_device enc strerror w handle)
    (fun id x => match x with
       | None => ret (None, id)
       | Some (exit_code, registered) =>
           TestUnregister.cleanup enc w handle id registered ;; ret (Some exit_code, id)
       end) (fun x => fst <$> x) (fun x => x) p);
    [done | apply Hw | intros | apply unregister_run_does | | exact Hp | exact Hf].
  - by apply (unregister_fail_prints _ _ _ (fun x : option (Z * bool) => fst <$> x)).
  - intros id [[code registered]|]; [ | by apply finishes_waiting].
    apply finishes_cleanup; [done | | intros; by apply unregister_cleanup_leaves].
    intros ->. unfold TestUnregister.cleanup. by rewrite Z.eqb_refl, andb_false_r.
Qed.
End unregister_world.
End device.

(** ** virtusb-test-fetch-rollback *)

Section rollback.
Context (fd : Z) (f : file_ptr).
Abbreviation talks m Q := (talks enc fd f None m Q).
Abbreviation does m Q := (does enc fd f None m Q).
Abbreviation call_talks call := (call_talks enc fd f None false call (fun r => r <= 0)).
Abbreviation frun := (runs enc {[f]}).

(** A system call on the file, and what [do_ioctl] makes of it. *)
Definition fits (b : bool) command : Prop := b = false -> command <> VIRTUSB_IOCTL_TRANSFER_FETCH enc.

Lemma sys_ioctl_here p b command q env : process_ok p -> on_file fd f None p -> request_wf q ->
  ioctl_env_wf (pr_kernel p) env -> fits b command -> (b = true -> sleeps_ok enc {[f]} (ie_sleeps env)) ->
  frun (sys_ioctl enc fd command q env) p (ioctl_outcome enc p fd command q env).
Proof using Henc.
  intros Hp [Hfd _] Hq Henv Hb Hsl. apply sys_ioctl_runs; try done.
  intros -> f' fv Hfd' _. assert (f' = f) as -> by congruence. right. rewrite union_idemp_L.
  apply Hsl. destruct b; [done | by destruct (Hb eq_refl)].
Qed.

Definition ioctl_answer p command q env (x : Z * option reply) p' : Prop :=
  int_result p x.1 p' /\ exists r,
    virtusb_control_ioctl enc f command (user_memory q (ie_oom env)) env (pr_kernel p) = Some ((r, x.2), pr_kernel p') /\
    (x.1 < 0 <-> r < 0).

Lemma do_ioctl_runs p b command q env : process_ok p -> on_file fd f None p -> request_wf q ->
  ioctl_env_wf (pr_kernel p) env -> fits b command -> (b = true -> sleeps_ok enc {[f]} (ie_sleeps env)) ->
  frun (TestRollback.do_ioctl enc fd command q env) p (ioctl_answer p command q env).
Proof using Henc.
  intros Hp Hf Hq Henv Hb Hsl. unfold TestRollback.do_ioctl. apply runs_bind.
  eapply runs_mono; [by apply (sys_ioctl_here p b) | ]. intros [r w] p' Hp' Ho.
  pose proof (outcome_errno _ _ _ _ _ _ _ _ Ho) as He. cbn in He.
  destruct Ho as (Hs & Eo & f' & r0 & k & Hfd & E & Ek & Hr). cbn in E, Hr.
  assert (f' = f) as -> by (destruct Hf; congruence). subst k.
  assert (Hsign : r < 0 <-> r0 < 0) by (destruct (Z.ltb_spec r0 0); destruct Hr as [-> _]; lia).
  destruct (Z.ltb_spec r 0) as [Hneg|Hpos].
  - specialize (He eq_refl). apply runs_bind, runs_gets; [done | ]. apply runs_ret; [done | ].
    split; [split_and!; [cbn; lia | done..] | ]. exists r0. split; [done | cbn; lia].
  - apply runs_ret; [done | ]. split; [by split_and! | ]. exists r0. split; [done | cbn; lia].
Qed.

Lemma do_ioctl_talks b command q (P : Z * option reply -> Prop) : request_wf q -> fits b command ->
  (forall p env x p', process_ok p -> pr_fds p !! fd = Some f -> (b = true -> sleeps_ok enc {[f]} (ie_sleeps env)) ->
     ioctl_answer p command q env x p' -> P x) ->
  ProgramSpec.call_talks enc fd f None b (TestRollback.do_ioctl enc fd command q) P.
Proof using Henc.
  intros Hq Hb HP p env Hp Hf Henv Hsl. eapply runs_mono; [by apply (do_ioctl_runs p b) | ].
  intros x p' _ Ho. pose proof (HP p env x p' Hp (proj1 Hf) Hsl Ho) as Hx.
  destruct Ho as [(_ & Hs & Eo) _]. split; [done | ]. exists []. rewrite app_nil_r. split_and!; [done | constructor | done].
Qed.

Lemma do_request_talks n c q : commands enc !! n = Some c -> n <> 9%nat -> request_wf q ->
  call_talks (TestRollback.do_request enc fd c q).
Proof using Henc.
  intros Hn Hne Hq. unfold TestRollback.do_request. apply (call_bind enc fd f None false _ _ (fun x => x.1 <= 0));
    [apply after_talk_talks | | intros [r x] Hx; by apply talks_ret].
  apply do_ioctl_talks; [done | | ].
  - intros _ ->. apply Hne. by apply (NoDup_lookup (commands enc) n 9 (VIRTUSB_IOCTL_TRANSFER_FETCH enc)).
  - by intros p env x p' _ _ _ [(Hr & _) _].
Qed.

Lemma complete_transfer_talks id status data n : 0 <= n -> data_ok data n ->
  call_talks (TestRollback.complete_transfer enc fd id status data n).
Proof using Henc.
  intros Hn Hd. unfold TestRollback.complete_transfer. cbv zeta. unfold VIRTUSB_TRANSFER_DATA_MAX in *.
  destruct (Z.ltb_spec 4096 n); [apply call_pure; by apply talks_ret | ].
  assert (Hreq : forall bytes, Z.of_nat (length bytes) = 4096 -> call_talks (TestRollback.do_request enc fd
    (VIRTUSB_IOCTL_TRANSFER_COMPLETE enc) (ReqTransferComplete (mk_transfer_complete_request id status (u32 n) bytes)))).
  { intros bytes Hl. apply (do_request_talks 10); [done | done | ]. split; intros r [= <-].
    split; [apply wrap_width; lia | done]. }
  destruct data as [bytes|]; [ | by apply Hreq]. destruct (Z.ltb_spec 0 n); [ | by apply Hreq].
  specialize (Hd bytes eq_refl). rewrite (proj2 (Z.ltb_ge _ _)) by done. apply Hreq.
  rewrite length_app, length_take, length_drop, length_replicate. lia.
Qed.

Lemma rollback_complete_data_talks request data n : fetch_wf request -> 0 <= n <= Z.of_nat (length data) ->
  call_talks (TestRollback.complete_data enc fd request data n).
Proof using Henc.
  intros [_ Hl] Hn. apply complete_transfer_talks; [destruct (Z.ltb_spec (tf_requested_length request) n); lia | ].
  intros b [= <-]. destruct (Z.ltb_spec (tf_requested_length request) n); lia.
Qed.

Abbreviation call_pair call := (ProgramSpec.call_talks enc fd f None false call (fun x => x.1 <= 0)).
Lemma rollback_with_flag (call : ioctl_env -> U Z) (g : Z -> bool) : call_talks call ->
  call_pair (fun env => r <- call env ;; ret (r, g r)).
Proof. intros Hc. by eapply call_map. Qed.
Lemma rollback_answer_talks id status : call_talks (TestRollback.complete_transfer enc fd id status None 0).
Proof using Henc. by apply complete_transfer_talks. Qed.

Lemma rollback_control_talks request configured : fetch_wf request ->
  call_pair (TestRollback.handle_control_transfer enc fd request configured).
Proof using Henc.
  intros Hr. unfold TestRollback.handle_control_transfer. cbv zeta.
  destruct (tf_has_setup request =? 0); [apply rollback_with_flag, rollback_answer_talks | ].
  destruct (setup_bytes (tf_setup request)) as (a & b & c & d & e & g & i & j & ->); [apply Hr | ].
  cbn [lookup list_lookup drop TestRollback.get_le16]. apply call_print_talks.
  repeat (case_match; try (by apply rollback_with_flag, rollback_answer_talks));
    by apply rollback_with_flag, rollback_complete_data_talks.
Qed.

Lemma rollback_serve_request_talks fetch configured : fetch_wf fetch ->
  call_pair (TestRollback.serve_request enc fd fetch configured).
Proof using Henc.
  intros Hr. unfold TestRollback.serve_request.
  case_match; [by apply rollback_with_flag, rollback_answer_talks | by apply rollback_control_talks].
Qed.

Lemma zero_fetch_wf : fetch_wf zero_fetch.
Proof. by split. Qed.
Lemma fetch_transfer_talks : ProgramSpec.call_talks enc fd f None true (TestRollback.fetch_transfer enc fd)
  (fun x => fetch_wf x.2).
Proof using Henc.
  unfold TestRollback.fetch_transfer. apply (call_bind enc fd f None true _ _
    (fun x => fetch_wf (match x.2 with Some (ReplyFetch x) => x | _ => zero_fetch end)));
    [apply after_talk_talks | | intros [r x] Hx; by apply talks_ret].
  apply do_ioctl_talks; [done | done | ]. intros p env x p' Hp Hfd Hsl [_ (r & E & _)]. specialize (Hsl eq_refl).
  destruct (po_files _ Hp fd f Hfd) as [fv Hf].
  destruct (fetch_ioctl_reply enc {[f]} (pr_kernel p) f fv _ env r x.2 _ Henc (po_kernel _ Hp) (po_typed _ Hp) Hf
    ltac:(by apply elem_of_singleton) Hsl E) as [[_ ->]|(_ & tv & ov & Hwf & Hl & ->)]; [apply zero_fetch_wf | by apply fetch_view_wf].
Qed.

Abbreviation code := (fun x : option Z => x).
Abbreviation prints := (fun (x : option Z) new => printed_by (code x) new).
Lemma rollback_fail_prints text r : does (e <- TestRollback.fail strerror text r ;; ret (Some e)) prints.
Proof. by apply (complaint_prints _ _ _ _ _ Some code). Qed.
Lemma rollback_complain_prints text : does (e <- TestRollback.complain text ;; ret (Some e)) prints.
Proof. by apply (complaint_prints _ _ _ _ _ Some code). Qed.
Lemma after_prints : after_talk prints.
Proof. apply (after_talk_printed_by code). Qed.

Lemma rollback_configure_does rounds : Forall (round_ok enc f) rounds -> forall fetch configured, fetch_wf fetch ->
  does (TestRollback.configure enc strerror fd fetch rounds configured) prints.
Proof using Henc.
  induction 1 as [|x rounds [Hfetch Hcomp] _ IH]; intros fetch configured Hwf; cbn [TestRollback.configure];
    [apply does_ret; constructor | ].
  eapply does_bind; [apply after_prints | apply at_site_does; [done | by apply rollback_serve_request_talks] | ].
  intros [r configured'] _. destruct (r <? 0); [apply rollback_fail_prints | ]. destruct configured'.
  - eapply does_bind; [apply after_prints | apply print_talks | intros _ _]. apply does_ret. left. split; [done | constructor].
  - eapply does_bind; [apply after_prints | apply at_fetch_does; [done | apply fetch_transfer_talks] | ].
    intros [r2 fetch2] Hwf2. destruct (r2 <? 0); [apply rollback_fail_prints | by apply IH].
Qed.

Section rollback_world.
Context (w : TestRollback.world) (Hw : surroundings f (TestRollback.wo_site w) (TestRollback.wo_rounds w)).

Lemma check_rollback_does id : does (TestRollback.check_rollback enc strerror w fd id) prints.
Proof using Henc Hw.
  destruct Hw as [Hs Hfe Hr]. unfold TestRollback.check_rollback. cbv zeta.
  eapply does_bind; [apply after_prints | apply set_errno_talks | intros _ _].
  eapply (does_bind _ _ _ _ _ _ (fun _ => True)); [apply after_prints | apply at_fetch_does; [by apply Hfe; left | ] | ].
  { intros p env Hp Hf Henv Hsl. eapply runs_mono; [apply (sys_ioctl_here p true); done | ].
    intros x p' _ (Hst & Eo & _). split; [done | ]. exists []. rewrite app_nil_r. split_and!; [done | constructor | done]. }
  intros [r reply] _. eapply does_bind; [apply after_prints | apply errno_talks | intros errno _].
  destruct (0 <=? r); [apply rollback_complain_prints | ].
  destruct (errno =? EFAULT); cbn [negb]; [ | apply rollback_complain_prints].
  eapply does_bind; [apply after_prints | apply print_talks | intros _ _].
  eapply does_bind; [apply after_prints | apply at_fetch_does; [by apply Hfe; right | apply fetch_transfer_talks] | ].
  intros [r2 fetch] Hwf. destruct (r2 <? 0); [apply rollback_fail_prints | ].
  case_match; [apply rollback_complain_prints | ].
  eapply does_bind; [apply after_prints | apply print_talks | intros _ _]. by apply rollback_configure_does.
Qed.

Abbreviation outcome := (option Z * TestRollback.progress)%type.
Definition ran (x : outcome) (new : output) : Prop := printed_by x.1 new /\ TestRollback.pg_created x.2 = true.
Lemma after_ran : after_talk ran.
Proof. intros a l1 l2 H1 [H2 Hc]. split; [by apply (after_talk_printed_by (fun x : outcome => x.1)) | done]. Qed.

Lemma rollback_run_does id : does (TestRollback.run_device enc strerror w fd id) ran.
Proof using Henc Hw.
  pose proof (su_sites _ _ _ Hw) as Hs. unfold TestRollback.run_device. cbv zeta.
  assert (Hfail : forall text r pg, TestRollback.pg_created pg = true ->
    does (e <- TestRollback.fail strerror text r ;; ret (Some e, pg)) ran).
  { intros text r pg Hc. apply complaint_does. split; [right | done]. split; [done | ]. eexists. by left. }
  apply step_or_fail; [apply after_ran | apply Hs | by apply (do_request_talks 3) | intros; by apply Hfail | ].
  apply step_or_fail; [apply after_ran | apply Hs | by apply (do_request_talks 7) | intros; by apply Hfail | ].
  apply step_or_fail; [apply after_ran | apply Hs | by apply (do_request_talks 5) | intros; by apply Hfail | ].
  intros p Hp Hf. apply runs_bind. eapply runs_mono; [by apply check_rollback_does | ].
  intros x p' Hp' (Hst & l & E & Hl). apply runs_ret; [done | ]. split; [done | ]. by exists l.
Qed.

Abbreviation leaves id m := (leaves enc fd f None id m).
Lemma rollback_destroys x id : site_ok enc f x -> leaves id (at_site x (TestRollback.do_request enc fd
  (VIRTUSB_IOCTL_DEVICE_DESTROY enc) (ReqDeviceDestroy (mk_device_destroy_req id VIRTUSB_DEVICE_DESTROY_FORCE)))).
Proof using Henc.
  intros Hx p Hp Hf Hu. apply at_site_runs; [done | done | ]. intros k Hk Hr He.
  unfold TestRollback.do_request. apply runs_bind.
  eapply runs_mono; [apply (do_ioctl_runs (set_pr_kernel k p) false); try done | ].
  - intros _ E. pose proof (commands_differ enc 2 9 _ _ Henc eq_refl eq_refl ltac:(done)) as Hd.
    by rewrite E, Z.eqb_refl in Hd.
  - intros [r w'] p' Hp' [(_ & Hs & Eo) (r0 & E & _)]. apply runs_ret; [done | ].
    split_and!; [done | exists []; rewrite app_nil_r; split; [done | constructor] | ].
    destruct (usable_reach enc f p (set_pr_kernel k p) Hp Hr Hu) as (fv & c & Hfv & Hc).
    destruct (destroy_ioctl_gone enc Henc f k fv c id
      (user_memory (ReqDeviceDestroy (mk_device_destroy_req id VIRTUSB_DEVICE_DESTROY_FORCE)) (ie_oom (si_env x k)))
      (si_env x k) (po_kernel _ Hk) (po_typed _ Hk) Hfv Hc eq_refl) as (r1 & s1 & E1 & Hgone).
    cbn [pr_kernel set_pr_kernel] in E. rewrite E1 in E. injection E as _ _ <-. done.
Qed.

Lemma when_talks flag m : talks m (fun r => r <= 0) -> talks (TestRollback.when flag m) (fun _ => True).
Proof.
  intros Hm. unfold TestRollback.when. destruct flag; [ | by apply talks_ret].
  eapply talks_bind; [exact Hm | ]. intros. by apply talks_ret.
Qed.
Lemma rollback_cleanup_leaves id pg : TestRollback.pg_created pg = true -> leaves id (TestRollback.cleanup enc w fd id pg).
Proof using Henc Hw.
  intros Hc. unfold TestRollback.cleanup. rewrite Hc. pose proof (su_sites _ _ _ Hw) as Hs.
  eapply leaves_bind; [apply when_talks, at_site_does; [apply Hs | by apply (do_request_talks 5)] | intros _].
  eapply leaves_bind; [apply when_talks, at_site_does; [apply Hs | by apply (do_request_talks 4)] | intros _].
  eapply leaves_bind; [apply when_talks, at_site_does; [apply Hs | by apply (do_request_talks 8)] | intros _].
  apply leaves_ret, rollback_destroys, Hs.
Qed.

(** A request that succeeds found the control plane. *)
Lemma answer_usable p command q env x p' : process_ok p -> on_file fd f None p ->
  ioctl_answer p command q env x p' -> 0 <= x.1 -> usable f p.
Proof.
  intros Hp [Hfd _] [_ (r & E & Hsign)] Hpos. destruct (po_files _ Hp fd f Hfd) as [fv Hf]. exists fv.
  destruct (file_control (pr_kernel p) fv) as [c|] eqn:Hc; [by exists c | exfalso].
  unfold virtusb_control_ioctl in E.
  erewrite bind_eq in E by (apply (active_control_eq _ (po_kernel _ Hp) f fv Hf)). rewrite Hc in E.
  injection E as <- _ _. assert (x.1 < 0) by (by apply Hsign). lia.
Qed.

(** The label out, after a device was created. *)
Lemma rollback_finishes id pg x : TestRollback.pg_created pg = true ->
  finishes enc fd f None id x (fun c => (c.1, default VIRTUSB_INVALID_OBJECT_ID c.2))
    (match x with
     | None => ret (None, Some id)
     | Some exit_code => TestRollback.cleanup enc w fd id pg ;; ret (Some exit_code, Some id)
     end).
Proof using Henc Hw.
  intros Hc. destruct x as [r|]; [ | by apply finishes_waiting].
  intros p Hp Hf Hu. apply runs_bind. destruct (decide (id = VIRTUSB_INVALID_OBJECT_ID)) as [E|Hid].
  - pose proof (su_sites _ _ _ Hw) as Hs.
    assert (Ht : talks (TestRollback.cleanup enc w fd id pg) (fun _ => True)).
    { unfold TestRollback.cleanup.
      eapply talks_bind; [apply when_talks, at_site_does; [apply Hs | by apply (do_request_talks 5)] | intros _ _].
      eapply talks_bind; [apply when_talks, at_site_does; [apply Hs | by apply (do_request_talks 4)] | intros _ _].
      eapply talks_bind; [apply when_talks, at_site_does; [apply Hs | by apply (do_request_talks 8)] | intros _ _].
      apply when_talks, at_site_does; [apply Hs | by apply (do_request_talks 2)]. }
    eapply runs_mono; [by apply Ht | ]. intros [] p' Hp' (Hst & l & E2 & Hl & _). apply runs_ret; [done | ].
    split_and!; [done | by exists l | done | done].
  - eapply runs_mono; [by apply (rollback_cleanup_leaves id pg Hc p Hp Hf (Hu Hid)) | ].
    intros [] p' Hp' (Hst & Hl & Hgone). apply runs_ret; [done | ]. by split_and!.
Qed.

Lemma rollback_session_exits p : process_ok p -> on_file fd f None p ->
  frun (TestRollback.session enc strerror w fd) p (fun x p' => session_exit p (x.1, default VIRTUSB_INVALID_OBJECT_ID x.2) p').
Proof using Henc Hw.
  intros Hp Hf. unfold TestRollback.session. cbv zeta. apply runs_bind, at_site_runs; [done | apply Hw | ].
  intros k Hk Hr He. eapply runs_mono_reach; [apply (do_ioctl_runs (set_pr_kernel k p) false); try done | ].
  { by split; intros r [= <-]. }
  { intros _ E. pose proof (commands_differ enc 1 9 _ _ Henc eq_refl eq_refl ltac:(done)) as Hd.
    by rewrite E, Z.eqb_refl in Hd. }
  intros [r written] p1 Hp1 Hr1 Ha. pose proof Ha as [(Hle & Hs1 & Eo1) _]. cbn [fst snd] in *. cbn in Eo1.
  pose proof (on_file_same fd f None p p1 Hs1 Hf) as Hf1.
  destruct (Z.ltb_spec r 0) as [Hneg|Hpos].
  - assert (Hc : does (e <- TestRollback.fail strerror "device create" r ;; ret (Some e, @None Z))
      (fun b new => b.2 = None /\ printed_by b.1 new)).
    { apply complaint_does. split; [done | right]. split; [done | ]. eexists. by left. }
    eapply runs_mono; [by apply Hc | ]. intros [c id] p2 Hp2 (Hs2 & l & E2 & Hid & Hl). cbn in Hid. subst id.
    split_and!; [by apply (same_tables_trans p p1) | | done]. exists l. by rewrite E2, Eo1.
  - assert (Hu : usable f p1).
    { apply (usable_reach enc f (set_pr_kernel k p)); [done | done | ].
      by apply (answer_usable _ _ _ _ _ _ Hk Hf Ha). }
    set (id := dc_object_id _). apply runs_bind.
    eapply runs_mono_reach; [by apply (rollback_run_does id) | ].
    intros [x pg] p2 Hp2 Hr2 (Hs2 & l & E2 & Hl & Hpg).
    eapply runs_mono; [apply (rollback_finishes id pg x Hpg p2 Hp2); [by eapply on_file_same | intros _; by apply (usable_reach enc f p1)] | ].
    intros c p3 Hp3 (Hs3 & (l3 & E3 & Hl3) & Ev & Hgone). unfold session_exit. rewrite Ev. split_and!; [ | | done].
    + apply (same_tables_trans p p2); [by apply (same_tables_trans p p1) | done].
    + exists (l ++ l3). rewrite E3, E2, Eo1, app_assoc. split; [done | by apply printed_by_snoc].
Qed.
End rollback_world.
End rollback.

(** ** Main programs *)

Section main.
Context (env : open_env) (p : process) (Hp : process_ok p) (Hopen : open_env_wf p env).
Abbreviation fd := (oe_fd env).
Abbreviation f := (oe_file env).

(** At the exit: the tables are those from before, unless the program is still
    waiting, and what was printed fits the exit code. *)
Definition main_exit (code : option Z) p' : Prop :=
  (code <> None -> same_tables p p') /\ exists new, pr_output p' = pr_output p ++ new /\ printed_by code new.

Definition opened (handle : option handle_ptr) p1 : Prop :=
  pr_output p1 = pr_output p /\ pr_fds p1 = <[fd := f]> (pr_fds p) /\
  match handle with
  | None => pr_handles p1 = pr_handles p
  | Some h => exists hv, hd_fd hv = fd /\ pr_handles p !! h = None /\ pr_handles p1 = <[h := hv]> (pr_handles p)
  end.
Lemma opened_on_file handle p1 : opened handle p1 -> on_file fd f handle p1.
Proof.
  intros (_ & Ef & Eh). split; [by rewrite Ef, lookup_insert_eq | ]. destruct handle as [h|]; [ | done].
  intros _. destruct Eh as (hv & <- & _ & Eh). unfold handle_descriptor. by rewrite Eh, lookup_insert_eq.
Qed.

Lemma open_session_runs {C} instance (k : Z -> option handle_ptr -> U C) Q : in_width 32 instance ->
  (forall r p1, r < 0 -> process_ok p1 -> same_tables p p1 -> pr_output p1 = pr_output p -> runs enc ∅ (k r None) p1 Q) ->
  (forall h p1, process_ok p1 -> opened (Some h) p1 -> runs enc ∅ (k 0 (Some h)) p1 Q) ->
  runs enc ∅ (both r, handle <- virtusb_open instance true env ;; k r handle) p Q.
Proof using Hp Hopen.
  intros Hi Hbad Hk. apply runs_bind. eapply runs_mono; [by apply virtusb_open_runs | ].
  intros [r handle] p1 Hp1 [Eo [(Hr & E & Hs)|(h & c & [= -> ->] & Eh & _ & _ & Ef & Ehan & _)]].
  - cbn in Hr, E. subst handle. by apply Hbad.
  - apply Hk; [done | ]. split_and!; [done | done | ]. eexists. split_and!; [ | | exact Ehan]; [done | ].
    by apply (ow_handle _ _ Hopen).
Qed.

Lemma close_handle_runs h p1 p2 : process_ok p2 -> opened (Some h) p1 -> same_tables p1 p2 ->
  runs enc ∅ (virtusb_close (Some h)) p2 (fun _ p' => same_tables p p' /\ pr_output p' = pr_output p2).
Proof using Hopen.
  intros Hp2 (_ & Ef & hv & Hfd & Hnew & Eh) [Ef2 Eh2].
  assert (Hh : pr_handles p2 !! h = Some hv) by (by rewrite Eh2, Eh, lookup_insert_eq).
  eapply runs_mono; [apply virtusb_close_runs; [done | by exists hv] | ].
  intros [] p' _ (Eo & Edel & hv' & f' & Hh' & Hf' & Efd & _). assert (hv' = hv) as -> by congruence.
  split; [split | done].
  - rewrite Efd, Ef2, Ef, Hfd. apply delete_insert_id, Hopen.
  - rewrite Edel, Eh2, Eh. by apply delete_insert_id.
Qed.

(** The session of an open file, and the close when it ended. *)
Lemma session_close_runs {C D E} handle (session : U C) (close : U E) (view : C -> option Z * Z) p1
    (k : C -> U D) (out : D -> option Z) :
  opened handle p1 ->
  (forall c, match (view c).1 with
             | None => exists d, k c = ret d /\ out d = None
             | Some r => exists d, k c = (_ <- close ;; ret d) /\ out d = Some r
             end) ->
  (forall p2, process_ok p2 -> same_tables p1 p2 ->
     runs enc ∅ close p2 (fun _ p' => same_tables p p' /\ pr_output p' = pr_output p2)) ->
  runs enc {[f]} session p1 (fun c p' => session_exit p1 (view c) p') ->
  runs enc ∅ (c <- session ;; k c) p1 (fun d p' => main_exit (out d) p').
Proof.
  intros (Eo & _) Hk Hclose Hs. apply runs_bind.
  eapply runs_mono; [by eapply runs_subset; [ | exact Hs] | ]. intros c p2 Hp2 (Hs2 & (l & E2 & Hl) & _).
  specialize (Hk c). destruct (view c).1 as [r|] eqn:Ev; destruct Hk as (d & -> & Ed).
  - apply runs_bind. eapply runs_mono; [by apply Hclose | ].
    intros e p3 Hp3 [Hs3 E3]. apply runs_ret; [done | ]. rewrite Ed. split; [done | ]. exists l. by rewrite E3, E2, Eo.
  - apply runs_ret; [done | ]. rewrite Ed. split; [done | ]. exists l. by rewrite E2, Eo.
Qed.

(** Only printing: the tables stay. *)
Lemma said_exit p1 st text r : process_ok p1 -> same_tables p p1 -> pr_output p1 = pr_output p ->
  printed r [(st, text)] -> runs enc ∅ (print st text ;; ret r) p1 (fun r p' => main_exit (Some r) p').
Proof.
  intros Hp1 Hs Eo Hr. apply runs_bind, runs_modify; [by apply process_set_output | done | ].
  apply runs_ret; [by apply process_set_output | ]. split; [done | ]. exists [(st, text)].
  split; [by cbn; rewrite Eo | done].
Qed.
Lemma stderr_printed text : printed EXIT_FAILURE [(Stderr, text)].
Proof. right. split; [done | ]. exists text. by left. Qed.
Lemma stdout_printed text : printed EXIT_SUCCESS [(Stdout, text)].
Proof. left. split; [done | by repeat constructor]. Qed.

Lemma unregister_main_exits w : TestUnregister.wo_open w = env ->
  surroundings f (TestUnregister.wo_site w) (TestUnregister.wo_rounds w) ->
  runs enc ∅ (TestUnregister.main enc strerror w) p main_exit.
Proof using Hp Hopen Henc.
  intros Ew Hw. unfold TestUnregister.main. rewrite Ew. apply open_session_runs; [by split | | ].
  - intros r p1 Hr Hp1 Hs Eo. rewrite (proj2 (Z.ltb_lt _ _) Hr). apply runs_bind.
    eapply runs_mono; [apply said_exit; [done.. | apply stderr_printed] | ].
    intros e p2 Hp2 He. by apply runs_ret.
  - intros h p1 Hp1 Ho. cbn [Z.ltb Z.compare].
    apply (session_close_runs (Some h) _ (virtusb_close (Some h)) (fun x => x) p1 _ (fun x => x) Ho).
    + intros [[r|] id]; by eexists.
    + intros p2 Hp2 Hs. by eapply close_handle_runs.
    + apply unregister_session_exits with (fd := fd); [done | done | by apply opened_on_file].
Qed.

Lemma rollback_main_exits w : TestRollback.wo_open w = env ->
  surroundings f (TestRollback.wo_site w) (TestRollback.wo_rounds w) ->
  runs enc ∅ (TestRollback.main enc strerror w) p main_exit.
Proof using Hp Hopen Henc.
  intros Ew Hw. unfold TestRollback.main. rewrite Ew. apply runs_bind.
  eapply runs_mono; [by apply sys_open_runs | ]. intros x p1 Hp1 Er.
  destruct (open_result_cases _ _ _ _ _ Hopen Er) as (Eo & Eh & [(-> & Ef & He)|(-> & c & _ & _ & Ep)]).
  - cbn [Z.ltb Z.compare]. apply runs_bind, runs_gets; [done | ]. apply runs_bind, runs_modify; [by apply process_set_output | done | ].
    apply runs_ret; [by apply process_set_output | ]. split; [done | ]. eexists. split; [by cbn; rewrite Eo | ].
    apply stderr_printed.
  - rewrite (proj2 (Z.ltb_ge _ _) (ow_fd _ _ Hopen)).
    assert (Ho : opened None p1) by (by rewrite Ep).
    eapply (session_close_runs None _ (sys_close fd) (fun x => (x.1, default VIRTUSB_INVALID_OBJECT_ID x.2))
      p1 _ (fun x => x) Ho).
    + intros [[r|] id]; by eexists.
    + intros p2 Hp2 [Ef2 Eh2]. eapply runs_mono; [apply close_runs; [done | | ] | ].
      * exists f. by rewrite Ef2, (proj1 (proj2 Ho)), lookup_insert_eq.
      * intros h hv. rewrite Eh2, Eh. intros Hh E. destruct (po_handles _ Hp h hv Hh) as [_ Hs].
        rewrite E, (ow_fd_new _ _ Hopen) in Hs. by destruct Hs.
      * intros r p3 Hp3 (Ef3 & Eh3 & Eo3 & _). split; [split | done].
        -- rewrite Ef3, Ef2, (proj1 (proj2 Ho)). apply delete_insert_id, Hopen.
        -- by rewrite Eh3, Eh2.
    + by apply (rollback_session_exits fd f w Hw), opened_on_file.
Qed.

Lemma device_run_exits w instance port : TestDevice.wo_open w = env -> in_width 32 instance ->
  surroundings f (TestDevice.wo_site w) (TestDevice.wo_rounds w) ->
  runs enc ∅ (TestDevice.run enc strerror w instance port) p (fun r p' => main_exit (Some r) p').
Proof using Hp Hopen Henc.
  intros Ew Hi Hw. unfold TestDevice.run. rewrite Ew. apply open_session_runs; [done | | ].
  - intros r p1 Hr Hp1 Hs Eo. rewrite (proj2 (Z.ltb_lt _ _) Hr). apply runs_bind.
    eapply runs_mono; [apply said_exit; [done.. | apply stderr_printed] | ].
    intros e p2 Hp2 He. by apply runs_ret.
  - intros h p1 Hp1 Ho. cbn [Z.ltb Z.compare].
    apply (session_close_runs (Some h) _ (virtusb_close (Some h)) (fun x => (Some x.1, x.2)) p1 _ Some Ho).
    + intros [r id]. by eexists.
    + intros p2 Hp2 Hs. by eapply close_handle_runs.
    + apply device_session_exits with (fd := fd); [done | done | by apply opened_on_file].
Qed.

Lemma device_parse_range text n : TestDevice.parse_unsigned text = Ok n -> in_width 32 n.
Proof.
  unfold TestDevice.parse_unsigned. destruct text as [text|]; [ | done]. destruct (bool_decide _); [done | ].
  destruct (strtoul text) as [[parsed rest] e]. destruct (_ || _); [done | ]. destruct (_ || _); [done | ].
  intros [= <-]. apply wrap_width. lia.
Qed.

Abbreviation exits m := (runs enc ∅ m p (fun r p' => main_exit (Some r) p')).
Context (program : string) (args : list string).
Abbreviation argv := (program :: args).

Lemma arg_exits {A} i (k : string -> U A) Q : (i < length argv)%nat -> (forall text, runs enc ∅ (k text) p Q) ->
  runs enc ∅ (text <- arg argv i ;; k text) p Q.
Proof using Hp.
  intros Hi Hk. apply runs_bind. unfold arg. destruct (lookup_lt_is_Some_2 argv i Hi) as [text ->].
  by apply runs_ret.
Qed.
Lemma usage_exits st r : printed r [(st, "Usage: " +:+ program +:+ " [INSTANCE [PORT]]" +:+ nl)] ->
  exits (program <- arg argv 0 ;; TestDevice.print_usage st program ;; ret r).
Proof using Hp. intros Hr. apply runs_bind, runs_ret; [done | ]. by apply said_exit. Qed.

Lemma invalid_exits what text : exits (TestDevice.invalid_argument argv what text).
Proof using Hp.
  unfold TestDevice.invalid_argument. apply runs_bind, runs_modify; [by apply process_set_output | done | ].
  apply runs_bind, runs_ret; [by apply process_set_output | ].
  unfold TestDevice.print_usage, print. apply runs_bind, runs_modify; [by do 2 apply process_set_output | done | ].
  apply runs_ret; [by do 2 apply process_set_output | ]. split; [done | ].
  eexists. split; [by cbn; rewrite <- app_assoc | ]. right. split; [done | ]. eexists. by left.
Qed.

Lemma device_main_exits w : TestDevice.wo_open w = env ->
  surroundings f (TestDevice.wo_site w) (TestDevice.wo_rounds w) ->
  exits (TestDevice.main enc strerror w argv).
Proof using Hp Hopen Henc.
  intros Ew Hw. unfold TestDevice.main. apply runs_bind.
  match goal with |- runs _ _ _ _ ?Q => assert (Hrest : forall help, Q help p) end.
  { intros help. destruct help; [apply usage_exits, stdout_printed | ].
    destruct (Nat.ltb_spec 3 (length argv)); [apply usage_exits, stderr_printed | ].
    assert (Hi : match (if (2 <=? length argv)%nat then TestDevice.parse_unsigned (argv !! 1%nat) else Ok 0) with
      | Ok instance => in_width 32 instance | Err _ => (1 < length argv)%nat end).
    { destruct (Nat.leb_spec 2 (length argv)); [ | by split].
      destruct (TestDevice.parse_unsigned _) eqn:E; [by eapply device_parse_range | lia]. }
    destruct (if (2 <=? length argv)%nat then _ else _) as [instance|e];
      [ | apply arg_exits; [done | intros; apply invalid_exits]].
    destruct (if (3 <=? length argv)%nat then _ else _) as [port|e] eqn:E.
    - destruct (TestDevice.wo_sigaction w) as [e|].
      + apply runs_bind, runs_modify; [by apply process_set_errno | done | ].
        apply said_exit; [by apply process_set_errno | done | done | apply stderr_printed].
      + by apply device_run_exits.
    - destruct (Nat.leb_spec 3 (length argv)); [ | done].
      apply arg_exits; [done | intros; apply invalid_exits]. }
  destruct (length argv =? 2)%nat eqn:E; [ | apply runs_ret; [done | apply (Hrest false)]].
  apply arg_exits; [apply Nat.eqb_eq in E; lia | ]. intros a. apply runs_ret; [done | apply (Hrest _)].
Qed.
End main.

(** ** The three programs *)

Inductive test_program :=
  | ProgramDevice (w : TestDevice.world) (program : string) (args : list string)
  | ProgramUnregister (w : TestUnregister.world)
  | ProgramRollback (w : TestRollback.world).

(** The exit code of [main]; [None]: still waiting for the host. *)
Definition run_program (t : test_program) : U (option Z) :=
  match t with
  | ProgramDevice w program args => r <- TestDevice.main enc strerror w (program :: args) ;; ret (Some r)
  | ProgramUnregister w => TestUnregister.main enc strerror w
  | ProgramRollback w => TestRollback.main enc strerror w
  end.
Definition program_open (t : test_program) : open_env :=
  match t with
  | ProgramDevice w _ _ => TestDevice.wo_open w
  | ProgramUnregister w => TestUnregister.wo_open w
  | ProgramRollback w => TestRollback.wo_open w
  end.
Definition program_surroundings (t : test_program) : Prop :=
  surroundings (oe_file (program_open t))
    (match t with
     | ProgramDevice w _ _ => TestDevice.wo_site w
     | ProgramUnregister w => TestUnregister.wo_site w
     | ProgramRollback w => TestRollback.wo_site w
     end)
    (match t with
     | ProgramDevice w _ _ => TestDevice.wo_rounds w
     | ProgramUnregister w => TestUnregister.wo_rounds w
     | ProgramRollback w => TestRollback.wo_rounds w
     end).

Lemma program_exits t p : process_ok p -> open_env_wf p (program_open t) -> program_surroundings t ->
  runs enc ∅ (run_program t) p (main_exit p).
Proof using Henc.
  destruct t as [w program args|w|w]; intros Hp Hopen Hs; cbn [run_program].
  - apply runs_bind. eapply runs_mono; [by eapply device_main_exits | ]. intros r p' Hp' He. by apply runs_ret.
  - by eapply unregister_main_exits.
  - by eapply rollback_main_exits.
Qed.
End tests.
