(* ===== verification/AnswerSpec.v ===== *)
(** * From the URB to the answer and back

    The exact effect of a fetch and a completion through the library, and the
    answers of the test device: a control URB that waits for the device comes
    back with the data and the status that USB 2.0 asks for. *)

From S2P Require Import Prelude Uapi Kernel Port Hub Object Device Transfer Backend BackendInv BackendOps Hcd HcdSpec UrbSpec FetchSpec Control ControlSpec ModuleSpec Config BlockSpec Text Lib LibSpec Program.
From S2P Require TestDevice.

Section plane.
Context (enc : ioctl_encoding) (Henc : NoDup (commands enc)).
Context (f : file_ptr) (c : hcd_ptr).
Implicit Types p : process.

(** ** The file and its host controller *)

Record plane (k : kernel) (v : virtusb_hcd) : Prop := {
  pl_ok : module_ok k;
  pl_file : exists fv, k_files k !! f = Some fv /\ file_control k fv = Some c;
  pl_hcd : k_hcds k !! c = Some v;
}.

Lemma plane_here k v : plane k v -> exists fv hv, k_files k !! f = Some fv /\ file_control k fv = Some c /\
  ct_hcd (vh_control v) = Some c /\ k_hubs k !! c = Some hv.
Proof.
  intros [Hm (fv & Hf & Hc) Hv]. destruct (file_control_facts k Hm f fv Hf c Hc) as (v' & hv & Hv' & Hct & Hh).
  assert (v' = v) as -> by congruence. by exists fv, hv.
Qed.

(** A handle whose descriptor is the file. *)
Definition handle_on (h : handle_ptr) (fd : Z) p : Prop :=
  (exists hd, pr_handles p !! h = Some hd /\ hd_fd hd = fd /\ 0 <= fd) /\ pr_fds p !! fd = Some f.
Lemma handle_on_fd h fd p : handle_on h fd p -> handle_fd (Some h) p = Some (Ok fd, p).
Proof.
  intros [(hd & Hh & <- & Hpos) _]. unfold handle_fd, bind, load. by rewrite Hh, (proj2 (Z.ltb_ge _ _) Hpos).
Qed.

(** A result of the driver that is not an error. *)
Lemma sys_ioctl_success p fd q command env r w k : pr_fds p !! fd = Some f -> 0 <= r ->
  virtusb_control_ioctl enc f command (user_memory q (ie_oom env)) env (pr_kernel p) = Some ((r, w), k) ->
  sys_ioctl enc fd command q env p = Some ((r, w), set_pr_kernel k p).
Proof.
  intros Hfd Hr E. unfold sys_ioctl, bind, gets, in_kernel. rewrite Hfd, E. by rewrite (proj2 (Z.ltb_ge _ _) Hr).
Qed.

(** ** A completion *)

Lemma complete_ioctl_eq k v us env : plane k v ->
  virtusb_control_ioctl enc f (VIRTUSB_IOCTL_TRANSFER_COMPLETE enc) us env k =
    no_reply (match us_complete us with
              | Err r => ret r
              | Ok completion => virtusb_backend_complete (Some c) (Some c) (Some f) (Some completion)
              end) k.
Proof using Henc.
  intros Hp. destruct (plane_here k v Hp) as (fv & hv & Hf & Hc & Hct & _). destruct Hp as [Hm _ Hv].
  unfold virtusb_control_ioctl. unfold bind at 1. rewrite (active_control_eq k Hm f fv Hf), Hc.
  rewrite (commands_differ enc 10 0 _ (VIRTUSB_IOCTL_GET_PORT_STATUS enc) Henc),
    (commands_differ enc 10 1 _ (VIRTUSB_IOCTL_DEVICE_CREATE enc) Henc),
    (commands_differ enc 10 2 _ (VIRTUSB_IOCTL_DEVICE_DESTROY enc) Henc),
    (commands_differ enc 10 3 _ (VIRTUSB_IOCTL_DEVICE_ATTACH enc) Henc),
    (commands_differ enc 10 4 _ (VIRTUSB_IOCTL_DEVICE_DETACH enc) Henc),
    (commands_differ enc 10 5 _ (VIRTUSB_IOCTL_DEVICE_CONNECTION enc) Henc),
    (commands_differ enc 10 6 _ (VIRTUSB_IOCTL_SET_PORT_POWER enc) Henc),
    (commands_differ enc 10 7 _ (VIRTUSB_IOCTL_BACKEND_REGISTER enc) Henc),
    (commands_differ enc 10 8 _ (VIRTUSB_IOCTL_BACKEND_UNREGISTER enc) Henc),
    (commands_differ enc 10 9 _ (VIRTUSB_IOCTL_TRANSFER_FETCH enc) Henc), Z.eqb_refl by done.
  unfold no_reply, virtusb_control_transfer_complete. destruct (us_complete us) as [completion|]; [ | done].
  unfold bind. by rewrite (control_hcd_eq k c v Hv Hct), (control_linux_hcd_eq k Hm c v Hv Hct).
Qed.

(** The URB [u] of the request is given back with [status] and [n] bytes of
    [data]. *)
Record given_back (k k' : kernel) (rq : virtusb_hcd_request) (status : Z) (data : list Z) : Prop := {
  gb_trace : k_trace k' = k_trace k ++ [EvUnlinkUrb c (rq_urb rq); EvGiveback c (rq_urb rq) status];
  gb_urbs : exists tv uv, k_transfers k !! rq_transfer rq = Some tv /\ k_urbs k !! rq_urb rq = Some uv /\
    k_urbs k' = <[rq_urb rq := set_ur_actual_length (Z.of_nat (length data))
      (if bool_decide (tr_direction tv = VIRTUSB_TRANSFER_DIRECTION_IN)
       then set_ur_buffer ((fun b => data ++ drop (length data) b) <$> ur_transfer_buffer uv) uv else uv)]> (k_urbs k);
}.

Section active.
Context (k : kernel) (v : virtusb_hcd) (Hp : plane k v).
Context (j : nat) (rq : virtusb_hcd_request) (tv : virtusb_transfer).
Context (Hj : list_find (fun r => has_id k f (tr_id tv) r = true) (be_active (vh_backend v)) = Some (j, rq)).
Context (Ht : k_transfers k !! rq_transfer rq = Some tv).

(** What the user passes is what comes back. *)
Lemma backend_complete_exact comp : completion_ok comp -> tc_transfer_id comp = tr_id tv ->
  tc_actual_length comp <= tr_requested_length tv ->
  exists k', virtusb_backend_complete (Some c) (Some c) (Some f) (Some comp) k = Some (0, k') /\ module_ok k' /\
    given_back k k' rq (tc_status comp) (take (Z.to_nat (tc_actual_length comp)) (tc_data comp)) /\
    k_hcds k' = k_hcds (with_backend c (del_request Active j) k).
Proof using Hp Hj Ht.
  intros Hok Hid Hle. destruct Hp as [Hm _ Hv].
  assert (Hne : tc_transfer_id comp <> 0).
  { pose proof (to_id _ _ (ro_transfers _ _ _ (bc_refs _ _ _ (bi_core _ _ _ (mo_inv _ _ _ Hm)))) _ _ Ht). lia. }
  destruct (backend_complete_spec _ _ k (mo_inv _ _ _ Hm) c c v Hv f comp Hok Hne) as (r & k' & E & Hi & Hst & H).
  unfold completed_request in H. rewrite Hid, Hj in H.
  destruct (list_find_queue v Active _ j rq Hj) as [Hi' _].
  destruct (taken_transfer _ _ k (bi_core _ _ _ (mo_inv _ _ _ Hm)) c v Hv Active j rq Hi') as (tv0 & Ht0 & _ & _ & Hmax & _).
  destruct H as [(-> & Hend & [(tv' & uv & Ht' & Hu & Eu & _)])|(_ & _ & _ & tv' & Ht' & Hlt)]; simplify_eq; [ | lia].
  exists k'. split; [done | ]. split; [by apply (module_backend _ _ _ _ _ _ Hm Hst) | ].
  split; [ | by apply (re_hcds _ _ _ _ _ _ _ _ Hend)]. split; [by apply (re_trace _ _ _ _ _ _ _ _ Hend) | ].
  exists tv, uv. split_and!; [done | done | ]. rewrite Eu. f_equal.
  pose proof (co_data _ Hok) as Hlen. destruct (co_actual _ Hok) as [Hpos _].
  set (n := Z.to_nat (tc_actual_length comp)).
  assert (Hl : length (take n (tc_data comp)) = n) by (rewrite length_take; lia).
  unfold completed_urb, received_urb, copies_data. rewrite Hl, (Z2Nat.id _ Hpos : Z.of_nat n = _). f_equal.
  case_bool_decide as Hd; [cbn [andb] | done]. destruct (Z.ltb_spec 0 (tc_actual_length comp)); [done | ].
  replace n with 0%nat by lia. destruct uv as [? ? ? ? ? ? ? buf]. unfold set_ur_buffer. cbn. f_equal.
  by destruct buf.
Qed.

Context (p : process) (Ep : pr_kernel p = k) (h : handle_ptr) (fd : Z) (Hh : handle_on h fd p).

(** The library passes the first [n] bytes of [data] on. *)
Lemma library_complete_exact status data n env : ie_oom env = false -> 0 <= n <= tr_requested_length tv ->
  n <= Z.of_nat (length (default [] data)) -> (0 < n -> data <> None) ->
  exists k', Lib.virtusb_transfer_complete enc (Some h) (tr_id tv) status data n env p = Some (0, set_pr_kernel k' p) /\
    given_back k k' rq status (take (Z.to_nat n) (default [] data)) /\ module_ok k' /\
    k_hcds k' = k_hcds (with_backend c (del_request Active j) k).
Proof using Henc Hp Hj Ht Ep Hh.
  intros Hoom Hn Hd Hnull. destruct Hp as [Hm _ Hv].
  destruct (list_find_queue v Active _ j rq Hj) as [Hi' _].
  destruct (taken_transfer _ _ k (bi_core _ _ _ (mo_inv _ _ _ Hm)) c v Hv Active j rq Hi') as (tv0 & Ht0 & _ & _ & Hmax & _).
  assert (tv0 = tv) as -> by congruence. unfold VIRTUSB_TRANSFER_DATA_MAX in *.
  assert (Hw : in_width 32 n) by (unfold in_width; lia).
  destruct (completion_data_eq data n Hw) as (bytes & Eb & Hlen & Htake); [unfold VIRTUSB_TRANSFER_DATA_MAX; lia | done | | ].
  { intros block ->. done. }
  destruct (backend_complete_exact (mk_transfer_complete_request (tr_id tv) status n bytes)) as (k' & E & Hm' & Hgb & Eh);
    [by split | done | cbn; lia | ].
  assert (Et : take (Z.to_nat n) bytes = take (Z.to_nat n) (default [] data)).
  { destruct data as [block|]; [by apply Htake | ]. assert (n = 0) as -> by (destruct (Z.lt_ge_cases 0 n); [by destruct Hnull | lia]).
    done. }
  cbn in Hgb. rewrite Et in Hgb. exists k'. split; [ | done].
  unfold Lib.virtusb_transfer_complete. unfold bind at 1. rewrite (handle_on_fd h fd p Hh).
  assert ((VIRTUSB_TRANSFER_DATA_MAX <? n) || ((0 <? n) && bool_decide (data = None)) = false) as ->.
  { unfold VIRTUSB_TRANSFER_DATA_MAX. rewrite (proj2 (Z.ltb_ge _ _)) by lia. cbn [orb].
    destruct (Z.ltb_spec 0 n); [ | done]. rewrite bool_decide_eq_false_2; [done | by apply Hnull]. }
  rewrite Eb. erewrite bind_eq; [ | apply (sys_ioctl_success p _ _ _ _ 0 None k' (proj2 Hh)); [done | ]]; [done | ].
  rewrite Ep, (complete_ioctl_eq k v _ _ Hp), Hoom. cbn [user_memory us_complete].
  unfold no_reply. by erewrite bind_eq by exact E.
Qed.
End active.

(** ** A fetch *)

Section next.
Context (k : kernel) (v : virtusb_hcd) (Hp : plane k v).
Context (i : nat) (rq : virtusb_hcd_request) (Hnext : next_request k v f = Some (i, rq)).
Definition fetched_kernel : kernel := with_backend c (fetched f i rq) k.

(** The request as the library presents it. *)
Definition request_of (x : Uapi.virtusb_transfer_fetch) : virtusb_transfer_request :=
  mk_transfer_request (tf_transfer_id x) (tf_object_id x) (tf_type x) (tf_direction x) (tf_endpoint x)
    (negb (tf_has_setup x =? 0)) (tf_requested_length x) (tf_data_length x) (tf_setup x) (tf_data x).

Lemma fetch_exact env : ie_oom env = false ->
  exists tv ov, k_transfers k !! rq_transfer rq = Some tv /\ k_objects k !! tr_device tv = Some ov /\
    transfer_wf tv /\ tr_requested_length tv <= VIRTUSB_TRANSFER_DATA_MAX /\
    virtusb_control_ioctl enc f (VIRTUSB_IOCTL_TRANSFER_FETCH enc) (user_memory ReqTransferFetch (ie_oom env)) env k =
      Some ((0, Some (ReplyFetch (fetch_view tv ov))), fetched_kernel) /\
    plane fetched_kernel (set_backend (fetched f i rq (vh_backend v)) v) /\
    list_find (fun r => has_id fetched_kernel f (tr_id tv) r = true) (be_active (fetched f i rq (vh_backend v))) =
      Some (length (be_active (vh_backend v)), owned f rq).
Proof using Henc Hp Hnext.
  intros Hoom. destruct (plane_here k v Hp) as (fv & hv & Hf & Hc & Hct & _). destruct Hp as [Hm _ Hv].
  destruct (fetch_ioctl_next enc k Hm f fv Hf c Hc v Hv Henc env Hoom i rq Hnext
    (user_memory ReqTransferFetch (ie_oom env))) as (tv & ov & Ht & Ho & Hwf & Hl & E & Hm').
  exists tv, ov. split_and!; [done | done | done | done | exact E | | ].
  - split; [done | | by apply with_backend_lookup]. exists fv. split; [done | ]. revert Hc. unfold file_control.
    destruct (fl_private_data fv) as [ctx|]; [ | done]. destruct (cf_control ctx) as [c'|]; [ | done].
    cbn. destruct (decide (c' = c)) as [->|Hne]; [by rewrite lookup_alter_eq, Hv | by rewrite lookup_alter_ne].
  - exact (find_fetched _ _ k (mo_inv _ _ _ Hm) c v Hv f i rq Hnext tv Ht).
Qed.

Lemma library_fetch_exact p h fd env : pr_kernel p = k -> handle_on h fd p -> ie_oom env = false ->
  forall tv ov, k_transfers k !! rq_transfer rq = Some tv -> k_objects k !! tr_device tv = Some ov ->
  virtusb_transfer_fetch enc (Some h) true env p =
    Some ((0, Some (request_of (fetch_view tv ov))), set_pr_kernel fetched_kernel p).
Proof using Henc Hp Hnext.
  intros Ep Hh Hoom tv ov Ht Ho. destruct (fetch_exact env Hoom) as (tv' & ov' & Ht' & Ho' & _ & _ & E & _).
  simplify_eq. unfold virtusb_transfer_fetch. cbn [negb]. unfold bind at 1. rewrite (handle_on_fd h fd p Hh).
  unfold bind at 1. rewrite (sys_ioctl_success p fd ReqTransferFetch _ env 0 (Some (ReplyFetch (fetch_view tv ov)))
    fetched_kernel (proj2 Hh)); [done | done | ]. by rewrite Ep.
Qed.
End next.
End plane.

(** ** The answers of the test device *)

Definition is_standard (request_type : Z) : Prop := Z.land request_type USB_TYPE_MASK = USB_TYPE_STANDARD.
Definition is_out (request_type : Z) : Prop := Z.land request_type USB_DIR_IN = 0.
Definition is_in (request_type : Z) : Prop := ~ is_out request_type.

(** The data that a SETUP packet asks for; a packet without an answer is
    refused. *)
Inductive answers : list Z -> list Z -> Prop :=
  | answer_device_descriptor rt vl rest : is_standard rt -> is_in rt ->
      answers (rt :: USB_REQ_GET_DESCRIPTOR :: vl :: USB_DT_DEVICE :: rest) TestDevice.device_descriptor
  | answer_configuration_descriptor rt vl rest : is_standard rt -> is_in rt ->
      answers (rt :: USB_REQ_GET_DESCRIPTOR :: vl :: USB_DT_CONFIG :: rest) TestDevice.configuration_descriptor
  | answer_set_address rt rest : is_standard rt -> is_out rt -> answers (rt :: USB_REQ_SET_ADDRESS :: rest) []
  | answer_set_configuration rt rest : is_standard rt -> is_out rt ->
      answers (rt :: USB_REQ_SET_CONFIGURATION :: rest) []
  | answer_get_configuration rt rest : is_standard rt -> is_in rt -> Z.land rt USB_RECIP_MASK = USB_RECIP_DEVICE ->
      answers (rt :: USB_REQ_GET_CONFIGURATION :: rest) [1]
  | answer_get_status rt rest : is_standard rt -> is_in rt -> answers (rt :: USB_REQ_GET_STATUS :: rest) [0; 0].

(** The descriptor type is the high byte of wValue. *)
Lemma high_byte vl vh : in_width 8 vl -> in_width 8 vh -> u8 (Z.shiftr (u16 (Z.lor vl (Z.shiftl vh 8))) 8) = vh.
Proof.
  intros Hl Hh. rewrite <- (wrap_small 8 vl Hl), <- (wrap_small 8 vh Hh). apply Z.bits_inj'. intros n Hn.
  rewrite !wrap_testbit, Z.shiftr_spec, wrap_testbit, Z.lor_spec, Z.shiftl_spec, !wrap_testbit by lia.
  replace (n + 8 - 8) with n by lia. rewrite (proj2 (Z.ltb_ge (n + 8) 8)) by lia. cbn [andb orb].
  destruct (Z.ltb_spec n 8); [ | done]. rewrite (proj2 (Z.ltb_lt (n + 8) 16)) by lia. cbn [andb]. done.
Qed.

(** How the program completes a control request. *)
Definition completes enc (handle : option handle_ptr) (request : virtusb_transfer_request) (m : ioctl_env -> U Z)
    (status : Z) (data : option (list Z)) (n : Z) : Prop := exists text, forall env p,
  m env p = Lib.virtusb_transfer_complete enc handle (rt_id request) status data n env
    (set_pr_output (pr_output p ++ [(Stdout, text)]) p).

Lemma completes_print enc handle request id object_id a b value index n status data len :
  completes enc handle request (fun env => TestDevice.print_setup id object_id a b value index n ;;
    Lib.virtusb_transfer_complete enc handle (rt_id request) status data len env) status data len.
Proof. by eexists. Qed.

Definition answer_length (request : virtusb_transfer_request) (data : list Z) : Z :=
  Z.min (rt_requested_length request) (Z.of_nat (length data)).

(** A property of the bytes, checked on all of them. *)
Lemma every_byte (P : Z -> bool) b : forallb P (seqZ 0 256) = true -> in_width 8 b -> P b = true.
Proof.
  intros HP Hb. eapply forallb_forall in HP; [exact HP | ]. apply list_elem_of_In, elem_of_seqZ.
  unfold in_width in Hb. lia.
Qed.

Lemma get_configuration_type rt : in_width 8 rt ->
  Z.land rt (Z.lor USB_DIR_IN USB_RECIP_MASK) = Z.lor USB_DIR_IN USB_RECIP_DEVICE <->
  is_in rt /\ Z.land rt USB_RECIP_MASK = USB_RECIP_DEVICE.
Proof.
  intros Hrt. pose proof (every_byte (fun b => Bool.eqb
    (Z.land b (Z.lor USB_DIR_IN USB_RECIP_MASK) =? Z.lor USB_DIR_IN USB_RECIP_DEVICE)
    (negb (Z.land b USB_DIR_IN =? 0) && (Z.land b USB_RECIP_MASK =? USB_RECIP_DEVICE))) rt eq_refl Hrt) as E.
  apply eqb_prop in E. unfold is_in, is_out. rewrite <- Z.eqb_eq, E, andb_true_iff, negb_true_iff, Z.eqb_neq, Z.eqb_eq. done.
Qed.

Section answers.
Context (enc : ioctl_encoding) (handle : option handle_ptr) (request : virtusb_transfer_request).
Context (Hsetup : length (rt_setup request) = 8%nat) (Hbytes : Forall (in_width 8) (rt_setup request)).
Context (Hhas : rt_has_setup request = true).
Context (Hreq : 0 <= rt_requested_length request <= VIRTUSB_TRANSFER_DATA_MAX).

(** Every request is completed once: with its answer, as far as it fits, or with
    a stall. *)
Definition answered (m : ioctl_env -> U Z) : Prop :=
  (exists data block, answers (rt_setup request) data /\ take (length data) block = data /\
     ((data = [] /\ completes enc handle request m 0 None 0) \/
      completes enc handle request m 0 (Some block) (answer_length request data))) \/
  ((forall data, ~ answers (rt_setup request) data) /\ completes enc handle request m (- EPIPE) None 0).

Lemma answered_stall m : (forall data, ~ answers (rt_setup request) data) ->
  completes enc handle request m (- EPIPE) None 0 -> answered m.
Proof. by right. Qed.
Lemma answered_nothing m : answers (rt_setup request) [] -> completes enc handle request m 0 None 0 -> answered m.
Proof. intros Ha Hm. left. exists [], []. split_and!; [done | done | by left]. Qed.
Lemma answered_data m data block n : answers (rt_setup request) data -> take (length data) block = data ->
  n = Z.of_nat (length data) -> n <= VIRTUSB_TRANSFER_DATA_MAX ->
  completes enc handle request m 0 (Some block)
    (u32 (if rt_requested_length request <? n then rt_requested_length request else n)) -> answered m.
Proof using Hreq Hsetup.
  intros Ha Hb -> Hmax Hm. left. exists data, block. split_and!; [done | done | right].
  replace (answer_length request data) with (u32 (if rt_requested_length request <? Z.of_nat (length data)
    then rt_requested_length request else Z.of_nat (length data))); [done | ].
  unfold answer_length, VIRTUSB_TRANSFER_DATA_MAX in *. rewrite wrap_small;
    destruct (Z.ltb_spec (rt_requested_length request) (Z.of_nat (length data))); unfold in_width; lia.
Qed.

Ltac stalls H := apply H; [intros data Ha; inversion Ha; subst; contradiction | apply completes_print].
Ltac gives H :=
  eapply H; [constructor; assumption | | | | apply completes_print]; [reflexivity | reflexivity | by vm_compute].

Lemma control_answered : answered (TestDevice.handle_control_transfer enc handle request).
Proof using Hsetup Hbytes Hhas Hreq.
  unfold TestDevice.handle_control_transfer. rewrite Hhas. cbn [negb].
  pose proof answered_stall as Hstall. pose proof answered_nothing as Hnothing. pose proof answered_data as Hdata.
  destruct (rt_setup request) as [|rt [|rq [|vl [|vh [|il [|ih [|ll [|lh [|? ?]]]]]]]]] eqn:Es; try done.
  apply Forall_cons in Hbytes as [Hrt Hb1]. apply Forall_cons in Hb1 as [_ Hb2].
  apply Forall_cons in Hb2 as [Hvl Hb3]. apply Forall_cons in Hb3 as [Hvh _].
  cbn [lookup list_lookup drop TestDevice.get_le16]. rewrite (high_byte vl vh Hvl Hvh).
  pose proof (get_configuration_type rt Hrt) as Hconf. unfold TestDevice.complete_data.
  destruct (Z.eqb_spec (Z.land rt USB_TYPE_MASK) USB_TYPE_STANDARD) as [Hstd|Hstd]; cbn [negb]; [ | stalls Hstall].
  destruct (Z.eqb_spec rq USB_REQ_GET_DESCRIPTOR) as [->|H1].
  { destruct (Z.eqb_spec (Z.land rt USB_DIR_IN) 0) as [Hin|Hin]; [stalls Hstall | ].
    destruct (Z.eqb_spec vh USB_DT_DEVICE) as [->|H2]; [gives Hdata | ].
    destruct (Z.eqb_spec vh USB_DT_CONFIG) as [->|H3]; [gives Hdata | stalls Hstall]. }
  destruct ((rq =? USB_REQ_SET_ADDRESS) || (rq =? USB_REQ_SET_CONFIGURATION)) eqn:Eset.
  { assert (Hset : rq = USB_REQ_SET_ADDRESS \/ rq = USB_REQ_SET_CONFIGURATION)
      by (apply orb_true_iff in Eset as [E|E]; apply Z.eqb_eq in E; tauto).
    destruct (Z.eqb_spec (Z.land rt USB_DIR_IN) 0) as [Hin|Hin].
    - apply Hnothing; [ | apply completes_print]. destruct Hset as [-> | ->]; by constructor.
    - destruct Hset as [-> | ->]; stalls Hstall. }
  apply orb_false_iff in Eset as [H2%Z.eqb_neq H3%Z.eqb_neq].
  destruct (Z.eqb_spec rq USB_REQ_GET_CONFIGURATION) as [->|H4].
  { destruct (Z.eqb_spec (Z.land rt (Z.lor USB_DIR_IN USB_RECIP_MASK)) (Z.lor USB_DIR_IN USB_RECIP_DEVICE)) as [E|E].
    - apply Hconf in E as [Hin Hrec]. gives Hdata.
    - apply Hstall; [ | apply completes_print]. intros data Ha. inversion Ha; subst. by apply E, Hconf. }
  destruct (Z.eqb_spec rq USB_REQ_GET_STATUS) as [->|H5]; [ | stalls Hstall].
  destruct (Z.eqb_spec (Z.land rt USB_DIR_IN) 0) as [Hin|Hin]; cbn [negb]; [stalls Hstall | gives Hdata].
Qed.
End answers.

(** ** A round of the test device *)

(** Nobody else runs. *)
Definition quiet (env : ioctl_env) : site := mk_site (ret tt) (fun _ => env).

Lemma at_quiet {A} env (call : ioctl_env -> U A) p : at_site (quiet env) call p = call env p.
Proof. destruct p. done. Qed.

Section round.
Context (enc : ioctl_encoding) (Henc : NoDup (commands enc)) (strerror : Z -> string).
Context (f : file_ptr) (c : hcd_ptr) (k : kernel) (v : virtusb_hcd) (Hp : plane f c k v).
Context (i : nat) (rq : virtusb_hcd_request) (Hnext : next_request k v f = Some (i, rq)).
Context (tv : virtusb_transfer) (Ht : k_transfers k !! rq_transfer rq = Some tv).
Context (ov : virtusb_object) (Ho : k_objects k !! tr_device tv = Some ov).
Context (Htype : tr_type tv = VIRTUSB_TRANSFER_TYPE_CONTROL) (Hep : tr_endpoint tv = 0).
Context (Hbytes : Forall (in_width 8) (tr_setup tv)).

(** The answer that reaches the URB. *)
Definition control_reply (status : Z) (data : list Z) : Prop :=
  (status = 0 /\ exists answer, answers (tr_setup tv) answer /\
     data = take (Z.to_nat (tr_requested_length tv)) answer) \/
  (status = - EPIPE /\ data = [] /\ forall answer, ~ answers (tr_setup tv) answer).

Section sent.
Context (p : process) (Ep : pr_kernel p = fetched_kernel f c k i rq).
Context (h : handle_ptr) (fd : Z) (Hh : handle_on f h fd p) (env : ioctl_env) (Hoom : ie_oom env = false).
Context (m : ioctl_env -> U Z).
Abbreviation request := (request_of (fetch_view tv ov)).

Definition sent (status : Z) (data : list Z) : Prop := exists text k',
  m env p = Some (0, set_pr_kernel k' (set_pr_output (pr_output p ++ [(Stdout, text)]) p)) /\
  given_back c k k' rq status data /\ module_ok k' /\
  k_hcds k' = k_hcds (with_backend c (del_request Pending i) k).

Lemma completion_sent status data n : completes enc (Some h) request m status data n ->
  0 <= n <= tr_requested_length tv -> n <= Z.of_nat (length (default [] data)) -> (0 < n -> data <> None) ->
  sent status (take (Z.to_nat n) (default [] data)).
Proof using Henc Hp Hnext Ht Ep Hh Hoom.
  intros [text Em] Hn Hl Hnull.
  destruct (fetch_exact enc Henc f c k v Hp i rq Hnext env Hoom) as (tv' & ov' & Ht' & _ & _ & _ & _ & Hp1 & Hfind).
  assert (tv' = tv) as -> by congruence. set (p1 := set_pr_output (pr_output p ++ [(Stdout, text)]) p).
  destruct (library_complete_exact enc Henc f c (fetched_kernel f c k i rq) (set_backend (fetched f i rq (vh_backend v)) v) Hp1
    (length (be_active (vh_backend v))) (owned f rq) tv Hfind Ht p1 Ep h fd Hh status data n env Hoom Hn Hl Hnull)
    as (k' & E & Hgb & Hm' & Eh).
  exists text, k'. split_and!; [by rewrite Em | by destruct Hgb | done | ]. rewrite Eh.
  destruct Hp as [_ _ Hv]. apply map_eq. intros x. cbn. destruct (decide (x = c)) as [->|]; [ | by rewrite !lookup_alter_ne].
  rewrite !lookup_alter_eq, Hv. cbn. unfold fetched, set_queues. cbn. by rewrite delete_snoc.
Qed.

Lemma reply_sent : transfer_wf tv -> answered enc (Some h) request m ->
  exists status data, sent status data /\ control_reply status data.
Proof using Henc Hp Hnext Ht Ep Hh Hoom Htype.
  intros Hwf Ha. pose proof (tw_actual _ Hwf) as Hact.
  assert (Es : rt_setup request = tr_setup tv) by (cbn; by rewrite (tw_control _ Hwf Htype)).
  destruct Ha as [(data & block & Ha & Hblock & Hc)|[Hno Hc]].
  - rewrite Es in Ha. set (n := answer_length request data).
    exists 0, (take (Z.to_nat (tr_requested_length tv)) data). split; [ | left; split; [done | by exists data]].
    destruct Hc as [[-> Hc]|Hc].
    + rewrite take_nil. apply (completion_sent 0 None 0 Hc); [lia | cbn; lia | done].
    + replace (take (Z.to_nat (tr_requested_length tv)) data) with (take (Z.to_nat n) (default [] (Some block))).
      * apply (completion_sent 0 (Some block) n Hc); [unfold n, answer_length; cbn; lia | | done].
        pose proof (f_equal length Hblock) as Hlen. rewrite length_take in Hlen. unfold n, answer_length. cbn. lia.
      * rewrite <- Hblock. cbn [default]. rewrite take_take. f_equal. unfold n, answer_length. cbn. lia.
  - rewrite Es in Hno. exists (- EPIPE), []. split; [ | by right]. apply (completion_sent (- EPIPE) None 0 Hc); [lia | cbn; lia | done].
Qed.
End sent.

Lemma round_served p h fd env1 env2 others id rounds s0 : handle_on f h fd p ->
  others (pr_kernel p) = Some (tt, k) -> ie_oom (env1 k) = false -> ie_oom env2 = false ->
  ob_id ov = id -> transfer_wf tv ->
  exists status data text k',
    TestDevice.serve enc strerror (Some h) id (mk_round (mk_site others env1) (quiet env2) s0 :: rounds) false p =
      TestDevice.serve enc strerror (Some h) id rounds s0
        (set_pr_kernel k' (set_pr_output (pr_output p ++ [(Stdout, text)]) p)) /\
    given_back c k k' rq status data /\ control_reply status data /\ module_ok k' /\
    k_hcds k' = k_hcds (with_backend c (del_request Pending i) k).
Proof using Henc Hp Hnext Ht Ho Htype Hep Hbytes.
  intros Hh Hothers Ho1 Ho2 Hid Hwf.
  destruct (fetch_exact enc Henc f c k v Hp i rq Hnext (env1 k) Ho1) as (tv' & ov' & Ht' & _ & _ & Hmax & _ & _ & _).
  assert (tv' = tv) as -> by congruence.
  assert (Hs : rt_setup (request_of (fetch_view tv ov)) = tr_setup tv) by (cbn; by rewrite (tw_control _ Hwf Htype)).
  assert (Ha : answered enc (Some h) (request_of (fetch_view tv ov))
    (TestDevice.handle_control_transfer enc (Some h) (request_of (fetch_view tv ov)))).
  { apply control_answered; rewrite ?Hs; [by apply tw_setup | done | cbn; by rewrite (tw_control _ Hwf Htype) | ].
    pose proof (tw_actual _ Hwf). cbn. lia. }
  destruct (reply_sent (set_pr_kernel (fetched_kernel f c k i rq) p) eq_refl h fd Hh env2 Ho2 _ Hwf Ha)
    as (status & data & (text & k' & E & Hgb & Hm' & Eh) & Hr).
  exists status, data, text, k'. split_and!; try done. cbn [TestDevice.serve].
  set (p1 := set_pr_kernel k p).
  pose proof (library_fetch_exact enc Henc f c k v Hp i rq Hnext p1 h fd (env1 k) eq_refl Hh Ho1 tv ov Ht Ho) as Ef.
  assert (Eserve : TestDevice.serve_request enc (Some h) id (request_of (fetch_view tv ov)) env2 =
    TestDevice.handle_control_transfer enc (Some h) (request_of (fetch_view tv ov)) env2).
  { unfold TestDevice.serve_request. cbn [request_of rt_object_id rt_type rt_endpoint fetch_view tf_object_id tf_type tf_endpoint].
    by rewrite Hid, Z.eqb_refl, Htype, Hep. }
  unfold bind at 1. unfold at_site at 1, bind at 1. cbn [ro_fetch si_others si_env]. unfold in_kernel at 1. rewrite Hothers.
  unfold bind at 1, gets at 1. fold p1. change (pr_kernel p1) with k. rewrite Ef. cbn [ro_complete ro_signal].
  change (0 =? - EINTR) with false. cbn [Z.ltb Z.compare]. cbv beta iota zeta.
  unfold bind at 1. rewrite at_quiet, Eserve. change (set_pr_kernel (fetched_kernel f c k i rq) p1) with (set_pr_kernel (fetched_kernel f c k i rq) p). rewrite E. cbn [Z.ltb Z.compare]. by destruct s0.
Qed.
End round.
