(* ===== verification/UnregisterSpec.v ===== *)
(** * Unregistering and registering again

    The exact effect of the two requests on a quiet module, and the check of
    virtusb-test-backend-unregister: neither changes what the port reports. *)

From S2P Require Import Prelude Uapi Kernel Port Hub Object Device Transfer Backend BackendInv BackendOps Hcd HcdSpec UrbSpec FetchSpec Control ControlSpec ModuleSpec Config BlockSpec Text Lib LibSpec LibProps Program AnswerSpec.
From S2P Require TestUnregister.

(** ** What a port reports *)

Lemma port_state_kept k k' c hv n : backend_step k k' -> control_port_state k' c hv n = control_port_state k c hv n.
Proof.
  intros Hst. destruct (bk_ports _ _ Hst) as [Hp _].
  unfold control_port_state, control_status_word, port_over_current, port_powered.
  by rewrite (bk_connected _ _ Hst), Hp.
Qed.
Lemma port_status_kept k k' c hv req : backend_step k k' ->
  port_status_reply k' c hv req = port_status_reply k c hv req.
Proof.
  intros Hst. unfold port_status_reply, all_port_states. rewrite (port_state_kept k k') by done.
  case_match; [ | done]. f_equal. f_equal. apply map_ext. intros n. by apply (port_state_kept k k').
Qed.

(** The line that [verify_port] prints. *)
Definition port_line (port : Z) (st : Uapi.virtusb_port_state) : string :=
  "port " +:+ format_u port +:+ " status=0x" +:+ format_08x (st_status st) +:+
  " speed=" +:+ format_u (match virtusb_speed_from_uapi (st_speed st) with
                          | VIRTUSB_SPEED_NONE => 0 | VIRTUSB_SPEED_LOW => 1
                          | VIRTUSB_SPEED_FULL => 2 | VIRTUSB_SPEED_HIGH => 3
                          end) +:+ nl.

(** The bits that the check asks for. *)
Lemma required_bits n : Z.testbit TestUnregister.required n = true -> n = 0 \/ n = 1 \/ n = 8.
Proof.
  intros Hn. destruct (Z.lt_ge_cases n 0); [by rewrite Z.testbit_neg_r in Hn | ].
  destruct (Z.lt_ge_cases n 9) as [Hlt|Hge].
  - assert (n = 0 \/ n = 1 \/ n = 2 \/ n = 3 \/ n = 4 \/ n = 5 \/ n = 6 \/ n = 7 \/ n = 8) as Hc by lia.
    repeat destruct Hc as [->|Hc]; try done; try lia; subst; auto.
  - rewrite Z.bits_above_log2 in Hn; [done | done | change (Z.log2 TestUnregister.required) with 8; lia].
Qed.
Lemma has_required st : Z.testbit st 0 = true -> Z.testbit st 1 = true -> Z.testbit st 8 = true ->
  Z.land st TestUnregister.required = TestUnregister.required.
Proof.
  intros H0 H1 H8. apply Z.bits_inj'. intros n Hn. rewrite Z.land_spec.
  destruct (Z.testbit TestUnregister.required n) eqn:E; [ | by rewrite andb_false_r].
  by destruct (required_bits n E) as [->|[->| ->]]; rewrite ?H0, ?H1, ?H8.
Qed.

Section plane.
Context (enc : ioctl_encoding) (Henc : NoDup (commands enc)) (f : file_ptr) (c : hcd_ptr).
Implicit Types (p : process) (k : kernel).
Abbreviation plane := (plane f c).

(** An enabled port has them. *)
Lemma enabled_required k v hv n : plane k v -> k_hubs k !! c = Some hv -> port_valid hv n = true ->
  Z.testbit (usb_enabled (hub_usb hv)) n = true ->
  Z.land (st_status (control_port_state k c hv n)) TestUnregister.required = TestUnregister.required.
Proof.
  intros Hp Hh Hv Hen. pose proof (module_bus _ _ _ (pl_ok _ _ _ _ Hp)) as Hok. pose proof Hok as [Hwf Husb].
  assert (1 <= n) by (unfold port_valid in Hv; rewrite andb_true_iff in Hv; lia).
  destruct (Husb c hv Hh n (wf_position _ _ Hwf c hv n Hh Hv)) as (He & _ & _). destruct (He Hen) as [Hc _].
  destruct (wf_connected_facts _ _ Hwf _ _ _ Hh Hc) as (dv & uv & d & H1 & _ & _ & _ & H5 & _).
  destruct (control_state_described k c hv n Hok Hh ltac:(done)) as [D0 D1 _ _ _ D8 _ _].
  cbn [virtusb_state_from_uapi vs_status] in *. rewrite bit_test_spec in D0, D1, D8 by done.
  apply has_required; [by rewrite D0 | by rewrite D1 | ]. rewrite D8. unfold port_powered. by rewrite H1.
Qed.

(** ** Requests of the library *)

Lemma simple_request_exact p h fd command q env k' : handle_on f h fd p ->
  virtusb_control_ioctl enc f command (user_memory q (ie_oom env)) env (pr_kernel p) = Some ((0, None), k') ->
  simple_request enc (Some h) command q env p = Some (0, set_pr_kernel k' p).
Proof.
  intros Hh E. unfold simple_request. unfold bind at 1. rewrite (handle_on_fd f h fd p Hh).
  unfold bind at 1. by rewrite (sys_ioctl_success enc f p fd q command env 0 None k' (proj2 Hh) ltac:(done) E).
Qed.

(** The status of a port is read without any effect. *)
Lemma port_status_exact p h fd env k v hv port : pr_kernel p = k -> plane k v -> handle_on f h fd p ->
  k_hubs k !! c = Some hv -> 1 <= port <= hub_port_count hv ->
  exists st, virtusb_get_port_status enc (Some h) 0 port true env p = Some ((0, Some st), p) /\
    vt_state st = virtusb_state_from_uapi (control_port_state k c hv port).
Proof using Henc.
  intros Ep Hp Hh Hhv Hport. destruct (plane_here f c k v Hp) as (fv & hv' & Hf & Hc & Hct & Hhv').
  assert (hv' = hv) as -> by congruence. destruct Hp as [Hm _ Hv].
  set (req := mk_port_status 0 port 0 zero_port_state (replicate (Z.to_nat VIRTUSB_MAX_HUB_PORTS) zero_port_state)).
  set (reply := port_status_reply k c hv req).
  assert (E : virtusb_control_ioctl enc f (VIRTUSB_IOCTL_GET_PORT_STATUS enc) (user_memory (ReqPortStatus req) (ie_oom env)) env k =
    Some ((0, Some (ReplyPortStatus reply)), k)).
  { unfold virtusb_control_ioctl. unfold bind at 1. rewrite (active_control_eq _ Hm f fv Hf), Hc, Z.eqb_refl.
    rewrite (get_port_status_result _ Hm c v Hv Hct hv Hhv _ req) by (done || cbn; lia).
    cbn [us_copy_out user_memory ps_hub_id ps_port req]. rewrite Z.eqb_refl.
    by rewrite (proj2 (Z.ltb_ge _ _)) by lia. }
  exists (status_of reply). split; [ | done]. unfold virtusb_get_port_status. cbn [negb]. fold req.
  unfold bind at 1. rewrite (handle_on_fd f h fd p Hh). unfold bind at 1.
  rewrite (sys_ioctl_success enc f p fd (ReqPortStatus req) _ env 0 (Some (ReplyPortStatus reply)) k (proj2 Hh)); [ | done | by rewrite Ep].
  rewrite <- Ep, set_pr_kernel_id. cbn [Z.ltb Z.compare].
  assert (E0 : (ps_port reply =? 0) = false) by (cbn; lia). rewrite E0.
  unfold status_of, port_states_of. by rewrite E0.
Qed.

Lemma verify_port_exact p h fd env k v hv port : pr_kernel p = k -> plane k v -> handle_on f h fd p ->
  k_hubs k !! c = Some hv -> port_valid hv port = true -> Z.testbit (usb_enabled (hub_usb hv)) port = true ->
  TestUnregister.verify_port enc (Some h) port env p =
    Some (0, set_pr_output (pr_output p ++ [(Stdout, port_line port (control_port_state k c hv port))]) p).
Proof using Henc.
  intros Ep Hp Hh Hhv Hv Hen.
  destruct (port_status_exact p h fd env k v hv port Ep Hp Hh Hhv) as (st & E & Est).
  { unfold port_valid in Hv. rewrite andb_true_iff in Hv. lia. }
  unfold TestUnregister.verify_port. unfold bind at 1. rewrite E. cbn [Z.ltb Z.compare].
  unfold bind, print, modify. rewrite Est. cbn [virtusb_state_from_uapi vs_status].
  rewrite (enabled_required k v hv port Hp Hhv Hv Hen), Z.eqb_refl. done.
Qed.

(** ** Unregistering *)

Lemma delete_not_elem {A} (l : list A) i x : NoDup l -> l !! i = Some x -> x ∉ delete i l.
Proof.
  intros Hn Hi. rewrite <- (take_drop_middle l i x Hi) in Hn. rewrite delete_take_drop, elem_of_app.
  apply NoDup_app in Hn as (_ & Ht & Hd). apply NoDup_cons in Hd as [Hd _].
  intros [Hx|Hx]; [ | done]. apply (Ht x Hx). by left.
Qed.

Lemma plane_step k k' v b : plane k v -> backend_step k k' -> module_ok k' ->
  k_hcds k' !! c = Some (set_backend b v) -> plane k' (set_backend b v).
Proof.
  intros [Hm (fv & Hf & Hc) Hv] Hst Hm' Hv'. split; [done | | done]. exists fv. rewrite (bk_files _ _ Hst).
  split; [done | ]. revert Hc. unfold file_control. destruct (fl_private_data fv) as [ctx|]; [ | done].
  destruct (cf_control ctx) as [c'|]; [ | done].
  destruct (k_hcds k !! c') as [v0|] eqn:Hv0; [ | done]. destruct (bk_hcds _ _ Hst c') as [_ H].
  destruct (H v0 Hv0) as [b0 ->]. done.
Qed.

Lemma unregister_exact p h fd env k v : pr_kernel p = k -> plane k v -> handle_on f h fd p -> typed k ->
  ioctl_env_wf k env ->
  exists k' b, virtusb_backend_unregister enc (Some h) env p = Some (0, set_pr_kernel k' p) /\
    backend_step k k' /\ plane k' (set_backend b v) /\ be_stopping b = be_stopping (vh_backend v) /\
    typed k' /\ (f ∉ map bd_owner (be_bindings b)) /\
    (forall d, virtusb_backend_find_owner_locked (vh_backend v) f = Some d ->
       bd_device d.2 ∉ map bd_device (be_bindings b)).
Proof using Henc.
  intros Ep Hp Hh Ht Henv. destruct (plane_here f c k v Hp) as (fv & hv & Hf & Hc & Hct & _).
  pose proof Hp as [Hm _ Hv].
  destruct (release_owner_spec _ _ k (mo_inv _ _ _ Hm) c c v Hv f) as (k' & E & Hi & Hst & _ & H).
  assert (Hm' : module_ok k') by by apply (module_backend _ _ _ _ _ _ Hm Hst).
  pose proof (bc_queue _ _ _ (bi_core _ _ _ (mo_inv _ _ _ Hm)) c v Hv) as Hq.
  assert (Hb : exists b, k_hcds k' !! c = Some (set_backend b v) /\ be_stopping b = be_stopping (vh_backend v) /\
    (f ∉ map bd_owner (be_bindings b)) /\
    (forall d, virtusb_backend_find_owner_locked (vh_backend v) f = Some d ->
       bd_device d.2 ∉ map bd_device (be_bindings b))).
  { destruct (virtusb_backend_find_owner_locked (vh_backend v) f) as [[i x]|] eqn:Efind.
    - destruct H as (b & Hb & Ebd & Estop & _). apply list_find_Some in Efind as (Hi' & Hox & _). exists b.
      split_and!; [done | done | | intros ? [= <-]]; rewrite Ebd, map_delete; apply delete_not_elem.
      + by destruct Hq.
      + rewrite (list_lookup_fmap bd_owner), Hi'. cbn. by rewrite Hox.
      + by destruct Hq.
      + by rewrite (list_lookup_fmap bd_device), Hi'.
    - subst k'. exists (vh_backend v). split_and!; [by rewrite set_backend_id | done | by apply find_owner_none | done]. }
  assert (Eq : virtusb_control_ioctl enc f (VIRTUSB_IOCTL_BACKEND_UNREGISTER enc)
    (user_memory ReqNone (ie_oom env)) env k = Some ((0, None), k')).
  { unfold virtusb_control_ioctl. unfold bind at 1. rewrite (active_control_eq k Hm f fv Hf), Hc.
    rewrite (commands_differ enc 8 0 _ (VIRTUSB_IOCTL_GET_PORT_STATUS enc) Henc),
      (commands_differ enc 8 1 _ (VIRTUSB_IOCTL_DEVICE_CREATE enc) Henc),
      (commands_differ enc 8 2 _ (VIRTUSB_IOCTL_DEVICE_DESTROY enc) Henc),
      (commands_differ enc 8 3 _ (VIRTUSB_IOCTL_DEVICE_ATTACH enc) Henc),
      (commands_differ enc 8 4 _ (VIRTUSB_IOCTL_DEVICE_DETACH enc) Henc),
      (commands_differ enc 8 5 _ (VIRTUSB_IOCTL_DEVICE_CONNECTION enc) Henc),
      (commands_differ enc 8 6 _ (VIRTUSB_IOCTL_SET_PORT_POWER enc) Henc),
      (commands_differ enc 8 7 _ (VIRTUSB_IOCTL_BACKEND_REGISTER enc) Henc), Z.eqb_refl by done.
    erewrite bind_eq by (by apply (control_hcd_eq k c v)).
    erewrite bind_eq by (by apply (control_linux_hcd_eq k Hm c v)). by erewrite bind_eq by exact E. }
  destruct Hb as (b & Hb & Hstop & Hrest). exists k', b.
  split_and!; [ | done | by eapply plane_step | done | | apply Hrest..].
  - apply (simple_request_exact p h fd); [done | by rewrite Ep].
  - eapply cf_typed, (module_reach_stays enc k k'); [ | done]. apply rtc_once.
    apply (step_call _ _ (CallIoctl f (VIRTUSB_IOCTL_BACKEND_UNREGISTER enc) (user_memory ReqNone (ie_oom env)) env)).
    + exists fv. split_and!; [done | by split | done | left]. intros Eq'.
      pose proof (commands_differ enc 8 9 _ _ Henc eq_refl eq_refl ltac:(done)) as Hd. by rewrite Eq', Z.eqb_refl in Hd.
    + cbn. unfold no_result, bind. by rewrite Eq.
Qed.

(** ** Registering *)

Lemma register_exact p h fd env k v id d : pr_kernel p = k -> plane k v -> handle_on f h fd p -> ie_oom env = false ->
  typed k -> k_registry k !! id = Some d -> below_hcd k c d = true -> be_stopping (vh_backend v) = false ->
  f ∉ map bd_owner (be_bindings (vh_backend v)) -> d ∉ map bd_device (be_bindings (vh_backend v)) ->
  exists k', Lib.virtusb_backend_register enc (Some h) id env p = Some (0, set_pr_kernel k' p) /\
    backend_step k k' /\ module_ok k' /\
    k_hcds k' = k_hcds (with_backend c (fun b => set_bindings (be_bindings b ++ [mk_binding d f]) b) k).
Proof using Henc.
  intros Ep Hp Hh Hoom Ht Hid Hbelow Hstop Hfo Hdo. destruct (plane_here f c k v Hp) as (fv & hv & Hf & Hc & Hct & _).
  pose proof Hp as [Hm _ Hv]. pose proof (module_objects _ _ _ Hm) as Hobj.
  destruct (oo_registry _ _ Hobj id d Hid) as (Hid0 & ov & Ho & Hreg & _).
  assert (Hl : lookup_result k id = Ok d).
  { unfold lookup_result. rewrite Hid. destruct (Z.eqb_spec id VIRTUSB_OBJECT_ID_INVALID) as [E|_];
      [unfold VIRTUSB_OBJECT_ID_INVALID in E; lia | ].
    rewrite decide_True; [done | ]. unfold type_of. rewrite Ho. cbn. by rewrite (Ht d ov Ho Hreg). }
  destruct (lookup_found _ _ k Hm id d Hl) as (ov' & uv & _ & Ho' & _ & _ & _ & Hu & Hm1).
  assert (ov' = ov) as -> by congruence.
  destruct (register_result_spec _ _ _ (mo_inv _ _ _ Hm1) c v Hv f d _ false (object_ref_lookup k d ov Ho))
    as (r & k2 & E & Hi2 & Hst2 & _ & Hr).
  rewrite Hstop, decide_True in Hr by (split; [by apply find_owner_none | by apply find_device_none]).
  destruct Hr as [-> Eh2].
  assert (Hm2 : module_with (add_ref d 1 (fun _ => 0)) (fun _ => 0) k2) by by apply (module_backend _ _ _ _ _ _ Hm1 Hst2).
  destruct (module_release _ _ _ _ Hm2) as [Eput Hm3]; [done | ].
  destruct (core_object_drop _ _ k2 (bi_core _ _ _ Hi2) d) as (_ & Hst3 & _); [by rewrite add_ref_eq | ].
  exists (object_drop d k2). split_and!; [ | | done | by rewrite (ss_hcds _ _ Hst3)].
  - unfold Lib.virtusb_backend_register. destruct (Z.eqb_spec id VIRTUSB_INVALID_OBJECT_ID) as [Eid|_];
      [unfold VIRTUSB_INVALID_OBJECT_ID in Eid; lia | ].
    apply (simple_request_exact p h fd); [done | ]. rewrite Ep. unfold virtusb_control_ioctl. unfold bind at 1.
    rewrite (active_control_eq k Hm f fv Hf), Hc.
    rewrite (commands_differ enc 7 0 _ (VIRTUSB_IOCTL_GET_PORT_STATUS enc) Henc),
      (commands_differ enc 7 1 _ (VIRTUSB_IOCTL_DEVICE_CREATE enc) Henc),
      (commands_differ enc 7 2 _ (VIRTUSB_IOCTL_DEVICE_DESTROY enc) Henc),
      (commands_differ enc 7 3 _ (VIRTUSB_IOCTL_DEVICE_ATTACH enc) Henc),
      (commands_differ enc 7 4 _ (VIRTUSB_IOCTL_DEVICE_DETACH enc) Henc),
      (commands_differ enc 7 5 _ (VIRTUSB_IOCTL_DEVICE_CONNECTION enc) Henc),
      (commands_differ enc 7 6 _ (VIRTUSB_IOCTL_SET_PORT_POWER enc) Henc), Z.eqb_refl by done.
    unfold no_reply, virtusb_control_backend_register. cbn [us_backend_register user_memory br_object_id].
    unfold bind at 1. unfold bind at 1. rewrite (lookup_device_eq _ _ k Hm), Hl.
    unfold bind at 1, load at 1. rewrite (Hu : k_ports (object_ref d 1 k) !! DevPort d = Some uv).
    erewrite bind_eq by (by apply (belongs_eq k c v Hct _ _ _ d uv Hm1)).
    rewrite Hbelow. cbn [negb]. erewrite bind_eq by (by apply (control_hcd_eq _ c v)).
    rewrite Hoom. erewrite bind_eq by exact E. by erewrite bind_eq by exact Eput.
  - etrans; [ | etrans; [exact Hst2 | by apply storage_backend_step]].
    apply storage_backend_step, object_ref_storage. by apply (module_bus _ _ _ Hm).
Qed.

(** ** The check *)

Lemma registered_below k k' id d : module_ok k' -> backend_step k k' -> k_registry k !! id = Some d ->
  below_hcd k' c d = below_hcd k c d.
Proof.
  intros Hm Hst Hid. unfold below_hcd. destruct (bk_ports _ _ Hst) as [_ Hd]. rewrite Hd; [done | ].
  pose proof (module_objects _ _ _ Hm) as Hobj. apply (oo_port _ _ Hobj).
  rewrite <- (bk_registry _ _ Hst) in Hid. destruct (oo_registry _ _ Hobj id d Hid) as (_ & ov & -> & _). by eexists.
Qed.

Lemma handle_on_same h fd p p' : pr_fds p' = pr_fds p -> pr_handles p' = pr_handles p -> handle_on f h fd p ->
  handle_on f h fd p'.
Proof. unfold handle_on. by intros -> ->. Qed.

Section check.
Context (strerror : Z -> string) (w : TestUnregister.world) (env : ioctl_env).
Context (Hquiet : forall x, TestUnregister.wo_site w x = quiet env) (Hoom : ie_oom env = false).

Lemma check_passes p h fd k v hv id d i x : pr_kernel p = k -> plane k v -> handle_on f h fd p -> typed k ->
  ioctl_env_wf k env -> k_hubs k !! c = Some hv -> port_valid hv 1 = true ->
  Z.testbit (usb_enabled (hub_usb hv)) 1 = true -> be_stopping (vh_backend v) = false ->
  k_registry k !! id = Some d -> below_hcd k c d = true ->
  virtusb_backend_find_owner_locked (vh_backend v) f = Some (i, x) -> bd_device x = d ->
  let line := port_line 1 (control_port_state k c hv 1) in
  exists k' b, TestUnregister.check_unregister enc strerror w (Some h) id p =
      Some ((EXIT_SUCCESS, true), set_pr_kernel k' (set_pr_output (pr_output p ++ map (pair Stdout) [line; line; line;
        "PASS: backend unregister/re-register did not change attachment or connection state" +:+ nl]) p)) /\
    backend_step k k' /\ module_ok k' /\ k_hcds k' !! c = Some (set_backend b v) /\
    mk_binding d f ∈ be_bindings b.
Proof using Henc Hquiet Hoom.
  intros Ep Hp Hh Ht Henv Hhv Hvalid Hen Hstop Hid Hbelow Hfind Hd line.
  pose proof (verify_port_exact p h fd env k v hv 1 Ep Hp Hh Hhv Hvalid Hen) as E1. fold line in E1.
  set (p1 := set_pr_output (pr_output p ++ [(Stdout, line)]) p) in *.
  destruct (unregister_exact p1 h fd env k v Ep Hp) as (k2 & b2 & E2 & Hst2 & Hp2 & Hstop2 & Ht2 & Hf2 & Hd2); [done.. | ].
  set (p2 := set_pr_kernel k2 p1) in *.
  assert (E3 := verify_port_exact p2 h fd env k2 _ hv 1 eq_refl Hp2 Hh ltac:(by rewrite (bk_hubs _ _ Hst2)) Hvalid Hen).
  rewrite (port_state_kept k) in E3 by done. fold line in E3.
  set (p3 := set_pr_output (pr_output p2 ++ [(Stdout, line)]) p2) in *.
  destruct (register_exact p3 h fd env k2 _ id d eq_refl Hp2) as (k4 & E4 & Hst4 & Hm4 & Eh4); try done.
  { by rewrite (bk_registry _ _ Hst2). }
  { rewrite (registered_below k k2 id); [done | apply Hp2 | done | done]. }
  { cbn. by rewrite Hstop2. }
  { rewrite <- Hd. by apply (Hd2 _ Hfind). }
  set (p4 := set_pr_kernel k4 p3) in *.
  pose proof (backend_step_trans _ _ _ Hst2 Hst4) as Hst. set (b4 := set_bindings (be_bindings b2 ++ [mk_binding d f]) b2).
  assert (Hv4 : k_hcds k4 !! c = Some (set_backend b4 v)).
  { rewrite Eh4. by apply (with_backend_lookup k2 c (set_backend b2 v)), Hp2. }
  assert (Hp4 : plane k4 (set_backend b4 v)) by by eapply (plane_step k).
  assert (E5 := verify_port_exact p4 h fd env k4 _ hv 1 eq_refl Hp4 Hh ltac:(by rewrite (bk_hubs _ _ Hst)) Hvalid Hen).
  rewrite (port_state_kept k) in E5 by done. fold line in E5.
  exists k4, b4. split_and!; [ | done | done | done | ].
  - unfold TestUnregister.check_unregister. cbv zeta. rewrite !Hquiet.
    do 5 (unfold bind at 1; rewrite at_quiet, ?E1, ?E2, ?E3, ?E4, ?E5; cbn [Z.ltb Z.compare]).
    unfold bind, print, modify, ret. do 2 f_equal. unfold p4, p3, p2, p1. cbn. unfold set_pr_output, set_pr_kernel. cbn.
    by rewrite <- !app_assoc.
  - cbn. apply elem_of_app. right. by left.
Qed.
End check.
End plane.
