(* ===== verification/RollbackSpec.v ===== *)
(** * A fetch that faults, and the next one

    The exact effect on a quiet module, and the check of
    virtusb-test-fetch-rollback: the transfer is not lost. *)

From S2P Require Import Prelude Uapi Kernel Port Hub Object Device Transfer Backend BackendInv BackendOps Hcd HcdSpec UrbSpec FetchSpec Control ControlSpec ModuleSpec Config BlockSpec Text Lib LibSpec Program AnswerSpec.
From S2P Require TestRollback.

Section plane.
Context (enc : ioctl_encoding) (Henc : NoDup (commands enc)) (f : file_ptr) (c : hcd_ptr).
Context (k : kernel) (v : virtusb_hcd) (Hp : plane f c k v).
Context (i : nat) (rq : virtusb_hcd_request) (Hnext : next_request k v f = Some (i, rq)).

(** The request is again the next one. *)
Lemma next_refetchable k2 : k_transfers k2 = k_transfers k ->
  next_request k2 (set_backend (refetchable i rq (vh_backend v)) v) f = Some (0%nat, rq).
Proof using Hnext.
  intros Et. pose proof Hnext as Hn. unfold next_request in *. cbn [vh_backend set_backend].
  change (virtusb_backend_find_owner_locked (refetchable i rq (vh_backend v)) f)
    with (virtusb_backend_find_owner_locked (vh_backend v) f).
  destruct (virtusb_backend_find_owner_locked (vh_backend v) f) as [[j x]|]; [ | done].
  apply list_find_Some in Hn as (_ & Hx & _). cbn. rewrite decide_True; [done | ].
  unfold for_device, request_device in *. by rewrite Et.
Qed.

(** The fetch into memory that cannot be written. *)
Lemma faulting_fetch env : ie_oom env = false ->
  exists k2, virtusb_control_ioctl enc f (VIRTUSB_IOCTL_TRANSFER_FETCH enc) (user_memory ReqUnmapped (ie_oom env)) env k =
      Some ((- EFAULT, None), k2) /\
    plane f c k2 (set_backend (refetchable i rq (vh_backend v)) v) /\
    k_transfers k2 = k_transfers k /\ k_objects k2 = k_objects k /\ k_urbs k2 = k_urbs k.
Proof using Henc Hp Hnext.
  intros Hoom. destruct (plane_here f c k v Hp) as (fv & hv & Hf & Hc & Hct & _). destruct Hp as [Hm _ Hv].
  destruct (fetch_ioctl_next enc k Hm f fv Hf c Hc v Hv Henc env Hoom i rq Hnext
    (user_memory ReqUnmapped (ie_oom env))) as (tv & ov & _ & _ & _ & _ & k2 & E & Hm2 & Eh & Et & Eo & Eu & Ef).
  exists k2. split_and!; [exact E | | done | done | done].
  assert (Hv2 : k_hcds k2 !! c = Some (set_backend (refetchable i rq (vh_backend v)) v))
    by (rewrite Eh; by apply with_backend_lookup).
  split; [done | | done]. exists fv. rewrite Ef. split; [done | ]. revert Hc. unfold file_control.
  destruct (fl_private_data fv) as [ctx|]; [ | done]. destruct (cf_control ctx) as [c'|]; [ | done].
  destruct (decide (c' = c)) as [->|Hne]; [by rewrite Hv2, Hv | ].
  rewrite Eh. cbn. by rewrite lookup_alter_ne.
Qed.

(** An error of the driver goes to errno. *)
Lemma sys_ioctl_failure p fd q command env r w k' : pr_fds p !! fd = Some f -> r < 0 ->
  virtusb_control_ioctl enc f command (user_memory q (ie_oom env)) env (pr_kernel p) = Some ((r, w), k') ->
  sys_ioctl enc fd command q env p =
    Some ((-1, w), set_pr_errno (if - r =? ERESTARTSYS then EINTR else - r) (set_pr_kernel k' p)).
Proof.
  intros Hfd Hr E. unfold sys_ioctl, bind, gets, in_kernel. rewrite Hfd, E. by rewrite (proj2 (Z.ltb_lt _ _) Hr).
Qed.

(** ** The check *)

Section check.
Context (strerror : Z -> string) (w : TestRollback.world) (env : ioctl_env).
Context (Hquiet : forall x, TestRollback.wo_site w x = quiet env) (Hoom : ie_oom env = false).
Context (p : process) (Ep : pr_kernel p = k) (fd : Z) (Hfd : pr_fds p !! fd = Some f).
Context (tv : virtusb_transfer) (Ht : k_transfers k !! rq_transfer rq = Some tv).
Context (ov : virtusb_object) (Ho : k_objects k !! tr_device tv = Some ov).

(** The check finds the transfer and goes on with it. *)
Lemma check_recovers : exists k',
  TestRollback.check_rollback enc strerror w fd (ob_id ov) p =
    TestRollback.configure enc strerror fd (fetch_view tv ov) (TestRollback.wo_rounds w) false
      (set_pr_kernel k' (set_pr_errno EFAULT (set_pr_output (pr_output p ++ map (pair Stdout)
        ["faulting fetch returned EFAULT as expected" +:+ nl;
         "rollback recovered transfer=" +:+ format_u (tr_id tv) +:+ " object=" +:+ format_u (ob_id ov) +:+ nl]) p))) /\
  module_ok k' /\ k_transfers k' = k_transfers k /\ k_objects k' = k_objects k /\
  k_urbs k' = k_urbs k /\ exists b, k_hcds k' !! c = Some (set_backend b v) /\
    be_bindings b = be_bindings (vh_backend v) /\ be_pending b = delete i (be_pending (vh_backend v)) /\
    be_active b = be_active (vh_backend v) ++ [owned f rq].
Proof using Henc Hp Hnext Hquiet Hoom Ep Hfd Ht Ho.
  destruct (faulting_fetch env Hoom) as (k2 & E1 & Hp2 & Et2 & Eo2 & Eu2).
  destruct (fetch_exact enc Henc f c k2 _ Hp2 0 rq (next_refetchable k2 Et2) env Hoom)
    as (tv' & ov' & Ht' & Ho' & _ & _ & E2 & [Hm3 _ Hv3] & _).
  rewrite Et2 in Ht'. rewrite Eo2 in Ho'. simplify_eq.
  assert (Hid : tr_id tv <> 0).
  { destruct Hp as [Hm _ _].
    pose proof (to_id _ _ (ro_transfers _ _ _ (bc_refs _ _ _ (bi_core _ _ _ (mo_inv _ _ _ Hm)))) _ _ Ht). lia. }
  exists (fetched_kernel f c k2 0 rq). split_and!; [ | done | exact Et2 | exact Eo2 | exact Eu2 | ].
  - unfold TestRollback.check_rollback. cbv zeta. rewrite !Hquiet. unfold bind at 1, set_errno at 1, modify at 1.
    set (p1 := set_pr_errno 0 p).
    unfold bind at 1. rewrite at_quiet, (sys_ioctl_failure p1 fd ReqUnmapped _ env (- EFAULT) None k2 Hfd);
      [ | done | exact E1].
    change (if - - EFAULT =? ERESTARTSYS then EINTR else - - EFAULT) with EFAULT. cbn [Z.leb Z.compare].
    set (p2 := set_pr_errno EFAULT (set_pr_kernel k2 p1)).
    unfold bind at 1, gets at 1. change (pr_errno p2) with EFAULT. rewrite Z.eqb_refl. cbn [negb].
    unfold bind at 1, print at 1, modify at 1. set (p3 := set_pr_output _ p2).
    unfold bind at 1. rewrite at_quiet. unfold TestRollback.fetch_transfer, TestRollback.do_ioctl.
    rewrite (bind_eq _ _ p3 (0, Some (ReplyFetch (fetch_view tv ov))) (set_pr_kernel (fetched_kernel f c k2 0 rq) p3)).
    + unfold ret at 1. cbn [Z.ltb Z.compare tf_transfer_id tf_object_id fetch_view].
      rewrite (proj2 (Z.eqb_neq _ _) Hid), Z.eqb_refl. cbn [negb orb].
      unfold bind at 1, print at 1, modify at 1. f_equal. unfold p3, p2, p1. cbn. unfold set_pr_output, set_pr_kernel, set_pr_errno.
      cbn. by rewrite <- !app_assoc.
    + unfold bind. by rewrite (sys_ioctl_success enc f p3 fd ReqTransferFetch _ env 0 _ _ Hfd ltac:(done) E2).
  - eexists. split; [exact Hv3 | ]. split_and!; [done | | done]. done.
Qed.
End check.
End plane.
