(* ===== verification/TestProps.v ===== *)
(** * Properties of the test programs *)

From S2P Require Import Prelude Uapi Kernel Port Hub Object Device Transfer Backend BackendInv BackendOps Hcd HcdSpec UrbSpec FetchSpec Control ControlSpec ModuleSpec Config BlockSpec Linux Platform Scenario PlatformProps Text Lib LibSpec LibProps Program CtlProps ProgramSpec TestSpec AnswerSpec UnregisterSpec RollbackSpec.
From S2P Require TestDevice TestUnregister TestRollback.

(** ** Concrete surroundings

    Nobody else runs, memory is never short, and a fetch that would sleep is
    interrupted by a signal. *)

Definition fresh_object (k : kernel) : obj_ptr := Ptr (fresh (set_map addr (dom (k_objects k)) : gset positive)).
Definition alone : site := mk_site (ret tt)
  (fun k => mk_ioctl_env (Some (fresh_object k)) false false [Signalled (ret tt)]).

Lemma fresh_object_new k : k_objects k !! fresh_object k = None.
Proof.
  apply not_elem_of_dom. intros Hin. set (S := set_map addr (dom (k_objects k)) : gset positive).
  apply (is_fresh S). unfold S. apply elem_of_map. exists (fresh_object k). split; [done | exact Hin].
Qed.

Lemma alone_ok enc f : fetch_site_ok enc f alone.
Proof.
  split; [split | ].
  - apply interferes_nothing.
  - intros k _ _. intros o [= <-]. apply fresh_object_new.
  - intros k. split; [repeat constructor; apply interferes_nothing | by repeat constructor].
Qed.
Lemma alone_surroundings enc f n b : surroundings enc f (fun _ => alone) (replicate n (mk_round alone alone b)).
Proof.
  pose proof (alone_ok enc f) as Ha. split; [intros x; apply Ha | done | ].
  apply Forall_replicate. split; [exact Ha | apply Ha].
Qed.

(** ** The programs as a whole *)

(** C38. The test programs return.  Whatever the host and the other users of the
    module do between and during their calls, however often a fetch sleeps or
    is interrupted, and whichever call fails: each of the three programs
    returns, unless it is still waiting for the host after the given rounds
    ([None]); its kernel took only steps of the module; after it returned the
    descriptors and handles are those from before, on every path to the exit;
    and the exit status is 0 exactly when it printed to the standard output
    only, 1 exactly when it printed an error. *)
Theorem test_programs_exit enc strerror t p :
  NoDup (commands enc) -> process_ok p -> open_env_wf p (program_open t) -> program_surroundings enc t ->
  exists code p', run_program enc strerror t p = Some (code, p') /\
    module_reach enc (pr_kernel p) (pr_kernel p') /\ process_ok p' /\
    (code <> None -> same_tables p p') /\
    exists new, pr_output p' = pr_output p ++ new /\
      match code with
      | None => Forall (fun x => x.1 = Stdout) new
      | Some r => r = EXIT_SUCCESS /\ Forall (fun x => x.1 = Stdout) new \/
                  r = EXIT_FAILURE /\ exists text, (Stderr, text) ∈ new
      end.
Proof.
  intros Henc Hp Hopen Hs.
  destruct (program_exits enc Henc strerror t p Hp Hopen Hs) as (code & p' & E & Hp' & [Hr _] & Hst & new & Eo & Hpr).
  exists code, p'. split_and!; try done. exists new. split; [done | ]. by destruct code.
Qed.

(** The test device on a module of one instance, until a signal. *)
Definition lone_device : TestDevice.world := TestDevice.mk_world None (open_at 3) (fun _ => alone) false [].
Lemma test_programs_exit_witness : exists p',
  run_program linux no_text (ProgramDevice lone_device "virtusb-test-device" ["0"; "2"]) first_process = Some (Some 0, p') /\
  pr_output p' = [(Stdout, "VirtUSB test device 1 attached to port 2" +:+ nl)] /\ pr_fds p' = ∅ /\ pr_handles p' = ∅.
Proof.
  destruct (test_programs_exit linux no_text (ProgramDevice lone_device "virtusb-test-device" ["0"; "2"]) first_process
    linux_commands loaded_once_ok (open_at_wf 3 (sy_kernel loaded_once) ltac:(eval_eq) ltac:(lia))
    (alone_surroundings linux (Ptr 9) 0 false)) as (code & p' & E & _ & _ & Hs & _).
  assert (Eo : (fun x => (x.1, pr_output x.2)) <$>
    run_program linux no_text (ProgramDevice lone_device "virtusb-test-device" ["0"; "2"]) first_process =
    Some (Some 0, [(Stdout, "VirtUSB test device 1 attached to port 2" +:+ nl)])) by eval_eq.
  rewrite E in Eo. apply Some_inj, pair_equal_spec in Eo as [Er Eout]. cbn in Er, Eout. subst code.
  destruct (Hs ltac:(discriminate)) as [E1 E2]. exists p'. exact (conj E (conj Eout (conj E1 E2))).
Defined.

(** ** Sessions *)

(** A session ended with the device [id]: the process is as before, apart from
    what it said, and no object is registered with the ID; [None]: it is still
    waiting, so that the device is still there. *)
Definition ended_clean (enc : ioctl_encoding) (p : process) (code : option Z) (id : Z) (p' : process) : Prop :=
  process_ok p' /\ module_reach enc (pr_kernel p) (pr_kernel p') /\ session_exit p (code, id) p'.

(** C39. The test programs clean up.  Between the open and the close each program
    creates a device, uses it and leaves through the label out.  Whatever calls
    failed before, and although other users of the module may have detached,
    destroyed or reconnected the device: once the session returns with an exit
    code, no object is registered with the ID that the session was given, the
    tables are unchanged, and what was printed fits the exit code. *)
Theorem test_sessions_clean_up enc strerror f fd p :
  NoDup (commands enc) -> process_ok p -> pr_fds p !! fd = Some f ->
  (forall w h hd port, surroundings enc f (TestDevice.wo_site w) (TestDevice.wo_rounds w) ->
     pr_handles p !! h = Some hd -> hd_fd hd = fd ->
     exists r id p', TestDevice.session enc strerror w (Some h) port p = Some ((r, id), p') /\
       ended_clean enc p (Some r) id p') /\
  (forall w h hd, surroundings enc f (TestUnregister.wo_site w) (TestUnregister.wo_rounds w) ->
     pr_handles p !! h = Some hd -> hd_fd hd = fd ->
     exists code id p', TestUnregister.session enc strerror w (Some h) p = Some ((code, id), p') /\
       ended_clean enc p code id p') /\
  (forall w, surroundings enc f (TestRollback.wo_site w) (TestRollback.wo_rounds w) ->
     exists code id p', TestRollback.session enc strerror w fd p = Some ((code, id), p') /\
       ended_clean enc p code (default VIRTUSB_INVALID_OBJECT_ID id) p').
Proof.
  intros Henc Hp Hfd.
  assert (Hon : forall h hd, pr_handles p !! h = Some hd -> hd_fd hd = fd -> on_file fd f (Some h) p).
  { intros h hd Hh <-. split; [done | ]. intros _. cbn. by rewrite Hh. }
  split_and!; intros w.
  - intros h hd port Hw Hh E. destruct (device_session_exits enc Henc strerror fd f h w Hw p port Hp (Hon h hd Hh E))
      as ([r id] & p' & Es & Hp' & [Hr _] & Hx). by exists r, id, p'.
  - intros h hd Hw Hh E. destruct (unregister_session_exits enc Henc strerror fd f h w Hw p Hp (Hon h hd Hh E))
      as ([code id] & p' & Es & Hp' & [Hr _] & Hx). by exists code, id, p'.
  - intros Hw. destruct (rollback_session_exits enc Henc strerror fd f w Hw p Hp) as ([code id] & p' & Es & Hp' & [Hr _] & Hx);
      [by split | ]. by exists code, id, p'.
Qed.

Lemma test_sessions_clean_up_witness : exists p',
  TestDevice.session linux no_text lone_device (Some 1%positive) 2 (shell booted) = Some ((0, 1), p') /\
  k_registry (pr_kernel p') !! 1 = None.
Proof.
  destruct (test_sessions_clean_up linux no_text f1 3 (shell booted) linux_commands (shell_ok booted reach_booted)
    ltac:(eval_eq)) as (Hd & _ & _).
  destruct (Hd lone_device 1%positive (mk_handle 3 0 (device_node 0)) 2 (alone_surroundings linux f1 0 false)
    ltac:(eval_eq) ltac:(eval_eq)) as (r & id & p' & E & _ & _ & _ & _ & Hgone).
  assert (Er : fst <$> TestDevice.session linux no_text lone_device (Some 1%positive) 2 (shell booted) = Some (0, 1)) by eval_eq.
  rewrite E in Er. apply Some_inj, pair_equal_spec in Er as [-> ->]. exists p'.
  exact (conj E (Hgone ltac:(discriminate) ltac:(discriminate))).
Defined.

(** ** A control request, end to end *)

(** C8. A control URB is answered.  When a control transfer for endpoint 0 of the
    device is the next one for the file of the test device, one turn of its loop
    serves it, if nobody interferes between the fetch and the completion: the
    URB of the request, and no other, is unlinked and given back once; with
    status 0 and as many bytes of the answer as the host asked for when the
    SETUP packet is one that the device answers (standard GET_DESCRIPTOR,
    SET_ADDRESS, SET_CONFIGURATION, GET_CONFIGURATION and GET_STATUS requests in
    their direction), and with -EPIPE and no data for every other packet; the
    request has left the queues, all others stay in their order, and the program
    goes on with the next turn. *)
Theorem control_request_served enc strerror f c k v i rq tv ov p h hd others env1 env2 signal rounds :
  NoDup (commands enc) -> plane f c k v -> next_request k v f = Some (i, rq) ->
  k_transfers k !! rq_transfer rq = Some tv -> k_objects k !! tr_device tv = Some ov ->
  tr_type tv = VIRTUSB_TRANSFER_TYPE_CONTROL -> tr_endpoint tv = 0 -> Forall (in_width 8) (tr_setup tv) ->
  process_ok p -> pr_handles p !! h = Some hd -> pr_fds p !! hd_fd hd = Some f ->
  others (pr_kernel p) = Some (tt, k) -> ie_oom (env1 k) = false -> ie_oom env2 = false ->
  exists status data text k',
    TestDevice.serve enc strerror (Some h) (ob_id ov) (mk_round (mk_site others env1) (quiet env2) signal :: rounds) false p =
      TestDevice.serve enc strerror (Some h) (ob_id ov) rounds signal
        (set_pr_kernel k' (set_pr_output (pr_output p ++ [(Stdout, text)]) p)) /\
    ((status = 0 /\ exists answer, answers (tr_setup tv) answer /\
        data = take (Z.to_nat (tr_requested_length tv)) answer) \/
     (status = - EPIPE /\ data = [] /\ forall answer, ~ answers (tr_setup tv) answer)) /\
    k_trace k' = k_trace k ++ [EvUnlinkUrb c (rq_urb rq); EvGiveback c (rq_urb rq) status] /\
    (exists uv, k_urbs k !! rq_urb rq = Some uv /\
       k_urbs k' = <[rq_urb rq := set_ur_actual_length (Z.of_nat (length data))
         (if bool_decide (tr_direction tv = VIRTUSB_TRANSFER_DIRECTION_IN)
          then set_ur_buffer ((fun b => data ++ drop (length data) b) <$> ur_transfer_buffer uv) uv else uv)]> (k_urbs k)) /\
    module_ok k' /\ k_hcds k' = k_hcds (with_backend c (del_request Pending i) k).
Proof.
  intros Henc Hpl Hnext Ht Ho Htype Hep Hbytes Hp Hh Hfd Hoth Ho1 Ho2.
  assert (Hon : handle_on f h (hd_fd hd) p) by (split; [exists hd; split_and!; [done | done | by apply (po_handles _ Hp h)] | done]).
  destruct (next_request_facts _ _ k (mo_inv _ _ _ (pl_ok _ _ _ _ Hpl)) c v (pl_hcd _ _ _ _ Hpl) f i rq Hnext)
    as (_ & tv' & ov' & Ht' & _ & Hwf & _). assert (tv' = tv) as -> by congruence.
  destruct (round_served enc Henc strerror f c k v Hpl i rq Hnext tv Ht ov Ho Htype Hep Hbytes p h (hd_fd hd) env1 env2
    others (ob_id ov) rounds signal Hon Hoth Ho1 Ho2 eq_refl Hwf) as (status & data & text & k' & E & [Htr Hur] & Hr & Hm & Eh).
  exists status, data, text, k'. split_and!; try done. destruct Hur as (tv2 & uv & Ht2 & Hu & Eu).
  assert (tv2 = tv) as -> by congruence. by exists uv.
Qed.

(** The host reads the device descriptor. *)
Lemma control_request_served_witness : exists p',
  TestDevice.serve linux no_text (Some 1%positive) 1 [mk_round alone (quiet no_env) false] false (shell enqueued1) = Some (0, p') /\
  k_trace (pr_kernel p') = k_trace enqueued1 ++ [EvUnlinkUrb h1 u1; EvGiveback h1 u1 0] /\
  ur_transfer_buffer <$> k_urbs (pr_kernel p') !! u1 = Some (Some TestDevice.device_descriptor).
Proof.
  destruct (control_request_served linux no_text f1 h1 enqueued1 (hcd_at enqueued1) 0 (mk_request u1 t1 None)
    (transfer_at enqueued1 t1) (object_at enqueued1 d1) (shell enqueued1) 1%positive (mk_handle 3 0 (device_node 0))
    (ret tt) (si_env alone) no_env false []) as (status & data & text & k' & E & Hr & Htr & (uv & Hu & Eu) & _).
  - exact linux_commands.
  - split; [exact enqueued1_ok | | eval_eq]. exists open_file. split; eval_eq.
  - eval_eq.
  - eval_eq.
  - eval_eq.
  - eval_eq.
  - eval_eq.
  - apply (bool_decide_eq_true_1 _). eval_eq.
  - exact (shell_ok enqueued1 reach_enqueued1).
  - eval_eq.
  - eval_eq.
  - exact eq_refl.
  - exact eq_refl.
  - exact eq_refl.
  - destruct Hr as [(-> & answer & Ha & ->)|(_ & _ & Hno)].
    + assert (Ea : answer = TestDevice.device_descriptor).
      { assert (Es : tr_setup (transfer_at enqueued1 t1) = setup_packet) by eval_eq. rewrite Es in Ha.
        inversion Ha. exact eq_refl. }
      subst answer. assert (Er : tr_requested_length (transfer_at enqueued1 t1) = 18) by eval_eq.
      assert (Ed : tr_direction (transfer_at enqueued1 t1) = VIRTUSB_TRANSFER_DIRECTION_IN) by eval_eq.
      assert (Hu1 : k_urbs enqueued1 !! u1 = Some urb_in) by eval_eq.
      cbn [rq_urb] in *. rewrite Hu1 in Hu. apply Some_inj in Hu. subst uv.
      eexists. split; [exact E | ]. split; [exact Htr | ]. cbn [pr_kernel set_pr_kernel].
      rewrite Eu, lookup_insert_eq, Er, Ed. eval_eq.
    + exfalso. apply (Hno TestDevice.device_descriptor).
      assert (Es : tr_setup (transfer_at enqueued1 t1) = setup_packet) by eval_eq. rewrite Es.
      constructor; vm_compute; congruence.
Defined.

(** ** Unregistering *)

(** C16. The check of virtusb-test-backend-unregister passes.  When the file is
    registered for a device below its own host controller, port 1 is enabled,
    the backend is not stopping and nobody interferes: the check reads the port,
    unregisters, reads it, registers again and reads it a third time.  What it
    reads is connected, enabled and powered, and it prints three times the same
    status and speed, then PASS, and returns EXIT_SUCCESS with the backend
    registered; the hubs and every port that still exists are as before, and the
    file has its binding again. *)
Theorem unregister_check_passes enc strerror w env f c k v hv p h hd id d i x :
  NoDup (commands enc) -> (forall y, TestUnregister.wo_site w y = quiet env) ->
  ie_oom env = false -> ioctl_env_wf k env ->
  plane f c k v -> typed k -> k_hubs k !! c = Some hv -> port_valid hv 1 = true ->
  Z.testbit (usb_enabled (hub_usb hv)) 1 = true -> be_stopping (vh_backend v) = false ->
  k_registry k !! id = Some d -> below_hcd k c d = true ->
  virtusb_backend_find_owner_locked (vh_backend v) f = Some (i, x) -> bd_device x = d ->
  process_ok p -> pr_kernel p = k -> pr_handles p !! h = Some hd -> pr_fds p !! hd_fd hd = Some f ->
  let st := control_port_state k c hv 1 in
  Z.land (st_status st) TestUnregister.required = TestUnregister.required /\
  exists k' b,
    TestUnregister.check_unregister enc strerror w (Some h) id p =
      Some ((EXIT_SUCCESS, true), set_pr_kernel k' (set_pr_output (pr_output p ++ map (pair Stdout) [port_line 1 st; port_line 1 st; port_line 1 st;
        "PASS: backend unregister/re-register did not change attachment or connection state" +:+ nl]) p)) /\
    module_ok k' /\ k_hubs k' = k_hubs k /\ ports_kept (k_ports k) (k_ports k') /\
    k_hcds k' !! c = Some (set_backend b v) /\ mk_binding d f ∈ be_bindings b.
Proof.
  intros Henc Hq Hoom Henv Hpl Ht Hhv Hvalid Hen Hstop Hid Hbelow Hfind Hd Hp Ep Hh Hfd st.
  split; [by apply (enabled_required f c k v hv 1) | ].
  assert (Hon : handle_on f h (hd_fd hd) p) by (split; [exists hd; split_and!; [done | done | by apply (po_handles _ Hp h)] | done]).
  destruct (check_passes enc Henc f c strerror w env Hq Hoom p h (hd_fd hd) k v hv id d i x Ep Hpl Hon Ht Henv Hhv Hvalid
    Hen Hstop Hid Hbelow Hfind Hd) as (k' & b & E & Hst & Hm & Hv & Hb).
  exists k', b. split_and!; try done; apply Hst.
Qed.

Definition quiet_unregister : TestUnregister.world := TestUnregister.mk_world (open_at 3) (fun _ => quiet no_env) [].
Lemma unregister_check_passes_witness : exists p',
  TestUnregister.check_unregister linux no_text quiet_unregister (Some 1%positive) 1 (shell registered) =
    Some ((0, true), p') /\
  k_hubs (pr_kernel p') = k_hubs registered.
Proof.
  destruct (unregister_check_passes linux no_text quiet_unregister no_env f1 h1 registered (hcd_at registered)
    (hub_at registered) (shell registered) 1%positive (mk_handle 3 0 (device_node 0)) 1 d1 0%nat (mk_binding d1 f1))
    as (_ & k' & b & E & _ & Eh & _).
  - exact linux_commands.
  - intros y. exact eq_refl.
  - exact eq_refl.
  - intros o Ho. discriminate Ho.
  - split; [exact registered_ok | | eval_eq]. exists open_file. split; eval_eq.
  - exact (cf_typed _ _ _ _ (reached_configured registered reach_registered)).
  - eval_eq.
  - eval_eq.
  - eval_eq.
  - eval_eq.
  - eval_eq.
  - eval_eq.
  - eval_eq.
  - exact eq_refl.
  - exact (shell_ok registered reach_registered).
  - exact eq_refl.
  - eval_eq.
  - eval_eq.
  - eexists. split; [exact E | exact Eh].
Defined.

(** ** Rolling back *)

(** C20. The check of virtusb-test-fetch-rollback recovers the transfer.  When a
    request is the next one for the file and nobody interferes: the fetch into
    memory that cannot be written returns -1 with EFAULT, and the fetch after it
    returns that same transfer, complete, so that the program reports its ID and
    its device and goes on to serve it; in the module the request has moved from
    the pending to the active queue of the file as after one successful fetch,
    the binding is still there, and transfers, objects and URBs are as before. *)
Theorem rollback_check_recovers enc strerror w env f c k v i rq tv ov p fd :
  NoDup (commands enc) -> (forall y, TestRollback.wo_site w y = quiet env) -> ie_oom env = false ->
  plane f c k v -> next_request k v f = Some (i, rq) ->
  k_transfers k !! rq_transfer rq = Some tv -> k_objects k !! tr_device tv = Some ov ->
  pr_kernel p = k -> pr_fds p !! fd = Some f ->
  exists k',
    TestRollback.check_rollback enc strerror w fd (ob_id ov) p =
      TestRollback.configure enc strerror fd (fetch_view tv ov) (TestRollback.wo_rounds w) false
        (set_pr_kernel k' (set_pr_errno EFAULT (set_pr_output (pr_output p ++ map (pair Stdout)
          ["faulting fetch returned EFAULT as expected" +:+ nl;
           "rollback recovered transfer=" +:+ format_u (tr_id tv) +:+ " object=" +:+ format_u (ob_id ov) +:+ nl]) p))) /\
    module_ok k' /\ k_transfers k' = k_transfers k /\ k_objects k' = k_objects k /\ k_urbs k' = k_urbs k /\
    exists b, k_hcds k' !! c = Some (set_backend b v) /\ be_bindings b = be_bindings (vh_backend v) /\
      be_pending b = delete i (be_pending (vh_backend v)) /\
      be_active b = be_active (vh_backend v) ++ [owned f rq].
Proof.
  intros Henc Hq Hoom Hpl Hnext Ht Ho Ep Hfd.
  destruct (check_recovers enc Henc f c k v Hpl i rq Hnext strerror w env Hq Hoom p Ep fd Hfd tv Ht ov Ho)
    as (k' & E & Hrest). by exists k'.
Qed.

Definition quiet_rollback : TestRollback.world := TestRollback.mk_world (open_at 3) (fun _ => quiet no_env) [].
Lemma rollback_check_recovers_witness : exists p',
  TestRollback.check_rollback linux no_text quiet_rollback 3 1 (shell enqueued1) = Some (None, p') /\
  k_urbs (pr_kernel p') = k_urbs enqueued1.
Proof.
  destruct (rollback_check_recovers linux no_text quiet_rollback no_env f1 h1 enqueued1 (hcd_at enqueued1) 0
    (mk_request u1 t1 None) (transfer_at enqueued1 t1) (object_at enqueued1 d1) (shell enqueued1) 3)
    as (k' & E & _ & _ & _ & Eu & _).
  - exact linux_commands.
  - intros y. exact eq_refl.
  - exact eq_refl.
  - split; [exact enqueued1_ok | | eval_eq]. exists open_file. split; eval_eq.
  - eval_eq.
  - eval_eq.
  - eval_eq.
  - exact eq_refl.
  - eval_eq.
  - eexists. split; [exact E | exact Eu].
Defined.
